(* ===== verification/_CoqProject ===== *)
-Q . S2P
Prelude.v
HwFenceState.v
HwFenceQueue.v
HwFenceTable.v
HwFenceJoin.v
HwFenceLayout.v
HwFenceArray.v
HwFenceApi.v
HwFenceSynx.v
IpaChain.v
IpaTable.v
IpaTableSpec.v
IpaTableSettle.v
IpaUnlink.v
IpaSystem.v
IpaStoreSpec.v
IpaNat.v
IpaNatSpec.v
IpaRules.v
IpaDelete.v
IpaSize.v
IpaCreate.v
IpaHandles.v
IpaStore.v
IpaCksum.v
IpaWalk.v
IpaLife.v
IpaPdn.v
IpaExamples.v
IpaIpv6.v
IpaIpv6Spec.v
IpaIpv6Rules.v
IpaIpv6Store.v
IpaFrame.v
IpaStateMach.v
IpaStateSpec.v
IpaHybrid.v
IpaHybridOps.v
IpaHybridMake.v
IpaHybridSpec.v
MmrmState.v
MmrmClk.v
MmrmAdmit.v
MmrmApi.v
MmrmCurr.v
MmrmPeak.v
MmrmVotes.v
MmrmSetval.v
MmrmBooks.v
MmrmExcess.v
MmrmThrottle.v
MmrmFreq.v
MmrmRegister.v
MmrmInit.v
MmrmProbe.v
MmrmSpec.v
MmrmExamples.v
