(* ===== verification/Prelude.v ===== *)
(** * Verification of three programs among the vendor modules of a phone

    The repository holds the out-of-tree kernel modules of a phone and the
    libraries that go with them: drivers for multimedia, radios, the camera, the
    display and so on, most of them register programming around firmware.  This
    development verifies three programs with an algorithmic core of their own:
    the hardware-fence driver, [qcom/opensource/mm-drivers/hw_fence/] under
    [src/], the address-translation library of the data path,
    [qcom/opensource/dataipa/ipanat/], and the multimedia resource manager,
    [qcom/opensource/mmrm-driver/driver/].  They are independent and share this
    file only.

    ** The hardware-fence driver

    A hardware fence is an entry of a table in memory shared between the
    processors of the system.  Clients (display, GPU, video, validation, ...)
    register with the driver, create fences, wait for fences and are told
    through ring buffers and interrupts when a fence is signalled.
    - [hw_fence_drv_priv.c]: the client queues (ring buffers of 64-byte
      payloads with two indexes in a shared header), the global table (open
      addressing with linear probing, one lock per entry), the registration of
      waiting clients, join fences made from an array of fences, the signal.
    - [hw_fence_drv_utils.c]: locks between processors, the device-tree
      configuration, the layout of the carved-out memory, the clean-up of a
      client's fences, the mapping of client identifiers.
    - [hw_fence_drv_ipc.c]: the interrupt controller, and which signal of it
      belongs to which client.
    - [msm_hw_fence.c]: the interface of the driver to its clients.
    - [msm_hw_fence_synx_translation.c]: a second interface, with the sessions
      and the status codes of the synx framework.

    Its files:
    - [HwFenceState]: the structures of [hw_fence_drv_priv.h] as records, the
      access to them, the inter-processor lock and the register writes, which
      are recorded as events.  A pointer into the table or into the array of
      clients is an index; the identifiers of the clients and the flag bits,
      which come from a header of the kernel, are the record [hw_uapi].  The
      carved-out memory is kept as what it holds at each byte offset, one view
      for each kind of element ([carve_header], [carve_word], [carve_fence],
      [carve_lock]).  [client_bit] is [BIT] of a client identifier in a mask of
      64 bits, a fault from 64 on.
    - [HwFenceQueue]: the ring buffers.  [hw_queue_refines_fifo] is the main
      result: any run of writes and reads on the words and indexes of a queue
      gives the results of a bounded FIFO of messages.
    - [HwFenceTable]: hash, probing, create, find and destroy.  The loop under
      the locks is shown equal to a scan of the list of probed entries, from
      which the functional behaviour of each operation follows on every branch.
    - [HwFenceJoin]: waiting, joining, signalling, resetting.  [drv_ready] is
      the invariant of the driver with registered clients: table and entries
      are well formed, each client's Rx queue holds an abstract list of
      messages.  The signal of all waiters is shown to be the sequence of the
      abstract deliveries.
    - [HwFenceLayout]: configuration, memory layout and initialisation; the
      sizes that the device tree gives are checked for overflow, every client
      gets a memory region and the regions are disjoint; the carved-out memory
      is cleared ([memset_io]) whatever it held, so that table and locks are
      free; the queues of a client hold what the memory at their place held, and
      are empty FIFOs where it was cleared; and the map from clients to
      interrupt signals.
    - [HwFenceArray]: the properties of the registration for an array of
      fences: the count of the join fence, the links of the children, and the
      roll-back of a registration that fails.
    - [HwFenceApi]: the exported functions, built from all of the above: a
      registration leaves a client that is ready or leaves nothing, a fence
      created is destroyed again, a reset empties queues and table.  The memory
      of a client's queues outlives the client: a later registration finds the
      messages that were not read ([deregister_leaves_messages]).
    - [HwFenceSynx]: the synx interface, with the heap of its sessions.  Every
      operation on fences and queues is shown to leave the identifiers of the
      clients alone, whatever the state of the driver; from this it follows that
      in every run each session keeps a client of its own.  A handle that a
      creation gave releases the entry it took, and a signal that the Tx queue
      has no room for is lost.

    ** The address-translation library

    The library keeps tables in memory that the packet hardware reads: the
    translation table with the rules of the NAT, an index table that finds the
    same rules from the other side, and a table of IPv6 connections.  A table is
    a base part, indexed by a hash, and an expansion part with the records that
    collide, linked in lists.  The software fills records, but what the hardware
    follows is written by the hardware itself, on commands ("DMA") that the
    library posts through the kernel.
    - [ipa_table.c]: the tables, for any kind of record that comes with a set of
      callbacks.
    - [ipa_nat_drvi.c]: the records of the NAT, checksums and hashes, the tables
      of one memory, the public addresses ("PDN").
    - [ipa_nat_statemach.c], [ipa_nat_map.cpp], [ipa_nat_drv.c]: the state
      machine that keeps a table in external memory (DDR), in the memory on the
      chip (SRAM), or moves its rules between the two, with maps from the handles
      that clients got to the present ones; and the interface to the clients.
    - [ipa_ipv6ct.c]: the IPv6 connections.
    - [ipa_mem_descriptor.c], [ipa_nat_utils.c]: memory from the kernel.

    Its files, in layers:
    - [IpaChain], [IpaTable], [IpaTableSpec], [IpaTableSettle], [IpaUnlink]: the
      table library.  [IpaTable] is the code; the callbacks are the class
      [ipa_table_entry_interface].  [IpaChain] is the shape of the lists without
      the records.  The classes [ipa_entry_laws], [ipa_hw_laws] and
      [ipa_mark_laws] state what the library needs of its callbacks and of the
      stores of the hardware; against them [IpaTableSpec] gives the run of each
      operation, [IpaTableSettle] the table once the hardware has executed the
      commands, [IpaUnlink] the records that stay as marked heads of a list.
    - [IpaSystem]: the calls to the kernel, and memory descriptors.  A state that
      counts its calls is an instance of [Caller].
    - [IpaNat]: the code of the NAT tables.  [IpaNatSpec] discharges the classes
      for its two kinds of records; [IpaRules] and [IpaDelete] have [tables_ok]
      (both tables, and the finite map of rules that they stand for) and show
      that adding and deleting a rule are insertion and deletion, or leave the
      map alone.  [IpaSize], [IpaCreate], [IpaLife]: sizes, creation, clearing
      and deletion of tables.  [IpaCksum]: the checksum differences, against the
      one's complement sum.  [IpaPdn]: the public addresses.
    - [IpaStoreSpec], [IpaStore]: the contract.  [store_step] is an abstract
      store of records behind handles, and [nat_store_refines] says that any
      client's run on the tables is a run of the store; the tables of the
      connections have the same contract.  [IpaWalk]: what a walk visits.
    - [IpaIpv6], [IpaIpv6Spec], [IpaIpv6Rules], [IpaIpv6Store]: the connections,
      in the same layers, and what holds when the kernel reports failures.
    - [IpaFrame]: what an operation on one memory leaves alone.
    - [IpaStateMach]: the code of the state machine, with its table of callbacks.
      [IpaStateSpec]: its nesting ends, its transitions, its reachable states.
    - [IpaHandles], [IpaHybrid], [IpaHybridOps], [IpaHybridMake],
      [IpaHybridSpec]: a table in both memories.  [handles_ok] says what the two
      maps of handles are for; [hybrid_at] is the invariant: a table in each
      memory, the rules in one of them, and the client's view of the rules, the
      same whichever it is.  Switching keeps the view; creating, adding,
      deleting and looking at time stamps do to it what they say, with the
      automatic switches.  [hybrid_table_refines] puts the operations together.
      The invariant is [strict] while the handles that clients got cannot be
      given again; it ends when rules come back to the chip, and then they can
      be ([handle_given_twice]): [hybrid_allowed] are the operations that keep it.
    - [IpaExamples]: runs outside the contract.

    ** The multimedia resource manager

    Camera, display, video and other clients ask this driver for clock rates.  It
    knows how much current each client draws at each pair of voltage levels, its
    own and the common one of the rail, and admits a rate only when the sum of all
    clients stays below the threshold of the platform; a client of high priority
    may make others give way.
    - [mmrm_clk_rsrc_mgr_sw.c]: frequencies and currents of a client, the sums,
      the admission, throttling, the votes of clients that several drivers share;
      [mmrm_fixedpoint.h]: the arithmetic.
    - [mmrm_res_parse.c], [mmrm_internal.c]: the device tree, the platforms.
    - [mmrm_clk_rsrc_mgr.c], [msm_mmrm.c]: dispatch, probe, exported functions.

    Its files:
    - [MmrmState], [MmrmClk], [MmrmAdmit], [MmrmApi]: the code, in this order.
    - [MmrmCurr]: what the clients draw ([total]), the shape of the tables
      ([entry_shape], [mgr_shape]), and that the loops compute the sums.
      [MmrmPeak]: the test against the threshold, as one equation.  [MmrmVotes]:
      the highest vote.  [MmrmSetval]: a request around the test.
    - [MmrmBooks]: the invariant [books] while no client makes others give way
      (throttling is on by default, but only a client of high priority makes use
      of it), and [setval_result], the outcome of a request on every branch.
      [MmrmExcess]: with throttling, a request above the threshold for which
      nobody gives way is admitted.  [MmrmThrottle]: with throttling, requests
      still complete and keep the shape.
    - [MmrmFreq], [MmrmRegister]: registration; the loop over the rates ends, the
      frequencies rise, the currents are those of the source, and
      [register_result] is the outcome on every branch.  [MmrmInit],
      [MmrmProbe]: set-up, from the device tree.
    - [MmrmSpec]: the exported functions, from the probe on: the sum of all
      currents is the one recorded and stays below the threshold
      ([mmrm_current_below_threshold]) for the calls of [api_step].
      [MmrmExamples]: a small platform, and the runs where throttling, a client
      that leaves with its clock on, or an incomplete table break that promise.

    ** Modelling choices

    This file has machine words with their wrap-around, arrays with checked
    indexes ([zget], [zset]), the monad of the functions (state, and a [Fault]
    for what is undefined in C: an index out of bounds, a null pointer, a shift
    by the width of a word or more; and for a loop that does not end), record updates, the relations that runs respect
    ([keeps]), and the tactics that all files use.

    Each function of the source is one definition of the same name, a step of
    the monad.  A loop whose condition is not structural takes fuel: in the
    driver the lookup loop runs at most as often as the table has entries, the
    clean-up of a fence's parents at most three times, the read of a Tx queue at
    most [HW_FENCE_MAX_ITER_READ] = 100 times, as in the code; in the library the
    loops over a list or a table take the number of its records, the searches
    for a size the number they start from, and the state machine, which runs
    itself from its callbacks, [statemach_depth] = 3 levels; in the resource
    manager the loop over the rates of a clock takes one more than the number of
    steps between the lowest and the highest rate.  Running out of fuel
    is the fault [Diverges], and the theorems show that it does not occur.
    Indexes and sizes are kept at their width, with the wrap-around of the C
    code written out.

    What comes from outside is a parameter.  Driver: reads of the clock are
    numbered; kernel memory, the device tree, the reserved memory with what it
    holds, and the results of the other kernel calls of the initialisation
    ([init_env]) are inputs.  Library: system calls and calls of the
    thread library are numbered, and [sys_ret] is the result of each; the
    memory that the kernel maps is [mmap_mem], and [table_dma] is what the
    hardware makes of a command buffer.  [documented_dma] says of it what the
    kernel's interface documents, stores of 16-bit words in their order, and is
    a hypothesis of the theorems that speak of the records; [no_failures] (every
    call succeeds) is a hypothesis where it is named, the other theorems hold
    for every result.  Resource manager: the calls to the clock framework, to
    the callbacks of clients and to the allocator are numbered
    ([mmrm_system]), and the node of the device tree is [mmrm_dt];
    [clk_rates] (a rate is a positive number, below 2^63 by more than a step)
    is assumed for registrations only.

    The memory of a table is the list of its records, and addresses are computed
    where the code uses them.  A handle is the word the code makes.  The pointers
    through which the state machine returns results are fields of
    [client_cells]; elsewhere a result through a pointer is a component of the
    returned value.

    The functions run one at a time: the locks are in the model, but
    interleavings of processors are not, and the callback of a client does not
    call the resource manager back.  What a client of that manager holds is the
    content of the structure it was given, so a use after its release is not
    seen.  Memory barriers and messages to the log are left out.

    Not modelled: of the driver, the dumps for debugging and the ioctl test
    interface, the calls that share memory with a virtual machine, probing and
    removing the platform device; of the library, dumps and names for the log,
    and the variant for another processor ([IPA_ON_R3PC]); of the resource
    manager, printing, reads of sysfs, and the messages between virtual machines
    ([mmrm-driver/vm]).  The other modules of the repository are not modelled; the
    next candidates are the synchronisation frameworks of the camera and of
    synx. *)

From Stdlib Require Export ZArith Lia ZifyBool.
From stdpp Require Export base tactics list numbers relations.

Local Open Scope Z_scope.

(** ** Machine words

    A C integer of width [w] is a [Z] in [[0, 2^w)]; every arithmetic result
    the source stores back in a [u8], [u16], [u32] or [u64] is wrapped here
    explicitly. *)

Definition wrap (w x : Z) : Z := x mod 2 ^ w.

Abbreviation u8 := (wrap 8).
Abbreviation u16 := (wrap 16).
Abbreviation u32 := (wrap 32).
Abbreviation u64 := (wrap 64).

(** A value read as a two's complement signed integer of width [w]. *)
Definition signed (w x : Z) : Z :=
  if bool_decide (wrap w x < 2 ^ (w - 1)) then wrap w x else wrap w x - 2 ^ w.

Abbreviation s32 := (signed 32).

(** Being a value of an unsigned type of width [w]. *)
Definition is_word (w x : Z) : Prop := 0 <= x < 2 ^ w.

(** The kernel's [BIT(n)], an unsigned long of 64 bits; for [n] outside them the
    shift is undefined, see [client_bit]. *)
Definition BIT (n : Z) : Z := u64 (Z.shiftl 1 n).

(** Bit [n] of the bitmaps [set_bit], [clear_bit] and [test_bit] work on, which
    have as many words as [n] needs. *)
Definition bitmap_bit (n : Z) : Z := Z.shiftl 1 n.

(** Bitwise complement of a [w]-bit word. *)
Definition wnot (w x : Z) : Z := wrap w (Z.lnot x).

(** C booleans and null pointer tests. *)
Definition truthy (x : Z) : bool := negb (x =? 0).

(** ** Error numbers *)

Definition EPERM : Z := 1.
Definition ENOENT : Z := 2.
Definition EIO : Z := 5.
Definition EAGAIN : Z := 11.
Definition ENOMEM : Z := 12.
Definition EBUSY : Z := 16.
Definition ENODEV : Z := 19.
Definition EINVAL : Z := 22.
Definition ETIMEDOUT : Z := 110.
Definition EALREADY : Z := 114.

(** ** Outcomes and the state monad

    The modelled functions run on a state [St].  An operation whose behaviour
    C leaves undefined, or that never returns, yields a [Fault] instead of a
    value, so that the absence of faults is something to prove. *)

Inductive fault : Type :=
| OutOfBounds
| NullDeref
| Deadlock
| DivByZero
| UseAfterFree
| BadShift
| Diverges.

Inductive outcome (A : Type) : Type :=
| Done (a : A)
| Fault (f : fault).
Arguments Done {A} a.
Arguments Fault {A} f.

#[export] Instance fault_eq_dec : EqDecision fault.
Proof. solve_decision. Defined.

Definition M (St A : Type) : Type := St -> outcome (A * St).

#[export] Instance M_ret {St} : MRet (M St) := fun A a s => Done (a, s).
#[export] Instance M_bind {St} : MBind (M St) := fun A B k m s =>
  match m s with
  | Done (a, s') => k a s'
  | Fault f => Fault f
  end.

Definition failM {St A} (f : fault) : M St A := fun _ => Fault f.
Definition getM {St} : M St St := fun s => Done (s, s).
Definition gets {St A} (f : St -> A) : M St A := fun s => Done (f s, s).
Definition modify {St} (f : St -> St) : M St unit := fun s => Done (tt, f s).

(** Embeds a partial access: [None] is the given fault. *)
Definition liftO {St A} (f : fault) (o : option A) : M St A := fun s =>
  match o with
  | Some a => Done (a, s)
  | None => Fault f
  end.

(** [for (x : l) body]. *)
Fixpoint forM {St A} (l : list A) (body : A -> M St unit) : M St unit :=
  match l with
  | [] => mret tt
  | x :: l' => body x ≫= fun _ => forM l' body
  end.

(** The value and the final state of a run. *)
Definition value {A St} (o : outcome (A * St)) : option A :=
  match o with
  | Done (a, _) => Some a
  | Fault _ => None
  end.

Definition final {A St} (o : outcome (A * St)) : option St :=
  match o with
  | Done (_, s) => Some s
  | Fault _ => None
  end.

(** ** Record update

    [r <| f := v |>] is the record [r] with field [f] set to [v]; a record
    type declares its fields once with an [Eta] instance. *)

Class Eta (R : Type) := mkEta {
  eta : R -> R;
  eta_id : forall r, eta r = r;
}.

Class Setter {R T : Type} (proj : R -> T) := mkSetter {
  upd : (T -> T) -> R -> R;
  upd_get : forall f r, proj (upd f r) = f (proj r);
}.
Arguments upd {R T} proj {_} f r.
Arguments mkSetter {R T} proj upd upd_get.

Ltac build_setter :=
  match goal with
  | |- @Setter ?R ?T ?proj =>
      let e := constr:(@eta R _) in
      let e := eval hnf in e in
      match eval pattern proj in e with
      | ?g proj =>
          refine (mkSetter proj (fun f => g (fun r => f (proj r))) _);
          intros; reflexivity
      end
  end.

#[export] Hint Extern 1 (Setter _) => build_setter : typeclass_instances.

Declare Scope model_scope.
Delimit Scope model_scope with model.

Notation "r <| proj := v |>" := (upd proj (fun _ => v) r)
  (at level 1, left associativity) : model_scope.
Notation "r <| proj ::= f |>" := (upd proj f r)
  (at level 1, left associativity) : model_scope.
Open Scope model_scope.

(** ** Arrays indexed by C integers *)

Definition zget {A} (l : list A) (i : Z) : option A :=
  if bool_decide (0 <= i) then l !! Z.to_nat i else None.

(** A store; [None] when the index is outside the array. *)
Definition zset {A} (l : list A) (i : Z) (x : A) : option (list A) :=
  if bool_decide (0 <= i < Z.of_nat (length l)) then Some (<[Z.to_nat i := x]> l)
  else None.

Definition zlen {A} (l : list A) : Z := Z.of_nat (length l).

(** ** Lemmas on machine words *)

Lemma wrap_small w x : is_word w x -> wrap w x = x.
Proof. apply Z.mod_small. Qed.

Lemma wrap_is_word w x : 0 <= w -> is_word w (wrap w x).
Proof. intros Hw. apply Z.mod_pos_bound. lia. Qed.

Lemma wrap_wrap w x : wrap w (wrap w x) = wrap w x.
Proof. apply Z.mod_mod_divide, Z.divide_refl. Qed.

(** Removes the wrap-arounds whose argument is provably in range. *)
Ltac wsmall :=
  repeat match goal with
  | |- context [wrap ?w ?x] => rewrite (wrap_small w x) by (unfold is_word; lia)
  end.

Lemma truthy_true x : truthy x = true <-> x <> 0.
Proof. unfold truthy. lia. Qed.

Lemma truthy_false x : truthy x = false <-> x = 0.
Proof. unfold truthy. lia. Qed.

(** A masked number, and a hash that is never 0. *)
Lemma land_range a size : 0 <= size -> 0 <= Z.land a size <= size.
Proof.
  intros Hs. split; [apply Z.land_nonneg; by right|].
  assert (Hd : Z.ldiff (Z.land a size) size = 0).
  { apply Z.bits_inj'. intros k Hk. rewrite Z.ldiff_spec, Z.land_spec, Z.bits_0. by destruct (Z.testbit a k), (Z.testbit size k). }
  apply Z.sub_nocarry_ldiff in Hd.
  assert (0 <= Z.ldiff size (Z.land a size)) by (apply Z.ldiff_nonneg; by left). lia.
Qed.

Lemma masked_hash a size : 1 <= size -> 1 <= (if Z.land a size =? 0 then size else Z.land a size) <= size.
Proof. intros Hs. pose proof (land_range a size ltac:(lia)). destruct (Z.eqb_spec (Z.land a size) 0); lia. Qed.

(** ** Lemmas on arrays *)

Section Arrays.
Context {A : Type}.
Implicit Types (l blk : list A) (i k : Z) (x : A).

Lemma zlen_nonneg l : 0 <= zlen l.
Proof. unfold zlen. lia. Qed.

Lemma zlen_app l1 l2 : zlen (l1 ++ l2) = zlen l1 + zlen l2.
Proof. unfold zlen. rewrite length_app. lia. Qed.

Lemma zget_nat l (n : nat) : zget l (Z.of_nat n) = l !! n.
Proof. unfold zget. rewrite bool_decide_true, Nat2Z.id by lia. done. Qed.

Lemma zget_Some l i x : zget l i = Some x -> 0 <= i < zlen l.
Proof.
  unfold zget, zlen. case_bool_decide; [|done].
  intros ?%lookup_lt_Some. lia.
Qed.

Lemma zget_is_Some l i : 0 <= i < zlen l -> exists x, zget l i = Some x.
Proof.
  intros Hi. unfold zget, zlen in *. rewrite bool_decide_true by lia.
  apply lookup_lt_is_Some. lia.
Qed.

Lemma zget_to_nat l i : 0 <= i -> zget l i = l !! Z.to_nat i.
Proof. intros Hi. unfold zget. by rewrite bool_decide_true. Qed.

Lemma forall_zget (P : A -> Prop) l i x : Forall P l -> zget l i = Some x -> P x.
Proof.
  intros H Hx. pose proof (zget_Some _ _ _ Hx). rewrite zget_to_nat in Hx by lia.
  exact (Forall_lookup_1 _ _ _ _ H Hx).
Qed.

Lemma zset_in l i x : 0 <= i < zlen l -> zset l i x = Some (<[Z.to_nat i := x]> l).
Proof. intros Hi. unfold zset, zlen in *. by rewrite bool_decide_true. Qed.

Lemma zset_nat l (n : nat) x : (n < length l)%nat -> zset l (Z.of_nat n) x = Some (<[n := x]> l).
Proof. intros Hn. rewrite zset_in, Nat2Z.id; [done|unfold zlen; lia]. Qed.

Lemma zlen_insert l (n : nat) x : zlen (<[n := x]> l) = zlen l.
Proof. unfold zlen. by rewrite length_insert. Qed.

Lemma zget_insert_eq l i x : 0 <= i < zlen l -> zget (<[Z.to_nat i := x]> l) i = Some x.
Proof.
  intros Hi. rewrite zget_to_nat by lia. unfold zlen in Hi.
  apply list_lookup_insert_eq. lia.
Qed.

Lemma zget_insert_ne l i k x : 0 <= i -> i <> k -> zget (<[Z.to_nat i := x]> l) k = zget l k.
Proof.
  intros Hi Hne. unfold zget. case_bool_decide; [|done].
  apply list_lookup_insert_ne. lia.
Qed.

(** Access to a block in the middle of an array. *)
Lemma zget_mid l1 blk l2 i k :
  i = zlen l1 + k -> 0 <= k < zlen blk -> zget (l1 ++ blk ++ l2) i = zget blk k.
Proof.
  intros -> Hk. unfold zlen in *. rewrite !zget_to_nat by lia.
  rewrite lookup_app_r by lia. rewrite lookup_app_l by lia. f_equal. lia.
Qed.

Lemma zset_mid l1 blk l2 i k x :
  i = zlen l1 + k -> 0 <= k < zlen blk ->
  zset (l1 ++ blk ++ l2) i x = Some (l1 ++ <[Z.to_nat k := x]> blk ++ l2).
Proof.
  intros -> Hk. rewrite zset_in by (rewrite !zlen_app; pose proof (zlen_nonneg l1); pose proof (zlen_nonneg l2); lia).
  unfold zlen in *.
  rewrite insert_app_r_alt by lia. rewrite insert_app_l by lia.
  do 4 f_equal. lia.
Qed.

(** Reading every index of an array gives the array. *)
Lemma mapM_zget l l0 :
  mapM (zget (l0 ++ l)) (map Z.of_nat (seq (length l0) (length l))) = Some l.
Proof.
  revert l0. induction l as [|x l IH]; intros l0; [done|]. cbn [length seq map mapM].
  rewrite zget_nat, list_lookup_middle by done. cbn.
  specialize (IH (l0 ++ [x])). rewrite <- app_assoc, length_app in IH. cbn in IH.
  replace (length l0 + 1)%nat with (S (length l0)) in IH by lia. by rewrite IH.
Qed.

End Arrays.

(** The array with one element changed. *)
Definition alter_rec {A} (f : A -> A) (i : Z) (l : list A) : list A := alter f (Z.to_nat i) l.

Lemma alter_rec_set {A} (f : A -> A) i (l : list A) x :
  zget l i = Some x -> alter_rec f i l = <[Z.to_nat i := f x]> l.
Proof.
  intros Hi. pose proof (zget_Some _ _ _ Hi). rewrite zget_to_nat in Hi by lia. unfold alter_rec.
  apply list_eq. intros k. destruct (decide (k = Z.to_nat i)) as [->|Hne].
  - rewrite list_lookup_alter_eq, Hi, list_lookup_insert_eq; [done|]. by eapply lookup_lt_Some.
  - by rewrite list_lookup_alter_ne, list_lookup_insert_ne.
Qed.

Lemma zlen_alter_rec {A} (f : A -> A) i (l : list A) : zlen (alter_rec f i l) = zlen l.
Proof. unfold zlen, alter_rec. by rewrite length_alter. Qed.

Lemma fold_left_ext {A B} (f g : A -> B -> A) l a :
  (forall x y, f x y = g x y) -> fold_left f l a = fold_left g l a.
Proof. intros H. revert a. induction l as [|y l IH]; intros a; cbn; [done|]. by rewrite H. Qed.

(** The position after [i] positions in a ring of [n] slots. *)
Definition ring (n i : nat) : nat := if decide (i < n)%nat then i else (i - n)%nat.

Lemma ring_lt n i : (i < 2 * n)%nat -> (ring n i < n)%nat.
Proof. unfold ring. case_decide; lia. Qed.

Lemma ring_inj n r j k :
  (r < n)%nat -> (j < n)%nat -> (k < n)%nat -> ring n (r + j) = ring n (r + k) -> j = k.
Proof. unfold ring. repeat case_decide; lia. Qed.

Lemma ring_S n r k :
  (r < n)%nat -> (k < n)%nat -> (S k < n)%nat -> ring n (ring n (S r) + k) = ring n (r + S k).
Proof. unfold ring. repeat case_decide; lia. Qed.

Lemma ring_fix n r : (r < n)%nat -> ring n r = r.
Proof. intros. unfold ring. by rewrite decide_True. Qed.

Lemma ring_0 n r : (r < n)%nat -> ring n (r + 0) = r.
Proof. intros. rewrite Nat.add_0_r. by apply ring_fix. Qed.

Lemma ring_ne_0 n r k : (r < n)%nat -> (0 < k < n)%nat -> r <> ring n (r + k).
Proof. unfold ring. case_decide; lia. Qed.

(** ** Runs of the state monad *)

Section Runs.
Context {St : Type}.

Lemma bind_run {A B} (m : M St A) (k : A -> M St B) s a s' :
  m s = Done (a, s') -> (m ≫= k) s = k a s'.
Proof. intros H. unfold mbind, M_bind. by rewrite H. Qed.

Lemma bind_run_assoc {A B C} (m : M St A) (f : A -> M St B) (g : B -> M St C) s b s' :
  (m ≫= f) s = Done (b, s') -> (m ≫= fun a => f a ≫= g) s = g b s'.
Proof. unfold mbind, M_bind. intros H. destruct (m s) as [[a s1]|]; [by rewrite H|done]. Qed.

Lemma bind_cong {A B} (m m' : M St A) (k : A -> M St B) s : m s = m' s -> (m ≫= k) s = (m' ≫= k) s.
Proof. unfold mbind, M_bind. by intros ->. Qed.

Lemma bind_inv {A B} (m : M St A) (k : A -> M St B) s b s'' :
  (m ≫= k) s = Done (b, s'') -> exists a s', m s = Done (a, s') /\ k a s' = Done (b, s'').
Proof. unfold mbind, M_bind. intros H. destruct (m s) as [[a s']|]; [by eexists _, _|done]. Qed.

(** A run completes, with a result and a state that satisfy [Q]. *)
Definition wp {A} (m : M St A) (Q : A -> St -> Prop) (s : St) : Prop := exists a s', m s = Done (a, s') /\ Q a s'.

Lemma wp_ret {A} (a : A) (Q : A -> St -> Prop) s : Q a s -> wp (mret a) Q s.
Proof. intros H. by exists a, s. Qed.

Lemma wp_bind {A B} (m : M St A) (k : A -> M St B) Q s : wp m (fun a => wp (k a) Q) s -> wp (m ≫= k) Q s.
Proof. intros (a&s1&H1&b&s2&H2&HQ). exists b, s2. by rewrite (bind_run _ _ _ _ _ H1). Qed.

Lemma wp_mono {A} (m : M St A) (Q Q' : A -> St -> Prop) s : wp m Q s -> (forall a s', Q a s' -> Q' a s') -> wp m Q' s.
Proof. intros (a&s'&H&HQ) HQ'. exists a, s'. auto. Qed.

Lemma wp_run {A} (m : M St A) Q s a s' : m s = Done (a, s') -> Q a s' -> wp m Q s.
Proof. intros H HQ. by exists a, s'. Qed.

(** A run from another state. *)
Lemma wp_as {A} (m m' : M St A) Q s s' : m s = m' s' -> wp m' Q s' -> wp m Q s.
Proof. intros H (a&s2&H2&HQ). exists a, s2. by rewrite H. Qed.

Lemma wp_getM {B} (k : St -> M St B) Q s : wp (k s) Q s -> wp (getM ≫= k) Q s.
Proof. done. Qed.

Lemma wp_gets {A B} (f : St -> A) (k : A -> M St B) Q s : wp (k (f s)) Q s -> wp (gets f ≫= k) Q s.
Proof. done. Qed.

Lemma wp_modify {B} (f : St -> St) (k : unit -> M St B) Q s : wp (k tt) Q (f s) -> wp (modify f ≫= k) Q s.
Proof. done. Qed.

Lemma wp_liftO {A B} e (o : option A) (k : A -> M St B) Q s a : o = Some a -> wp (k a) Q s -> wp (liftO e o ≫= k) Q s.
Proof. by intros ->. Qed.

(** A run from what it computes. *)
Lemma value_run {A B} (m : M St A) (f : St -> B) s a b :
  value ((x ← m; y ← gets f; mret (x, y)) s) = Some (a, b) -> exists s', m s = Done (a, s') /\ f s' = b.
Proof. unfold mbind, M_bind. destruct (m s) as [[x s']|]; [|done]. intros [= -> Hb]. by exists s'. Qed.

Lemma getM_run {B} (k : St -> M St B) s : (getM ≫= k) s = k s s.
Proof. done. Qed.

Lemma modify_run {B} (f : St -> St) (k : unit -> M St B) s : (modify f ≫= k) s = k tt (f s).
Proof. done. Qed.

Lemma ret_run {A B} (a : A) (k : A -> M St B) s : (mret a ≫= k) s = k a s.
Proof. done. Qed.

Lemma liftO_run {A B} e (o : option A) (k : A -> M St B) s a :
  o = Some a -> (liftO e o ≫= k) s = k a s.
Proof. by intros ->. Qed.

Lemma liftO_inv {A} e (o : option A) (s s' : St) a :
  liftO e o s = Done (a, s') -> o = Some a /\ s' = s.
Proof. unfold liftO. destruct o; [by intros [= <- <-]|done]. Qed.

(** A relation between the states before and after every completed run. *)
Definition keeps {A} (R : St -> St -> Prop) (m : M St A) : Prop :=
  forall s a s', m s = Done (a, s') -> R s s'.

Section Keeps.
Context (R : St -> St -> Prop) {HR : PreOrder R}.

Lemma keeps_ret {A} (a : A) : keeps R (mret a).
Proof using HR. intros s b s' [= <- <-]. reflexivity. Qed.

Lemma keeps_getM : keeps R getM.
Proof using HR. intros s b s' [= <- <-]. reflexivity. Qed.

Lemma keeps_gets {A} (f : St -> A) : keeps R (gets f).
Proof using HR. intros s b s' [= <- <-]. reflexivity. Qed.

Lemma keeps_failM {A} f : keeps R (failM f : M St A).
Proof. done. Qed.

Lemma keeps_ext {A} (m m' : M St A) : (forall s, m s = m' s) -> keeps R m' -> keeps R m.
Proof. intros H Hm s a s' Hr. rewrite H in Hr. by eapply Hm. Qed.

Lemma keeps_liftO {A} f (o : option A) : keeps R (liftO f o).
Proof using HR. intros s b s' [_ ->]%liftO_inv. reflexivity. Qed.

Lemma keeps_modify f : (forall s, R s (f s)) -> keeps R (modify f).
Proof. intros H s b s' [= <- <-]. apply H. Qed.

Lemma keeps_bind {A B} (m : M St A) (k : A -> M St B) :
  keeps R m -> (forall a, keeps R (k a)) -> keeps R (m ≫= k).
Proof using HR.
  intros Hm Hk s b s'' H. apply bind_inv in H as (a&s'&H1&H2).
  transitivity s'; [by eapply Hm|by eapply Hk].
Qed.

(** With what is known of the value of an access. *)
Lemma keeps_liftO_bind {A B} f (o : option A) (k : A -> M St B) :
  (forall a, o = Some a -> keeps R (k a)) -> keeps R (liftO f o ≫= k).
Proof. intros Hk s b s'' H. apply bind_inv in H as (a&s'&[Ho ->]%liftO_inv&H). by eapply Hk. Qed.

Lemma keeps_forM {A} (l : list A) (body : A -> M St unit) :
  (forall a, keeps R (body a)) -> keeps R (forM l body).
Proof using HR.
  intros Hb. induction l; cbn [forM]; [apply keeps_ret|]. apply keeps_bind; auto.
Qed.

End Keeps.
End Runs.

(** Agreement on a part of the state. *)
Definition same {St T} (f : St -> T) (s s' : St) : Prop := f s' = f s.

#[export] Instance same_preorder {St T} (f : St -> T) : PreOrder (same f).
Proof. split; unfold same; [by intros ?|]. intros x y z -> ->. done. Qed.

Create HintDb keeps.
#[export] Hint Resolve keeps_ret keeps_getM keeps_gets keeps_failM keeps_liftO : keeps.

(** Decomposes a run; what is left are the updates of the state. *)
Ltac keep_step :=
  match goal with
  | |- keeps _ (mbind _ _) => apply keeps_bind; [typeclasses eauto| |intros ?]
  | |- keeps _ (_ ≫= _) => apply keeps_bind; [typeclasses eauto| |intros ?]
  | |- keeps _ (modify _) => apply keeps_modify; intros ?
  | |- keeps _ (forM _ _) => apply keeps_forM; [typeclasses eauto|intros ?]
  | |- keeps _ (match ?x with _ => _ end) => destruct x
  | |- keeps _ (let _ := _ in _) => cbv zeta
  | |- keeps _ _ => solve [auto with keeps typeclass_instances]
  end.

Ltac keep := repeat keep_step.

(** Takes a completed run apart, bind by bind. *)
Ltac run_inv H :=
  repeat match type of H with
  | (getM ≫= _) _ = Done _ => rewrite getM_run in H
  | (modify _ ≫= _) _ = Done _ => rewrite modify_run in H
  | (mret _ ≫= _) _ = Done _ => rewrite ret_run in H
  end.
