(* ===== verification/HwFenceState.v ===== *)
(** * The state of the hardware-fence driver

    The structures of [mm-drivers/hw_fence/include/hw_fence_drv_priv.h]: the
    entries of the global fences table, the client queues with their shared
    HFI header, the clients, and the driver data that ties them together.
    A pointer into the fences table or into the clients array is the index of
    the element it points to; a null pointer is [None]. *)

From Stdlib Require String.
From S2P Require Import Prelude.

Local Open Scope Z_scope.
Local Open Scope list_scope.

(** ** Constants *)

Definition HW_FENCE_INVALID_PARENT_FENCE : Z := 2 ^ 64 - 1.
Definition HW_FENCE_HASH_A_MULT : Z := 4969.
Definition HW_FENCE_HASH_C_MULT : Z := 907.
Definition HW_FENCE_CLIENT_QUEUES : Z := 2.
Definition HW_FENCE_TX_QUEUE : Z := 1.
Definition HW_FENCE_RX_QUEUE : Z := 2.
Definition HW_FENCE_JOIN_FENCE_CLIENT_ID : Z := 2 ^ 32 - 1.
Definition MSM_HW_FENCE_FLAG_SIGNAL : Z := BIT 0.
Definition MSM_HW_FENCE_MAX_JOIN_PARENTS : Z := 3.

Definition HW_FENCE_PAYLOAD_TYPE_1 : Z := 1.
Definition HW_FENCE_PAYLOAD_TYPE_2 : Z := 2.
Definition HW_FENCE_PAYLOAD_REV (major minor : Z) : Z :=
  Z.lor (Z.shiftl major 8) (Z.land minor 255).

(** [enum hw_fence_client_data_id]. *)
Definition HW_FENCE_CLIENT_DATA_ID_CTX0 : Z := 0.
Definition HW_FENCE_CLIENT_DATA_ID_IPE : Z := 1.
Definition HW_FENCE_CLIENT_DATA_ID_VPU : Z := 2.
Definition HW_FENCE_CLIENT_DATA_ID_VAL0 : Z := 3.
Definition HW_FENCE_CLIENT_DATA_ID_VAL1 : Z := 4.
Definition HW_FENCE_MAX_CLIENTS_WITH_DATA : Z := 5.

(** The constants of the kernel header [linux/soc/qcom/msm_hw_fence.h], which
    is not part of the repository: they are parameters of the model. *)
Record hw_uapi := mkUapi {
  HW_FENCE_CLIENT_ID_CTX0 : Z;
  HW_FENCE_CLIENT_ID_CTL0 : Z;
  HW_FENCE_CLIENT_ID_CTL1 : Z;
  HW_FENCE_CLIENT_ID_CTL2 : Z;
  HW_FENCE_CLIENT_ID_CTL3 : Z;
  HW_FENCE_CLIENT_ID_CTL4 : Z;
  HW_FENCE_CLIENT_ID_CTL5 : Z;
  HW_FENCE_CLIENT_ID_VAL0 : Z;
  HW_FENCE_CLIENT_ID_VAL1 : Z;
  HW_FENCE_CLIENT_ID_VAL2 : Z;
  HW_FENCE_CLIENT_ID_VAL3 : Z;
  HW_FENCE_CLIENT_ID_VAL4 : Z;
  HW_FENCE_CLIENT_ID_VAL5 : Z;
  HW_FENCE_CLIENT_ID_VAL6 : Z;
  HW_FENCE_CLIENT_ID_IPE : Z;
  HW_FENCE_CLIENT_ID_VPU : Z;
  HW_FENCE_CLIENT_ID_IFE : nat -> Z;
  HW_FENCE_CLIENT_MAX : Z;
  MSM_HW_FENCE_MAX_SIGNAL_PER_CLIENT : Z;
  MSM_HW_FENCE_FLAG_ENABLED_BIT : Z;
  MSM_HW_FENCE_FLAG_SIGNALED_BIT : Z;
  MSM_HW_FENCE_RESET_WITHOUT_ERROR : Z;
  MSM_HW_FENCE_RESET_WITHOUT_DESTROY : Z;
  MSM_HW_FENCE_ERROR_RESET : Z;
  MSM_HW_FENCE_UPDATE_ERROR_WITH_MOVE : Z;
  HW_FENCE_HFI_TABLE_HEADER_SIZE : Z;
  HW_FENCE_HFI_QUEUE_HEADER_SIZE : Z;
}.

(** ** [struct msm_hw_fence]: an entry of the global table *)

Record msm_hw_fence := mkFence {
  valid : Z;
  error : Z;
  ctx_id : Z;
  seq_id : Z;
  wait_client_mask : Z;
  fence_allocator : Z;
  fence_signal_client : Z;
  lock : Z;
  flags : Z;
  parent_list : list Z;
  parents_cnt : Z;
  pending_child_cnt : Z;
  fence_create_time : Z;
  fence_trigger_time : Z;
  fence_wait_time : Z;
  debug_refcount : Z;
  client_data : list Z;
}.

#[export] Instance eta_msm_hw_fence : Eta msm_hw_fence.
Proof.
  refine (mkEta _ (fun f =>
    mkFence (valid f) (error f) (ctx_id f) (seq_id f) (wait_client_mask f)
      (fence_allocator f) (fence_signal_client f) (lock f) (flags f)
      (parent_list f) (parents_cnt f) (pending_child_cnt f)
      (fence_create_time f) (fence_trigger_time f) (fence_wait_time f)
      (debug_refcount f) (client_data f)) _).
  by intros [].
Defined.

#[export] Instance msm_hw_fence_eq_dec : EqDecision msm_hw_fence.
Proof. solve_decision. Defined.

(** An entry of the zeroed carved-out memory. *)
Definition zero_fence : msm_hw_fence :=
  mkFence 0 0 0 0 0 0 0 0 0 (replicate 3 0) 0 0 0 0 0 0 (replicate 5 0).

(** ** Queues

    [msm_hw_fence_hfi_queue_header] is the header shared with the client and
    the fence controller; [q_mem] is the array of 32-bit words the queue's
    [va_queue] points to.  [va_queue] and [va_header_off] are the byte offsets of
    the words and of the header in the carved-out memory: as long as a queue is
    set up, its part of that memory is accessed through the queue, which holds
    it in [q_mem] and [va_header]. *)

Record hfi_queue_header := mkHfiHeader {
  start_addr : Z;
  hq_type : Z;
  queue_size : Z;
  pkt_size : Z;
  read_index : Z;
  write_index : Z;
  tx_wm : Z;
}.

#[export] Instance eta_hfi_queue_header : Eta hfi_queue_header.
Proof.
  refine (mkEta _ (fun h =>
    mkHfiHeader (start_addr h) (hq_type h) (queue_size h) (pkt_size h)
      (read_index h) (write_index h) (tx_wm h)) _).
  by intros [].
Defined.

Record msm_hw_fence_queue := mkQueue {
  q_mem : list Z;
  q_size_bytes : Z;
  va_header : option hfi_queue_header;
  pa_queue : Z;
  rd_wr_idx_start : Z;
  rd_wr_idx_factor : Z;
  skip_wr_idx : bool;
  va_queue : Z;
  va_header_off : Z;
}.

#[export] Instance eta_msm_hw_fence_queue : Eta msm_hw_fence_queue.
Proof.
  refine (mkEta _ (fun q =>
    mkQueue (q_mem q) (q_size_bytes q) (va_header q) (pa_queue q)
      (rd_wr_idx_start q) (rd_wr_idx_factor q) (skip_wr_idx q) (va_queue q)
      (va_header_off q)) _).
  by intros [].
Defined.

(** [struct msm_hw_fence_queue_payload]. *)
Record queue_payload := mkPayload {
  p_size : Z;
  p_type : Z;
  p_version : Z;
  p_ctxt_id : Z;
  p_seqno : Z;
  p_hash : Z;
  p_flags : Z;
  p_client_data : Z;
  p_error : Z;
  p_timestamp_lo : Z;
  p_timestamp_hi : Z;
  p_reserve : Z;
}.

#[export] Instance eta_queue_payload : Eta queue_payload.
Proof.
  refine (mkEta _ (fun p =>
    mkPayload (p_size p) (p_type p) (p_version p) (p_ctxt_id p) (p_seqno p)
      (p_hash p) (p_flags p) (p_client_data p) (p_error p) (p_timestamp_lo p)
      (p_timestamp_hi p) (p_reserve p)) _).
  by intros [].
Defined.

#[export] Instance queue_payload_eq_dec : EqDecision queue_payload.
Proof. solve_decision. Defined.

(** ** [struct msm_hw_fence_client] *)

Record msm_hw_fence_client := mkClient {
  client_id : Z;
  client_id_ext : Z;
  queues : list msm_hw_fence_queue;
  queues_num : Z;
  fence_error_cb : bool;
  ipc_signal_id : Z;
  ipc_client_vid : Z;
  ipc_client_pid : Z;
  update_rxq : bool;
  send_ipc : bool;
  val_signal : Z;
}.

#[export] Instance eta_msm_hw_fence_client : Eta msm_hw_fence_client.
Proof.
  refine (mkEta _ (fun c =>
    mkClient (client_id c) (client_id_ext c) (queues c) (queues_num c)
      (fence_error_cb c) (ipc_signal_id c) (ipc_client_vid c) (ipc_client_pid c)
      (update_rxq c) (send_ipc c) (val_signal c)) _).
  by intros [].
Defined.

(** ** Observable effects

    What leaves the driver: the writes to the interrupt controller's registers
    (offset and value) and the callbacks of clients. *)

Inductive hw_event : Type :=
| EvFenceErrorCb (client ctxt_id seqno hash flags error : Z)
| EvWakeValidation (client : Z)
| EvIpccWrite (offset val : Z).

#[export] Instance hw_event_eq_dec : EqDecision hw_event.
Proof. solve_decision. Defined.

(** ** Fences of the kernel

    A [struct dma_fence] and, for an array, its [struct dma_fence_array].  The
    pointer to a fence is its index in [dma_fences]; [fences] is null or an
    array of pointers. *)

Record dma_fence_array := mkFenceArray {
  num_fences : Z;
  fences : option (list (option Z));
}.

Record dma_fence := mkDmaFence {
  df_context : Z;
  df_seqno : Z;
  df_flags : Z;
  df_array : option dma_fence_array;
}.

#[export] Instance eta_dma_fence : Eta dma_fence.
Proof.
  refine (mkEta _ (fun f =>
    mkDmaFence (df_context f) (df_seqno f) (df_flags f) (df_array f)) _).
  by intros [].
Defined.

(** ** Configuration *)

Record hw_fence_client_type_desc := mkTypeDesc {
  td_name : String.string;
  init_id : Z;
  max_clients_num : Z;
  td_clients_num : Z;
  td_queues_num : Z;
  queue_entries : Z;
  start_padding : Z;
  end_padding : Z;
  mem_size : Z;
  txq_idx_start : Z;
  txq_idx_factor : Z;
  skip_txq_wr_idx : bool;
}.

#[export] Instance eta_hw_fence_client_type_desc : Eta hw_fence_client_type_desc.
Proof.
  refine (mkEta _ (fun t =>
    mkTypeDesc (td_name t) (init_id t) (max_clients_num t) (td_clients_num t)
      (td_queues_num t) (queue_entries t) (start_padding t) (end_padding t)
      (mem_size t) (txq_idx_start t) (txq_idx_factor t) (skip_txq_wr_idx t)) _).
  by intros [].
Defined.

(** [type] is the index of the descriptor in the table of client types. *)
Record hw_fence_client_queue_desc := mkQueueDesc {
  qd_type : Z;
  start_offset : Z;
}.

Record hw_fence_client_ipc_map := mkIpcMap {
  ipc_client_id_virt : Z;
  ipc_client_id_phys : Z;
  im_signal_id : Z;
  im_update_rxq : bool;
  im_send_ipc : bool;
}.

#[export] Instance eta_hw_fence_client_ipc_map : Eta hw_fence_client_ipc_map.
Proof.
  refine (mkEta _ (fun m =>
    mkIpcMap (ipc_client_id_virt m) (ipc_client_id_phys m) (im_signal_id m)
      (im_update_rxq m) (im_send_ipc m)) _).
  by intros [].
Defined.

(** The kernel's access to the device tree: the return value of each call and
    what it stores. *)
Record device_tree := mkDtree {
  of_property_read_u32 : String.string -> Z * Z;
  of_property_read_u32_array : String.string -> Z -> Z * list Z;
  of_property_count_u32_elems : String.string -> Z;
  of_property_read_bool : String.string -> bool;
}.

(** ** [struct hw_fence_driver_data]

    The first fields are the environment: the constants of the kernel's
    headers, whether [CONFIG_DEBUG_FS] is set, the hardware counter ([qtimer n]
    is its [n]-th reading, [qtime_reads] how many were made), the device tree,
    the outcomes of the allocations and the page size.  The carved-out memory,
    which is shared with other processors, is seen at a byte offset from
    [io_mem_base] as what the driver puts there: a queue header
    ([carve_header]), a 32-bit word of a queue ([carve_word]), an entry of the
    fences table ([carve_fence]) or a lock ([carve_lock]).  [dma_fences] are the
    fences of the kernel the callers refer to. *)

Record hw_fence_driver_data := mkDrv {
  uapi : hw_uapi;
  config_debug_fs : bool;
  qtimer : nat -> Z;
  qtime_reads : nat;
  dtree : device_tree;
  kzalloc_ok : nat -> bool;
  kzallocs : nat;
  PAGE_SIZE : Z;
  carve_header : Z -> hfi_queue_header;
  carve_word : Z -> Z;
  carve_fence : Z -> msm_hw_fence;
  carve_lock : Z -> Z;
  resources_ready : bool;
  hw_fence_table_entries : Z;
  hw_fence_mem_fences_table_size : Z;
  hw_fence_queue_entries : Z;
  hw_fence_ctrl_queue_size : Z;
  hw_fence_mem_ctrl_queues_size : Z;
  hw_fence_client_queue_size : list (option hw_fence_client_queue_desc);
  hw_fence_client_types : list hw_fence_client_type_desc;
  rxq_clients_num : Z;
  clients_num : Z;
  hw_fences_tbl : list msm_hw_fence;
  hw_fences_tbl_cnt : Z;
  total_events : Z;
  client_lock_tbl : list Z;
  client_lock_tbl_cnt : Z;
  ctrl_queues : list msm_hw_fence_queue;
  res_start : Z;
  size : Z;
  used_mem_size : Z;
  protocol_id : Z;
  ipcc_client_vid : Z;
  ipcc_client_pid : Z;
  ipc_clients_table : list hw_fence_client_ipc_map;
  clients : list (option msm_hw_fence_client);
  vm_ready : bool;
  ipcc_dpu_initialized : bool;
  lock_wake_cnt : Z;
  dma_fences : list dma_fence;
  events : list hw_event;
}.

#[export] Instance eta_hw_fence_driver_data : Eta hw_fence_driver_data.
Proof.
  refine (mkEta _ (fun d =>
    mkDrv (uapi d) (config_debug_fs d) (qtimer d) (qtime_reads d)
      (dtree d) (kzalloc_ok d) (kzallocs d) (PAGE_SIZE d)
      (carve_header d) (carve_word d) (carve_fence d) (carve_lock d) (resources_ready d) (hw_fence_table_entries d)
      (hw_fence_mem_fences_table_size d) (hw_fence_queue_entries d) (hw_fence_ctrl_queue_size d) (hw_fence_mem_ctrl_queues_size d)
      (hw_fence_client_queue_size d) (hw_fence_client_types d) (rxq_clients_num d) (clients_num d)
      (hw_fences_tbl d) (hw_fences_tbl_cnt d) (total_events d) (client_lock_tbl d)
      (client_lock_tbl_cnt d) (ctrl_queues d) (res_start d) (size d)
      (used_mem_size d) (protocol_id d) (ipcc_client_vid d) (ipcc_client_pid d)
      (ipc_clients_table d) (clients d) (vm_ready d) (ipcc_dpu_initialized d)
      (lock_wake_cnt d) (dma_fences d) (events d)) _).
  by intros [].
Defined.

(** The zeroed driver data, in an environment whose counter counts its
    readings and whose allocations succeed. *)
Definition zero_header : hfi_queue_header := mkHfiHeader 0 0 0 0 0 0 0.

Definition zero_drv (u : hw_uapi) (dt : device_tree) : hw_fence_driver_data := {|
  uapi := u;
  config_debug_fs := false;
  qtimer := Z.of_nat;
  qtime_reads := 0;
  dtree := dt;
  kzalloc_ok := fun _ => true;
  kzallocs := 0;
  PAGE_SIZE := 4096;
  carve_header := fun _ => zero_header;
  carve_word := fun _ => 0;
  carve_fence := fun _ => zero_fence;
  carve_lock := fun _ => 0;
  resources_ready := false;
  hw_fence_table_entries := 0;
  hw_fence_mem_fences_table_size := 0;
  hw_fence_queue_entries := 0;
  hw_fence_ctrl_queue_size := 0;
  hw_fence_mem_ctrl_queues_size := 0;
  hw_fence_client_queue_size := [];
  hw_fence_client_types := [];
  rxq_clients_num := 0;
  clients_num := 0;
  hw_fences_tbl := [];
  hw_fences_tbl_cnt := 0;
  total_events := 0;
  client_lock_tbl := [];
  client_lock_tbl_cnt := 0;
  ctrl_queues := [];
  res_start := 0;
  size := 0;
  used_mem_size := 0;
  protocol_id := 0;
  ipcc_client_vid := 0;
  ipcc_client_pid := 0;
  ipc_clients_table := [];
  clients := [];
  vm_ready := false;
  ipcc_dpu_initialized := false;
  lock_wake_cnt := 0;
  dma_fences := [];
  events := [];
|}.

(** Sample constants, for concrete runs: the client identifiers in the order of
    the client types, 64 signals per configurable client type. *)
Definition sample_uapi : hw_uapi := {|
  HW_FENCE_CLIENT_ID_CTX0 := 1;
  HW_FENCE_CLIENT_ID_CTL0 := 2;
  HW_FENCE_CLIENT_ID_CTL1 := 3;
  HW_FENCE_CLIENT_ID_CTL2 := 4;
  HW_FENCE_CLIENT_ID_CTL3 := 5;
  HW_FENCE_CLIENT_ID_CTL4 := 6;
  HW_FENCE_CLIENT_ID_CTL5 := 7;
  HW_FENCE_CLIENT_ID_VAL0 := 8;
  HW_FENCE_CLIENT_ID_VAL1 := 9;
  HW_FENCE_CLIENT_ID_VAL2 := 10;
  HW_FENCE_CLIENT_ID_VAL3 := 11;
  HW_FENCE_CLIENT_ID_VAL4 := 12;
  HW_FENCE_CLIENT_ID_VAL5 := 13;
  HW_FENCE_CLIENT_ID_VAL6 := 14;
  HW_FENCE_CLIENT_ID_IPE := 15;
  HW_FENCE_CLIENT_ID_VPU := 79;
  HW_FENCE_CLIENT_ID_IFE := fun i => 143 + 64 * Z.of_nat i;
  HW_FENCE_CLIENT_MAX := 655;
  MSM_HW_FENCE_MAX_SIGNAL_PER_CLIENT := 64;
  MSM_HW_FENCE_FLAG_ENABLED_BIT := 31;
  MSM_HW_FENCE_FLAG_SIGNALED_BIT := 30;
  MSM_HW_FENCE_RESET_WITHOUT_ERROR := 1;
  MSM_HW_FENCE_RESET_WITHOUT_DESTROY := 2;
  MSM_HW_FENCE_ERROR_RESET := 1;
  MSM_HW_FENCE_UPDATE_ERROR_WITH_MOVE := 1;
  HW_FENCE_HFI_TABLE_HEADER_SIZE := 24;
  HW_FENCE_HFI_QUEUE_HEADER_SIZE := 56;
|}.

(** A device tree without properties. *)
Definition empty_dtree : device_tree := {|
  of_property_read_u32 := fun _ => (- EINVAL, 0);
  of_property_read_u32_array := fun _ _ => (- EINVAL, []);
  of_property_count_u32_elems := fun _ => - EINVAL;
  of_property_read_bool := fun _ => false;
|}.

Abbreviation DM := (M hw_fence_driver_data).

(** An array of [n] elements of [size] bytes at a byte offset of the carved-out
    memory, and the words of [n] bytes. *)
Definition carve_array {A} (view : Z -> A) (size base n : Z) : list A :=
  map (fun k => view (base + size * Z.of_nat k)) (seq 0 (Z.to_nat n)).

Definition carve_words (d : hw_fence_driver_data) (off n : Z) : list Z :=
  carve_array (carve_word d) 4 off (n / 4).

(** Writes to a view of the memory: one element, and an array of words. *)
Definition put_at {A} (off : Z) (x : A) (view : Z -> A) : Z -> A := fun o =>
  if o =? off then x else view o.

Fixpoint put_words (off : Z) (ws : list Z) (view : Z -> Z) : Z -> Z :=
  match ws with
  | [] => view
  | x :: ws' => put_words (off + 4) ws' (put_at off x view)
  end.

(** [memset_io(io_mem_base, 0, size)]: what lies in the region is zero. *)
Definition clear_view {A} (size : Z) (zero : A) (view : Z -> A) : Z -> A := fun off =>
  if (0 <=? off) && (off <? size) then zero else view off.

Definition memset_io (size : Z) (d : hw_fence_driver_data) : hw_fence_driver_data :=
  d <| carve_header ::= clear_view size zero_header |>
    <| carve_word ::= clear_view size 0 |>
    <| carve_fence ::= clear_view size zero_fence |>
    <| carve_lock ::= clear_view size 0 |>.

(** [BIT(client_id)] for the mask of waiting clients: the shift is undefined
    unless the identifier is below 64. *)
Definition client_bit (id : Z) : DM Z := fun d =>
  if (0 <=? id) && (id <? 64) then Done (BIT id, d) else Fault BadShift.

(** ** Access to the driver state *)

(** [hw_fence_get_qtime]. *)
Definition hw_fence_get_qtime : DM Z := fun d =>
  Done (qtimer d (qtime_reads d), d <| qtime_reads ::= S |>).

Definition emit (e : hw_event) : DM unit :=
  modify (fun d => d <| events ::= fun l => l ++ [e] |>).

(** The registers of the interrupt controller, as offsets from its base. *)
Definition IPC_PROTOCOLp_CLIENTc_CONFIG (p c : Z) : Z := 8 + 262144 * p + 4096 * c.
Definition IPC_PROTOCOLp_CLIENTc_SEND (p c : Z) : Z := 12 + 262144 * p + 4096 * c.
Definition IPC_PROTOCOLp_CLIENTc_RECV_SIGNAL_ENABLE (p c : Z) : Z := 20 + 262144 * p + 4096 * c.

Definition hw_fence_ipcc_trigger_signal (tx_client_pid rx_client_vid signal_id : Z) : DM unit :=
  d ← getM;
  emit (EvIpccWrite (IPC_PROTOCOLp_CLIENTc_SEND (protocol_id d) tx_client_pid)
          (u32 (Z.lor (Z.shiftl rx_client_vid 16) signal_id))).

(** [*hw_fence] for a pointer [&hw_fences_tbl[i]]. *)
Definition get_fence (i : Z) : DM msm_hw_fence := fun d =>
  liftO OutOfBounds (zget (hw_fences_tbl d) i) d.

Definition put_fence (i : Z) (f : msm_hw_fence) : DM unit := fun d =>
  match zset (hw_fences_tbl d) i f with
  | Some t => Done (tt, d <| hw_fences_tbl := t |>)
  | None => Fault OutOfBounds
  end.

Definition upd_fence (i : Z) (g : msm_hw_fence -> msm_hw_fence) : DM unit :=
  f ← get_fence i; put_fence i (g f).

(** [*hw_fence_client] for a client handle, its index in [clients]. *)
Definition get_client (c : Z) : DM msm_hw_fence_client := fun d =>
  match zget (clients d) c with
  | Some (Some cl) => Done (cl, d)
  | Some None => Fault NullDeref
  | None => Fault OutOfBounds
  end.

Definition put_client (c : Z) (cl : msm_hw_fence_client) : DM unit := fun d =>
  match zset (clients d) c (Some cl) with
  | Some t => Done (tt, d <| clients := t |>)
  | None => Fault OutOfBounds
  end.

(** ** The inter-processor lock

    [_lock] spins while the low word of the lock is non-zero, then stores 1 in
    it; [_unlock] clears bit 0 and, when the other virtual machine left its
    wait bit (bit 1), wakes it up with signal 30. *)

Definition low32 (x : Z) : Z := x mod 2 ^ 32.
Definition set_low32 (x v : Z) : Z := x - low32 x + v.

Definition _lock (l : Z) : option Z :=
  if low32 l =? 0 then Some (set_low32 l 1) else None.

Definition _unlock_val (l : Z) : Z := set_low32 l (Z.land (low32 l) (2 ^ 32 - 2)).

Definition _unlock_wake (l : Z) : DM unit :=
  if truthy (Z.land (_unlock_val l) 2) then
    modify (fun d => if config_debug_fs d then d <| lock_wake_cnt ::= fun c => u64 (c + 1) |> else d) ;;
    d ← getM;
    hw_fence_ipcc_trigger_signal (ipcc_client_pid d) (ipcc_client_vid d) 30
  else mret tt.

(** [GLOBAL_ATOMIC_STORE(drv_data, &hw_fence->lock, val)]. *)
Definition lock_fence (i : Z) : DM unit :=
  f ← get_fence i;
  match _lock (lock f) with
  | Some l => put_fence i (f <| lock := l |>)
  | None => failM Deadlock
  end.

Definition unlock_fence (i : Z) : DM unit :=
  f ← get_fence i;
  put_fence i (f <| lock := _unlock_val (lock f) |>) ;; _unlock_wake (lock f).

(** [GLOBAL_ATOMIC_STORE(drv_data, &drv_data->client_lock_tbl[i], val)]. *)
Definition lock_client (i : Z) : DM unit := fun d =>
  match zget (client_lock_tbl d) i with
  | Some l =>
      match _lock l with
      | Some l' => Done (tt, d <| client_lock_tbl ::= fun t => <[Z.to_nat i := l']> t |>)
      | None => Fault Deadlock
      end
  | None => Fault OutOfBounds
  end.

Definition unlock_client (i : Z) : DM unit := fun d =>
  match zget (client_lock_tbl d) i with
  | Some l =>
      _unlock_wake l (d <| client_lock_tbl ::= fun t => <[Z.to_nat i := _unlock_val l]> t |>)
  | None => Fault OutOfBounds
  end.

(** ** The lock on an unlocked word *)

Lemma _lock_free v : low32 v = 0 -> _lock v = Some (v + 1).
Proof. intros Hv. unfold _lock, set_low32. rewrite Hv. cbn. f_equal. lia. Qed.

Lemma low32_succ v : low32 v = 0 -> low32 (v + 1) = 1.
Proof. unfold low32. intros Hv. Z.to_euclidean_division_equations. lia. Qed.

(** Releasing a lock that was free gives back the word it held before. *)
Lemma _unlock_val_lock v : low32 v = 0 -> _unlock_val (v + 1) = v.
Proof.
  intros Hv. unfold _unlock_val, set_low32. rewrite low32_succ by done.
  change (Z.land 1 (2 ^ 32 - 2)) with 0. lia.
Qed.

Lemma _unlock_wake_free v d : low32 v = 0 -> _unlock_wake (v + 1) d = Done (tt, d).
Proof.
  intros Hv. unfold _unlock_wake. rewrite _unlock_val_lock by done.
  replace (Z.land v 2) with 0; [done|].
  symmetry. apply Z.bits_inj'. intros n Hn. rewrite Z.bits_0, Z.land_spec.
  destruct (decide (n < 32)) as [Hlt|Hge].
  - replace (Z.testbit v n) with (Z.testbit (low32 v) n).
    + by rewrite Hv, Z.bits_0.
    + unfold low32. by rewrite Z.mod_pow2_bits_low.
  - rewrite (Z.bits_above_log2 2 n), andb_false_r; [done|lia|]. change (Z.log2 2) with 1. lia.
Qed.
