(* ===== verification/HwFenceQueue.v ===== *)
(** * Client queues of the hardware-fence driver

    The ring buffers shared with clients and the fence controller
    ([hw_fence_drv_priv.c]): index translation, reading, writing, the update
    of an entry already in the Tx queue, and the reset of both queues.  The
    queue memory is the array of 32-bit words it is in the source, a payload
    being 16 consecutive words; the refinement below shows that the two
    index registers and that memory implement a bounded FIFO of payloads. *)

From S2P Require Import Prelude HwFenceState.

Local Open Scope Z_scope.

(** ** Index translation *)

Definition REQUIRES_IDX_TRANSLATION (queue : msm_hw_fence_queue) : bool :=
  truthy (rd_wr_idx_factor queue) &&
  (truthy (rd_wr_idx_start queue) || (1 <? rd_wr_idx_factor queue)).

Definition IDX_TRANSLATE_CUSTOM_TO_DEFAULT (queue : msm_hw_fence_queue) (idx : Z) : Z :=
  u32 (u32 (idx - rd_wr_idx_start queue) * rd_wr_idx_factor queue).

Definition IDX_TRANSLATE_DEFAULT_TO_CUSTOM (queue : msm_hw_fence_queue) (idx : Z) : Z :=
  u32 (idx / rd_wr_idx_factor queue + rd_wr_idx_start queue).

Definition _translate_queue_indexes_custom_to_default
    (queue : msm_hw_fence_queue) (read_idx write_idx : Z) : Z * Z :=
  if REQUIRES_IDX_TRANSLATION queue then
    (IDX_TRANSLATE_CUSTOM_TO_DEFAULT queue read_idx,
     IDX_TRANSLATE_CUSTOM_TO_DEFAULT queue write_idx)
  else (read_idx, write_idx).

(** ** Words of the queue memory *)

Definition sizeof_payload : Z := 64.

Definition lo32 (v : Z) : Z := v mod 2 ^ 32.
Definition hi32 (v : Z) : Z := (v / 2 ^ 32) mod 2 ^ 32.

Definition readq (mem : list Z) (off : Z) : option Z :=
  lo ← zget mem off; hi ← zget mem (off + 1); Some (lo + hi * 2 ^ 32).

Definition writel (off v : Z) (mem : list Z) : option (list Z) :=
  zset mem off (u32 v).

Definition writeq (off v : Z) (mem : list Z) : option (list Z) :=
  mem ← writel off (lo32 v) mem; writel (off + 1) (hi32 v) mem.

(** [writew] to the low or to the high half of the word at [off]. *)
Definition writew_lo (off v : Z) (mem : list Z) : option (list Z) :=
  d ← zget mem off; zset mem off (d - d mod 2 ^ 16 + u16 v).

Definition writew_hi (off v : Z) (mem : list Z) : option (list Z) :=
  d ← zget mem off; zset mem off (d mod 2 ^ 16 + u16 v * 2 ^ 16).

(** The memory layout of [struct msm_hw_fence_queue_payload]. *)
Definition payload_words (p : queue_payload) : list Z :=
  [p_size p; p_type p + p_version p * 2 ^ 16;
   lo32 (p_ctxt_id p); hi32 (p_ctxt_id p); lo32 (p_seqno p); hi32 (p_seqno p);
   lo32 (p_hash p); hi32 (p_hash p); lo32 (p_flags p); hi32 (p_flags p);
   lo32 (p_client_data p); hi32 (p_client_data p);
   p_error p; p_timestamp_lo p; p_timestamp_hi p; p_reserve p].

Definition words_payload (ws : list Z) : option queue_payload :=
  match ws with
  | [d0; d1; d2; d3; d4; d5; d6; d7; d8; d9; d10; d11; d12; d13; d14; d15] =>
      Some (mkPayload d0 (d1 mod 2 ^ 16) (d1 / 2 ^ 16)
        (d2 + d3 * 2 ^ 32) (d4 + d5 * 2 ^ 32) (d6 + d7 * 2 ^ 32)
        (d8 + d9 * 2 ^ 32) (d10 + d11 * 2 ^ 32) d12 d13 d14 d15)
  | _ => None
  end.

(** Structure read and structure assignment at the word [off]. *)
Definition read_payload (mem : list Z) (off : Z) : option queue_payload :=
  if bool_decide (0 <= off) then words_payload (take 16 (drop (Z.to_nat off) mem))
  else None.

Definition write_struct (off : Z) (p : queue_payload) (mem : list Z) : option (list Z) :=
  if bool_decide (0 <= off /\ off + 16 <= zlen mem) then
    Some (take (Z.to_nat off) mem ++ payload_words p ++ drop (Z.to_nat off + 16) mem)
  else None.

(** The stores of [hw_fence_update_queue], in their order; the 64-bit store to
    the 32-bit [size] field also clears [type] and [version], which the two
    16-bit stores then set. *)
Definition write_payload_body (off ctxt_id seqno hash flags client_data error : Z)
    (mem : list Z) : option (list Z) :=
  mem ← writeq off sizeof_payload mem;
  mem ← writew_lo (off + 1) HW_FENCE_PAYLOAD_TYPE_1 mem;
  mem ← writew_hi (off + 1) (HW_FENCE_PAYLOAD_REV 1 0) mem;
  mem ← writeq (off + 2) ctxt_id mem;
  mem ← writeq (off + 4) seqno mem;
  mem ← writeq (off + 6) hash mem;
  mem ← writeq (off + 8) flags mem;
  mem ← writeq (off + 10) client_data mem;
  writel (off + 12) error mem.

Definition write_payload_timestamp (off timestamp : Z) (mem : list Z) : option (list Z) :=
  mem ← writel (off + 13) timestamp mem;
  writel (off + 14) (timestamp / 2 ^ 32) mem.

(** ** Reading *)

Definition QM := M msm_hw_fence_queue.

Definition set_read_index (v : Z) (queue : msm_hw_fence_queue) : msm_hw_fence_queue :=
  queue <| va_header ::= fmap (fun h => h <| read_index := v |>) |>.

Definition set_write_index (v : Z) (queue : msm_hw_fence_queue) : msm_hw_fence_queue :=
  queue <| va_header ::= fmap (fun h => h <| write_index := v |>) |>.

Definition set_tx_wm (v : Z) (queue : msm_hw_fence_queue) : msm_hw_fence_queue :=
  queue <| va_header ::= fmap (fun h => h <| tx_wm := v |>) |>.

(** Returns the C return value and the payload copied out, if any. *)
Definition hw_fence_read_queue_helper : QM (Z * option queue_payload) :=
  queue ← getM;
  let q_size_u32 := q_size_bytes queue / 4 in
  let payload_size_u32 := sizeof_payload / 4 in
  match va_header queue with
  | None => mret (- EINVAL, None)
  | Some hfi_header =>
      let '(read_idx, write_idx) :=
        _translate_queue_indexes_custom_to_default queue
          (read_index hfi_header) (write_index hfi_header) in
      if read_idx =? write_idx then mret (- EINVAL, None) else
      let to_read_idx := u32 (read_idx + payload_size_u32) in
      let to_read_idx := if q_size_u32 <=? to_read_idx then 0 else to_read_idx in
      let to_read_idx :=
        if REQUIRES_IDX_TRANSLATION queue
        then IDX_TRANSLATE_DEFAULT_TO_CUSTOM queue to_read_idx else to_read_idx in
      payload ← liftO OutOfBounds (read_payload (q_mem queue) read_idx);
      modify (set_read_index to_read_idx) ;;
      mret (if to_read_idx =? write_idx then 0 else 1, Some payload)
  end.

(** Runs a queue operation on queue [t] of client [c]. *)
Definition on_queue {A} (c t : Z) (m : QM A) : DM A :=
  cl ← get_client c;
  queue ← liftO OutOfBounds (zget (queues cl) t);
  match m queue with
  | Fault f => failM f
  | Done (a, queue') =>
      put_client c (cl <| queues ::= fun qs => <[Z.to_nat t := queue']> qs |>) ;;
      mret a
  end.

Definition hw_fence_read_queue (c : option Z) (queue_type : Z) : DM (Z * option queue_payload) :=
  match c with
  | None => mret (- EINVAL, None)
  | Some c =>
      if HW_FENCE_CLIENT_QUEUES <=? queue_type then mret (- EINVAL, None)
      else on_queue c queue_type hw_fence_read_queue_helper
  end.

(** ** Writing *)

Definition _lock_client_queue (queue_type : Z) : bool :=
  queue_type =? HW_FENCE_RX_QUEUE - 1.

(** The header and the value of the index the writer owns, or the failure. *)
Definition _get_update_queue_params (queue : msm_hw_fence_queue) : option (hfi_queue_header * Z) :=
  match va_header queue with
  | None => None
  | Some h => Some (h, if skip_wr_idx queue then tx_wm h else write_index h)
  end.

Definition set_wr_ptr (v : Z) (queue : msm_hw_fence_queue) : msm_hw_fence_queue :=
  if skip_wr_idx queue then set_tx_wm v queue else set_write_index v queue.

(** Room left in the queue, in words. *)
Definition q_free_u32 (q_size_u32 read_idx write_idx : Z) : Z :=
  if read_idx <=? write_idx then u32 (q_size_u32 - u32 (write_idx - read_idx))
  else u32 (read_idx - write_idx).

(** The part of [hw_fence_update_queue] that runs under the client's lock. *)
Definition update_queue_locked (c queue_type ctxt_id seqno hash flags client_data error : Z)
    : DM Z :=
  cl ← get_client c;
  queue ← liftO OutOfBounds (zget (queues cl) queue_type);
  match _get_update_queue_params queue with
  | None => mret (- EINVAL)
  | Some (hfi_header, wr) =>
      let q_size_u32 := q_size_bytes queue / 4 in
      let payload_size_u32 := sizeof_payload / 4 in
      let '(read_idx, write_idx) :=
        _translate_queue_indexes_custom_to_default queue (read_index hfi_header) wr in
      if q_free_u32 q_size_u32 read_idx write_idx <=? payload_size_u32
      then mret (- EINVAL) else
      let to_write_idx := u32 (write_idx + payload_size_u32) in
      let to_write_idx := if q_size_u32 <=? to_write_idx then 0 else to_write_idx in
      let to_write_idx :=
        if REQUIRES_IDX_TRANSLATION queue
        then IDX_TRANSLATE_DEFAULT_TO_CUSTOM queue to_write_idx else to_write_idx in
      mem ← liftO OutOfBounds
        (write_payload_body write_idx ctxt_id seqno hash flags client_data error (q_mem queue));
      timestamp ← hw_fence_get_qtime;
      mem ← liftO OutOfBounds (write_payload_timestamp write_idx timestamp mem);
      put_client c (cl <| queues ::= fun qs =>
        <[Z.to_nat queue_type := set_wr_ptr to_write_idx (queue <| q_mem := mem |>)]> qs |>)
      ;; mret 0
  end.

Definition hw_fence_update_queue (c ctxt_id seqno hash flags client_data error queue_type : Z)
    : DM Z :=
  cl ← get_client c;
  if queues_num cl <=? queue_type then mret (- EINVAL) else
  queue ← liftO OutOfBounds (zget (queues cl) queue_type);
  match _get_update_queue_params queue with
  | None => mret (- EINVAL)
  | Some _ =>
      if _lock_client_queue queue_type then
        let lock_idx := u32 (client_id cl - 1) in
        d ← getM;
        if client_lock_tbl_cnt d <=? lock_idx then mret (- EINVAL) else
        lock_client lock_idx ;;
        ret ← update_queue_locked c queue_type ctxt_id seqno hash flags client_data error;
        unlock_client lock_idx ;; mret ret
      else update_queue_locked c queue_type ctxt_id seqno hash flags client_data error
  end.

(** ** Updating an entry that is already queued *)

Definition update_existing_payload (hash error : Z) : QM Z :=
  queue ← getM;
  match _get_update_queue_params queue with
  | None => mret (- EINVAL)
  | Some (hfi_header, wr) =>
      let q_size_u32 := q_size_bytes queue / 4 in
      let payload_size_u32 := sizeof_payload / 4 in
      let '(read_idx, write_idx) :=
        _translate_queue_indexes_custom_to_default queue (read_index hfi_header) wr in
      if read_idx =? write_idx then mret (- EINVAL) else
      first_hash ← liftO OutOfBounds (readq (q_mem queue) (read_idx + 6));
      if first_hash =? hash then
        mem ← liftO OutOfBounds (writel (read_idx + 12) error (q_mem queue));
        modify (fun q => q <| q_mem := mem |>) ;; mret 0
      else
      let second_idx := u32 (read_idx + payload_size_u32) in
      let second_idx := if q_size_u32 <=? second_idx then 0 else second_idx in
      if second_idx =? write_idx then mret (- EINVAL) else
      second_hash ← liftO OutOfBounds (readq (q_mem queue) (second_idx + 6));
      if negb (second_hash =? hash) then mret (- EINVAL) else
      tmp ← liftO OutOfBounds (read_payload (q_mem queue) read_idx);
      second ← liftO OutOfBounds (read_payload (q_mem queue) second_idx);
      mem ← liftO OutOfBounds (write_struct read_idx second (q_mem queue));
      mem ← liftO OutOfBounds (writel (read_idx + 12) error mem);
      mem ← liftO OutOfBounds (write_struct second_idx tmp mem);
      modify (fun q => q <| q_mem := mem |>) ;; mret 0
  end.

Definition hw_fence_update_existing_txq_payload (c hash error : Z) : DM Z :=
  on_queue c (HW_FENCE_TX_QUEUE - 1) (update_existing_payload hash error).

(** ** Reset *)

(** A queue whose header is null is dereferenced here: the source has no test. *)
Definition reset_txq : QM unit :=
  queue ← getM;
  match va_header queue with
  | None => failM NullDeref
  | Some h =>
      modify (fun q => if skip_wr_idx q then set_tx_wm (write_index h) q else q) ;;
      modify (set_read_index (write_index h))
  end.

Definition reset_rxq : QM unit :=
  queue ← getM;
  match va_header queue with
  | None => failM NullDeref
  | Some h => modify (set_write_index (read_index h))
  end.

Definition hw_fence_utils_reset_queues (c : Z) : DM unit :=
  on_queue c (HW_FENCE_TX_QUEUE - 1) reset_txq ;;
  cl ← get_client c;
  if update_rxq cl then
    let lock_idx := u32 (client_id cl - 1) in
    d ← getM;
    if client_lock_tbl_cnt d <=? lock_idx then mret tt else
    lock_client lock_idx ;;
    on_queue c (HW_FENCE_RX_QUEUE - 1) reset_rxq ;;
    unlock_client lock_idx
  else mret tt.

(** ** The abstract queue

    A queue with room for [n] payloads holds the list [l] when, from the slot
    the read index designates, the slots hold the elements of [l] in order and
    the writer's index designates the slot after them. *)

(** A queue index as stored in the header for the word offset [idx]. *)
Definition to_custom (queue : msm_hw_fence_queue) (idx : Z) : Z :=
  if REQUIRES_IDX_TRANSLATION queue then IDX_TRANSLATE_DEFAULT_TO_CUSTOM queue idx else idx.

Definition to_default (queue : msm_hw_fence_queue) (idx : Z) : Z :=
  if REQUIRES_IDX_TRANSLATION queue then IDX_TRANSLATE_CUSTOM_TO_DEFAULT queue idx else idx.

Record payload_ok (p : queue_payload) : Prop := {
  ok_size : is_word 32 (p_size p);
  ok_type : is_word 16 (p_type p);
  ok_version : is_word 16 (p_version p);
  ok_ctxt : is_word 64 (p_ctxt_id p);
  ok_seqno : is_word 64 (p_seqno p);
  ok_hash : is_word 64 (p_hash p);
  ok_flags : is_word 64 (p_flags p);
  ok_client_data : is_word 64 (p_client_data p);
  ok_error : is_word 32 (p_error p);
  ok_timestamp_lo : is_word 32 (p_timestamp_lo p);
  ok_timestamp_hi : is_word 32 (p_timestamp_hi p);
  ok_reserve : is_word 32 (p_reserve p);
}.

(** The payload [hw_fence_update_queue] writes over a slot whose reserved word
    is [reserve]. *)
Definition new_payload (ctxt_id seqno hash flags client_data error timestamp reserve : Z)
    : queue_payload :=
  mkPayload sizeof_payload HW_FENCE_PAYLOAD_TYPE_1 (HW_FENCE_PAYLOAD_REV 1 0)
    ctxt_id seqno hash flags client_data (u32 error)
    (u32 timestamp) (u32 (timestamp / 2 ^ 32)) reserve.

Definition slots_mem (slots : list queue_payload) : list Z := slots ≫= payload_words.

(** The slot a slot number past the end designates, as a word offset. *)
Definition slot_off (i : nat) : Z := 16 * Z.of_nat i.

(** The index configurations the device-tree parser accepts. *)
Definition idx_config_ok (queue : msm_hw_fence_queue) (n : nat) : Prop :=
  (rd_wr_idx_factor queue = 1 \/ rd_wr_idx_factor queue = 16) /\
  0 <= rd_wr_idx_start queue /\
  rd_wr_idx_start queue + slot_off n / rd_wr_idx_factor queue < 2 ^ 32 /\
  slot_off n < 2 ^ 32.

Definition capacity (queue : msm_hw_fence_queue) : nat :=
  Z.to_nat (q_size_bytes queue / sizeof_payload).

Record queue_layout (queue : msm_hw_fence_queue) (slots : list queue_payload)
    (h : hfi_queue_header) (r w : nat) : Prop := {
  ql_mem : q_mem queue = slots_mem slots;
  ql_size : q_size_bytes queue = 64 * zlen slots;
  ql_slots : Forall payload_ok slots;
  ql_cfg : idx_config_ok queue (length slots);
  ql_header : va_header queue = Some h;
  ql_read : read_index h = to_custom queue (slot_off r);
  ql_write : (if skip_wr_idx queue then tx_wm h else write_index h) = to_custom queue (slot_off w);
  ql_r : (r < length slots)%nat;
  ql_w : (w < length slots)%nat;
}.

Definition queue_repr (queue : msm_hw_fence_queue) (l : list queue_payload) : Prop :=
  exists slots h r,
    queue_layout queue slots h r (ring (length slots) (r + length l)) /\
    (length l < length slots)%nat /\
    forall k, (k < length l)%nat -> slots !! ring (length slots) (r + k) = l !! k.

(** ** Encoding of payloads *)

Lemma length_payload_words p : length (payload_words p) = 16%nat.
Proof. done. Qed.

Lemma lo_hi v : is_word 64 v -> lo32 v + hi32 v * 2 ^ 32 = v.
Proof. unfold is_word, lo32, hi32. intros Hv. Z.to_euclidean_division_equations. lia. Qed.

Lemma lo32_word v : is_word 32 (lo32 v).
Proof. unfold is_word, lo32. Z.to_euclidean_division_equations. lia. Qed.

Lemma hi32_word v : is_word 32 (hi32 v).
Proof. unfold is_word, hi32. Z.to_euclidean_division_equations. lia. Qed.

(** A payload is recovered from its words. *)
Lemma words_payload_words p : payload_ok p -> words_payload (payload_words p) = Some p.
Proof.
  intros []. unfold payload_words, words_payload. rewrite !lo_hi by done.
  destruct p; cbn in *. unfold is_word in *. f_equal.
  f_equal; Z.to_euclidean_division_equations; lia.
Qed.

Lemma new_payload_ok ctxt_id seqno hash flags client_data error timestamp reserve :
  is_word 64 ctxt_id -> is_word 64 seqno -> is_word 64 hash -> is_word 64 flags ->
  is_word 64 client_data -> is_word 32 reserve ->
  payload_ok (new_payload ctxt_id seqno hash flags client_data error timestamp reserve).
Proof. intros. split; cbn; try done; try (by apply wrap_is_word); unfold is_word; lia. Qed.

(** ** Slots in the queue memory *)

Lemma slots_mem_app l1 l2 : slots_mem (l1 ++ l2) = slots_mem l1 ++ slots_mem l2.
Proof. unfold slots_mem. apply bind_app. Qed.

Lemma slots_mem_cons p l : slots_mem (p :: l) = payload_words p ++ slots_mem l.
Proof. done. Qed.

Lemma zlen_slots_mem l : zlen (slots_mem l) = 16 * zlen l.
Proof.
  induction l as [|p l IH]; [done|].
  rewrite slots_mem_cons, zlen_app, IH. unfold zlen. cbn [length]. rewrite length_payload_words. lia.
Qed.

Lemma slots_mem_split slots i s :
  slots !! i = Some s ->
  slots_mem slots = slots_mem (take i slots) ++ payload_words s ++ slots_mem (drop (S i) slots).
Proof. intros Hi. rewrite <- (take_drop_middle slots i s) at 1 by done. by rewrite slots_mem_app. Qed.

Lemma slot_off_split slots i s :
  slots !! i = Some s -> slot_off i = zlen (slots_mem (take i slots)).
Proof.
  intros Hi%lookup_lt_Some. rewrite zlen_slots_mem. unfold slot_off, zlen.
  rewrite length_take. lia.
Qed.

Lemma slots_mem_insert slots i s s' :
  slots !! i = Some s ->
  slots_mem (<[i := s']> slots)
  = slots_mem (take i slots) ++ payload_words s' ++ slots_mem (drop (S i) slots).
Proof.
  intros Hi. assert (i < length slots)%nat by eauto using lookup_lt_Some.
  rewrite insert_take_drop by done. by rewrite slots_mem_app.
Qed.

(** A structure read at a slot gives the payload of the slot. *)
Lemma read_payload_slot slots i s :
  Forall payload_ok slots -> slots !! i = Some s ->
  read_payload (slots_mem slots) (slot_off i) = Some s.
Proof.
  intros Hok Hi. unfold read_payload. rewrite bool_decide_true by (unfold slot_off; lia).
  rewrite (slots_mem_split slots i s) by done.
  rewrite (slot_off_split slots i s) by done. unfold zlen. rewrite Nat2Z.id.
  rewrite drop_app_length. apply words_payload_words.
  by eapply Forall_lookup_1.
Qed.

(** Stores into a block in the middle of the memory. *)
Section BlockStores.
Context (A blk B : list Z) (off k v : Z) (Hoff : off = zlen A + k).

Lemma writel_mid :
  0 <= k < zlen blk ->
  writel off v (A ++ blk ++ B) = Some (A ++ <[Z.to_nat k := u32 v]> blk ++ B).
Proof using Hoff. intros Hk. unfold writel. by apply zset_mid. Qed.

Lemma writeq_mid :
  0 <= k -> k + 1 < zlen blk ->
  writeq off v (A ++ blk ++ B)
  = Some (A ++ <[Z.to_nat (k + 1) := hi32 v]> (<[Z.to_nat k := lo32 v]> blk) ++ B).
Proof using Hoff.
  intros Hk Hk'. unfold writeq, writel. erewrite zset_mid by (done || lia). cbn [mbind option_bind].
  erewrite zset_mid with (k := k + 1) by (rewrite ?zlen_insert; lia).
  by rewrite !wrap_small by (apply lo32_word || apply hi32_word).
Qed.

Lemma writew_lo_mid d :
  0 <= k < zlen blk -> zget blk k = Some d ->
  writew_lo off v (A ++ blk ++ B)
  = Some (A ++ <[Z.to_nat k := d - d mod 2 ^ 16 + u16 v]> blk ++ B).
Proof using Hoff.
  intros Hk Hd. unfold writew_lo. erewrite zget_mid by done. rewrite Hd. cbn [mbind option_bind].
  by erewrite zset_mid.
Qed.

Lemma writew_hi_mid d :
  0 <= k < zlen blk -> zget blk k = Some d ->
  writew_hi off v (A ++ blk ++ B)
  = Some (A ++ <[Z.to_nat k := d mod 2 ^ 16 + u16 v * 2 ^ 16]> blk ++ B).
Proof using Hoff.
  intros Hk Hd. unfold writew_hi. erewrite zget_mid by done. rewrite Hd. cbn [mbind option_bind].
  by erewrite zset_mid.
Qed.

Lemma readq_mid lo hi :
  0 <= k -> k + 1 < zlen blk -> zget blk k = Some lo -> zget blk (k + 1) = Some hi ->
  readq (A ++ blk ++ B) off = Some (lo + hi * 2 ^ 32).
Proof using Hoff.
  intros Hk Hk' Hlo Hhi. unfold readq.
  rewrite (zget_mid _ _ _ off k) by lia. rewrite Hlo. cbn [mbind option_bind].
  rewrite (zget_mid _ _ _ (off + 1) (k + 1)) by lia. by rewrite Hhi.
Qed.

End BlockStores.

Ltac side_store := first [ done | lia | unfold zlen; cbn [length insert list_insert]; lia ].

Ltac store l k :=
  rewrite (l _ _ _ _ k) by (side_store); cbn [mbind option_bind];
  cbn [insert list_insert Z.to_nat Pos.to_nat Pos.iter_op Nat.add Z.add Pos.add Pos.succ].

(** The stores of [hw_fence_update_queue] replace the 16 words of the slot they
    start at by the encoding of the new payload. *)
Lemma write_body_block A B d0 d1 d2 d3 d4 d5 d6 d7 d8 d9 d10 d11 d12 d13 d14 d15
    ctxt_id seqno hash flags client_data error timestamp :
  (mem ← write_payload_body (zlen A) ctxt_id seqno hash flags client_data error
     (A ++ [d0;d1;d2;d3;d4;d5;d6;d7;d8;d9;d10;d11;d12;d13;d14;d15] ++ B);
   write_payload_timestamp (zlen A) timestamp mem)
  = Some (A ++ payload_words
      (new_payload ctxt_id seqno hash flags client_data error timestamp d15) ++ B).
Proof.
  unfold write_payload_body, write_payload_timestamp.
  store writeq_mid 0.
  erewrite (writew_lo_mid _ _ _ _ 1) by (side_store). cbn [mbind option_bind].
  cbn [insert list_insert Z.to_nat Pos.to_nat Pos.iter_op Nat.add].
  erewrite (writew_hi_mid _ _ _ _ 1) by (side_store). cbn [mbind option_bind].
  cbn [insert list_insert Z.to_nat Pos.to_nat Pos.iter_op Nat.add].
  store writeq_mid 2. store writeq_mid 4. store writeq_mid 6. store writeq_mid 8.
  store writeq_mid 10. store writel_mid 12. store writel_mid 13. store writel_mid 14.
  done.
Qed.

Lemma payload_words_16 p : exists d0 d1 d2 d3 d4 d5 d6 d7 d8 d9 d10 d11 d12 d13 d14,
  payload_words p = [d0;d1;d2;d3;d4;d5;d6;d7;d8;d9;d10;d11;d12;d13;d14;p_reserve p].
Proof. do 15 eexists. reflexivity. Qed.

(** Writing at a slot replaces the payload of that slot and no other word. *)
Lemma write_slot slots i s ctxt_id seqno hash flags client_data error timestamp :
  slots !! i = Some s ->
  (mem ← write_payload_body (slot_off i) ctxt_id seqno hash flags client_data error
     (slots_mem slots);
   write_payload_timestamp (slot_off i) timestamp mem)
  = Some (slots_mem
      (<[i := new_payload ctxt_id seqno hash flags client_data error timestamp (p_reserve s)]>
         slots)).
Proof.
  intros Hi. rewrite (slots_mem_insert _ _ s) by done.
  rewrite (slots_mem_split slots i s), (slot_off_split slots i s) by done.
  destruct (payload_words_16 s) as (d0&d1&d2&d3&d4&d5&d6&d7&d8&d9&d10&d11&d12&d13&d14&->).
  apply write_body_block.
Qed.

(** ** Index translation is a bijection on the indexes of a queue *)

Lemma requires_factor queue :
  REQUIRES_IDX_TRANSLATION queue = false ->
  rd_wr_idx_factor queue <> 0 -> rd_wr_idx_start queue = 0 /\ rd_wr_idx_factor queue <= 1.
Proof. unfold REQUIRES_IDX_TRANSLATION, truthy. lia. Qed.

Lemma slot_off_factor queue n i :
  idx_config_ok queue n -> (i <= n)%nat ->
  exists j, slot_off i = j * rd_wr_idx_factor queue /\ 0 <= j <= slot_off n / rd_wr_idx_factor queue.
Proof.
  intros ([Hf|Hf]&Hs&Hb) Hi; rewrite Hf; unfold slot_off in *.
  - exists (16 * Z.of_nat i). rewrite Z.div_1_r. lia.
  - exists (Z.of_nat i).
    replace (16 * Z.of_nat n / 16) with (Z.of_nat n) by (apply Z.div_unique with 0; lia). lia.
Qed.

(** Translating a stored index back gives the word offset it was made from. *)
Lemma to_default_custom queue n i :
  idx_config_ok queue n -> (i <= n)%nat ->
  to_default queue (to_custom queue (slot_off i)) = slot_off i.
Proof.
  intros Hcfg Hi. pose proof (slot_off_factor _ _ _ Hcfg Hi) as (j&Hj&Hjb).
  destruct Hcfg as (Hf&Hs&Hb&Hb'). unfold to_default, to_custom.
  destruct (REQUIRES_IDX_TRANSLATION queue); [|done].
  unfold IDX_TRANSLATE_CUSTOM_TO_DEFAULT, IDX_TRANSLATE_DEFAULT_TO_CUSTOM.
  assert (0 <= slot_off i < 2 ^ 32) by (unfold slot_off in *; lia).
  rewrite Hj, Z.div_mul by lia.
  rewrite (wrap_small 32 (j + _)) by (unfold is_word; lia).
  replace (j + rd_wr_idx_start queue - rd_wr_idx_start queue) with j by lia.
  rewrite (wrap_small 32 j) by (unfold is_word; lia).
  apply wrap_small. unfold is_word. lia.
Qed.

Lemma translate_layout queue slots h r w :
  queue_layout queue slots h r w ->
  _translate_queue_indexes_custom_to_default queue (read_index h)
    (if skip_wr_idx queue then tx_wm h else write_index h) = (slot_off r, slot_off w).
Proof.
  intros []. rewrite ql_read0, ql_write0.
  pose proof (to_default_custom queue (length slots) r ql_cfg0 ltac:(lia)) as Hr.
  pose proof (to_default_custom queue (length slots) w ql_cfg0 ltac:(lia)) as Hw.
  unfold to_default in Hr, Hw. unfold _translate_queue_indexes_custom_to_default.
  destruct (REQUIRES_IDX_TRANSLATION queue); by rewrite Hr, Hw.
Qed.

(** The index after a slot: the next slot, or the first after the last. *)
Lemma next_index queue slots h r w i :
  queue_layout queue slots h r w -> (i < length slots)%nat ->
  (let idx := u32 (slot_off i + sizeof_payload / 4) in
   if q_size_bytes queue / 4 <=? idx then 0 else idx) = slot_off (ring (length slots) (S i)).
Proof.
  intros [] Hi. destruct ql_cfg0 as (_&?&_&?). cbv zeta.
  rewrite ql_size0. unfold sizeof_payload, slot_off, zlen in *.
  replace (64 / 4) with 16 by done.
  wsmall.
  replace (64 * Z.of_nat (length slots) / 4) with (16 * Z.of_nat (length slots))
    by (apply Z.div_unique with 0; lia).
  unfold ring. case_decide; destruct (_ <=? _) eqn:?; lia.
Qed.

Lemma slot_off_inj i j : slot_off i = slot_off j -> i = j.
Proof. unfold slot_off. lia. Qed.

Lemma layout_config_eq queue queue' n :
  rd_wr_idx_start queue' = rd_wr_idx_start queue ->
  rd_wr_idx_factor queue' = rd_wr_idx_factor queue ->
  (idx_config_ok queue n -> idx_config_ok queue' n) /\
  (forall i, to_custom queue' i = to_custom queue i).
Proof.
  intros Hs Hf. unfold idx_config_ok, to_custom, REQUIRES_IDX_TRANSLATION,
    IDX_TRANSLATE_DEFAULT_TO_CUSTOM. rewrite Hs, Hf. done.
Qed.

(** Moving the read index forward keeps the layout. *)
Lemma set_read_layout queue slots h r w r' :
  queue_layout queue slots h r w -> (r' < length slots)%nat ->
  queue_layout (set_read_index (to_custom queue (slot_off r')) queue) slots
    (h <| read_index := to_custom queue (slot_off r') |>) r' w.
Proof.
  intros [] Hr'. split; cbn; try done.
  - by rewrite ql_header0.
Qed.

(** Writing a slot and moving the writer's index forward keeps the layout. *)
Lemma set_write_layout queue slots h r w w' p mem :
  queue_layout queue slots h r w -> (w' < length slots)%nat -> payload_ok p ->
  mem = slots_mem (<[w := p]> slots) ->
  exists h',
  queue_layout (set_wr_ptr (to_custom queue (slot_off w')) (queue <| q_mem := mem |>))
    (<[w := p]> slots) h' r w'.
Proof.
  intros [] Hw' Hp ->.
  exists (if skip_wr_idx queue then h <| tx_wm := to_custom queue (slot_off w') |>
     else h <| write_index := to_custom queue (slot_off w') |>).
  unfold set_wr_ptr; cbn.
  split; rewrite ?length_insert, ?zlen_insert;
    destruct (skip_wr_idx queue) eqn:Hskip; cbn; rewrite ?Hskip, ?ql_header0; cbn; try done.
  all: by apply Forall_insert.
Qed.

(** ** Reading and updating implement the FIFO *)

(** A queue of the driver that the driver itself reads: the writer's index is
    [write_index]. *)
Lemma read_queue_helper_cons queue p l :
  queue_repr queue (p :: l) -> skip_wr_idx queue = false ->
  exists ret queue', hw_fence_read_queue_helper queue = Done ((ret, Some p), queue') /\
    queue_repr queue' l /\ 0 <= ret <= 1 /\ skip_wr_idx queue' = false /\
    capacity queue' = capacity queue /\
    (REQUIRES_IDX_TRANSLATION queue = false -> ret = 0 <-> l = []).
Proof.
  intros (slots&h&r&Hlay&Hlen&Hslots) Hskip. pose proof Hlay as [].
  pose proof (translate_layout _ _ _ _ _ Hlay) as Htr. rewrite Hskip in Htr.
  pose proof (next_index _ _ _ _ _ r Hlay ql_r0) as Hnext. cbv zeta in Hnext.
  assert (Hp := Hslots 0%nat ltac:(cbn; lia)). unfold ring in Hp.
  rewrite Nat.add_0_r, decide_True in Hp by lia. cbn in Hp.
  cbn [length] in *.
  assert (Hr' : (ring (length slots) (S r) < length slots)%nat) by (apply ring_lt; lia).
  unfold hw_fence_read_queue_helper, getM, mbind, M_bind, liftO, modify, mret, M_ret.
  rewrite ql_header0, Htr.
  destruct (Z.eqb_spec (slot_off r) (slot_off (ring (length slots) (r + S (length l))))) as [He|He].
  { apply slot_off_inj in He. unfold ring in He. case_decide; lia. }
  rewrite Hnext, ql_mem0, read_payload_slot with (s := p) by done.
  fold (to_custom queue (slot_off (ring (length slots) (S r)))).
  eexists _, _. split; [reflexivity|]. split_and!.
  - eexists slots, _, (ring (length slots) (S r)). split_and!; [|lia|].
    + replace (ring (length slots) (ring (length slots) (S r) + length l))
        with (ring (length slots) (r + S (length l))) by (symmetry; apply ring_S; lia).
      by eapply set_read_layout.
    + intros k Hk. rewrite ring_S by lia. apply Hslots. cbn; lia.
  - destruct (_ =? _); lia.
  - destruct (_ =? _); lia.
  - done.
  - done.
  - intros Hreq. unfold to_custom. rewrite Hreq.
    destruct (Z.eqb_spec (slot_off (ring (length slots) (S r)))
      (slot_off (ring (length slots) (r + S (length l))))) as [He'|He'].
    + apply slot_off_inj in He'. replace (S r) with (r + 1)%nat in He' by lia.
      apply ring_inj in He'; [|lia..]. destruct l; cbn in *; [done|lia].
    + split; [done|]. intros ->. cbn in He'. by replace (r + 1)%nat with (S r) in He' by lia.
Qed.

Lemma read_queue_helper_nil queue :
  queue_repr queue [] -> skip_wr_idx queue = false ->
  hw_fence_read_queue_helper queue = Done ((- EINVAL, None), queue).
Proof.
  intros (slots&h&r&Hlay&_&_) Hskip. pose proof Hlay as [].
  pose proof (translate_layout _ _ _ _ _ Hlay) as Htr. rewrite Hskip in Htr.
  unfold hw_fence_read_queue_helper, getM, mbind, M_bind.
  rewrite ql_header0, Htr. cbn [length]. rewrite Nat.add_0_r. unfold ring.
  rewrite decide_True by done. by rewrite Z.eqb_refl.
Qed.

(** The room computed from the two indexes. *)
Lemma q_free_layout queue slots h r l :
  queue_layout queue slots h r (ring (length slots) (r + l)) -> (l < length slots)%nat ->
  q_free_u32 (q_size_bytes queue / 4) (slot_off r) (slot_off (ring (length slots) (r + l)))
  = 16 * (zlen slots - Z.of_nat l).
Proof.
  intros [] Hl. destruct ql_cfg0 as (_&?&_&?). rewrite ql_size0.
  replace (64 * zlen slots / 4) with (16 * zlen slots) by (apply Z.div_unique with 0; lia).
  unfold q_free_u32, slot_off, ring, zlen in *.
  case_decide; destruct (_ <=? _) eqn:?; wsmall; lia.
Qed.

(** ** Queues inside the driver state *)

Definition queue_of (d : hw_fence_driver_data) (c t : Z) : option msm_hw_fence_queue :=
  match zget (clients d) c with
  | Some (Some cl) => zget (queues cl) t
  | _ => None
  end.

Definition set_queue (c t : Z) (queue : msm_hw_fence_queue) (d : hw_fence_driver_data)
    : hw_fence_driver_data :=
  match zget (clients d) c with
  | Some (Some cl) =>
      d <| clients ::= fun l =>
        <[Z.to_nat c := Some (cl <| queues ::= fun qs => <[Z.to_nat t := queue]> qs |>)]> l |>
  | _ => d
  end.

Lemma queue_of_client d c t queue :
  queue_of d c t = Some queue ->
  exists cl, zget (clients d) c = Some (Some cl) /\ zget (queues cl) t = Some queue.
Proof.
  unfold queue_of. intros H. destruct (zget (clients d) c) as [[cl|]|]; eauto; done.
Qed.

Lemma get_client_run d c cl :
  zget (clients d) c = Some (Some cl) -> get_client c d = Done (cl, d).
Proof. intros H. unfold get_client. by rewrite H. Qed.

Lemma put_client_run d c cl cl' :
  zget (clients d) c = Some (Some cl) ->
  put_client c cl' d = Done (tt, d <| clients ::= fun l => <[Z.to_nat c := Some cl']> l |>).
Proof. intros H. unfold put_client. rewrite zset_in by (eapply zget_Some; done). done. Qed.

Lemma on_queue_run {A} d c t queue (m : QM A) :
  queue_of d c t = Some queue ->
  on_queue c t m d =
  match m queue with
  | Done (a, queue') => Done (a, set_queue c t queue' d)
  | Fault f => Fault f
  end.
Proof.
  intros (cl&Hcl&Hq)%queue_of_client.
  unfold on_queue, mbind, M_bind, liftO, set_queue.
  rewrite (get_client_run _ _ cl), Hq by done.
  destruct (m queue) as [[a queue']|f]; [|done].
  rewrite (put_client_run _ _ cl) by done. by rewrite Hcl.
Qed.

Lemma repr_capacity queue slots h r w :
  queue_layout queue slots h r w -> capacity queue = length slots.
Proof.
  intros []. unfold capacity, sizeof_payload. rewrite ql_size0.
  rewrite Z.mul_comm, Z.div_mul by lia. unfold zlen. lia.
Qed.

Section Update.
Context (d : hw_fence_driver_data) (c t : Z) (queue : msm_hw_fence_queue) (l : list queue_payload).
Context (ctxt_id seqno hash flags client_data error : Z).
Context (Hqueue : queue_of d c t = Some queue) (Hrepr : queue_repr queue l).
Context (Hctxt : is_word 64 ctxt_id) (Hseqno : is_word 64 seqno) (Hhash : is_word 64 hash).
Context (Hflags : is_word 64 flags) (Hdata : is_word 64 client_data).

(** A full queue is left as it is. *)
Lemma update_queue_locked_full :
  (capacity queue <= S (length l))%nat ->
  update_queue_locked c t ctxt_id seqno hash flags client_data error d = Done (- EINVAL, d).
Proof using Hqueue Hrepr.
  intros Hfull. destruct Hrepr as (slots&h&r&Hlay&Hlen&_). pose proof Hlay as [].
  rewrite (repr_capacity _ _ _ _ _ Hlay) in Hfull.
  pose proof (translate_layout _ _ _ _ _ Hlay) as Htr.
  apply queue_of_client in Hqueue as (cl&Hcl&Hq).
  unfold update_queue_locked, mbind, M_bind, liftO, _get_update_queue_params.
  rewrite (get_client_run _ _ cl), Hq, ql_header0, Htr by done.
  rewrite (q_free_layout _ _ _ _ _ Hlay) by done.
  destruct (16 * _ <=? _) eqn:Hle; [done|]. unfold sizeof_payload, zlen in Hle.
  replace (64 / 4) with 16 in Hle by done. lia.
Qed.

(** Otherwise the payload is appended, stamped with the next reading of the
    counter. *)
Lemma update_queue_locked_room :
  (S (length l) < capacity queue)%nat ->
  exists queue' reserve,
    update_queue_locked c t ctxt_id seqno hash flags client_data error d
      = Done (0, set_queue c t queue' (d <| qtime_reads ::= S |>)) /\
    queue_repr queue'
      (l ++ [new_payload ctxt_id seqno hash flags client_data error
               (qtimer d (qtime_reads d)) reserve]) /\
    skip_wr_idx queue' = skip_wr_idx queue /\
    capacity queue' = capacity queue.
Proof using Hqueue Hrepr Hctxt Hseqno Hhash Hflags Hdata.
  intros Hroom. destruct Hrepr as (slots&h&r&Hlay&Hlen&Hslots). pose proof Hlay as [].
  pose proof (repr_capacity _ _ _ _ _ Hlay) as Hcap. rewrite Hcap in *.
  pose proof (translate_layout _ _ _ _ _ Hlay) as Htr.
  set (w := ring (length slots) (r + length l)) in *.
  pose proof (next_index _ _ _ _ _ w Hlay ql_w0) as Hnext. cbv zeta in Hnext.
  destruct (lookup_lt_is_Some_2 slots w ql_w0) as [s Hs].
  pose proof (write_slot slots w s ctxt_id seqno hash flags client_data error
    (qtimer d (qtime_reads d)) Hs) as Hwrite.
  destruct (write_payload_body _ _ _ _ _ _ _ (slots_mem slots)) as [mem|] eqn:Hbody; [|done].
  cbn [mbind option_bind] in Hwrite.
  apply queue_of_client in Hqueue as (cl&Hcl&Hq).
  unfold update_queue_locked, mbind, M_bind, liftO, _get_update_queue_params.
  rewrite (get_client_run _ _ cl), Hq, ql_header0, Htr by done.
  pose proof (q_free_layout _ _ _ _ _ Hlay Hlen) as Hfree. fold w in Hfree. rewrite Hfree.
  destruct (16 * _ <=? _) eqn:Hle.
  { unfold sizeof_payload, zlen in Hle. replace (64 / 4) with 16 in Hle by done. lia. }
  rewrite Hnext, ql_mem0, Hbody. cbn [hw_fence_get_qtime]. unfold hw_fence_get_qtime.
  rewrite Hwrite. fold (to_custom queue (slot_off (ring (length slots) (S w)))).
  rewrite (put_client_run _ _ cl) by done.
  assert (Hw' : (ring (length slots) (S w) < length slots)%nat) by (apply ring_lt; lia).
  assert (Hnew := new_payload_ok ctxt_id seqno hash flags client_data error
    (qtimer d (qtime_reads d)) (p_reserve s) Hctxt Hseqno Hhash Hflags Hdata
    ltac:(by eapply ok_reserve, (Forall_lookup_1 _ _ _ _ ql_slots0 Hs))).
  destruct (set_write_layout _ _ _ _ _ _ _ _ Hlay Hw' Hnew eq_refl) as [h' Hlay'].
  eexists _, (p_reserve s). split_and!.
  - unfold set_queue. cbn. by rewrite Hcl.
  - eexists (<[w := _]> slots), h', r. rewrite length_insert, length_app. cbn [length]. split_and!; [|lia|].
    + replace (ring (length slots) (r + (length l + 1))) with (ring (length slots) (S w)); [done|].
      unfold w, ring. repeat case_decide; lia.
    + intros k Hk. destruct (decide (k = length l)) as [->|Hne].
      * fold w. rewrite list_lookup_insert_eq by done.
        rewrite lookup_app_r, Nat.sub_diag by lia. done.
      * rewrite list_lookup_insert_ne, lookup_app_l, Hslots; [done|lia|lia|].
        intros He. apply ring_inj in He; lia.
  - unfold set_wr_ptr. cbn. by destruct (skip_wr_idx queue) eqn:Hsk; cbn.
  - etransitivity; [exact (repr_capacity _ _ _ _ _ Hlay')|by rewrite length_insert].
Qed.

End Update.

(** ** The whole update, lock included *)

(** The Rx queue of a client is written under the client's lock: the lock
    exists and nobody holds it. *)
Definition rx_lock_ready (d : hw_fence_driver_data) (cl : msm_hw_fence_client) (t : Z) : Prop :=
  _lock_client_queue t = true ->
  u32 (client_id cl - 1) < client_lock_tbl_cnt d /\
  exists v, zget (client_lock_tbl d) (u32 (client_id cl - 1)) = Some v /\ low32 v = 0.

(** Client [c] has a queue [t] holding [l], and may be written. *)
Record queue_ready (d : hw_fence_driver_data) (c t : Z) (queue : msm_hw_fence_queue)
    (l : list queue_payload) : Prop := {
  qr_client : exists cl, zget (clients d) c = Some (Some cl) /\ t < queues_num cl /\
                rx_lock_ready d cl t;
  qr_queue : queue_of d c t = Some queue;
  qr_repr : queue_repr queue l;
}.

(** Taking and giving back a free client lock around an operation that does
    not touch the locks leaves the locks as they were. *)
Definition client_locked (i v : Z) (d : hw_fence_driver_data) : hw_fence_driver_data :=
  d <| client_lock_tbl ::= fun l => <[Z.to_nat i := v + 1]> l |>.

Section ClientLock.
Context (d : hw_fence_driver_data) (i v : Z).
Context (Hv : zget (client_lock_tbl d) i = Some v) (Hfree : low32 v = 0).

Lemma lock_client_free : lock_client i d = Done (tt, client_locked i v d).
Proof using Hv Hfree. unfold lock_client. by rewrite Hv, _lock_free. Qed.

Lemma unlock_client_locked d' :
  client_lock_tbl d' = client_lock_tbl (client_locked i v d) ->
  unlock_client i d' = Done (tt, d' <| client_lock_tbl := client_lock_tbl d |>).
Proof using Hv Hfree.
  intros Hd'. pose proof (zget_Some _ _ _ Hv) as Hi. pose proof Hv as Hv'.
  unfold unlock_client. rewrite Hd'. unfold client_locked. cbn.
  rewrite zget_insert_eq by lia. rewrite _unlock_val_lock, _unlock_wake_free by done.
  rewrite zget_to_nat in Hv' by lia.
  unfold upd. rewrite Hd'. unfold client_locked, upd. cbn. rewrite list_insert_insert_eq.
  by rewrite list_insert_id.
Qed.

Lemma with_client_lock {A} (m : DM A) a d' :
  m (client_locked i v d) = Done (a, d') ->
  client_lock_tbl d' = client_lock_tbl (client_locked i v d) ->
  (lock_client i ;; ret ← m; unlock_client i ;; mret ret) d
  = Done (a, d' <| client_lock_tbl := client_lock_tbl d |>).
Proof using Hv Hfree.
  intros Hm Hd'. unfold mbind, M_bind.
  by rewrite lock_client_free, Hm, (unlock_client_locked _ Hd').
Qed.

End ClientLock.

Lemma set_queue_same_locks c t queue d :
  client_lock_tbl (set_queue c t queue d) = client_lock_tbl d.
Proof. unfold set_queue. by destruct (zget (clients d) c) as [[]|]. Qed.

Lemma set_queue_same_tbl c t queue d : hw_fences_tbl (set_queue c t queue d) = hw_fences_tbl d.
Proof. unfold set_queue. by destruct (zget (clients d) c) as [[]|]. Qed.

Lemma set_queue_restore_locks c t queue d g tbl0 reads :
  (set_queue c t queue (d <| client_lock_tbl ::= g |> <| qtime_reads ::= reads |>))
    <| client_lock_tbl := tbl0 |>
  = set_queue c t queue (d <| client_lock_tbl := tbl0 |> <| qtime_reads ::= reads |>).
Proof. unfold set_queue. cbn. by destruct (zget (clients d) c) as [[]|]. Qed.

Lemma set_queue_lookup c t queue queue0 d :
  queue_of d c t = Some queue0 ->
  queue_of (set_queue c t queue d) c t = Some queue /\
  forall cl, zget (clients d) c = Some (Some cl) ->
    zget (clients (set_queue c t queue d)) c
    = Some (Some (cl <| queues ::= fun qs => <[Z.to_nat t := queue]> qs |>)).
Proof.
  intros (cl&Hcl&Hq)%queue_of_client. unfold queue_of, set_queue. rewrite Hcl. cbn.
  rewrite zget_insert_eq by (eapply zget_Some; done). cbn.
  rewrite zget_insert_eq by (eapply zget_Some; done).
  split; [done|]. intros cl' [= ->]. done.
Qed.

Lemma set_queue_same d c t queue : queue_of d c t = Some queue -> set_queue c t queue d = d.
Proof.
  intros (cl&Hcl&Hq)%queue_of_client. pose proof (zget_Some _ _ _ Hcl). pose proof (zget_Some _ _ _ Hq).
  unfold set_queue. rewrite Hcl. rewrite zget_to_nat in Hcl by lia. rewrite zget_to_nat in Hq by lia.
  assert (Hcl' : cl <| queues ::= fun qs => <[Z.to_nat t := queue]> qs |> = cl).
  { destruct cl. unfold upd. cbn in *. by rewrite list_insert_id. }
  rewrite Hcl'. destruct d. unfold upd. cbn in *. by rewrite list_insert_id.
Qed.

Lemma eta_locks d : d <| client_lock_tbl := client_lock_tbl d |> = d.
Proof. by destruct d. Qed.

Lemma update_queue_room d c t queue l ctxt_id seqno hash flags client_data error :
  queue_ready d c t queue l -> (S (length l) < capacity queue)%nat ->
  is_word 64 ctxt_id -> is_word 64 seqno -> is_word 64 hash -> is_word 64 flags ->
  is_word 64 client_data ->
  exists queue' reserve,
    hw_fence_update_queue c ctxt_id seqno hash flags client_data error t d
      = Done (0, set_queue c t queue' (d <| qtime_reads ::= S |>)) /\
    queue_repr queue'
      (l ++ [new_payload ctxt_id seqno hash flags client_data error
               (qtimer d (qtime_reads d)) reserve]) /\
    skip_wr_idx queue' = skip_wr_idx queue /\ capacity queue' = capacity queue.
Proof.
  intros [(cl&Hcl&Hnum&Hlock) Hq Hrepr] Hroom ?????.
  pose proof (queue_of_client _ _ _ _ Hq) as (cl'&Hcl'&Hq'). assert (cl' = cl) as -> by congruence.
  unfold hw_fence_update_queue, mbind at 1, M_bind at 1.
  rewrite (get_client_run _ _ cl) by done.
  destruct (queues_num cl <=? t) eqn:Hn; [lia|].
  unfold mbind at 1, M_bind at 1, liftO. rewrite Hq'.
  pose proof Hrepr as (slots&h&r&[]&_&_). unfold _get_update_queue_params. rewrite ql_header0.
  unfold rx_lock_ready in Hlock. destruct (_lock_client_queue t).
  - destruct (Hlock eq_refl) as (Hcnt&v&Hv&Hfree).
    unfold mbind at 1, M_bind at 1, getM.
    destruct (client_lock_tbl_cnt d <=? _) eqn:Hle; [lia|].
    set (i := u32 (client_id cl - 1)) in *.
    set (locked := client_locked i v d).
    destruct (update_queue_locked_room locked c t queue l ctxt_id seqno hash flags client_data error)
      as (queue'&reserve&Hrun&Hrepr'&Hskip&Hcap); [done..|].
    exists queue', reserve. split_and!; [|done..].
    erewrite (with_client_lock d i v); [|done|done|exact Hrun|].
    + do 2 f_equal. unfold locked, client_locked. rewrite set_queue_restore_locks. by rewrite eta_locks.
    + by rewrite set_queue_same_locks.
  - by apply update_queue_locked_room.
Qed.

Lemma update_queue_full d c t queue l ctxt_id seqno hash flags client_data error :
  queue_ready d c t queue l -> (capacity queue <= S (length l))%nat ->
  hw_fence_update_queue c ctxt_id seqno hash flags client_data error t d = Done (- EINVAL, d).
Proof.
  intros [(cl&Hcl&Hnum&Hlock) Hq Hrepr] Hfull.
  pose proof (queue_of_client _ _ _ _ Hq) as (cl'&Hcl'&Hq'). assert (cl' = cl) as -> by congruence.
  unfold hw_fence_update_queue, mbind at 1, M_bind at 1.
  rewrite (get_client_run _ _ cl) by done.
  destruct (queues_num cl <=? t) eqn:Hn; [lia|].
  unfold mbind at 1, M_bind at 1, liftO. rewrite Hq'.
  pose proof Hrepr as (slots&h&r&[]&_&_). unfold _get_update_queue_params. rewrite ql_header0.
  unfold rx_lock_ready in Hlock. destruct (_lock_client_queue t).
  - destruct (Hlock eq_refl) as (Hcnt&v&Hv&Hfree).
    unfold mbind at 1, M_bind at 1, getM.
    destruct (client_lock_tbl_cnt d <=? _) eqn:Hle; [lia|].
    set (i := u32 (client_id cl - 1)) in *.
    set (locked := client_locked i v d).
    rewrite (with_client_lock d i v Hv Hfree _ (- EINVAL) locked).
    + by destruct d.
    + by apply (update_queue_locked_full locked c t queue l).
    + done.
  - by apply (update_queue_locked_full d c t queue l).
Qed.

(** ** The FIFO as an abstract machine *)

(** What the writer provides. *)
Record message := mkMessage {
  m_ctxt_id : Z; m_seqno : Z; m_hash : Z; m_flags : Z; m_client_data : Z; m_error : Z;
}.

Record message_ok (m : message) : Prop := {
  mok_ctxt : is_word 64 (m_ctxt_id m);
  mok_seqno : is_word 64 (m_seqno m);
  mok_hash : is_word 64 (m_hash m);
  mok_flags : is_word 64 (m_flags m);
  mok_data : is_word 64 (m_client_data m);
  mok_error : is_word 32 (m_error m);
}.

Definition payload_message (p : queue_payload) : message :=
  mkMessage (p_ctxt_id p) (p_seqno p) (p_hash p) (p_flags p) (p_client_data p) (p_error p).

Inductive queue_op : Type :=
| OpPut (m : message)
| OpGet.

(** A bounded FIFO that keeps one of its [cap] slots free; [OpPut] answers
    whether the message was taken, [OpGet] the message, if any. *)
Definition fifo_step (cap : nat) (op : queue_op) (l : list message)
    : (bool * option message) * list message :=
  match op with
  | OpPut m => if decide (S (length l) < cap)%nat then ((true, None), l ++ [m]) else ((false, None), l)
  | OpGet => match l with
             | [] => ((false, None), [])
             | m :: l' => ((true, Some m), l')
             end
  end.

Fixpoint fifo_run (cap : nat) (ops : list queue_op) (l : list message)
    : list (bool * option message) * list message :=
  match ops with
  | [] => ([], l)
  | op :: ops' =>
      let '(r, l1) := fifo_step cap op l in
      let '(rs, l2) := fifo_run cap ops' l1 in (r :: rs, l2)
  end.

(** The same operations on the driver: a return value that is not negative is
    a success. *)
Definition drv_step (c t : Z) (op : queue_op) : DM (bool * option message) :=
  match op with
  | OpPut m =>
      ret ← hw_fence_update_queue c (m_ctxt_id m) (m_seqno m) (m_hash m) (m_flags m)
              (m_client_data m) (m_error m) t;
      mret (0 <=? ret, None)
  | OpGet =>
      '(ret, p) ← hw_fence_read_queue (Some c) t;
      mret (0 <=? ret, payload_message <$> p)
  end.

Fixpoint drv_run (c t : Z) (ops : list queue_op) : DM (list (bool * option message)) :=
  match ops with
  | [] => mret []
  | op :: ops' => r ← drv_step c t op; rs ← drv_run c t ops'; mret (r :: rs)
  end.

Definition op_ok (op : queue_op) : Prop :=
  match op with OpPut m => message_ok m | OpGet => True end.

Lemma queue_ready_step d c t queue queue' l l' g :
  queue_ready d c t queue l -> queue_repr queue' l' ->
  queue_ready (set_queue c t queue' (d <| qtime_reads ::= g |>)) c t queue' l'.
Proof.
  intros [(cl&Hcl&Hn&Hlock) Hq _] Hrepr.
  assert (Hq0 : queue_of (d <| qtime_reads ::= g |>) c t = Some queue) by exact Hq.
  destruct (set_queue_lookup c t queue' queue _ Hq0) as [Hq' Hcl'].
  split; [|exact Hq'|exact Hrepr]. eexists. split; [apply Hcl'; exact Hcl|]. split; [exact Hn|].
  unfold rx_lock_ready. rewrite set_queue_same_locks. cbn.
  unfold rx_lock_ready in Hlock. intros Ht. specialize (Hlock Ht).
  unfold set_queue. cbn. by rewrite Hcl.
Qed.

(** One operation on the driver's queue is one step of the FIFO. *)
Lemma drv_step_fifo d c t queue l op :
  0 <= t < HW_FENCE_CLIENT_QUEUES ->
  queue_ready d c t queue l -> skip_wr_idx queue = false -> op_ok op ->
  exists queue' l' d',
    drv_step c t op d = Done ((fifo_step (capacity queue) op (payload_message <$> l)).1, d') /\
    (fifo_step (capacity queue) op (payload_message <$> l)).2 = payload_message <$> l' /\
    queue_ready d' c t queue' l' /\ skip_wr_idx queue' = false /\
    capacity queue' = capacity queue.
Proof.
  intros Ht Hready Hskip Hop. destruct op as [m|]; cbn [fifo_step drv_step].
  - destruct Hop. rewrite length_fmap. case_decide as Hroom.
    + edestruct (update_queue_room d c t queue l (m_ctxt_id m) (m_seqno m) (m_hash m) (m_flags m)
        (m_client_data m) (m_error m)) as (queue'&reserve&Hrun&Hrepr&Hsk&Hcap); [done..|].
      exists queue', (l ++ [new_payload (m_ctxt_id m) (m_seqno m) (m_hash m) (m_flags m)
        (m_client_data m) (m_error m) (qtimer d (qtime_reads d)) reserve]).
      eexists. unfold mbind, M_bind. rewrite Hrun. split; [reflexivity|].
      split; [|split; [|by rewrite Hsk]].
      * rewrite fmap_app. cbn. unfold payload_message at 3. cbn. rewrite wrap_small by done.
        by destruct m.
      * by eapply queue_ready_step.
    + exists queue, l, d. unfold mbind, M_bind.
      rewrite (update_queue_full d c t queue l) by (done || lia). done.
  - destruct Hready as [Hcl Hq Hrepr] eqn:Hr. clear Hr.
    unfold hw_fence_read_queue. destruct (_ <=? _) eqn:Hle; [lia|].
    unfold mbind, M_bind. rewrite (on_queue_run _ _ _ queue) by done. destruct l as [|p l].
    + rewrite read_queue_helper_nil by done. exists queue, [].
      eexists. cbn. split; [reflexivity|]. split; [done|]. split; [|done].
      pose proof (queue_ready_step d c t queue queue [] [] (fun n => n) ltac:(by split) Hrepr) as H.
      by replace (d <| qtime_reads ::= fun n => n |>) with d in H by (by destruct d).
    + destruct (read_queue_helper_cons queue p l Hrepr Hskip)
        as (ret&queue'&Hrun&Hrepr'&Hret&Hsk&Hcap&_).
      rewrite Hrun. exists queue', l. eexists. cbn.
      destruct (0 <=? ret) eqn:Hret0; [|lia]. split; [reflexivity|]. split; [done|].
      split; [|done].
      pose proof (queue_ready_step d c t queue queue' (p :: l) l (fun n => n) ltac:(by split) Hrepr') as H.
      by replace (d <| qtime_reads ::= fun n => n |>) with d in H by (by destruct d).
Qed.

(** ** The update of a queued entry *)

(** What it means on the list of payloads. *)
Definition update_existing (hash err : Z) (l : list queue_payload) : option (list queue_payload) :=
  match l with
  | [] => None
  | p :: l' =>
      if p_hash p =? hash then Some (p <| p_error := err |> :: l')
      else match l' with
           | [] => None
           | s :: l'' =>
               if p_hash s =? hash then Some (s <| p_error := err |> :: p :: l'') else None
           end
  end.

Lemma read_hash_slot slots i s :
  Forall payload_ok slots -> slots !! i = Some s ->
  readq (slots_mem slots) (slot_off i + 6) = Some (p_hash s).
Proof.
  intros Hok Hs. rewrite (slots_mem_split slots i s), (slot_off_split slots i s) by done.
  rewrite (readq_mid _ _ _ _ 6 eq_refl (lo32 (p_hash s)) (hi32 (p_hash s))) by done.
  rewrite lo_hi; [done|]. apply ok_hash. by eapply Forall_lookup_1.
Qed.

Lemma write_error_slot slots i s err :
  slots !! i = Some s ->
  writel (slot_off i + 12) err (slots_mem slots)
  = Some (slots_mem (<[i := s <| p_error := u32 err |>]> slots)).
Proof.
  intros Hs. rewrite (slots_mem_insert _ _ s) by done.
  rewrite (slots_mem_split slots i s), (slot_off_split slots i s) by done.
  by rewrite (writel_mid _ _ _ _ 12).
Qed.

Lemma write_struct_slot slots i s p :
  slots !! i = Some s ->
  write_struct (slot_off i) p (slots_mem slots) = Some (slots_mem (<[i := p]> slots)).
Proof.
  intros Hs. pose proof (slot_off_split _ _ _ Hs) as Hoff.
  rewrite (slots_mem_insert _ _ s) by done.
  rewrite (slots_mem_split slots i s) by done. unfold write_struct.
  rewrite bool_decide_true.
  - rewrite Hoff. unfold zlen. rewrite Nat2Z.id, take_app_length.
    do 3 f_equal. rewrite drop_app_ge by lia.
    replace (length _ + 16 - length _)%nat with (length (payload_words s)) by (rewrite length_payload_words; lia).
    by rewrite drop_app_length.
  - rewrite !zlen_app, <- Hoff. split; [unfold slot_off; lia|].
    pose proof (zlen_nonneg (slots_mem (drop (S i) slots))).
    replace (zlen (payload_words s)) with 16 by done. lia.
Qed.

Lemma set_error_ok p err : payload_ok p -> is_word 32 err -> payload_ok (p <| p_error := err |>).
Proof. intros [] ?. by split. Qed.

(** Rewriting slots of the queue, in place. *)
Lemma set_slots_repr queue slots slots' h r (l l' : list queue_payload) :
  queue_layout queue slots h r (ring (length slots) (r + length l)) ->
  (length l < length slots)%nat -> length slots' = length slots -> length l' = length l ->
  Forall payload_ok slots' ->
  (forall k, (k < length l)%nat -> slots' !! ring (length slots) (r + k) = l' !! k) ->
  queue_repr (queue <| q_mem := slots_mem slots' |>) l'.
Proof.
  intros [] Hlen Hs Hl Hok Hslots. exists slots', h, r. rewrite Hl, Hs. split_and!; [|lia|done].
  split; cbn; try done; unfold zlen in *; rewrite ?Hs; done.
Qed.

Section UpdateExisting.
Context (queue : msm_hw_fence_queue) (slots : list queue_payload) (h : hfi_queue_header) (r : nat).
Context (hash err : Z) (p : queue_payload) (l : list queue_payload).
Context (Hlay : queue_layout queue slots h r (ring (length slots) (r + S (length l)))).
Context (Hlen : (S (length l) < length slots)%nat) (Herr : is_word 32 err).
Context (Hslots : forall k, (k < S (length l))%nat -> slots !! ring (length slots) (r + k) = (p :: l) !! k).

Lemma update_first :
  p_hash p = hash ->
  exists queue', update_existing_payload hash err queue = Done (0, queue') /\
    queue_repr queue' (p <| p_error := err |> :: l).
Proof using Hlay Hlen Herr Hslots.
  intros Hh. pose proof Hlay as []. pose proof (translate_layout _ _ _ _ _ Hlay) as Htr.
  assert (Hp := Hslots 0%nat ltac:(cbn; lia)). rewrite ring_0 in Hp by done. cbn in Hp.
  unfold update_existing_payload, mbind, M_bind, getM, liftO, modify, _get_update_queue_params.
  rewrite ql_header0, Htr.
  destruct (Z.eqb_spec (slot_off r) (slot_off (ring (length slots) (r + S (length l))))) as [He|_].
  { apply slot_off_inj in He. unfold ring in He. case_decide; lia. }
  rewrite ql_mem0, (read_hash_slot slots r p), Hh, Z.eqb_refl by done.
  rewrite (write_error_slot slots r p), wrap_small by done.
  eexists. split; [reflexivity|].
  apply (set_slots_repr queue slots _ h r (p :: l)); cbn [length];
    rewrite ?length_insert; try done.
  - apply Forall_insert; [done|]. apply set_error_ok; [|done]. by eapply Forall_lookup_1.
  - intros [|k] Hk; [rewrite ring_0, list_lookup_insert_eq by done; done|].
    rewrite list_lookup_insert_ne; [by rewrite Hslots|].
    apply ring_ne_0; lia.
Qed.

Lemma update_first_miss :
  p_hash p <> hash -> (l = [] \/ exists s l', l = s :: l' /\ p_hash s <> hash) ->
  update_existing_payload hash err queue = Done (- EINVAL, queue).
Proof using Hlay Hlen Hslots.
  intros Hh Hl. pose proof Hlay as []. pose proof (translate_layout _ _ _ _ _ Hlay) as Htr.
  assert (Hp := Hslots 0%nat ltac:(cbn; lia)). rewrite ring_0 in Hp by done. cbn in Hp.
  pose proof (next_index _ _ _ _ _ r Hlay ql_r0) as Hnext. cbv zeta in Hnext.
  unfold update_existing_payload, mbind, M_bind, getM, liftO, modify, _get_update_queue_params.
  rewrite ql_header0, Htr.
  destruct (Z.eqb_spec (slot_off r) (slot_off (ring (length slots) (r + S (length l))))) as [He|_];
    [done|].
  rewrite ql_mem0, (read_hash_slot slots r p) by done.
  destruct (Z.eqb_spec (p_hash p) hash) as [|_]; [done|]. rewrite Hnext.
  destruct Hl as [->|(s&l'&->&Hs)]; cbn [length].
  - replace (r + 1)%nat with (S r) by lia. by rewrite Z.eqb_refl.
  - destruct (Z.eqb_spec (slot_off (ring (length slots) (S r)))
      (slot_off (ring (length slots) (r + S (S (length l')))))) as [|_]; [done|].
    assert (Hq := Hslots 1%nat ltac:(cbn; lia)). replace (r + 1)%nat with (S r) in Hq by lia.
    rewrite (read_hash_slot slots _ s) by done.
    by destruct (Z.eqb_spec (p_hash s) hash).
Qed.

Lemma update_second s l' :
  l = s :: l' -> p_hash p <> hash -> p_hash s = hash ->
  exists queue', update_existing_payload hash err queue = Done (0, queue') /\
    queue_repr queue' (s <| p_error := err |> :: p :: l').
Proof using Hlay Hlen Herr Hslots.
  intros -> Hh Hs. pose proof Hlay as []. pose proof (translate_layout _ _ _ _ _ Hlay) as Htr.
  assert (Hp := Hslots 0%nat ltac:(cbn; lia)). rewrite ring_0 in Hp by done. cbn in Hp.
  assert (Hq := Hslots 1%nat ltac:(cbn; lia)). replace (r + 1)%nat with (S r) in Hq by lia.
  cbn [lookup list_lookup length] in Hq, Hlen, Hlay, Hslots.
  pose proof (next_index _ _ _ _ _ r Hlay ql_r0) as Hnext. cbv zeta in Hnext.
  assert (Hn : (ring (length slots) (S r) < length slots)%nat) by (apply ring_lt; lia).
  assert (Hne : ring (length slots) (S r) <> r) by (unfold ring; case_decide; lia).
  assert (Hps := Forall_lookup_1 _ _ _ _ ql_slots0 Hp).
  assert (Hqs := Forall_lookup_1 _ _ _ _ ql_slots0 Hq).
  unfold update_existing_payload, mbind, M_bind, getM, liftO, modify, _get_update_queue_params.
  rewrite ql_header0, Htr. cbn [length].
  destruct (Z.eqb_spec (slot_off r) (slot_off (ring (length slots) (r + S (S (length l'))))))
    as [He|_]; [apply slot_off_inj in He; unfold ring in He; case_decide; lia|].
  rewrite ql_mem0, (read_hash_slot slots r p) by done.
  destruct (Z.eqb_spec (p_hash p) hash) as [|_]; [done|]. rewrite Hnext.
  destruct (Z.eqb_spec (slot_off (ring (length slots) (S r)))
    (slot_off (ring (length slots) (r + S (S (length l')))))) as [He|_].
  { apply slot_off_inj in He. unfold ring in He. repeat case_decide; lia. }
  rewrite (read_hash_slot slots _ s), Hs, Z.eqb_refl by done. cbn [negb].
  rewrite (read_payload_slot _ r p), (read_payload_slot _ _ s) by done.
  rewrite (write_struct_slot slots r p) by done.
  rewrite (write_error_slot (<[r := s]> slots) r s) by (by apply list_lookup_insert_eq).
  rewrite list_insert_insert_eq, wrap_small by done.
  rewrite (write_struct_slot (<[r := s <| p_error := err |>]> slots) _ s)
    by (by rewrite list_lookup_insert_ne).
  eexists. split; [reflexivity|].
  apply (set_slots_repr queue slots _ h r (p :: s :: l')); cbn [length];
    rewrite ?length_insert; try done.
  - apply Forall_insert; [|done]. apply Forall_insert; [done|]. by apply set_error_ok.
  - intros [|[|k]] Hk.
    + rewrite ring_0, list_lookup_insert_ne, list_lookup_insert_eq by done. done.
    + replace (r + 1)%nat with (S r) by lia.
      by rewrite list_lookup_insert_eq by (by rewrite length_insert).
    + rewrite !list_lookup_insert_ne; [by rewrite Hslots| |].
      * apply ring_ne_0; lia.
      * intros He. replace (S r) with (r + 1)%nat in He by lia. apply ring_inj in He; lia.
Qed.

End UpdateExisting.

(** The update of a queued entry implements [update_existing]. *)
Lemma update_existing_run queue l hash err :
  queue_repr queue l -> is_word 32 err ->
  match update_existing hash err l with
  | Some l' => exists queue', update_existing_payload hash err queue = Done (0, queue') /\
                 queue_repr queue' l'
  | None => update_existing_payload hash err queue = Done (- EINVAL, queue)
  end.
Proof.
  intros (slots&h&r&Hlay&Hlen&Hslots) Herr. destruct l as [|p l]; cbn [update_existing].
  - pose proof Hlay as []. pose proof (translate_layout _ _ _ _ _ Hlay) as Htr.
    unfold update_existing_payload, mbind, M_bind, getM, _get_update_queue_params.
    rewrite ql_header0, Htr. cbn [length]. by rewrite Nat.add_0_r, ring_fix, Z.eqb_refl.
  - cbn [length] in *. destruct (Z.eqb_spec (p_hash p) hash) as [Hh|Hh].
    { by eapply update_first. }
    destruct l as [|s l].
    { eapply update_first_miss; [done..|by left]. }
    destruct (Z.eqb_spec (p_hash s) hash) as [Hs|Hs].
    + by eapply update_second.
    + eapply update_first_miss; [done..|]. right. by eexists _, _.
Qed.

(** ** Reset of the queues *)

(** The write index the driver keeps in the header designates a slot. *)
Definition write_index_valid (queue : msm_hw_fence_queue) : Prop :=
  forall h, va_header queue = Some h ->
  exists w, (w < capacity queue)%nat /\ write_index h = to_custom queue (slot_off w).

(** Two queues with the same words, indexes and index configuration; the
    addresses and the other words of the header are free. *)
Definition same_ring (q q' : msm_hw_fence_queue) : Prop :=
  q_mem q' = q_mem q /\ q_size_bytes q' = q_size_bytes q /\
  rd_wr_idx_start q' = rd_wr_idx_start q /\ rd_wr_idx_factor q' = rd_wr_idx_factor q /\
  skip_wr_idx q' = skip_wr_idx q /\
  option_Forall2 (fun h h' => read_index h' = read_index h /\ write_index h' = write_index h /\
                              tx_wm h' = tx_wm h) (va_header q) (va_header q').

Lemma same_ring_custom q q' x : same_ring q q' -> to_custom q' x = to_custom q x.
Proof.
  intros (_&_&Hs&Hf&_). unfold to_custom, REQUIRES_IDX_TRANSLATION, IDX_TRANSLATE_DEFAULT_TO_CUSTOM.
  by rewrite Hs, Hf.
Qed.

Lemma same_ring_repr q q' l : same_ring q q' -> queue_repr q l -> queue_repr q' l.
Proof.
  intros Hsame (slots&h&r&[]&Hrest). pose proof (fun x => same_ring_custom q q' x Hsame) as Hc.
  destruct Hsame as (Hm&Hz&Hs&Hf&Hk&Hh). rewrite ql_header0 in Hh.
  destruct (va_header q') as [h'|] eqn:Hh'; inversion Hh as [? ? (Hr&Hw&Ht)|].
  exists slots, h', r. split; [|done]. split; rewrite ?Hc, ?Hk, ?Hr, ?Hw, ?Ht; try congruence.
  unfold idx_config_ok. by rewrite Hs, Hf.
Qed.

Lemma same_ring_valid q q' : same_ring q q' -> write_index_valid q -> write_index_valid q'.
Proof.
  intros Hsame Hv h' Hh'. pose proof (fun x => same_ring_custom q q' x Hsame) as Hc.
  destruct Hsame as (_&Hz&_&_&_&Hh). rewrite Hh' in Hh.
  destruct (va_header q) as [h|] eqn:Hq; inversion Hh as [? ? (_&Hw&_)|].
  destruct (Hv h Hq) as (w&Hlt&Hwi). exists w. unfold capacity in *. by rewrite Hz, Hc, Hw.
Qed.

Lemma ring_repr_nil queue slots h r :
  queue_layout queue slots h r r -> queue_repr queue [].
Proof.
  intros Hlay. pose proof Hlay as []. exists slots, h, r. split_and!; cbn [length]; [|lia|lia].
  by rewrite ring_0.
Qed.

Lemma reset_txq_empty queue l :
  queue_repr queue l -> write_index_valid queue ->
  exists queue', reset_txq queue = Done (tt, queue') /\ queue_repr queue' [] /\
    capacity queue' = capacity queue.
Proof.
  intros (slots&h&r&Hlay&Hlen&_) Hvalid. pose proof Hlay as [].
  destruct (Hvalid h ql_header0) as (w&Hw&Hwi). rewrite (repr_capacity _ _ _ _ _ Hlay) in Hw.
  unfold reset_txq, mbind, M_bind, getM, modify. rewrite ql_header0.
  destruct (skip_wr_idx queue) eqn:Hskip; eexists; (split; [reflexivity|]); (split; [|done]).
  - apply (ring_repr_nil _ slots (h <| tx_wm := write_index h |> <| read_index := write_index h |>) w).
    split; cbn; rewrite ?ql_header0, ?Hskip; done.
  - apply (ring_repr_nil _ slots (h <| read_index := write_index h |>) w).
    split; cbn; rewrite ?ql_header0, ?Hskip; done.
Qed.

Lemma reset_rxq_empty queue l :
  queue_repr queue l -> skip_wr_idx queue = false ->
  exists queue', reset_rxq queue = Done (tt, queue') /\ queue_repr queue' [] /\
    capacity queue' = capacity queue.
Proof.
  intros (slots&h&r&Hlay&Hlen&_) Hskip. pose proof Hlay as [].
  unfold reset_rxq, mbind, M_bind, getM, modify. rewrite ql_header0.
  eexists. split; [reflexivity|]. split; [|done].
  apply (ring_repr_nil _ slots (h <| write_index := read_index h |>) r).
  split; cbn; rewrite ?ql_header0, ?Hskip; done.
Qed.

Lemma set_queue_other c t t' queue d :
  0 <= t -> t <> t' -> queue_of (set_queue c t queue d) c t' = queue_of d c t'.
Proof.
  intros Ht Hne. unfold set_queue, queue_of.
  destruct (zget (clients d) c) as [[cl|]|] eqn:Hcl; cbn; rewrite ?Hcl; try done.
  rewrite zget_insert_eq by (eapply zget_Some; done). cbn. by apply zget_insert_ne.
Qed.

Lemma set_queue_client c t queue d cl :
  zget (clients d) c = Some (Some cl) ->
  zget (clients (set_queue c t queue d)) c
  = Some (Some (cl <| queues ::= fun qs => <[Z.to_nat t := queue]> qs |>)).
Proof.
  intros Hcl. unfold set_queue. rewrite Hcl. cbn. apply zget_insert_eq. by eapply zget_Some.
Qed.

(** A concrete driver state: one client with a two-slot Tx and a three-slot Rx
    queue, and one free client lock. *)
Definition sample_header (size : Z) : hfi_queue_header := mkHfiHeader 0 1 size 16 0 0 0.

Definition sample_queue (n : nat) : msm_hw_fence_queue :=
  mkQueue (replicate (16 * n) 0) (64 * Z.of_nat n) (Some (sample_header (64 * Z.of_nat n)))
    0 0 1 false 0 0.

Definition sample_client : msm_hw_fence_client :=
  mkClient 1 1 [sample_queue 2; sample_queue 3] 2 false 0 0 0 true true 0.

Definition sample_drv : hw_fence_driver_data :=
  (zero_drv sample_uapi empty_dtree)
    <| client_lock_tbl := [0; 0] |> <| client_lock_tbl_cnt := 2 |>
    <| rxq_clients_num := 2 |> <| clients_num := 2 |>
    <| clients := [None; Some sample_client] |>.

Definition zero_payload : queue_payload := mkPayload 0 0 0 0 0 0 0 0 0 0 0 0.

(** Cleared memory holds zero payloads. *)
Lemma zero_words n : replicate (16 * n) 0 = slots_mem (replicate n zero_payload).
Proof.
  induction n as [|n IH]; [done|]. rewrite Nat.mul_succ_r, Nat.add_comm, replicate_add, IH. done.
Qed.

Lemma zero_payload_ok : payload_ok zero_payload.
Proof. by split. Qed.

Lemma sample_queue_repr n : (0 < n < 1000)%nat -> queue_repr (sample_queue n) [].
Proof.
  intros Hn. apply (ring_repr_nil _ (replicate n zero_payload) (sample_header (64 * Z.of_nat n)) 0).
  split; rewrite ?length_replicate; try done; try lia.
  - exact (zero_words n).
  - unfold zlen. by rewrite length_replicate.
  - apply Forall_replicate, zero_payload_ok.
  - unfold idx_config_ok, slot_off. cbn [rd_wr_idx_factor rd_wr_idx_start sample_queue].
    rewrite Z.div_1_r. lia.
Qed.

Lemma sample_rx_ready : queue_ready sample_drv 1 1 (sample_queue 3) [].
Proof.
  split; [|done|by apply sample_queue_repr; lia].
  exists sample_client. split; [done|]. split; [done|]. intros _. split; [done|]. by exists 0.
Qed.

(** * Properties *)

(** C1: any sequence of writes ([hw_fence_update_queue]) and reads
    ([hw_fence_read_queue]) on a client queue behaves as a bounded FIFO with
    one slot kept free: every return value, every message read back and the
    remaining contents are those of the abstract queue, no access leaves the
    queue memory, and the client's lock is free again after every call. *)
Theorem hw_queue_refines_fifo ops : forall d c t queue l,
  0 <= t < HW_FENCE_CLIENT_QUEUES ->
  queue_ready d c t queue l -> skip_wr_idx queue = false -> Forall op_ok ops ->
  exists queue' l' d',
    drv_run c t ops d = Done ((fifo_run (capacity queue) ops (payload_message <$> l)).1, d') /\
    (fifo_run (capacity queue) ops (payload_message <$> l)).2 = payload_message <$> l' /\
    queue_ready d' c t queue' l'.
Proof.
  induction ops as [|op ops IH]; intros d c t queue l Ht Hready Hskip Hops.
  - exists queue, l, d. done.
  - inversion_clear Hops as [|? ? Hop Hops'].
    destruct (drv_step_fifo d c t queue l op Ht Hready Hskip Hop)
      as (queue1&l1&d1&Hstep&Hl1&Hready1&Hskip1&Hcap1).
    destruct (IH d1 c t queue1 l1 Ht Hready1 Hskip1 Hops') as (queue'&l'&d'&Hrun&Hl'&Hready').
    exists queue', l', d'. cbn [drv_run fifo_run]. unfold mbind at 1, M_bind at 1.
    rewrite Hstep. unfold mbind at 1, M_bind at 1. rewrite Hrun, Hcap1, <- Hl1 in *.
    destruct (fifo_step _ _ _) as [r l2]. cbn in *. by destruct (fifo_run _ _ _).
Qed.

Lemma hw_queue_refines_fifo_witness :
  exists queue' l' d',
    drv_run 1 1 [OpPut (mkMessage 1 2 3 4 5 6); OpGet; OpGet] sample_drv
      = Done ([(true, None); (true, Some (mkMessage 1 2 3 4 5 6)); (false, None)], d') /\
    [] = payload_message <$> l' /\ queue_ready d' 1 1 queue' l'.
Proof.
  apply (hw_queue_refines_fifo [OpPut (mkMessage 1 2 3 4 5 6); OpGet; OpGet]
    sample_drv 1 1 (sample_queue 3) []); [done|exact sample_rx_ready|done|].
  repeat (constructor; try done).
Defined.

(** [hw_fence_update_existing_txq_payload] finds the hash in one of the
    first two entries of the Tx queue, sets its error and moves it to the
    front, keeping every other entry and its place; with the hash in neither
    of them, or an empty queue, it fails with [-EINVAL] and the driver state is
    unchanged. *)
Theorem update_existing_txq_payload_spec d c queue l hash err :
  queue_of d c (HW_FENCE_TX_QUEUE - 1) = Some queue -> queue_repr queue l -> is_word 32 err ->
  match update_existing hash err l with
  | Some l' =>
      exists queue', queue_repr queue' l' /\
        hw_fence_update_existing_txq_payload c hash err d
        = Done (0, set_queue c (HW_FENCE_TX_QUEUE - 1) queue' d)
  | None =>
      hw_fence_update_existing_txq_payload c hash err d
      = Done (- EINVAL, d)
  end.
Proof.
  intros Hq Hrepr Herr. pose proof (update_existing_run queue l hash err Hrepr Herr) as Hrun.
  unfold hw_fence_update_existing_txq_payload. rewrite (on_queue_run _ _ _ queue) by done.
  destruct (update_existing hash err l) as [l'|].
  - destruct Hrun as (queue'&->&Hrepr'). by exists queue'.
  - rewrite Hrun. by rewrite set_queue_same.
Qed.

Lemma update_existing_txq_payload_spec_witness :
  hw_fence_update_existing_txq_payload 1 7 3 sample_drv = Done (- EINVAL, sample_drv).
Proof.
  apply (update_existing_txq_payload_spec sample_drv 1 (sample_queue 2) [] 7 3);
    [done|apply sample_queue_repr; lia|done].
Defined.

Lemma reset_queues_run d c cl tx rx ltx lrx :
  zget (clients d) c = Some (Some cl) ->
  queue_of d c 0 = Some tx -> queue_repr tx ltx -> write_index_valid tx ->
  (update_rxq cl = true -> queue_ready d c 1 rx lrx /\ skip_wr_idx rx = false) ->
  exists d', hw_fence_utils_reset_queues c d = Done (tt, d') /\
    client_lock_tbl d' = client_lock_tbl d /\ hw_fences_tbl d' = hw_fences_tbl d /\
    (exists tx', queue_of d' c 0 = Some tx' /\ queue_repr tx' []) /\
    (update_rxq cl = true -> exists rx', queue_of d' c 1 = Some rx' /\ queue_repr rx' []).
Proof.
  intros Hcl Htx Hrtx Hvalid Hrx.
  destruct (reset_txq_empty tx ltx Hrtx Hvalid) as (tx'&Hrun&Hrepr&_).
  unfold hw_fence_utils_reset_queues, mbind at 1, M_bind at 1.
  rewrite (on_queue_run _ _ _ tx), Hrun by done.
  change (HW_FENCE_TX_QUEUE - 1) with 0. change (HW_FENCE_RX_QUEUE - 1) with 1.
  unfold mbind at 1, M_bind at 1.
  rewrite (get_client_run _ _ _ (set_queue_client c 0 tx' d cl Hcl)). cbn [upd update_rxq].
  destruct (set_queue_lookup c 0 tx' tx d Htx) as [Htx' _].
  change (update_rxq (cl <| queues ::= _ |>)) with (update_rxq cl).
  destruct (update_rxq cl) eqn:Hu.
  - destruct (Hrx eq_refl) as [[(cl0&Hcl0&Hn&Hlock) Hqrx Hrrx] Hskip].
    assert (cl0 = cl) as -> by congruence. destruct (Hlock eq_refl) as (Hcnt&v&Hv&Hfree).
    destruct (reset_rxq_empty rx lrx Hrrx Hskip) as (rx'&Hrun'&Hrepr'&_).
    cbn [upd client_id].
    set (d1 := set_queue c 0 tx' d) in *. set (i := u32 (client_id cl - 1)) in *.
    assert (Hl1 : client_lock_tbl d1 = client_lock_tbl d) by apply set_queue_same_locks.
    assert (Hc1 : client_lock_tbl_cnt d1 = client_lock_tbl_cnt d).
    { unfold d1, set_queue. by rewrite Hcl. }
    unfold mbind at 1, M_bind at 1, getM. rewrite Hc1.
    assert (Hle : (client_lock_tbl_cnt d <=? i) = false) by lia. cbn beta zeta. fold i. rewrite Hle.
    rewrite <- Hl1 in Hv. unfold mbind, M_bind. rewrite (lock_client_free d1 i v) by done.
    assert (Hq1 : queue_of (client_locked i v d1) c 1 = Some rx).
    { change (queue_of d1 c 1 = Some rx). unfold d1. by rewrite set_queue_other. }
    rewrite (on_queue_run _ _ _ rx), Hrun' by done.
    rewrite (unlock_client_locked d1 i v) by (done || apply set_queue_same_locks).
    destruct (set_queue_lookup c 1 rx' rx _ Hq1) as [Hrx' _].
    eexists. split; [reflexivity|]. split; [exact Hl1|].
    split; [exact (eq_trans (set_queue_same_tbl c 1 rx' (client_locked i v d1)) (set_queue_same_tbl c 0 tx' d))|].
    split.
    + exists tx'. split; [|done].
      change (queue_of (set_queue c 1 rx' (client_locked i v d1)) c 0 = Some tx').
      by rewrite set_queue_other.
    + intros _. by exists rx'.
  - eexists. split; [reflexivity|]. split; [apply set_queue_same_locks|].
    split; [apply set_queue_same_tbl|]. split; [by exists tx'|done].
Qed.

(** [hw_fence_utils_reset_queues] empties the Tx queue and, for a client
    that has one, the Rx queue, and gives the client lock back. *)
Theorem reset_queues_spec d c cl tx rx ltx lrx :
  zget (clients d) c = Some (Some cl) ->
  queue_of d c 0 = Some tx -> queue_repr tx ltx -> write_index_valid tx ->
  (update_rxq cl = true -> queue_ready d c 1 rx lrx /\ skip_wr_idx rx = false) ->
  exists d', hw_fence_utils_reset_queues c d = Done (tt, d') /\
    client_lock_tbl d' = client_lock_tbl d /\
    (exists tx', queue_of d' c 0 = Some tx' /\ queue_repr tx' []) /\
    (update_rxq cl = true -> exists rx', queue_of d' c 1 = Some rx' /\ queue_repr rx' []).
Proof.
  intros Hcl Htx Hrtx Hvalid Hrx.
  destruct (reset_queues_run d c cl tx rx ltx lrx Hcl Htx Hrtx Hvalid Hrx) as (d'&?&?&_&?).
  by exists d'.
Qed.

Lemma reset_queues_spec_witness :
  exists d', hw_fence_utils_reset_queues 1 sample_drv = Done (tt, d') /\
    client_lock_tbl d' = [0; 0] /\
    (exists tx', queue_of d' 1 0 = Some tx' /\ queue_repr tx' []) /\
    (true = true -> exists rx', queue_of d' 1 1 = Some rx' /\ queue_repr rx' []).
Proof.
  apply (reset_queues_spec sample_drv 1 sample_client (sample_queue 2) (sample_queue 3) [] []).
  - done.
  - done.
  - apply sample_queue_repr. lia.
  - intros h [= <-]. exists 0%nat. split; [by apply Nat.ltb_lt|done].
  - intros _. split; [exact sample_rx_ready|done].
Defined.

(** The payload read back through a custom index: the source compares the
    translated index it is about to store with the untranslated write index,
    so a queue that just became empty is reported as non-empty. *)
Definition translated_queue : msm_hw_fence_queue :=
  mkQueue (payload_words zero_payload ++ payload_words zero_payload) 128
    (Some (mkHfiHeader 0 1 128 16 1 2 0)) 0 1 16 false 0 0.

(** on a queue with translated indexes (start 1, factor 16, one entry),
    reading the only entry returns 1 ("more payloads") and leaves an empty
    queue, from which the next read fails. *)
Theorem read_last_translated_returns_one :
  let queue' := set_read_index 2 translated_queue in
  hw_fence_read_queue_helper translated_queue = Done ((1, Some zero_payload), queue') /\
  hw_fence_read_queue_helper queue' = Done ((- EINVAL, None), queue').
Proof. split; vm_compute; reflexivity. Qed.
