(* ===== verification/HwFenceTable.v ===== *)
(** * The global table of hardware fences

    The open-addressing table of [hw_fence_drv_priv.c]: the hash of a fence's
    context and sequence number, the linear probing that creates, finds and
    destroys fences under the per-entry lock, and the operations of the driver
    built on it.  The scan of the probe sequence is related to a recursive
    function over the list of probed slots, from which the properties of the
    table follow. *)

From S2P Require Import Prelude HwFenceState.

Local Open Scope Z_scope.

(** ** Hash and probing *)

(** The return value and the new value of [*hash]. *)
Definition _calculate_hash (table_total_entries context seqno step hash : Z) : Z * Z :=
  let m_size := table_total_entries in
  if step =? 0 then
    let b_multiplier := u64 (context + u64 (context - 1)) in
    (0, u64 (u64 (u64 (HW_FENCE_HASH_A_MULT * seqno) * b_multiplier)
             + u64 (HW_FENCE_HASH_C_MULT * context)) mod m_size)
  else if m_size <=? step then (- EINVAL, hash)
  else (0, u64 (hash + 1) mod m_size).

(** The entry of a hash: a pointer into the table is the entry's index. *)
Definition _get_hw_fence (table_total_entries hash : Z) : option Z :=
  if table_total_entries <=? hash then None else Some hash.

Definition _is_hw_fence_free (hw_fence : msm_hw_fence) (context seqno : Z) : bool :=
  if truthy (valid hw_fence) then false else true.

Definition _hw_fence_match (hw_fence : msm_hw_fence) (context seqno : Z) : bool :=
  (ctx_id hw_fence =? context) && (seq_id hw_fence =? seqno).

(** Clears everything but [valid] (and the lock). *)
Definition _cleanup_hw_fence (f : msm_hw_fence) : msm_hw_fence :=
  f <| error := 0 |>
    <| ctx_id := 0 |>
    <| seq_id := 0 |>
    <| wait_client_mask := 0 |>
    <| fence_allocator := 0 |>
    <| fence_signal_client := 0 |>
    <| flags := 0 |>
    <| fence_create_time := 0 |>
    <| fence_trigger_time := 0 |>
    <| fence_wait_time := 0 |>
    <| debug_refcount := 0 |>
    <| parents_cnt := 0 |>
    <| pending_child_cnt := 0 |>
    <| parent_list := replicate (Z.to_nat MSM_HW_FENCE_MAX_JOIN_PARENTS) HW_FENCE_INVALID_PARENT_FENCE |>
    <| client_data := replicate (Z.to_nat HW_FENCE_MAX_CLIENTS_WITH_DATA) 0 |>.

Definition _reserve_hw_fence (i client_id context seqno : Z) : DM unit :=
  upd_fence i _cleanup_hw_fence ;;
  upd_fence i (fun f => f <| valid := 1 |> <| ctx_id := context |> <| seq_id := seqno |>
                          <| flags := 0 |> <| fence_allocator := client_id |>) ;;
  now ← hw_fence_get_qtime;
  upd_fence i (fun f => f <| fence_create_time := now |>
                          <| debug_refcount ::= fun n => u64 (n + 1) |>).

Definition _unreserve_hw_fence (i : Z) : DM unit :=
  upd_fence i _cleanup_hw_fence ;;
  upd_fence i (fun f => f <| valid := 0 |>).

Definition _reserve_join_fence (i client_id context seqno pending_child_cnt' : Z) : DM unit :=
  upd_fence i _cleanup_hw_fence ;;
  upd_fence i (fun f => f <| valid := 1 |> <| ctx_id := context |> <| seq_id := seqno |>
                          <| fence_allocator := client_id |>) ;;
  now ← hw_fence_get_qtime;
  upd_fence i (fun f => f <| fence_create_time := now |>
                          <| debug_refcount ::= fun n => u64 (n + 1) |>
                          <| pending_child_cnt := pending_child_cnt' |>).

Definition _fence_found : DM unit := mret tt.

(** ** Lookup *)

Inductive hw_fence_lookup_ops : Type :=
| HW_FENCE_LOOKUP_OP_CREATE
| HW_FENCE_LOOKUP_OP_DESTROY
| HW_FENCE_LOOKUP_OP_CREATE_JOIN
| HW_FENCE_LOOKUP_OP_FIND_FENCE.

Definition compare_fnc (op_code : hw_fence_lookup_ops) : msm_hw_fence -> Z -> Z -> bool :=
  match op_code with
  | HW_FENCE_LOOKUP_OP_CREATE | HW_FENCE_LOOKUP_OP_CREATE_JOIN => _is_hw_fence_free
  | HW_FENCE_LOOKUP_OP_DESTROY | HW_FENCE_LOOKUP_OP_FIND_FENCE => _hw_fence_match
  end.

Definition process_fnc (op_code : hw_fence_lookup_ops)
    (i client_id context seqno pending_child_cnt : Z) : DM unit :=
  match op_code with
  | HW_FENCE_LOOKUP_OP_CREATE => _reserve_hw_fence i client_id context seqno
  | HW_FENCE_LOOKUP_OP_DESTROY => _unreserve_hw_fence i
  | HW_FENCE_LOOKUP_OP_CREATE_JOIN =>
      _reserve_join_fence i client_id context seqno pending_child_cnt
  | HW_FENCE_LOOKUP_OP_FIND_FENCE => _fence_found
  end.

Definition is_create (op_code : hw_fence_lookup_ops) : bool :=
  match op_code with
  | HW_FENCE_LOOKUP_OP_CREATE | HW_FENCE_LOOKUP_OP_CREATE_JOIN => true
  | _ => false
  end.

(** How an iteration of the loop ends: the fence was found, the loop is left,
    or the next slot is tried. *)
Inductive lookup_iter : Type :=
| IterFound (i : Z)
| IterBreak
| IterNext.

Section Lookup.
Context (context seqno client_id pending_child_cnt : Z) (op_code : hw_fence_lookup_ops).

(** The body of the loop once [*hash] is computed. *)
Definition lookup_body (table_entries hash : Z) : DM lookup_iter :=
  match _get_hw_fence table_entries hash with
  | None => mret IterBreak
  | Some hw_fence =>
      lock_fence hw_fence ;;
      f ← get_fence hw_fence;
      if compare_fnc op_code f context seqno then
        process_fnc op_code hw_fence client_id context seqno pending_child_cnt ;;
        unlock_fence hw_fence ;; mret (IterFound hw_fence)
      else if is_create op_code && (seqno =? seq_id f) && (context =? ctx_id f) then
        unlock_fence hw_fence ;; mret IterBreak
      else unlock_fence hw_fence ;; mret IterNext
  end.

Fixpoint lookup_loop (fuel : nat) (step hash : Z) : DM (option Z * Z) :=
  d ← getM;
  let entries := hw_fence_table_entries d in
  if negb (step <? entries) then mret (None, hash) else
  match fuel with
  | O => failM Diverges
  | S fuel' =>
      let '(ret, hash) := _calculate_hash entries context seqno step hash in
      if truthy ret then mret (None, hash) else
      iter ← lookup_body entries hash;
      match iter with
      | IterFound i => mret (Some i, hash)
      | IterBreak => mret (None, hash)
      | IterNext => lookup_loop fuel' (u64 (step + 1)) hash
      end
  end.

(** The fence found, if any, and the final [*hash]. *)
Definition _hw_fence_lookup_and_process : DM (option Z * Z) :=
  d ← getM;
  lookup_loop (Z.to_nat (hw_fence_table_entries d)) 0 (2 ^ 64 - 1).

End Lookup.

(** ** Operations of the driver *)

(** The test of the returned pointer. *)
Definition is_found (f : option Z) : bool := match f with Some _ => true | None => false end.

Definition hw_fence_create (c context seqno : Z) : DM (Z * Z) :=
  cl ← get_client c;
  '(f, hash) ← _hw_fence_lookup_and_process context seqno (client_id cl) 0
                 HW_FENCE_LOOKUP_OP_CREATE;
  mret (if is_found f then 0 else - EINVAL, hash).

Definition _hw_fence_cleanup (client_id context seqno : Z) : DM Z :=
  '(f, _) ← _hw_fence_lookup_and_process context seqno client_id 0 HW_FENCE_LOOKUP_OP_DESTROY;
  mret (if is_found f then 0 else - EINVAL).

Definition hw_fence_destroy (c context seqno : Z) : DM Z :=
  cl ← get_client c;
  ret ← _hw_fence_cleanup (client_id cl) context seqno;
  mret (if truthy ret then - EINVAL else 0).

Definition hw_fence_destroy_with_hash (c hash : Z) : DM Z :=
  cl ← get_client c;
  d ← getM;
  match _get_hw_fence (hw_fence_table_entries d) hash with
  | None => mret (- EINVAL)
  | Some i =>
      f ← get_fence i;
      if negb (fence_allocator f =? client_id cl) then mret (- EINVAL) else
      ret ← _hw_fence_cleanup (client_id cl) (ctx_id f) (seq_id f);
      mret (if truthy ret then - EINVAL else 0)
  end.

(** A null client is [None]. *)
Definition msm_hw_fence_find (c : option Z) (context seqno : Z) : DM (option Z * Z) :=
  client ← (match c with
            | Some c => cl ← get_client c; mret (client_id cl)
            | None => mret 255
            end);
  _hw_fence_lookup_and_process context seqno client 0 HW_FENCE_LOOKUP_OP_FIND_FENCE.

(** ** The scan as a function of the table *)

(** The probe sequence. *)
Definition first_hash (m context seqno : Z) : Z := snd (_calculate_hash m context seqno 0 0).

Definition probe (m context seqno : Z) (k : nat) : Z :=
  (first_hash m context seqno + Z.of_nat k) mod m.

Definition probes (m context seqno : Z) : list Z :=
  map (probe m context seqno) (seq 0 (Z.to_nat m)).

Inductive scan_result : Type :=
| Found (i : Z)
| Duplicate (i : Z)
| Exhausted.

Fixpoint scan (op_code : hw_fence_lookup_ops) (context seqno : Z) (tbl : list msm_hw_fence)
    (l : list Z) : scan_result :=
  match l with
  | [] => Exhausted
  | i :: l' =>
      match zget tbl i with
      | None => Exhausted
      | Some f =>
          if compare_fnc op_code f context seqno then Found i
          else if is_create op_code && _hw_fence_match f context seqno then Duplicate i
          else scan op_code context seqno tbl l'
      end
  end.

(** What the operation does to the entry it finds. *)
Definition new_fence (context seqno client now pending v : Z) : msm_hw_fence :=
  mkFence 1 0 context seqno 0 client 0 v 0
    (replicate 3 HW_FENCE_INVALID_PARENT_FENCE) 0 pending now 0 0 1 (replicate 5 0).

Definition cleared_fence (v : Z) : msm_hw_fence :=
  mkFence 0 0 0 0 0 0 0 v 0
    (replicate 3 HW_FENCE_INVALID_PARENT_FENCE) 0 0 0 0 0 0 (replicate 5 0).

Definition processed (op_code : hw_fence_lookup_ops) (context seqno client pending now : Z)
    (f : msm_hw_fence) : msm_hw_fence :=
  match op_code with
  | HW_FENCE_LOOKUP_OP_CREATE => new_fence context seqno client now 0 (lock f)
  | HW_FENCE_LOOKUP_OP_CREATE_JOIN => new_fence context seqno client now pending (lock f)
  | HW_FENCE_LOOKUP_OP_DESTROY => cleared_fence (lock f)
  | HW_FENCE_LOOKUP_OP_FIND_FENCE => f
  end.

Definition set_fence (i : Z) (f : msm_hw_fence) (d : hw_fence_driver_data)
    : hw_fence_driver_data :=
  d <| hw_fences_tbl ::= fun t => <[Z.to_nat i := f]> t |>.

Definition process_entry (op_code : hw_fence_lookup_ops) (context seqno client pending i : Z)
    (d : hw_fence_driver_data) : hw_fence_driver_data :=
  match zget (hw_fences_tbl d) i with
  | None => d
  | Some f =>
      let f' := processed op_code context seqno client pending (qtimer d (qtime_reads d)) f in
      (if is_create op_code then d <| qtime_reads ::= S |> else d)
        <| hw_fences_tbl ::= fun t => <[Z.to_nat i := f']> t |>
  end.

(** The table is mapped, and no other processor holds the lock of an entry. *)
Record table_ok (d : hw_fence_driver_data) : Prop := {
  tbl_entries : hw_fence_table_entries d = zlen (hw_fences_tbl d);
  tbl_nonempty : 0 < zlen (hw_fences_tbl d);
  tbl_word : zlen (hw_fences_tbl d) < 2 ^ 32;
  tbl_unlocked : Forall (fun f => low32 (lock f) = 0) (hw_fences_tbl d);
}.

(** ** One entry under its lock *)

Lemma get_fence_run d i f : zget (hw_fences_tbl d) i = Some f -> get_fence i d = Done (f, d).
Proof. intros H. unfold get_fence. by rewrite H. Qed.

Lemma put_fence_run d i f f' :
  zget (hw_fences_tbl d) i = Some f -> put_fence i f' d = Done (tt, set_fence i f' d).
Proof. intros H. unfold put_fence. by rewrite zset_in by (eapply zget_Some; done). Qed.

Lemma upd_fence_run d i f g :
  zget (hw_fences_tbl d) i = Some f -> upd_fence i g d = Done (tt, set_fence i (g f) d).
Proof.
  intros H. unfold upd_fence, mbind, M_bind. rewrite (get_fence_run _ _ f) by done.
  by apply put_fence_run with f.
Qed.

Lemma set_fence_get d i f f' :
  zget (hw_fences_tbl d) i = Some f -> zget (hw_fences_tbl (set_fence i f' d)) i = Some f'.
Proof. intros H. cbn. apply zget_insert_eq. by eapply zget_Some. Qed.

Lemma set_fence_twice d i f f' : set_fence i f' (set_fence i f d) = set_fence i f' d.
Proof. unfold set_fence, upd. cbn. by rewrite list_insert_insert_eq. Qed.

Lemma set_fence_id d i f : zget (hw_fences_tbl d) i = Some f -> set_fence i f d = d.
Proof.
  intros H. pose proof (zget_Some _ _ _ H). rewrite zget_to_nat in H by lia.
  unfold set_fence, upd. rewrite list_insert_id by done. by destruct d.
Qed.

Lemma upd_fence_then {A} d i f g (k : unit -> DM A) :
  zget (hw_fences_tbl d) i = Some f -> (upd_fence i g ≫= k) d = k tt (set_fence i (g f) d).
Proof. intros H. unfold mbind, M_bind. by rewrite (upd_fence_run _ _ f). Qed.

Lemma get_fence_then {A} d i f (k : msm_hw_fence -> DM A) :
  zget (hw_fences_tbl d) i = Some f -> (get_fence i ≫= k) d = k f d.
Proof. intros H. unfold mbind, M_bind. by rewrite (get_fence_run _ _ f). Qed.

(** Taking a free lock, and giving it back. *)
Lemma lock_fence_run d i f :
  zget (hw_fences_tbl d) i = Some f -> low32 (lock f) = 0 ->
  lock_fence i d = Done (tt, set_fence i (f <| lock := lock f + 1 |>) d).
Proof.
  intros Hf Hfree. unfold lock_fence, mbind, M_bind.
  rewrite (get_fence_run _ _ f), _lock_free by done. by apply put_fence_run with f.
Qed.

Lemma unlock_fence_run d i g v :
  zget (hw_fences_tbl d) i = Some g -> lock g = v + 1 -> low32 v = 0 ->
  unlock_fence i d = Done (tt, set_fence i (g <| lock := v |>) d).
Proof.
  intros Hg Hl Hv. unfold unlock_fence, mbind, M_bind.
  rewrite (get_fence_run _ _ g), (put_fence_run _ _ g), Hl, _unlock_val_lock by done.
  by apply _unlock_wake_free.
Qed.

Lemma qtime_then {A} d (k : Z -> DM A) :
  (hw_fence_get_qtime ≫= k) d = k (qtimer d (qtime_reads d)) (d <| qtime_reads ::= S |>).
Proof. done. Qed.

Lemma process_fnc_run op d i f context seqno client pending :
  zget (hw_fences_tbl d) i = Some f ->
  process_fnc op i client context seqno pending d
  = Done (tt, process_entry op context seqno client pending i d).
Proof.
  intros Hf. unfold process_entry. rewrite Hf.
  assert (Hget : forall d' g, d' = set_fence i g d -> zget (hw_fences_tbl d') i = Some g)
    by (intros d' g ->; by eapply set_fence_get).
  destruct op; cbn [process_fnc is_create processed];
    unfold _reserve_hw_fence, _unreserve_hw_fence, _reserve_join_fence.
  - rewrite (upd_fence_then d i f) by done.
    erewrite upd_fence_then by (by apply Hget). rewrite set_fence_twice, qtime_then.
    erewrite upd_fence_run by (eapply (Hget (set_fence i _ d)); reflexivity).
    f_equal. f_equal. exact (set_fence_twice (d <| qtime_reads ::= S |>) i _ _).
  - rewrite (upd_fence_then d i f) by done.
    erewrite upd_fence_run by (by apply Hget). by rewrite set_fence_twice.
  - rewrite (upd_fence_then d i f) by done.
    erewrite upd_fence_then by (by apply Hget). rewrite set_fence_twice, qtime_then.
    erewrite upd_fence_run by (eapply (Hget (set_fence i _ d)); reflexivity).
    f_equal. f_equal. exact (set_fence_twice (d <| qtime_reads ::= S |>) i _ _).
  - change (Done (tt, d) = Done (tt, set_fence i f d)). by rewrite set_fence_id.
Qed.

Definition bump (op : hw_fence_lookup_ops) (d : hw_fence_driver_data) : hw_fence_driver_data :=
  if is_create op then d <| qtime_reads ::= S |> else d.

Lemma bump_same op d : hw_fences_tbl (bump op d) = hw_fences_tbl d.
Proof. by destruct op. Qed.

Lemma process_entry_eq op context seqno client pending i d f :
  zget (hw_fences_tbl d) i = Some f ->
  process_entry op context seqno client pending i d
  = set_fence i (processed op context seqno client pending (qtimer d (qtime_reads d)) f) (bump op d).
Proof. intros Hf. unfold process_entry. by rewrite Hf. Qed.

Lemma bump_set_fence op i f d : bump op (set_fence i f d) = set_fence i f (bump op d).
Proof. by destruct op. Qed.

Lemma processed_lock op context seqno client pending now f :
  lock (processed op context seqno client pending now f) = lock f.
Proof. by destruct op. Qed.

Lemma processed_unlock op context seqno client pending now f v :
  (processed op context seqno client pending now (f <| lock := v |>)) <| lock := lock f |>
  = processed op context seqno client pending now f.
Proof. destruct op; try done. by destruct f. Qed.

(** The effect of the body of the loop on the entry it designates, lock and
    unlock included. *)
Lemma lookup_body_run context seqno client pending op d i f :
  hw_fence_table_entries d = zlen (hw_fences_tbl d) ->
  zget (hw_fences_tbl d) i = Some f -> low32 (lock f) = 0 ->
  lookup_body context seqno client pending op (hw_fence_table_entries d) i d =
  if compare_fnc op f context seqno then
    Done (IterFound i, process_entry op context seqno client pending i d)
  else if is_create op && _hw_fence_match f context seqno then Done (IterBreak, d)
  else Done (IterNext, d).
Proof.
  intros Hn Hf Hfree. pose proof (zget_Some _ _ _ Hf) as Hi.
  unfold lookup_body, _get_hw_fence. destruct (_ <=? i) eqn:Hle; [lia|].
  set (fl := f <| lock := lock f + 1 |>).
  assert (Hlk : lock_fence i d = Done (tt, set_fence i fl d)) by (by apply lock_fence_run).
  assert (Hun : forall d' g, zget (hw_fences_tbl d') i = Some g -> lock g = lock f + 1 ->
    unlock_fence i d' = Done (tt, set_fence i (g <| lock := lock f |>) d'))
    by (intros; by apply unlock_fence_run).
  unfold mbind, M_bind at 1. rewrite Hlk. unfold M_bind at 1.
  rewrite (get_fence_run _ _ fl) by (by eapply set_fence_get).
  replace (compare_fnc op fl context seqno) with (compare_fnc op f context seqno) by (by destruct op).
  destruct (compare_fnc op f context seqno).
  - unfold M_bind. rewrite (process_fnc_run _ _ _ fl) by (by eapply set_fence_get).
    rewrite (process_entry_eq _ _ _ _ _ _ _ fl) by (by eapply set_fence_get).
    rewrite bump_set_fence, set_fence_twice.
    rewrite (Hun _ (processed op context seqno client pending (qtimer d (qtime_reads d)) fl));
      [|eapply set_fence_get; by rewrite bump_same|by rewrite processed_lock].
    rewrite set_fence_twice. unfold fl. rewrite processed_unlock.
    by rewrite (process_entry_eq _ _ _ _ _ _ _ f).
  - unfold _hw_fence_match.
    replace ((seqno =? seq_id fl)) with (seq_id f =? seqno) by (apply Z.eqb_sym).
    replace ((context =? ctx_id fl)) with (ctx_id f =? context) by (apply Z.eqb_sym).
    rewrite <- andb_assoc, (andb_comm (seq_id f =? seqno)).
    unfold M_bind. destruct (is_create op && _); erewrite Hun by (by eapply set_fence_get || done);
      rewrite set_fence_twice; (rewrite set_fence_id; [done|by destruct f]).
Qed.

(** ** The loop scans the probe sequence *)

Section LoopRun.
Context (d : hw_fence_driver_data) (Hok : table_ok d).
Context (context seqno client pending : Z) (op : hw_fence_lookup_ops).

Abbreviation m := (hw_fence_table_entries d).
Abbreviation P := (probe m context seqno).

Lemma entries_range : 0 < m < 2 ^ 32.
Proof using Hok. destruct Hok as [-> ? ? _]. done. Qed.

Lemma probe_range k : 0 <= P k < m.
Proof using Hok. apply Z.mod_pos_bound, entries_range. Qed.

Lemma first_hash_range : 0 <= first_hash m context seqno < m.
Proof using Hok. apply Z.mod_pos_bound, entries_range. Qed.

(** Each step computes the next probe. *)
Lemma calculate_hash_step k hash :
  (k < Z.to_nat m)%nat -> (k = 0%nat \/ hash = P (pred k)) ->
  _calculate_hash m context seqno (Z.of_nat k) hash = (0, P k).
Proof using Hok.
  pose proof entries_range as Hm. pose proof first_hash_range as Hf.
  intros Hk Hh. unfold probe in *. destruct k as [|k].
  - rewrite Z.add_0_r, Z.mod_small by done. done.
  - destruct Hh as [|Hh]; [done|]. cbn [pred] in Hh.
    pose proof (Z.mod_pos_bound (first_hash m context seqno + Z.of_nat k) m ltac:(lia)).
    unfold _calculate_hash. destruct (Z.of_nat (S k) =? 0) eqn:Hz; [lia|].
    destruct (m <=? _) eqn:Hle; [lia|]. f_equal.
    rewrite wrap_small by (unfold is_word; lia). rewrite Hh, Zplus_mod_idemp_l. f_equal. lia.
Qed.

Lemma entry_at k : exists f, zget (hw_fences_tbl d) (P k) = Some f /\ low32 (lock f) = 0.
Proof using Hok.
  pose proof (probe_range k) as Hp. destruct Hok as [Hn _ _ Hl]. 
  destruct (zget_is_Some (hw_fences_tbl d) (P k) ltac:(lia)) as [f Hf]. exists f. split; [done|].
  pose proof (zget_Some _ _ _ Hf). rewrite zget_to_nat in Hf by lia.
  exact (Forall_lookup_1 _ _ _ _ Hl Hf).
Qed.

Lemma lookup_loop_run n : forall k fuel hash,
  (k + n = Z.to_nat m)%nat -> (n <= fuel)%nat -> (k = 0%nat \/ hash = P (pred k)) ->
  lookup_loop context seqno client pending op fuel (Z.of_nat k) hash d =
  match scan op context seqno (hw_fences_tbl d) (map P (seq k n)) with
  | Found i => Done ((Some i, i), process_entry op context seqno client pending i d)
  | Duplicate i => Done ((None, i), d)
  | Exhausted => Done ((None, P (pred (Z.to_nat m))), d)
  end.
Proof using Hok.
  pose proof entries_range as Hm. induction n as [|n IH]; intros k fuel hash Hk Hfuel Hh.
  - assert (k = Z.to_nat m) as -> by lia. destruct Hh as [|Hh]; [lia|].
    assert (Hc : negb (Z.of_nat (Z.to_nat m) <? m) = true) by lia.
    unfold lookup_loop; destruct fuel; unfold mbind, M_bind, getM; by rewrite Hc, Hh.
  - destruct fuel as [|fuel]; [lia|]. cbn [lookup_loop seq map scan].
    unfold mbind at 1, M_bind at 1, getM. replace (negb (Z.of_nat k <? m)) with false by lia.
    rewrite calculate_hash_step by (done || lia). cbn [truthy].
    destruct (entry_at k) as (f&Hf&Hl). rewrite Hf. unfold truthy. cbn [Z.eqb negb].
    unfold mbind, M_bind. rewrite (lookup_body_run _ _ _ _ _ _ _ f) by (done || apply Hok).
    destruct (compare_fnc op f context seqno); [done|].
    destruct (is_create op && _hw_fence_match f context seqno); [done|].
    rewrite wrap_small by (unfold is_word; lia).
    replace (Z.of_nat k + 1) with (Z.of_nat (S k)) by lia.
    apply IH; [lia|lia|by right].
Qed.

(** The lookup is the scan of the whole probe sequence. *)
Lemma lookup_run :
  _hw_fence_lookup_and_process context seqno client pending op d =
  match scan op context seqno (hw_fences_tbl d) (probes m context seqno) with
  | Found i => Done ((Some i, i), process_entry op context seqno client pending i d)
  | Duplicate i => Done ((None, i), d)
  | Exhausted => Done ((None, P (pred (Z.to_nat m))), d)
  end.
Proof using Hok.
  unfold _hw_fence_lookup_and_process, mbind, M_bind, getM.
  by rewrite (lookup_loop_run (Z.to_nat m) 0) by (lia || by left).
Qed.

End LoopRun.

(** ** The scan *)

Section Scan.
Context (op : hw_fence_lookup_ops) (context seqno : Z) (tbl : list msm_hw_fence).

(** An entry the scan passes over. *)
Definition skipped (i : Z) : Prop :=
  exists f, zget tbl i = Some f /\ compare_fnc op f context seqno = false /\
            is_create op && _hw_fence_match f context seqno = false.

Lemma scan_found l i :
  scan op context seqno tbl l = Found i <->
  exists l1 l2 f, l = l1 ++ i :: l2 /\ Forall skipped l1 /\
    zget tbl i = Some f /\ compare_fnc op f context seqno = true.
Proof.
  split.
  - induction l as [|j l IH]; cbn [scan]; [done|].
    destruct (zget tbl j) as [f|] eqn:Hf; [|done].
    destruct (compare_fnc op f context seqno) eqn:Hc.
    { intros [= <-]. exists [], l, f. done. }
    destruct (is_create op && _) eqn:Hd; [done|].
    intros (l1&l2&f'&->&Hl1&?&?)%IH. exists (j :: l1), l2, f'. split_and!; [done| |done..].
    constructor; [|done]. by exists f.
  - intros (l1&l2&f&->&Hl1&Hf&Hc). induction Hl1 as [|j l1 (g&Hg&Hgc&Hgd) _ IH]; cbn.
    + by rewrite Hf, Hc.
    + by rewrite Hg, Hgc, Hgd.
Qed.

Lemma scan_duplicate l i :
  scan op context seqno tbl l = Duplicate i ->
  exists l1 l2 f, l = l1 ++ i :: l2 /\ Forall skipped l1 /\
    zget tbl i = Some f /\ compare_fnc op f context seqno = false /\
    is_create op = true /\ _hw_fence_match f context seqno = true.
Proof.
  induction l as [|j l IH]; cbn [scan]; [done|].
  destruct (zget tbl j) as [f|] eqn:Hf; [|done].
  destruct (compare_fnc op f context seqno) eqn:Hc; [done|].
  destruct (is_create op && _) eqn:Hd.
  - intros [= <-]. apply andb_true_iff in Hd as [? ?]. by exists [], l, f.
  - intros (l1&l2&f'&->&Hl1&?&?&?&?)%IH. exists (j :: l1), l2, f'. split_and!; [done| |done..].
    constructor; [|done]. by exists f.
Qed.

Lemma scan_exhausted l :
  Forall (fun i => is_Some (zget tbl i)) l ->
  scan op context seqno tbl l = Exhausted <-> Forall skipped l.
Proof.
  induction 1 as [|i l [f Hf] Hl IH]; cbn [scan]; [done|]. rewrite Hf. split.
  - destruct (compare_fnc op f context seqno) eqn:Hc; [done|].
    destruct (is_create op && _) eqn:Hd; [done|]. intros Hs%IH. constructor; [|done]. by exists f.
  - intros Hs. inversion_clear Hs as [|? ? (g&Hg&Hc&Hd) Hs'].
    assert (g = f) as -> by congruence. rewrite Hc, Hd. by apply IH.
Qed.

End Scan.

(** ** The probe sequence visits every entry once *)

Lemma probes_range m context seqno i :
  0 < m -> i ∈ probes m context seqno -> 0 <= i < m.
Proof.
  intros Hm. unfold probes. rewrite list_elem_of_fmap. intros (k&->&_).
  apply Z.mod_pos_bound. lia.
Qed.

Lemma probe_inj m context seqno j k :
  0 < m -> Z.of_nat j < m -> Z.of_nat k < m ->
  probe m context seqno j = probe m context seqno k -> j = k.
Proof.
  unfold probe. intros Hm Hj Hk He. set (h := first_hash m context seqno) in *.
  assert (Hd : (Z.of_nat j - Z.of_nat k) mod m = 0).
  { replace (Z.of_nat j - Z.of_nat k) with ((h + Z.of_nat j) - (h + Z.of_nat k)) by lia.
    rewrite Zminus_mod, He, Z.sub_diag. by apply Z.mod_0_l; lia. }
  apply Z.mod_divide in Hd as [q Hq]; [|lia]. assert (q = 0) by nia. nia.
Qed.

Lemma probes_NoDup m context seqno : 0 < m -> NoDup (probes m context seqno).
Proof.
  intros Hm. unfold probes. apply NoDup_fmap_2_strong; [|apply NoDup_seq].
  intros j k Hj%elem_of_seq Hk%elem_of_seq He. by eapply probe_inj in He; [|lia..].
Qed.

Lemma probes_complete m context seqno i :
  0 < m -> 0 <= i < m -> i ∈ probes m context seqno.
Proof.
  intros Hm Hi. set (h := first_hash m context seqno).
  assert (Hh : 0 <= h < m) by (apply Z.mod_pos_bound; lia).
  set (k := Z.to_nat ((i - h) mod m)).
  assert (Hk : 0 <= (i - h) mod m < m) by (apply Z.mod_pos_bound; lia).
  apply list_elem_of_fmap. exists k. split; [|apply elem_of_seq; lia].
  unfold probe, k. fold h. rewrite Z2Nat.id by lia.
  rewrite Zplus_mod_idemp_r. replace (h + (i - h)) with i by lia. by rewrite Z.mod_small.
Qed.

(** The [k]-th probe splits the sequence into the probes before and after it. *)
Lemma probes_split m context seqno l1 i l2 :
  probes m context seqno = l1 ++ i :: l2 ->
  exists k, (k < Z.to_nat m)%nat /\ i = probe m context seqno k /\
            l1 = map (probe m context seqno) (seq 0 k).
Proof.
  intros He. exists (length l1).
  assert (Hl : (length l1 < Z.to_nat m)%nat).
  { assert (Hlen := f_equal length He). unfold probes in Hlen.
    rewrite length_map, length_seq, length_app in Hlen. cbn in Hlen. lia. }
  unfold probes in He. replace (Z.to_nat m) with (length l1 + S (Z.to_nat m - S (length l1)))%nat in He by lia.
  rewrite seq_app, map_app in He. cbn in He.
  apply app_inj_1 in He as [He1 He2]; [|by rewrite length_map, length_seq].
  injection He2. done.
Qed.

(** ** The state after an operation *)

Lemma process_entry_table op context seqno client pending i d f :
  zget (hw_fences_tbl d) i = Some f ->
  hw_fences_tbl (process_entry op context seqno client pending i d)
  = <[Z.to_nat i := processed op context seqno client pending (qtimer d (qtime_reads d)) f]>
      (hw_fences_tbl d).
Proof. intros Hf. rewrite (process_entry_eq _ _ _ _ _ _ _ f) by done. by destruct op. Qed.

Lemma process_entry_entries op context seqno client pending i d :
  hw_fence_table_entries (process_entry op context seqno client pending i d)
  = hw_fence_table_entries d.
Proof. unfold process_entry. destruct (zget _ _); [|done]. by destruct op. Qed.

Lemma process_entry_ok op context seqno client pending i d :
  table_ok d -> table_ok (process_entry op context seqno client pending i d).
Proof.
  intros Hok. pose proof Hok as [Hn Hpos Hw Hl].
  destruct (zget (hw_fences_tbl d) i) as [f|] eqn:Hf;
    [|unfold process_entry; by rewrite Hf].
  split; rewrite ?process_entry_entries, ?(process_entry_table _ _ _ _ _ _ _ f), ?zlen_insert by done;
    try done.
  apply Forall_insert; [done|]. rewrite processed_lock.
  pose proof (zget_Some _ _ _ Hf). rewrite zget_to_nat in Hf by lia.
  exact (Forall_lookup_1 _ _ _ _ Hl Hf).
Qed.

(** The scan after a prefix it skips. *)
Lemma scan_app op context seqno tbl l1 l2 :
  Forall (skipped op context seqno tbl) l1 ->
  scan op context seqno tbl (l1 ++ l2) = scan op context seqno tbl l2.
Proof. induction 1 as [|i l1 (f&Hf&Hc&Hd) _ IH]; [done|]. cbn. by rewrite Hf, Hc, Hd. Qed.

Lemma probes_lookup d context seqno :
  table_ok d ->
  Forall (fun i => is_Some (zget (hw_fences_tbl d) i)) (probes (hw_fence_table_entries d) context seqno).
Proof.
  intros Hok. apply list.Forall_forall. intros i Hi.
  apply probes_range in Hi; [|by apply entries_range].
  rewrite (tbl_entries _ Hok) in Hi. destruct (zget_is_Some _ _ Hi) as [f ?]. by exists f.
Qed.

(** The keys of the table. *)
Definition has_key (f : msm_hw_fence) (context seqno : Z) : Prop :=
  ctx_id f = context /\ seq_id f = seqno.

Lemma match_key f context seqno : _hw_fence_match f context seqno = true <-> has_key f context seqno.
Proof. unfold _hw_fence_match, has_key. lia. Qed.

Lemma match_key_false f context seqno :
  _hw_fence_match f context seqno = false <-> ~ has_key f context seqno.
Proof. unfold _hw_fence_match, has_key. lia. Qed.

Lemma free_valid f context seqno : _is_hw_fence_free f context seqno = true <-> valid f = 0.
Proof. unfold _is_hw_fence_free, truthy. destruct (Z.eqb_spec (valid f) 0); cbn; done. Qed.

Lemma free_valid_false f context seqno :
  _is_hw_fence_free f context seqno = false <-> valid f <> 0.
Proof. unfold _is_hw_fence_free, truthy. destruct (Z.eqb_spec (valid f) 0); cbn; naive_solver. Qed.

Definition fence_at (d : hw_fence_driver_data) (i : Z) (f : msm_hw_fence) : Prop :=
  zget (hw_fences_tbl d) i = Some f.

(** All probes before the [k]-th designate entries satisfying [P]. *)
Definition before (d : hw_fence_driver_data) (context seqno : Z) (k : nat)
    (P : msm_hw_fence -> Prop) : Prop :=
  forall j f, (j < k)%nat ->
    fence_at d (probe (hw_fence_table_entries d) context seqno j) f -> P f.

Lemma before_skipped op d context seqno k (P : msm_hw_fence -> Prop) :
  Forall (skipped op context seqno (hw_fences_tbl d))
    (map (probe (hw_fence_table_entries d) context seqno) (seq 0 k)) ->
  (forall f, compare_fnc op f context seqno = false ->
             is_create op && _hw_fence_match f context seqno = false -> P f) ->
  before d context seqno k P.
Proof.
  intros Hs HP j f Hj Hf.
  assert (Hin : probe (hw_fence_table_entries d) context seqno j
    ∈ map (probe (hw_fence_table_entries d) context seqno) (seq 0 k)).
  { apply list_elem_of_fmap. exists j. split; [done|]. apply elem_of_seq. lia. }
  rewrite list.Forall_forall in Hs. destruct (Hs _ Hin) as (g&Hg&Hc&Hd).
  unfold fence_at in Hf. assert (g = f) as -> by congruence. by apply HP.
Qed.

(** ** The outcomes of a lookup *)

Section Outcomes.
Context (d : hw_fence_driver_data) (Hok : table_ok d).
Context (context seqno client pending : Z).

Abbreviation m := (hw_fence_table_entries d).
Abbreviation P := (probe m context seqno).
Abbreviation lookup := (_hw_fence_lookup_and_process context seqno client pending).

Lemma fence_at_probed i f : fence_at d i f -> i ∈ probes m context seqno.
Proof using Hok.
  intros Hf. apply probes_complete; [by apply entries_range|].
  rewrite (tbl_entries _ Hok). by eapply zget_Some.
Qed.

Lemma exhausted_all op f i :
  scan op context seqno (hw_fences_tbl d) (probes m context seqno) = Exhausted ->
  fence_at d i f -> compare_fnc op f context seqno = false.
Proof using Hok.
  intros Hs Hf. apply scan_exhausted in Hs; [|by apply probes_lookup].
  rewrite list.Forall_forall in Hs. destruct (Hs i (fence_at_probed i f Hf)) as (g&Hg&Hc&_).
  unfold fence_at in Hf. by assert (g = f) as -> by congruence.
Qed.

(** Creation takes the first free probe, unless an earlier probe has the same
    key. *)
Lemma create_cases op :
  is_create op = true ->
  (exists k f, (k < Z.to_nat m)%nat /\ fence_at d (P k) f /\ valid f = 0 /\
     before d context seqno k (fun g => valid g <> 0 /\ ~ has_key g context seqno) /\
     lookup op d = Done ((Some (P k), P k), process_entry op context seqno client pending (P k) d))
  \/ (exists h, lookup op d = Done ((None, h), d) /\
       ((exists i f, fence_at d i f /\ valid f <> 0 /\ has_key f context seqno)
        \/ forall i f, fence_at d i f -> valid f <> 0)).
Proof using Hok.
  intros Hop. rewrite lookup_run by done.
  assert (Hcmp : compare_fnc op = _is_hw_fence_free) by (by destruct op).
  destruct (scan op context seqno _ _) as [i|i|] eqn:Hs.
  - left. apply scan_found in Hs as (l1&l2&f&Hl&Hskip&Hf&Hc).
    destruct (probes_split _ _ _ _ _ _ Hl) as (k&Hk&->&->). rewrite Hcmp in Hc.
    exists k, f. split_and!; [done|done|by apply free_valid in Hc| |done].
    eapply before_skipped; [done|]. intros g. rewrite Hcmp, Hop. cbn.
    intros Hg Hm. split; [by eapply free_valid_false|by apply match_key_false].
  - right. eexists. split; [reflexivity|]. left.
    apply scan_duplicate in Hs as (l1&l2&f&_&_&Hf&Hc&_&Hm). rewrite Hcmp in Hc.
    exists i, f. split_and!; [done|by eapply free_valid_false|by apply match_key].
  - right. eexists. split; [reflexivity|]. right. intros i f Hf.
    eapply free_valid_false. rewrite <- Hcmp. by eapply exhausted_all.
Qed.

(** Finding and destroying take the first probe with the key. *)
Lemma match_cases op :
  is_create op = false ->
  (exists k f, (k < Z.to_nat m)%nat /\ fence_at d (P k) f /\ has_key f context seqno /\
     before d context seqno k (fun g => ~ has_key g context seqno) /\
     lookup op d = Done ((Some (P k), P k), process_entry op context seqno client pending (P k) d))
  \/ (exists h, lookup op d = Done ((None, h), d) /\
       forall i f, fence_at d i f -> ~ has_key f context seqno).
Proof using Hok.
  intros Hop. rewrite lookup_run by done.
  assert (Hcmp : compare_fnc op = _hw_fence_match) by (by destruct op).
  destruct (scan op context seqno _ _) as [i|i|] eqn:Hs.
  - left. apply scan_found in Hs as (l1&l2&f&Hl&Hskip&Hf&Hc).
    destruct (probes_split _ _ _ _ _ _ Hl) as (k&Hk&->&->). rewrite Hcmp in Hc.
    exists k, f. split_and!; [done|done|by apply match_key| |done].
    eapply before_skipped; [done|]. intros g. rewrite Hcmp. intros Hg _. by apply match_key_false.
  - apply scan_duplicate in Hs as (l1&l2&f&_&_&_&_&Hcr&_). congruence.
  - right. eexists. split; [reflexivity|]. intros i f Hf.
    apply match_key_false. rewrite <- Hcmp. by eapply exhausted_all.
Qed.

(** The lookup is determined by the first probe with the key. *)
Lemma match_at op k f :
  is_create op = false -> (k < Z.to_nat m)%nat -> fence_at d (P k) f -> has_key f context seqno ->
  before d context seqno k (fun g => ~ has_key g context seqno) ->
  lookup op d = Done ((Some (P k), P k), process_entry op context seqno client pending (P k) d).
Proof using Hok.
  intros Hop Hk Hf Hkey Hb.
  destruct (match_cases op Hop) as [(k'&f'&Hk'&Hf'&Hkey'&Hb'&->)|(h&_&Hno)].
  - destruct (lt_eq_lt_dec k k') as [[Hlt| ->]|Hlt]; [|done|].
    + by destruct (Hb' k f Hlt Hf).
    + by destruct (Hb k' f' Hlt Hf').
  - by destruct (Hno _ _ Hf).
Qed.

End Outcomes.


Lemma process_entry_at op context seqno client pending i d f j g :
  fence_at d i f ->
  fence_at (process_entry op context seqno client pending i d) j g <->
  if decide (j = i) then g = processed op context seqno client pending (qtimer d (qtime_reads d)) f
  else fence_at d j g.
Proof.
  intros Hf. unfold fence_at in *. rewrite (process_entry_table _ _ _ _ _ _ _ f) by done.
  pose proof (zget_Some _ _ _ Hf). case_decide as Hj.
  - subst j. rewrite zget_insert_eq by lia. split; [by intros [= ->]|by intros ->].
  - by rewrite zget_insert_ne by lia.
Qed.

(** ** Uniqueness of the keys

    Every valid entry is reached by the probes of its key through valid
    entries only: creations keep this, and it makes the test of the creation
    for an existing key complete. *)

Definition probe_path (d : hw_fence_driver_data) : Prop :=
  forall i f, fence_at d i f -> valid f <> 0 ->
  exists k, (k < Z.to_nat (hw_fence_table_entries d))%nat /\
    i = probe (hw_fence_table_entries d) (ctx_id f) (seq_id f) k /\
    before d (ctx_id f) (seq_id f) k (fun g => valid g <> 0).

(** No two valid entries have the same key. *)
Definition unique_keys (d : hw_fence_driver_data) : Prop :=
  forall i j f g, fence_at d i f -> fence_at d j g -> valid f <> 0 -> valid g <> 0 ->
  has_key g (ctx_id f) (seq_id f) -> i = j.

Record creates_inv (d : hw_fence_driver_data) : Prop := {
  ci_ok : table_ok d;
  ci_path : probe_path d;
  ci_unique : unique_keys d;
}.

Section CreateInv.
Context (d : hw_fence_driver_data) (Hinv : creates_inv d).
Context (context seqno client pending : Z) (op : hw_fence_lookup_ops) (Hop : is_create op = true).
Context (k : nat) (f : msm_hw_fence).

Abbreviation m := (hw_fence_table_entries d).
Abbreviation P := (probe m context seqno).
Abbreviation d' := (process_entry op context seqno client pending (P k) d).

Context (Hk : (k < Z.to_nat m)%nat) (Hf : fence_at d (P k) f) (Hfree : valid f = 0).
Context (Hb : before d context seqno k (fun g => valid g <> 0 /\ ~ has_key g context seqno)).

Lemma created_key now :
  let f' := processed op context seqno client pending now f in
  valid f' = 1 /\ ctx_id f' = context /\ seq_id f' = seqno.
Proof using Hop. by destruct op. Qed.

(** The created key was not in the table. *)
Lemma created_fresh j g : fence_at d j g -> valid g <> 0 -> ~ has_key g context seqno.
Proof using Hinv Hf Hfree Hb.
  intros Hg Hv [Hc Hs]. destruct Hinv as [_ Hpath _].
  destruct (Hpath j g Hg Hv) as (kj&_&Hj&Hbj). rewrite Hc, Hs in *. rewrite Hj in Hg.
  destruct (lt_eq_lt_dec k kj) as [[Hlt|Heq]|Hlt].
  - exact (Hbj k f Hlt Hf Hfree).
  - subst kj. unfold fence_at in *. assert (g = f) as -> by congruence. done.
  - destruct (Hb kj g Hlt Hg) as [_ Hno]. by apply Hno.
Qed.

Lemma create_keeps_inv : creates_inv d'.
Proof using Hinv Hop Hk Hf Hfree Hb.
  pose proof (created_key (qtimer d (qtime_reads d))) as (Hv'&Hc'&Hs').
  split; [by apply process_entry_ok, Hinv| |].
  - intros j g Hg Hv. apply (process_entry_at _ _ _ _ _ _ _ f) in Hg; [|done].
    rewrite process_entry_entries. case_decide as Hj.
    + subst g. rewrite Hc', Hs'. exists k. split_and!; [done|done|].
      intros j' g' Hj' Hg'. apply (process_entry_at _ _ _ _ _ _ _ f) in Hg'; [|done].
      rewrite process_entry_entries in Hg'. case_decide; [subst g'; lia|].
      by eapply Hb.
    + destruct (ci_path _ Hinv j g Hg Hv) as (kj&Hkj&->&Hbj). exists kj. split_and!; [done|done|].
      intros j' g' Hj' Hg'. apply (process_entry_at _ _ _ _ _ _ _ f) in Hg'; [|done].
      rewrite process_entry_entries in Hg'. case_decide; [subst g'; lia|].
      by eapply Hbj.
  - intros i j g h Hg Hh Hvg Hvh Hkey.
    apply (process_entry_at _ _ _ _ _ _ _ f) in Hg; [|done].
    apply (process_entry_at _ _ _ _ _ _ _ f) in Hh; [|done].
    destruct Hkey as [Hkc Hks].
    destruct (decide (i = P k)) as [->|Hi], (decide (j = P k)) as [->|Hj].
    + done.
    + rewrite Hg in Hkc, Hks. destruct (created_fresh j h Hh Hvh). split; congruence.
    + rewrite Hh in Hkc, Hks. destruct (created_fresh i g Hg Hvg). split; congruence.
    + eapply (ci_unique _ Hinv); [exact Hg|exact Hh|done|done|by split].
Qed.

End CreateInv.

(** One creation of a fence by a client, whatever it answers. *)
Inductive create_step : hw_fence_driver_data -> hw_fence_driver_data -> Prop :=
| CreateStep d d' op context seqno client pending r :
    is_create op = true ->
    _hw_fence_lookup_and_process context seqno client pending op d = Done (r, d') ->
    create_step d d'.

Lemma create_step_inv d d' : create_step d d' -> creates_inv d -> creates_inv d'.
Proof.
  intros Hstep Hinv. destruct Hstep as [d d' op context seqno client pending r Hop Hrun].
  destruct (create_cases d (ci_ok _ Hinv) context seqno client pending op Hop)
    as [(k&f&?&?&?&?&Hrun')|(h&Hrun'&_)]; rewrite Hrun' in Hrun; injection Hrun as <- <-; [|done].
  by eapply create_keeps_inv.
Qed.

Lemma zero_table_inv d :
  table_ok d -> Forall (fun f => valid f = 0) (hw_fences_tbl d) -> creates_inv d.
Proof.
  intros Hok Hz.
  assert (Hno : forall i f, fence_at d i f -> valid f = 0).
  { intros i f Hf. exact (forall_zget _ _ _ _ Hz Hf). }
  split; [done| |].
  - intros i f Hf Hv. by apply Hno in Hf.
  - intros i j f g Hf _ Hv. by apply Hno in Hf.
Qed.

(** * Properties *)

Definition client_at (d : hw_fence_driver_data) (c : Z) (cl : msm_hw_fence_client) : Prop :=
  zget (clients d) c = Some (Some cl).

Lemma with_client {A} d c cl (k : msm_hw_fence_client -> DM A) :
  client_at d c cl -> (get_client c ≫= k) d = k cl d.
Proof. intros H. unfold mbind, M_bind, get_client. by rewrite H. Qed.

Lemma find_run d c cl context seqno :
  client_at d c cl ->
  msm_hw_fence_find (Some c) context seqno d
  = _hw_fence_lookup_and_process context seqno (client_id cl) 0 HW_FENCE_LOOKUP_OP_FIND_FENCE d.
Proof. intros H. unfold msm_hw_fence_find, mbind, M_bind, get_client. by rewrite H. Qed.

(** C2: [msm_hw_fence_find] visits the entries of the table, each exactly once,
    in probe order: it returns the first whose context and sequence number are
    the ones asked for, and null only when no entry of the whole table has
    them; the driver state is unchanged and no lock stays taken. *)
Theorem hw_fence_find_spec d c cl context seqno :
  table_ok d -> client_at d c cl ->
  NoDup (probes (hw_fence_table_entries d) context seqno) /\
  exists r hash, msm_hw_fence_find (Some c) context seqno d = Done ((r, hash), d) /\
    match r with
    | Some i => hash = i /\ exists k f,
        i = probe (hw_fence_table_entries d) context seqno k /\
        fence_at d i f /\ has_key f context seqno /\
        before d context seqno k (fun g => ~ has_key g context seqno)
    | None => forall i f, fence_at d i f -> ~ has_key f context seqno
    end.
Proof.
  intros Hok Hc. split; [by apply probes_NoDup, entries_range|].
  rewrite (find_run _ _ cl) by done.
  destruct (match_cases d Hok context seqno (client_id cl) 0 HW_FENCE_LOOKUP_OP_FIND_FENCE eq_refl)
    as [(k&f&Hk&Hf&Hkey&Hb&->)|(h&->&Hno)].
  - eexists _, _. split.
    + rewrite (process_entry_eq _ _ _ _ _ _ _ f) by done. cbn [processed bump is_create].
      rewrite set_fence_id by done. reflexivity.
    + split; [done|]. by exists k, f.
  - by eexists None, h.
Qed.

(** C28: [hw_fence_create] takes the first free entry of the probe sequence and
    fills it in completely ([new_fence]), leaving every other entry alone; it
    fails, changing nothing, only when a live entry of the table already has
    the key or when no entry is free. *)
Theorem hw_fence_create_spec d c cl context seqno :
  table_ok d -> client_at d c cl ->
  exists ret hash d', hw_fence_create c context seqno d = Done ((ret, hash), d') /\
    ((ret = 0 /\ exists k f,
        hash = probe (hw_fence_table_entries d) context seqno k /\
        fence_at d hash f /\ valid f = 0 /\
        before d context seqno k (fun g => valid g <> 0 /\ ~ has_key g context seqno) /\
        d' = set_fence hash
               (new_fence context seqno (client_id cl) (qtimer d (qtime_reads d)) 0 (lock f))
               (d <| qtime_reads ::= S |>))
     \/ (ret = - EINVAL /\ d' = d /\
        ((exists i f, fence_at d i f /\ valid f <> 0 /\ has_key f context seqno)
         \/ forall i f, fence_at d i f -> valid f <> 0))).
Proof.
  intros Hok Hc. unfold hw_fence_create. rewrite (with_client _ _ cl) by done.
  unfold mbind, M_bind.
  destruct (create_cases d Hok context seqno (client_id cl) 0 HW_FENCE_LOOKUP_OP_CREATE eq_refl)
    as [(k&f&Hk&Hf&Hv&Hb&->)|(h&->&Hno)].
  - eexists 0, _, _. split; [reflexivity|]. left. split; [done|]. exists k, f. split_and!; try done.
    by rewrite (process_entry_eq _ _ _ _ _ _ _ f).
  - eexists _, _, d. split; [reflexivity|]. by right.
Qed.

(** a fence that was created is found, at the hash the creation returned,
    and as the entry the creation wrote. *)
Theorem hw_fence_create_find d c cl context seqno hash d' :
  table_ok d -> client_at d c cl ->
  hw_fence_create c context seqno d = Done ((0, hash), d') ->
  msm_hw_fence_find (Some c) context seqno d' = Done ((Some hash, hash), d') /\
  exists f, fence_at d' hash f /\ has_key f context seqno /\ valid f = 1 /\
    fence_allocator f = client_id cl.
Proof.
  intros Hok Hc. unfold hw_fence_create. rewrite (with_client _ _ cl) by done.
  unfold mbind, M_bind.
  destruct (create_cases d Hok context seqno (client_id cl) 0 HW_FENCE_LOOKUP_OP_CREATE eq_refl)
    as [(k&f&Hk&Hf&Hv&Hb&->)|(h&->&Hno)]; [|done].
  intros [= <- <-].
  set (d1 := process_entry _ _ _ _ _ _ d).
  assert (Hok1 : table_ok d1) by (by apply process_entry_ok).
  assert (Hm1 : hw_fence_table_entries d1 = hw_fence_table_entries d) by apply process_entry_entries.
  assert (Hc1 : client_at d1 c cl) by (unfold d1; by rewrite (process_entry_eq _ _ _ _ _ _ _ f)).
  assert (Hf1 : fence_at d1 (probe (hw_fence_table_entries d) context seqno k)
    (new_fence context seqno (client_id cl) (qtimer d (qtime_reads d)) 0 (lock f))).
  { apply (process_entry_at _ _ _ _ _ _ _ f); [done|]. by rewrite decide_True. }
  split; [|by eexists].
  rewrite (find_run _ _ cl) by done.
  rewrite (match_at d1 Hok1 _ _ _ _ _ k
    (new_fence context seqno (client_id cl) (qtimer d (qtime_reads d)) 0 (lock f)));
    rewrite ?Hm1; try done.
  - do 2 f_equal. erewrite process_entry_eq by exact Hf1. cbn [processed bump is_create].
    by apply set_fence_id.
  - intros j g Hj Hg. rewrite Hm1 in Hg. apply (process_entry_at _ _ _ _ _ _ _ f) in Hg; [|done].
    case_decide as He; [|by eapply Hb].
    apply probe_inj in He; [lia|by apply entries_range|lia..].
Qed.

Lemma cleanup_cases d client context seqno :
  table_ok d ->
  (exists i f k, i = probe (hw_fence_table_entries d) context seqno k /\
     fence_at d i f /\ has_key f context seqno /\
     before d context seqno k (fun g => ~ has_key g context seqno) /\
     _hw_fence_cleanup client context seqno d = Done (0, set_fence i (cleared_fence (lock f)) d))
  \/ (_hw_fence_cleanup client context seqno d = Done (- EINVAL, d) /\
      forall i f, fence_at d i f -> ~ has_key f context seqno).
Proof.
  intros Hok. unfold _hw_fence_cleanup, mbind, M_bind.
  destruct (match_cases d Hok context seqno client 0 HW_FENCE_LOOKUP_OP_DESTROY eq_refl)
    as [(k&f&Hk&Hf&Hkey&Hb&->)|(h&->&Hno)].
  - left. eexists _, f, k. split_and!; [done..|].
    rewrite (process_entry_eq _ _ _ _ _ _ _ f) by done. done.
  - by right.
Qed.

(** [hw_fence_destroy] clears the first entry of the probe sequence with the
    key, leaving every other entry alone; it fails, changing nothing, exactly
    when no entry of the table has the key. *)
Theorem hw_fence_destroy_spec d c cl context seqno :
  table_ok d -> client_at d c cl ->
  (exists i f k, i = probe (hw_fence_table_entries d) context seqno k /\
     fence_at d i f /\ has_key f context seqno /\
     before d context seqno k (fun g => ~ has_key g context seqno) /\
     hw_fence_destroy c context seqno d = Done (0, set_fence i (cleared_fence (lock f)) d))
  \/ (hw_fence_destroy c context seqno d = Done (- EINVAL, d) /\
      forall i f, fence_at d i f -> ~ has_key f context seqno).
Proof.
  intros Hok Hc. unfold hw_fence_destroy. rewrite (with_client _ _ cl) by done.
  unfold mbind, M_bind.
  destruct (cleanup_cases d (client_id cl) context seqno Hok)
    as [(i&f&k&?&?&?&?&->)|[-> ?]]; [left; by exists i, f, k|by right].
Qed.

Lemma destroy_with_hash_run d c cl hash :
  client_at d c cl ->
  hw_fence_destroy_with_hash c hash d =
  if hw_fence_table_entries d <=? hash then Done (- EINVAL, d) else
  match zget (hw_fences_tbl d) hash with
  | None => Fault OutOfBounds
  | Some f =>
      if negb (fence_allocator f =? client_id cl) then Done (- EINVAL, d) else
      match _hw_fence_cleanup (client_id cl) (ctx_id f) (seq_id f) d with
      | Done (ret, d') => Done (if truthy ret then - EINVAL else 0, d')
      | Fault e => Fault e
      end
  end.
Proof.
  intros Hc. unfold hw_fence_destroy_with_hash. rewrite (with_client _ _ cl) by done.
  unfold mbind, M_bind, getM, _get_hw_fence, get_fence, liftO.
  destruct (_ <=? hash); [done|]. destruct (zget _ hash) as [f|]; [|done].
  by destruct (negb _).
Qed.

(** C29: [hw_fence_destroy_with_hash] refuses a hash outside the table and a
    fence another client allocated, changing nothing; otherwise it clears an
    entry with the key of the entry at that hash, which is that very entry when
    the keys of the table are those of one entry each. *)
Theorem hw_fence_destroy_with_hash_spec d c cl hash :
  table_ok d -> client_at d c cl -> 0 <= hash ->
  (hw_fence_destroy_with_hash c hash d = Done (- EINVAL, d) /\
   (hw_fence_table_entries d <= hash \/
    exists f, fence_at d hash f /\ fence_allocator f <> client_id cl))
  \/ exists f i g, fence_at d hash f /\ fence_allocator f = client_id cl /\
       fence_at d i g /\ has_key g (ctx_id f) (seq_id f) /\
       hw_fence_destroy_with_hash c hash d = Done (0, set_fence i (cleared_fence (lock g)) d) /\
       ((forall j h, fence_at d j h -> has_key h (ctx_id f) (seq_id f) -> j = hash) -> i = hash).
Proof.
  intros Hok Hc Hh. rewrite (destroy_with_hash_run _ _ cl) by done.
  destruct (hw_fence_table_entries d <=? hash) eqn:Hle; [left; split; [done|left; lia]|].
  rewrite (tbl_entries _ Hok) in Hle.
  destruct (zget_is_Some (hw_fences_tbl d) hash ltac:(lia)) as [f Hf]. rewrite Hf.
  destruct (fence_allocator f =? client_id cl) eqn:Ha; cbn [negb].
  - right. destruct (cleanup_cases d (client_id cl) (ctx_id f) (seq_id f) Hok)
      as [(i&g&k&?&Hg&Hkey&?&->)|[_ Hno]]; [|by destruct (Hno hash f Hf)].
    exists f, i, g. split_and!; [done|lia|done..|]. intros Hu. by eapply Hu.
  - left. split; [done|]. right. exists f. split; [done|lia].
Qed.

(** in a table filled by creations only, starting from an empty one, no two
    live entries ever have the same context and sequence number, however the
    hashes collide. *)
Theorem creates_keep_keys_unique d d' :
  table_ok d -> Forall (fun f => valid f = 0) (hw_fences_tbl d) ->
  rtc create_step d d' -> unique_keys d'.
Proof.
  intros Hok Hz Hsteps. apply ci_unique.
  pose proof (zero_table_inv d Hok Hz) as Hinv. clear Hok Hz.
  induction Hsteps as [d|d d1 d' Hstep _ IH]; [done|].
  apply IH. by eapply create_step_inv.
Qed.

(** ** Concrete tables *)

Definition sample_fence_client : msm_hw_fence_client :=
  mkClient 1 1 [] 0 false 0 0 0 false false 0.

Definition sample_table (tbl : list msm_hw_fence) : hw_fence_driver_data :=
  (zero_drv sample_uapi empty_dtree)
    <| hw_fence_table_entries := zlen tbl |> <| hw_fences_tbl := tbl |>
    <| hw_fences_tbl_cnt := zlen tbl |> <| clients_num := 44 |>
    <| clients := [None; Some sample_fence_client] |>.

Definition sample_empty : hw_fence_driver_data := sample_table (replicate 4 zero_fence).

Lemma sample_empty_ok : table_ok sample_empty.
Proof. split; try done. by apply (bool_decide_unpack _). Qed.

Lemma hw_fence_find_spec_witness :
  exists r hash, msm_hw_fence_find (Some 1) 5 9 sample_empty = Done ((r, hash), sample_empty) /\
    match r with
    | Some i => hash = i /\ exists k f,
        i = probe (hw_fence_table_entries sample_empty) 5 9 k /\
        fence_at sample_empty i f /\ has_key f 5 9 /\
        before sample_empty 5 9 k (fun g => ~ has_key g 5 9)
    | None => forall i f, fence_at sample_empty i f -> ~ has_key f 5 9
    end.
Proof.
  apply (hw_fence_find_spec sample_empty 1 sample_fence_client 5 9); [exact sample_empty_ok|done].
Defined.

Lemma hw_fence_create_spec_witness :
  exists ret hash d', hw_fence_create 1 5 9 sample_empty = Done ((ret, hash), d') /\
    ((ret = 0 /\ exists k f,
        hash = probe (hw_fence_table_entries sample_empty) 5 9 k /\
        fence_at sample_empty hash f /\ valid f = 0 /\
        before sample_empty 5 9 k (fun g => valid g <> 0 /\ ~ has_key g 5 9) /\
        d' = set_fence hash (new_fence 5 9 1 0 0 (lock f)) (sample_empty <| qtime_reads ::= S |>))
     \/ (ret = - EINVAL /\ d' = sample_empty /\
        ((exists i f, fence_at sample_empty i f /\ valid f <> 0 /\ has_key f 5 9)
         \/ forall i f, fence_at sample_empty i f -> valid f <> 0))).
Proof.
  apply (hw_fence_create_spec sample_empty 1 sample_fence_client 5 9); [exact sample_empty_ok|done].
Defined.

Definition sample_created : hw_fence_driver_data :=
  set_fence 0 (new_fence 5 9 1 0 0 0) (sample_empty <| qtime_reads ::= S |>).

Example sample_create : hw_fence_create 1 5 9 sample_empty = Done ((0, 0), sample_created).
Proof. vm_compute. reflexivity. Qed.

Lemma hw_fence_create_find_witness :
  msm_hw_fence_find (Some 1) 5 9 sample_created = Done ((Some 0, 0), sample_created) /\
  exists f, fence_at sample_created 0 f /\ has_key f 5 9 /\ valid f = 1 /\ fence_allocator f = 1.
Proof.
  apply (hw_fence_create_find sample_empty 1 sample_fence_client 5 9 0 sample_created);
    [exact sample_empty_ok|done|exact sample_create].
Defined.

Lemma hw_fence_destroy_spec_witness :
  (exists i f k, i = probe (hw_fence_table_entries sample_empty) 5 9 k /\
     fence_at sample_empty i f /\ has_key f 5 9 /\
     before sample_empty 5 9 k (fun g => ~ has_key g 5 9) /\
     hw_fence_destroy 1 5 9 sample_empty = Done (0, set_fence i (cleared_fence (lock f)) sample_empty))
  \/ (hw_fence_destroy 1 5 9 sample_empty = Done (- EINVAL, sample_empty) /\
      forall i f, fence_at sample_empty i f -> ~ has_key f 5 9).
Proof.
  apply (hw_fence_destroy_spec sample_empty 1 sample_fence_client 5 9); [exact sample_empty_ok|done].
Defined.

Lemma hw_fence_destroy_with_hash_spec_witness :
  (hw_fence_destroy_with_hash 1 2 sample_empty = Done (- EINVAL, sample_empty) /\
   (hw_fence_table_entries sample_empty <= 2 \/
    exists f, fence_at sample_empty 2 f /\ fence_allocator f <> 1))
  \/ exists f i g, fence_at sample_empty 2 f /\ fence_allocator f = 1 /\
       fence_at sample_empty i g /\ has_key g (ctx_id f) (seq_id f) /\
       hw_fence_destroy_with_hash 1 2 sample_empty
         = Done (0, set_fence i (cleared_fence (lock g)) sample_empty) /\
       ((forall j h, fence_at sample_empty j h -> has_key h (ctx_id f) (seq_id f) -> j = 2) -> i = 2).
Proof.
  apply (hw_fence_destroy_with_hash_spec sample_empty 1 sample_fence_client 2);
    [exact sample_empty_ok|done|done].
Defined.

Lemma creates_keep_keys_unique_witness : unique_keys sample_created.
Proof.
  apply (creates_keep_keys_unique sample_empty sample_created); [exact sample_empty_ok| |].
  - by apply Forall_replicate.
  - apply rtc_once. eapply (CreateStep _ _ HW_FENCE_LOOKUP_OP_CREATE 5 9 1 0); [done|].
    vm_compute. reflexivity.
Defined.

(** With destructions the keys are no longer unique: the creation stops at the
    first free entry, so it misses a live entry that lies behind an entry
    destroyed meanwhile.  Contexts 1 and 5 collide in a table of 4 entries. *)
Definition run_ops (l : list (DM Z)) (d : hw_fence_driver_data) : option (list Z * hw_fence_driver_data) :=
  fold_left (fun acc m =>
    match acc with
    | Some (rs, d) => match m d with Done (r, d') => Some (rs ++ [r], d') | Fault _ => None end
    | None => None
    end) l (Some ([], d)).

Definition create_ret (context seqno : Z) : DM Z := r ← hw_fence_create 1 context seqno; mret r.1.

(** after creating (1, 0) and (5, 0), which share their first probe, and
    destroying (1, 0), a second creation of the live fence (5, 0) succeeds
    instead of being refused, and the table holds two live entries with the
    same key. *)
Theorem create_after_destroy_duplicates :
  exists d', run_ops [create_ret 1 0; create_ret 5 0; hw_fence_destroy 1 1 0; create_ret 5 0] sample_empty
    = Some ([0; 0; 0; 0], d') /\ ~ unique_keys d'.
Proof.
  destruct (run_ops [create_ret 1 0; create_ret 5 0; hw_fence_destroy 1 1 0; create_ret 5 0] sample_empty)
    as [[rs d']|] eqn:Hrun; [|by vm_compute in Hrun].
  vm_compute in Hrun. injection Hrun as <- <-. eexists. split; [reflexivity|].
  intros Hu.
  assert (H : 0 = 3); [|done].
  apply (Hu 0 3 (new_fence 5 0 1 1 0 0) (new_fence 5 0 1 2 0 0)); done.
Qed.
