(* ===== verification/HwFenceJoin.v ===== *)
(** * Waiting, joining and signalling

    The part of [hw_fence_drv_priv.c] and [hw_fence_drv_utils.c] that connects
    fences and clients: the signal of a client (callback, Rx queue, interrupt),
    the registration of a waiting client, the join fences made from a fence
    array, the clean-up of a client's fences and the doorbell. *)

From S2P Require Import Prelude HwFenceState HwFenceQueue HwFenceTable.

Local Open Scope Z_scope.

(** ** Client data *)

Definition hw_fence_get_client_data_id (u : hw_uapi) (client_id : Z) : Z :=
  if client_id =? HW_FENCE_CLIENT_ID_CTX0 u then HW_FENCE_CLIENT_DATA_ID_CTX0
  else if client_id =? HW_FENCE_CLIENT_ID_VAL0 u then HW_FENCE_CLIENT_DATA_ID_VAL0
  else if client_id =? HW_FENCE_CLIENT_ID_VAL1 u then HW_FENCE_CLIENT_DATA_ID_VAL1
  else if client_id =? HW_FENCE_CLIENT_ID_IPE u then HW_FENCE_CLIENT_DATA_ID_IPE
  else if client_id =? HW_FENCE_CLIENT_ID_VPU u then HW_FENCE_CLIENT_DATA_ID_VPU
  else HW_FENCE_MAX_CLIENTS_WITH_DATA.

(** A store into an array field of a fence. *)
Definition fence_store (get : msm_hw_fence -> list Z)
    (set : list Z -> msm_hw_fence -> msm_hw_fence) (i k v : Z) : DM unit :=
  f ← get_fence i;
  l ← liftO OutOfBounds (zset (get f) k v);
  put_fence i (set l f).

Definition store_client_data (i data_id v : Z) : DM unit :=
  fence_store client_data (fun l f => f <| client_data := l |>) i data_id v.

Definition store_parent (i k v : Z) : DM unit :=
  fence_store parent_list (fun l f => f <| parent_list := l |>) i k v.

(** ** Signalling a client *)

Definition hw_fence_utils_fence_error_cb (c : option Z) (ctxt_id seqno hash flags error : Z) : DM Z :=
  match c with
  | None => mret (- EINVAL)
  | Some c =>
      cl ← get_client c;
      if negb (truthy error) || negb (fence_error_cb cl) then mret (- EINVAL)
      else emit (EvFenceErrorCb c ctxt_id seqno hash flags error) ;; mret 0
  end.

Definition process_validation_client_loopback (client_id : Z) : DM Z :=
  d ← getM;
  if (client_id <? HW_FENCE_CLIENT_ID_VAL0 (uapi d)) || (HW_FENCE_CLIENT_ID_VAL6 (uapi d) <? client_id)
  then mret (- EINVAL)
  else match zget (clients d) client_id with
       | None => failM OutOfBounds
       | Some None => mret (- EINVAL)
       | Some (Some cl) =>
           put_client client_id (cl <| val_signal := 1 |>) ;;
           emit (EvWakeValidation client_id) ;; mret 0
       end.

(** The part of [_fence_ctl_signal] before the validation clients: the error
    callback, or the Rx queue and the interrupt. *)
Definition notify_client (c i hash flags client_data error tx_client_id rx_client_id : Z)
    (cl : msm_hw_fence_client) : DM unit :=
  if truthy error && fence_error_cb cl then
    f ← get_fence i;
    hw_fence_utils_fence_error_cb (Some c) (ctx_id f) (seq_id f) hash flags error ;; mret tt
  else
    (if update_rxq cl then
       f ← get_fence i;
       hw_fence_update_queue c (ctx_id f) (seq_id f) hash flags client_data error
         (HW_FENCE_RX_QUEUE - 1) ;; mret tt
     else mret tt) ;;
    if send_ipc cl then
      hw_fence_ipcc_trigger_signal tx_client_id rx_client_id (ipc_signal_id cl)
    else mret tt.

Definition _fence_ctl_signal (c i hash flags client_data error : Z) : DM unit :=
  d ← getM;
  cl ← get_client c;
  let tx_client_id := ipcc_client_pid d in
  let rx_client_id := ipc_client_vid cl in
  notify_client c i hash flags client_data error tx_client_id rx_client_id cl ;;
  if config_debug_fs d && (HW_FENCE_CLIENT_ID_VAL0 (uapi d) <=? client_id cl)
     && (client_id cl <=? HW_FENCE_CLIENT_ID_VAL6 (uapi d))
  then process_validation_client_loopback (client_id cl) ;; mret tt
  else mret tt.

(** ** Fences of the kernel *)

Definition get_dma_fence (p : option Z) : DM dma_fence := fun d =>
  match p with
  | None => Fault NullDeref
  | Some p => liftO OutOfBounds (zget (dma_fences d) p) d
  end.

Definition upd_dma_fence (p : option Z) (g : dma_fence -> dma_fence) : DM unit :=
  f ← get_dma_fence p;
  modify (fun d => match p with
                   | Some p => d <| dma_fences ::= fun l => <[Z.to_nat p := g f]> l |>
                   | None => d
                   end).

Definition set_bit (n : Z) (p : option Z) : DM unit :=
  upd_dma_fence p (fun f => f <| df_flags ::= fun x => Z.lor x (bitmap_bit n) |>).

Definition clear_bit (n : Z) (p : option Z) : DM unit :=
  upd_dma_fence p (fun f => f <| df_flags ::= fun x => Z.ldiff x (bitmap_bit n) |>).

Definition test_bit (n : Z) (f : dma_fence) : bool := Z.testbit (df_flags f) n.

(** The kernel's [to_dma_fence_array]: null for a null pointer and for a fence
    that is not an array. *)
Definition to_dma_fence_array (p : option Z) : DM (option dma_fence_array) :=
  match p with
  | None => mret None
  | Some _ => f ← get_dma_fence p; mret (df_array f)
  end.

(** [array->fences[idx]]. *)
Definition array_fence (array : dma_fence_array) (idx : Z) : DM (option Z) :=
  match fences array with
  | None => failM NullDeref
  | Some l => liftO OutOfBounds (zget l idx)
  end.

(** ** Join fences *)

Definition _hw_fence_process_join_fence (base : dma_fence) (array : dma_fence_array)
    (create : bool) (hash : Z) : DM (option Z * Z) :=
  let context := df_context base in
  let seqno := df_seqno base in
  let pending_child_cnt := num_fences array in
  let client_id := HW_FENCE_JOIN_FENCE_CLIENT_ID in
  if create then
    _hw_fence_lookup_and_process context seqno client_id pending_child_cnt
      HW_FENCE_LOOKUP_OP_CREATE_JOIN
  else _hw_fence_cleanup client_id context seqno ;; mret (None, hash).

(** The loop over the parents of a child: [j] goes down from the count, which
    is first brought back to the size of the list. *)
Fixpoint cleanup_parents (fuel : nat) (j i hash_join_fence : Z) : DM unit :=
  if negb (0 <? j) then mret tt else
  match fuel with
  | O => failM Diverges
  | S fuel' =>
      let j := if MSM_HW_FENCE_MAX_JOIN_PARENTS <? j then MSM_HW_FENCE_MAX_JOIN_PARENTS else j in
      f ← get_fence i;
      p ← liftO OutOfBounds (zget (parent_list f) (j - 1));
      (if p =? hash_join_fence then
         store_parent i (j - 1) HW_FENCE_INVALID_PARENT_FENCE ;;
         upd_fence i (fun f => if truthy (parents_cnt f)
                               then f <| parents_cnt ::= fun n => u32 (n - 1) |> else f)
       else mret tt) ;;
      cleanup_parents fuel' (j - 1) i hash_join_fence
  end.

Definition cleanup_child (c : Z) (array : dma_fence_array) (hash_join_fence idx : Z) : DM unit :=
  child_fence ← array_fence array idx;
  match child_fence with
  | None => mret tt
  | Some _ =>
      cf ← get_dma_fence child_fence;
      '(hw_fence_child, _) ← msm_hw_fence_find (Some c) (df_context cf) (df_seqno cf);
      match hw_fence_child with
      | None => mret tt
      | Some i =>
          lock_fence i ;;
          f ← get_fence i;
          cleanup_parents 3 (s32 (parents_cnt f)) i hash_join_fence ;;
          unlock_fence i
      end
  end.

(** The indexes from [iteration] down to 0. *)
Definition down_to_0 (iteration : Z) : list Z :=
  rev (map Z.of_nat (seq 0 (Z.to_nat (iteration + 1)))).

Definition _cleanup_join_and_child_fences (c iteration : Z) (base : dma_fence)
    (array : dma_fence_array) (hash_join_fence : Z) : DM unit :=
  (match fences array with
   | None => mret tt
   | Some _ => forM (down_to_0 iteration) (cleanup_child c array hash_join_fence)
   end) ;;
  _hw_fence_process_join_fence base array false hash_join_fence ;; mret tt.

(** The links between a child found in the table and the join fence, under the
    child's lock. *)
Definition link_child (child join_fence hash_join_fence : Z) (signal_join_fence : bool)
    : DM (unit + bool) :=
  lock_fence child ;;
  f ← get_fence child;
  if truthy (Z.land (flags f) MSM_HW_FENCE_FLAG_SIGNAL) then
    lock_fence join_fence ;;
    f ← get_fence child;
    upd_fence join_fence (fun j => j <| error ::= fun e => Z.lor e (error f) |>) ;;
    upd_fence join_fence (fun j => j <| pending_child_cnt ::= fun n => u32 (n - 1) |>) ;;
    jf ← get_fence join_fence;
    unlock_fence join_fence ;;
    unlock_fence child ;;
    mret (inr (if pending_child_cnt jf =? 0 then true else signal_join_fence))
  else
    upd_fence child (fun f => f <| parents_cnt ::= fun n => u32 (n + 1) |>) ;;
    f ← get_fence child;
    if (MSM_HW_FENCE_MAX_JOIN_PARENTS <=? parents_cnt f) || (parents_cnt f <? 1) then
      upd_fence child (fun f => f <| parents_cnt ::= fun n => u32 (n - 1) |>) ;;
      unlock_fence child ;;
      mret (inl tt)
    else
      store_parent child (parents_cnt f - 1) hash_join_fence ;;
      unlock_fence child ;;
      mret (inr signal_join_fence).

(** One iteration over the array: [inl tt] is [goto error_array], [inr b] the
    new value of [signal_join_fence]. *)
Definition process_child (c : Z) (array : dma_fence_array) (join_fence hash_join_fence i : Z)
    (signal_join_fence : bool) : DM (unit + bool) :=
  child_fence ← array_fence array i;
  nested ← to_dma_fence_array child_fence;
  match nested with
  | Some _ => mret (inl tt)
  | None =>
      cf ← get_dma_fence child_fence;
      d ← getM;
      if negb (test_bit (MSM_HW_FENCE_FLAG_ENABLED_BIT (uapi d)) cf) then mret (inl tt) else
      '(hw_fence_child, _) ← msm_hw_fence_find (Some c) (df_context cf) (df_seqno cf);
      match hw_fence_child with
      | None => mret (inl tt)
      | Some child =>
          link_child child join_fence hash_join_fence signal_join_fence
      end
  end.

(** The loop: the value of [i] where it stopped with an error, or the flag. *)
Fixpoint process_children (idxs : list Z) (c : Z) (array : dma_fence_array)
    (join_fence hash_join_fence : Z) (signal_join_fence : bool) : DM (Z + bool) :=
  match idxs with
  | [] => mret (inr signal_join_fence)
  | i :: idxs' =>
      r ← process_child c array join_fence hash_join_fence i signal_join_fence;
      match r with
      | inl _ => mret (inl i)
      | inr b => process_children idxs' c array join_fence hash_join_fence b
      end
  end.

Definition array_indexes (array : dma_fence_array) : list Z :=
  map Z.of_nat (seq 0 (Z.to_nat (num_fences array))).

Definition hw_fence_process_fence_array (c : Z) (p : Z) (array : dma_fence_array)
    (client_data : Z) : DM (Z * Z) :=
  cl ← get_client c;
  base ← get_dma_fence (Some p);
  d ← getM;
  let data_id := hw_fence_get_client_data_id (uapi d) (client_id_ext cl) in
  if truthy client_data && (HW_FENCE_MAX_CLIENTS_WITH_DATA <=? data_id) then mret (- EINVAL, 0) else
  '(join_fence, hash_join_fence) ← _hw_fence_process_join_fence base array true 0;
  match join_fence with
  | None => mret (- EINVAL, hash_join_fence)
  | Some join_fence =>
      lock_fence join_fence ;;
      bit ← client_bit (client_id cl);
      upd_fence join_fence (fun f => f <| wait_client_mask ::= fun m => Z.lor m bit |>) ;;
      unlock_fence join_fence ;;
      r ← process_children (array_indexes array) c array join_fence hash_join_fence false;
      match (r : Z + bool) with
      | inl i =>
          _cleanup_join_and_child_fences c i base array hash_join_fence ;;
          mret (- EINVAL, hash_join_fence)
      | inr signal_join_fence =>
          (if truthy client_data then store_client_data join_fence data_id client_data
           else mret tt) ;;
          if signal_join_fence then
            f ← get_fence join_fence;
            _fence_ctl_signal c join_fence hash_join_fence 0 client_data (error f) ;;
            set_bit (MSM_HW_FENCE_FLAG_SIGNALED_BIT (uapi d)) (Some p) ;;
            _hw_fence_process_join_fence base array false hash_join_fence ;;
            mret (0, hash_join_fence)
          else if negb (truthy (num_fences array)) then
            _cleanup_join_and_child_fences c (num_fences array) base array hash_join_fence ;;
            mret (- EINVAL, hash_join_fence)
          else mret (0, hash_join_fence)
      end
  end.

(** ** Waiting for one fence *)

Definition hw_fence_register_wait_client (fence : option Z) (c context seqno client_data : Z)
    : DM (Z * Z) :=
  cl ← get_client c;
  d ← getM;
  let data_id := hw_fence_get_client_data_id (uapi d) (client_id_ext cl) in
  if truthy client_data && (HW_FENCE_MAX_CLIENTS_WITH_DATA <=? data_id) then mret (- EINVAL, 0) else
  '(hw_fence, hash) ← msm_hw_fence_find (Some c) context seqno;
  match hw_fence with
  | None => mret (- EINVAL, hash)
  | Some i =>
      lock_fence i ;;
      bit ← client_bit (client_id cl);
      upd_fence i (fun f => f <| wait_client_mask ::= fun m => Z.lor m bit |>) ;;
      now ← hw_fence_get_qtime;
      upd_fence i (fun f => f <| fence_wait_time := now |>
                              <| debug_refcount ::= fun n => u64 (n + 1) |>) ;;
      (if truthy client_data then store_client_data i data_id client_data else mret tt) ;;
      unlock_fence i ;;
      f ← get_fence i;
      (if truthy (Z.land (flags f) MSM_HW_FENCE_FLAG_SIGNAL) then
         (match fence with
          | Some _ => set_bit (MSM_HW_FENCE_FLAG_SIGNALED_BIT (uapi d)) fence
          | None => mret tt
          end) ;;
         _fence_ctl_signal c i hash 0 client_data 0
       else mret tt) ;;
      mret (0, hash)
  end.

Definition hw_fence_process_fence (c fence : option Z) (client_data : Z) : DM (Z * Z) :=
  match c, fence with
  | Some c, Some _ =>
      f ← get_dma_fence fence;
      d ← getM;
      if negb (test_bit (MSM_HW_FENCE_FLAG_ENABLED_BIT (uapi d)) f) then mret (- EINVAL, 0)
      else hw_fence_register_wait_client fence c (df_context f) (df_seqno f) client_data
  | _, _ => mret (- EINVAL, 0)
  end.

(** ** Signalling every waiting client *)

(** [client_data] is the variable of the source, which keeps the value of the
    last client that had data. *)
Fixpoint signal_wait_clients (ids : list Z) (i hash error client_data' : Z) : DM unit :=
  match ids with
  | [] => mret tt
  | wait_client_id :: ids' =>
      f ← get_fence i;
      bit ← client_bit wait_client_id;
      if truthy (Z.land (wait_client_mask f) bit) then
        d ← getM;
        match zget (clients d) wait_client_id with
        | None => failM OutOfBounds
        | Some None => signal_wait_clients ids' i hash error client_data'
        | Some (Some cl) =>
            let data_id := hw_fence_get_client_data_id (uapi d) (client_id_ext cl) in
            client_data' ← (if data_id <? HW_FENCE_MAX_CLIENTS_WITH_DATA
                            then liftO OutOfBounds (zget (client_data f) data_id)
                            else mret client_data');
            _fence_ctl_signal wait_client_id i hash 0 client_data' error ;;
            signal_wait_clients ids' i hash error client_data'
        end
      else signal_wait_clients ids' i hash error client_data'
  end.

Definition _signal_all_wait_clients (i hash error : Z) : DM unit :=
  d ← getM;
  signal_wait_clients (map Z.of_nat (seq 0 (Z.to_nat (rxq_clients_num d + 1)))) i hash error 0.

Definition hw_fence_utils_cleanup_fence (c i hash reset_flags : Z) : DM Z :=
  cl ← get_client c;
  d ← getM;
  let error := if truthy (Z.land reset_flags (MSM_HW_FENCE_RESET_WITHOUT_ERROR (uapi d)))
               then 0 else MSM_HW_FENCE_ERROR_RESET (uapi d) in
  lock_fence i ;;
  f ← get_fence i;
  bit ← client_bit (client_id cl);
  (if truthy (Z.land (wait_client_mask f) bit) then
     upd_fence i (fun f => f <| wait_client_mask ::= fun m => Z.ldiff m bit |>)
   else mret tt) ;;
  unlock_fence i ;;
  f ← get_fence i;
  if fence_allocator f =? client_id cl then
    (if negb (truthy (Z.land (flags f) MSM_HW_FENCE_FLAG_SIGNAL))
     then _signal_all_wait_clients i hash error else mret tt) ;;
    if truthy (Z.land reset_flags (MSM_HW_FENCE_RESET_WITHOUT_DESTROY (uapi d))) then mret 0 else
    f ← get_fence i;
    hw_fence_destroy c (ctx_id f) (seq_id f)
  else mret 0.

(** ** Doorbell *)

Definition HW_FENCE_MAX_ITER_READ : nat := 100.
Definition HW_FENCE_CTRL_QUEUE_DOORBELL : Z := 0.

(** A read of the control Rx queue. *)
Definition read_ctrl_rxq : DM (Z * option queue_payload) := fun d =>
  match zget (ctrl_queues d) (HW_FENCE_RX_QUEUE - 1) with
  | None => Fault OutOfBounds
  | Some queue =>
      match hw_fence_read_queue_helper queue with
      | Fault f => Fault f
      | Done (r, queue') =>
          Done (r, d <| ctrl_queues ::= fun l => <[Z.to_nat (HW_FENCE_RX_QUEUE - 1) := queue']> l |>)
      end
  end.

(** What is done with one payload: 0, or the error to remember. *)
Definition process_ctrl_payload (p : queue_payload) : DM Z :=
  d ← getM;
  if negb (p_type p =? HW_FENCE_PAYLOAD_TYPE_2) then mret (- EINVAL) else
  if (p_client_data p <? HW_FENCE_CLIENT_ID_CTX0 (uapi d)) || (clients_num d <=? p_client_data p)
  then mret (- EINVAL) else
  let client_id := u32 (p_client_data p) in
  match zget (clients d) client_id with
  | None => failM OutOfBounds
  | Some None => mret (- EINVAL)
  | Some (Some _) =>
      hw_fence_utils_fence_error_cb (Some client_id) (p_ctxt_id p) (p_seqno p) (p_hash p)
        (p_flags p) (p_error p)
  end.

Fixpoint loopback_loop (iters : nat) (read ret : Z) : DM Z :=
  match iters with
  | O => mret ret
  | S iters' =>
      if negb (truthy read) then mret ret else
      '(read, payload) ← read_ctrl_rxq;
      match payload with
      | None => mret read
      | Some p =>
          cb_ret ← process_ctrl_payload p;
          loopback_loop iters' read (if truthy cb_ret then cb_ret else ret)
      end
  end.

Definition _process_fence_error_client_loopback : DM Z :=
  loopback_loop HW_FENCE_MAX_ITER_READ 1 0.

Definition is_val_client (u : hw_uapi) (x : Z) : bool :=
  existsb (Z.eqb x)
    [HW_FENCE_CLIENT_ID_VAL0 u; HW_FENCE_CLIENT_ID_VAL1 u; HW_FENCE_CLIENT_ID_VAL2 u;
     HW_FENCE_CLIENT_ID_VAL3 u; HW_FENCE_CLIENT_ID_VAL4 u; HW_FENCE_CLIENT_ID_VAL5 u;
     HW_FENCE_CLIENT_ID_VAL6 u].

Definition _process_doorbell_id (db_flag_id : Z) : DM Z :=
  d ← getM;
  if db_flag_id =? HW_FENCE_CTRL_QUEUE_DOORBELL then _process_fence_error_client_loopback
  else if config_debug_fs d && is_val_client (uapi d) db_flag_id
       then process_validation_client_loopback db_flag_id
       else mret (- EINVAL).

(** [1 << db_flag_id] is a 32-bit int: bit 31 is sign-extended into the mask. *)
Definition doorbell_bit (db_flag_id : Z) : Z := u64 (s32 (Z.shiftl 1 db_flag_id)).

Fixpoint doorbell_loop (ids : list Z) (db_flags : Z) : DM unit :=
  match ids with
  | [] => mret tt
  | id :: ids' =>
      let mask := doorbell_bit id in
      if truthy (Z.land mask db_flags) then
        _process_doorbell_id id ;;
        let db_flags := Z.ldiff db_flags mask in
        if negb (truthy db_flags) then mret tt else doorbell_loop ids' db_flags
      else doorbell_loop ids' db_flags
  end.

Definition HW_FENCE_DOORBELL_FLAGS_ID_LAST (d : hw_fence_driver_data) : Z :=
  if config_debug_fs d then HW_FENCE_CLIENT_ID_VAL6 (uapi d) else HW_FENCE_CTRL_QUEUE_DOORBELL.

Definition hw_fence_utils_process_doorbell_mask (db_flags : Z) : DM unit :=
  d ← getM;
  doorbell_loop (map Z.of_nat (seq 0 (Z.to_nat (HW_FENCE_DOORBELL_FLAGS_ID_LAST d + 1)))) db_flags.

(** ** The driver as its clients see it

    The abstract state of the driver is the list of messages in the Rx queue
    of each client; [drv_ready caps rxs d] relates it to the concrete one: the
    table is well-formed, every registered client carries the identifier it is
    stored under and, if it gets Rx messages, its Rx queue is a queue of
    [HwFenceQueue] with [caps c] slots that holds [rxs c] and whose lock nobody
    holds. *)

(** The Rx queue of [cl] has [cap] slots and holds the messages [l]. *)
Definition rx_holds (cl : msm_hw_fence_client) (cap : nat) (l : list message) : Prop :=
  exists queue lp, zget (queues cl) (HW_FENCE_RX_QUEUE - 1) = Some queue /\
    queue_repr queue lp /\ capacity queue = cap /\ skip_wr_idx queue = false /\
    map payload_message lp = l.

Record client_ok (caps : Z -> nat) (rxs : Z -> list message) (d : hw_fence_driver_data)
    (c : Z) (cl : msm_hw_fence_client) : Prop := {
  ck_id : client_id cl = c;
  ck_pos : 0 < c;
  ck_rx : update_rxq cl = true ->
    1 < queues_num cl /\ rx_lock_ready d cl (HW_FENCE_RX_QUEUE - 1) /\ rx_holds cl (caps c) (rxs c);
}.

Record fence_ok (f : msm_hw_fence) : Prop := {
  fk_ctx : is_word 64 (ctx_id f);
  fk_seq : is_word 64 (seq_id f);
  fk_data : length (client_data f) = 5%nat;
  fk_data_words : Forall (is_word 64) (client_data f);
}.

Record drv_ready (caps : Z -> nat) (rxs : Z -> list message) (d : hw_fence_driver_data) : Prop := {
  dr_table : table_ok d;
  dr_fences : Forall fence_ok (hw_fences_tbl d);
  dr_clients : forall c cl, client_at d c cl -> client_ok caps rxs d c cl;
}.

(** What a client is told about the fence [f]: the events that leave the
    driver, and the messages in the Rx queues afterwards. *)
Definition fence_message (f : msm_hw_fence) (hash flags data error : Z) : message :=
  mkMessage (ctx_id f) (seq_id f) hash flags data (u32 error).

Definition calls_back (cl : msm_hw_fence_client) (error : Z) : bool :=
  truthy error && fence_error_cb cl.

Definition loops_back (d : hw_fence_driver_data) (c : Z) : bool :=
  config_debug_fs d && (HW_FENCE_CLIENT_ID_VAL0 (uapi d) <=? c) && (c <=? HW_FENCE_CLIENT_ID_VAL6 (uapi d)).

Definition interrupt_event (d : hw_fence_driver_data) (cl : msm_hw_fence_client) : hw_event :=
  EvIpccWrite (IPC_PROTOCOLp_CLIENTc_SEND (protocol_id d) (ipcc_client_pid d))
    (u32 (Z.lor (Z.shiftl (ipc_client_vid cl) 16) (ipc_signal_id cl))).

Definition signal_events (d : hw_fence_driver_data) (c : Z) (cl : msm_hw_fence_client)
    (f : msm_hw_fence) (hash flags error : Z) : list hw_event :=
  (if calls_back cl error then [EvFenceErrorCb c (ctx_id f) (seq_id f) hash flags error]
   else if send_ipc cl then [interrupt_event d cl] else [])
  ++ (if loops_back d c then [EvWakeValidation c] else []).

(** The message goes to the client's Rx queue, unless it is full. *)
Definition push (cap : nat) (m : message) (l : list message) : list message :=
  (fifo_step cap (OpPut m) l).2.

Definition deliver (caps : Z -> nat) (c : Z) (cl : msm_hw_fence_client) (m : message) (error : Z)
    (rxs : Z -> list message) : Z -> list message :=
  fun k => if (k =? c) && update_rxq cl && negb (calls_back cl error)
           then push (caps k) m (rxs k) else rxs k.

Lemma signal_events_env d d' c cl f hash flags err :
  uapi d' = uapi d -> config_debug_fs d' = config_debug_fs d -> protocol_id d' = protocol_id d ->
  ipcc_client_pid d' = ipcc_client_pid d ->
  signal_events d' c cl f hash flags err = signal_events d c cl f hash flags err.
Proof.
  intros Hu Hdbg Hp Hi. unfold signal_events, interrupt_event, loops_back. by rewrite Hu, Hdbg, Hp, Hi.
Qed.

Lemma drv_ready_fence caps rxs d i f :
  drv_ready caps rxs d -> fence_at d i f -> fence_ok f /\ low32 (lock f) = 0 /\ 0 <= i < 2 ^ 32.
Proof.
  intros [[_ _ Hw Hl] Hf _] Hi. pose proof (zget_Some _ _ _ Hi). unfold fence_at in Hi.
  rewrite zget_to_nat in Hi by lia.
  split; [exact (Forall_lookup_1 _ _ _ _ Hf Hi)|]. split; [|lia].
  exact (Forall_lookup_1 _ _ _ _ Hl Hi).
Qed.

(** ** One step of a client: its new record, the clock and the events *)

Definition client_step (c : Z) (cl : msm_hw_fence_client) (reads : nat) (evs : list hw_event)
    (d : hw_fence_driver_data) : hw_fence_driver_data :=
  d <| qtime_reads := reads |> <| clients ::= fun l => <[Z.to_nat c := Some cl]> l |>
    <| events ::= fun l => l ++ evs |>.

Lemma client_step_at d c cl0 cl n evs c' cl' :
  client_at d c cl0 ->
  client_at (client_step c cl n evs d) c' cl' <->
  if decide (c' = c) then cl' = cl else client_at d c' cl'.
Proof.
  intros Hc. unfold client_at in *. pose proof (zget_Some _ _ _ Hc). cbn. case_decide as Hd.
  - subst c'. rewrite zget_insert_eq by lia. split; [by intros [= ->]|by intros ->].
  - by rewrite zget_insert_ne by lia.
Qed.

Lemma client_step_client d c cl cl' n evs :
  client_at d c cl -> client_at (client_step c cl' n evs d) c cl'.
Proof. intros Hc. apply (client_step_at _ _ cl); [done|]. by rewrite decide_True. Qed.

Lemma client_ok_transfer caps rxs rxs' d d' c cl :
  client_lock_tbl d' = client_lock_tbl d -> client_lock_tbl_cnt d' = client_lock_tbl_cnt d ->
  rxs' c = rxs c -> client_ok caps rxs d c cl -> client_ok caps rxs' d' c cl.
Proof.
  intros Ht Hn Hr [Hid Hpos Hrx]. split; [done..|]. unfold rx_lock_ready in *. by rewrite Ht, Hn, Hr.
Qed.

Lemma client_step_ready caps rxs rxs' d c cl0 cl n evs :
  drv_ready caps rxs d -> client_at d c cl0 -> client_ok caps rxs' d c cl ->
  (forall k, k <> c -> rxs' k = rxs k) ->
  drv_ready caps rxs' (client_step c cl n evs d).
Proof.
  intros [[] Hf Hcl] Hc Hok Hrx. split; [by split|exact Hf|].
  intros c' cl' Hc'. apply (client_step_at _ _ cl0) in Hc'; [|done]. case_decide as Hd.
  - subst. by apply (client_ok_transfer caps rxs' rxs' d (client_step c cl n evs d) c cl eq_refl eq_refl).
  - apply (client_ok_transfer caps rxs rxs' d (client_step c cl n evs d) c' cl' eq_refl eq_refl); auto.
Qed.

Lemma client_step_step d c cl cl' n n' evs evs' :
  client_step c cl' n' evs' (client_step c cl n evs d) = client_step c cl' n' (evs ++ evs') d.
Proof.
  transitivity (d <| qtime_reads := n' |>
      <| clients := <[Z.to_nat c := Some cl']> (<[Z.to_nat c := Some cl]> (clients d)) |>
      <| events := (events d ++ evs) ++ evs' |>); [reflexivity|].
  rewrite list_insert_insert_eq, <- app_assoc. reflexivity.
Qed.

Lemma client_step_id d c cl :
  client_at d c cl -> client_step c cl (qtime_reads d) [] d = d.
Proof.
  intros Hc. pose proof (zget_Some _ _ _ Hc). unfold client_at in Hc. rewrite zget_to_nat in Hc by lia.
  transitivity (d <| qtime_reads := qtime_reads d |>
      <| clients := <[Z.to_nat c := Some cl]> (clients d) |> <| events := events d ++ [] |>);
    [reflexivity|].
  rewrite list_insert_id, app_nil_r by done. by destruct d.
Qed.

Lemma client_step_emit ev d c cl n :
  (client_step c cl n [] d) <| events ::= fun l => l ++ ev |> = client_step c cl n ev d.
Proof.
  transitivity (d <| qtime_reads := n |> <| clients ::= fun l => <[Z.to_nat c := Some cl]> l |>
    <| events := (events d ++ []) ++ ev |>); [reflexivity|]. by rewrite app_nil_r.
Qed.

Lemma set_queue_step d c t queue cl :
  client_at d c cl ->
  set_queue c t queue (d <| qtime_reads ::= S |>)
  = client_step c (cl <| queues ::= fun qs => <[Z.to_nat t := queue]> qs |>) (S (qtime_reads d)) [] d.
Proof.
  unfold client_at. intros Hc. unfold set_queue. cbn. rewrite Hc.
  transitivity (d <| qtime_reads := S (qtime_reads d) |>
      <| clients := <[Z.to_nat c := Some (cl <| queues ::= fun qs => <[Z.to_nat t := queue]> qs |>)]>
                      (clients d) |> <| events := events d ++ [] |>); [|reflexivity].
  rewrite app_nil_r. destruct d. reflexivity.
Qed.

(** Only the Rx queue and the flag of the validation clients change. *)
Definition same_client (cl cl' : msm_hw_fence_client) : Prop :=
  cl' = cl <| queues := queues cl' |> <| val_signal := val_signal cl' |> /\
  zget (queues cl') (HW_FENCE_TX_QUEUE - 1) = zget (queues cl) (HW_FENCE_TX_QUEUE - 1).

Lemma same_client_fields cl cl' :
  same_client cl cl' ->
  client_id cl' = client_id cl /\ client_id_ext cl' = client_id_ext cl /\
  queues_num cl' = queues_num cl /\ update_rxq cl' = update_rxq cl /\
  fence_error_cb cl' = fence_error_cb cl /\ send_ipc cl' = send_ipc cl /\
  ipc_client_vid cl' = ipc_client_vid cl /\ ipc_signal_id cl' = ipc_signal_id cl.
Proof. intros [-> _]. done. Qed.

Section Signal.
Context (caps : Z -> nat) (rxs : Z -> list message) (d : hw_fence_driver_data).
Context (c : Z) (cl : msm_hw_fence_client).
Context (Hready : drv_ready caps rxs d) (Hc : client_at d c cl).

(** The write to the Rx queue: the message is taken or, when the queue is full,
    dropped. *)
Lemma update_rx_run ctx seq hash flags data err :
  update_rxq cl = true ->
  is_word 64 ctx -> is_word 64 seq -> is_word 64 hash -> is_word 64 flags -> is_word 64 data ->
  exists ret cl' n,
    hw_fence_update_queue c ctx seq hash flags data err (HW_FENCE_RX_QUEUE - 1) d
      = Done (ret, client_step c cl' n [] d) /\
    same_client cl cl' /\
    client_ok caps (fun k => push (caps k) (mkMessage ctx seq hash flags data (u32 err)) (rxs k)) d c cl'.
Proof using Hready Hc.
  intros Hrx H1 H2 H3 H4 H5. pose proof (dr_clients _ _ _ Hready c cl Hc) as [Hid Hpos Hok].
  destruct (Hok Hrx) as (Hnum&Hlock&queue&lp&Hq&Hrepr&Hcap&Hskip&Hl).
  assert (Hqr : queue_ready d c (HW_FENCE_RX_QUEUE - 1) queue lp).
  { split; [by exists cl| |done]. unfold queue_of. unfold client_at in Hc. by rewrite Hc. }
  assert (Hpush : forall m, push (caps c) m (rxs c)
    = if decide (S (length lp) < capacity queue)%nat then rxs c ++ [m] else rxs c).
  { intros m. unfold push, fifo_step. rewrite <- Hl, length_map, Hcap. by case_decide. }
  destruct (decide (S (length lp) < capacity queue)%nat) as [Hroom|Hfull].
  - destruct (update_queue_room d c _ queue lp ctx seq hash flags data err Hqr Hroom H1 H2 H3 H4 H5)
      as (queue'&res&Hrun&Hrepr'&Hskip'&Hcap').
    rewrite (set_queue_step d c _ queue' cl Hc) in Hrun.
    eexists _, _, _. split; [exact Hrun|].
    split; [split; [done|]; cbn; by rewrite zget_insert_ne|]. split; [done..|]. intros _.
    split; [done|]. split; [exact Hlock|].
    cbv beta. rewrite Hpush, <- Hcap.
    eexists queue', _. split; [|split; [exact Hrepr'|]].
    + cbn. apply zget_insert_eq. by eapply zget_Some.
    + split; [done|]. split; [congruence|by rewrite map_app, Hl].
  - rewrite (update_queue_full d c _ queue lp) by (done || lia).
    exists (- EINVAL), cl, (qtime_reads d). rewrite client_step_id by done. split; [done|].
    split; [by split; [destruct cl|]|]. split; [done..|]. intros _. split; [done|]. split; [exact Hlock|].
    cbv beta. rewrite Hpush. by exists queue, lp.
Qed.

(** The whole of [_fence_ctl_signal] on the abstract state. *)
Section CtlSignal.
Context (i : Z) (f : msm_hw_fence) (hash flags data err : Z).
Context (Hf : fence_at d i f).
Context (Hhash : is_word 64 hash) (Hflags : is_word 64 flags) (Hdata : is_word 64 data).

Abbreviation delivered := (deliver caps c cl (fence_message f hash flags data err) err rxs).

Lemma notify_client_run :
  exists cl' n,
    notify_client c i hash flags data err (ipcc_client_pid d) (ipc_client_vid cl) cl d
      = Done (tt, client_step c cl' n
          (if calls_back cl err then [EvFenceErrorCb c (ctx_id f) (seq_id f) hash flags err]
           else if send_ipc cl then [interrupt_event d cl] else []) d) /\
    same_client cl cl' /\ client_ok caps delivered d c cl'.
Proof using Hready Hc Hf Hhash Hflags Hdata.
  pose proof (drv_ready_fence _ _ _ _ _ Hready Hf) as ([Hctx Hseq _ _]&_&_).
  pose proof (dr_clients _ _ _ Hready c cl Hc) as Hck.
  assert (Hsame : same_client cl cl) by (by split; [destruct cl|]).
  assert (Hrest : forall cl' n, same_client cl cl' -> client_ok caps delivered d c cl' ->
    calls_back cl err = false ->
    exists cl2 n2,
      (if send_ipc cl then
         hw_fence_ipcc_trigger_signal (ipcc_client_pid d) (ipc_client_vid cl) (ipc_signal_id cl)
       else mret tt) (client_step c cl' n [] d)
      = Done (tt, client_step c cl2 n2 (if send_ipc cl then [interrupt_event d cl] else []) d) /\
      same_client cl cl2 /\ client_ok caps delivered d c cl2).
  { intros cl' n Hs Hk _. exists cl', n. split; [|done].
    destruct (send_ipc cl); [|done]. rewrite <- (client_step_emit [_]). reflexivity. }
  unfold notify_client. change (truthy err && fence_error_cb cl) with (calls_back cl err).
  destruct (calls_back cl err) eqn:Hcb.
  - exists cl, (qtime_reads d). rewrite (get_fence_then _ _ f) by done.
    rewrite <- (client_step_emit [_]), client_step_id by done. split; [|split; [done|]].
    + unfold hw_fence_utils_fence_error_cb, calls_back in *. apply andb_true_iff in Hcb as [Ht Hb].
      unfold mbind at 1, M_bind at 1. rewrite (with_client _ _ cl) by done. by rewrite Ht, Hb.
    + eapply client_ok_transfer; [done|done| |exact Hck].
      unfold deliver. by rewrite Hcb, andb_false_r.
  - destruct (update_rxq cl) eqn:Hrx.
    + destruct (update_rx_run (ctx_id f) (seq_id f) hash flags data err) as (ret&cl1&n1&Hrun&Hs&Hk); [done..|].
      rewrite (bind_run _ _ _ tt (client_step c cl1 n1 [] d));
        [|by rewrite (get_fence_then _ _ f), (bind_run _ _ _ _ _ Hrun) by done].
      apply Hrest; [done| |done]. eapply client_ok_transfer; [done|done| |exact Hk].
      unfold deliver. by rewrite Hcb, Hrx, Z.eqb_refl.
    + rewrite ret_run. destruct (Hrest cl (qtime_reads d)) as (cl2&n2&Hrun&?&?); [done| |done|].
      { eapply client_ok_transfer; [done|done| |exact Hck]. unfold deliver. by rewrite Hrx, andb_false_r. }
      rewrite client_step_id in Hrun by done. by exists cl2, n2.
Qed.

Lemma ctl_signal_run :
  exists cl' n,
    _fence_ctl_signal c i hash flags data err d
      = Done (tt, client_step c cl' n (signal_events d c cl f hash flags err) d) /\
    same_client cl cl' /\ client_ok caps delivered d c cl'.
Proof using Hready Hc Hf Hhash Hflags Hdata.
  destruct notify_client_run as (cl1&n1&Hrun&Hs&Hk).
  unfold _fence_ctl_signal. rewrite getM_run, (with_client _ _ cl) by done.
  rewrite (bind_run _ _ _ _ _ Hrun). unfold signal_events.
  rewrite (ck_id _ _ _ _ _ (dr_clients _ _ _ Hready c cl Hc)).
  change (config_debug_fs d && _ && _) with (loops_back d c).
  destruct (loops_back d c) eqn:Hl; [|exists cl1, n1; by rewrite app_nil_r].
  exists (cl1 <| val_signal := 1 |>), n1. split.
  - unfold process_validation_client_loopback. unfold mbind at 1, M_bind at 1. rewrite getM_run.
    unfold loops_back in Hl. cbn [uapi client_step].
    set (evs := if calls_back cl err then _ else _) in *.
    change (uapi (client_step c cl1 n1 evs d)) with (uapi d).
    destruct (c <? _) eqn:H1; [lia|]. destruct (_ <? c) eqn:H2; [lia|]. cbn [orb].
    pose proof (client_step_client d c cl cl1 n1 evs Hc) as Hc1. unfold client_at in Hc1. rewrite Hc1.
    rewrite <- (client_step_step d c cl1 (cl1 <| val_signal := 1 |>) n1 n1).
    unfold mbind, M_bind. rewrite (put_client_run _ _ cl1) by done. reflexivity.
  - destruct Hs as [Hs Htx]. split; [split; [rewrite Hs; by destruct cl|done]|].
    destruct Hk as [? ? ?]. split; done.
Qed.
End CtlSignal.

End Signal.

(** ** Fences of the kernel *)

Lemma upd_dma_run d p f g :
  zget (dma_fences d) p = Some f ->
  upd_dma_fence (Some p) g d = Done (tt, d <| dma_fences ::= fun l => <[Z.to_nat p := g f]> l |>).
Proof. intros Hf. unfold upd_dma_fence, get_dma_fence, mbind, M_bind. by rewrite Hf. Qed.

Lemma get_dma_then {A} d p f (k : dma_fence -> DM A) :
  zget (dma_fences d) p = Some f -> (get_dma_fence (Some p) ≫= k) d = k f d.
Proof. intros Hf. unfold get_dma_fence, mbind, M_bind. by rewrite Hf. Qed.

Lemma to_array_then {A} d p f (k : option dma_fence_array -> DM A) :
  zget (dma_fences d) p = Some f -> (to_dma_fence_array (Some p) ≫= k) d = k (df_array f) d.
Proof. intros Hf. unfold to_dma_fence_array, get_dma_fence, mbind, M_bind. by rewrite Hf. Qed.

(** ** Registering a client for a wait *)

(** The bit of a client below 64. *)
Lemma client_bit_then {A} id d (k : Z -> DM A) :
  0 <= id < 64 -> (client_bit id ≫= k) d = k (BIT id) d.
Proof.
  intros Hid. unfold client_bit, mbind, M_bind.
  by replace ((0 <=? id) && (id <? 64)) with true by lia.
Qed.

Lemma keeps_client_bit {R : hw_fence_driver_data -> hw_fence_driver_data -> Prop} `{!PreOrder R} id :
  keeps R (client_bit id).
Proof. intros s a s'. unfold client_bit. destruct (_ && _); [intros [= <- <-]; reflexivity|done]. Qed.
#[export] Hint Resolve keeps_client_bit : keeps.

Lemma drv_ready_transfer caps rxs d d' :
  hw_fence_table_entries d' = hw_fence_table_entries d -> hw_fences_tbl d' = hw_fences_tbl d ->
  clients d' = clients d -> client_lock_tbl d' = client_lock_tbl d ->
  client_lock_tbl_cnt d' = client_lock_tbl_cnt d ->
  drv_ready caps rxs d -> drv_ready caps rxs d'.
Proof.
  intros Hn Ht Hc Hl Hln [[] Hf Hcl]. split; [split| |]; rewrite ?Ht, ?Hn; [done..|].
  intros c cl Hat. unfold client_at in *. rewrite Hc in Hat.
  eapply client_ok_transfer; [exact Hl|exact Hln|reflexivity|by apply Hcl].
Qed.

Lemma set_fence_ready caps rxs d i f f' :
  drv_ready caps rxs d -> fence_at d i f -> fence_ok f' -> low32 (lock f') = 0 ->
  drv_ready caps rxs (set_fence i f' d).
Proof.
  intros [[Hn Hpos Hw Hl] Hf Hcl] Hi Hok Hlk. split; [split|by apply Forall_insert|].
  - unfold set_fence. cbn. by rewrite zlen_insert.
  - unfold set_fence. cbn. by rewrite zlen_insert.
  - unfold set_fence. cbn. by rewrite zlen_insert.
  - by apply Forall_insert.
  - intros c cl Hc. apply (client_ok_transfer caps rxs rxs d); [reflexivity..|]. by apply Hcl.
Qed.

(** The entry of a fence a client registered for. *)
Definition registered_fence (c now data data_id : Z) (f : msm_hw_fence) : msm_hw_fence :=
  f <| wait_client_mask := Z.lor (wait_client_mask f) (BIT c) |> <| fence_wait_time := now |>
    <| debug_refcount := u64 (debug_refcount f + 1) |>
    <| client_data := if truthy data then <[Z.to_nat data_id := data]> (client_data f)
                      else client_data f |>.

Lemma registered_fence_ok c now data data_id f :
  is_word 64 data -> fence_ok f -> fence_ok (registered_fence c now data data_id f).
Proof.
  intros Hd [? ? Hl Hw]. split; cbn; [done..| |]; destruct (truthy data); try done.
  - by rewrite length_insert.
  - by apply Forall_insert.
Qed.

Lemma data_id_range u c : 0 <= hw_fence_get_client_data_id u c.
Proof. unfold hw_fence_get_client_data_id. repeat case_match; done. Qed.

Lemma store_client_data_run d i f k v :
  fence_at d i f -> 0 <= k < zlen (client_data f) ->
  store_client_data i k v d
  = Done (tt, set_fence i (f <| client_data := <[Z.to_nat k := v]> (client_data f) |>) d).
Proof.
  intros Hf Hk. unfold store_client_data, fence_store.
  rewrite (get_fence_then _ _ f), (liftO_run _ _ _ _ _ (zset_in _ _ _ Hk)) by done.
  by rewrite (put_fence_run _ _ f).
Qed.

(** The pointer to a fence of the kernel is null or valid. *)
Definition dma_valid (d : hw_fence_driver_data) (p : option Z) : Prop :=
  match p with Some p => is_Some (zget (dma_fences d) p) | None => True end.

(** A fence of the kernel marked as signalled. *)
Definition mark_signaled (p : option Z) (d : hw_fence_driver_data) : hw_fence_driver_data :=
  match p with
  | Some p =>
      match zget (dma_fences d) p with
      | Some f => d <| dma_fences ::= fun l => <[Z.to_nat p :=
          f <| df_flags ::= fun x => Z.lor x (bitmap_bit (MSM_HW_FENCE_FLAG_SIGNALED_BIT (uapi d))) |>]> l |>
      | None => d
      end
  | None => d
  end.

Lemma mark_signaled_field {T} (g : hw_fence_driver_data -> T) p d :
  (forall d v, g (d <| dma_fences ::= v |>) = g d) -> g (mark_signaled p d) = g d.
Proof.
  intros Hg. unfold mark_signaled. destruct p as [p|]; [|done].
  destruct (zget (dma_fences d) p); [apply Hg|done].
Qed.

Lemma set_bit_run d p :
  is_Some (zget (dma_fences d) p) ->
  set_bit (MSM_HW_FENCE_FLAG_SIGNALED_BIT (uapi d)) (Some p) d = Done (tt, mark_signaled (Some p) d).
Proof.
  intros [f Hf]. unfold set_bit, upd_dma_fence, get_dma_fence, mark_signaled.
  rewrite (bind_run _ _ d f d) by (by rewrite Hf). by rewrite Hf.
Qed.

Section RegisterWait.
Context (caps : Z -> nat) (rxs : Z -> list message) (d : hw_fence_driver_data).
Context (c : Z) (cl : msm_hw_fence_client).
Context (Hready : drv_ready caps rxs d) (Hc : client_at d c cl) (Hc64 : c < 64).
Context (fence : option Z) (Hfence : dma_valid d fence).

Abbreviation data_id := (hw_fence_get_client_data_id (uapi d) (client_id_ext cl)).

(** The two critical sections on the entry, once it is found. *)
Lemma register_entry_run i f data {A} (k : unit -> DM A) :
  fence_at d i f -> (truthy data = true -> data_id < HW_FENCE_MAX_CLIENTS_WITH_DATA) ->
  (lock_fence i ;;
   bit ← client_bit (client_id cl);
   upd_fence i (fun f => f <| wait_client_mask ::= fun m => Z.lor m bit |>) ;;
   now ← hw_fence_get_qtime;
   upd_fence i (fun f => f <| fence_wait_time := now |> <| debug_refcount ::= fun n => u64 (n + 1) |>) ;;
   (if truthy data then store_client_data i data_id data else mret tt) ;;
   unlock_fence i ≫= k) d
  = k tt (set_fence i (registered_fence c (qtimer d (qtime_reads d)) data data_id f)
            (d <| qtime_reads ::= S |>)).
Proof using Hready Hc Hc64.
  intros Hf Hd. pose proof (ck_pos _ _ _ _ _ (dr_clients _ _ _ Hready c cl Hc)) as Hpos. pose proof (drv_ready_fence _ _ _ _ _ Hready Hf) as ([_ _ Hl _]&Hfree&_).
  pose proof (data_id_range (uapi d) (client_id_ext cl)).
  rewrite (ck_id _ _ _ _ _ (dr_clients _ _ _ Hready c cl Hc)).
  rewrite (bind_run _ _ _ _ _ (lock_fence_run d i f Hf Hfree)).
  set (f1 := f <| lock := lock f + 1 |>).
  assert (H1 : fence_at (set_fence i f1 d) i f1) by (by eapply set_fence_get).
  rewrite client_bit_then by lia.
  rewrite (upd_fence_then _ _ f1), set_fence_twice by done. rewrite qtime_then.
  set (now := qtimer d (qtime_reads d)). change (qtimer _ (qtime_reads _)) with now.
  set (f2 := f1 <| wait_client_mask ::= _ |>).
  change ((set_fence i f2 d) <| qtime_reads ::= S |>) with (set_fence i f2 (d <| qtime_reads ::= S |>)).
  set (d1 := d <| qtime_reads ::= S |>).
  assert (Hf1 : fence_at d1 i f) by done.
  assert (H2 : fence_at (set_fence i f2 d1) i f2) by (by eapply set_fence_get).
  rewrite (upd_fence_then _ _ f2), set_fence_twice by done. 
  set (f3 := f2 <| fence_wait_time := now |> <| debug_refcount ::= _ |>).
  assert (H3 : fence_at (set_fence i f3 d1) i f3) by (by eapply set_fence_get).
  set (f4 := f3 <| client_data := if truthy data then <[Z.to_nat data_id := data]> (client_data f)
                                  else client_data f |>).
  rewrite (bind_run _ _ _ tt (set_fence i f4 d1)).
  2:{ destruct (truthy data) eqn:Ht; [|done].
      rewrite (store_client_data_run _ _ f3); [by rewrite set_fence_twice|done|].
      cbn. unfold zlen. rewrite Hl. specialize (Hd eq_refl).
      unfold HW_FENCE_MAX_CLIENTS_WITH_DATA in Hd. lia. }
  assert (H4 : fence_at (set_fence i f4 d1) i f4) by (by eapply set_fence_get).
  rewrite (bind_run _ _ _ _ _ (unlock_fence_run _ _ f4 (lock f) H4 eq_refl Hfree)), set_fence_twice.
  reflexivity.
Qed.

(** What [hw_fence_register_wait_client] does after the entry [f] at [i] got its
    new waiter: nothing more, or the signal when the fence is signalled. *)
Definition wait_outcome (i : Z) (f : msm_hw_fence) (data : Z) (d1 d' : hw_fence_driver_data) : Prop :=
  if truthy (Z.land (flags f) MSM_HW_FENCE_FLAG_SIGNAL) then
    exists cl' n,
      d' = client_step c cl' n (signal_events d1 c cl f i 0 0) (mark_signaled fence d1) /\
      same_client cl cl' /\
      drv_ready caps (deliver caps c cl (fence_message f i 0 data 0) 0 rxs) d'
  else d' = d1 /\ drv_ready caps rxs d'.

Lemma mark_signaled_ready p rxs' d1 :
  drv_ready caps rxs' d1 -> drv_ready caps rxs' (mark_signaled p d1).
Proof.
  intros H1. unfold mark_signaled. destruct p as [p|]; [|done].
  destruct (zget (dma_fences d1) p); [|done]. by apply (drv_ready_transfer caps rxs' d1).
Qed.

Lemma register_wait_found i f context seqno data :
  is_word 64 data -> (truthy data = true -> data_id < HW_FENCE_MAX_CLIENTS_WITH_DATA) ->
  fence_at d i f ->
  msm_hw_fence_find (Some c) context seqno d = Done ((Some i, i), d) ->
  exists d', hw_fence_register_wait_client fence c context seqno data d = Done ((0, i), d') /\
    wait_outcome i (registered_fence c (qtimer d (qtime_reads d)) data data_id f) data
      (set_fence i (registered_fence c (qtimer d (qtime_reads d)) data data_id f)
         (d <| qtime_reads ::= S |>)) d'.
Proof using Hready Hc Hc64 Hfence.
  intros Hdata Hd Hf Hfind. pose proof (drv_ready_fence _ _ _ _ _ Hready Hf) as (Hok&Hfree&Hi).
  unfold hw_fence_register_wait_client. rewrite (with_client _ _ cl), getM_run by done. cbv zeta.
  replace (truthy data && (HW_FENCE_MAX_CLIENTS_WITH_DATA <=? data_id)) with false
    by (destruct (truthy data); [specialize (Hd eq_refl); lia|done]).
  rewrite (bind_run _ _ _ _ _ Hfind).
  rewrite (register_entry_run i f data) by done.
  set (f' := registered_fence _ _ _ _ f). set (d1 := set_fence i f' _).
  assert (Hf' : fence_at d1 i f') by (by eapply set_fence_get).
  assert (Hr1 : drv_ready caps rxs d1).
  { apply (set_fence_ready caps rxs _ i f); [by apply (drv_ready_transfer caps rxs d)|done| |done].
    by apply registered_fence_ok. }
  rewrite (get_fence_then _ _ f') by done. unfold wait_outcome.
  destruct (truthy (Z.land (flags f') _)); [|by exists d1].
  assert (Hr2 : drv_ready caps rxs (mark_signaled fence d1)) by (by apply mark_signaled_ready).
  pose proof (fun T g => @mark_signaled_field T g fence d1) as Hm.
  destruct (ctl_signal_run caps rxs (mark_signaled fence d1) c cl Hr2 ltac:(unfold client_at; by rewrite Hm)
    i f' i 0 data 0 ltac:(unfold fence_at; by rewrite Hm) ltac:(unfold is_word; lia) ltac:(done) Hdata)
    as (cl'&n&Hrun&Hs&Hk).
  eexists. split.
  - rewrite (bind_run _ _ _ tt (client_step c cl' n (signal_events (mark_signaled fence d1) c cl f' i 0 0)
      (mark_signaled fence d1))); [reflexivity|].
    rewrite (bind_run _ _ _ tt (mark_signaled fence d1)); [done|].
    destruct fence as [p|]; [by apply (set_bit_run d1)|done].
  - exists cl', n. split; [|split; [done|]].
    + f_equal. unfold signal_events, loops_back, interrupt_event. by rewrite !Hm.
    + eapply client_step_ready; [exact Hr2|unfold client_at; by rewrite Hm|exact Hk|].
      intros k Hne. unfold deliver. by destruct (Z.eqb_spec k c).
Qed.

End RegisterWait.

(** ** Steps of clients, composed

    [stepped d d'] : only clients' queues, the clock and the events differ. *)

Definition stepped (d d' : hw_fence_driver_data) : Prop :=
  d' = d <| qtime_reads := qtime_reads d' |> <| clients := clients d' |> <| events := events d' |> /\
  Forall2 (option_Forall2 same_client) (clients d) (clients d').

#[export] Instance same_client_preorder : PreOrder same_client.
Proof.
  split; [by intros []|]. intros x y z [Hy Hty] [Hz Htz]. split; [|congruence].
  rewrite Hz, Hy. by destruct x.
Qed.

#[export] Instance stepped_preorder : PreOrder stepped.
Proof.
  split; [by intros []; split|]. intros x y z [Hy Hcy] [Hz Hcz]. split.
  - rewrite Hz, Hy. reflexivity.
  - by transitivity (clients y).
Qed.

Lemma stepped_field {T} (g : hw_fence_driver_data -> T) d d' :
  (forall d r c e, g (d <| qtime_reads := r |> <| clients := c |> <| events := e |>) = g d) ->
  stepped d d' -> g d' = g d.
Proof. intros Hg [-> _]. apply Hg. Qed.

Lemma client_step_stepped d c cl cl' n evs :
  client_at d c cl -> same_client cl cl' -> stepped d (client_step c cl' n evs d).
Proof.
  intros Hc Hs. pose proof (zget_Some _ _ _ Hc). unfold client_at in Hc.
  rewrite zget_to_nat in Hc by lia. split; [reflexivity|].
  change (clients (client_step c cl' n evs d)) with (<[Z.to_nat c := Some cl']> (clients d)).
  rewrite <- (list_insert_id (clients d) _ _ Hc) at 1.
  apply Forall2_insert; [reflexivity|by constructor].
Qed.

(** The registered client under an identifier. *)
Definition client_of (d : hw_fence_driver_data) (k : Z) : option msm_hw_fence_client :=
  match zget (clients d) k with Some (Some cl) => Some cl | _ => None end.

Lemma client_of_at d k cl : client_of d k = Some cl <-> client_at d k cl.
Proof. unfold client_of, client_at. destruct (zget (clients d) k) as [[?|]|]; naive_solver. Qed.

Lemma stepped_client_of d d' k :
  stepped d d' -> option_Forall2 same_client (client_of d k) (client_of d' k).
Proof.
  intros [_ HF]. unfold client_of, zget. case_bool_decide; [|constructor].
  destruct (clients d !! Z.to_nat k) as [o|] eqn:H1.
  - destruct (Forall2_lookup_l _ _ _ _ _ HF H1) as (o'&->&Ho).
    destruct Ho; by constructor.
  - apply lookup_ge_None in H1. rewrite (Forall2_length _ _ _ HF) in H1.
    rewrite (lookup_ge_None_2 (clients d')) by done. constructor.
Qed.

(** ** Signalling every waiting client *)

Lemma stepped_client d d' c cl :
  stepped d d' -> client_at d c cl -> exists cl', client_at d' c cl' /\ same_client cl cl'.
Proof.
  intros Hs Hc. pose proof (stepped_client_of d d' c Hs) as Hx.
  rewrite (proj2 (client_of_at d c cl) Hc) in Hx.
  destruct (client_of d' c) as [cl'|] eqn:Hc'; inversion Hx.
  exists cl'. by split; [apply client_of_at|].
Qed.

Section NoticesOf.
Context (d : hw_fence_driver_data) (f : msm_hw_fence).

(** The clients told about the fence, in order, each with the client data it is
    given: [data] is the value left over from the client before. *)
Fixpoint notices (ids : list Z) (data : Z) : list (Z * Z) :=
  match ids with
  | [] => []
  | k :: ids' =>
      match (if truthy (Z.land (wait_client_mask f) (BIT k)) then client_of d k else None) with
      | Some cl =>
          let data := default data (zget (client_data f)
                        (hw_fence_get_client_data_id (uapi d) (client_id_ext cl))) in
          (k, data) :: notices ids' data
      | None => notices ids' data
      end
  end.

End NoticesOf.

Definition notice_events (d : hw_fence_driver_data) (f : msm_hw_fence) (hash err : Z)
    (n : Z * Z) : list hw_event :=
  match client_of d n.1 with
  | Some cl => signal_events d n.1 cl f hash 0 err
  | None => []
  end.

Definition notice_deliver (caps : Z -> nat) (d : hw_fence_driver_data) (f : msm_hw_fence)
    (hash err : Z) (rxs : Z -> list message) (n : Z * Z) : Z -> list message :=
  match client_of d n.1 with
  | Some cl => deliver caps n.1 cl (fence_message f hash 0 n.2 err) err rxs
  | None => rxs
  end.

Lemma signal_events_stepped d d' c cl cl' f hash flags err :
  stepped d d' -> same_client cl cl' ->
  signal_events d' c cl' f hash flags err = signal_events d c cl f hash flags err.
Proof.
  intros Hs (?&?&?&?&Hcb&Hipc&Hvid&Hsig)%same_client_fields.
  unfold signal_events, calls_back, interrupt_event, loops_back.
  rewrite Hcb, Hipc, Hvid, Hsig.
  by rewrite !(stepped_field uapi d d'), !(stepped_field protocol_id d d'),
    !(stepped_field ipcc_client_pid d d'), !(stepped_field config_debug_fs d d').
Qed.

Section Notices.
Context (d d' : hw_fence_driver_data) (Hs : stepped d d').

Lemma notices_stepped f ids : forall data, notices d' f ids data = notices d f ids data.
Proof using Hs.
  induction ids as [|k ids IH]; intros data; cbn [notices]; [done|].
  destruct (truthy _); [|apply IH].
  destruct (stepped_client_of d d' k Hs) as [cl cl' Hc|]; [|apply IH].
  apply same_client_fields in Hc as (_&Hext&_). rewrite Hext, (stepped_field uapi d d') by done.
  by rewrite IH.
Qed.

Lemma notice_events_stepped f hash err n : notice_events d' f hash err n = notice_events d f hash err n.
Proof using Hs.
  unfold notice_events. destruct (stepped_client_of d d' n.1 Hs) as [cl cl' Hc|]; [|done].
  by apply signal_events_stepped.
Qed.

Lemma notice_deliver_stepped caps f hash err rxs n :
  notice_deliver caps d' f hash err rxs n = notice_deliver caps d f hash err rxs n.
Proof using Hs.
  unfold notice_deliver. destruct (stepped_client_of d d' n.1 Hs) as [cl cl' Hc|]; [|done].
  apply same_client_fields in Hc as (_&_&_&Hrx&Hcb&_). unfold deliver, calls_back. by rewrite Hrx, Hcb.
Qed.

End Notices.

Lemma client_data_get f k :
  fence_ok f -> 0 <= k < HW_FENCE_MAX_CLIENTS_WITH_DATA ->
  exists v, zget (client_data f) k = Some v /\ is_word 64 v.
Proof.
  intros [_ _ Hl Hw] Hk. unfold HW_FENCE_MAX_CLIENTS_WITH_DATA in Hk.
  destruct (zget_is_Some (client_data f) k) as [v Hv]; [unfold zlen; lia|]. exists v. split; [done|].
  exact (forall_zget _ _ _ _ Hw Hv).
Qed.

Lemma signal_wait_clients_run caps i f hash err ids : forall rxs d data,
  drv_ready caps rxs d -> fence_at d i f -> is_word 64 hash -> is_word 64 data ->
  Forall (fun k => 0 <= k < zlen (clients d) /\ k < 64) ids ->
  exists d', signal_wait_clients ids i hash err data d = Done (tt, d') /\ stepped d d' /\
    events d' = events d ++ (notices d f ids data ≫= notice_events d f hash err) /\
    drv_ready caps (fold_left (notice_deliver caps d f hash err) (notices d f ids data) rxs) d'.
Proof.
  induction ids as [|k ids IH]; intros rxs d data Hready Hf Hhash Hdata Hids;
    cbn [signal_wait_clients notices].
  { exists d. rewrite app_nil_r. by split. }
  inversion_clear Hids as [|? ? [Hk Hk64] Hids']. rewrite (get_fence_then _ _ f) by done.
  rewrite client_bit_then by lia.
  pose proof (drv_ready_fence _ _ _ _ _ Hready Hf) as (Hok&_&_).
  destruct (truthy (Z.land (wait_client_mask f) (BIT k))); [|by apply IH].
  rewrite getM_run. destruct (zget_is_Some (clients d) k Hk) as [[cl|] Hc]; unfold client_of; rewrite Hc;
    [|by apply IH].
  set (id := hw_fence_get_client_data_id _ _).
  pose proof (data_id_range (uapi d) (client_id_ext cl)) as Hid. fold id in Hid.
  set (data' := default data (zget (client_data f) id)).
  assert (Hd' : is_word 64 data' /\ (if id <? HW_FENCE_MAX_CLIENTS_WITH_DATA
      then liftO OutOfBounds (zget (client_data f) id) else mret data) d = Done (data', d)).
  { unfold data'. destruct (id <? HW_FENCE_MAX_CLIENTS_WITH_DATA) eqn:Hlt.
    - destruct (client_data_get f id Hok ltac:(lia)) as (v&->&Hv). done.
    - destruct (zget (client_data f) id) as [v|] eqn:Hz; [|done].
      apply zget_Some in Hz. destruct Hok as [_ _ Hl _]. unfold zlen, HW_FENCE_MAX_CLIENTS_WITH_DATA in *. lia. }
  destruct Hd' as [Hw' Hrun']. rewrite (bind_run _ _ _ _ _ Hrun').
  destruct (ctl_signal_run caps rxs d k cl Hready Hc i f hash 0 data' err Hf Hhash ltac:(done) Hw')
    as (cl1&n1&Hrun&Hs&Hck). rewrite (bind_run _ _ _ _ _ Hrun).
  set (d1 := client_step k cl1 n1 _ d) in *.
  assert (Hst : stepped d d1) by (by eapply client_step_stepped).
  assert (Hr1 : drv_ready caps (deliver caps k cl (fence_message f hash 0 data' err) err rxs) d1).
  { eapply client_step_ready; [exact Hready|exact Hc|exact Hck|].
    intros j Hne. unfold deliver. by destruct (Z.eqb_spec j k). }
  destruct (IH _ d1 data' Hr1) as (d'&Hrun2&Hst2&Hev&Hr'); [done|done|done| |].
  { change (clients d1) with (<[Z.to_nat k := Some cl1]> (clients d)). by rewrite zlen_insert. }
  exists d'. split; [exact Hrun2|]. split; [by transitivity d1|]. rewrite !(notices_stepped d d1) in * by done.
  split.
  - rewrite Hev. change (events d1) with (events d ++ signal_events d k cl f hash 0 err).
    cbn [mbind list_bind]. unfold notice_events at 2. cbn [fst]. unfold client_of at 1. rewrite Hc.
    rewrite <- app_assoc. do 2 f_equal. apply list_bind_ext; [|done]. intros n. 
    by apply notice_events_stepped.
  - cbn [fold_left]. unfold notice_deliver at 2. cbn [fst snd]. unfold client_of at 1. rewrite Hc.
    by rewrite (fold_left_ext (notice_deliver caps d f hash err) (notice_deliver caps d1 f hash err))
      by (intros; symmetry; by apply notice_deliver_stepped).
Qed.

Lemma signal_all_run caps rxs d i f hash err :
  drv_ready caps rxs d -> fence_at d i f -> is_word 64 hash ->
  rxq_clients_num d < zlen (clients d) -> rxq_clients_num d < 64 ->
  let ids := map Z.of_nat (seq 0 (Z.to_nat (rxq_clients_num d + 1))) in
  exists d', _signal_all_wait_clients i hash err d = Done (tt, d') /\ stepped d d' /\
    events d' = events d ++ (notices d f ids 0 ≫= notice_events d f hash err) /\
    drv_ready caps (fold_left (notice_deliver caps d f hash err) (notices d f ids 0) rxs) d'.
Proof.
  intros Hready Hf Hhash Hnum Hn64 ids. unfold _signal_all_wait_clients. rewrite getM_run.
  apply signal_wait_clients_run; [done..|].
  apply list.Forall_forall. intros k (j&->&Hj%elem_of_seq)%list_elem_of_fmap. lia.
Qed.

(** ** Cleaning up the fences of a client *)

(** What the reset of client [c] leaves of an entry. *)
Definition reset_fence (u : hw_uapi) (c reset_flags : Z) (f : msm_hw_fence) : msm_hw_fence :=
  if (fence_allocator f =? c)
     && negb (truthy (Z.land reset_flags (MSM_HW_FENCE_RESET_WITHOUT_DESTROY u)))
  then cleared_fence (lock f)
  else f <| wait_client_mask := Z.ldiff (wait_client_mask f) (BIT c) |>.

(** The key of an entry of client [c] belongs to that entry only, and is not
    the key (0, 0) of the free entries. *)
Definition own_keys (d : hw_fence_driver_data) (c : Z) : Prop :=
  forall i f, fence_at d i f -> fence_allocator f = c ->
    ~ has_key f 0 0 /\
    forall j g, fence_at d j g -> has_key g (ctx_id f) (seq_id f) -> j = i.

Lemma ldiff_disjoint a b : Z.land a b = 0 -> Z.ldiff a b = a.
Proof.
  intros H. apply Z.bits_inj'. intros n Hn. rewrite Z.ldiff_spec.
  apply (f_equal (fun z => Z.testbit z n)) in H. rewrite Z.land_spec, Z.bits_0 in H.
  by destruct (Z.testbit a n), (Z.testbit b n).
Qed.

Lemma set_fence_at d i f f' j g :
  fence_at d i f -> fence_at (set_fence i f' d) j g <-> if decide (j = i) then g = f' else fence_at d j g.
Proof.
  intros Hf. unfold fence_at, set_fence in *. pose proof (zget_Some _ _ _ Hf). cbn. case_decide as Hj.
  - subst j. rewrite zget_insert_eq by lia. split; [by intros [= ->]|by intros ->].
  - by rewrite zget_insert_ne by lia.
Qed.

(** The update under the lock with which the clean-up starts. *)
Lemma clear_wait_bit_run caps rxs d c cl i f {A} (k : unit -> DM A) :
  drv_ready caps rxs d -> client_at d c cl -> c < 64 -> fence_at d i f ->
  (lock_fence i ;;
   f ← get_fence i;
   bit ← client_bit (client_id cl);
   (if truthy (Z.land (wait_client_mask f) bit) then
      upd_fence i (fun f => f <| wait_client_mask ::= fun m => Z.ldiff m bit |>)
    else mret tt) ;;
   unlock_fence i ≫= k) d
  = k tt (set_fence i (f <| wait_client_mask := Z.ldiff (wait_client_mask f) (BIT c) |>) d).
Proof.
  intros Hready Hc Hc64 Hf. pose proof (drv_ready_fence _ _ _ _ _ Hready Hf) as (Hok&Hfree&_).
  pose proof (ck_pos _ _ _ _ _ (dr_clients _ _ _ Hready c cl Hc)) as Hpos.
  rewrite (ck_id _ _ _ _ _ (dr_clients _ _ _ Hready c cl Hc)).
  rewrite (bind_run _ _ _ _ _ (lock_fence_run d i f Hf Hfree)).
  set (f1 := f <| lock := lock f + 1 |>).
  assert (H1 : fence_at (set_fence i f1 d) i f1) by (by eapply set_fence_get).
  rewrite (get_fence_then _ _ f1) by done. rewrite client_bit_then by lia.
  set (f2 := f1 <| wait_client_mask := Z.ldiff (wait_client_mask f) (BIT c) |>).
  rewrite (bind_run _ _ _ tt (set_fence i f2 d)).
  2:{ change (wait_client_mask f1) with (wait_client_mask f). destruct (truthy _) eqn:Ht.
      - by rewrite (upd_fence_run _ _ f1), set_fence_twice.
      - apply truthy_false in Ht. unfold f2. rewrite ldiff_disjoint by done.
        by replace (f1 <| wait_client_mask := wait_client_mask f |>) with f1 by (by destruct f). }
  assert (H2 : fence_at (set_fence i f2 d) i f2) by (by eapply set_fence_get).
  rewrite (bind_run _ _ _ _ _ (unlock_fence_run _ _ f2 (lock f) H2 eq_refl Hfree)), set_fence_twice.
  reflexivity.
Qed.

Lemma stepped_set_fence i g d d' : stepped d d' -> stepped (set_fence i g d) (set_fence i g d').
Proof. intros [Hd Hc]. split; [rewrite Hd; reflexivity|exact Hc]. Qed.

Lemma stepped_table d d' : stepped d d' -> hw_fences_tbl d' = hw_fences_tbl d.
Proof. apply (stepped_field hw_fences_tbl). done. Qed.

Lemma cleared_fence_ok v : fence_ok (cleared_fence v).
Proof. split; [done..|]. by apply (bool_decide_unpack _). Qed.

Lemma masked_fence_ok f m : fence_ok f -> fence_ok (f <| wait_client_mask := m |>).
Proof. by intros []; split. Qed.

(** The clients told when the fences of [c] are reset. *)
Definition reset_notices (d : hw_fence_driver_data) (c : Z) (f : msm_hw_fence) : list (Z * Z) :=
  if (fence_allocator f =? c) && negb (truthy (Z.land (flags f) MSM_HW_FENCE_FLAG_SIGNAL))
  then notices d (f <| wait_client_mask := Z.ldiff (wait_client_mask f) (BIT c) |>)
         (map Z.of_nat (seq 0 (Z.to_nat (rxq_clients_num d + 1)))) 0
  else [].

Definition reset_error (u : hw_uapi) (reset_flags : Z) : Z :=
  if truthy (Z.land reset_flags (MSM_HW_FENCE_RESET_WITHOUT_ERROR u)) then 0
  else MSM_HW_FENCE_ERROR_RESET u.

(** Destroying the entry of one of the client's fences. *)
Lemma destroy_own_run d0 d c cl i f :
  table_ok d0 -> client_at d0 c cl -> hw_fences_tbl d0 = hw_fences_tbl d ->
  own_keys d c -> fence_at d i f -> fence_allocator f = c ->
  hw_fence_destroy c (ctx_id f) (seq_id f) d0 = Done (0, set_fence i (cleared_fence (lock f)) d0).
Proof.
  intros Hok Hc Ht Hown Hf Ha. destruct (Hown i f Hf Ha) as [_ Hu].
  assert (Hf0 : fence_at d0 i f) by (unfold fence_at in *; by rewrite Ht).
  unfold hw_fence_destroy. rewrite (with_client _ _ cl) by done.
  destruct (cleanup_cases d0 (client_id cl) (ctx_id f) (seq_id f) Hok)
    as [(j&g&k&_&Hg&Hkey&_&Hrun)|[_ Hno]]; [|by destruct (Hno i f Hf0)].
  assert (j = i) as ->. { apply (Hu j g); [|done]. unfold fence_at in *. by rewrite <- Ht. }
  assert (g = f) as -> by (unfold fence_at in *; congruence). by rewrite (bind_run _ _ _ _ _ Hrun).
Qed.

Section CleanupFence.
Context (caps : Z -> nat) (rxs : Z -> list message) (d : hw_fence_driver_data).
Context (c : Z) (cl : msm_hw_fence_client) (i : Z) (f : msm_hw_fence) (reset_flags : Z).
Context (Hready : drv_ready caps rxs d) (Hc : client_at d c cl) (Hf : fence_at d i f).
Context (Hnum : rxq_clients_num d < zlen (clients d)) (Hown : own_keys d c).
Context (Hc64 : c < 64) (Hn64 : rxq_clients_num d < 64).

Abbreviation err := (reset_error (uapi d) reset_flags).
Abbreviation f1 := (f <| wait_client_mask := Z.ldiff (wait_client_mask f) (BIT c) |>).

Lemma masked_own_keys : own_keys (set_fence i f1 d) c.
Proof using Hown Hf.
  assert (Hat : forall j g, fence_at (set_fence i f1 d) j g ->
    exists g0, fence_at d j g0 /\ ctx_id g0 = ctx_id g /\ seq_id g0 = seq_id g /\
      fence_allocator g0 = fence_allocator g).
  { intros j g Hg. apply (set_fence_at _ _ f) in Hg; [|done]. case_decide; subst; [by exists f|by exists g]. }
  intros j g (g0&Hg0&Hx&Hs&Ha)%Hat Hal. destruct (Hown j g0 Hg0 ltac:(congruence)) as [Hz Hu].
  unfold has_key in *. rewrite Hx, Hs in *. split; [done|].
  intros j' g' (g1&Hg1&Hx1&Hs1&_)%Hat Hk. apply (Hu j' g1 Hg1). unfold has_key in *. by rewrite Hx1, Hs1.
Qed.

Lemma cleanup_fence_run :
  exists d', hw_fence_utils_cleanup_fence c i i reset_flags d = Done (0, d') /\
    stepped (set_fence i (reset_fence (uapi d) c reset_flags f) d) d' /\
    events d' = events d ++ (reset_notices d c f ≫= notice_events d f i err) /\
    drv_ready caps (fold_left (notice_deliver caps d f i err) (reset_notices d c f) rxs) d'.
Proof using Hready Hc Hf Hnum Hown Hc64 Hn64.
  pose proof (drv_ready_fence _ _ _ _ _ Hready Hf) as (Hok&Hfree&Hi).
  unfold hw_fence_utils_cleanup_fence. rewrite (with_client _ _ cl), getM_run by done. cbv zeta.
  rewrite (clear_wait_bit_run caps rxs d c cl i f) by done.
  set (d1 := set_fence i f1 d).
  assert (Hf1 : fence_at d1 i f1) by (by eapply set_fence_get).
  assert (Hr1 : drv_ready caps rxs d1).
  { apply (set_fence_ready caps rxs d i f); [done|done|by apply masked_fence_ok|done]. }
  rewrite (get_fence_then _ _ f1) by done.
  rewrite (ck_id _ _ _ _ _ (dr_clients _ _ _ Hready c cl Hc)).
  change (fence_allocator f1) with (fence_allocator f). unfold reset_fence, reset_notices.
  destruct (Z.eqb_spec (fence_allocator f) c) as [Ha|Ha]; cbn [andb];
    [|exists d1; by rewrite app_nil_r].
  change (flags f1) with (flags f). change (if truthy _ then 0 else _) with err at 1.
  set (ids := map Z.of_nat _).
  set (ns := if negb (truthy (Z.land (flags f) MSM_HW_FENCE_FLAG_SIGNAL)) then notices d f1 ids 0 else []).
  assert (H2 : exists d2, (if negb (truthy (Z.land (flags f) MSM_HW_FENCE_FLAG_SIGNAL))
      then _signal_all_wait_clients i i err else mret tt) d1 = Done (tt, d2) /\ stepped d1 d2 /\
      events d2 = events d ++ (ns ≫= notice_events d f i err) /\
      drv_ready caps (fold_left (notice_deliver caps d f i err) ns rxs) d2).
  { unfold ns. destruct (negb _); [|exists d1; by rewrite app_nil_r].
    destruct (signal_all_run caps rxs d1 i f1 i err Hr1 Hf1) as (d2&Hrun&Hst&Hev&Hr2);
      [unfold is_word; lia|done|done|].
    exists d2. split; [exact Hrun|]. split; [exact Hst|]. split; [exact Hev|exact Hr2]. }
  destruct H2 as (d2&Hrun&Hst&Hev&Hr2). rewrite (bind_run _ _ _ _ _ Hrun).
  destruct (truthy (Z.land reset_flags _)); cbn [negb]; [by exists d2|].
  assert (Ht2 : hw_fences_tbl d2 = hw_fences_tbl d1) by (by apply stepped_table).
  assert (Hf2 : fence_at d2 i f1) by (unfold fence_at in *; by rewrite Ht2).
  rewrite (get_fence_then _ _ f1) by done.
  destruct (stepped_client d1 d2 c cl Hst Hc) as (cl2&Hcl2&_).
  rewrite (destroy_own_run d2 d1 c cl2 i f1);
    [|by apply (dr_table _ _ _ Hr2)|done|done|exact masked_own_keys|done|done].
  eexists. split; [reflexivity|]. split.
  - transitivity (set_fence i (cleared_fence (lock f)) d1);
      [unfold d1; by rewrite set_fence_twice|].
    by apply stepped_set_fence.
  - split; [exact Hev|]. apply (set_fence_ready caps _ d2 i f1); [done|done|apply cleared_fence_ok|done].
Qed.
End CleanupFence.

(** What the reset of the entries one after the other keeps. *)
Record reset_inv (caps : Z -> nat) (d0 d : hw_fence_driver_data) (c : Z)
    (cl0 : msm_hw_fence_client) : Prop := {
  ri_ready : exists rxs, drv_ready caps rxs d;
  ri_own : own_keys d c;
  ri_client : exists cl, client_at d c cl /\ same_client cl0 cl;
  ri_id : c < 64;
  ri_num : rxq_clients_num d < zlen (clients d) /\ rxq_clients_num d < 64;
  ri_uapi : uapi d = uapi d0;
}.

Lemma reset_fence_alloc u c fl f :
  0 < c -> fence_allocator (reset_fence u c fl f) = c ->
  fence_allocator f = c /\ ctx_id (reset_fence u c fl f) = ctx_id f /\
  seq_id (reset_fence u c fl f) = seq_id f.
Proof.
  intros Hc. unfold reset_fence.
  destruct ((fence_allocator f =? c) && _); cbn; [lia|done].
Qed.

(** An entry after the reset has its key, or the key of the free entries. *)
Lemma reset_fence_key u c fl f x s :
  has_key (reset_fence u c fl f) x s -> has_key f x s \/ (x = 0 /\ s = 0).
Proof.
  unfold reset_fence. destruct ((fence_allocator f =? c) && _); [|by left].
  intros [<- <-]. by right.
Qed.

Lemma cleanup_fence_step caps d0 d c cl0 i f fl :
  reset_inv caps d0 d c cl0 -> fence_at d i f ->
  exists d', hw_fence_utils_cleanup_fence c i i fl d = Done (0, d') /\
    hw_fences_tbl d' = <[Z.to_nat i := reset_fence (uapi d0) c fl f]> (hw_fences_tbl d) /\
    reset_inv caps d0 d' c cl0.
Proof.
  intros [[rxs Hready] Hown (cl&Hc&Hs) Hc64 [Hnum Hn64] Hu] Hf.
  destruct (cleanup_fence_run caps rxs d c cl i f fl Hready Hc Hf Hnum Hown Hc64 Hn64) as (d'&Hrun&Hst&_&Hr').
  rewrite Hu in Hst. set (f' := reset_fence (uapi d0) c fl f) in *. exists d'.
  assert (Ht : hw_fences_tbl d' = <[Z.to_nat i := f']> (hw_fences_tbl d)) by exact (stepped_table _ _ Hst).
  pose proof (ck_pos _ _ _ _ _ (dr_clients _ _ _ Hready c cl Hc)) as Hpos.
  split; [exact Hrun|]. split; [exact Ht|]. split.
  - by eexists.
  - assert (Hat : forall j g, fence_at d' j g <-> if decide (j = i) then g = f' else fence_at d j g).
    { intros j g. rewrite <- (set_fence_at d i f f' j g Hf). unfold fence_at. by rewrite Ht. }
    assert (Horig : forall j g, fence_at d' j g -> exists g0, fence_at d j g0 /\
      (fence_allocator g = c -> fence_allocator g0 = c /\ ctx_id g = ctx_id g0 /\ seq_id g = seq_id g0) /\
      (forall x s, has_key g x s -> has_key g0 x s \/ (x = 0 /\ s = 0))).
    { intros j g Hg. apply Hat in Hg. case_decide.
      - subst. exists f. split; [done|]. split; [by apply reset_fence_alloc|apply reset_fence_key].
      - exists g. split; [done|]. split; [done|by left]. }
    intros j g (g0&Hg0&Ha&_)%Horig Hal. destruct (Ha Hal) as (Hal0&Hx&Hsq).
    destruct (Hown j g0 Hg0 Hal0) as [Hz Hun]. unfold has_key in *. rewrite Hx, Hsq. split; [done|].
    intros j' g' (g1&Hg1&_&Hk)%Horig Hkey. destruct (Hk _ _ Hkey) as [Hk1|Hk1]; [by eapply Hun|done].
  - destruct (stepped_client _ d' c cl Hst Hc) as (cl'&Hc'&Hs'). exists cl'. split; [done|].
    by transitivity cl.
  - exact Hc64.
  - rewrite (stepped_field rxq_clients_num _ d') by done.
    destruct Hst as [_ Hl%Forall2_length]. unfold zlen in *.
    change (clients (set_fence i f' d)) with (clients d) in Hl. rewrite <- Hl. by split.
  - rewrite (stepped_field uapi _ d' ltac:(done) Hst). exact Hu.
Qed.

(** The reset of all entries maps [reset_fence] over the table. *)
Lemma cleanup_fences_run caps d0 c cl0 fl n : forall k d,
  reset_inv caps d0 d c cl0 -> (k + n)%nat = length (hw_fences_tbl d) ->
  exists d',
    forM (map Z.of_nat (seq k n))
      (fun i => hw_fence_utils_cleanup_fence c i i fl ;; mret tt) d = Done (tt, d') /\
    hw_fences_tbl d' = take k (hw_fences_tbl d)
      ++ map (reset_fence (uapi d0) c fl) (drop k (hw_fences_tbl d)) /\
    reset_inv caps d0 d' c cl0.
Proof.
  induction n as [|n IH]; intros k d Hinv Hk; cbn [seq map forM].
  - exists d. split; [done|]. split; [|done].
    rewrite drop_ge, take_ge by lia. by rewrite app_nil_r.
  - destruct (lookup_lt_is_Some_2 (hw_fences_tbl d) k ltac:(lia)) as [f Hf].
    assert (Hfa : fence_at d (Z.of_nat k) f) by (unfold fence_at; by rewrite zget_nat).
    destruct (cleanup_fence_step caps d0 d c cl0 (Z.of_nat k) f fl Hinv Hfa) as (d1&Hrun&Ht&Hinv1).
    rewrite Nat2Z.id in Ht.
    destruct (IH (S k) d1 Hinv1) as (d'&Hrun'&Ht'&Hinv'); [rewrite Ht, length_insert; lia|].
    exists d'. split.
    + rewrite (bind_run _ _ d tt d1); [exact Hrun'|]. by rewrite (bind_run _ _ _ _ _ Hrun).
    + split; [|done]. rewrite Ht', Ht. rewrite (drop_S _ _ _ Hf). cbn [map].
      rewrite drop_insert_lt by lia. rewrite (take_S_r _ _ (reset_fence (uapi d0) c fl f)).
      * rewrite take_insert_ge by lia. by rewrite <- app_assoc.
      * apply list_lookup_insert_eq. lia.
Qed.

(** * Properties *)

(** [hw_fence_register_wait_client] fails, changing nothing, exactly when
    client data are given by a client that cannot have any or when no entry of
    the table has the key; otherwise it adds the client to the waiters of the
    first such entry in probe order and stores its data there, and if the
    fence is already signalled the client is told at once (its Rx queue gets
    the message unless full, its interrupt is raised) and the caller's fence
    is marked; nothing else changes. *)
Theorem register_wait_client_spec caps rxs d c cl fence context seqno data :
  drv_ready caps rxs d -> client_at d c cl -> c < 64 -> dma_valid d fence -> is_word 64 data ->
  let data_id := hw_fence_get_client_data_id (uapi d) (client_id_ext cl) in
  if truthy data && (HW_FENCE_MAX_CLIENTS_WITH_DATA <=? data_id)
  then hw_fence_register_wait_client fence c context seqno data d = Done ((- EINVAL, 0), d)
  else
    (exists k f d', let i := probe (hw_fence_table_entries d) context seqno k in
       let f' := registered_fence c (qtimer d (qtime_reads d)) data data_id f in
       fence_at d i f /\ has_key f context seqno /\
       before d context seqno k (fun g => ~ has_key g context seqno) /\
       hw_fence_register_wait_client fence c context seqno data d = Done ((0, i), d') /\
       wait_outcome caps rxs c cl fence i f' data (set_fence i f' (d <| qtime_reads ::= S |>)) d')
    \/ ((exists h, hw_fence_register_wait_client fence c context seqno data d = Done ((- EINVAL, h), d)) /\
        forall i f, fence_at d i f -> ~ has_key f context seqno).
Proof.
  intros Hready Hc Hc64 Hfence Hdata data_id. destruct (truthy data && _) eqn:Hbad.
  - unfold hw_fence_register_wait_client. rewrite (with_client _ _ cl), getM_run by done.
    cbv zeta. fold data_id. by rewrite Hbad.
  - pose proof (dr_table _ _ _ Hready) as Hok.
    destruct (match_cases d Hok context seqno (client_id cl) 0 HW_FENCE_LOOKUP_OP_FIND_FENCE eq_refl)
      as [(k&f&Hk&Hf&Hkey&Hb&Hrun)|(h&Hrun&Hno)].
    + left. rewrite (process_entry_eq _ _ _ _ _ _ _ f) in Hrun by done.
      cbn [processed bump is_create] in Hrun. rewrite set_fence_id in Hrun by done.
      destruct (register_wait_found caps rxs d c cl Hready Hc Hc64 fence Hfence
        (probe (hw_fence_table_entries d) context seqno k) f context seqno data)
        as (d'&Hreg&Hout); [done| |done|by rewrite (find_run _ _ cl)|by exists k, f, d'].
      intros Ht. rewrite Ht in Hbad. fold data_id. cbn in Hbad. lia.
    + right. split; [|done]. exists h. unfold hw_fence_register_wait_client.
      rewrite (with_client _ _ cl), getM_run by done. cbv zeta. fold data_id. rewrite Hbad.
      rewrite (bind_run _ _ d (None, h) d); [done|]. by rewrite (find_run _ _ cl).
Qed.

(** The registered clients that wait for a fence. *)
Definition waits_for (d : hw_fence_driver_data) (f : msm_hw_fence) (k : Z) : bool :=
  truthy (Z.land (wait_client_mask f) (BIT k)) && bool_decide (is_Some (client_of d k)).

Lemma notices_clients d f ids : forall data,
  map fst (notices d f ids data) = filter (fun k => waits_for d f k = true) ids.
Proof.
  induction ids as [|k ids IH]; intros data; cbn [notices]; [done|]. unfold waits_for.
  destruct (truthy _) eqn:Ht; [destruct (client_of d k) eqn:Hc|].
  - rewrite filter_cons_True by (by rewrite Ht, bool_decide_true). cbn. by rewrite IH.
  - rewrite filter_cons_False by (by rewrite Ht, Hc). apply IH.
  - rewrite filter_cons_False by (by rewrite Ht). apply IH.
Qed.

(** The client data client [k] left for the fence, if its kind has any. *)
Definition own_data (d : hw_fence_driver_data) (f : msm_hw_fence) (k : Z) : option Z :=
  match client_of d k with
  | Some cl =>
      let data_id := hw_fence_get_client_data_id (uapi d) (client_id_ext cl) in
      if data_id <? HW_FENCE_MAX_CLIENTS_WITH_DATA then zget (client_data f) data_id else None
  | None => None
  end.

(** What a client is given: its own data, or what the client told before it was
    given, 0 for the first. *)
Definition given_data (d : hw_fence_driver_data) (f : msm_hw_fence) (data0 : Z) (ns : list (Z * Z)) : Prop :=
  forall pre k x post, ns = pre ++ (k, x) :: post ->
  x = default (default data0 (snd <$> last pre)) (own_data d f k).

Lemma given_data_cons d f data k x ns :
  x = default data (own_data d f k) -> given_data d f x ns -> given_data d f data ((k, x) :: ns).
Proof.
  intros Hx Hns pre k' x' post. destruct pre as [|p pre]; cbn [app]; intros H; simplify_eq.
  - done.
  - rewrite (Hns pre k' x' post eq_refl). rewrite !last_cons. by destruct (last pre).
Qed.

Lemma notices_given d f ids : fence_ok f -> forall data, given_data d f data (notices d f ids data).
Proof.
  intros Hok. induction ids as [|k ids IH]; intros data; cbn [notices]; [by intros []|].
  destruct (truthy _); [|apply IH]. destruct (client_of d k) as [cl|] eqn:Hc; [|apply IH].
  apply given_data_cons; [|apply IH]. unfold own_data. rewrite Hc.
  destruct (_ <? _) eqn:Hlt; [done|]. destruct Hok as [_ _ Hl _].
  set (id := hw_fence_get_client_data_id _ _) in *.
  destruct (zget (client_data f) id) as [v|] eqn:Hz; [|done].
  apply zget_Some in Hz. unfold zlen, HW_FENCE_MAX_CLIENTS_WITH_DATA in *. lia.
Qed.

(** C32: with at most 63 clients that have an Rx queue (the mask of waiting
    clients has 64 bits), [_signal_all_wait_clients] tells every registered
    client that waits for the fence, each exactly once and in the order of the
    identifiers, giving each the client data it left for the fence, and a
    client of a kind without data what the client before it was given (0 for
    the first): the events that leave the driver are those of the clients told,
    one after the other, every Rx queue holds what was delivered to it (a full
    queue drops the message), and the table, the locks and the registrations
    are unchanged. *)
Theorem signal_all_wait_clients_spec caps rxs d i f hash err :
  drv_ready caps rxs d -> fence_at d i f -> is_word 64 hash ->
  rxq_clients_num d < zlen (clients d) -> rxq_clients_num d < 64 ->
  exists d' ns, _signal_all_wait_clients i hash err d = Done (tt, d') /\
    map fst ns = filter (fun k => waits_for d f k = true)
                   (map Z.of_nat (seq 0 (Z.to_nat (rxq_clients_num d + 1)))) /\
    given_data d f 0 ns /\
    events d' = events d ++ (ns ≫= notice_events d f hash err) /\
    drv_ready caps (fold_left (notice_deliver caps d f hash err) ns rxs) d' /\
    stepped d d'.
Proof.
  intros Hready Hf Hhash Hnum Hn64. pose proof (drv_ready_fence _ _ _ _ _ Hready Hf) as (Hok&_&_).
  destruct (signal_all_run caps rxs d i f hash err Hready Hf Hhash Hnum Hn64) as (d'&?&?&?&?).
  exists d'. eexists. split; [done|]. split; [apply notices_clients|]. split; [by apply notices_given|]. done.
Qed.

(** ** Concrete runs *)

Definition sample_client2 : msm_hw_fence_client :=
  mkClient 2 2 [sample_queue 2; sample_queue 3] 2 true 5 6 7 true true 0.

(** A fence for which clients 1 and 2 wait; client 1 left its data, 7. *)
Definition sample_waited : msm_hw_fence :=
  (new_fence 5 9 1 0 0 0) <| wait_client_mask := 6 |> <| client_data := [7; 0; 0; 0; 0] |>.

Definition sample_wait : hw_fence_driver_data :=
  sample_drv <| hw_fence_table_entries := 4 |> <| hw_fences_tbl_cnt := 4 |> <| vm_ready := true |>
    <| hw_fences_tbl := sample_waited :: replicate 3 zero_fence |>
    <| clients := [None; Some sample_client; Some sample_client2] |>.

Lemma sample_wait_client c cl :
  client_at sample_wait c cl -> (c = 1 /\ cl = sample_client) \/ (c = 2 /\ cl = sample_client2).
Proof.
  intros Hc. pose proof (zget_Some _ _ _ Hc) as Hr. change (zlen (clients sample_wait)) with 3 in Hr.
  assert (c = 0 \/ c = 1 \/ c = 2) as [->|[->| ->]] by lia.
  - done.
  - change (Some (Some sample_client) = Some (Some cl)) in Hc. injection Hc as <-. by left.
  - change (Some (Some sample_client2) = Some (Some cl)) in Hc. injection Hc as <-. by right.
Qed.

Lemma sample_rx_holds q : rx_holds (mkClient 1 1 [q; sample_queue 3] 2 false 0 0 0 true true 0) 3 [].
Proof. exists (sample_queue 3), []. split; [done|]. split; [by apply sample_queue_repr; lia|done]. Qed.

Lemma sample_wait_ready : drv_ready (fun _ => 3%nat) (fun _ => []) sample_wait.
Proof.
  split.
  - split; try done. by apply (bool_decide_unpack _).
  - repeat constructor; try done; by apply (bool_decide_unpack _).
  - intros c cl [[-> ->]|[-> ->]]%sample_wait_client; (split; [done|done|]); intros _.
    + split; [done|]. split; [intros _; split; [done|by exists 0]|]. exact (sample_rx_holds (sample_queue 2)).
    + split; [done|]. split; [intros _; split; [done|by exists 0]|]. exact (sample_rx_holds (sample_queue 2)).
Qed.

Lemma register_wait_client_spec_witness :
  (exists k f d', let i := probe (hw_fence_table_entries sample_wait) 5 9 k in
     let f' := registered_fence 1 0 7 0 f in
     fence_at sample_wait i f /\ has_key f 5 9 /\
     before sample_wait 5 9 k (fun g => ~ has_key g 5 9) /\
     hw_fence_register_wait_client None 1 5 9 7 sample_wait = Done ((0, i), d') /\
     wait_outcome (fun _ => 3%nat) (fun _ => []) 1 sample_client None i f' 7
       (set_fence i f' (sample_wait <| qtime_reads ::= S |>)) d')
  \/ ((exists h, hw_fence_register_wait_client None 1 5 9 7 sample_wait
                 = Done ((- EINVAL, h), sample_wait)) /\
      forall i f, fence_at sample_wait i f -> ~ has_key f 5 9).
Proof.
  exact (register_wait_client_spec (fun _ => 3%nat) (fun _ => []) sample_wait 1 sample_client None
    5 9 7 sample_wait_ready eq_refl eq_refl I ltac:(unfold is_word; lia)).
Defined.

Lemma signal_all_wait_clients_spec_witness :
  exists d' ns, _signal_all_wait_clients 0 0 1 sample_wait = Done (tt, d') /\
    map fst ns = [1; 2] /\ given_data sample_wait sample_waited 0 ns /\
    events d' = [] ++ (ns ≫= notice_events sample_wait sample_waited 0 1) /\
    drv_ready (fun _ => 3%nat)
      (fold_left (notice_deliver (fun _ => 3%nat) sample_wait sample_waited 0 1) ns (fun _ => [])) d' /\
    stepped sample_wait d'.
Proof.
  exact (signal_all_wait_clients_spec (fun _ => 3%nat) (fun _ => []) sample_wait 0 sample_waited 0 1
    sample_wait_ready eq_refl ltac:(unfold is_word; lia) eq_refl eq_refl).
Defined.

(** The client data a client gets: read from its Rx queue. *)
Definition rx_client_data (c : Z) : DM (option Z) :=
  r ← hw_fence_read_queue (Some c) (HW_FENCE_RX_QUEUE - 1); mret (option_map p_client_data r.2).

(** a client that has no client data of its own is given the data another
    client left for the same fence: the variable of [_signal_all_wait_clients]
    is not cleared between clients.  Client 1 registered with the data 7,
    client 2 is of a kind without data, and gets 7. *)
Theorem client_data_of_another_client :
  hw_fence_get_client_data_id sample_uapi (client_id_ext sample_client2) = HW_FENCE_MAX_CLIENTS_WITH_DATA /\
  value ((_signal_all_wait_clients 0 0 0 ;; rx_client_data 2) sample_wait) = Some (Some 7).
Proof. split; [reflexivity|]. vm_compute. reflexivity. Qed.
