(* ===== verification/HwFenceLayout.v ===== *)
(** * Memory layout and set-up of the hardware-fence driver

    The configuration read from the device tree and the layout of the
    carved-out memory it fixes ([hw_fence_drv_utils.c]), the initialisation of
    the queues, locks, table and events in that memory
    ([hw_fence_drv_priv.c]), and the mapping of clients to interrupt signals
    ([hw_fence_drv_ipc.c]). *)

From Stdlib Require Import String.
From S2P Require Import Prelude HwFenceState HwFenceQueue HwFenceTable HwFenceJoin.

Local Open Scope Z_scope.
Local Open Scope list_scope.

(** ** Constants *)

Definition U32_MAX : Z := 2 ^ 32 - 1.
Definition sizeof_u32 : Z := 4.
Definition sizeof_u64 : Z := 8.
Definition sizeof_msm_hw_fence : Z := 160.
Definition sizeof_msm_hw_fence_event : Z := 64.
Definition HW_FENCE_CTRL_QUEUES : Z := 2.
Definition HW_FENCE_CTRL_QUEUE_PAYLOAD : Z := (1 + 1 + 1 + 2 + 1) * sizeof_u32.
Definition HW_FENCE_CLIENT_QUEUE_PAYLOAD : Z := sizeof_payload.
Definition MAX_CLIENT_QUEUE_MEM_SIZE : Z := 1048576.
Definition HW_FENCE_MAX_EVENTS : Z := 1000.
Definition HW_FENCE_MAX_CLIENT_TYPE_STATIC : Z := 3.
Definition HW_FENCE_MAX_CLIENT_TYPE_CONFIGURABLE : Z := 10.
Definition HW_FENCE_MAX_CLIENT_TYPE : Z :=
  HW_FENCE_MAX_CLIENT_TYPE_STATIC + HW_FENCE_MAX_CLIENT_TYPE_CONFIGURABLE.
Definition HW_FENCE_MIN_RXQ_CLIENT_TYPE : Z := 3.

Definition HW_FENCE_MAX_STATIC_CLIENTS_INDEX (u : hw_uapi) : Z := HW_FENCE_CLIENT_ID_IPE u.
Definition HW_FENCE_MIN_RXQ_CLIENTS (u : hw_uapi) : Z := HW_FENCE_CLIENT_ID_VAL6 u.

Definition HW_FENCE_HFI_CTRL_HEADERS_SIZE (u : hw_uapi) : Z :=
  HW_FENCE_HFI_TABLE_HEADER_SIZE u + HW_FENCE_HFI_QUEUE_HEADER_SIZE u * HW_FENCE_CTRL_QUEUES.

(** Computed with the 64-bit [sizeof]. *)
Definition HW_FENCE_HFI_CLIENT_HEADERS_SIZE (u : hw_uapi) (queues_num : Z) : Z :=
  u64 (HW_FENCE_HFI_TABLE_HEADER_SIZE u + HW_FENCE_HFI_QUEUE_HEADER_SIZE u * queues_num).

Definition HW_FENCE_MEM_LOCKS_SIZE (rxq_clients_num : Z) : Z := sizeof_u64 * rxq_clients_num.

(** The kernel's [PAGE_ALIGN] and the page part of [U32_MAX & PAGE_MASK]. *)
Definition PAGE_ALIGN (page x : Z) : Z := u64 (x + (page - 1)) / page * page.
Definition U32_MAX_PAGE (page : Z) : Z := U32_MAX / page * page.

(** ** Client types *)

Definition client_type (name : string) (init max num queues : Z) (skip : bool)
    : hw_fence_client_type_desc :=
  mkTypeDesc name init max num queues 0 0 0 0 0 0 skip.

(** The static table [hw_fence_client_types] before the device tree is read. *)
Definition initial_client_types (u : hw_uapi) : list hw_fence_client_type_desc :=
  [client_type "gpu" (HW_FENCE_CLIENT_ID_CTX0 u) 1 1 HW_FENCE_CLIENT_QUEUES false;
   client_type "dpu" (HW_FENCE_CLIENT_ID_CTL0 u) 6 6 HW_FENCE_CLIENT_QUEUES false;
   client_type "val" (HW_FENCE_CLIENT_ID_VAL0 u) 7 7 HW_FENCE_CLIENT_QUEUES false;
   client_type "ipe" (HW_FENCE_CLIENT_ID_IPE u) 32 0 HW_FENCE_CLIENT_QUEUES false;
   client_type "vpu" (HW_FENCE_CLIENT_ID_VPU u) 32 0 HW_FENCE_CLIENT_QUEUES false;
   client_type "ife0" (HW_FENCE_CLIENT_ID_IFE u 0) 32 0 1 true;
   client_type "ife1" (HW_FENCE_CLIENT_ID_IFE u 1) 32 0 1 true;
   client_type "ife2" (HW_FENCE_CLIENT_ID_IFE u 2) 32 0 1 true;
   client_type "ife3" (HW_FENCE_CLIENT_ID_IFE u 3) 32 0 1 true;
   client_type "ife4" (HW_FENCE_CLIENT_ID_IFE u 4) 32 0 1 true;
   client_type "ife5" (HW_FENCE_CLIENT_ID_IFE u 5) 32 0 1 true;
   client_type "ife6" (HW_FENCE_CLIENT_ID_IFE u 6) 32 0 1 true;
   client_type "ife7" (HW_FENCE_CLIENT_ID_IFE u 7) 32 0 1 true].

(** ** Reservation of the carved-out memory *)

Inductive hw_fence_mem_reserve : Type :=
| HW_FENCE_MEM_RESERVE_CTRL_QUEUE
| HW_FENCE_MEM_RESERVE_LOCKS_REGION
| HW_FENCE_MEM_RESERVE_TABLE
| HW_FENCE_MEM_RESERVE_CLIENT_QUEUE
| HW_FENCE_MEM_RESERVE_EVENTS_BUFF.

(** The descriptor of a client's queues. *)
Definition client_desc (d : hw_fence_driver_data) (client_id : Z)
    : option (hw_fence_client_type_desc * Z) :=
  match zget (hw_fence_client_queue_size d) client_id with
  | Some (Some qd) =>
      match zget (hw_fence_client_types d) (qd_type qd) with
      | Some desc => Some (desc, start_offset qd)
      | None => None
      end
  | _ => None
  end.

(** Start offset and size of a region, or the error. *)
Definition reserve_region (d : hw_fence_driver_data) (type : hw_fence_mem_reserve) (client_id : Z)
    : Z + Z * Z :=
  match type with
  | HW_FENCE_MEM_RESERVE_CTRL_QUEUE => inr (0, hw_fence_mem_ctrl_queues_size d)
  | HW_FENCE_MEM_RESERVE_LOCKS_REGION =>
      inr (hw_fence_mem_ctrl_queues_size d, u32 (HW_FENCE_MEM_LOCKS_SIZE (rxq_clients_num d)))
  | HW_FENCE_MEM_RESERVE_TABLE =>
      inr (u32 (hw_fence_mem_ctrl_queues_size d + HW_FENCE_MEM_LOCKS_SIZE (rxq_clients_num d)),
           hw_fence_mem_fences_table_size d)
  | HW_FENCE_MEM_RESERVE_CLIENT_QUEUE =>
      if clients_num d <=? client_id then inl (- EINVAL) else
      match client_desc d client_id with
      | None => inl (- EINVAL)
      | Some (desc, start) => inr (start, mem_size desc)
      end
  | HW_FENCE_MEM_RESERVE_EVENTS_BUFF =>
      let start := used_mem_size d in
      let remaining_size_bytes := u32 (size d - start) in
      if (size d <=? start) || (remaining_size_bytes <? sizeof_msm_hw_fence_event)
      then inl (- ENOMEM) else
      let total_events := remaining_size_bytes / sizeof_msm_hw_fence_event in
      let total_events := if HW_FENCE_MAX_EVENTS <? total_events then HW_FENCE_MAX_EVENTS
                          else total_events in
      inr (start, u32 (total_events * sizeof_msm_hw_fence_event))
  end.

(** The return value, the physical address, the byte offset of the virtual
    address from [io_mem_base], and the size.  The sum of the offset and the
    size is a 32-bit one. *)
Definition hw_fence_utils_reserve_mem (type : hw_fence_mem_reserve) (client_id : Z)
    : DM (Z + Z * Z * Z) :=
  d ← getM;
  match reserve_region d type client_id with
  | inl err => mret (inl err)
  | inr (start, sz) =>
      if size d <? u32 (start + sz) then mret (inl (- ENOMEM))
      else mret (inr (u64 (res_start d + start), start, sz))
  end.

(** ** Device-tree properties of a client type *)

Definition HW_FENCE_DT (name : string) : string :=
  String.append "qcom,hw-fence-client-type-" name.
Definition HW_FENCE_DT_EXTRA (name : string) : string :=
  String.append (HW_FENCE_DT name) "-extra".

Section ParseType.
Context (u : hw_uapi) (dt : device_tree) (page default_entries : Z).

(** The cells of the property stored in the descriptor: [None] is a read outside
    the cells, an inner [None] the failure; the flag is [idx_by_payload]. *)
Definition read_extra (desc : hw_fence_client_type_desc) (count : Z) (tmp : list Z)
    : option (option (hw_fence_client_type_desc * bool)) :=
  let payload_size_u32 := HW_FENCE_CLIENT_QUEUE_PAYLOAD / sizeof_u32 in
  tmp0 ← zget tmp 0;
  let desc := desc <| start_padding := tmp0 |> in
  desc ← (if 2 <=? count then tmp1 ← zget tmp 1; Some (desc <| end_padding := tmp1 |>)
          else Some desc);
  desc ← (if 3 <=? count then tmp2 ← zget tmp 2; Some (desc <| txq_idx_start := tmp2 |>)
          else Some desc);
  if 4 <=? count then
    tmp3 ← zget tmp 3;
    if 1 <? tmp3 then Some None else
    let idx_by_payload := truthy tmp3 in
    Some (Some (desc <| txq_idx_factor := if idx_by_payload then payload_size_u32 else 1 |>,
                idx_by_payload))
  else Some (Some (desc, false)).

(** The checks on alignment and overflow. *)
Definition check_extra (desc : hw_fence_client_type_desc) (idx_by_payload : bool) : bool :=
  let payload_size_u32 := HW_FENCE_CLIENT_QUEUE_PAYLOAD / sizeof_u32 in
  let headers := HW_FENCE_HFI_CLIENT_HEADERS_SIZE u (td_queues_num desc) in
  let max_idx_from_zero :=
    if idx_by_payload then queue_entries desc else u32 (queue_entries desc * payload_size_u32) in
  negb (truthy (start_padding desc mod sizeof_u32) || truthy (end_padding desc mod sizeof_u32)
        || truthy (u32 (start_padding desc + end_padding desc) mod sizeof_u64))
  && negb (u64 (U32_MAX - headers) <=? start_padding desc)
  && negb (u64 (U32_MAX - headers - start_padding desc) <=? end_padding desc)
  && negb (u32 (U32_MAX - max_idx_from_zero) <=? txq_idx_start desc).

Definition _parse_client_queue_dt_props_extra (desc : hw_fence_client_type_desc)
    : option (Z * hw_fence_client_type_desc) :=
  let name := HW_FENCE_DT_EXTRA (td_name desc) in
  if negb (of_property_read_bool dt name) then Some (0, desc) else
  let count := of_property_count_u32_elems dt name in
  if (count <=? 0) || (4 <? count) then Some (- EINVAL, desc) else
  let '(ret, tmp) := of_property_read_u32_array dt name count in
  if truthy ret then Some (- EINVAL, desc) else
  r ← read_extra desc count tmp;
  match r with
  | None => Some (- EINVAL, desc)
  | Some (desc, idx_by_payload) =>
      if check_extra desc idx_by_payload then Some (0, desc) else Some (- EINVAL, desc)
  end.

(** The cells of the type's property, or the default number of entries; an
    inner [None] is the failure. *)
Definition read_type (desc : hw_fence_client_type_desc) : option (option hw_fence_client_type_desc) :=
  let '(ret, tmp) := of_property_read_u32_array dt (HW_FENCE_DT (td_name desc)) 4 in
  if truthy ret then Some (Some (desc <| queue_entries := default_entries |>)) else
  tmp0 ← zget tmp 0; tmp1 ← zget tmp 1; tmp2 ← zget tmp 2; tmp3 ← zget tmp 3;
  if 1 <? tmp3 then Some None
  else Some (Some (desc <| td_clients_num := tmp0 |> <| td_queues_num := tmp1 |>
                        <| queue_entries := tmp2 |> <| skip_txq_wr_idx := truthy tmp3 |>)).

Definition type_invalid (desc : hw_fence_client_type_desc) : bool :=
  (max_clients_num desc <? td_clients_num desc) || negb (truthy (td_queues_num desc))
  || (HW_FENCE_CLIENT_QUEUES <? td_queues_num desc) || negb (truthy (queue_entries desc)).

(** The memory size of a client of the type, when the checks accept it. *)
Definition compute_mem_size (desc : hw_fence_client_type_desc) : option Z :=
  if U32_MAX / HW_FENCE_CLIENT_QUEUE_PAYLOAD <=? queue_entries desc then None else
  let queue_size := u32 (HW_FENCE_CLIENT_QUEUE_PAYLOAD * queue_entries desc) in
  let headers := HW_FENCE_HFI_CLIENT_HEADERS_SIZE u (td_queues_num desc) in
  if u64 (U32_MAX_PAGE page - u64 (headers + start_padding desc + end_padding desc))
       / td_queues_num desc <=? queue_size
  then None else
  let mem :=
    u32 (PAGE_ALIGN page (u64 (headers + u32 (queue_size * td_queues_num desc)
                               + start_padding desc + end_padding desc))) in
  if MAX_CLIENT_QUEUE_MEM_SIZE <? mem then None else Some mem.

Definition _parse_client_queue_dt_props_indv (desc : hw_fence_client_type_desc)
    : option (Z * hw_fence_client_type_desc) :=
  r ← read_type desc;
  match r with
  | None => Some (- EINVAL, desc)
  | Some desc =>
      if type_invalid desc then Some (- EINVAL, desc) else
      '(ret, desc) ← _parse_client_queue_dt_props_extra desc;
      if truthy ret then Some (- EINVAL, desc) else
      match compute_mem_size desc with
      | None => Some (- EINVAL, desc)
      | Some mem => Some (0, desc <| mem_size := mem |>)
      end
  end.

End ParseType.

(** ** Client identifiers *)

(** The internal identifier of an external one; [None] is a read outside the
    table of client types. *)
Definition hw_fence_utils_get_client_id_priv (d : hw_fence_driver_data) (client_id : Z) : option Z :=
  let static_idx := HW_FENCE_MAX_STATIC_CLIENTS_INDEX (uapi d) in
  let per_client := MSM_HW_FENCE_MAX_SIGNAL_PER_CLIENT (uapi d) in
  if client_id <? static_idx then Some client_id else
  let type := HW_FENCE_MAX_CLIENT_TYPE_STATIC + (client_id - static_idx) / per_client in
  let offset := (client_id - static_idx) mod per_client in
  desc ← zget (hw_fence_client_types d) type;
  if td_clients_num desc <=? offset then Some (HW_FENCE_CLIENT_MAX (uapi d)) else
  Some (fold_left (fun id t => u32 (id + td_clients_num t))
          (take (Z.to_nat (type - HW_FENCE_MAX_CLIENT_TYPE_STATIC))
             (drop (Z.to_nat HW_FENCE_MAX_CLIENT_TYPE_STATIC) (hw_fence_client_types d)))
          (static_idx + offset)).

Definition hw_fence_utils_get_queues_num (d : hw_fence_driver_data) (client_id : Z) : Z :=
  if clients_num d <=? client_id then 0 else
  match client_desc d client_id with
  | Some (desc, _) => td_queues_num desc
  | None => 0
  end.

(** ** Parsing the device tree *)

Definition kzalloc : DM bool := fun d =>
  Done (kzalloc_ok d (kzallocs d), d <| kzallocs ::= S |>).

Definition put_client_type (i : Z) (desc : hw_fence_client_type_desc) : DM unit :=
  modify (fun d => d <| hw_fence_client_types ::= fun l => <[Z.to_nat i := desc]> l |>).

(** The first loop: the descriptors are parsed one by one and the clients
    counted; [inl] is the error returned at once. *)
Fixpoint parse_types (idxs : list Z) (configurable_clients_num : Z) : DM (Z + Z) :=
  match idxs with
  | [] => mret (inr configurable_clients_num)
  | i :: idxs' =>
      d ← getM;
      desc ← liftO OutOfBounds (zget (hw_fence_client_types d) i);
      '(ret, desc) ← liftO OutOfBounds
        (_parse_client_queue_dt_props_indv (uapi d) (dtree d) (PAGE_SIZE d)
           (hw_fence_queue_entries d) desc);
      put_client_type i desc ;;
      if truthy ret then mret (inl ret) else
      (if (HW_FENCE_MIN_RXQ_CLIENT_TYPE <=? i) && (td_queues_num desc =? HW_FENCE_CLIENT_QUEUES)
       then modify (fun d => d <| rxq_clients_num ::= fun n => u32 (n + td_clients_num desc) |>)
       else mret tt) ;;
      parse_types idxs'
        (if HW_FENCE_MAX_CLIENT_TYPE_STATIC <=? i
         then configurable_clients_num + td_clients_num desc else configurable_clients_num)
  end.

(** The clients of one type get consecutive regions. *)
Fixpoint place_clients (js : list Z) (type : Z) (desc : hw_fence_client_type_desc)
    (start : Z) : DM Z :=
  match js with
  | [] => mret start
  | j :: js' =>
      d ← getM;
      client_id ← liftO OutOfBounds (hw_fence_utils_get_client_id_priv d (init_id desc + j));
      t ← liftO OutOfBounds
        (zset (hw_fence_client_queue_size d) client_id (Some (mkQueueDesc type start)));
      modify (fun d => d <| hw_fence_client_queue_size := t |>) ;;
      place_clients js' type desc (u32 (start + mem_size desc))
  end.

Fixpoint place_types (idxs : list Z) (start : Z) : DM Z :=
  match idxs with
  | [] => mret start
  | i :: idxs' =>
      d ← getM;
      desc ← liftO OutOfBounds (zget (hw_fence_client_types d) i);
      start ← place_clients (map Z.of_nat (seq 0 (Z.to_nat (td_clients_num desc)))) i desc start;
      place_types idxs' start
  end.

Definition type_indexes : list Z := map Z.of_nat (seq 0 (Z.to_nat HW_FENCE_MAX_CLIENT_TYPE)).

Definition _parse_client_queue_dt_props : DM Z :=
  modify (fun d => d <| rxq_clients_num := HW_FENCE_MIN_RXQ_CLIENTS (uapi d) |>) ;;
  r ← parse_types type_indexes 0;
  match (r : Z + Z) with
  | inl ret => mret ret
  | inr configurable_clients_num =>
      modify (fun d => d <| clients_num :=
        u32 (HW_FENCE_MAX_STATIC_CLIENTS_INDEX (uapi d) + configurable_clients_num) |>) ;;
      ok ← kzalloc;
      if negb (ok : bool) then mret (- ENOMEM) else
      modify (fun d => d <| hw_fence_client_queue_size :=
        replicate (Z.to_nat (clients_num d)) None |>) ;;
      d ← getM;
      let start := u32 (PAGE_ALIGN (PAGE_SIZE d)
        (u64 (hw_fence_mem_ctrl_queues_size d + HW_FENCE_MEM_LOCKS_SIZE (rxq_clients_num d)
              + hw_fence_mem_fences_table_size d))) in
      start ← place_types type_indexes start;
      modify (fun d => d <| used_mem_size := start |>) ;;
      mret 0
  end.

Definition hw_fence_utils_parse_dt_props : DM Z :=
  d ← getM;
  let '(ret, val) := of_property_read_u32 (dtree d) "qcom,hw-fence-table-entries" in
  if truthy ret || negb (truthy val) then mret ret else
  modify (fun d => d <| hw_fence_table_entries := val |>) ;;
  if U32_MAX / sizeof_msm_hw_fence <=? val then mret (- EINVAL) else
  modify (fun d => d <| hw_fence_mem_fences_table_size := u32 (sizeof_msm_hw_fence * val) |>) ;;
  let '(ret, val) := of_property_read_u32 (dtree d) "qcom,hw-fence-queue-entries" in
  if truthy ret || negb (truthy val) then mret ret else
  modify (fun d => d <| hw_fence_queue_entries := val |>) ;;
  if U32_MAX / HW_FENCE_CTRL_QUEUE_PAYLOAD <=? val then mret (- EINVAL) else
  let queue_size := u32 (HW_FENCE_CTRL_QUEUE_PAYLOAD * val) in
  modify (fun d => d <| hw_fence_ctrl_queue_size := queue_size |>) ;;
  let headers := HW_FENCE_HFI_CTRL_HEADERS_SIZE (uapi d) in
  if (U32_MAX - headers) / HW_FENCE_CTRL_QUEUES <=? queue_size then mret (- EINVAL) else
  modify (fun d => d <| hw_fence_mem_ctrl_queues_size :=
    u32 (headers + HW_FENCE_CTRL_QUEUES * queue_size) |>) ;;
  ret ← _parse_client_queue_dt_props;
  if truthy ret then mret (- EINVAL) else
  ok ← kzalloc;
  if negb (ok : bool) then mret (- ENOMEM) else
  modify (fun d => d <| clients := replicate (Z.to_nat (clients_num d)) None |>) ;;
  mret 0.

(** ** Initialisation of the queues *)

(** What a queue set-up needs of its region: the sizes of the headers and of
    one queue, and the properties of the Tx queue. *)
Record queue_params := mkQueueParams {
  qp_headers_size : Z;
  qp_queue_size : Z;
  qp_payload_size : Z;
  qp_start_padding : Z;
  qp_txq_idx_start : Z;
  qp_txq_idx_factor : Z;
  qp_skip_txq_wr_idx : bool;
}.

Definition get_queue_params (d : hw_fence_driver_data) (mem_reserve_id : hw_fence_mem_reserve)
    (queues_num client_id : Z) : option queue_params :=
  match mem_reserve_id with
  | HW_FENCE_MEM_RESERVE_CTRL_QUEUE =>
      Some (mkQueueParams (s32 (HW_FENCE_HFI_CTRL_HEADERS_SIZE (uapi d)))
              (s32 (hw_fence_ctrl_queue_size d)) HW_FENCE_CTRL_QUEUE_PAYLOAD 0 0 1 false)
  | HW_FENCE_MEM_RESERVE_CLIENT_QUEUE =>
      if clients_num d <=? client_id then None else
      match client_desc d client_id with
      | None => None
      | Some (desc, _) =>
          Some (mkQueueParams
            (s32 (HW_FENCE_HFI_CLIENT_HEADERS_SIZE (uapi d) queues_num
                  + s32 (start_padding desc) + s32 (end_padding desc)))
            (s32 (HW_FENCE_CLIENT_QUEUE_PAYLOAD * queue_entries desc))
            HW_FENCE_CLIENT_QUEUE_PAYLOAD
            (s32 (start_padding desc))
            (txq_idx_start desc)
            (if truthy (txq_idx_factor desc) then txq_idx_factor desc else 1)
            (skip_txq_wr_idx desc))
      end
  | _ => None
  end.

Definition IS_HW_FENCE_TX_QUEUE (i : Z) : bool := i =? HW_FENCE_TX_QUEUE - 1.

(** The header of a queue, filled over what the memory holds: the indexes are
    set for a Tx queue that starts at a non-zero index and was not used yet. *)
Definition init_header (qp : queue_params) (tx : bool) (qphys : Z) (h : hfi_queue_header)
    : hfi_queue_header :=
  let h := h <| start_addr := qphys |>
             <| hq_type := if tx then HW_FENCE_TX_QUEUE else HW_FENCE_RX_QUEUE |>
             <| queue_size := u32 (qp_queue_size qp) |>
             <| pkt_size := qp_payload_size qp |> in
  if truthy (qp_txq_idx_start qp) && tx && negb (truthy (write_index h)) then
    (if qp_skip_txq_wr_idx qp then h <| tx_wm := qp_txq_idx_start qp |> else h)
      <| read_index := qp_txq_idx_start qp |> <| write_index := qp_txq_idx_start qp |>
  else h.

(** One queue of the region at [base] (physical address [phys]); a queue that
    is not the Tx queue keeps the start index and the write-index mode of
    [old]. *)
Definition init_one_queue (d : hw_fence_driver_data) (qp : queue_params) (phys base i : Z)
    (old : msm_hw_fence_queue) : msm_hw_fence_queue :=
  let tx := IS_HW_FENCE_TX_QUEUE i in
  let start_queue_offset := u32 (qp_headers_size qp + i * qp_queue_size qp) in
  let qphys := u64 (phys + start_queue_offset) in
  let hdr_off := base + HW_FENCE_HFI_TABLE_HEADER_SIZE (uapi d) + qp_start_padding qp
                 + i * HW_FENCE_HFI_QUEUE_HEADER_SIZE (uapi d) in
  mkQueue (carve_words d (base + start_queue_offset) (u32 (qp_queue_size qp)))
    (u32 (qp_queue_size qp))
    (Some (init_header qp tx qphys (carve_header d hdr_off)))
    qphys
    (if tx then qp_txq_idx_start qp else rd_wr_idx_start old)
    (if tx then qp_txq_idx_factor qp else 1)
    (if tx then qp_skip_txq_wr_idx qp else skip_wr_idx old)
    (base + start_queue_offset) hdr_off.

(** The header of a queue in the carved-out memory. *)
Definition put_header (q : msm_hw_fence_queue) (d : hw_fence_driver_data) : hw_fence_driver_data :=
  match va_header q with
  | Some h => d <| carve_header ::= put_at (va_header_off q) h |>
  | None => d
  end.

(** [queues] is the caller's array; the result is the array after the call, or
    the error.  The headers are written to the memory, the words of the queues
    are left as they are. *)
Definition init_hw_fences_queues (mem_reserve_id : hw_fence_mem_reserve)
    (queues : list msm_hw_fence_queue) (queues_num client_id : Z)
    : DM (Z + list msm_hw_fence_queue) :=
  d ← getM;
  match get_queue_params d mem_reserve_id queues_num client_id with
  | None => mret (inl (- EINVAL))
  | Some qp =>
      r ← hw_fence_utils_reserve_mem mem_reserve_id client_id;
      match (r : Z + Z * Z * Z) with
      | inl _ => mret (inl (- ENOMEM))
      | inr (phys, base, _) =>
          if zlen queues <? queues_num then failM OutOfBounds else
          let qs := imap (fun i old =>
            if Z.of_nat i <? queues_num then init_one_queue d qp phys base (Z.of_nat i) old else old)
            queues in
          modify (fun d => foldr put_header d (take (Z.to_nat queues_num) qs)) ;;
          mret (inr qs)
      end
  end.

(** A queue of a zero-allocated array. *)
Definition zero_queue : msm_hw_fence_queue := mkQueue [] 0 None 0 0 0 false 0 0.

Definition init_ctrl_queue : DM Z :=
  d ← getM;
  r ← init_hw_fences_queues HW_FENCE_MEM_RESERVE_CTRL_QUEUE (ctrl_queues d) HW_FENCE_CTRL_QUEUES 0;
  match (r : Z + list msm_hw_fence_queue) with
  | inl ret => mret ret
  | inr qs => modify (fun d => d <| ctrl_queues := qs |>) ;; mret 0
  end.

(** ** Locks, table and events *)

(** The locks and the entries of the table are what the memory holds: the source
    sets pointers to it. *)
Definition init_global_locks : DM Z :=
  r ← hw_fence_utils_reserve_mem HW_FENCE_MEM_RESERVE_LOCKS_REGION 0;
  match (r : Z + Z * Z * Z) with
  | inl _ => mret (- ENOMEM)
  | inr (_, base, sz) =>
      modify (fun d => d <| client_lock_tbl := carve_array (carve_lock d) sizeof_u64 base (sz / sizeof_u64) |>
                         <| client_lock_tbl_cnt := sz / sizeof_u64 |>) ;;
      mret 0
  end.

Definition init_hw_fences_table : DM Z :=
  r ← hw_fence_utils_reserve_mem HW_FENCE_MEM_RESERVE_TABLE 0;
  match (r : Z + Z * Z * Z) with
  | inl _ => mret (- ENOMEM)
  | inr (_, base, sz) =>
      modify (fun d => d
        <| hw_fences_tbl := carve_array (carve_fence d) sizeof_msm_hw_fence base (sz / sizeof_msm_hw_fence) |>
        <| hw_fences_tbl_cnt := sz / sizeof_msm_hw_fence |>) ;;
      mret 0
  end.

Definition init_hw_fences_events : DM Z :=
  r ← hw_fence_utils_reserve_mem HW_FENCE_MEM_RESERVE_EVENTS_BUFF 0;
  match (r : Z + Z * Z * Z) with
  | inl _ => mret (- ENOMEM)
  | inr (_, _, sz) =>
      modify (fun d => d <| total_events := sz / sizeof_msm_hw_fence_event |>) ;; mret 0
  end.

(** ** Mapping of clients to interrupt signals *)

Definition HW_FENCE_IPC_CLIENT_ID_APPS_VID : Z := 8.
Definition HW_FENCE_IPC_CLIENT_ID_GPU_VID : Z := 9.
Definition HW_FENCE_IPC_CLIENT_ID_IPE_VID : Z := 11.
Definition HW_FENCE_IPC_CLIENT_ID_VPU_VID : Z := 12.
Definition HW_FENCE_IPC_CLIENT_ID_DPU_VID : Z := 25.
Definition HW_FENCE_IPC_CLIENT_ID_IFE_VID (i : Z) : Z := 128 + i.
Definition HW_FENCE_IPC_CLIENT_ID_APPS_PID : Z := 3.
Definition HW_FENCE_IPC_CLIENT_ID_GPU_PID : Z := 4.
Definition HW_FENCE_IPC_CLIENT_ID_IPE_PID : Z := 5.
Definition HW_FENCE_IPC_CLIENT_ID_VPU_PID : Z := 8.
Definition HW_FENCE_IPC_CLIENT_ID_DPU_PID : Z := 9.
Definition HW_FENCE_IPC_CLIENT_ID_IFE_PID (i : Z) : Z := 11 + i.
Definition HW_FENCE_IPC_COMPUTE_L1_PROTOCOL_ID_KALAMA : Z := 2.
Definition HW_FENCE_IPC_FENCE_PROTOCOL_ID_PINEAPPLE : Z := 4.
Definition HW_FENCE_IPCC_HW_REV_170 : Z := 67328.
Definition HW_FENCE_IPCC_HW_REV_203 : Z := 131075.

(** The entries of the static clients: control queue, GPU, display, validation. *)
Definition static_ipc_map (debug_fs : bool) (apps gpu dpu : Z) : list hw_fence_client_ipc_map :=
  [mkIpcMap HW_FENCE_IPC_CLIENT_ID_APPS_VID apps 1 true true;
   mkIpcMap HW_FENCE_IPC_CLIENT_ID_GPU_VID gpu 0 false false]
  ++ map (fun s => mkIpcMap HW_FENCE_IPC_CLIENT_ID_DPU_VID dpu s false true) [0; 1; 2; 3; 4; 5]
  ++ map (fun s => if debug_fs then mkIpcMap HW_FENCE_IPC_CLIENT_ID_APPS_VID apps s true false
                   else mkIpcMap 0 0 0 false false) [21; 22; 23; 24; 25; 26; 27].

Definition hw_fence_clients_ipc_map (debug_fs : bool) : list hw_fence_client_ipc_map :=
  static_ipc_map debug_fs HW_FENCE_IPC_CLIENT_ID_APPS_VID HW_FENCE_IPC_CLIENT_ID_GPU_VID
    HW_FENCE_IPC_CLIENT_ID_DPU_VID
  ++ [mkIpcMap HW_FENCE_IPC_CLIENT_ID_IPE_VID HW_FENCE_IPC_CLIENT_ID_IPE_VID 0 true true;
      mkIpcMap HW_FENCE_IPC_CLIENT_ID_VPU_VID HW_FENCE_IPC_CLIENT_ID_VPU_VID 0 true true]
  ++ replicate 8 (mkIpcMap 0 0 0 false false).

Definition hw_fence_clients_ipc_map_v2 (debug_fs : bool) : list hw_fence_client_ipc_map :=
  static_ipc_map debug_fs HW_FENCE_IPC_CLIENT_ID_APPS_PID HW_FENCE_IPC_CLIENT_ID_GPU_PID
    HW_FENCE_IPC_CLIENT_ID_DPU_PID
  ++ [mkIpcMap HW_FENCE_IPC_CLIENT_ID_IPE_VID HW_FENCE_IPC_CLIENT_ID_IPE_PID 0 true true;
      mkIpcMap HW_FENCE_IPC_CLIENT_ID_VPU_VID HW_FENCE_IPC_CLIENT_ID_VPU_PID 0 true true]
  ++ map (fun i => mkIpcMap (HW_FENCE_IPC_CLIENT_ID_IFE_VID i) (HW_FENCE_IPC_CLIENT_ID_IFE_PID i)
                     0 false true) [0; 1; 2; 3; 4; 5; 6; 7].

(** An access to [ipc_clients_table[client_id]] behind the source's range test. *)
Definition ipc_entry (limit client_id : Z) : DM (option hw_fence_client_ipc_map) :=
  if limit <=? client_id then mret None else
  d ← getM;
  m ← liftO OutOfBounds (zget (ipc_clients_table d) client_id);
  mret (Some m).

Definition ipc_get (f : hw_fence_client_ipc_map -> Z) (client_id : Z) : DM Z :=
  d ← getM;
  m ← ipc_entry (clients_num d) client_id;
  mret (match m with Some m => f m | None => - EINVAL end).

Definition hw_fence_ipcc_get_client_virt_id : Z -> DM Z := ipc_get ipc_client_id_virt.
Definition hw_fence_ipcc_get_client_phys_id : Z -> DM Z := ipc_get ipc_client_id_phys.
Definition hw_fence_ipcc_get_signal_id : Z -> DM Z := ipc_get im_signal_id.

Definition hw_fence_ipcc_needs_rxq_update (client_id : Z) : DM bool :=
  d ← getM;
  m ← ipc_entry (clients_num d) client_id;
  mret (match m with Some m => im_update_rxq m | None => false end).

Definition hw_fence_ipcc_needs_ipc_irq (client_id : Z) : DM bool :=
  d ← getM;
  m ← ipc_entry (HW_FENCE_CLIENT_MAX (uapi d)) client_id;
  mret (match m with Some m => im_send_ipc m | None => false end).

Definition put_ipc_entry (i : Z) (m : hw_fence_client_ipc_map) : DM unit :=
  d ← getM;
  t ← liftO OutOfBounds (zset (ipc_clients_table d) i m);
  modify (fun d => d <| ipc_clients_table := t |>).

(** The sub-clients of configurable type [i]: [inl] when the table is full. *)
Fixpoint map_subclients (js : list Z) (base_entry : hw_fence_client_ipc_map) (map_idx : Z)
    : DM (Z + Z) :=
  match js with
  | [] => mret (inr map_idx)
  | j :: js' =>
      d ← getM;
      if clients_num d <=? map_idx then mret (inl (- EINVAL)) else
      put_ipc_entry map_idx (base_entry <| im_signal_id := j |>) ;;
      map_subclients js' base_entry (map_idx + 1)
  end.

Fixpoint map_types (idxs : list Z) (base_table : list hw_fence_client_ipc_map) (map_idx : Z)
    : DM Z :=
  match idxs with
  | [] => mret 0
  | i :: idxs' =>
      d ← getM;
      desc ← liftO OutOfBounds
        (zget (hw_fence_client_types d) (HW_FENCE_MAX_CLIENT_TYPE_STATIC + i));
      base ← liftO OutOfBounds
        (zget base_table (HW_FENCE_MAX_STATIC_CLIENTS_INDEX (uapi d) + i));
      r ← map_subclients (map Z.of_nat (seq 0 (Z.to_nat (td_clients_num desc)))) base map_idx;
      match (r : Z + Z) with
      | inl ret => mret ret
      | inr map_idx => map_types idxs' base_table map_idx
      end
  end.

Definition _hw_fence_ipcc_init_map_with_configurable_clients
    (base_table : list hw_fence_client_ipc_map) : DM Z :=
  ok ← kzalloc;
  if negb (ok : bool) then mret (- ENOMEM) else
  d ← getM;
  let static_idx := Z.to_nat (HW_FENCE_MAX_STATIC_CLIENTS_INDEX (uapi d)) in
  if (Nat.ltb (length base_table) static_idx) || (clients_num d <? Z.of_nat static_idx)
  then failM OutOfBounds else
  modify (fun d => d <| ipc_clients_table :=
    take static_idx base_table
      ++ replicate (Z.to_nat (clients_num d) - static_idx) (mkIpcMap 0 0 0 false false) |>) ;;
  map_types (map Z.of_nat (seq 0 (Z.to_nat HW_FENCE_MAX_CLIENT_TYPE_CONFIGURABLE))) base_table
    (HW_FENCE_MAX_STATIC_CLIENTS_INDEX (uapi d)).

Definition _hw_fence_ipcc_hwrev_init (hwrev : Z) : DM Z :=
  if hwrev =? HW_FENCE_IPCC_HW_REV_170 then
    modify (fun d => d <| ipcc_client_vid := HW_FENCE_IPC_CLIENT_ID_APPS_VID |>
      <| ipcc_client_pid := HW_FENCE_IPC_CLIENT_ID_APPS_VID |>
      <| protocol_id := HW_FENCE_IPC_COMPUTE_L1_PROTOCOL_ID_KALAMA |>
      <| ipc_clients_table := hw_fence_clients_ipc_map (config_debug_fs d) |>) ;; mret 0
  else if hwrev =? HW_FENCE_IPCC_HW_REV_203 then
    modify (fun d => d <| ipcc_client_vid := HW_FENCE_IPC_CLIENT_ID_APPS_VID |>
      <| ipcc_client_pid := HW_FENCE_IPC_CLIENT_ID_APPS_PID |>
      <| protocol_id := HW_FENCE_IPC_FENCE_PROTOCOL_ID_PINEAPPLE |>) ;;
    d ← getM;
    _hw_fence_ipcc_init_map_with_configurable_clients
      (hw_fence_clients_ipc_map_v2 (config_debug_fs d))
  else mret (- 1).

Definition hw_fence_ipcc_enable_signaling : DM Z :=
  d ← getM;
  let '(ret, val) := of_property_read_u32 (dtree d) "qcom,hw-fence-ipc-ver" in
  if truthy ret || negb (truthy val) then mret (- EINVAL) else
  ret ← _hw_fence_ipcc_hwrev_init val;
  if truthy ret then mret (- EINVAL) else
  d ← getM;
  emit (EvIpccWrite (IPC_PROTOCOLp_CLIENTc_CONFIG (protocol_id d) (ipcc_client_pid d)) 0) ;;
  emit (EvIpccWrite (IPC_PROTOCOLp_CLIENTc_RECV_SIGNAL_ENABLE (protocol_id d) (ipcc_client_pid d))
          524288) ;;
  mret 0.

Fixpoint enable_dpu_clients (idxs : list Z) (protocol_enabled : bool) : DM unit :=
  match idxs with
  | [] => mret tt
  | i :: idxs' =>
      d ← getM;
      m ← liftO OutOfBounds (zget (ipc_clients_table d) i);
      if negb (ipc_client_id_virt m =? HW_FENCE_IPC_CLIENT_ID_DPU_VID)
      then enable_dpu_clients idxs' protocol_enabled else
      (if protocol_enabled then mret tt
       else emit (EvIpccWrite (IPC_PROTOCOLp_CLIENTc_CONFIG (protocol_id d) (ipc_client_id_phys m)) 1)) ;;
      emit (EvIpccWrite
        (IPC_PROTOCOLp_CLIENTc_RECV_SIGNAL_ENABLE (protocol_id d) (ipc_client_id_phys m))
        (Z.lor (Z.shiftl HW_FENCE_IPC_CLIENT_ID_APPS_VID 16) (Z.land (im_signal_id m) 65535))) ;;
      enable_dpu_clients idxs' true
  end.

Definition hw_fence_ipcc_enable_dpu_signaling : DM Z :=
  d ← getM;
  if negb (truthy (protocol_id d)) || bool_decide (ipc_clients_table d = []) then mret (- 1) else
  enable_dpu_clients (map Z.of_nat (seq 0 (Z.to_nat (clients_num d)))) false ;; mret 0.

(** ** Clients and the driver *)

Definition hw_fence_init_controller_signal (c : Z) : DM Z :=
  cl ← get_client c;
  d ← getM;
  let u := uapi d in
  let id := client_id_ext cl in
  let range first last := (first <=? id) && (id <=? last + MSM_HW_FENCE_MAX_SIGNAL_PER_CLIENT u - 1) in
  if id =? HW_FENCE_CLIENT_ID_CTX0 u then mret 0
  else if config_debug_fs d && is_val_client u id then mret 0
  else if existsb (Z.eqb id)
    [HW_FENCE_CLIENT_ID_CTL0 u; HW_FENCE_CLIENT_ID_CTL1 u; HW_FENCE_CLIENT_ID_CTL2 u;
     HW_FENCE_CLIENT_ID_CTL3 u; HW_FENCE_CLIENT_ID_CTL4 u; HW_FENCE_CLIENT_ID_CTL5 u] then
    (if ipcc_dpu_initialized d then mret tt
     else modify (fun d => d <| ipcc_dpu_initialized := true |>) ;;
          hw_fence_ipcc_enable_dpu_signaling ;; mret tt) ;;
    mret 0
  else if range (HW_FENCE_CLIENT_ID_IPE u) (HW_FENCE_CLIENT_ID_IPE u)
       || range (HW_FENCE_CLIENT_ID_VPU u) (HW_FENCE_CLIENT_ID_VPU u)
       || range (HW_FENCE_CLIENT_ID_IFE u 0) (HW_FENCE_CLIENT_ID_IFE u 7)
  then mret 0
  else mret (- EINVAL).

Definition hw_fence_alloc_client_resources (c : Z) : DM Z :=
  cl ← get_client c;
  d ← getM;
  match client_desc d (client_id cl) with
  | None => mret (- EINVAL)
  | Some (desc, _) =>
      r ← init_hw_fences_queues HW_FENCE_MEM_RESERVE_CLIENT_QUEUE (queues cl)
            (s32 (td_queues_num desc)) (client_id cl);
      match (r : Z + list msm_hw_fence_queue) with
      | inl ret => mret ret
      | inr qs => put_client c (cl <| queues := qs |>) ;; mret 0
      end
  end.

(** The outcomes of the calls of [hw_fence_init] into the kernel: whether the
    node of the memory is found, the reads of its label and of its address
    (with start and size), the mapping, and the return values of the other
    mappings and registrations. *)
Record init_env := mkInitEnv {
  ie_mem_node : bool;
  ie_label : Z;
  ie_shared_buffer : bool;
  ie_address : Z * (Z * Z);
  ie_ioremap : bool;
  ie_notifier : Z;
  ie_map_ipcc : Z;
  ie_map_qtime : Z;
  ie_debugfs : Z;
  ie_virq : Z;
}.

Definition ENXIO : Z := 6.
Definition EPROBE_DEFER : Z := 517.

Definition hw_fence_utils_alloc_mem (env : init_env) : DM Z :=
  if negb (ie_mem_node env) then mret (- EINVAL) else
  if truthy (ie_label env) then mret (ie_label env) else
  if negb (ie_shared_buffer env) then mret (- ENOMEM) else
  let '(ret, (start, sz)) := ie_address env in
  if truthy ret then mret (- EINVAL) else
  modify (fun d => d <| res_start := start |>) ;;
  if negb (ie_ioremap env) then mret (- ENXIO) else
  modify (fun d => d <| size := sz |>) ;;
  d ← getM;
  if size d <? used_mem_size d then mret (- ENOMEM) else
  modify (memset_io (size d)) ;;
  if truthy (ie_notifier env) then mret (- EPROBE_DEFER) else mret 0.

Definition hw_fence_utils_map_ipcc (env : init_env) : DM Z :=
  if truthy (ie_map_ipcc env) then mret (ie_map_ipcc env) else
  hw_fence_ipcc_enable_signaling ;; mret 0.

(** Runs [m]; a return value that is not 0 ends the initialisation. *)
Definition or_exit (m : DM Z) (k : DM Z) : DM Z :=
  ret ← m; if truthy ret then mret ret else k.

Definition hw_fence_init (env : init_env) : DM Z :=
  or_exit hw_fence_utils_parse_dt_props (
  or_exit (hw_fence_utils_alloc_mem env) (
  or_exit init_ctrl_queue (
  or_exit init_global_locks (
  or_exit init_hw_fences_table (
  init_hw_fences_events ;;
  or_exit (hw_fence_utils_map_ipcc env) (
  or_exit (mret (ie_map_qtime env)) (
  or_exit (mret (ie_debugfs env)) (
  or_exit (mret (ie_virq env)) (
  mret 0))))))))).

(** ** What the parser guarantees of a client type *)

(** The documented contract of the property readers: on success they store as
    many 32-bit cells as were asked for. *)
Definition dtree_ok (dt : device_tree) : Prop :=
  forall name n l, of_property_read_u32_array dt name n = (0, l) ->
  zlen l = n /\ Forall (is_word 32) l.

(** The sizes of the HFI headers are positive and small. *)
Record headers_ok (u : hw_uapi) : Prop := {
  ho_table : 0 <= HW_FENCE_HFI_TABLE_HEADER_SIZE u < 2 ^ 12;
  ho_queue : 0 < HW_FENCE_HFI_QUEUE_HEADER_SIZE u < 2 ^ 12;
}.

(** The page size is a power of two below 2^32. *)
Definition page_ok (page : Z) : Prop := exists k, 0 <= k < 32 /\ page = 2 ^ k.

(** A descriptor of the static table: the fields the parser may leave alone. *)
Record desc_initial (d : hw_fence_client_type_desc) : Prop := {
  di_clients : is_word 32 (td_clients_num d);
  di_queues : is_word 32 (td_queues_num d);
  di_start : start_padding d = 0;
  di_end : end_padding d = 0;
  di_idx : txq_idx_start d = 0;
  di_factor : txq_idx_factor d = 0;
}.

(** The properties of the Tx index and of the paddings after parsing. *)
Record extras_ok (u : hw_uapi) (d : hw_fence_client_type_desc) : Prop := {
  eo_start : is_word 32 (start_padding d);
  eo_end : is_word 32 (end_padding d);
  eo_idx : 0 <= txq_idx_start d;
  eo_headers :
    HW_FENCE_HFI_CLIENT_HEADERS_SIZE u (td_queues_num d) + start_padding d + end_padding d < U32_MAX;
  eo_factor : txq_idx_factor d = 0 \/ txq_idx_factor d = 1 \/ txq_idx_factor d = 16;
  eo_index :
    txq_idx_start d + (if txq_idx_factor d =? 16 then queue_entries d
                       else u32 (queue_entries d * 16)) < U32_MAX;
}.

(** The fields [_parse_client_queue_dt_props_extra] does not touch. *)
Definition extra_frame (d d' : hw_fence_client_type_desc) : Prop :=
  td_name d' = td_name d /\ init_id d' = init_id d /\ max_clients_num d' = max_clients_num d /\
  td_clients_num d' = td_clients_num d /\ td_queues_num d' = td_queues_num d /\
  queue_entries d' = queue_entries d /\ mem_size d' = mem_size d /\
  skip_txq_wr_idx d' = skip_txq_wr_idx d.

Lemma headers_small u n :
  headers_ok u -> 0 <= n <= 2 ->
  HW_FENCE_HFI_CLIENT_HEADERS_SIZE u n
    = HW_FENCE_HFI_TABLE_HEADER_SIZE u + HW_FENCE_HFI_QUEUE_HEADER_SIZE u * n /\
  0 <= HW_FENCE_HFI_CLIENT_HEADERS_SIZE u n < 2 ^ 14.
Proof.
  intros [] Hn. unfold HW_FENCE_HFI_CLIENT_HEADERS_SIZE. rewrite wrap_small; unfold is_word; nia.
Qed.

(** Splits the tests of a parser that succeeded. *)
Ltac parse_case H :=
  repeat match type of H with
  | Some _ = Some _ => injection H as ?; subst
  | context [if ?b then _ else _] => destruct b eqn:?; try discriminate H
  | context [match ?o with Some _ => _ | None => _ end] => destruct o eqn:?; try discriminate H
  | context [let '(_, _) := ?p in _] => destruct p eqn:?
  end.

Section ParserFacts.
Context (u : hw_uapi) (dt : device_tree) (page default_entries : Z).
Context (Hdt : dtree_ok dt) (Hhead : headers_ok u).

Lemma read_extra_spec d d' count tmp b :
  read_extra d count tmp = Some (Some (d', b)) -> Forall (is_word 32) tmp -> desc_initial d ->
  extra_frame d d' /\ is_word 32 (start_padding d') /\ is_word 32 (end_padding d') /\
  is_word 32 (txq_idx_start d') /\
  txq_idx_factor d' = (if b then 16 else txq_idx_factor d') /\
  (txq_idx_factor d' = 0 \/ txq_idx_factor d' = 1 \/ txq_idx_factor d' = 16 /\ b = true).
Proof.
  intros H Hw [_ _ Hs He Hi Hf].
  assert (Hz : is_word 32 0) by (unfold is_word; lia).
  assert (Hget : forall i x, zget tmp i = Some x -> is_word 32 x) by (intros i x; by apply forall_zget).
  unfold read_extra in H.
  destruct (zget tmp 0) as [t0|] eqn:H0; [|done]. cbn [mbind option_bind] in H.
  destruct (2 <=? count), (zget tmp 1) as [t1|] eqn:H1; try done; cbn [mbind option_bind] in H;
  destruct (3 <=? count), (zget tmp 2) as [t2|] eqn:H2; try done; cbn [mbind option_bind] in H;
  destruct (4 <=? count), (zget tmp 3) as [t3|] eqn:H3; try done; cbn [mbind option_bind] in H;
  try (destruct (1 <? t3); [done|]); injection H as <- <-;
  split_and!; cbn; rewrite ?Hs, ?He, ?Hi, ?Hf; eauto; try (by unfold extra_frame; split_and!);
  try (destruct (truthy t3); by eauto).
Qed.

Lemma check_extra_spec d b :
  check_extra u d b = true -> 0 <= td_queues_num d <= 2 -> is_word 32 (queue_entries d) ->
  is_word 32 (start_padding d) -> is_word 32 (end_padding d) -> is_word 32 (txq_idx_start d) ->
  (txq_idx_factor d = (if b then 16 else txq_idx_factor d) /\
   (txq_idx_factor d = 0 \/ txq_idx_factor d = 1 \/ txq_idx_factor d = 16 /\ b = true)) ->
  extras_ok u d.
Proof using Hhead.
  intros H Hq He Hs Hend Hi [Hfac Hfac'].
  pose proof (headers_small u (td_queues_num d) Hhead Hq) as [_ Hh].
  unfold check_extra in H. apply andb_true_iff in H as [H Hx]. apply andb_true_iff in H as [H Hy].
  apply andb_true_iff in H as [_ Hz].
  set (hd := HW_FENCE_HFI_CLIENT_HEADERS_SIZE u (td_queues_num d)) in *.
  unfold U32_MAX in *. unfold is_word in *.
  rewrite (wrap_small 64 (2 ^ 32 - 1 - hd)) in Hz by (unfold is_word; lia).
  rewrite (wrap_small 64 (2 ^ 32 - 1 - hd - start_padding d)) in Hy by (unfold is_word; lia).
  change (HW_FENCE_CLIENT_QUEUE_PAYLOAD / sizeof_u32) with 16 in *.
  split; [exact Hs|exact Hend|lia|unfold U32_MAX; fold hd; lia|by intuition|unfold U32_MAX].
  pose proof (wrap_is_word 32 (queue_entries d * 16) ltac:(lia)) as Hw16. unfold is_word in Hw16.
  destruct b.
  - rewrite Hfac. cbn [Z.eqb Pos.eqb]. rewrite wrap_small in Hx by (unfold is_word; lia). lia.
  - assert ((txq_idx_factor d =? 16) = false) as -> by (destruct Hfac' as [|[|[_ ?]]]; [lia|lia|done]).
    rewrite (wrap_small 32 (2 ^ 32 - 1 - _)) in Hx by (unfold is_word; lia). lia.
Qed.

Lemma extra_spec d d' :
  _parse_client_queue_dt_props_extra u dt d = Some (0, d') ->
  desc_initial d -> 0 <= td_queues_num d <= 2 -> is_word 32 (queue_entries d) ->
  extra_frame d d' /\ extras_ok u d'.
Proof using Hdt Hhead.
  intros H Hd Hq He. unfold _parse_client_queue_dt_props_extra in H. cbn [mbind option_bind] in H.
  pose proof (headers_small u (td_queues_num d) Hhead Hq) as [_ Hh].
  destruct (of_property_read_bool dt _); cbn [negb] in H.
  2: { injection H as <-. destruct Hd. split; [done|]. split; rewrite ?di_start0, ?di_end0, ?di_idx0, ?di_factor0;
       try (unfold is_word, U32_MAX; lia). cbn [Z.eqb].
       unfold wrap, U32_MAX. unfold is_word in He. Z.to_euclidean_division_equations; lia. }
  set (count := of_property_count_u32_elems dt _) in *.
  destruct ((count <=? 0) || (4 <? count)) eqn:Hc; [done|].
  destruct (of_property_read_u32_array dt _ _) as [ret tmp] eqn:Hr.
  destruct (truthy ret) eqn:Ht; [done|]. apply truthy_false in Ht as ->.
  apply Hdt in Hr as [Hlen Hw].
  destruct (read_extra d count tmp) as [[[d1 b]|]|] eqn:Hread; [|done..].
  cbn [mbind option_bind] in H. destruct (check_extra u d1 b) eqn:Hcheck; [|done]. injection H as <-.
  destruct (read_extra_spec d d1 count tmp b Hread Hw Hd) as (Hf&Hs&Hend&Hi&Hfac).
  split; [done|]. destruct Hf as (_&_&_&_&Hqn&Hqe&_).
  apply (check_extra_spec d1 b); rewrite ?Hqn, ?Hqe; done.
Qed.

Lemma page_align_spec page' x :
  page_ok page' -> 0 <= x <= U32_MAX_PAGE page' ->
  x <= PAGE_ALIGN page' x <= U32_MAX_PAGE page' /\ PAGE_ALIGN page' x mod page' = 0 /\
  U32_MAX_PAGE page' < 2 ^ 32.
Proof.
  intros (k&Hk&->) Hx. unfold PAGE_ALIGN, U32_MAX_PAGE, U32_MAX in *.
  assert (Hp : 0 < 2 ^ k) by (apply Z.pow_pos_nonneg; lia).
  assert (Hle : 2 ^ k <= 2 ^ 31) by (apply Z.pow_le_mono_r; lia).
  set (P := 2 ^ k) in *. set (q := (2 ^ 32 - 1) / P) in *.
  assert (HM : q * P <= 2 ^ 32 - 1) by (unfold q; Z.to_euclidean_division_equations; nia).
  rewrite wrap_small by (unfold is_word; lia).
  pose proof (Z.div_mod (x + (P - 1)) P ltac:(lia)) as Hdm.
  pose proof (Z.mod_pos_bound (x + (P - 1)) P ltac:(lia)) as Hr.
  set (y := (x + (P - 1)) / P) in *.
  assert (y <= q). { apply Z.lt_succ_r. apply Z.div_lt_upper_bound; [lia|]. nia. }
  split_and!; [nia|nia|by apply Z.mod_mul; lia|lia].
Qed.

(** Without overflow of the paddings the computed size holds the headers, the
    paddings and the queues. *)
Lemma compute_mem_size_spec d mem :
  page_ok page -> compute_mem_size u page d = Some mem ->
  1 <= td_queues_num d <= 2 -> 0 <= queue_entries d -> 0 <= start_padding d -> 0 <= end_padding d ->
  HW_FENCE_HFI_CLIENT_HEADERS_SIZE u (td_queues_num d) + start_padding d + end_padding d
    <= U32_MAX_PAGE page ->
  HW_FENCE_HFI_CLIENT_HEADERS_SIZE u (td_queues_num d)
    + td_queues_num d * (64 * queue_entries d) + start_padding d + end_padding d <= mem /\
  mem mod page = 0 /\ mem <= MAX_CLIENT_QUEUE_MEM_SIZE /\ queue_entries d < 2 ^ 26.
Proof using Hhead.
  intros Hpage H Hq He Hs Hend Hsum. unfold compute_mem_size in H.
  pose proof (headers_small u (td_queues_num d) Hhead ltac:(lia)) as [_ Hh].
  change (U32_MAX / HW_FENCE_CLIENT_QUEUE_PAYLOAD) with (2 ^ 26 - 1) in H.
  destruct (2 ^ 26 - 1 <=? queue_entries d) eqn:Hent; [done|].
  unfold HW_FENCE_CLIENT_QUEUE_PAYLOAD, sizeof_payload in H.
  rewrite (wrap_small 32 (64 * queue_entries d)) in H by (unfold is_word; lia).
  set (hd := HW_FENCE_HFI_CLIENT_HEADERS_SIZE u (td_queues_num d)) in *.
  pose proof (page_align_spec page 0 Hpage) as Hp0.
  assert (HM : 0 <= U32_MAX_PAGE page < 2 ^ 32) by (pose proof (Hp0 ltac:(lia)); lia).
  rewrite (wrap_small 64 (hd + _ + _)) in H by (unfold is_word; lia).
  rewrite (wrap_small 64 (U32_MAX_PAGE page - _)) in H by (unfold is_word; lia).
  set (rest := U32_MAX_PAGE page - (hd + start_padding d + end_padding d)) in *.
  destruct (rest / td_queues_num d <=? 64 * queue_entries d) eqn:Hdiv; [done|].
  assert (Hfit : td_queues_num d * (64 * queue_entries d) <= rest).
  { assert (64 * queue_entries d < rest / td_queues_num d) by lia.
    pose proof (Z.mul_div_le rest (td_queues_num d) ltac:(lia)). nia. }
  rewrite (wrap_small 32 (_ * td_queues_num d)) in H by (unfold is_word; nia).
  set (x := hd + 64 * queue_entries d * td_queues_num d + start_padding d + end_padding d) in *.
  assert (Hx : 0 <= x <= U32_MAX_PAGE page) by (unfold x; nia).
  rewrite (wrap_small 64 x) in H by (unfold is_word; lia).
  pose proof (page_align_spec page x Hpage Hx) as (Hal&Hmod&_).
  rewrite wrap_small in H by (unfold is_word; lia).
  destruct (MAX_CLIENT_QUEUE_MEM_SIZE <? _) eqn:Hmax; [done|]. injection H as <-.
  split_and!; [unfold x in *; nia|done|lia|lia].
Qed.

Lemma read_type_spec d d' :
  read_type dt default_entries d = Some (Some d') -> is_word 32 default_entries -> desc_initial d ->
  desc_initial d' /\ td_name d' = td_name d /\ init_id d' = init_id d /\
  max_clients_num d' = max_clients_num d /\ is_word 32 (queue_entries d').
Proof using Hdt.
  intros H Hdef Hd. unfold read_type in H.
  destruct (of_property_read_u32_array dt _ 4) as [ret tmp] eqn:Hr.
  destruct (truthy ret) eqn:Ht.
  { injection H as <-. destruct Hd. split; [by split|done]. }
  apply truthy_false in Ht as ->. apply Hdt in Hr as [_ Hw].
  assert (Hget : forall i x, zget tmp i = Some x -> is_word 32 x) by (intros i x; by apply forall_zget).
  destruct (zget tmp 0) eqn:H0; [|done]. destruct (zget tmp 1) eqn:H1; [|done].
  destruct (zget tmp 2) eqn:H2; [|done]. destruct (zget tmp 3) eqn:H3; [|done].
  cbn [mbind option_bind] in H. destruct (1 <? _); [done|]. injection H as <-.
  destruct Hd. split; [|split_and!; cbn; try done; by eapply Hget].
  split; cbn; try done; by eapply Hget.
Qed.

End ParserFacts.

(** A parsed client type: its queues fit in its memory, and their indexes in 32
    bits. *)
Record type_ok (u : hw_uapi) (page : Z) (d : hw_fence_client_type_desc) : Prop := {
  to_clients : 0 <= td_clients_num d <= max_clients_num d;
  to_queues : 1 <= td_queues_num d <= HW_FENCE_CLIENT_QUEUES;
  to_entries : 0 < queue_entries d < 2 ^ 26;
  to_extras : extras_ok u d;
  to_aligned : mem_size d mod page = 0;
  to_max : mem_size d <= MAX_CLIENT_QUEUE_MEM_SIZE;
  to_fits :
    HW_FENCE_HFI_CLIENT_HEADERS_SIZE u (td_queues_num d) + start_padding d + end_padding d
      + td_queues_num d * (HW_FENCE_CLIENT_QUEUE_PAYLOAD * queue_entries d) <= mem_size d;
}.

Section InitQueue.
Context (d : hw_fence_driver_data) (desc : hw_fence_client_type_desc) (phys base : Z).
Context (Hhead : headers_ok (uapi d)).
Context (Hok : type_ok (uapi d) (PAGE_SIZE d) desc).

Definition client_queue_params : queue_params :=
  mkQueueParams
    (s32 (HW_FENCE_HFI_CLIENT_HEADERS_SIZE (uapi d) (td_queues_num desc)
          + s32 (start_padding desc) + s32 (end_padding desc)))
    (s32 (HW_FENCE_CLIENT_QUEUE_PAYLOAD * queue_entries desc))
    HW_FENCE_CLIENT_QUEUE_PAYLOAD
    (s32 (start_padding desc))
    (txq_idx_start desc)
    (if truthy (txq_idx_factor desc) then txq_idx_factor desc else 1)
    (skip_txq_wr_idx desc).

Lemma signed_small w x : 0 < w -> 0 <= x < 2 ^ (w - 1) -> signed w x = x.
Proof.
  intros Hw Hx. assert (2 ^ w = 2 * 2 ^ (w - 1)).
  { rewrite <- Z.pow_succ_r by lia. f_equal. lia. }
  unfold signed. rewrite wrap_small by (unfold is_word; lia). by rewrite bool_decide_true by lia.
Qed.

Lemma client_queue_params_eq :
  client_queue_params =
  mkQueueParams
    (HW_FENCE_HFI_CLIENT_HEADERS_SIZE (uapi d) (td_queues_num desc)
     + start_padding desc + end_padding desc)
    (64 * queue_entries desc) 64 (start_padding desc) (txq_idx_start desc)
    (if truthy (txq_idx_factor desc) then txq_idx_factor desc else 1) (skip_txq_wr_idx desc).
Proof using Hhead Hok.
  destruct Hok as [_ Hq He [Hs Hend _ _ _ _] _ Hm Hf].
  pose proof (headers_small (uapi d) (td_queues_num desc) Hhead ltac:(unfold HW_FENCE_CLIENT_QUEUES in Hq; lia))
    as [_ Hh].
  unfold client_queue_params, MAX_CLIENT_QUEUE_MEM_SIZE, HW_FENCE_CLIENT_QUEUE_PAYLOAD,
    sizeof_payload, HW_FENCE_CLIENT_QUEUES, is_word in *.
  assert (64 * queue_entries desc <= mem_size desc) by nia.
  assert (0 <= td_queues_num desc * (64 * queue_entries desc)) by nia.
  rewrite (signed_small 32 (start_padding desc)) by lia.
  rewrite (signed_small 32 (end_padding desc)) by lia.
  rewrite !signed_small by lia. done.
Qed.

(** The index stored for the first slot is the start index. *)
Lemma to_custom_start queue :
  (rd_wr_idx_factor queue = 1 \/ rd_wr_idx_factor queue = 16) ->
  is_word 32 (rd_wr_idx_start queue) -> to_custom queue (slot_off 0) = rd_wr_idx_start queue.
Proof.
  intros Hf Hs. unfold to_custom, REQUIRES_IDX_TRANSLATION, IDX_TRANSLATE_DEFAULT_TO_CUSTOM.
  change (slot_off 0) with 0. rewrite Z.div_0_l by lia. rewrite Z.add_0_l, wrap_small by done.
  unfold truthy. destruct Hf as [-> | ->]; cbn; [|by rewrite orb_true_r].
  rewrite orb_false_r. destruct (Z.eqb_spec (rd_wr_idx_start queue) 0); cbn; lia.
Qed.

Lemma init_header_indexes qp tx a :
  let h := init_header qp tx a zero_header in
  let start := if tx then qp_txq_idx_start qp else 0 in
  read_index h = start /\ write_index h = start /\
  (tx && qp_skip_txq_wr_idx qp = true -> tx_wm h = start).
Proof.
  unfold init_header, truthy. destruct (Z.eqb_spec (qp_txq_idx_start qp) 0) as [->|]; destruct tx; cbn;
    try done. by destruct (qp_skip_txq_wr_idx qp).
Qed.

(** Where the header and the words of queue [i] are. *)
Definition header_off (i : Z) : Z :=
  base + HW_FENCE_HFI_TABLE_HEADER_SIZE (uapi d) + start_padding desc + i * HW_FENCE_HFI_QUEUE_HEADER_SIZE (uapi d).

Definition words_off (i : Z) : Z :=
  base + (HW_FENCE_HFI_CLIENT_HEADERS_SIZE (uapi d) (td_queues_num desc) + start_padding desc + end_padding desc
          + i * (64 * queue_entries desc)).

(** The queue the memory holds at the place of queue [i], as it is. *)
Definition queue_view (i : Z) : msm_hw_fence_queue :=
  let tx := IS_HW_FENCE_TX_QUEUE i in
  mkQueue (carve_words d (words_off i) (64 * queue_entries desc)) (64 * queue_entries desc)
    (Some (carve_header d (header_off i))) 0
    (if tx then txq_idx_start desc else 0)
    (if tx then if truthy (txq_idx_factor desc) then txq_idx_factor desc else 1 else 1)
    (if tx then skip_txq_wr_idx desc else false)
    (words_off i) (header_off i).

(** The payloads the place of queue [i] holds: none when the memory is as the
    initialisation of the driver left it, or those of the queue an earlier
    registration set up there. *)
Inductive region_holds (i : Z) : list queue_payload -> Prop :=
| RegionCleared :
    carve_header d (header_off i) = zero_header ->
    Forall (eq 0) (carve_words d (words_off i) (64 * queue_entries desc)) ->
    region_holds i []
| RegionUsed l :
    queue_repr (queue_view i) l -> write_index_valid (queue_view i) ->
    (IS_HW_FENCE_TX_QUEUE i = true -> txq_idx_start desc <> 0 ->
     write_index (carve_header d (header_off i)) <> 0) ->
    region_holds i l.

(** The set-up of queue [i], with its offsets. *)
Lemma init_one_queue_eq i :
  0 <= i < td_queues_num desc ->
  let tx := IS_HW_FENCE_TX_QUEUE i in
  let qphys := u64 (phys + (words_off i - base)) in
  init_one_queue d client_queue_params phys base i zero_queue
  = (queue_view i)
      <| va_header := Some (init_header client_queue_params tx qphys (carve_header d (header_off i))) |>
      <| pa_queue := qphys |>.
Proof using Hhead Hok.
  intros Hi. unfold init_one_queue, queue_view. rewrite client_queue_params_eq. cbv zeta.
  destruct Hok as [_ Hq He [Hs Hend _ _ _ _] _ Hm Hf].
  pose proof (headers_small (uapi d) (td_queues_num desc) Hhead ltac:(unfold HW_FENCE_CLIENT_QUEUES in Hq; lia))
    as [_ Hh].
  unfold HW_FENCE_CLIENT_QUEUES, HW_FENCE_CLIENT_QUEUE_PAYLOAD, sizeof_payload, MAX_CLIENT_QUEUE_MEM_SIZE, is_word in *.
  cbn [qp_headers_size qp_queue_size qp_payload_size qp_start_padding qp_txq_idx_start qp_txq_idx_factor
    qp_skip_txq_wr_idx zero_queue rd_wr_idx_start skip_wr_idx].
  rewrite (wrap_small 32 (64 * queue_entries desc)) by (unfold is_word; nia).
  rewrite (wrap_small 32 (_ + i * _)) by (unfold is_word; nia).
  fold (words_off i) (header_off i).
  replace (words_off i - base) with (HW_FENCE_HFI_CLIENT_HEADERS_SIZE (uapi d) (td_queues_num desc)
    + start_padding desc + end_padding desc + i * (64 * queue_entries desc)) by (unfold words_off; lia).
  by destruct (IS_HW_FENCE_TX_QUEUE i).
Qed.

(** The words of a cleared place. *)
Lemma cleared_words off n : Forall (eq 0) (carve_words d off (64 * Z.of_nat n)) ->
  carve_words d off (64 * Z.of_nat n) = slots_mem (replicate n zero_payload).
Proof using Type.
  intros Hz. rewrite <- zero_words. symmetry. apply replicate_as_elem_of. split.
  - unfold carve_words, carve_array. rewrite length_map, length_seq.
    replace (64 * Z.of_nat n / 4) with (16 * Z.of_nat n) by (apply Z.div_unique with 0; lia). lia.
  - intros x Hx. by apply (proj1 (list.Forall_forall _ _) Hz) in Hx.
Qed.

(** Indexes at the start: the queue is empty. *)
Lemma start_queue_empty queue h n :
  let start := rd_wr_idx_start queue in
  q_mem queue = slots_mem (replicate n zero_payload) -> q_size_bytes queue = 64 * Z.of_nat n ->
  (0 < n)%nat -> idx_config_ok queue n ->
  va_header queue = Some h -> read_index h = start -> write_index h = start ->
  (skip_wr_idx queue = true -> tx_wm h = start) ->
  queue_repr queue [] /\ write_index_valid queue.
Proof using Type.
  intros start Hm Hz Hn Hcfg Hh Hr Hw Ht. pose proof Hcfg as (Hf&Hs&Hs'&Hn').
  assert (Hlen : length (replicate n zero_payload) = n) by apply length_replicate.
  assert (0 <= slot_off n / rd_wr_idx_factor queue) by (apply Z.div_pos; [unfold slot_off; lia|destruct Hf; lia]).
  pose proof (to_custom_start queue Hf ltac:(unfold is_word; lia)) as H0.
  assert (Hlay : queue_layout queue (replicate n zero_payload) h 0 0).
  { split; rewrite ?Hlen, ?H0; try done.
    - unfold zlen. by rewrite Hlen.
    - apply Forall_replicate, zero_payload_ok.
    - destruct (skip_wr_idx queue); auto. }
  split; [by eapply ring_repr_nil|]. intros h' Hh'. assert (h' = h) as -> by congruence. exists 0%nat.
  by rewrite (repr_capacity _ _ _ _ _ Hlay), Hlen, H0.
Qed.

(** The index configuration of the type's queues. *)
Lemma view_config i queue n :
  n = Z.to_nat (queue_entries desc) -> same_ring (queue_view i) queue -> idx_config_ok queue n.
Proof using Hok.
  intros -> (_&_&Hs&Hf&_). unfold idx_config_ok. rewrite Hs, Hf. unfold queue_view.
  cbn [rd_wr_idx_start rd_wr_idx_factor].
  pose proof (wrap_is_word 32 (queue_entries desc * 16) ltac:(lia)) as Hw16.
  destruct Hok as [_ Hq He [_ _ Hidx _ Hfac Hbound] _ _ _]. unfold slot_off, U32_MAX in *. rewrite Z2Nat.id by lia.
  destruct (IS_HW_FENCE_TX_QUEUE i); [|rewrite Z.div_1_r; lia].
  destruct Hfac as [Hf0|[Hf0|Hf0]]; rewrite Hf0 in *; cbn [truthy negb Z.eqb Pos.eqb] in *.
  1,2: rewrite wrap_small in Hbound by (unfold is_word; lia); rewrite Z.div_1_r; lia.
  replace (16 * queue_entries desc / 16) with (queue_entries desc) by (apply Z.div_unique with 0; lia). lia.
Qed.

(** Queue [i] of the client is a FIFO that holds what the memory held, and it
    starts where the queues before it end. *)
Lemma init_one_queue_holds i l :
  0 <= i < td_queues_num desc -> region_holds i l ->
  let queue := init_one_queue d client_queue_params phys base i zero_queue in
  queue_repr queue l /\ write_index_valid queue /\
  capacity queue = Z.to_nat (queue_entries desc) /\
  skip_wr_idx queue = (IS_HW_FENCE_TX_QUEUE i && skip_txq_wr_idx desc) /\
  q_size_bytes queue = 64 * queue_entries desc.
Proof using Hhead Hok.
  intros Hi Hl. cbv zeta. rewrite init_one_queue_eq by done. pose proof (to_entries _ _ _ Hok) as He.
  set (qphys := u64 _). set (queue := _ <| pa_queue := _ |>).
  assert (Hcap : capacity queue = Z.to_nat (queue_entries desc)).
  { unfold capacity, sizeof_payload. change (q_size_bytes queue) with (64 * queue_entries desc).
    f_equal. rewrite Z.mul_comm. by apply Z.div_mul. }
  assert (Hsk : skip_wr_idx queue = (IS_HW_FENCE_TX_QUEUE i && skip_txq_wr_idx desc))
    by (cbn; by destruct (IS_HW_FENCE_TX_QUEUE i)).
  assert (H : queue_repr queue l /\ write_index_valid queue); [|destruct H; by split_and!].
  destruct Hl as [Hh Hw|l Hrepr Hvalid Hstart].
  - set (tx := IS_HW_FENCE_TX_QUEUE i) in *. set (h := init_header client_queue_params tx qphys zero_header).
    pose proof (init_header_indexes client_queue_params tx qphys) as (Hr&Hwi&Htx). fold h in Hr, Hwi, Htx.
    rewrite <- (Z2Nat.id (queue_entries desc)) in Hw by lia.
    assert (Hst : (if tx then qp_txq_idx_start client_queue_params else 0) = rd_wr_idx_start queue) by done.
    rewrite Hst in *. apply (start_queue_empty queue h (Z.to_nat (queue_entries desc))); try done.
    + rewrite <- (cleared_words (words_off i)) by done. rewrite Z2Nat.id by lia. done.
    + rewrite Z2Nat.id by lia. done.
    + lia.
    + unfold idx_config_ok. by apply (view_config i (queue_view i)); [|split_and!; try done; constructor].
    + change (va_header queue) with (Some (init_header client_queue_params tx qphys (carve_header d (header_off i)))).
      by rewrite Hh.
  - assert (Hsame : same_ring (queue_view i) queue).
    { unfold same_ring, queue, queue_view. split_and!; try done. constructor. unfold init_header.
      change (qp_txq_idx_start client_queue_params) with (txq_idx_start desc).
      destruct (IS_HW_FENCE_TX_QUEUE i), (Z.eq_dec (txq_idx_start desc) 0) as [H0|H0];
        try (by rewrite H0); try (by rewrite andb_false_r).
      specialize (Hstart eq_refl H0). apply truthy_true in Hstart. cbn. by rewrite Hstart, andb_false_r. }
    split; [by eapply same_ring_repr|by eapply same_ring_valid].
Qed.

End InitQueue.

Lemma region_holds_same d d' desc base i l :
  uapi d' = uapi d -> carve_header d' = carve_header d -> carve_word d' = carve_word d ->
  region_holds d desc base i l -> region_holds d' desc base i l.
Proof.
  intros Hu Hh Hw H.
  assert (Hho : header_off d' desc base i = header_off d desc base i) by (unfold header_off; by rewrite Hu).
  assert (Hwo : words_off d' desc base i = words_off d desc base i) by (unfold words_off; by rewrite Hu).
  assert (Hv : queue_view d' desc base i = queue_view d desc base i)
    by (unfold queue_view, carve_words; by rewrite Hho, Hwo, Hh, Hw).
  destruct H as [H1 H2|l H1 H2 H3]; [apply RegionCleared|apply RegionUsed];
    rewrite ?Hho, ?Hwo, ?Hv, ?Hh; try done. unfold carve_words in *. by rewrite Hw.
Qed.

(** * Properties of the layout *)

(** when the device-tree properties of a client type are accepted, and the
    paddings alone do not exceed the largest page-aligned 32-bit size, the
    memory computed for a client is page-aligned, within the limit, and large
    enough for the headers, the paddings and every queue at its full 32-bit
    size; the number of queues is 1 or 2, and the Tx index range fits in 32
    bits. *)
Theorem parse_type_spec u dt page default_entries desc desc' :
  dtree_ok dt -> headers_ok u -> page_ok page -> is_word 32 default_entries -> desc_initial desc ->
  _parse_client_queue_dt_props_indv u dt page default_entries desc = Some (0, desc') ->
  HW_FENCE_HFI_CLIENT_HEADERS_SIZE u (td_queues_num desc') + start_padding desc'
    + end_padding desc' <= U32_MAX_PAGE page ->
  type_ok u page desc'.
Proof.
  intros Hdt Hhead Hpage Hdef Hinit H Hsum. unfold _parse_client_queue_dt_props_indv in H.
  destruct (read_type dt default_entries desc) as [[d1|]|] eqn:Hread; cbn [mbind option_bind] in H;
    [|done..].
  destruct (read_type_spec dt default_entries Hdt _ _ Hread Hdef Hinit) as (Hinit1&_&_&_&Hent).
  destruct (type_invalid d1) eqn:Hinv; [done|].
  apply orb_false_iff in Hinv as [Hinv He0]. apply orb_false_iff in Hinv as [Hinv Hq2].
  apply orb_false_iff in Hinv as [Hmax Hq0].
  apply negb_false_iff, truthy_true in He0. apply negb_false_iff, truthy_true in Hq0.
  pose proof Hinit1 as [Hc Hq _ _ _ _]. unfold HW_FENCE_CLIENT_QUEUES, is_word in *.
  destruct (_parse_client_queue_dt_props_extra u dt d1) as [[ret d2]|] eqn:Hex; [|done].
  cbn [mbind option_bind] in H. destruct (truthy ret) eqn:Hret; [done|]. apply truthy_false in Hret as ->.
  destruct (extra_spec u dt Hdt Hhead d1 d2 Hex Hinit1 ltac:(lia) Hent) as [Hframe Hextra].
  destruct (compute_mem_size u page d2) as [mem|] eqn:Hmem; [|done]. injection H as <-.
  destruct Hframe as (_&_&Hfm&Hfc&Hfq&Hfe&_&_). pose proof Hextra as [Hs Hend Hidx _ _ _].
  cbn [upd td_queues_num start_padding end_padding] in Hsum. unfold is_word in *.
  destruct (compute_mem_size_spec u page Hhead d2 mem Hpage Hmem) as (Hfit&Hal&Hlim&Hen); try lia.
  split; cbn; unfold HW_FENCE_CLIENT_QUEUES, HW_FENCE_CLIENT_QUEUE_PAYLOAD, sizeof_payload; try lia.
  destruct Hextra. by split.
Qed.

(** A device tree that answers one array property and its "extra" property. *)
Definition sample_dtree (cells extra : list Z) : device_tree := {|
  of_property_read_u32 := fun name =>
    if String.eqb name "qcom,hw-fence-table-entries" then (0, 16)
    else if String.eqb name "qcom,hw-fence-queue-entries" then (0, 8)
    else if String.eqb name "qcom,hw-fence-ipc-ver" then (0, HW_FENCE_IPCC_HW_REV_203)
    else (- EINVAL, 0);
  of_property_read_u32_array := fun name n =>
    if String.eqb name "qcom,hw-fence-client-type-gpu" then
      if n =? zlen cells then (0, cells) else (- EINVAL, [])
    else if String.eqb name "qcom,hw-fence-client-type-gpu-extra" then
      if n =? zlen extra then (0, extra) else (- EINVAL, [])
    else (- EINVAL, []);
  of_property_count_u32_elems := fun name =>
    if String.eqb name "qcom,hw-fence-client-type-gpu-extra" then zlen extra else - EINVAL;
  of_property_read_bool := fun name =>
    String.eqb name "qcom,hw-fence-client-type-gpu-extra" && negb (Nat.eqb (length extra) 0);
|}.

Lemma sample_dtree_ok cells extra :
  Forall (is_word 32) cells -> Forall (is_word 32) extra -> dtree_ok (sample_dtree cells extra).
Proof.
  intros Hc He name n l. cbn. destruct (String.eqb _ _); [|destruct (String.eqb _ _); [|done]].
  - destruct (Z.eqb_spec n (zlen cells)); [|done]. intros [= <-]. done.
  - destruct (Z.eqb_spec n (zlen extra)); [|done]. intros [= <-]. done.
Qed.

Definition gpu_type : hw_fence_client_type_desc :=
  client_type "gpu" 1 1 1 HW_FENCE_CLIENT_QUEUES false.

Lemma gpu_type_initial : desc_initial gpu_type.
Proof. by split. Qed.

Lemma sample_headers_ok : headers_ok sample_uapi.
Proof. by split. Qed.

Lemma sample_page_ok : page_ok 4096.
Proof. by exists 12. Qed.

Definition parsed_gpu : hw_fence_client_type_desc :=
  mkTypeDesc "gpu" 1 1 1 2 8 8 8 4096 100 16 false.

Lemma parse_type_spec_witness : type_ok sample_uapi 4096 parsed_gpu.
Proof.
  apply (parse_type_spec sample_uapi (sample_dtree [1; 2; 8; 0] [8; 8; 100; 1]) 4096 8 gpu_type).
  - apply sample_dtree_ok; repeat constructor; done.
  - exact sample_headers_ok.
  - exact sample_page_ok.
  - done.
  - exact gpu_type_initial.
  - vm_compute. reflexivity.
  - by vm_compute.
Defined.

(** the overflow test of the memory size is itself subject to overflow: a
    start padding of 0xfffff000 makes the 64-bit difference wrap, the type is
    accepted, and the computed memory of a client with one queue of 64 bytes
    is 0 bytes. *)
Theorem padding_overflow_accepted :
  exists desc', _parse_client_queue_dt_props_indv sample_uapi
      (sample_dtree [1; 1; 1; 0] [4294963200; 0]) 4096 8 gpu_type = Some (0, desc') /\
    queue_entries desc' = 1 /\ td_queues_num desc' = 1 /\ mem_size desc' = 0.
Proof.
  exists (mkTypeDesc "gpu" 1 1 1 1 1 4294963200 0 0 0 0 false). split; [|done].
  vm_compute. reflexivity.
Qed.

(** The region of a client, when it lies in the carved-out memory. *)
Lemma reserve_client_run d client_id desc start :
  client_desc d client_id = Some (desc, start) -> client_id < clients_num d ->
  0 <= start -> 0 <= mem_size desc -> start + mem_size desc <= size d -> size d < 2 ^ 32 ->
  hw_fence_utils_reserve_mem HW_FENCE_MEM_RESERVE_CLIENT_QUEUE client_id d
  = Done (inr (u64 (res_start d + start), start, mem_size desc), d).
Proof.
  intros Hdesc Hid Hs Hm Hin Hsize.
  unfold hw_fence_utils_reserve_mem. rewrite getM_run. unfold reserve_region.
  destruct (clients_num d <=? client_id) eqn:Hle; [lia|]. rewrite Hdesc.
  rewrite wrap_small by (unfold is_word; lia). destruct (size d <? _) eqn:Hlt; [lia|]. done.
Qed.

(** The queues of a client of a parsed type hold what the memory held, one
    behind the other inside the client's region. *)
Lemma init_client_queues_run d client_id desc start (held : Z -> list queue_payload) :
  headers_ok (uapi d) -> type_ok (uapi d) (PAGE_SIZE d) desc ->
  client_desc d client_id = Some (desc, start) -> client_id < clients_num d ->
  0 <= start -> start + mem_size desc <= size d -> size d < 2 ^ 32 ->
  (forall i, 0 <= i < td_queues_num desc -> region_holds d desc start i (held i)) ->
  exists qs,
    init_hw_fences_queues HW_FENCE_MEM_RESERVE_CLIENT_QUEUE [zero_queue; zero_queue]
      (td_queues_num desc) client_id d
    = Done (inr qs, foldr put_header d (take (Z.to_nat (td_queues_num desc)) qs)) /\
    forall i, 0 <= i < td_queues_num desc ->
    exists queue, zget qs i = Some queue /\
      queue_repr queue (held i) /\ write_index_valid queue /\ (0 < i -> skip_wr_idx queue = false) /\
      capacity queue = Z.to_nat (queue_entries desc) /\
      va_queue queue = words_off d desc start i /\ va_header_off queue = header_off d desc start i /\
      pa_queue queue = u64 (u64 (res_start d + start) + (words_off d desc start i - start)) /\
      words_off d desc start i + q_size_bytes queue <= start + mem_size desc.
Proof.
  intros Hhead Hok Hdesc Hid Hs Hin Hsize Hheld.
  pose proof Hok as [_ Hq He [Hps Hpe _ _ _ _] _ Hm Hf].
  pose proof (headers_small (uapi d) (td_queues_num desc) Hhead
    ltac:(unfold HW_FENCE_CLIENT_QUEUES in Hq; lia)) as [_ Hh].
  unfold HW_FENCE_CLIENT_QUEUES, HW_FENCE_CLIENT_QUEUE_PAYLOAD, sizeof_payload,
    MAX_CLIENT_QUEUE_MEM_SIZE, is_word in *.
  unfold init_hw_fences_queues. rewrite getM_run. unfold get_queue_params.
  destruct (clients_num d <=? client_id) eqn:Hle; [lia|]. rewrite Hdesc.
  fold (client_queue_params d desc).
  rewrite (bind_run _ _ _ _ _ (reserve_client_run d client_id desc start Hdesc Hid Hs ltac:(nia) Hin Hsize)).
  replace (zlen [zero_queue; zero_queue]) with 2 by done.
  destruct (2 <? td_queues_num desc) eqn:Hlt; [lia|]. rewrite modify_run.
  eexists. split; [reflexivity|]. intros i Hi.
  exists (init_one_queue d (client_queue_params d desc) (u64 (res_start d + start)) start i zero_queue).
  destruct (init_one_queue_holds d desc (u64 (res_start d + start)) start Hhead Hok i (held i) Hi (Hheld i Hi))
    as (Hrepr&Hwiv&Hcap&Hsk&Hsz).
  split; [|split; [exact Hrepr|split; [exact Hwiv|split; [|split; [exact Hcap|]]]]].
  - rewrite zget_to_nat by lia. rewrite list_lookup_imap.
    assert (Hz : [zero_queue; zero_queue] !! Z.to_nat i = Some zero_queue)
      by (assert (i = 0 \/ i = 1) as [-> | ->] by lia; done).
    rewrite Hz. cbn [fmap option_fmap option_map]. rewrite Z2Nat.id by lia.
    by destruct (i <? td_queues_num desc) eqn:?; [|lia].
  - intros Hpos. rewrite Hsk. unfold IS_HW_FENCE_TX_QUEUE, HW_FENCE_TX_QUEUE.
    by destruct (i =? 1 - 1) eqn:?; [lia|].
  - rewrite Hsz, init_one_queue_eq by (done || lia). split; [done|]. split; [done|]. split; [done|].
    unfold words_off. nia.
Qed.

(** A driver whose carved-out memory holds one client of the type above. *)
Definition sample_layout : hw_fence_driver_data :=
  (zero_drv sample_uapi empty_dtree)
    <| hw_fence_client_types := [parsed_gpu] |> <| clients_num := 2 |>
    <| hw_fence_client_queue_size := [None; Some (mkQueueDesc 0 4096)] |>
    <| res_start := 2147483648 |> <| size := 65536 |>.

Lemma parsed_gpu_ok : type_ok sample_uapi 4096 parsed_gpu.
Proof.
  split; try (by vm_compute); try (cbn; unfold HW_FENCE_CLIENT_QUEUES; lia).
  split; try (by vm_compute); cbn; unfold is_word; lia.
Qed.

(** ** What the initialisation steps leave alone *)

Ltac keep_same := keep; try (by unfold same).

Lemma keeps_reserve {R : hw_fence_driver_data -> hw_fence_driver_data -> Prop} `{!PreOrder R} t c :
  keeps R (hw_fence_utils_reserve_mem t c).
Proof. unfold hw_fence_utils_reserve_mem. keep. Qed.
#[export] Hint Resolve keeps_reserve : keeps.

Section InitKeeps.
Context {T : Type} (f : hw_fence_driver_data -> T).

(** Fields that [g] does not change. *)
Definition stable (g : hw_fence_driver_data -> hw_fence_driver_data) : Prop := forall d, f (g d) = f d.

Lemma put_headers_same qs d :
  (forall d v, f (d <| carve_header := v |>) = f d) -> f (foldr put_header d qs) = f d.
Proof.
  intros H. induction qs as [|q qs IH]; [done|]. cbn [foldr]. unfold put_header at 1.
  destruct (va_header q) as [h|]; [|done].
  exact (eq_trans (H _ (put_at (va_header_off q) h (carve_header _))) IH).
Qed.

Lemma keeps_init_queues r qs n c :
  (forall d v, f (d <| carve_header := v |>) = f d) -> keeps (same f) (init_hw_fences_queues r qs n c).
Proof. intros H. unfold init_hw_fences_queues. keep. by apply put_headers_same. Qed.

Lemma keeps_events :
  (forall d v, f (d <| total_events := v |>) = f d) -> keeps (same f) init_hw_fences_events.
Proof. intros H. unfold init_hw_fences_events. keep. apply H. Qed.

Lemma keeps_ctrl_queue :
  (forall d v, f (d <| ctrl_queues := v |>) = f d) -> (forall d v, f (d <| carve_header := v |>) = f d) ->
  keeps (same f) init_ctrl_queue.
Proof.
  intros H Hh. unfold init_ctrl_queue. pose proof (fun r qs n c => keeps_init_queues r qs n c Hh). keep. apply H.
Qed.

Lemma keeps_locks :
  (forall d v w, f (d <| client_lock_tbl := v |> <| client_lock_tbl_cnt := w |>) = f d) ->
  keeps (same f) init_global_locks.
Proof. intros H. unfold init_global_locks. keep. apply H. Qed.

Lemma keeps_alloc env :
  (forall d v, f (d <| res_start := v |>) = f d) -> (forall d v, f (d <| size := v |>) = f d) ->
  (forall d n, f (memset_io n d) = f d) -> keeps (same f) (hw_fence_utils_alloc_mem env).
Proof. intros Hr Hs Hm. unfold hw_fence_utils_alloc_mem. keep; first [apply Hr|apply Hs|apply Hm]. Qed.

End InitKeeps.

(** What the tables are at the end, and the sizes they are made from. *)
Definition obs_table (d : hw_fence_driver_data) :=
  (hw_fence_table_entries d, hw_fences_tbl d, hw_fences_tbl_cnt d).
Definition obs_locks (d : hw_fence_driver_data) := (client_lock_tbl d, client_lock_tbl_cnt d).
Definition obs_sizes (d : hw_fence_driver_data) :=
  (hw_fence_table_entries d, hw_fence_mem_fences_table_size d).

Lemma keeps_kzalloc {T} (f : hw_fence_driver_data -> T) :
  (forall d v, f (d <| kzallocs := v |>) = f d) -> keeps (same f) kzalloc.
Proof. intros H d a d' [= <- <-]. apply H. Qed.

Section ParseKeeps.
Context {T : Type} (f : hw_fence_driver_data -> T).
Context (Hkz : forall d v, f (d <| kzallocs := v |>) = f d).
Context (Hty : forall d v, f (d <| hw_fence_client_types := v |>) = f d).
Context (Hrx : forall d v, f (d <| rxq_clients_num := v |>) = f d).
Context (Hcn : forall d v, f (d <| clients_num := v |>) = f d).
Context (Hqs : forall d v, f (d <| hw_fence_client_queue_size := v |>) = f d).
Context (Hum : forall d v, f (d <| used_mem_size := v |>) = f d).

Lemma keeps_parse_types idxs : forall n, keeps (same f) (parse_types idxs n).
Proof using Hty Hrx.
  induction idxs as [|i idxs IH]; intros n; cbn [parse_types]; unfold put_client_type; keep;
    first [apply Hty|apply Hrx|apply IH].
Qed.

Lemma keeps_place_clients js : forall t desc start, keeps (same f) (place_clients js t desc start).
Proof using Hqs.
  induction js as [|j js IH]; intros t desc start; cbn [place_clients]; keep; first [apply Hqs|apply IH].
Qed.

Lemma keeps_place_types idxs : forall start, keeps (same f) (place_types idxs start).
Proof using Hqs.
  pose proof keeps_place_clients.
  induction idxs as [|i idxs IH]; intros start; cbn [place_types]; keep; apply IH.
Qed.

Lemma keeps_parse_client_props : keeps (same f) _parse_client_queue_dt_props.
Proof using Hkz Hty Hrx Hcn Hqs Hum.
  pose proof keeps_parse_types. pose proof keeps_place_types. pose proof (keeps_kzalloc f Hkz).
  unfold _parse_client_queue_dt_props. keep; first [apply Hty|apply Hrx|apply Hcn|apply Hqs|apply Hum].
Qed.

End ParseKeeps.

Section IpcKeeps.
Context {T : Type} (f : hw_fence_driver_data -> T).
Context (Hkz : forall d v, f (d <| kzallocs := v |>) = f d).
Context (Hipc : forall d v, f (d <| ipc_clients_table := v |>) = f d).
Context (Hvid : forall d v, f (d <| ipcc_client_vid := v |>) = f d).
Context (Hpid : forall d v, f (d <| ipcc_client_pid := v |>) = f d).
Context (Hpro : forall d v, f (d <| protocol_id := v |>) = f d).
Context (Hev : forall d v, f (d <| events := v |>) = f d).

Lemma keeps_emit e : keeps (same f) (emit e).
Proof using Hev. unfold emit. keep. apply Hev. Qed.

Lemma keeps_map_subclients js : forall b m, keeps (same f) (map_subclients js b m).
Proof using Hipc.
  induction js as [|j js IH]; intros b m; cbn [map_subclients]; unfold put_ipc_entry; keep;
    first [apply Hipc|apply IH].
Qed.

Lemma keeps_map_types idxs : forall b m, keeps (same f) (map_types idxs b m).
Proof using Hipc.
  pose proof keeps_map_subclients.
  induction idxs as [|i idxs IH]; intros b m; cbn [map_types]; keep; apply IH.
Qed.

Lemma keeps_map_ipcc env : keeps (same f) (hw_fence_utils_map_ipcc env).
Proof using Hkz Hipc Hvid Hpid Hpro Hev.
  pose proof keeps_map_types. pose proof (keeps_kzalloc f Hkz). pose proof keeps_emit.
  unfold hw_fence_utils_map_ipcc, hw_fence_ipcc_enable_signaling, _hw_fence_ipcc_hwrev_init,
    _hw_fence_ipcc_init_map_with_configurable_clients.
  keep; unfold same; rewrite ?Hipc, ?Hpro, ?Hpid, ?Hvid; done.
Qed.

End IpcKeeps.

Lemma or_exit_inv m k d d' :
  or_exit m k d = Done (0, d') -> exists d1, m d = Done (0, d1) /\ k d1 = Done (0, d').
Proof.
  unfold or_exit. intros H. apply bind_inv in H as (ret&d1&Hm&H).
  destruct (truthy ret) eqn:Hr.
  - injection H as -> ->. done.
  - apply truthy_false in Hr as ->. by exists d1.
Qed.

(** The sizes the parser of the device tree leaves behind. *)
Lemma parse_dt_sizes d d' val :
  of_property_read_u32 (dtree d) "qcom,hw-fence-table-entries" = (0, val) -> val <> 0 ->
  0 <= val ->
  hw_fence_utils_parse_dt_props d = Done (0, d') ->
  obs_sizes d' = (val, sizeof_msm_hw_fence * val) /\ val < U32_MAX / sizeof_msm_hw_fence.
Proof.
  intros Hval Hnz Hpos H. unfold hw_fence_utils_parse_dt_props in H. run_inv H. rewrite Hval in H.
  cbn [truthy] in H. assert (truthy 0 || negb (truthy val) = false) as Hb by (unfold truthy; lia).
  rewrite Hb in H. run_inv H. destruct (U32_MAX / sizeof_msm_hw_fence <=? val) eqn:Hlt; [done|].
  split; [|lia]. run_inv H.
  change (U32_MAX / sizeof_msm_hw_fence) with 26843545 in Hlt.
  assert (Hs : u32 (sizeof_msm_hw_fence * val) = sizeof_msm_hw_fence * val)
    by (apply wrap_small; unfold is_word, sizeof_msm_hw_fence; lia).
  rewrite Hs in H.
  match type of H with ?m ?s = _ =>
    assert (Hobs : obs_sizes s = (val, sizeof_msm_hw_fence * val)) by done;
    assert (Hk : keeps (same obs_sizes) m); [|specialize (Hk _ _ _ H); unfold same in Hk; congruence]
  end.
  pose proof (keeps_parse_client_props obs_sizes). pose proof (keeps_kzalloc obs_sizes).
  keep; try done; auto.
Qed.

Lemma reserve_inv t c d r d' :
  hw_fence_utils_reserve_mem t c d = Done (r, d') ->
  d' = d /\ (r = inl (- ENOMEM) \/
    match reserve_region d t c with
    | inl err => r = inl err
    | inr (start, sz) => r = inr (u64 (res_start d + start), start, sz) /\ u32 (start + sz) <= size d
    end).
Proof.
  unfold hw_fence_utils_reserve_mem. rewrite getM_run.
  destruct (reserve_region d t c) as [err|[start sz]].
  - intros [= <- <-]. auto.
  - destruct (size d <? _) eqn:Hlt; intros [= <- <-]; [by auto|]. split; [done|]. right. split; [done|lia].
Qed.

Lemma init_table_inv d d' :
  init_hw_fences_table d = Done (0, d') ->
  let base := u32 (hw_fence_mem_ctrl_queues_size d + HW_FENCE_MEM_LOCKS_SIZE (rxq_clients_num d)) in
  let n := hw_fence_mem_fences_table_size d / sizeof_msm_hw_fence in
  u32 (base + hw_fence_mem_fences_table_size d) <= size d /\
  d' = d <| hw_fences_tbl := carve_array (carve_fence d) sizeof_msm_hw_fence base n |>
         <| hw_fences_tbl_cnt := n |>.
Proof.
  unfold init_hw_fences_table. intros H. apply bind_inv in H as (r&d1&Hr&H).
  apply reserve_inv in Hr as [-> [->|Hr]]; [done|]. cbn [reserve_region] in Hr. destruct Hr as [-> Hsz].
  run_inv H. injection H as <-. done.
Qed.

Lemma init_locks_inv d d' :
  init_global_locks d = Done (0, d') ->
  let base := hw_fence_mem_ctrl_queues_size d in
  let sz := u32 (sizeof_u64 * rxq_clients_num d) in
  u32 (base + sz) <= size d /\
  d' = d <| client_lock_tbl := carve_array (carve_lock d) sizeof_u64 base (sz / sizeof_u64) |>
         <| client_lock_tbl_cnt := sz / sizeof_u64 |>.
Proof.
  unfold init_global_locks. intros H. apply bind_inv in H as (r&d1&Hr&H).
  apply reserve_inv in Hr as [-> [->|Hr]]; [done|]. cbn [reserve_region] in Hr. destruct Hr as [-> Hsz].
  run_inv H. injection H as <-. done.
Qed.

(** A successful allocation clears the memory. *)
Lemma alloc_mem_inv env d d' :
  hw_fence_utils_alloc_mem env d = Done (0, d') ->
  exists start sz, d' = memset_io sz (d <| res_start := start |> <| size := sz |>).
Proof.
  unfold hw_fence_utils_alloc_mem. destruct (negb (ie_mem_node env)); [done|].
  destruct (truthy (ie_label env)) eqn:Hl; [intros [= Hl' _]; by rewrite Hl' in Hl|].
  destruct (negb (ie_shared_buffer env)); [done|]. destruct (ie_address env) as [ret [start sz]].
  destruct (truthy ret); [done|]. rewrite modify_run. destruct (negb (ie_ioremap env)); [done|].
  rewrite modify_run, getM_run. destruct (_ <? _); [done|]. rewrite modify_run.
  destruct (truthy (ie_notifier env)); [done|]. intros [= <-]. by exists start, sz.
Qed.

(** The headers of the control queues are the only ones the driver writes before
    a client registers. *)
Definition ctrl_header_off (u : hw_uapi) (i : Z) : Z :=
  HW_FENCE_HFI_TABLE_HEADER_SIZE u + i * HW_FENCE_HFI_QUEUE_HEADER_SIZE u.

Lemma put_headers_other qs off : forall d,
  Forall (fun q => va_header_off q <> off) qs -> carve_header (foldr put_header d qs) off = carve_header d off.
Proof.
  induction qs as [|q qs IH]; intros d Hq; [done|]. inversion_clear Hq as [|? ? Hne Hqs]. cbn [foldr].
  rewrite <- (IH d Hqs). unfold put_header at 1. destruct (va_header q); [|done]. cbn. unfold put_at.
  by replace (off =? va_header_off q) with false by lia.
Qed.

Lemma ctrl_queue_headers d r d' off :
  init_ctrl_queue d = Done (r, d') -> off <> ctrl_header_off (uapi d) 0 -> off <> ctrl_header_off (uapi d) 1 ->
  carve_header d' off = carve_header d off.
Proof.
  unfold init_ctrl_queue. rewrite getM_run. intros H H0 H1. apply bind_inv in H as (rq&d1&Hq&H).
  transitivity (carve_header d1 off); [by destruct rq; [injection H as _ <-|injection H as _ <-]|].
  unfold init_hw_fences_queues in Hq. rewrite getM_run in Hq. cbn [get_queue_params] in Hq.
  apply bind_inv in Hq as (rr&d2&Hr&Hq). apply reserve_inv in Hr as [-> [->|[-> _]]];
    [by injection Hq as _ <-|].
  destruct (zlen (ctrl_queues d) <? HW_FENCE_CTRL_QUEUES); [done|]. rewrite modify_run in Hq.
  injection Hq as _ <-. apply put_headers_other. apply list.Forall_forall. intros q Hin.
  apply list_elem_of_lookup in Hin as [k Hk]. apply lookup_take_Some in Hk as [Hk Hlt].
  rewrite list_lookup_imap in Hk. destruct (ctrl_queues d !! k) as [old|]; [|done].
  unfold HW_FENCE_CTRL_QUEUES in *. injection Hk as <-.
  replace (Z.of_nat k <? 2) with true by lia. unfold init_one_queue. cbn [va_header_off qp_start_padding].
  assert (k = 0%nat \/ k = 1%nat) as [-> | ->] by lia; unfold ctrl_header_off in *; lia.
Qed.

(** What the memory is after the control queues. *)
Definition obs_carve (d : hw_fence_driver_data) := (carve_word d, carve_fence d, carve_lock d).
Definition obs_tables (d : hw_fence_driver_data) :=
  (hw_fences_tbl d, hw_fences_tbl_cnt d, client_lock_tbl_cnt d, client_lock_tbl d).
Definition obs_layout (d : hw_fence_driver_data) :=
  (uapi d, size d, hw_fence_mem_ctrl_queues_size d, rxq_clients_num d).

Lemma carve_array_eq {A} (view : Z -> A) sz base n z :
  (forall k, 0 <= k < n -> view (base + sz * k) = z) ->
  carve_array view sz base n = replicate (Z.to_nat n) z.
Proof.
  intros H. unfold carve_array. apply list_eq_same_length with (n := Z.to_nat n);
    rewrite ?length_map, ?length_seq, ?length_replicate; [done..|]. intros i x y Hi Hx Hy.
  apply lookup_replicate in Hy as [-> _]. rewrite list_lookup_fmap in Hx.
  rewrite lookup_seq_lt in Hx by done. injection Hx as <-. apply H. lia.
Qed.

(** The steps after the table are stable for the table and the locks. *)
Lemma keeps_after_table {T} (f : hw_fence_driver_data -> T) env :
  keeps (same f) init_hw_fences_events -> keeps (same f) (hw_fence_utils_map_ipcc env) ->
  keeps (same f)
    (init_hw_fences_events ;;
     or_exit (hw_fence_utils_map_ipcc env) (
     or_exit (mret (ie_map_qtime env)) (
     or_exit (mret (ie_debugfs env)) (
     or_exit (mret (ie_virq env)) (
     mret 0))))).
Proof. intros He Hm. unfold or_exit. keep. Qed.

Lemma keeps_fence_table {T} (f : hw_fence_driver_data -> T) :
  (forall d v w, f (d <| hw_fences_tbl := v |> <| hw_fences_tbl_cnt := w |>) = f d) ->
  keeps (same f) init_hw_fences_table.
Proof. intros H. unfold init_hw_fences_table. keep. apply H. Qed.

(** The sizes of the control queues, the locks and the table, in 32 bits: the
    parser of the device tree does not check their sum. *)
Definition tables_fit (d : hw_fence_driver_data) (val : Z) : Prop :=
  0 <= hw_fence_mem_ctrl_queues_size d /\ 0 <= rxq_clients_num d /\
  hw_fence_mem_ctrl_queues_size d + HW_FENCE_MEM_LOCKS_SIZE (rxq_clients_num d)
    + sizeof_msm_hw_fence * val < 2 ^ 32.

(** The states of a successful initialisation: after the parser, the control
    queues, the locks and the table. *)
Lemma hw_fence_init_inv env d d' :
  hw_fence_init env d = Done (0, d') ->
  exists d1 start sz d3 d4 d5, let d2 := memset_io sz (d1 <| res_start := start |> <| size := sz |>) in
    hw_fence_utils_parse_dt_props d = Done (0, d1) /\ init_ctrl_queue d2 = Done (0, d3) /\
    init_global_locks d3 = Done (0, d4) /\ init_hw_fences_table d4 = Done (0, d5) /\
    forall T (f : hw_fence_driver_data -> T),
      keeps (same f) init_hw_fences_events -> keeps (same f) (hw_fence_utils_map_ipcc env) -> f d' = f d5.
Proof.
  unfold hw_fence_init. intros H.
  apply or_exit_inv in H as (d1&Hparse&H). apply or_exit_inv in H as (d2&Halloc&H).
  apply or_exit_inv in H as (d3&Hctrl&H). apply or_exit_inv in H as (d4&Hlocks&H).
  apply or_exit_inv in H as (d5&Htable&H). apply alloc_mem_inv in Halloc as (start&sz&->).
  exists d1, start, sz, d3, d4, d5. do 4 (split; [done|]).
  intros T f He Hm. exact (keeps_after_table f env He Hm _ _ _ H).
Qed.

Lemma clear_view_at {A} sz (z : A) view off : 0 <= off < sz -> clear_view sz z view off = z.
Proof. intros H. unfold clear_view. by replace ((0 <=? off) && (off <? sz)) with true by lia. Qed.

(** In memory that is cleared, the locks and the table are. *)
Lemma locks_table_zero d3 d4 d5 val fv lv :
  carve_fence d3 = clear_view (size d3) zero_fence fv -> carve_lock d3 = clear_view (size d3) 0 lv ->
  hw_fence_mem_fences_table_size d3 = sizeof_msm_hw_fence * val -> tables_fit d3 val -> 0 <= val ->
  init_global_locks d3 = Done (0, d4) -> init_hw_fences_table d4 = Done (0, d5) ->
  hw_fences_tbl d5 = replicate (Z.to_nat val) zero_fence /\ hw_fences_tbl_cnt d5 = val /\
  client_lock_tbl_cnt d5 = rxq_clients_num d3 /\
  client_lock_tbl d5 = replicate (Z.to_nat (rxq_clients_num d3)) 0.
Proof.
  intros Hf Hl Hm (Hc&Hr&Hsum) Hv [Hle ->]%init_locks_inv [Hle' ->]%init_table_inv.
  unfold HW_FENCE_MEM_LOCKS_SIZE, sizeof_u64 in *.
  cbn [hw_fence_mem_fences_table_size hw_fence_mem_ctrl_queues_size rxq_clients_num size carve_fence carve_lock
    hw_fences_tbl hw_fences_tbl_cnt client_lock_tbl client_lock_tbl_cnt upd] in *.
  unfold sizeof_msm_hw_fence in *. rewrite Hm in *.
  rewrite (wrap_small 32 (8 * _)) in * by (unfold is_word; lia).
  rewrite (wrap_small 32 (hw_fence_mem_ctrl_queues_size d3 + 8 * _)) in * by (unfold is_word; lia).
  rewrite (wrap_small 32 (_ + 160 * val)) in Hle' by (unfold is_word; lia).
  rewrite (Z.mul_comm 160), (Z.mul_comm 8), !Z.div_mul by lia.
  split; [|split; [done|split; [done|]]]; apply carve_array_eq; intros k Hk;
    [rewrite Hf|rewrite Hl]; apply clear_view_at; lia.
Qed.

Ltac init_keeps f env := first
  [ apply (keeps_events f); done | apply (keeps_map_ipcc f); done | apply (keeps_fence_table f); done
  | apply (keeps_locks f); done | apply (keeps_ctrl_queue f); done ].

(** C36: when the initialisation of the driver succeeds, with a non-zero number
    of table entries in the device tree and tables whose sizes add up to less
    than 2^32, then whatever the carved-out memory held before, the table the
    lookup works on is well-formed: it has exactly the configured number of
    entries, the two counts the driver keeps agree, every entry is free and
    unlocked; there is a free lock for every client with an Rx queue; and in the
    rest of the memory every word is zero, and every header but those of the two
    control queues. *)
Theorem hw_fence_init_spec env d d' val :
  of_property_read_u32 (dtree d) "qcom,hw-fence-table-entries" = (0, val) ->
  val <> 0 -> is_word 32 val ->
  hw_fence_init env d = Done (0, d') -> tables_fit d' val ->
  table_ok d' /\ hw_fence_table_entries d' = val /\ hw_fences_tbl_cnt d' = val /\
  hw_fences_tbl d' = replicate (Z.to_nat val) zero_fence /\
  client_lock_tbl_cnt d' = rxq_clients_num d' /\
  client_lock_tbl d' = replicate (Z.to_nat (rxq_clients_num d')) 0 /\
  forall off, 0 <= off < size d' -> carve_word d' off = 0 /\
    (off <> ctrl_header_off (uapi d') 0 -> off <> ctrl_header_off (uapi d') 1 ->
     carve_header d' off = zero_header).
Proof.
  intros Hval Hnz Hword H Hfit.
  apply hw_fence_init_inv in H as (d1&start&sz&d3&d4&d5&Hparse&Hctrl&Hlocks&Htable&Hafter).
  set (d2 := memset_io _ _) in Hctrl.
  destruct (parse_dt_sizes d d1 val Hval Hnz (proj1 Hword) Hparse) as [Hsizes Hlt].
  assert (Hkeep : forall T (f : hw_fence_driver_data -> T), keeps (same f) init_global_locks ->
    keeps (same f) init_hw_fences_table -> keeps (same f) init_hw_fences_events ->
    keeps (same f) (hw_fence_utils_map_ipcc env) -> f d' = f d3).
  { intros T f Hl Ht He Hm. rewrite (Hafter T f He Hm). rewrite (Ht _ _ _ Htable). exact (Hl _ _ _ Hlocks). }
  assert (Hs3 : obs_sizes d3 = (val, sizeof_msm_hw_fence * val)).
  { rewrite <- Hsizes. apply (keeps_ctrl_queue obs_sizes ltac:(done) ltac:(done) _ _ _ Hctrl). }
  assert (Hc3 : obs_carve d3 = obs_carve d2) by exact (keeps_ctrl_queue obs_carve ltac:(done) ltac:(done) _ _ _ Hctrl).
  assert (Hl3 : obs_layout d3 = obs_layout d2) by exact (keeps_ctrl_queue obs_layout ltac:(done) ltac:(done) _ _ _ Hctrl).
  assert (HcF : obs_carve d' = obs_carve d3) by (apply Hkeep; init_keeps obs_carve env).
  assert (HlF : obs_layout d' = obs_layout d3) by (apply Hkeep; init_keeps obs_layout env).
  assert (HhF : carve_header d' = carve_header d3) by (apply Hkeep; init_keeps carve_header env).
  assert (HeF : hw_fence_table_entries d' = hw_fence_table_entries d3)
    by (apply Hkeep; init_keeps hw_fence_table_entries env).
  assert (Ht5 : obs_tables d' = obs_tables d5) by (apply Hafter; init_keeps obs_tables env).
  unfold obs_sizes in Hs3. injection Hs3 as He3 Hm3. unfold obs_carve in Hc3, HcF.
  injection Hc3 as Hw3 Hf3 Hk3. injection HcF as HwF _ _. unfold obs_layout in Hl3, HlF.
  injection Hl3 as Hu3 Hz3 _ _. injection HlF as HuF HzF HxF HrF.
  unfold tables_fit in Hfit. rewrite HxF, HrF in Hfit. unfold is_word in Hword.
  destruct (locks_table_zero d3 d4 d5 val (carve_fence d1) (carve_lock d1)) as (Ht&Hn&Hlc&Hlt5);
    rewrite ?Hz3; try done; [lia|]. unfold obs_tables in Ht5. injection Ht5 as HtF HnF HkF HlF'.
  change (U32_MAX / sizeof_msm_hw_fence) with 26843545 in Hlt.
  rewrite HtF, HnF, HkF, HlF', HeF, HrF, Hlc, He3. split_and!; try done.
  - split; rewrite ?HtF, ?Ht, ?HeF, ?He3; unfold zlen; rewrite ?length_replicate; try lia.
    by apply Forall_replicate.
  - intros off Hoff. rewrite HzF, Hz3 in Hoff. rewrite HwF, Hw3, HhF, HuF, Hu3. split; [by apply clear_view_at|].
    intros H0 H1. rewrite (ctrl_queue_headers d2 _ d3 off Hctrl H0 H1). by apply clear_view_at.
Qed.

(** A complete initialisation: 16 table entries, 8 queue entries, one GPU
    client, 1 MB of carved-out memory that is not zero. *)
Definition sample_boot (table_entries : Z) : hw_fence_driver_data :=
  let dt := sample_dtree [1; 2; 8; 0] [] in
  (zero_drv sample_uapi
     {| of_property_read_u32 := fun name =>
          if String.eqb name "qcom,hw-fence-table-entries" then (0, table_entries)
          else of_property_read_u32 dt name;
        of_property_read_u32_array := of_property_read_u32_array dt;
        of_property_count_u32_elems := of_property_count_u32_elems dt;
        of_property_read_bool := of_property_read_bool dt |})
    <| hw_fence_client_types := initial_client_types sample_uapi |>
    <| ctrl_queues := [zero_queue; zero_queue] |>
    <| carve_word := fun off => off + 1 |> <| carve_lock := fun _ => 1 |>
    <| carve_fence := fun off => new_fence off 1 1 1 1 1 |>
    <| carve_header := fun off => mkHfiHeader 1 1 1 1 off 1 1 |>.

Definition sample_env : init_env := mkInitEnv true 0 true (0, (2147483648, 1048576)) true 0 0 0 0 0.

Lemma run_value {A St} (m : M St A) s a :
  value (m s) = Some a -> exists s', m s = Done (a, s').
Proof. destruct (m s) as [[b s']|]; [intros [= ->]; by eexists|done]. Qed.

Lemma run_gets {A B St} (m : M St A) (f : St -> B) s a b :
  value ((x ← m; y ← gets f; mret (x, y)) s) = Some (a, b) -> exists s', m s = Done (a, s') /\ f s' = b.
Proof.
  unfold mbind, M_bind. destruct (m s) as [[a' s']|]; [|done]. intros [= -> <-]. by eexists.
Qed.

Lemma hw_fence_init_spec_witness :
  exists d', hw_fence_init sample_env (sample_boot 16) = Done (0, d') /\
    table_ok d' /\ hw_fence_table_entries d' = 16 /\ hw_fences_tbl_cnt d' = 16 /\
    hw_fences_tbl d' = replicate 16 zero_fence /\
    client_lock_tbl_cnt d' = rxq_clients_num d' /\
    client_lock_tbl d' = replicate (Z.to_nat (rxq_clients_num d')) 0 /\
    forall off, 0 <= off < size d' -> carve_word d' off = 0 /\
      (off <> ctrl_header_off (uapi d') 0 -> off <> ctrl_header_off (uapi d') 1 ->
       carve_header d' off = zero_header).
Proof.
  destruct (run_gets (hw_fence_init sample_env) (fun d => (hw_fence_mem_ctrl_queues_size d, rxq_clients_num d))
    (sample_boot 16) 0 (520, 14)) as (d'&H&Hs); [vm_compute; reflexivity|].
  injection Hs as Hc Hr. exists d'. split; [exact H|].
  apply (hw_fence_init_spec sample_env (sample_boot 16) d' 16 eq_refl ltac:(lia) ltac:(unfold is_word; lia) H).
  unfold tables_fit. rewrite Hc, Hr. unfold HW_FENCE_MEM_LOCKS_SIZE, sizeof_u64, sizeof_msm_hw_fence. lia.
Defined.

(** a device tree whose number of table entries is 0 is reported as an
    error ("missing hw fences table entry") but the parser returns 0, so the
    initialisation goes on with an unparsed configuration and, on the IPCC
    version 203, copies the static interrupt map into a table allocated for 0
    clients. *)
Theorem zero_table_entries_accepted :
  value (hw_fence_utils_parse_dt_props (sample_boot 0)) = Some 0 /\
  hw_fence_init sample_env (sample_boot 0) = Fault OutOfBounds.
Proof. split; vm_compute; reflexivity. Qed.

(** ** Internal client identifiers *)

Definition sum_clients (l : list hw_fence_client_type_desc) : Z :=
  foldr (fun t a => td_clients_num t + a) 0 l.

(** The configurable types of the table. *)
Definition configurable (d : hw_fence_driver_data) : list hw_fence_client_type_desc :=
  drop (Z.to_nat HW_FENCE_MAX_CLIENT_TYPE_STATIC) (hw_fence_client_types d).

(** The order of the identifiers the comment on [hw_fence_client_types] asks
    for: the static types come in the order of their identifiers, which lie below
    those of the configurable types, which get one block of [MSM_HW_FENCE_MAX_SIGNAL_PER_CLIENT] each; the
    identifiers of all clients stay below [HW_FENCE_CLIENT_MAX]. *)
Record types_ok (d : hw_fence_driver_data) : Prop := {
  tk_block : 0 < MSM_HW_FENCE_MAX_SIGNAL_PER_CLIENT (uapi d);
  tk_static : 0 <= HW_FENCE_MAX_STATIC_CLIENTS_INDEX (uapi d);
  tk_len : zlen (hw_fence_client_types d) = HW_FENCE_MAX_CLIENT_TYPE;
  tk_num : Forall (fun t => 0 <= td_clients_num t /\ 0 <= mem_size t) (hw_fence_client_types d);
  tk_max : HW_FENCE_MAX_STATIC_CLIENTS_INDEX (uapi d) + sum_clients (configurable d)
           <= HW_FENCE_CLIENT_MAX (uapi d) < 2 ^ 32;
  tk_init : forall i t, zget (hw_fence_client_types d) i = Some t ->
    if i <? HW_FENCE_MAX_CLIENT_TYPE_STATIC
    then 0 <= init_id t /\ init_id t + td_clients_num t <= HW_FENCE_MAX_STATIC_CLIENTS_INDEX (uapi d)
    else init_id t = HW_FENCE_MAX_STATIC_CLIENTS_INDEX (uapi d)
           + (i - HW_FENCE_MAX_CLIENT_TYPE_STATIC) * MSM_HW_FENCE_MAX_SIGNAL_PER_CLIENT (uapi d) /\
         td_clients_num t <= MSM_HW_FENCE_MAX_SIGNAL_PER_CLIENT (uapi d);
  tk_order : forall i t t', i + 1 < HW_FENCE_MAX_CLIENT_TYPE_STATIC ->
    zget (hw_fence_client_types d) i = Some t -> zget (hw_fence_client_types d) (i + 1) = Some t' ->
    init_id t + td_clients_num t <= init_id t';
}.

Lemma sum_clients_cons t l : sum_clients (t :: l) = td_clients_num t + sum_clients l.
Proof. done. Qed.

Lemma sum_clients_nonneg l : Forall (fun t => 0 <= td_clients_num t /\ 0 <= mem_size t) l -> 0 <= sum_clients l.
Proof. induction 1 as [|t l [Ht _] _ IH]; [done|]. rewrite sum_clients_cons. lia. Qed.

Lemma sum_clients_app l1 l2 : sum_clients (l1 ++ l2) = sum_clients l1 + sum_clients l2.
Proof. induction l1 as [|t l1 IH]; [done|]. cbn [app]. rewrite !sum_clients_cons. lia. Qed.

Lemma fold_clients l : forall start,
  Forall (fun t => 0 <= td_clients_num t /\ 0 <= mem_size t) l ->
  0 <= start -> start + sum_clients l < 2 ^ 32 ->
  fold_left (fun id t => u32 (id + td_clients_num t)) l start = start + sum_clients l.
Proof.
  induction l as [|t l IH]; intros start Hl Hs Hb; [cbn; lia|].
  rewrite sum_clients_cons in *. cbn [fold_left].
  inversion_clear Hl as [|? ? [Ht Hm] Hl']. pose proof (sum_clients_nonneg l Hl').
  rewrite wrap_small by (unfold is_word; lia). rewrite IH; [lia|done|lia|lia].
Qed.

Section ClientIds.
Context (d : hw_fence_driver_data) (Hok : types_ok d).

Abbreviation static_idx := (HW_FENCE_MAX_STATIC_CLIENTS_INDEX (uapi d)).
Abbreviation block := (MSM_HW_FENCE_MAX_SIGNAL_PER_CLIENT (uapi d)).

Lemma configurable_ok : Forall (fun t => 0 <= td_clients_num t /\ 0 <= mem_size t) (configurable d).
Proof using Hok. apply Forall_drop, Hok. Qed.

Lemma configurable_get k :
  0 <= k -> zget (hw_fence_client_types d) (HW_FENCE_MAX_CLIENT_TYPE_STATIC + k)
            = configurable d !! Z.to_nat k.
Proof.
  intros Hk. unfold configurable, HW_FENCE_MAX_CLIENT_TYPE_STATIC.
  rewrite zget_to_nat by lia. rewrite lookup_drop. f_equal. lia.
Qed.

Lemma sum_take_S k t :
  configurable d !! k = Some t ->
  sum_clients (take (S k) (configurable d)) = sum_clients (take k (configurable d)) + td_clients_num t.
Proof.
  intros Ht. rewrite (take_S_r _ _ t) by done. rewrite sum_clients_app. cbn. lia.
Qed.

Lemma sum_take_mono j k :
  (j <= k)%nat -> sum_clients (take j (configurable d)) <= sum_clients (take k (configurable d)).
Proof using Hok.
  intros Hjk. assert (Hsplit : take k (configurable d)
    = take j (configurable d) ++ take (k - j) (drop j (configurable d))).
  { rewrite take_take_drop. f_equal. lia. }
  rewrite Hsplit, sum_clients_app.
  pose proof (sum_clients_nonneg (take (k - j) (drop j (configurable d)))
    ltac:(apply Forall_take, Forall_drop, configurable_ok)). lia.
Qed.

(** The identifier of sub-client [off] of configurable type [k]. *)
Lemma client_id_priv_run k off t :
  0 <= k -> configurable d !! Z.to_nat k = Some t -> 0 <= off < td_clients_num t -> off < block ->
  hw_fence_utils_get_client_id_priv d (static_idx + k * block + off)
    = Some (static_idx + off + sum_clients (take (Z.to_nat k) (configurable d))) /\
  sum_clients (take (Z.to_nat k) (configurable d)) + off < sum_clients (configurable d).
Proof using Hok.
  intros Hk Ht Hoff Hb. pose proof Hok as [Hblock Hst _ _ [Hmax Hmax'] _].
  assert (Hlt : sum_clients (take (Z.to_nat k) (configurable d)) + off < sum_clients (configurable d)).
  { pose proof (sum_take_S _ _ Ht). pose proof (lookup_lt_Some _ _ _ Ht).
    pose proof (sum_take_mono (S (Z.to_nat k)) (length (configurable d)) ltac:(lia)) as Hm.
    rewrite (take_ge _ (length (configurable d))) in Hm by done. lia. }
  split; [|done]. unfold hw_fence_utils_get_client_id_priv.
  destruct (_ <? static_idx) eqn:Hlts; [nia|].
  replace (static_idx + k * block + off - static_idx) with (off + k * block) by lia.
  rewrite Z.div_add, Z.mod_add, Z.div_small, Z.mod_small by lia. rewrite Z.add_0_l.
  rewrite configurable_get, Ht by done. cbn [mbind option_bind].
  destruct (td_clients_num t <=? off) eqn:Hle; [lia|].
  replace (HW_FENCE_MAX_CLIENT_TYPE_STATIC + k - HW_FENCE_MAX_CLIENT_TYPE_STATIC) with k by lia.
  fold (configurable d).
  pose proof (sum_clients_nonneg (take (Z.to_nat k) (configurable d))
    ltac:(apply Forall_take, configurable_ok)).
  by rewrite fold_clients by (apply Forall_take, configurable_ok || lia).
Qed.

(** What an accepted external identifier is. *)
Lemma client_id_priv_inv id x :
  0 <= id -> hw_fence_utils_get_client_id_priv d id = Some x -> x < HW_FENCE_CLIENT_MAX (uapi d) ->
  (id < static_idx /\ x = id) \/
  exists k off t, 0 <= k /\ configurable d !! Z.to_nat k = Some t /\ 0 <= off < td_clients_num t /\
    off < block /\ id = static_idx + k * block + off.
Proof using Hok.
  intros Hid H Hx. pose proof Hok as [Hblock Hst _ _ [Hmax Hmax'] _].
  destruct (Z.ltb_spec id static_idx) as [Hlt|Hge].
  - left. unfold hw_fence_utils_get_client_id_priv in H. destruct (id <? static_idx) eqn:?; [|lia].
    injection H as <-. done.
  - right. unfold hw_fence_utils_get_client_id_priv in H. destruct (id <? static_idx) eqn:?; [lia|].
    pose proof (Z.mod_pos_bound (id - static_idx) block Hblock) as Hmod.
    pose proof (Z.div_mod (id - static_idx) block ltac:(lia)) as Hdm.
    assert (Hk : 0 <= (id - static_idx) / block) by (apply Z.div_pos; lia).
    rewrite configurable_get in H by done.
    destruct (configurable d !! _) as [t|] eqn:Ht; [|done]. cbn [mbind option_bind] in H.
    destruct (td_clients_num t <=? _) eqn:Hle; [injection H as <-; lia|].
    exists ((id - static_idx) / block), ((id - static_idx) mod block), t. split_and!; [done|done|lia|lia|lia|lia].
Qed.

End ClientIds.

(** the internal identifiers of the clients are distinct and index the
    tables allocated for the clients: two external identifiers the driver
    accepts have the same internal identifier only if they are equal, and it
    is below the number of clients. *)
Theorem client_id_priv_injective d a b x :
  types_ok d -> 0 <= a -> 0 <= b ->
  hw_fence_utils_get_client_id_priv d a = Some x ->
  hw_fence_utils_get_client_id_priv d b = Some x ->
  x < HW_FENCE_CLIENT_MAX (uapi d) ->
  a = b /\ 0 <= x < HW_FENCE_MAX_STATIC_CLIENTS_INDEX (uapi d) + sum_clients (configurable d).
Proof.
  intros Hok Ha Hb Hpa Hpb Hx. pose proof Hok as [Hblock Hst _ _ _ _].
  pose proof (sum_clients_nonneg _ (configurable_ok d Hok)) as Hsum.
  assert (Hnn : forall k, 0 <= sum_clients (take k (configurable d)))
    by (intros k; apply sum_clients_nonneg, Forall_take, configurable_ok, Hok).
  destruct (client_id_priv_inv d Hok a x Ha Hpa Hx) as [[Hsa ->]|(k&off&t&Hk&Ht&Hoff&Hb1&->)];
  destruct (client_id_priv_inv d Hok b _ Hb Hpb Hx) as [[Hsb Hxb]|(k'&off'&t'&Hk'&Ht'&Hoff'&Hb2&->)].
  - lia.
  - destruct (client_id_priv_run d Hok k' off' t' Hk' Ht' Hoff' Hb2) as [Hrun _].
    rewrite Hpb in Hrun. injection Hrun as Hrun. specialize (Hnn (Z.to_nat k')). lia.
  - destruct (client_id_priv_run d Hok k off t Hk Ht Hoff Hb1) as [Hrun _].
    rewrite Hpa in Hrun. injection Hrun as Hrun. specialize (Hnn (Z.to_nat k)). lia.
  - destruct (client_id_priv_run d Hok k off t Hk Ht Hoff Hb1) as [Hrun Hlt].
    destruct (client_id_priv_run d Hok k' off' t' Hk' Ht' Hoff' Hb2) as [Hrun' Hlt'].
    rewrite Hpa in Hrun. rewrite Hpb in Hrun'. injection Hrun as Hrun. injection Hrun' as Hrun'.
    pose proof (sum_take_S d _ _ Ht) as Hs. pose proof (sum_take_S d _ _ Ht') as Hs'.
    pose proof (Hnn (Z.to_nat k)). pose proof (Hnn (Z.to_nat k')).
    destruct (lt_eq_lt_dec (Z.to_nat k) (Z.to_nat k')) as [[Hlt2|Heq]|Hlt2].
    + pose proof (sum_take_mono d Hok (S (Z.to_nat k)) (Z.to_nat k') ltac:(lia)). lia.
    + assert (k = k') as -> by lia. split; [lia|]. lia.
    + pose proof (sum_take_mono d Hok (S (Z.to_nat k')) (Z.to_nat k) ltac:(lia)). lia.
Qed.

(** ** The regions of the clients *)

Definition regions_in (d : hw_fence_driver_data) (lo hi : Z) : Prop :=
  forall c desc o, client_desc d c = Some (desc, o) -> lo <= o /\ o + mem_size desc <= hi.

Definition regions_disjoint (d : hw_fence_driver_data) : Prop :=
  forall c c' desc desc' o o', c <> c' ->
  client_desc d c = Some (desc, o) -> client_desc d c' = Some (desc', o') ->
  o + mem_size desc <= o' \/ o' + mem_size desc' <= o.

(** The memory all the clients of the given types take. *)
Definition sum_mem (l : list hw_fence_client_type_desc) : Z :=
  foldr (fun t a => td_clients_num t * mem_size t + a) 0 l.

Section Placement.
Context (lo : Z).

(** A client that was placed: its external identifier, the index of its type and
    the offset of its region. *)
Definition placed_at (d : hw_fence_driver_data) (p : Z * Z * Z) : Prop :=
  let '(e, i, o) := p in
  exists id desc, hw_fence_utils_get_client_id_priv d e = Some id /\
    0 <= id < zlen (hw_fence_client_queue_size d) /\
    zget (hw_fence_client_types d) i = Some desc /\ client_desc d id = Some (desc, o).

(** The configuration during the placement: the table of clients is allocated,
    the clients [ps] are placed, their identifiers are below [b], and the regions
    placed so far end at [hi]. *)
Record placing (d : hw_fence_driver_data) (hi b : Z) (ps : list (Z * Z * Z)) : Prop := {
  pl_types : types_ok d;
  pl_alloc : zlen (hw_fence_client_queue_size d)
             = HW_FENCE_MAX_STATIC_CLIENTS_INDEX (uapi d) + sum_clients (configurable d);
  pl_lo : 0 <= lo <= hi;
  pl_in : regions_in d lo hi;
  pl_disj : regions_disjoint d;
  pl_ids : Forall (fun p => 0 <= p.1.1 < b) ps;
  pl_placed : Forall (placed_at d) ps;
}.

Lemma client_desc_insert d id i start c desc o :
  0 <= id < zlen (hw_fence_client_queue_size d) ->
  client_desc (d <| hw_fence_client_queue_size ::=
    fun t => <[Z.to_nat id := Some (mkQueueDesc i start)]> t |>) c = Some (desc, o) ->
  (c = id /\ zget (hw_fence_client_types d) i = Some desc /\ o = start) \/
  (c <> id /\ client_desc d c = Some (desc, o)).
Proof.
  intros Hid. unfold client_desc. cbn. destruct (decide (c = id)) as [->|Hne].
  - rewrite zget_insert_eq by done. cbn. destruct (zget (hw_fence_client_types d) i); [|done].
    intros [= <- <-]. by left.
  - rewrite zget_insert_ne by (done || lia). by right.
Qed.

Lemma placed_insert d e id i desc hi p :
  types_ok d -> 0 <= e -> hw_fence_utils_get_client_id_priv d e = Some id ->
  0 <= id < zlen (hw_fence_client_queue_size d) -> zget (hw_fence_client_types d) i = Some desc ->
  zlen (hw_fence_client_queue_size d) <= HW_FENCE_CLIENT_MAX (uapi d) ->
  p = (e, i, hi) \/ (0 <= p.1.1 /\ p.1.1 <> e /\ placed_at d p) ->
  placed_at (d <| hw_fence_client_queue_size ::=
    fun t => <[Z.to_nat id := Some (mkQueueDesc i hi)]> t |>) p.
Proof.
  intros Hok He Hp Hid Hi Hmax [->|(H0&Hne&Hpl)]; unfold placed_at in *.
  - exists id, desc. split; [exact Hp|]. split; [cbn; by rewrite zlen_insert|]. split; [exact Hi|].
    unfold client_desc. cbn. rewrite zget_insert_eq by done. cbn. by rewrite Hi.
  - destruct p as [[e' i'] o']. destruct Hpl as (id'&desc'&Hp'&Hr'&Hi'&Hd'). exists id', desc'.
    split; [exact Hp'|]. split; [cbn; by rewrite zlen_insert|]. split; [exact Hi'|].
    assert (id' <> id).
    { intros ->. cbn in Hne, H0. destruct (client_id_priv_injective d e' e id Hok H0 He Hp' Hp); lia. }
    unfold client_desc in *. cbn. by rewrite zget_insert_ne by (done || lia).
Qed.

Lemma place_one d hi b ps e id i desc :
  placing d hi b ps -> b <= e -> 0 <= e -> hw_fence_utils_get_client_id_priv d e = Some id ->
  0 <= id < zlen (hw_fence_client_queue_size d) ->
  zget (hw_fence_client_types d) i = Some desc -> 0 <= mem_size desc ->
  placing (d <| hw_fence_client_queue_size ::=
    fun t => <[Z.to_nat id := Some (mkQueueDesc i hi)]> t |>) (hi + mem_size desc) (e + 1)
    (ps ++ [(e, i, hi)]).
Proof.
  intros [Ht Ha Hlo Hin Hdis Hids Hps] Hbe He Hp Hid Hi Hm. pose proof (tk_max _ Ht) as [Hmax _].
  split; [by destruct Ht; split|cbn; by rewrite zlen_insert|lia| | | |].
  - intros c desc' o H. apply client_desc_insert in H as [(->&Hd&->)|[Hne H]]; [| |done].
    + assert (desc' = desc) as -> by congruence. lia.
    + apply Hin in H. lia.
  - intros c c' d1 d2 o1 o2 Hcc H1 H2.
    apply client_desc_insert in H1 as [(->&Hd1&->)|[Hne1 H1]]; [| |done];
      apply client_desc_insert in H2 as [(->&Hd2&->)|[Hne2 H2]]; try done.
    + right. apply Hin in H2. lia.
    + left. apply Hin in H1. lia.
    + exact (Hdis c c' d1 d2 o1 o2 Hcc H1 H2).
  - apply Forall_app. split; [eapply Forall_impl; [exact Hids|]; cbn; intros; lia|]. constructor; [cbn; lia|done].
  - assert (Hx : forall p, p = (e, i, hi) \/ (0 <= p.1.1 /\ p.1.1 <> e /\ placed_at d p) -> placed_at _ p)
      by (intros p; apply (placed_insert d e id i desc hi p Ht He Hp Hid Hi); lia).
    apply Forall_app. split; [|constructor; [apply Hx; by left|done]].
    apply list.Forall_forall. intros p Hin'. apply Hx. right.
    pose proof (proj1 (list.Forall_forall _ _) Hids p Hin') as Hb1.
    pose proof (proj1 (list.Forall_forall _ _) Hps p Hin'). cbn in Hb1. split_and!; [lia|lia|done].
Qed.

(** The identifiers of a type's clients are in the table. *)
Lemma type_client_id d hi b ps i desc j :
  placing d hi b ps -> zget (hw_fence_client_types d) i = Some desc -> 0 <= j < td_clients_num desc ->
  0 <= init_id desc /\
  exists id, hw_fence_utils_get_client_id_priv d (init_id desc + j) = Some id /\
    0 <= id < zlen (hw_fence_client_queue_size d).
Proof.
  intros [Hty Ha _ _ _ _ _] Hi Hj. rewrite Ha. pose proof Hty as [Hblock Hst Hlen Hnum [Hmax _] Hinit _].
  specialize (Hinit i desc Hi). pose proof (zget_Some _ _ _ Hi) as Hir.
  pose proof (sum_clients_nonneg _ (configurable_ok d Hty)) as Hsum.
  destruct (Z.ltb_spec i HW_FENCE_MAX_CLIENT_TYPE_STATIC) as [Hs|Hs].
  - destruct Hinit as [H0 H1]. split; [done|]. exists (init_id desc + j).
    unfold hw_fence_utils_get_client_id_priv. destruct (_ <? _) eqn:?; [|lia]. split; [done|lia].
  - destruct Hinit as [-> Hb]. set (k := i - HW_FENCE_MAX_CLIENT_TYPE_STATIC) in *. split; [nia|].
    assert (Hk : configurable d !! Z.to_nat k = Some desc).
    { rewrite <- configurable_get by lia.
      by replace (HW_FENCE_MAX_CLIENT_TYPE_STATIC + k) with i by (unfold k; lia). }
    destruct (client_id_priv_run d Hty k j desc ltac:(lia) Hk Hj ltac:(lia)) as [Hrun Hlt].
    pose proof (sum_clients_nonneg (take (Z.to_nat k) (configurable d))
      ltac:(apply Forall_take, configurable_ok, Hty)).
    eexists. split; [exact Hrun|]. lia.
Qed.

(** The clients [a], [a + 1], ... of a type, from [hi] on. *)
Fixpoint clients_at (n : nat) (a i : Z) (desc : hw_fence_client_type_desc) (hi : Z) : list (Z * Z * Z) :=
  match n with
  | O => []
  | S n' => (init_id desc + a, i, hi) :: clients_at n' (a + 1) i desc (hi + mem_size desc)
  end.

Lemma clients_at_in n : forall a i desc hi k,
  0 <= k < Z.of_nat n -> (init_id desc + (a + k), i, hi + k * mem_size desc) ∈ clients_at n a i desc hi.
Proof.
  induction n as [|n IH]; intros a i desc hi k Hk; [lia|]. cbn [clients_at].
  destruct (decide (k = 0)) as [->|Hne]; [rewrite Z.add_0_r, Z.mul_0_l, Z.add_0_r; left|]. right.
  replace (a + k) with (a + 1 + (k - 1)) by lia.
  replace (hi + k * mem_size desc) with (hi + mem_size desc + (k - 1) * mem_size desc) by lia.
  apply IH. lia.
Qed.

Lemma set_queue_sizes_same d : d <| hw_fence_client_queue_size := hw_fence_client_queue_size d |> = d.
Proof. by destruct d. Qed.

Lemma place_clients_run n : forall (a : nat) d hi b ps i desc,
  placing d hi b ps -> zget (hw_fence_client_types d) i = Some desc ->
  Z.of_nat a + Z.of_nat n <= td_clients_num desc -> b <= init_id desc + Z.of_nat a ->
  0 <= mem_size desc -> hi + Z.of_nat n * mem_size desc < 2 ^ 32 ->
  exists t, place_clients (map Z.of_nat (seq a n)) i desc hi d
      = Done (hi + Z.of_nat n * mem_size desc, d <| hw_fence_client_queue_size := t |>) /\
    placing (d <| hw_fence_client_queue_size := t |>) (hi + Z.of_nat n * mem_size desc)
      (init_id desc + Z.of_nat a + Z.of_nat n) (ps ++ clients_at n (Z.of_nat a) i desc hi).
Proof.
  induction n as [|n IH]; intros a d hi b ps i desc Hpl Hi Hjs Hbi Hm Hb; cbn [seq map place_clients clients_at].
  - exists (hw_fence_client_queue_size d). rewrite set_queue_sizes_same, Z.mul_0_l, !Z.add_0_r, app_nil_r.
    split; [done|]. destruct Hpl. split; try done. eapply Forall_impl; [exact pl_ids0|]. cbn. intros. lia.
  - pose proof (pl_lo _ _ _ _ Hpl) as Hlo.
    destruct (type_client_id d hi b ps i desc (Z.of_nat a) Hpl Hi ltac:(lia)) as (H0&id&Hid&Hidr).
    rewrite getM_run. rewrite (liftO_run _ _ _ _ id) by done.
    rewrite (liftO_run _ _ _ _ _ (zset_in _ _ _ Hidr)). rewrite modify_run.
    replace (Z.of_nat (S n)) with (1 + Z.of_nat n) in * by lia.
    rewrite wrap_small by (unfold is_word; nia).
    destruct (IH (S a) _ (hi + mem_size desc) _ _ i desc
      (place_one d hi b ps (init_id desc + Z.of_nat a) id i desc Hpl Hbi ltac:(lia) Hid Hidr Hi Hm) Hi)
      as (t&Hrun&Hpl'); [lia|lia|lia|lia|].
    exists t. replace (hi + (1 + Z.of_nat n) * mem_size desc)
      with (hi + mem_size desc + Z.of_nat n * mem_size desc) by lia.
    split; [exact Hrun|]. rewrite <- app_assoc in Hpl'. cbn [app] in Hpl'.
    replace (Z.of_nat (S a)) with (Z.of_nat a + 1) in Hpl' by lia.
    by replace (init_id desc + Z.of_nat a + (1 + Z.of_nat n))
      with (init_id desc + (Z.of_nat a + 1) + Z.of_nat n) by lia.
Qed.

(** All the clients of the types from index [i] on. *)
Fixpoint types_at (ds : list hw_fence_client_type_desc) (i hi : Z) : list (Z * Z * Z) :=
  match ds with
  | [] => []
  | desc :: ds' =>
      clients_at (Z.to_nat (td_clients_num desc)) 0 i desc hi
        ++ types_at ds' (i + 1) (hi + td_clients_num desc * mem_size desc)
  end.

(** The identifiers of the types are in the order of the types. *)
Lemma types_in_order d i t t' :
  types_ok d -> zget (hw_fence_client_types d) i = Some t -> zget (hw_fence_client_types d) (i + 1) = Some t' ->
  init_id t + td_clients_num t <= init_id t'.
Proof.
  intros [Hblock Hst _ _ _ Hinit Hord] Ht Ht'. pose proof (Hinit i t Ht) as H1. pose proof (Hinit _ t' Ht') as H2.
  destruct (Z.ltb_spec (i + 1) HW_FENCE_MAX_CLIENT_TYPE_STATIC) as [Hs|Hs]; [by eapply Hord|].
  destruct H2 as [-> _]. destruct (Z.ltb_spec i HW_FENCE_MAX_CLIENT_TYPE_STATIC) as [Hs'|Hs']; [nia|].
  destruct H1 as [-> H1]. nia.
Qed.

Lemma sum_mem_nonneg l : Forall (fun t => 0 <= td_clients_num t /\ 0 <= mem_size t) l -> 0 <= sum_mem l.
Proof.
  induction 1 as [|t l [Ht Hm] _ IH]; [done|].
  change (sum_mem (t :: l)) with (td_clients_num t * mem_size t + sum_mem l). nia.
Qed.

Lemma place_types_run ds : forall (k : nat) d hi b ps,
  placing d hi b ps -> drop k (hw_fence_client_types d) = ds ->
  (forall t, zget (hw_fence_client_types d) (Z.of_nat k) = Some t -> b <= init_id t) ->
  hi + sum_mem ds < 2 ^ 32 ->
  exists t b', place_types (map Z.of_nat (seq k (length ds))) hi d
      = Done (hi + sum_mem ds, d <| hw_fence_client_queue_size := t |>) /\
    placing (d <| hw_fence_client_queue_size := t |>) (hi + sum_mem ds) b' (ps ++ types_at ds (Z.of_nat k) hi).
Proof.
  induction ds as [|desc ds IH]; intros k d hi b ps Hpl Hds Hbk Hb; cbn [length seq map place_types types_at].
  - exists (hw_fence_client_queue_size d), b. cbn [sum_mem foldr].
    by rewrite set_queue_sizes_same, Z.add_0_r, app_nil_r.
  - assert (Hi : hw_fence_client_types d !! k = Some desc)
      by (rewrite <- (Nat.add_0_r k), <- lookup_drop, Hds; done).
    assert (Hds' : drop (S k) (hw_fence_client_types d) = ds)
      by (rewrite (drop_S _ _ _ Hi) in Hds; by injection Hds).
    assert (Hz : zget (hw_fence_client_types d) (Z.of_nat k) = Some desc) by (by rewrite zget_nat).
    pose proof (tk_num _ (pl_types _ _ _ _ Hpl)) as Hnum.
    pose proof (sum_mem_nonneg ds ltac:(rewrite <- Hds'; by apply Forall_drop)) as Hnn.
    pose proof (Forall_lookup_1 _ _ _ _ Hnum Hi) as [Hc Hm].
    change (sum_mem (desc :: ds)) with (td_clients_num desc * mem_size desc + sum_mem ds) in *.
    destruct (place_clients_run (Z.to_nat (td_clients_num desc)) 0 d hi b ps (Z.of_nat k) desc Hpl Hz)
      as (t&Hrun&Hpl'); [lia|specialize (Hbk desc Hz); lia|done|nia|].
    rewrite Z2Nat.id in * by lia. rewrite getM_run, (liftO_run _ _ _ _ desc) by done.
    rewrite (bind_run _ _ _ _ _ Hrun).
    destruct (IH (S k) _ _ _ _ Hpl' Hds') as (t'&b'&Hrun'&Hpl''); [| |].
    { intros t2 Ht2. rewrite Nat2Z.inj_succ in Ht2.
      pose proof (types_in_order d (Z.of_nat k) desc t2 (pl_types _ _ _ _ Hpl) Hz Ht2). lia. }
    { lia. }
    exists t', b'. replace (hi + (td_clients_num desc * mem_size desc + sum_mem ds))
      with (hi + td_clients_num desc * mem_size desc + sum_mem ds) by lia.
    split; [exact Hrun'|]. rewrite <- app_assoc, Nat2Z.inj_succ in Hpl''. exact Hpl''.
Qed.

Lemma types_at_in ds : forall i hi k desc j,
  Forall (fun t => 0 <= td_clients_num t /\ 0 <= mem_size t) ds ->
  ds !! k = Some desc -> 0 <= j < td_clients_num desc ->
  (init_id desc + j, i + Z.of_nat k, hi + sum_mem (take k ds) + j * mem_size desc) ∈ types_at ds i hi.
Proof.
  induction ds as [|t ds IH]; intros i hi k desc j Hds Hk Hj; [done|]. cbn [types_at]. apply elem_of_app.
  inversion_clear Hds as [|? ? [Ht Hm] Hds']. destruct k as [|k].
  - injection Hk as ->. left. cbn [take sum_mem foldr Z.of_nat]. rewrite !Z.add_0_r.
    exact (clients_at_in (Z.to_nat (td_clients_num desc)) 0 i desc hi j ltac:(lia)).
  - right. cbn [take]. change (sum_mem (t :: take k ds)) with (td_clients_num t * mem_size t + sum_mem (take k ds)).
    specialize (IH (i + 1) (hi + td_clients_num t * mem_size t) k desc j Hds' Hk Hj).
    replace (i + Z.of_nat (S k)) with (i + 1 + Z.of_nat k) by lia.
    by replace (hi + (td_clients_num t * mem_size t + sum_mem (take k ds)))
      with (hi + td_clients_num t * mem_size t + sum_mem (take k ds)) by lia.
Qed.

End Placement.


(** The static table with two IPE and three IFE0 clients of one page each. *)
Definition sample_types : list hw_fence_client_type_desc :=
  imap (fun i t =>
    t <| mem_size := 4096 |>
      <| td_clients_num ::= fun n => if Nat.eqb i 3 then 2 else if Nat.eqb i 5 then 3 else n |>)
    (initial_client_types sample_uapi).

Definition sample_config : hw_fence_driver_data :=
  (zero_drv sample_uapi empty_dtree)
    <| hw_fence_client_types := sample_types |> <| clients_num := 20 |>
    <| hw_fence_client_queue_size := replicate 20 None |>.

Lemma sample_config_ok : types_ok sample_config.
Proof.
  split; try (by vm_compute).
  - repeat constructor; by vm_compute.
  - intros i t Hi. pose proof (zget_Some _ _ _ Hi) as Hr. rewrite zget_to_nat in Hi by lia.
    rewrite <- (Z2Nat.id i) by lia. set (n := Z.to_nat i) in *. clearbody n. clear Hr.
    do 13 (destruct n as [|n]; [injection Hi as <-; by vm_compute|]). done.
  - intros i t t' Hlt Ht Ht'. pose proof (zget_Some _ _ _ Ht). unfold HW_FENCE_MAX_CLIENT_TYPE_STATIC in Hlt.
    assert (i = 0 \/ i = 1) as [-> | ->] by lia; injection Ht as <-; injection Ht' as <-; by vm_compute.
Qed.

Lemma client_id_priv_injective_witness :
  15 = 15 /\ 0 <= 15 < HW_FENCE_MAX_STATIC_CLIENTS_INDEX sample_uapi + sum_clients (configurable sample_config).
Proof.
  apply (client_id_priv_injective sample_config 15 15 15);
    [exact sample_config_ok|lia|lia|reflexivity|reflexivity|by vm_compute].
Defined.


(** ** The interrupt map *)

(** The entries of the map below [hi] that are not static are those of the
    configurable types, each with its sub-client's signal. *)
Definition ipc_mapped (d : hw_fence_driver_data) (base : list hw_fence_client_ipc_map)
    (k off : Z) : Prop :=
  exists b, zget base (HW_FENCE_MAX_STATIC_CLIENTS_INDEX (uapi d) + k) = Some b /\
  forall id, hw_fence_utils_get_client_id_priv d
      (HW_FENCE_MAX_STATIC_CLIENTS_INDEX (uapi d) + k * MSM_HW_FENCE_MAX_SIGNAL_PER_CLIENT (uapi d) + off)
      = Some id ->
  zget (ipc_clients_table d) id = Some (b <| im_signal_id := off |>).

Section IpcMap.
Context (base : list hw_fence_client_ipc_map).

Lemma set_ipc_same d : d <| ipc_clients_table := ipc_clients_table d |> = d.
Proof. by destruct d. Qed.

Lemma map_subclients_run n : forall d b idx a,
  zlen (ipc_clients_table d) = clients_num d -> 0 <= idx -> idx + Z.of_nat n <= clients_num d ->
  exists t, map_subclients (map Z.of_nat (seq a n)) b idx d
      = Done (inr (idx + Z.of_nat n), d <| ipc_clients_table := t |>) /\
    zlen t = zlen (ipc_clients_table d) /\
    forall p, zget t p =
      if (idx <=? p) && (p <? idx + Z.of_nat n)
      then Some (b <| im_signal_id := Z.of_nat a + (p - idx) |>) else zget (ipc_clients_table d) p.
Proof.
  induction n as [|n IH]; intros d b idx a Hlen Hidx Hfit; cbn [seq map map_subclients].
  - exists (ipc_clients_table d). rewrite set_ipc_same, Z.add_0_r. split; [done|]. split; [done|].
    intros p. by destruct (idx <=? p) eqn:?, (p <? idx) eqn:?; cbn; try lia.
  - rewrite getM_run. destruct (clients_num d <=? idx) eqn:Hle; [lia|].
    assert (Hin : 0 <= idx < zlen (ipc_clients_table d)) by lia.
    set (d1 := d <| ipc_clients_table ::= fun t =>
      <[Z.to_nat idx := b <| im_signal_id := Z.of_nat a |>]> t |>).
    assert (Hput : put_ipc_entry idx (b <| im_signal_id := Z.of_nat a |>) d = Done (tt, d1)).
    { unfold put_ipc_entry. rewrite getM_run. by rewrite (liftO_run _ _ _ _ _ (zset_in _ _ _ Hin)). }
    rewrite (bind_run _ _ _ _ _ Hput).
    destruct (IH d1 b (idx + 1) (S a)) as (t&Hrun&Ht&Hget); [|lia|cbn; lia|].
    { cbn. by rewrite zlen_insert. }
    exists t. replace (idx + Z.of_nat (S n)) with (idx + 1 + Z.of_nat n) by lia.
    split; [exact Hrun|]. split; [rewrite Ht; cbn; by rewrite zlen_insert|].
    intros p. rewrite Hget. cbn.
    destruct (decide (p = idx)) as [->|Hne].
    + rewrite (zget_insert_eq _ idx) by done.
      destruct (idx + 1 <=? idx) eqn:?, (idx <=? idx) eqn:?, (idx <? idx + 1 + Z.of_nat n) eqn:?;
        try lia. cbn. do 3 f_equal. lia.
    + rewrite (zget_insert_ne _ idx) by lia.
      destruct (idx + 1 <=? p) eqn:?, (idx <=? p) eqn:?, (p <? idx + 1 + Z.of_nat n) eqn:?; cbn [andb];
        try done; try lia.
      by replace (Z.of_nat (S a) + (p - (idx + 1))) with (Z.of_nat a + (p - idx)) by lia.
Qed.

(** The configuration during the mapping, with the sub-clients of the types
    before [k] mapped. *)
Record mapping (d : hw_fence_driver_data) (k : nat) : Prop := {
  mp_types : types_ok d;
  mp_num : clients_num d = HW_FENCE_MAX_STATIC_CLIENTS_INDEX (uapi d) + sum_clients (configurable d);
  mp_len : zlen (ipc_clients_table d) = clients_num d;
  mp_done : forall j off t, (j < k)%nat -> configurable d !! j = Some t -> 0 <= off < td_clients_num t ->
    ipc_mapped d base (Z.of_nat j) off;
}.

Lemma mapping_step d k t b :
  mapping d k -> configurable d !! k = Some t ->
  zget base (HW_FENCE_MAX_STATIC_CLIENTS_INDEX (uapi d) + Z.of_nat k) = Some b ->
  exists tbl,
    map_subclients (map Z.of_nat (seq 0 (Z.to_nat (td_clients_num t)))) b
      (HW_FENCE_MAX_STATIC_CLIENTS_INDEX (uapi d) + sum_clients (take k (configurable d))) d
    = Done (inr (HW_FENCE_MAX_STATIC_CLIENTS_INDEX (uapi d) + sum_clients (take (S k) (configurable d))),
            d <| ipc_clients_table := tbl |>) /\
    mapping (d <| ipc_clients_table := tbl |>) (S k).
Proof.
  intros [Hty Hnum Hlen Hdone] Ht Hb. pose proof Hty as [Hblock Hst _ _ _ Hinit].
  pose proof (configurable_ok d Hty) as Hco.
  pose proof (Forall_lookup_1 _ _ _ _ Hco Ht) as [Htn _].
  pose proof (sum_take_S d k t Ht) as HS.
  pose proof (sum_clients_nonneg (take k (configurable d)) ltac:(by apply Forall_take)) as Hnn.
  pose proof (lookup_lt_Some _ _ _ Ht) as Hkl.
  pose proof (sum_take_mono d Hty (S k) (length (configurable d)) ltac:(lia)) as Hm.
  rewrite (take_ge _ (length (configurable d))) in Hm by done.
  set (st := HW_FENCE_MAX_STATIC_CLIENTS_INDEX (uapi d)) in *.
  set (idx := st + sum_clients (take k (configurable d))) in *.
  destruct (map_subclients_run (Z.to_nat (td_clients_num t)) d b idx 0) as (tbl&Hrun&Hl&Hget);
    [done|lia|lia|].
  rewrite Z2Nat.id in * by lia. exists tbl.
  replace (st + sum_clients (take (S k) (configurable d))) with (idx + td_clients_num t) by lia.
  split; [exact Hrun|]. split; [by destruct Hty; split|done|cbn; lia|].
  intros j off t' Hj Ht' Hoff. change (configurable (d <| ipc_clients_table := tbl |>)) with (configurable d) in Ht'.
  assert (Hbl : off < MSM_HW_FENCE_MAX_SIGNAL_PER_CLIENT (uapi d)).
  { assert (Hz : zget (hw_fence_client_types d) (HW_FENCE_MAX_CLIENT_TYPE_STATIC + Z.of_nat j) = Some t')
      by (rewrite configurable_get, Nat2Z.id by lia; done).
    apply Hinit in Hz. destruct (_ <? HW_FENCE_MAX_CLIENT_TYPE_STATIC) eqn:?; [lia|].
    destruct Hz as [_ Hz]. lia. }
  destruct (client_id_priv_run d Hty (Z.of_nat j) off t' ltac:(lia)) as [Hid _];
    [by rewrite Nat2Z.id|done|done|]. rewrite Nat2Z.id in Hid.
  destruct (decide (j = k)) as [->|Hne].
  - exists b. split; [done|]. intros id Hid'. rewrite Ht in Ht'. injection Ht' as <-.
    assert (Hid2 : Some id = Some (st + off + sum_clients (take k (configurable d))))
      by exact (eq_trans (eq_sym Hid') Hid).
    injection Hid2 as ->. cbn. rewrite Hget.
    replace (st + off + sum_clients (take k (configurable d))) with (idx + off) by lia.
    replace (idx <=? idx + off) with true by lia.
    replace (idx + off <? idx + td_clients_num t) with true by lia. cbn [andb].
    by replace (Z.of_nat 0 + (idx + off - idx)) with off by lia.
  - destruct (Hdone j off t' ltac:(lia) Ht' Hoff) as (b'&Hb'&Hm'). exists b'. split; [done|].
    intros id Hid'. cbn. rewrite Hget.
    assert (Hid2 : Some id = Some (st + off + sum_clients (take j (configurable d))))
      by exact (eq_trans (eq_sym Hid') Hid).
    injection Hid2 as ->.
    pose proof (sum_take_S d j t' Ht'). pose proof (sum_take_mono d Hty (S j) k ltac:(lia)).
    destruct (idx <=? st + off + sum_clients (take j (configurable d))) eqn:?; cbn [andb]; [lia|].
    by apply Hm'.
Qed.

Lemma map_types_run n : forall d k,
  mapping d k -> (k + n)%nat = length (configurable d) ->
  (forall j, (j < length (configurable d))%nat ->
     is_Some (zget base (HW_FENCE_MAX_STATIC_CLIENTS_INDEX (uapi d) + Z.of_nat j))) ->
  exists tbl,
    map_types (map Z.of_nat (seq k n)) base
      (HW_FENCE_MAX_STATIC_CLIENTS_INDEX (uapi d) + sum_clients (take k (configurable d))) d
    = Done (0, d <| ipc_clients_table := tbl |>) /\
    mapping (d <| ipc_clients_table := tbl |>) (k + n).
Proof.
  induction n as [|n IH]; intros d k Hmap Hkn Hbase; cbn [seq map map_types].
  - exists (ipc_clients_table d). rewrite set_ipc_same, Nat.add_0_r. done.
  - destruct (lookup_lt_is_Some_2 (configurable d) k ltac:(lia)) as [t Ht].
    destruct (Hbase k ltac:(lia)) as [b Hb].
    assert (Hz : zget (hw_fence_client_types d) (HW_FENCE_MAX_CLIENT_TYPE_STATIC + Z.of_nat k) = Some t)
      by (rewrite configurable_get, Nat2Z.id by lia; done).
    rewrite getM_run, (liftO_run _ _ _ _ t) by done. rewrite (liftO_run _ _ _ _ b) by done.
    destruct (mapping_step d k t b Hmap Ht Hb) as (tbl&Hrun&Hmap').
    rewrite (bind_run _ _ _ _ _ Hrun).
    destruct (IH _ (S k) Hmap' ltac:(cbn in *; unfold configurable in *; cbn in *; lia) Hbase)
      as (tbl'&Hrun'&Hmap'').
    exists tbl'. replace (k + S n)%nat with (S k + n)%nat by lia. split; [exact Hrun'|exact Hmap''].
Qed.

End IpcMap.

(** building the interrupt map for an IPCC with configurable clients
    completes, and every sub-client of a configurable type finds, at its
    internal identifier, its type's interrupt clients with its own number as
    signal. *)
Theorem ipc_map_spec d base :
  types_ok d ->
  clients_num d = HW_FENCE_MAX_STATIC_CLIENTS_INDEX (uapi d) + sum_clients (configurable d) ->
  kzalloc_ok d (kzallocs d) = true ->
  zlen base = HW_FENCE_MAX_STATIC_CLIENTS_INDEX (uapi d) + HW_FENCE_MAX_CLIENT_TYPE_CONFIGURABLE ->
  exists d', _hw_fence_ipcc_init_map_with_configurable_clients base d = Done (0, d') /\
    forall k off t, configurable d !! k = Some t -> 0 <= off < td_clients_num t ->
    exists b id, zget base (HW_FENCE_MAX_STATIC_CLIENTS_INDEX (uapi d) + Z.of_nat k) = Some b /\
      hw_fence_utils_get_client_id_priv d' (HW_FENCE_MAX_STATIC_CLIENTS_INDEX (uapi d)
        + Z.of_nat k * MSM_HW_FENCE_MAX_SIGNAL_PER_CLIENT (uapi d) + off) = Some id /\
      zget (ipc_clients_table d') id = Some (b <| im_signal_id := off |>).
Proof.
  intros Hok Hnum Hk Hbase. unfold _hw_fence_ipcc_init_map_with_configurable_clients.
  pose proof Hok as [Hblock Hst Hlen _ _ Hinit].
  pose proof (sum_clients_nonneg _ (configurable_ok d Hok)) as Hsum.
  assert (Hcl : length (configurable d) = 10%nat).
  { unfold configurable. rewrite length_drop. unfold zlen, HW_FENCE_MAX_CLIENT_TYPE,
      HW_FENCE_MAX_CLIENT_TYPE_STATIC, HW_FENCE_MAX_CLIENT_TYPE_CONFIGURABLE in *. lia. }
  assert (Hkz : kzalloc d = Done (true, d <| kzallocs ::= S |>)) by (unfold kzalloc; by rewrite Hk).
  rewrite (bind_run _ _ _ _ _ Hkz). cbn [negb]. rewrite getM_run.
  set (st := HW_FENCE_MAX_STATIC_CLIENTS_INDEX (uapi d)) in *.
  change (HW_FENCE_MAX_STATIC_CLIENTS_INDEX (uapi (d <| kzallocs ::= S |>))) with st.
  change (clients_num (d <| kzallocs ::= S |>)) with (clients_num d).
  unfold HW_FENCE_MAX_CLIENT_TYPE_CONFIGURABLE, zlen in Hbase.
  destruct (Nat.ltb_spec (length base) (Z.to_nat st)) as [Hlt|_]; [lia|]. cbn [orb].
  rewrite Z2Nat.id by done. destruct (clients_num d <? st) eqn:Hlt; [lia|].
  rewrite modify_run.
  set (d1 := (d <| kzallocs ::= S |>) <| ipc_clients_table := _ |>).
  assert (Hm1 : mapping base d1 0).
  { split; [by destruct Hok; split|done| |lia].
    cbn. unfold zlen. rewrite length_app, length_take, length_replicate. lia. }
  destruct (map_types_run base 10 d1 0 Hm1) as (tbl&Hrun&[_ _ _ Hdone]).
  { exact (eq_sym Hcl). }
  { intros j Hj. change (length (configurable d1)) with (length (configurable d)) in Hj.
    apply zget_is_Some. unfold zlen. change (HW_FENCE_MAX_STATIC_CLIENTS_INDEX (uapi d1)) with st. lia. }
  cbn [take] in Hrun. change (sum_clients []) with 0 in Hrun. rewrite Z.add_0_r in Hrun.
  eexists. split; [exact Hrun|]. intros k off t Ht Hoff.
  pose proof (lookup_lt_Some _ _ _ Ht) as Hkl.
  destruct (Hdone k off t ltac:(lia) Ht Hoff) as (b&Hb&Hm).
  assert (Hbl : off < MSM_HW_FENCE_MAX_SIGNAL_PER_CLIENT (uapi d)).
  { assert (Hz : zget (hw_fence_client_types d) (HW_FENCE_MAX_CLIENT_TYPE_STATIC + Z.of_nat k) = Some t)
      by (rewrite configurable_get, Nat2Z.id by lia; done).
    apply Hinit in Hz. destruct (_ <? HW_FENCE_MAX_CLIENT_TYPE_STATIC) eqn:?; [lia|].
    destruct Hz as [_ Hz]. lia. }
  destruct (client_id_priv_run d Hok (Z.of_nat k) off t ltac:(lia)) as [Hid _];
    [by rewrite Nat2Z.id|done|done|].
  exists b. eexists. split; [exact Hb|]. split; [exact Hid|]. apply Hm. exact Hid.
Qed.

Lemma ipc_map_spec_witness :
  exists d', _hw_fence_ipcc_init_map_with_configurable_clients (hw_fence_clients_ipc_map_v2 true) sample_config
      = Done (0, d') /\
    forall k off t, configurable sample_config !! k = Some t -> 0 <= off < td_clients_num t ->
    exists b id, zget (hw_fence_clients_ipc_map_v2 true) (15 + Z.of_nat k) = Some b /\
      hw_fence_utils_get_client_id_priv d' (15 + Z.of_nat k * 64 + off) = Some id /\
      zget (ipc_clients_table d') id = Some (b <| im_signal_id := off |>).
Proof.
  apply (ipc_map_spec sample_config (hw_fence_clients_ipc_map_v2 true));
    [exact sample_config_ok|reflexivity|reflexivity|reflexivity].
Defined.
