(* ===== verification/HwFenceArray.v ===== *)
(** * Join fences

    The registration of a client for a fence array
    ([hw_fence_process_fence_array] of [hw_fence_drv_priv.c], defined in
    [HwFenceJoin]): the join fence counts the children that are not signalled
    yet, each such child records the join fence among its parents, and a
    registration that fails leaves no trace of the join fence. *)

From S2P Require Import Prelude HwFenceState HwFenceQueue HwFenceTable HwFenceJoin.

Local Open Scope Z_scope.

(** ** The links of an entry to its join fences *)

Definition signalled (f : msm_hw_fence) : bool := truthy (Z.land (flags f) MSM_HW_FENCE_FLAG_SIGNAL).

(** The join fences a fence belongs to. *)
Definition parents (f : msm_hw_fence) : list Z := take (Z.to_nat (parents_cnt f)) (parent_list f).

Definition links_ok (f : msm_hw_fence) : Prop :=
  length (parent_list f) = 3%nat /\ 0 <= parents_cnt f < MSM_HW_FENCE_MAX_JOIN_PARENTS.

Definition add_parent (h : Z) (f : msm_hw_fence) : msm_hw_fence :=
  f <| parents_cnt := parents_cnt f + 1 |>
    <| parent_list := <[Z.to_nat (parents_cnt f) := h]> (parent_list f) |>.

Definition add_parents (m : nat) (h : Z) (f : msm_hw_fence) : msm_hw_fence :=
  Nat.iter m (add_parent h) f.

(** The same entry, up to the slots of the list of parents that are not in use. *)
Definition same_links (f g : msm_hw_fence) : Prop :=
  f = g <| parent_list := parent_list f |> /\ length (parent_list f) = length (parent_list g) /\
  parents f = parents g.

#[export] Instance same_links_equiv : Equivalence same_links.
Proof.
  split.
  - intros []. by split.
  - intros f g (Hf&Hl&Hp). split; [|by split]. rewrite Hf. by destruct g.
  - intros f g h (Hf&Hl&Hp) (Hg&Hl'&Hp'). split; [|split; congruence]. rewrite Hf, Hg. by destruct h.
Qed.

Lemma add_parents_S m h f : add_parents (S m) h f = add_parent h (add_parents m h f).
Proof. done. Qed.

Lemma add_parents_fields m h f :
  parents_cnt (add_parents m h f) = parents_cnt f + Z.of_nat m /\
  length (parent_list (add_parents m h f)) = length (parent_list f) /\
  add_parents m h f = f <| parents_cnt := parents_cnt (add_parents m h f) |>
                        <| parent_list := parent_list (add_parents m h f) |>.
Proof.
  induction m as [|m (Hc&Hl&He)]; [split; [cbn; lia|split; [done|by destruct f]]|].
  rewrite add_parents_S. unfold add_parent at 1 2. cbn. rewrite Hc, length_insert.
  split; [lia|]. split; [done|]. rewrite He. by destruct f.
Qed.

(** Adding parents appends them. *)
Lemma parents_add_parent h f :
  0 <= parents_cnt f < zlen (parent_list f) -> parents (add_parent h f) = parents f ++ [h].
Proof.
  intros Hc. unfold parents, add_parent, zlen in *. cbn.
  replace (Z.to_nat (parents_cnt f + 1)) with (S (Z.to_nat (parents_cnt f))) by lia.
  rewrite (take_S_r _ _ h) by (apply list_lookup_insert_eq; lia). by rewrite take_insert_ge.
Qed.

(** ** Removing the links

    [cleanup_parents] as a function of the entry. *)
Fixpoint unlink (j : nat) (h : Z) (f : msm_hw_fence) : msm_hw_fence :=
  match j with
  | O => f
  | S j' =>
      unlink j' h
        (if bool_decide (parent_list f !! j' = Some h) then
           f <| parent_list := <[j' := HW_FENCE_INVALID_PARENT_FENCE]> (parent_list f) |>
             <| parents_cnt := if truthy (parents_cnt f) then u32 (parents_cnt f - 1) else parents_cnt f |>
         else f)
  end.

Lemma cleanup_parents_run j h : forall fuel d i f,
  (j <= fuel)%nat -> (j <= 3)%nat -> fence_at d i f -> length (parent_list f) = 3%nat ->
  cleanup_parents fuel (Z.of_nat j) i h d = Done (tt, set_fence i (unlink j h f) d).
Proof.
  induction j as [|j IH]; intros fuel d i f Hfuel Hj Hf Hl.
  { destruct fuel; cbn [cleanup_parents unlink]; by rewrite set_fence_id. }
  destruct fuel as [|fuel]; [lia|]. cbn [cleanup_parents unlink].
  destruct (0 <? Z.of_nat (S j)) eqn:Hpos; [|lia]. cbn [negb].
  destruct (MSM_HW_FENCE_MAX_JOIN_PARENTS <? _) eqn:Hmax; [unfold MSM_HW_FENCE_MAX_JOIN_PARENTS in *; lia|].
  replace (Z.of_nat (S j) - 1) with (Z.of_nat j) by lia. rewrite (get_fence_then _ _ f) by done.
  destruct (lookup_lt_is_Some_2 (parent_list f) j ltac:(lia)) as [p Hp].
  rewrite (liftO_run _ _ _ _ p) by (by rewrite zget_nat).
  rewrite Hp. destruct (Z.eqb_spec p h) as [->|Hne].
  - rewrite bool_decide_true by done.
    set (f1 := f <| parent_list := <[j := HW_FENCE_INVALID_PARENT_FENCE]> (parent_list f) |>).
    set (f2 := f1 <| parents_cnt := _ |>).
    assert (H1 : fence_at (set_fence i f1 d) i f1) by (by eapply set_fence_get).
    rewrite (bind_run _ _ _ tt (set_fence i f2 d)).
    + rewrite (IH fuel _ i f2); [by rewrite set_fence_twice|lia|lia|by eapply set_fence_get|].
      cbn. by rewrite length_insert.
    + rewrite (bind_run _ _ _ tt (set_fence i f1 d)).
      * rewrite (upd_fence_run _ _ f1), set_fence_twice by done. f_equal. f_equal. f_equal.
        change (parents_cnt f1) with (parents_cnt f). unfold f2.
        destruct (truthy (parents_cnt f)); [done|]. by destruct f.
      * unfold store_parent, fence_store. rewrite (get_fence_then _ _ f) by done.
        rewrite (liftO_run _ _ _ _ (<[j := HW_FENCE_INVALID_PARENT_FENCE]> (parent_list f)))
          by (apply zset_nat; lia).
        by rewrite (put_fence_run _ _ f).
  - rewrite bool_decide_false by congruence. rewrite ret_run. apply IH; [lia|lia|done|done].
Qed.

Lemma parents_lookup f i p :
  parents f !! i = Some p -> (i < Z.to_nat (parents_cnt f))%nat /\ parent_list f !! i = Some p.
Proof. unfold parents. by intros [? ?]%lookup_take_Some. Qed.

Lemma unlink_none j h f : (forall i, (i < j)%nat -> parent_list f !! i <> Some h) -> unlink j h f = f.
Proof.
  induction j as [|j IH]; intros Hno; cbn [unlink]; [done|].
  rewrite bool_decide_false by (apply Hno; lia). apply IH. intros i Hi. apply Hno. lia.
Qed.

Lemma same_links_cnt f g : same_links f g -> parents_cnt f = parents_cnt g.
Proof. intros (->&_&_). done. Qed.

(** Removing the links a join fence added gives the entry back. *)
Lemma unlink_added m h f0 : forall f,
  links_ok f0 -> parents_cnt f0 + Z.of_nat m < MSM_HW_FENCE_MAX_JOIN_PARENTS -> h ∉ parents f0 ->
  same_links f (add_parents m h f0) ->
  same_links (unlink (Z.to_nat (parents_cnt f)) h f) f0.
Proof.
  induction m as [|m IH]; intros f Hok Hm Hno Hs.
  - change (add_parents 0 h f0) with f0 in Hs.
    rewrite unlink_none; [done|]. intros i Hi Hp. apply Hno. destruct Hs as (_&_&Hs). rewrite <- Hs. unfold parents. apply list_elem_of_lookup. exists i. by apply lookup_take_Some.
  - rewrite add_parents_S in Hs. set (g := add_parents m h f0) in *. destruct Hok as [Hl0 Hc0].
    destruct (add_parents_fields m h f0) as (Hcg&Hlg&_). fold g in Hcg, Hlg.
    unfold MSM_HW_FENCE_MAX_JOIN_PARENTS in *.
    assert (Hpg : parents (add_parent h g) = parents g ++ [h])
      by (apply parents_add_parent; unfold zlen; lia).
    pose proof (same_links_cnt _ _ Hs) as Hcf. change (parents_cnt (add_parent h g)) with (parents_cnt g + 1) in Hcf.
    destruct Hs as (Hf&Hlf&Hpf). rewrite Hpg in Hpf.
    assert (Hlen : length (parents g) = Z.to_nat (parents_cnt g)) by (unfold parents; rewrite length_take; lia).
    set (j := Z.to_nat (parents_cnt g)) in *.
    replace (Z.to_nat (parents_cnt f)) with (S j) by (unfold j; lia). cbn [unlink].
    assert (Hj : parent_list f !! j = Some h).
    { assert (Hpj : parents f !! j = Some h) by (rewrite Hpf; by apply list_lookup_middle).
      by apply parents_lookup in Hpj as [_ ?]. }
    rewrite bool_decide_true by done.
    set (f2 := f <| parent_list := <[j := HW_FENCE_INVALID_PARENT_FENCE]> (parent_list f) |>
                 <| parents_cnt := _ |>).
    assert (Hc2 : parents_cnt f2 = parents_cnt g).
    { unfold f2. cbn. replace (truthy (parents_cnt f)) with true by (symmetry; apply truthy_true; lia).
      rewrite wrap_small by (unfold is_word; lia). lia. }
    replace j with (Z.to_nat (parents_cnt f2)) by (by rewrite Hc2).
    apply IH; [by split|lia|done|]. split; [|split].
    + transitivity (f <| parent_list := parent_list f2 |> <| parents_cnt := parents_cnt g |>).
      * rewrite <- Hc2. unfold f2. by destruct f.
      * rewrite Hf at 1. by destruct g.
    + unfold f2. cbn. rewrite length_insert, Hlf. unfold add_parent. cbn. by rewrite length_insert.
    + unfold parents at 1. rewrite Hc2. unfold f2. cbn. rewrite take_insert_ge by lia.
      apply (f_equal (take j)) in Hpf. unfold parents at 1 in Hpf. rewrite take_take in Hpf.
      by rewrite take_app_length', Nat.min_l in Hpf by lia.
Qed.

Lemma unlink_lock j h v : forall f, unlink j h (f <| lock := v |>) = (unlink j h f) <| lock := v |>.
Proof.
  induction j as [|j IH]; intros f; cbn [unlink]; [done|].
  change (parent_list (f <| lock := v |>)) with (parent_list f).
  destruct (bool_decide _); rewrite <- IH; done.
Qed.

Lemma unlink_fields j h : forall f,
  unlink j h f = f <| parent_list := parent_list (unlink j h f) |> <| parents_cnt := parents_cnt (unlink j h f) |>.
Proof.
  induction j as [|j IH]; intros f; cbn [unlink]; [by destruct f|].
  rewrite IH. by destruct (bool_decide _), f.
Qed.

(** ** States that differ in the links of the table only

    [evolved R d0 d]: [d] is [d0] with each entry [f0] of the table, at index
    [k], replaced by some [f] with [R k f0 f]; keys, locks, flags and client
    data are kept. *)

Record core (f0 f : msm_hw_fence) : Prop := {
  co_ctx : ctx_id f = ctx_id f0;
  co_seq : seq_id f = seq_id f0;
  co_lock : lock f = lock f0;
  co_flags : flags f = flags f0;
  co_data : client_data f = client_data f0;
}.

#[export] Instance core_preorder : PreOrder core.
Proof. split; [by intros []; split|]. intros x y z [] []. split; congruence. Qed.

Record evolved (R : Z -> msm_hw_fence -> msm_hw_fence -> Prop) (d0 d : hw_fence_driver_data) : Prop := {
  ev_frame : d = d0 <| hw_fences_tbl := hw_fences_tbl d |>;
  ev_len : zlen (hw_fences_tbl d) = zlen (hw_fences_tbl d0);
  ev_entries : forall k f0, fence_at d0 k f0 -> exists f, fence_at d k f /\ core f0 f /\ R k f0 f;
}.

Lemma evolved_back R d0 d k f :
  evolved R d0 d -> fence_at d k f -> exists f0, fence_at d0 k f0 /\ core f0 f /\ R k f0 f.
Proof.
  intros [_ Hl He] Hf. pose proof (zget_Some _ _ _ Hf) as Hk. rewrite Hl in Hk.
  destruct (zget_is_Some _ _ Hk) as [f0 Hf0]. exists f0. split; [done|].
  destruct (He k f0 Hf0) as (f'&Hf'&?). unfold fence_at in *. by assert (f' = f) as -> by congruence.
Qed.

Lemma evolved_refl (R : Z -> msm_hw_fence -> msm_hw_fence -> Prop) d :
  (forall k f, fence_at d k f -> R k f f) -> evolved R d d.
Proof. intros HR. split; [by destruct d|done|]. intros k f Hf. exists f. split; [done|]. split; [reflexivity|auto]. Qed.

Lemma evolved_set (R R' : Z -> msm_hw_fence -> msm_hw_fence -> Prop) d0 d k f0 f f' :
  evolved R d0 d -> fence_at d0 k f0 -> fence_at d k f -> core f f' -> R' k f0 f' ->
  (forall j g0 g, j <> k -> fence_at d0 j g0 -> R j g0 g -> R' j g0 g) ->
  evolved R' d0 (set_fence k f' d).
Proof.
  intros Hev Hf0 Hf Hc HR Hother. pose proof Hev as [Hfr Hl He]. split.
  - rewrite Hfr at 1. reflexivity.
  - rewrite <- Hl. unfold set_fence. cbn. apply zlen_insert.
  - intros j g0 Hg0. destruct (decide (j = k)) as [->|Hne].
    + exists f'. split; [by eapply set_fence_get|].
      assert (g0 = f0) as -> by (unfold fence_at in *; congruence). split; [|done].
      destruct (He k f0 Hf0) as (f1&Hf1&Hc1&_).
      assert (f1 = f) as -> by (unfold fence_at in *; congruence). by transitivity f.
    + destruct (He j g0 Hg0) as (g&Hg&Hcg&HRg). exists g. split; [|auto].
      apply (set_fence_at d k f f'); [done|]. by rewrite decide_False.
Qed.

Lemma evolved_weaken (R R' : Z -> msm_hw_fence -> msm_hw_fence -> Prop) d0 d :
  evolved R d0 d -> (forall k f0 f, R k f0 f -> R' k f0 f) -> evolved R' d0 d.
Proof.
  intros [Hfr Hl He] HR. split; [done..|]. intros k f0 Hf0. destruct (He k f0 Hf0) as (f&?&?&?). eauto.
Qed.

Lemma evolved_field {T} (g : hw_fence_driver_data -> T) R d0 d :
  (forall d t, g (d <| hw_fences_tbl := t |>) = g d) -> evolved R d0 d -> g d = g d0.
Proof. intros Hg [-> _ _]. apply Hg. Qed.

Lemma evolved_ready R caps rxs d0 d :
  evolved R d0 d -> drv_ready caps rxs d0 -> drv_ready caps rxs d.
Proof.
  intros Hev [[Hn Hpos Hw Hlk] Hf Hcl].
  pose proof (evolved_field hw_fence_table_entries R d0 d ltac:(done) Hev) as Hn'.
  pose proof (evolved_field clients R d0 d ltac:(done) Hev) as Hc'.
  pose proof (evolved_field client_lock_tbl R d0 d ltac:(done) Hev) as Hl'.
  pose proof (evolved_field client_lock_tbl_cnt R d0 d ltac:(done) Hev) as Hln'.
  pose proof (ev_len _ _ _ Hev) as Hlen.
  assert (Hall : forall k f, hw_fences_tbl d !! k = Some f ->
    exists f0, hw_fences_tbl d0 !! k = Some f0 /\ core f0 f).
  { intros k f Hk. rewrite <- zget_nat in Hk. destruct (evolved_back R d0 d _ f Hev Hk) as (f0&Hf0&Hc&_).
    exists f0. split; [by rewrite <- zget_nat|done]. }
  split; [split; rewrite ?Hn', ?Hlen; try done| |].
  - apply Forall_lookup_2. intros k f (f0&Hf0&Hc)%Hall. rewrite (co_lock _ _ Hc).
    exact (Forall_lookup_1 _ _ _ _ Hlk Hf0).
  - apply Forall_lookup_2. intros k f (f0&Hf0&[Hx Hs _ _ Hd])%Hall.
    destruct (Forall_lookup_1 _ _ _ _ Hf Hf0). split; by rewrite ?Hx, ?Hs, ?Hd.
  - intros c cl Hc. unfold client_at in Hc. rewrite Hc' in Hc.
    eapply client_ok_transfer; [exact Hl'|exact Hln'|reflexivity|by apply Hcl].
Qed.

(** ** Finding an entry depends on the keys only *)

Definition resolve (d : hw_fence_driver_data) (context seqno : Z) : option Z :=
  match scan HW_FENCE_LOOKUP_OP_FIND_FENCE context seqno (hw_fences_tbl d)
          (probes (hw_fence_table_entries d) context seqno) with
  | Found i => Some i
  | _ => None
  end.

Lemma find_resolve caps rxs d c cl context seqno :
  drv_ready caps rxs d -> client_at d c cl ->
  exists h, msm_hw_fence_find (Some c) context seqno d = Done ((resolve d context seqno, h), d).
Proof.
  intros [Hok _ _] Hc. rewrite (find_run _ _ cl), lookup_run by done. unfold resolve.
  destruct (scan _ _ _ _ _) as [i|i|] eqn:Hs; [|by eexists..].
  apply scan_found in Hs as (_&_&f&_&_&Hf&_). eexists.
  rewrite (process_entry_eq _ _ _ _ _ _ _ f) by done. cbn [processed bump is_create].
  by rewrite set_fence_id.
Qed.

Lemma resolve_evolved R d0 d context seqno :
  evolved R d0 d -> resolve d context seqno = resolve d0 context seqno.
Proof.
  intros Hev. unfold resolve. rewrite (evolved_field hw_fence_table_entries R d0 d) by done.
  assert (Hs : forall l, scan HW_FENCE_LOOKUP_OP_FIND_FENCE context seqno (hw_fences_tbl d) l
    = scan HW_FENCE_LOOKUP_OP_FIND_FENCE context seqno (hw_fences_tbl d0) l); [|by rewrite Hs].
  induction l as [|i l IH]; cbn [scan is_create andb compare_fnc]; [done|].
  destruct (zget (hw_fences_tbl d0) i) as [f0|] eqn:H0.
  - destruct (ev_entries _ _ _ Hev i f0 H0) as (f&Hf&[Hx Hsq _ _ _]&_). rewrite Hf.
    unfold _hw_fence_match. by rewrite Hx, Hsq, IH.
  - destruct (zget (hw_fences_tbl d) i) as [f|] eqn:H1; [|done].
    destruct (evolved_back R d0 d i f Hev H1) as (f0&Hf0&_). unfold fence_at in Hf0. congruence.
Qed.

Lemma resolve_key caps rxs d context seqno k :
  drv_ready caps rxs d -> resolve d context seqno = Some k ->
  exists f, fence_at d k f /\ has_key f context seqno.
Proof.
  intros _. unfold resolve. destruct (scan _ _ _ _ _) as [i|i|] eqn:Hs; intros [= <-].
  apply scan_found in Hs as (_&_&f&_&_&Hf&Hc). exists f. split; [done|]. by apply match_key.
Qed.

(** ** One child under its lock *)

Lemma set_fence_comm d i j f g :
  i <> j -> 0 <= i -> 0 <= j -> set_fence i f (set_fence j g d) = set_fence j g (set_fence i f d).
Proof.
  intros Hne Hi Hj.
  transitivity (d <| hw_fences_tbl := <[Z.to_nat i := f]> (<[Z.to_nat j := g]> (hw_fences_tbl d)) |>);
    [reflexivity|]. rewrite list_insert_insert_ne by lia. reflexivity.
Qed.

(** The join fence told that a child is signalled already. *)
Definition absorb (e : Z) (j : msm_hw_fence) : msm_hw_fence :=
  j <| error := Z.lor (error j) e |> <| pending_child_cnt := u32 (pending_child_cnt j - 1) |>.

Lemma link_signalled d k h f j b :
  fence_at d k f -> fence_at d h j -> k <> h -> low32 (lock f) = 0 -> low32 (lock j) = 0 ->
  signalled f = true ->
  link_child k h h b d
  = Done (inr (if pending_child_cnt (absorb (error f) j) =? 0 then true else b),
          set_fence h (absorb (error f) j) d).
Proof.
  intros Hf Hj Hne Hlf Hlj Hsig. pose proof (zget_Some _ _ _ Hf). pose proof (zget_Some _ _ _ Hj).
  unfold link_child. rewrite (bind_run _ _ _ _ _ (lock_fence_run d k f Hf Hlf)).
  set (f1 := f <| lock := lock f + 1 |>). set (d1 := set_fence k f1 d).
  assert (Hf1 : fence_at d1 k f1) by (by eapply set_fence_get).
  assert (Hj1 : fence_at d1 h j) by (apply (set_fence_at d k f f1 h j Hf); by rewrite decide_False).
  rewrite (get_fence_then _ _ f1) by done.
  change (truthy (Z.land (flags f1) MSM_HW_FENCE_FLAG_SIGNAL)) with (signalled f). rewrite Hsig.
  rewrite (bind_run _ _ _ _ _ (lock_fence_run d1 h j Hj1 Hlj)).
  set (j1 := j <| lock := lock j + 1 |>).
  assert (Hf2 : fence_at (set_fence h j1 d1) k f1)
    by (apply (set_fence_at d1 h j j1 k f1 Hj1); by rewrite decide_False).
  assert (Hj2 : fence_at (set_fence h j1 d1) h j1) by (by eapply set_fence_get).
  rewrite (get_fence_then _ _ f1), (upd_fence_then _ _ j1), set_fence_twice by done.
  set (j2 := j1 <| error ::= _ |>).
  assert (Hj3 : fence_at (set_fence h j2 d1) h j2) by (by eapply set_fence_get).
  rewrite (upd_fence_then _ _ j2), set_fence_twice by done.
  set (j3 := j2 <| pending_child_cnt ::= _ |>).
  assert (Hj4 : fence_at (set_fence h j3 d1) h j3) by (by eapply set_fence_get).
  rewrite (get_fence_then _ _ j3) by done.
  rewrite (bind_run _ _ _ _ _ (unlock_fence_run _ _ j3 (lock j) Hj4 eq_refl Hlj)), set_fence_twice.
  change (j3 <| lock := lock j |>) with (absorb (error f) j).
  rewrite (bind_run _ _ _ tt (set_fence h (absorb (error f) j) d)); [done|].
  rewrite (unlock_fence_run _ _ f1 (lock f)); [|apply (set_fence_at d1 h j); [done|by rewrite decide_False]|done|done].
  unfold d1. rewrite (set_fence_comm _ h k), set_fence_twice, (set_fence_comm _ k h) by lia.
  replace (f1 <| lock := lock f |>) with f by (by destruct f). by rewrite (set_fence_id d k f Hf).
Qed.

Lemma link_unsignalled d k h f b :
  fence_at d k f -> low32 (lock f) = 0 -> links_ok f -> signalled f = false ->
  link_child k h h b d
  = if MSM_HW_FENCE_MAX_JOIN_PARENTS <=? parents_cnt f + 1 then Done (inl tt, d)
    else Done (inr b, set_fence k (add_parent h f) d).
Proof.
  intros Hf Hlf [Hl Hcnt] Hsig. unfold MSM_HW_FENCE_MAX_JOIN_PARENTS in *.
  unfold link_child. rewrite (bind_run _ _ _ _ _ (lock_fence_run d k f Hf Hlf)).
  set (f1 := f <| lock := lock f + 1 |>).
  assert (Hf1 : fence_at (set_fence k f1 d) k f1) by (by eapply set_fence_get).
  rewrite (get_fence_then _ _ f1) by done.
  change (truthy (Z.land (flags f1) MSM_HW_FENCE_FLAG_SIGNAL)) with (signalled f). rewrite Hsig.
  rewrite (upd_fence_then _ _ f1), set_fence_twice by done.
  set (f2 := f1 <| parents_cnt ::= _ |>).
  assert (Hc2 : parents_cnt f2 = parents_cnt f + 1)
    by (change (u32 (parents_cnt f + 1) = parents_cnt f + 1); apply wrap_small; unfold is_word; lia).
  assert (Hf2 : fence_at (set_fence k f2 d) k f2) by (by eapply set_fence_get).
  rewrite (get_fence_then _ _ f2) by done. rewrite Hc2. unfold MSM_HW_FENCE_MAX_JOIN_PARENTS.
  destruct (3 <=? parents_cnt f + 1) eqn:Hmax; cbn [orb].
  - rewrite (upd_fence_then _ _ f2), set_fence_twice by done.
    set (f3 := f2 <| parents_cnt ::= _ |>).
    assert (Hf3 : fence_at (set_fence k f3 d) k f3) by (by eapply set_fence_get).
    rewrite (bind_run _ _ _ _ _ (unlock_fence_run _ _ f3 (lock f) Hf3 eq_refl Hlf)), set_fence_twice.
    replace (f3 <| lock := lock f |>) with f; [by rewrite (set_fence_id d k f Hf)|].
    unfold f3. change (upd parents_cnt (fun n => u32 (n - 1)) f2) with (f2 <| parents_cnt := u32 (parents_cnt f2 - 1) |>).
    rewrite Hc2, wrap_small by (unfold is_word; lia). replace (parents_cnt f + 1 - 1) with (parents_cnt f) by lia.
    by destruct f.
  - destruct (parents_cnt f + 1 <? 1) eqn:Hlt; [lia|].
    set (f3 := f2 <| parent_list := <[Z.to_nat (parents_cnt f) := h]> (parent_list f) |>).
    rewrite (bind_run _ _ _ tt (set_fence k f3 d)).
    + assert (Hf3 : fence_at (set_fence k f3 d) k f3) by (by eapply set_fence_get).
      rewrite (bind_run _ _ _ _ _ (unlock_fence_run _ _ f3 (lock f) Hf3 eq_refl Hlf)), set_fence_twice.
      replace (f3 <| lock := lock f |>) with (add_parent h f); [done|].
      unfold add_parent. rewrite <- Hc2. by destruct f.
    + unfold store_parent, fence_store. rewrite (get_fence_then _ _ f2) by done.
      replace (parents_cnt f + 1 - 1) with (parents_cnt f) by lia.
      change (parent_list f2) with (parent_list f).
      rewrite (liftO_run _ _ _ _ _ (zset_in (parent_list f) (parents_cnt f) h ltac:(unfold zlen; lia))).
      by rewrite (put_fence_run _ _ f2), set_fence_twice.
Qed.

(** ** Linking the children to the join fence *)

Lemma elem_of_down i j : 0 <= j -> i ∈ down_to_0 j <-> 0 <= i <= j.
Proof.
  intros Hj. unfold down_to_0. rewrite list_elem_of_In, <- in_rev, <- list_elem_of_In, list_elem_of_fmap.
  split.
  - intros (n&->&Hn%elem_of_seq). lia.
  - intros Hi. exists (Z.to_nat i). split; [lia|]. apply elem_of_seq. lia.
Qed.

Section Children.
Context (caps : Z -> nat) (rxs : Z -> list message) (d0 : hw_fence_driver_data).
Context (c : Z) (cl : msm_hw_fence_client) (array : dma_fence_array) (l : list (option Z)).
Context (h : Z) (jf : msm_hw_fence).
Context (Hready : drv_ready caps rxs d0) (Hc : client_at d0 c cl).
Context (Hl : fences array = Some l) (Hjf : fence_at d0 h jf).
Context (Hlinks : forall k f, fence_at d0 k f -> links_ok f).
Context (Hpend : pending_child_cnt jf = zlen l) (Hword : is_word 32 (zlen l)).

(** The children are valid fences of the kernel with keys of their own. *)
Definition child_valid (o : option Z) : Prop :=
  exists q cf, o = Some q /\ zget (dma_fences d0) q = Some cf /\
    ~ has_key jf (df_context cf) (df_seqno cf).

Context (Hvalid : Forall child_valid l).

(** The entry of a child that can be joined: a hardware fence, not an array,
    with an entry in the table. *)
Definition child_entry (o : option Z) : option Z :=
  match o with
  | None => None
  | Some q =>
      match zget (dma_fences d0) q with
      | None => None
      | Some cf =>
          match df_array cf with
          | Some _ => None
          | None => if test_bit (MSM_HW_FENCE_FLAG_ENABLED_BIT (uapi d0)) cf
                    then resolve d0 (df_context cf) (df_seqno cf) else None
          end
      end
  end.

Definition sig_at (k : Z) : bool :=
  match zget (hw_fences_tbl d0) k with Some f => signalled f | None => false end.

Definition err_at (k : Z) : Z :=
  match zget (hw_fences_tbl d0) k with Some f => error f | None => 0 end.

Definition signalled_of (ks : list Z) : list Z := filter (fun k => sig_at k = true) ks.

(** The join fence after the children [ks]. *)
Definition joined (ks : list Z) (f : msm_hw_fence) : msm_hw_fence :=
  f <| error := fold_left (fun e k => Z.lor e (err_at k)) (signalled_of ks) (error f) |>
    <| pending_child_cnt := u32 (pending_child_cnt f - zlen (signalled_of ks)) |>.

(** An entry after the children [ks]: the join fence, or an entry with one link
    for each time it is an unsignalled child. *)
Definition linked (ks : list Z) (k : Z) (f0 f : msm_hw_fence) : Prop :=
  if k =? h then f = joined ks f0
  else f = add_parents (if signalled f0 then 0 else count_occ Z.eq_dec ks k) h f0 /\
       parents_cnt f < MSM_HW_FENCE_MAX_JOIN_PARENTS.

Lemma linked_nil k f : fence_at d0 k f -> linked [] k f f.
Proof using Hlinks Hpend Hword Hjf.
  intros Hf. unfold linked. destruct (Z.eqb_spec k h) as [->|_].
  - assert (f = jf) as -> by (unfold fence_at in *; congruence).
    unfold joined. change (signalled_of []) with (@nil Z). change (zlen []) with 0.
    rewrite Z.sub_0_r, wrap_small by (by rewrite Hpend). by destruct jf.
  - destruct (Hlinks k f Hf) as [_ [_ ?]]. by destruct (signalled f).
Qed.

Lemma child_entry_not_join o k : child_valid o -> child_entry o = Some k -> k <> h.
Proof using Hready Hjf.
  intros (q&cf&->&Hq&Hne). unfold child_entry. rewrite Hq. destruct (df_array cf); [done|].
  destruct (test_bit _ cf); [|done]. intros (f&Hf&Hk)%(resolve_key caps rxs); [|done]. intros ->.
  unfold fence_at in *. by assert (f = jf) as -> by congruence.
Qed.

Lemma signalled_of_app ks k :
  signalled_of (ks ++ [k]) = signalled_of ks ++ (if sig_at k then [k] else []).
Proof. unfold signalled_of. rewrite filter_app, filter_cons, filter_nil. by destruct (sig_at k). Qed.

Lemma count_occ_snoc (ks : list Z) k j :
  count_occ Z.eq_dec (ks ++ [k]) j = (count_occ Z.eq_dec ks j + if decide (j = k) then 1 else 0)%nat.
Proof.
  rewrite count_occ_app. cbn. destruct (Z.eq_dec k j), (decide (j = k)); congruence || done.
Qed.

(** The entries a further child does not concern. *)
Lemma linked_other ks k j g0 g :
  (j = h -> sig_at k = false) -> (j = k -> signalled g0 = true) ->
  linked ks j g0 g -> linked (ks ++ [k]) j g0 g.
Proof using Type.
  intros Hh Hk. unfold linked, joined. destruct (Z.eqb_spec j h) as [->|_].
  - rewrite signalled_of_app, (Hh eq_refl), app_nil_r. done.
  - rewrite count_occ_snoc. destruct (decide (j = k)) as [->|_]; [by rewrite (Hk eq_refl)|].
    by rewrite Nat.add_0_r.
Qed.

(** The join fence absorbs a signalled child. *)
Lemma joined_snoc ks k f :
  sig_at k = true -> joined (ks ++ [k]) f = absorb (err_at k) (joined ks f).
Proof using Type.
  intros Hsig. unfold joined, absorb. rewrite signalled_of_app, Hsig, fold_left_app, zlen_app. cbn.
  change (zlen [k]) with 1.
  assert (Hm : u32 (u32 (pending_child_cnt f - zlen (signalled_of ks)) - 1)
    = u32 (pending_child_cnt f - (zlen (signalled_of ks) + 1))).
  { unfold wrap. rewrite Zminus_mod_idemp_l. f_equal. lia. }
  by rewrite Hm.
Qed.

(** The join fence in a state with the children [ks] linked. *)
Lemma linked_join ks d : evolved (linked ks) d0 d -> fence_at d h (joined ks jf).
Proof using Hjf.
  intros Hev. destruct (ev_entries _ _ _ Hev h jf Hjf) as (f&Hf&_&HR). unfold linked in HR.
  rewrite Z.eqb_refl in HR. by subst.
Qed.

(** The flag [signal_join_fence] after a child. *)
Definition next_flag (ks : list Z) (k : Z) (b : bool) : bool :=
  if sig_at k && (pending_child_cnt (joined (ks ++ [k]) jf) =? 0) then true else b.

(** The entry [k] is not signalled and takes no further parent once it has the
    links of the children [ks]. *)
Definition crowded (ks : list Z) (k : Z) : Prop :=
  exists f0, fence_at d0 k f0 /\ signalled f0 = false /\
    MSM_HW_FENCE_MAX_JOIN_PARENTS <= parents_cnt f0 + Z.of_nat (count_occ Z.eq_dec ks k) + 1.

(** The child cannot be joined after the children [ks]. *)
Definition refused (ks : list Z) (o : option Z) : Prop :=
  forall k, child_entry o = Some k -> crowded ks k.

Lemma link_child_run ks d k b :
  evolved (linked ks) d0 d -> k <> h -> is_Some (zget (hw_fences_tbl d0) k) ->
  (exists d', link_child k h h b d = Done (inr (next_flag ks k b), d') /\
     evolved (linked (ks ++ [k])) d0 d')
  \/ (link_child k h h b d = Done (inl tt, d) /\ crowded ks k).
Proof using Hready Hjf Hlinks.
  intros Hev Hne [f0 Hf0]. destruct (ev_entries _ _ _ Hev k f0 Hf0) as (f&Hf&Hcore&HR).
  unfold linked in HR. destruct (Z.eqb_spec k h); [done|]. destruct HR as [HR Hcnt].
  destruct (drv_ready_fence _ _ _ _ _ Hready Hf0) as (_&Hlf&_).
  destruct (drv_ready_fence _ _ _ _ _ Hready Hjf) as (_&Hlj&_).
  rewrite <- (co_lock _ _ Hcore) in Hlf.
  assert (Hsig : signalled f = sig_at k).
  { unfold sig_at. rewrite Hf0. unfold signalled. by rewrite (co_flags _ _ Hcore). }
  assert (Hsig0 : signalled f0 = sig_at k) by (unfold sig_at; by rewrite Hf0).
  pose proof (linked_join ks d Hev) as Hj.
  destruct (sig_at k) eqn:Hs.
  - left. eexists. split.
    + assert (Herr : error f = err_at k).
      { unfold err_at. rewrite Hf0, HR, Hsig0. done. }
      rewrite (link_signalled d k h f (joined ks jf) b Hf Hj Hne Hlf Hlj Hsig), Herr.
      unfold next_flag. rewrite <- joined_snoc, Hs by done. reflexivity.
    + eapply (evolved_set (linked ks) _ d0 d h jf); [done|done|done|by split| |].
      * unfold linked. rewrite Z.eqb_refl. by rewrite joined_snoc.
      * intros j g0 g Hnj Hg0. apply linked_other; [done|]. intros ->.
        assert (g0 = f0) as -> by (unfold fence_at in *; congruence). done.
  - destruct (Hlinks k f0 Hf0) as [Hl0 Hc0]. rewrite Hsig0 in HR.
    destruct (add_parents_fields (count_occ Z.eq_dec ks k) h f0) as (Hcf&Hlf'&_). rewrite <- HR in Hcf, Hlf'.
    rewrite (link_unsignalled d k h f b Hf Hlf); [|split; [congruence|lia]|done].
    destruct (_ <=? _) eqn:Hmax; [right; split; [done|exists f0; split; [done|split; [congruence|lia]]]|].
    left. eexists. split.
    + unfold next_flag. rewrite Hs. reflexivity.
    + eapply (evolved_set (linked ks) _ d0 d k f0); [done|done|done|by split| |].
      * unfold linked. destruct (Z.eqb_spec k h); [done|]. rewrite Hsig0, count_occ_snoc, decide_True by done.
        rewrite Nat.add_1_r, add_parents_S, <- HR. split; [done|].
        change (parents_cnt (add_parent h f)) with (parents_cnt f + 1). lia.
      * intros j g0 g Hnj Hg0. by apply linked_other.
Qed.

Lemma process_child_run ks d i o b :
  evolved (linked ks) d0 d -> zget l i = Some o -> child_valid o ->
  (exists k d', child_entry o = Some k /\
     process_child c array h h i b d = Done (inr (next_flag ks k b), d') /\
     evolved (linked (ks ++ [k])) d0 d')
  \/ (process_child c array h h i b d = Done (inl tt, d) /\ refused ks o).
Proof using Hready Hc Hl Hjf Hlinks.
  intros Hev Hi Hv. pose proof Hv as (q&cf&->&Hq&Hne).
  assert (Hqd : zget (dma_fences d) q = Some cf) by (by rewrite (evolved_field dma_fences (linked ks) d0 d)).
  unfold process_child, array_fence. rewrite Hl, (liftO_run _ _ _ _ _ Hi).
  rewrite (to_array_then _ _ cf) by done.
  pose proof (evolved_field uapi (linked ks) d0 d ltac:(done) Hev) as Hu.
  destruct (child_entry (Some q)) as [k|] eqn:Hk; pose proof Hk as Hentry; unfold child_entry in Hk;
    rewrite Hq in Hk.
  2:{ right. split; [|intros ?; congruence]. destruct (df_array cf); [done|]. rewrite (get_dma_then _ _ cf), getM_run, Hu by done.
      destruct (test_bit _ cf); [|done]. cbn [negb].
      destruct (find_resolve caps rxs d c cl (df_context cf) (df_seqno cf)) as [h' Hf];
        [by eapply evolved_ready|unfold client_at; by rewrite (evolved_field clients (linked ks) d0 d)|].
      rewrite (bind_run _ _ _ _ _ Hf). by rewrite (resolve_evolved (linked ks) d0 d), Hk. }
  pose proof (child_entry_not_join (Some q) k Hv) as Hkh. unfold child_entry in Hkh. rewrite Hq in Hkh.
  specialize (Hkh Hk).
  destruct (df_array cf); [done|]. rewrite (get_dma_then _ _ cf), getM_run, Hu by done.
  destruct (test_bit _ cf); [|done]. cbn [negb].
  destruct (find_resolve caps rxs d c cl (df_context cf) (df_seqno cf)) as [h' Hf];
    [by eapply evolved_ready|unfold client_at; by rewrite (evolved_field clients (linked ks) d0 d)|].
  rewrite (bind_run _ _ _ _ _ Hf), (resolve_evolved (linked ks) d0 d), Hk by done.
  apply (resolve_key caps rxs) in Hk as (f&Hfk&_); [|done].
  destruct (link_child_run ks d k b Hev Hkh) as [(d'&Hrun&Hev')|[Hrun Hfull]]; [by exists f| |].
  2:{ right. split; [done|]. intros k'. rewrite Hentry. by intros [= <-]. }
  left. by exists k, d'.
Qed.

(** All the children are signalled. *)
Definition all_signalled (ks : list Z) : bool := zlen (signalled_of ks) =? zlen l.

Lemma signalled_of_length ks : zlen (signalled_of ks) <= zlen ks.
Proof using Type. unfold zlen, signalled_of. pose proof (length_filter (fun k => sig_at k = true) ks). lia. Qed.

Lemma next_flag_all ks k :
  zlen ks < zlen l -> next_flag ks k (all_signalled ks) = all_signalled (ks ++ [k]).
Proof using Hpend Hword.
  intros Hlt. unfold next_flag, all_signalled. pose proof (signalled_of_length ks).
  pose proof (zlen_nonneg (signalled_of ks)).
  unfold joined. cbn [pending_child_cnt]. rewrite signalled_of_app.
  destruct (sig_at k); cbn [andb].
  - rewrite zlen_app. change (zlen [k]) with 1. cbn. rewrite Hpend. unfold is_word in Hword.
    rewrite wrap_small by (unfold is_word; lia).
    destruct (_ =? 0) eqn:H1; lia.
  - by rewrite app_nil_r.
Qed.

(** The entries of the children that were linked. *)
Definition entries (os : list (option Z)) (ks : list Z) : Prop :=
  Forall2 (fun o k => child_entry o = Some k) os ks.

(** Some child cannot be joined after the children before it. *)
Definition some_refused : Prop :=
  exists j ks o, entries (take j l) ks /\ l !! j = Some o /\ refused ks o.

Lemma process_children_run n : forall i ks d,
  evolved (linked ks) d0 d -> (i + n)%nat = length l -> entries (take i l) ks ->
  exists r d' ks', process_children (map Z.of_nat (seq i n)) c array h h (all_signalled ks) d = Done (r, d') /\
    evolved (linked ks') d0 d' /\
    match r with
    | inr b => entries l ks' /\ b = all_signalled ks'
    | inl j => 0 <= j < zlen l /\ entries (take (Z.to_nat j) l) ks' /\
        exists o, zget l j = Some o /\ refused ks' o
    end.
Proof using Hready Hc Hl Hjf Hlinks Hpend Hword Hvalid.
  induction n as [|n IH]; intros i ks d Hev Hi Hks; cbn [seq map process_children].
  - eexists _, d, ks. split; [reflexivity|]. split; [done|]. split; [|done].
    by rewrite take_ge in Hks by lia.
  - destruct (lookup_lt_is_Some_2 l i ltac:(lia)) as [o Ho].
    assert (Hzl : zlen ks < zlen l).
    { apply Forall2_length in Hks. rewrite length_take in Hks. unfold zlen. lia. }
    destruct (process_child_run ks d (Z.of_nat i) o (all_signalled ks) Hev)
      as [(k&d1&Hk&Hrun&Hev1)|[Hrun Href]]; [by rewrite zget_nat|exact (Forall_lookup_1 _ _ _ _ Hvalid Ho)| |].
    + rewrite (bind_run _ _ _ _ _ Hrun), next_flag_all by done.
      apply IH; [done|lia|]. rewrite (take_S_r _ _ _ Ho). apply Forall2_app; [done|by constructor].
    + rewrite (bind_run _ _ _ _ _ Hrun). eexists _, d, ks. split; [reflexivity|]. split; [done|].
      rewrite Nat2Z.id. unfold zlen. split; [lia|]. split; [done|]. exists o. by rewrite zget_nat.
Qed.

(** ** Undoing the links *)

(** The entry of a child, whatever its flags. *)
Definition child_found (o : option Z) : option Z :=
  match o with
  | None => None
  | Some q => match zget (dma_fences d0) q with
              | None => None
              | Some cf => resolve d0 (df_context cf) (df_seqno cf)
              end
  end.

Lemma child_entry_found o k : child_entry o = Some k -> child_found o = Some k.
Proof using Type.
  unfold child_entry, child_found. destruct o as [q|]; [|done]. destruct (zget _ q) as [cf|]; [|done].
  destruct (df_array cf); [done|]. by destruct (test_bit _ cf).
Qed.

Lemma child_found_not_join o k : child_valid o -> child_found o = Some k -> k <> h.
Proof using Hready Hjf.
  intros (q&cf&->&Hq&Hne). unfold child_found. rewrite Hq.
  intros (f&Hf&Hk)%(resolve_key caps rxs); [|done]. intros ->.
  unfold fence_at in *. by assert (f = jf) as -> by congruence.
Qed.

(** During the clean-up: only the entries in [dirty] still have links. *)
Definition partly (dirty : Z -> Prop) (k : Z) (f0 f : msm_hw_fence) : Prop :=
  k = h \/ exists m, same_links f (add_parents m h f0) /\
    parents_cnt f0 + Z.of_nat m < MSM_HW_FENCE_MAX_JOIN_PARENTS /\ (~ dirty k -> m = 0%nat).

Lemma linked_partly ks k f0 f : linked ks k f0 f -> partly (fun k => k ∈ ks) k f0 f.
Proof using Type.
  unfold linked, partly. destruct (Z.eqb_spec k h); [by left|]. intros [-> Hcnt]. right.
  eexists. split; [reflexivity|].
  destruct (add_parents_fields (if signalled f0 then 0 else count_occ Z.eq_dec ks k) h f0) as (Hc0&_).
  split; [lia|]. intros Hno. destruct (signalled f0); [done|]. apply count_occ_not_In.
  by rewrite <- list_elem_of_In.
Qed.

Context (Hfresh : forall k f, fence_at d0 k f -> h ∉ parents f).

Lemma cleanup_entry_run dirty d k :
  evolved (partly dirty) d0 d -> k <> h -> is_Some (zget (hw_fences_tbl d0) k) ->
  exists d',
    (lock_fence k ;;
     f ← get_fence k;
     cleanup_parents 3 (s32 (parents_cnt f)) k h ;;
     unlock_fence k) d = Done (tt, d') /\
    evolved (partly (fun j => dirty j /\ j <> k)) d0 d'.
Proof using Hready Hlinks Hfresh.
  intros Hev Hne [f0 Hf0]. destruct (ev_entries _ _ _ Hev k f0 Hf0) as (f&Hf&Hcore&[Hk|(m&Hs&Hm&_)]); [done|].
  destruct (drv_ready_fence _ _ _ _ _ Hready Hf0) as (_&Hlf&_). rewrite <- (co_lock _ _ Hcore) in Hlf.
  destruct (add_parents_fields m h f0) as (Hcm&Hlm&_). destruct (Hlinks k f0 Hf0) as [Hl0 Hc0].
  pose proof (same_links_cnt _ _ Hs) as Hcf. pose proof (proj1 (proj2 Hs)) as Hlenf.
  unfold MSM_HW_FENCE_MAX_JOIN_PARENTS in *.
  rewrite (bind_run _ _ _ _ _ (lock_fence_run d k f Hf Hlf)). set (f1 := f <| lock := lock f + 1 |>).
  assert (Hf1 : fence_at (set_fence k f1 d) k f1) by (by eapply set_fence_get).
  rewrite (get_fence_then _ _ f1) by done.
  assert (Hs32 : s32 (parents_cnt f1) = Z.of_nat (Z.to_nat (parents_cnt f))).
  { change (parents_cnt f1) with (parents_cnt f). rewrite Z2Nat.id by lia. unfold signed.
    rewrite wrap_small by (unfold is_word; lia). by rewrite bool_decide_true by lia. }
  rewrite Hs32. set (j := Z.to_nat (parents_cnt f)).
  assert (Hj : (j <= 3)%nat) by (unfold j; lia).
  assert (Hl1 : length (parent_list f1) = 3%nat) by (change (length (parent_list f) = 3%nat); congruence).
  rewrite (bind_run _ _ _ _ _ (cleanup_parents_run j h 3 _ k f1 Hj Hj Hf1 Hl1)).
  rewrite set_fence_twice. unfold f1. rewrite unlink_lock. set (u := (unlink j h f) <| lock := lock f + 1 |>).
  assert (Hu : fence_at (set_fence k u d) k u) by (by eapply set_fence_get).
  rewrite (unlock_fence_run _ _ u (lock f) Hu eq_refl Hlf), set_fence_twice.
  assert (Hul : u <| lock := lock f |> = unlink j h f).
  { unfold u. rewrite (unlink_fields j h f). by destruct f. }
  rewrite Hul. eexists. split; [reflexivity|].
  eapply (evolved_set (partly dirty) _ d0 d k f0 f); [done|done|done| | |].
  - rewrite (unlink_fields j h f). by split.
  - right. exists 0%nat. split; [|split; [unfold MSM_HW_FENCE_MAX_JOIN_PARENTS; lia|done]].
    change (add_parents 0 h f0) with f0.
    apply (unlink_added m); [by split|unfold MSM_HW_FENCE_MAX_JOIN_PARENTS; lia|by eapply Hfresh|done].
  - intros i g0 g Hi _ [->|(m'&?&?&Hd)]; [by left|]. right. exists m'. split; [done|]. split; [done|].
    intros Hno. apply Hd. intros ?. by apply Hno.
Qed.

Lemma cleanup_child_run dirty d i o :
  evolved (partly dirty) d0 d -> zget l i = Some o -> child_valid o ->
  exists d', cleanup_child c array h i d = Done (tt, d') /\
    evolved (partly (fun j => dirty j /\ child_found o <> Some j)) d0 d'.
Proof using Hready Hc Hl Hjf Hlinks Hfresh.
  intros Hev Hi Hv. pose proof Hv as (q&cf&->&Hq&_).
  unfold cleanup_child, array_fence. rewrite Hl, (liftO_run _ _ _ _ _ Hi).
  rewrite (get_dma_then _ _ cf) by (by rewrite (evolved_field dma_fences (partly dirty) d0 d)).
  destruct (find_resolve caps rxs d c cl (df_context cf) (df_seqno cf)) as [h' Hf];
    [by eapply evolved_ready|unfold client_at; by rewrite (evolved_field clients (partly dirty) d0 d)|].
  rewrite (bind_run _ _ _ _ _ Hf), (resolve_evolved (partly dirty) d0 d) by done.
  assert (Hfound : child_found (Some q) = resolve d0 (df_context cf) (df_seqno cf))
    by (unfold child_found; by rewrite Hq).
  destruct (resolve d0 _ _) as [k|] eqn:Hk.
  - pose proof (child_found_not_join _ k Hv Hfound) as Hne.
    apply (resolve_key caps rxs) in Hk as (f&Hfk&_); [|done].
    destruct (cleanup_entry_run dirty d k Hev Hne) as (d'&Hrun&Hev'); [by exists f|].
    exists d'. split; [exact Hrun|]. eapply evolved_weaken; [exact Hev'|].
    intros j g0 g [->|(m&?&?&Hd)]; [by left|]. right. exists m. split; [done|]. split; [done|].
    intros Hno. apply Hd. rewrite Hfound in Hno. intros [? ?]. apply Hno. split; [done|congruence].
  - exists d. split; [done|]. eapply evolved_weaken; [exact Hev|].
    intros j g0 g [->|(m&?&?&Hd)]; [by left|]. right. exists m. split; [done|]. split; [done|].
    intros Hno. apply Hd. rewrite Hfound in Hno. intros ?. by apply Hno.
Qed.

Lemma cleanup_children_run idxs : forall dirty d,
  evolved (partly dirty) d0 d -> Forall (fun i => 0 <= i < zlen l) idxs ->
  exists d', forM idxs (cleanup_child c array h) d = Done (tt, d') /\
    evolved (partly (fun j => dirty j /\
      forall i o, i ∈ idxs -> zget l i = Some o -> child_found o <> Some j)) d0 d'.
Proof using Hready Hc Hl Hjf Hlinks Hvalid Hfresh.
  induction idxs as [|i idxs IH]; intros dirty d Hev Hin; cbn [forM].
  - exists d. split; [done|]. eapply evolved_weaken; [exact Hev|].
    intros j g0 g [->|(m&?&?&Hd)]; [by left|]. right. exists m. split; [done|]. split; [done|].
    intros Hno. apply Hd. intros ?. apply Hno. split; [done|]. intros ?? []%elem_of_nil.
  - inversion_clear Hin as [|? ? Hi Hin']. destruct (zget_is_Some l i Hi) as [o Ho].
    assert (Hv : child_valid o).
    { exact (forall_zget _ _ _ _ Hvalid Ho). }
    destruct (cleanup_child_run dirty d i o Hev Ho Hv) as (d1&Hrun&Hev1).
    rewrite (bind_run _ _ _ _ _ Hrun). destruct (IH _ d1 Hev1 Hin') as (d'&Hrun'&Hev').
    exists d'. split; [exact Hrun'|]. eapply evolved_weaken; [exact Hev'|].
    intros j g0 g [->|(m&?&?&Hd)]; [by left|]. right. exists m. split; [done|]. split; [done|].
    intros Hno. apply Hd. intros [[Hdj Hoj] Hrest]. apply Hno. split; [done|].
    intros i' o' [->|Hi']%elem_of_cons Ho'; [by simplify_eq|by eapply Hrest].
Qed.

(** The join fence is the first entry with its key. *)
Context (base : dma_fence) (kh : nat).
Context (Hkh : (kh < Z.to_nat (hw_fence_table_entries d0))%nat).
Context (Hh : h = probe (hw_fence_table_entries d0) (df_context base) (df_seqno base) kh).
Context (Hkey : has_key jf (df_context base) (df_seqno base)).
Context (Hbefore : before d0 (df_context base) (df_seqno base) kh
  (fun g => ~ has_key g (df_context base) (df_seqno base))).

Lemma destroy_join_run d f client :
  table_ok d -> hw_fence_table_entries d = hw_fence_table_entries d0 ->
  (forall k g, fence_at d k g -> exists g0, fence_at d0 k g0 /\
     ctx_id g = ctx_id g0 /\ seq_id g = seq_id g0) -> fence_at d h f ->
  _hw_fence_cleanup client (df_context base) (df_seqno base) d
  = Done (0, set_fence h (cleared_fence (lock f)) d).
Proof using Hkh Hh Hkey Hbefore Hjf.
  intros Hok Hm Hback Hf. unfold _hw_fence_cleanup, mbind, M_bind. rewrite Hh in Hf |- *.
  rewrite <- Hm in *.
  rewrite (match_at d Hok (df_context base) (df_seqno base) client 0 HW_FENCE_LOOKUP_OP_DESTROY kh f).
  - by rewrite (process_entry_eq _ _ _ _ _ _ _ f).
  - done.
  - done.
  - done.
  - destruct (Hback _ f Hf) as (f0&Hf0&Hx&Hs).
    assert (f0 = jf) as -> by (unfold fence_at in *; congruence). unfold has_key. by rewrite Hx, Hs.
  - intros i g Hi Hg. destruct (Hback _ g Hg) as (g0&Hg0&Hx&Hs).
    rewrite Hm in Hg0. unfold has_key. rewrite Hx, Hs. by apply (Hbefore i g0 Hi).
Qed.

(** The entries other than the join fence are as before, up to the slots of the
    list of parents that are not in use. *)
Definition undone (k : Z) (f0 f : msm_hw_fence) : Prop := k = h \/ same_links f f0.

Lemma rollback_run ks d j :
  evolved (linked ks) d0 d -> 0 <= j < zlen l -> entries (take (Z.to_nat j) l) ks ->
  exists d1, _cleanup_join_and_child_fences c j base array h d
      = Done (tt, set_fence h (cleared_fence (lock jf)) d1) /\ evolved undone d0 d1.
Proof using Hready Hc Hl Hjf Hlinks Hvalid Hfresh Hkh Hh Hkey Hbefore.
  intros Hev Hj Hks. apply (evolved_weaken _ (partly (fun k => k ∈ ks))) in Hev;
    [|by intros; apply linked_partly].
  destruct (cleanup_children_run (down_to_0 j) _ d Hev) as (d1&Hrun&Hev1).
  { apply list.Forall_forall. intros i Hi%elem_of_down; lia. }
  assert (Hev2 : evolved undone d0 d1).
  { eapply evolved_weaken; [exact Hev1|]. intros k f0 f [->|(m&Hs&_&Hm)]; [by left|]. right.
    rewrite Hm in Hs; [exact Hs|]. intros [Hk Hno].
    apply list_elem_of_lookup in Hk as [i Hi].
    destruct (Forall2_lookup_r _ _ _ _ _ Hks Hi) as (o&Ho&Hoe). apply lookup_take_Some in Ho as [Ho Hlt].
    apply (Hno (Z.of_nat i) o); [|by rewrite zget_nat|by apply child_entry_found].
    apply elem_of_down; lia. }
  exists d1. split; [|exact Hev2]. unfold _cleanup_join_and_child_fences. rewrite Hl.
  rewrite (bind_run _ _ _ _ _ Hrun). unfold _hw_fence_process_join_fence.
  destruct (ev_entries _ _ _ Hev2 h jf Hjf) as (f&Hf&Hcore&_).
  unfold mbind, M_bind. rewrite (destroy_join_run d1 f); [by rewrite (co_lock _ _ Hcore)| | | |done].
  - exact (dr_table _ _ _ (evolved_ready undone caps rxs d0 d1 Hev2 Hready)).
  - by apply (evolved_field hw_fence_table_entries undone d0 d1).
  - intros k g Hg. destruct (evolved_back undone d0 d1 k g Hev2 Hg) as (g0&?&[? ? _ _ _]&_). by exists g0.
Qed.

End Children.

(** ** The whole registration *)

Section Array.
Context (caps : Z -> nat) (rxs : Z -> list message) (d : hw_fence_driver_data).
Context (c : Z) (cl : msm_hw_fence_client) (p : Z) (base : dma_fence).
Context (array : dma_fence_array) (l : list (option Z)) (data : Z).

(** The caller's array and the state of the driver. *)
Record array_env : Prop := {
  ae_ready : drv_ready caps rxs d;
  ae_client : client_at d c cl;
  ae_base : zget (dma_fences d) p = Some base;
  ae_ctx : is_word 64 (df_context base);
  ae_seq : is_word 64 (df_seqno base);
  ae_fences : fences array = Some l;
  ae_num : num_fences array = zlen l;
  ae_some : 0 < zlen l < 2 ^ 32;
  ae_children : Forall (fun o => exists q cf, o = Some q /\ zget (dma_fences d) q = Some cf /\
    ~ (df_context base = df_context cf /\ df_seqno base = df_seqno cf)) l;
  ae_links : forall k f, fence_at d k f -> links_ok f;
  ae_live : forall k f x, fence_at d k f -> x ∈ parents f ->
    exists g, fence_at d x g /\ valid g <> 0;
  ae_data : is_word 64 data;
  ae_data_id : truthy data = true ->
    hw_fence_get_client_data_id (uapi d) (client_id_ext cl) < HW_FENCE_MAX_CLIENTS_WITH_DATA;
}.

(** The join fence as it is created: it waits for all the children, and the
    client waits for it. *)
Definition new_join (v : Z) : msm_hw_fence :=
  (new_fence (df_context base) (df_seqno base) HW_FENCE_JOIN_FENCE_CLIENT_ID
     (qtimer d (qtime_reads d)) (zlen l) v) <| wait_client_mask := BIT c |>.

(** The state with the join fence at [h], the entry [free] being free before. *)
Definition join_state (h : Z) (free : msm_hw_fence) : hw_fence_driver_data :=
  set_fence h (new_join (lock free)) (d <| qtime_reads ::= S |>).

Definition array_data_id : Z := hw_fence_get_client_data_id (uapi d) (client_id_ext cl).

(** The join fence with the client's data. *)
Definition with_data (f : msm_hw_fence) : msm_hw_fence :=
  if truthy data then f <| client_data := <[Z.to_nat array_data_id := data]> (client_data f) |> else f.

(** What follows the creation of the join fence. *)
Definition array_rest (h : Z) : DM (Z * Z) :=
  r ← process_children (array_indexes array) c array h h false;
    match (r : Z + bool) with
    | inl i => _cleanup_join_and_child_fences c i base array h ;; mret (- EINVAL, h)
    | inr signal_join_fence =>
        (if truthy data then store_client_data h array_data_id data else mret tt) ;;
        if signal_join_fence then
          f ← get_fence h;
          _fence_ctl_signal c h h 0 data (error f) ;;
          set_bit (MSM_HW_FENCE_FLAG_SIGNALED_BIT (uapi d)) (Some p) ;;
          _hw_fence_process_join_fence base array false h ;;
          mret (0, h)
        else if negb (truthy (num_fences array)) then
          _cleanup_join_and_child_fences c (num_fences array) base array h ;; mret (- EINVAL, h)
        else mret (0, h)
    end.

Context (Henv : array_env).

Lemma array_client_id : client_id cl = c.
Proof using Henv. exact (ck_id _ _ _ _ _ (dr_clients _ _ _ (ae_ready Henv) c cl (ae_client Henv))). Qed.

Section Joined.
Context (k : nat) (free : msm_hw_fence).
Abbreviation m := (hw_fence_table_entries d).
Abbreviation h := (probe m (df_context base) (df_seqno base) k).
Context (Hk : (k < Z.to_nat m)%nat) (Hfree : fence_at d h free) (Hv : valid free = 0).
Context (Hb : before d (df_context base) (df_seqno base) k
  (fun g => valid g <> 0 /\ ~ has_key g (df_context base) (df_seqno base))).

Abbreviation d0 := (join_state h free).
Abbreviation jf := (new_join (lock free)).

Lemma join_at j g :
  fence_at d0 j g <-> if decide (j = h) then g = jf else fence_at d j g.
Proof using Hfree. exact (set_fence_at (d <| qtime_reads ::= S |>) h free jf j g Hfree). Qed.

Lemma join_here : fence_at d0 h jf.
Proof using Hfree. apply join_at. by rewrite decide_True. Qed.

Lemma join_ready : drv_ready caps rxs d0.
Proof using Henv Hfree.
  destruct (drv_ready_fence _ _ _ _ _ (ae_ready Henv) Hfree) as (_&Hlf&_).
  apply (set_fence_ready caps rxs _ h free).
  - by apply (drv_ready_transfer caps rxs d); [..|exact (ae_ready Henv)].
  - done.
  - split; [exact (ae_ctx Henv)|exact (ae_seq Henv)|done|]. by apply (bool_decide_unpack _).
  - done.
Qed.

Lemma join_links j g : fence_at d0 j g -> links_ok g.
Proof using Henv Hfree. intros Hg%join_at. case_decide; [by subst|]. by eapply (ae_links Henv). Qed.

Lemma join_fresh j g : fence_at d0 j g -> h ∉ parents g.
Proof using Henv Hfree Hv.
  intros Hg%join_at. case_decide; [subst; apply not_elem_of_nil|]. intros Hin.
  destruct (ae_live Henv _ _ _ Hg Hin) as (g'&Hg'&Hval).
  unfold fence_at in *. by assert (g' = free) as -> by congruence.
Qed.

Lemma join_children : Forall (child_valid d0 jf) l.
Proof using Henv.
  eapply Forall_impl; [exact (ae_children Henv)|]. intros o (q&cf&Ho&Hq&Hne). by exists q, cf.
Qed.

Lemma join_before :
  before d0 (df_context base) (df_seqno base) k (fun g => ~ has_key g (df_context base) (df_seqno base)).
Proof using Henv Hfree Hk Hb.
  intros j g Hj Hg. apply join_at in Hg. case_decide as He.
  - apply probe_inj in He; [lia|exact (proj1 (entries_range d (dr_table _ _ _ (ae_ready Henv))))|lia..].
  - by eapply Hb.
Qed.

(** The loop over the children. *)
Lemma join_children_run :
  exists r d' ks,
    process_children (array_indexes array) c array h h false d0 = Done (r, d') /\
    evolved (linked d0 h ks) d0 d' /\
    match r with
    | inr b => entries d0 l ks /\ b = all_signalled d0 l ks
    | inl j => 0 <= j < zlen l /\ entries d0 (take (Z.to_nat j) l) ks /\
        exists o, zget l j = Some o /\ refused d0 ks o
    end.
Proof using Henv Hfree Hk.
  pose proof (ae_some Henv) as Hn.
  assert (Hw : is_word 32 (zlen l)) by (unfold is_word; lia).
  destruct (process_children_run caps rxs d0 c cl array l h jf join_ready (ae_client Henv) (ae_fences Henv)
    join_here join_links eq_refl Hw join_children (length l) 0 [] d0) as (r&d'&ks&Hrun&Hev&Hr).
  - apply evolved_refl. intros j g Hg. by apply (linked_nil d0 l h jf join_here join_links eq_refl Hw).
  - done.
  - constructor.
  - exists r, d', ks. split; [|done]. rewrite <- Hrun. unfold array_indexes. rewrite (ae_num Henv).
    unfold zlen at 1. rewrite Nat2Z.id. unfold all_signalled.
    change (zlen (signalled_of d0 [])) with 0. by replace (0 =? zlen l) with false by lia.
Qed.

(** The client's data are stored in the join fence. *)
Lemma store_data_run ks d1 :
  evolved (linked d0 h ks) d0 d1 ->
  (if truthy data then store_client_data h array_data_id data else mret tt) d1
  = Done (tt, set_fence h (with_data (joined d0 ks jf)) d1).
Proof using Henv Hfree Hk.
  intros Hev. pose proof (linked_join d0 h jf join_here ks d1 Hev) as Hj. unfold with_data.
  destruct (truthy data) eqn:Ht; [|by rewrite set_fence_id].
  apply store_client_data_run; [done|]. pose proof (ae_data_id Henv Ht) as Hid.
  pose proof (data_id_range (uapi d) (client_id_ext cl)). unfold HW_FENCE_MAX_CLIENTS_WITH_DATA in Hid.
  change (zlen (client_data (joined d0 ks jf))) with 5. unfold array_data_id. lia.
Qed.

(** The registration that succeeds: some child is not signalled, and the links
    are in place; or all are, and the client is told. *)
Definition array_linked (ks : list Z) (d' : hw_fence_driver_data) : Prop :=
  exists d1, evolved (linked d0 h ks) d0 d1 /\
    d' = set_fence h (with_data (joined d0 ks jf)) d1.

Definition array_signalled (ks : list Z) (d' : hw_fence_driver_data) : Prop :=
  let join := with_data (joined d0 ks jf) in
  exists d1 cl' n, evolved (linked d0 h ks) d0 d1 /\ same_client cl cl' /\
    d' = set_fence h (cleared_fence (lock free))
           (mark_signaled (Some p)
             (client_step c cl' n (signal_events d c cl join h 0 (error join)) (set_fence h join d1))) /\
    client_ok caps (deliver caps c cl (fence_message join h 0 data (error join)) (error join) rxs) d' c cl'.

(** The registration that fails leaves the entries as they were. *)
Definition array_undone (d' : hw_fence_driver_data) : Prop :=
  exists d1, evolved (undone h) d0 d1 /\ d' = set_fence h (cleared_fence (lock free)) d1.

Lemma with_data_fields f :
  ctx_id (with_data f) = ctx_id f /\ seq_id (with_data f) = seq_id f /\ lock (with_data f) = lock f /\
  error (with_data f) = error f.
Proof using Type. unfold with_data. by destruct (truthy data). Qed.

(** All the children are signalled: the client is told, the caller's fence is
    marked, and the join fence is destroyed. *)
Lemma signalled_run ks d1 :
  evolved (linked d0 h ks) d0 d1 ->
  exists d', (f ← get_fence h;
     _fence_ctl_signal c h h 0 data (error f) ;;
     set_bit (MSM_HW_FENCE_FLAG_SIGNALED_BIT (uapi d)) (Some p) ;;
     _hw_fence_process_join_fence base array false h ;;
     mret (0, h)) (set_fence h (with_data (joined d0 ks jf)) d1) = Done ((0, h), d') /\
    array_signalled ks d'.
Proof using Henv Hfree Hk Hb Hv.
  intros Hev. set (join := with_data (joined d0 ks jf)). set (s1 := set_fence h join d1).
  pose proof (linked_join d0 h jf join_here ks d1 Hev) as Hj.
  pose proof (evolved_ready _ caps rxs d0 d1 Hev join_ready) as Hr1.
  destruct (with_data_fields (joined d0 ks jf)) as (Hx&Hs&Hlk&_). fold join in Hx, Hs, Hlk.
  assert (Hjoin : fence_at s1 h join) by (by eapply set_fence_get).
  destruct (drv_ready_fence _ _ _ _ _ (ae_ready Henv) Hfree) as (_&Hlf&Hhw).
  assert (Hlj : lock join = lock free) by (rewrite Hlk; done).
  assert (Hs1 : drv_ready caps rxs s1).
  { apply (set_fence_ready caps rxs d1 h (joined d0 ks jf)); [done|done| |congruence].
    split; [rewrite Hx; exact (ae_ctx Henv)|rewrite Hs; exact (ae_seq Henv)| |];
      unfold join, with_data; destruct (truthy data); try done; try by apply (bool_decide_unpack _).
    - cbn. by rewrite length_insert.
    - apply Forall_insert; [by apply (bool_decide_unpack _)|exact (ae_data Henv)]. }
  assert (Hc1 : client_at s1 c cl).
  { unfold client_at. change (clients s1) with (clients d1).
    rewrite (evolved_field clients (linked d0 h ks) d0 d1 ltac:(done) Hev). exact (ae_client Henv). }
  rewrite (get_fence_then _ _ join) by done.
  destruct (ctl_signal_run caps rxs s1 c cl Hs1 Hc1 h join h 0 data (error join) Hjoin
    ltac:(unfold is_word; lia) ltac:(done) (ae_data Henv)) as (cl'&n&Hrun&Hsame&Hck).
  rewrite (bind_run _ _ _ _ _ Hrun). set (s2 := client_step c cl' n _ s1).
  assert (Hu : uapi s2 = uapi d)
    by exact (evolved_field uapi (linked d0 h ks) d0 d1 ltac:(done) Hev).
  assert (Hdma : dma_fences s2 = dma_fences d)
    by exact (evolved_field dma_fences (linked d0 h ks) d0 d1 ltac:(done) Hev).
  rewrite <- Hu. rewrite (bind_run _ _ _ _ _ (set_bit_run s2 p ltac:(rewrite Hdma; by exists base; apply Henv))).
  set (s3 := mark_signaled (Some p) s2).
  assert (Ht3 : hw_fences_tbl s3 = hw_fences_tbl s1) by exact (mark_signaled_field hw_fences_tbl _ s2 ltac:(done)).
  assert (Hn3 : hw_fence_table_entries s3 = hw_fence_table_entries d0).
  { transitivity (hw_fence_table_entries s1); [exact (mark_signaled_field hw_fence_table_entries _ s2 ltac:(done))|].
    exact (evolved_field hw_fence_table_entries (linked d0 h ks) d0 d1 ltac:(done) Hev). }
  unfold _hw_fence_process_join_fence.
  rewrite (bind_run _ _ s3 (None, h) (set_fence h (cleared_fence (lock join)) s3)).
  2:{ unfold mbind, M_bind. rewrite (destroy_join_run d0 h jf join_here base k Hk eq_refl (conj eq_refl eq_refl)
        join_before s3 join); [done| |exact Hn3| |unfold fence_at in *; by rewrite Ht3].
      - destruct (dr_table _ _ _ Hs1) as [H1 H2 H3 H4]. split; rewrite ?Ht3; try done.
        rewrite Hn3. rewrite <- H1.
        symmetry. exact (evolved_field hw_fence_table_entries (linked d0 h ks) d0 d1 ltac:(done) Hev).
      - intros j g Hg. unfold fence_at in Hg. rewrite Ht3 in Hg.
        apply (set_fence_at d1 h (joined d0 ks jf) join j g Hj) in Hg. case_decide as Hd.
        + subst. exists jf. split; [exact join_here|]. by rewrite Hx, Hs.
        + destruct (evolved_back _ d0 d1 j g Hev Hg) as (g0&?&[? ? _ _ _]&_). by exists g0. }
  eexists. split; [reflexivity|]. rewrite Hlj. exists d1, cl', n. split; [done|]. split; [done|]. split.
  - do 3 f_equal. apply signal_events_env.
    + exact Hu.
    + exact (evolved_field config_debug_fs (linked d0 h ks) d0 d1 ltac:(done) Hev).
    + exact (evolved_field protocol_id (linked d0 h ks) d0 d1 ltac:(done) Hev).
    + exact (evolved_field ipcc_client_pid (linked d0 h ks) d0 d1 ltac:(done) Hev).
  - eapply (client_ok_transfer caps _ _ s1); [| |reflexivity|exact Hck].
    + exact (mark_signaled_field client_lock_tbl _ s2 ltac:(done)).
    + exact (mark_signaled_field client_lock_tbl_cnt _ s2 ltac:(done)).
Qed.

(** The outcome of the registration once the join fence exists. *)
Definition array_outcome (ret : Z) (d' : hw_fence_driver_data) : Prop :=
  (ret = 0 /\ exists ks, entries d0 l ks /\
     if all_signalled d0 l ks then array_signalled ks d' else array_linked ks d')
  \/ (ret = - EINVAL /\ array_undone d' /\ some_refused d0 l).

Lemma joined_run :
  exists ret d', array_rest h d0 = Done ((ret, h), d') /\ array_outcome ret d'.
Proof using Henv Hfree Hk Hb Hv.
  destruct join_children_run as (r&d1&ks&Hrun&Hev&Hr). unfold array_rest.
  rewrite (bind_run _ _ _ _ _ Hrun). destruct r as [j|b].
  - destruct Hr as (Hj&Hks&o&Ho&Href). pose proof (ae_some Henv) as Hn.
    destruct (rollback_run caps rxs d0 c cl array l h jf join_ready (ae_client Henv)
      (ae_fences Henv) join_here join_links join_children
      join_fresh base k Hk eq_refl (conj eq_refl eq_refl) join_before
      ks d1 j Hev Hj Hks) as (d2&Hclean&Hev2).
    rewrite (bind_run _ _ _ _ _ Hclean). eexists _, _. split; [reflexivity|]. right. split; [done|].
    split; [by exists d2|]. exists (Z.to_nat j), ks, o. split; [done|]. split; [|done].
    rewrite <- zget_to_nat by lia. done.
  - destruct Hr as [Hks ->]. rewrite (bind_run _ _ _ _ _ (store_data_run ks d1 Hev)).
    destruct (all_signalled d0 l ks) eqn:Hall.
    + destruct (signalled_run ks d1 Hev) as (d'&Hsig&Hout).
      exists 0, d'. split; [exact Hsig|]. left. split; [done|]. exists ks. by rewrite Hall.
    + rewrite (ae_num Henv). pose proof (ae_some Henv) as Hn.
      replace (truthy (zlen l)) with true by (symmetry; apply truthy_true; lia). cbn [negb].
      eexists 0, _. split; [reflexivity|]. left. split; [done|]. exists ks. split; [done|].
      rewrite Hall. by exists d1.
Qed.

End Joined.

(** The join fence cannot be created, and nothing changes; or it is locked and
    about to get the client's bit. *)
Lemma process_array_created :
  (exists h, hw_fence_process_fence_array c p array data d = Done ((- EINVAL, h), d) /\
     ((exists i f, fence_at d i f /\ valid f <> 0 /\ has_key f (df_context base) (df_seqno base))
      \/ forall i f, fence_at d i f -> valid f <> 0)) \/
  exists k free, let h := probe (hw_fence_table_entries d) (df_context base) (df_seqno base) k in
    let j0 := new_fence (df_context base) (df_seqno base) HW_FENCE_JOIN_FENCE_CLIENT_ID
                (qtimer d (qtime_reads d)) (zlen l) (lock free) in
    (k < Z.to_nat (hw_fence_table_entries d))%nat /\ fence_at d h free /\ valid free = 0 /\
    before d (df_context base) (df_seqno base) k
      (fun g => valid g <> 0 /\ ~ has_key g (df_context base) (df_seqno base)) /\
    hw_fence_process_fence_array c p array data d
    = (bit ← client_bit (client_id cl);
       upd_fence h (fun f => f <| wait_client_mask ::= fun m => Z.lor m bit |>) ;;
       unlock_fence h ;; array_rest h)
        (set_fence h (j0 <| lock := lock j0 + 1 |>) (d <| qtime_reads ::= S |>)).
Proof using Henv.
  pose proof (dr_table _ _ _ (ae_ready Henv)) as Hok.
  unfold hw_fence_process_fence_array. rewrite (with_client _ _ cl) by apply Henv.
  rewrite (get_dma_then _ _ base), getM_run by apply Henv. cbv zeta.
  replace (truthy data && _) with false
    by (destruct (truthy data) eqn:Ht; [pose proof (ae_data_id Henv Ht); cbn; lia|done]).
  assert (Hcreate : _hw_fence_process_join_fence base array true 0 d
    = _hw_fence_lookup_and_process (df_context base) (df_seqno base) HW_FENCE_JOIN_FENCE_CLIENT_ID (zlen l)
        HW_FENCE_LOOKUP_OP_CREATE_JOIN d) by (unfold _hw_fence_process_join_fence; by rewrite (ae_num Henv)).
  destruct (create_cases d Hok (df_context base) (df_seqno base) HW_FENCE_JOIN_FENCE_CLIENT_ID (zlen l)
    HW_FENCE_LOOKUP_OP_CREATE_JOIN eq_refl) as [(k&free&Hk&Hfree&Hv&Hb&Hrun)|(h&Hrun&Hwhy)].
  all: rewrite <- Hcreate in Hrun.
  2:{ left. exists h. rewrite (bind_run _ _ _ _ _ Hrun). by split. }
  right. exists k, free. cbv zeta. split; [done|]. split; [done|]. split; [done|]. split; [done|].
  rewrite (process_entry_eq _ _ _ _ _ _ _ free) in Hrun by done.
  rewrite (bind_run _ _ _ _ _ Hrun). clear Hcreate Hrun. cbn [processed bump is_create].
  set (h := probe _ _ _ k) in *. set (j0 := new_fence _ _ _ _ _ (lock free)).
  destruct (drv_ready_fence _ _ _ _ _ (ae_ready Henv) Hfree) as (_&Hlf&_).
  assert (Hj0 : fence_at (set_fence h j0 (d <| qtime_reads ::= S |>)) h j0) by (by eapply set_fence_get).
  by rewrite (bind_run _ _ _ _ _ (lock_fence_run _ h j0 Hj0 Hlf)), set_fence_twice.
Qed.

(** The registration of an array by a client whose bit is in the mask: it
    completes; when the join fence cannot be created nothing changes, otherwise
    the outcome is one of the above. *)
Lemma process_fence_array_run :
  c < 64 ->
  exists ret h d', hw_fence_process_fence_array c p array data d = Done ((ret, h), d') /\
    ((ret = - EINVAL /\ d' = d /\
        ((exists i f, fence_at d i f /\ valid f <> 0 /\ has_key f (df_context base) (df_seqno base))
         \/ forall i f, fence_at d i f -> valid f <> 0)) \/
     exists k free, (k < Z.to_nat (hw_fence_table_entries d))%nat /\
       h = probe (hw_fence_table_entries d) (df_context base) (df_seqno base) k /\
       fence_at d h free /\ valid free = 0 /\ array_outcome k free ret d').
Proof using Henv.
  intros Hc64. pose proof (ck_pos _ _ _ _ _ (dr_clients _ _ _ (ae_ready Henv) c cl (ae_client Henv))) as Hpos.
  destruct process_array_created as [(h&Hrun&Hwhy)|(k&free&Hk&Hfree&Hv&Hb&Hrun)].
  { exists (- EINVAL), h, d. split; [done|by left]. }
  rewrite Hrun, array_client_id, client_bit_then by lia. clear Hrun.
  set (h := probe _ _ _ k) in *. set (d1 := d <| qtime_reads ::= S |>).
  set (j0 := new_fence _ _ _ _ _ (lock free)). set (j1 := j0 <| lock := lock j0 + 1 |>).
  destruct (drv_ready_fence _ _ _ _ _ (ae_ready Henv) Hfree) as (_&Hlf&_).
  assert (Hj1 : fence_at (set_fence h j1 d1) h j1) by (by eapply set_fence_get).
  rewrite (upd_fence_then _ _ j1), set_fence_twice by done.
  set (j2 := j1 <| wait_client_mask ::= _ |>).
  assert (Hj2 : fence_at (set_fence h j2 d1) h j2) by (by eapply set_fence_get).
  rewrite (bind_run _ _ _ _ _ (unlock_fence_run _ _ j2 (lock free) Hj2 eq_refl Hlf)), set_fence_twice.
  change (j2 <| lock := lock free |>) with (new_join (lock free)).
  destruct (joined_run k free Hk Hfree Hv Hb) as (ret&d'&Hres&Hout).
  exists ret, h, d'. split; [exact Hres|right; by exists k, free].
Qed.

(** A client whose bit is outside the mask: the registration returns only when
    the join fence cannot be created. *)
Lemma process_array_wide ret h d' :
  64 <= c -> hw_fence_process_fence_array c p array data d = Done ((ret, h), d') ->
  d' = d /\
    ((exists i f, fence_at d i f /\ valid f <> 0 /\ has_key f (df_context base) (df_seqno base))
     \/ forall i f, fence_at d i f -> valid f <> 0).
Proof using Henv.
  intros Hc64 H. destruct process_array_created as [(h'&Hrun&Hwhy)|(k&free&_&_&_&_&Hrun)]; rewrite Hrun in H.
  - by injection H as _ _ <-.
  - rewrite array_client_id in H. unfold mbind at 1, M_bind at 1, client_bit in H.
    replace (c <? 64) with false in H by lia. by rewrite andb_false_r in H.
Qed.

End Array.

(** ** What a registration promises *)

(** The children that are not signalled. *)
Definition unsignalled_of (d : hw_fence_driver_data) (ks : list Z) : list Z :=
  filter (fun k => sig_at d k = false) ks.

Lemma unsignalled_length d ks : zlen (signalled_of d ks) + zlen (unsignalled_of d ks) = zlen ks.
Proof.
  unfold signalled_of, unsignalled_of, zlen. induction ks as [|k ks IH]; [done|].
  rewrite !filter_cons. destruct (sig_at d k) eqn:Hk.
  - rewrite decide_True, decide_False by congruence. cbn [length]. lia.
  - rewrite decide_False, decide_True by congruence. cbn [length]. lia.
Qed.

(** A child's entry after the registration: one more parent for each time the
    fence, when not signalled, is in the array; the rest is unchanged. *)
Definition child_linked (ks : list Z) (h k : Z) (f f' : msm_hw_fence) : Prop :=
  f' = f <| parents_cnt := parents_cnt f' |> <| parent_list := parent_list f' |> /\
  parents f' = parents f ++ replicate (if signalled f then 0 else count_occ Z.eq_dec ks k) h.

Lemma parents_add_parents m h f :
  links_ok f -> parents_cnt f + Z.of_nat m < MSM_HW_FENCE_MAX_JOIN_PARENTS ->
  parents (add_parents m h f) = parents f ++ replicate m h.
Proof.
  intros [Hl Hc]. induction m as [|m IH]; intros Hm; [by rewrite app_nil_r|].
  destruct (add_parents_fields m h f) as (Hcm&Hlm&_). unfold MSM_HW_FENCE_MAX_JOIN_PARENTS in *.
  rewrite add_parents_S, parents_add_parent, IH by (unfold zlen in *; lia).
  by rewrite <- app_assoc, <- replicate_cons_app.
Qed.

Lemma linked_child d0 h ks k f f' :
  links_ok f -> k <> h -> linked d0 h ks k f f' -> child_linked ks h k f f'.
Proof.
  intros Hok Hne. unfold linked. destruct (Z.eqb_spec k h); [done|]. intros [-> Hcnt].
  set (m := if signalled f then 0%nat else _) in *.
  destruct (add_parents_fields m h f) as (Hc&_&He).
  split; [exact He|]. apply parents_add_parents; [done|lia].
Qed.

Section Outcome.
Context (caps : Z -> nat) (rxs : Z -> list message) (d : hw_fence_driver_data).
Context (c : Z) (cl : msm_hw_fence_client) (p : Z) (base : dma_fence).
Context (array : dma_fence_array) (l : list (option Z)) (data : Z).
Context (Henv : array_env caps rxs d c cl p base array l data).
Context (k : nat) (free : msm_hw_fence).
Abbreviation h := (probe (hw_fence_table_entries d) (df_context base) (df_seqno base) k).
Abbreviation d0 := (join_state d c base l h free).
Abbreviation jf := (new_join d c base l (lock free)).
Context (Hfree : fence_at d h free).

(** The error of the join fence. *)
Abbreviation err ks := (fold_left (fun e j => Z.lor e (err_at d0 j)) (signalled_of d0 ks) 0).

Lemma outcome_entry (R : Z -> msm_hw_fence -> msm_hw_fence -> Prop) d1 g d' j f :
  evolved R d0 d1 -> hw_fences_tbl d' = hw_fences_tbl (set_fence h g d1) ->
  j <> h -> fence_at d j f -> exists f', fence_at d' j f' /\ core f f' /\ R j f f'.
Proof using Hfree.
  intros Hev Ht Hne Hf. assert (Hf0 : fence_at d0 j f).
  { apply (join_at d c base l k free Hfree). by rewrite decide_False. }
  destruct (ev_entries _ _ _ Hev j f Hf0) as (f'&Hf'&?&?). exists f'. split; [|done].
  destruct (ev_entries _ _ _ Hev h jf (join_here d c base l k free Hfree)) as (j'&Hj'&_).
  unfold fence_at. rewrite Ht. apply (set_fence_at d1 h j' g j f' Hj'). by rewrite decide_False.
Qed.

Lemma outcome_children ks d1 g d' :
  evolved (linked d0 h ks) d0 d1 -> hw_fences_tbl d' = hw_fences_tbl (set_fence h g d1) ->
  forall j f, j <> h -> fence_at d j f -> exists f', fence_at d' j f' /\ child_linked ks h j f f'.
Proof using Henv Hfree.
  intros Hev Ht j f Hne Hf. destruct (outcome_entry _ d1 g d' j f Hev Ht Hne Hf) as (f'&?&_&HR).
  exists f'. split; [done|]. eapply linked_child; [|done|done]. by eapply (ae_links _ _ _ _ _ _ _ _ _ _ Henv).
Qed.

Lemma outcome_join R d1 g :
  evolved R d0 d1 -> fence_at (set_fence h g d1) h g.
Proof using Hfree.
  intros Hev. destruct (ev_entries _ _ _ Hev h jf (join_here d c base l k free Hfree)) as (j'&Hj'&_).
  by eapply set_fence_get.
Qed.

(** The count of the join fence: all the children, less the signalled ones. *)
Lemma outcome_pending ks :
  entries d0 l ks -> pending_child_cnt (joined d0 ks jf) = zlen (unsignalled_of d0 ks).
Proof using Henv.
  intros Hks%Forall2_length. pose proof (unsignalled_length d0 ks).
  pose proof (zlen_nonneg (signalled_of d0 ks)). pose proof (zlen_nonneg (unsignalled_of d0 ks)).
  pose proof (ae_some _ _ _ _ _ _ _ _ _ _ Henv). assert (zlen ks = zlen l) by (unfold zlen; lia).
  change (u32 (zlen l - zlen (signalled_of d0 ks)) = zlen (unsignalled_of d0 ks)).
  rewrite wrap_small by (unfold is_word; lia). lia.
Qed.

Lemma outcome_all_signalled ks :
  entries d0 l ks -> all_signalled d0 l ks = bool_decide (unsignalled_of d0 ks = []).
Proof using Type.
  intros Hks%Forall2_length. pose proof (unsignalled_length d0 ks).
  assert (zlen ks = zlen l) by (unfold zlen; lia). unfold all_signalled.
  case_bool_decide as He; [rewrite He in *; change (zlen []) with 0 in *; lia|].
  destruct (unsignalled_of d0 ks); [done|]. unfold zlen in *. cbn [length] in *. lia.
Qed.

End Outcome.

(** The order of the updates of different parts of the state does not matter. *)
Lemma set_fence_mark_step q c cl n evs h f g d :
  set_fence h f (mark_signaled q (client_step c cl n evs (set_fence h g d)))
  = mark_signaled q (client_step c cl n evs (set_fence h f d)).
Proof.
  rewrite <- (set_fence_twice d h g f). unfold mark_signaled. destruct q as [q|]; [|done].
  change (dma_fences (client_step c cl n evs (set_fence h g d))) with (dma_fences d).
  change (dma_fences (client_step c cl n evs (set_fence h f (set_fence h g d)))) with (dma_fences d).
  by destruct (zget (dma_fences d) q).
Qed.

(** C33: the registration of a client for an array of fences that is not empty,
    with a client identifier below 64, the width of the mask of waiting clients.
    It always completes, with the return value 0 or [- EINVAL].  With 0, every child has
    an entry in the table; a free slot of the table became the join fence; each
    child that is not signalled has the join fence as one more parent for each
    time it is in the array, and every other entry is as before.  When some
    child is not signalled, the join fence waits with exactly their number, the
    error is the union of the errors of the signalled ones, and the client is
    its only waiter; when all are signalled, the client is told in one message
    with that error and the join fence is destroyed. *)
Theorem fence_array_registration caps rxs d c cl p base array l data :
  array_env caps rxs d c cl p base array l data -> c < 64 ->
  exists ret h d', hw_fence_process_fence_array c p array data d = Done ((ret, h), d') /\
  (ret = 0 \/ ret = - EINVAL) /\
  (ret = 0 -> exists free ks, let d0 := join_state d c base l h free in
    let err := fold_left (fun e k => Z.lor e (err_at d0 k)) (signalled_of d0 ks) 0 in
    fence_at d h free /\ valid free = 0 /\
    Forall2 (fun o k => child_entry d0 o = Some k) l ks /\
    (forall k f, k <> h -> fence_at d k f ->
       exists f', fence_at d' k f' /\ child_linked ks h k f f') /\
    exists join', fence_at d' h join' /\
      match unsignalled_of d0 ks with
      | [] => valid join' = 0 /\ exists cl', same_client cl cl' /\
          client_ok caps (deliver caps c cl
            (mkMessage (df_context base) (df_seqno base) h 0 data (u32 err)) err rxs) d' c cl'
      | _ => has_key join' (df_context base) (df_seqno base) /\ valid join' = 1 /\
          wait_client_mask join' = BIT c /\
          pending_child_cnt join' = zlen (unsignalled_of d0 ks) /\ error join' = err
      end).
Proof.
  intros Henv Hc64. destruct (process_fence_array_run _ _ _ _ _ _ _ _ _ _ Henv Hc64)
    as (ret&h&d'&Hrun&[(->&_)|(k&free&_&->&Hfree&Hv&[(->&ks&Hks&Hout)|(->&_)])]); eexists _, _, d';
    (split; [exact Hrun|]); [by split; [right|]| |by split; [right|]].
  split; [by left|]. intros _. exists free, ks. split; [done|]. split; [done|]. split; [exact Hks|].
  rewrite (outcome_all_signalled d c base l k free ks Hks) in Hout.
  case_bool_decide as Hall; destruct Hout as (d1&Hout).
  - destruct Hout as (cl'&n&Hev&Hsame&Hd'&Hck).
    rewrite set_fence_mark_step in Hd'. split.
    + eapply (outcome_children caps rxs d c cl p base array l data Henv); [exact Hfree|exact Hev|].
      rewrite Hd'. exact (mark_signaled_field hw_fences_tbl _ _ ltac:(done)).
    + eexists. split.
      { unfold fence_at. rewrite Hd', (mark_signaled_field hw_fences_tbl) by done.
        exact (outcome_join d c base l k free Hfree _ d1 _ Hev). }
      rewrite Hall.
      split; [done|]. exists cl'. split; [done|].
      destruct (with_data_fields d cl data (joined (join_state d c base l
        (probe (hw_fence_table_entries d) (df_context base) (df_seqno base) k) free) ks
        (new_join d c base l (lock free)))) as (Hx&Hs&_&He).
      unfold fence_message in Hck. rewrite Hx, Hs, He in Hck. exact Hck.
  - destruct Hout as [Hev ->]. split.
    + by eapply (outcome_children caps rxs d c cl p base array l data Henv).
    + eexists. split; [by eapply outcome_join|].
      destruct (unsignalled_of _ ks) eqn:Hu; [done|]. rewrite <- Hu.
      rewrite <- (outcome_pending caps rxs d c cl p base array l data Henv k free ks Hks).
      unfold with_data. by destruct (truthy data).
Qed.

(** C34: a registration that fails leaves nothing behind: either the table is
    full or holds the key already, and nothing changed; or some child cannot be
    joined (it is an array, not a hardware fence, without entry, or has too many
    parents), and then the slot taken for the join fence is free again, every
    other entry has its parents of before and is unchanged otherwise, and
    nothing but the table and the clock reads differ. *)
Theorem fence_array_rollback caps rxs d c cl p base array l data ret h d' :
  array_env caps rxs d c cl p base array l data ->
  hw_fence_process_fence_array c p array data d = Done ((ret, h), d') -> ret <> 0 ->
  (d' = d /\ ((exists i f, fence_at d i f /\ valid f <> 0 /\ has_key f (df_context base) (df_seqno base))
              \/ forall i f, fence_at d i f -> valid f <> 0))
  \/ exists free, fence_at d h free /\ valid free = 0 /\
       some_refused (join_state d c base l h free) l /\
       d' = d <| qtime_reads ::= S |> <| hw_fences_tbl := hw_fences_tbl d' |> /\
       fence_at d' h (cleared_fence (lock free)) /\
       forall k f, k <> h -> fence_at d k f -> exists f', fence_at d' k f' /\ same_links f' f.
Proof.
  intros Henv Hrun Hret. destruct (Z.le_gt_cases 64 c) as [Hc64|Hc64];
    [left; by eapply process_array_wide|].
  destruct (process_fence_array_run _ _ _ _ _ _ _ _ _ _ Henv Hc64)
    as (ret'&h'&d''&Hrun'&Hcases). rewrite Hrun in Hrun'. injection Hrun' as <- <- <-.
  destruct Hcases as [(_&->&Hwhy)|(k&free&_&->&Hfree&Hv&[(->&_)|(_&Hout&Hrefused)])]; [by left|done|].
  right. destruct Hout as (d1&Hev&Hd'). exists free. split; [done|]. split; [done|]. split; [done|]. split.
  { rewrite Hd'. destruct Hev as [Hframe _ _]. rewrite Hframe. reflexivity. }
  split; [rewrite Hd'; exact (outcome_join d c base l k free Hfree _ d1 _ Hev)|].
  intros j f Hne Hf.
  destruct (outcome_entry d c base l k free Hfree _ d1 _ _ j f Hev (f_equal _ Hd') Hne Hf)
    as (f'&?&_&[->|?]); [done|by exists f'].
Qed.

(** ** Concrete runs *)

(** A fence that was signalled with the error 4. *)
Definition sample_signalled : msm_hw_fence :=
  (new_fence 6 3 1 0 0 0) <| flags := MSM_HW_FENCE_FLAG_SIGNAL |> <| error := 4 |>.

(** An array with a fence that is not signalled and one that is. *)
Definition sample_array : dma_fence_array := mkFenceArray 2 (Some [Some 1; Some 2]).

Definition sample_base : dma_fence := mkDmaFence 20 1 0 (Some sample_array).

(** The state with [tbl] as the table. *)
Definition sample_array_state (tbl : list msm_hw_fence) : hw_fence_driver_data :=
  sample_wait <| hw_fences_tbl := tbl |>
    <| dma_fences := [sample_base; mkDmaFence 5 9 (BIT 31) None; mkDmaFence 6 3 (BIT 31) None] |>.

Definition sample_join : hw_fence_driver_data :=
  sample_array_state [sample_waited; zero_fence; zero_fence; sample_signalled].

(** The first child has two parents already. *)
Definition sample_crowded : hw_fence_driver_data :=
  sample_array_state
    [sample_waited <| parents_cnt := 2 |> <| parent_list := [2; 2; HW_FENCE_INVALID_PARENT_FENCE] |>;
     zero_fence; new_fence 7 7 1 0 0 0; sample_signalled].

Lemma client_ok_fences caps rxs d t l c cl :
  client_ok caps rxs d c cl -> client_ok caps rxs (d <| hw_fences_tbl := t |> <| dma_fences := l |>) c cl.
Proof. by apply client_ok_transfer. Qed.

Lemma sample_array_env tbl :
  length tbl = 4%nat -> Forall fence_ok tbl -> Forall (fun f => low32 (lock f) = 0) tbl ->
  Forall links_ok tbl ->
  Forall (fun f => Forall (fun x => from_option valid 0 (zget tbl x) <> 0) (parents f)) tbl ->
  array_env (fun _ => 3%nat) (fun _ => []) (sample_array_state tbl) 1 sample_client 0 sample_base
    sample_array [Some 1; Some 2] 7.
Proof.
  intros Hlen Hok Hlock Hlinks Hlive. split; try done; try (by apply (bool_decide_unpack _)).
  - destruct sample_wait_ready as [_ _ Hcl]. split; [|done|].
    + split; [| | |done]; change (hw_fences_tbl (sample_array_state tbl)) with tbl; unfold zlen;
        rewrite Hlen; done.
    + intros c cl Hc. unfold sample_array_state. apply client_ok_fences. apply Hcl. exact Hc.
  - repeat constructor; eexists _, _; (split; [done|]; split; [done|]); cbn; lia.
  - intros k f. by apply forall_zget.
  - intros k f x Hf Hx. pose proof (forall_zget _ _ _ _ Hlive Hf) as Hp.
    apply (proj1 (list.Forall_forall _ _) Hp) in Hx. unfold fence_at.
    change (hw_fences_tbl (sample_array_state tbl)) with tbl. destruct (zget tbl x) as [g|]; [|done].
    by exists g.
Qed.

Lemma sample_join_env :
  array_env (fun _ => 3%nat) (fun _ => []) sample_join 1 sample_client 0 sample_base
    sample_array [Some 1; Some 2] 7.
Proof. apply sample_array_env; [done|repeat constructor; by apply (bool_decide_unpack _)|by apply (bool_decide_unpack _)..]. Qed.

Lemma sample_crowded_env :
  array_env (fun _ => 3%nat) (fun _ => []) sample_crowded 1 sample_client 0 sample_base
    sample_array [Some 1; Some 2] 7.
Proof. apply sample_array_env; [done|repeat constructor; by apply (bool_decide_unpack _)|by apply (bool_decide_unpack _)..]. Qed.

Example sample_join_run :
  value (hw_fence_process_fence_array 1 0 sample_array 7 sample_join) = Some (0, 1).
Proof. vm_compute. reflexivity. Qed.

Example sample_crowded_run :
  value (hw_fence_process_fence_array 1 0 sample_array 7 sample_crowded) = Some (- EINVAL, 1).
Proof. vm_compute. reflexivity. Qed.

Lemma fence_array_registration_witness :
  exists d' join', hw_fence_process_fence_array 1 0 sample_array 7 sample_join = Done ((0, 1), d') /\
    fence_at d' 1 join' /\ pending_child_cnt join' = 1 /\ error join' = 4 /\
    exists child, fence_at d' 0 child /\ parents child = [1].
Proof.
  destruct (fence_array_registration _ _ _ _ _ _ _ _ _ _ sample_join_env eq_refl) as (ret&h&d'&Hrun&_&Hok).
  pose proof sample_join_run as Hv. rewrite Hrun in Hv. injection Hv as -> ->.
  destruct (Hok eq_refl) as (free&ks&Hfree&_&Hks&Hch&join'&Hj&Hend).
  injection Hfree as <-. exists d', join'. split; [done|]. split; [done|].
  assert (ks = [0; 3]) as ->.
  { inversion_clear Hks as [|? k1 ? ? H1 Hks']. inversion_clear Hks' as [|? k2 ? ? H2 Hks''].
    inversion_clear Hks''. vm_compute in H1, H2. congruence. }
  destruct Hend as (_&_&_&Hp&He). rewrite Hp, He. split; [done|]. split; [done|].
  destruct (Hch 0 sample_waited) as (f'&Hf'&_&Hpar); [lia|done|].
  exists f'. split; [exact Hf'|exact Hpar].
Defined.

Lemma fence_array_rollback_witness :
  exists d', hw_fence_process_fence_array 1 0 sample_array 7 sample_crowded = Done ((- EINVAL, 1), d') /\
    forall k f, k <> 1 -> fence_at sample_crowded k f -> exists f', fence_at d' k f' /\ same_links f' f.
Proof.
  destruct (hw_fence_process_fence_array 1 0 sample_array 7 sample_crowded) as [[[ret h] d']|] eqn:Hrun;
    pose proof sample_crowded_run as Hv; rewrite Hrun in Hv; [|done].
  injection Hv as -> ->. exists d'. split; [done|]. intros k f Hk Hf.
  destruct (fence_array_rollback _ _ _ _ _ _ _ _ _ _ _ _ _ sample_crowded_env Hrun ltac:(discriminate))
    as [[Hd _]|(_&_&_&_&_&_&Hall)]; [|exact (Hall k f Hk Hf)].
  rewrite Hd. exists f. split; [exact Hf|reflexivity].
Defined.

(** a fence takes at most two parents, although the table has three slots
    for them ([MSM_HW_FENCE_MAX_JOIN_PARENTS], documented as the maximum number
    of parents): with two parents in the list the registration of a third array
    with this fence fails, and with one it succeeds. *)
Theorem third_parent_refused :
  let with_parents n := sample_array_state
    [sample_waited <| parents_cnt := n |>; zero_fence; zero_fence; sample_signalled] in
  length (parent_list sample_waited) = 3%nat /\
  value (hw_fence_process_fence_array 1 0 sample_array 7 (with_parents 1)) = Some (0, 1) /\
  value (hw_fence_process_fence_array 1 0 sample_array 7 (with_parents 2)) = Some (- EINVAL, 1).
Proof. split; [done|]. split; vm_compute; reflexivity. Qed.

(** for an array without fences the error path still runs the clean-up for
    the index 0, which reads the first element of the empty list. *)
Theorem empty_array_reads_first_child :
  exists d', process_children (array_indexes (mkFenceArray 0 (Some []))) 1 (mkFenceArray 0 (Some [])) 1 1
    false sample_join = Done (inr false, d') /\
  hw_fence_process_fence_array 1 0 (mkFenceArray 0 (Some [])) 7 sample_join = Fault OutOfBounds.
Proof. exists sample_join. split; [reflexivity|]. vm_compute. reflexivity. Qed.
