(* ===== verification/HwFenceApi.v ===== *)
(** * The client interface of the hardware-fence driver

    The exported functions of [msm_hw_fence.c]: registration of a client,
    creation and destruction of fences, registration for a wait, reset, updates
    of the Tx queue, and the error callback.  A client handle is the client's
    index in the table of clients; [None] is a null or error pointer. *)

From S2P Require Import Prelude HwFenceState HwFenceQueue HwFenceTable HwFenceJoin HwFenceLayout.

Local Open Scope Z_scope.

(** ** Registration *)

(** A queue that is no longer accessed: the carved-out memory keeps what it
    held. *)
Definition give_back (q : msm_hw_fence_queue) (d : hw_fence_driver_data) : hw_fence_driver_data :=
  match va_header q with
  | Some h => d <| carve_header ::= put_at (va_header_off q) h |>
                <| carve_word ::= put_words (va_queue q) (q_mem q) |>
  | None => d
  end.

(** The client's structure is freed; the memory of its queues stays as it is. *)
Definition hw_fence_cleanup_client (c : Z) : DM unit :=
  cl ← get_client c;
  d ← getM;
  t ← liftO OutOfBounds (zset (clients d) (client_id cl) None);
  modify (fun d => foldr give_back (d <| clients := t |>) (queues cl)).

(** The zero-allocated client. *)
Definition zero_client : msm_hw_fence_client :=
  mkClient 0 0 [zero_queue; zero_queue] 0 false 0 0 0 false false 0.

(** The steps after the client is in the table; an error goes to [error]. *)
Definition register_steps (client_id' client_id_ext' : Z) : DM Z :=
  let upd g := cl ← get_client client_id'; put_client client_id' (g cl) in
  upd (fun cl => cl <| client_id := client_id' |> <| client_id_ext := client_id_ext' |>) ;;
  vid ← hw_fence_ipcc_get_client_virt_id client_id';
  upd (fun cl => cl <| ipc_client_vid := vid |>) ;;
  pid ← hw_fence_ipcc_get_client_phys_id client_id';
  upd (fun cl => cl <| ipc_client_pid := pid |>) ;;
  if (vid <=? 0) || (pid <=? 0) then mret (- EINVAL) else
  sig ← hw_fence_ipcc_get_signal_id client_id';
  upd (fun cl => cl <| ipc_signal_id := sig |>) ;;
  if sig <? 0 then mret (- EINVAL) else
  rxq ← hw_fence_ipcc_needs_rxq_update client_id';
  upd (fun cl => cl <| update_rxq := rxq |>) ;;
  ipc ← hw_fence_ipcc_needs_ipc_irq client_id';
  upd (fun cl => cl <| send_ipc := ipc |>) ;;
  d ← getM;
  let num := s32 (hw_fence_utils_get_queues_num d client_id') in
  upd (fun cl => cl <| queues_num := num |>) ;;
  if negb (truthy num) || (rxq && (num <? HW_FENCE_CLIENT_QUEUES)) then mret (- EINVAL) else
  ret ← hw_fence_alloc_client_resources client_id';
  if truthy ret then mret ret else
  hw_fence_init_controller_signal client_id'.

(** The handle, or the error in the returned pointer. *)
Definition msm_hw_fence_register (hw_fence_driver_enable : bool) (client_id_ext : Z)
    (mem_descriptor : bool) : DM (Z + Z) :=
  if negb hw_fence_driver_enable then mret (inl (- ENODEV)) else
  d ← getM;
  if negb (resources_ready d) then mret (inl (- EAGAIN)) else
  if negb mem_descriptor || (HW_FENCE_CLIENT_MAX (uapi d) <=? client_id_ext)
  then mret (inl (- EINVAL)) else
  client_id ← liftO OutOfBounds (hw_fence_utils_get_client_id_priv d client_id_ext);
  if HW_FENCE_CLIENT_MAX (uapi d) <=? client_id then mret (inl (- EINVAL)) else
  ok ← kzalloc;
  if negb (ok : bool) then mret (inl (- ENOMEM)) else
  registered ← liftO OutOfBounds (zget (clients d) client_id);
  match registered with
  | Some _ => mret (inl (- EINVAL))
  | None =>
      put_client client_id zero_client ;;
      ret ← register_steps client_id client_id_ext;
      if truthy ret then
        hw_fence_cleanup_client client_id ;; mret (inl ret)
      else mret (inr client_id)
  end.

Definition msm_hw_fence_deregister (client_handle : option Z) : DM Z :=
  match client_handle with
  | None => mret (- EINVAL)
  | Some c =>
      cl ← get_client c;
      d ← getM;
      if clients_num d <=? client_id cl then mret (- EINVAL)
      else hw_fence_cleanup_client c ;; mret 0
  end.

(** ** Creation and destruction *)

(** The return value and what is stored in [*params->handle], if anything;
    [params] is null or holds the fence and whether the handle is non-null. *)
Definition msm_hw_fence_create (client_handle : option Z) (params : option (option Z * bool))
    : DM (Z * option Z) :=
  match client_handle, params with
  | Some c, Some (Some fence, true) =>
      d ← getM;
      if negb (vm_ready d) then mret (- EAGAIN, None) else
      array ← to_dma_fence_array (Some fence);
      match array with
      | Some _ => mret (- EINVAL, None)
      | None =>
          f ← get_dma_fence (Some fence);
          if test_bit (MSM_HW_FENCE_FLAG_ENABLED_BIT (uapi d)) f then mret (- EINVAL, None) else
          '(ret, hash) ← hw_fence_create c (df_context f) (df_seqno f);
          if truthy ret then mret (ret, Some hash) else
          set_bit (MSM_HW_FENCE_FLAG_ENABLED_BIT (uapi d)) (Some fence) ;;
          mret (0, Some hash)
      end
  | _, _ => mret (- EINVAL, None)
  end.

Definition msm_hw_fence_destroy (client_handle fence : option Z) : DM Z :=
  match client_handle, fence with
  | Some c, Some _ =>
      array ← to_dma_fence_array fence;
      match array with
      | Some _ => mret (- EINVAL)
      | None =>
          f ← get_dma_fence fence;
          d ← getM;
          if negb (test_bit (MSM_HW_FENCE_FLAG_ENABLED_BIT (uapi d)) f) then mret (- EINVAL) else
          ret ← hw_fence_destroy c (df_context f) (df_seqno f);
          if truthy ret then mret ret else
          clear_bit (MSM_HW_FENCE_FLAG_ENABLED_BIT (uapi d)) fence ;;
          mret 0
      end
  | _, _ => mret (- EINVAL)
  end.

Definition msm_hw_fence_destroy_with_handle (client_handle : option Z) (handle : Z) : DM Z :=
  match client_handle with
  | None => mret (- EINVAL)
  | Some c =>
      cl ← get_client c;
      d ← getM;
      if clients_num d <=? client_id cl then mret (- EINVAL) else
      hw_fence_destroy_with_hash c handle
  end.

(** ** Waiting *)

(** The loop over the list: the return value and the handles stored so far. *)
Fixpoint wait_update_loop (idxs : list Z) (c : Z) (fence_list : list (option Z))
    (client_data_list : option (list Z)) (handles : list Z) : DM (Z * list Z) :=
  match idxs with
  | [] => mret (0, handles)
  | i :: idxs' =>
      fence ← liftO OutOfBounds (zget fence_list i);
      client_data ← (match client_data_list with
                     | None => mret 0
                     | Some l => liftO OutOfBounds (zget l i)
                     end);
      array ← to_dma_fence_array fence;
      '(ret, hash) ← (match array, fence with
                      | Some array, Some p => hw_fence_process_fence_array c p array client_data
                      | _, _ => hw_fence_process_fence (Some c) fence client_data
                      end);
      if truthy ret then mret (ret, handles)
      else wait_update_loop idxs' c fence_list client_data_list (handles ++ [hash])
  end.

Definition msm_hw_fence_wait_update_v2 (client_handle : option Z)
    (fence_list : option (list (option Z))) (client_data_list : option (list Z))
    (num_fences : Z) : DM (Z * list Z) :=
  match client_handle, fence_list with
  | Some c, Some l =>
      first ← liftO OutOfBounds (zget l 0);
      if negb (is_found first) then mret (- EINVAL, []) else
      d ← getM;
      if negb (vm_ready d) then mret (- EAGAIN, []) else
      cl ← get_client c;
      let data_id := hw_fence_get_client_data_id (uapi d) (client_id_ext cl) in
      if (match client_data_list with Some _ => true | None => false end)
         && (HW_FENCE_MAX_CLIENTS_WITH_DATA <=? data_id)
      then mret (- EINVAL, []) else
      if rxq_clients_num d <? client_id cl then mret (- EINVAL, []) else
      wait_update_loop (map Z.of_nat (seq 0 (Z.to_nat num_fences))) c l client_data_list []
  | _, _ => mret (- EINVAL, [])
  end.

Definition msm_hw_fence_wait_update (client_handle : option Z)
    (fence_list : option (list (option Z))) (num_fences : Z) : DM (Z * list Z) :=
  msm_hw_fence_wait_update_v2 client_handle fence_list None num_fences.

(** ** Reset *)

Definition msm_hw_fence_reset_client (client_handle : option Z) (reset_flags : Z) : DM Z :=
  match client_handle with
  | None => mret (- EINVAL)
  | Some c =>
      d ← getM;
      if negb (vm_ready d) then mret (- EAGAIN) else
      forM (map Z.of_nat (seq 0 (Z.to_nat (hw_fences_tbl_cnt d))))
        (fun i => hw_fence_utils_cleanup_fence c i i reset_flags ;; mret tt) ;;
      hw_fence_utils_reset_queues c ;;
      mret 0
  end.

Definition msm_hw_fence_reset_client_by_id (client_id_ext reset_flags : Z) : DM Z :=
  d ← getM;
  if HW_FENCE_CLIENT_MAX (uapi d) <=? client_id_ext then mret (- EINVAL) else
  client_id ← liftO OutOfBounds (hw_fence_utils_get_client_id_priv d client_id_ext);
  if HW_FENCE_CLIENT_MAX (uapi d) <=? client_id then mret (- EINVAL) else
  client ← liftO OutOfBounds (zget (clients d) client_id);
  msm_hw_fence_reset_client (match client with Some _ => Some client_id | None => None end)
    reset_flags.

(** ** Tx queue, signals and doorbell *)

Definition msm_hw_fence_update_txq (client_handle : option Z) (handle flags error : Z) : DM Z :=
  d ← getM;
  if negb (resources_ready d) || negb (vm_ready d) then mret (- EAGAIN) else
  match client_handle with
  | None => mret (- EINVAL)
  | Some c =>
      if hw_fences_tbl_cnt d <=? handle then mret (- EINVAL) else
      f ← get_fence handle;
      hw_fence_update_queue c (ctx_id f) (seq_id f) handle flags 0 error (HW_FENCE_TX_QUEUE - 1) ;;
      mret 0
  end.

Definition msm_hw_fence_update_txq_error (client_handle : option Z)
    (handle error update_flags : Z) : DM Z :=
  d ← getM;
  if negb (resources_ready d) || negb (vm_ready d) then mret (- EAGAIN) else
  match client_handle with
  | None => mret (- EINVAL)
  | Some c =>
      if (hw_fences_tbl_cnt d <=? handle) || negb (truthy error) then mret (- EINVAL) else
      if negb (update_flags =? MSM_HW_FENCE_UPDATE_ERROR_WITH_MOVE (uapi d)) then mret (- EINVAL)
      else hw_fence_update_existing_txq_payload c handle error ;; mret 0
  end.

Definition msm_hw_fence_trigger_signal (client_handle : option Z)
    (tx_client_pid rx_client_vid signal_id : Z) : DM Z :=
  d ← getM;
  if negb (resources_ready d) || negb (vm_ready d) then mret (- EAGAIN) else
  match client_handle with
  | None => mret (- EINVAL)
  | Some _ => hw_fence_ipcc_trigger_signal tx_client_pid rx_client_vid signal_id ;; mret 0
  end.

Definition msm_hw_fence_driver_doorbell_sim (db_mask : Z) : DM Z :=
  d ← getM;
  if negb (resources_ready d) then mret (- EAGAIN) else
  hw_fence_utils_process_doorbell_mask db_mask ;; mret 0.

(** ** Error callback *)

(** [cb_data] says whether both the callback and its data are valid pointers. *)
Definition msm_hw_fence_register_error_cb (client_handle : option Z) (cb_data : bool) : DM Z :=
  d ← getM;
  if negb (resources_ready d) then mret (- EAGAIN) else
  match client_handle with
  | None => mret (- EINVAL)
  | Some c =>
      if negb cb_data then mret (- EINVAL) else
      cl ← get_client c;
      if fence_error_cb cl then mret (- EINVAL) else
      put_client c (cl <| fence_error_cb := true |>) ;; mret 0
  end.

(** [trylock] is the outcome of [mutex_trylock]. *)
Definition msm_hw_fence_deregister_error_cb (client_handle : option Z) (trylock : bool) : DM Z :=
  d ← getM;
  if negb (resources_ready d) then mret (- EAGAIN) else
  match client_handle with
  | None => mret (- EINVAL)
  | Some c =>
      cl ← get_client c;
      if negb trylock then mret (- EAGAIN) else
      (if negb (fence_error_cb cl) then mret tt
       else put_client c (cl <| fence_error_cb := false |>)) ;;
      mret 0
  end.

(** * Properties *)

Lemma bitmap_testbit c : 0 <= c -> Z.testbit (bitmap_bit c) c = true.
Proof. intros Hc. unfold bitmap_bit. rewrite Z.shiftl_spec by done. by rewrite Z.sub_diag. Qed.

Lemma BIT_testbit c : 0 <= c < 64 -> Z.testbit (BIT c) c = true.
Proof. intros Hc. unfold BIT, wrap. rewrite Z.mod_pow2_bits_low by lia. apply bitmap_testbit. lia. Qed.

Lemma reset_fence_waits u c fl f : 0 <= c < 64 -> Z.testbit (wait_client_mask (reset_fence u c fl f)) c = false.
Proof.
  intros Hc. unfold reset_fence. destruct (_ && _); cbn; [apply Z.bits_0|].
  rewrite Z.ldiff_spec, BIT_testbit by done. apply andb_false_r.
Qed.

(** [msm_hw_fence_reset_client] always succeeds on a registered client of a
    driver that is ready: every entry of the table is reset (its wait bit for
    the client cleared, the client's own fences destroyed unless the flags
    forbid it), nobody waits for the client any more, and both queues of the
    client are empty. *)
Theorem reset_client_spec caps rxs d c cl fl tx ltx :
  drv_ready caps rxs d -> client_at d c cl -> c < 64 -> own_keys d c -> vm_ready d = true ->
  hw_fences_tbl_cnt d = zlen (hw_fences_tbl d) -> rxq_clients_num d < zlen (clients d) ->
  rxq_clients_num d < 64 ->
  queue_of d c 0 = Some tx -> queue_repr tx ltx -> write_index_valid tx ->
  exists d', msm_hw_fence_reset_client (Some c) fl d = Done (0, d') /\
    hw_fences_tbl d' = map (reset_fence (uapi d) c fl) (hw_fences_tbl d) /\
    Forall (fun f => Z.testbit (wait_client_mask f) c = false) (hw_fences_tbl d') /\
    (exists tx', queue_of d' c 0 = Some tx' /\ queue_repr tx' []) /\
    (update_rxq cl = true -> exists rx', queue_of d' c 1 = Some rx' /\ queue_repr rx' []).
Proof.
  intros Hready Hc Hc64 Hown Hvm Hcnt Hnum Hn64 Htx Hrtx Hwi.
  pose proof (ck_pos _ _ _ _ _ (dr_clients _ _ _ Hready c cl Hc)) as Hpos.
  assert (Hinv : reset_inv caps d d c cl).
  { split; [by exists rxs|done|by exists cl|done|done|done]. }
  destruct (cleanup_fences_run caps d c cl fl (length (hw_fences_tbl d)) 0 d Hinv eq_refl)
    as (d1&Hrun&Ht1&[[rxs1 Hr1] _ (cl1&Hc1&Hs1) _ _ _]).
  assert (Hq1 : queue_of d1 c 0 = Some tx).
  { unfold queue_of, client_at in *. rewrite Hc1. rewrite Hc in Htx. destruct Hs1 as [_ Hs1].
    by rewrite <- Htx. }
  assert (Hu : update_rxq cl1 = update_rxq cl) by (by apply same_client_fields in Hs1 as (_&_&_&?&_)).
  assert (Hrx : exists rx lrx, update_rxq cl1 = true -> queue_ready d1 c 1 rx lrx /\ skip_wr_idx rx = false).
  { destruct (update_rxq cl1) eqn:Hu1; [|by exists tx, ltx].
    destruct (ck_rx _ _ _ _ _ (dr_clients _ _ _ Hr1 c cl1 Hc1) Hu1) as (Hn&Hl&rx&lp&Hq&Hrepr&_&Hskip&_).
    exists rx, lp. intros _. split; [|done]. split; [by exists cl1| |done].
    unfold queue_of, client_at in *. by rewrite Hc1. }
  destruct Hrx as (rx&lrx&Hrx).
  destruct (reset_queues_run d1 c cl1 tx rx ltx lrx Hc1 Hq1 Hrtx Hwi Hrx) as (d'&Hrun'&_&Ht'&Htx'&Hrx').
  rewrite Hu in Hrx'. cbn [take drop app] in Ht1.
  exists d'. split; [|split; [by rewrite Ht', Ht1|split; [|done]]].
  - unfold msm_hw_fence_reset_client. rewrite getM_run, Hvm, Hcnt. cbn [negb].
    unfold zlen. rewrite Nat2Z.id, (bind_run _ _ _ _ _ Hrun), (bind_run _ _ _ _ _ Hrun'). done.
  - rewrite Ht', Ht1. apply Forall_map, Forall_true. intros f. apply reset_fence_waits. lia.
Qed.

(** ** Creating and destroying through the client interface *)

Lemma set_clear_bit x b :
  0 <= b -> Z.testbit x b = false -> Z.ldiff (Z.lor x (bitmap_bit b)) (bitmap_bit b) = x.
Proof.
  intros Hb Hx. apply Z.bits_inj'. intros n Hn. rewrite Z.ldiff_spec, Z.lor_spec. unfold bitmap_bit.
  rewrite Z.shiftl_spec by done. change 1 with (2 ^ 0). rewrite Z.pow2_bits_eqb by done.
  destruct (Z.eqb_spec 0 (n - b)); [|by rewrite orb_false_r, andb_true_r].
  replace n with b by lia. by rewrite Hx.
Qed.

Lemma test_set_bit x b : 0 <= b -> Z.testbit (Z.lor x (bitmap_bit b)) b = true.
Proof. intros Hb. by rewrite Z.lor_spec, bitmap_testbit, orb_true_r by done. Qed.

(** A successful creation, taken apart. *)
Lemma create_inv d c cl p f h d1 :
  table_ok d -> client_at d c cl -> zget (dma_fences d) p = Some f -> df_array f = None ->
  let bit := MSM_HW_FENCE_FLAG_ENABLED_BIT (uapi d) in
  msm_hw_fence_create (Some c) (Some (Some p, true)) d = Done ((0, Some h), d1) ->
  exists k g, let m := hw_fence_table_entries d in
    (k < Z.to_nat m)%nat /\ h = probe m (df_context f) (df_seqno f) k /\
    fence_at d h g /\ valid g = 0 /\ test_bit bit f = false /\
    before d (df_context f) (df_seqno f) k
      (fun g => valid g <> 0 /\ ~ has_key g (df_context f) (df_seqno f)) /\
    d1 = (set_fence h (new_fence (df_context f) (df_seqno f) (client_id cl)
                         (qtimer d (qtime_reads d)) 0 (lock g)) (d <| qtime_reads ::= S |>))
           <| dma_fences ::= fun l => <[Z.to_nat p := f <| df_flags := Z.lor (df_flags f) (bitmap_bit bit) |>]> l |>.
Proof.
  intros Hok Hc Hf Harr bit Hrun. unfold msm_hw_fence_create in Hrun. rewrite getM_run in Hrun.
  destruct (vm_ready d); [|done]. cbn [negb] in Hrun. rewrite (to_array_then _ _ f), Harr in Hrun by done.
  rewrite (get_dma_then _ _ f) in Hrun by done. fold bit in Hrun.
  destruct (test_bit bit f) eqn:Hbit; [done|]. unfold hw_fence_create in Hrun.
  apply bind_inv in Hrun as ([ret hash]&d0&H1&Hrun). rewrite (with_client _ _ cl) in H1 by done.
  destruct (create_cases d Hok (df_context f) (df_seqno f) (client_id cl) 0 HW_FENCE_LOOKUP_OP_CREATE eq_refl)
    as [(k&g&Hk&Hg&Hv&Hb&Hl)|(h'&Hl&_)]; rewrite (bind_run _ _ _ _ _ Hl) in H1; injection H1 as <- <- <-;
    [|done].
  cbn [is_found truthy Z.eqb negb] in Hrun. rewrite (process_entry_eq _ _ _ _ _ _ _ g) in Hrun by done.
  apply bind_inv in Hrun as ([]&d2&H2&Hrun). unfold set_bit in H2.
  rewrite (upd_dma_run _ p f) in H2 by exact Hf. injection H2 as <-.
  injection Hrun as <- <-. exists k, g. split_and!; done.
Qed.

(** Destroying the first entry of a probe sequence that has the key. *)
Lemma destroy_at d c cl k f context seqno :
  table_ok d -> client_at d c cl -> (k < Z.to_nat (hw_fence_table_entries d))%nat ->
  fence_at d (probe (hw_fence_table_entries d) context seqno k) f -> has_key f context seqno ->
  before d context seqno k (fun g => ~ has_key g context seqno) ->
  hw_fence_destroy c context seqno d
  = Done (0, set_fence (probe (hw_fence_table_entries d) context seqno k) (cleared_fence (lock f)) d).
Proof.
  intros Hok Hc Hk Hf Hkey Hb. unfold hw_fence_destroy, _hw_fence_cleanup.
  rewrite (with_client _ _ cl) by done. unfold mbind, M_bind.
  rewrite (match_at d Hok context seqno (client_id cl) 0 HW_FENCE_LOOKUP_OP_DESTROY k f) by done.
  by rewrite (process_entry_eq _ _ _ _ _ _ _ f).
Qed.

(** The state after a creation: the key is reached at the new entry. *)
Section Created.
Context (d : hw_fence_driver_data) (c : Z) (cl : msm_hw_fence_client) (p : Z) (f : dma_fence).
Context (Hok : table_ok d) (Hc : client_at d c cl) (Hf : zget (dma_fences d) p = Some f).
Context (k : nat) (g : msm_hw_fence).

Abbreviation m := (hw_fence_table_entries d).
Abbreviation h := (probe m (df_context f) (df_seqno f) k).
Abbreviation bit := (MSM_HW_FENCE_FLAG_ENABLED_BIT (uapi d)).
Abbreviation e := (new_fence (df_context f) (df_seqno f) (client_id cl) (qtimer d (qtime_reads d)) 0 (lock g)).
Abbreviation f1 := (f <| df_flags := Z.lor (df_flags f) (bitmap_bit bit) |>).

Context (Hk : (k < Z.to_nat m)%nat) (Hg : fence_at d h g).
Context (Hb : before d (df_context f) (df_seqno f) k
  (fun g => valid g <> 0 /\ ~ has_key g (df_context f) (df_seqno f))).

Definition created : hw_fence_driver_data :=
  (set_fence h e (d <| qtime_reads ::= S |>)) <| dma_fences ::= fun l => <[Z.to_nat p := f1]> l |>.

Lemma created_dma : zget (dma_fences created) p = Some f1.
Proof using Hf. apply (zget_insert_eq (dma_fences d)). by eapply zget_Some. Qed.

Lemma created_ok : table_ok created.
Proof using Hok Hg.
  pose proof (process_entry_ok HW_FENCE_LOOKUP_OP_CREATE (df_context f) (df_seqno f)
    (client_id cl) 0 h d Hok) as Hp.
  rewrite (process_entry_eq _ _ _ _ _ _ _ g) in Hp by done. by destruct Hp; split.
Qed.

Lemma created_before :
  before created (df_context f) (df_seqno f) k (fun g => ~ has_key g (df_context f) (df_seqno f)).
Proof using Hb Hk Hok Hg.
  intros j x Hj Hx. apply (set_fence_at d h g e) in Hx; [|done]. case_decide as He; [|by eapply Hb].
  apply probe_inj in He; [lia|by apply entries_range|lia..].
Qed.

Lemma created_destroy :
  hw_fence_destroy c (df_context f) (df_seqno f) created
  = Done (0, set_fence h (cleared_fence (lock g)) created).
Proof using Hok Hc Hk Hg Hb.
  apply (destroy_at created c cl k e); [exact created_ok|exact Hc|exact Hk| |done|exact created_before].
  apply (set_fence_at d h g e); [done|]. by rewrite decide_True.
Qed.

End Created.

(** a fence created through the interface can be destroyed: the kernel's
    fence is marked as a hardware fence by the creation, a second creation is
    refused, and the destruction succeeds, clears the very entry the creation
    took and gives the kernel's fence back as it was. *)
Theorem create_destroy_roundtrip d c cl p f h d1 :
  table_ok d -> client_at d c cl -> zget (dma_fences d) p = Some f -> df_array f = None ->
  let bit := MSM_HW_FENCE_FLAG_ENABLED_BIT (uapi d) in 0 <= bit ->
  msm_hw_fence_create (Some c) (Some (Some p, true)) d = Done ((0, Some h), d1) ->
  (exists f1, zget (dma_fences d1) p = Some f1 /\ test_bit bit f1 = true) /\
  msm_hw_fence_create (Some c) (Some (Some p, true)) d1 = Done ((- EINVAL, None), d1) /\
  exists g d2, fence_at d h g /\ valid g = 0 /\
    msm_hw_fence_destroy (Some c) (Some p) d1 = Done (0, d2) /\
    hw_fences_tbl d2 = <[Z.to_nat h := cleared_fence (lock g)]> (hw_fences_tbl d) /\
    dma_fences d2 = dma_fences d.
Proof.
  intros Hok Hc Hf Harr bit Hbit Hrun.
  destruct (create_inv d c cl p f h d1 Hok Hc Hf Harr Hrun) as (k&g&Hk&->&Hg&Hv&Hoff&Hb&Hd1).
  assert (Hvm : vm_ready d = true).
  { unfold msm_hw_fence_create in Hrun. rewrite getM_run in Hrun. by destruct (vm_ready d). }
  change (d1 = created d cl p f k g) in Hd1. subst d1. clear Hrun.
  pose proof (created_dma d cl p f Hf k g) as Hf1. set (f1 := f <| df_flags := _ |>) in Hf1.
  assert (Hon : test_bit bit f1 = true) by (by apply test_set_bit).
  split; [by exists f1|]. split.
  { unfold msm_hw_fence_create. rewrite getM_run. change (vm_ready (created d cl p f k g)) with (vm_ready d).
    rewrite Hvm. cbn [negb]. rewrite (to_array_then _ _ f1) by done. change (df_array f1) with (df_array f).
    rewrite Harr, (get_dma_then _ _ f1) by done. fold bit.
    change (uapi (created d cl p f k g)) with (uapi d). fold bit. by rewrite Hon. }
  exists g. eexists. split; [done|]. split; [done|]. split; [|split].
  - unfold msm_hw_fence_destroy. rewrite (to_array_then _ _ f1) by done.
    change (df_array f1) with (df_array f). rewrite Harr, (get_dma_then _ _ f1), getM_run by done.
    change (uapi (created d cl p f k g)) with (uapi d). fold bit. rewrite Hon. cbn [negb].
    rewrite (bind_run _ _ _ _ _ (created_destroy d c cl p f Hok Hc k g Hk Hg Hb)).
    cbn [truthy Z.eqb negb]. unfold clear_bit.
    erewrite bind_run; [reflexivity|]. apply (upd_dma_run _ p f1). exact Hf1.
  - change (<[Z.to_nat (probe (hw_fence_table_entries d) (df_context f) (df_seqno f) k) := cleared_fence (lock g)]>
      (hw_fences_tbl (created d cl p f k g)) = <[Z.to_nat (probe (hw_fence_table_entries d) (df_context f) (df_seqno f) k) :=
        cleared_fence (lock g)]> (hw_fences_tbl d)).
    apply list_insert_insert_eq.
  - transitivity (<[Z.to_nat p := f1 <| df_flags := Z.ldiff (df_flags f1) (bitmap_bit bit) |>]>
      (<[Z.to_nat p := f1]> (dma_fences d))); [reflexivity|].
    rewrite list_insert_insert_eq. pose proof (zget_Some _ _ _ Hf). rewrite zget_to_nat in Hf by lia.
    apply list_insert_id. rewrite Hf. f_equal. unfold f1. cbn. rewrite set_clear_bit by done.
    by destruct f.
Qed.

(** ** Registration *)

Definition set_client (c : Z) (cl : msm_hw_fence_client) (d : hw_fence_driver_data)
    : hw_fence_driver_data := d <| clients ::= fun l => <[Z.to_nat c := Some cl]> l |>.

(** Everything but the clients and what the interrupt set-up writes. *)
Definition reg_obs (d : hw_fence_driver_data) :=
  (uapi d, hw_fences_tbl d, hw_fence_table_entries d, client_lock_tbl d, client_lock_tbl_cnt d,
   (hw_fence_client_types d, hw_fence_client_queue_size d, clients_num d, rxq_clients_num d)).

Lemma keeps_enable_dpu {T} (f : hw_fence_driver_data -> T) :
  (forall d v, f (d <| events := v |>) = f d) ->
  keeps (same f) hw_fence_ipcc_enable_dpu_signaling.
Proof.
  intros Hev. assert (Hemit : forall e, keeps (same f) (emit e)).
  { intros e. apply keeps_modify. intros s. unfold same. exact (Hev s _). }
  assert (Hloop : forall idxs b, keeps (same f) (enable_dpu_clients idxs b)).
  { induction idxs as [|i idxs IH]; intros b; cbn [enable_dpu_clients]; keep. }
  unfold hw_fence_ipcc_enable_dpu_signaling. keep.
Qed.

Lemma keeps_get_client {R : hw_fence_driver_data -> hw_fence_driver_data -> Prop} `{!PreOrder R} c :
  keeps R (get_client c).
Proof. intros s a s'. unfold get_client. destruct (zget _ c) as [[?|]|]; intros [= <- <-]; reflexivity. Qed.
#[export] Hint Resolve keeps_get_client : keeps.

Lemma keeps_init_signal {T} (f : hw_fence_driver_data -> T) c :
  (forall d v, f (d <| events := v |>) = f d) -> (forall d v, f (d <| ipcc_dpu_initialized := v |>) = f d) ->
  keeps (same f) (hw_fence_init_controller_signal c).
Proof.
  intros Hev Hdpu. unfold hw_fence_init_controller_signal. pose proof (keeps_enable_dpu f Hev). keep.
  apply Hdpu.
Qed.

(** The lookups of the interrupt map leave the state alone. *)
Lemma keeps_ipc_get g c : keeps (same (fun d => d)) (ipc_get g c).
Proof. unfold ipc_get, ipc_entry. keep. Qed.

Lemma keeps_needs_rxq c : keeps (same (fun d => d)) (hw_fence_ipcc_needs_rxq_update c).
Proof. unfold hw_fence_ipcc_needs_rxq_update, ipc_entry. keep. Qed.

Lemma keeps_needs_irq c : keeps (same (fun d => d)) (hw_fence_ipcc_needs_ipc_irq c).
Proof. unfold hw_fence_ipcc_needs_ipc_irq, ipc_entry. keep. Qed.

Section RegisterSteps.
Context (c ext : Z) (d : hw_fence_driver_data) (Hcr : 0 <= c < zlen (clients d)).

Lemma set_client_at cl : client_at (set_client c cl d) c cl.
Proof using Hcr. apply (zget_insert_eq (clients d)), Hcr. Qed.

Lemma set_client_twice cl cl' : set_client c cl' (set_client c cl d) = set_client c cl' d.
Proof.
  transitivity (d <| clients := <[Z.to_nat c := Some cl']> (<[Z.to_nat c := Some cl]> (clients d)) |>);
    [reflexivity|]. by rewrite list_insert_insert_eq.
Qed.

Lemma upd_client_then {A} cl g (k : unit -> DM A) :
  ((cl0 ← get_client c; put_client c (g cl0)) ≫= k) (set_client c cl d)
  = k tt (set_client c (g cl) d).
Proof using Hcr.
  rewrite (bind_run _ _ _ tt (set_client c (g cl) d)); [done|].
  rewrite (with_client _ _ cl) by apply set_client_at.
  rewrite (put_client_run _ _ cl) by apply set_client_at. f_equal. f_equal. apply set_client_twice.
Qed.

(** A step that leaves the state alone. *)
Lemma pure_step {A B} (m : DM A) (k : A -> DM B) s b s' :
  keeps (same (fun d => d)) m -> (m ≫= k) s = Done (b, s') -> exists a, k a s = Done (b, s').
Proof.
  intros Hm H. apply bind_inv in H as (a&s1&H1&H). exists a. apply Hm in H1. unfold same in H1. by subst.
Qed.

Lemma init_queues_error r qs n id s s' e :
  init_hw_fences_queues r qs n id s = Done (inl e, s') -> e <> 0 /\ s' = s.
Proof.
  unfold init_hw_fences_queues. rewrite getM_run.
  destruct (get_queue_params _ _ _ _); [|by intros [= <- <-]].
  intros ([|[[phys base] sz]]&s1&Hr&H)%bind_inv; apply reserve_inv in Hr as [-> _];
    [by injection H as <- <-|]. by destruct (_ <? n).
Qed.

(** The set-up of queues changes their headers in the memory, nothing else. *)
Lemma init_queues_state r qs n id s a s' :
  init_hw_fences_queues r qs n id s = Done (a, s') -> s' = s <| carve_header := carve_header s' |>.
Proof.
  intros H. pose proof (keeps_init_queues (fun d => d <| carve_header := fun _ => zero_header |>) r qs n id
    ltac:(done) _ _ _ H) as Hs. unfold same in Hs.
  apply (f_equal (fun d => d <| carve_header := carve_header s' |>)) in Hs.
  transitivity ((s' <| carve_header := fun _ => zero_header |>) <| carve_header := carve_header s' |>);
    [by destruct s'|exact Hs].
Qed.

(** The allocation of the queues, from a state that differs in the client only. *)
Lemma alloc_resources_inv cl r s' :
  hw_fence_alloc_client_resources c (set_client c cl d) = Done (r, s') ->
  client_id cl = c ->
  (r <> 0 /\ s' = set_client c cl d) \/
  exists desc start qs, client_desc d c = Some (desc, start) /\
    exists s1, init_hw_fences_queues HW_FENCE_MEM_RESERVE_CLIENT_QUEUE (queues cl) (s32 (td_queues_num desc)) c
      (set_client c cl d) = Done (inr qs, s1) /\
    s' = (set_client c (cl <| queues := qs |>) d) <| carve_header := carve_header s1 |>.
Proof using Hcr.
  intros H Hid. unfold hw_fence_alloc_client_resources in H.
  rewrite (with_client _ _ cl), getM_run, Hid in H by apply set_client_at.
  change (client_desc (set_client c cl d) c) with (client_desc d c) in H.
  destruct (client_desc d c) as [[desc start]|]; [|left; by injection H as <- <-].
  apply bind_inv in H as (rq&s2&H1&H).
  destruct rq as [e|qs].
  - apply init_queues_error in H1 as [He ->]. left. by injection H as <- <-.
  - right. exists desc, start, qs. split; [done|]. exists s2. split; [exact H1|].
    apply init_queues_state in H1 as Hs. rewrite Hs in H.
    apply bind_inv in H as ([]&s3&H2&H). injection H as <- <-.
    rewrite (put_client_run _ _ cl) in H2 by exact (set_client_at cl). injection H2 as <-.
    transitivity ((set_client c (cl <| queues := qs |>) (set_client c cl d)) <| carve_header := carve_header s2 |>);
      [reflexivity|]. by rewrite set_client_twice.
Qed.

(** The outcome of the steps: only the client and the interrupt set-up change;
    on success the client has its queues. *)
Lemma register_steps_inv cl0 ret d' :
  register_steps c ext (set_client c cl0 d) = Done (ret, d') ->
  exists cl, clients d' = <[Z.to_nat c := Some cl]> (clients d) /\ reg_obs d' = reg_obs d /\
    client_id cl = c /\
    (ret = 0 ->
       client_id_ext cl = ext /\ queues_num cl = s32 (hw_fence_utils_get_queues_num d c) /\
       (update_rxq cl = true -> HW_FENCE_CLIENT_QUEUES <= queues_num cl) /\
       exists desc start s s', client_desc d c = Some (desc, start) /\
         init_hw_fences_queues HW_FENCE_MEM_RESERVE_CLIENT_QUEUE (queues cl0)
           (s32 (td_queues_num desc)) c s = Done (inr (queues cl), s') /\
         exists cl1, s = set_client c cl1 d).
Proof using Hcr.
  unfold register_steps. intros H. rewrite upd_client_then in H.
  apply pure_step in H as (vid&H); [|apply keeps_ipc_get]. rewrite upd_client_then in H.
  apply pure_step in H as (pid&H); [|apply keeps_ipc_get]. rewrite upd_client_then in H.
  destruct (_ || _); [injection H as <- <-; by eexists|].
  apply pure_step in H as (sig&H); [|apply keeps_ipc_get]. rewrite upd_client_then in H.
  destruct (sig <? 0); [injection H as <- <-; by eexists|].
  apply pure_step in H as (rxq&H); [|apply keeps_needs_rxq]. rewrite upd_client_then in H.
  apply pure_step in H as (irq&H); [|apply keeps_needs_irq]. rewrite upd_client_then in H.
  rewrite getM_run in H. cbv zeta in H. rewrite upd_client_then in H.
  change (hw_fence_utils_get_queues_num (set_client c _ d) c) with (hw_fence_utils_get_queues_num d c) in H.
  match type of H with context [set_client c ?x d] => set (cl1 := x) in H end.
  change (s32 (hw_fence_utils_get_queues_num d c)) with (queues_num cl1) in H. change rxq with (update_rxq cl1) in H.
  destruct (_ || _) eqn:Hq; [injection H as <- <-; by exists cl1|].
  apply bind_inv in H as (r&s1&Halloc&H).
  apply alloc_resources_inv in Halloc as [[Hr ->]|(desc&start&qs&Hdesc&s2&Hinit&->)]; [| |done].
  { apply truthy_true in Hr as Ht. rewrite Ht in H. injection H as <- <-. by exists cl1. }
  set (cl2 := cl1 <| queues := qs |>) in *.
  assert (Hk : same (fun d => (clients d, reg_obs d)) ((set_client c cl2 d) <| carve_header := carve_header s2 |>) d').
  { destruct (truthy r); [by injection H as <- <-|].
    by apply (keeps_init_signal (fun d => (clients d, reg_obs d)) c ltac:(done) ltac:(done)) in H. }
  injection Hk as Hcl Hobs. exists cl2. split; [exact Hcl|]. split; [unfold reg_obs; congruence|].
  split; [done|]. intros _. split; [done|]. split; [done|]. split.
  - intros Hrx. change (update_rxq cl2) with (update_rxq cl1) in Hrx. rewrite Hrx in Hq.
    change (queues_num cl2) with (queues_num cl1). cbn [andb] in Hq. lia.
  - exists desc, start. eexists _, _. split; [done|]. split; [exact Hinit|]. by eexists.
Qed.

End RegisterSteps.

(** Giving the memory back changes nothing else. *)
Lemma give_back_same {T} (f : hw_fence_driver_data -> T) qs d :
  (forall d h w, f (d <| carve_header := h |> <| carve_word := w |>) = f d) -> f (foldr give_back d qs) = f d.
Proof.
  intros H. induction qs as [|q qs IH]; [done|]. cbn [foldr]. unfold give_back at 1.
  destruct (va_header q) as [h|]; [|done].
  exact (eq_trans (H _ (put_at (va_header_off q) h (carve_header _)) (put_words (va_queue q) (q_mem q) (carve_word _))) IH).
Qed.

Lemma cleanup_client_run d c cl :
  client_at d c cl -> client_id cl = c ->
  hw_fence_cleanup_client c d
  = Done (tt, foldr give_back (d <| clients := <[Z.to_nat c := None]> (clients d) |>) (queues cl)).
Proof.
  intros Hc Hid. unfold hw_fence_cleanup_client. rewrite (with_client _ _ cl), getM_run, Hid by done.
  pose proof (zget_Some _ _ _ Hc) as Hr. by rewrite (liftO_run _ _ _ _ _ (zset_in _ _ _ Hr)).
Qed.

(** A registration, up to the steps on the new client. *)
Lemma register_inv en ext md d r d' :
  msm_hw_fence_register en ext md d = Done (r, d') ->
  (r = inl (- ENODEV) \/ r = inl (- EAGAIN) \/ r = inl (- EINVAL) \/ r = inl (- ENOMEM)) /\
    clients d' = clients d /\ reg_obs d' = reg_obs d \/
  exists c ret d2, let d1 := d <| kzallocs ::= S |> in
    hw_fence_utils_get_client_id_priv d ext = Some c /\ c < HW_FENCE_CLIENT_MAX (uapi d) /\
    zget (clients d) c = Some None /\
    register_steps c ext (set_client c zero_client d1) = Done (ret, d2) /\
    (if truthy ret then hw_fence_cleanup_client c ;; mret (inl ret) else mret (inr c)) d2 = Done (r, d').
Proof.
  unfold msm_hw_fence_register. intros H.
  destruct en; [|left; injection H as <- <-; by auto]. cbn [negb] in H. rewrite getM_run in H.
  destruct (resources_ready d); [|left; injection H as <- <-; by auto]. cbn [negb] in H.
  destruct (negb md || _); [left; injection H as <- <-; by auto|].
  apply bind_inv in H as (c&s&Hid&H). apply liftO_inv in Hid as [Hid ->].
  destruct (HW_FENCE_CLIENT_MAX (uapi d) <=? c) eqn:Hmax; [left; injection H as <- <-; by auto|].
  apply bind_inv in H as (ok&s&Hk&H). unfold kzalloc in Hk. injection Hk as <- <-.
  destruct (kzalloc_ok d (kzallocs d)); [|left; injection H as <- <-; by auto 6].
  cbn [negb] in H. apply bind_inv in H as (reg&s&Hreg&H). apply liftO_inv in Hreg as [Hreg ->].
  change (zget (clients d) c = Some reg) in Hreg.
  destruct reg as [cl|]; [left; injection H as <- <-; by auto 6|]. right.
  apply bind_inv in H as ([]&s&Hput&H). unfold put_client in Hput.
  rewrite zset_in in Hput by (eapply zget_Some, Hreg). injection Hput as <-.
  apply bind_inv in H as (ret&d2&Hsteps&H). exists c, ret, d2.
  split; [done|]. split; [lia|]. split; [done|]. split; [exact Hsteps|exact H].
Qed.

(** What a registration changes: nothing when it fails, one client when it
    succeeds. *)
Lemma register_outcome en ext md d r d' :
  msm_hw_fence_register en ext md d = Done (r, d') ->
  reg_obs d' = reg_obs d /\
  match r with
  | inl _ => clients d' = clients d
  | inr c => hw_fence_utils_get_client_id_priv d ext = Some c /\ zget (clients d) c = Some None /\
      exists cl, clients d' = <[Z.to_nat c := Some cl]> (clients d) /\ client_id cl = c /\ client_id_ext cl = ext
  end.
Proof.
  intros [[[->|[->|[->| ->]]] [??]]|(c&ret&d2&Hpriv&_&Hc&Hsteps&H)]%register_inv; [done..|].
  set (d1 := d <| kzallocs ::= S |>) in *. pose proof (zget_Some _ _ _ Hc) as Hcr.
  apply (register_steps_inv c ext d1 Hcr) in Hsteps as (cl&Hcl&Hobs&Hid&Hok).
  destruct (truthy ret) eqn:Hret.
  - apply bind_inv in H as ([]&d3&Hcu&H). injection H as <- <-.
    rewrite (cleanup_client_run d2 c cl) in Hcu
      by (unfold client_at; first [rewrite Hcl; by apply zget_insert_eq|done]).
    injection Hcu as <-. rewrite (give_back_same reg_obs), (give_back_same clients) by done.
    split; [exact Hobs|]. change (<[Z.to_nat c := None]> (clients d2) = clients d). rewrite Hcl.
    change (clients d1) with (clients d). rewrite list_insert_insert_eq. apply list_insert_id. by rewrite <- zget_to_nat by lia.
  - injection H as <- <-. split; [exact Hobs|]. split; [done|]. split; [done|]. exists cl.
    apply truthy_false in Hret. by destruct (Hok Hret) as [? _].
Qed.

(** C31: a registration that fails leaves the driver as it was: no client is
    left registered, and the table, the locks and the configuration are
    unchanged. *)
Theorem register_failure_restores en ext md d e d' :
  msm_hw_fence_register en ext md d = Done (inl e, d') ->
  clients d' = clients d /\ reg_obs d' = reg_obs d.
Proof. by intros [? ?]%register_outcome. Qed.

(** The state a registration needs: the client's type was parsed, its region
    is in the carved-out memory, the place of each of its queues is cleared or
    holds the payloads [held i] of a queue that was there before, and its lock is
    free. *)
Record register_env (d : hw_fence_driver_data) (c : Z) (desc : hw_fence_client_type_desc) (start : Z)
    (held : Z -> list queue_payload) : Prop := {
  re_headers : headers_ok (uapi d);
  re_type : type_ok (uapi d) (PAGE_SIZE d) desc;
  re_desc : client_desc d c = Some (desc, start);
  re_id : 0 < c < clients_num d;
  re_start : 0 <= start;
  re_region : start + mem_size desc <= size d;
  re_size : size d < 2 ^ 32;
  re_held : forall i, 0 <= i < td_queues_num desc -> region_holds d desc start i (held i);
  re_lock : u32 (c - 1) < client_lock_tbl_cnt d /\
    exists v, zget (client_lock_tbl d) (u32 (c - 1)) = Some v /\ low32 v = 0;
}.

(** The new client with its queues, in a driver where nothing else changed. *)
Lemma registered_ready caps rxs d d' c cl desc start held :
  drv_ready caps rxs d -> register_env d c desc start held -> zget (clients d) c = Some None ->
  clients d' = <[Z.to_nat c := Some cl]> (clients d) -> reg_obs d' = reg_obs d -> client_id cl = c ->
  (update_rxq cl = true -> HW_FENCE_CLIENT_QUEUES <= queues_num cl) ->
  queues_num cl = td_queues_num desc ->
  (forall i, 0 <= i < td_queues_num desc -> exists queue, zget (queues cl) i = Some queue /\
     queue_repr queue (held i) /\ capacity queue = Z.to_nat (queue_entries desc) /\
     (0 < i -> skip_wr_idx queue = false)) ->
  drv_ready (fun k => if k =? c then Z.to_nat (queue_entries desc) else caps k)
    (fun k => if k =? c then map payload_message (held 1) else rxs k) d'.
Proof.
  intros [[] Hf Hcl] Hre Hc Hcl' Hobs Hid Hrx Hnum Hqs. unfold reg_obs in Hobs.
  injection Hobs as Hu Ht He Hl Hln _ _ _ _. pose proof (re_id _ _ _ _ _ Hre) as Hcid.
  split; [split; by rewrite ?Ht, ?He|by rewrite Ht|]. intros k ck Hk. unfold client_at in Hk.
  rewrite Hcl' in Hk. destruct (Z.eqb_spec k c) as [->|Hne].
  - rewrite zget_insert_eq in Hk by (by eapply zget_Some). injection Hk as <-.
    split; [done|lia|]. intros Hu1. specialize (Hrx Hu1). unfold HW_FENCE_CLIENT_QUEUES in Hrx.
    split; [lia|]. split.
    + intros _. rewrite Hid, Hl, Hln. apply Hre.
    + destruct (Hqs 1 ltac:(lia)) as (q&Hq&Hrepr&Hcap&Hskip). rewrite Z.eqb_refl.
      exists q, (held 1). split_and!; [exact Hq|done|done|by apply Hskip|done].
  - rewrite zget_insert_ne in Hk by lia. specialize (Hcl k ck Hk) as [Hi Hp Hr].
    split; [done..|]. destruct (Z.eqb_spec k c); [done|]. unfold rx_lock_ready in *. by rewrite Hl, Hln.
Qed.

(** C30: a registration that succeeds, for a client whose identifier, type and
    region were laid out by the initialisation, gives a client under its
    internal identifier whose queues have the configured number of entries and
    hold exactly what their place in the carved-out memory held: nothing in
    memory that is cleared, and the payloads that were not read in memory an
    earlier registration left; the Tx queue is valid, the other clients are
    untouched, and the driver is ready to signal the client. *)
Theorem register_success_ready caps rxs en ext md d c desc start held d' :
  drv_ready caps rxs d -> register_env d c desc start held ->
  msm_hw_fence_register en ext md d = Done (inr c, d') ->
  let caps' k := if k =? c then Z.to_nat (queue_entries desc) else caps k in
  let rxs' k := if k =? c then map payload_message (held 1) else rxs k in
  hw_fence_utils_get_client_id_priv d ext = Some c /\
  drv_ready caps' rxs' d' /\
  (exists cl, client_at d' c cl /\ client_id_ext cl = ext /\
     forall i, 0 <= i < td_queues_num desc -> exists queue, queue_of d' c i = Some queue /\
       queue_repr queue (held i) /\ write_index_valid queue /\
       capacity queue = Z.to_nat (queue_entries desc) /\
       va_queue queue = words_off d desc start i /\ va_header_off queue = header_off d desc start i) /\
  forall k cl, client_at d k cl -> client_at d' k cl.
Proof.
  intros Hready Hre. pose proof Hre as [Hhead Hty Hdesc Hid Hst Hreg Hsz Hheld Hlock].
  intros [[[Hr|[Hr|[Hr|Hr]]] _]|(c'&ret&d2&Hpriv&_&Hc&Hsteps&H)]%register_inv; [done..|].
  destruct (truthy ret) eqn:Hret; [by apply bind_inv in H as ([]&?&_&?)|]. apply truthy_false in Hret.
  injection H as -> <-. set (d1 := d <| kzallocs ::= S |>) in *. pose proof (zget_Some _ _ _ Hc) as Hcr.
  apply (register_steps_inv c ext d1 Hcr) in Hsteps as (cl&Hcl&Hobs&Hcid&Hok).
  destruct (Hok Hret) as (Hext&Hqn&Hrx&desc0&start0&s&s'&Hdesc0&Hinit&cl1&->).
  assert (desc0 = desc /\ start0 = start) as [-> ->].
  { change (client_desc d c = Some (desc0, start0)) in Hdesc0. rewrite Hdesc in Hdesc0. by injection Hdesc0. }
  pose proof (to_queues _ _ _ Hty) as Hq2. unfold HW_FENCE_CLIENT_QUEUES in Hq2.
  assert (Hs32 : s32 (td_queues_num desc) = td_queues_num desc).
  { assert (td_queues_num desc = 1 \/ td_queues_num desc = 2) as [-> | ->] by lia; done. }
  destruct (init_client_queues_run (set_client c cl1 d1) c desc start held Hhead Hty Hdesc (proj2 Hid) Hst Hreg Hsz)
    as (qs&Hrun&Hqs); [intros i Hi; by apply (region_holds_same d), Hheld|].
  rewrite Hs32 in Hinit. change (queues zero_client) with [zero_queue; zero_queue] in Hinit.
  rewrite Hrun in Hinit. injection Hinit as -> _.
  assert (Hat : client_at d2 c cl) by (unfold client_at; rewrite Hcl; by apply zget_insert_eq).
  split; [done|]. split; [|split].
  - apply (registered_ready caps rxs d d2 c cl desc start held Hready Hre Hc Hcl Hobs Hcid Hrx).
    + rewrite Hqn. change (hw_fence_utils_get_queues_num d1 c) with (hw_fence_utils_get_queues_num d c).
      unfold hw_fence_utils_get_queues_num. destruct (clients_num d <=? c) eqn:?; [lia|]. by rewrite Hdesc.
    + intros i Hi. destruct (Hqs i Hi) as (q&?&?&_&?&?&_). by exists q.
  - exists cl. split; [done|]. split; [done|]. intros i Hi.
    destruct (Hqs i Hi) as (q&Hq&Hrepr&Hwi&_&Hcap&Hva&Hho&_).
    exists q. unfold queue_of, client_at in *. rewrite Hat. by split_and!.
  - intros k ck Hk. unfold client_at in *. rewrite Hcl. destruct (decide (k = c)) as [->|Hne].
    + change (zget (clients d1) c) with (zget (clients d) c) in *. congruence.
    + rewrite zget_insert_ne by lia. exact Hk.
Qed.

(** ** Deregistration *)

Lemma put_words_other ws : forall off view o,
  o < off \/ off + 4 * zlen ws <= o -> put_words off ws view o = view o.
Proof.
  induction ws as [|x ws IH]; intros off view o Ho; [done|]. cbn [put_words].
  unfold zlen in *. cbn [length] in Ho. rewrite IH by lia. unfold put_at.
  by replace (o =? off) with false by lia.
Qed.

Lemma put_words_get ws : forall off view k x,
  ws !! k = Some x -> put_words off ws view (off + 4 * Z.of_nat k) = x.
Proof.
  induction ws as [|y ws IH]; intros off view k x Hk; [done|]. cbn [put_words]. destruct k as [|k].
  - injection Hk as ->. rewrite put_words_other by lia. unfold put_at.
    by replace (off + 4 * Z.of_nat 0 =? off) with true by lia.
  - replace (off + 4 * Z.of_nat (S k)) with (off + 4 + 4 * Z.of_nat k) by lia. by apply IH.
Qed.

(** Two queues at different places. *)
Definition queues_apart (q q' : msm_hw_fence_queue) : Prop :=
  va_header_off q' <> va_header_off q /\
  (va_queue q' + 4 * zlen (q_mem q') <= va_queue q \/ va_queue q + 4 * zlen (q_mem q) <= va_queue q').

(** A queue given back after others that are elsewhere is in the memory. *)
Lemma give_back_all qs d : forall i q h,
  qs !! i = Some q -> va_header q = Some h ->
  (forall j q', j <> i -> qs !! j = Some q' -> is_Some (va_header q') -> queues_apart q q') ->
  carve_header (foldr give_back d qs) (va_header_off q) = h /\
  forall k x, q_mem q !! k = Some x -> carve_word (foldr give_back d qs) (va_queue q + 4 * Z.of_nat k) = x.
Proof.
  induction qs as [|q0 qs IH]; intros i q h Hi Hh Hap; [done|]. cbn [foldr]. destruct i as [|i].
  - injection Hi as ->. unfold give_back. rewrite Hh. split.
    + cbn. unfold put_at. by rewrite Z.eqb_refl.
    + intros k x Hk. by apply put_words_get.
  - destruct (IH i q h Hi Hh) as [Hhd Hwd].
    { intros j q' Hj Hq' Hs. apply (Hap (S j) q'); [lia|done|done]. }
    unfold give_back at 1 3. destruct (va_header q0) as [h0|] eqn:Hh0; [|by split].
    destruct (Hap 0%nat q0 ltac:(lia) eq_refl ltac:(by rewrite Hh0)) as [Hne Hw]. split.
    + cbn. unfold put_at. by replace (va_header_off q =? va_header_off q0) with false by lia.
    + intros k x Hk. rewrite <- (Hwd k x Hk). apply lookup_lt_Some in Hk.
      apply put_words_other. unfold zlen in *. lia.
Qed.

(** Queue [q] is set up at the place of queue [i] and holds [l]. *)
Record queue_placed (d : hw_fence_driver_data) (desc : hw_fence_client_type_desc) (start i : Z)
    (q : msm_hw_fence_queue) (l : list queue_payload) : Prop := {
  qp_config : let v := queue_view d desc start i in
    q_size_bytes q = q_size_bytes v /\ rd_wr_idx_start q = rd_wr_idx_start v /\
    rd_wr_idx_factor q = rd_wr_idx_factor v /\ skip_wr_idx q = skip_wr_idx v;
  qp_off : va_queue q = words_off d desc start i /\ va_header_off q = header_off d desc start i;
  qp_holds : queue_repr q l;
  qp_valid : write_index_valid q;
  qp_used : IS_HW_FENCE_TX_QUEUE i = true -> txq_idx_start desc <> 0 ->
    forall h, va_header q = Some h -> write_index h <> 0;
}.

(** The words of a queue are all its memory. *)
Lemma placed_words d desc start i q l :
  queue_placed d desc start i q l -> zlen (q_mem q) = 16 * queue_entries desc /\ is_Some (va_header q).
Proof.
  intros [(Hz&_) _ (slots&h&r&[Hm Hsz _ _ Hh _ _ _ _]&_) _ _]. rewrite Hh. split; [|done].
  cbn in Hz. rewrite Hm. unfold slots_mem. rewrite Hsz in Hz.
  assert (Hl : length (slots ≫= payload_words) = (16 * length slots)%nat).
  { clear. induction slots as [|p slots IH]; [done|].
    change (length (payload_words p ++ (slots ≫= payload_words)) = (16 * S (length slots))%nat).
    rewrite length_app, IH, length_payload_words. lia. }
  unfold zlen in *. lia.
Qed.

Lemma placed_apart d desc start i j q q' l l' :
  headers_ok (uapi d) -> 0 < queue_entries desc -> i <> j ->
  queue_placed d desc start i q l -> queue_placed d desc start j q' l' -> queues_apart q q'.
Proof.
  intros [_ Hq] He Hij Hp Hp'. destruct (placed_words _ _ _ _ _ _ Hp) as [Hl _].
  destruct (placed_words _ _ _ _ _ _ Hp') as [Hl' _].
  destruct Hp as [_ [Ho Hh] _ _ _], Hp' as [_ [Ho' Hh'] _ _ _]. unfold queues_apart.
  rewrite Hl, Hl', Ho, Ho', Hh, Hh'. unfold words_off, header_off. split; [nia|].
  destruct (Z.lt_ge_cases i j); [right|left]; nia.
Qed.

(** The words of [16 * n] known places. *)
Lemma carve_words_eq d off ws n :
  zlen ws = 16 * n -> (forall k x, ws !! k = Some x -> carve_word d (off + 4 * Z.of_nat k) = x) ->
  carve_words d off (64 * n) = ws.
Proof.
  intros Hl Hw. apply (list_eq_same_length _ _ (Z.to_nat (16 * n))).
  - unfold zlen in Hl. lia.
  - unfold carve_words, carve_array. rewrite length_map, length_seq. f_equal.
    replace (64 * n) with (16 * n * 4) by lia. by rewrite Z.div_mul.
  - intros k x y Hk Hx Hy. unfold carve_words, carve_array in Hx. rewrite list_lookup_fmap in Hx.
    destruct (seq _ _ !! k) as [k'|] eqn:Hs; [|done]. apply lookup_seq in Hs as [-> _].
    injection Hx as <-. exact (Hw k y Hy).
Qed.

(** a client that was registered can be deregistered: the call returns 0, the
    client is gone and the others are untouched, and its place in the carved-out
    memory keeps the payloads its queues held, read and write indexes included,
    so that a later registration of the same client finds them. *)
Theorem deregister_leaves_messages d c cl desc start held :
  headers_ok (uapi d) -> type_ok (uapi d) (PAGE_SIZE d) desc ->
  client_at d c cl -> client_id cl = c -> c < clients_num d ->
  (forall i q, zget (queues cl) i = Some q ->
     if i <? td_queues_num desc then queue_placed d desc start i q (held i) else va_header q = None) ->
  td_queues_num desc <= zlen (queues cl) ->
  exists d', msm_hw_fence_deregister (Some c) d = Done (0, d') /\
    clients d' = <[Z.to_nat c := None]> (clients d) /\ reg_obs d' = reg_obs d /\
    forall i, 0 <= i < td_queues_num desc -> region_holds d' desc start i (held i).
Proof.
  intros Hhead Hty Hc Hid Hnum Hqs Hlen. pose proof (to_entries _ _ _ Hty) as He.
  set (d0 := d <| clients := <[Z.to_nat c := None]> (clients d) |>).
  exists (foldr give_back d0 (queues cl)).
  assert (Hu : uapi (foldr give_back d0 (queues cl)) = uapi d) by (by rewrite (give_back_same uapi)).
  split; [|split; [by rewrite (give_back_same clients)|split; [by rewrite (give_back_same reg_obs)|]]].
  { unfold msm_hw_fence_deregister. rewrite (with_client _ _ cl), getM_run, Hid by done.
    destruct (clients_num d <=? c) eqn:?; [lia|]. by rewrite (bind_run _ _ _ _ _ (cleanup_client_run d c cl Hc Hid)). }
  intros i Hi. destruct (zget_is_Some (queues cl) i ltac:(lia)) as [q Hq].
  pose proof (Hqs i q Hq) as Hp. destruct (i <? td_queues_num desc) eqn:?; [|lia].
  destruct (placed_words _ _ _ _ _ _ Hp) as [Hl [h Hh]]. pose proof (fun H => qp_used _ _ _ _ _ _ Hp H) as Hused.
  destruct (give_back_all (queues cl) d0 (Z.to_nat i) q h) as [Hhd Hwd]; [by rewrite <- zget_to_nat by lia|done| |].
  { intros j q' Hj Hq' [h' Hh']. assert (Hz : zget (queues cl) (Z.of_nat j) = Some q') by (by rewrite zget_nat).
    pose proof (Hqs _ _ Hz) as Hp'. destruct (Z.of_nat j <? td_queues_num desc); [|congruence].
    by apply (placed_apart d desc start i (Z.of_nat j) q q' _ _ Hhead ltac:(lia) ltac:(lia) Hp Hp'). }
  destruct Hp as [Hview [Ho Hho] Hrepr Hvalid _]. rewrite Ho in Hwd. rewrite Hho in Hhd.
  set (d' := foldr give_back d0 (queues cl)) in *.
  assert (Heq : words_off d' desc start i = words_off d desc start i /\ header_off d' desc start i = header_off d desc start i)
    by (unfold words_off, header_off; by rewrite Hu). destruct Heq as [Hwo Hoo].
  assert (Hm : carve_words d' (words_off d desc start i) (64 * queue_entries desc) = q_mem q)
    by (by apply carve_words_eq).
  assert (Hsame : same_ring q (queue_view d' desc start i)).
  { destruct Hview as (Hz&Hs&Hf&Hk). unfold same_ring, queue_view. rewrite Hwo, Hoo, Hm, Hhd, Hh.
    split; [done|]. split; [by symmetry|]. split; [by symmetry|]. split; [by symmetry|].
    split; [by symmetry|]. by constructor. }
  apply RegionUsed; [by eapply same_ring_repr|by eapply same_ring_valid|].
  intros Htx Hst. rewrite Hoo, Hhd. by apply Hused.
Qed.

(** ** Concrete runs *)

Lemma sample_wait_own : own_keys sample_wait 1.
Proof.
  assert (Hall : forall i f, fence_at sample_wait i f -> (i = 0 /\ f = sample_waited) \/ f = zero_fence).
  { intros i f Hf. pose proof (zget_Some _ _ _ Hf) as Hr. change (zlen _) with 4 in Hr.
    unfold fence_at in Hf. rewrite zget_to_nat in Hf by lia.
    destruct (Z.to_nat i) as [|[|[|[|n]]]] eqn:Hn; [|right; by injection Hf..|lia].
    left. split; [lia|by injection Hf]. }
  intros i f Hf Ha. destruct (Hall i f Hf) as [[-> ->]| ->]; [|done].
  split; [by intros [??]|]. intros j g Hg Hk. destruct (Hall j g Hg) as [[-> ->]| ->]; [done|].
  by destruct Hk.
Qed.

Lemma sample_queue_valid n : (0 < n)%nat -> write_index_valid (sample_queue n).
Proof.
  intros Hn h [= <-]. exists 0%nat. unfold capacity, sample_queue, sizeof_payload. cbn.
  split; [|done]. rewrite Z.mul_comm, Z.div_mul by done. lia.
Qed.

Lemma reset_client_spec_witness :
  exists d', msm_hw_fence_reset_client (Some 1) 0 sample_wait = Done (0, d') /\
    hw_fences_tbl d' = map (reset_fence sample_uapi 1 0) (hw_fences_tbl sample_wait) /\
    Forall (fun f => Z.testbit (wait_client_mask f) 1 = false) (hw_fences_tbl d') /\
    (exists tx', queue_of d' 1 0 = Some tx' /\ queue_repr tx' []) /\
    (true = true -> exists rx', queue_of d' 1 1 = Some rx' /\ queue_repr rx' []).
Proof.
  apply (reset_client_spec (fun _ => 3%nat) (fun _ => []) sample_wait 1 sample_client 0 (sample_queue 2) []).
  - exact sample_wait_ready.
  - done.
  - done.
  - exact sample_wait_own.
  - done.
  - done.
  - done.
  - done.
  - done.
  - apply sample_queue_repr. lia.
  - apply sample_queue_valid. lia.
Defined.

(** A driver with one fence of the kernel, not yet a hardware fence. *)
Definition sample_fences : hw_fence_driver_data :=
  sample_empty <| vm_ready := true |> <| dma_fences := [mkDmaFence 5 9 0 None] |>.

Definition sample_marked : hw_fence_driver_data :=
  sample_fences <| qtime_reads := 1%nat |> <| dma_fences := [mkDmaFence 5 9 2147483648 None] |>
    <| hw_fences_tbl := new_fence 5 9 1 0 0 0 :: replicate 3 zero_fence |>.

Lemma sample_fences_ok : table_ok sample_fences.
Proof. by destruct sample_empty_ok; split. Qed.

Lemma create_destroy_roundtrip_witness :
  (exists f1, zget (dma_fences sample_marked) 0 = Some f1 /\ test_bit 31 f1 = true) /\
  msm_hw_fence_create (Some 1) (Some (Some 0, true)) sample_marked = Done ((- EINVAL, None), sample_marked) /\
  exists g d2, fence_at sample_fences 0 g /\ valid g = 0 /\
    msm_hw_fence_destroy (Some 1) (Some 0) sample_marked = Done (0, d2) /\
    hw_fences_tbl d2 = <[Z.to_nat 0 := cleared_fence (lock g)]> (hw_fences_tbl sample_fences) /\
    dma_fences d2 = dma_fences sample_fences.
Proof.
  apply (create_destroy_roundtrip sample_fences 1 sample_fence_client 0 (mkDmaFence 5 9 0 None) 0 sample_marked).
  - exact sample_fences_ok.
  - done.
  - done.
  - done.
  - done.
  - vm_compute. reflexivity.
Defined.

(** A driver laid out for one client, whose interrupts are in [ipc]. *)
Definition sample_register (ipc : hw_fence_client_ipc_map) : hw_fence_driver_data :=
  sample_layout <| resources_ready := true |> <| clients := [None; None] |>
    <| client_lock_tbl := [0] |> <| client_lock_tbl_cnt := 1 |>
    <| ipc_clients_table := [mkIpcMap 0 0 0 false false; ipc] |>
    <| hw_fence_table_entries := 4 |> <| hw_fences_tbl := replicate 4 zero_fence |>.

Definition sample_gpu_ipc : hw_fence_client_ipc_map := mkIpcMap 9 4 0 true true.

Lemma sample_register_ready : drv_ready (fun _ => 3%nat) (fun _ => []) (sample_register sample_gpu_ipc).
Proof.
  split.
  - split; try done. by apply (bool_decide_unpack _).
  - repeat constructor; try done; by apply (bool_decide_unpack _).
  - intros c cl Hc. pose proof (zget_Some _ _ _ Hc) as Hr. change (zlen _) with 2 in Hr.
    by assert (c = 0 \/ c = 1) as [-> | ->] by lia.
Qed.

Lemma sample_register_env : register_env (sample_register sample_gpu_ipc) 1 parsed_gpu 4096 (fun _ => []).
Proof.
  split; try done; [exact parsed_gpu_ok| |split; [done|by exists 0]].
  intros i Hi. apply RegionCleared; [done|]. apply list.Forall_forall. intros x (k&->&_)%list_elem_of_fmap. done.
Qed.

Lemma register_failure_restores_witness :
  exists d', msm_hw_fence_register true 1 true (sample_register (mkIpcMap 0 0 0 true true))
      = Done (inl (- EINVAL), d') /\
    clients d' = [None; None] /\ reg_obs d' = reg_obs (sample_register (mkIpcMap 0 0 0 true true)).
Proof.
  destruct (run_value (msm_hw_fence_register true 1 true) (sample_register (mkIpcMap 0 0 0 true true))
    (inl (- EINVAL))) as [d' H]; [vm_compute; reflexivity|].
  exists d'. split; [exact H|].
  exact (register_failure_restores true 1 true (sample_register (mkIpcMap 0 0 0 true true)) (- EINVAL) d' H).
Defined.

Lemma register_success_ready_witness :
  exists d', msm_hw_fence_register true 1 true (sample_register sample_gpu_ipc) = Done (inr 1, d') /\
    hw_fence_utils_get_client_id_priv (sample_register sample_gpu_ipc) 1 = Some 1 /\
    drv_ready (fun k => if k =? 1 then 8%nat else 3%nat) (fun k => if k =? 1 then [] else []) d' /\
    (exists cl, client_at d' 1 cl /\ client_id_ext cl = 1 /\
       forall i, 0 <= i < 2 -> exists queue, queue_of d' 1 i = Some queue /\
         queue_repr queue [] /\ write_index_valid queue /\ capacity queue = 8%nat /\
         va_queue queue = words_off (sample_register sample_gpu_ipc) parsed_gpu 4096 i /\
         va_header_off queue = header_off (sample_register sample_gpu_ipc) parsed_gpu 4096 i) /\
    forall k cl, client_at (sample_register sample_gpu_ipc) k cl -> client_at d' k cl.
Proof.
  destruct (run_value (msm_hw_fence_register true 1 true) (sample_register sample_gpu_ipc) (inr 1))
    as [d' H]; [vm_compute; reflexivity|].
  exists d'. split; [exact H|].
  exact (register_success_ready (fun _ => 3%nat) (fun _ => []) true 1 true (sample_register sample_gpu_ipc) 1
    parsed_gpu 4096 (fun _ => []) d' sample_register_ready sample_register_env H).
Defined.

(** A client of the type above, with one payload in its Tx queue. *)
Definition sample_payload : queue_payload := new_payload 5 9 0 0 7 0 0 0.

Definition sample_tx : msm_hw_fence_queue :=
  mkQueue (slots_mem (sample_payload :: replicate 7 zero_payload)) 512
    (Some (mkHfiHeader 0 1 512 64 100 101 0)) 0 100 16 false 4248 4128.

Definition sample_rx : msm_hw_fence_queue :=
  mkQueue (slots_mem (replicate 8 zero_payload)) 512
    (Some (mkHfiHeader 0 2 512 64 0 0 0)) 0 0 1 false 4760 4184.

Definition sample_registered : hw_fence_driver_data :=
  (sample_register sample_gpu_ipc)
    <| clients := [None; Some (mkClient 1 1 [sample_tx; sample_rx] 2 false 0 0 0 true true 0)] |>.

Lemma sample_tx_placed : queue_placed sample_registered parsed_gpu 4096 0 sample_tx [sample_payload].
Proof.
  assert (Hlay : queue_layout sample_tx (sample_payload :: replicate 7 zero_payload)
    (mkHfiHeader 0 1 512 64 100 101 0) 0 1).
  { split; try done; try (cbn; lia); [by repeat constructor|].
    by apply (bool_decide_unpack _). }
  split; [done|done| | |].
  - exists (sample_payload :: replicate 7 zero_payload), (mkHfiHeader 0 1 512 64 100 101 0), 0%nat.
    split; [exact Hlay|]. split; [cbn; lia|]. intros [|k] Hk; [done|cbn in Hk; lia].
  - intros h [= <-]. exists 1%nat. split; [by apply (bool_decide_unpack _)|done].
  - intros _ _ h [= <-]. done.
Qed.

Lemma sample_rx_placed : queue_placed sample_registered parsed_gpu 4096 1 sample_rx [].
Proof.
  assert (Hlay : queue_layout sample_rx (replicate 8 zero_payload) (mkHfiHeader 0 2 512 64 0 0 0) 0 0).
  { split; try done; try (cbn; lia); [by repeat constructor|].
    by apply (bool_decide_unpack _). }
  split; [done|done|by eapply ring_repr_nil| |done].
  intros h [= <-]. exists 0%nat. split; [by apply (bool_decide_unpack _)|done].
Qed.

Lemma deregister_leaves_messages_witness :
  exists d', msm_hw_fence_deregister (Some 1) sample_registered = Done (0, d') /\
    clients d' = [None; None] /\ reg_obs d' = reg_obs sample_registered /\
    forall i, 0 <= i < 2 -> region_holds d' parsed_gpu 4096 i (if i =? 0 then [sample_payload] else []).
Proof.
  apply (deregister_leaves_messages sample_registered 1 (mkClient 1 1 [sample_tx; sample_rx] 2 false 0 0 0 true true 0)
    parsed_gpu 4096 (fun i => if i =? 0 then [sample_payload] else [])).
  - exact sample_headers_ok.
  - exact parsed_gpu_ok.
  - done.
  - done.
  - done.
  - intros i q Hq. pose proof (zget_Some _ _ _ Hq) as Hr. change (zlen _) with 2 in Hr.
    assert (i = 0 \/ i = 1) as [-> | ->] by lia; injection Hq as <-;
      [exact sample_tx_placed|exact sample_rx_placed].
  - done.
Defined.

(** removing an error callback that was never registered is detected, and
    logged as an error, but the call returns 0. *)
Theorem deregister_error_cb_reports_success d c cl :
  resources_ready d = true -> client_at d c cl -> fence_error_cb cl = false ->
  msm_hw_fence_deregister_error_cb (Some c) true d = Done (0, d).
Proof.
  intros Hres Hc Hcb. unfold msm_hw_fence_deregister_error_cb. rewrite getM_run, Hres. cbn [negb].
  rewrite (with_client _ _ cl) by done. by rewrite Hcb.
Qed.

Lemma deregister_error_cb_reports_success_witness :
  msm_hw_fence_deregister_error_cb (Some 1) true (sample_wait <| resources_ready := true |>)
  = Done (0, sample_wait <| resources_ready := true |>).
Proof.
  exact (deregister_error_cb_reports_success (sample_wait <| resources_ready := true |>) 1 sample_client
    eq_refl eq_refl eq_refl).
Defined.
