(* ===== verification/HwFenceSynx.v ===== *)
(** * Hardware fences behind the synx interface

    [msm_hw_fence_synx_translation.c]: sessions of synx clients whose calls
    become calls of [msm_hw_fence.c].  A session is a structure of the heap; its
    pointer is the index in [sessions], [None] is a null or error pointer, and
    an access to a structure that was freed is the fault [UseAfterFree]. *)

From S2P Require Import Prelude HwFenceState HwFenceQueue HwFenceTable HwFenceJoin HwFenceLayout HwFenceArray HwFenceApi.

Local Open Scope Z_scope.

(** ** Status codes *)

Definition SYNX_SUCCESS : Z := 0.
Definition SYNX_NOMEM : Z := ENOMEM.
Definition SYNX_NOPERM : Z := EPERM.
Definition SYNX_TIMEOUT : Z := ETIMEDOUT.
Definition SYNX_ALREADY : Z := EALREADY.
Definition SYNX_NOENT : Z := ENOENT.
Definition SYNX_INVALID : Z := EINVAL.
Definition SYNX_BUSY : Z := EBUSY.

Definition to_synx_status (hw_fence_status_code : Z) : Z :=
  if hw_fence_status_code =? 0 then SYNX_SUCCESS
  else if hw_fence_status_code =? - ENOMEM then - SYNX_NOMEM
  else if hw_fence_status_code =? - EPERM then - SYNX_NOPERM
  else if hw_fence_status_code =? - ETIMEDOUT then - SYNX_TIMEOUT
  else if hw_fence_status_code =? - EALREADY then - SYNX_ALREADY
  else if hw_fence_status_code =? - ENOENT then - SYNX_NOENT
  else if hw_fence_status_code =? - EINVAL then - SYNX_INVALID
  else if hw_fence_status_code =? - EBUSY then - SYNX_BUSY
  else hw_fence_status_code.

(** ** Client identifiers *)

Definition SYNX_HW_FENCE_CLIENT_START : Z := 1024.
Definition SYNX_HW_FENCE_CLIENT_END : Z := 4096.
Definition SYNX_MAX_SIGNAL_PER_CLIENT : Z := 64.

Definition SYNX_CLIENT_HW_FENCE_GFX_CTX0 : Z := SYNX_HW_FENCE_CLIENT_START.
Definition SYNX_CLIENT_HW_FENCE_IPE_CTX0 : Z := SYNX_CLIENT_HW_FENCE_GFX_CTX0 + SYNX_MAX_SIGNAL_PER_CLIENT.
Definition SYNX_CLIENT_HW_FENCE_VID_CTX0 : Z := SYNX_CLIENT_HW_FENCE_IPE_CTX0 + SYNX_MAX_SIGNAL_PER_CLIENT.
Definition SYNX_CLIENT_HW_FENCE_DPU0_CTL0 : Z := SYNX_CLIENT_HW_FENCE_VID_CTX0 + SYNX_MAX_SIGNAL_PER_CLIENT.
Definition SYNX_CLIENT_HW_FENCE_DPU1_CTL0 : Z := SYNX_CLIENT_HW_FENCE_DPU0_CTL0 + SYNX_MAX_SIGNAL_PER_CLIENT.
Definition SYNX_CLIENT_HW_FENCE_IFE0_CTX0 : Z := SYNX_CLIENT_HW_FENCE_DPU1_CTL0 + SYNX_MAX_SIGNAL_PER_CLIENT.
Definition SYNX_CLIENT_HW_FENCE_IFE7_CTX0 : Z := SYNX_CLIENT_HW_FENCE_IFE0_CTX0 + 7 * SYNX_MAX_SIGNAL_PER_CLIENT.

Definition MAX_SUPPORTED_DPU0 (u : hw_uapi) : Z := HW_FENCE_CLIENT_ID_CTL5 u - HW_FENCE_CLIENT_ID_CTL0 u.

(** The enumerators are unsigned; the ranges of the switch are on [int]. *)
Definition _get_hw_fence_client_id (u : hw_uapi) (synx_client_id : Z) : Z :=
  let id := s32 synx_client_id in
  let inside first last := (first <=? id) && (id <=? last) in
  if id =? SYNX_CLIENT_HW_FENCE_GFX_CTX0 then HW_FENCE_CLIENT_ID_CTX0 u
  else if inside SYNX_CLIENT_HW_FENCE_IPE_CTX0 (SYNX_CLIENT_HW_FENCE_IPE_CTX0 + SYNX_MAX_SIGNAL_PER_CLIENT - 1)
  then u32 (synx_client_id - SYNX_CLIENT_HW_FENCE_IPE_CTX0 + HW_FENCE_CLIENT_ID_IPE u)
  else if inside SYNX_CLIENT_HW_FENCE_VID_CTX0 (SYNX_CLIENT_HW_FENCE_VID_CTX0 + SYNX_MAX_SIGNAL_PER_CLIENT - 1)
  then u32 (synx_client_id - SYNX_CLIENT_HW_FENCE_VID_CTX0 + HW_FENCE_CLIENT_ID_VPU u)
  else if inside SYNX_CLIENT_HW_FENCE_DPU0_CTL0 (SYNX_CLIENT_HW_FENCE_DPU0_CTL0 + MAX_SUPPORTED_DPU0 u)
  then u32 (synx_client_id - SYNX_CLIENT_HW_FENCE_DPU0_CTL0 + HW_FENCE_CLIENT_ID_CTL0 u)
  else if inside SYNX_CLIENT_HW_FENCE_IFE0_CTX0 (SYNX_CLIENT_HW_FENCE_IFE7_CTX0 + SYNX_MAX_SIGNAL_PER_CLIENT - 1)
  then u32 (synx_client_id - SYNX_CLIENT_HW_FENCE_IFE0_CTX0 + HW_FENCE_CLIENT_ID_IFE u 0)
  else HW_FENCE_CLIENT_MAX u.

Definition is_hw_fence_client (synx_client_id : Z) : bool :=
  (SYNX_HW_FENCE_CLIENT_START <=? synx_client_id) && (synx_client_id <? SYNX_HW_FENCE_CLIENT_END).

(** ** Sessions *)

Record synx_session := mkSession {
  ss_type : Z;
  ss_client : option Z;
}.

#[export] Instance eta_synx_session : Eta synx_session.
Proof. refine (mkEta _ (fun s => mkSession (ss_type s) (ss_client s)) _). by intros []. Defined.

(** The driver and the heap of sessions; a freed structure is [None]. *)
Record synx_state := mkSynx {
  drv : hw_fence_driver_data;
  sessions : list (option synx_session);
}.

#[export] Instance eta_synx_state : Eta synx_state.
Proof. refine (mkEta _ (fun s => mkSynx (drv s) (sessions s)) _). by intros []. Defined.

Abbreviation SM := (M synx_state).

(** A call of the driver. *)
Definition call {A} (m : DM A) : SM A := fun s =>
  match m (drv s) with
  | Done (a, d) => Done (a, s <| drv := d |>)
  | Fault f => Fault f
  end.

(** [kzalloc(sizeof(struct synx_session))], when it succeeds. *)
Definition new_session : SM Z := fun s =>
  Done (zlen (sessions s), s <| sessions ::= fun l => l ++ [Some (mkSession 0 None)] |>).

Definition get_session (p : Z) : SM synx_session := fun s =>
  match zget (sessions s) p with
  | Some (Some x) => Done (x, s)
  | Some None => Fault UseAfterFree
  | None => Fault OutOfBounds
  end.

Definition put_session (p : Z) (x : option synx_session) : SM unit :=
  modify (fun s => s <| sessions ::= fun l => <[Z.to_nat p := x]> l |>).

Definition upd_session (p : Z) (f : synx_session -> synx_session) : SM unit :=
  x ← get_session p; put_session p (Some (f x)).

Definition kfree_session (p : Z) : SM unit := get_session p ;; put_session p None.

(** ** The exported functions *)

(** [params] is invalid, or holds whether the memory descriptor is valid, and
    the identifier of the client. *)
Definition synx_hwfence_initialize (hw_fence_driver_enable : bool) (params : option (bool * Z)) : SM (Z + Z) :=
  if negb hw_fence_driver_enable then mret (inl (- SYNX_INVALID)) else
  match params with
  | Some (true, id) =>
      u ← gets (fun s => uapi (drv s));
      let client_id := _get_hw_fence_client_id u id in
      if negb (is_hw_fence_client id) || (client_id =? HW_FENCE_CLIENT_MAX u)
      then mret (inl (- SYNX_INVALID)) else
      ok ← call kzalloc;
      if negb (ok : bool) then mret (inl (- SYNX_NOMEM)) else
      session ← new_session;
      client_handle ← call (msm_hw_fence_register hw_fence_driver_enable client_id true);
      match (client_handle : Z + Z) with
      | inl err => kfree_session session ;; mret (inl (to_synx_status err))
      | inr c =>
          upd_session session (fun x => x <| ss_client := Some c |>) ;;
          upd_session session (fun x => x <| ss_type := id |>) ;;
          mret (inr session)
      end
  | _ => mret (inl (- SYNX_INVALID))
  end.

(** The test with which the other functions begin; [invalid] is returned when
    it fails. *)
Definition with_session {A} (session : option Z) (invalid : A) (k : Z -> synx_session -> SM A) : SM A :=
  match session with
  | None => mret invalid
  | Some p =>
      x ← get_session p;
      if negb (is_hw_fence_client (ss_type x)) then mret invalid else k p x
  end.

Definition synx_hwfence_uninitialize (session : option Z) : SM Z :=
  with_session session (- SYNX_INVALID) (fun p x =>
    ret ← call (msm_hw_fence_deregister (ss_client x));
    (if truthy ret then mret tt else kfree_session p) ;;
    mret (to_synx_status ret)).

Definition SYNX_CREATE_DMA_FENCE : Z := 4.
Definition SYNX_CREATE_CSL_FENCE : Z := 8.
Definition SYNX_CREATE_MAX_FLAGS : Z := 16.
Definition U32_MAX : Z := 2 ^ 32 - 1.

(** [cp_h_synx] says whether the pointer for the handle is valid. *)
Record synx_create_params := mkCreateParams {
  cp_h_synx : bool;
  cp_flags : Z;
  cp_fence : option Z;
}.

(** The value of a flag of [flags]. *)
Abbreviation has_flag flags flag := (truthy (Z.land flags flag)).

(** The return value, and what is stored in [*params->h_synx], if anything. *)
Definition synx_hwfence_create (session : option Z) (params : option synx_create_params) : SM (Z * option Z) :=
  with_session session (- SYNX_INVALID, None) (fun p x =>
    match params with
    | None => mret (- SYNX_INVALID, None)
    | Some params =>
        if negb (cp_h_synx params) || (SYNX_CREATE_MAX_FLAGS <? cp_flags params) ||
           negb (has_flag (cp_flags params) SYNX_CREATE_DMA_FENCE) ||
           has_flag (cp_flags params) SYNX_CREATE_CSL_FENCE || negb (is_found (cp_fence params))
        then mret (- SYNX_INVALID, None) else
        '(ret, handle) ← call (msm_hw_fence_create (ss_client x) (Some (cp_fence params, true)));
        if truthy ret then mret (to_synx_status ret, None) else
        handle ← liftO OutOfBounds handle;
        if U32_MAX <? handle then
          call (msm_hw_fence_destroy_with_handle (ss_client x) handle) ;;
          mret (- SYNX_INVALID, None)
        else mret (SYNX_SUCCESS, Some handle)
    end).

Definition synx_hwfence_release (session : option Z) (h_synx : Z) : SM Z :=
  with_session session (- SYNX_INVALID) (fun p x =>
    ret ← call (msm_hw_fence_destroy_with_handle (ss_client x) h_synx);
    mret (to_synx_status ret)).

Definition synx_hwfence_signal (session : option Z) (h_synx status : Z) : SM Z :=
  with_session session (- SYNX_INVALID) (fun p x =>
    ret ← call (msm_hw_fence_update_txq (ss_client x) h_synx 0 (u32 status));
    mret (to_synx_status ret)).

Definition synx_hwfence_recover (id : Z) : SM Z :=
  if negb (is_hw_fence_client id) then mret (- SYNX_INVALID) else
  u ← gets (fun s => uapi (drv s));
  ret ← call (msm_hw_fence_reset_client_by_id (_get_hw_fence_client_id u id)
                (MSM_HW_FENCE_RESET_WITHOUT_DESTROY u));
  mret (to_synx_status ret).

(** ** Import *)

Definition SYNX_IMPORT_SYNX_FENCE : Z := 4.
Definition SYNX_IMPORT_DMA_FENCE : Z := 8.

Record synx_import_indv_params := mkImportParams {
  imp_new_h_synx : bool;
  imp_flags : Z;
  imp_fence : option Z;
}.

(** The union of [struct synx_import_params], by its type; a null list is
    [None]. *)
Inductive synx_import_params : Type :=
| SYNX_IMPORT_INDV_PARAMS (indv : synx_import_indv_params)
| SYNX_IMPORT_ARR_PARAMS (list : option (list synx_import_indv_params)) (num_fences : Z).

(** The return value, and what is stored in [*params->new_h_synx]. *)
Definition synx_hwfence_import_indv (client : option Z) (params : option synx_import_indv_params)
    : SM (Z * option Z) :=
  match params with
  | None => mret (- SYNX_INVALID, None)
  | Some params =>
      if negb (is_found client) || negb (imp_new_h_synx params) ||
         negb (has_flag (imp_flags params) SYNX_IMPORT_DMA_FENCE) ||
         has_flag (imp_flags params) SYNX_IMPORT_SYNX_FENCE || negb (is_found (imp_fence params))
      then mret (- SYNX_INVALID, None) else
      let wait := msm_hw_fence_wait_update_v2 client (Some [imp_fence params]) None 1 in
      '(ret, handles) ← call wait;
      if truthy ret then mret (to_synx_status ret, None) else
      handle ← liftO OutOfBounds (zget handles 0);
      if U32_MAX <? handle then call wait ;; mret (- SYNX_INVALID, None)
      else mret (SYNX_SUCCESS, Some handle)
  end.

(** The loop over the list, with the handles stored so far. *)
Fixpoint import_loop (idxs : list Z) (client : option Z) (l : option (list synx_import_indv_params))
    (handles : list Z) : SM (Z * list Z) :=
  match idxs with
  | [] => mret (SYNX_SUCCESS, handles)
  | i :: idxs' =>
      params ← (match l with
                | None => mret None
                | Some l => x ← liftO OutOfBounds (zget l i); mret (Some x)
                end);
      '(ret, handle) ← synx_hwfence_import_indv client params;
      if truthy ret then mret (ret, handles)
      else import_loop idxs' client l (handles ++ from_option (fun h => [h]) [] handle)
  end.

Definition synx_hwfence_import_arr (client : option Z) (l : option (list synx_import_indv_params))
    (num_fences : Z) : SM (Z * list Z) :=
  if negb (is_found client) || negb (truthy num_fences) then mret (- SYNX_INVALID, [])
  else import_loop (map Z.of_nat (seq 0 (Z.to_nat num_fences))) client l [].

Definition synx_hwfence_import (session : option Z) (params : option synx_import_params) : SM (Z * list Z) :=
  with_session session (- SYNX_INVALID, []) (fun p x =>
    match params with
    | None => mret (- SYNX_INVALID, [])
    | Some (SYNX_IMPORT_ARR_PARAMS l num_fences) => synx_hwfence_import_arr (ss_client x) l num_fences
    | Some (SYNX_IMPORT_INDV_PARAMS indv) =>
        '(ret, handle) ← synx_hwfence_import_indv (ss_client x) (Some indv);
        mret (ret, from_option (fun h => [h]) [] handle)
    end).

(** ** What the operations of the driver do to the clients

    The identifiers of the registered clients, with the configuration from which
    internal identifiers are computed: every operation on fences and queues
    leaves them alone, whatever the state of the driver. *)

Definition client_ids (cl : msm_hw_fence_client) : Z * Z := (client_id cl, client_id_ext cl).

Definition obs_ids (d : hw_fence_driver_data) :=
  (option_map client_ids <$> clients d, uapi d, hw_fence_client_types d).

Abbreviation keeps_ids := (keeps (same obs_ids)).

Lemma get_client_inv c d cl d' : get_client c d = Done (cl, d') -> client_at d c cl /\ d' = d.
Proof. unfold get_client, client_at. destruct (zget (clients d) c) as [[?|]|]; intros [= <- <-]; done. Qed.

Lemma put_client_ids c cl cl' d u d' :
  client_at d c cl -> client_ids cl' = client_ids cl -> put_client c cl' d = Done (u, d') -> obs_ids d' = obs_ids d.
Proof.
  intros Hc Hi. rewrite (put_client_run _ _ cl) by exact Hc. intros [= <- <-].
  pose proof (zget_Some _ _ _ Hc) as Hr. unfold client_at in Hc. rewrite zget_to_nat in Hc by lia.
  unfold obs_ids. cbn. f_equal. f_equal. rewrite list_fmap_insert. apply list_insert_id.
  rewrite list_lookup_fmap, Hc. cbn. by rewrite Hi.
Qed.

Lemma ids_get_fence i : keeps_ids (get_fence i).
Proof. intros s a s' [_ ->]%liftO_inv. reflexivity. Qed.

Lemma ids_put_fence i f : keeps_ids (put_fence i f).
Proof. intros s a s'. unfold put_fence. destruct (zset _ _ _); [|done]. by intros [= <- <-]. Qed.

Lemma ids_qtime : keeps_ids hw_fence_get_qtime.
Proof. by intros s a s' [= <- <-]. Qed.

Lemma ids_emit e : keeps_ids (emit e).
Proof. by intros s a s' [= <- <-]. Qed.

#[export] Hint Resolve ids_get_fence ids_put_fence ids_qtime ids_emit : keeps.

Lemma ids_upd_fence i g : keeps_ids (upd_fence i g).
Proof. unfold upd_fence. keep. Qed.

Lemma ids_trigger a b c : keeps_ids (hw_fence_ipcc_trigger_signal a b c).
Proof. unfold hw_fence_ipcc_trigger_signal. keep. Qed.

#[export] Hint Resolve ids_upd_fence ids_trigger : keeps.

Lemma ids_unlock_wake l : keeps_ids (_unlock_wake l).
Proof. unfold _unlock_wake. keep. unfold same. by destruct (config_debug_fs _). Qed.

#[export] Hint Resolve ids_unlock_wake : keeps.

Lemma ids_lock_fence i : keeps_ids (lock_fence i).
Proof. unfold lock_fence. keep. Qed.

Lemma ids_unlock_fence i : keeps_ids (unlock_fence i).
Proof. unfold unlock_fence. keep. Qed.

Lemma ids_lock_client i : keeps_ids (lock_client i).
Proof. intros s a s'. unfold lock_client. destruct (zget _ i); [|done]. destruct (_lock _); [|done]. by intros [= <- <-]. Qed.

Lemma ids_unlock_client i : keeps_ids (unlock_client i).
Proof. intros s a s'. unfold unlock_client. destruct (zget _ i); [|done]. intros H%ids_unlock_wake. exact H. Qed.

#[export] Hint Resolve ids_lock_fence ids_unlock_fence ids_lock_client ids_unlock_client : keeps.

(** *** Queues *)

Lemma ids_on_queue {A} c t (m : QM A) : keeps_ids (on_queue c t m).
Proof.
  intros s a s' H. unfold on_queue in H. apply bind_inv in H as (cl&s1&[Hc ->]%get_client_inv&H).
  apply bind_inv in H as (q&s1&[_ ->]%liftO_inv&H). destruct (m q) as [[x q']|]; [|done].
  apply bind_inv in H as (u&s2&Hp&H). injection H as <- <-. by eapply put_client_ids; [| |exact Hp].
Qed.

Lemma ids_update_locked c t ctxt_id seqno hash flags client_data error :
  keeps_ids (update_queue_locked c t ctxt_id seqno hash flags client_data error).
Proof.
  intros s a s' H. unfold update_queue_locked in H. apply bind_inv in H as (cl&s1&[Hc ->]%get_client_inv&H).
  apply bind_inv in H as (q&s1&[_ ->]%liftO_inv&H). destruct (_get_update_queue_params q) as [[h wr]|]; [|by injection H as <- <-].
  destruct (_translate_queue_indexes_custom_to_default _ _ _) as [rd w]. destruct (_ <=? _); [by injection H as <- <-|].
  apply bind_inv in H as (m&s1&[_ ->]%liftO_inv&H). rewrite qtime_then in H.
  apply bind_inv in H as (m'&s1&[_ ->]%liftO_inv&H). apply bind_inv in H as (u&s2&Hp&H). injection H as <- <-.
  change (obs_ids s2 = obs_ids (s <| qtime_reads ::= S |>)). by eapply put_client_ids; [exact Hc| |exact Hp].
Qed.

#[export] Hint Resolve ids_on_queue ids_update_locked : keeps.

Lemma ids_update_queue c ctxt_id seqno hash flags client_data error t :
  keeps_ids (hw_fence_update_queue c ctxt_id seqno hash flags client_data error t).
Proof. unfold hw_fence_update_queue. keep. Qed.

Lemma ids_reset_queues c : keeps_ids (hw_fence_utils_reset_queues c).
Proof. unfold hw_fence_utils_reset_queues. keep. Qed.

#[export] Hint Resolve ids_update_queue ids_reset_queues : keeps.

(** *** The table *)

Lemma ids_process op i c context seqno pending : keeps_ids (process_fnc op i c context seqno pending).
Proof. unfold process_fnc, _reserve_hw_fence, _unreserve_hw_fence, _reserve_join_fence, _fence_found. keep. Qed.

#[export] Hint Resolve ids_process : keeps.

Lemma ids_lookup context seqno c pending op : keeps_ids (_hw_fence_lookup_and_process context seqno c pending op).
Proof.
  unfold _hw_fence_lookup_and_process. keep.
  match goal with |- keeps _ (lookup_loop _ _ _ _ _ ?n ?step ?hash) => generalize n step hash end.
  intros n. induction n as [|n IH]; intros step hash; cbn [lookup_loop]; unfold lookup_body; keep.
Qed.

#[export] Hint Resolve ids_lookup : keeps.

Lemma ids_create c context seqno : keeps_ids (hw_fence_create c context seqno).
Proof. unfold hw_fence_create. keep. Qed.

Lemma ids_cleanup c context seqno : keeps_ids (_hw_fence_cleanup c context seqno).
Proof. unfold _hw_fence_cleanup. keep. Qed.

#[export] Hint Resolve ids_create ids_cleanup : keeps.

Lemma ids_destroy c context seqno : keeps_ids (hw_fence_destroy c context seqno).
Proof. unfold hw_fence_destroy. keep. Qed.

Lemma ids_destroy_hash c hash : keeps_ids (hw_fence_destroy_with_hash c hash).
Proof. unfold hw_fence_destroy_with_hash. keep. Qed.

Lemma ids_find c context seqno : keeps_ids (msm_hw_fence_find c context seqno).
Proof. unfold msm_hw_fence_find. keep. Qed.

#[export] Hint Resolve ids_destroy ids_destroy_hash ids_find : keeps.

(** *** Signals *)

Lemma ids_loopback c : keeps_ids (process_validation_client_loopback c).
Proof.
  intros s a s' H. unfold process_validation_client_loopback in H. rewrite getM_run in H.
  destruct (_ || _); [by injection H as <- <-|]. destruct (zget (clients s) c) as [[cl|]|] eqn:Hc; [|by injection H as <- <-|done].
  apply bind_inv in H as (u&s1&Hp&H). injection H as <- <-. change (obs_ids s1 = obs_ids s). by eapply put_client_ids; [exact Hc| |exact Hp].
Qed.

Lemma ids_error_cb c a b h f e : keeps_ids (hw_fence_utils_fence_error_cb c a b h f e).
Proof. unfold hw_fence_utils_fence_error_cb. keep. Qed.

#[export] Hint Resolve ids_loopback ids_error_cb : keeps.

Lemma ids_ctl_signal c i hash flags client_data error : keeps_ids (_fence_ctl_signal c i hash flags client_data error).
Proof. unfold _fence_ctl_signal, notify_client. keep. Qed.

#[export] Hint Resolve ids_ctl_signal : keeps.

Lemma ids_signal_all i hash error : keeps_ids (_signal_all_wait_clients i hash error).
Proof.
  unfold _signal_all_wait_clients. keep.
  match goal with |- keeps _ (signal_wait_clients ?l _ _ _ ?x) => generalize l x end.
  intros l. induction l as [|k l IH]; intros x; cbn [signal_wait_clients]; keep.
Qed.

#[export] Hint Resolve ids_signal_all : keeps.

Lemma ids_cleanup_fence c i hash fl : keeps_ids (hw_fence_utils_cleanup_fence c i hash fl).
Proof. unfold hw_fence_utils_cleanup_fence. keep. Qed.

#[export] Hint Resolve ids_cleanup_fence : keeps.

(** *** Waits and joins *)

Lemma ids_get_dma p : keeps_ids (get_dma_fence p).
Proof. intros s a s'. unfold get_dma_fence. destruct p; [|done]. by intros [_ ->]%liftO_inv. Qed.

#[export] Hint Resolve ids_get_dma : keeps.

Lemma ids_upd_dma p g : keeps_ids (upd_dma_fence p g).
Proof. unfold upd_dma_fence. keep. by destruct p. Qed.

#[export] Hint Resolve ids_upd_dma : keeps.

Lemma ids_set_bit n p : keeps_ids (set_bit n p).
Proof. apply ids_upd_dma. Qed.

Lemma ids_to_array p : keeps_ids (to_dma_fence_array p).
Proof. unfold to_dma_fence_array. keep. Qed.

Lemma ids_array_fence a i : keeps_ids (array_fence a i).
Proof. unfold array_fence. keep. Qed.

Lemma ids_store_data i k v : keeps_ids (store_client_data i k v).
Proof. unfold store_client_data, fence_store. keep. Qed.

Lemma ids_store_parent i k v : keeps_ids (store_parent i k v).
Proof. unfold store_parent, fence_store. keep. Qed.

#[export] Hint Resolve ids_set_bit ids_to_array ids_array_fence ids_store_data ids_store_parent : keeps.

Lemma ids_join base array b h : keeps_ids (_hw_fence_process_join_fence base array b h).
Proof. unfold _hw_fence_process_join_fence. keep. Qed.

Lemma ids_cleanup_parents n : forall j i h, keeps_ids (cleanup_parents n j i h).
Proof. induction n as [|n IH]; intros j i h; cbn [cleanup_parents]; keep. Qed.

Lemma ids_link_child k j h b : keeps_ids (link_child k j h b).
Proof. unfold link_child. keep. Qed.

#[export] Hint Resolve ids_join ids_cleanup_parents ids_link_child : keeps.

Lemma ids_cleanup_child c array h i : keeps_ids (cleanup_child c array h i).
Proof. unfold cleanup_child. keep. Qed.

Lemma ids_process_child c array j h i b : keeps_ids (process_child c array j h i b).
Proof. unfold process_child. keep. Qed.

#[export] Hint Resolve ids_cleanup_child ids_process_child : keeps.

Lemma ids_cleanup_join c i base array h : keeps_ids (_cleanup_join_and_child_fences c i base array h).
Proof. unfold _cleanup_join_and_child_fences. keep. Qed.

Lemma ids_process_children l c array j h : forall b, keeps_ids (process_children l c array j h b).
Proof. induction l as [|i l IH]; intros b; cbn [process_children]; keep. Qed.

#[export] Hint Resolve ids_cleanup_join ids_process_children : keeps.

Lemma ids_process_array c p array client_data : keeps_ids (hw_fence_process_fence_array c p array client_data).
Proof. unfold hw_fence_process_fence_array. keep. Qed.

Lemma ids_process_fence c fence client_data : keeps_ids (hw_fence_process_fence c fence client_data).
Proof. unfold hw_fence_process_fence, hw_fence_register_wait_client. keep. Qed.

#[export] Hint Resolve ids_process_array ids_process_fence : keeps.

(** *** The exported functions *)

Lemma ids_msm_create c params : keeps_ids (msm_hw_fence_create c params).
Proof. unfold msm_hw_fence_create. keep. Qed.

Lemma ids_msm_destroy c h : keeps_ids (msm_hw_fence_destroy_with_handle c h).
Proof. unfold msm_hw_fence_destroy_with_handle. keep. Qed.

Lemma ids_msm_update c h fl e : keeps_ids (msm_hw_fence_update_txq c h fl e).
Proof. unfold msm_hw_fence_update_txq. keep. Qed.

Lemma ids_msm_wait c l data n : keeps_ids (msm_hw_fence_wait_update_v2 c l data n).
Proof.
  assert (H : forall idxs c l data hs, keeps_ids (wait_update_loop idxs c l data hs)).
  { induction idxs as [|i idxs IH]; intros; cbn [wait_update_loop]; keep. }
  unfold msm_hw_fence_wait_update_v2. keep.
Qed.

Lemma ids_msm_reset ext fl : keeps_ids (msm_hw_fence_reset_client_by_id ext fl).
Proof. unfold msm_hw_fence_reset_client_by_id, msm_hw_fence_reset_client. keep. Qed.

#[export] Hint Resolve ids_msm_create ids_msm_destroy ids_msm_update ids_msm_wait ids_msm_reset : keeps.

(** ** Sessions and the clients of the driver *)

Definition live (st : synx_state) (p : Z) (x : synx_session) : Prop := zget (sessions st) p = Some (Some x).

(** Every client is stored under its identifier. *)
Definition named (d : hw_fence_driver_data) : Prop := forall c cl, client_at d c cl -> client_id cl = c.

(** The session [x] stands for a registered client, the one its type names. *)
Definition session_ok (d : hw_fence_driver_data) (x : synx_session) : Prop :=
  is_hw_fence_client (ss_type x) = true /\
  exists c cl, ss_client x = Some c /\ client_at d c cl /\
    client_id_ext cl = _get_hw_fence_client_id (uapi d) (ss_type x) /\
    hw_fence_utils_get_client_id_priv d (client_id_ext cl) = Some c.

Record sessions_ok (st : synx_state) : Prop := {
  so_named : named (drv st);
  so_session : forall p x, live st p x -> session_ok (drv st) x;
  so_apart : forall p q x y, live st p x -> live st q y -> ss_client x = ss_client y -> p = q;
}.

Lemma ids_client d d' c cl :
  obs_ids d' = obs_ids d -> client_at d c cl -> exists cl', client_at d' c cl' /\ client_ids cl' = client_ids cl.
Proof.
  intros [= H _ _] Hc. unfold client_at in *. pose proof (zget_Some _ _ _ Hc) as Hr.
  rewrite zget_to_nat in Hc by lia.
  assert (He : (option_map client_ids <$> clients d') !! Z.to_nat c = Some (Some (client_ids cl)))
    by (rewrite H, list_lookup_fmap, Hc; done).
  rewrite list_lookup_fmap in He. destruct (clients d' !! Z.to_nat c) as [[cl'|]|] eqn:Hc'; [|done..].
  injection He as He. exists cl'. rewrite zget_to_nat by lia. split; [done|]. unfold client_ids. congruence.
Qed.

Lemma ids_named d d' : obs_ids d' = obs_ids d -> named d -> named d'.
Proof.
  intros H Hn c cl Hc. destruct (ids_client d' d c cl (eq_sym H) Hc) as (cl'&Hc'&Hi).
  rewrite <- (Hn c cl' Hc'). by injection Hi.
Qed.

Lemma priv_ids d d' ext :
  uapi d' = uapi d -> hw_fence_client_types d' = hw_fence_client_types d ->
  hw_fence_utils_get_client_id_priv d' ext = hw_fence_utils_get_client_id_priv d ext.
Proof. intros Hu Ht. unfold hw_fence_utils_get_client_id_priv. by rewrite Hu, Ht. Qed.

Lemma ids_session d d' x : obs_ids d' = obs_ids d -> session_ok d x -> session_ok d' x.
Proof.
  intros H (Ht&c&cl&Hx&Hc&He&Hp). split; [done|]. destruct (ids_client d d' c cl H Hc) as (cl'&Hc'&Hi).
  injection H as _ Hu Hty. injection Hi as _ Hi. exists c, cl'. rewrite Hi, Hu, (priv_ids d d') by done. done.
Qed.

(** The operations on fences and queues do not disturb the sessions. *)
Lemma ids_sessions st d' : obs_ids d' = obs_ids (drv st) -> sessions_ok st -> sessions_ok (st <| drv := d' |>).
Proof.
  intros H [Hn Hs Ha]. split.
  - by apply (ids_named (drv st)).
  - intros p x Hp. by apply (ids_session (drv st)), (Hs p).
  - exact Ha.
Qed.

(** A run that only uses such operations. *)
Definition calls_only (st st' : synx_state) : Prop :=
  sessions st' = sessions st /\ obs_ids (drv st') = obs_ids (drv st).

#[export] Instance calls_only_preorder : PreOrder calls_only.
Proof.
  split; [by intros ?|]. intros a b c [Hs Hi] [Hs' Hi']. split; [by rewrite Hs'|by rewrite Hi'].
Qed.

Lemma calls_sessions st st' : calls_only st st' -> sessions_ok st -> sessions_ok st'.
Proof.
  intros [Hs Hi] H. destruct (ids_sessions st (drv st') Hi H) as [Hn Hx Ha].
  split; [done| |]; unfold live; rewrite Hs; [exact Hx|exact Ha].
Qed.

Lemma keeps_driver_call {A} (m : DM A) : keeps_ids m -> keeps calls_only (call m).
Proof.
  intros H s a s' Hr. unfold call in Hr. destruct (m (drv s)) as [[b d]|] eqn:Hm; [|done].
  injection Hr as _ <-. split; [done|]. by eapply H.
Qed.

Lemma keeps_get_session p : keeps calls_only (get_session p).
Proof. intros s a s'. unfold get_session. destruct (zget _ p) as [[?|]|]; intros [= _ <-]; reflexivity. Qed.

#[export] Hint Resolve keeps_driver_call keeps_get_session : keeps.

Lemma keeps_with_session {A} session (a : A) k :
  (forall p x, keeps calls_only (k p x)) -> keeps calls_only (with_session session a k).
Proof. intros H. unfold with_session. keep. Qed.

Lemma create_calls session params : keeps calls_only (synx_hwfence_create session params).
Proof. apply keeps_with_session. intros p x. keep. Qed.

Lemma release_calls session h : keeps calls_only (synx_hwfence_release session h).
Proof. apply keeps_with_session. intros p x. keep. Qed.

Lemma signal_calls session h status : keeps calls_only (synx_hwfence_signal session h status).
Proof. apply keeps_with_session. intros p x. keep. Qed.

Lemma recover_calls id : keeps calls_only (synx_hwfence_recover id).
Proof. unfold synx_hwfence_recover. keep. Qed.

Lemma import_indv_calls client params : keeps calls_only (synx_hwfence_import_indv client params).
Proof. unfold synx_hwfence_import_indv. keep. Qed.

#[export] Hint Resolve import_indv_calls : keeps.

Lemma import_loop_calls idxs client l : forall hs, keeps calls_only (import_loop idxs client l hs).
Proof. induction idxs as [|i idxs IH]; intros hs; cbn [import_loop]; keep. Qed.

#[export] Hint Resolve import_loop_calls : keeps.

Lemma import_calls session params : keeps calls_only (synx_hwfence_import session params).
Proof. apply keeps_with_session. intros p x. unfold synx_hwfence_import_arr. keep. Qed.

(** *** Opening and closing sessions *)

Lemma live_app (l : list (option synx_session)) o p x : zget (l ++ [o]) p = Some (Some x) -> zget l p = Some (Some x) \/ (p = zlen l /\ o = Some x).
Proof.
  intros H. pose proof (zget_Some _ _ _ H) as Hr. rewrite zlen_app in Hr. change (zlen [o]) with 1 in Hr.
  destruct (decide (p < zlen l)) as [Hlt|Hge].
  - left. unfold zlen in Hlt. rewrite zget_to_nat in * by lia. by rewrite lookup_app_l in H by lia.
  - right. assert (p = zlen l) as -> by lia. split; [done|].
    rewrite zget_to_nat in H by lia. unfold zlen in H. rewrite Nat2Z.id, list_lookup_middle in H by done. by injection H.
Qed.

(** The heap when a call that allocated a session is over. *)
Lemma heap_last (l : list (option synx_session)) o o' : <[Z.to_nat (zlen l) := o']> (l ++ [o]) = l ++ [o'].
Proof. unfold zlen. rewrite Nat2Z.id. by rewrite insert_app_r_alt, Nat.sub_diag by lia. Qed.

Lemma get_last (l : list (option synx_session)) x d :
  get_session (zlen l) (mkSynx d (l ++ [Some x])) = Done (x, mkSynx d (l ++ [Some x])).
Proof. unfold get_session. cbn. rewrite zget_to_nat by apply zlen_nonneg. unfold zlen. by rewrite Nat2Z.id, list_lookup_middle. Qed.

Lemma kfree_last l x d : kfree_session (zlen l) (mkSynx d (l ++ [Some x])) = Done (tt, mkSynx d (l ++ [None])).
Proof.
  unfold kfree_session. rewrite (bind_run _ _ _ _ _ (get_last l x d)).
  unfold put_session, modify. cbn. by rewrite heap_last.
Qed.

Lemma upd_last l x f d :
  upd_session (zlen l) f (mkSynx d (l ++ [Some x])) = Done (tt, mkSynx d (l ++ [Some (f x)])).
Proof.
  unfold upd_session. rewrite (bind_run _ _ _ _ _ (get_last l x d)).
  unfold put_session, modify. cbn. by rewrite heap_last.
Qed.

(** An initialisation with a descriptor, from its registration. *)
Lemma initialize_run id d l :
  synx_hwfence_initialize true (Some (true, id)) (mkSynx d l) =
  let ext := _get_hw_fence_client_id (uapi d) id in
  let d1 := d <| kzallocs ::= S |> in
  if negb (is_hw_fence_client id) || (ext =? HW_FENCE_CLIENT_MAX (uapi d))
  then Done (inl (- SYNX_INVALID), mkSynx d l) else
  if negb (kzalloc_ok d (kzallocs d)) then Done (inl (- SYNX_NOMEM), mkSynx d1 l) else
  match msm_hw_fence_register true ext true d1 with
  | Done (inl e, d2) => Done (inl (to_synx_status e), mkSynx d2 (l ++ [None]))
  | Done (inr c, d2) => Done (inr (zlen l), mkSynx d2 (l ++ [Some (mkSession id (Some c))]))
  | Fault f => Fault f
  end.
Proof.
  unfold synx_hwfence_initialize. cbv zeta. cbn [negb]. unfold gets at 1, mbind at 1, M_bind at 1. cbn [drv].
  destruct (negb (is_hw_fence_client id) || _); [done|]. set (d1 := d <| kzallocs ::= S |>).
  rewrite (bind_run _ _ _ (kzalloc_ok d (kzallocs d)) (mkSynx d1 l)) by done. destruct (negb _); [done|].
  rewrite (bind_run _ _ _ (zlen l) (mkSynx d1 (l ++ [Some (mkSession 0 None)]))) by done.
  unfold mbind at 1, M_bind at 1, call. cbn [drv]. destruct (msm_hw_fence_register _ _ _ d1) as [[[e|c] d2]|]; [| |done];
    change ((mkSynx d1 (l ++ [Some (mkSession 0 None)])) <| drv := d2 |>) with (mkSynx d2 (l ++ [Some (mkSession 0 None)])).
  - by rewrite (bind_run _ _ _ _ _ (kfree_last _ _ _)).
  - by rewrite (bind_run _ _ _ _ _ (upd_last _ _ _ _)), (bind_run _ _ _ _ _ (upd_last _ _ _ _)).
Qed.

(** An initialisation: an error leaves at most a freed structure behind, a
    success a new structure for a client that was not registered. *)
Lemma initialize_inv en params st r st' :
  synx_hwfence_initialize en params st = Done (r, st') ->
  (exists e tail, r = inl e /\ sessions st' = sessions st ++ tail /\ Forall (fun o => o = None) tail /\
     obs_ids (drv st') = obs_ids (drv st)) \/
  exists id c cl, let ext := _get_hw_fence_client_id (uapi (drv st)) id in
    r = inr (zlen (sessions st)) /\ sessions st' = sessions st ++ [Some (mkSession id (Some c))] /\
    is_hw_fence_client id = true /\ hw_fence_utils_get_client_id_priv (drv st) ext = Some c /\
    zget (clients (drv st)) c = Some None /\ clients (drv st') = <[Z.to_nat c := Some cl]> (clients (drv st)) /\
    client_ids cl = (c, ext) /\ uapi (drv st') = uapi (drv st) /\
    hw_fence_client_types (drv st') = hw_fence_client_types (drv st).
Proof.
  destruct st as [d l]. intros H.
  assert (Hno : forall d', obs_ids d' = obs_ids d -> forall e, Done (inl e, mkSynx d' l) = Done (r, st') ->
    exists e tail, r = inl e /\ sessions st' = l ++ tail /\ Forall (fun o => o = None) tail /\ obs_ids (drv st') = obs_ids d).
  { intros d' Hd e [= <- <-]. exists e, []. by rewrite app_nil_r. }
  destruct en, params as [[[] id]|]; try (left; by apply (Hno d eq_refl _ H)). rewrite initialize_run in H. cbv zeta in H.
  destruct (negb (is_hw_fence_client id) || _) eqn:Hid; [left; by apply (Hno d eq_refl _ H)|].
  destruct (negb (kzalloc_ok _ _)); [left; by eapply Hno; [|exact H]|].
  destruct (msm_hw_fence_register _ _ _ _) as [[r1 d2]|] eqn:Hr; [|done].
  apply register_outcome in Hr as [Hobs Hr]. unfold reg_obs in Hobs. injection Hobs as Hu _ _ _ _ Hty _ _ _.
  destruct r1 as [e|c]; injection H as <- <-.
  - left. exists (to_synx_status e), [None]. split; [done|]. split; [done|]. split; [by repeat constructor|].
    unfold obs_ids. cbn [drv]. by rewrite Hr, Hu, Hty.
  - right. destruct Hr as (Hpriv&Hfree&cl&Hcl&Hc&He).
    exists id, c, cl. cbn [drv sessions]. split; [done|]. split; [done|]. split; [by destruct (is_hw_fence_client id)|].
    split; [exact Hpriv|]. split; [exact Hfree|]. split; [exact Hcl|]. split; [unfold client_ids; by rewrite Hc, He|]. done.
Qed.

(** The live structures after an initialisation. *)
Lemma live_tail st st' tail p x :
  sessions st' = sessions st ++ tail -> Forall (fun o => o = None) tail -> live st' p x <-> live st p x.
Proof.
  unfold live. intros -> Ht. split.
  - intros H. pose proof (zget_Some _ _ _ H) as Hr. rewrite zget_to_nat in * by lia.
    apply lookup_app_Some in H as [H|[_ H]]; [done|]. rewrite Forall_lookup in Ht. by apply Ht in H.
  - intros H. pose proof (zget_Some _ _ _ H) as Hr. rewrite zget_to_nat in * by lia. by apply lookup_app_l_Some.
Qed.

(** A client is registered beside the others. *)
Section NewClient.
Context (d d' : hw_fence_driver_data) (c : Z) (cl : msm_hw_fence_client).
Context (Hfree : zget (clients d) c = Some None) (Hcl : clients d' = <[Z.to_nat c := Some cl]> (clients d)).
Context (Hu : uapi d' = uapi d) (Hty : hw_fence_client_types d' = hw_fence_client_types d).

Lemma new_client_at k ck : client_at d' k ck <-> (k = c /\ ck = cl) \/ (k <> c /\ client_at d k ck).
Proof using Hfree Hcl.
  unfold client_at. rewrite Hcl. pose proof (zget_Some _ _ _ Hfree). destruct (decide (k = c)) as [->|Hne].
  - rewrite zget_insert_eq by done. split; [intros [= <-]; by left|]. by intros [[_ ->]|[? _]].
  - rewrite zget_insert_ne by (done || lia). split; [by right|]. by intros [[? _]|[_ ?]].
Qed.

Lemma new_client_session x : session_ok d x -> session_ok d' x /\ ss_client x <> Some c.
Proof using All.
  intros (Ht&k&ck&Hx&Hk&He&Hp). assert (k <> c) by (intros ->; unfold client_at in Hk; by rewrite Hfree in Hk).
  split; [|congruence]. split; [done|]. exists k, ck. rewrite Hu, (priv_ids d d') by done.
  split; [done|]. split; [apply new_client_at; by right|done].
Qed.

End NewClient.

Lemma register_sessions en ext md st r d' :
  msm_hw_fence_register en ext md (drv st) = Done (r, d') -> sessions_ok st -> sessions_ok (st <| drv := d' |>).
Proof.
  intros [Hobs Hr]%register_outcome Hok. unfold reg_obs in Hobs. injection Hobs as Hu _ _ _ _ Hty _ _ _.
  destruct r as [e|c]; [apply ids_sessions; [unfold obs_ids; by rewrite Hr, Hu, Hty|done]|].
  destruct Hr as (_&Hfree&cl&Hcl&Hc&_). destruct Hok as [Hn Hs Ha]. split; [|intros p x Hp|exact Ha].
  - intros k ck Hk. cbn [drv] in Hk. apply (new_client_at _ _ c cl Hfree Hcl) in Hk as [[-> ->]|[_ Hk]]; [done|by apply Hn].
  - by apply (new_client_session _ _ c cl Hfree Hcl Hu Hty), (Hs p).
Qed.

Lemma initialize_sessions en params st r st' :
  synx_hwfence_initialize en params st = Done (r, st') -> sessions_ok st -> sessions_ok st'.
Proof.
  intros [(e&tail&_&Hs'&Ht&Hi)|(id&c&cl&_&Hs'&Hid&Hp&Hfree&Hcl&Hids&Hu&Hty)]%initialize_inv [Hn Hs Ha].
  - pose proof (fun p x => proj1 (live_tail st st' tail p x Hs' Ht)) as Hl. split; [by apply (ids_named (drv st))| |].
    + intros p x Hx%Hl. by apply (ids_session (drv st)), (Hs p).
    + intros p q x y ?%Hl ?%Hl. by apply Ha.
  - injection Hids as Hic Hie.
    pose proof (new_client_at _ _ c cl Hfree Hcl) as Hat. pose proof (new_client_session _ _ c cl Hfree Hcl Hu Hty) as Hold.
    assert (Hl : forall p x, live st' p x -> live st p x \/ (p = zlen (sessions st) /\ x = mkSession id (Some c))).
    { intros p x Hx. unfold live in Hx. rewrite Hs' in Hx. apply live_app in Hx as [?|[-> [= <-]]]; [by left|by right]. }
    split.
    + intros k ck [[-> ->]|[_ Hk]]%Hat; [done|by apply Hn].
    + intros p x [Hx|[-> ->]]%Hl; [by apply Hold, (Hs p)|]. split; [done|]. exists c, cl.
      rewrite (priv_ids (drv st)), Hie, Hu by done. split; [done|]. split; [apply Hat; by left|done].
    + intros p q x y [Hx|[-> ->]]%Hl [Hy|[-> ->]]%Hl He; [by eapply Ha| | |done].
      * by destruct (Hold x (Hs p x Hx)) as [_ []].
      * by destruct (Hold y (Hs q y Hy)) as [_ []].
Qed.

Lemma get_session_run st p x : live st p x -> get_session p st = Done (x, st).
Proof. unfold get_session, live. by intros ->. Qed.

Lemma kfree_run st p x :
  live st p x -> kfree_session p st = Done (tt, st <| sessions ::= fun l => <[Z.to_nat p := None]> l |>).
Proof. intros H. unfold kfree_session. by rewrite (bind_run _ _ _ _ _ (get_session_run st p x H)). Qed.

(** Closing a session: refused, or its client and its structure are gone. *)
Lemma uninitialize_inv p x c st ret st' :
  live st p x -> ss_client x = Some c -> sessions_ok st ->
  synx_hwfence_uninitialize (Some p) st = Done (ret, st') ->
  (ret = - SYNX_INVALID /\ st' = st) \/
  (ret = 0 /\ exists d', st' = mkSynx d' (<[Z.to_nat p := None]> (sessions st)) /\
     obs_ids d' = obs_ids ((drv st) <| clients := <[Z.to_nat c := None]> (clients (drv st)) |>)).
Proof.
  intros Hp Hx Hok H. destruct (so_session _ Hok p x Hp) as (Ht&c'&cl&Hx'&Hc&_).
  assert (c' = c) as -> by congruence. pose proof (so_named _ Hok c cl Hc) as Hid.
  unfold synx_hwfence_uninitialize, with_session in H.
  rewrite (bind_run _ _ _ _ _ (get_session_run st p x Hp)), Ht, Hx in H. cbn [negb] in H.
  apply bind_inv in H as (r&s1&Hd&H). unfold call in Hd.
  assert (Hdd : msm_hw_fence_deregister (Some c) (drv st) = if clients_num (drv st) <=? c then Done (- EINVAL, drv st)
    else Done (0, foldr give_back ((drv st) <| clients := <[Z.to_nat c := None]> (clients (drv st)) |>) (queues cl))).
  { unfold msm_hw_fence_deregister. rewrite (with_client _ _ cl), getM_run, Hid by done. destruct (_ <=? c); [done|].
    by rewrite (bind_run _ _ _ _ _ (cleanup_client_run _ c cl Hc Hid)). }
  rewrite Hdd in Hd. destruct (_ <=? c); injection Hd as <- <-.
  - left. injection H as <- <-. split; [done|]. by destruct st.
  - right. cbn [truthy Z.eqb negb] in H.
    match type of H with _ ?s = Done _ => rewrite (bind_run _ _ _ _ _ (kfree_run s p x Hp)) in H end.
    injection H as <- <-. split; [done|]. eexists. split; [reflexivity|]. by rewrite (give_back_same obs_ids).
Qed.

Lemma uninitialize_sessions session st ret st' :
  synx_hwfence_uninitialize session st = Done (ret, st') -> sessions_ok st -> sessions_ok st'.
Proof.
  intros H Hok. destruct session as [p|]; [|by injection H as _ <-].
  destruct (zget (sessions st) p) as [[x|]|] eqn:Hp.
  2,3: unfold synx_hwfence_uninitialize, with_session, mbind at 1, M_bind at 1, get_session in H; by rewrite Hp in H.
  destruct (so_session _ Hok p x Hp) as (_&c&_&Hx&_).
  destruct (uninitialize_inv p x c st ret st' Hp Hx Hok H) as [[_ ->]|(_&d1&->&Hids)]; [done|].
  set (d0 := (drv st) <| clients := _ |>) in Hids. set (l := <[Z.to_nat p := None]> (sessions st)).
  apply (ids_sessions (mkSynx d0 l) d1 Hids). unfold d0, l. clear Hids.
  destruct Hok as [Hn Hs Ha]. pose proof (zget_Some _ _ _ Hp) as Hr.
  assert (Hl : forall q y, zget (<[Z.to_nat p := None]> (sessions st)) q = Some (Some y) -> q <> p /\ live st q y).
  { intros q y Hq. destruct (decide (q = p)) as [->|Hne]; [by rewrite zget_insert_eq in Hq|].
    rewrite zget_insert_ne in Hq by (done || lia). done. }
  assert (Hat : forall k ck, k <> c -> client_at (drv st) k ck ->
    zget (<[Z.to_nat c := None]> (clients (drv st))) k = Some (Some ck)).
  { intros k ck Hne Hk. destruct (decide (0 <= c)) as [H0|H0]; [by rewrite zget_insert_ne by (done || lia)|].
    destruct (Hs p x Hp) as (_&c'&cl&Hx'&Hc&_). assert (c' = c) as -> by congruence. apply zget_Some in Hc. lia. }
  split; cbn [drv sessions].
  - intros k ck Hk. unfold client_at in Hk. cbn in Hk. apply Hn. unfold client_at.
    destruct (decide (k = c)) as [->|Hne].
    + destruct (Hs p x Hp) as (_&c'&cl&Hx'&Hc&_). assert (c' = c) as -> by congruence.
      rewrite zget_insert_eq in Hk by (by eapply zget_Some). done.
    + pose proof (zget_Some _ _ _ Hk). destruct (Hs p x Hp) as (_&c'&cl&Hx'&Hc&_). assert (c' = c) as -> by congruence.
      apply zget_Some in Hc. by rewrite zget_insert_ne in Hk by (done || lia).
  - intros q y [Hne Hq]%Hl. destruct (Hs q y Hq) as (Ht&k&ck&Hy&Hk&He&Hpr). split; [done|]. exists k, ck.
    split; [done|]. split; [|done]. apply Hat; [|done]. intros ->. apply Hne. apply (Ha q p y x Hq Hp). congruence.
  - intros q q' y y' [_ Hq]%Hl [_ Hq']%Hl. by apply (Ha q q' y y').
Qed.

(** *** Runs *)

(** The calls of the interface that complete, in any order and with any
    arguments, between registrations of other clients and operations on fences
    by the rest of the driver. *)
Inductive synx_step (st : synx_state) : synx_state -> Prop :=
| StepInitialize en params r st' : synx_hwfence_initialize en params st = Done (r, st') -> synx_step st st'
| StepUninitialize session r st' : synx_hwfence_uninitialize session st = Done (r, st') -> synx_step st st'
| StepCreate session params r st' : synx_hwfence_create session params st = Done (r, st') -> synx_step st st'
| StepRelease session h r st' : synx_hwfence_release session h st = Done (r, st') -> synx_step st st'
| StepSignal session h status r st' : synx_hwfence_signal session h status st = Done (r, st') -> synx_step st st'
| StepRecover id r st' : synx_hwfence_recover id st = Done (r, st') -> synx_step st st'
| StepImport session params r st' : synx_hwfence_import session params st = Done (r, st') -> synx_step st st'
| StepRegister en ext md r d' : msm_hw_fence_register en ext md (drv st) = Done (r, d') -> synx_step st (st <| drv := d' |>)
| StepOther d' : obs_ids d' = obs_ids (drv st) -> synx_step st (st <| drv := d' |>).

Lemma step_sessions st st' : synx_step st st' -> sessions_ok st -> sessions_ok st'.
Proof.
  intros H Hok. destruct H as [? ? ? ? H|? ? ? H|? ? ? ? H|? ? ? ? H|? ? ? ? ? H|? ? ? H|? ? ? ? H|? ? ? ? ? H|? H].
  - by eapply initialize_sessions.
  - by eapply uninitialize_sessions.
  - by apply (calls_sessions st _ (create_calls _ _ _ _ _ H)).
  - by apply (calls_sessions st _ (release_calls _ _ _ _ _ H)).
  - by apply (calls_sessions st _ (signal_calls _ _ _ _ _ _ H)).
  - by apply (calls_sessions st _ (recover_calls _ _ _ _ H)).
  - by apply (calls_sessions st _ (import_calls _ _ _ _ _ H)).
  - by eapply register_sessions.
  - by apply ids_sessions.
Qed.

(** Two sessions of one type would share their client. *)
Lemma same_type_client st p q x y :
  sessions_ok st -> live st p x -> live st q y -> ss_type x = ss_type y -> p = q.
Proof.
  intros Hok Hp Hq Ht. apply (so_apart _ Hok p q x y Hp Hq).
  destruct (so_session _ Hok p x Hp) as (_&c&cl&->&_&He&Hc), (so_session _ Hok q y Hq) as (_&c'&cl'&->&_&He'&Hc').
  rewrite Ht, <- He' in He. congruence.
Qed.

(** ** Calls on an open session *)

Section OpenSession.
Context (p c : Z) (x : synx_session).
Context (Htype : is_hw_fence_client (ss_type x) = true) (Hx : ss_client x = Some c).

Lemma with_session_run {A} (a : A) k st : live st p x -> with_session (Some p) a k st = k p x st.
Proof using Htype. intros Hp. unfold with_session. by rewrite (bind_run _ _ _ _ _ (get_session_run st p x Hp)), Htype. Qed.

Lemma driver_call_run {A B} (m : DM A) (k : A -> SM B) st a d' :
  m (drv st) = Done (a, d') -> (call m ≫= k) st = k a (st <| drv := d' |>).
Proof using Type. intros H. apply bind_run. unfold call. by rewrite H. Qed.

(** The parameters of a creation that are accepted. *)
Definition create_params_ok (params : synx_create_params) : bool :=
  cp_h_synx params && (cp_flags params <=? SYNX_CREATE_MAX_FLAGS) &&
  has_flag (cp_flags params) SYNX_CREATE_DMA_FENCE && negb (has_flag (cp_flags params) SYNX_CREATE_CSL_FENCE) &&
  is_found (cp_fence params).

Lemma create_run params st :
  live st p x ->
  synx_hwfence_create (Some p) (Some params) st =
  if negb (create_params_ok params) then Done ((- SYNX_INVALID, None), st) else
  ('(ret, handle) ← call (msm_hw_fence_create (Some c) (Some (cp_fence params, true)));
   if truthy ret then mret (to_synx_status ret, None) else
   handle ← liftO OutOfBounds handle;
   if U32_MAX <? handle then
     call (msm_hw_fence_destroy_with_handle (Some c) handle) ;; mret (- SYNX_INVALID, None)
   else mret (SYNX_SUCCESS, Some handle)) st.
Proof using Htype Hx.
  intros Hp. unfold synx_hwfence_create. rewrite with_session_run, Hx by done. unfold create_params_ok.
  replace (negb (cp_h_synx params) || _ || _ || _ || _) with (negb (cp_h_synx params &&
    (cp_flags params <=? SYNX_CREATE_MAX_FLAGS) && has_flag (cp_flags params) SYNX_CREATE_DMA_FENCE &&
    negb (has_flag (cp_flags params) SYNX_CREATE_CSL_FENCE) && is_found (cp_fence params))); [by destruct (negb _)|].
  rewrite !negb_andb, negb_involutive. by rewrite Z.ltb_antisym.
Qed.

(** A creation that succeeds, as a creation of the driver. *)
Lemma create_inv_synx params st h st1 :
  live st p x -> synx_hwfence_create (Some p) (Some params) st = Done ((0, Some h), st1) ->
  create_params_ok params = true /\ exists d1, st1 = st <| drv := d1 |> /\
  msm_hw_fence_create (Some c) (Some (cp_fence params, true)) (drv st) = Done ((0, Some h), d1).
Proof using Htype Hx.
  intros Hp H. rewrite create_run in H by done. destruct (create_params_ok params); [|done]. split; [done|].
  cbn [negb] in H. apply bind_inv in H as ([ret handle]&s1&Hcall&H). unfold call in Hcall.
  destruct (msm_hw_fence_create _ _ _) as [[[ret' handle'] d1]|]; [|done]. injection Hcall as -> -> <-.
  destruct (truthy ret) eqn:Hr; [by injection H as _ H _|]. apply truthy_false in Hr as ->.
  apply bind_inv in H as (h1&s1&[-> ->]%liftO_inv&H). destruct (U32_MAX <? h1); [apply bind_inv in H as (u&s2&_&H); discriminate H|].
  injection H as -> <-. by exists d1.
Qed.

End OpenSession.

(** The destruction by the handle and the one by the key agree. *)
Lemma destroy_cleanup d c cl context seqno d' :
  client_at d c cl -> hw_fence_destroy c context seqno d = Done (0, d') ->
  _hw_fence_cleanup (client_id cl) context seqno d = Done (0, d').
Proof.
  intros Hc H. unfold hw_fence_destroy in H. rewrite (with_client _ _ cl) in H by done.
  apply bind_inv in H as (ret&s&H1&H). destruct (truthy ret) eqn:Hr; [done|]. injection H as <-.
  by apply truthy_false in Hr as ->.
Qed.

(** * Properties *)

(** C37: from a driver without sessions, whatever calls of the synx interface
    complete and whatever else registers clients and uses fences in between, each
    session stands for a registered client of the driver, the one with the
    internal identifier of the hardware-fence client its type names, no two
    sessions share a client, and so no two have one type. *)
Theorem synx_sessions_sound st st' :
  named (drv st) -> (forall p x, ~ live st p x) -> rtc synx_step st st' ->
  (forall p x, live st' p x -> exists c cl, let ext := _get_hw_fence_client_id (uapi (drv st')) (ss_type x) in
     ss_client x = Some c /\ client_at (drv st') c cl /\ client_id cl = c /\ client_id_ext cl = ext /\
     hw_fence_utils_get_client_id_priv (drv st') ext = Some c) /\
  (forall p q x y, live st' p x -> live st' q y -> ss_client x = ss_client y \/ ss_type x = ss_type y -> p = q).
Proof.
  intros Hn Hno Hrun.
  assert (Hok : sessions_ok st) by (by split; [|intros p x []%Hno|intros p q x y []%Hno]). clear Hn Hno.
  assert (Hok' : sessions_ok st') by (induction Hrun; eauto using step_sessions). clear Hok. rename Hok' into Hok.
  split.
  - intros p x Hx. destruct (so_session _ Hok p x Hx) as (_&c&cl&Hc&Hat&He&Hp). exists c, cl. rewrite <- He.
    split_and!; try done. by apply (so_named _ Hok).
  - intros p q x y Hp Hq [He|He]; [by apply (so_apart _ Hok p q x y)|by apply (same_type_client st' p q x y)].
Qed.

(** The errors of a registration that comes too late. *)
Definition refusal (e : Z) : Prop := e = - SYNX_INVALID \/ e = - SYNX_NOMEM \/ e = - EAGAIN.

Lemma register_taken ext d c cl :
  hw_fence_utils_get_client_id_priv d ext = Some c -> client_at d c cl ->
  exists e d', msm_hw_fence_register true ext true d = Done (inl e, d') /\ refusal e /\ clients d' = clients d.
Proof.
  intros Hpriv Hc. unfold msm_hw_fence_register. cbn [negb orb]. rewrite getM_run.
  destruct (resources_ready d); cbn [negb]; [|exists (- EAGAIN), d; split; [done|]; split; [by right; right|done]].
  assert (Hinv : refusal (- EINVAL)) by by left.
  destruct (_ <=? ext); [by exists (- EINVAL), d|]. rewrite (liftO_run _ _ _ _ _ Hpriv).
  destruct (_ <=? c); [by exists (- EINVAL), d|].
  rewrite (bind_run _ _ _ (kzalloc_ok d (kzallocs d)) (d <| kzallocs ::= S |>)) by done.
  destruct (negb _); [exists (- ENOMEM), (d <| kzallocs ::= S |>); split; [done|]; split; [by right; left|done]|].
  rewrite (liftO_run _ _ _ _ (Some cl)) by exact Hc. by exists (- EINVAL), (d <| kzallocs ::= S |>).
Qed.

(** while a session of a type is open, a second one is refused without a
    trace: the call returns an error, and the live sessions and the clients of
    the driver are those of before. *)
Theorem synx_second_session_refused en ptr st p x :
  sessions_ok st -> live st p x ->
  exists e st', synx_hwfence_initialize en (Some (ptr, ss_type x)) st = Done (inl e, st') /\ refusal e /\
    (forall q y, live st' q y <-> live st q y) /\ clients (drv st') = clients (drv st).
Proof.
  intros Hok Hp. destruct (so_session _ Hok p x Hp) as (Ht&c&cl&Hx&Hc&He&Hpriv). rewrite He in Hpriv.
  destruct st as [d l]. cbn [drv] in *.
  assert (Hno : forall d' e (o : outcome ((Z + Z) * synx_state)), clients d' = clients d -> refusal e ->
    o = Done (inl e, mkSynx d' l) -> exists e st', o = Done (inl e, st') /\ refusal e /\
      (forall q y, live st' q y <-> live (mkSynx d l) q y) /\ clients (drv st') = clients d).
  { intros d' e o Hd He' ->. exists e, (mkSynx d' l). split; [reflexivity|]. split; [exact He'|].
    split; [intros q y; reflexivity|exact Hd]. }
  assert (Hinv : refusal (- SYNX_INVALID)) by by left.
  destruct en; [|exact (Hno d _ _ eq_refl Hinv eq_refl)]. destruct ptr; [|exact (Hno d _ _ eq_refl Hinv eq_refl)].
  rewrite initialize_run. cbv zeta. destruct (negb _ || _); [exact (Hno d _ _ eq_refl Hinv eq_refl)|].
  destruct (negb _); [exact (Hno (d <| kzallocs ::= S |>) _ _ eq_refl (or_intror (or_introl eq_refl)) eq_refl)|].
  rewrite <- (priv_ids d (d <| kzallocs ::= S |>)) in Hpriv by reflexivity.
  destruct (register_taken _ _ c cl Hpriv Hc) as (e&d2&->&Hin&Hcl).
  eexists _, _. split; [done|]. split; [by destruct Hin as [->|[->| ->]]; [left|right; left|right; right]|].
  split; [|exact Hcl]. intros q y. by apply (live_tail _ _ [None]); [|repeat constructor].
Qed.

(** C38: a fence created through a session can be released with the handle, and
    the release clears the very entry that the creation took; but it leaves the
    mark on the kernel's fence, so that this fence cannot be created again. *)
Theorem synx_create_release st p x c cl params q f h st1 :
  live st p x -> is_hw_fence_client (ss_type x) = true -> ss_client x = Some c ->
  table_ok (drv st) -> client_at (drv st) c cl -> client_id cl < clients_num (drv st) ->
  zget (dma_fences (drv st)) q = Some f -> df_array f = None -> 0 <= MSM_HW_FENCE_FLAG_ENABLED_BIT (uapi (drv st)) ->
  cp_fence params = Some q -> synx_hwfence_create (Some p) (Some params) st = Done ((0, Some h), st1) ->
  exists g st2, fence_at (drv st) h g /\ valid g = 0 /\
    synx_hwfence_release (Some p) h st1 = Done (0, st2) /\
    hw_fences_tbl (drv st2) = <[Z.to_nat h := cleared_fence (lock g)]> (hw_fences_tbl (drv st)) /\
    sessions st2 = sessions st /\
    synx_hwfence_create (Some p) (Some params) st2 = Done ((- SYNX_INVALID, None), st2).
Proof.
  intros Hp Ht Hx Hok Hc Hnum Hf Harr Hbit Hq Hrun. set (d := drv st) in *.
  apply (create_inv_synx p c x Ht Hx) in Hrun as [Hpar (d1&->&Hrun)]; [|done]. rewrite Hq in Hrun. fold d in Hrun.
  assert (Hvm : vm_ready d = true).
  { unfold msm_hw_fence_create in Hrun. rewrite getM_run in Hrun. by destruct (vm_ready d). }
  destruct (create_inv d c cl q f h d1 Hok Hc Hf Harr Hrun) as (k&g&Hk&->&Hg&Hv&Hoff&Hb&Hd1). clear Hrun.
  change (d1 = created d cl q f k g) in Hd1. subst d1. set (h := probe _ _ _ k) in *.
  pose proof (created_destroy d c cl q f Hok Hc k g Hk Hg Hb) as Hd. fold h in Hd.
  apply (destroy_cleanup _ c cl) in Hd; [|exact Hc]. set (d1 := created d cl q f k g) in *.
  set (e := new_fence (df_context f) (df_seqno f) (client_id cl) (qtimer d (qtime_reads d)) 0 (lock g)).
  assert (He : fence_at d1 h e) by (apply (set_fence_at d h g e); [done|]; by rewrite decide_True).
  match type of Hd with _ = Done (0, ?s) => set (d2 := s) in * end.
  exists g, (st <| drv := d2 |>). split; [done|]. split; [done|]. split; [|split; [|split; [done|]]].
  - unfold synx_hwfence_release. rewrite (with_session_run p x Ht), Hx by exact Hp.
    rewrite (driver_call_run _ _ _ 0 d2); [done|]. cbn [drv]. unfold msm_hw_fence_destroy_with_handle.
    rewrite (with_client _ _ cl), getM_run by exact Hc. change (clients_num (drv _)) with (clients_num d).
    destruct (Z.leb_spec (clients_num d) (client_id cl)); [lia|]. rewrite (destroy_with_hash_run _ _ cl) by exact Hc.
    change (drv (st <| drv := d1 |>)) with d1. change (hw_fence_table_entries d1) with (hw_fence_table_entries d).
    pose proof (zget_Some _ _ _ Hg) as Hr. rewrite <- (tbl_entries _ Hok) in Hr.
    destruct (Z.leb_spec (hw_fence_table_entries d) h); [lia|]. unfold fence_at in He. rewrite He.
    change (fence_allocator e) with (client_id cl). rewrite Z.eqb_refl. cbn [negb].
    change (ctx_id e) with (df_context f). change (seq_id e) with (df_seqno f). by rewrite Hd.
  - exact (list_insert_insert_eq (hw_fences_tbl d) (Z.to_nat h) (cleared_fence (lock g)) e).
  - rewrite (create_run p c x Ht Hx) by exact Hp. rewrite Hpar, Hq. cbn [negb].
    rewrite (driver_call_run _ _ _ (- EINVAL, None) d2); [done|]. cbn [drv]. unfold msm_hw_fence_create. rewrite getM_run.
    change (vm_ready (drv _)) with (vm_ready d). rewrite Hvm. cbn [negb].
    pose proof (created_dma d cl q f Hf k g) as Hf1. set (f1 := f <| df_flags := _ |>) in Hf1.
    rewrite (to_array_then _ _ f1) by exact Hf1. change (df_array f1) with (df_array f). rewrite Harr.
    rewrite (get_dma_then _ _ f1) by exact Hf1. change (uapi (drv _)) with (uapi d).
    replace (test_bit _ f1) with true by (symmetry; by apply test_set_bit). done.
Qed.

(** C39: a signal of an entry of the table puts one message with the key of the
    entry, its handle and the status in the Tx queue of the client when the queue
    has room, and loses it when it has none; the call reports success in both
    cases. *)
Theorem synx_signal_outcome st p x c tx l h f status :
  live st p x -> is_hw_fence_client (ss_type x) = true -> ss_client x = Some c ->
  resources_ready (drv st) = true -> vm_ready (drv st) = true -> queue_ready (drv st) c 0 tx l ->
  h < hw_fences_tbl_cnt (drv st) -> fence_at (drv st) h f -> fence_ok f -> is_word 64 h ->
  exists st', synx_hwfence_signal (Some p) h status st = Done (0, st') /\
  if decide (S (length l) < capacity tx)%nat
  then exists tx' l', st' = st <| drv := set_queue c 0 tx' ((drv st) <| qtime_reads ::= S |>) |> /\
    queue_repr tx' l' /\
    map payload_message l' = map payload_message l ++ [mkMessage (ctx_id f) (seq_id f) h 0 0 (u32 status)]
  else st' = st.
Proof.
  intros Hp Ht Hx Hres Hvm Hq Hh Hf [Hctx Hseq _ _] Hword. unfold synx_hwfence_signal.
  rewrite (with_session_run p x Ht), Hx by exact Hp.
  assert (Hup : msm_hw_fence_update_txq (Some c) h 0 (u32 status) (drv st) =
    (hw_fence_update_queue c (ctx_id f) (seq_id f) h 0 0 (u32 status) 0 ;; mret 0) (drv st)).
  { unfold msm_hw_fence_update_txq. rewrite getM_run, Hres, Hvm. cbn [negb orb].
    destruct (Z.leb_spec (hw_fences_tbl_cnt (drv st)) h); [lia|]. by rewrite (get_fence_then _ _ f). }
  assert (H0 : is_word 64 0) by done. case_decide as Hroom.
  - destruct (update_queue_room (drv st) c 0 tx l (ctx_id f) (seq_id f) h 0 0 (u32 status) Hq Hroom Hctx Hseq Hword H0 H0)
      as (tx'&reserve&Hrun&Hrepr&_).
    rewrite (bind_run _ _ _ _ _ Hrun) in Hup. rewrite (driver_call_run _ _ _ _ _ Hup). eexists. split; [done|].
    eexists _, _. split; [done|]. split; [exact Hrepr|]. rewrite map_app. f_equal.
    exact (f_equal (fun e => [mkMessage (ctx_id f) (seq_id f) h 0 0 e]) (wrap_wrap 32 status)).
  - rewrite (bind_run _ _ _ _ _ (update_queue_full (drv st) c 0 tx l (ctx_id f) (seq_id f) h 0 0 (u32 status) Hq ltac:(lia))) in Hup.
    rewrite (driver_call_run _ _ _ _ _ Hup). eexists. split; [done|]. by destruct st.
Qed.

(** ** Concrete sessions *)

(** The driver laid out for one client, and the session of the GPU in it. *)
Definition sample_gpu_session : synx_session := mkSession SYNX_CLIENT_HW_FENCE_GFX_CTX0 (Some 1).

Definition sample_synx : synx_state := mkSynx (sample_register sample_gpu_ipc) [].

Lemma sample_named : named (drv sample_synx).
Proof.
  intros c cl Hc. pose proof (zget_Some _ _ _ Hc) as Hr. change (zlen _) with 2 in Hr.
  by assert (c = 0 \/ c = 1) as [-> | ->] by lia.
Qed.

Lemma sample_none p x : ~ live sample_synx p x.
Proof. intros Hp. apply zget_Some in Hp. change (zlen _) with 0 in Hp. lia. Qed.

Lemma sample_opened : exists st,
  synx_hwfence_initialize true (Some (true, SYNX_CLIENT_HW_FENCE_GFX_CTX0)) sample_synx = Done (inr 0, st) /\
  sessions_ok st /\ live st 0 sample_gpu_session.
Proof.
  destruct (value_run (synx_hwfence_initialize true (Some (true, SYNX_CLIENT_HW_FENCE_GFX_CTX0))) sessions sample_synx
    (inr 0) [Some sample_gpu_session]) as (st&Hrun&Hs); [vm_compute; reflexivity|].
  exists st. split; [exact Hrun|]. split; [|unfold live; by rewrite Hs].
  apply (initialize_sessions _ _ _ _ _ Hrun). split; [exact sample_named|intros p x []%sample_none|intros p q x y []%sample_none].
Qed.

Lemma synx_sessions_sound_witness : exists st,
  (forall p x, live st p x -> exists c cl, let ext := _get_hw_fence_client_id (uapi (drv st)) (ss_type x) in
     ss_client x = Some c /\ client_at (drv st) c cl /\ client_id cl = c /\ client_id_ext cl = ext /\
     hw_fence_utils_get_client_id_priv (drv st) ext = Some c) /\
  (forall p q x y, live st p x -> live st q y -> ss_client x = ss_client y \/ ss_type x = ss_type y -> p = q).
Proof.
  destruct sample_opened as (st&Hrun&_). exists st.
  apply (synx_sessions_sound sample_synx st); [exact sample_named|exact sample_none|].
  apply rtc_once. exact (StepInitialize _ _ _ _ _ Hrun).
Defined.

Lemma synx_second_session_refused_witness : exists st e st',
  synx_hwfence_initialize true (Some (true, SYNX_CLIENT_HW_FENCE_GFX_CTX0)) st = Done (inl e, st') /\ refusal e /\
  (forall q y, live st' q y <-> live st q y) /\ clients (drv st') = clients (drv st).
Proof.
  destruct sample_opened as (st&_&Hok&Hp). exists st.
  exact (synx_second_session_refused true true st 0 sample_gpu_session Hok Hp).
Defined.

(** A session with a fence of the kernel. *)
Definition sample_synx_fences : synx_state := mkSynx sample_fences [Some sample_gpu_session].
Definition sample_create_params : synx_create_params := mkCreateParams true SYNX_CREATE_DMA_FENCE (Some 0).

Lemma synx_create_release_witness : exists g st2, fence_at sample_fences 0 g /\ valid g = 0 /\
  synx_hwfence_release (Some 0) 0 (mkSynx sample_marked [Some sample_gpu_session]) = Done (0, st2) /\
  hw_fences_tbl (drv st2) = <[Z.to_nat 0 := cleared_fence (lock g)]> (hw_fences_tbl sample_fences) /\
  sessions st2 = [Some sample_gpu_session] /\
  synx_hwfence_create (Some 0) (Some sample_create_params) st2 = Done ((- SYNX_INVALID, None), st2).
Proof.
  apply (synx_create_release sample_synx_fences 0 sample_gpu_session 1 sample_fence_client sample_create_params 0
    (mkDmaFence 5 9 0 None) 0 (mkSynx sample_marked [Some sample_gpu_session])); try reflexivity.
  - exact sample_fences_ok.
  - cbn. lia.
Defined.

Definition sample_synx_wait : synx_state := mkSynx (sample_wait <| resources_ready := true |>) [Some sample_gpu_session].

Lemma sample_tx_ready : queue_ready (drv sample_synx_wait) 1 0 (sample_queue 2) [].
Proof. split; [by exists sample_client|done|by apply sample_queue_repr; lia]. Qed.

Lemma synx_signal_outcome_witness : exists st',
  synx_hwfence_signal (Some 0) 0 2 sample_synx_wait = Done (0, st') /\
  if decide (1 < capacity (sample_queue 2))%nat
  then exists tx' l', st' = sample_synx_wait <| drv := set_queue 1 0 tx' ((drv sample_synx_wait) <| qtime_reads ::= S |>) |> /\
    queue_repr tx' l' /\ map payload_message l' = [] ++ [mkMessage 5 9 0 0 0 2]
  else st' = sample_synx_wait.
Proof.
  apply (synx_signal_outcome sample_synx_wait 0 sample_gpu_session 1 (sample_queue 2) [] 0 sample_waited 2);
    try reflexivity; [exact sample_tx_ready| |unfold is_word; lia].
  split; [unfold is_word; cbn; lia..|done|repeat constructor; unfold is_word; lia].
Defined.
