(* ===== verification/IpaChain.v ===== *)
(** * Lists of records in a table

    The shape of the tables of [ipa_table.c], apart from what the records hold:
    which slots are in use and how they are linked.  A slot in use has a next
    and a previous index, 0 standing for none; the slots form doubly linked
    lists, each with its head in the base part and its other records in the
    expansion part.  [chains_ok] says so for a map from heads to the rest of
    their lists, and the lemmas give the effect of the changes the library
    makes: a new head, a record appended, a record taken out. *)

From stdpp Require Import gmap.
From S2P Require Import Prelude.

Local Open Scope Z_scope.

(** A view of a table: the links of the slots in use. *)
Definition links := Z -> option (Z * Z).

Definition lupd (v : links) (i : Z) (x : option (Z * Z)) : links := fun j => if j =? i then x else v j.

Lemma lupd_eq v i x : lupd v i x i = x.
Proof. unfold lupd. by rewrite Z.eqb_refl. Qed.

Lemma lupd_ne v i x j : j <> i -> lupd v i x j = v j.
Proof. intros H. unfold lupd. by destruct (Z.eqb_spec j i). Qed.

(** A list segment that follows [p] and is followed by [q]. *)
Fixpoint seg (v : links) (p : Z) (l : list Z) (q : Z) : Prop :=
  match l with
  | [] => True
  | i :: l' => v i = Some (hd q l', p) /\ seg v i l' q
  end.

(** The last element of a list that follows [p]. *)
Fixpoint last_of (p : Z) (l : list Z) : Z :=
  match l with
  | [] => p
  | i :: l' => last_of i l'
  end.

Lemma last_of_snoc p l i : last_of p (l ++ [i]) = i.
Proof. revert p. induction l as [|j l IH]; intros p; [done|apply IH]. Qed.

Lemma last_of_in p l : last_of p l = p \/ last_of p l ∈ l.
Proof.
  revert p. induction l as [|j l IH]; intros p; [by left|]. right. cbn [last_of].
  destruct (IH j) as [->|H]; [by left|by right].
Qed.

Lemma seg_app v p l1 l2 q :
  seg v p (l1 ++ l2) q <-> seg v p l1 (hd q l2) /\ seg v (last_of p l1) l2 q.
Proof.
  revert p. induction l1 as [|i l1 IH]; intros p; [cbn; tauto|]. cbn [app seg last_of].
  rewrite IH. replace (hd q (l1 ++ l2)) with (hd (hd q l2) l1) by (by destruct l1). tauto.
Qed.

Lemma seg_frame v i x p l q : i ∉ l -> seg (lupd v i x) p l q <-> seg v p l q.
Proof.
  revert p. induction l as [|j l IH]; intros p Hi; [done|]. cbn [seg].
  apply not_elem_of_cons in Hi as [Hne Hi]. rewrite lupd_ne, IH by done. done.
Qed.

Lemma seg_agree v v' p l q : (forall i, i ∈ l -> v' i = v i) -> seg v p l q -> seg v' p l q.
Proof.
  revert p. induction l as [|i l IH]; intros p He; [done|]. intros [Hi Hs]. split.
  - rewrite He; [done|by left].
  - apply IH; [|done]. intros j Hj. apply He. by right.
Qed.

Lemma seg_lookup v p l q k i :
  seg v p l q -> l !! k = Some i ->
  v i = Some (default q (l !! S k), match k with O => p | S k' => default p (l !! k') end).
Proof.
  revert p k. induction l as [|j l IH]; intros p k Hs Hk; [done|]. destruct Hs as [Hj Hs].
  destruct k as [|k].
  - injection Hk as <-. rewrite Hj. by destruct l.
  - rewrite (IH j k Hs Hk). cbn. destruct k as [|k]; [done|].
    destruct (lookup_lt_is_Some_2 l k) as [y Hy]; [apply lookup_lt_Some in Hk; cbn in Hk; lia|]. change ((j :: l) !! S k) with (l !! k). by rewrite Hy.
Qed.

Lemma seg_prev v p l q k i j :
  seg v p l q -> l !! S k = Some i -> l !! k = Some j -> exists n, v i = Some (n, j).
Proof. intros Hs Hi Hj. rewrite (seg_lookup _ _ _ _ _ _ Hs Hi), Hj. by eexists. Qed.

(** ** Tables of lists *)

Section Chains.
Context (base tot : Z).
Implicit Types (ch : gmap Z (list Z)) (v : links).

Record chains_ok v ch : Prop := {
  ck_head : forall h es, ch !! h = Some es ->
    1 <= h < base /\ Forall (fun i => base <= i < tot) es /\ seg v 0 (h :: es) 0;
  ck_cover : forall i x, v i = Some x -> exists h es, ch !! h = Some es /\ i ∈ h :: es;
}.

Section Ok.
Context v ch (Hok : chains_ok v ch).

Lemma chain_used h es i : ch !! h = Some es -> i ∈ h :: es -> exists x, v i = Some x.
Proof using Hok.
  intros Hh [k Hk]%list_elem_of_lookup. destruct (ck_head _ _ Hok h es Hh) as (_&_&Hs).
  eexists. exact (seg_lookup _ _ _ _ _ _ Hs Hk).
Qed.

Lemma tail_ge h es k i : ch !! h = Some es -> (h :: es) !! S k = Some i -> base <= i < tot.
Proof using Hok.
  intros Hh Hi. destruct (ck_head _ _ Hok h es Hh) as (_&Hes&_). exact (Forall_lookup_1 _ _ _ _ Hes Hi).
Qed.

(** A slot is at one position of one list: the links back from it say which. *)
Lemma chain_position h1 es1 h2 es2 k1 k2 i :
  ch !! h1 = Some es1 -> ch !! h2 = Some es2 ->
  (h1 :: es1) !! k1 = Some i -> (h2 :: es2) !! k2 = Some i -> h1 = h2 /\ k1 = k2.
Proof using Hok.
  intros H1 H2. revert k2 i. induction k1 as [|k1 IH]; intros k2 i Hk1 Hk2.
  - injection Hk1 as <-. destruct k2 as [|k2]; [by injection Hk2 as <-|].
    pose proof (tail_ge _ _ _ _ H2 Hk2). destruct (ck_head _ _ Hok _ _ H1) as ([? ?]&_). lia.
  - destruct k2 as [|k2].
    { injection Hk2 as <-. pose proof (tail_ge _ _ _ _ H1 Hk1).
      destruct (ck_head _ _ Hok _ _ H2) as ([? ?]&_). lia. }
    destruct (ck_head _ _ Hok _ _ H1) as (_&_&Hs1). destruct (ck_head _ _ Hok _ _ H2) as (_&_&Hs2).
    destruct (lookup_lt_is_Some_2 (h1 :: es1) k1) as [j1 Hj1]; [apply lookup_lt_Some in Hk1; cbn in *; lia|].
    destruct (lookup_lt_is_Some_2 (h2 :: es2) k2) as [j2 Hj2]; [apply lookup_lt_Some in Hk2; cbn in *; lia|].
    destruct (seg_prev _ _ _ _ _ _ _ Hs1 Hk1 Hj1) as [n1 Hn1].
    destruct (seg_prev _ _ _ _ _ _ _ Hs2 Hk2 Hj2) as [n2 Hn2].
    assert (j1 = j2) as -> by congruence. destruct (IH k2 j2 Hj1 Hj2) as [-> ->]. done.
Qed.

Lemma chain_unique h1 es1 h2 es2 i :
  ch !! h1 = Some es1 -> ch !! h2 = Some es2 -> i ∈ h1 :: es1 -> i ∈ h2 :: es2 -> h1 = h2.
Proof using Hok.
  intros H1 H2 [k1 Hk1]%list_elem_of_lookup [k2 Hk2]%list_elem_of_lookup.
  by destruct (chain_position _ _ _ _ _ _ _ H1 H2 Hk1 Hk2).
Qed.

Lemma chain_NoDup h es : ch !! h = Some es -> NoDup (h :: es).
Proof using Hok.
  intros Hh. apply NoDup_alt. intros a b i Ha Hb. by destruct (chain_position _ _ _ _ _ _ _ Hh Hh Ha Hb).
Qed.

Lemma chain_head i n : v i = Some (n, 0) -> exists es, ch !! i = Some es /\ n = hd 0 es.
Proof using Hok.
  intros Hi. destruct (ck_cover _ _ Hok _ _ Hi) as (h&es&Hh&[k Hk]%list_elem_of_lookup).
  destruct (ck_head _ _ Hok _ _ Hh) as ([Hge _]&_&Hs). destruct k as [|k].
  - injection Hk as <-. destruct Hs as [Hs _]. exists es. split; [done|]. congruence.
  - exfalso. destruct (lookup_lt_is_Some_2 (h :: es) k) as [j Hj]; [apply lookup_lt_Some in Hk; cbn in *; lia|].
    destruct (seg_prev _ _ _ _ _ _ _ Hs Hk Hj) as [m Hm]. assert (j = 0) as -> by congruence.
    destruct k as [|k]; [injection Hj as ->; lia|]. pose proof (tail_ge _ _ _ _ Hh Hj).
    destruct (ck_head _ _ Hok _ _ Hh) as ([? ?]&_). lia.
Qed.

(** A slot with a link back is behind the head of a list. *)
Lemma chain_tail i n p :
  v i = Some (n, p) -> p <> 0 ->
  exists h a b, ch !! h = Some (a ++ i :: b) /\ p = last_of h a /\ n = hd 0 b.
Proof using Hok.
  intros Hi Hp. destruct (ck_cover _ _ Hok _ _ Hi) as (h&es&Hh&Hin).
  destruct (ck_head _ _ Hok _ _ Hh) as (_&_&Hs). apply elem_of_cons in Hin as [->|Hin].
  { destruct Hs as [Hs _]. congruence. }
  apply list_elem_of_split in Hin as (a&b&->). exists h, a, b. split; [done|].
  change (h :: a ++ i :: b) with ((h :: a) ++ i :: b) in Hs. apply seg_app in Hs as [_ Hs].
  destruct Hs as [Hs _]. cbn [last_of] in Hs. split; congruence.
Qed.

End Ok.

(** ** Changes *)

Lemma chains_ok_ext v v' ch : (forall i, v' i = v i) -> chains_ok v ch -> chains_ok v' ch.
Proof.
  intros He [Hh Hc]. split.
  - intros h es H. destruct (Hh h es H) as (?&?&Hs). split; [done|]. split; [done|].
    by eapply seg_agree; [|exact Hs].
  - intros i x. rewrite He. apply Hc.
Qed.

(** The lists other than the one of [h] keep their records. *)
Lemma chain_other v ch h es h' es' i :
  chains_ok v ch -> ch !! h = Some es -> ch !! h' = Some es' -> h' <> h -> i ∈ h :: es -> i ∉ h' :: es'.
Proof. intros Hok Hh Hh' Hne Hi Hi'. apply Hne. by eapply (chain_unique v ch Hok). Qed.

Lemma chains_new v ch v' h :
  chains_ok v ch -> 1 <= h < base -> v h = None ->
  v' h = Some (0, 0) -> (forall j, j <> h -> v' j = v j) -> chains_ok v' (<[h := []]> ch).
Proof.
  intros Hok Hb Hn Hh Ho.
  assert (Hfree : forall h' es, ch !! h' = Some es -> h ∉ h' :: es).
  { intros h' es Hc Hin. destruct (chain_used v ch Hok _ _ _ Hc Hin). congruence. }
  split.
  - intros h' es [[<- <-]|[Hne Hc]]%lookup_insert_Some.
    + split; [done|]. split; [constructor|]. split; done.
    + destruct (ck_head _ _ Hok _ _ Hc) as (?&?&Hs). split; [done|]. split; [done|].
      eapply seg_agree; [|exact Hs]. intros j Hj. apply Ho. intros ->. by eapply Hfree.
  - intros i x Hi. destruct (decide (i = h)) as [->|Hne].
    + exists h, []. rewrite lookup_insert_eq. split; [done|]. by left.
    + rewrite Ho in Hi by done. destruct (ck_cover _ _ Hok _ _ Hi) as (h'&es&Hc&Hin).
      exists h', es. split; [|done]. rewrite lookup_insert_ne; [done|]. intros <-.
      destruct (chain_used v ch Hok h es h Hc ltac:(by left)). congruence.
Qed.

Lemma chains_remove_head v ch v' h :
  chains_ok v ch -> ch !! h = Some [] -> v' h = None -> (forall j, j <> h -> v' j = v j) ->
  chains_ok v' (delete h ch).
Proof.
  intros Hok Hh Hn Ho. split.
  - intros h' es [Hne Hc]%lookup_delete_Some.
    destruct (ck_head _ _ Hok _ _ Hc) as (?&?&Hs). split; [done|]. split; [done|].
    eapply seg_agree; [|exact Hs]. intros j Hj. apply Ho. intros ->.
    eapply (chain_other v ch h [] h'); [done..|by left|done].
  - intros i x Hi. assert (i <> h) by congruence. rewrite Ho in Hi by done.
    destruct (ck_cover _ _ Hok _ _ Hi) as (h'&es&Hc&Hin). exists h', es. split; [|done].
    rewrite lookup_delete_ne; [done|]. intros <-. assert (es = []) as -> by congruence.
    by apply list_elem_of_singleton in Hin.
Qed.

Lemma snoc_last h es : exists a, h :: es = a ++ [last_of h es].
Proof.
  revert h. induction es as [|i es IH]; intros h; [by exists []|].
  destruct (IH i) as [a Ha]. exists (h :: a). cbn [last_of]. by rewrite Ha.
Qed.

(** The record [c] is appended to the list of [h]. *)
Lemma chains_append v ch v' h es c pl :
  chains_ok v ch -> ch !! h = Some es -> v c = None -> base <= c < tot ->
  v (last_of h es) = Some (0, pl) ->
  v' c = Some (0, last_of h es) -> v' (last_of h es) = Some (c, pl) ->
  (forall j, j <> c -> j <> last_of h es -> v' j = v j) ->
  chains_ok v' (<[h := es ++ [c]]> ch).
Proof.
  intros Hok Hh Hn Hc Hl Hc' Hl' Ho. destruct (ck_head _ _ Hok _ _ Hh) as (Hb&Hes&Hs).
  destruct (snoc_last h es) as [a Ha]. set (l := last_of h es) in *.
  assert (Hin : l ∈ h :: es) by (rewrite Ha; apply elem_of_app; right; by left).
  assert (Hcn : forall h' es', ch !! h' = Some es' -> c ∉ h' :: es').
  { intros h' es' Hc0 Hin'. destruct (chain_used v ch Hok _ _ _ Hc0 Hin'). congruence. }
  split.
  - intros h' es' [[<- <-]|[Hne Hc0]]%lookup_insert_Some.
    + split; [done|]. split; [apply Forall_app; split; [done|by constructor]|].
      change (h :: es ++ [c]) with ((h :: es) ++ [c]). rewrite Ha, <- app_assoc. rewrite Ha in Hs.
      apply seg_app in Hs as [Hs Hsl]. apply seg_app. split.
      * eapply seg_agree; [|exact Hs]. intros j Hj. apply Ho.
        -- intros ->. apply (Hcn h es Hh). rewrite Ha. apply elem_of_app. by left.
        -- intros ->. pose proof (chain_NoDup v ch Hok h es Hh) as Hnd. rewrite Ha in Hnd.
           apply NoDup_app in Hnd as (_&Hd&_). by apply (Hd l Hj); left.
      * destruct Hsl as [Hsl _]. cbn [app seg hd]. split; [|split; [|done]]; [|done].
        rewrite Hl'. rewrite Hl in Hsl. congruence.
    + destruct (ck_head _ _ Hok _ _ Hc0) as (?&?&Hs'). split; [done|]. split; [done|].
      eapply seg_agree; [|exact Hs']. intros j Hj. apply Ho.
      * intros ->. by eapply Hcn.
      * intros ->. eapply (chain_other v ch h es h'); [done..|exact Hin|done].
  - intros i x Hi. destruct (decide (i = c)) as [->|Hic].
    { exists h, (es ++ [c]). rewrite lookup_insert_eq. split; [done|]. right. apply elem_of_app. right. by left. }
    assert (exists y, v i = Some y) as [y Hy].
    { destruct (decide (i = l)) as [->|]; [by eexists|]. rewrite Ho in Hi by done. by eexists. }
    destruct (ck_cover _ _ Hok _ _ Hy) as (h'&es'&Hc0&Hin').
    destruct (decide (h' = h)) as [->|Hne].
    + exists h, (es ++ [c]). rewrite lookup_insert_eq. split; [done|].
      assert (es' = es) as -> by congruence. apply elem_of_cons in Hin' as [->|Hin']; [by left|].
      right. apply elem_of_app. by left.
    + exists h', es'. by rewrite lookup_insert_ne.
Qed.

(** The record [i] behind [p] is taken out of the list of [h]. *)
Lemma chains_remove v ch v' h a i b pp :
  chains_ok v ch -> ch !! h = Some (a ++ i :: b) ->
  let p := last_of h a in
  v p = Some (i, pp) -> v' i = None -> v' p = Some (hd 0 b, pp) ->
  (forall n b', b = n :: b' -> v' n = Some (hd 0 b', p)) ->
  (forall j, j <> i -> j <> p -> (b = [] \/ j <> hd 0 b) -> v' j = v j) ->
  chains_ok v' (<[h := a ++ b]> ch).
Proof.
  intros Hok Hh p Hp Hi' Hp' Hn' Ho. destruct (ck_head _ _ Hok _ _ Hh) as (Hb&Hes&Hs).
  destruct (snoc_last h a) as [a' Ha]. fold p in Ha.
  assert (Hl : h :: a ++ i :: b = a' ++ [p] ++ i :: b).
  { change (h :: a ++ i :: b) with ((h :: a) ++ i :: b). by rewrite Ha, <- app_assoc. }
  pose proof (chain_NoDup v ch Hok h _ Hh) as Hnd. rewrite Hl in Hnd, Hs.
  apply NoDup_app in Hnd as (_&Hda&Hnd2). apply NoDup_app in Hnd2 as (_&Hdp&Hnd3).
  apply NoDup_cons in Hnd3 as [Hib Hnb].
  assert (Hpi : p <> i) by (intros ->; apply (Hdp i); by left).
  assert (Hmem : forall j, j ∈ h :: a ++ b -> j ∈ h :: a ++ i :: b).
  { intros j. rewrite !elem_of_cons, !elem_of_app, elem_of_cons. tauto. }
  split.
  - intros h' es' [[<- <-]|[Hne Hc0]]%lookup_insert_Some.
    + split; [done|]. apply Forall_app in Hes as [Hea Heb]. apply Forall_cons in Heb as [_ Heb].
      split; [apply Forall_app; by split|].
      change (h :: a ++ b) with ((h :: a) ++ b). rewrite Ha, <- app_assoc.
      apply seg_app in Hs as [Hs1 Hs2]. cbn [app seg hd] in Hs2. destruct Hs2 as (Hsp&_&Hsb).
      apply seg_app. split; [|cbn [app seg]; split].
      * eapply seg_agree; [|exact Hs1]. intros j Hj. apply Ho.
        -- intros ->. apply (Hda i Hj). right. by left.
        -- intros ->. apply (Hda p Hj). by left.
        -- destruct b as [|n b']; [by left|]. right. intros ->. apply (Hda n Hj). right. right. by left.
      * rewrite Hp'. congruence.
      * destruct b as [|n b']; [done|]. cbn [seg] in Hsb |- *. split; [by apply Hn'|].
        destruct Hsb as [_ Hsb]. eapply seg_agree; [|exact Hsb]. intros j Hj.
        apply NoDup_cons in Hnb as [Hnb _]. apply Ho.
        -- intros ->. apply Hib. by right.
        -- intros ->. apply (Hdp p ltac:(by left)). by do 2 right.
        -- right. by intros ->.
    + destruct (ck_head _ _ Hok _ _ Hc0) as (?&?&Hs'). split; [done|]. split; [done|].
      eapply seg_agree; [|exact Hs']. intros j Hj.
      assert (Hj' : j ∉ h :: a ++ i :: b).
      { intros Hin. by eapply (chain_other v ch h _ h'). }
      rewrite Hl in Hj'. apply Ho.
      * intros ->. apply Hj'. rewrite !elem_of_app. right. right. by left.
      * intros ->. apply Hj'. rewrite !elem_of_app. right. left. by left.
      * destruct b as [|n b']; [by left|]. right. intros ->. apply Hj'. rewrite !elem_of_app.
        right. right. right. by left.
  - intros j x Hj. assert (j <> i) by congruence.
    assert (exists y, v j = Some y) as [y Hy].
    { destruct (decide (j = p)) as [->|Hjp]; [by eexists|].
      destruct b as [|n b']; [rewrite Ho in Hj by (done || by left); by eexists|].
      destruct (decide (j = n)) as [->|Hjn]; [|rewrite Ho in Hj by (done || by right); by eexists].
      apply (chain_used v ch Hok h _ _ Hh). rewrite Hl, !elem_of_app. right. right. right. by left. }
    destruct (ck_cover _ _ Hok _ _ Hy) as (h'&es'&Hc0&Hin').
    destruct (decide (h' = h)) as [->|Hne].
    + exists h, (a ++ b). rewrite lookup_insert_eq. split; [done|].
      assert (es' = a ++ i :: b) as -> by congruence.
      rewrite !elem_of_cons, elem_of_app, elem_of_cons in Hin'. rewrite elem_of_cons, elem_of_app. tauto.
    + exists h', es'. by rewrite lookup_insert_ne.
Qed.

End Chains.

(** ** Counting the records of the expansion part *)

Definition tail_count (ch : gmap Z (list Z)) : Z := map_fold (fun _ es n => zlen es + n) 0 ch.

Lemma tail_count_insert ch h es : ch !! h = None -> tail_count (<[h := es]> ch) = zlen es + tail_count ch.
Proof. intros Hh. unfold tail_count. rewrite map_fold_insert_L; [done|intros; lia|done]. Qed.

Lemma tail_count_delete ch h es : ch !! h = Some es -> tail_count ch = zlen es + tail_count (delete h ch).
Proof.
  intros Hh. rewrite <- (tail_count_insert _ h) by apply lookup_delete_eq. by rewrite insert_delete_eq, insert_id.
Qed.

Lemma tail_count_update ch h es es' :
  ch !! h = Some es -> tail_count (<[h := es']> ch) = tail_count ch + zlen es' - zlen es.
Proof.
  intros Hh. rewrite <- insert_delete_eq, tail_count_insert by apply lookup_delete_eq.
  rewrite (tail_count_delete ch h es Hh). lia.
Qed.

(** The counters of a table with the lists [ch], as 16-bit words. *)
Definition counts_ok (ch : gmap Z (list Z)) (cur cur_expn : Z) : Prop :=
  cur = u16 (Z.of_nat (size ch)) /\ cur_expn = u16 (tail_count ch).

Lemma u16_add x y : u16 (u16 x + y) = u16 (x + y).
Proof. apply Zplus_mod_idemp_l. Qed.

Lemma counts_new ch h c e :
  ch !! h = None -> counts_ok ch c e -> counts_ok (<[h := []]> ch) (u16 (c + 1)) e.
Proof.
  intros Hh [-> ->]. split.
  - rewrite u16_add, map_size_insert_None by done. f_equal. lia.
  - by rewrite tail_count_insert.
Qed.

Lemma counts_remove_head ch h c e :
  ch !! h = Some [] -> counts_ok ch c e -> counts_ok (delete h ch) (u16 (c - 1)) e.
Proof.
  intros Hh [-> ->]. split.
  - replace (u16 _ - 1) with (u16 (Z.of_nat (size ch)) + - 1) by lia. rewrite u16_add. f_equal.
    rewrite (map_size_delete_Some h ch ltac:(by exists [])). pose proof (map_size_ne_0_lookup_2 ch h ltac:(by exists [])). lia.
  - by rewrite (tail_count_delete ch h [] Hh).
Qed.

Lemma counts_append ch h es i c e :
  ch !! h = Some es -> counts_ok ch c e -> counts_ok (<[h := es ++ [i]]> ch) c (u16 (e + 1)).
Proof.
  intros Hh [-> ->]. split.
  - by rewrite map_size_insert_Some.
  - rewrite u16_add, (tail_count_update ch h es) by done. rewrite zlen_app. change (zlen [i]) with 1. f_equal. lia.
Qed.

Lemma counts_remove ch h a i b c e :
  ch !! h = Some (a ++ i :: b) -> counts_ok ch c e -> counts_ok (<[h := a ++ b]> ch) c (u16 (e - 1)).
Proof.
  intros Hh [-> ->]. split.
  - by rewrite map_size_insert_Some.
  - replace (u16 (tail_count ch) - 1) with (u16 (tail_count ch) + - 1) by lia.
    rewrite u16_add, (tail_count_update ch h _ _ Hh). f_equal. unfold zlen. rewrite !length_app. cbn. lia.
Qed.
