(* ===== verification/IpaTable.v ===== *)
(** * The chained tables of the address-translation library

    [dataipa/ipanat/src/ipa_table.c]: a table is a base part, indexed by a hash,
    and an expansion part for the records that collide; the records of one hash
    value form a doubly linked list that starts in the base part.  The functions
    reach the records through the interface of callbacks that each kind of table
    supplies, here the class [ipa_table_entry_interface].

    The memory of a table is the list of its records; a pointer to a record is
    the record's index, and its address is computed where the code uses it.
    Field updates that the hardware has to see are not stored but collected as
    DMA commands. *)

From Stdlib Require Import Floats.SpecFloat.
From S2P Require Import Prelude.

Local Open Scope Z_scope.

(** ** Constants and macros of [ipa_table.h] *)

Definition IPA_TABLE_MAX_ENTRIES : Z := 5120.
Definition IPA_TABLE_INVALID_ENTRY : Z := 0.
Definition VALID_INDEX (idx : Z) : bool := negb (idx =? IPA_TABLE_INVALID_ENTRY).

Definition IPA_NAT_MEM_IN_DDR : Z := 0.
Definition IPA_NAT_MEM_IN_SRAM : Z := 1.
Definition IPA_NAT_MEM_IN_MAX : Z := 2.

Inductive ipa_table_dma_type :=
| IPA_NAT_BASE_TBL
| IPA_NAT_EXPN_TBL
| IPA_NAT_INDX_TBL
| IPA_NAT_INDEX_EXPN_TBL
| IPA_IPV6CT_BASE_TBL
| IPA_IPV6CT_EXPN_TBL.

#[export] Instance ipa_table_dma_type_eq_dec : EqDecision ipa_table_dma_type.
Proof. solve_decision. Defined.

Definition IPA_TABLE_TYPE_BITS : Z := 1.
Definition IPA_TABLE_TYPE_MASK : Z := 1.
Definition IPA_TABLE_INDX_MASK : Z := 4095.
Definition IPA_TABLE_TYPE_MEM_SHIFT : Z := 15.

Inductive dma_help_type := HELP_UPDATE_HEAD | HELP_UPDATE_ENTRY | HELP_DELETE_HEAD.

Inductive When2Callback := WHEN_SLOT_EMPTY | WHEN_SLOT_FILLED.

(** ** DMA commands

    The buffer of a command has room for a fixed number of entries; writing
    past it is a fault. *)

Record ipa_ioc_nat_dma_one := mkDmaOne {
  table_index : Z;
  base_addr : ipa_table_dma_type;
  dma_offset : Z;
  dma_data : Z;
}.

Record ipa_ioc_nat_dma_cmd := mkDmaCmd {
  dma_room : nat;
  dma : list ipa_ioc_nat_dma_one;
}.

#[export] Instance eta_dma_cmd : Eta ipa_ioc_nat_dma_cmd.
Proof. refine (mkEta _ (fun c => mkDmaCmd (dma_room c) (dma c)) _). by intros []. Defined.

Record ipa_table_dma_cmd_helper := mkHelper {
  offset : Z;
  table_type : ipa_table_dma_type;
  expn_table_type : ipa_table_dma_type;
  table_indx : Z;
}.

(** ** The callbacks of a kind of table

    [E] are the records, [U] the data of the user that is inserted.  A callback
    that reaches memory of its own may be out of its bounds, [None] here. *)

Class ipa_table_entry_interface (E U : Type) := {
  entry_zero : E;
  entry_is_valid : E -> bool;
  entry_get_next_index : E -> Z;
  entry_get_prev_index : E -> Z -> option (list Z) -> Z -> option Z;
  entry_set_prev_index : E -> Z -> Z -> option (list Z) -> Z -> option (E * option (list Z));
  entry_head_insert : E -> U -> option (Z * E * Z);
  entry_tail_insert : E -> U -> option (Z * E);
  entry_get_delete_head_dma_command_data : E -> E -> Z;
}.

(** ** The table *)

Record dma_helps := mkHelps {
  help_update_head : ipa_table_dma_cmd_helper;
  help_update_entry : ipa_table_dma_cmd_helper;
  help_delete_head : ipa_table_dma_cmd_helper;
}.

Definition dma_help (h : dma_helps) (t : dma_help_type) : ipa_table_dma_cmd_helper :=
  match t with
  | HELP_UPDATE_HEAD => help_update_head h
  | HELP_UPDATE_ENTRY => help_update_entry h
  | HELP_DELETE_HEAD => help_delete_head h
  end.

Record ipa_table (E : Type) := mkTable {
  nmi : Z;
  entry_size : Z;
  table_entries : Z;
  expn_table_entries : Z;
  tot_tbl_ents : Z;
  table_addr : Z;
  expn_table_addr : Z;
  cur_tbl_cnt : Z;
  cur_expn_tbl_cnt : Z;
  dma_help_of : option dma_helps;
  meta : option (list Z);
  meta_entry_size : Z;
  recs : list E;
}.
Arguments mkTable {E}.
Arguments nmi {E}.
Arguments entry_size {E}.
Arguments table_entries {E}.
Arguments expn_table_entries {E}.
Arguments tot_tbl_ents {E}.
Arguments table_addr {E}.
Arguments expn_table_addr {E}.
Arguments cur_tbl_cnt {E}.
Arguments cur_expn_tbl_cnt {E}.
Arguments dma_help_of {E}.
Arguments meta {E}.
Arguments meta_entry_size {E}.
Arguments recs {E}.

#[export] Instance eta_ipa_table {E} : Eta (ipa_table E).
Proof.
  refine (mkEta _ (fun t => mkTable (nmi t) (entry_size t) (table_entries t) (expn_table_entries t)
    (tot_tbl_ents t) (table_addr t) (expn_table_addr t) (cur_tbl_cnt t) (cur_expn_tbl_cnt t)
    (dma_help_of t) (meta t) (meta_entry_size t) (recs t)) _).
  by intros [].
Defined.

Record ipa_table_iterator := mkIterator {
  prev_index : Z;
  prev_entry : option Z;
  curr_index : Z;
  curr_entry : option Z;
  next_index : Z;
  next_entry : option Z;
}.

#[export] Instance eta_iterator : Eta ipa_table_iterator.
Proof.
  refine (mkEta _ (fun i => mkIterator (prev_index i) (prev_entry i) (curr_index i) (curr_entry i)
    (next_index i) (next_entry i)) _).
  by intros [].
Defined.

Definition zero_iterator : ipa_table_iterator := mkIterator 0 None 0 None 0 None.

(** The state a table operation works on: the table and the command. *)
Record tstate (E : Type) := mkT { tbl : ipa_table E; cmd : ipa_ioc_nat_dma_cmd }.
Arguments mkT {E}.
Arguments tbl {E}.
Arguments cmd {E}.

#[export] Instance eta_tstate {E} : Eta (tstate E).
Proof. refine (mkEta _ (fun s => mkT (tbl s) (cmd s)) _). by intros []. Defined.

(** ** Sizes

    The percentages are [float] variables initialised from [double] constants,
    and the products are truncated when they are passed as [uint16_t]. *)

Definition f64 : spec_float -> spec_float -> spec_float := SFmul 53 1024.
Definition f32 : spec_float -> spec_float -> spec_float := SFmul 24 128.
Definition f64_of_Z (n : Z) : spec_float := binary_normalize 53 1024 n 0 false.
Definition f32_of_Z (n : Z) : spec_float := binary_normalize 24 128 n 0 false.

(** The conversion of a [double] to a [float]. *)
Definition f32_of_f64 (f : spec_float) : spec_float :=
  match f with
  | S754_finite s m e => binary_normalize 24 128 (if s then - Z.pos m else Z.pos m) e s
  | _ => f
  end.

(** The conversion to an integer, towards zero. *)
Definition sf_trunc (f : spec_float) : Z :=
  match f with
  | S754_finite s m e =>
      let v := if 0 <=? e then Z.shiftl (Z.pos m) e else Z.shiftr (Z.pos m) (- e) in
      if s then - v else v
  | _ => 0
  end.

(** A decimal constant [n / d], rounded to [double]. *)
Definition f64_const (n d : Z) : spec_float := SFdiv 53 1024 (f64_of_Z n) (f64_of_Z d).

Definition IPA_BASE_TABLE_PERCENTAGE : spec_float := Eval cbv in f64_const 8 10.
Definition IPA_EXPANSION_TABLE_PERCENTAGE : spec_float := Eval cbv in f64_const 2 10.
Definition IPA_BASE_TABLE_PCNT_4SRAM : spec_float := Eval cbv in f64_const 1 1.
Definition IPA_EXPANSION_TABLE_PCNT_4SRAM : spec_float := Eval cbv in f64_const 43 100.

(** The loop doubles [curr] until [tmp] is 1; it runs once for each bit of
    [tmp] after the first. *)
Fixpoint power_loop (fuel : nat) (tmp prev curr : Z) : option (Z * Z) :=
  if tmp =? 1 then Some (prev, curr) else
  match fuel with
  | O => None
  | S fuel' => power_loop fuel' (Z.shiftr tmp 1) curr (u16 (Z.shiftl curr 1))
  end.

Definition Get2PowerTightUpperBound (num : Z) : option Z :=
  if num =? 0 then Some 2 else
  match power_loop 16 num 0 2 with
  | Some (prev, curr) => Some (if num =? prev then prev else curr)
  | None => None
  end.

Definition GetEvenTightUpperBound (num : Z) : Z :=
  if num =? 0 then 2 else if truthy (num mod 2) then num + 1 else num.

Section Table.
Context {E U : Type} `{EI : ipa_table_entry_interface E U}.

Definition ipa_table_init (nmi entry_size : Z) (meta : option (list Z)) (meta_entry_size : Z) : ipa_table E :=
  mkTable nmi entry_size 0 0 0 0 0 0 0 None meta meta_entry_size [].

Definition ipa_table_calculate_entries_num (number_of_entries nmi : Z) : M (ipa_table E) Z :=
  if IPA_TABLE_MAX_ENTRIES <? number_of_entries then mret (- EINVAL) else
  let '(btp, etp) :=
    if nmi =? IPA_NAT_MEM_IN_SRAM
    then (f32_of_f64 IPA_BASE_TABLE_PCNT_4SRAM, f32_of_f64 IPA_EXPANSION_TABLE_PCNT_4SRAM)
    else (f32_of_f64 IPA_BASE_TABLE_PERCENTAGE, f32_of_f64 IPA_EXPANSION_TABLE_PERCENTAGE) in
  base ← liftO Diverges (Get2PowerTightUpperBound (u16 (sf_trunc (f32 (f32_of_Z number_of_entries) btp))));
  let base := u16 base in
  let expn := u16 (GetEvenTightUpperBound (u16 (sf_trunc (f32 (f32_of_Z number_of_entries) etp)))) in
  modify (fun t => t <| tot_tbl_ents := u32 (base + expn) |>) ;;
  if IPA_TABLE_MAX_ENTRIES <? u32 (base + expn) then mret (- EINVAL) else
  modify (fun t => t <| table_entries := base |> <| expn_table_entries := expn |>) ;;
  mret 0.

Definition ipa_table_calculate_size (table : ipa_table E) : Z :=
  s32 (entry_size table * (table_entries table + expn_table_entries table)).

Definition ipa_table_calculate_addresses (base_addr : Z) : M (ipa_table E) Z :=
  modify (fun t => t <| table_addr := base_addr |>) ;;
  modify (fun t => t <| expn_table_addr := table_addr t + entry_size t * table_entries t |>) ;;
  gets (fun t => expn_table_addr t + entry_size t * expn_table_entries t).

(** ** Access to the records *)

Definition get_rec (i : Z) : M (tstate E) E := fun s =>
  liftO OutOfBounds (zget (recs (tbl s)) i) s.

Definition put_rec (i : Z) (e : E) : M (tstate E) unit := fun s =>
  match zset (recs (tbl s)) i e with
  | Some l => Done (tt, s <| tbl ::= fun t => t <| recs := l |> |>)
  | None => Fault OutOfBounds
  end.

(** The record behind a pointer that may be null. *)
Definition deref (p : option Z) : M (tstate E) E :=
  match p with
  | Some i => get_rec i
  | None => failM NullDeref
  end.

(** The address of a record, [GOTO_REC]. *)
Definition rec_addr (t : ipa_table E) (i : Z) : Z := table_addr t + i * entry_size t.

(** The bytes of both parts are cleared record by record. *)
Definition ipa_table_reset : M (tstate E) unit :=
  t ← gets tbl;
  forM (map Z.of_nat (seq 0 (Z.to_nat (table_entries t)))) (fun i => put_rec i entry_zero) ;;
  let start := (expn_table_addr t - table_addr t) / entry_size t in
  forM (map Z.of_nat (seq 0 (Z.to_nat (expn_table_entries t)))) (fun i => put_rec (start + i) entry_zero).

(** ** Handles *)

Definition MakeEntryHdl (t : ipa_table E) (tbl_entry : Z) : Z :=
  let entry_hdl :=
    if table_entries t <=? tbl_entry
    then Z.lor (u16 (Z.shiftl (u16 (tbl_entry - table_entries t)) IPA_TABLE_TYPE_BITS)) IPA_TABLE_TYPE_MASK
    else u16 (Z.shiftl tbl_entry IPA_TABLE_TYPE_BITS) in
  u16 (Z.lor entry_hdl (Z.shiftl (nmi t) IPA_TABLE_TYPE_MEM_SHIFT)).

(** [BREAK_RULE_HDL]: memory type, expansion bit and index. *)
Definition BREAK_RULE_HDL (t : ipa_table E) (hdl : Z) : Z * Z * Z :=
  let mt := Z.land (Z.shiftr hdl IPA_TABLE_TYPE_MEM_SHIFT) IPA_TABLE_TYPE_MASK in
  let iet := Z.land hdl IPA_TABLE_TYPE_MASK in
  let indx := Z.land (Z.shiftr hdl IPA_TABLE_TYPE_BITS) IPA_TABLE_INDX_MASK in
  (mt, iet, u16 (indx + if truthy iet then table_entries t else 0)).

Definition ipa_table_get_entry (entry_handle : Z) : M (tstate E) (Z + Z) :=
  t ← gets tbl;
  let '(_, _, rec_index) := BREAK_RULE_HDL t entry_handle in
  if tot_tbl_ents t <=? rec_index then mret (inl (- EINVAL)) else mret (inr rec_index).

Definition ipa_table_get_entry_by_index (rec_index : Z) : M (tstate E) (option Z) :=
  t ← gets tbl;
  if negb (truthy rec_index) || (tot_tbl_ents t <=? rec_index) then mret None else mret (Some rec_index).

(** ** DMA commands of a table *)

Definition ipa_table_dma_cmd_helper_init (table_indx : Z) (table_type expn_table_type : ipa_table_dma_type)
    (offset : Z) : ipa_table_dma_cmd_helper :=
  mkHelper offset table_type expn_table_type table_indx.

Definition ipa_table_dma_cmd_generate (h : ipa_table_dma_cmd_helper) (is_expn : bool)
    (entry_offset data : Z) : M (tstate E) unit := fun s =>
  let c := cmd s in
  if (length (dma c) <? dma_room c)%nat then
    let one := mkDmaOne (table_indx h) (if is_expn then expn_table_type h else table_type h)
                 (u32 (offset h + entry_offset)) data in
    Done (tt, s <| cmd := c <| dma ::= fun l => l ++ [one] |> |>)
  else Fault OutOfBounds.

Definition ipa_table_add_dma_cmd (help_type : dma_help_type) (rec_ptr : option Z) (rec_index data_for_entry : Z)
    : M (tstate E) Z :=
  t ← gets tbl;
  match rec_ptr with
  | None => mret (- EINVAL)
  | Some p =>
      if table_entries t + expn_table_entries t <=? rec_index then mret (- EINVAL) else
      let is_expn := table_entries t <=? rec_index in
      let entry_offset := u32 (rec_addr t p - if is_expn then expn_table_addr t else table_addr t) in
      h ← liftO NullDeref (dma_help_of t);
      ipa_table_dma_cmd_generate (dma_help h help_type) is_expn entry_offset data_for_entry ;;
      mret 0
  end.

(** ** Iterators *)

Definition ipa_table_iterator_init (entry index : Z) : M (tstate E) (Z * ipa_table_iterator) :=
  e ← get_rec entry;
  if negb (entry_is_valid e) then mret (- EINVAL, zero_iterator) else
  t ← gets tbl;
  prev ← liftO OutOfBounds (entry_get_prev_index e index (meta t) (table_entries t));
  let it := zero_iterator <| curr_entry := Some entry |> <| curr_index := index |>
              <| prev_index := prev |> <| next_index := entry_get_next_index e |> in
  p ← (if VALID_INDEX (prev_index it) then ipa_table_get_entry_by_index (prev_index it) else mret None);
  let it := it <| prev_entry := p |> in
  if VALID_INDEX (prev_index it) && bool_decide (p = None) then mret (- EPERM, it) else
  n ← (if VALID_INDEX (next_index it) then ipa_table_get_entry_by_index (next_index it) else mret None);
  let it := it <| next_entry := n |> in
  if VALID_INDEX (next_index it) && bool_decide (n = None) then mret (- EPERM, it) else
  mret (0, it).

Definition ipa_table_iterator_next (it : ipa_table_iterator) : M (tstate E) (Z * ipa_table_iterator) :=
  let it := it <| prev_entry := curr_entry it |> <| prev_index := curr_index it |>
               <| curr_entry := next_entry it |> <| curr_index := next_index it |> in
  e ← deref (curr_entry it);
  let it := it <| next_index := entry_get_next_index e |> in
  if negb (VALID_INDEX (next_index it)) then mret (0, it <| next_entry := None |>) else
  n ← ipa_table_get_entry_by_index (next_index it);
  mret (if bool_decide (n = None) then - EPERM else 0, it <| next_entry := n |>).

(** The walk to the last record of a list; a list with more records than the
    table has a cycle. *)
Fixpoint iterator_end_loop (fuel : nat) (index entry : Z) : M (tstate E) (bool * Z * Z) :=
  e ← get_rec entry;
  let next := entry_get_next_index e in
  if negb (VALID_INDEX next) then mret (true, index, entry) else
  if next =? index then mret (false, index, entry) else
  match fuel with
  | O => failM Diverges
  | S fuel' => iterator_end_loop fuel' next next
  end.

Definition ipa_table_iterator_end (rec_index rec_ptr : Z) : M (tstate E) (Z * ipa_table_iterator) :=
  t ← gets tbl;
  '(found_end, index, entry) ← iterator_end_loop (length (recs t)) rec_index rec_ptr;
  mret (if found_end : bool then 0 else - 1,
        zero_iterator <| prev_index := index |> <| prev_entry := Some entry |>).

Definition ipa_table_iterator_is_head_with_tail (it : ipa_table_iterator) : bool :=
  VALID_INDEX (next_index it) && negb (VALID_INDEX (prev_index it)).

(** ** Deletion *)

Definition ipa_table_create_delete_command (it : ipa_table_iterator) : M (tstate E) unit :=
  if negb (VALID_INDEX (prev_index it)) then
    (if VALID_INDEX (next_index it) then
       head ← deref (curr_entry it); next ← deref (next_entry it);
       ipa_table_add_dma_cmd HELP_DELETE_HEAD (curr_entry it) (curr_index it)
         (entry_get_delete_head_dma_command_data head next)
     else ipa_table_add_dma_cmd HELP_UPDATE_HEAD (curr_entry it) (curr_index it) 0) ;; mret tt
  else
    ipa_table_add_dma_cmd HELP_UPDATE_ENTRY (prev_entry it) (prev_index it) (next_index it) ;; mret tt.

Definition dec_tbl_cnt (s : tstate E) : tstate E :=
  s <| tbl ::= fun t => t <| cur_tbl_cnt ::= fun n => u16 (n - 1) |> |>.

Definition ipa_table_erase_entry (index : Z) : M (tstate E) unit :=
  put_rec index entry_zero ;;
  t ← gets tbl;
  if index <? table_entries t then modify dec_tbl_cnt
  else modify (fun s => s <| tbl ::= fun t => t <| cur_expn_tbl_cnt ::= fun n => u16 (n - 1) |> |>).

(** Sets the link back of a record, in the record or in the meta data. *)
Definition set_prev_index (p : option Z) (entry_index prev : Z) : M (tstate E) unit :=
  e ← deref p;
  t ← gets tbl;
  '(e', meta') ← liftO OutOfBounds (entry_set_prev_index e entry_index prev (meta t) (table_entries t));
  match p with Some i => put_rec i e' | None => mret tt end ;;
  modify (fun s => s <| tbl ::= fun t => t <| meta := meta' |> |>).

Definition ipa_table_delete_entry (it : ipa_table_iterator) (is_prev_empty : bool) : M (tstate E) unit :=
  (if VALID_INDEX (next_index it) then
     set_prev_index (next_entry it) (next_index it) (prev_index it)
   else if is_prev_empty then
     match prev_entry it with
     | None => mret tt
     | Some p => put_rec p entry_zero ;; modify dec_tbl_cnt
     end
   else mret tt) ;;
  ipa_table_erase_entry (curr_index it).

End Table.

(** ** Walking a table

    The callback gets the handle, the record, its index and the index of its
    meta data, and works on any state that contains the table. *)

Section Walk.
Context {E U : Type} `{EI : ipa_table_entry_interface E U}.
Context {St : Type} (table : St -> ipa_table E).

Definition ipa_table_walk_cb : Type := Z -> Z -> Z -> option Z -> M St Z.

Fixpoint walk_loop (fuel : nat) (i rec_ptr tot : Z) (when2cb : When2Callback) (walk_cb : ipa_table_walk_cb)
    : M St Z :=
  if negb (i <? tot) then mret 0 else
  match fuel with
  | O => failM Diverges
  | S fuel' =>
      t ← gets table;
      e ← liftO OutOfBounds (zget (recs t) rec_ptr);
      let call_back := match when2cb with
                       | WHEN_SLOT_FILLED => entry_is_valid e
                       | WHEN_SLOT_EMPTY => negb (entry_is_valid e)
                       end in
      let meta_record := if (table_entries t <=? i) && bool_decide (meta t <> None)
                         then Some (i - table_entries t) else None in
      ret ← (if call_back then walk_cb (MakeEntryHdl t i) rec_ptr i meta_record else mret 0);
      if truthy ret then mret ret
      else walk_loop fuel' (u16 (i + 1)) (rec_ptr + 1) tot when2cb walk_cb
  end.

Definition ipa_table_walk (start_index : Z) (when2cb : When2Callback) (walk_cb : ipa_table_walk_cb) : M St Z :=
  t ← gets table;
  let tot := table_entries t + expn_table_entries t in
  if tot <=? start_index then mret (- EINVAL)
  else walk_loop (Z.to_nat tot) start_index start_index tot when2cb walk_cb.

End Walk.

(** ** Insertion *)

Section Insert.
Context {E U : Type} `{EI : ipa_table_entry_interface E U}.

(** The callback that stops at the first empty slot. *)
Definition mt_slot : ipa_table_walk_cb (St := tstate E) := fun _ _ record_index _ => mret record_index.

Definition FindExpnTblFreeEntry : M (tstate E) (Z * option Z * Z) :=
  t ← gets tbl;
  ret ← ipa_table_walk tbl (table_entries t) WHEN_SLOT_EMPTY mt_slot;
  if 0 <? ret then mret (0, Some (u16 ret), u16 ret) else mret (- 1, None, 0).

Definition InsertHead (rec_ptr rec_index : Z) (user_data : U) : M (tstate E) Z :=
  e ← get_rec rec_ptr;
  '(ret, e', enable_data) ← liftO OutOfBounds (entry_head_insert e user_data);
  put_rec rec_ptr e' ;;
  if truthy ret then mret ret else
  ipa_table_add_dma_cmd HELP_UPDATE_HEAD (Some rec_ptr) rec_index enable_data ;;
  modify (fun s => s <| tbl ::= fun t => t <| cur_tbl_cnt ::= fun n => u16 (n + 1) |> |>) ;;
  mret 0.

(** The return value and the index of the new record. *)
Definition InsertTail (rec_ptr rec_index : Z) (user_data : U) : M (tstate E) (Z * Z) :=
  t ← gets tbl;
  let is_index_tbl := bool_decide (meta t <> None) in
  '(ret, it) ← ipa_table_iterator_end rec_index rec_ptr;
  if truthy ret then mret (ret, rec_index) else
  '(ret, free_entry, free_index) ← FindExpnTblFreeEntry;
  let it := it <| curr_entry := free_entry |> <| curr_index := free_index |> in
  if truthy ret then mret (ret, rec_index) else
  e ← deref (curr_entry it);
  '(ret, e', enable_data) ← liftO OutOfBounds
    (if is_index_tbl then r ← entry_tail_insert e user_data; Some (r.1, r.2, 0)
     else entry_head_insert e user_data);
  match curr_entry it with Some p => put_rec p e' | None => mret tt end ;;
  if truthy ret then mret (ret, rec_index) else
  set_prev_index (curr_entry it) (curr_index it) (prev_index it) ;;
  (if is_index_tbl then mret 0
   else ipa_table_add_dma_cmd HELP_UPDATE_HEAD (curr_entry it) (curr_index it) enable_data) ;;
  ipa_table_add_dma_cmd HELP_UPDATE_ENTRY (prev_entry it) (prev_index it) (curr_index it) ;;
  modify (fun s => s <| tbl ::= fun t => t <| cur_expn_tbl_cnt ::= fun n => u16 (n + 1) |> |>) ;;
  mret (0, curr_index it).

(** The return value, the index of the new record and its handle. *)
Definition ipa_table_add_entry (user_data : U) (rec_index : Z) : M (tstate E) (Z * Z * Z) :=
  e ← get_rec rec_index;
  '(ret, rec_index') ←
    (if negb (entry_is_valid e) then ret ← InsertHead rec_index rec_index user_data; mret (ret, rec_index)
     else InsertTail rec_index rec_index user_data);
  if truthy ret then mret (ret, rec_index', 0) else
  t ← gets tbl;
  mret (0, rec_index', MakeEntryHdl t rec_index').

End Insert.

(** ** The number of entries that fit into the on-chip memory *)

Definition sram_size_of (table1_ent_size table2_ent_size tot : Z) : option Z :=
  base ← Get2PowerTightUpperBound (u16 (sf_trunc (f64 (f64_of_Z tot) IPA_BASE_TABLE_PCNT_4SRAM)));
  let expn := u16 (GetEvenTightUpperBound (u16 (sf_trunc (f64 (f64_of_Z tot) IPA_EXPANSION_TABLE_PCNT_4SRAM)))) in
  let tmp entry_size : ipa_table unit :=
    (ipa_table_init IPA_NAT_MEM_IN_DDR (s32 entry_size) None 0)
      <| table_entries := u16 base |> <| expn_table_entries := expn |> in
  Some (s32 (ipa_table_calculate_size (tmp table1_ent_size) + ipa_table_calculate_size (tmp table2_ent_size))).

(** The loop tries one entry more until the tables do not fit; [None] when it
    does not end. *)
Fixpoint sram_loop (fuel : nat) (sram_size table1_ent_size table2_ent_size tot num_entries : Z) : option Z :=
  match fuel with
  | O => None
  | S fuel' =>
      size ← sram_size_of table1_ent_size table2_ent_size tot;
      if sram_size <? u32 size then Some num_entries
      else sram_loop fuel' sram_size table1_ent_size table2_ent_size (u16 (tot + 1)) tot
  end.

Definition ipa_calc_num_sram_table_entries (sram_size table1_ent_size table2_ent_size : Z) : option (Z * Z) :=
  n ← sram_loop (Z.to_nat (2 ^ 16)) sram_size table1_ent_size table2_ent_size 1 0;
  Some (if truthy n then 0 else - 1, n).
