(* ===== verification/IpaTableSpec.v ===== *)
(** * What the table operations do

    The contract between the tables and their callbacks ([ipa_entry_laws]), the
    well-formedness of a table ([table_ok]), and the run of each operation of
    [ipa_table.c] on a well-formed table: which record it changes, which
    commands it leaves for the hardware, what it returns. *)

From stdpp Require Import gmap.
From S2P Require Import Prelude IpaChain IpaTable.

Local Open Scope Z_scope.

(** ** The contract of the callbacks

    [meta_ok m base expn] says that the meta data fit a table with [base] and
    [expn] records.  Links back are set for records of the expansion part. *)
Class ipa_entry_laws (E U : Type) `{EI : ipa_table_entry_interface E U} := {
  meta_ok : option (list Z) -> Z -> Z -> Prop;
  law_zero : entry_is_valid entry_zero = false;
  law_get : forall m base expn e i, meta_ok m base expn -> 0 <= i < base + expn ->
    exists p, entry_get_prev_index e i m base = Some p;
  law_set : forall m base expn e i p, meta_ok m base expn -> 0 < base <= i -> i < base + expn ->
    exists e' m', entry_set_prev_index e i p m base = Some (e', m') /\
      meta_ok m' base expn /\
      entry_is_valid e' = entry_is_valid e /\ entry_get_next_index e' = entry_get_next_index e /\
      entry_get_prev_index e' i m' base = Some p /\
      forall j e2, j <> i -> entry_get_prev_index e2 j m' base = entry_get_prev_index e2 j m base;
}.

Section Spec.
Context {E U : Type} `{EL : ipa_entry_laws E U}.
Implicit Types (t : ipa_table E) (c : ipa_ioc_nat_dma_cmd) (e : E).

(** The links of the records in use. *)
Definition view_of t : links := fun i =>
  e ← zget (recs t) i;
  if entry_is_valid e then
    p ← entry_get_prev_index e i (meta t) (table_entries t); Some (entry_get_next_index e, p)
  else None.

(** Both parts lie one after the other, and indexes fit a handle. *)
Record dims (size : Z) t : Prop := {
  geo_size : entry_size t = size;
  geo_pos : 0 < size <= 64;
  geo_base : 2 <= table_entries t <= 4096;
  geo_expn : 0 < expn_table_entries t <= 4096;
  geo_tot : tot_tbl_ents t = table_entries t + expn_table_entries t;
  geo_addr : expn_table_addr t = table_addr t + size * table_entries t;
  geo_recs : zlen (recs t) = table_entries t + expn_table_entries t;
}.

Record geometry (size : Z) t : Prop := {
  geo_dims :> dims size t;
  geo_meta : meta_ok (meta t) (table_entries t) (expn_table_entries t);
}.

(** The records form the lists [ch], the counters count them, and the records
    that are not in use are blank. *)
Record table_ok (size : Z) t (ch : gmap Z (list Z)) : Prop := {
  tk_geo : geometry size t;
  tk_chains : chains_ok (table_entries t) (table_entries t + expn_table_entries t) (view_of t) ch;
  tk_counts : counts_ok ch (cur_tbl_cnt t) (cur_expn_tbl_cnt t);
  tk_blank : forall i e, zget (recs t) i = Some e -> entry_is_valid e = false -> e = entry_zero;
}.

(** ** Views and records *)

Section Views.
Context {size : Z} {t : ipa_table E} (Hg : geometry size t).
Abbreviation tot := (table_entries t + expn_table_entries t).

Lemma rec_at i : 0 <= i < tot -> exists e, zget (recs t) i = Some e.
Proof using Hg. intros Hi. apply zget_is_Some. by rewrite (geo_recs _ _ Hg). Qed.

Lemma rec_range i e : zget (recs t) i = Some e -> 0 <= i < tot.
Proof using Hg. intros H%zget_Some. by rewrite (geo_recs _ _ Hg) in H. Qed.

Lemma view_valid i e :
  zget (recs t) i = Some e -> entry_is_valid e = true ->
  exists p, entry_get_prev_index e i (meta t) (table_entries t) = Some p /\
    view_of t i = Some (entry_get_next_index e, p).
Proof using Hg.
  intros Hi Hv. destruct (law_get _ _ _ e i (geo_meta _ _ Hg) (rec_range _ _ Hi)) as [p Hp].
  exists p. split; [done|]. unfold view_of. by rewrite Hi; cbn; rewrite Hv, Hp.
Qed.

Lemma view_invalid i e : zget (recs t) i = Some e -> entry_is_valid e = false -> view_of t i = None.
Proof using Type. intros Hi Hv. unfold view_of. by rewrite Hi; cbn; rewrite Hv. Qed.

Lemma view_Some i n p :
  view_of t i = Some (n, p) ->
  exists e, zget (recs t) i = Some e /\ entry_is_valid e = true /\ entry_get_next_index e = n /\
    entry_get_prev_index e i (meta t) (table_entries t) = Some p.
Proof using Type.
  unfold view_of. destruct (zget (recs t) i) as [e|]; cbn; [|done].
  destruct (entry_is_valid e) eqn:Hv; [|done].
  destruct (entry_get_prev_index e i _ _) as [p'|] eqn:Hp; cbn; [|done]. intros [= <- <-]. by exists e.
Qed.

Lemma view_None i e : zget (recs t) i = Some e -> view_of t i = None -> entry_is_valid e = false.
Proof using Hg.
  intros Hi Hn. destruct (entry_is_valid e) eqn:Hv; [|done].
  destruct (view_valid i e Hi Hv) as (p&_&Hs). congruence.
Qed.

End Views.

(** ** Access to the records *)

Lemma get_rec_then {B} t c i e (k : E -> M (tstate E) B) :
  zget (recs t) i = Some e -> (get_rec i ≫= k) (mkT t c) = k e (mkT t c).
Proof using Type. intros H. unfold get_rec, mbind, M_bind. cbn. by rewrite H. Qed.

Definition set_rec i e t : ipa_table E := t <| recs := <[Z.to_nat i := e]> (recs t) |>.

Lemma put_rec_then {B} t c i e (k : unit -> M (tstate E) B) :
  0 <= i < zlen (recs t) -> (put_rec i e ≫= k) (mkT t c) = k tt (mkT (set_rec i e t) c).
Proof using Type. intros H. unfold put_rec, mbind, M_bind. cbn. by rewrite zset_in. Qed.

Lemma set_rec_eq i e t : 0 <= i < zlen (recs t) -> zget (recs (set_rec i e t)) i = Some e.
Proof using Type. apply zget_insert_eq. Qed.

Lemma set_rec_ne i e t j : 0 <= i -> j <> i -> zget (recs (set_rec i e t)) j = zget (recs t) j.
Proof using Type. intros Hi Hne. by apply zget_insert_ne. Qed.

Lemma set_rec_dims size i e t : dims size t -> dims size (set_rec i e t).
Proof using Type. intros []. split; try done. cbn. by rewrite zlen_insert. Qed.

(** ** The walk to the end of a list *)

Section Chain.
Context {size : Z} {t : ipa_table E} {ch : gmap Z (list Z)} (Ht : table_ok size t ch) (c : ipa_ioc_nat_dma_cmd).
Abbreviation base := (table_entries t).
Abbreviation tot := (table_entries t + expn_table_entries t).

Lemma chain_range h es i : ch !! h = Some es -> i ∈ h :: es -> 1 <= i < tot.
Proof using Ht.
  intros Hh Hi. destruct (ck_head _ _ _ _ (tk_chains _ _ _ Ht) h es Hh) as (Hb&Hes&_).
  pose proof (geo_expn _ _ (tk_geo _ _ _ Ht)). pose proof (geo_base _ _ (tk_geo _ _ _ Ht)).
  apply elem_of_cons in Hi as [->|Hi]; [lia|]. pose proof (proj1 (list.Forall_forall _ _) Hes i Hi) as Hr.
  cbn in Hr. lia.
Qed.

Lemma iterator_end_loop_run fuel i l p :
  seg (view_of t) p (i :: l) 0 -> NoDup (i :: l) -> (forall j, j ∈ i :: l -> 1 <= j) ->
  (length l <= fuel)%nat ->
  iterator_end_loop fuel i i (mkT t c) = Done ((true, last_of i l, last_of i l), mkT t c).
Proof using Type.
  revert fuel i p. induction l as [|j l IH]; intros fuel i p Hs Hnd Hge Hf.
  - destruct Hs as [Hi _]. destruct (view_Some _ _ _ Hi) as (e&He&_&Hn&_).
    destruct fuel; cbn [iterator_end_loop]; rewrite (get_rec_then t c i e) by done; by rewrite Hn.
  - destruct Hs as [Hi Hs]. destruct (view_Some _ _ _ Hi) as (e&He&_&Hn&_). cbn [hd] in Hn.
    destruct fuel as [|fuel]; [cbn in Hf; lia|]. cbn [iterator_end_loop].
    rewrite (get_rec_then t c i e) by done. rewrite Hn. apply NoDup_cons in Hnd as [Hij Hnd].
    assert (1 <= j) by (apply Hge; right; by left). unfold VALID_INDEX, IPA_TABLE_INVALID_ENTRY.
    destruct (Z.eqb_spec j 0); [lia|]. destruct (Z.eqb_spec j i) as [->|_]; [exfalso; apply Hij; by left|].
    cbn [negb]. rewrite (IH fuel j i Hs Hnd); [done| |cbn in Hf; lia]. intros k Hk. apply Hge. by right.
Qed.

Lemma chain_length h es : ch !! h = Some es -> (length es <= length (recs t))%nat.
Proof using Ht.
  intros Hh. pose proof (chain_NoDup _ _ _ _ (tk_chains _ _ _ Ht) h es Hh) as Hnd.
  assert (Hsub : h :: es ⊆+ seqZ 0 tot).
  { apply NoDup_submseteq; [done|]. intros i Hi. apply elem_of_seqZ. pose proof (chain_range _ _ _ Hh Hi). lia. }
  apply submseteq_length in Hsub. rewrite length_seqZ in Hsub. cbn in Hsub.
  pose proof (geo_recs _ _ (tk_geo _ _ _ Ht)) as Hl. unfold zlen in Hl. lia.
Qed.

Lemma iterator_end_run h es :
  ch !! h = Some es ->
  ipa_table_iterator_end h h (mkT t c)
  = Done ((0, zero_iterator <| prev_index := last_of h es |> <| prev_entry := Some (last_of h es) |>), mkT t c).
Proof using Ht.
  intros Hh. unfold ipa_table_iterator_end. cbn [gets]. unfold mbind at 1, M_bind at 1. cbn [gets].
  destruct (ck_head _ _ _ _ (tk_chains _ _ _ Ht) h es Hh) as (Hb&Hes&Hs).
  rewrite (bind_run _ _ _ _ _ (iterator_end_loop_run (length (recs t)) h es 0 Hs
    (chain_NoDup _ _ _ _ (tk_chains _ _ _ Ht) h es Hh)
    (fun j Hj => proj1 (chain_range h es j Hh Hj)) (chain_length h es Hh))). done.
Qed.

Lemma chain_or_free h : 1 <= h < base -> view_of t h = None \/ exists es, ch !! h = Some es.
Proof using Ht.
  intros Hh. destruct (view_of t h) as [x|] eqn:Hv; [right|by left].
  destruct (ck_cover _ _ _ _ (tk_chains _ _ _ Ht) h x Hv) as (h'&es&Hes&Hin).
  destruct (ck_head _ _ _ _ (tk_chains _ _ _ Ht) h' es Hes) as (_&Hge&_).
  apply elem_of_cons in Hin as [->|Hin]; [by exists es|].
  pose proof (proj1 (list.Forall_forall _ _) Hge h Hin) as Hr. cbn in Hr. lia.
Qed.

Lemma chain_last h es : ch !! h = Some es -> exists p, view_of t (last_of h es) = Some (0, p).
Proof using Ht.
  intros Hes. destruct (ck_head _ _ _ _ (tk_chains _ _ _ Ht) h es Hes) as (_&_&Hs).
  destruct (snoc_last h es) as [a Ha]. rewrite Ha in Hs.
  apply seg_app in Hs as [_ [Hs _]]. by eexists.
Qed.

Lemma head_valid h es : ch !! h = Some es -> exists e, zget (recs t) h = Some e /\ entry_is_valid e = true.
Proof using Ht.
  intros Hes. destruct (chain_used _ _ _ _ (tk_chains _ _ _ Ht) h es h Hes ltac:(by left)) as [[n p] Hv].
  destruct (view_Some _ _ _ Hv) as (e&He&Hval&_). by exists e.
Qed.

End Chain.

(** ** The search for an empty slot *)

Lemma gets_then {B} t c (k : ipa_table E -> M (tstate E) B) : (gets tbl ≫= k) (mkT t c) = k t (mkT t c).
Proof using Type. done. Qed.

Section Search.
Context {size : Z} {t : ipa_table E} (Hg : geometry size t) (c : ipa_ioc_nat_dma_cmd).
Abbreviation base := (table_entries t).
Abbreviation tot := (table_entries t + expn_table_entries t).

Definition filled (i : Z) : Prop := exists x, view_of t i = Some x.

Lemma walk_empty n : forall i fuel,
  i + Z.of_nat n = tot -> 1 <= i -> (n <= fuel)%nat ->
  exists r, walk_loop tbl fuel i i tot WHEN_SLOT_EMPTY mt_slot (mkT t c) = Done (r, mkT t c) /\
    ((i <= r < tot /\ view_of t r = None /\ forall j, i <= j < r -> filled j)
     \/ (r = 0 /\ forall j, i <= j < tot -> filled j)).
Proof using Hg.
  induction n as [|n IH]; intros i fuel Hi Hpos Hf.
  - exists 0. destruct fuel; cbn [walk_loop]; (replace (i <? tot) with false by lia); cbn [negb];
      (split; [done|]; right; split; [done|]; intros; lia).
  - destruct fuel as [|fuel]; [lia|]. cbn [walk_loop]. replace (i <? tot) with true by lia. cbn [negb].
    rewrite gets_then. destruct (rec_at Hg i ltac:(lia)) as [e He].
    rewrite (liftO_run _ _ _ _ e) by done. cbv zeta.
    pose proof (geo_base _ _ Hg). pose proof (geo_expn _ _ Hg).
    destruct (entry_is_valid e) eqn:Hv; cbn [negb].
    + rewrite ret_run. change (truthy 0) with false. cbn iota.
      rewrite wrap_small by (unfold is_word; lia).
      destruct (IH (i + 1) fuel) as (r&Hr&Hcase); [lia..|]. exists r. split; [exact Hr|].
      assert (Hfi : filled i) by (destruct (view_valid Hg i e He Hv) as (p&_&Hs); by eexists).
      destruct Hcase as [(Hrange&Hn&Hall)|[-> Hall]].
      * left. split; [lia|]. split; [done|]. intros j Hj. destruct (decide (j = i)) as [->|]; [done|].
        apply Hall. lia.
      * right. split; [done|]. intros j Hj. destruct (decide (j = i)) as [->|]; [done|]. apply Hall. lia.
    + exists i. unfold mt_slot. rewrite ret_run. replace (truthy i) with true by (symmetry; apply truthy_true; lia).
      split; [done|]. left. split; [lia|]. split; [by eapply view_invalid|]. intros; lia.
Qed.

(** The first empty slot of the expansion part, or none is left. *)
Lemma find_empty :
  (exists r, base <= r < tot /\ view_of t r = None /\ (forall j, base <= j < r -> filled j) /\
     FindExpnTblFreeEntry (mkT t c) = Done ((0, Some r, r), mkT t c))
  \/ ((forall j, base <= j < tot -> filled j) /\
      FindExpnTblFreeEntry (mkT t c) = Done ((- 1, None, 0), mkT t c)).
Proof using Hg.
  pose proof (geo_base _ _ Hg). pose proof (geo_expn _ _ Hg).
  destruct (walk_empty (Z.to_nat (expn_table_entries t)) base (Z.to_nat tot)) as (r&Hr&Hcase); [lia..|].
  assert (Hw : ipa_table_walk tbl base WHEN_SLOT_EMPTY mt_slot (mkT t c) = Done (r, mkT t c)).
  { unfold ipa_table_walk. rewrite gets_then. cbv zeta. by replace (tot <=? base) with false by lia. }
  unfold FindExpnTblFreeEntry. rewrite gets_then.
  destruct Hcase as [(Hrange&Hn&Hall)|[-> Hall]]; [left|right; split; [done|]].
  - exists r. split; [done|]. split; [done|]. split; [done|]. rewrite (bind_run _ _ _ _ _ Hw).
    replace (0 <? r) with true by lia. by rewrite wrap_small by (unfold is_word; lia).
  - by rewrite (bind_run _ _ _ _ _ Hw).
Qed.

End Search.

(** ** Commands *)

Definition push_dma (one : ipa_ioc_nat_dma_one) c : ipa_ioc_nat_dma_cmd := c <| dma ::= fun l => l ++ [one] |>.

(** The command that changes a field of the record [i]. *)
Definition field_cmd t (hs : dma_helps) (ht : dma_help_type) (i data : Z) : ipa_ioc_nat_dma_one :=
  let h := dma_help hs ht in
  let is_expn := table_entries t <=? i in
  mkDmaOne (table_indx h) (if is_expn then expn_table_type h else table_type h)
    (u32 (offset h + entry_size t * (if is_expn then i - table_entries t else i))) data.

Lemma length_push one c : length (dma (push_dma one c)) = S (length (dma c)).
Proof using Type. unfold push_dma. cbn. rewrite length_app. cbn. lia. Qed.

Lemma room_push one c : dma_room (push_dma one c) = dma_room c.
Proof using Type. done. Qed.

Lemma add_dma_run size t hs c ht i data :
  dims size t -> dma_help_of t = Some hs -> 0 <= i < table_entries t + expn_table_entries t ->
  (length (dma c) < dma_room c)%nat ->
  ipa_table_add_dma_cmd ht (Some i) i data (mkT t c) = Done (0, mkT t (push_dma (field_cmd t hs ht i data) c)).
Proof using Type.
  intros Hg Hhs Hi Hroom. unfold ipa_table_add_dma_cmd. rewrite gets_then.
  replace (_ <=? i) with false by lia. cbv zeta. rewrite (liftO_run _ _ _ _ hs) by done.
  pose proof (geo_base _ _ Hg). pose proof (geo_expn _ _ Hg). pose proof (geo_pos _ _ Hg).
  rewrite (bind_run _ _ _ tt (mkT t (push_dma (field_cmd t hs ht i data) c))); [done|].
  unfold ipa_table_dma_cmd_generate. cbn [cmd]. destruct (Nat.ltb_spec (length (dma c)) (dma_room c)); [|lia].
  unfold rec_addr. rewrite (geo_addr _ _ Hg). unfold field_cmd.
  rewrite (geo_size _ _ Hg).
  destruct (table_entries t <=? i) eqn:Hb.
  - replace (u32 (table_addr t + i * size - _)) with (size * (i - table_entries t)); [done|].
    rewrite wrap_small; [lia|]. unfold is_word. nia.
  - replace (u32 (table_addr t + i * size - _)) with (size * i); [done|].
    rewrite wrap_small; [lia|]. unfold is_word. nia.
Qed.

(** ** Insertion *)

(** The table with a new head, and with a new record at the end of a list. *)
Definition head_state (h : Z) e t : ipa_table E := (set_rec h e t) <| cur_tbl_cnt ::= fun n => u16 (n + 1) |>.

Definition tail_state (r : Z) e (m : option (list Z)) t : ipa_table E :=
  (set_rec r e t) <| meta := m |> <| cur_expn_tbl_cnt ::= fun n => u16 (n + 1) |>.

Section Add.
Context {size : Z} {t : ipa_table E} {ch : gmap Z (list Z)} (Ht : table_ok size t ch).
Context (c : ipa_ioc_nat_dma_cmd) (hs : dma_helps) (u : U) (h : Z) (eh et : E) (data : Z).
Abbreviation base := (table_entries t).
Abbreviation tot := (table_entries t + expn_table_entries t).
Context (Hh : 1 <= h < base) (Hhs : dma_help_of t = Some hs).
Context (Hroom : (length (dma c) + 2 <= dma_room c)%nat).
Context (Hhead : entry_head_insert entry_zero u = Some (0, eh, data)).
Context (Htail : entry_tail_insert entry_zero u = Some (0, et)).

Abbreviation is_index := (bool_decide (meta t <> None)).
(** The record that is appended, before it is linked, and the commands. *)
Definition new_tail : E := if is_index then et else eh.
Definition tail_cmds (last r : Z) : ipa_ioc_nat_dma_cmd :=
  push_dma (field_cmd t hs HELP_UPDATE_ENTRY last r)
    (if is_index then c else push_dma (field_cmd t hs HELP_UPDATE_HEAD r data) c).

Lemma blank_record i : 0 <= i < tot -> view_of t i = None -> zget (recs t) i = Some entry_zero.
Proof using Ht.
  intros Hi Hn. destruct (rec_at (tk_geo _ _ _ Ht) i Hi) as [e He].
  rewrite He. f_equal. eapply (tk_blank _ _ _ Ht); [exact He|]. by eapply (view_None (tk_geo _ _ _ Ht)).
Qed.

Lemma insert_head_run :
  view_of t h = None ->
  InsertHead h h u (mkT t c) = Done (0, mkT (head_state h eh t) (push_dma (field_cmd t hs HELP_UPDATE_HEAD h data) c)).
Proof using Ht Hh Hhs Hroom Hhead.
  intros Hn. pose proof (tk_geo _ _ _ Ht) as Hg. pose proof (geo_expn _ _ Hg).
  unfold InsertHead. rewrite (get_rec_then t c h entry_zero) by (apply blank_record; [lia|done]).
  rewrite (liftO_run _ _ _ _ _ Hhead). rewrite put_rec_then by (rewrite (geo_recs _ _ Hg); lia).
  change (truthy 0) with false. cbn iota.
  rewrite (bind_run _ _ _ _ _ (add_dma_run size (set_rec h eh t) hs c HELP_UPDATE_HEAD h data
    (set_rec_dims _ _ _ _ Hg) Hhs ltac:(change (table_entries (set_rec h eh t)) with base;
      change (expn_table_entries (set_rec h eh t)) with (expn_table_entries t); lia) ltac:(lia))).
  done.
Qed.

Lemma set_prev_run {B} t' c' i e e' m p (k : unit -> M (tstate E) B) :
  zget (recs t') i = Some e -> entry_set_prev_index e i p (meta t') (table_entries t') = Some (e', m) ->
  (set_prev_index (Some i) i p ≫= k) (mkT t' c') = k tt (mkT ((set_rec i e' t') <| meta := m |>) c').
Proof using Type.
  intros Hi Hset. pose proof (zget_Some _ _ _ Hi) as Hr. apply bind_run. unfold set_prev_index. cbn [deref].
  rewrite (get_rec_then t' c' i e), gets_then by done. rewrite (liftO_run _ _ _ _ _ Hset).
  by rewrite put_rec_then.
Qed.

Lemma set_rec_twice i e e' t' : set_rec i e' (set_rec i e t') = set_rec i e' t'.
Proof using Type. unfold set_rec, upd. cbn. by rewrite list_insert_insert_eq. Qed.

Lemma insert_tail_run es r e2 m2 :
  ch !! h = Some es -> base <= r < tot -> view_of t r = None ->
  FindExpnTblFreeEntry (mkT t c) = Done ((0, Some r, r), mkT t c) ->
  entry_set_prev_index new_tail r (last_of h es) (meta t) base = Some (e2, m2) ->
  InsertTail h h u (mkT t c) = Done ((0, r), mkT (tail_state r e2 m2 t) (tail_cmds (last_of h es) r)).
Proof using Ht Hh Hhs Hroom Hhead Htail.
  intros Hes Hr Hn Hfind Hset. pose proof (tk_geo _ _ _ Ht) as Hg. pose proof (geo_base _ _ Hg).
  assert (Hlast : 0 <= last_of h es < tot).
  { cut (1 <= last_of h es < tot); [lia|]. apply (chain_range Ht h es); [done|]. destruct (last_of_in h es) as [->|Hin]; [by left|by right]. }
  unfold InsertTail. rewrite gets_then. cbv zeta.
  rewrite (bind_run _ _ _ _ _ (iterator_end_run Ht c h es Hes)). change (truthy 0) with false. cbn iota.
  rewrite (bind_run _ _ _ _ _ Hfind). change (truthy 0) with false. cbn iota.
  set (it := _ <| curr_index := r |>). change (curr_entry it) with (Some r). change (curr_index it) with r.
  change (prev_index it) with (last_of h es). change (prev_entry it) with (Some (last_of h es)). clear it.
  cbn [deref]. rewrite (get_rec_then t c r entry_zero) by (apply blank_record; [lia|done]).
  assert (Hr' : 0 <= r < zlen (recs t)) by (rewrite (geo_recs _ _ Hg); lia).
  assert (Hins : (if is_index then rr ← entry_tail_insert entry_zero u; Some (rr.1, rr.2, 0)
                  else entry_head_insert entry_zero u) = Some (0, new_tail, if is_index then 0 else data)).
  { unfold new_tail. destruct is_index; [by rewrite Htail|done]. }
  rewrite (liftO_run _ _ _ _ _ Hins). rewrite put_rec_then by done. change (truthy 0) with false. cbn iota.
  rewrite (set_prev_run (set_rec r new_tail t) c r new_tail e2 m2) by (done || by apply set_rec_eq).
  rewrite set_rec_twice. set (t1 := (set_rec r e2 t) <| meta := m2 |>).
  assert (Hg1 : dims size t1) by (destruct (set_rec_dims _ r e2 t Hg); by split).
  unfold tail_cmds. destruct is_index.
  - rewrite ret_run. rewrite (bind_run _ _ _ _ _ (add_dma_run size t1 hs c HELP_UPDATE_ENTRY (last_of h es) r Hg1 Hhs
      Hlast ltac:(lia))). done.
  - rewrite (bind_run _ _ _ _ _ (add_dma_run size t1 hs c HELP_UPDATE_HEAD r data Hg1 Hhs ltac:(change (0 <= r < tot); lia) ltac:(lia))).
    rewrite (bind_run _ _ _ _ _ (add_dma_run size t1 hs (push_dma (field_cmd t1 hs HELP_UPDATE_HEAD r data) c) HELP_UPDATE_ENTRY (last_of h es) r Hg1 Hhs
      Hlast ltac:(rewrite length_push, room_push; lia))). done.
Qed.

(** The three outcomes of an insertion at the hash [h]: a new head, a new end
    of the list, or no room, which changes nothing. *)
Inductive added : outcome (Z * Z * Z * tstate E) -> Prop :=
| added_head :
    view_of t h = None ->
    added (Done ((0, h, MakeEntryHdl t h), mkT (head_state h eh t) (push_dma (field_cmd t hs HELP_UPDATE_HEAD h data) c)))
| added_tail es r e2 m2 :
    ch !! h = Some es -> base <= r < tot -> view_of t r = None ->
    entry_set_prev_index new_tail r (last_of h es) (meta t) base = Some (e2, m2) ->
    added (Done ((0, r, MakeEntryHdl t r), mkT (tail_state r e2 m2 t) (tail_cmds (last_of h es) r)))
| added_none es :
    ch !! h = Some es -> (forall j, base <= j < tot -> filled (t := t) j) ->
    added (Done ((- 1, h, 0), mkT t c)).

Lemma add_entry_run : added (ipa_table_add_entry u h (mkT t c)).
Proof using Ht Hh Hhs Hroom Hhead Htail.
  pose proof (tk_geo _ _ _ Ht) as Hg. pose proof (geo_expn _ _ Hg). pose proof (geo_base _ _ Hg).
  destruct (rec_at Hg h ltac:(lia)) as [e He]. unfold ipa_table_add_entry. rewrite (get_rec_then t c h e) by done.
  destruct (chain_or_free Ht h Hh) as [Hn|[es Hes]].
  - rewrite (view_None Hg h e He Hn). cbn [negb].
    rewrite (bind_run _ _ _ _ _ (bind_run _ _ _ _ _ (insert_head_run Hn))). by apply added_head.
  - destruct (head_valid Ht h es Hes) as (e'&He'&Hval). assert (e' = e) as -> by congruence. rewrite Hval. cbn [negb].
    destruct (find_empty Hg c) as [(r&Hr&Hn&_&Hfind)|[Hfull Hfind]].
    + destruct (law_set _ _ _ new_tail r (last_of h es) (geo_meta _ _ Hg) ltac:(lia) ltac:(lia)) as (e2&m2&Hset&_).
      rewrite (bind_run _ _ _ _ _ (insert_tail_run es r e2 m2 Hes Hr Hn Hfind Hset)). by eapply added_tail.
    + assert (Hins : InsertTail h h u (mkT t c) = Done ((- 1, h), mkT t c)).
      { unfold InsertTail. rewrite gets_then. cbv zeta.
        rewrite (bind_run _ _ _ _ _ (iterator_end_run Ht c h es Hes)). change (truthy 0) with false. cbn iota.
        by rewrite (bind_run _ _ _ _ _ Hfind). }
      rewrite (bind_run _ _ _ _ _ Hins). by eapply added_none.
Qed.

End Add.

(** ** Well-formedness after an insertion *)

Section Grow.
Context {size : Z} {t : ipa_table E} {ch : gmap Z (list Z)} (Ht : table_ok size t ch).
Abbreviation base := (table_entries t).
Abbreviation tot := (table_entries t + expn_table_entries t).

Lemma view_set_eq i e p t' :
  0 <= i < zlen (recs t') -> entry_is_valid e = true ->
  entry_get_prev_index e i (meta t') (table_entries t') = Some p ->
  view_of (set_rec i e t') i = Some (entry_get_next_index e, p).
Proof using Type. intros Hi Hv Hp. unfold view_of. rewrite set_rec_eq by done. cbn. by rewrite Hv, Hp. Qed.

Lemma view_set_ne i e t' j : 0 <= i -> j <> i -> view_of (set_rec i e t') j = view_of t' j.
Proof using Type. intros Hi Hne. unfold view_of. by rewrite set_rec_ne. Qed.

Lemma view_set_zero i t' : 0 <= i < zlen (recs t') -> view_of (set_rec i entry_zero t') i = None.
Proof using EL. intros Hi. unfold view_of. rewrite set_rec_eq by done. cbn. by rewrite law_zero. Qed.

(** Storing a record keeps the records not in use blank. *)
Lemma blank_set i e t' :
  0 <= i -> (forall j x, zget (recs t') j = Some x -> entry_is_valid x = false -> x = entry_zero) ->
  (entry_is_valid e = false -> e = entry_zero) ->
  forall j x, zget (recs (set_rec i e t')) j = Some x -> entry_is_valid x = false -> x = entry_zero.
Proof using Type.
  intros Hi Hb He j x Hj. destruct (decide (j = i)) as [->|Hne].
  - pose proof (zget_Some _ _ _ Hj) as Hr. cbn in Hr. rewrite zlen_insert in Hr.
    rewrite set_rec_eq in Hj by done. injection Hj as <-. apply He.
  - rewrite set_rec_ne in Hj by done. by apply (Hb j).
Qed.

Lemma head_state_ok h e :
  1 <= h < base -> view_of t h = None ->
  entry_is_valid e = true -> entry_get_next_index e = 0 ->
  entry_get_prev_index e h (meta t) base = Some 0 ->
  table_ok size (head_state h e t) (<[h := []]> ch).
Proof using Ht.
  intros Hh Hn Hv Hnext Hprev. destruct Ht as [[Hd Hm] Hok Hcnt Hbl].
  pose proof (geo_expn _ _ Hd). assert (Hr : 0 <= h < zlen (recs t)) by (rewrite (geo_recs _ _ Hd); lia).
  assert (Hnone : ch !! h = None).
  { destruct (ch !! h) as [es|] eqn:Hes; [|done].
    destruct (chain_used _ _ _ _ Hok h es h Hes ltac:(by left)). congruence. }
  split.
  - split; [|done]. by destruct (set_rec_dims _ h e t Hd); split.
  - apply (chains_new _ _ (view_of t) ch); [done..| |].
    + change (view_of (head_state h e t)) with (view_of (set_rec h e t)).
      rewrite (view_set_eq h e 0) by done. by rewrite Hnext.
    + intros j Hj. change (view_of (head_state h e t)) with (view_of (set_rec h e t)). apply view_set_ne; [lia|done].
  - by apply counts_new.
  - change (recs (head_state h e t)) with (recs (set_rec h e t)). apply blank_set; [lia|done|congruence].
Qed.

Section Appended.
Context (h : Z) (es : list Z) (r : Z) (e0 e2 : E) (m : option (list Z)).
Abbreviation last := (last_of h es).
Context (Hes : ch !! h = Some es) (Hr : base <= r < tot) (Hn : view_of t r = None).
Context (Hset : entry_set_prev_index e0 r last (meta t) base = Some (e2, m)).

Lemma set_prev_meta :
  meta_ok m base (expn_table_entries t) /\ entry_get_prev_index e2 r m base = Some last /\
  forall j e, j <> r -> entry_get_prev_index e j m base = entry_get_prev_index e j (meta t) base.
Proof using Ht Hr Hset.
  clear Hes Hn. pose proof (tk_geo _ _ _ Ht) as Hg. pose proof (geo_base _ _ Hg).
  destruct (law_set _ _ _ e0 r last (geo_meta _ _ Hg) ltac:(lia) ltac:(lia)) as (e'&m'&Hs&Hm&_&_&Hp&Ho).
  rewrite Hset in Hs. injection Hs as <- <-. split; [done|]. split; [done|]. intros j e Hj. by apply Ho.
Qed.

Lemma view_meta_ne j : j <> r -> view_of (t <| meta := m |>) j = view_of t j.
Proof using Ht Hr Hset.
  intros Hj. destruct set_prev_meta as (_&_&Ho). unfold view_of. change (recs (t <| meta := m |>)) with (recs t).
  destruct (zget (recs t) j) as [e|]; [|done]. cbn. by rewrite Ho.
Qed.

(** The link back alone changes nothing that is in use. *)
Lemma meta_only_ok : table_ok size (t <| meta := m |>) ch.
Proof using Ht Hr Hn Hset.
  clear Hes. destruct set_prev_meta as (Hm&_&_). pose proof (tk_geo _ _ _ Ht) as Hg. pose proof (geo_base _ _ Hg).
  destruct (rec_at Hg r ltac:(lia)) as [e He]. pose proof (view_None Hg r e He Hn) as Hv.
  destruct Ht as [[Hd Hm0] Hok Hcnt Hbl]. split; [| |done..].
  - split; [by destruct Hd; split|done].
  - apply (chains_ok_ext _ _ (view_of t)); [|done]. intros j. destruct (decide (j = r)) as [->|Hj]; [|by apply view_meta_ne].
    rewrite Hn. by apply (view_invalid r e).
Qed.

Lemma last_in_range : 0 <= last < tot /\ last <> r.
Proof using Ht Hes Hn.
  clear Hr Hset.
  assert (Hin : last ∈ h :: es) by (destruct (last_of_in h es) as [->|Hin]; [by left|by right]).
  pose proof (chain_range Ht h es last Hes Hin). split; [lia|]. intros Hlr.
  destruct (chain_used _ _ _ _ (tk_chains _ _ _ Ht) h es last Hes Hin) as [x Hx]. rewrite Hlr in Hx. congruence.
Qed.

Lemma tail_state_ok e el el' :
  entry_is_valid e = true -> entry_get_next_index e = 0 -> entry_get_prev_index e r m base = Some last ->
  zget (recs t) last = Some el -> entry_is_valid el' = true -> entry_get_next_index el' = r ->
  (forall m, entry_get_prev_index el' last m base = entry_get_prev_index el last m base) ->
  table_ok size (set_rec last el' (tail_state r e m t)) (<[h := es ++ [r]]> ch).
Proof using Ht Hes Hr Hn Hset.
  intros Hv Hnext Hprev Hel Hv' Hnext' Hprev'. destruct set_prev_meta as (Hm&_&Ho). destruct last_in_range as [Hlr Hne].
  pose proof Ht as [[Hd Hm0] Hok Hcnt Hbl]. pose proof (geo_base _ _ Hd).
  assert (Hlen : zlen (recs (tail_state r e m t)) = tot) by (unfold tail_state; cbn; by rewrite zlen_insert, (geo_recs _ _ Hd)).
  destruct (chain_last Ht h es Hes) as [pl Hpl].
  assert (Hvr : forall j, j <> r -> view_of (tail_state r e m t) j = view_of t j).
  { intros j Hj. change (view_of (tail_state r e m t)) with (view_of (set_rec r e (t <| meta := m |>))).
    rewrite view_set_ne by (done || lia). by apply view_meta_ne. }
  split.
  - split; [|done]. apply set_rec_dims. by destruct (set_rec_dims _ r e t Hd); split.
  - apply (chains_append _ _ (view_of t) ch _ h es r pl); [done..| | |].
    + rewrite view_set_ne by (done || lia).
      change (view_of (tail_state r e m t)) with (view_of (set_rec r e (t <| meta := m |>))).
      rewrite (view_set_eq r e last); [by rewrite Hnext| |done|done]. change (0 <= r < zlen (recs t)). rewrite (geo_recs _ _ Hd). lia.
    + rewrite (view_set_eq last el' pl); [by rewrite Hnext'|rewrite Hlen; lia|done|].
      change (entry_get_prev_index el' last m base = Some pl). rewrite Hprev', Ho by done.
      destruct (view_Some _ _ _ Hpl) as (x&Hx&_&_&Hp). congruence.
    + intros j Hj Hjl. rewrite view_set_ne by (done || lia). by apply Hvr.
  - by apply counts_append.
  - apply blank_set; [lia| |congruence]. change (recs (tail_state r e m t)) with (recs (set_rec r e t)).
    apply blank_set; [lia|done|congruence].
Qed.

End Appended.
End Grow.

(** ** Erasing a record *)

Definition erase_state i t : ipa_table E :=
  if i <? table_entries t then (set_rec i entry_zero t) <| cur_tbl_cnt ::= fun n => u16 (n - 1) |>
  else (set_rec i entry_zero t) <| cur_expn_tbl_cnt ::= fun n => u16 (n - 1) |>.

Lemma erase_run t c i :
  0 <= i < zlen (recs t) -> ipa_table_erase_entry i (mkT t c) = Done (tt, mkT (erase_state i t) c).
Proof using Type.
  intros Hi. unfold ipa_table_erase_entry, erase_state. rewrite put_rec_then, gets_then by done.
  change (table_entries (set_rec i entry_zero t)) with (table_entries t). by destruct (i <? table_entries t).
Qed.

Lemma erase_recs i t : recs (erase_state i t) = recs (set_rec i entry_zero t).
Proof using Type. unfold erase_state. by destruct (_ <? _). Qed.

Lemma erase_meta i t : meta (erase_state i t) = meta t.
Proof using Type. unfold erase_state. by destruct (_ <? _). Qed.

Lemma erase_entries i t : table_entries (erase_state i t) = table_entries t.
Proof using Type. unfold erase_state. by destruct (_ <? _). Qed.

Lemma dec_inc_u16 n : is_word 16 n -> u16 (u16 (n + 1) - 1) = n.
Proof using Type.
  intros Hn. replace (u16 (n + 1) - 1) with (u16 (n + 1) + - 1) by lia. rewrite u16_add.
  rewrite <- (wrap_small 16 n) at 2 by done. f_equal. lia.
Qed.

(** A new record that is erased at once leaves the table as it was. *)
Lemma erase_head_undo h e t :
  0 <= h < table_entries t -> zget (recs t) h = Some entry_zero -> is_word 16 (cur_tbl_cnt t) ->
  erase_state h (head_state h e t) = t.
Proof using Type.
  intros Hh Hz Hw. unfold erase_state. change (table_entries (head_state h e t)) with (table_entries t).
  replace (h <? table_entries t) with true by lia. unfold head_state, set_rec, upd. cbn.
  rewrite list_insert_insert_eq, dec_inc_u16 by done.
  rewrite list_insert_id; [by destruct t|]. rewrite <- Hz. symmetry. apply zget_to_nat. lia.
Qed.

Lemma erase_tail_undo r e m t :
  0 <= r -> table_entries t <= r -> zget (recs t) r = Some entry_zero -> is_word 16 (cur_expn_tbl_cnt t) ->
  erase_state r (tail_state r e m t) = t <| meta := m |>.
Proof using Type.
  intros Hr Hb Hz Hw. unfold erase_state. change (table_entries (tail_state r e m t)) with (table_entries t).
  replace (r <? table_entries t) with false by lia. unfold tail_state, set_rec, upd. cbn.
  rewrite list_insert_insert_eq, dec_inc_u16 by done.
  rewrite list_insert_id; [by destruct t|]. rewrite <- Hz. symmetry. apply zget_to_nat. lia.
Qed.

(** ** Deletion *)

Definition iterator_at (i n p : Z) : ipa_table_iterator :=
  mkIterator p (if VALID_INDEX p then Some p else None) i (Some i) n (if VALID_INDEX n then Some n else None).

Section Delete.
Context {size : Z} {t : ipa_table E} {ch : gmap Z (list Z)} (Ht : table_ok size t ch).
Abbreviation base := (table_entries t).
Abbreviation tot := (table_entries t + expn_table_entries t).

(** The neighbours of a record in use are records or 0. *)
Lemma view_range i n p : view_of t i = Some (n, p) -> 1 <= i < tot /\ 0 <= n < tot /\ 0 <= p < tot.
Proof using Ht.
  intros Hv. pose proof (geo_base _ _ (tk_geo _ _ _ Ht)). pose proof (geo_expn _ _ (tk_geo _ _ _ Ht)).
  destruct (ck_cover _ _ _ _ (tk_chains _ _ _ Ht) i _ Hv) as (h&es&Hes&Hin).
  pose proof (fun j => chain_range Ht h es j Hes) as Hrange. split; [by apply Hrange|].
  destruct (ck_head _ _ _ _ (tk_chains _ _ _ Ht) h es Hes) as (_&_&Hs). apply list_elem_of_lookup in Hin as [k Hk].
  assert (Hdef : forall k, 0 <= default 0 ((h :: es) !! k) < tot).
  { intros k'. destruct ((h :: es) !! k') as [j|] eqn:Hj; cbn [default]; [|change (0 <= 0 < tot); lia].
    pose proof (Hrange j (list_elem_of_lookup_2 _ _ _ Hj)). change (0 <= j < tot). lia. }
  rewrite (seg_lookup _ _ _ _ _ _ Hs Hk) in Hv. injection Hv as <- <-. split.
  - change (es !! k) with ((h :: es) !! S k). apply Hdef.
  - destruct k as [|k]; [lia|apply Hdef].
Qed.

Lemma by_index_run {B} c i (k : option Z -> M (tstate E) B) :
  0 <= i < tot ->
  ((if VALID_INDEX i then ipa_table_get_entry_by_index i else mret None) ≫= k) (mkT t c)
  = k (if VALID_INDEX i then Some i else None) (mkT t c).
Proof using Ht.
  intros Hi. unfold VALID_INDEX, IPA_TABLE_INVALID_ENTRY. destruct (Z.eqb_spec i 0) as [->|Hne]; cbn [negb]; [done|].
  unfold ipa_table_get_entry_by_index. apply bind_run. rewrite gets_then.
  replace (truthy i) with true by (symmetry; by apply truthy_true). rewrite (geo_tot _ _ (tk_geo _ _ _ Ht)).
  by replace (tot <=? i) with false by lia.
Qed.

Lemma iterator_init_run c i n p :
  view_of t i = Some (n, p) -> ipa_table_iterator_init i i (mkT t c) = Done ((0, iterator_at i n p), mkT t c).
Proof using Ht.
  intros Hv. destruct (view_range _ _ _ Hv) as (Hi&Hn&Hp). destruct (view_Some _ _ _ Hv) as (e&He&Hval&Hnext&Hprev).
  unfold ipa_table_iterator_init. rewrite (get_rec_then t c i e), Hval by done. cbn [negb]. rewrite gets_then.
  rewrite (liftO_run _ _ _ _ _ Hprev). cbv zeta. rewrite Hnext.
  cbn -[ipa_table_get_entry_by_index VALID_INDEX mbind mret].
  rewrite by_index_run by done. cbn -[ipa_table_get_entry_by_index VALID_INDEX mbind mret].
  replace (VALID_INDEX p && _) with false by (by destruct (VALID_INDEX p)). rewrite by_index_run by done.
  replace (VALID_INDEX n && _) with false by (by destruct (VALID_INDEX n)). done.
Qed.

Lemma VALID_INDEX_true i : VALID_INDEX i = true <-> i <> 0.
Proof using Type. unfold VALID_INDEX, IPA_TABLE_INVALID_ENTRY. lia. Qed.

Lemma iterator_next_run c i n p n2 :
  view_of t i = Some (n, p) -> n <> 0 -> view_of t n = Some (n2, i) ->
  ipa_table_iterator_next (iterator_at i n p) (mkT t c) = Done ((0, iterator_at n n2 i), mkT t c).
Proof using Ht.
  intros Hv Hn Hv2. destruct (view_range _ _ _ Hv) as (Hi&_&_). destruct (view_range _ _ _ Hv2) as (_&Hn2&_).
  destruct (view_Some _ _ _ Hv2) as (e&He&_&Hnext&_).
  unfold ipa_table_iterator_next, iterator_at. cbn -[ipa_table_get_entry_by_index VALID_INDEX mbind mret deref].
  replace (VALID_INDEX n) with true by (symmetry; by apply VALID_INDEX_true).
  replace (VALID_INDEX i) with true by (symmetry; apply VALID_INDEX_true; lia).
  cbn [deref]. rewrite (get_rec_then t c n e), Hnext by done. destruct (VALID_INDEX n2) eqn:Vn2; cbn [negb]; [|done].
  rewrite (bind_run _ _ _ (Some n2) (mkT t c)); [done|]. unfold ipa_table_get_entry_by_index. rewrite gets_then.
  replace (truthy n2) with true by (symmetry; exact Vn2). rewrite (geo_tot _ _ (tk_geo _ _ _ Ht)).
  by replace (tot <=? n2) with false by lia.
Qed.

(** The command that takes a record [e] out of its list. *)
Definition delete_cmd (hs : dma_helps) (i n p : Z) (e en : E) : ipa_ioc_nat_dma_one :=
  if VALID_INDEX p then field_cmd t hs HELP_UPDATE_ENTRY p n
  else if VALID_INDEX n then field_cmd t hs HELP_DELETE_HEAD i (entry_get_delete_head_dma_command_data e en)
  else field_cmd t hs HELP_UPDATE_HEAD i 0.

Lemma create_delete_run c hs i n p e en :
  view_of t i = Some (n, p) -> dma_help_of t = Some hs -> (length (dma c) < dma_room c)%nat ->
  zget (recs t) i = Some e -> (n <> 0 -> zget (recs t) n = Some en) ->
  ipa_table_create_delete_command (iterator_at i n p) (mkT t c) = Done (tt, mkT t (push_dma (delete_cmd hs i n p e en) c)).
Proof using Ht.
  intros Hv Hhs Hroom He Hen. destruct (view_range _ _ _ Hv) as (Hi&Hn&Hp). pose proof (tk_geo _ _ _ Ht) as Hg.
  unfold ipa_table_create_delete_command, iterator_at, delete_cmd. cbn [prev_index next_index curr_entry curr_index next_entry prev_entry].
  destruct (VALID_INDEX p) eqn:Vp; cbn [negb].
  - by rewrite (bind_run _ _ _ _ _ (add_dma_run size t hs c HELP_UPDATE_ENTRY p n Hg Hhs Hp Hroom)).
  - destruct (VALID_INDEX n) eqn:Vn; cbn [deref].
    + apply VALID_INDEX_true in Vn.
      rewrite (bind_run _ _ _ 0 (mkT t (push_dma (field_cmd t hs HELP_DELETE_HEAD i
        (entry_get_delete_head_dma_command_data e en)) c))); [done|].
      rewrite (get_rec_then t c i e), (get_rec_then t c n en) by auto.
      refine (add_dma_run size t hs c _ _ _ Hg Hhs _ Hroom). lia.
    + by rewrite (bind_run _ _ _ _ _ (add_dma_run size t hs c HELP_UPDATE_HEAD i 0 Hg Hhs ltac:(lia) Hroom)).
Qed.

End Delete.

(** The table in which the link back of [n], if there is one, is [p]. *)
Inductive relinked t1 (n p : Z) : ipa_table E -> Prop :=
| relinked_none : n = 0 -> relinked t1 n p t1
| relinked_some en en' m' :
    n <> 0 -> zget (recs t1) n = Some en ->
    entry_set_prev_index en n p (meta t1) (table_entries t1) = Some (en', m') ->
    relinked t1 n p ((set_rec n en' t1) <| meta := m' |>).

Lemma relinked_exists size t1 n p :
  geometry size t1 -> n = 0 \/ table_entries t1 <= n < table_entries t1 + expn_table_entries t1 ->
  exists t2, relinked t1 n p t2.
Proof using Type.
  intros Hg [->|Hn]; [exists t1; by apply relinked_none|]. pose proof (geo_base _ _ Hg).
  destruct (rec_at Hg n ltac:(lia)) as [en Hen].
  destruct (law_set _ _ _ en n p (geo_meta _ _ Hg) ltac:(lia) ltac:(lia)) as (en'&m'&Hset&_).
  eexists. eapply relinked_some; [lia|done|done].
Qed.

Lemma delete_entry_run t1 t2 c i n p :
  relinked t1 n p t2 -> 0 <= i < zlen (recs t1) ->
  ipa_table_delete_entry (iterator_at i n p) false (mkT t1 c) = Done (tt, mkT (erase_state i t2) c).
Proof using Type.
  intros Hrel Hi. unfold ipa_table_delete_entry, iterator_at. cbn [next_index next_entry prev_index prev_entry curr_index].
  destruct Hrel as [->|en en' m' Hn Hen Hset].
  - change (VALID_INDEX 0) with false. cbn iota. rewrite ret_run. by apply erase_run.
  - replace (VALID_INDEX n) with true by (symmetry; by apply VALID_INDEX_true).
    rewrite (set_prev_run t1 c n en en' m' p) by done. apply erase_run.
    change (0 <= i < zlen (recs (set_rec n en' t1))). cbn. by rewrite zlen_insert.
Qed.

(** The only record after a head that is not in use any more: both go. *)
Lemma delete_entry_both_run t1 c i p :
  1 <= p < table_entries t1 -> 0 <= i < zlen (recs t1) -> p < zlen (recs t1) ->
  ipa_table_delete_entry (iterator_at i 0 p) true (mkT t1 c) = Done (tt, mkT (erase_state i (erase_state p t1)) c).
Proof using Type.
  intros Hp Hi Hlen. unfold ipa_table_delete_entry, iterator_at. cbn [next_index next_entry prev_index prev_entry curr_index].
  change (VALID_INDEX 0) with false. cbn iota. replace (VALID_INDEX p) with true by (symmetry; apply VALID_INDEX_true; lia).
  rewrite (bind_run _ _ _ tt (mkT (erase_state p t1) c)).
  - apply erase_run. rewrite erase_recs. cbn. by rewrite zlen_insert.
  - rewrite put_rec_then by lia. unfold erase_state. by replace (p <? table_entries t1) with true by lia.
Qed.

(** ** Well-formedness after a deletion *)

Section Shrink.
Context {size : Z} {t : ipa_table E} {ch : gmap Z (list Z)} (Ht : table_ok size t ch).
Abbreviation base := (table_entries t).
Abbreviation tot := (table_entries t + expn_table_entries t).

Lemma erase_geometry i t' : geometry size t' -> geometry size (erase_state i t').
Proof using Type.
  intros [Hd Hm]. unfold erase_state. by destruct (i <? _); split; try done; destruct (set_rec_dims _ i entry_zero t' Hd); split.
Qed.

Lemma view_erase_eq i t' : 0 <= i < zlen (recs t') -> view_of (erase_state i t') i = None.
Proof using EL. intros Hi. unfold view_of. rewrite erase_recs, set_rec_eq by done. cbn. by rewrite law_zero. Qed.

Lemma view_erase_ne i t' j : 0 <= i -> j <> i -> view_of (erase_state i t') j = view_of t' j.
Proof using Type. intros Hi Hj. unfold view_of. by rewrite erase_recs, erase_meta, erase_entries, set_rec_ne. Qed.

Lemma remove_head_ok h : ch !! h = Some [] -> table_ok size (erase_state h t) (delete h ch).
Proof using Ht.
  intros Hh. pose proof (chain_range Ht h [] h Hh ltac:(by left)) as Hr. destruct Ht as [Hg Hok Hcnt Hbl].
  destruct (ck_head _ _ _ _ Hok h [] Hh) as (Hb&_&_).
  assert (Hr' : 0 <= h < zlen (recs t)) by (rewrite (geo_recs _ _ Hg); lia). split.
  - by apply erase_geometry.
  - rewrite erase_entries. replace (expn_table_entries (erase_state h t)) with (expn_table_entries t)
      by (unfold erase_state; by destruct (_ <? _)).
    apply (chains_remove_head _ _ (view_of t)); [done|done|by apply view_erase_eq|].
    intros j Hj. by apply view_erase_ne; [lia|].
  - unfold erase_state. replace (h <? base) with true by lia. by apply counts_remove_head.
  - rewrite erase_recs. by apply blank_set; [lia| |].
Qed.

Section Unlink.
Context (h : Z) (a : list Z) (i : Z) (b : list Z) (Hh : ch !! h = Some (a ++ i :: b)).
Abbreviation p := (last_of h a).

(** The record and its neighbours. *)
Lemma chain_split :
  exists pp, view_of t p = Some (i, pp) /\ view_of t i = Some (hd 0 b, p) /\
    (forall n b', b = n :: b' -> view_of t n = Some (hd 0 b', i) /\ n <> i /\ n <> p /\ base <= n < tot) /\
    base <= i < tot /\ p <> i /\ 1 <= p < tot.
Proof using Ht Hh.
  destruct (ck_head _ _ _ _ (tk_chains _ _ _ Ht) h _ Hh) as (Hb&Hes&Hs).
  pose proof (chain_NoDup _ _ _ _ (tk_chains _ _ _ Ht) h _ Hh) as Hnd.
  assert (Hin : p ∈ h :: a) by (destruct (last_of_in h a) as [->|Hin]; [by left|by right]).
  pose proof (chain_range Ht h _ p Hh ltac:(rewrite elem_of_cons, elem_of_app; apply elem_of_cons in Hin as [?|?]; auto)) as Hp.
  destruct (snoc_last h a) as [a' Ha].
  assert (Hl : h :: a ++ i :: b = a' ++ p :: i :: b).
  { change (h :: a ++ i :: b) with ((h :: a) ++ i :: b). by rewrite Ha, <- app_assoc. }
  rewrite Hl in Hs, Hnd. apply seg_app in Hs as [_ (Hsp&Hsi&Hsb)]. cbn [hd] in Hsp.
  apply NoDup_app in Hnd as (_&_&[Hpi [Hib _]%NoDup_cons]%NoDup_cons).
  apply Forall_app in Hes as [_ [Hi Heb]%Forall_cons].
  eexists. split; [exact Hsp|]. split; [exact Hsi|]. split; [|split; [done|split; [intros Heq; apply Hpi; rewrite Heq; by left|done]]].
  intros n b' ->. destruct Hsb as [Hn _]. apply Forall_cons in Heb as [Hr _]. split; [done|]. split; [|split; [|done]].
  - intros ->. apply Hib. by left.
  - intros Heq. apply Hpi. rewrite <- Heq. right. by left.
Qed.

Lemma remove_tail_ok el el' t2 :
  zget (recs t) p = Some el -> entry_is_valid el' = true -> entry_get_next_index el' = hd 0 b ->
  (forall m, entry_get_prev_index el' p m base = entry_get_prev_index el p m base) ->
  relinked (set_rec p el' t) (hd 0 b) p t2 ->
  table_ok size (erase_state i t2) (<[h := a ++ b]> ch).
Proof using Ht Hh.
  intros Hel Hv Hnext Hprev Hrel. destruct chain_split as (pp&Hvp&Hvi&Hvn&Hi&Hpi&Hp).
  destruct Ht as [Hg Hok Hcnt Hbl]. pose proof (geo_base _ _ Hg) as Hbase. pose proof (geo_recs _ _ Hg) as Hlen.
  assert (Hr : 0 <= p < zlen (recs t)) by (rewrite Hlen; lia).
  assert (Hprev' : entry_get_prev_index el' p (meta t) base = Some pp).
  { rewrite Hprev. destruct (view_Some _ _ _ Hvp) as (x&Hx&_&_&Hq). congruence. }
  pose proof (set_rec_dims _ p el' t Hg) as Hd1. pose proof (geo_meta _ _ Hg) as Hm.
  set (t1 := set_rec p el' t) in *.
  assert (Hbl1 : forall j x, zget (recs t1) j = Some x -> entry_is_valid x = false -> x = entry_zero)
    by (apply blank_set; [lia|done|congruence]).
  assert (Hv1 : view_of t1 p = Some (hd 0 b, pp)) by (unfold t1; rewrite (view_set_eq p el' pp) by done; by rewrite Hnext).
  assert (Hv1o : forall j, j <> p -> view_of t1 j = view_of t j) by (intros j Hj; apply view_set_ne; [lia|done]).
  (* the table after the link back is set *)
  assert (H2 : geometry size t2 /\ (forall j, (b = [] \/ j <> hd 0 b) -> view_of t2 j = view_of t1 j) /\
    (forall n b', b = n :: b' -> view_of t2 n = Some (hd 0 b', p)) /\ base = table_entries t2 /\
    (expn_table_entries t2 = expn_table_entries t /\ cur_tbl_cnt t2 = cur_tbl_cnt t /\ cur_expn_tbl_cnt t2 = cur_expn_tbl_cnt t) /\
    forall j x, zget (recs t2) j = Some x -> entry_is_valid x = false -> x = entry_zero).
  { destruct Hrel as [Hb0|en en' m' Hb0 Hen Hset].
    - assert (b = []) as ->. { destruct b as [|n b']; [done|]. destruct (Hvn n b' eq_refl) as (_&_&_&?). cbn in Hb0. lia. }
      done.
    - destruct b as [|n b']; [done|]. cbn [hd] in *. destruct (Hvn n b' eq_refl) as (Hvn1&Hni&Hnp&Hn).
      destruct (law_set _ _ _ en n p Hm ltac:(lia) ltac:(lia)) as (e'&m''&Hs&Hm'&Hval&Hnx&Hpr&Ho).
      change (meta t1) with (meta t) in Hset. change (table_entries t1) with base in Hset.
      rewrite Hset in Hs. injection Hs as <- <-.
      rewrite <- Hv1o in Hvn1 by done. destruct (view_Some _ _ _ Hvn1) as (x&Hx&Hxv&Hxn&_).
      assert (x = en) as -> by congruence.
      assert (Hnr : 0 <= n < zlen (recs t1)) by (unfold t1; cbn; rewrite zlen_insert; lia).
      split; [split; [by destruct (set_rec_dims _ n en' t1 Hd1); split|done]|].
      split; [|split; [|split; [done|split; [done|]]]].
      + intros j [?|Hj]; [done|]. rewrite <- (view_set_ne n en' t1) by (done || lia).
        unfold view_of. change (recs (_ <| meta := m' |>)) with (recs (set_rec n en' t1)).
        destruct (zget (recs (set_rec n en' t1)) j) as [y|]; [|done]. cbn. by rewrite Ho.
      + intros n' b'' [= <- <-]. change (view_of (_ <| meta := m' |>)) with (view_of (set_rec n en' (t1 <| meta := m' |>))).
        rewrite (view_set_eq n en' p) by (done || congruence). by rewrite Hnx, Hxn.
      + change (recs (_ <| meta := m' |>)) with (recs (set_rec n en' t1)). apply blank_set; [lia|done|congruence]. }
  destruct H2 as (Hg2&Hvo&Hvn2&Hb2&(He2&Hc2&Hce2)&Hbl2).
  assert (Hi2 : 0 <= i < zlen (recs t2)) by (rewrite (geo_recs _ _ Hg2); lia). split.
  - by apply erase_geometry.
  - rewrite erase_entries, <- Hb2. replace (expn_table_entries (erase_state i t2)) with (expn_table_entries t)
      by (unfold erase_state; by destruct (_ <? _)).
    assert (Hnb : b = [] \/ p <> hd 0 b) by (destruct b as [|n b']; [by left|right; by destruct (Hvn n b' eq_refl) as (_&_&?&_)]).
    assert (Hnb' : b = [] \/ i <> hd 0 b) by (destruct b as [|n b']; [by left|right; by destruct (Hvn n b' eq_refl) as (_&?&_&_)]).
    apply (chains_remove _ _ (view_of t) ch _ h a i b pp); [done|done|done|by apply view_erase_eq| | |].
    + rewrite view_erase_ne, Hvo by (done || lia). done.
    + intros n b' Hb'. destruct (Hvn n b' Hb') as (_&?&_&_). rewrite view_erase_ne by (done || lia). by apply Hvn2.
    + intros j Hji Hjp Hjb. rewrite view_erase_ne, Hvo by (done || lia). by apply Hv1o.
  - unfold erase_state. rewrite <- Hb2. replace (i <? base) with false by lia.
    change (counts_ok (<[h := a ++ b]> ch) (cur_tbl_cnt t2) (u16 (cur_expn_tbl_cnt t2 - 1))).
    rewrite Hc2, Hce2. by eapply counts_remove.
  - rewrite erase_recs. by apply blank_set; [lia| |].
Qed.

End Unlink.
End Shrink.
End Spec.
