(* ===== verification/IpaTableSettle.v ===== *)
(** * The tables once the hardware has executed the commands

    Insertion and deletion leave the links that the hardware follows to DMA
    commands.  [hw] is the effect of a command on one record; [settle] applies
    a list of commands to a table.  The lemmas say that an insertion or a
    deletion whose commands are executed gives a well-formed table again, and
    what data its records hold. *)

From stdpp Require Import gmap.
From S2P Require Import Prelude IpaChain IpaTable IpaTableSpec.

Local Open Scope Z_scope.

(** A command, as what it does to a record. *)
Record hw_write := mkWrite {
  w_help : dma_help_type;
  w_rec : Z;
  w_data : Z;
}.

(** [entry_data] is a record without its links. *)
Class ipa_hw_laws (E U : Type) `{EL : ipa_entry_laws E U} := {
  hw : dma_help_type -> Z -> E -> E;
  entry_data : E -> E;
  law_link : forall n e,
    entry_get_next_index (hw HELP_UPDATE_ENTRY n e) = n /\
    entry_data (hw HELP_UPDATE_ENTRY n e) = entry_data e /\
    forall i m b, entry_get_prev_index (hw HELP_UPDATE_ENTRY n e) i m b = entry_get_prev_index e i m b;
  law_data_valid : forall e, entry_is_valid (entry_data e) = entry_is_valid e;
  law_set_data : forall e i p m b e' m', entry_set_prev_index e i p m b = Some (e', m') -> entry_data e' = entry_data e;
}.

(** The offset of a field of a record, and back. *)
Lemma field_offset size f x :
  0 < size <= 64 -> 0 <= f < size -> 0 <= x <= 8192 ->
  u32 (f + size * x) = size * x + f /\ (size * x + f) mod size = f /\ (size * x + f) / size = x.
Proof.
  intros Hs Hf Hx. split; [rewrite wrap_small; [lia|unfold is_word; nia]|].
  rewrite Z.add_comm, (Z.mul_comm size x), Z.mod_add, Z.div_add, Z.mod_small, Z.div_small by lia. done.
Qed.

Section Settle.
Context {E U : Type} `{HL : ipa_hw_laws E U}.
Implicit Types (t : ipa_table E) (c : ipa_ioc_nat_dma_cmd) (e : E) (w : hw_write).

Definition hw_cmds (ws : list hw_write) (l : list E) : list E :=
  fold_left (fun l w => alter_rec (hw (w_help w) (w_data w)) (w_rec w) l) ws l.

Definition settle (ws : list hw_write) t : ipa_table E := t <| recs ::= hw_cmds ws |>.

Definition write_cmd t (hs : dma_helps) w : ipa_ioc_nat_dma_one := field_cmd t hs (w_help w) (w_rec w) (w_data w).

Definition push_all t (hs : dma_helps) (ws : list hw_write) c : ipa_ioc_nat_dma_cmd :=
  c <| dma ::= fun l => l ++ map (write_cmd t hs) ws |>.

Definition data_at t (i : Z) : option E := entry_data <$> zget (recs t) i.

(** What no operation on the records changes. *)
Definition shape t := (nmi t, table_entries t, expn_table_entries t, tot_tbl_ents t, dma_help_of t).

Lemma set_rec_id i e t : zget (recs t) i = Some e -> set_rec i e t = t.
Proof using Type.
  intros Hi. pose proof (zget_Some _ _ _ Hi). rewrite zget_to_nat in Hi by lia. unfold set_rec, upd. cbn.
  rewrite list_insert_id by done. by destruct t.
Qed.

Lemma settle_one w t e :
  zget (recs t) (w_rec w) = Some e -> settle [w] t = set_rec (w_rec w) (hw (w_help w) (w_data w) e) t.
Proof using Type. intros He. unfold settle, hw_cmds, upd. cbn. by rewrite (alter_rec_set _ _ _ _ He). Qed.

Lemma settle_app ws1 ws2 t : settle (ws1 ++ ws2) t = settle ws2 (settle ws1 t).
Proof using Type. unfold settle, hw_cmds, upd. cbn. by rewrite fold_left_app. Qed.

Lemma link_valid n e : entry_is_valid (hw HELP_UPDATE_ENTRY n e) = entry_is_valid e.
Proof using Type. destruct (law_link n e) as (_&Hd&_). by rewrite <- law_data_valid, Hd, law_data_valid. Qed.

Lemma data_set_eq i e t : 0 <= i < zlen (recs t) -> data_at (set_rec i e t) i = Some (entry_data e).
Proof using Type. intros Hi. unfold data_at. by rewrite set_rec_eq. Qed.

Lemma data_set_ne i e t j : 0 <= i -> j <> i -> data_at (set_rec i e t) j = data_at t j.
Proof using Type. intros Hi Hj. unfold data_at. by rewrite set_rec_ne. Qed.

(** Storing a record that differs in its links only. *)
Lemma data_set_links i e e' t :
  zget (recs t) i = Some e -> entry_data e' = entry_data e -> forall j, data_at (set_rec i e' t) j = data_at t j.
Proof using Type.
  intros Hi Hd j. pose proof (zget_Some _ _ _ Hi). destruct (decide (j = i)) as [->|Hj].
  - rewrite data_set_eq by done. unfold data_at. rewrite Hi. cbn. by rewrite Hd.
  - by apply data_set_ne; [lia|].
Qed.

Lemma data_erase i t j :
  0 <= i < zlen (recs t) -> data_at (erase_state i t) j = if decide (j = i) then Some (entry_data entry_zero) else data_at t j.
Proof using Type.
  intros Hi. unfold data_at at 1. rewrite erase_recs. case_decide as Hj.
  - subst j. by rewrite set_rec_eq.
  - rewrite set_rec_ne by (done || lia). done.
Qed.

(** A slot that is not in use holds no data. *)
Lemma data_free size t ch i :
  table_ok size t ch -> view_of t i = None -> 0 <= i < table_entries t + expn_table_entries t ->
  data_at t i = Some (entry_data entry_zero).
Proof using Type. intros Ht Hv Hi. unfold data_at. by rewrite (blank_record Ht i Hi Hv). Qed.

Lemma view_data_zero t i : data_at t i = Some (entry_data entry_zero) -> view_of t i = None.
Proof using Type.
  unfold data_at. intros Hd. destruct (zget (recs t) i) as [x|] eqn:Hx; [|done]. cbn in Hd. injection Hd as Hd.
  apply (view_invalid i x); [done|]. by rewrite <- law_data_valid, Hd, law_data_valid, law_zero.
Qed.

Lemma erase_shape i t : shape (erase_state i t) = shape t.
Proof using Type. unfold erase_state. by destruct (_ <? _). Qed.


(** ** Insertion *)

Section Grown.
Context {size : Z} {t : ipa_table E} {ch : gmap Z (list Z)} (Ht : table_ok size t ch).
Context (c : ipa_ioc_nat_dma_cmd) (hs : dma_helps) (h : Z) (eh et : E) (data : Z).
Abbreviation base := (table_entries t).
Abbreviation tot := (table_entries t + expn_table_entries t).

(** The table [t1] holds the new record [e1] at [r]; the commands [ws] link it
    and turn it into [fin e1].  Erasing the record instead restores the table.
    The owner of the table may change the data of the record before the
    commands are executed. *)
Record grown (r : Z) t1 (ws : list hw_write) e1 (fin : E -> E) : Prop := {
  gr_range : 1 <= r < tot;
  gr_free : view_of t r = None;
  gr_rec : zget (recs t1) r = Some e1;
  gr_next : entry_get_next_index e1 = 0;
  gr_fin : (fin = hw HELP_UPDATE_HEAD data /\ entry_data e1 = entry_data eh)
           \/ (meta t <> None /\ fin = id /\ entry_data e1 = entry_data et);
  gr_writes : Forall (fun w => 0 <= w_rec w < tot) ws /\ (length ws <= 2)%nat;
  gr_shape : shape t1 = shape t;
  gr_dims : dims size t1;
  gr_undo : table_ok size (erase_state r t1) ch /\ recs (erase_state r t1) = recs t;
  gr_settle : forall e,
    entry_is_valid (fin e) = true -> entry_get_next_index (fin e) = 0 ->
    (forall m, entry_get_prev_index (fin e) r m base = entry_get_prev_index e1 r m base) ->
    exists ch', table_ok size (settle ws (set_rec r e t1)) ch' /\
      zget (recs (settle ws (set_rec r e t1))) r = Some (fin e) /\
      (forall j, j <> r -> data_at (settle ws (set_rec r e t1)) j = data_at t j) /\
      (forall i es, ch !! i = Some es -> exists es', ch' !! i = Some (es ++ es'));
}.

Context (Hh : 1 <= h < base).
Context (Hnext_h : entry_get_next_index eh = 0) (Hnext_t : entry_get_next_index et = 0).
Context (Hprev : entry_get_prev_index eh h (meta t) base = Some 0).

Lemma counts_word : is_word 16 (cur_tbl_cnt t) /\ is_word 16 (cur_expn_tbl_cnt t).
Proof using Ht. destruct (tk_counts _ _ _ Ht) as [-> ->]. split; by apply wrap_is_word. Qed.

Lemma grown_head :
  view_of t h = None ->
  grown h (head_state h eh t) [mkWrite HELP_UPDATE_HEAD h data] eh (hw HELP_UPDATE_HEAD data).
Proof using Ht Hh Hnext_h Hprev.
  intros Hn. pose proof (tk_geo _ _ _ Ht) as Hg. pose proof (geo_expn _ _ Hg). pose proof (geo_recs _ _ Hg).
  pose proof (blank_record Ht h ltac:(lia) Hn) as Hz. destruct counts_word as [Hw _].
  assert (Hrec : forall e, zget (recs (set_rec h e (head_state h eh t))) h = Some e)
    by (intros e; apply set_rec_eq; unfold head_state; cbn; rewrite zlen_insert; lia).
  split; try done; [lia|by apply set_rec_eq; lia|by left|split; [by constructor; cbn; [lia|]|cbn; lia]|by destruct (set_rec_dims _ h eh t Hg); split| |].
  - rewrite erase_head_undo by (done || lia). done.
  - intros e Hv Hnext Hpe. exists (<[h := []]> ch). rewrite (settle_one _ _ e) by apply Hrec. cbn [w_help w_rec w_data].
    set (e' := hw HELP_UPDATE_HEAD data e) in *.
    replace (set_rec h e' (set_rec h e (head_state h eh t))) with (head_state h e' t)
      by (unfold head_state, set_rec, upd; cbn; by rewrite !list_insert_insert_eq).
    split; [|split; [|split]].
    + apply head_state_ok; [done..|]. by rewrite Hpe.
    + change (recs (head_state h e' t)) with (recs (set_rec h e' t)). apply set_rec_eq. lia.
    + intros j Hj. change (data_at (head_state h e' t) j) with (data_at (set_rec h e' t) j). apply data_set_ne; [lia|done].
    + intros i es Hi. exists []. rewrite app_nil_r. rewrite lookup_insert_ne; [done|]. intros <-.
      destruct (chain_used _ _ _ _ (tk_chains _ _ _ Ht) h es h Hi ltac:(by left)). congruence.
Qed.

Section Tail.
Context (es : list Z) (r : Z) (e2 : E) (m2 : option (list Z)).
Abbreviation last := (last_of h es).
Abbreviation x := (new_tail (t := t) eh et).
Context (Hes : ch !! h = Some es) (Hr : base <= r < tot) (Hn : view_of t r = None).
Context (Hset : entry_set_prev_index x r last (meta t) base = Some (e2, m2)).

Lemma tail_facts :
  zget (recs t) r = Some entry_zero /\ 0 <= last < tot /\ last <> r /\ entry_get_next_index e2 = 0 /\
  entry_get_prev_index e2 r m2 base = Some last /\ entry_data e2 = entry_data x /\ 2 <= base.
Proof using Ht Hes Hr Hn Hset Hnext_h Hnext_t HL.
  pose proof (tk_geo _ _ _ Ht) as Hg. pose proof (geo_base _ _ Hg).
  destruct (last_in_range Ht h es r Hes Hn) as [Hl Hne]. destruct (set_prev_meta Ht h es r x e2 m2 Hr Hset) as (_&Hp&_).
  split; [by apply (blank_record Ht); [lia|]|]. split; [done|]. split; [done|]. split; [|split; [done|split; [|lia]]].
  - destruct (law_set _ _ _ x r last (geo_meta _ _ Hg) ltac:(lia) ltac:(lia)) as (e'&m'&Hs&_&_&Hnx&_).
    rewrite Hset in Hs. injection Hs as <- _. rewrite Hnx. unfold new_tail. by case_bool_decide.
  - by eapply law_set_data.
Qed.

(** The last record of the list before, linked to the new one. *)
Lemma settle_tail e fin :
  entry_is_valid (fin e) = true -> entry_get_next_index (fin e) = 0 ->
  (forall m, entry_get_prev_index (fin e) r m base = entry_get_prev_index e2 r m base) ->
  let t2 := settle [mkWrite HELP_UPDATE_ENTRY last r] (set_rec r (fin e) (tail_state r e2 m2 t)) in
  exists ch', table_ok size t2 ch' /\ zget (recs t2) r = Some (fin e) /\
    (forall j, j <> r -> data_at t2 j = data_at t j) /\
    (forall i es, ch !! i = Some es -> exists es', ch' !! i = Some (es ++ es')).
Proof using Ht Hes Hr Hn Hset Hnext_h Hnext_t HL.
  intros Hv Hnext Hpe t2. destruct tail_facts as (Hz&Hl&Hne&_&Hp2&_&Hbase).
  pose proof (geo_recs _ _ (tk_geo _ _ _ Ht)) as Hlen.
  destruct (rec_at (tk_geo _ _ _ Ht) last Hl) as [el Hel].
  set (f := fin e) in *. set (el' := hw HELP_UPDATE_ENTRY r el).
  assert (Ht2 : t2 = set_rec last el' (tail_state r f m2 t)).
  { unfold t2. replace (set_rec r f (tail_state r e2 m2 t)) with (tail_state r f m2 t)
      by (unfold tail_state, set_rec, upd; cbn; by rewrite list_insert_insert_eq).
    rewrite (settle_one _ _ el); [done|]. cbn [w_rec].
    change (recs (tail_state r f m2 t)) with (recs (set_rec r f t)). by rewrite set_rec_ne by (done || lia). }
  destruct (chain_last Ht h es Hes) as [pl Hpl]. destruct (view_Some _ _ _ Hpl) as (y&Hy&Hyv&_). assert (y = el) as -> by congruence.
  destruct (law_link r el) as (Hln&Hld&Hlp).
  exists (<[h := es ++ [r]]> ch). rewrite Ht2. split; [|split; [|split]].
  - apply (tail_state_ok Ht h es r x e2 m2 Hes Hr Hn Hset f el el'); [done|done| |done|by unfold el'; rewrite link_valid|done|].
    + by rewrite Hpe.
    + intros m. apply Hlp.
  - rewrite set_rec_ne by (done || lia). apply set_rec_eq. lia.
  - intros j Hj. rewrite (data_set_links last el).
    + change (data_at (tail_state r f m2 t) j) with (data_at (set_rec r f t) j). apply data_set_ne; [lia|done].
    + change (recs (tail_state r f m2 t)) with (recs (set_rec r f t)). by rewrite set_rec_ne by (done || lia).
    + done.
  - intros i es0 Hi. destruct (decide (i = h)) as [->|Hih].
    + exists [r]. rewrite lookup_insert_eq. congruence.
    + exists []. by rewrite app_nil_r, lookup_insert_ne.
Qed.

Lemma tail_undo :
  table_ok size (erase_state r (tail_state r e2 m2 t)) ch /\ recs (erase_state r (tail_state r e2 m2 t)) = recs t.
Proof using Ht Hes Hr Hn Hset Hnext_h Hnext_t HL.
  destruct tail_facts as (Hz&_). pose proof (geo_base _ _ (tk_geo _ _ _ Ht)). destruct counts_word as [_ Hw].
  rewrite erase_tail_undo by (done || lia). split; [|done]. by apply (meta_only_ok Ht h es r x e2 m2).
Qed.

Lemma grown_tail :
  exists ws fin, grown r (tail_state r e2 m2 t) ws e2 fin /\
    tail_cmds (t := t) c hs data (last_of h es) r = push_all t hs ws c.
Proof using Ht Hes Hr Hn Hset Hnext_h Hnext_t HL.
  destruct tail_facts as (Hz&Hl&Hne&Hnx&Hp2&Hd2&Hbase). pose proof (geo_recs _ _ (tk_geo _ _ _ Ht)) as Hlen.
  assert (Hrec : forall e, zget (recs (set_rec r e (tail_state r e2 m2 t))) r = Some e)
    by (intros e; apply set_rec_eq; unfold tail_state; cbn; rewrite zlen_insert; lia).
  assert (Hr2 : zget (recs (tail_state r e2 m2 t)) r = Some e2)
    by (change (recs (tail_state r e2 m2 t)) with (recs (set_rec r e2 t)); apply set_rec_eq; lia).
  assert (Hdm : dims size (tail_state r e2 m2 t)) by (destruct (set_rec_dims _ r e2 t (tk_geo _ _ _ Ht)); by split).
  pose proof tail_undo as Hundo. revert Hd2. unfold new_tail, tail_cmds. case_bool_decide as Hm; intros Hd2.
  - exists [mkWrite HELP_UPDATE_ENTRY last r], id. split; [|done].
    split; [lia|done|done|done|by right|split; [by constructor; cbn|cbn; lia]|done|done|done|].
    intros e Hv Hnext Hpe. by apply (settle_tail e id).
  - exists [mkWrite HELP_UPDATE_HEAD r data; mkWrite HELP_UPDATE_ENTRY last r], (hw HELP_UPDATE_HEAD data).
    split; [|unfold push_all, push_dma, upd; cbn; by rewrite <- app_assoc].
    split; [lia|done|done|done|by left|split; [by repeat (constructor; [cbn; lia|])|cbn; lia]|done|done|done|].
    intros e Hv Hnext Hpe.
    change [?w1; ?w2] with ([w1] ++ [w2]). rewrite settle_app, (settle_one (mkWrite HELP_UPDATE_HEAD r data) _ e) by apply Hrec. cbn [w_help w_rec w_data].
    replace (set_rec r (hw HELP_UPDATE_HEAD data e) (set_rec r e (tail_state r e2 m2 t)))
      with (set_rec r (hw HELP_UPDATE_HEAD data e) (tail_state r e2 m2 t))
      by (unfold set_rec, upd; cbn; by rewrite !list_insert_insert_eq).
    by apply (settle_tail e (hw HELP_UPDATE_HEAD data)).
Qed.

End Tail.

(** An insertion that succeeds gives a new record that the commands complete. *)
Lemma added_grown o :
  added (t := t) (ch := ch) c hs h eh et data o ->
  (exists es, ch !! h = Some es /\ (forall j, base <= j < tot -> filled (t := t) j) /\ o = Done ((- 1, h, 0), mkT t c))
  \/ exists r t1 ws e1 fin,
      o = Done ((0, r, MakeEntryHdl t r), mkT t1 (push_all t hs ws c)) /\ grown r t1 ws e1 fin.
Proof using Ht Hh Hnext_h Hnext_t Hprev HL.
  intros [Hn|es r e2 m2 Hes Hr Hn Hset|es Hes Hfull].
  - right. eexists _, _, _, _, _. split; [|by apply grown_head]. done.
  - right. destruct (grown_tail es r e2 m2 Hes Hr Hn Hset) as (ws&fin&Hg&Hc).
    eexists _, _, ws, _, fin. split; [by rewrite Hc|exact Hg].
  - left. by exists es.
Qed.

End Grown.

(** ** Deletion *)

Section Removed.
Context {size : Z} {t : ipa_table E} {ch : gmap Z (list Z)} (Ht : table_ok size t ch).
Abbreviation base := (table_entries t).
Abbreviation tot := (table_entries t + expn_table_entries t).

Lemma relinked_data t1 n p t2 :
  relinked t1 n p t2 -> shape t2 = shape t1 /\ zlen (recs t2) = zlen (recs t1) /\ forall j, data_at t2 j = data_at t1 j.
Proof using HL.
  intros [?|en en' m' Hn Hen Hset]; [done|]. split; [done|]. split; [cbn; by rewrite zlen_insert|].
  intros j. change (data_at (_ <| meta := m' |>) j) with (data_at (set_rec n en' t1) j).
  apply (data_set_links n en); [done|by eapply law_set_data].
Qed.

(** Taking [i] out from behind its predecessor, which holds [el'] now. *)
Lemma unlink_core c h a i b el el' :
  ch !! h = Some (a ++ i :: b) ->
  let p := last_of h a in
  zget (recs t) p = Some el -> entry_is_valid el' = true -> entry_get_next_index el' = hd 0 b ->
  (forall m, entry_get_prev_index el' p m base = entry_get_prev_index el p m base) ->
  exists t3, ipa_table_delete_entry (iterator_at i (hd 0 b) p) false (mkT (set_rec p el' t) c) = Done (tt, mkT t3 c) /\
    table_ok size t3 (<[h := a ++ b]> ch) /\ shape t3 = shape t /\
    forall j, data_at t3 j = if decide (j = i) then Some (entry_data entry_zero) else data_at (set_rec p el' t) j.
Proof using Ht HL.
  intros Hh p Hel Hv Hnext Hprev. destruct (chain_split Ht h a i b Hh) as (pp&_&_&Hb&Hi&Hpi&Hp).
  pose proof (tk_geo _ _ _ Ht) as Hg. pose proof (geo_base _ _ Hg). pose proof (geo_recs _ _ Hg) as Hlen.
  assert (Hg1 : geometry size (set_rec p el' t)) by (split; [apply set_rec_dims, Hg|apply Hg]).
  assert (Hn : hd 0 b = 0 \/ base <= hd 0 b < tot).
  { destruct b as [|n b']; [by left|right]. by destruct (Hb n b' eq_refl) as (_&_&_&?). }
  destruct (relinked_exists size (set_rec p el' t) (hd 0 b) p Hg1 Hn) as [t2 Hrel].
  destruct (relinked_data _ _ _ _ Hrel) as (Hsh&Hl2&Hd2).
  assert (Hi1 : 0 <= i < zlen (recs (set_rec p el' t))) by (cbn; rewrite zlen_insert; lia).
  exists (erase_state i t2). split; [by apply delete_entry_run|]. split; [by eapply (remove_tail_ok Ht h a i b Hh el el')|].
  split; [by rewrite erase_shape|]. intros j. rewrite data_erase by (rewrite Hl2; lia). case_decide; [done|apply Hd2].
Qed.

(** The deletion of a record that does not head a list of several. *)
Lemma unlink_settled c i n p :
  view_of t i = Some (n, p) -> p <> 0 \/ n = 0 ->
  let w := if VALID_INDEX p then mkWrite HELP_UPDATE_ENTRY p n else mkWrite HELP_UPDATE_HEAD i 0 in
  exists t3 ch', ipa_table_delete_entry (iterator_at i n p) false (mkT (settle [w] t) c) = Done (tt, mkT t3 c) /\
    table_ok size t3 ch' /\ shape t3 = shape t /\
    (forall j, data_at t3 j = if decide (j = i) then Some (entry_data entry_zero) else data_at t j) /\
    (forall d es, ch !! d = Some es -> d <> i -> es <> [] -> d <> p \/ n <> 0 -> exists x es', ch' !! d = Some (x :: es')).
Proof using Ht HL.
  intros Hvi Hcase w. pose proof (tk_geo _ _ _ Ht) as Hg. pose proof (geo_recs _ _ Hg) as Hlen.
  destruct (view_range Ht _ _ _ Hvi) as (Hi&Hn&Hp). pose proof (tk_chains _ _ _ Ht) as Hok.
  unfold w. destruct (VALID_INDEX p) eqn:Vp.
  - apply VALID_INDEX_true in Vp. destruct (chain_tail _ _ _ _ Hok i n p Hvi Vp) as (h&a&b&Hh&->&->).
    destruct (rec_at Hg _ Hp) as [el Hel]. rewrite (settle_one _ _ el) by done. cbn [w_help w_rec w_data].
    destruct (chain_split Ht h a i b Hh) as (pp&Hvp&_&_&_&Hpi&_).
    destruct (view_Some _ _ _ Hvp) as (y&Hy&Hyv&_). assert (y = el) as -> by congruence.
    destruct (law_link (hd 0 b) el) as (Hln&Hld&Hlp).
    destruct (unlink_core c h a i b el (hw HELP_UPDATE_ENTRY (hd 0 b) el) Hh Hel) as (t3&Hrun&Hok3&Hsh&Hd);
      [by rewrite link_valid|done|intros m; apply Hlp|].
    exists t3, (<[h := a ++ b]> ch). split; [done|]. split; [done|]. split; [done|]. split.
    + intros j. rewrite Hd. case_decide; [done|]. by apply (data_set_links _ el).
    + intros d es Hd0 Hdi Hes Hor. destruct (decide (d = h)) as [->|Hdh].
      * rewrite lookup_insert_eq. destruct a as [|x a]; [|by eexists _, _].
        destruct b as [|x b]; [|by eexists _, _]. cbn in Hor. lia.
      * rewrite lookup_insert_ne by done. rewrite Hd0. destruct es; [done|]. by eexists _, _.
  - assert (p = 0) as -> by (unfold VALID_INDEX, IPA_TABLE_INVALID_ENTRY in Vp; lia).
    destruct Hcase as [?| ->]; [done|]. destruct (chain_head _ _ _ _ Hok i 0 Hvi) as (es&Hes&Hhd).
    assert (es = []) as ->.
    { destruct es as [|x es]; [done|]. pose proof (chain_range Ht i _ x Hes ltac:(right; by left)). cbn in Hhd. lia. }
    destruct (rec_at Hg i ltac:(lia)) as [e He]. rewrite (settle_one _ _ e) by done. cbn [w_help w_rec w_data].
    set (e' := hw HELP_UPDATE_HEAD 0 e).
    assert (Her : erase_state i (set_rec i e' t) = erase_state i t).
    { unfold erase_state. change (table_entries (set_rec i e' t)) with base.
      by destruct (i <? base); unfold set_rec, upd; cbn; rewrite list_insert_insert_eq. }
    exists (erase_state i t), (delete i ch). split; [|split; [by apply (remove_head_ok Ht)|split; [apply erase_shape|split]]].
    + rewrite (delete_entry_run (set_rec i e' t) (set_rec i e' t)); [by rewrite Her|by apply relinked_none|].
      cbn. rewrite zlen_insert. lia.
    + intros j. rewrite data_erase by lia. done.
    + intros d es Hd Hdi Hne _. rewrite lookup_delete_ne by done. rewrite Hd. destruct es; [done|]. by eexists _, _.
Qed.

(** A record replaced by one with the same links. *)
Lemma same_view_ok i e e' :
  zget (recs t) i = Some e -> entry_is_valid e = true -> entry_is_valid e' = true ->
  entry_get_next_index e' = entry_get_next_index e ->
  (forall m, entry_get_prev_index e' i m base = entry_get_prev_index e i m base) ->
  table_ok size (set_rec i e' t) ch.
Proof using Ht.
  intros Hi Hv Hv' Hn Hp. pose proof (rec_range (tk_geo _ _ _ Ht) i e Hi) as Hr. destruct Ht as [Hg Hok Hcnt Hbl]. split.
  - split; [apply set_rec_dims, Hg|apply Hg].
  - apply (chains_ok_ext _ _ (view_of t)); [|done]. intros j. destruct (decide (j = i)) as [->|Hj].
    + unfold view_of. rewrite set_rec_eq by (rewrite (geo_recs _ _ Hg); lia). rewrite Hi. cbn. rewrite Hv, Hv', Hn.
      change (meta (set_rec i e' t)) with (meta t). by rewrite Hp.
    + apply view_set_ne; [lia|done].
  - done.
  - apply blank_set; [lia|done|congruence].
Qed.

Lemma erase_both_swap i p t1 :
  0 <= p < table_entries t1 -> table_entries t1 <= i ->
  erase_state i (erase_state p t1) = erase_state p (erase_state i t1).
Proof using Type.
  intros Hp Hi. unfold erase_state.
  replace (p <? table_entries t1) with true by lia.
  change (table_entries (upd cur_tbl_cnt _ (set_rec p entry_zero t1))) with (table_entries t1).
  replace (i <? table_entries t1) with false by lia.
  change (table_entries (upd cur_expn_tbl_cnt _ (set_rec i entry_zero t1))) with (table_entries t1).
  replace (p <? table_entries t1) with true by lia. unfold set_rec, upd. cbn. rewrite list_insert_insert_ne by lia. done.
Qed.

(** The deletion of the only record behind a head that is not in use any more. *)
Lemma both_settled c i p :
  ch !! p = Some [i] ->
  let t1 := settle [mkWrite HELP_UPDATE_ENTRY p 0] t in
  exists t3, ipa_table_delete_entry (iterator_at i 0 p) true (mkT t1 c) = Done (tt, mkT t3 c) /\
    table_ok size t3 (delete p ch) /\ shape t3 = shape t /\
    forall j, data_at t3 j = if decide (j = i \/ j = p) then Some (entry_data entry_zero) else data_at t j.
Proof using Ht HL.
  intros Hp t1. destruct (chain_split Ht p [] i [] Hp) as (pp&Hvp&_&_&Hi&Hpi&Hpr). cbn [last_of] in *.
  destruct (ck_head _ _ _ _ (tk_chains _ _ _ Ht) p _ Hp) as (Hpb&_&_).
  pose proof (tk_geo _ _ _ Ht) as Hg. pose proof (geo_recs _ _ Hg) as Hlen.
  destruct (rec_at Hg p ltac:(lia)) as [el Hel]. unfold t1. rewrite (settle_one _ _ el) by done. cbn [w_help w_rec w_data].
  destruct (view_Some _ _ _ Hvp) as (y&Hy&Hyv&_). assert (y = el) as -> by congruence.
  destruct (law_link 0 el) as (Hln&Hld&Hlp). set (el' := hw HELP_UPDATE_ENTRY 0 el) in *.
  pose proof (remove_tail_ok Ht p [] i [] Hp el el' (set_rec p el' t) Hel ltac:(unfold el'; by rewrite link_valid) Hln
    (fun m => Hlp _ _ _) ltac:(by apply relinked_none)) as Hok1. cbn [app] in Hok1.
  pose proof (remove_head_ok Hok1 p ltac:(by rewrite lookup_insert_eq)) as Hok2. rewrite delete_insert_eq in Hok2.
  assert (Hl1 : zlen (recs (set_rec p el' t)) = tot) by (cbn; by rewrite zlen_insert).
  exists (erase_state i (erase_state p (set_rec p el' t))). split; [|split; [|split]].
  - apply delete_entry_both_run; [done|lia|lia].
  - rewrite erase_both_swap by (change (table_entries (set_rec p el' t)) with base; lia). done.
  - by rewrite !erase_shape.
  - intros j. rewrite data_erase by (rewrite erase_recs; cbn; rewrite !zlen_insert; lia).
    destruct (decide (j = i)) as [->|Hji]; [by rewrite decide_True by (by left)|].
    rewrite data_erase by lia. destruct (decide (j = p)) as [->|Hjp]; [by rewrite decide_True by (by right)|].
    rewrite decide_False by tauto. by apply (data_set_links p el).
Qed.

(** The deletion of a head that takes over the data of its successor. *)
Lemma head_settled c h s b el d :
  ch !! h = Some (s :: b) -> zget (recs t) h = Some el ->
  entry_is_valid (hw HELP_DELETE_HEAD d el) = true ->
  (forall m, entry_get_prev_index (hw HELP_DELETE_HEAD d el) h m base = entry_get_prev_index el h m base) ->
  let t1 := settle [mkWrite HELP_DELETE_HEAD h d; mkWrite HELP_UPDATE_ENTRY h (hd 0 b)] t in
  exists t3 ch', ipa_table_delete_entry (iterator_at s (hd 0 b) h) false (mkT t1 c) = Done (tt, mkT t3 c) /\
    table_ok size t3 ch' /\ shape t3 = shape t /\
    (forall j, data_at t3 j = if decide (j = s) then Some (entry_data entry_zero)
                              else if decide (j = h) then Some (entry_data (hw HELP_DELETE_HEAD d el)) else data_at t j) /\
    view_of t3 s = None.
Proof using Ht HL.
  intros Hh Hel Hv Hp t1. pose proof (zget_Some _ _ _ Hel) as Hr.
  destruct (chain_split Ht h [] s b Hh) as (pp&_&_&_&Hs&Hsh&_). cbn [last_of] in *.
  set (e1 := hw HELP_DELETE_HEAD d el) in *. set (el' := hw HELP_UPDATE_ENTRY (hd 0 b) e1).
  destruct (law_link (hd 0 b) e1) as (Hln&Hld&Hlp).
  assert (Ht1 : t1 = set_rec h el' t).
  { unfold t1. change [?w1; ?w2] with ([w1] ++ [w2]).
    rewrite settle_app, (settle_one (mkWrite HELP_DELETE_HEAD h d) _ el) by done. cbn [w_help w_rec w_data].
    rewrite (settle_one _ _ e1) by (by apply set_rec_eq). cbn [w_help w_rec w_data].
    unfold set_rec, upd. cbn. by rewrite list_insert_insert_eq. }
  rewrite Ht1. destruct (unlink_core c h [] s b el el' Hh Hel) as (t3&Hrun&Hok3&Hshp&Hd); cbn [last_of] in *.
  { unfold el'. by rewrite link_valid. }
  { done. }
  { intros m. unfold el'. by rewrite Hlp. }
  exists t3, (<[h := b]> ch). split; [done|]. split; [done|]. split; [done|]. split.
  - intros j. rewrite Hd. case_decide; [done|]. case_decide as Hj; [subst j; rewrite data_set_eq by done; by rewrite <- Hld|].
    apply data_set_ne; [lia|done].
  - apply view_data_zero. rewrite Hd. by rewrite decide_True.
Qed.

End Removed.
End Settle.
