(* ===== verification/IpaUnlink.v ===== *)
(** * Unlinking records whose list goes on

    In the tables whose records are rules, a record that heads a list of several
    cannot be taken out: the hardware is told to write an invalid protocol, and
    the record stays as a marked head until the records behind it are gone.
    [unlink_write] is the command that takes a record out; the lemmas say that,
    executed and followed by [ipa_table_delete_entry] where the code calls it,
    it removes exactly that record from the live ones. *)

From stdpp Require Import gmap.
From S2P Require Import Prelude IpaChain IpaTable IpaTableSpec IpaTableSettle.

Local Open Scope Z_scope.

(** [deleted] is the mark that the command [mark] leaves in a head. *)
Class ipa_mark_laws (E U : Type) `{HL : ipa_hw_laws E U} := {
  deleted : E -> bool;
  mark : Z;
  law_mark : forall e, let e' := hw HELP_DELETE_HEAD mark e in
    entry_is_valid e' = entry_is_valid e /\ entry_get_next_index e' = entry_get_next_index e /\ deleted e' = true /\
    forall i m b, entry_get_prev_index e' i m b = entry_get_prev_index e i m b;
  law_deleted_data : forall e, deleted (entry_data e) = deleted e;
}.

Section Unlink.
Context {E U : Type} `{HM : ipa_mark_laws E U}.
Implicit Types (t : ipa_table E) (e : E).

(** A record is live when the hardware matches it. *)
Definition live_rec (e : E) : bool := entry_is_valid e && negb (deleted e).

Definition alive_at (nd : Z -> option E) (i : Z) : option E :=
  e ← nd i; if live_rec e then Some e else None.

Lemma alive_at_Some nd i e : alive_at nd i = Some e <-> nd i = Some e /\ live_rec e = true.
Proof using Type.
  unfold alive_at. destruct (nd i) as [f|]; cbn; [|split; [done|by intros [? _]]].
  destruct (live_rec f) eqn:Hf; split; try done; [intros [= <-]; done|intros [[= ->] _]; done|intros [[= ->] ?]; congruence].
Qed.

(** Marked heads have records behind them. *)
Definition marked_heads (t : ipa_table E) (ch : gmap Z (list Z)) : Prop := forall i e,
  data_at t i = Some e -> entry_is_valid e = true -> live_rec e = false -> exists x es, ch !! i = Some (x :: es).

Section Record.
Context {size : Z} {t : ipa_table E} {ch : gmap Z (list Z)}.
Context (Ht : table_ok size t ch) (Hdead : marked_heads t ch).
Context (i : Z) (e : E) (Hi : zget (recs t) i = Some e).
Context (n p : Z) (Hv : view_of t i = Some (n, p)).
Abbreviation base := (table_entries t).
Abbreviation it := (iterator_at i n p).
Abbreviation settled ws := (settle ws t).

Definition unlink_write : hw_write :=
  if VALID_INDEX p then mkWrite HELP_UPDATE_ENTRY p n
  else if VALID_INDEX n then mkWrite HELP_DELETE_HEAD i mark
  else mkWrite HELP_UPDATE_HEAD i 0.

(** The record is no longer live, and the others are as before. *)
Definition unlinked (t5 : ipa_table E) : Prop :=
  exists ch5, table_ok size t5 ch5 /\ shape t5 = shape t /\
    (forall k, alive_at (data_at t5) k = if decide (k = i) then None else alive_at (data_at t) k) /\ marked_heads t5 ch5.

Lemma mark_data_live t' k f : zget (recs t') k = Some f -> data_at t' k = Some (entry_data f) /\ live_rec (entry_data f) = live_rec f.
Proof using Type. intros H. unfold data_at, live_rec. by rewrite H, law_data_valid, law_deleted_data. Qed.

Lemma zero_invalid : entry_is_valid (entry_data entry_zero) = false.
Proof using Type. by rewrite law_data_valid, law_zero. Qed.

Lemma dead_zero : live_rec (entry_data entry_zero) = false.
Proof using Type. unfold live_rec. by rewrite zero_invalid. Qed.

(** From the data of all records to the live ones. *)
Lemma gone_intro t5 ch5 (gone : Z -> Prop) `{!forall k, Decision (gone k)} z :
  table_ok size t5 ch5 -> shape t5 = shape t -> gone i -> live_rec z = false ->
  (forall k, gone k -> k <> i -> alive_at (data_at t) k = None) ->
  (forall k, data_at t5 k = if decide (gone k) then Some z else data_at t k) ->
  (forall k es, ch !! k = Some es -> es <> [] -> ~ gone k -> alive_at (data_at t) k = None -> exists x es', ch5 !! k = Some (x :: es')) ->
  (entry_is_valid z = true -> forall k, gone k -> exists x es', ch5 !! k = Some (x :: es')) ->
  unlinked t5.
Proof using Hdead.
  clear Hi Hv. intros Hok Hsh Hgi Hz Hg Hd Hch Hgz. exists ch5. split; [done|]. split; [done|]. split.
  - intros k. unfold alive_at at 1. rewrite Hd. destruct (decide (gone k)) as [Hgk|Hgk].
    + cbn. rewrite Hz. case_decide as Hki; [done|]. symmetry. by apply Hg.
    + case_decide as Hki; [by subst k|done].
  - intros k f Hk Hen Hl. rewrite Hd in Hk. destruct (decide (gone k)) as [Hgk|Hgk].
    + injection Hk as <-. by apply Hgz.
    + destruct (Hdead k f Hk Hen Hl) as (x&es&Hes). apply (Hch k _ Hes); [done|done|].
      unfold alive_at. rewrite Hk. cbn. by rewrite Hl.
Qed.

Lemma unlink_prev : VALID_INDEX p = true -> exists ep, zget (recs t) p = Some ep /\ entry_is_valid ep = true /\
  zget (recs (settled [unlink_write])) p = Some (hw HELP_UPDATE_ENTRY n ep).
Proof using Ht Hv.
  intros Vp. destruct (view_range Ht _ _ _ Hv) as (_&_&Hp). destruct (rec_at (tk_geo _ _ _ Ht) p Hp) as [ep Hep].
  pose proof (proj1 (VALID_INDEX_true p) Vp) as Hp0.
  destruct (chain_tail _ _ _ _ (tk_chains _ _ _ Ht) i n p Hv Hp0) as (h&a&b&Hh&Hpl&_).
  destruct (chain_split Ht h a i b Hh) as (pp&Hvp&_). rewrite <- Hpl in Hvp.
  destruct (view_Some _ _ _ Hvp) as (y&Hy&Hyv&_). assert (y = ep) as -> by congruence.
  exists ep. split; [done|]. split; [done|]. unfold unlink_write. rewrite Vp, (settle_one _ _ ep) by done.
  apply set_rec_eq. exact (zget_Some _ _ _ Hep).
Qed.

Lemma delete_entry_flag t1 c b :
  VALID_INDEX n = true ->
  ipa_table_delete_entry it b (mkT t1 c) = ipa_table_delete_entry it false (mkT t1 c).
Proof using Type. intros Hn. unfold ipa_table_delete_entry, iterator_at. cbn [next_index next_entry prev_index prev_entry curr_index]. by rewrite Hn. Qed.

(** One record is unlinked. *)
Lemma unlink_gone c :
  VALID_INDEX p = true \/ n = 0 -> (VALID_INDEX p = true -> n = 0 -> exists f, alive_at (data_at t) p = Some f) ->
  exists t5, unlinked t5 /\
    ipa_table_delete_entry it false (mkT (settled [unlink_write]) c) = Done (tt, mkT t5 c).
Proof using Ht Hdead Hv.
  clear Hi. intros Hcase Hlp.
  destruct (unlink_settled Ht c i n p Hv) as (t5&ch5&Hrun&Hok&Hsh&Hd&Hch).
  { destruct Hcase as [Vp| ->]; [left; by apply VALID_INDEX_true|by right]. }
  exists t5. split.
  - apply (gone_intro t5 ch5 (fun k => k = i) (entry_data entry_zero) Hok Hsh); try (done || apply dead_zero || by rewrite zero_invalid).
    intros k es Hes Hne Hki Hl. apply (Hch k es Hes Hki Hne). destruct (decide (k = p)) as [->|]; [|by left].
    right. intros Hn. destruct (VALID_INDEX p) eqn:Vp.
    + destruct (Hlp eq_refl Hn) as [f Hf]. congruence.
    + pose proof (chain_range Ht p es p Hes ltac:(by left)). unfold VALID_INDEX, IPA_TABLE_INVALID_ENTRY in Vp. lia.
  - rewrite <- Hrun. unfold unlink_write. destruct (VALID_INDEX p); [done|]. destruct Hcase as [?| ->]; done.
Qed.

(** The head of a list of several stays, with an invalid protocol. *)
Lemma head_gone : p = 0 -> n <> 0 -> unlinked (settled [unlink_write]).
Proof using All.
  intros Hp0 Hn0. pose proof (zget_Some _ _ _ Hi) as Hir. destruct (view_Some _ _ _ Hv) as (e'&He'&Hev&Hen&Hep).
  assert (e' = e) as -> by congruence.
  unfold unlink_write. rewrite Hp0. change (VALID_INDEX 0) with false. cbn iota.
  replace (VALID_INDEX n) with true by (symmetry; by apply VALID_INDEX_true). rewrite (settle_one _ _ e) by done.
  cbn [w_help w_rec w_data]. destruct (law_mark e) as (Hmv&Hmn&Hmd&Hmp). set (e'' := hw HELP_DELETE_HEAD _ e) in *.
  destruct (chain_head _ _ _ _ (tk_chains _ _ _ Ht) i n ltac:(by rewrite <- Hp0)) as (es&Hes&Hhd).
  assert (Hne : exists x es', es = x :: es') by (destruct es; [done|by eexists _, _]). destruct Hne as (x&es'&->).
  apply (gone_intro (set_rec i e'' t) ch (fun k => k = i) (entry_data e'')); try done.
  - apply (same_view_ok Ht i e); congruence || intros m; apply Hmp.
  - unfold live_rec. by rewrite law_deleted_data, Hmd, andb_false_r.
  - intros k. case_decide as Hk; [subst k; by apply data_set_eq|by apply data_set_ne; [lia|]].
  - intros k es0 Hk Hne _ _. rewrite Hk. destruct es0; [done|]. by eexists _, _.
  - intros _ k ->. by exists x, es'.
Qed.

(** The last record behind such a head takes the head with it. *)
Lemma both_gone c ep :
  VALID_INDEX p = true -> n = 0 -> zget (recs t) p = Some ep -> entry_is_valid ep = true -> live_rec ep = false ->
  exists t5, unlinked t5 /\
    ipa_table_delete_entry it true (mkT (settled [unlink_write]) c) = Done (tt, mkT t5 c).
Proof using Ht Hdead Hv.
  clear Hi. intros Vp Hn Hpp Hpe Hpl. pose proof (mark_data_live t p ep Hpp) as [Hdp Hlp].
  destruct (Hdead p _ Hdp ltac:(by rewrite law_data_valid) ltac:(by rewrite Hlp)) as (y&ys&Hys).
  pose proof (proj1 (VALID_INDEX_true p) Vp) as Hp0. pose proof (tk_chains _ _ _ Ht) as Hok.
  destruct (chain_tail _ _ _ _ Hok i n p Hv Hp0) as (h&a&b&Hh&Hpl'&Hnb).
  destruct (ck_head _ _ _ _ Hok p _ Hys) as (Hpb&_&_). destruct (ck_head _ _ _ _ Hok h _ Hh) as (_&Hge&_).
  assert (Ha : a = []).
  { destruct (last_of_in h a) as [Hl|Hl]; [|apply Forall_app in Hge as [Hga _]; rewrite <- Hpl' in Hl;
      pose proof (proj1 (list.Forall_forall _ _) Hga p Hl) as Hpr; cbn in Hpr; lia].
    destruct a as [|z a]; [done|]. exfalso. rewrite <- Hpl' in Hl. pose proof (chain_NoDup _ _ _ _ Hok h _ Hh) as Hnd.
    rewrite <- Hl in Hnd. apply NoDup_cons in Hnd as [Hnin _]. apply Hnin. apply elem_of_app. left.
    rewrite Hpl'. destruct (last_of_in z a) as [Hz|Hz]; cbn [last_of]; [rewrite Hz; by left|by right]. }
  subst a. cbn [last_of app] in *. rewrite <- Hpl' in Hh.
  assert (Hb : b = []) by (destruct b as [|z b]; [done|]; pose proof (chain_range Ht p _ z Hh ltac:(right; right; by left)); cbn in Hnb; lia).
  rewrite Hb in Hh. destruct (both_settled Ht c i p Hh) as (t5&Hrun&Hok5&Hsh&Hd).
  assert (Hpi : p <> i) by (intros Heq; pose proof (chain_NoDup _ _ _ _ Hok p _ Hh) as Hnd; rewrite Heq in Hnd; apply NoDup_cons in Hnd as [Hnd _]; apply Hnd; by left).
  exists t5. split; [|rewrite <- Hrun; unfold unlink_write; by rewrite Vp, Hn].
  apply (gone_intro t5 (delete p ch) (fun k => k = i \/ k = p) (entry_data entry_zero)); try (done || apply dead_zero || by rewrite zero_invalid); [by left|..].
  - intros k [?|Hk] Hki; [done|]. subst k. destruct (alive_at (data_at t) p) as [f|] eqn:Hf; [|done].
    apply alive_at_Some in Hf as [Hf1 Hf2]. congruence.
  - intros k es Hk Hne Hg _. rewrite lookup_delete_ne by (intros ->; apply Hg; by right). rewrite Hk. destruct es; [done|]. by eexists _, _.
Qed.

(** The table after the command was executed, in all cases of the deletion of
    a rule. *)
Lemma unlink_run c :
  let t4 := settled [unlink_write] in
  let flag := if VALID_INDEX p then match zget (recs t4) p with Some r => deleted r | None => false end else false in
  exists t5, unlinked t5 /\
    if ipa_table_iterator_is_head_with_tail it then t5 = t4
    else ipa_table_delete_entry it flag (mkT t4 c) = Done (tt, mkT t5 c).
Proof using All.
  intros t4 flag. unfold ipa_table_iterator_is_head_with_tail. cbn [next_index prev_index iterator_at].
  destruct (VALID_INDEX p) eqn:Vp; [rewrite andb_false_r|rewrite andb_true_r].
  - destruct (unlink_prev Vp) as (ep&Hpp&Hpv&Hp4). subst flag. fold t4 in Hp4. rewrite Hp4.
    pose proof (mark_data_live t p ep Hpp) as [Hdp Hlp]. destruct (law_link n ep) as (_&Hld&_).
    assert (Hpl : deleted (hw HELP_UPDATE_ENTRY n ep) = negb (live_rec ep)).
    { rewrite <- law_deleted_data, Hld, law_deleted_data. unfold live_rec. rewrite Hpv, andb_true_l. by rewrite negb_involutive. }
    rewrite Hpl. destruct (live_rec ep) eqn:Hl; cbn [negb].
    + apply unlink_gone; [by left|]. intros _ _. exists (entry_data ep). apply alive_at_Some. by rewrite Hlp.
    + destruct (VALID_INDEX n) eqn:Vn.
      * rewrite delete_entry_flag by done. apply unlink_gone; [by left|]. intros _ Hn. by rewrite Hn in Vn.
      * apply (both_gone c ep); [done| |done..]. unfold VALID_INDEX, IPA_TABLE_INVALID_ENTRY in Vn. lia.
  - assert (Hp0 : p = 0) by (unfold VALID_INDEX, IPA_TABLE_INVALID_ENTRY in Vp; lia).
    destruct (VALID_INDEX n) eqn:Vn; cbn [negb].
    + exists t4. split; [|done]. apply head_gone; [done|by apply VALID_INDEX_true].
    + apply unlink_gone; [right; unfold VALID_INDEX, IPA_TABLE_INVALID_ENTRY in Vn; lia|congruence].
Qed.

(** The command the library makes is [unlink_write]. *)
Lemma unlink_cmd (hs : dma_helps) (en : E) :
  entry_get_delete_head_dma_command_data e en = mark -> delete_cmd (t := t) hs i n p e en = write_cmd t hs unlink_write.
Proof using Type. intros Hm. unfold delete_cmd, unlink_write. rewrite Hm. by destruct (VALID_INDEX p), (VALID_INDEX n). Qed.

Lemma unlink_range : 0 <= w_rec unlink_write < table_entries t + expn_table_entries t.
Proof using Ht Hv.
  destruct (view_range Ht _ _ _ Hv) as (Hir&_&Hpr). unfold unlink_write. destruct (VALID_INDEX p), (VALID_INDEX n); cbn [w_rec]; lia.
Qed.

End Record.
End Unlink.
