(* ===== verification/IpaSystem.v ===== *)
(** * The system behind the translation library

    The calls that the library makes have results from outside; they are
    numbered, and their results are a parameter.  On them stand the memory
    descriptors of [dataipa/ipanat/src/ipa_mem_descriptor.c] and the opening of
    the device in [ipa_nat_utils.c], for every state that counts its calls. *)

From S2P Require Import Prelude.

Local Open Scope Z_scope.

(** ** Calls *)

(** The results of the calls in their order (0 is success), and what the
    successful ones return. *)
Record ipa_calls := mkCalls {
  sys_ret : nat -> Z;
  hw_new : bool;
  sram_mem_available_for_nat : Z;
  best_nat_in_sram_size_rqst : Z;
  nat_table_offset_into_mmap : Z;
  table_offset : Z;
  mmap_addr_of : Z -> Z;
}.

(** A state that counts the calls made; [ticks k] is the state [k] calls later. *)
Class Caller (St : Type) := {
  calls : St -> ipa_calls;
  call_count : St -> nat;
  ticks : nat -> St -> St;
  calls_ticks : forall k s, calls (ticks k s) = calls s;
  count_ticks : forall k s, call_count (ticks k s) = (k + call_count s)%nat;
  ticks_ticks : forall j k s, ticks j (ticks k s) = ticks (j + k) s;
}.

(** ** Memory descriptors *)

Record ipa_mem_descriptor := mkMemDesc {
  orig_rqst_size : Z;
  mmap_size : Z;
  mem_base_addr : Z;
  addr_offset : Z;
  mem_table_index : Z;
  consider_using_sram : bool;
  sram_available : bool;
  sram_to_be_used : bool;
  valid : bool;
}.

#[export] Instance eta_mem_desc : Eta ipa_mem_descriptor.
Proof.
  refine (mkEta _ (fun d => mkMemDesc (orig_rqst_size d) (mmap_size d) (mem_base_addr d) (addr_offset d)
    (mem_table_index d) (consider_using_sram d) (sram_available d) (sram_to_be_used d) (valid d)) _).
  by intros [].
Defined.

Definition zero_mem_desc : ipa_mem_descriptor := mkMemDesc 0 0 0 0 0 false false false false.

Section Calls.
Context {St : Type} `{HC : Caller St}.

(** The result of the next call. *)
Definition sys_call : M St Z := fun s => Done (sys_ret (calls s) (call_count s), ticks 1 s).

(** The mutexes are recursive: locking one does not block its owner. *)
Definition pthread_mutex_lock : M St Z := sys_call.
Definition pthread_mutex_unlock : M St Z := sys_call.

Definition ipa_mem_descriptor_init (size table_index : Z) (consider : bool) (d : ipa_mem_descriptor)
    : ipa_mem_descriptor :=
  d <| orig_rqst_size := size |> <| mmap_size := size |> <| mem_table_index := table_index |>
    <| consider_using_sram := consider |>.

Definition AllocateMemory (d : ipa_mem_descriptor) : M St (Z * ipa_mem_descriptor) :=
  s ← getM;
  let d := d <| sram_available := false |> <| sram_to_be_used := false |> in
  ret ← sys_call;
  let d := if ret =? 0 then
             let d := d <| sram_available := true |> in
             if consider_using_sram d && (orig_rqst_size d <=? sram_mem_available_for_nat (calls s))
             then d <| sram_to_be_used := true |> else d
           else d in
  ret ← sys_call;
  if truthy ret then mret (ret, d) else mret (0, d <| addr_offset := table_offset (calls s) |>).

(** Opening the device, mapping and closing are three calls. *)
Definition MapMemory (d : ipa_mem_descriptor) : M St (Z * ipa_mem_descriptor) :=
  s ← getM;
  ret ← sys_call;
  if truthy ret then mret (- EIO, d) else
  let size := if sram_to_be_used d then best_nat_in_sram_size_rqst (calls s) else orig_rqst_size d in
  let d := d <| mmap_size := size |> in
  mapped ← sys_call;
  let '(ret, d) :=
    if truthy mapped then (- EINVAL, d)
    else (0, d <| mem_base_addr := mmap_addr_of (calls s) size +
                    if sram_to_be_used d then nat_table_offset_into_mmap (calls s) else 0 |>) in
  closed ← sys_call;
  mret (if truthy closed then - EINVAL else ret, d).

Definition DeallocateMemory (d : ipa_mem_descriptor) : M St Z := sys_call.

Definition ipa_mem_descriptor_allocate_memory (d : ipa_mem_descriptor) : M St (Z * ipa_mem_descriptor) :=
  '(ret, d) ← AllocateMemory d;
  if truthy ret then mret (ret, d) else
  '(ret, d) ← MapMemory d;
  if truthy ret then DeallocateMemory d ;; mret (ret, d) else mret (0, d <| valid := true |>).

Definition ipa_mem_descriptor_delete (d : ipa_mem_descriptor) : M St (Z * ipa_mem_descriptor) :=
  if negb (valid d) then mret (- EINVAL, d) else
  let d := d <| valid := false |> in
  ret ← DeallocateMemory d; mret (ret, d).

(** The descriptor of the device: allocation, opening, the version. *)
Definition ipa_descriptor_open : M St (option bool) :=
  s ← getM;
  alloc ← sys_call;
  if truthy alloc then mret None else
  fd ← sys_call;
  if truthy fd then mret None else
  ver ← sys_call;
  mret (Some ((ver =? 0) && hw_new (calls s))).

End Calls.

(** ** A system that reports no failure *)

Definition no_failures (c : ipa_calls) : Prop := forall k, sys_ret c k = 0.

(** Calls that succeed, on new hardware, with the mapping at one address. *)
Definition quiet_calls (base : Z) : ipa_calls := mkCalls (fun _ => 0) true 0 0 0 0 (fun _ => base).

Section Success.
Context {St : Type} `{HC : Caller St}.
Implicit Types (s : St).

Lemma call_run s : no_failures (calls s) -> sys_call s = Done (0, ticks 1 s).
Proof using Type. intros H. unfold sys_call. by rewrite H. Qed.

Lemma call_then {B} s (k : Z -> M St B) : no_failures (calls s) -> (sys_call ≫= k) s = k 0 (ticks 1 s).
Proof using Type. intros H. unfold sys_call, mbind, M_bind. by rewrite H. Qed.

(** After [j] calls. *)
Lemma calls_then {B} j s (k : Z -> M St B) : no_failures (calls s) -> (sys_call ≫= k) (ticks j s) = k 0 (ticks (S j) s).
Proof using Type. intros H. rewrite call_then by (by rewrite calls_ticks). by rewrite ticks_ticks. Qed.

Lemma allocate_memory_run d s :
  no_failures (calls s) ->
  exists d', ipa_mem_descriptor_allocate_memory d s = Done ((0, d'), ticks 5 s) /\
    valid d' = true /\ addr_offset d' = table_offset (calls s).
Proof using Type.
  intros Hs. set (d1 := d <| sram_available := true |>
    <| sram_to_be_used := consider_using_sram d && (orig_rqst_size d <=? sram_mem_available_for_nat (calls s)) |>
    <| addr_offset := table_offset (calls s) |>).
  assert (Ha : AllocateMemory d s = Done ((0, d1), ticks 2 s)).
  { unfold AllocateMemory. rewrite getM_run. cbv zeta. rewrite call_then by done. cbn [Z.eqb]. cbv zeta.
    rewrite calls_then by done. change (truthy 0) with false. cbn iota. unfold d1. do 2 f_equal.
    cbn [orig_rqst_size consider_using_sram]. destruct d; unfold upd; cbn. by destruct (_ && _). }
  unfold ipa_mem_descriptor_allocate_memory. rewrite (bind_run _ _ _ _ _ Ha). change (truthy 0) with false. cbn iota.
  assert (Hm : exists d2, MapMemory d1 (ticks 2 s) = Done ((0, d2), ticks 5 s) /\ addr_offset d2 = addr_offset d1).
  { unfold MapMemory. rewrite getM_run, calls_then by done. change (truthy 0) with false. cbn iota. cbv zeta.
    rewrite calls_then by done. change (truthy 0) with false. cbn iota. rewrite calls_then by done.
    change (truthy 0) with false. cbn iota. eexists. split; [reflexivity|done]. }
  destruct Hm as (d2&Hm&Ho). rewrite (bind_run _ _ _ _ _ Hm). change (truthy 0) with false. cbn iota.
  exists (d2 <| valid := true |>). split; [done|]. split; [done|exact Ho].
Qed.

(** Opening the device takes three calls. *)
Lemma descriptor_open_run s :
  no_failures (calls s) -> ipa_descriptor_open s = Done (Some (hw_new (calls s)), ticks 3 s).
Proof using Type.
  intros Hs. unfold ipa_descriptor_open. rewrite getM_run, call_then by done. change (truthy 0) with false. cbn iota.
  rewrite calls_then by done. change (truthy 0) with false. cbn iota. by rewrite calls_then.
Qed.

End Success.
