(* ===== verification/IpaStoreSpec.v ===== *)
(** * An abstract store of records behind handles

    The contract that the clients of the chained tables have towards their
    users: records are added under handles that the store chooses, and deleted
    by them.  The file holds the handles of the records, the abstract store, and
    the refinement of its runs by a client that decides what to do next by what
    happened before, for every implementation whose single operations refine
    single steps. *)

From stdpp Require Import gmap.
From S2P Require Import Prelude IpaTable.

Local Open Scope Z_scope.

(** ** Handles *)

Lemma lor_disjoint a b : Z.land a b = 0 -> Z.lor a b = a + b.
Proof. intros H. pose proof (Z.add_lor_land a b). lia. Qed.

Lemma land_bit15 y mt : 0 <= y < 2 ^ 15 -> mt = 0 \/ mt = 1 -> Z.land y (Z.shiftl mt 15) = 0.
Proof.
  intros Hy [-> | ->]; [apply Z.land_0_r|]. apply Z.bits_inj'. intros k Hk.
  rewrite Z.land_spec, Z.bits_0, Z.shiftl_1_l, Z.pow2_bits_eqb by done.
  destruct (Z.eqb_spec 15 k) as [<-|]; [|by rewrite andb_false_r].
  rewrite Z.testbit_odd, Z.shiftr_div_pow2, Z.div_small by lia. done.
Qed.

(** The index of a record in its part, and the part, as a handle holds them. *)
Definition handle_word (mt x is_expn : Z) : Z := 2 * x + is_expn + 32768 * mt.

Lemma handle_word_fields mt x b :
  0 <= x < 4096 -> b = 0 \/ b = 1 -> mt = 0 \/ mt = 1 ->
  let h := handle_word mt x b in
  Z.land (Z.shiftr h 15) 1 = mt /\ Z.land h 1 = b /\ Z.land (Z.shiftr h 1) 4095 = x.
Proof.
  intros Hx Hb Hm h. assert (H1 : forall y, Z.land y 1 = y mod 2) by (intros; apply (Z.land_ones y 1); lia).
  assert (H12 : forall y, Z.land y 4095 = y mod 4096) by (intros; apply (Z.land_ones y 12); lia).
  rewrite H1, H1, H12, !Z.shiftr_div_pow2 by lia. change (2 ^ 15) with 32768. change (2 ^ 1) with 2. unfold h, handle_word.
  destruct Hb as [-> | ->], Hm as [-> | ->]; (split; [|split]); Z.to_euclidean_division_equations; lia.
Qed.

Lemma MakeEntryHdl_word {E} (t : ipa_table E) i :
  2 <= table_entries t <= 4096 -> 0 < expn_table_entries t <= 4096 -> nmi t = 0 \/ nmi t = 1 ->
  0 <= i < table_entries t + expn_table_entries t ->
  MakeEntryHdl t i = (if table_entries t <=? i then handle_word (nmi t) (i - table_entries t) 1 else handle_word (nmi t) i 0).
Proof.
  intros Hb He Hm Hi. unfold MakeEntryHdl, IPA_TABLE_TYPE_BITS, IPA_TABLE_TYPE_MASK, IPA_TABLE_TYPE_MEM_SHIFT.
  assert (Hs : forall x, Z.shiftl x 1 = 2 * x) by (intros x; rewrite Z.shiftl_mul_pow2; lia). rewrite !Hs.
  assert (Hmt : Z.shiftl (nmi t) 15 = 32768 * nmi t) by (rewrite Z.shiftl_mul_pow2; lia).
  destruct (Z.leb_spec (table_entries t) i); unfold handle_word.
  - wsmall. assert (Hl : Z.lor (2 * (i - table_entries t)) 1 = 2 * (i - table_entries t) + 1).
    { apply lor_disjoint. change 1 with (Z.ones 1). rewrite Z.land_ones by lia. change (2 ^ 1) with 2. Z.to_euclidean_division_equations; lia. }
    rewrite Hl, lor_disjoint by (apply land_bit15; [lia|done]). rewrite Hmt. wsmall. lia.
  - wsmall. rewrite lor_disjoint by (apply land_bit15; [lia|done]). rewrite Hmt. wsmall. lia.
Qed.

Lemma handle_roundtrip {E} (t : ipa_table E) i :
  2 <= table_entries t <= 4096 -> 0 < expn_table_entries t <= 4096 -> nmi t = 0 \/ nmi t = 1 ->
  0 <= i < table_entries t + expn_table_entries t ->
  is_word 16 (MakeEntryHdl t i) /\
  BREAK_RULE_HDL t (MakeEntryHdl t i) = (nmi t, (if table_entries t <=? i then 1 else 0), i).
Proof.
  intros Hb He Hm Hi. rewrite MakeEntryHdl_word by done. unfold BREAK_RULE_HDL, IPA_TABLE_TYPE_BITS, IPA_TABLE_TYPE_MASK,
    IPA_TABLE_TYPE_MEM_SHIFT, IPA_TABLE_INDX_MASK.
  destruct (Z.leb_spec (table_entries t) i).
  - destruct (handle_word_fields (nmi t) (i - table_entries t) 1) as (->&->&->); [lia|by right|done|].
    split; [unfold is_word, handle_word; lia|]. cbn [truthy Z.eqb negb]. wsmall. do 2 f_equal. lia.
  - destruct (handle_word_fields (nmi t) i 0) as (->&->&->); [lia|by left|done|].
    split; [unfold is_word, handle_word; lia|]. cbn [truthy Z.eqb negb]. wsmall. do 2 f_equal. lia.
Qed.

(** The index in a handle depends on the size of the base part only. *)
Definition handle_index (base hdl : Z) : Z :=
  (BREAK_RULE_HDL ((ipa_table_init (E := unit) 0 0 None 0) <| table_entries := base |>) hdl).2.

Lemma handle_index_table {E} (t : ipa_table E) hdl :
  exists a b, BREAK_RULE_HDL t hdl = (a, b, handle_index (table_entries t) hdl).
Proof. by eexists _, _. Qed.

(** C26: The handle of a record gives back its memory, its part and its index,
    for a table of up to 4096 base and 4096 expansion records in either memory:
    different records have different handles, and a client that knows the size
    of the base part finds the index. *)
Theorem entry_handle_roundtrip {E} (t : ipa_table E) i :
  2 <= table_entries t <= 4096 -> 0 < expn_table_entries t <= 4096 -> nmi t = 0 \/ nmi t = 1 ->
  0 <= i < table_entries t + expn_table_entries t ->
  is_word 16 (MakeEntryHdl t i) /\
  BREAK_RULE_HDL t (MakeEntryHdl t i) = (nmi t, (if table_entries t <=? i then 1 else 0), i) /\
  handle_index (table_entries t) (MakeEntryHdl t i) = i.
Proof.
  intros Hb He Hm Hi. destruct (handle_roundtrip t i Hb He Hm Hi) as [Hw Hh]. split; [done|]. split; [done|].
  destruct (handle_index_table t (MakeEntryHdl t i)) as (x&y&Hxy). congruence.
Qed.

Lemma entry_handle_roundtrip_witness :
  let t := (ipa_table_init (E := unit) 1 32 None 0) <| table_entries := 4096 |> <| expn_table_entries := 1024 |> in
  is_word 16 (MakeEntryHdl t 5119) /\ BREAK_RULE_HDL t (MakeEntryHdl t 5119) = (1, 1, 5119) /\
  handle_index 4096 (MakeEntryHdl t 5119) = 5119.
Proof.
  refine (entry_handle_roundtrip ((ipa_table_init (E := unit) 1 32 None 0) <| table_entries := 4096 |>
    <| expn_table_entries := 1024 |>) 5119 _ _ _ _); cbn; lia.
Defined.

(** The handle of the record [i] of a table with a base part of [base] records. *)
Definition entry_hdl (mt base i : Z) : Z := if base <=? i then handle_word mt (i - base) 1 else handle_word mt i 0.

(** The handles of the records of such a table; record 0 has none. *)
Definition is_handle (mt base expn h : Z) : Prop := exists i, 0 < i < base + expn /\ h = entry_hdl mt base i.

Section Handles.
Context (mt base expn : Z).
Context (Hb : 2 <= base <= 4096) (He : 0 < expn <= 4096) (Hm : mt = 0 \/ mt = 1).

Lemma entry_hdl_index i : 0 <= i < base + expn -> handle_index base (entry_hdl mt base i) = i.
Proof using Hb He Hm.
  intros Hi. unfold handle_index, entry_hdl, BREAK_RULE_HDL, IPA_TABLE_TYPE_BITS, IPA_TABLE_TYPE_MASK, IPA_TABLE_TYPE_MEM_SHIFT, IPA_TABLE_INDX_MASK.
  change (table_entries _) with base. destruct (Z.leb_spec base i).
  - destruct (handle_word_fields mt (i - base) 1) as (->&->&->); [lia|by right|done|]. cbn [truthy Z.eqb negb]. wsmall. cbn. lia.
  - destruct (handle_word_fields mt i 0) as (->&->&->); [lia|by left|done|]. cbn [truthy Z.eqb negb]. wsmall. cbn. lia.
Qed.

Lemma entry_hdl_pos i : 0 < i < base + expn -> 0 < entry_hdl mt base i.
Proof using Hb He Hm. intros Hi. unfold entry_hdl, handle_word. destruct (base <=? i) eqn:?; lia. Qed.

Lemma is_handle_index h : is_handle mt base expn h -> h = entry_hdl mt base (handle_index base h) /\ 0 < h.
Proof using Hb He Hm. intros (i&Hi&->). rewrite entry_hdl_index by lia. split; [done|by apply entry_hdl_pos]. Qed.

(** The memory of a record is a bit of its handle. *)
Lemma is_handle_memory h : is_handle mt base expn h -> Z.land (Z.shiftr h 15) 1 = mt.
Proof using Hb He Hm.
  intros (i&Hi&->). unfold entry_hdl. destruct (Z.leb_spec base i).
  - by destruct (handle_word_fields mt (i - base) 1) as (->&_); [lia|by right|done|].
  - by destruct (handle_word_fields mt i 0) as (->&_); [lia|by left|done|].
Qed.

End Handles.

(** ** Runs of a client

    A user chooses the operations by what happened before; an implementation
    whose single operations refine single steps refines the runs. *)

Section Runs.
Context {Op Res Abs : Type} (step : Abs -> Op -> Res -> Abs -> Prop).
Abbreviation history := (list (Op * Res)).

Inductive steps (m : Abs) : history -> Abs -> Prop :=
| run_nil : steps m [] m
| run_snoc h op res m1 m2 : steps m h m1 -> step m1 op res m2 -> steps m (h ++ [(op, res)]) m2.

Context {St : Type} (run_op : Op -> M St Res).

Fixpoint run_client (client : history -> Op) (k : nat) (h : history) : M St history :=
  match k with
  | O => mret h
  | S k' => res ← run_op (client h); run_client client k' (h ++ [(client h, res)])
  end.

(** The histories that a client can have. *)
Inductive follows (client : history -> Op) : history -> Prop :=
| follows_nil : follows client []
| follows_snoc h res : follows client h -> follows client (h ++ [(client h, res)]).

Lemma steps_snoc_inv m h op res m2 : steps m (h ++ [(op, res)]) m2 -> exists m1, steps m h m1 /\ step m1 op res m2.
Proof using Type.
  intros H. inversion H as [Hnil|h' op' res' m1 m3 Hrun Hstep Heq]; [by destruct h|].
  apply app_inj_tail in Heq as [-> [= -> ->]]. by exists m1.
Qed.

Context (inv : St -> Abs -> Prop) (allowed : Abs -> Op -> Prop).
Context (Hstep : forall n m op, inv n m -> allowed m op ->
  exists res n' m', run_op op n = Done (res, n') /\ step m op res m' /\ inv n' m').

Lemma client_refines client m0 n k :
  inv n m0 -> (forall h m, steps m0 h m -> follows client h -> (length h < k)%nat -> allowed m (client h)) ->
  exists h n' m, run_client client k [] n = Done (h, n') /\ length h = k /\ steps m0 h m /\ inv n' m.
Proof using Hstep.
  intros Hok Hclient.
  cut (forall j h m n, steps m0 h m -> follows client h -> inv n m -> (length h + j = k)%nat ->
    exists h' n' m', run_client client j h n = Done (h', n') /\ length h' = k /\ steps m0 h' m' /\ inv n' m').
  { intros H. exact (H k [] m0 n (run_nil _) (follows_nil _) Hok eq_refl). }
  clear n Hok. intros j. induction j as [|j IH]; intros h m n Hh Hf Hok Hk.
  - exists h, n, m. split; [done|]. split; [lia|done].
  - cbn [run_client]. destruct (Hstep n m (client h) Hok (Hclient h m Hh Hf ltac:(lia))) as (res&n'&m'&Hrun&Hres&Hok').
    rewrite (bind_run _ _ _ _ _ Hrun). apply (IH _ m'); [by eapply run_snoc|by apply follows_snoc|done|]. rewrite length_app. cbn. lia.
Qed.

End Runs.

(** ** The abstract store *)

Lemma many_keys {A} (m : gmap Z A) (l : list Z) :
  NoDup l -> (forall k, k ∈ l -> exists x, m !! k = Some x) -> Z.of_nat (length l) <= Z.of_nat (size m).
Proof.
  intros Hnd Hin. rewrite <- size_dom. rewrite <- (size_list_to_set (C := gset Z) l Hnd).
  apply inj_le, subseteq_size. intros k Hk. apply elem_of_list_to_set in Hk. destruct (Hin k Hk) as [x Hx].
  apply elem_of_dom. by exists x.
Qed.

Inductive store_op (U : Type) :=
| AddRule (u : U)
| DeleteRule (hdl : Z).
Arguments AddRule {U}.
Arguments DeleteRule {U}.

(** A kind of store: the data of the user that its interface refuses before it
    looks at the table, the record that it keeps, and what a user may ask for. *)
Record store_kind (U R : Type) := mkKind {
  refuses : U -> bool;
  stores : U -> option R;
  accepts : U -> Prop;
}.
Arguments mkKind {U R}.
Arguments refuses {U R}.
Arguments stores {U R}.
Arguments accepts {U R}.

Section Store.
Context {U R : Type} (K : store_kind U R) (base expn : Z).
Abbreviation history := (list (store_op U * (Z * Z))).

(** One operation on the map of records, with its return value and handle; a
    store is never full before it has as many records as its expansion part. *)
Inductive store_step (m : gmap Z R) : store_op U -> Z * Z -> gmap Z R -> Prop :=
| step_refused u : refuses K u = true -> store_step m (AddRule u) (- EINVAL, 0) m
| step_stored u hdl r :
    refuses K u = false -> m !! handle_index base hdl = None -> stores K u = Some r ->
    store_step m (AddRule u) (0, hdl) (<[handle_index base hdl := r]> m)
| step_full u : refuses K u = false -> expn <= Z.of_nat (size m) -> store_step m (AddRule u) (- 1, 0) m
| step_deleted hdl r :
    m !! handle_index base hdl = Some r -> store_step m (DeleteRule hdl) (0, 0) (delete (handle_index base hdl) m).

Abbreviation store_run := (steps store_step).

(** A user deletes records that are there, each once. *)
Definition op_allowed (m : gmap Z R) (op : store_op U) : Prop :=
  match op with
  | AddRule u => accepts K u
  | DeleteRule hdl => exists r, m !! handle_index base hdl = Some r
  end.

(** A user who adds the same data again and again, and deletes each record
    right after it was added. *)
Definition toggling_client (u : U) (h : history) : store_op U :=
  match last h with
  | Some (AddRule _, (0, hdl)) => DeleteRule hdl
  | _ => AddRule u
  end.

Lemma toggling_client_allowed u m0 h m : accepts K u -> store_run m0 h m -> op_allowed m (toggling_client u h).
Proof using Type.
  intros Hu [|h' op res m1 m2 Hrun Hstep]; [done|]. unfold toggling_client. rewrite last_snoc.
  destruct Hstep; try done. eexists. apply lookup_insert_eq.
Qed.

End Store.

Abbreviation store_run K base expn := (steps (store_step K base expn)).
