(* ===== verification/IpaNat.v ===== *)
(** * The address-translation tables

    [dataipa/ipanat/src/ipa_nat_drvi.c]: the records of the translation table
    and of its index table, the checksum differences and hashes, the addresses
    of the packet-data networks, and the operations that create a table and add
    and delete rules.

    A rule is added in two steps: the software fills the record, and the fields
    that the hardware reads while it walks the lists (flags, links, protocol)
    are written by the hardware itself on a DMA command. *)

From S2P Require Import Prelude IpaTable IpaSystem.

Local Open Scope Z_scope.

(** ** Records *)

Record ipa_nat_rule := mkRule {
  private_ip : Z;
  target_ip : Z;
  rule_next_index : Z;
  public_port : Z;
  private_port : Z;
  target_port : Z;
  ip_chksum : Z;
  uc_activation_index : Z;
  s_bit : Z;
  redirect : Z;
  enable : Z;
  time_stamp : Z;
  protocol : Z;
  rule_prev_index : Z;
  indx_tbl_entry : Z;
  rsvd2 : Z;
  rsvd3 : Z;
  dst_only : Z;
  src_only : Z;
  ucp : Z;
  pdn_index : Z;
  tcp_udp_chksum : Z;
}.

#[export] Instance eta_nat_rule : Eta ipa_nat_rule.
Proof.
  refine (mkEta _ (fun r => mkRule (private_ip r) (target_ip r) (rule_next_index r) (public_port r)
    (private_port r) (target_port r) (ip_chksum r) (uc_activation_index r) (s_bit r) (redirect r) (enable r)
    (time_stamp r) (protocol r) (rule_prev_index r) (indx_tbl_entry r) (rsvd2 r) (rsvd3 r) (dst_only r)
    (src_only r) (ucp r) (pdn_index r) (tcp_udp_chksum r)) _).
  by intros [].
Defined.

Definition zero_rule : ipa_nat_rule :=
  mkRule 0 0 0 0 0 0 0 0 0 0 0 0 0 0 0 0 0 0 0 0 0 0.

Record ipa_nat_indx_tbl_rule := mkIndexRule {
  tbl_entry : Z;
  index_next_index : Z;
}.

#[export] Instance eta_index_rule : Eta ipa_nat_indx_tbl_rule.
Proof. refine (mkEta _ (fun r => mkIndexRule (tbl_entry r) (index_next_index r)) _). by intros []. Defined.

(** The rule of a user, [ipa_nat_ipv4_rule]. *)
Record ipa_nat_ipv4_rule := mkUserRule {
  u_target_ip : Z;
  u_private_ip : Z;
  u_target_port : Z;
  u_private_port : Z;
  u_public_port : Z;
  u_protocol : Z;
  u_pdn_index : Z;
  u_redirect : Z;
  u_enable : Z;
  u_time_stamp : Z;
  u_uc_activation_index : Z;
  u_s : bool;
  u_ucp : bool;
  u_dst_only : bool;
  u_src_only : bool;
}.

#[export] Instance eta_user_rule : Eta ipa_nat_ipv4_rule.
Proof.
  refine (mkEta _ (fun u => mkUserRule (u_target_ip u) (u_private_ip u) (u_target_port u) (u_private_port u)
    (u_public_port u) (u_protocol u) (u_pdn_index u) (u_redirect u) (u_enable u) (u_time_stamp u)
    (u_uc_activation_index u) (u_s u) (u_ucp u) (u_dst_only u) (u_src_only u)) _).
  by intros [].
Defined.

Record ipa_nat_pdn_entry := mkPdn {
  public_ip : Z;
  src_metadata : Z;
  dst_metadata : Z;
}.

#[export] Instance pdn_entry_eq_dec : EqDecision ipa_nat_pdn_entry.
Proof. solve_decision. Defined.

Definition zero_pdn : ipa_nat_pdn_entry := mkPdn 0 0 0.

Definition IPA_MAX_PDN_NUM : Z := 16.
Definition IPAHAL_NAT_INVALID_PROTOCOL : Z := 255.
Definition IPA_NAT_INVALID_PROTO_FIELD_VALUE : Z := 65280.
Definition IPA_NAT_FLAG_ENABLE_BIT : Z := 1.
Definition IPPROTO_TCP : Z := 6.
Definition IPPROTO_UDP : Z := 17.
Definition IPA_NAT_RULE_FLAG_FIELD_OFFSET : Z := 18.
Definition IPA_NAT_RULE_NEXT_FIELD_OFFSET : Z := 8.
Definition IPA_NAT_RULE_PROTO_FIELD_OFFSET : Z := 22.
Definition IPA_NAT_INDEX_RULE_NEXT_FIELD_OFFSET : Z := 2.
Definition IPA_NAT_INDEX_RULE_NAT_INDEX_FIELD_OFFSET : Z := 0.
Definition MAX_DMA_ENTRIES_FOR_ADD : nat := 4.
Definition MAX_DMA_ENTRIES_FOR_DEL : nat := 3.
(** [sizeof] of the two records. *)
Definition sizeof_ipa_nat_rule : Z := 32.
Definition sizeof_ipa_nat_indx_tbl_rule : Z := 4.

Definition b2z (b : bool) : Z := if b then 1 else 0.

(** ** Checksum differences *)

(** The carry out of 16 bits is added back. *)
Definition carry16 (cksum : Z) : Z :=
  if truthy (Z.shiftr cksum 16) then Z.land cksum 65535 + 1 else cksum.

Definition ipa_nati_calc_ip_cksum (pub_ip_addr priv_ip_addr : Z) : Z :=
  let cksum := Z.land pub_ip_addr 65535 in
  let cksum := carry16 (cksum + Z.shiftr pub_ip_addr 16) in
  let priv_ip_addr := wnot 32 priv_ip_addr in
  let cksum := carry16 (cksum + Z.land priv_ip_addr 65535) in
  let cksum := carry16 (cksum + Z.shiftr priv_ip_addr 16) in
  u16 cksum.

Definition ipa_nati_calc_tcp_udp_cksum (pub_ip_addr pub_port priv_ip_addr priv_port : Z) : Z :=
  let cksum := Z.land pub_ip_addr 65535 in
  let cksum := carry16 (cksum + Z.shiftr pub_ip_addr 16) in
  let cksum := carry16 (cksum + pub_port) in
  let priv_ip_addr := wnot 32 priv_ip_addr in
  let cksum := carry16 (cksum + Z.land priv_ip_addr 65535) in
  let cksum := carry16 (cksum + Z.shiftr priv_ip_addr 16) in
  let priv_port := wnot 16 priv_port in
  let cksum := carry16 (cksum + priv_port) in
  u16 cksum.

(** ** The callbacks of the translation table *)

Definition table_entry_is_valid (r : ipa_nat_rule) : bool := truthy (enable r).
Definition table_entry_get_next_index (r : ipa_nat_rule) : Z := rule_next_index r.
Definition table_entry_get_prev_index (r : ipa_nat_rule) (entry_index : Z) (meta : option (list Z))
    (base_table_size : Z) : option Z := Some (rule_prev_index r).
Definition table_entry_set_prev_index (r : ipa_nat_rule) (entry_index prev_index : Z) (meta : option (list Z))
    (base_table_size : Z) : option (ipa_nat_rule * option (list Z)) :=
  Some (r <| rule_prev_index := prev_index |>, meta).

Section Pdns.
Context (pdns : list ipa_nat_pdn_entry).

(** The bit fields keep the low bits of what is assigned to them. *)
Definition table_entry_copy_from_user (r : ipa_nat_rule) (user_rule : ipa_nat_ipv4_rule) : option ipa_nat_rule :=
  pdn ← zget pdns (u_pdn_index user_rule);
  let pub_ip_addr := public_ip pdn in
  let r := r <| private_ip := u_private_ip user_rule |> <| private_port := u_private_port user_rule |>
             <| protocol := u_protocol user_rule |> <| public_port := u_public_port user_rule |>
             <| target_ip := u_target_ip user_rule |> <| target_port := u_target_port user_rule |>
             <| pdn_index := wrap 4 (u_pdn_index user_rule) |>
             <| uc_activation_index := wrap 13 (u_uc_activation_index user_rule) |>
             <| s_bit := b2z (u_s user_rule) |> <| ucp := b2z (u_ucp user_rule) |>
             <| dst_only := b2z (u_dst_only user_rule) |> <| src_only := b2z (u_src_only user_rule) |>
             <| ip_chksum := ipa_nati_calc_ip_cksum pub_ip_addr (u_private_ip user_rule) |> in
  Some (if (protocol r =? IPPROTO_TCP) || (protocol r =? IPPROTO_UDP)
        then r <| tcp_udp_chksum := ipa_nati_calc_tcp_udp_cksum pub_ip_addr (u_public_port user_rule)
                                      (u_private_ip user_rule) (u_private_port user_rule) |>
        else r).

(** The flags as a 16-bit word: activation index, [s], redirect and enable. *)
Definition nat_flags (uc s redirect enable : Z) : Z :=
  Z.lor uc (Z.lor (Z.shiftl s 13) (Z.lor (Z.shiftl redirect 14) (Z.shiftl enable 15))).

Definition table_entry_head_insert (r : ipa_nat_rule) (user_data : ipa_nat_ipv4_rule)
    : option (Z * ipa_nat_rule * Z) :=
  r' ← table_entry_copy_from_user r user_data;
  Some (0, r', nat_flags (uc_activation_index r') (s_bit r') 0 IPA_NAT_FLAG_ENABLE_BIT).

Definition table_entry_tail_insert (r : ipa_nat_rule) (user_data : ipa_nat_ipv4_rule)
    : option (Z * ipa_nat_rule) :=
  r' ← table_entry_copy_from_user r user_data;
  Some (0, r' <| enable := IPA_NAT_FLAG_ENABLE_BIT |>).

Definition table_entry_get_delete_head_dma_command_data (head next_entry : ipa_nat_rule) : Z :=
  IPA_NAT_INVALID_PROTO_FIELD_VALUE.

Definition entry_interface : ipa_table_entry_interface ipa_nat_rule ipa_nat_ipv4_rule := {|
  entry_zero := zero_rule;
  entry_is_valid := table_entry_is_valid;
  entry_get_next_index := table_entry_get_next_index;
  entry_get_prev_index := table_entry_get_prev_index;
  entry_set_prev_index := table_entry_set_prev_index;
  entry_head_insert := table_entry_head_insert;
  entry_tail_insert := table_entry_tail_insert;
  entry_get_delete_head_dma_command_data := table_entry_get_delete_head_dma_command_data;
|}.

End Pdns.

(** ** The callbacks of the index table *)

Definition index_table_entry_is_valid (r : ipa_nat_indx_tbl_rule) : bool := truthy (tbl_entry r).
Definition index_table_entry_get_next_index (r : ipa_nat_indx_tbl_rule) : Z := index_next_index r.

Definition index_table_entry_get_prev_index (r : ipa_nat_indx_tbl_rule) (entry_index : Z)
    (meta : option (list Z)) (base_table_size : Z) : option Z :=
  if base_table_size <=? entry_index then l ← meta; zget l (entry_index - base_table_size) else Some 0.

Definition index_table_entry_set_prev_index (r : ipa_nat_indx_tbl_rule) (entry_index prev_index : Z)
    (meta : option (list Z)) (base_table_size : Z) : option (ipa_nat_indx_tbl_rule * option (list Z)) :=
  if base_table_size <=? entry_index then
    l ← meta; l' ← zset l (entry_index - base_table_size) prev_index; Some (r, Some l')
  else Some (r, meta).

Definition index_table_entry_head_insert (r : ipa_nat_indx_tbl_rule) (user_data : Z)
    : option (Z * ipa_nat_indx_tbl_rule * Z) := Some (0, r, user_data).

Definition index_table_entry_tail_insert (r : ipa_nat_indx_tbl_rule) (user_data : Z)
    : option (Z * ipa_nat_indx_tbl_rule) := Some (0, r <| tbl_entry := user_data |>).

Definition index_table_entry_get_delete_head_dma_command_data (head next_entry : ipa_nat_indx_tbl_rule) : Z :=
  tbl_entry next_entry.

Definition index_entry_interface : ipa_table_entry_interface ipa_nat_indx_tbl_rule Z := {|
  entry_zero := mkIndexRule 0 0;
  entry_is_valid := index_table_entry_is_valid;
  entry_get_next_index := index_table_entry_get_next_index;
  entry_get_prev_index := index_table_entry_get_prev_index;
  entry_set_prev_index := index_table_entry_set_prev_index;
  entry_head_insert := index_table_entry_head_insert;
  entry_tail_insert := index_table_entry_tail_insert;
  entry_get_delete_head_dma_command_data := index_table_entry_get_delete_head_dma_command_data;
|}.

(** ** Hashes *)

Definition xor_list (l : list Z) : Z := fold_left Z.lxor l 0.

(** [new_hw]: the hardware is of version 4.0 or later. *)
Definition dst_hash (new_hw : bool) (public_ip trgt_ip trgt_port public_port proto size : Z) : Z :=
  let hash := xor_list [u16 trgt_ip; u16 (Z.shiftr trgt_ip 16); trgt_port; public_port; proto] in
  let hash := if new_hw then Z.lxor hash (Z.lxor (u16 public_ip) (u16 (Z.shiftr public_ip 16))) else hash in
  let hash := Z.land hash size in
  if hash =? 0 then size else hash.

Definition src_hash (priv_ip priv_port trgt_ip trgt_port proto size : Z) : Z :=
  let hash := xor_list [u16 priv_ip; u16 (Z.shiftr priv_ip 16); priv_port; u16 trgt_ip;
                        u16 (Z.shiftr trgt_ip 16); trgt_port; proto] in
  let hash := Z.land hash size in
  if hash =? 0 then size else hash.

(** ** The hardware's view of the tables

    What a DMA command does according to [msm_ipa.h]: the 16-bit [data] is
    written at [offset] from the start of the table that [base_addr] names. *)

(** A 16-bit store at byte [off] of a record, by the layout of the struct. *)
Definition rule_store (off data : Z) (r : ipa_nat_rule) : ipa_nat_rule :=
  let lo x := Z.lor (Z.shiftl (Z.shiftr x 16) 16) data in
  let hi x := Z.lor (u16 x) (Z.shiftl data 16) in
  match off with
  | 0 => r <| private_ip ::= lo |>
  | 2 => r <| private_ip ::= hi |>
  | 4 => r <| target_ip ::= lo |>
  | 6 => r <| target_ip ::= hi |>
  | 8 => r <| rule_next_index := data |>
  | 10 => r <| public_port := data |>
  | 12 => r <| private_port := data |>
  | 14 => r <| target_port := data |>
  | 16 => r <| ip_chksum := data |>
  | 18 => r <| uc_activation_index := wrap 13 data |> <| s_bit := wrap 1 (Z.shiftr data 13) |>
            <| redirect := wrap 1 (Z.shiftr data 14) |> <| enable := wrap 1 (Z.shiftr data 15) |>
  | 20 => r <| time_stamp ::= lo |>
  | 22 => r <| time_stamp ::= fun x => Z.lor (u16 x) (Z.shiftl (u8 data) 16) |>
            <| protocol := u8 (Z.shiftr data 8) |>
  | 24 => r <| rule_prev_index := data |>
  | 26 => r <| indx_tbl_entry := data |>
  | 28 => r <| rsvd2 := u8 data |> <| rsvd3 := wrap 1 (Z.shiftr data 8) |>
            <| dst_only := wrap 1 (Z.shiftr data 9) |> <| src_only := wrap 1 (Z.shiftr data 10) |>
            <| ucp := wrap 1 (Z.shiftr data 11) |> <| pdn_index := wrap 4 (Z.shiftr data 12) |>
  | 30 => r <| tcp_udp_chksum := data |>
  | _ => r
  end.

Definition index_rule_store (off data : Z) (r : ipa_nat_indx_tbl_rule) : ipa_nat_indx_tbl_rule :=
  match off with
  | 0 => r <| tbl_entry := data |>
  | 2 => r <| index_next_index := data |>
  | _ => r
  end.

Definition nat_memory : Type := list ipa_nat_rule * list ipa_nat_indx_tbl_rule.

(** The store of one command, for tables with [base] records in the base part. *)
Definition dma_store (base : Z) (m : nat_memory) (one : ipa_ioc_nat_dma_one) : nat_memory :=
  let at_rule start :=
    (alter_rec (rule_store (dma_offset one mod 32) (dma_data one)) (start + dma_offset one / 32) m.1, m.2) in
  let at_index start :=
    (m.1, alter_rec (index_rule_store (dma_offset one mod 4) (dma_data one)) (start + dma_offset one / 4) m.2) in
  match base_addr one with
  | IPA_NAT_BASE_TBL => at_rule 0
  | IPA_NAT_EXPN_TBL => at_rule base
  | IPA_NAT_INDX_TBL => at_index 0
  | IPA_NAT_INDEX_EXPN_TBL => at_index base
  | _ => m
  end.

(** ** The state of the library *)

(** The system behind the library: its calls, the memory it maps for each type
    of memory, and the effect of DMA commands. *)
Record ipa_system := mkSystem {
  sys_calls_of :> ipa_calls;
  mmap_mem : Z -> nat_memory;
  table_dma : Z -> list ipa_ioc_nat_dma_one -> nat_memory -> nat_memory;
}.

(** The descriptor of the device, in a cache, is whether the hardware is of
    version 4.0 or later.  [index_expn_table_meta] is the array the index table names in [meta]. *)
Record ipa_nat_ip4_table_cache := mkTableCache {
  public_addr : Z;
  mem_desc : ipa_mem_descriptor;
  table : ipa_table ipa_nat_rule;
  index_table : ipa_table ipa_nat_indx_tbl_rule;
}.

#[export] Instance eta_table_cache : Eta ipa_nat_ip4_table_cache.
Proof.
  refine (mkEta _ (fun c => mkTableCache (public_addr c) (mem_desc c) (table c) (index_table c)) _).
  by intros [].
Defined.

Definition zero_table {E} : ipa_table E := mkTable 0 0 0 0 0 0 0 0 0 None None 0 [].
Definition zero_table_cache : ipa_nat_ip4_table_cache := mkTableCache 0 zero_mem_desc zero_table zero_table.

Record ipa_nat_cache := mkNatCache {
  ipa_desc : option bool;
  ip4_tbl : list ipa_nat_ip4_table_cache;
  table_cnt : Z;
  cache_nmi : Z;
}.

#[export] Instance eta_nat_cache : Eta ipa_nat_cache.
Proof. refine (mkEta _ (fun c => mkNatCache (ipa_desc c) (ip4_tbl c) (table_cnt c) (cache_nmi c)) _). by intros []. Defined.

Definition IPA_NAT_MAX_IP4_TBLS : Z := 1.

Definition zero_nat_cache : ipa_nat_cache := mkNatCache None [zero_table_cache] 0 0.

(** The dimensions of the tables as the hardware is told, [ipa_ioc_v4_nat_init]. *)
Record ipa_ioc_v4_nat_init := mkNatInit {
  tbl_index : Z;
  focus_change : bool;
  mem_type : Z;
  ipv4_rules_offset : Z;
  expn_rules_offset : Z;
  index_offset : Z;
  index_expn_offset : Z;
  init_table_entries : Z;
  init_expn_table_entries : Z;
  ip_addr : Z;
}.

(** [posted] are the initialisation commands sent so far. *)
Record nat_state := mkNat {
  ipv4_nat_cache : list ipa_nat_cache;
  active_nat_cache_ptr : option Z;
  pdns : list ipa_nat_pdn_entry;
  num_pdns : Z;
  Hash_token : Z;
  nat_cmd : ipa_ioc_nat_dma_cmd;
  posted : list ipa_ioc_v4_nat_init;
  sys : ipa_system;
  sys_calls : nat;
}.

#[export] Instance eta_nat_state : Eta nat_state.
Proof.
  refine (mkEta _ (fun n => mkNat (ipv4_nat_cache n) (active_nat_cache_ptr n) (pdns n) (num_pdns n)
    (Hash_token n) (nat_cmd n) (posted n) (sys n) (sys_calls n)) _).
  by intros [].
Defined.

Definition initial_nat (sys : ipa_system) : nat_state :=
  mkNat [zero_nat_cache; zero_nat_cache] None (replicate (Z.to_nat IPA_MAX_PDN_NUM) zero_pdn) 0 69
    (mkDmaCmd 0 []) [] sys 0.

Abbreviation NM := (M nat_state).

(** ** System calls, caches and tables *)

#[export] Instance nat_caller : Caller nat_state.
Proof.
  refine {| calls := fun n => sys n; call_count := sys_calls; ticks := fun k n => n <| sys_calls ::= fun c => (k + c)%nat |> |}.
  - done.
  - done.
  - intros j k n. unfold upd. cbn. by rewrite Nat.add_assoc.
Defined.

Definition get_cache (nmi : Z) : NM ipa_nat_cache := fun n =>
  liftO OutOfBounds (zget (ipv4_nat_cache n) nmi) n.

Definition upd_cache (nmi : Z) (f : ipa_nat_cache -> ipa_nat_cache) : NM unit := fun n =>
  match zget (ipv4_nat_cache n) nmi with
  | Some c => Done (tt, n <| ipv4_nat_cache ::= fun l => <[Z.to_nat nmi := f c]> l |>)
  | None => Fault OutOfBounds
  end.

(** The table [ip4_tbl[i]] of a cache. *)
Definition get_table (nmi i : Z) : NM ipa_nat_ip4_table_cache :=
  c ← get_cache nmi; liftO OutOfBounds (zget (ip4_tbl c) i).

Definition put_table (nmi i : Z) (t : ipa_nat_ip4_table_cache) : NM unit :=
  c ← get_cache nmi;
  l ← liftO OutOfBounds (zset (ip4_tbl c) i t);
  upd_cache nmi (fun c => c <| ip4_tbl := l |>).

Definition upd_table (nmi i : Z) (f : ipa_nat_ip4_table_cache -> ipa_nat_ip4_table_cache) : NM unit :=
  t ← get_table nmi i; put_table nmi i (f t).

(** Runs an operation of [ipa_table.c] on one of the two tables and the command. *)
Definition on_table {A} (nmi i : Z) (m : M (tstate ipa_nat_rule) A) : NM A := fun n =>
  (t ← get_table nmi i;
   c ← gets nat_cmd;
   match m (mkT (table t) c) with
   | Done (a, ts) =>
       put_table nmi i (t <| table := tbl ts |>) ;;
       modify (fun n => n <| nat_cmd := cmd ts |>) ;;
       mret a
   | Fault f => failM f
   end) n.

Definition on_index {A} (nmi i : Z) (m : M (tstate ipa_nat_indx_tbl_rule) A) : NM A := fun n =>
  (t ← get_table nmi i;
   c ← gets nat_cmd;
   match m (mkT (index_table t) c) with
   | Done (a, ts) =>
       put_table nmi i (t <| index_table := tbl ts |>) ;;
       modify (fun n => n <| nat_cmd := cmd ts |>) ;;
       mret a
   | Fault f => failM f
   end) n.

(** [BREAK_TBL_HDL]: the memory type and the handle proper. *)
Definition BREAK_TBL_HDL (hdl : Z) : Z * Z := (Z.land (Z.shiftr hdl 31) 1, Z.land hdl 255).
Definition MAKE_TBL_HDL (hdl mt : Z) : Z := u32 (Z.lor (Z.shiftl mt 31) hdl).
Definition VALID_TBL_HDL (h : Z) : bool := Z.land h 255 =? IPA_NAT_MAX_IP4_TBLS.
Definition IPA_VALID_NAT_MEM_IN (t : Z) : bool := (IPA_NAT_MEM_IN_DDR <=? t) && (t <? IPA_NAT_MEM_IN_MAX).

(** ** Opening the device *)

(** Opens the descriptor of a cache when it is not open; false when that fails. *)
Definition ensure_desc (nmi : Z) : NM bool :=
  c ← get_cache nmi;
  match ipa_desc c with
  | Some _ => mret true
  | None =>
      desc ← ipa_descriptor_open;
      upd_cache nmi (fun c => c <| ipa_desc := desc |>) ;;
      mret (bool_decide (desc <> None))
  end.

(** ** Creating and destroying a table *)

Definition ipa_nati_create_table_dma_cmd_helpers (table_indx : Z) (t : ipa_nat_ip4_table_cache)
    : ipa_nat_ip4_table_cache :=
  let off := addr_offset (mem_desc t) in
  let base f := ipa_table_dma_cmd_helper_init table_indx IPA_NAT_BASE_TBL IPA_NAT_EXPN_TBL (u32 (off + f)) in
  let index f := ipa_table_dma_cmd_helper_init table_indx IPA_NAT_INDX_TBL IPA_NAT_INDEX_EXPN_TBL (u32 (off + f)) in
  t <| table ::= fun t => t <| dma_help_of := Some (mkHelps
         (base IPA_NAT_RULE_FLAG_FIELD_OFFSET) (base IPA_NAT_RULE_NEXT_FIELD_OFFSET)
         (base IPA_NAT_RULE_PROTO_FIELD_OFFSET)) |> |>
    <| index_table ::= fun t => t <| dma_help_of := Some (mkHelps
         (index IPA_NAT_INDEX_RULE_NAT_INDEX_FIELD_OFFSET) (index IPA_NAT_INDEX_RULE_NEXT_FIELD_OFFSET)
         (index IPA_NAT_INDEX_RULE_NAT_INDEX_FIELD_OFFSET)) |> |>.

(** Runs an operation on a table outside any cache. *)
Definition run_table {E A} (m : M (ipa_table E) A) (t : ipa_table E) : NM (A * ipa_table E) := fun n =>
  match m t with
  | Done (a, t') => Done ((a, t'), n)
  | Fault f => Fault f
  end.

(** [base_addr] and the memory are those of the mapping. *)
Definition place_tables (t : ipa_nat_ip4_table_cache) : NM ipa_nat_ip4_table_cache :=
  n ← getM;
  '(addr, nt) ← run_table (ipa_table_calculate_addresses (mem_base_addr (mem_desc t))) (table t);
  '(_, it) ← run_table (ipa_table_calculate_addresses addr) (index_table t);
  let mem := mmap_mem (sys n) (nmi (table t)) in
  mret (t <| table := nt <| recs := mem.1 |> |> <| index_table := it <| recs := mem.2 |> |>).

Definition ipa_nati_create_table (nmi i public_ip_addr number_of_entries table_index : Z) : NM Z :=
  n ← getM;
  let EI := entry_interface (pdns n) in
  upd_table nmi i (fun t => t <| public_addr := public_ip_addr |>
    <| table := ipa_table_init nmi sizeof_ipa_nat_rule None 0 |>) ;;
  t ← get_table nmi i;
  '(ret, nt) ← run_table (ipa_table_calculate_entries_num number_of_entries nmi) (table t);
  upd_table nmi i (fun t => t <| table := nt |>) ;;
  if truthy ret then mret ret else
  alloc ← sys_call;
  if truthy alloc then mret (- ENOMEM) else
  upd_table nmi i (fun t => t <| index_table :=
    (ipa_table_init nmi sizeof_ipa_nat_indx_tbl_rule
       (Some (replicate (Z.to_nat (expn_table_entries nt)) 0)) 2)
      <| table_entries := table_entries nt |> <| expn_table_entries := expn_table_entries nt |>
      <| tot_tbl_ents := tot_tbl_ents nt |> |>) ;;
  t ← get_table nmi i;
  let size := s32 (ipa_table_calculate_size (table t) + ipa_table_calculate_size (index_table t)) in
  '(ret, desc) ← ipa_mem_descriptor_allocate_memory
    (ipa_mem_descriptor_init size table_index true (mem_desc t));
  upd_table nmi i (fun t => t <| mem_desc := desc |>) ;;
  if truthy ret then upd_table nmi i (fun _ => zero_table_cache) ;; mret ret else
  t ← get_table nmi i;
  t ← place_tables t;
  put_table nmi i t ;;
  on_table nmi i (ipa_table_reset (EI := entry_interface (pdns n))) ;;
  on_index nmi i (ipa_table_reset (EI := index_entry_interface)) ;;
  upd_table nmi i (ipa_nati_create_table_dma_cmd_helpers table_index) ;;
  mret 0.

Definition ipa_nati_destroy_table (nmi i : Z) : NM Z :=
  t ← get_table nmi i;
  '(ret, _) ← ipa_mem_descriptor_delete (mem_desc t);
  upd_table nmi i (fun _ => zero_table_cache) ;;
  mret ret.

Definition v4_nat_init (c : ipa_nat_cache) (t : ipa_nat_ip4_table_cache) (tbl_index : Z) (focus_change : bool)
    : ipa_ioc_v4_nat_init :=
  let rules := addr_offset (mem_desc t) in
  let expn := u32 (rules + table_entries (table t) * sizeof_ipa_nat_rule) in
  let index := u32 (expn + expn_table_entries (table t) * sizeof_ipa_nat_rule) in
  let index_expn := u32 (index + table_entries (index_table t) * sizeof_ipa_nat_indx_tbl_rule) in
  mkNatInit tbl_index focus_change (cache_nmi c) rules expn index index_expn
    (u16 (table_entries (table t) - 1)) (expn_table_entries (table t)) (public_addr t).

Definition ipa_nati_post_ipv4_init_cmd (nmi i : Z) (tbl_index : Z) (focus_change : bool) : NM Z :=
  c ← get_cache nmi;
  t ← get_table nmi i;
  modify (fun n => n <| posted ::= fun l => l ++ [v4_nat_init c t tbl_index focus_change] |>) ;;
  sys_call.

Definition ipa_NATI_post_ipv4_init_cmd (tbl_hdl : Z) : NM Z :=
  let '(nmi, tbl_hdl) := BREAK_TBL_HDL tbl_hdl in
  if negb (IPA_VALID_NAT_MEM_IN nmi) then mret (- EINVAL) else
  lock ← pthread_mutex_lock;
  if truthy lock then mret (- EINVAL) else
  c ← get_cache nmi;
  ret ← (if negb (truthy (table_cnt c)) then mret (- EINVAL) else
         ret ← ipa_nati_post_ipv4_init_cmd nmi (tbl_hdl - 1) (tbl_hdl - 1) true;
         if truthy ret then mret ret else
         modify (fun n => n <| active_nat_cache_ptr := Some nmi |>) ;; mret 0);
  unlock ← pthread_mutex_unlock;
  mret (if truthy unlock then (if truthy ret then ret else - EPERM) else ret).

(** A failed creation closes the descriptor when no table is left. *)
Definition close_unused_desc (nmi : Z) : NM unit :=
  c ← get_cache nmi;
  if negb (truthy (table_cnt c)) then upd_cache nmi (fun c => c <| ipa_desc := None |>) else mret tt.

(** The return value and the handle of the table. *)
Definition ipa_NATI_add_ipv4_tbl (nmi public_ip_addr number_of_entries : Z) : NM (Z * Z) :=
  if negb (IPA_VALID_NAT_MEM_IN nmi) then mret (- EINVAL, 0) else
  lock ← pthread_mutex_lock;
  if truthy lock then mret (- EINVAL, 0) else
  upd_cache nmi (fun c => c <| cache_nmi := nmi |>) ;;
  c ← get_cache nmi;
  '(ret, hdl) ←
    (if IPA_NAT_MAX_IP4_TBLS <=? table_cnt c then mret (- EINVAL, 0) else
     ok ← ensure_desc nmi;
     if negb (ok : bool) then mret (- EIO, 0) else
     let i := table_cnt c in
     ret ← ipa_nati_create_table nmi i public_ip_addr number_of_entries i;
     if truthy ret then close_unused_desc nmi ;; mret (ret, 0) else
     ret ← ipa_nati_post_ipv4_init_cmd nmi i i false;
     if truthy ret then ipa_nati_destroy_table nmi i ;; close_unused_desc nmi ;; mret (ret, 0) else
     modify (fun n => n <| active_nat_cache_ptr := Some nmi |>) ;;
     n ← getM;
     pdn ← liftO OutOfBounds (zget (pdns n) 0);
     modify (fun n => n <| pdns ::= fun l => <[0%nat := mkPdn public_ip_addr (src_metadata pdn) (dst_metadata pdn)]> l |>
                        <| num_pdns := 1 |>) ;;
     upd_cache nmi (fun c => c <| table_cnt ::= fun x => u8 (x + 1) |>) ;;
     c ← get_cache nmi;
     mret (0, MAKE_TBL_HDL (table_cnt c) nmi));
  unlock ← pthread_mutex_unlock;
  mret (if truthy unlock then - EPERM else ret, hdl).

Definition ipa_NATI_del_ipv4_table (tbl_hdl : Z) : NM Z :=
  let '(nmi, tbl_hdl) := BREAK_TBL_HDL tbl_hdl in
  if negb (IPA_VALID_NAT_MEM_IN nmi) then mret (- EINVAL) else
  lock ← pthread_mutex_lock;
  if truthy lock then mret (- EINVAL) else
  t ← get_table nmi (tbl_hdl - 1);
  ret ← (if negb (valid (mem_desc t)) then mret (- EINVAL) else
         ret ← ipa_nati_destroy_table nmi (tbl_hdl - 1);
         if truthy ret then mret ret else
         upd_cache nmi (fun c => c <| table_cnt ::= fun x => u8 (x - 1) |>) ;;
         close_unused_desc nmi ;; mret 0);
  unlock ← pthread_mutex_unlock;
  mret (if truthy unlock then (if truthy ret then ret else - EPERM) else ret).

(** ** Posting a DMA command

    On success the hardware writes the tables of the command's memory type. *)
Definition ipa_nati_post_ipv4_dma_cmd (nmi i : Z) : NM Z :=
  ret ← sys_call;
  if truthy ret then mret (- EIO) else
  n ← getM;
  t ← get_table nmi i;
  let m := table_dma (sys n) (table_entries (table t)) (dma (nat_cmd n)) (recs (table t), recs (index_table t)) in
  put_table nmi i (t <| table ::= fun x => x <| recs := m.1 |> |>
                     <| index_table ::= fun x => x <| recs := m.2 |> |>) ;;
  mret 0.

(** ** Adding a rule *)

(** A hash, moved on by [Hash_token] for rules of one direction only. *)
Definition spread (hash size : Z) : NM Z := fun n =>
  let i := Z.land (u16 (hash + Hash_token n)) size in
  Done (if i =? 0 then size else i, n <| Hash_token ::= fun x => x + 1 |>).

Section Rules.
Context (nmi i : Z).

(** After both insertions: the rule is told its index entry and the command is
    posted; when that fails both records are erased. *)
Definition link_and_post (clnt_rule : ipa_nat_ipv4_rule) (new_entry_index new_entry_handle index : Z) : NM (Z * Z) :=
  n ← getM;
  let EI := entry_interface (pdns n) in
  rule ← on_table nmi i (ipa_table_get_entry_by_index new_entry_index);
  let undo ret :=
    on_index nmi i (ipa_table_erase_entry (EI := index_entry_interface) index) ;;
    on_table nmi i (ipa_table_erase_entry new_entry_index) ;; mret (ret, 0) in
  match rule with
  | None => undo (- EPERM)
  | Some p =>
      on_table nmi i (r ← get_rec p;
        put_rec p (r <| indx_tbl_entry := index |> <| redirect := wrap 1 (u_redirect clnt_rule) |>
                     <| enable := wrap 1 (u_enable clnt_rule) |>
                     <| time_stamp := wrap 24 (u_time_stamp clnt_rule) |>)) ;;
      ret ← ipa_nati_post_ipv4_dma_cmd nmi i;
      if truthy ret then undo ret else mret (0, new_entry_handle)
  end.

(** After the insertion into the translation table. *)
Definition add_index_and_post (clnt_rule : ipa_nat_ipv4_rule) (new_entry_index new_entry_handle : Z) : NM (Z * Z) :=
  t ← get_table nmi i;
  let size := u16 (table_entries (table t) - 1) in
  let hash := src_hash (u_private_ip clnt_rule) (u_private_port clnt_rule) (u_target_ip clnt_rule)
                (u_target_port clnt_rule) (u_protocol clnt_rule) size in
  index ← (if u_dst_only clnt_rule then spread hash size else mret hash);
  n ← getM;
  let EI := entry_interface (pdns n) in
  '(ret, index, _) ← on_index nmi i (ipa_table_add_entry (EI := index_entry_interface) new_entry_index index);
  if truthy ret then on_table nmi i (ipa_table_erase_entry new_entry_index) ;; mret (ret, 0)
  else link_and_post clnt_rule new_entry_index new_entry_handle index.

Definition add_rule_locked (clnt_rule : ipa_nat_ipv4_rule) : NM (Z * Z) :=
  t ← get_table nmi i;
  if negb (valid (mem_desc t)) then mret (- EINVAL, 0) else
  n ← getM;
  c ← get_cache nmi;
  pdn ← liftO OutOfBounds (zget (pdns n) (u_pdn_index clnt_rule));
  desc ← liftO NullDeref (ipa_desc c);
  let size := u16 (table_entries (table t) - 1) in
  let hash := dst_hash desc (public_ip pdn) (u_target_ip clnt_rule) (u_target_port clnt_rule)
                (u_public_port clnt_rule) (u_protocol clnt_rule) size in
  new_entry_index ← (if u_src_only clnt_rule then spread hash size else mret hash);
  '(ret, new_entry_index, new_entry_handle) ←
    on_table nmi i (ipa_table_add_entry (EI := entry_interface (pdns n)) clnt_rule new_entry_index);
  if truthy ret then mret (ret, 0) else
  add_index_and_post clnt_rule new_entry_index new_entry_handle.

(** ** Deleting a rule *)

(** The entry of the second record of a list of the index table goes to its
    head, and the rule it stands for is told. *)
Definition ipa_nati_copy_second_index_entry_to_head (it : ipa_table_iterator) : NM unit :=
  second ← on_index nmi i (deref (next_entry it));
  on_index nmi i (ipa_table_add_dma_cmd HELP_UPDATE_ENTRY (curr_entry it) (curr_index it) (index_next_index second)) ;;
  t ← get_table nmi i;
  let base := table_entries (table t) in
  let p := if tbl_entry second <? base then tbl_entry second
           else (expn_table_addr (table t) - table_addr (table t)) / sizeof_ipa_nat_rule
                + (tbl_entry second - base) in
  on_table nmi i (r ← get_rec p; put_rec p (r <| indx_tbl_entry := curr_index it |>)).

(** After the command: both records go, unless the rule heads a list. *)
Definition delete_records (table_it index_it : ipa_table_iterator) : NM unit :=
  n ← getM;
  let EI := entry_interface (pdns n) in
  (if negb (ipa_table_iterator_is_head_with_tail table_it) then
     is_prev_empty ← match prev_entry table_it with
                     | Some p => r ← on_table nmi i (get_rec p); mret (protocol r =? IPAHAL_NAT_INVALID_PROTOCOL)
                     | None => mret false
                     end;
     on_table nmi i (ipa_table_delete_entry table_it is_prev_empty)
   else mret tt) ;;
  on_index nmi i (ipa_table_delete_entry (EI := index_entry_interface) index_it false) ;;
  t ← get_table nmi i;
  if table_entries (index_table t) <=? curr_index index_it then
    m ← liftO OutOfBounds (l ← meta (index_table t);
      zset l (curr_index index_it - table_entries (index_table t)) IPA_TABLE_INVALID_ENTRY);
    upd_table nmi i (fun t => t <| index_table ::= fun x => x <| meta := Some m |> |>)
  else mret tt.

Definition del_rule_locked (rule_hdl : Z) : NM Z :=
  t ← get_table nmi i;
  if negb (valid (mem_desc t)) then mret (- EINVAL) else
  n ← getM;
  let EI := entry_interface (pdns n) in
  r ← on_table nmi i (ipa_table_get_entry rule_hdl);
  match (r : Z + Z) with
  | inl ret => mret ret
  | inr index =>
      '(ret, table_it) ← on_table nmi i (ipa_table_iterator_init index index);
      if truthy ret then mret ret else
      rule ← on_table nmi i (get_rec index);
      let index := indx_tbl_entry rule in
      index_rule ← on_index nmi i (ipa_table_get_entry_by_index index);
      match index_rule with
      | None => mret (- EPERM)
      | Some p =>
          '(ret, index_it) ← on_index nmi i (ipa_table_iterator_init (EI := index_entry_interface) p index);
          if truthy ret then mret ret else
          on_index nmi i (ipa_table_create_delete_command (EI := index_entry_interface) index_it) ;;
          '(ret, index_it) ←
            (if ipa_table_iterator_is_head_with_tail index_it then
               ipa_nati_copy_second_index_entry_to_head index_it ;;
               on_index nmi i (ipa_table_iterator_next (EI := index_entry_interface) index_it)
             else mret (0, index_it));
          if truthy ret then mret ret else
          on_table nmi i (ipa_table_create_delete_command table_it) ;;
          ret ← ipa_nati_post_ipv4_dma_cmd nmi i;
          if truthy ret then mret ret else
          delete_records table_it index_it ;; mret 0
      end
  end.

End Rules.

(** A fresh command buffer for [room] entries. *)
Definition new_cmd (room : nat) : NM unit := modify (fun n => n <| nat_cmd := mkDmaCmd room [] |>).

Definition ipa_NATI_add_ipv4_rule (tbl_hdl : Z) (clnt_rule : option ipa_nat_ipv4_rule) : NM (Z * Z) :=
  new_cmd MAX_DMA_ENTRIES_FOR_ADD ;;
  match clnt_rule with
  | None => mret (- EINVAL, 0)
  | Some clnt_rule =>
      if negb (VALID_TBL_HDL tbl_hdl) then mret (- EINVAL, 0) else
      let '(nmi, tbl_hdl) := BREAK_TBL_HDL tbl_hdl in
      if negb (IPA_VALID_NAT_MEM_IN nmi) then mret (- EINVAL, 0) else
      if u_protocol clnt_rule =? IPAHAL_NAT_INVALID_PROTOCOL then mret (- EINVAL, 0) else
      n ← getM;
      bad_pdn ← (if IPA_MAX_PDN_NUM <=? u_pdn_index clnt_rule then mret true else
                 pdn ← liftO OutOfBounds (zget (pdns n) (u_pdn_index clnt_rule));
                 mret (public_ip pdn =? 0));
      if (bad_pdn : bool) then mret (- EINVAL, 0) else
      lock ← pthread_mutex_lock;
      if truthy lock then mret (- EINVAL, 0) else
      '(ret, hdl) ← add_rule_locked nmi (tbl_hdl - 1) clnt_rule;
      unlock ← pthread_mutex_unlock;
      if truthy ret then mret (ret, 0) else
      if truthy unlock then mret (- EPERM, 0) else mret (0, hdl)
  end.

Definition ipa_NATI_del_ipv4_rule (tbl_hdl rule_hdl : Z) : NM Z :=
  new_cmd MAX_DMA_ENTRIES_FOR_DEL ;;
  let '(nmi, tbl_hdl) := BREAK_TBL_HDL tbl_hdl in
  if negb (IPA_VALID_NAT_MEM_IN nmi) then mret (- EINVAL) else
  lock ← pthread_mutex_lock;
  if truthy lock then mret (- EINVAL) else
  ret ← del_rule_locked nmi (tbl_hdl - 1) rule_hdl;
  unlock ← pthread_mutex_unlock;
  mret (if truthy unlock then (if truthy ret then ret else - EPERM) else ret).

(** The return value and the time stamp, when it is written. *)
Definition ipa_NATI_query_timestamp (tbl_hdl rule_hdl : Z) : NM (Z * option Z) :=
  let '(nmi, tbl_hdl) := BREAK_TBL_HDL tbl_hdl in
  if negb (IPA_VALID_NAT_MEM_IN nmi) then mret (- EINVAL, None) else
  lock ← pthread_mutex_lock;
  if truthy lock then mret (- EINVAL, None) else
  t ← get_table nmi (tbl_hdl - 1);
  '(ret, stamp) ←
    (if negb (valid (mem_desc t)) then mret (- EINVAL, None) else
     r ← on_table nmi (tbl_hdl - 1) (ipa_table_get_entry rule_hdl);
     match (r : Z + Z) with
     | inl ret => mret (ret, None)
     | inr index => rule ← on_table nmi (tbl_hdl - 1) (get_rec index); mret (0, Some (time_stamp rule))
     end);
  unlock ← pthread_mutex_unlock;
  mret (if truthy unlock then (if truthy ret then ret else - EPERM) else ret, stamp).

(** ** Packet-data networks *)

Record ipa_ioc_nat_pdn_entry := mkIocPdn {
  ioc_pdn_index : Z;
  ioc_public_ip : Z;
  ioc_src_metadata : Z;
  ioc_dst_metadata : Z;
}.

Definition ipa_nati_modify_pdn (entry : ipa_ioc_nat_pdn_entry) : NM Z :=
  ddr ← get_cache IPA_NAT_MEM_IN_DDR;
  sram ← get_cache IPA_NAT_MEM_IN_SRAM;
  if bool_decide (ipa_desc (if bool_decide (ipa_desc ddr <> None) then ddr else sram) = None)
  then mret (- EIO) else
  ret ← sys_call;
  if truthy ret then mret ret else
  n ← getM;
  l ← liftO OutOfBounds (zset (pdns n) (ioc_pdn_index entry)
        (mkPdn (ioc_public_ip entry) (ioc_src_metadata entry) (ioc_dst_metadata entry)));
  modify (fun n => n <| pdns := l |>) ;;
  mret 0.

(** The first of the entries [0 .. IPA_MAX_PDN_NUM - 2] that satisfies [p]. *)
Fixpoint first_pdn (p : ipa_nat_pdn_entry -> bool) (l : list ipa_nat_pdn_entry) (i : Z) (n : nat)
    : option (option Z) :=
  match n, l with
  | O, _ => Some None
  | S _, [] => None
  | S n', e :: l' => if p e then Some (Some i) else first_pdn p l' (i + 1) n'
  end.

Definition pdn_slots : nat := Z.to_nat (IPA_MAX_PDN_NUM - 1).

(** The return value and the index. *)
Definition ipa_nati_get_pdn_index (ip : Z) : NM (Z * Z) :=
  n ← getM;
  found ← liftO OutOfBounds (first_pdn (fun e => public_ip e =? ip) (pdns n) 0 pdn_slots);
  mret match found with Some i => (0, i) | None => (- EIO, 0) end.

(** The search stops at the address itself or at the first empty entry. *)
Definition ipa_nati_alloc_pdn (pdn_info : ipa_nat_pdn_entry) : NM (Z * Z) :=
  n ← getM;
  if IPA_MAX_PDN_NUM - 1 <=? num_pdns n then mret (- EIO, 0) else
  found ← liftO OutOfBounds (first_pdn
    (fun e => (public_ip e =? public_ip pdn_info) || bool_decide (e = zero_pdn)) (pdns n) 0 pdn_slots);
  match found with
  | None => mret (- EIO, 0)
  | Some i =>
      e ← liftO OutOfBounds (zget (pdns n) i);
      if public_ip e =? public_ip pdn_info then mret (0, i) else
      ret ← ipa_nati_modify_pdn (mkIocPdn i (public_ip pdn_info) (src_metadata pdn_info) (dst_metadata pdn_info));
      if truthy ret then mret (ret, 0) else
      modify (fun n => n <| num_pdns ::= fun x => x + 1 |>) ;; mret (0, i)
  end.

Definition ipa_nati_get_pdn_cnt : NM Z := gets num_pdns.

Definition ipa_nati_dealloc_pdn (pdn_index : Z) : NM Z :=
  n ← getM;
  if negb (truthy (num_pdns n)) then mret (- EIO) else
  e ← liftO OutOfBounds (zget (pdns n) pdn_index);
  if bool_decide (e = zero_pdn) then mret (- EIO) else
  ret ← ipa_nati_modify_pdn (mkIocPdn pdn_index 0 0 0);
  if truthy ret then mret (- EIO) else
  n ← getM;
  l ← liftO OutOfBounds (zset (pdns n) pdn_index zero_pdn);
  modify (fun n => n <| pdns := l |> <| num_pdns ::= fun x => x - 1 |>) ;;
  mret 0.

(** The public interface, [ipa_nat_drv.c]. *)
Definition ipa_nat_modify_pdn (tbl_hdl pdn_index : Z) (pdn_info : option ipa_nat_pdn_entry) : NM Z :=
  match pdn_info with
  | None => mret (- EINVAL)
  | Some pdn_info =>
      if negb (VALID_TBL_HDL tbl_hdl) then mret (- EINVAL) else
      if IPA_MAX_PDN_NUM <? pdn_index then mret (- EINVAL) else
      ipa_nati_modify_pdn (mkIocPdn pdn_index (public_ip pdn_info) (src_metadata pdn_info) (dst_metadata pdn_info))
  end.

Definition ipa_nat_alloc_pdn (pdn_info : option ipa_nat_pdn_entry) : NM (Z * Z) :=
  match pdn_info with
  | None => mret (- EINVAL, 0)
  | Some pdn_info => ipa_nati_alloc_pdn pdn_info
  end.

Definition ipa_nat_dealloc_pdn (pdn_index : Z) : NM Z :=
  if IPA_MAX_PDN_NUM <? pdn_index then mret (- EINVAL) else ipa_nati_dealloc_pdn pdn_index.

(** ** The rest of the interface *)

(** The return value and the size. *)
Definition ipa_nati_get_sram_size : NM (Z * Z) :=
  lock ← pthread_mutex_lock;
  if truthy lock then mret (- EINVAL, 0) else
  '(ret, size) ←
    (ok ← ensure_desc IPA_NAT_MEM_IN_SRAM;
     if negb (ok : bool) then mret (- EIO, 0) else
     ret ← sys_call;
     if truthy ret then mret (ret, 0) else
     n ← getM;
     let size := sram_mem_available_for_nat (sys n) in
     mret (if size =? 0 then - EINVAL else 0, size));
  unlock ← pthread_mutex_unlock;
  mret (if truthy unlock then (if truthy ret then ret else - EPERM) else ret, size).

Definition ipa_nati_vote_clock : NM Z :=
  ok ← ensure_desc IPA_NAT_MEM_IN_SRAM;
  if negb (ok : bool) then mret (- EIO) else sys_call.

Definition zero_counts {E} (t : ipa_table E) : ipa_table E :=
  t <| cur_tbl_cnt := 0 |> <| cur_expn_tbl_cnt := 0 |>.

Definition ipa_NATI_clear_ipv4_tbl (tbl_hdl : Z) : NM Z :=
  let '(nmi, tbl_hdl) := BREAK_TBL_HDL tbl_hdl in
  if negb (IPA_VALID_NAT_MEM_IN nmi) then mret (- EINVAL) else
  lock ← pthread_mutex_lock;
  if truthy lock then mret (- EINVAL) else
  c ← get_cache nmi;
  ret ←
    (if negb (truthy (table_cnt c)) then mret (- EINVAL) else
     n ← getM;
     on_table nmi (tbl_hdl - 1) (ipa_table_reset (EI := entry_interface (pdns n))) ;;
     upd_table nmi (tbl_hdl - 1) (fun t => t <| table ::= zero_counts |>) ;;
     on_index nmi (tbl_hdl - 1) (ipa_table_reset (EI := index_entry_interface)) ;;
     upd_table nmi (tbl_hdl - 1) (fun t => t <| index_table ::= zero_counts |>) ;; mret 0);
  unlock ← pthread_mutex_unlock;
  mret (if truthy unlock then (if truthy ret then ret else - EPERM) else ret).

Inductive WhichTbl2Use := USE_NAT_TABLE | USE_INDEX_TABLE.

(** The table with index [i] of a cache, empty when there is none. *)
Definition table_of (nmi i : Z) (n : nat_state) : ipa_nat_ip4_table_cache :=
  default zero_table_cache (c ← zget (ipv4_nat_cache n) nmi; zget (ip4_tbl c) i).

(** A callback runs on the state of the caller, of which the tables are a part. *)
Class HasNat (St : Type) := {
  nat_of : St -> nat_state;
  set_nat : nat_state -> St -> St;
  nat_set : forall n s, nat_of (set_nat n s) = n;
  set_same : forall s, set_nat (nat_of s) s = s;
  set_set : forall a b s, set_nat a (set_nat b s) = set_nat a s;
}.

#[export] Instance nat_has_nat : HasNat nat_state.
Proof. by refine {| nat_of := fun n => n; set_nat := fun n _ => n |}. Defined.

Section Callbacks.
Context {St : Type} `{HN : HasNat St}.

Definition in_nat {A} (m : NM A) : M St A := fun s =>
  match m (nat_of s) with
  | Done (a, n) => Done (a, set_nat n s)
  | Fault f => Fault f
  end.

(** A callback also gets the table, as the index of its cache and its own. *)
Definition walk_which (nmi i : Z) (which : WhichTbl2Use) (cb : Z * Z -> ipa_table_walk_cb (St := St)) : M St Z :=
  s ← getM;
  in_nat (get_table nmi i) ;;
  match which with
  | USE_NAT_TABLE =>
      let EI := entry_interface (pdns (nat_of s)) in
      ipa_table_walk (fun s => table (table_of nmi i (nat_of s))) 0 WHEN_SLOT_FILLED (cb (nmi, i))
  | USE_INDEX_TABLE =>
      let EI := index_entry_interface in
      ipa_table_walk (fun s => index_table (table_of nmi i (nat_of s))) 0 WHEN_SLOT_FILLED (cb (nmi, i))
  end.

Definition ipa_NATI_walk_ipv4_tbl (tbl_hdl : Z) (which : WhichTbl2Use) (walk_cb : option (Z * Z -> ipa_table_walk_cb (St := St)))
    : M St Z :=
  match walk_cb with
  | None => mret (- EINVAL)
  | Some walk_cb =>
      if negb (VALID_TBL_HDL tbl_hdl) then mret (- EINVAL) else
      lock ← in_nat pthread_mutex_lock;
      if truthy lock then mret (- EINVAL) else
      let '(nmi, hdl) := BREAK_TBL_HDL tbl_hdl in
      ret ←
        (if negb (IPA_VALID_NAT_MEM_IN nmi) then mret (- EINVAL) else
         c ← in_nat (get_cache nmi);
         if negb (truthy (table_cnt c)) then mret (- EINVAL) else walk_which nmi (hdl - 1) which walk_cb);
      unlock ← in_nat pthread_mutex_unlock;
      mret (if truthy unlock then (if truthy ret then ret else - EPERM) else ret)
  end.

(** The callback gets the handle of the destination as its data. *)
Definition ipa_nati_copy_ipv4_tbl (src_tbl_hdl dst_tbl_hdl : Z) (copy_cb : option (Z * Z -> Z -> ipa_table_walk_cb (St := St)))
    : M St Z :=
  match copy_cb with
  | None => mret (- EINVAL)
  | Some copy_cb =>
      lock ← in_nat pthread_mutex_lock;
      if truthy lock then mret (- EINVAL) else
      ret ← in_nat (ipa_NATI_clear_ipv4_tbl dst_tbl_hdl);
      ret ← (if ret =? 0 then ipa_NATI_walk_ipv4_tbl src_tbl_hdl USE_NAT_TABLE (Some (fun tbl => copy_cb tbl dst_tbl_hdl))
             else mret ret);
      unlock ← in_nat pthread_mutex_unlock;
      mret (if truthy unlock then (if truthy ret then ret else - EPERM) else ret)
  end.

End Callbacks.

(** ** Statistics *)

Record ipa_nati_tbl_stats := mkStats {
  tot_ents : Z;
  tot_base_ents : Z;
  tot_base_ents_filled : Z;
  tot_expn_ents : Z;
  tot_expn_ents_filled : Z;
  tot_chains : Z;
  min_chain_len : Z;
  max_chain_len : Z;
  tot_for_avg : Z;
}.

#[export] Instance eta_stats : Eta ipa_nati_tbl_stats.
Proof.
  refine (mkEta _ (fun x => mkStats (tot_ents x) (tot_base_ents x) (tot_base_ents_filled x) (tot_expn_ents x)
    (tot_expn_ents_filled x) (tot_chains x) (min_chain_len x) (max_chain_len x) (tot_for_avg x)) _).
  by intros [].
Defined.

(** The state of the walk: the table, which does not change, and the statistics. *)
Section Stats.
Context {E U : Type} `{EI : ipa_table_entry_interface E U}.

Record stat_state := mkStatState { st_tbl : ipa_table E; st_stats : ipa_nati_tbl_stats }.

(** The number of records from [p] to the end of its list. *)
Fixpoint chain_len_loop (fuel : nat) (t : ipa_table E) (p : Z) (chain_len : Z) : outcome Z :=
  match zget (recs t) p with
  | None => Fault OutOfBounds
  | Some e =>
      let next := entry_get_next_index e in
      if negb (truthy next) then Done chain_len else
      match fuel with
      | O => Fault Diverges
      | S fuel' => chain_len_loop fuel' t next (u32 (chain_len + 1))
      end
  end.

Definition gen_chain_stats : ipa_table_walk_cb (St := stat_state) := fun rule_hdl p record_index meta_record st =>
  let t := st_tbl st in
  let '(_, is_expn_tbl, _) := BREAK_RULE_HDL t rule_hdl in
  if truthy is_expn_tbl then Done (1, st) else
  match zget (recs t) p with
  | None => Fault OutOfBounds
  | Some e =>
      if negb (truthy (entry_get_next_index e)) then Done (0, st) else
      match chain_len_loop (length (recs t)) t p 1 with
      | Fault f => Fault f
      | Done chain_len =>
          let x := st_stats st in
          Done (0, mkStatState t (x <| tot_chains ::= fun c => u32 (c + 1) |>
            <| tot_for_avg ::= fun c => u32 (c + chain_len) |>
            <| min_chain_len ::= fun m => if m =? 0 then chain_len else if m <? chain_len then m else chain_len |>
            <| max_chain_len ::= fun m => if chain_len <? m then m else chain_len |>))
      end
  end.

(** The average is left as the quotient of its two parts. *)
Definition table_stats (t : ipa_table E) : outcome (Z * ipa_nati_tbl_stats) :=
  let x := mkStats (u32 (table_entries t + expn_table_entries t)) (table_entries t) (cur_tbl_cnt t)
             (expn_table_entries t) (cur_expn_tbl_cnt t) 0 0 0 0 in
  match ipa_table_walk st_tbl 0 WHEN_SLOT_FILLED gen_chain_stats (mkStatState t x) with
  | Fault f => Fault f
  | Done (ret, st) => Done (if ret <? 0 then - EINVAL else 0, st_stats st)
  end.

End Stats.

Definition ipa_NATI_ipv4_tbl_stats (tbl_hdl : Z)
    : NM (Z * option ipa_nati_tbl_stats * option ipa_nati_tbl_stats) :=
  if negb (VALID_TBL_HDL tbl_hdl) then mret (- EINVAL, None, None) else
  lock ← pthread_mutex_lock;
  if truthy lock then mret (- EINVAL, None, None) else
  let '(nmi, hdl) := BREAK_TBL_HDL tbl_hdl in
  '(ret, nat_stats, idx_stats) ←
    (if negb (IPA_VALID_NAT_MEM_IN nmi) then mret (- EINVAL, None, None) else
     c ← get_cache nmi;
     if negb (truthy (table_cnt c)) then mret (- EINVAL, None, None) else
     t ← get_table nmi (hdl - 1);
     n ← getM;
     match table_stats (EI := entry_interface (pdns n)) (table t) with
     | Fault f => failM f
     | Done (ret, nat_stats) =>
         if truthy ret then mret (ret, Some nat_stats, None) else
         match table_stats (EI := index_entry_interface) (index_table t) with
         | Fault f => failM f
         | Done (ret, idx_stats) => mret (ret, Some nat_stats, Some idx_stats)
         end
     end);
  unlock ← pthread_mutex_unlock;
  mret (if truthy unlock then (if truthy ret then ret else - EPERM) else ret, nat_stats, idx_stats).
