(* ===== verification/IpaNatSpec.v ===== *)
(** * The two kinds of records behind the table interface

    The callbacks of the translation table and of its index table satisfy the
    contract of [IpaTableSpec], and the stores of the hardware are commands in
    the sense of [IpaTableSettle]: executing a command buffer is executing the
    commands of each table on its own records. *)

From stdpp Require Import gmap.
From S2P Require Import Prelude IpaChain IpaTable IpaTableSpec IpaTableSettle IpaUnlink IpaSystem IpaNat.

Local Open Scope Z_scope.

(** ** The translation table *)

(** The field a command writes, by its kind. *)
Definition nat_field (h : dma_help_type) : Z :=
  match h with
  | HELP_UPDATE_HEAD => IPA_NAT_RULE_FLAG_FIELD_OFFSET
  | HELP_UPDATE_ENTRY => IPA_NAT_RULE_NEXT_FIELD_OFFSET
  | HELP_DELETE_HEAD => IPA_NAT_RULE_PROTO_FIELD_OFFSET
  end.

Definition nat_data (r : ipa_nat_rule) : ipa_nat_rule := r <| rule_next_index := 0 |> <| rule_prev_index := 0 |>.

#[export] Instance nat_laws pdns : ipa_entry_laws ipa_nat_rule ipa_nat_ipv4_rule (EI := entry_interface pdns).
Proof.
  refine {| meta_ok := fun m _ _ => m = None |}.
  - done.
  - intros. by eexists.
  - intros m base expn e i p Hm _ _. exists (e <| rule_prev_index := p |>), m. split; [done|]. split; [done|]. by destruct e.
Defined.

#[export] Instance nat_hw pdns : ipa_hw_laws ipa_nat_rule ipa_nat_ipv4_rule (EI := entry_interface pdns).
Proof.
  refine {| hw := fun h => rule_store (nat_field h); entry_data := nat_data |}.
  - intros n e. by destruct e.
  - by intros [].
  - intros e i p m b e' m' [= <- <-]. by destruct e.
Defined.

(** A deleted head has the invalid protocol. *)
#[export] Instance nat_marks pdns : ipa_mark_laws ipa_nat_rule ipa_nat_ipv4_rule (EI := entry_interface pdns).
Proof.
  refine {| deleted := fun r => protocol r =? IPAHAL_NAT_INVALID_PROTOCOL; mark := IPA_NAT_INVALID_PROTO_FIELD_VALUE |}.
  - by intros [].
  - by intros [].
Defined.

(** ** The index table *)

Definition index_field (h : dma_help_type) : Z :=
  match h with
  | HELP_UPDATE_ENTRY => IPA_NAT_INDEX_RULE_NEXT_FIELD_OFFSET
  | _ => IPA_NAT_INDEX_RULE_NAT_INDEX_FIELD_OFFSET
  end.

Definition index_data (r : ipa_nat_indx_tbl_rule) : ipa_nat_indx_tbl_rule := r <| index_next_index := 0 |>.

#[export] Instance index_laws : ipa_entry_laws ipa_nat_indx_tbl_rule Z (EI := index_entry_interface).
Proof.
  refine {| meta_ok := fun m _ expn => exists l, m = Some l /\ zlen l = expn |}.
  - done.
  - intros m base expn e i (l&->&Hl) Hi. cbn. unfold index_table_entry_get_prev_index.
    destruct (Z.leb_spec base i); [|by eexists]. apply zget_is_Some. lia.
  - intros m base expn e i p (l&->&Hl) Hb Hi. unfold entry_set_prev_index, index_entry_interface,
      index_table_entry_set_prev_index, entry_get_prev_index, index_table_entry_get_prev_index.
    replace (base <=? i) with true by lia. cbn. rewrite zset_in by lia. cbn. eexists _, _. split; [done|].
    split; [eexists; split; [done|by rewrite zlen_insert]|]. split; [done|]. split; [done|].
    cbn. split; [by rewrite zget_insert_eq by lia|].
    intros j e2 Hj. destruct (Z.leb_spec base j); [|done]. by rewrite zget_insert_ne by lia.
Defined.

#[export] Instance index_hw : ipa_hw_laws ipa_nat_indx_tbl_rule Z (EI := index_entry_interface).
Proof.
  refine {| hw := fun h => index_rule_store (index_field h); entry_data := index_data |}.
  - intros n e. by destruct e.
  - by intros [].
  - intros e i p m b e' m'. cbn. unfold index_table_entry_set_prev_index. destruct (b <=? i).
    + destruct m as [l|]; cbn; [|done]. destruct (zset l (i - b) p); cbn; [|done]. by intros [= <- <-].
    + by intros [= <- <-].
Defined.

(** ** Commands *)

Definition nat_helps (k : Z) : dma_helps :=
  let h f := mkHelper (nat_field f) IPA_NAT_BASE_TBL IPA_NAT_EXPN_TBL k in
  mkHelps (h HELP_UPDATE_HEAD) (h HELP_UPDATE_ENTRY) (h HELP_DELETE_HEAD).

Definition index_helps (k : Z) : dma_helps :=
  let h f := mkHelper (index_field f) IPA_NAT_INDX_TBL IPA_NAT_INDEX_EXPN_TBL k in
  mkHelps (h HELP_UPDATE_HEAD) (h HELP_UPDATE_ENTRY) (h HELP_DELETE_HEAD).

(** A command names a 16-bit word of a record of its table. *)
Definition dma_in_range (base : Z) (m : nat_memory) (one : ipa_ioc_nat_dma_one) : Prop :=
  0 <= dma_offset one /\
  match base_addr one with
  | IPA_NAT_BASE_TBL => dma_offset one < sizeof_ipa_nat_rule * base
  | IPA_NAT_EXPN_TBL => dma_offset one < sizeof_ipa_nat_rule * (zlen m.1 - base)
  | IPA_NAT_INDX_TBL => dma_offset one < sizeof_ipa_nat_indx_tbl_rule * base
  | IPA_NAT_INDEX_EXPN_TBL => dma_offset one < sizeof_ipa_nat_indx_tbl_rule * (zlen m.2 - base)
  | _ => False
  end.

(** What the interface documents of the hardware: the commands of a buffer,
    when they are in range, are stores executed in their order. *)
Definition documented_dma (sys : ipa_system) : Prop := forall base cmds m,
  Forall (dma_in_range base m) cmds -> table_dma sys base cmds m = fold_left (dma_store base) cmds m.

Lemma nat_field_range h : 0 <= nat_field h < 32.
Proof. destruct h; cbn; unfold IPA_NAT_RULE_FLAG_FIELD_OFFSET, IPA_NAT_RULE_NEXT_FIELD_OFFSET, IPA_NAT_RULE_PROTO_FIELD_OFFSET; lia. Qed.

Lemma index_field_range h : 0 <= index_field h < 4.
Proof. destruct h; cbn; unfold IPA_NAT_INDEX_RULE_NEXT_FIELD_OFFSET, IPA_NAT_INDEX_RULE_NAT_INDEX_FIELD_OFFSET; lia. Qed.

Section Dma.
Context {pdns0 : list ipa_nat_pdn_entry}.
Context (T : ipa_nat_ip4_table_cache) (k : Z).
Abbreviation base := (table_entries (table T)).
Abbreviation expn := (expn_table_entries (table T)).
Context (Hd : dims 32 (table T)) (Hdi : dims 4 (index_table T)).
Context (Hb : table_entries (index_table T) = base) (He : expn_table_entries (index_table T) = expn).

Abbreviation nat_cmd w := (write_cmd (table T) (nat_helps k) w).
Abbreviation index_cmd w := (write_cmd (index_table T) (index_helps k) w).

Lemma nat_cmd_store w m :
  0 <= w_rec w < base + expn ->
  dma_store base m (nat_cmd w) = (alter_rec (rule_store (nat_field (w_help w)) (w_data w)) (w_rec w) m.1, m.2) /\
  (zlen m.1 = base + expn -> dma_in_range base m (nat_cmd w)).
Proof using Hd.
  intros Hr. unfold write_cmd, field_cmd, dma_in_range. rewrite (geo_size _ _ Hd).
  pose proof (geo_base _ _ Hd). pose proof (geo_expn _ _ Hd). pose proof (nat_field_range (w_help w)) as Hf.
  set (h := dma_help (nat_helps k) (w_help w)).
  assert (Hh : offset h = nat_field (w_help w) /\ table_type h = IPA_NAT_BASE_TBL /\ expn_table_type h = IPA_NAT_EXPN_TBL)
    by (unfold h; by destruct (w_help w)).
  destruct Hh as (Ho&Hb0&He0). rewrite Ho, Hb0, He0. unfold dma_store, sizeof_ipa_nat_rule.
  destruct (Z.leb_spec base (w_rec w)); cbn [base_addr dma_offset dma_data];
    edestruct (field_offset 32 (nat_field (w_help w))) as (->&->&->); try lia; (split; [|intros; lia]).
  - by replace (base + (w_rec w - base)) with (w_rec w) by lia.
  - done.
Qed.

Lemma index_cmd_store w m :
  0 <= w_rec w < base + expn ->
  dma_store base m (index_cmd w) = (m.1, alter_rec (index_rule_store (index_field (w_help w)) (w_data w)) (w_rec w) m.2) /\
  (zlen m.2 = base + expn -> dma_in_range base m (index_cmd w)).
Proof using Hdi Hb He.
  intros Hr. unfold write_cmd, field_cmd, dma_in_range. rewrite (geo_size _ _ Hdi), Hb.
  pose proof (geo_base _ _ Hdi) as H1. pose proof (geo_expn _ _ Hdi) as H2. rewrite Hb in H1. rewrite He in H2.
  pose proof (index_field_range (w_help w)) as Hf.
  set (h := dma_help (index_helps k) (w_help w)).
  assert (Hh : offset h = index_field (w_help w) /\ table_type h = IPA_NAT_INDX_TBL /\ expn_table_type h = IPA_NAT_INDEX_EXPN_TBL)
    by (unfold h; by destruct (w_help w)).
  destruct Hh as (Ho&Hb0&He0). rewrite Ho, Hb0, He0. unfold dma_store, sizeof_ipa_nat_indx_tbl_rule.
  destruct (Z.leb_spec base (w_rec w)); cbn [base_addr dma_offset dma_data];
    edestruct (field_offset 4 (index_field (w_help w))) as (->&->&->); try lia; (split; [|intros; lia]).
  - by replace (base + (w_rec w - base)) with (w_rec w) by lia.
  - done.
Qed.

Abbreviation in_tables := (Forall (fun w => 0 <= w_rec w < base + expn)).

Lemma nat_cmds_fold ws m :
  in_tables ws ->
  fold_left (dma_store base) (map (fun w => nat_cmd w) ws) m = (hw_cmds (HL := nat_hw pdns0) ws m.1, m.2).
Proof using Hd.
  revert m. induction ws as [|w ws IH]; intros m; [by destruct m|]. intros [Hw Hws]%Forall_cons. cbn [map fold_left].
  destruct (nat_cmd_store w m Hw) as [-> _]. by rewrite IH.
Qed.

Lemma index_cmds_fold ws m :
  in_tables ws ->
  fold_left (dma_store base) (map (fun w => index_cmd w) ws) m = (m.1, hw_cmds (HL := index_hw) ws m.2).
Proof using Hdi Hb He.
  revert m. induction ws as [|w ws IH]; intros m; [by destruct m|]. intros [Hw Hws]%Forall_cons. cbn [map fold_left].
  destruct (index_cmd_store w m Hw) as [-> _]. by rewrite IH.
Qed.

(** Executing the commands of both tables, in either order. *)
Lemma post_cmds sys wn wi cmds m :
  documented_dma sys -> in_tables wn -> in_tables wi ->
  cmds = map (fun w => nat_cmd w) wn ++ map (fun w => index_cmd w) wi
    \/ cmds = map (fun w => index_cmd w) wi ++ map (fun w => nat_cmd w) wn ->
  zlen m.1 = base + expn -> zlen m.2 = base + expn ->
  table_dma sys base cmds m = (hw_cmds (HL := nat_hw pdns0) wn m.1, hw_cmds (HL := index_hw) wi m.2).
Proof using Hd Hdi Hb He.
  intros Hsys Hwn Hwi Hc H1 H2. rewrite Hsys.
  - destruct Hc as [-> | ->]; rewrite fold_left_app; [rewrite nat_cmds_fold, index_cmds_fold|rewrite index_cmds_fold, nat_cmds_fold]; done.
  - assert (Hn : Forall (dma_in_range base m) (map (fun w => nat_cmd w) wn)).
    { apply Forall_map. eapply Forall_impl; [exact Hwn|]. intros w Hw. by apply nat_cmd_store. }
    assert (Hi : Forall (dma_in_range base m) (map (fun w => index_cmd w) wi)).
    { apply Forall_map. eapply Forall_impl; [exact Hwi|]. intros w Hw. by apply index_cmd_store. }
    destruct Hc as [-> | ->]; by apply Forall_app.
Qed.

End Dma.

(** ** The words of a rule *)

Lemma wrap_lor w x y : 0 <= w -> wrap w (Z.lor x y) = Z.lor (wrap w x) (wrap w y).
Proof. intros Hw. unfold wrap. rewrite <- !Z.land_ones by done. apply Z.land_lor_distr_l. Qed.

Lemma nat_flags_fields uc s :
  is_word 13 uc -> s = 0 \/ s = 1 ->
  let f := nat_flags uc s 0 IPA_NAT_FLAG_ENABLE_BIT in
  wrap 13 f = uc /\ wrap 1 (Z.shiftr f 13) = s /\ wrap 1 (Z.shiftr f 14) = 0 /\ wrap 1 (Z.shiftr f 15) = 1.
Proof.
  intros Hu Hs f.
  assert (Hf : f = Z.lor uc (if decide (s = 0) then 32768 else 40960)) by (unfold f; by destruct Hs as [-> | ->]).
  assert (Hsh : forall k, 13 <= k -> Z.shiftr uc k = 0).
  { intros k Hk. rewrite Z.shiftr_div_pow2 by lia. apply Z.div_small. destruct Hu. split; [lia|].
    pose proof (Z.pow_le_mono_r 2 13 k). lia. }
  rewrite Hf, wrap_lor, !Z.shiftr_lor, !Hsh, (wrap_small 13 uc) by (done || lia).
  destruct Hs as [-> | ->]; cbn; by rewrite Z.lor_0_r.
Qed.

(** The rule as it is stored for a user. *)
Definition stored_rule (pdns : list ipa_nat_pdn_entry) (u : ipa_nat_ipv4_rule) : option ipa_nat_rule :=
  r ← table_entry_copy_from_user pdns zero_rule u;
  Some (r <| enable := 1 |> <| time_stamp := wrap 24 (u_time_stamp u) |>).

Lemma copy_fields pdns u r :
  table_entry_copy_from_user pdns zero_rule u = Some r ->
  rule_next_index r = 0 /\ rule_prev_index r = 0 /\ indx_tbl_entry r = 0 /\ redirect r = 0 /\ enable r = 0 /\
  is_word 13 (uc_activation_index r) /\ (s_bit r = 0 \/ s_bit r = 1) /\ protocol r = u_protocol u.
Proof.
  unfold table_entry_copy_from_user. destruct (zget pdns (u_pdn_index u)) as [p|]; cbn; [|done].
  intros [= <-]. assert (is_word 13 (wrap 13 (u_uc_activation_index u))) by (by apply wrap_is_word).
  assert (b2z (u_s u) = 0 \/ b2z (u_s u) = 1) by (destruct (u_s u); cbn; lia).
  by destruct ((_ =? _) || _).
Qed.

Lemma store_flags d r :
  rule_store IPA_NAT_RULE_FLAG_FIELD_OFFSET d r
  = r <| uc_activation_index := wrap 13 d |> <| s_bit := wrap 1 (Z.shiftr d 13) |>
      <| redirect := wrap 1 (Z.shiftr d 14) |> <| enable := wrap 1 (Z.shiftr d 15) |>.
Proof. done. Qed.

(** The owner's changes and the command that enables the rule give the stored
    rule, with the index of its entry in the index table. *)
Lemma enabled_rule pdns u r e index rd en :
  table_entry_copy_from_user pdns zero_rule u = Some r -> nat_data e = nat_data r ->
  let e' := rule_store IPA_NAT_RULE_FLAG_FIELD_OFFSET
    (nat_flags (uc_activation_index r) (s_bit r) 0 IPA_NAT_FLAG_ENABLE_BIT)
    (e <| indx_tbl_entry := index |> <| redirect := rd |> <| enable := en |>
       <| time_stamp := wrap 24 (u_time_stamp u) |>) in
  rule_next_index e' = rule_next_index e /\ rule_prev_index e' = rule_prev_index e /\ enable e' = 1 /\
  nat_data e' = r <| enable := 1 |> <| time_stamp := wrap 24 (u_time_stamp u) |> <| indx_tbl_entry := index |>.
Proof.
  intros Hr He e'. destruct (copy_fields _ _ _ Hr) as (Hn&Hp&_&Hrd&_&Hu&Hs&_).
  destruct (nat_flags_fields _ _ Hu Hs) as (H13&H1&H14&H15).
  generalize dependent (nat_flags (uc_activation_index r) (s_bit r) 0 IPA_NAT_FLAG_ENABLE_BIT). intros d e' H13 H1 H14 H15.
  unfold e'. rewrite store_flags, H13, H1, H14, H15. split; [done|]. split; [done|]. split; [done|]. clear e' H13 H1 H14 H15.
  transitivity ((nat_data e) <| indx_tbl_entry := index |> <| time_stamp := wrap 24 (u_time_stamp u) |>
    <| uc_activation_index := uc_activation_index r |> <| s_bit := s_bit r |> <| redirect := 0 |> <| enable := 1 |>).
  { by destruct e. }
  rewrite He. clear He Hr Hu Hs e. destruct r. cbn in Hn, Hp, Hrd. by subst.
Qed.

(** ** Runs on a larger state *)

Section InNat.
Context {St : Type} `{HN : HasNat St}.

Lemma in_nat_run {A} (m : NM A) (s : St) a n : m (nat_of s) = Done (a, n) -> in_nat m s = Done (a, set_nat n s).
Proof using Type. unfold in_nat. by intros ->. Qed.

Lemma in_nat_then {A B} (m : NM A) (s : St) a n (k : A -> M St B) :
  m (nat_of s) = Done (a, n) -> (in_nat m ≫= k) s = k a (set_nat n s).
Proof using Type. intros H. by apply bind_run, in_nat_run. Qed.

Lemma in_call_then {B} (s : St) (k : Z -> M St B) :
  no_failures (sys (nat_of s)) -> (in_nat sys_call ≫= k) s = k 0 (set_nat (ticks 1 (nat_of s)) s).
Proof using Type. intros H. by apply in_nat_then, call_run. Qed.

End InNat.
