(* ===== verification/IpaRules.v ===== *)
(** * Adding and deleting rules

    The two tables of one cache as one store of rules: [tables_ok] relates them
    to a finite map from the index of a rule to its fields.  Adding and deleting
    a rule implement the insertion and the deletion of that map. *)

From stdpp Require Import gmap.
From S2P Require Import Prelude IpaChain IpaTable IpaTableSpec IpaTableSettle IpaSystem IpaNat IpaNatSpec.

Local Open Scope Z_scope.

(** ** One table of one cache *)

(** The table [T] is in use and the device of its cache is open. *)
Definition at_table (nmi i : Z) (n : nat_state) (T : ipa_nat_ip4_table_cache) : Prop :=
  exists c d, zget (ipv4_nat_cache n) nmi = Some c /\ ipa_desc c = Some d /\ zget (ip4_tbl c) i = Some T.

(** The state with another table and command in their place. *)
Definition put_at (nmi i : Z) (T : ipa_nat_ip4_table_cache) (cm : ipa_ioc_nat_dma_cmd) (n : nat_state) : nat_state :=
  n <| ipv4_nat_cache ::= alter_rec (fun c => c <| ip4_tbl ::= fun l => <[Z.to_nat i := T]> l |>) nmi |>
    <| nat_cmd := cm |>.

Section At.
Context (nmi i : Z) (n : nat_state) (T0 : ipa_nat_ip4_table_cache) (Hat : at_table nmi i n T0).
Abbreviation put := (put_at nmi i).

Lemma put_cache T cm :
  exists c d, zget (ipv4_nat_cache (put T cm n)) nmi = Some c /\ ipa_desc c = Some d /\ zget (ip4_tbl c) i = Some T /\
    0 <= i < zlen (ip4_tbl c) /\ 0 <= nmi < zlen (ipv4_nat_cache n).
Proof using Hat.
  destruct Hat as (c&d&Hc&Hd&HT). pose proof (zget_Some _ _ _ Hc). pose proof (zget_Some _ _ _ HT).
  exists (c <| ip4_tbl ::= fun l => <[Z.to_nat i := T]> l |>), d. unfold put_at. cbn [ipv4_nat_cache].
  change (ipv4_nat_cache (upd nat_cmd _ _)) with
    (alter_rec (fun c => c <| ip4_tbl ::= fun l => <[Z.to_nat i := T]> l |>) nmi (ipv4_nat_cache n)).
  rewrite (alter_rec_set _ _ _ _ Hc), zget_insert_eq by done. split; [done|]. split; [done|].
  change (ip4_tbl (upd ip4_tbl _ c)) with (<[Z.to_nat i := T]> (ip4_tbl c)). by rewrite zget_insert_eq, zlen_insert by done.
Qed.

Lemma at_put T cm : at_table nmi i (put T cm n) T.
Proof using Hat. destruct (put_cache T cm) as (c&d&?&?&?&_). by exists c, d. Qed.

Lemma put_put T cm T' cm' : put T' cm' (put T cm n) = put T' cm' n.
Proof using Hat.
  destruct Hat as (c&d&Hc&Hd&HT). pose proof (zget_Some _ _ _ Hc).
  unfold put_at, upd. cbn. f_equal. rewrite !(alter_rec_set _ _ _ _ Hc).
  erewrite alter_rec_set by (by apply zget_insert_eq). rewrite list_insert_insert_eq. cbn. by rewrite list_insert_insert_eq.
Qed.

Lemma put_same : put T0 (nat_cmd n) n = n.
Proof using Hat.
  destruct Hat as (c&d&Hc&Hd&HT). pose proof (zget_Some _ _ _ Hc). pose proof (zget_Some _ _ _ HT).
  unfold put_at, upd. cbn. rewrite (alter_rec_set _ _ _ _ Hc). cbn.
  rewrite zget_to_nat in HT by lia. rewrite (list_insert_id _ _ _ HT). destruct c as [a b e f]. cbn in *.
  rewrite zget_to_nat in Hc by lia. rewrite (list_insert_id _ _ _ Hc). by destruct n.
Qed.

Section Put.
Context (T : ipa_nat_ip4_table_cache) (cm : ipa_ioc_nat_dma_cmd).
Abbreviation here := (put T cm n).

Lemma get_table_then {B} (k : ipa_nat_ip4_table_cache -> NM B) : (get_table nmi i ≫= k) here = k T here.
Proof using Hat.
  destruct (put_cache T cm) as (c&d&Hc&Hd&HT&_). apply bind_run. unfold get_table, get_cache.
  rewrite (bind_run _ _ _ c here) by (by rewrite Hc). by rewrite HT.
Qed.

Lemma get_cache_then {B} (k : ipa_nat_cache -> NM B) :
  exists c d, ipa_desc c = Some d /\ (get_cache nmi ≫= k) here = k c here.
Proof using Hat.
  destruct (put_cache T cm) as (c&d&Hc&Hd&HT&_). exists c, d. split; [done|]. apply bind_run. unfold get_cache. by rewrite Hc.
Qed.

Lemma put_table_run T' : put_table nmi i T' here = Done (tt, put T' cm n).
Proof using Hat.
  destruct (put_cache T cm) as (c&d&Hc&Hd&HT&Hi&Hn). unfold put_table, get_cache.
  rewrite (bind_run _ _ _ c here) by (by rewrite Hc).
  rewrite (liftO_run _ _ _ _ _ (zset_in (ip4_tbl c) i T' Hi)). unfold upd_cache. rewrite Hc. f_equal. f_equal.
  rewrite <- (put_put T cm T' cm). assert (Hcm : nat_cmd here = cm) by done. revert Hc Hcm.
  generalize here. intros n' Hc Hcm. unfold put_at, upd. cbn. by rewrite (alter_rec_set _ _ _ _ Hc), Hcm.
Qed.

Lemma put_table_then {B} T' (k : unit -> NM B) : (put_table nmi i T' ≫= k) here = k tt (put T' cm n).
Proof using Hat. apply bind_run, put_table_run. Qed.

Lemma on_table_run {A} (m : M (tstate ipa_nat_rule) A) t a t' cm' T' :
  m (mkT t cm) = Done (a, mkT t' cm') -> table T = t -> T <| table := t' |> = T' ->
  on_table nmi i m here = Done (a, put T' cm' n).
Proof using Hat.
  intros Hm <- <-. unfold on_table. rewrite get_table_then.
  change ((gets nat_cmd ≫= ?k) here) with (k cm here). cbv beta. rewrite Hm. by rewrite put_table_then.
Qed.

Lemma on_table_then {A B} (m : M (tstate ipa_nat_rule) A) t a t' cm' T' (k : A -> NM B) :
  m (mkT t cm) = Done (a, mkT t' cm') -> table T = t -> T <| table := t' |> = T' ->
  (on_table nmi i m ≫= k) here = k a (put T' cm' n).
Proof using Hat. intros Hm Ht HT. apply bind_run. by apply (on_table_run m t a t'). Qed.

Lemma on_index_run {A} (m : M (tstate ipa_nat_indx_tbl_rule) A) t a t' cm' T' :
  m (mkT t cm) = Done (a, mkT t' cm') -> index_table T = t -> T <| index_table := t' |> = T' ->
  on_index nmi i m here = Done (a, put T' cm' n).
Proof using Hat.
  intros Hm <- <-. unfold on_index. rewrite get_table_then.
  change ((gets nat_cmd ≫= ?k) here) with (k cm here). cbv beta. rewrite Hm. by rewrite put_table_then.
Qed.

Lemma on_index_then {A B} (m : M (tstate ipa_nat_indx_tbl_rule) A) t a t' cm' T' (k : A -> NM B) :
  m (mkT t cm) = Done (a, mkT t' cm') -> index_table T = t -> T <| index_table := t' |> = T' ->
  (on_index nmi i m ≫= k) here = k a (put T' cm' n).
Proof using Hat. intros Hm Ht HT. apply bind_run. by apply (on_index_run m t a t'). Qed.

End Put.
End At.

(** ** Hashes *)

(** The hash and the spread hash name a record of the base part. *)
Definition slot_hash (one_way : bool) (hash size : Z) : NM Z := if one_way then spread hash size else mret hash.

Lemma slot_hash_run nmi i T cm n one_way hash size :
  1 <= size -> 1 <= hash <= size ->
  exists h x, slot_hash one_way hash size (put_at nmi i T cm n) = Done (h, put_at nmi i T cm (n <| Hash_token := x |>)) /\
    1 <= h <= size.
Proof.
  intros Hs Hh. destruct one_way.
  - eexists _, (Hash_token n + 1). split; [reflexivity|]. by apply masked_hash.
  - exists hash, (Hash_token n). split; [by destruct n|done].
Qed.

(** ** The rules of a table *)

(** A rule is live when the hardware follows it: a head whose rule was deleted
    keeps its links but has the invalid protocol. *)
Definition live (r : ipa_nat_rule) : bool := truthy (enable r) && negb (protocol r =? IPAHAL_NAT_INVALID_PROTOCOL).

Abbreviation rule_at := (data_at (HL := nat_hw [])).
Abbreviation index_at := (data_at (HL := index_hw)).

(** Live rules and entries of the index table name each other. *)
Record paired (nd : Z -> option ipa_nat_rule) (xd : Z -> option ipa_nat_indx_tbl_rule) : Prop := {
  pair_rule : forall i e, nd i = Some e -> live e = true ->
    i <> 0 /\ exists x, xd (indx_tbl_entry e) = Some x /\ tbl_entry x = i;
  pair_index : forall j x, xd j = Some x -> tbl_entry x <> 0 ->
    exists e, nd (tbl_entry x) = Some e /\ live e = true /\ indx_tbl_entry e = j;
}.

(** The live rules, by their index, without the index of their entry. *)
Definition rules_rep (nd : Z -> option ipa_nat_rule) (m : gmap Z ipa_nat_rule) : Prop := forall i r,
  m !! i = Some r <-> exists e, nd i = Some e /\ live e = true /\ r = e <| indx_tbl_entry := 0 |>.

Record tables_wf (mt : Z) (T : ipa_nat_ip4_table_cache) (m : gmap Z ipa_nat_rule)
    (nch ich : gmap Z (list Z)) (k : Z) : Prop := {
  wf_valid : valid (mem_desc T) = true;
  wf_nat : table_ok (EL := nat_laws []) sizeof_ipa_nat_rule (table T) nch;
  wf_index : table_ok (EL := index_laws) sizeof_ipa_nat_indx_tbl_rule (index_table T) ich;
  wf_base : table_entries (index_table T) = table_entries (table T);
  wf_expn : expn_table_entries (index_table T) = expn_table_entries (table T);
  wf_helps : dma_help_of (table T) = Some (nat_helps k) /\ dma_help_of (index_table T) = Some (index_helps k);
  wf_nmi : nmi (table T) = mt;
  wf_paired : paired (rule_at (table T)) (index_at (index_table T));
  wf_dead : forall i e, rule_at (table T) i = Some e -> truthy (enable e) = true -> live e = false ->
    exists x es, nch !! i = Some (x :: es);
  wf_rep : rules_rep (rule_at (table T)) m;
}.

Definition tables_ok (mt : Z) (T : ipa_nat_ip4_table_cache) (m : gmap Z ipa_nat_rule) : Prop :=
  exists nch ich k, tables_wf mt T m nch ich k.

(** The sizes of both parts, which no operation changes. *)
Definition sizes_of (T : ipa_nat_ip4_table_cache) : Z * Z := (table_entries (table T), expn_table_entries (table T)).

Lemma shape_sizes T T' : shape (table T') = shape (table T) -> sizes_of T' = sizes_of T.
Proof. unfold shape, sizes_of. intros [= _ -> -> _ _]. done. Qed.

(** *** A new pair *)

Section NewPair.
Context (nd nd' : Z -> option ipa_nat_rule) (xd xd' : Z -> option ipa_nat_indx_tbl_rule) (m : gmap Z ipa_nat_rule).
Context (r j : Z) (e : ipa_nat_rule) (x : ipa_nat_indx_tbl_rule).
Context (Hr0 : r <> 0) (Hfree : forall e, nd r = Some e -> live e = false) (Hjfree : forall x, xd j = Some x -> tbl_entry x = 0).
Context (Hr : nd' r = Some e) (Hlive : live e = true) (Hindex : indx_tbl_entry e = j).
Context (Hj : xd' j = Some x) (Hx : tbl_entry x = r).
Context (Hnd : forall i, i <> r -> nd' i = nd i) (Hxd : forall i, i <> j -> xd' i = xd i).

Lemma paired_new : paired nd xd -> paired nd' xd'.
Proof using Hr0 Hfree Hjfree Hr Hlive Hindex Hj Hx Hnd Hxd.
  intros [Hpr Hpi]. split.
  - intros i f Hi Hf. destruct (decide (i = r)) as [->|Hne].
    + assert (f = e) as -> by congruence. split; [done|]. exists x. split; [congruence|done].
    + rewrite Hnd in Hi by done. destruct (Hpr i f Hi Hf) as (Hi0&y&Hy&Hyi). split; [done|]. exists y. split; [|done].
      rewrite Hxd; [done|]. intros Heq. rewrite Heq in Hy. specialize (Hjfree y Hy). congruence.
  - intros i y Hi Hy. destruct (decide (i = j)) as [->|Hne].
    + assert (y = x) as -> by congruence. rewrite Hx. by exists e.
    + rewrite Hxd in Hi by done. destruct (Hpi i y Hi Hy) as (f&Hf&Hfl&Hfi). exists f. split; [|done].
      rewrite Hnd; [done|]. intros Heq. rewrite Heq in Hf. specialize (Hfree f Hf). congruence.
Qed.

Lemma rep_new : rules_rep nd m -> m !! r = None /\ rules_rep nd' (<[r := e <| indx_tbl_entry := 0 |>]> m).
Proof using Hfree Hr Hlive Hnd.
  intros Hm. split.
  - destruct (m !! r) as [f|] eqn:Hf; [|done]. apply Hm in Hf as (g&Hg&Hgl&_). specialize (Hfree g Hg). congruence.
  - intros i f. destruct (decide (i = r)) as [->|Hne].
    + rewrite lookup_insert_eq, Hr. split; [intros [= <-]; by exists e|]. intros (g&[= <-]&_&->). done.
    + rewrite lookup_insert_ne, Hnd by done. apply Hm.
Qed.

End NewPair.

(** ** Insertion into one of the two tables *)

Lemma table_ok_pdns p q size t ch : table_ok (EL := nat_laws p) size t ch -> table_ok (EL := nat_laws q) size t ch.
Proof. intros [[Hd Hm] Hc Hn Hb]. by split. Qed.

(** Every slot of the expansion part is in use. *)
Definition expansion_full {E U} `{EI : ipa_table_entry_interface E U} (t : ipa_table E) : Prop :=
  forall j, table_entries t <= j < table_entries t + expn_table_entries t -> filled (t := t) j.

Section Insert.
Context (pd : list ipa_nat_pdn_entry) (k : Z).

Lemma nat_insert t ch c u r0 h :
  table_ok (EL := nat_laws pd) sizeof_ipa_nat_rule t ch -> dma_help_of t = Some (nat_helps k) ->
  1 <= h < table_entries t -> (length (dma c) + 2 <= dma_room c)%nat ->
  table_entry_copy_from_user pd zero_rule u = Some r0 ->
  let flags := nat_flags (uc_activation_index r0) (s_bit r0) 0 IPA_NAT_FLAG_ENABLE_BIT in
  let run := ipa_table_add_entry (EI := entry_interface pd) u h (mkT t c) in
  (run = Done ((- 1, h, 0), mkT t c) /\ expansion_full (EI := entry_interface []) t)
  \/ exists r t1 ws e1,
      run = Done ((0, r, MakeEntryHdl t r), mkT t1 (push_all t (nat_helps k) ws c)) /\
      grown (HL := nat_hw pd) (size := sizeof_ipa_nat_rule) (t := t) (ch := ch) r0 (r0 <| enable := 1 |>) flags r t1 ws e1
        (rule_store IPA_NAT_RULE_FLAG_FIELD_OFFSET flags) /\
      nat_data e1 = nat_data r0.
Proof.
  intros Ht Hhs Hh Hroom Hr0 flags run. destruct (copy_fields _ _ _ Hr0) as (Hn&Hp&_).
  assert (Hhead : entry_head_insert (ipa_table_entry_interface := entry_interface pd) zero_rule u = Some (0, r0, flags))
    by (cbn; unfold table_entry_head_insert; by rewrite Hr0).
  assert (Htail : entry_tail_insert (ipa_table_entry_interface := entry_interface pd) zero_rule u = Some (0, r0 <| enable := 1 |>))
    by (cbn; unfold table_entry_tail_insert; by rewrite Hr0).
  pose proof (add_entry_run (EL := nat_laws pd) Ht c (nat_helps k) u h _ _ _ Hh Hhs Hroom Hhead Htail) as Hadd.
  destruct (added_grown (HL := nat_hw pd) Ht c (nat_helps k) h r0 (r0 <| enable := 1 |>) flags Hh Hn ltac:(by destruct r0)
    ltac:(cbn; unfold table_entry_get_prev_index; by rewrite Hp) _ Hadd) as [(es&_&Hfull&Hrun)|(r&t1&ws&e1&fin&Hrun&Hg)].
  - by left.
  - right. exists r, t1, ws, e1. destruct (gr_fin _ _ _ _ _ _ _ _ Hg) as [[-> Hd]|[Hm _]]; [done|].
    exfalso. apply Hm. apply (geo_meta _ _ (tk_geo _ _ _ Ht)).
Qed.

Lemma index_insert t ch c u h :
  table_ok (EL := index_laws) sizeof_ipa_nat_indx_tbl_rule t ch -> dma_help_of t = Some (index_helps k) ->
  1 <= h < table_entries t -> (length (dma c) + 2 <= dma_room c)%nat ->
  let run := ipa_table_add_entry (EI := index_entry_interface) u h (mkT t c) in
  (run = Done ((- 1, h, 0), mkT t c) /\ expansion_full (EI := index_entry_interface) t)
  \/ exists j t1 ws e1 fin,
      run = Done ((0, j, MakeEntryHdl t j), mkT t1 (push_all t (index_helps k) ws c)) /\
      grown (HL := index_hw) (size := sizeof_ipa_nat_indx_tbl_rule) (t := t) (ch := ch) (mkIndexRule 0 0) (mkIndexRule u 0) u j t1 ws e1 fin /\
      tbl_entry (fin e1) = u /\ index_next_index (fin e1) = index_next_index e1.
Proof.
  intros Ht Hhs Hh Hroom run.
  pose proof (add_entry_run (EL := index_laws) Ht c (index_helps k) u h (mkIndexRule 0 0) (mkIndexRule u 0) u Hh Hhs Hroom eq_refl eq_refl) as Hadd.
  destruct (added_grown (HL := index_hw) Ht c (index_helps k) h (mkIndexRule 0 0) (mkIndexRule u 0) u Hh eq_refl eq_refl
    ltac:(cbn; unfold index_table_entry_get_prev_index; by replace (table_entries t <=? h) with false by lia) _ Hadd)
    as [(es&_&Hfull&Hrun)|(j&t1&ws&e1&fin&Hrun&Hg)].
  - by left.
  - right. exists j, t1, ws, e1, fin. destruct (gr_fin _ _ _ _ _ _ _ _ Hg) as [[-> Hd]|(_&->&Hd)]; [done|].
    split; [done|]. split; [done|]. split; [|done]. change (tbl_entry (index_data e1) = u). change (entry_data e1) with (index_data e1) in Hd. by rewrite Hd.
Qed.

End Insert.

(** ** Adding a rule *)

(** Tables with the same records hold the same rules. *)
Lemma wf_restore mt T m nch ich k t' x' :
  tables_wf mt T m nch ich k ->
  table_ok (EL := nat_laws []) sizeof_ipa_nat_rule t' nch -> recs t' = recs (table T) -> shape t' = shape (table T) ->
  table_ok (EL := index_laws) sizeof_ipa_nat_indx_tbl_rule x' ich -> recs x' = recs (index_table T) ->
  shape x' = shape (index_table T) ->
  tables_wf mt (T <| table := t' |> <| index_table := x' |>) m nch ich k.
Proof.
  intros [Hv Hn Hx Hb He Hh Hnm Hp Hd Hr] Hn' Hrn Hsn Hx' Hrx Hsx. injection Hsn as ? ? ? ? ?. injection Hsx as ? ? ? ? ?.
  assert (Hdn : rule_at t' = rule_at (table T)) by (unfold data_at; by rewrite Hrn).
  assert (Hdx : index_at x' = index_at (index_table T)) by (unfold data_at; by rewrite Hrx).
  split; cbn [mem_desc table index_table upd]; try done; unfold upd; cbn; congruence || (by rewrite ?Hdn, ?Hdx) || idtac.
Qed.

(** Both tables after the commands of an insertion: the new rule is stored. *)
Section Settled.
Context (pd : list ipa_nat_pdn_entry) (mt : Z) (T : ipa_nat_ip4_table_cache) (m : gmap Z ipa_nat_rule).
Context (nch ich : gmap Z (list Z)) (k : Z) (Hwf : tables_wf mt T m nch ich k).
Context (r0 rt : ipa_nat_rule) (flags r : Z) (t1 : ipa_table ipa_nat_rule) (wn : list hw_write) (e1 : ipa_nat_rule).
Context (fin : ipa_nat_rule -> ipa_nat_rule).
Context (Hgn : grown (HL := nat_hw pd) (size := sizeof_ipa_nat_rule) (t := table T) (ch := nch) r0 rt flags r t1 wn e1 fin).
Context (j : Z) (x1 : ipa_table ipa_nat_indx_tbl_rule) (wi : list hw_write) (ex1 : ipa_nat_indx_tbl_rule).
Context (finx : ipa_nat_indx_tbl_rule -> ipa_nat_indx_tbl_rule) (eh et : ipa_nat_indx_tbl_rule) (d : Z).
Context (Hgx : grown (HL := index_hw) (size := sizeof_ipa_nat_indx_tbl_rule) (t := index_table T) (ch := ich) eh et d j x1 wi ex1 finx).
Context (e : ipa_nat_rule) (Hen : enable (fin e) = 1) (Hproto : protocol (fin e) <> IPAHAL_NAT_INVALID_PROTOCOL).
Context (Hnext : rule_next_index (fin e) = rule_next_index e1) (Hprev : rule_prev_index (fin e) = rule_prev_index e1).
Context (Hj : indx_tbl_entry (fin e) = j) (Hx : tbl_entry (finx ex1) = r) (Hxn : index_next_index (finx ex1) = index_next_index ex1).

Lemma wf_new :
  m !! r = None /\
  tables_ok mt (T <| table := settle (HL := nat_hw pd) wn (set_rec r e t1) |> <| index_table := settle (HL := index_hw) wi x1 |>)
    (<[r := (nat_data (fin e)) <| indx_tbl_entry := 0 |>]> m).
Proof using All.
  destruct Hwf as [Hv Hn Hxt Hb He [Hh Hhx] Hnm Hp Hd Hr]. pose proof (table_ok_pdns [] pd _ _ _ Hn) as Hnp.
  pose proof (gr_range _ _ _ _ _ _ _ _ Hgn) as Hrr. pose proof (gr_range _ _ _ _ _ _ _ _ Hgx) as Hjr.
  destruct (gr_settle _ _ _ _ _ _ _ _ Hgn e) as (nch'&Hok&Hrec&Hother&Hch);
    [cbn; unfold table_entry_is_valid; by rewrite Hen|rewrite <- (gr_next _ _ _ _ _ _ _ _ Hgn); exact Hnext|
     intros; cbn; unfold table_entry_get_prev_index; by rewrite Hprev|].
  destruct (gr_settle _ _ _ _ _ _ _ _ Hgx ex1) as (ich'&Hokx&Hrecx&Hotherx&_);
    [cbn; unfold index_table_entry_is_valid; rewrite Hx; apply truthy_true; lia|
     rewrite <- (gr_next _ _ _ _ _ _ _ _ Hgx); exact Hxn|done|].
  rewrite (set_rec_id _ _ _ (gr_rec _ _ _ _ _ _ _ _ Hgx)) in Hokx, Hrecx, Hotherx.
  pose proof (data_free (HL := nat_hw pd) _ _ _ r Hnp (gr_free _ _ _ _ _ _ _ _ Hgn) ltac:(lia) : rule_at (table T) r = _) as Hfr.
  pose proof (data_free (HL := index_hw) _ _ _ j Hxt (gr_free _ _ _ _ _ _ _ _ Hgx) ltac:(lia)) as Hfj.
  assert (Hlive : live (nat_data (fin e)) = true).
  { unfold live. change (enable (nat_data (fin e))) with (enable (fin e)). rewrite Hen.
    change (protocol (nat_data (fin e))) with (protocol (fin e)). by apply Z.eqb_neq in Hproto as ->. }
  set (t2 := settle wn (set_rec r e t1)) in *. set (x2 := settle wi x1) in *.
  change (forall j, j <> r -> rule_at t2 j = rule_at (table T) j) in Hother.
  assert (Hnr : rule_at t2 r = Some (nat_data (fin e))) by (unfold data_at; by rewrite Hrec).
  assert (Hxj : index_at x2 j = Some (index_data (finx ex1))) by (unfold data_at; by rewrite Hrecx).
  assert (Hnf : forall f, rule_at (table T) r = Some f -> live f = false) by (intros f Hf; rewrite Hfr in Hf; by injection Hf as <-).
  assert (Hxf : forall y, index_at (index_table T) j = Some y -> tbl_entry y = 0) by (intros y Hy; rewrite Hfj in Hy; by injection Hy as <-).
  pose proof (gr_shape _ _ _ _ _ _ _ _ Hgn) as Hsn. pose proof (gr_shape _ _ _ _ _ _ _ _ Hgx) as Hsx.
  injection Hsn as ? ? ? ? ?. injection Hsx as ? ? ? ? ?.
  destruct (rep_new (rule_at (table T)) (rule_at t2) m r (nat_data (fin e)) Hnf Hnr Hlive Hother Hr) as [Hmr Hrep].
  split; [done|]. exists nch', ich', k. split.
  - exact Hv.
  - exact (table_ok_pdns pd [] _ _ _ Hok).
  - exact Hokx.
  - change (table_entries x1 = table_entries t1). congruence.
  - change (expn_table_entries x1 = expn_table_entries t1). congruence.
  - change (dma_help_of t1 = Some (nat_helps k) /\ dma_help_of x1 = Some (index_helps k)). split; congruence.
  - change (nmi t1 = mt). congruence.
  - eapply (paired_new (rule_at (table T)) (rule_at t2) (index_at (index_table T)) (index_at x2) r j); try done; lia.
  - intros i f Hf Hfe Hfl. destruct (decide (i = r)) as [->|Hir]; [change (rule_at t2 r = Some f) in Hf; congruence|].
    change (rule_at t2 i = Some f) in Hf. rewrite Hother in Hf by done. destruct (Hd i f Hf Hfe Hfl) as (y&es&Hes).
    destruct (Hch i _ Hes) as [es' ->]. by eexists _, _.
  - exact Hrep.
Qed.

End Settled.

(** The state after some system calls and some spreading of hashes. *)
Definition later (n : nat_state) (tok : Z) (calls : nat) : nat_state := n <| Hash_token := tok |> <| sys_calls := calls |>.

Lemma post_run nmi i n T0 T cm :
  at_table nmi i n T0 ->
  ipa_nati_post_ipv4_dma_cmd nmi i (put_at nmi i T cm n) =
  let n' := later n (Hash_token n) (S (sys_calls n)) in
  if truthy (sys_ret (sys n) (sys_calls n)) then Done (- EIO, put_at nmi i T cm n') else
  let m := table_dma (sys n) (table_entries (table T)) (dma cm) (recs (table T), recs (index_table T)) in
  Done (0, put_at nmi i (T <| table ::= fun x => x <| recs := m.1 |> |> <| index_table ::= fun x => x <| recs := m.2 |> |>) cm n').
Proof.
  intros Hat. cbv zeta. set (n' := later _ _ _). assert (Hat' : at_table nmi i n' T0) by exact Hat.
  unfold ipa_nati_post_ipv4_dma_cmd. rewrite (bind_run _ _ _ (sys_ret (sys n) (sys_calls n)) (put_at nmi i T cm n')) by done.
  destruct (truthy _); [done|]. rewrite getM_run, (get_table_then nmi i n' T0 Hat'). cbv zeta.
  by rewrite (put_table_then nmi i n' T0 Hat').
Qed.

Section Add.
Context (nmi i : Z) (n : nat_state) (T0 : ipa_nat_ip4_table_cache) (Hat : at_table nmi i n T0).
Context (Hdma : documented_dma (sys n)).

Context (m : gmap Z ipa_nat_rule) (nch ich : gmap Z (list Z)) (k : Z) (Hwf : tables_wf nmi T0 m nch ich k).
Context (u : ipa_nat_ipv4_rule) (r0 : ipa_nat_rule).
Context (Hr0 : table_entry_copy_from_user (pdns n) zero_rule u = Some r0).
Context (Hproto : u_protocol u <> IPAHAL_NAT_INVALID_PROTOCOL).
Abbreviation pd := (pdns n).
Abbreviation T := T0.
Abbreviation put := (put_at nmi i).

(** The outcomes of adding a rule: it is stored at a free index, a part is
    full, or the hardware did not take the commands. *)
Inductive rule_added : Z -> Z -> ipa_nat_ip4_table_cache -> Prop :=
| rule_stored r sr T' :
    m !! r = None -> stored_rule pd u = Some sr -> tables_ok nmi T' (<[r := sr]> m) /\ sizes_of T' = sizes_of T ->
    rule_added 0 (MakeEntryHdl (table T) r) T'
| rule_no_room T' :
    expansion_full (EI := entry_interface []) (table T) \/ expansion_full (EI := index_entry_interface) (index_table T) ->
    tables_ok nmi T' m /\ sizes_of T' = sizes_of T -> rule_added (- 1) 0 T'
| rule_not_posted T' :
    sys_ret (sys n) (sys_calls n) <> 0 -> tables_ok nmi T' m /\ sizes_of T' = sizes_of T -> rule_added (- EIO) 0 T'.

Lemma base_size_word : 2 <= table_entries (table T) <= 4096 /\ u16 (table_entries (table T) - 1) = table_entries (table T) - 1.
Proof using Hwf.
  pose proof (geo_base _ _ (tk_geo _ _ _ (wf_nat _ _ _ _ _ _ Hwf))). split; [done|]. apply wrap_small. unfold is_word. lia.
Qed.

Section Posted.
Context (r : Z) (t1 : ipa_table ipa_nat_rule) (wn : list hw_write) (e1 : ipa_nat_rule).
Abbreviation flags := (nat_flags (uc_activation_index r0) (s_bit r0) 0 IPA_NAT_FLAG_ENABLE_BIT).
Context (Hgn : grown (HL := nat_hw pd) (size := sizeof_ipa_nat_rule) (t := table T) (ch := nch) r0 (r0 <| enable := 1 |>)
                 flags r t1 wn e1 (rule_store IPA_NAT_RULE_FLAG_FIELD_OFFSET flags)).
Context (He1 : nat_data e1 = nat_data r0).

(** The record as the owner leaves it before the commands are posted. *)
Definition owner_rule (j : Z) : ipa_nat_rule :=
  e1 <| indx_tbl_entry := j |> <| redirect := wrap 1 (u_redirect u) |> <| enable := wrap 1 (u_enable u) |>
     <| time_stamp := wrap 24 (u_time_stamp u) |>.

Lemma erase_set_rec e : erase_state (EI := entry_interface pd) r (set_rec r e t1) = erase_state (EI := entry_interface pd) r t1.
Proof using Type.
  unfold erase_state. change (table_entries (set_rec r e t1)) with (table_entries t1).
  by destruct (_ <? _); unfold set_rec, upd; cbn; rewrite list_insert_insert_eq.
Qed.

(** Erasing the records of an insertion restores the rules. *)
Lemma undone e x' :
  table_ok (EL := index_laws) sizeof_ipa_nat_indx_tbl_rule x' ich -> recs x' = recs (index_table T) ->
  shape x' = shape (index_table T) ->
  let T' := T <| table := erase_state (EI := entry_interface pd) r (set_rec r e t1) |> <| index_table := x' |> in
  tables_ok nmi T' m /\ sizes_of T' = sizes_of T.
Proof using Hwf Hgn.
  clear He1. intros Hx Hrx Hsx. destruct (gr_undo _ _ _ _ _ _ _ _ Hgn) as [Hok Hrec]. rewrite erase_set_rec. cbv zeta.
  split; [|apply shape_sizes; change (shape (erase_state (EI := entry_interface pd) r t1) = shape (table T)); rewrite erase_shape; apply Hgn].
  exists nch, ich, k.
  apply wf_restore; [done|exact (table_ok_pdns pd [] _ _ _ Hok)|done| |done..].
  rewrite erase_shape. apply Hgn.
Qed.

Lemma in_recs e : 0 <= r < zlen (recs (set_rec r e t1)).
Proof using Hgn. cbn. rewrite zlen_insert. exact (zget_Some _ _ _ (gr_rec _ _ _ _ _ _ _ _ Hgn)). Qed.

Lemma erase_then {B} e x' cm n' (k' : unit -> NM B) :
  at_table nmi i n' T0 ->
  (on_table nmi i (ipa_table_erase_entry (EI := entry_interface pd) r) ≫= k')
    (put (T <| table := set_rec r e t1 |> <| index_table := x' |>) cm n')
  = k' tt (put (T <| table := erase_state (EI := entry_interface pd) r (set_rec r e t1) |> <| index_table := x' |>) cm n').
Proof using Hgn.
  intros Hat'. pose proof (erase_run (EI := entry_interface pd) (set_rec r e t1) cm r (in_recs e)) as Her.
  by eapply (on_table_then nmi i n' T0 Hat'); [exact Her|..].
Qed.

(** The index entry is in place; the commands are posted. *)
Section Indexed.
Context (j : Z) (x1 : ipa_table ipa_nat_indx_tbl_rule) (wi : list hw_write) (ex1 : ipa_nat_indx_tbl_rule).
Context (finx : ipa_nat_indx_tbl_rule -> ipa_nat_indx_tbl_rule).
Context (Hgx : grown (HL := index_hw) (size := sizeof_ipa_nat_indx_tbl_rule) (t := index_table T) (ch := ich)
                 (mkIndexRule 0 0) (mkIndexRule r 0) r j x1 wi ex1 finx).
Context (Hx : tbl_entry (finx ex1) = r) (Hxn : index_next_index (finx ex1) = index_next_index ex1).
Abbreviation cmds := (map (write_cmd (table T) (nat_helps k)) wn ++ map (write_cmd (index_table T) (index_helps k)) wi).

Lemma posted_tables :
  let t2 := set_rec r (owner_rule j) t1 in
  let mem := table_dma (sys n) (table_entries t2) cmds (recs t2, recs x1) in
  exists sr, stored_rule pd u = Some sr /\ m !! r = None /\
    let T' := T <| table := t2 <| recs := mem.1 |> |> <| index_table := x1 <| recs := mem.2 |> |> in
    tables_ok nmi T' (<[r := sr]> m) /\ sizes_of T' = sizes_of T.
Proof using Hdma Hwf Hr0 Hproto Hgn He1 Hgx Hx Hxn.
  intros t2 mem. destruct Hwf as [Hv Hn Hxt Hb He [Hh Hhx] Hnm Hp Hd Hr].
  pose proof (gr_shape _ _ _ _ _ _ _ _ Hgn) as Hsn. pose proof (gr_shape _ _ _ _ _ _ _ _ Hgx) as Hsx.
  injection Hsn as ? Hbn Hexn ? ?. injection Hsx as ? Hbx Hexx ? ?.
  assert (Hmem : mem = (hw_cmds (HL := nat_hw pd) wn (recs t2), hw_cmds (HL := index_hw) wi (recs x1))).
  { unfold mem. change (table_entries t2) with (table_entries t1). rewrite Hbn.
    apply (post_cmds (pdns0 := pd) T k (tk_geo _ _ _ Hn) (tk_geo _ _ _ Hxt) Hb He); [done|..].
    - apply Hgn.
    - rewrite <- Hb, <- He. apply Hgx.
    - by left.
    - unfold t2. cbn. rewrite zlen_insert, (geo_recs _ _ (gr_dims _ _ _ _ _ _ _ _ Hgn)). congruence.
    - cbn. rewrite (geo_recs _ _ (gr_dims _ _ _ _ _ _ _ _ Hgx)). congruence. }
  rewrite Hmem. destruct (enabled_rule pd u r0 e1 j (wrap 1 (u_redirect u)) (wrap 1 (u_enable u)) Hr0 He1) as (Hnx&Hpv&Hen&Hdata).
  fold (owner_rule j) in Hnx, Hpv, Hen, Hdata. set (e' := rule_store _ _ (owner_rule j)) in *.
  destruct (copy_fields _ _ _ Hr0) as (_&_&Hidx&_&_&_&_&Hpr).
  exists (r0 <| enable := 1 |> <| time_stamp := wrap 24 (u_time_stamp u) |>). split; [unfold stored_rule; by rewrite Hr0|].
  assert (Hproto' : protocol e' <> IPAHAL_NAT_INVALID_PROTOCOL).
  { change (protocol (nat_data e') <> IPAHAL_NAT_INVALID_PROTOCOL). by rewrite Hdata; cbn; rewrite Hpr. }
  assert (Hj : indx_tbl_entry e' = j) by (change (indx_tbl_entry (nat_data e') = j); by rewrite Hdata).
  destruct (wf_new pd nmi T m nch ich k Hwf r0 _ flags r t1 wn e1 _ Hgn j x1 wi ex1 finx _ _ _ Hgx (owner_rule j)
    Hen Hproto' Hnx Hpv Hj Hx Hxn) as [Hmr Hok].
  split; [done|]. cbv zeta. split; [|unfold sizes_of; cbn; congruence]. fold e' in Hok. rewrite Hdata in Hok.
  replace (r0 <| enable := 1 |> <| time_stamp := wrap 24 (u_time_stamp u) |> <| indx_tbl_entry := j |> <| indx_tbl_entry := 0 |>)
    with (r0 <| enable := 1 |> <| time_stamp := wrap 24 (u_time_stamp u) |>) in Hok by (destruct r0; cbn in Hidx; by rewrite Hidx).
  exact Hok.
Qed.

(** The rule is told its index entry, and the command posted. *)
Lemma link_and_post_run tok :
  let c2 := push_all (index_table T) (index_helps k) wi
              (push_all (table T) (nat_helps k) wn (mkDmaCmd MAX_DMA_ENTRIES_FOR_ADD [])) in
  exists ret hdl T' cm' tok' calls,
    link_and_post nmi i u r (MakeEntryHdl (table T) r) j
      (put (T <| table := t1 |> <| index_table := x1 |>) c2 (n <| Hash_token := tok |>))
    = Done ((ret, hdl), put T' cm' (later n tok' calls)) /\ rule_added ret hdl T'.
Proof using All.
  intros c2. set (n1 := n <| Hash_token := tok |>). assert (Hat1 : at_table nmi i n1 T) by exact Hat.
  pose proof (gr_shape _ _ _ _ _ _ _ _ Hgn) as Hsn. injection Hsn as ? Hbn Hexn Htn ?.
  pose proof (gr_range _ _ _ _ _ _ _ _ Hgn) as Hrr. pose proof (wf_nat _ _ _ _ _ _ Hwf) as Hn.
  assert (Hget : ipa_table_get_entry_by_index r (mkT t1 c2) = Done (Some r, mkT t1 c2)).
  { unfold ipa_table_get_entry_by_index. rewrite gets_then, Htn, (geo_tot _ _ (tk_geo _ _ _ Hn)).
    replace (truthy r) with true by (symmetry; apply truthy_true; lia). by replace (_ <=? r) with false by lia. }
  unfold link_and_post. rewrite getM_run. cbv zeta. change (pdns (put_at nmi i _ c2 n1)) with pd.
  erewrite (on_table_then nmi i n1 T Hat1); [|exact Hget|done|done]. cbv beta iota. set (t2 := set_rec r (owner_rule j) t1).
  assert (Hput : (e ← get_rec r; put_rec r (e <| indx_tbl_entry := j |> <| redirect := wrap 1 (u_redirect u) |>
      <| enable := wrap 1 (u_enable u) |> <| time_stamp := wrap 24 (u_time_stamp u) |>)) (mkT t1 c2) = Done (tt, mkT t2 c2)).
  { rewrite (get_rec_then _ _ _ e1) by apply Hgn. unfold put_rec. cbn [tbl]. rewrite zset_in; [done|].
    exact (zget_Some _ _ _ (gr_rec _ _ _ _ _ _ _ _ Hgn)). }
  set (T2 := T <| table := t2 |> <| index_table := x1 |>).
  erewrite (on_table_then nmi i n1 T Hat1 _ _ _ t1 tt t2 c2 T2); [|exact Hput|done|done].
  pose proof (post_run nmi i n1 T T2 c2 Hat1) as Hpost. cbv zeta in Hpost. set (n2 := later _ _ _) in Hpost.
  assert (Hat2 : at_table nmi i n2 T) by exact Hat. change (sys_ret (sys n1) _) with (sys_ret (sys n) (sys_calls n)) in Hpost.
  destruct (truthy (sys_ret (sys n) (sys_calls n))) eqn:Hsys; rewrite (bind_run _ _ _ _ _ Hpost); clear Hpost.
  - (* not posted *)
    apply truthy_true in Hsys. change (truthy (- EIO)) with true. cbn iota.
    assert (Hex : 0 <= j < zlen (recs x1)) by exact (zget_Some _ _ _ (gr_rec _ _ _ _ _ _ _ _ Hgx)).
    erewrite (on_index_then nmi i n2 T Hat2); [|exact (erase_run (EI := index_entry_interface) x1 c2 j Hex)|done|done].
    exists (- EIO), 0. do 2 eexists. exists tok, (S (sys_calls n)).
    split; [exact (erase_then (owner_rule j) (erase_state (EI := index_entry_interface) j x1) c2 n2 (fun _ => mret (- EIO, 0)) Hat2)|].
    apply rule_not_posted; [done|].
    destruct (gr_undo _ _ _ _ _ _ _ _ Hgx) as [Hxok Hxrec]. apply undone; [done|done|]. rewrite erase_shape. apply Hgx.
  - change (truthy 0) with false. cbn iota. destruct posted_tables as (sr&Hsr&Hmr&Hok).
    do 6 eexists. split; [reflexivity|]. by eapply rule_stored.
Qed.

End Indexed.
(** What follows the insertion into the translation table. *)
Lemma add_index_and_post_run :
  exists ret hdl T' cm' tok calls,
    add_index_and_post nmi i u r (MakeEntryHdl (table T) r)
      (put (T <| table := t1 |>) (push_all (table T) (nat_helps k) wn (mkDmaCmd MAX_DMA_ENTRIES_FOR_ADD [])) n)
    = Done ((ret, hdl), put T' cm' (later n tok calls)) /\ rule_added ret hdl T'.
Proof using All.
  pose proof Hwf as [Hv Hn Hxt Hb He [Hh Hhx] Hnm Hp Hd Hr]. destruct base_size_word as [Hrange Hsize].
  pose proof (gr_shape _ _ _ _ _ _ _ _ Hgn) as Hsn. injection Hsn as ? Hbn Hexn Htn ?.
  set (c1 := push_all _ _ wn _). unfold add_index_and_post.
  rewrite (get_table_then nmi i n T Hat). cbv zeta. change (table (T <| table := t1 |>)) with t1. rewrite Hbn, Hsize.
  set (size := table_entries (table T) - 1). set (hash := src_hash _ _ _ _ _ size).
  destruct (slot_hash_run nmi i (T <| table := t1 |>) c1 n (u_dst_only u) hash size ltac:(unfold size; lia)
    ltac:(apply masked_hash; unfold size; lia)) as (h&tok&Hslot&Hh1).
  unfold slot_hash in Hslot. rewrite (bind_run _ _ _ _ _ Hslot), getM_run.
  set (n1 := n <| Hash_token := tok |>). assert (Hat1 : at_table nmi i n1 T) by exact Hat.
  change (pdns (put_at nmi i (T <| table := t1 |>) c1 n1)) with pd.
  destruct (index_insert k (index_table T) ich c1 r h Hxt Hhx ltac:(unfold size in *; lia)) as
    [[Hrun Hfull]|(j&x1&wi&ex1&finx&Hrun&Hgx&Hx&Hxn)].
  { destruct (gr_writes _ _ _ _ _ _ _ _ Hgn) as [_ Hl]. unfold c1, push_all. cbn. rewrite length_map. unfold MAX_DMA_ENTRIES_FOR_ADD. lia. }
  - (* no room *)
    erewrite (on_index_then nmi i n1 T Hat1); [|exact Hrun|done|done]. cbv beta iota. change (truthy (- 1)) with true. cbn iota.
    pose proof (erase_then e1 (index_table T) c1 n1 (fun _ => mret (- 1, 0)) Hat1) as Her.
    rewrite (set_rec_id _ _ _ (gr_rec _ _ _ _ _ _ _ _ Hgn)) in Her.
    do 5 eexists. exists (sys_calls n). split; [exact Her|]. apply rule_no_room; [by right|].
    rewrite <- (erase_set_rec e1). by apply undone.
  - erewrite (on_index_then nmi i n1 T Hat1); [|exact Hrun|done|done]. cbv beta iota. change (truthy 0) with false. cbn iota.
    by apply (link_and_post_run j x1 wi ex1 finx Hgx Hx Hxn tok).
Qed.

End Posted.
End Add.

(** Adding a rule to an open table completes, and stores the rule at a free
    index or leaves the rules as they were. *)
Lemma add_rule_run nmi i n T m u r0 :
  at_table nmi i n T -> tables_ok nmi T m -> documented_dma (sys n) ->
  nat_cmd n = mkDmaCmd MAX_DMA_ENTRIES_FOR_ADD [] ->
  table_entry_copy_from_user (pdns n) zero_rule u = Some r0 -> u_protocol u <> IPAHAL_NAT_INVALID_PROTOCOL ->
  exists ret hdl T' cm' tok calls,
    add_rule_locked nmi i u n = Done ((ret, hdl), put_at nmi i T' cm' (later n tok calls)) /\
    rule_added nmi n T m u ret hdl T'.
Proof.
  intros Hat (nch&ich&k&Hwf) Hdma Hcmd Hr0 Hproto. pose proof Hwf as [Hv Hn _ _ _ [Hh _] _ _ _ _].
  destruct (base_size_word nmi T m nch ich k Hwf) as [Hrange Hsize].
  pose proof (put_same nmi i n T Hat) as Hput. rewrite Hcmd in Hput. set (c0 := mkDmaCmd _ _) in Hput.
  replace (add_rule_locked nmi i u n) with (add_rule_locked nmi i u (put_at nmi i T c0 n)) by (by rewrite Hput).
  unfold add_rule_locked. rewrite (get_table_then nmi i n T Hat), Hv. cbn [negb]. rewrite getM_run.
  edestruct (get_cache_then nmi i n T Hat) as (c&d&Hdesc&->).
  assert (exists pdn, zget (pdns n) (u_pdn_index u) = Some pdn) as [pdn Hpdn].
  { unfold table_entry_copy_from_user in Hr0. destruct (zget _ _); [by eexists|done]. }
  rewrite (liftO_run _ _ _ _ pdn), (liftO_run _ _ _ _ d) by done. cbv zeta. rewrite Hsize.
  set (size := table_entries (table T) - 1). set (hash := dst_hash _ _ _ _ _ _ size).
  destruct (slot_hash_run nmi i T c0 n (u_src_only u) hash size ltac:(unfold size; lia)
    ltac:(apply masked_hash; unfold size; lia)) as (h&tok&Hslot&Hh1).
  unfold slot_hash in Hslot. rewrite (bind_run _ _ _ _ _ Hslot).
  set (n1 := n <| Hash_token := tok |>). assert (Hat1 : at_table nmi i n1 T) by exact Hat.
  change (pdns (put_at nmi i T c0 n)) with (pdns n).
  destruct (nat_insert (pdns n) k (table T) nch c0 u r0 h (table_ok_pdns [] _ _ _ _ Hn) Hh ltac:(unfold size in *; lia)
    ltac:(cbn; unfold MAX_DMA_ENTRIES_FOR_ADD; lia) Hr0) as [[Hrun Hfull]|(r&t1&wn&e1&Hrun&Hg&He1)];
    (erewrite (on_table_then nmi i n1 T Hat1); [|exact Hrun|done|done]); cbv beta iota.
  - change (truthy (- 1)) with true. cbn iota. do 4 eexists. exists tok, (sys_calls n).
    split; [reflexivity|]. apply rule_no_room; [by left|]. split; [|done]. exists nch, ich, k. by destruct Hwf; split.
  - change (truthy 0) with false. cbn iota.
    destruct (add_index_and_post_run nmi i n1 T Hat1 Hdma m nch ich k Hwf u r0 Hr0 Hproto r t1 wn e1 Hg He1)
      as (ret&hdl&T'&cm'&tok'&calls&Hpost&Hres).
    exists ret, hdl, T', cm', tok', calls. split; [exact Hpost|]. destruct Hres; by econstructor.
Qed.
