(* ===== verification/IpaDelete.v ===== *)
(** * Deleting rules

    The deletion of a live rule from the tables of [IpaRules]: the entry of the
    index table goes first, then the rule, and what the hardware writes makes
    both tables well formed again. *)

From stdpp Require Import gmap.
From S2P Require Import Prelude IpaChain IpaTable IpaTableSpec IpaTableSettle IpaUnlink IpaSystem IpaNat IpaNatSpec IpaRules.

Local Open Scope Z_scope.

(** ** Live rules *)

Definition live_at (nd : Z -> option ipa_nat_rule) (i : Z) : option ipa_nat_rule :=
  e ← nd i; if live e then Some e else None.

Lemma live_at_Some nd i e : live_at nd i = Some e <-> nd i = Some e /\ live e = true.
Proof.
  unfold live_at. destruct (nd i) as [f|]; cbn; [|split; [done|by intros [? _]]].
  destruct (live f) eqn:Hf; split; try done; [intros [= <-]; done|intros [[= ->] _]; done|intros [[= ->] ?]; congruence].
Qed.

(** A pair is removed. *)
Lemma paired_removed nd nd' xd xd' i e j :
  paired nd xd -> nd i = Some e -> live e = true -> indx_tbl_entry e = j ->
  (forall k, live_at nd' k = if decide (k = i) then None else live_at nd k) ->
  (forall x, xd' j = Some x -> tbl_entry x = 0) -> (forall k, k <> j -> xd' k = xd k) -> paired nd' xd'.
Proof.
  intros [Hr Hx] Hi He Hj Hnd Hxj Hxd. destruct (Hr i e Hi He) as (Hi0&x0&Hx0&Ht0). rewrite Hj in Hx0. split.
  - intros k f Hk Hf. assert (Hl : live_at nd' k = Some f) by by apply live_at_Some.
    rewrite Hnd in Hl. case_decide as Hki; [done|]. apply live_at_Some in Hl as [Hk' _].
    destruct (Hr k f Hk' Hf) as (Hk0&x&Hxk&Htx). split; [done|]. exists x. split; [|done].
    rewrite Hxd; [done|]. intros Heq. rewrite Heq in Hxk. congruence.
  - intros k x Hk Htx. destruct (decide (k = j)) as [->|Hkj]; [by specialize (Hxj x Hk)|]. rewrite Hxd in Hk by done.
    destruct (Hx k x Hk Htx) as (f&Hf&Hfl&Hfk). exists f. split; [|done].
    assert (Hl : live_at nd' (tbl_entry x) = Some f).
    { rewrite Hnd. case_decide as Heq; [|by apply live_at_Some]. rewrite Heq in Hf. congruence. }
    by apply live_at_Some in Hl as [? _].
Qed.

Lemma paired_live_ext nd nd' xd : (forall k, live_at nd' k = live_at nd k) -> paired nd xd -> paired nd' xd.
Proof.
  intros H [Hr Hx]. split.
  - intros k f Hk Hf. assert (Hl : live_at nd' k = Some f) by by apply live_at_Some.
    rewrite H in Hl. apply live_at_Some in Hl as [Hl _]. by apply (Hr k f).
  - intros k x Hk Htx. destruct (Hx k x Hk Htx) as (f&Hf&Hfl&Hfk). exists f. split; [|done].
    assert (Hl : live_at nd' (tbl_entry x) = Some f) by (rewrite H; by apply live_at_Some). by apply live_at_Some in Hl as [? _].
Qed.

(** The entry of the rule [q] moves from [s] to [h]. *)
Lemma paired_moved nd nd' xd xd' s h xs xh q eq :
  paired nd xd -> xd s = Some xs -> tbl_entry xs = q -> q <> 0 -> nd q = Some eq -> live eq = true -> indx_tbl_entry eq = s ->
  (forall x, xd h = Some x -> tbl_entry x = 0) ->
  nd' q = Some (eq <| indx_tbl_entry := h |>) -> (forall k, k <> q -> nd' k = nd k) ->
  xd' h = Some xh -> tbl_entry xh = q -> (forall x, xd' s = Some x -> tbl_entry x = 0) ->
  (forall k, k <> s -> k <> h -> xd' k = xd k) -> paired nd' xd'.
Proof.
  intros [Hr Hx] Hs Hts Hq Heq Hel Hes Hh Hnq Hnd Hxh Hth Hxs Hxd. split.
  - intros k f Hk Hf. destruct (decide (k = q)) as [->|Hkq].
    + rewrite Hnq in Hk. injection Hk as <-. split; [done|]. by exists xh.
    + rewrite Hnd in Hk by done. destruct (Hr k f Hk Hf) as (Hk0&x&Hxk&Htx). split; [done|]. exists x. split; [|done].
      rewrite Hxd; [done|..]; intros Hc; rewrite Hc in Hxk; [congruence|]. specialize (Hh x Hxk). congruence.
  - intros k x Hk Htx. destruct (decide (k = h)) as [->|Hkh].
    + assert (x = xh) as -> by congruence. rewrite Hth. by exists (eq <| indx_tbl_entry := h |>).
    + destruct (decide (k = s)) as [->|Hks]; [by specialize (Hxs x Hk)|]. rewrite Hxd in Hk by done.
      destruct (Hx k x Hk Htx) as (f&Hf&Hfl&Hfk). exists f. split; [|done].
      rewrite Hnd; [done|]. intros Hc. rewrite Hc in Hf. congruence.
Qed.

(** The fields of the live rules, without the index of their entries. *)
Definition fields_at (nd : Z -> option ipa_nat_rule) (i : Z) : option ipa_nat_rule :=
  (fun f => f <| indx_tbl_entry := 0 |>) <$> live_at nd i.

Lemma rep_fields nd m : rules_rep nd m <-> forall i, m !! i = fields_at nd i.
Proof.
  assert (Hf : forall i r, fields_at nd i = Some r <-> exists e, nd i = Some e /\ live e = true /\ r = e <| indx_tbl_entry := 0 |>).
  { intros i r. unfold fields_at. rewrite fmap_Some. split.
    - intros (e&He&->). apply live_at_Some in He as [? ?]. by exists e.
    - intros (e&He&Hl&->). exists e. split; [by apply live_at_Some|done]. }
  split.
  - intros H i. apply option_eq. intros r. rewrite (H i r). symmetry. apply Hf.
  - intros H i r. rewrite H. apply Hf.
Qed.

Lemma rep_removed nd nd' m i :
  rules_rep nd m -> (forall k, fields_at nd' k = if decide (k = i) then None else fields_at nd k) ->
  rules_rep nd' (delete i m).
Proof.
  rewrite !rep_fields. intros Hm Hd k. rewrite Hd. case_decide as Hk; [subst k; by rewrite lookup_delete_eq|].
  by rewrite lookup_delete_ne.
Qed.

(** ** The record of the rule *)

(** Heads whose rule was deleted are kept for the records behind them. *)
Definition dead_heads (t : ipa_table ipa_nat_rule) (ch : gmap Z (list Z)) : Prop := forall i e,
  rule_at t i = Some e -> truthy (enable e) = true -> live e = false -> exists x es, ch !! i = Some (x :: es).

Section Rule.
Context (pd : list ipa_nat_pdn_entry) {t : ipa_table ipa_nat_rule} {ch : gmap Z (list Z)}.
Context (Ht : table_ok (EL := nat_laws pd) sizeof_ipa_nat_rule t ch) (Hdead : dead_heads t ch).
Context (i : Z) (e : ipa_nat_rule) (Hi : zget (recs t) i = Some e).
Context (n p : Z) (Hv : view_of (EI := entry_interface pd) t i = Some (n, p)).
Abbreviation it := (iterator_at i n p).
Abbreviation settled ws := (settle (HL := nat_hw pd) ws t).

Definition rule_write : hw_write :=
  if VALID_INDEX p then mkWrite HELP_UPDATE_ENTRY p n
  else if VALID_INDEX n then mkWrite HELP_DELETE_HEAD i IPA_NAT_INVALID_PROTO_FIELD_VALUE
  else mkWrite HELP_UPDATE_HEAD i 0.

(** The rule is gone and the others stay. *)
Definition rule_gone (t5 : ipa_table ipa_nat_rule) : Prop :=
  exists ch5, table_ok (EL := nat_laws pd) sizeof_ipa_nat_rule t5 ch5 /\ shape t5 = shape t /\
    (forall k, live_at (rule_at t5) k = if decide (k = i) then None else live_at (rule_at t) k) /\ dead_heads t5 ch5.

Lemma data_live t' k f : zget (recs t') k = Some f -> rule_at t' k = Some (nat_data f) /\ live (nat_data f) = live f.
Proof using Type. intros H. unfold data_at. by rewrite H. Qed.

Lemma settled_prev : VALID_INDEX p = true -> exists ep, zget (recs t) p = Some ep /\ entry_is_valid (ipa_table_entry_interface := entry_interface pd) ep = true /\
  zget (recs (settled [rule_write])) p = Some (ep <| rule_next_index := n |>).
Proof using Ht Hv. clear Hi. exact (IpaUnlink.unlink_prev (HM := nat_marks pd) Ht i n p Hv). Qed.

(** The record of the rule after the command is executed, in all cases of [delete_records]. *)
Lemma rule_deleted c :
  let t4 := settled [rule_write] in
  let ipe := if VALID_INDEX p then match zget (recs t4) p with Some r => protocol r =? IPAHAL_NAT_INVALID_PROTOCOL | None => false end
             else false in
  exists t5, rule_gone t5 /\
    if ipa_table_iterator_is_head_with_tail it then t5 = t4
    else ipa_table_delete_entry (EI := entry_interface pd) it ipe (mkT t4 c) = Done (tt, mkT t5 c).
Proof using Ht Hdead Hi Hv. exact (unlink_run (HM := nat_marks pd) Ht Hdead i e Hi n p Hv c). Qed.

End Rule.

(** ** The entry of the index table *)

Section Index.
Context (mt : Z) (T : ipa_nat_ip4_table_cache) (m : gmap Z ipa_nat_rule) (nch ich : gmap Z (list Z)) (kk : Z).
Context (Hwf : tables_wf mt T m nch ich kk).
Abbreviation t := (table T).
Abbreviation xt := (index_table T).
Context (i : Z) (e : ipa_nat_rule) (Hi : zget (recs t) i = Some e) (Hlive : live e = true).
Context (xr : ipa_nat_indx_tbl_rule) (Hj : zget (recs xt) (indx_tbl_entry e) = Some xr) (Hxi : tbl_entry xr = i).
Context (nj pj : Z) (Hv : view_of (EI := index_entry_interface) xt (indx_tbl_entry e) = Some (nj, pj)).
Abbreviation j := (indx_tbl_entry e).
Abbreviation index_settled ws := (settle (HL := index_hw) ws xt).

(** The state of both tables before the commands: [wi] are the commands for the
    index table, [it2] the record that leaves it, [nt] the translation table. *)
Record index_unlinked (it2 : ipa_table_iterator) (nt : ipa_table ipa_nat_rule) (wi : list hw_write) : Prop := {
  iu_writes : Forall (fun w => 0 <= w_rec w < table_entries t + expn_table_entries t) wi /\ (length wi <= 2)%nat;
  iu_table : table_ok (EL := nat_laws []) sizeof_ipa_nat_rule nt nch /\ shape nt = shape t /\ dead_heads nt nch;
  iu_view : forall k, view_of (EI := entry_interface []) nt k = view_of (EI := entry_interface []) t k;
  iu_fields : forall k, fields_at (rule_at nt) k = fields_at (rule_at t) k;
  iu_rule : zget (recs nt) i = Some e;
  iu_delete : forall c, exists xt3 ich3,
    ipa_table_delete_entry (EI := index_entry_interface) it2 false (mkT (index_settled wi) c) = Done (tt, mkT xt3 c) /\
    table_ok (EL := index_laws) sizeof_ipa_nat_indx_tbl_rule xt3 ich3 /\ shape xt3 = shape xt /\
    view_of (EI := index_entry_interface) xt3 (curr_index it2) = None /\
    1 <= curr_index it2 < table_entries t + expn_table_entries t /\
    forall nd', (forall k, live_at nd' k = if decide (k = i) then None else live_at (rule_at nt) k) ->
      paired nd' (index_at xt3);
}.

Lemma rule_at_i : rule_at t i = Some (nat_data e) /\ live (nat_data e) = true /\ indx_tbl_entry (nat_data e) = j.
Proof using Hi Hlive. destruct (data_live t i e Hi) as [Hd Hl]. by rewrite Hl. Qed.

(** The entry does not head a list of several. *)
Definition entry_write : hw_write :=
  if VALID_INDEX pj then mkWrite HELP_UPDATE_ENTRY pj nj else mkWrite HELP_UPDATE_HEAD j 0.

Lemma unlink_entry :
  pj <> 0 \/ nj = 0 -> index_unlinked (iterator_at j nj pj) t [entry_write].
Proof using Hwf Hi Hlive Hxi Hv.
  clear Hj. intros Hcase. destruct Hwf as [Hva Hn Hxt Hb He [Hh Hhx] Hnm Hp Hd Hr].
  destruct (view_range Hxt _ _ _ Hv) as (Hjr&_&Hpr). rewrite Hb, He in Hjr, Hpr. destruct rule_at_i as (Hri&Hrl&Hrj).
  split; [|done|done|done|done|].
  - split; [|cbn; lia]. constructor; [|done]. unfold entry_write. destruct (VALID_INDEX pj); cbn [w_rec]; lia.
  - intros c. destruct (unlink_settled (HL := index_hw) Hxt c j nj pj Hv Hcase) as (xt3&ich3&Hrun&Hok&Hsh&Hdx&_).
    exists xt3, ich3. split; [|split; [done|split; [done|split; [|split; [done|]]]]].
    + rewrite <- Hrun. unfold entry_write. destruct (VALID_INDEX pj) eqn:Vp; [done|]. destruct Hcase as [Hc| ->]; [|done].
      apply VALID_INDEX_true in Hc. congruence.
    + apply (view_data_zero (HL := index_hw)). rewrite Hdx. by rewrite decide_True.
    + intros nd' Hnd'. apply (paired_removed (rule_at t) nd' (index_at xt) (index_at xt3) i (nat_data e) j); try done.
      * intros y Hy. rewrite Hdx, decide_True in Hy by done. by injection Hy as <-.
      * intros k Hk. rewrite Hdx. by rewrite decide_False.
Qed.

(** The entry heads a list of several: the second entry takes its place. *)
Section Second.
Context (Hp0 : pj = 0) (Hn0 : nj <> 0).

Lemma second_facts :
  exists xs b, zget (recs xt) nj = Some xs /\ ich !! j = Some (nj :: b) /\ hd 0 b = index_next_index xs /\
    view_of (EI := index_entry_interface) xt nj = Some (index_next_index xs, j) /\ tbl_entry xs <> 0 /\ j <> nj.
Proof using Hwf Hv Hp0 Hn0.
  clear Hi Hlive Hj Hxi. pose proof (wf_index _ _ _ _ _ _ Hwf) as Hxt.
  destruct (chain_head _ _ _ _ (tk_chains _ _ _ Hxt) j nj ltac:(rewrite <- Hp0; exact Hv)) as (es&Hes&Hhd).
  destruct es as [|s b]; [done|]. cbn in Hhd. subst s.
  destruct (chain_split Hxt j [] nj b Hes) as (pp&_&Hvs&_&_&Hne&_). cbn [last_of] in *.
  destruct (view_Some _ _ _ Hvs) as (xs&Hxs&Hval&Hnx&_). exists xs, b.
  split; [done|]. split; [done|]. split; [done|]. split; [rewrite <- Hnx in Hvs; exact Hvs|]. split; [|done].
  by apply truthy_true.
Qed.

Context (xs : ipa_nat_indx_tbl_rule) (b : list Z) (Hxs : zget (recs xt) nj = Some xs) (Hch : ich !! j = Some (nj :: b)).
Context (Hb2 : hd 0 b = index_next_index xs) (Hq : tbl_entry xs <> 0) (Hjs : j <> nj).
Abbreviation q := (tbl_entry xs).

Lemma second_rule : exists eq, zget (recs t) q = Some eq /\ live eq = true /\ indx_tbl_entry eq = nj /\ q <> i.
Proof using Hwf Hi Hlive Hxs Hq Hjs.
  clear Hj Hxi. destruct (pair_index _ _ (wf_paired _ _ _ _ _ _ Hwf) nj (index_data xs)) as (f&Hf&Hfl&Hfn).
  { unfold data_at. by rewrite Hxs. }
  { done. }
  change (tbl_entry (index_data xs)) with q in Hf. unfold data_at in Hf. destruct (zget (recs t) q) as [eq|] eqn:Heq; [|done].
  injection Hf as <-. exists eq. split; [done|]. split; [done|]. split; [done|]. intros Hqi. rewrite Hqi in Heq.
  change (indx_tbl_entry (nat_data eq)) with (indx_tbl_entry eq) in Hfn. congruence.
Qed.

Lemma unlink_second eq :
  zget (recs t) q = Some eq -> live eq = true -> indx_tbl_entry eq = nj -> q <> i ->
  index_unlinked (iterator_at nj (index_next_index xs) j) (set_rec q (eq <| indx_tbl_entry := j |>) t)
    [mkWrite HELP_DELETE_HEAD j q; mkWrite HELP_UPDATE_ENTRY j (index_next_index xs)].
Proof using All.
  intros Heq Hel Hen Hqi. pose proof Hwf as [Hva Hn Hxt Hb He [Hh Hhx] Hnm Hp Hd Hr].
  destruct (view_range Hxt _ _ _ Hv) as (Hjr&Hnr&_). rewrite Hb, He in Hjr, Hnr. destruct rule_at_i as (Hri&Hrl&Hrj).
  pose proof (zget_Some _ _ _ Heq) as Hqr. set (eq' := eq <| indx_tbl_entry := j |>). set (nt := set_rec q eq' t).
  assert (Hlq : live eq' = true) by exact Hel.
  assert (Hrq : rule_at nt q = Some (nat_data eq')) by (by apply (data_set_eq (HL := nat_hw []))).
  assert (Hrk : forall k, k <> q -> rule_at nt k = rule_at t k) by (intros k Hk; apply (data_set_ne (HL := nat_hw [])); [lia|done]).
  assert (Hrq0 : rule_at t q = Some (nat_data eq)) by (unfold data_at; by rewrite Heq).
  assert (Hval : table_entry_is_valid eq = true) by (unfold live in Hel; by apply andb_true_iff in Hel as [? _]).
  assert (Hok : table_ok (EL := nat_laws []) sizeof_ipa_nat_rule nt nch) by (by apply (same_view_ok (EL := nat_laws []) Hn q eq)).
  split.
  - split; [repeat constructor; cbn [w_rec]; lia|cbn; lia].
  - split; [done|]. split; [done|]. intros k f Hk Hfe Hfl. destruct (decide (k = q)) as [->|Hkq].
    + rewrite Hrq in Hk. injection Hk as <-. exfalso. change (live eq' = false) in Hfl. congruence.
    + rewrite Hrk in Hk by done. by apply (Hd k f).
  - intros k. destruct (decide (k = q)) as [->|Hkq].
    + unfold view_of, nt. rewrite set_rec_eq, Heq by done. cbn. done.
    + apply view_set_ne; [lia|done].
  - intros k. unfold fields_at, live_at. destruct (decide (k = q)) as [->|Hkq].
    + rewrite Hrq, Hrq0. cbn [mbind option_bind]. change (live (nat_data eq')) with (live eq). change (live (nat_data eq)) with (live eq).
      by rewrite Hel.
    + by rewrite Hrk.
  - unfold nt. by rewrite set_rec_ne by (done || lia).
  - intros c. destruct (head_settled (HL := index_hw) Hxt c j nj b xr q Hch Hj) as (xt3&ich3&Hrun&Hokx&Hsh&Hdx&Hvx).
    { by apply truthy_true. }
    { done. }
    rewrite Hb2 in Hrun. exists xt3, ich3. split; [exact Hrun|]. split; [done|]. split; [done|]. split; [done|].
    split; [cbn [curr_index iterator_at]; lia|]. intros nd' Hnd'.
    (* the removed pair, then the moved entry *)
    set (nd1 := fun k => if decide (k = i) then Some zero_rule else rule_at t k).
    set (xd1 := fun k => if decide (k = j) then Some (mkIndexRule 0 0) else index_at xt k).
    assert (Hp1 : paired nd1 xd1).
    { apply (paired_removed (rule_at t) nd1 (index_at xt) xd1 i (nat_data e) j); try done.
      - intros k. unfold live_at, nd1. by case_decide.
      - intros y. unfold xd1. rewrite decide_True by done. by intros [= <-].
      - intros k Hk. unfold xd1. by rewrite decide_False. }
    set (nd2 := fun k => if decide (k = i) then Some zero_rule else rule_at nt k).
    assert (Hp2 : paired nd2 (index_at xt3)).
    { apply (paired_moved nd1 nd2 xd1 (index_at xt3) nj j (index_data xs) (index_data (mkIndexRule q (index_next_index xr))) q (nat_data eq)); try done.
      - unfold xd1. rewrite decide_False by done. unfold data_at. by rewrite Hxs.
      - unfold nd1. by rewrite decide_False.
      - intros y. unfold xd1. rewrite decide_True by done. by intros [= <-].
      - unfold nd2. by rewrite decide_False.
      - intros k Hk. unfold nd1, nd2. case_decide; [done|by apply Hrk].
      - rewrite Hdx. rewrite decide_False, decide_True by done. done.
      - intros y. rewrite Hdx, decide_True by done. by intros [= <-].
      - intros k Hks Hkj. rewrite Hdx. unfold xd1. by rewrite !decide_False. }
    apply (paired_live_ext nd2); [|done]. intros k. rewrite Hnd'. unfold live_at at 2, nd2. by case_decide.
Qed.

End Second.
End Index.

(** ** The run *)

Lemma same_index T : T <| index_table := index_table T |> = T.
Proof. by destruct T. Qed.

Lemma same_table T : T <| table := table T |> = T.
Proof. by destruct T. Qed.

Section Run.
Context (nmi i0 : Z) (n : nat_state) (T0 : ipa_nat_ip4_table_cache) (Hat : at_table nmi i0 n T0).
Context (m : gmap Z ipa_nat_rule) (nch ich : gmap Z (list Z)) (kk : Z).
Abbreviation T := T0.
Abbreviation t := (table T).
Abbreviation xt := (index_table T).
Abbreviation put := (put_at nmi i0).
Abbreviation pd := (pdns n).
Context (Hwf : tables_wf nmi T m nch ich kk).
Context (i : Z) (e : ipa_nat_rule) (Hi : zget (recs t) i = Some e) (Hlive : live e = true).
Context (xr : ipa_nat_indx_tbl_rule) (Hj : zget (recs xt) (indx_tbl_entry e) = Some xr) (Hxi : tbl_entry xr = i).
Context (nj pj : Z) (Hv : view_of (EI := index_entry_interface) xt (indx_tbl_entry e) = Some (nj, pj)).
Context (c : ipa_ioc_nat_dma_cmd) (Hroom : (length (dma c) + 3 <= dma_room c)%nat).
Abbreviation j := (indx_tbl_entry e).

(** The commands for the entry of the index table, and the record to delete. *)
Definition index_part : NM (Z * ipa_table_iterator) :=
  let index_it := iterator_at j nj pj in
  on_index nmi i0 (ipa_table_create_delete_command (EI := index_entry_interface) index_it) ;;
  if ipa_table_iterator_is_head_with_tail index_it then
    ipa_nati_copy_second_index_entry_to_head nmi i0 index_it ;;
    on_index nmi i0 (ipa_table_iterator_next (EI := index_entry_interface) index_it)
  else mret (0, index_it).

Lemma copy_second_run xs eq c1 :
  nj <> 0 -> (length (dma c1) < dma_room c1)%nat -> zget (recs xt) nj = Some xs -> zget (recs t) (tbl_entry xs) = Some eq ->
  ipa_nati_copy_second_index_entry_to_head nmi i0 (iterator_at j nj pj) (put T c1 n)
  = Done (tt, put (T <| table := set_rec (tbl_entry xs) (eq <| indx_tbl_entry := j |>) t |>)
      (push_dma (write_cmd xt (index_helps kk) (mkWrite HELP_UPDATE_ENTRY j (index_next_index xs))) c1) n).
Proof using Hat Hwf Hv.
  clear Hi Hroom Hlive Hj Hxi. intros Hn0 Hroom Hxs Heq. pose proof Hwf as [Hva Hn Hxt Hb He [Hh Hhx] Hnm Hp Hd Hr].
  destruct (view_range Hxt _ _ _ Hv) as (Hjr&_&_). pose proof (zget_Some _ _ _ Heq) as Hqr.
  unfold ipa_nati_copy_second_index_entry_to_head, iterator_at. cbn [next_entry curr_entry curr_index].
  replace (VALID_INDEX nj) with true by (symmetry; by apply VALID_INDEX_true).
  assert (Hget : deref (Some nj) (mkT xt c1) = Done (xs, mkT xt c1)) by (unfold deref, get_rec; cbn [tbl]; by rewrite Hxs).
  erewrite (on_index_then nmi i0 n T Hat); [|exact Hget|done|done]. cbv beta.
  pose proof (add_dma_run sizeof_ipa_nat_indx_tbl_rule xt (index_helps kk) c1 HELP_UPDATE_ENTRY j (index_next_index xs)
    (tk_geo _ _ _ Hxt) Hhx ltac:(lia) Hroom) as Hadd.
  erewrite (on_index_then nmi i0 n T Hat); [|exact Hadd|done|done]. cbv beta.
  set (c2 := push_dma _ c1). rewrite (get_table_then nmi i0 n T Hat). cbv zeta.
  change (table (upd index_table _ _)) with t.
  assert (Hpq : (if tbl_entry xs <? table_entries t then tbl_entry xs
      else (expn_table_addr t - table_addr t) / sizeof_ipa_nat_rule + (tbl_entry xs - table_entries t)) = tbl_entry xs).
  { destruct (_ <? _); [done|]. rewrite (geo_addr _ _ (tk_geo _ _ _ Hn)).
    replace (_ + _ - table_addr t) with (table_entries t * sizeof_ipa_nat_rule) by lia. rewrite Z.div_mul by done. lia. }
  rewrite Hpq.
  assert (Hput : (r ← get_rec (tbl_entry xs); put_rec (tbl_entry xs) (r <| indx_tbl_entry := j |>)) (mkT t c2)
    = Done (tt, mkT (set_rec (tbl_entry xs) (eq <| indx_tbl_entry := j |>) t) c2)).
  { rewrite (get_rec_then _ _ _ eq) by done. unfold put_rec. cbn [tbl]. by rewrite zset_in. }
  by eapply (on_table_run nmi i0 n T Hat); [exact Hput|..].
Qed.

Lemma index_part_run :
  exists it2 nt wi,
    index_part (put T c n) = Done ((0, it2), put (T <| table := nt |>) (push_all xt (index_helps kk) wi c) n) /\
    index_unlinked T nch i e it2 nt wi.
Proof using All.
  pose proof Hwf as [Hva Hn Hxt Hb He [Hh Hhx] Hnm Hp Hd Hr].
  unfold index_part, ipa_table_iterator_is_head_with_tail. cbn [next_index prev_index iterator_at].
  destruct (decide (pj <> 0 \/ nj = 0)) as [Hcase|Hcase].
  - pose proof (unlink_entry nmi T m nch ich kk Hwf i e Hi Hlive xr Hxi nj pj Hv Hcase) as Hun.
    exists (iterator_at j nj pj), t, [entry_write e nj pj]. split; [|exact Hun].
    destruct (VALID_INDEX nj) eqn:Vn.
    + destruct (rec_at (tk_geo _ _ _ Hxt) nj) as [xs Hxs].
      { by destruct (view_range Hxt _ _ _ Hv) as (_&?&_). }
      pose proof (create_delete_run Hxt c (index_helps kk) j nj pj xr xs Hv Hhx ltac:(lia) Hj ltac:(done)) as Hrun.
      erewrite (on_index_then nmi i0 n T Hat); [|exact Hrun|done|done]. cbv beta.
      destruct (VALID_INDEX pj) eqn:Vp; [|exfalso; destruct Hcase as [Hc|Hc]; [apply VALID_INDEX_true in Hc; congruence|by rewrite Hc in Vn]].
      cbn [negb andb]. unfold delete_cmd, entry_write. rewrite Vp. done.
    + pose proof (create_delete_run Hxt c (index_helps kk) j nj pj xr xr Hv Hhx ltac:(lia) Hj
        ltac:(intros Hc; apply VALID_INDEX_true in Hc; congruence)) as Hrun.
      erewrite (on_index_then nmi i0 n T Hat); [|exact Hrun|done|done]. cbv beta. cbn [negb andb].
      unfold delete_cmd, entry_write. rewrite Vn. by destruct (VALID_INDEX pj).
  - assert (Hp0 : pj = 0) by (destruct (decide (pj = 0)); tauto). assert (Hn0 : nj <> 0) by tauto.
    destruct (second_facts nmi T m nch ich kk Hwf e nj pj Hv Hp0 Hn0) as (xs&b&Hxs&Hch&Hb2&Hvs&Hq&Hjs).
    destruct (second_rule nmi T m nch ich kk Hwf i e Hi Hlive nj xs Hxs Hq Hjs) as (eq&Heq&Hel&Hen&Hqi).
    pose proof (unlink_second nmi T m nch ich kk Hwf i e Hi Hlive xr Hj Hxi nj pj Hv Hp0 Hn0 xs b Hxs Hch Hb2 Hq Hjs eq Heq Hel Hen Hqi) as Hun.
    exists (iterator_at nj (index_next_index xs) j). eexists _, _. split; [|exact Hun].
    replace (VALID_INDEX nj) with true by (symmetry; by apply VALID_INDEX_true).
    replace (VALID_INDEX pj) with false by (by rewrite Hp0). cbn [negb andb].
    pose proof (create_delete_run Hxt c (index_helps kk) j nj pj xr xs Hv Hhx ltac:(lia) Hj ltac:(done)) as Hrun.
    erewrite (on_index_then nmi i0 n T Hat _ _ _ _ _ _ _ T); [|exact Hrun|done|apply same_index]. cbv beta.
    replace (delete_cmd (index_helps kk) j nj pj xr xs) with (write_cmd xt (index_helps kk) (mkWrite HELP_DELETE_HEAD j (tbl_entry xs)))
      by (unfold delete_cmd; rewrite Hp0; by replace (VALID_INDEX nj) with true by (symmetry; by apply VALID_INDEX_true)).
    set (c1 := push_dma _ c). rewrite (bind_run _ _ _ _ _ (copy_second_run xs eq c1 Hn0 ltac:(unfold c1; rewrite length_push, room_push; lia) Hxs Heq)).
    set (nt := set_rec _ _ t).
    pose proof (iterator_next_run Hxt (push_dma (write_cmd xt (index_helps kk) (mkWrite HELP_UPDATE_ENTRY j (index_next_index xs))) c1)
      j nj pj _ Hv Hn0 Hvs) as Hnext.
    erewrite (on_index_run nmi i0 n T Hat); [|exact Hnext|done|done]. unfold push_all, c1, push_dma, upd. cbn. by rewrite <- app_assoc.
Qed.

End Run.

(** The entry of the meta data of a slot that is not in use is cleared. *)
Definition clear_meta (x : ipa_table ipa_nat_indx_tbl_rule) (s : Z) : ipa_table ipa_nat_indx_tbl_rule :=
  if table_entries x <=? s
  then x <| meta ::= fun m => l ← m; Some (<[Z.to_nat (s - table_entries x) := 0]> l) |> else x.

Lemma clear_meta_ok x ch s :
  table_ok (EL := index_laws) sizeof_ipa_nat_indx_tbl_rule x ch -> view_of (EI := index_entry_interface) x s = None ->
  1 <= s < table_entries x + expn_table_entries x ->
  table_ok (EL := index_laws) sizeof_ipa_nat_indx_tbl_rule (clear_meta x s) ch /\ shape (clear_meta x s) = shape x /\
  index_at (clear_meta x s) = index_at x.
Proof.
  intros Hx Hv Hs. unfold clear_meta. destruct (Z.leb_spec (table_entries x) s) as [Hb|Hb]; [|done].
  destruct (geo_meta _ _ (tk_geo _ _ _ Hx)) as (l&Hm&Hl). split; [|done].
  replace (x <| meta ::= _ |>) with (x <| meta := Some (<[Z.to_nat (s - table_entries x) := 0]> l) |>)
    by (unfold upd; cbn; by rewrite Hm).
  apply (meta_only_ok (EL := index_laws) Hx 0 [] s (mkIndexRule 0 0) (mkIndexRule 0 0)); [lia|done|].
  cbn. unfold index_table_entry_set_prev_index. replace (table_entries x <=? s) with true by lia.
  rewrite Hm. cbn. by rewrite zset_in by lia.
Qed.

Section Records.
Context (nmi i0 : Z) (n : nat_state) (T0 : ipa_nat_ip4_table_cache) (Hat : at_table nmi i0 n T0).
Abbreviation put := (put_at nmi i0).
Abbreviation pd := (pdns n).

(** The memory of both tables after the command, in the translation table [nt]. *)
Lemma delete_records_run nt nch i e ni pi T c it2 t4 xt3 :
  table_ok (EL := nat_laws pd) sizeof_ipa_nat_rule nt nch -> dead_heads nt nch ->
  zget (recs nt) i = Some e -> live e = true -> view_of (EI := entry_interface pd) nt i = Some (ni, pi) ->
  t4 = settle (HL := nat_hw pd) [rule_write i ni pi] nt ->
  table T = t4 ->
  ipa_table_delete_entry (EI := index_entry_interface) it2 false (mkT (index_table T) c) = Done (tt, mkT xt3 c) ->
  (exists ich3, table_ok (EL := index_laws) sizeof_ipa_nat_indx_tbl_rule xt3 ich3) ->
  1 <= curr_index it2 < table_entries xt3 + expn_table_entries xt3 ->
  exists t5,
    delete_records nmi i0 (iterator_at i ni pi) it2 (put T c n)
    = Done (tt, put (T <| table := t5 |> <| index_table := clear_meta xt3 (curr_index it2) |>) c n) /\
    rule_gone pd (t := nt) i t5.
Proof using Hat.
  intros Hok Hdead Hi Hlive Hv Ht4 HT Hx Hxok Hr2.
  destruct (rule_deleted pd Hok Hdead i e Hi ni pi Hv c) as (t5&Hgone&Hrun). rewrite <- Ht4 in Hrun.
  exists t5. split; [|done]. unfold delete_records. rewrite getM_run. cbv zeta.
  change (pdns (put T c n)) with pd.
  set (T5 := T <| table := t5 |>).
  rewrite (bind_run _ _ _ tt (put T5 c n)).
  - erewrite (on_index_then nmi i0 n T0 Hat _ _ _ _ _ _ _ (T5 <| index_table := xt3 |>)); [|exact Hx|done|done].
    cbv beta. rewrite (get_table_then nmi i0 n T0 Hat). unfold clear_meta.
    change (index_table (T5 <| index_table := xt3 |>)) with xt3.
    destruct (Z.leb_spec (table_entries xt3) (curr_index it2)) as [Hb|Hb]; [|done].
    destruct Hxok as [ich3 Hxok]. destruct (geo_meta _ _ (tk_geo _ _ _ Hxok)) as (l&Hm&Hl).
    rewrite (liftO_run _ _ _ _ (<[Z.to_nat (curr_index it2 - table_entries xt3) := 0]> l))
      by (rewrite Hm; cbn; by rewrite zset_in by lia).
    unfold upd_table. rewrite (get_table_then nmi i0 n T0 Hat), (put_table_run nmi i0 n T0 Hat).
    unfold upd. cbn. by rewrite Hm.
  - destruct (ipa_table_iterator_is_head_with_tail (iterator_at i ni pi)) eqn:Hht; cbn [negb].
    + subst t5. unfold T5. rewrite <- HT. by rewrite same_table.
    + cbn [prev_entry iterator_at]. destruct (VALID_INDEX pi) eqn:Vp.
      * assert (exists ep, zget (recs t4) pi = Some ep) as [ep Hep].
        { destruct (settled_prev pd Hok i ni pi Hv Vp) as (x&_&_&Hx'). rewrite Ht4. by eexists. }
        rewrite Hep in Hrun.
        assert (Hget : get_rec pi (mkT t4 c) = Done (ep, mkT t4 c)) by (unfold get_rec; cbn [tbl]; by rewrite Hep).
        rewrite (bind_run _ _ _ (protocol ep =? IPAHAL_NAT_INVALID_PROTOCOL) (put T c n)).
        -- by eapply (on_table_run nmi i0 n T0 Hat); [exact Hrun|..].
        -- erewrite (on_table_then nmi i0 n T0 Hat _ _ _ _ _ _ _ T); [|exact Hget|done|rewrite <- HT; apply same_table]. done.
      * rewrite ret_run. by eapply (on_table_run nmi i0 n T0 Hat); [exact Hrun|..].
Qed.

End Records.

(** ** Deleting a rule *)

(** A live rule: its record, its links, and its entry in the index table. *)
Lemma live_rule mt T m nch ich kk i r :
  tables_wf mt T m nch ich kk -> m !! i = Some r ->
  exists e n p xr nj pj,
    zget (recs (table T)) i = Some e /\ live e = true /\ r = nat_data e <| indx_tbl_entry := 0 |> /\
    view_of (EI := entry_interface []) (table T) i = Some (n, p) /\
    zget (recs (index_table T)) (indx_tbl_entry e) = Some xr /\ tbl_entry xr = i /\
    view_of (EI := index_entry_interface) (index_table T) (indx_tbl_entry e) = Some (nj, pj).
Proof.
  intros [_ Hn Hxt _ _ _ _ Hp _ Hr] Hi. apply Hr in Hi as (d&Hd&Hl&->).
  unfold data_at in Hd. destruct (zget (recs (table T)) i) as [e|] eqn:He; [|done]. injection Hd as <-.
  change (live e = true) in Hl. assert (Hev : table_entry_is_valid e = true) by (unfold live in Hl; by apply andb_true_iff in Hl as [? _]).
  destruct (view_valid (EL := nat_laws []) (tk_geo _ _ _ Hn) i e He Hev) as (p&_&Hv).
  destruct (pair_rule _ _ Hp i (nat_data e)) as (Hi0&x&Hx&Hxi); [unfold data_at; by rewrite He|done|].
  change (indx_tbl_entry (nat_data e)) with (indx_tbl_entry e) in Hx.
  unfold data_at in Hx. destruct (zget (recs (index_table T)) (indx_tbl_entry e)) as [xr|] eqn:Hxr; [|done]. injection Hx as <-.
  change (tbl_entry xr = i) in Hxi.
  assert (Hxv : index_table_entry_is_valid xr = true) by (unfold index_table_entry_is_valid; by rewrite Hxi; apply truthy_true).
  destruct (view_valid (EL := index_laws) (tk_geo _ _ _ Hxt) _ xr Hxr Hxv) as (pj&_&Hvj).
  by exists e, (rule_next_index e), p, xr, (index_next_index xr), pj.
Qed.

Section Delete.
Context (nmi i0 : Z) (n : nat_state) (T0 : ipa_nat_ip4_table_cache) (Hat : at_table nmi i0 n T0).
Context (Hdma : documented_dma (sys n)) (Hcmd : nat_cmd n = mkDmaCmd MAX_DMA_ENTRIES_FOR_DEL []).
Context (Hsys : sys_ret (sys n) (sys_calls n) = 0).
Abbreviation put := (put_at nmi i0).
Abbreviation pd := (pdns n).

(** The part of [del_rule_locked] after both records are found. *)
Lemma delete_tables_run T m nch ich kk it2 nt wi i e ni pi :
  tables_wf nmi T m nch ich kk -> zget (recs (table T)) i = Some e -> live e = true ->
  view_of (EI := entry_interface []) (table T) i = Some (ni, pi) ->
  index_unlinked T nch i e it2 nt wi ->
  exists T' n',
    (on_table nmi i0 (ipa_table_create_delete_command (EI := entry_interface pd) (iterator_at i ni pi)) ;;
     ret ← ipa_nati_post_ipv4_dma_cmd nmi i0;
     if truthy ret then mret ret else delete_records nmi i0 (iterator_at i ni pi) it2 ;; mret 0)
      (put (T <| table := nt |>) (push_all (index_table T) (index_helps kk) wi (mkDmaCmd MAX_DMA_ENTRIES_FOR_DEL [])) n)
    = Done (0, put T' n' (later n (Hash_token n) (S (sys_calls n)))) /\ tables_ok nmi T' (delete i m) /\ sizes_of T' = sizes_of T.
Proof using All.
  intros Hwf Hi Hlive Hv [Hwr (Hnt&Hshn&Hdead) Hview Hfields Hrule Hdel].
  destruct Hwf as [Hva Hn Hxt Hb He [Hh Hhx] Hnm Hp Hd Hr]. injection Hshn as Hs1 Hs2 Hs3 Hs4 Hs5.
  pose proof (table_ok_pdns [] pd _ _ _ Hnt) as Hntp.
  assert (Hvn : view_of (EI := entry_interface []) nt i = Some (ni, pi)) by (by rewrite Hview).
  assert (exists en, (ni <> 0 -> zget (recs nt) ni = Some en)) as [en Hen].
  { destruct (view_range Hnt _ _ _ Hvn) as (_&Hnr&_). destruct (rec_at (tk_geo _ _ _ Hnt) ni Hnr) as [en Hen]. by exists en. }
  set (c1 := push_all _ _ wi _). set (w := rule_write i ni pi).
  assert (Hroom : (length (dma c1) < dma_room c1)%nat)
    by (destruct Hwr as [_ Hl]; unfold c1, push_all, MAX_DMA_ENTRIES_FOR_DEL; cbn; rewrite length_map; lia).
  pose proof (create_delete_run (EL := nat_laws pd) Hntp c1 (nat_helps kk) i ni pi e en Hvn ltac:(congruence) Hroom Hrule Hen) as Hcd.
  replace (delete_cmd (EI := entry_interface pd) (nat_helps kk) i ni pi e en) with (write_cmd nt (nat_helps kk) w) in Hcd
    by (unfold delete_cmd, w, rule_write; by destruct (VALID_INDEX pi), (VALID_INDEX ni)).
  erewrite (on_table_then nmi i0 n T0 Hat _ _ _ _ _ _ _ (T <| table := nt |>)); [|exact Hcd|done|done]. cbv beta.
  set (c2 := push_dma _ c1). set (T1 := T <| table := nt |>).
  pose proof (post_run nmi i0 n T0 T1 c2 Hat) as Hpost. cbv zeta in Hpost. set (n2 := later _ _ _) in Hpost.
  assert (Hat2 : at_table nmi i0 n2 T0) by exact Hat.
  rewrite Hsys in Hpost. change (truthy 0) with false in Hpost. cbn iota in Hpost.
  assert (Hwrange : 0 <= w_rec w < table_entries nt + expn_table_entries nt).
  { destruct (view_range Hnt _ _ _ Hvn) as (Hir&_&Hpr). unfold w, rule_write. destruct (VALID_INDEX pi), (VALID_INDEX ni); cbn [w_rec]; lia. }
  rewrite (post_cmds (pdns0 := pd) T1 kk (tk_geo _ _ _ Hnt) (tk_geo _ _ _ Hxt) ltac:(change (table_entries (index_table T) = table_entries nt); congruence)
    ltac:(change (expn_table_entries (index_table T) = expn_table_entries nt); congruence) (sys n) [w] wi) in Hpost;
    [|done|by constructor|change (Forall (fun w => 0 <= w_rec w < table_entries nt + expn_table_entries nt) wi); rewrite Hs2, Hs3; apply Hwr
     |right; by unfold c2, c1, push_all, push_dma|exact (geo_recs _ _ (tk_geo _ _ _ Hnt))
     |change (zlen (recs (index_table T)) = table_entries nt + expn_table_entries nt); rewrite (geo_recs _ _ (tk_geo _ _ _ Hxt)); congruence].
  cbn [fst snd] in Hpost. rewrite (bind_run _ _ _ _ _ Hpost). change (truthy 0) with false. cbn iota. clear Hpost.
  set (T2 := upd index_table _ _).
  destruct (Hdel c2) as (xt3&ich3&Hrunx&Hokx&Hshx&Hvx&Hrx&Hpair). injection Hshx as Hx1 Hx2 Hx3 Hx4 Hx5.
  destruct (delete_records_run nmi i0 n2 T0 Hat2 nt nch i e ni pi T2 c2 it2 _ xt3 Hntp Hdead Hrule Hlive Hvn eq_refl eq_refl)
    as (t5&Hrec&(ch5&Hok5&Hsh5&Hlive5&Hdead5)); [exact Hrunx|by exists ich3|lia|].
  rewrite (bind_run _ _ _ _ _ Hrec). destruct (clear_meta_ok xt3 ich3 (curr_index it2) Hokx Hvx ltac:(lia)) as (Hokc&Hshc&Hatc).
  injection Hshc as Hc1 Hc2 Hc3 Hc4 Hc5. injection Hsh5 as H51 H52 H53 H54 H55.
  do 2 eexists. split; [reflexivity|]. split; [|apply shape_sizes; change (shape t5 = shape (table T)); unfold shape; congruence].
  exists ch5, ich3, kk. split.
  - exact Hva.
  - exact (table_ok_pdns pd [] _ _ _ Hok5).
  - exact Hokc.
  - change (table_entries (clear_meta xt3 (curr_index it2)) = table_entries t5). congruence.
  - change (expn_table_entries (clear_meta xt3 (curr_index it2)) = expn_table_entries t5). congruence.
  - change (dma_help_of t5 = Some (nat_helps kk) /\ dma_help_of (clear_meta xt3 (curr_index it2)) = Some (index_helps kk)).
    split; congruence.
  - change (IpaTable.nmi t5 = nmi). congruence.
  - change (paired (rule_at t5) (index_at (clear_meta xt3 (curr_index it2)))). rewrite Hatc. apply Hpair.
    intros k. rewrite Hlive5. done.
  - exact Hdead5.
  - apply (rep_removed (rule_at (table T)) (rule_at t5) m i Hr). intros k. unfold fields_at at 1. rewrite Hlive5.
    case_decide; [done|]. exact (Hfields k).
Qed.
Lemma index_range mt T m nch ich kk j x :
  tables_wf mt T m nch ich kk -> view_of (EI := index_entry_interface) (index_table T) j = Some x ->
  ipa_table_get_entry_by_index j (mkT (index_table T) (nat_cmd n)) = Done (Some j, mkT (index_table T) (nat_cmd n)).
Proof using Type.
  intros Hwf Hv. destruct x as [a b]. pose proof (wf_index _ _ _ _ _ _ Hwf) as Hxt.
  destruct (view_range Hxt _ _ _ Hv) as (Hj&_&_). unfold ipa_table_get_entry_by_index. rewrite gets_then.
  replace (truthy j) with true by (symmetry; apply truthy_true; lia). rewrite (geo_tot _ _ (tk_geo _ _ _ Hxt)).
  by replace (_ <=? j) with false by lia.
Qed.

(** Deleting a live rule succeeds and removes exactly it. *)
Lemma del_rule_run m hdl i r a b :
  tables_ok nmi T0 m -> BREAK_RULE_HDL (table T0) hdl = (a, b, i) -> m !! i = Some r ->
  exists T' cm', del_rule_locked nmi i0 hdl n = Done (0, put T' cm' (later n (Hash_token n) (S (sys_calls n)))) /\
    tables_ok nmi T' (delete i m) /\ sizes_of T' = sizes_of T0.
Proof using All.
  intros (nch&ich&kk&Hwf) Hhdl Him.
  destruct (live_rule _ _ _ _ _ _ _ _ Hwf Him) as (e&ni&pi&xr&nj&pj&Hi&Hlive&_&Hv&Hj&Hxi&Hvj).
  pose proof (wf_nat _ _ _ _ _ _ Hwf) as Hn. pose proof (table_ok_pdns [] pd _ _ _ Hn) as Hnp.
  pose proof (wf_index _ _ _ _ _ _ Hwf) as Hxt. destruct (view_range Hn _ _ _ Hv) as (Hir&_&_).
  pose proof (put_same nmi i0 n T0 Hat) as Hput.
  replace (del_rule_locked nmi i0 hdl n) with (del_rule_locked nmi i0 hdl (put T0 (nat_cmd n) n)) by (by rewrite Hput).
  unfold del_rule_locked. rewrite (get_table_then nmi i0 n T0 Hat), (wf_valid _ _ _ _ _ _ Hwf). cbn [negb].
  rewrite getM_run. cbv zeta. change (pdns (put T0 (nat_cmd n) n)) with pd.
  assert (Hget : ipa_table_get_entry hdl (mkT (table T0) (nat_cmd n)) = Done (inr i, mkT (table T0) (nat_cmd n))).
  { unfold ipa_table_get_entry. rewrite gets_then, Hhdl, (geo_tot _ _ (tk_geo _ _ _ Hn)). by replace (_ <=? i) with false by lia. }
  erewrite (on_table_then nmi i0 n T0 Hat _ _ _ _ _ _ _ T0); [|exact Hget|done|apply same_table]. cbv beta iota.
  pose proof (iterator_init_run Hnp (nat_cmd n) i ni pi Hv) as Hit.
  erewrite (on_table_then nmi i0 n T0 Hat _ _ _ _ _ _ _ T0); [|exact Hit|done|apply same_table]. cbv beta iota.
  change (truthy 0) with false. cbn iota.
  assert (Hrec : get_rec i (mkT (table T0) (nat_cmd n)) = Done (e, mkT (table T0) (nat_cmd n))) by (unfold get_rec; cbn [tbl]; by rewrite Hi).
  erewrite (on_table_then nmi i0 n T0 Hat _ _ _ _ _ _ _ T0); [|exact Hrec|done|apply same_table]. cbv beta.
  erewrite (on_index_then nmi i0 n T0 Hat _ _ _ _ _ _ _ T0); [|exact (index_range _ _ _ _ _ _ _ _ Hwf Hvj)|done|apply same_index].
  cbv beta iota. pose proof (iterator_init_run Hxt (nat_cmd n) (indx_tbl_entry e) nj pj Hvj) as Hitx.
  erewrite (on_index_then nmi i0 n T0 Hat _ _ _ _ _ _ _ T0); [|exact Hitx|done|apply same_index]. cbv beta iota.
  change (truthy 0) with false. cbn iota.
  destruct (index_part_run nmi i0 n T0 Hat m nch ich kk Hwf i e Hi Hlive xr Hj Hxi nj pj Hvj (nat_cmd n)
    ltac:(rewrite Hcmd; cbn; unfold MAX_DMA_ENTRIES_FOR_DEL; lia)) as (it2&nt&wi&Hpart&Hun).
  unfold index_part in Hpart. rewrite (bind_run_assoc _ _ _ _ _ _ Hpart). cbv beta iota. change (truthy 0) with false. cbn iota.
  rewrite Hcmd. destruct (delete_tables_run T0 m nch ich kk it2 nt wi i e ni pi Hwf Hi Hlive Hv Hun) as (T'&cm'&Hrun&Hok).
  exists T', cm'. split; [exact Hrun|done].
Qed.

End Delete.
