(* ===== verification/IpaSize.v ===== *)
(** * The sizes of the tables

    How [ipa_table.c] divides a number of entries into a base part and an
    expansion part, and how many entries fit into the on-chip memory. *)

From stdpp Require Import gmap.
From S2P Require Import Prelude IpaTable IpaSystem IpaNat.

Local Open Scope Z_scope.

(** ** The tight upper bounds *)

Lemma power_loop_spec k : forall tmp prev c fuel,
  2 ^ Z.of_nat k <= tmp < 2 ^ Z.of_nat (S k) -> (k <= fuel)%nat -> 0 <= c -> c + Z.of_nat k < 15 ->
  (k = 0%nat -> prev = if c =? 0 then 0 else 2 ^ c) ->
  power_loop fuel tmp prev (2 ^ (c + 1)) =
  Some (if k is O then prev else 2 ^ (c + Z.of_nat k), 2 ^ (c + 1 + Z.of_nat k)).
Proof.
  induction k as [|k IH]; intros tmp prev c fuel Ht Hf Hc Hck Hprev.
  - assert (tmp = 1) as -> by (cbn in Ht; lia). replace (c + 1 + Z.of_nat 0) with (c + 1) by lia. by destruct fuel.
  - assert (Hp : 2 ^ Z.of_nat (S k) = 2 * 2 ^ Z.of_nat k) by (rewrite <- Z.pow_succ_r by lia; f_equal; lia).
    assert (Hp2 : 2 ^ Z.of_nat (S (S k)) = 2 * 2 ^ Z.of_nat (S k)) by (rewrite <- Z.pow_succ_r by lia; f_equal; lia).
    assert (0 < 2 ^ Z.of_nat k) by lia.
    destruct fuel as [|fuel]; [lia|]. cbn [power_loop]. replace (tmp =? 1) with false by lia.
    rewrite Z.shiftr_div_pow2, Z.shiftl_mul_pow2 by lia. change (2 ^ 1) with 2.
    replace (2 ^ (c + 1) * 2) with (2 ^ (c + 1 + 1)) by (rewrite (Z.pow_add_r 2 (c + 1) 1) by lia; lia).
    rewrite wrap_small by (split; [lia|apply Z.pow_lt_mono_r; lia]).
    rewrite (IH (tmp / 2) (2 ^ (c + 1)) (c + 1) fuel); [|Z.to_euclidean_division_equations; lia|lia|lia|lia|intros _; by replace (c + 1 =? 0) with false by lia].
    f_equal. f_equal; [|f_equal; lia]. destruct k; f_equal; lia.
Qed.

(** Below 2^15 the bound is the least power of two that is at least 2 and
    not below the number; for larger 16-bit numbers the doubling overflows. *)
Theorem Get2PowerTightUpperBound_spec num :
  1 <= num < 2 ^ 15 ->
  exists k, 1 <= k <= 15 /\ Get2PowerTightUpperBound num = Some (2 ^ k) /\ num <= 2 ^ k /\
    forall j, 1 <= j -> num <= 2 ^ j -> k <= j.
Proof.
  intros Hn. unfold Get2PowerTightUpperBound. replace (num =? 0) with false by lia.
  pose proof (Z.log2_spec num ltac:(lia)) as Hl. pose proof (Z.log2_nonneg num) as Hl0.
  pose proof (Z.log2_lt_pow2 num 15 ltac:(lia)) as Hl15. set (l := Z.log2 num) in *.
  pose proof (power_loop_spec (Z.to_nat l) num 0 0 16 ltac:(rewrite Nat2Z.inj_succ, Z2Nat.id by lia; exact Hl)
    ltac:(lia) ltac:(lia) ltac:(lia) ltac:(done)) as Hrun.
  change (2 ^ (0 + 1)) with 2 in Hrun. rewrite Hrun, Z2Nat.id by lia.
  assert (Hleast : forall j, 1 <= j -> num <= 2 ^ j -> l <= j /\ (num <> 2 ^ l -> l < j)).
  { intros j Hj Hle. assert (l <= j) by (apply (Z.pow_le_mono_r_iff 2); lia). split; [done|].
    intros Hne. destruct (decide (l = j)) as [->|]; lia. }
  destruct (Z.to_nat l) as [|k] eqn:Hk.
  - assert (l = 0) as Hl00 by lia. rewrite Hl00 in *. cbn in Hl. assert (num = 1) as -> by lia.
    exists 1. split; [lia|]. split; [done|]. split; [lia|]. intros j Hj _. lia.
  - replace (0 + l) with l by lia. replace (0 + 1 + l) with (Z.succ l) by lia.
    destruct (Z.eqb_spec num (2 ^ l)) as [Heq|Hne].
    + exists l. split; [lia|]. split; [done|]. split; [lia|]. intros j Hj Hle. by apply Hleast.
    + exists (Z.succ l). split; [lia|]. split; [done|]. split; [lia|]. intros j Hj Hle.
      destruct (Hleast j Hj Hle) as [_ H]. specialize (H Hne). lia.
Qed.

Lemma Get2PowerTightUpperBound_spec_witness :
  1 <= 1638 < 2 ^ 15 /\ exists k, 1 <= k <= 15 /\ Get2PowerTightUpperBound 1638 = Some (2 ^ k) /\ 1638 <= 2 ^ k /\
    forall j, 1 <= j -> 1638 <= 2 ^ j -> k <= j.
Proof. split; [lia|]. exact (Get2PowerTightUpperBound_spec 1638 ltac:(lia)). Defined.

(** ** The two parts of a table *)

(** The sizes of both parts for a number of entries, when it is accepted. *)
Definition table_sizes (nmi number_of_entries : Z) : option (Z * Z) :=
  match ipa_table_calculate_entries_num number_of_entries nmi (ipa_table_init (E := ipa_nat_rule) nmi sizeof_ipa_nat_rule None 0) with
  | Done (ret, t) => if truthy ret then None else Some (table_entries t, expn_table_entries t)
  | Fault _ => None
  end.

(** Sizes that the handles, the counters and the hash masks can work with. *)
Definition good_sizes (b e : Z) : bool :=
  (2 <=? b) && (b <=? 4096) && (Z.land b (b - 1) =? 0) && (2 <=? e) && (e <=? 1024) && (e mod 2 =? 0).

(** What is asked of the sizes for [n] entries in a memory: in the DDR every
    number is accepted and at most two entries are missing (the first record
    is never used); in the SRAM nothing is missing. *)
Definition sizes_check (nmi n : Z) : bool :=
  match table_sizes nmi n with
  | Some (b, e) => good_sizes b e && (if nmi =? IPA_NAT_MEM_IN_SRAM then n <=? b + e - 1 else n <=? b + e + 1)
  | None => (nmi =? IPA_NAT_MEM_IN_SRAM) && (2384 <=? n)
  end.

Fixpoint numbers_from (first : Z) (count : nat) : list Z :=
  match count with
  | O => []
  | S count' => first :: numbers_from (first + 1) count'
  end.

Lemma numbers_from_in count : forall first n, first <= n < first + Z.of_nat count -> n ∈ numbers_from first count.
Proof.
  induction count as [|count IH]; intros first n Hn; [lia|]. cbn [numbers_from].
  destruct (decide (n = first)) as [->|]; [by left|]. right. apply IH. lia.
Qed.

Definition all_numbers : list Z := numbers_from 0 (Z.to_nat (IPA_TABLE_MAX_ENTRIES + 1)).

Lemma sizes_checked : forallb (sizes_check IPA_NAT_MEM_IN_DDR) all_numbers = true /\ forallb (sizes_check IPA_NAT_MEM_IN_SRAM) all_numbers = true.
Proof. split; vm_compute; reflexivity. Qed.

Lemma sizes_checked_at nmi n :
  nmi = IPA_NAT_MEM_IN_DDR \/ nmi = IPA_NAT_MEM_IN_SRAM -> 0 <= n <= IPA_TABLE_MAX_ENTRIES -> sizes_check nmi n = true.
Proof.
  intros Hm Hn. assert (Hin : n ∈ all_numbers) by (apply numbers_from_in; unfold IPA_TABLE_MAX_ENTRIES in *; lia).
  destruct sizes_checked as [H0 H1]. apply list_elem_of_In in Hin.
  destruct Hm as [-> | ->]; [exact (proj1 (forallb_forall _ _) H0 n Hin)|exact (proj1 (forallb_forall _ _) H1 n Hin)].
Qed.

(** C25: For every number of entries up to the limit of 5120: a table in the DDR
    is accepted, in the SRAM exactly up to 2383 entries; an accepted table has a
    power of two of base records and an even number of expansion records that
    fit its handles, and in the SRAM room for the requested entries. *)
Theorem table_sizes_spec nmi n :
  nmi = IPA_NAT_MEM_IN_DDR \/ nmi = IPA_NAT_MEM_IN_SRAM -> 0 <= n <= IPA_TABLE_MAX_ENTRIES ->
  match table_sizes nmi n with
  | Some (b, e) => good_sizes b e = true /\ n <= b + e + 1 /\ (nmi = IPA_NAT_MEM_IN_SRAM -> n <= b + e - 1)
  | None => nmi = IPA_NAT_MEM_IN_SRAM /\ 2384 <= n
  end.
Proof.
  intros Hm Hn. pose proof (sizes_checked_at nmi n Hm Hn) as Hc.
  unfold sizes_check in Hc. destruct (table_sizes nmi n) as [[b e]|].
  - apply andb_true_iff in Hc as [Hg Hc]. split; [done|].
    destruct (Z.eqb_spec nmi IPA_NAT_MEM_IN_SRAM); split; intros; lia.
  - apply andb_true_iff in Hc as [Hs Hc]. lia.
Qed.

Lemma table_sizes_spec_witness :
  match table_sizes IPA_NAT_MEM_IN_SRAM 2383 with
  | Some (b, e) => good_sizes b e = true /\ 2383 <= b + e + 1 /\ (IPA_NAT_MEM_IN_SRAM = IPA_NAT_MEM_IN_SRAM -> 2383 <= b + e - 1)
  | None => IPA_NAT_MEM_IN_SRAM = IPA_NAT_MEM_IN_SRAM /\ 2384 <= 2383
  end.
Proof. exact (table_sizes_spec IPA_NAT_MEM_IN_SRAM 2383 (or_intror eq_refl) ltac:(unfold IPA_TABLE_MAX_ENTRIES; lia)). Defined.

(** The tables made for 5120 entries in the DDR hold at most 5119. *)
Theorem ddr_table_one_short :
  table_sizes IPA_NAT_MEM_IN_DDR 5120 = Some (4096, 1024) /\ table_sizes IPA_NAT_MEM_IN_DDR 11 = Some (8, 2).
Proof. split; vm_compute; reflexivity. Qed.

(** ** The number of entries that fit into the on-chip memory *)

Lemma power_loop_total fuel : forall tmp prev curr,
  1 <= tmp < 2 ^ Z.of_nat (S fuel) -> exists r, power_loop fuel tmp prev curr = Some r.
Proof.
  induction fuel as [|fuel IH]; intros tmp prev curr Ht.
  - assert (tmp = 1) as -> by (change (2 ^ Z.of_nat 1) with 2 in Ht; lia). by eexists.
  - cbn [power_loop]. destruct (Z.eqb_spec tmp 1); [by eexists|]. apply IH. rewrite Z.shiftr_div_pow2 by lia.
    rewrite Nat2Z.inj_succ, Z.pow_succ_r in Ht by lia. change (2 ^ 1) with 2. Z.to_euclidean_division_equations; lia.
Qed.

Lemma Get2PowerTightUpperBound_total num : is_word 16 num -> exists r, Get2PowerTightUpperBound num = Some r.
Proof.
  intros Hn. unfold Get2PowerTightUpperBound. destruct (Z.eqb_spec num 0); [by eexists|].
  destruct (power_loop_total 16 num 0 2) as [[p c] ->]; [|by eexists]. unfold is_word in Hn. cbn in *. lia.
Qed.

Section Sram.
Context (sram_size size1 size2 : Z).

(** The tables for [n] entries fit. *)
Definition fits (n : Z) : bool :=
  match sram_size_of size1 size2 n with
  | Some size => u32 size <=? sram_size
  | None => false
  end.

Lemma sram_size_total n : exists size, sram_size_of size1 size2 n = Some size.
Proof.
  unfold sram_size_of.
  destruct (Get2PowerTightUpperBound_total (u16 (sf_trunc (f64 (f64_of_Z n) IPA_BASE_TABLE_PCNT_4SRAM)))) as [r ->];
    [by apply wrap_is_word|by eexists].
Qed.

Lemma sram_loop_run fuel : forall tot n,
  tot = n + 1 -> 0 <= n -> (exists k, n < k < n + 1 + Z.of_nat fuel /\ k < 2 ^ 16 - 1 /\ fits k = false) ->
  exists r, sram_loop fuel sram_size size1 size2 tot n = Some r /\ n <= r /\
    (forall k, n < k <= r -> fits k = true) /\ fits (r + 1) = false.
Proof.
  induction fuel as [|fuel IH]; intros tot n -> Hn (k&Hk&Hk16&Hfk); [lia|]. cbn [sram_loop].
  destruct (sram_size_total (n + 1)) as [size Hs]. rewrite Hs. cbn [mbind option_bind].
  assert (Hfit : fits (n + 1) = negb (sram_size <? u32 size)) by (unfold fits; rewrite Hs; apply Z.leb_antisym).
  destruct (sram_size <? u32 size) eqn:Hlt.
  - exists n. split; [done|]. split; [lia|]. split; [intros; lia|done].
  - assert (k <> n + 1) by (intros ->; rewrite Hfit in Hfk; done). rewrite wrap_small by (unfold is_word; lia).
    destruct (IH (n + 1 + 1) (n + 1)) as (r&Hr&Hle&Hall&Hstop); [done|lia|exists k; split; [lia|done]|].
    exists r. split; [done|]. split; [lia|]. split; [|done].
    intros j Hj. destruct (decide (j = n + 1)) as [->|]; [by rewrite Hfit|]. apply Hall. lia.
Qed.

(** The search for the number of entries ends when some number below 2^16
    does not fit, and returns the number before the first one that does not. *)
Theorem ipa_calc_num_sram_table_entries_spec N :
  1 <= N < 2 ^ 16 - 1 -> fits N = false ->
  exists n, ipa_calc_num_sram_table_entries sram_size size1 size2 = Some (if truthy n then 0 else - 1, n) /\
    0 <= n < N /\ (forall k, 1 <= k <= n -> fits k = true) /\ fits (n + 1) = false.
Proof.
  intros HN Hfit. unfold ipa_calc_num_sram_table_entries.
  destruct (sram_loop_run (Z.to_nat (2 ^ 16)) 1 0) as (n&Hn&Hle&Hall&Hstop);
    [done|lia|exists N; rewrite Z2Nat.id by lia; split; [lia|split; [lia|done]]|].
  rewrite Hn. exists n. split; [done|]. split; [|split; [intros k Hk; apply Hall; lia|done]].
  split; [done|]. destruct (decide (n < N)); [done|]. rewrite Hall in Hfit by lia. done.
Qed.

End Sram.

Lemma ipa_calc_num_sram_table_entries_spec_witness :
  fits 20480 32 4 500 = false /\
  exists n, ipa_calc_num_sram_table_entries 20480 32 4 = Some (if truthy n then 0 else - 1, n) /\
    0 <= n < 500 /\ (forall k, 1 <= k <= n -> fits 20480 32 4 k = true) /\ fits 20480 32 4 (n + 1) = false.
Proof.
  assert (Hf : fits 20480 32 4 500 = false) by (vm_compute; reflexivity).
  split; [exact Hf|]. exact (ipa_calc_num_sram_table_entries_spec 20480 32 4 500 ltac:(lia) Hf).
Defined.
