(* ===== verification/IpaCreate.v ===== *)
(** * Creating a table

    Clearing the memory of a table, and the state of the library after a
    successful creation: both tables are well formed and empty. *)

From stdpp Require Import gmap.
From S2P Require Import Prelude IpaChain IpaTable IpaTableSpec IpaTableSettle IpaSystem IpaNat IpaNatSpec IpaRules IpaSize.

Local Open Scope Z_scope.

(** ** Clearing the records *)

Section Reset.
Context {E U : Type} `{EL : ipa_entry_laws E U}.

Lemma fill_run (z : E) (f : Z -> Z) s n : forall k t c,
  (forall j, f (Z.of_nat j) = Z.of_nat (s + j)) -> (s + k + n <= length (recs t))%nat ->
  exists l, forM (map Z.of_nat (seq k n)) (fun i => put_rec (f i) z) (mkT t c) = Done (tt, mkT (t <| recs := l |>) c) /\
    length l = length (recs t) /\
    forall i, l !! i = if decide (s + k <= i < s + k + n)%nat then Some z else recs t !! i.
Proof using Type.
  induction n as [|n IH]; intros k t c Hf Hl.
  - exists (recs t). split; [by destruct t|]. split; [done|]. intros i. rewrite decide_False by lia. done.
  - cbn [seq map forM]. rewrite put_rec_then by (rewrite Hf; unfold zlen; lia). rewrite Hf.
    destruct (IH (S k) (set_rec (Z.of_nat (s + k)) z t) c Hf) as (l&Hrun&Hlen&Hlk).
    { cbn. rewrite length_insert. lia. }
    assert (Hrec : recs (set_rec (Z.of_nat (s + k)) z t) = <[(s + k)%nat := z]> (recs t)) by (cbn; by rewrite Nat2Z.id).
    rewrite Hrec in *. rewrite length_insert in Hlen. exists l. split; [exact Hrun|]. split; [done|]. intros i. rewrite Hlk.
    destruct (decide (i = s + k)%nat) as [->|Hne].
    + rewrite decide_False, decide_True by lia. apply list_lookup_insert_eq. lia.
    + rewrite list_lookup_insert_ne by done. repeat case_decide; done || lia.
Qed.

Lemma reset_run t c :
  0 < entry_size t -> 0 <= table_entries t -> 0 <= expn_table_entries t ->
  expn_table_addr t = table_addr t + entry_size t * table_entries t ->
  zlen (recs t) = table_entries t + expn_table_entries t ->
  ipa_table_reset (mkT t c) = Done (tt, mkT (t <| recs := replicate (Z.to_nat (table_entries t + expn_table_entries t)) entry_zero |>) c).
Proof using Type.
  intros Hs Hb He Ha Hl. unfold ipa_table_reset. rewrite gets_then. cbv zeta. unfold zlen in Hl.
  replace ((expn_table_addr t - table_addr t) / entry_size t) with (table_entries t)
    by (rewrite Ha; replace (_ + _ - table_addr t) with (table_entries t * entry_size t) by lia; by rewrite Z.div_mul by lia).
  destruct (fill_run entry_zero (fun i => i) 0 (Z.to_nat (table_entries t)) 0 t c) as (l1&H1&Hl1&Hk1); [done|lia|].
  rewrite (bind_run _ _ _ _ _ H1).
  destruct (fill_run entry_zero (fun i => table_entries t + i) (Z.to_nat (table_entries t)) (Z.to_nat (expn_table_entries t)) 0
    (t <| recs := l1 |>) c) as (l2&H2&Hl2&Hk2).
  { intros j. lia. }
  { change (recs (t <| recs := l1 |>)) with l1. lia. }
  rewrite H2. change (recs (t <| recs := l1 |>)) with l1 in *. f_equal. f_equal. f_equal.
  unfold upd. cbn. f_equal. apply list_eq. intros i. rewrite Hk2, Hk1.
  destruct (decide (i < Z.to_nat (table_entries t + expn_table_entries t))%nat) as [Hi|Hi].
  - rewrite lookup_replicate_2 by done. repeat case_decide; done || lia.
  - rewrite (lookup_ge_None_2 (replicate _ _)) by (rewrite length_replicate; lia).
    repeat case_decide; try lia. apply lookup_ge_None_2. lia.
Qed.

(** A cleared table is well formed and has no lists. *)
Lemma blank_ok size t :
  geometry size t -> cur_tbl_cnt t = 0 -> cur_expn_tbl_cnt t = 0 ->
  recs t = replicate (Z.to_nat (table_entries t + expn_table_entries t)) entry_zero -> table_ok size t ∅.
Proof using Type.
  intros Hg Hc He Hr.
  assert (Hz : forall i e, zget (recs t) i = Some e -> e = entry_zero).
  { intros i e Hi. pose proof (zget_Some _ _ _ Hi). rewrite zget_to_nat, Hr in Hi by lia. by apply lookup_replicate in Hi as [-> _]. }
  assert (Hv : forall i, view_of t i = None).
  { intros i. unfold view_of. destruct (zget (recs t) i) as [e|] eqn:Hi; [|done]. cbn. by rewrite (Hz i e Hi), law_zero. }
  split; [done|split|split; [by rewrite map_size_empty|by rewrite He]|].
  - intros h es. by rewrite lookup_empty.
  - intros i x. by rewrite Hv.
  - intros i e Hi _. by apply (Hz i).
Qed.

End Reset.

(** ** The tables *)

(** The sizes do not depend on the kind of records. *)
Lemma calculate_run {E} (t : ipa_table E) number mt b e :
  table_sizes mt number = Some (b, e) ->
  ipa_table_calculate_entries_num number mt t
  = Done (0, t <| tot_tbl_ents := u32 (b + e) |> <| table_entries := b |> <| expn_table_entries := e |>).
Proof.
  unfold table_sizes, ipa_table_calculate_entries_num. destruct (_ <? number); [done|].
  set (p := if mt =? IPA_NAT_MEM_IN_SRAM then _ else _). destruct p as [btp etp].
  destruct (Get2PowerTightUpperBound _) as [b'|]; [|done]. rewrite !(liftO_run _ _ _ _ b'), !modify_run by done. cbv zeta.
  destruct (_ <? u32 _); [done|]. rewrite !modify_run. by intros [= <- <-].
Qed.

Lemma good_sizes_range b e : good_sizes b e = true -> 2 <= b <= 4096 /\ 0 < e <= 4096.
Proof. unfold good_sizes. rewrite !andb_true_iff. intros (((((?&?)&?)&?)&?)&?). lia. Qed.

Lemma sizes_good mt number b e :
  mt = IPA_NAT_MEM_IN_DDR \/ mt = IPA_NAT_MEM_IN_SRAM -> 0 <= number <= IPA_TABLE_MAX_ENTRIES ->
  table_sizes mt number = Some (b, e) -> good_sizes b e = true.
Proof.
  intros Hm Hn Hs. pose proof (sizes_checked_at mt number Hm Hn) as Hc. unfold sizes_check in Hc. rewrite Hs in Hc.
  by apply andb_true_iff in Hc as [? _].
Qed.

(** Where the tables lie in the mapping. *)
Definition placed {E} (addr : Z) (mem : list E) (t : ipa_table E) : ipa_table E :=
  t <| table_addr := addr |> <| expn_table_addr := addr + entry_size t * table_entries t |> <| recs := mem |>.

Definition placed_tables (s : ipa_system) (T : ipa_nat_ip4_table_cache) : ipa_nat_ip4_table_cache :=
  let a := mem_base_addr (mem_desc T) in
  let mem := mmap_mem s (nmi (table T)) in
  let t := placed a mem.1 (table T) in
  T <| table := t |> <| index_table := placed (expn_table_addr t + entry_size t * expn_table_entries t) mem.2 (index_table T) |>.

Lemma place_tables_run T st : place_tables T st = Done (placed_tables (sys st) T, st).
Proof. done. Qed.

(** A table with blank records of the right number is well formed. *)
Lemma placed_ok {E U} `{EL : ipa_entry_laws E U} b e size addr mem (t : ipa_table E) hs :
  good_sizes b e = true ->
  entry_size t = size -> 0 < size <= 64 -> table_entries t = b -> expn_table_entries t = e -> tot_tbl_ents t = u32 (b + e) ->
  cur_tbl_cnt t = 0 -> cur_expn_tbl_cnt t = 0 -> meta_ok (meta t) b e -> zlen mem = b + e ->
  (forall c, ipa_table_reset (mkT (placed addr mem t) c)
     = Done (tt, mkT ((placed addr mem t) <| recs := replicate (Z.to_nat (b + e)) entry_zero |>) c)) /\
  table_ok size ((placed addr mem t) <| recs := replicate (Z.to_nat (b + e)) entry_zero |> <| dma_help_of := hs |>) ∅.
Proof.
  intros Hgood. destruct (good_sizes_range b e Hgood) as [Hb He]. intros Hsize Hpos <- <- Htot Hc Hec Hm Hl. split.
  - intros c. apply (reset_run (placed addr mem t) c); cbn; lia.
  - apply blank_ok; [|done|done|done]. split; [|done].
    split; cbn; try done; try lia.
    + rewrite Htot. apply wrap_small. unfold is_word. lia.
    + unfold zlen. rewrite length_replicate. lia.
Qed.

(** Two cleared tables hold no rules. *)
Lemma blank_tables_ok mt T t x b e k :
  valid (mem_desc T) = true -> table_ok (EL := nat_laws []) sizeof_ipa_nat_rule t ∅ ->
  table_ok (EL := index_laws) sizeof_ipa_nat_indx_tbl_rule x ∅ ->
  recs t = replicate (Z.to_nat (b + e)) zero_rule -> recs x = replicate (Z.to_nat (b + e)) (mkIndexRule 0 0) ->
  table_entries x = table_entries t -> expn_table_entries x = expn_table_entries t ->
  dma_help_of t = Some (nat_helps k) -> dma_help_of x = Some (index_helps k) -> nmi t = mt ->
  table T = t -> index_table T = x -> tables_ok mt T ∅.
Proof.
  intros Hv Ht Hx Hrt Hrx Hb He Hh Hhx Hm <- <-. exists ∅, ∅, k.
  assert (Hzt : forall i f, rule_at (table T) i = Some f -> f = zero_rule).
  { intros i f. unfold data_at. destruct (zget (recs (table T)) i) as [y|] eqn:Hy; [|done]. intros [= <-].
    pose proof (zget_Some _ _ _ Hy). rewrite zget_to_nat, Hrt in Hy by lia. by apply lookup_replicate in Hy as [-> _]. }
  assert (Hzx : forall i f, index_at (index_table T) i = Some f -> f = mkIndexRule 0 0).
  { intros i f. unfold data_at. destruct (zget (recs (index_table T)) i) as [y|] eqn:Hy; [|done]. intros [= <-].
    pose proof (zget_Some _ _ _ Hy). rewrite zget_to_nat, Hrx in Hy by lia. by apply lookup_replicate in Hy as [-> _]. }
  split; try done.
  - split.
    + intros i f Hf Hl. by rewrite (Hzt i f Hf) in Hl.
    + intros j y Hy Hty. by rewrite (Hzx j y Hy) in Hty.
  - intros i f Hf Hl. by rewrite (Hzt i f Hf) in Hl.
  - intros i r. rewrite lookup_empty. split; [done|]. intros (f&Hf&Hl&_). by rewrite (Hzt i f Hf) in Hl.
Qed.

Section Create.
Context (nmi i : Z) (n : nat_state) (T0 : ipa_nat_ip4_table_cache) (Hat : at_table nmi i n T0) (Hs : no_failures (sys n)).
Context (number b e : Z) (Hsz : table_sizes nmi number = Some (b, e)) (Hgood : good_sizes b e = true).
Context (Hmem : zlen (mmap_mem (sys n) nmi).1 = b + e /\ zlen (mmap_mem (sys n) nmi).2 = b + e) (Hoff : table_offset (sys n) = 0).
Abbreviation put := (put_at nmi i).

Lemma upd_table_then {B} T cm n' f (k : unit -> NM B) :
  at_table nmi i n' T0 -> (upd_table nmi i f ≫= k) (put T cm n') = k tt (put (f T) cm n').
Proof using Type.
  intros H. apply bind_run. unfold upd_table. rewrite (get_table_then nmi i n' T0 H). apply (put_table_run nmi i n' T0 H).
Qed.

Lemma run_table_then {E A B} (m : M (ipa_table E) A) t a t' (k : A * ipa_table E -> NM B) s :
  m t = Done (a, t') -> (run_table m t ≫= k) s = k (a, t') s.
Proof using Type. intros H. unfold run_table, mbind, M_bind. by rewrite H. Qed.

(** The tables as they are made: blank records and the command helpers. *)
Lemma create_table_run cm pub k :
  exists T, ipa_nati_create_table nmi i pub number k (put T0 cm n) = Done (0, put T cm (ticks 6 n)) /\
    tables_ok nmi T ∅ /\ table_entries (table T) = b /\ expn_table_entries (table T) = e.
Proof using All.
  destruct (good_sizes_range b e Hgood) as [Hb He]. unfold ipa_nati_create_table. rewrite getM_run. cbv zeta.
  rewrite (upd_table_then _ _ n) by done. rewrite (get_table_then nmi i n T0 Hat).
  change (table (upd table _ _)) with (ipa_table_init (E := ipa_nat_rule) nmi sizeof_ipa_nat_rule None 0).
  rewrite (run_table_then _ _ _ _ _ _ (calculate_run _ _ _ _ _ Hsz)). cbv beta iota.
  set (nt := _ <| expn_table_entries := e |>).
  rewrite (upd_table_then _ _ n) by done. change (truthy 0) with false. cbn iota.
  rewrite call_then by done. change (truthy 0) with false. cbn iota.
  set (n1 := ticks 1 n). assert (Hat1 : at_table nmi i n1 T0) by exact Hat.
  change (ticks 1 (put ?T cm n)) with (put T cm n1).
  rewrite (upd_table_then _ _ n1) by done. rewrite (get_table_then nmi i n1 T0 Hat1). cbv zeta.
  match goal with |- context [ipa_mem_descriptor_allocate_memory ?d] => set (d0 := d) end.
  match goal with |- context [put ?T cm n1] => set (T1 := T) end.
  assert (Hs1 : no_failures (calls (put T1 cm n1))) by (cbn [calls nat_caller]; exact Hs).
  destruct (allocate_memory_run d0 (put T1 cm n1) Hs1) as (d1&Hd1&Hvalid&Hd1off).
  rewrite (bind_run _ _ _ _ _ Hd1). cbv beta iota. set (n6 := ticks 6 n). assert (Hat6 : at_table nmi i n6 T0) by exact Hat.
  change (ticks 5 (put T1 cm n1)) with (put T1 cm n6).
  rewrite (upd_table_then _ _ n6) by done. change (truthy 0) with false. cbn iota.
  rewrite (get_table_then nmi i n6 T0 Hat6).
  rewrite (bind_run _ _ _ _ _ (place_tables_run (T1 <| mem_desc := d1 |>) (put (T1 <| mem_desc := d1 |>) cm n6))).
  change (sys (put _ cm n6)) with (sys n). set (T2 := placed_tables (sys n) _).
  rewrite (put_table_then nmi i n6 T0 Hat6).
  destruct (placed_ok (EL := nat_laws (pdns n)) b e sizeof_ipa_nat_rule (mem_base_addr d1) (mmap_mem (sys n) nmi).1 nt (Some (nat_helps k)))
    as [Hreset _]; try done; [apply Hmem|].
  destruct (placed_ok (EL := nat_laws []) b e sizeof_ipa_nat_rule (mem_base_addr d1) (mmap_mem (sys n) nmi).1 nt (Some (nat_helps k)))
    as [_ Hok]; try done; [apply Hmem|].
  destruct (placed_ok (EL := index_laws) b e sizeof_ipa_nat_indx_tbl_rule
    (expn_table_addr (table T2) + entry_size (table T2) * expn_table_entries (table T2)) (mmap_mem (sys n) nmi).2 (index_table T1) (Some (index_helps k)))
    as [Hresetx Hokx]; try done; [| |].
  { eexists. split; [done|]. unfold zlen. rewrite length_replicate. change (expn_table_entries nt) with e. lia. }
  { apply Hmem. }
  change (pdns (put _ cm n)) with (pdns n).
  erewrite (on_table_then nmi i n6 T0 Hat6); [|apply Hreset|done|done]. cbv beta.
  erewrite (on_index_then nmi i n6 T0 Hat6); [|apply Hresetx|done|done]. cbv beta.
  rewrite (upd_table_then _ _ n6) by done.
  match goal with |- context [put (ipa_nati_create_table_dma_cmd_helpers k ?T) cm n6] => set (T3 := T) end.
  exists (ipa_nati_create_table_dma_cmd_helpers k T3). split; [done|].
  assert (Hoff3 : addr_offset (mem_desc T3) = 0) by (change (addr_offset d1 = 0); rewrite Hd1off; exact Hoff).
  split; [|done]. apply (blank_tables_ok _ (ipa_nati_create_table_dma_cmd_helpers k T3) _ _ b e k Hvalid Hok Hokx); try done; unfold ipa_nati_create_table_dma_cmd_helpers; by rewrite Hoff3.
Qed.

End Create.

(** ** The interface *)

Lemma upd_cache_then {B} nmi f c n (k : unit -> NM B) :
  zget (ipv4_nat_cache n) nmi = Some c ->
  (upd_cache nmi f ≫= k) n = k tt (n <| ipv4_nat_cache ::= fun l => <[Z.to_nat nmi := f c]> l |>).
Proof. intros H. apply bind_run. unfold upd_cache. by rewrite H. Qed.

Lemma cache_then {B} nmi c n (k : ipa_nat_cache -> NM B) :
  zget (ipv4_nat_cache n) nmi = Some c -> (get_cache nmi ≫= k) n = k c n.
Proof. intros H. apply bind_run. unfold get_cache. by rewrite H. Qed.

Lemma cache_upd nmi c c' n :
  zget (ipv4_nat_cache n) nmi = Some c ->
  zget (ipv4_nat_cache (n <| ipv4_nat_cache ::= fun l => <[Z.to_nat nmi := c']> l |>)) nmi = Some c'.
Proof. intros H. cbn. apply zget_insert_eq. by eapply zget_Some. Qed.

Lemma ensure_desc_run nmi c n :
  no_failures (sys n) -> zget (ipv4_nat_cache n) nmi = Some c -> ipa_desc c = None ->
  exists d, ensure_desc nmi n = Done (true, ticks 3 n <| ipv4_nat_cache ::= fun l => <[Z.to_nat nmi := c <| ipa_desc := Some d |>]> l |>).
Proof.
  intros Hs Hc Hd. exists (hw_new (sys n)). unfold ensure_desc. rewrite (cache_then nmi c) by done. rewrite Hd.
  rewrite (bind_run _ _ _ (Some (hw_new (sys n))) (ticks 3 n)).
  - by rewrite (upd_cache_then nmi _ c) by done.
  - exact (descriptor_open_run n Hs).
Qed.

(** The same whether the device is open or not. *)
Lemma ensure_desc_open nmi c n :
  no_failures (sys n) -> zget (ipv4_nat_cache n) nmi = Some c ->
  exists d j, ensure_desc nmi n = Done (true, ticks j n <| ipv4_nat_cache ::= fun l => <[Z.to_nat nmi := c <| ipa_desc := Some d |>]> l |>).
Proof.
  intros Hs Hc. destruct (ipa_desc c) as [d|] eqn:Hd; [|destruct (ensure_desc_run nmi c n Hs Hc Hd) as [d Hrun]; by exists d, 3%nat].
  exists d, 0%nat. unfold ensure_desc. rewrite (cache_then nmi c) by done. rewrite Hd. unfold mret, M_ret. do 2 f_equal.
  pose proof (zget_Some _ _ _ Hc). rewrite zget_to_nat in Hc by lia.
  assert (Hcd : c <| ipa_desc := Some d |> = c) by (rewrite <- Hd; by destruct c). rewrite Hcd.
  unfold upd. cbn. rewrite (list_insert_id _ _ _ Hc). by destruct n.
Qed.

(** A cache in which no table was created. *)
Definition fresh_cache (nmi : Z) (n : nat_state) : Prop :=
  exists c T, zget (ipv4_nat_cache n) nmi = Some c /\ ipa_desc c = None /\ table_cnt c = 0 /\ zget (ip4_tbl c) 0 = Some T.

(** A cache without tables, whose device may be open. *)
Definition unused_cache (nmi : Z) (n : nat_state) : Prop :=
  exists c T, zget (ipv4_nat_cache n) nmi = Some c /\ table_cnt c = 0 /\ zget (ip4_tbl c) 0 = Some T.

Lemma fresh_unused nmi n : fresh_cache nmi n -> unused_cache nmi n.
Proof. intros (c&T&?&_&?&?). by exists c, T. Qed.

(** The first network gets the public address of the table. *)
Definition first_network (pub : Z) (l : list ipa_nat_pdn_entry) : list ipa_nat_pdn_entry :=
  match l with [] => [] | p :: l' => mkPdn pub (src_metadata p) (dst_metadata p) :: l' end.

(** The number of tables of a cache. *)
Definition table_count (nmi : Z) (n : nat_state) (k : Z) : Prop :=
  exists c, zget (ipv4_nat_cache n) nmi = Some c /\ table_cnt c = k.

Lemma add_tbl_run nmi n pub number b e :
  nmi = IPA_NAT_MEM_IN_DDR \/ nmi = IPA_NAT_MEM_IN_SRAM -> unused_cache nmi n -> no_failures (sys n) ->
  table_sizes nmi number = Some (b, e) -> good_sizes b e = true ->
  zlen (mmap_mem (sys n) nmi).1 = b + e /\ zlen (mmap_mem (sys n) nmi).2 = b + e -> table_offset (sys n) = 0 -> pdns n <> [] ->
  exists n' T, ipa_NATI_add_ipv4_tbl nmi pub number n = Done ((0, MAKE_TBL_HDL 1 nmi), n') /\
    at_table nmi 0 n' T /\ tables_ok nmi T ∅ /\ table_entries (table T) = b /\ expn_table_entries (table T) = e /\
    sys n' = sys n /\ pdns n' = first_network pub (pdns n) /\ table_count nmi n' 1.
Proof.
  intros Hnmi (c&T00&Hc&Hcnt&HT) Hs Hsz Hgood Hmem Hoff Hpdns.
  unfold ipa_NATI_add_ipv4_tbl, IPA_VALID_NAT_MEM_IN.
  replace ((IPA_NAT_MEM_IN_DDR <=? nmi) && (nmi <? IPA_NAT_MEM_IN_MAX)) with true
    by (unfold IPA_NAT_MEM_IN_DDR, IPA_NAT_MEM_IN_MAX, IPA_NAT_MEM_IN_SRAM in *; lia). cbn [negb].
  unfold pthread_mutex_lock. rewrite call_then by done. change (truthy 0) with false. cbn iota.
  rewrite (upd_cache_then nmi _ c) by done. set (c1 := c <| cache_nmi := nmi |>). set (n1 := _ <| ipv4_nat_cache ::= _ |>).
  assert (Hc1 : zget (ipv4_nat_cache n1) nmi = Some c1) by (by apply (cache_upd nmi c c1 (ticks 1 n))).
  rewrite (cache_then nmi c1) by done. change (table_cnt c1) with (table_cnt c). rewrite Hcnt. cbn [Z.leb IPA_NAT_MAX_IP4_TBLS].
  replace (IPA_NAT_MAX_IP4_TBLS <=? 0) with false by done. cbn iota.
  match goal with |- context [(?m ≫= _) n1] => assert (Hm : exists n' T, m n1 = Done ((0, MAKE_TBL_HDL 1 nmi), n') /\
    at_table nmi 0 n' T /\ tables_ok nmi T ∅ /\ table_entries (table T) = b /\ expn_table_entries (table T) = e /\
    sys n' = sys n /\ pdns n' = first_network pub (pdns n) /\ table_count nmi n' 1) end.
  { destruct (ensure_desc_open nmi c1 n1 Hs Hc1) as (d&j&Hdesc). rewrite (bind_run _ _ _ _ _ Hdesc). cbn [negb].
    set (c2 := c1 <| ipa_desc := Some d |>). set (n2 := ticks j n1 <| ipv4_nat_cache ::= fun l => <[Z.to_nat nmi := c2]> l |>).
    assert (Hc2 : zget (ipv4_nat_cache n2) nmi = Some c2) by exact (cache_upd nmi c1 c2 n1 Hc1).
    assert (Hat2 : at_table nmi 0 n2 T00) by (by exists c2, d).
    destruct (create_table_run nmi 0 n2 T00 Hat2 Hs number b e Hsz Hgood Hmem Hoff (nat_cmd n2) pub 0) as (T&Hrun&Hok&Hb&He).
    rewrite (put_same nmi 0 n2 T00 Hat2) in Hrun. rewrite (bind_run _ _ _ _ _ Hrun). change (truthy 0) with false. cbn iota.
    set (n3 := ticks 6 n2) in *. assert (Hat3 : at_table nmi 0 n3 T00) by exact Hat2.
    set (n4 := put_at nmi 0 T (nat_cmd n2) n3). pose proof (at_put nmi 0 n3 T00 Hat3 T (nat_cmd n2)) as Hat4. fold n4 in Hat4.
    assert (Hc4 : zget (ipv4_nat_cache n4) nmi = Some (c2 <| ip4_tbl ::= fun l => <[Z.to_nat 0 := T]> l |>)).
    { unfold n4, put_at. cbn. rewrite (alter_rec_set _ _ _ _ Hc2). apply zget_insert_eq. by eapply zget_Some. }
    set (c4 := upd ip4_tbl _ c2) in Hc4.
    rewrite (bind_run _ _ _ 0 (ticks 1 n4 <| posted ::= fun l => l ++ [v4_nat_init c4 T 0 false] |>)).
    2: { unfold ipa_nati_post_ipv4_init_cmd. rewrite (cache_then nmi c4) by done.
         change n4 with (put_at nmi 0 T (nat_cmd n2) n3) at 1. rewrite (get_table_then nmi 0 n3 T00 Hat3), modify_run. by rewrite call_run by exact Hs. }
    change (truthy 0) with false. cbn iota. rewrite modify_run, getM_run.
    destruct (zget_is_Some (pdns n) 0) as [pdn Hpdn]; [destruct (pdns n); [done|unfold zlen; cbn; lia]|].
    rewrite (liftO_run _ _ _ _ pdn), modify_run by exact Hpdn.
    rewrite (upd_cache_then nmi _ c4) by exact Hc4.
    rewrite (cache_then nmi (c4 <| table_cnt ::= fun x => u8 (x + 1) |>)) by (by apply (cache_upd nmi c4 _ n4)).
    change (table_cnt (c4 <| table_cnt ::= fun x => u8 (x + 1) |>)) with (u8 (table_cnt c + 1)). rewrite Hcnt.
    do 2 eexists. split; [reflexivity|]. split; [|split; [exact Hok|split; [done|split; [done|split; [done|]]]]].
    - destruct Hat4 as (c5&d5&Hc5&Hd5&HT5). rewrite Hc4 in Hc5. injection Hc5 as <-.
      eexists (c4 <| table_cnt ::= fun x => u8 (x + 1) |>), d5. split; [by apply (cache_upd nmi c4 _ n4)|done].
    - change (pdns (upd ipv4_nat_cache _ _)) with (<[0%nat := mkPdn pub (src_metadata pdn) (dst_metadata pdn)]> (pdns n)).
      split; [destruct (pdns n) as [|p l]; [done|by injection Hpdn as <-]|].
      exists (c4 <| table_cnt ::= fun x => u8 (x + 1) |>). split; [by apply (cache_upd nmi c4 _ n4)|].
      change (u8 (table_cnt c + 1) = 1). by rewrite Hcnt. }
  destruct Hm as (n'&T&Hrun&Hat&Hok&Hb&He&Hsys&Hpdns'&Htc). rewrite (bind_run _ _ _ _ _ Hrun).
  unfold pthread_mutex_unlock. rewrite call_then by (cbn [calls nat_caller]; by rewrite Hsys). change (truthy 0) with false. cbn iota.
  by exists (ticks 1 n'), T.
Qed.
