(* ===== verification/IpaHandles.v ===== *)
(** * The maps between original and present handles

    While the rules of a table move between two memories, a client keeps the
    handle that it got first, the original one.  Two maps relate the original
    handles to the handles of the present place and back; composed with the
    rules of the present table they give what the client sees. *)

From stdpp Require Import gmap.
From S2P Require Import Prelude IpaTable IpaStoreSpec.

Local Open Scope Z_scope.

(** ** The relation *)

Section Handles.
Context {R : Type} (mt base expn : Z).
Context (Hb : 2 <= base <= 4096) (He : 0 < expn <= 4096) (Hm : mt = 0 \/ mt = 1).
Implicit Types (m A : gmap Z R) (f g : gmap Z Z).

Abbreviation hdl := (entry_hdl mt base).

Lemma hidx i : 0 <= i < base + expn -> handle_index base (hdl i) = i.
Proof using Hb He Hm. by apply entry_hdl_index. Qed.

(** [m] are the rules of the table by their indexes, [f] leads from original
    handles to present ones and [g] back, [A] are the rules by original handles. *)
Record handles_ok m f g A : Prop := {
  ho_inverse : forall o h, f !! o = Some h <-> g !! h = Some o;
  ho_handle : forall o h, f !! o = Some h -> is_handle mt base expn h;
  ho_rule : forall o h, f !! o = Some h -> exists r, m !! handle_index base h = Some r /\ A !! o = Some r;
  ho_dom : forall o r, A !! o = Some r -> exists h, f !! o = Some h;
  ho_every : forall i r, m !! i = Some r -> 0 < i < base + expn /\ exists o, g !! hdl i = Some o;
  ho_size : size A = size m;
}.

Lemma handles_empty : handles_ok ∅ ∅ ∅ ∅.
Proof using Type. by split. Qed.

Section Ok.
Context m f g A (Hok : handles_ok m f g A).

(** A rule of the table has an original handle. *)
Lemma handles_at i r : m !! i = Some r -> exists o, g !! hdl i = Some o /\ f !! o = Some (hdl i) /\ A !! o = Some r.
Proof using Hok Hb He Hm.
  intros Hi. destruct (ho_every _ _ _ _ Hok i r Hi) as [Hr [o Ho]]. exists o. split; [done|].
  assert (Hf : f !! o = Some (hdl i)) by by apply (ho_inverse _ _ _ _ Hok). split; [done|].
  destruct (ho_rule _ _ _ _ Hok _ _ Hf) as (r'&Hr'&HA). rewrite hidx in Hr' by lia. congruence.
Qed.

(** A rule that the client knows is in the table. *)
Lemma handles_find o r :
  A !! o = Some r -> exists i, f !! o = Some (hdl i) /\ g !! hdl i = Some o /\ m !! i = Some r /\ 0 < i < base + expn /\
    handle_index base (hdl i) = i.
Proof using Hok Hb He Hm.
  intros Ho. destruct (ho_dom _ _ _ _ Hok o r Ho) as [h Hf]. destruct (ho_handle _ _ _ _ Hok _ _ Hf) as (i&Hi&->).
  destruct (ho_rule _ _ _ _ Hok _ _ Hf) as (r'&Hr'&HA). assert (r' = r) as -> by congruence. rewrite hidx in Hr' by lia.
  exists i. split; [done|]. split; [by apply (ho_inverse _ _ _ _ Hok)|]. split; [done|]. split; [done|]. apply hidx; lia.
Qed.

Lemma handles_none o : A !! o = None -> f !! o = None.
Proof using Hok. intros Ho. destruct (f !! o) as [h|] eqn:Hf; [|done]. destruct (ho_rule _ _ _ _ Hok _ _ Hf) as (r&_&HA). congruence. Qed.

(** The handle of a free index is not in use. *)
Lemma handles_free i : m !! i = None -> 0 < i < base + expn -> g !! hdl i = None.
Proof using Hok Hb He Hm.
  intros Hi Hr. destruct (g !! hdl i) as [o|] eqn:Hg; [|done]. apply (ho_inverse _ _ _ _ Hok) in Hg.
  destruct (ho_rule _ _ _ _ Hok _ _ Hg) as (r&Hrr&_). rewrite hidx in Hrr by lia. congruence.
Qed.

Lemma handles_insert i r o :
  m !! i = None -> 0 < i < base + expn -> A !! o = None ->
  handles_ok (<[i := r]> m) (<[o := hdl i]> f) (<[hdl i := o]> g) (<[o := r]> A).
Proof using Hok Hb He Hm.
  intros Hi Hr Ho. pose proof (handles_none o Ho) as Hf. pose proof (handles_free i Hi Hr) as Hg. pose proof Hok as [H1 H2 H3 H4 H5 H6].
  assert (Hidx : handle_index base (hdl i) = i) by (apply hidx; lia).
  assert (Hne : forall o' h, f !! o' = Some h -> handle_index base h <> i).
  { intros o' h Hf' Heq. destruct (H3 o' h Hf') as (r'&Hr'&_). congruence. }
  split.
  - intros o' h. destruct (decide (o' = o)) as [->|Hoo].
    + rewrite lookup_insert_eq. split; [intros [= <-]; by rewrite lookup_insert_eq|].
      intros Hx. destruct (decide (h = hdl i)) as [->|Hh]; [done|]. rewrite lookup_insert_ne in Hx by done. apply H1 in Hx. congruence.
    + rewrite lookup_insert_ne by done. destruct (decide (h = hdl i)) as [->|Hh].
      * rewrite lookup_insert_eq. split; [|congruence]. intros Hx. apply H1 in Hx. congruence.
      * rewrite lookup_insert_ne by done. apply H1.
  - intros o' h [[-> <-]|[_ Hx]]%lookup_insert_Some; [by exists i|by apply (H2 o')].
  - intros o' h [[-> <-]|[Hoo Hx]]%lookup_insert_Some.
    + exists r. by rewrite Hidx, !lookup_insert_eq.
    + destruct (H3 o' h Hx) as (r'&Hr'&HA). exists r'. split; [|by rewrite lookup_insert_ne].
      rewrite lookup_insert_ne; [done|]. apply not_eq_sym, (Hne o' h Hx).
  - intros o' r' [[-> <-]|[Hoo Hx]]%lookup_insert_Some; [exists (hdl i); by rewrite lookup_insert_eq|].
    destruct (H4 o' r' Hx) as [h Hh]. exists h. by rewrite lookup_insert_ne.
  - intros j r' [[<- _]|[Hji Hj]]%lookup_insert_Some; [split; [done|exists o; by rewrite lookup_insert_eq]|].
    destruct (H5 j r' Hj) as [Hjr [o' Ho']]. split; [done|]. exists o'. rewrite lookup_insert_ne; [done|].
    intros Heq. apply Hji. rewrite <- Hidx, Heq. apply hidx. lia.
  - by rewrite !map_size_insert_None, H6.
Qed.

Lemma handles_delete o h :
  f !! o = Some h -> handles_ok (delete (handle_index base h) m) (delete o f) (delete h g) (delete o A).
Proof using Hok Hb He Hm.
  intros Hf. pose proof Hok as [H1 H2 H3 H4 H5 H6]. destruct (H3 o h Hf) as (r&Hr&HA). destruct (H2 o h Hf) as (i&Hi&->).
  assert (Hidx : handle_index base (hdl i) = i) by (apply hidx; lia). rewrite Hidx in *.
  split.
  - intros o' h. destruct (decide (o' = o)) as [->|Hoo].
    + rewrite lookup_delete_eq. split; [done|]. intros Hx%lookup_delete_Some. destruct Hx as [Hhh Hx]. apply H1 in Hx. congruence.
    + rewrite lookup_delete_ne by done. destruct (decide (h = hdl i)) as [->|Hh].
      * rewrite lookup_delete_eq. split; [|done]. intros Hx. apply H1 in Hx, Hf. congruence.
      * rewrite lookup_delete_ne by done. apply H1.
  - intros o' h [_ Hx]%lookup_delete_Some. by apply (H2 o').
  - intros o' h [Hoo Hx]%lookup_delete_Some. destruct (H3 o' h Hx) as (r'&Hr'&HA'). exists r'.
    split; [|by rewrite lookup_delete_ne]. destruct (H2 o' h Hx) as (j&Hj&->). rewrite hidx in * by lia.
    rewrite lookup_delete_ne; [done|]. intros <-. apply H1 in Hx, Hf. congruence.
  - intros o' r' [Hoo Hx]%lookup_delete_Some. destruct (H4 o' r' Hx) as [h Hh]. exists h. by rewrite lookup_delete_ne.
  - intros j r' [Hji Hj]%lookup_delete_Some. destruct (H5 j r' Hj) as [Hjr [o' Ho']]. split; [done|]. exists o'.
    rewrite lookup_delete_ne; [done|]. intros Heq. apply Hji. rewrite <- Hidx, Heq. apply hidx. lia.
  - rewrite (map_size_delete_Some o A) by (by exists r). rewrite (map_size_delete_Some i m) by (by exists r). by rewrite H6.
Qed.

End Ok.
End Handles.
