(* ===== verification/IpaStore.v ===== *)
(** * The translation table as a store of rules

    The interface of the library against the abstract store of [IpaStoreSpec]:
    the creation of an empty table, and the refinement of the map of rules by
    any sequence of additions and deletions. *)

From stdpp Require Import gmap.
From S2P Require Import Prelude IpaChain IpaTable IpaTableSpec IpaTableSettle IpaSystem IpaStoreSpec IpaNat IpaNatSpec IpaRules IpaDelete IpaSize IpaCreate.

Local Open Scope Z_scope.

(** ** A full table *)

(** When a part is full there are at least as many rules as it has records. *)
Lemma full_many mt T m :
  tables_ok mt T m ->
  expansion_full (EI := entry_interface []) (table T) \/ expansion_full (EI := index_entry_interface) (index_table T) ->
  expn_table_entries (table T) <= Z.of_nat (size m).
Proof.
  intros (nch&ich&k&[_ Hn Hxt Hb He _ _ Hp Hd Hr]) Hfull. pose proof (geo_expn _ _ (tk_geo _ _ _ Hn)) as Hexp.
  set (l := seqZ (table_entries (table T)) (expn_table_entries (table T))).
  assert (Hl : forall j, j ∈ l -> table_entries (table T) <= j < table_entries (table T) + expn_table_entries (table T))
    by (intros j Hj; apply elem_of_seqZ in Hj; lia).
  assert (Hlen : Z.of_nat (length l) = expn_table_entries (table T)) by (unfold l; rewrite length_seqZ; lia).
  assert (Hkey : forall i e, rule_at (table T) i = Some e -> live e = true -> exists x, m !! i = Some x)
    by (intros i e Hi Hl'; eexists; apply Hr; by exists e).
  destruct Hfull as [Hf|Hf].
  - rewrite <- Hlen. apply many_keys; [apply NoDup_seqZ|]. intros j Hj. specialize (Hl j Hj).
    destruct (Hf j Hl) as [[a b] Hv]. destruct (view_Some _ _ _ Hv) as (e&He'&Hval&_).
    destruct (data_live (table T) j e He') as [Hdj Hlj]. apply (Hkey j _ Hdj). destruct (live (nat_data e)) eqn:Hdead; [done|].
    destruct (Hd j _ Hdj Hval Hdead) as (x&es&Hes). destruct (ck_head _ _ _ _ (tk_chains _ _ _ Hn) j _ Hes) as (?&_). lia.
  - assert (Hx : forall j, j ∈ l -> exists x, index_at (index_table T) j = Some x /\ tbl_entry x <> 0).
    { intros j Hj. specialize (Hl j Hj). destruct (Hf j ltac:(lia)) as [[a b] Hv]. destruct (view_Some _ _ _ Hv) as (x&Hx&Hval&_).
      exists (index_data x). split; [unfold data_at; by rewrite Hx|by apply truthy_true]. }
    set (f := fun j => match index_at (index_table T) j with Some x => tbl_entry x | None => 0 end).
    rewrite <- Hlen, <- (length_map f l). apply many_keys.
    + apply NoDup_fmap_2_strong; [|apply NoDup_seqZ]. intros j1 j2 H1 H2 Heq. unfold f in Heq.
      destruct (Hx j1 H1) as (x1&Hx1&Ht1). destruct (Hx j2 H2) as (x2&Hx2&Ht2). rewrite Hx1, Hx2 in Heq.
      destruct (pair_index _ _ Hp j1 x1 Hx1 Ht1) as (e1&He1&_&Hj1). destruct (pair_index _ _ Hp j2 x2 Hx2 Ht2) as (e2&He2&_&Hj2).
      congruence.
    + intros i Hi. apply list_elem_of_fmap in Hi as (j&->&Hj). destruct (Hx j Hj) as (x&Hxj&Htx). unfold f. rewrite Hxj.
      destruct (pair_index _ _ Hp j x Hxj Htx) as (e&He'&Hl'&_). by apply (Hkey _ e).
Qed.

(** ** The store *)

(** The rules the interface refuses before it looks at the table. *)
Definition refused (pd : list ipa_nat_pdn_entry) (u : ipa_nat_ipv4_rule) : bool :=
  (u_protocol u =? IPAHAL_NAT_INVALID_PROTOCOL) || (IPA_MAX_PDN_NUM <=? u_pdn_index u)
  || match zget pd (u_pdn_index u) with Some p => public_ip p =? 0 | None => true end.

(** The index of a network is unsigned. *)
Definition nat_kind (pd : list ipa_nat_pdn_entry) : store_kind ipa_nat_ipv4_rule ipa_nat_rule :=
  mkKind (refused pd) (stored_rule pd) (fun u => 0 <= u_pdn_index u).

Definition run_op (tbl_hdl : Z) (op : store_op ipa_nat_ipv4_rule) : NM (Z * Z) :=
  match op with
  | AddRule u => ipa_NATI_add_ipv4_rule tbl_hdl (Some u)
  | DeleteRule hdl => ret ← ipa_NATI_del_ipv4_rule tbl_hdl hdl; mret (ret, 0)
  end.

Record store_ok (mt : Z) (pd : list ipa_nat_pdn_entry) (base expn : Z) (n : nat_state) (m : gmap Z ipa_nat_rule) : Prop := {
  so_mt : mt = IPA_NAT_MEM_IN_DDR \/ mt = IPA_NAT_MEM_IN_SRAM;
  so_pdns : pdns n = pd /\ zlen pd = IPA_MAX_PDN_NUM;
  so_sys : no_failures (sys n) /\ documented_dma (sys n);
  so_table : exists T, at_table mt 0 n T /\ tables_ok mt T m /\ table_entries (table T) = base /\ expn_table_entries (table T) = expn;
}.

Lemma put_at_state mt T cm n : pdns (put_at mt 0 T cm n) = pdns n /\ sys (put_at mt 0 T cm n) = sys n.
Proof. done. Qed.

Lemma tbl_handle mt :
  mt = IPA_NAT_MEM_IN_DDR \/ mt = IPA_NAT_MEM_IN_SRAM ->
  VALID_TBL_HDL (MAKE_TBL_HDL 1 mt) = true /\ BREAK_TBL_HDL (MAKE_TBL_HDL 1 mt) = (mt, 1) /\ IPA_VALID_NAT_MEM_IN mt = true.
Proof. by intros [-> | ->]. Qed.

(** The indexes of the rules of a table. *)
Lemma table_keys mt T m i r :
  tables_ok mt T m -> m !! i = Some r -> 0 < i /\ i < table_entries (table T) + expn_table_entries (table T).
Proof.
  intros (nch&ich&k&Hwf) Hi. destruct (live_rule _ _ _ _ _ _ _ _ Hwf Hi) as (e&_&_&_&_&_&He&Hl&_).
  pose proof (rec_range (tk_geo _ _ _ (wf_nat _ _ _ _ _ _ Hwf)) _ _ He).
  destruct (pair_rule _ _ (wf_paired _ _ _ _ _ _ Hwf) i (nat_data e)) as [? _]; [unfold data_at; by rewrite He|done|lia].
Qed.

Section Bounds.
Context (mt : Z) (pd : list ipa_nat_pdn_entry) (base expn : Z) (n : nat_state) (m : gmap Z ipa_nat_rule).
Context (Hok : store_ok mt pd base expn n m).

Lemma store_bounds : 2 <= base <= 4096 /\ 0 < expn <= 4096.
Proof using Hok.
  destruct (so_table _ _ _ _ _ _ Hok) as (T&_&(nch&ich&k&Hwf)&<-&<-). pose proof (tk_geo _ _ _ (wf_nat _ _ _ _ _ _ Hwf)) as Hg.
  split; [apply (geo_base _ _ Hg)|apply (geo_expn _ _ Hg)].
Qed.

Lemma store_keys i r : m !! i = Some r -> 0 < i < base + expn.
Proof using Hok. intros Hi. destruct (so_table _ _ _ _ _ _ Hok) as (T&_&HT&<-&<-). by destruct (table_keys _ _ _ _ _ HT Hi). Qed.

Lemma store_size : Z.of_nat (size m) < base + expn.
Proof using Hok.
  pose proof store_bounds. rewrite <- size_dom. assert (Hsub : dom m ⊆ list_to_set (C := gset Z) (seqZ 1 (base + expn - 1))).
  { intros i Hi. apply elem_of_dom in Hi as [r Hi]. apply elem_of_list_to_set, elem_of_seqZ. pose proof (store_keys i r Hi). lia. }
  apply subseteq_size in Hsub. rewrite size_list_to_set, length_seqZ in Hsub by apply NoDup_seqZ. lia.
Qed.

(** The store is in the cache of its memory. *)
Lemma store_same n' :
  zget (ipv4_nat_cache n') mt = zget (ipv4_nat_cache n) mt -> pdns n' = pdns n -> sys n' = sys n -> store_ok mt pd base expn n' m.
Proof using Hok.
  intros Hc Hp Hs. destruct Hok as [Hmt Hpd Hsys (T&(c&d&Hz&Hd&HT)&Hrest)].
  split; [done|by rewrite Hp|by rewrite Hs|]. exists T. split; [|done]. exists c, d. by rewrite Hc.
Qed.

End Bounds.

Section Step.
Context (mt : Z) (pd : list ipa_nat_pdn_entry) (base expn : Z).
Abbreviation hdl1 := (MAKE_TBL_HDL 1 mt).

Lemma add_step_hdl n m u :
  store_ok mt pd base expn n m -> 0 <= u_pdn_index u ->
  exists res n' m', ipa_NATI_add_ipv4_rule hdl1 (Some u) n = Done (res, n') /\
    store_step (nat_kind pd) base expn m (AddRule u) res m' /\ store_ok mt pd base expn n' m' /\
    (res.1 = 0 -> is_handle mt base expn res.2).
Proof using Type.
  intros [Hmt [Hpd Hlen] [Hs Hdma] (T&Hat&Hok&Hb&He)] Hu. destruct (tbl_handle mt Hmt) as (Hv&Hbr&Hva).
  unfold ipa_NATI_add_ipv4_rule, new_cmd. rewrite modify_run, Hv, Hbr, Hva. cbn [negb].
  set (n1 := n <| nat_cmd := mkDmaCmd MAX_DMA_ENTRIES_FOR_ADD [] |>).
  assert (Hat1 : at_table mt 0 n1 T) by exact Hat.
  assert (Hok1 : store_ok mt pd base expn n1 m) by (split; [done|done|done|by exists T]).
  unfold refused. destruct (Z.eqb_spec (u_protocol u) IPAHAL_NAT_INVALID_PROTOCOL) as [Hp|Hp].
  { exists (- EINVAL, 0), n1, m. split; [done|]. split; [|by split]. apply step_refused. change (refused pd u = true). unfold refused. by rewrite Hp. }
  rewrite getM_run. change (pdns n1) with (pdns n). rewrite Hpd.
  destruct (Z.leb_spec IPA_MAX_PDN_NUM (u_pdn_index u)) as [Hi|Hi].
  { exists (- EINVAL, 0), n1, m. split; [done|]. split; [|by split]. apply step_refused. change (refused pd u = true). unfold refused.
    apply Z.leb_le in Hi as ->. by rewrite orb_true_r. }
  destruct (zget_is_Some pd (u_pdn_index u)) as [p Hpdn]; [lia|].
  rewrite (bind_run _ _ _ (public_ip p =? 0) n1) by (by rewrite Hpdn).
  assert (Href : refused pd u = (public_ip p =? 0)).
  { unfold refused. rewrite Hpdn. apply Z.eqb_neq in Hp as ->. by replace (IPA_MAX_PDN_NUM <=? u_pdn_index u) with false by lia. }
  destruct (public_ip p =? 0) eqn:Hpub.
  { exists (- EINVAL, 0), n1, m. split; [done|]. split; [|by split]. apply step_refused. exact Href. }
  unfold pthread_mutex_lock. rewrite call_then by done. change (truthy 0) with false. cbn iota.
  change (1 - 1) with 0. set (n2 := ticks 1 n1). assert (Hat2 : at_table mt 0 n2 T) by exact Hat.
  assert (exists r0, table_entry_copy_from_user (pdns n2) zero_rule u = Some r0) as [r0 Hr0].
  { change (pdns n2) with (pdns n). rewrite Hpd. unfold table_entry_copy_from_user. rewrite Hpdn. cbn. by eexists. }
  destruct (add_rule_run mt 0 n2 T m u r0 Hat2 Hok Hdma eq_refl Hr0 Hp) as (ret&hdl&T'&cm'&tok&calls&Hrun&Hres).
  rewrite (bind_run _ _ _ _ _ Hrun). cbv beta iota. set (n3 := put_at mt 0 T' cm' _).
  unfold pthread_mutex_unlock. rewrite call_then by done. change (truthy 0) with false. cbn iota.
  assert (Hat3 : at_table mt 0 (ticks 1 n3) T') by exact (at_put mt 0 (later n2 tok calls) T Hat2 T' cm').
  assert (Hso : forall m', tables_ok mt T' m' /\ sizes_of T' = sizes_of T -> store_ok mt pd base expn (ticks 1 n3) m').
  { intros m' [Hok' Hsz]. unfold sizes_of in Hsz. split; [done|done|done|]. exists T'. split; [done|]. split; [done|]. split; congruence. }
  destruct Hres as [r sr T' Hmr Hsr Hok'|T' Hfull Hok'|T' Hsys Hok'].
  - exists (0, MakeEntryHdl (table T) r), (ticks 1 n3), (<[r := sr]> m). split; [reflexivity|].
    destruct Hok' as [Hok' Hsz]. pose proof (conj Hok' Hsz) as Hboth.
    destruct (table_keys mt T' _ r sr Hok' (lookup_insert_eq _ _ _)) as [Hpos Hlt].
    assert (Hrr : 0 <= r < table_entries (table T') + expn_table_entries (table T')) by lia.
    destruct Hok' as (nch'&ich'&k'&Hwf'). pose proof (wf_nat _ _ _ _ _ _ Hwf') as Hn'.
    pose proof (geo_base _ _ (tk_geo _ _ _ Hn')) as Hgb. pose proof (geo_expn _ _ (tk_geo _ _ _ Hn')) as Hge.
    unfold sizes_of in Hsz. injection Hsz as Hs1 Hs2. rewrite Hs1, Hs2 in *.
    destruct Hok as (nch&ich&k&Hwf). pose proof (wf_nmi _ _ _ _ _ _ Hwf) as Hnm.
    destruct (handle_roundtrip (table T) r Hgb Hge ltac:(by rewrite Hnm) Hrr) as [_ Hhdl].
    assert (Hidx : handle_index base (MakeEntryHdl (table T) r) = r).
    { destruct (handle_index_table (table T) (MakeEntryHdl (table T) r)) as (x&y&Hxy). rewrite Hhdl, Hb in Hxy. congruence. }
    split; [rewrite <- Hidx at 2; apply step_stored; [exact Href|by rewrite Hidx|by rewrite <- Hpd]|].
    split; [apply Hso; exact Hboth|]. intros _. exists r. split; [lia|].
    cbn [snd]. rewrite (MakeEntryHdl_word (table T) r) by (lia || by rewrite Hnm). by rewrite Hnm, Hb.
  - exists (- 1, 0), (ticks 1 n3), m. split; [reflexivity|]. split; [|split; [by apply Hso|done]]. apply step_full; [exact Href|].
    rewrite <- He. by eapply full_many.
  - exfalso. by apply Hsys.
Qed.

Lemma add_step n m u :
  store_ok mt pd base expn n m -> 0 <= u_pdn_index u ->
  exists res n' m', ipa_NATI_add_ipv4_rule hdl1 (Some u) n = Done (res, n') /\
    store_step (nat_kind pd) base expn m (AddRule u) res m' /\ store_ok mt pd base expn n' m'.
Proof using Type.
  intros Hok Hu. destruct (add_step_hdl n m u Hok Hu) as (res&n'&m'&Hrun&Hstep&Hok'&_). by exists res, n', m'.
Qed.

Lemma delete_step n m hdl :
  store_ok mt pd base expn n m -> op_allowed (nat_kind pd) base m (DeleteRule hdl) ->
  exists n' m', run_op hdl1 (DeleteRule hdl) n = Done ((0, 0), n') /\
    store_step (nat_kind pd) base expn m (DeleteRule hdl) (0, 0) m' /\ store_ok mt pd base expn n' m'.
Proof using Type.
  intros [Hmt [Hpd Hlen] [Hs Hdma] (T&Hat&Hok&Hb&He)] [r Hr]. destruct (tbl_handle mt Hmt) as (_&Hbr&Hva).
  set (n2 := ticks 1 (n <| nat_cmd := mkDmaCmd MAX_DMA_ENTRIES_FOR_DEL [] |>)). assert (Hat2 : at_table mt 0 n2 T) by exact Hat.
  destruct (handle_index_table (table T) hdl) as (x&y&Hxy). rewrite Hb in Hxy.
  destruct (del_rule_run mt 0 n2 T Hat2 Hdma eq_refl ltac:(apply Hs) m hdl _ r x y Hok Hxy Hr) as (T'&cm'&Hrun&Hok'&Hsz).
  set (n3 := put_at mt 0 T' cm' _) in Hrun.
  assert (Hdel : ipa_NATI_del_ipv4_rule hdl1 hdl n = Done (0, ticks 1 n3)).
  { unfold ipa_NATI_del_ipv4_rule, new_cmd. rewrite modify_run, Hbr, Hva. cbn [negb].
    unfold pthread_mutex_lock. rewrite call_then by done. change (truthy 0) with false. cbn iota. change (1 - 1) with 0.
    rewrite (bind_run _ _ _ _ _ Hrun). unfold pthread_mutex_unlock. by rewrite call_then by done. }
  exists (ticks 1 n3), (delete (handle_index base hdl) m). split; [unfold run_op; by rewrite (bind_run _ _ _ _ _ Hdel)|].
  split; [by eapply step_deleted|]. unfold sizes_of in Hsz. split; [done|done|done|]. exists T'.
  split; [exact (at_put mt 0 _ T Hat2 T' cm')|]. split; [done|]. split; congruence.
Qed.

Lemma op_step n m op :
  store_ok mt pd base expn n m -> op_allowed (nat_kind pd) base m op ->
  exists res n' m', run_op hdl1 op n = Done (res, n') /\ store_step (nat_kind pd) base expn m op res m' /\ store_ok mt pd base expn n' m'.
Proof using Type.
  intros Hok Hop. destruct op as [u|hdl]; [by apply add_step|].
  destruct (delete_step n m hdl Hok Hop) as (n'&m'&?&?&?). by exists (0, 0), n', m'.
Qed.

(** C3: The tables implement the abstract store: for every client that deletes
    only rules that are there, every number of its operations completes, with
    the results of a run of the abstract store, and the tables hold its rules. *)
Theorem nat_store_refines client m0 n k :
  store_ok mt pd base expn n m0 ->
  (forall h m, store_run (nat_kind pd) base expn m0 h m -> follows client h -> op_allowed (nat_kind pd) base m (client h)) ->
  exists h n' m, run_client (run_op hdl1) client k [] n = Done (h, n') /\ length h = k /\
    store_run (nat_kind pd) base expn m0 h m /\ store_ok mt pd base expn n' m.
Proof using Type.
  intros Hok Hclient. apply (client_refines _ _ _ _ op_step); [done|]. intros h m Hh Hf _. by apply Hclient.
Qed.

End Step.

(** ** Creation *)

(** C23: Creating a table in a fresh cache, with a mapping of the requested size
    and a system that reports no failure, succeeds and establishes the
    invariant of an empty store, with the new public address as first network. *)
Theorem create_table_establishes_store mt pub number n b e :
  mt = IPA_NAT_MEM_IN_DDR \/ mt = IPA_NAT_MEM_IN_SRAM -> 0 <= number <= IPA_TABLE_MAX_ENTRIES ->
  table_sizes mt number = Some (b, e) -> fresh_cache mt n -> no_failures (sys n) -> documented_dma (sys n) ->
  zlen (mmap_mem (sys n) mt).1 = b + e /\ zlen (mmap_mem (sys n) mt).2 = b + e -> table_offset (sys n) = 0 ->
  zlen (pdns n) = IPA_MAX_PDN_NUM ->
  exists n', ipa_NATI_add_ipv4_tbl mt pub number n = Done ((0, MAKE_TBL_HDL 1 mt), n') /\
    store_ok mt (pdns n') b e n' ∅ /\ public_ip <$> zget (pdns n') 0 = Some pub.
Proof.
  intros Hm Hn Hsz Hfresh Hs Hdma Hmem Hoff Hp.
  destruct (add_tbl_run mt n pub number b e Hm (fresh_unused _ _ Hfresh) Hs Hsz (sizes_good _ _ _ _ Hm Hn Hsz) Hmem Hoff)
    as (n'&T&Hrun&Hat&Hok&Hb&He&Hsys&Hpdns&_); [by intros Heq; rewrite Heq in Hp|].
  exists n'. split; [done|]. rewrite Hpdns. destruct (pdns n) as [|p l] eqn:Hpl; [done|].
  split; [|done]. split; [done|by split; [rewrite Hpdns|]|by rewrite Hsys|by exists T].
Qed.

(** A system whose calls succeed, whose hardware is as documented, and whose
    mapping has room for [k] records in each table. *)
Definition sample_system (k : nat) : ipa_system := {|
  sys_calls_of := quiet_calls 4096;
  mmap_mem := fun _ => (replicate k zero_rule, replicate k (mkIndexRule 0 0));
  table_dma := fun base cmds m => fold_left (dma_store base) cmds m;
|}.

Lemma sample_fresh k : fresh_cache IPA_NAT_MEM_IN_DDR (initial_nat (sample_system k)).
Proof. by exists zero_nat_cache, zero_table_cache. Qed.

Lemma create_table_establishes_store_witness :
  table_sizes IPA_NAT_MEM_IN_DDR 5 = Some (4, 2) /\
  exists n', ipa_NATI_add_ipv4_tbl IPA_NAT_MEM_IN_DDR 168430090 5 (initial_nat (sample_system 6))
    = Done ((0, MAKE_TBL_HDL 1 IPA_NAT_MEM_IN_DDR), n') /\
    store_ok IPA_NAT_MEM_IN_DDR (pdns n') 4 2 n' ∅ /\ public_ip <$> zget (pdns n') 0 = Some 168430090.
Proof.
  assert (Hs : table_sizes IPA_NAT_MEM_IN_DDR 5 = Some (4, 2)) by (vm_compute; reflexivity). split; [exact Hs|].
  exact (create_table_establishes_store IPA_NAT_MEM_IN_DDR 168430090 5 (initial_nat (sample_system 6)) 4 2
    (or_introl eq_refl) ltac:(unfold IPA_TABLE_MAX_ENTRIES; lia) Hs (sample_fresh 6) (fun _ => eq_refl) (fun _ _ _ _ => eq_refl)
    (conj eq_refl eq_refl) eq_refl eq_refl).
Defined.

Definition sample_user_rule (private_ip protocol : Z) : ipa_nat_ipv4_rule :=
  mkUserRule 134744072 private_ip 443 50000 40000 protocol 0 0 1 77 0 false false false false.

Definition sample_tcp_rule : ipa_nat_ipv4_rule := sample_user_rule 3232235777 IPPROTO_TCP.

Lemma sample_store :
  exists pd n, store_ok IPA_NAT_MEM_IN_DDR pd 4 2 n ∅ /\ refused pd sample_tcp_rule = false /\
    table_count IPA_NAT_MEM_IN_DDR n 1.
Proof.
  assert (Hs : table_sizes IPA_NAT_MEM_IN_DDR 5 = Some (4, 2)) by (vm_compute; reflexivity).
  destruct (add_tbl_run IPA_NAT_MEM_IN_DDR (initial_nat (sample_system 6)) 168430090 5 4 2
    (or_introl eq_refl) (fresh_unused _ _ (sample_fresh 6)) (fun _ => eq_refl) Hs eq_refl (conj eq_refl eq_refl) eq_refl ltac:(done))
    as (n'&T&_&Hat&Hok&Hb&He&Hsys&Hpdns&Hcnt).
  exists (pdns n'), n'. split; [|split; [|done]].
  - split; [by left|by rewrite Hpdns|by rewrite Hsys|by exists T].
  - unfold refused. change (u_pdn_index sample_tcp_rule) with 0. by rewrite Hpdns.
Qed.

(** A store with one rule. *)
Lemma sample_filled :
  exists pd n hdl r m, store_ok IPA_NAT_MEM_IN_DDR pd 4 2 n m /\ m !! handle_index 4 hdl = Some r.
Proof.
  destruct sample_store as (pd&n&Hok&Href&_).
  destruct (add_step IPA_NAT_MEM_IN_DDR pd 4 2 n ∅ sample_tcp_rule Hok ltac:(done)) as (res&n'&m'&_&Hstep&Hok').
  inversion Hstep as [? Hr| ? hdl r _ Hfree Hr | ? _ Hfull | ]; subst; [change (refused pd sample_tcp_rule = true) in Hr; congruence| |done].
  exists pd, n', hdl, r, (<[handle_index 4 hdl := r]> ∅). split; [exact Hok'|apply lookup_insert_eq].
Qed.

Lemma nat_store_refines_witness :
  exists pd n, store_ok IPA_NAT_MEM_IN_DDR pd 4 2 n ∅ /\
    exists h n' m, run_client (run_op (MAKE_TBL_HDL 1 IPA_NAT_MEM_IN_DDR)) (toggling_client sample_tcp_rule) 6 [] n = Done (h, n') /\ length h = 6%nat /\
      store_run (nat_kind pd) 4 2 ∅ h m /\ store_ok IPA_NAT_MEM_IN_DDR pd 4 2 n' m.
Proof.
  destruct sample_store as (pd&n&Hok&_). exists pd, n. split; [exact Hok|].
  exact (nat_store_refines IPA_NAT_MEM_IN_DDR pd 4 2 (toggling_client sample_tcp_rule) ∅ n 6 Hok
    (fun h m Hh _ => toggling_client_allowed (nat_kind pd) 4 2 sample_tcp_rule ∅ h m ltac:(done) Hh)).
Defined.

(** ** Outcomes *)

(** What becomes of the rule [u]: the value returned, the handle and the tables. *)
Inductive add_outcome (nmi : Z) (n : nat_state) (T : ipa_nat_ip4_table_cache) (m : gmap Z ipa_nat_rule) (u : ipa_nat_ipv4_rule)
    : Z -> Z -> ipa_nat_ip4_table_cache -> Prop :=
| outcome_stored r sr T' :
    m !! r = None -> stored_rule (pdns n) u = Some sr -> tables_ok nmi T' (<[r := sr]> m) ->
    add_outcome nmi n T m u 0 (MakeEntryHdl (table T) r) T'
| outcome_full T' :
    expn_table_entries (table T) <= Z.of_nat (size m) -> tables_ok nmi T' m -> add_outcome nmi n T m u (- 1) 0 T'
| outcome_not_posted T' :
    sys_ret (sys n) (sys_calls n) <> 0 -> tables_ok nmi T' m -> add_outcome nmi n T m u (- EIO) 0 T'.

(** C21: Adding an accepted rule to an open table always completes, whatever the
    system reports: the rule is stored at a free index, or - when a part of a
    table is full or the command is not taken - the rules stay as they were. *)
Theorem add_rule_outcomes nmi i n T m u r0 :
  at_table nmi i n T -> tables_ok nmi T m -> documented_dma (sys n) ->
  nat_cmd n = mkDmaCmd MAX_DMA_ENTRIES_FOR_ADD [] ->
  table_entry_copy_from_user (pdns n) zero_rule u = Some r0 -> u_protocol u <> IPAHAL_NAT_INVALID_PROTOCOL ->
  exists ret hdl T' cm' tok calls,
    add_rule_locked nmi i u n = Done ((ret, hdl), put_at nmi i T' cm' (later n tok calls)) /\
    add_outcome nmi n T m u ret hdl T'.
Proof.
  intros Hat Hok Hdma Hcmd Hr0 Hp. destruct (add_rule_run nmi i n T m u r0 Hat Hok Hdma Hcmd Hr0 Hp) as (ret&hdl&T'&cm'&tok&calls&Hrun&Hres).
  exists ret, hdl, T', cm', tok, calls. split; [done|]. destruct Hres as [r sr T' Hmr Hsr [Hok' _]|T' Hfull [Hok' _]|T' Hsys [Hok' _]].
  - by apply (outcome_stored _ _ _ _ _ r sr).
  - apply outcome_full; [by eapply full_many|done].
  - by apply outcome_not_posted.
Qed.

(** A system whose calls fail. *)
Definition failing_system (k : nat) : ipa_system :=
  let s := sample_system k in
  mkSystem (mkCalls (fun _ => 1) (hw_new s) 0 0 0 0 (mmap_addr_of s)) (mmap_mem s) (table_dma s).

(** A state in which the next command is not taken. *)
Lemma sample_tables :
  exists n T, at_table IPA_NAT_MEM_IN_DDR 0 n T /\ tables_ok IPA_NAT_MEM_IN_DDR T ∅ /\ documented_dma (sys n) /\
    nat_cmd n = mkDmaCmd MAX_DMA_ENTRIES_FOR_ADD [] /\ zlen (pdns n) = IPA_MAX_PDN_NUM /\ sys_ret (sys n) (sys_calls n) <> 0.
Proof.
  destruct sample_store as (pd&n&[_ [Hpd Hlen] _ (T&Hat&Hok&_)]&_).
  exists (n <| nat_cmd := mkDmaCmd MAX_DMA_ENTRIES_FOR_ADD [] |> <| sys := failing_system 6 |>), T.
  split; [done|]. split; [done|]. split; [done|]. split; [done|]. split; [by change (zlen (pdns n) = IPA_MAX_PDN_NUM); rewrite Hpd|done].
Qed.

Lemma add_rule_outcomes_witness :
  exists n T, tables_ok IPA_NAT_MEM_IN_DDR T ∅ /\ exists ret hdl T' cm' tok calls,
    add_rule_locked IPA_NAT_MEM_IN_DDR 0 (sample_user_rule 3232235777 IPPROTO_TCP) n
    = Done ((ret, hdl), put_at IPA_NAT_MEM_IN_DDR 0 T' cm' (later n tok calls)) /\
    add_outcome IPA_NAT_MEM_IN_DDR n T ∅ (sample_user_rule 3232235777 IPPROTO_TCP) ret hdl T'.
Proof.
  destruct sample_tables as (n&T&Hat&Hok&Hdma&Hcmd&Hlen&_). exists n, T. split; [exact Hok|].
  destruct (zget_is_Some (pdns n) 0 ltac:(rewrite Hlen; unfold IPA_MAX_PDN_NUM; lia)) as [p Hp].
  refine (add_rule_outcomes IPA_NAT_MEM_IN_DDR 0 n T ∅ (sample_user_rule 3232235777 IPPROTO_TCP) _ Hat Hok Hdma Hcmd _ ltac:(done)).
  unfold table_entry_copy_from_user. change (u_pdn_index _) with 0. rewrite Hp. reflexivity.
Defined.

(** C22: While there are fewer rules than expansion records, an accepted rule is
    stored: the interface returns success and a handle for a free index. *)
Theorem add_rule_succeeds mt pd base expn n m u :
  store_ok mt pd base expn n m -> 0 <= u_pdn_index u -> refused pd u = false -> Z.of_nat (size m) < expn ->
  exists hdl r n', ipa_NATI_add_ipv4_rule (MAKE_TBL_HDL 1 mt) (Some u) n = Done ((0, hdl), n') /\
    m !! handle_index base hdl = None /\ stored_rule pd u = Some r /\
    store_ok mt pd base expn n' (<[handle_index base hdl := r]> m).
Proof.
  intros Hok Hu Href Hroom. destruct (add_step mt pd base expn n m u Hok Hu) as (res&n'&m'&Hrun&Hstep&Hok').
  inversion Hstep as [? Hr| ? hdl r _ Hfree Hr | ? _ Hfull | ]; subst; [change (refused pd u = true) in Hr; congruence| |lia].
  by exists hdl, r, n'.
Qed.

Lemma add_rule_succeeds_witness :
  exists pd n, store_ok IPA_NAT_MEM_IN_DDR pd 4 2 n ∅ /\
    exists hdl r n', ipa_NATI_add_ipv4_rule (MAKE_TBL_HDL 1 IPA_NAT_MEM_IN_DDR) (Some sample_tcp_rule) n = Done ((0, hdl), n') /\
      (∅ : gmap Z ipa_nat_rule) !! handle_index 4 hdl = None /\ stored_rule pd sample_tcp_rule = Some r /\
      store_ok IPA_NAT_MEM_IN_DDR pd 4 2 n' (<[handle_index 4 hdl := r]> ∅).
Proof.
  destruct sample_store as (pd&n&Hok&Href&_). exists pd, n. split; [exact Hok|].
  exact (add_rule_succeeds IPA_NAT_MEM_IN_DDR pd 4 2 n ∅ sample_tcp_rule Hok ltac:(done) Href ltac:(done)).
Defined.

(** A handle whose index is outside the tables or names a record that is not
    in use. *)
Definition names_no_record (t : ipa_table ipa_nat_rule) (hdl : Z) : Prop :=
  let x := handle_index (table_entries t) hdl in
  table_entries t + expn_table_entries t <= x \/ (exists e, zget (recs t) x = Some e /\ enable e = 0).

(** Deleting by a handle whose index is outside the tables or names a
    record that is not in use is refused, and changes nothing. *)
Theorem delete_unused_refused nmi i n T m hdl :
  at_table nmi i n T -> tables_ok nmi T m -> names_no_record (table T) hdl ->
  del_rule_locked nmi i hdl n = Done (- EINVAL, n).
Proof.
  intros Hat (nch&ich&k&Hwf) Hcase. pose proof (wf_nat _ _ _ _ _ _ Hwf) as Hn. unfold names_no_record in Hcase.
  destruct (handle_index_table (table T) hdl) as (a&b&Hhdl). set (x := handle_index _ hdl) in *.
  pose proof (put_same nmi i n T Hat) as Hput. rewrite <- Hput at 1.
  unfold del_rule_locked. rewrite (get_table_then nmi i n T Hat), (wf_valid _ _ _ _ _ _ Hwf). cbn [negb].
  rewrite getM_run. cbv zeta.
  pose proof (geo_tot _ _ (tk_geo _ _ _ Hn)) as Htot.
  destruct (Z.leb_spec (tot_tbl_ents (table T)) x) as [Hge|Hlt].
  - assert (Hget : ipa_table_get_entry hdl (mkT (table T) (nat_cmd n)) = Done (inl (- EINVAL), mkT (table T) (nat_cmd n))).
    { unfold ipa_table_get_entry. rewrite gets_then, Hhdl. by apply Z.leb_le in Hge as ->. }
    erewrite (on_table_then nmi i n T Hat _ _ _ _ _ _ _ T); [|exact Hget|done|apply same_table]. by rewrite Hput.
  - destruct Hcase as [?|(e&He&Hen)]; [lia|].
    assert (Hget : ipa_table_get_entry hdl (mkT (table T) (nat_cmd n)) = Done (inr x, mkT (table T) (nat_cmd n))).
    { unfold ipa_table_get_entry. rewrite gets_then, Hhdl. by replace (_ <=? x) with false by lia. }
    erewrite (on_table_then nmi i n T Hat _ _ _ _ _ _ _ T); [|exact Hget|done|apply same_table]. cbv beta iota.
    assert (Hit : ipa_table_iterator_init (EI := entry_interface (pdns (put_at nmi i T (nat_cmd n) n))) x x (mkT (table T) (nat_cmd n))
      = Done ((- EINVAL, zero_iterator), mkT (table T) (nat_cmd n))).
    { unfold ipa_table_iterator_init. rewrite (get_rec_then _ _ x e) by done. cbn. unfold table_entry_is_valid. by rewrite Hen. }
    erewrite (on_table_then nmi i n T Hat _ _ _ _ _ _ _ T); [|exact Hit|done|apply same_table]. cbv beta iota.
    change (truthy (- EINVAL)) with true. cbn iota. by rewrite Hput.
Qed.

Lemma delete_unused_refused_witness :
  exists n T m, at_table IPA_NAT_MEM_IN_DDR 0 n T /\ tables_ok IPA_NAT_MEM_IN_DDR T m /\
    del_rule_locked IPA_NAT_MEM_IN_DDR 0 2000 n = Done (- EINVAL, n).
Proof.
  destruct sample_store as (pd&n&[_ _ _ (T&Hat&Hok&Hb&He)]&_). exists n, T, ∅. split; [exact Hat|]. split; [exact Hok|].
  assert (Hge : table_entries (table T) + expn_table_entries (table T) <= handle_index (table_entries (table T)) 2000)
    by (rewrite Hb, He; change (handle_index 4 2000) with 1000; lia).
  exact (delete_unused_refused IPA_NAT_MEM_IN_DDR 0 n T ∅ 2000 Hat Hok (or_introl Hge)).
Defined.

(** Querying a live rule gives its time stamp and changes nothing but the
    number of system calls. *)
Theorem query_timestamp_live mt pd base expn n m hdl r :
  store_ok mt pd base expn n m -> m !! handle_index base hdl = Some r ->
  exists n', ipa_NATI_query_timestamp (MAKE_TBL_HDL 1 mt) hdl n = Done ((0, Some (time_stamp r)), n') /\
    store_ok mt pd base expn n' m.
Proof.
  intros [Hmt Hpd [Hs Hdma] (T&Hat&Hok&Hb&He)] Hr. destruct (tbl_handle mt Hmt) as (_&Hbr&Hva).
  pose proof Hok as (nch&ich&k&Hwf). pose proof (wf_nat _ _ _ _ _ _ Hwf) as Hn.
  destruct (live_rule _ _ _ _ _ _ _ _ Hwf Hr) as (e&a&b&_&_&_&Hrec&_&Hre&_). pose proof (rec_range (tk_geo _ _ _ Hn) _ _ Hrec) as Hrr.
  unfold ipa_NATI_query_timestamp. rewrite Hbr, Hva. cbn [negb]. unfold pthread_mutex_lock. rewrite call_then by done.
  change (truthy 0) with false. cbn iota. change (1 - 1) with 0. set (n1 := ticks 1 n).
  assert (Hat1 : at_table mt 0 n1 T) by exact Hat. pose proof (put_same mt 0 n1 T Hat1) as Hput. set (cm := nat_cmd n1) in Hput.
  assert (Hget : ipa_table_get_entry hdl (mkT (table T) cm) = Done (inr (handle_index base hdl), mkT (table T) cm)).
  { unfold ipa_table_get_entry. rewrite gets_then. destruct (handle_index_table (table T) hdl) as (x&y&->). rewrite Hb.
    rewrite (geo_tot _ _ (tk_geo _ _ _ Hn)). by replace (_ <=? handle_index base hdl) with false by lia. }
  assert (Hgr : get_rec (handle_index base hdl) (mkT (table T) cm) = Done (e, mkT (table T) cm)) by (unfold get_rec; cbn [tbl]; by rewrite Hrec).
  exists (ticks 1 n1). split; [|split; [done|done|done|by exists T]].
  rewrite <- Hput at 1. rewrite (get_table_then mt 0 n1 T Hat1).
  rewrite (bind_run _ _ _ (0, Some (time_stamp e)) n1); [unfold pthread_mutex_unlock; rewrite call_then by done; by rewrite Hre|].
  rewrite (wf_valid _ _ _ _ _ _ Hwf). cbn [negb].
  erewrite (on_table_then mt 0 n1 T Hat1 _ _ _ _ _ _ _ T); [|exact Hget|done|apply same_table]. cbv beta iota.
  erewrite (on_table_then mt 0 n1 T Hat1 _ _ _ _ _ _ _ T); [|exact Hgr|done|apply same_table]. by rewrite Hput.
Qed.

Lemma query_timestamp_live_witness :
  exists pd n hdl r m, store_ok IPA_NAT_MEM_IN_DDR pd 4 2 n m /\ m !! handle_index 4 hdl = Some r /\
    exists n', ipa_NATI_query_timestamp (MAKE_TBL_HDL 1 IPA_NAT_MEM_IN_DDR) hdl n = Done ((0, Some (time_stamp r)), n') /\
      store_ok IPA_NAT_MEM_IN_DDR pd 4 2 n' m.
Proof.
  destruct sample_filled as (pd&n&hdl&r&m&Hok&Hr). exists pd, n, hdl, r, m. split; [exact Hok|]. split; [exact Hr|].
  exact (query_timestamp_live IPA_NAT_MEM_IN_DDR pd 4 2 n m hdl r Hok Hr).
Defined.
