(* ===== verification/IpaCksum.v ===== *)
(** * Checksum differences

    A rule carries what the hardware adds to the checksum of a header when it
    replaces the private address (and port) by the public one.  The reference
    is the one's complement sum of the words of a header: the difference makes
    the sum of the rewritten header the sum of the old one plus the difference,
    modulo 65535. *)

From S2P Require Import Prelude IpaSystem IpaNat.

Local Open Scope Z_scope.

(** ** The reference *)

(** The sum of the words of a header; checksums are its value modulo 65535. *)
Definition header_sum (words : list Z) : Z := fold_right Z.add 0 words.

(** The words of an address. *)
Definition address_words (a : Z) : list Z := [Z.land a 65535; Z.shiftr a 16].

(** Two headers have the checksums of each other but for the difference [d]. *)
Definition rewrites_by (d : Z) (old new : list Z) : Prop := forall before after,
  header_sum (before ++ new ++ after) mod 65535 = (header_sum (before ++ old ++ after) + d) mod 65535.

Lemma header_sum_app l1 l2 : header_sum (l1 ++ l2) = header_sum l1 + header_sum l2.
Proof. unfold header_sum. induction l1 as [|x l1 IH]; cbn; [done|]. rewrite IH. lia. Qed.

Lemma rewrites_by_sum d old new k : header_sum new = header_sum old + d + 65535 * k -> rewrites_by d old new.
Proof.
  intros H before after. rewrite !header_sum_app, H.
  replace (_ + (_ + _)) with (header_sum before + (header_sum old + header_sum after) + d + k * 65535) by lia.
  apply Z_mod_plus_full.
Qed.

(** ** The steps *)

Lemma land_word a : Z.land a 65535 = a mod 65536.
Proof. apply (Z.land_ones a 16). lia. Qed.

Lemma shiftr_word a : Z.shiftr a 16 = a / 65536.
Proof. apply Z.shiftr_div_pow2. lia. Qed.

(** Adding a word keeps the sum a word, modulo 65535. *)
Lemma carry16_word a b :
  is_word 16 a -> is_word 16 b -> is_word 16 (carry16 (a + b)) /\ exists k, a + b = carry16 (a + b) + 65535 * k.
Proof.
  unfold is_word, carry16. change (2 ^ 16) with 65536. intros Ha Hb.
  rewrite shiftr_word, land_word. destruct (truthy ((a + b) / 65536)) eqn:Hc.
  - apply truthy_true in Hc.
    assert (H1 : (a + b) / 65536 = 1) by (Z.to_euclidean_division_equations; lia).
    pose proof (Z_div_mod_eq_full (a + b) 65536).
    pose proof (Z.mod_pos_bound (a + b) 65536). split; [|exists 1]; lia.
  - apply truthy_false in Hc. pose proof (Z_div_mod_eq_full (a + b) 65536).
    pose proof (Z.mod_pos_bound (a + b) 65536). split; [|exists 0]; lia.
Qed.

Lemma address_parts a :
  is_word 32 a -> is_word 16 (Z.land a 65535) /\ is_word 16 (Z.shiftr a 16) /\ header_sum (address_words a) = Z.land a 65535 + Z.shiftr a 16.
Proof.
  unfold is_word. change (2 ^ 16) with 65536. change (2 ^ 32) with 4294967296. intros Ha.
  split; [|split; [|unfold header_sum, address_words; cbn [fold_right]; lia]]; rewrite ?land_word, ?shiftr_word; Z.to_euclidean_division_equations; lia.
Qed.

(** The complement of an address has the complements of its words. *)
Lemma wnot_parts a :
  is_word 32 a -> is_word 32 (wnot 32 a) /\ Z.land (wnot 32 a) 65535 = 65535 - Z.land a 65535 /\
  Z.shiftr (wnot 32 a) 16 = 65535 - Z.shiftr a 16.
Proof.
  unfold is_word, wnot, wrap, Z.lnot. change (2 ^ 32) with 4294967296. intros Ha.
  replace (Z.pred (- a) mod 4294967296) with (4294967295 - a).
  - split; [lia|]. rewrite !land_word, !shiftr_word. split; Z.to_euclidean_division_equations; lia.
  - apply (Z.mod_unique _ _ (- 1)); lia.
Qed.

Lemma wnot_word a : is_word 16 a -> wnot 16 a = 65535 - a /\ is_word 16 (wnot 16 a).
Proof.
  unfold is_word, wnot, wrap, Z.lnot. change (2 ^ 16) with 65536. intros Ha.
  replace (Z.pred (- a) mod 65536) with (65535 - a); [lia|]. apply (Z.mod_unique _ _ (- 1)); lia.
Qed.

(** ** The differences *)

(** The difference for the IP header is the one's complement difference of
    the addresses: a header in which the public address takes the place of the
    private one has the old checksum plus the difference. *)
Theorem ip_cksum_difference pub priv :
  is_word 32 pub -> is_word 32 priv ->
  is_word 16 (ipa_nati_calc_ip_cksum pub priv) /\
  rewrites_by (ipa_nati_calc_ip_cksum pub priv) (address_words priv) (address_words pub).
Proof.
  intros Hp Hv. destruct (address_parts pub Hp) as (Hp1&Hp2&Hps). destruct (address_parts priv Hv) as (_&_&Hvs).
  destruct (wnot_parts priv Hv) as (Hn&Hn1&Hn2). destruct (address_parts _ Hn) as (Hw1&Hw2&_).
  destruct (carry16_word _ _ Hp1 Hp2) as (Ha&k1&E1). destruct (carry16_word _ _ Ha Hw1) as (Hb&k2&E2).
  destruct (carry16_word _ _ Hb Hw2) as (Hc&k3&E3).
  unfold ipa_nati_calc_ip_cksum. cbv zeta. rewrite (wrap_small 16 _ Hc). split; [exact Hc|].
  apply (rewrites_by_sum _ _ _ (k1 + k2 + k3 - 2)). rewrite Hps, Hvs. lia.
Qed.

Lemma ip_cksum_difference_witness :
  is_word 16 (ipa_nati_calc_ip_cksum 168430090 3232235777) /\
  rewrites_by (ipa_nati_calc_ip_cksum 168430090 3232235777) (address_words 3232235777) (address_words 168430090).
Proof. apply (ip_cksum_difference 168430090 3232235777); split; lia. Defined.

(** C27: The difference for the TCP or UDP header covers the addresses of the
    pseudo header and the ports. *)
Theorem tcp_udp_cksum_difference pub pub_port priv priv_port :
  is_word 32 pub -> is_word 16 pub_port -> is_word 32 priv -> is_word 16 priv_port ->
  is_word 16 (ipa_nati_calc_tcp_udp_cksum pub pub_port priv priv_port) /\
  rewrites_by (ipa_nati_calc_tcp_udp_cksum pub pub_port priv priv_port)
    (address_words priv ++ [priv_port]) (address_words pub ++ [pub_port]).
Proof.
  intros Hp Hpp Hv Hvp. destruct (address_parts pub Hp) as (Hp1&Hp2&Hps). destruct (address_parts priv Hv) as (_&_&Hvs).
  destruct (wnot_parts priv Hv) as (Hn&Hn1&Hn2). destruct (address_parts _ Hn) as (Hw1&Hw2&_).
  destruct (wnot_word priv_port Hvp) as [Hnp Hwp].
  destruct (carry16_word _ _ Hp1 Hp2) as (Ha&k1&E1). destruct (carry16_word _ _ Ha Hpp) as (Hb&k2&E2).
  destruct (carry16_word _ _ Hb Hw1) as (Hc&k3&E3). destruct (carry16_word _ _ Hc Hw2) as (Hd&k4&E4).
  destruct (carry16_word _ _ Hd Hwp) as (He&k5&E5).
  unfold ipa_nati_calc_tcp_udp_cksum. cbv zeta. rewrite (wrap_small 16 _ He). split; [exact He|].
  assert (Hone : forall x, header_sum [x] = x) by (intros x; unfold header_sum; cbn; lia).
  apply (rewrites_by_sum _ _ _ (k1 + k2 + k3 + k4 + k5 - 3)). rewrite !header_sum_app, Hps, Hvs, !Hone. lia.
Qed.

Lemma tcp_udp_cksum_difference_witness :
  rewrites_by (ipa_nati_calc_tcp_udp_cksum 168430090 40000 3232235777 50000)
    (address_words 3232235777 ++ [50000]) (address_words 168430090 ++ [40000]).
Proof. apply (tcp_udp_cksum_difference 168430090 40000 3232235777 50000); split; lia. Defined.
