(* ===== verification/IpaWalk.v ===== *)
(** * Walking the tables

    The walk over a table against its reference, a visit of the slots in use in
    the order of their indexes; and what the walk over the translation table of
    a store visits. *)

From stdpp Require Import gmap.
From S2P Require Import Prelude IpaChain IpaTable IpaTableSpec IpaTableSettle IpaSystem IpaNat IpaNatSpec IpaRules IpaDelete IpaSize IpaCreate IpaStoreSpec IpaStore.

Local Open Scope Z_scope.

(** ** The reference *)

Section Visit.
Context {E U : Type} `{EI : ipa_table_entry_interface E U}.

Definition slot_used (t : ipa_table E) (i : Z) : bool :=
  match zget (recs t) i with Some e => entry_is_valid e | None => false end.

(** The slots a walk from [start] calls back for. *)
Definition called_slots (when2cb : When2Callback) (t : ipa_table E) (start : Z) : list Z :=
  base.filter (fun i => Bool.eqb (slot_used t i) (match when2cb with WHEN_SLOT_FILLED => true | WHEN_SLOT_EMPTY => false end) = true)
    (seqZ start (table_entries t + expn_table_entries t - start)).

(** The meta data of a slot, when the table has any. *)
Definition meta_slot (t : ipa_table E) (i : Z) : option Z :=
  if (table_entries t <=? i) && bool_decide (meta t <> None) then Some (i - table_entries t) else None.

Section St.
Context {St : Type} (table : St -> ipa_table E).

(** The calls of [cb] for the slots [l], up to the first that is not 0. *)
Fixpoint visit (cb : ipa_table_walk_cb (St := St)) (t : ipa_table E) (l : list Z) : M St Z :=
  match l with
  | [] => mret 0
  | i :: l' =>
      ret ← cb (MakeEntryHdl t i) i i (meta_slot t i);
      if truthy ret then mret ret else visit cb t l'
  end.

(** The callback leaves the table alone. *)
Definition keeps_table (cb : ipa_table_walk_cb (St := St)) : Prop := forall h p i m, keeps (same table) (cb h p i m).

Lemma walk_loop_visit when2cb cb n : keeps_table cb -> forall i fuel s,
  let tot := table_entries (table s) + expn_table_entries (table s) in
  i + Z.of_nat n = tot -> 0 <= i -> tot < 65536 -> zlen (recs (table s)) = tot -> (n <= fuel)%nat ->
  walk_loop table fuel i i tot when2cb cb s = visit cb (table s) (called_slots when2cb (table s) i) s.
Proof using Type.
  intros Hcb. induction n as [|n IH]; intros i fuel s tot Hi Hpos Htot Hlen Hf.
  - unfold called_slots. fold tot. replace (tot - i) with 0 by lia. change (seqZ i 0) with (@nil Z).
    destruct fuel; cbn [walk_loop]; by replace (i <? tot) with false by lia.
  - destruct fuel as [|fuel]; [lia|]. cbn [walk_loop]. replace (i <? tot) with true by lia. cbn [negb].
    change ((gets table ≫= ?k) s) with (k (table s) s). cbv beta.
    destruct (zget_is_Some (recs (table s)) i ltac:(lia)) as [e He]. rewrite (liftO_run _ _ _ _ e) by done. cbv zeta.
    fold (meta_slot (table s) i). unfold called_slots. fold tot. rewrite (seqZ_cons i) by lia.
    replace (Z.succ i) with (i + 1) by lia. replace (Z.pred (tot - i)) with (tot - (i + 1)) by lia. rewrite filter_cons.
    assert (Hu : slot_used (table s) i = entry_is_valid e) by (unfold slot_used; by rewrite He).
    assert (Hw : (match when2cb with WHEN_SLOT_FILLED => entry_is_valid e | WHEN_SLOT_EMPTY => negb (entry_is_valid e) end)
      = Bool.eqb (slot_used (table s) i) (match when2cb with WHEN_SLOT_FILLED => true | WHEN_SLOT_EMPTY => false end))
      by (rewrite Hu; by destruct when2cb, (entry_is_valid e)).
    rewrite Hw, (wrap_small 16 (i + 1)) by (unfold is_word; lia).
    assert (Hrest : forall s', table s' = table s ->
      walk_loop table fuel (i + 1) (i + 1) tot when2cb cb s' = visit cb (table s) (called_slots when2cb (table s) (i + 1)) s').
    { intros s' Hs'. rewrite <- Hs'. assert (Ht' : tot = table_entries (table s') + expn_table_entries (table s')) by (by rewrite Hs').
      rewrite Ht'. apply IH; rewrite <- ?Ht', ?Hs'; lia. }
    unfold called_slots in Hrest. fold tot in Hrest.
    destruct (Bool.eqb (slot_used (table s) i) _); [rewrite decide_True by done|rewrite decide_False by done].
    + cbn [visit]. unfold mbind, M_bind.
      destruct (cb (MakeEntryHdl (table s) i) i i (meta_slot (table s) i) s) as [[ret s']|f] eqn:Hrun; [|done].
      destruct (truthy ret); [done|]. apply Hrest. exact (Hcb _ _ _ _ _ _ _ Hrun).
    + rewrite ret_run. change (truthy 0) with false. cbn iota. by apply Hrest.
Qed.

Lemma walk_visit start when2cb cb s :
  keeps_table cb -> 0 <= start -> let tot := table_entries (table s) + expn_table_entries (table s) in
  tot < 65536 -> zlen (recs (table s)) = tot ->
  ipa_table_walk table start when2cb cb s
  = if tot <=? start then Done (- EINVAL, s) else visit cb (table s) (called_slots when2cb (table s) start) s.
Proof using Type.
  intros Hcb Hs tot Htot Hlen. unfold ipa_table_walk. change ((gets table ≫= ?k) s) with (k (table s) s). cbv beta zeta.
  fold tot. destruct (Z.leb_spec tot start); [done|]. apply (walk_loop_visit when2cb cb (Z.to_nat (tot - start)) Hcb); fold tot; lia.
Qed.

(** C24: A walk calls back for exactly the slots that are in use (or empty), in
    the order of their indexes, until a call returns something other than 0:
    it is the visit of the reference, faults of the callback included. *)
Theorem table_walk_is_visit start when2cb cb s :
  keeps_table cb -> 0 <= start -> let tot := table_entries (table s) + expn_table_entries (table s) in
  tot < 65536 -> zlen (recs (table s)) = tot ->
  ipa_table_walk table start when2cb cb s
  = if tot <=? start then Done (- EINVAL, s) else visit cb (table s) (called_slots when2cb (table s) start) s.
Proof using Type. apply walk_visit. Qed.

End St.
End Visit.

(** A table with two records, the second in use. *)
Definition sample_index_table : ipa_table ipa_nat_indx_tbl_rule :=
  (ipa_table_init 0 4 (Some [0]) 2) <| table_entries := 2 |> <| expn_table_entries := 1 |>
    <| recs := [mkIndexRule 0 0; mkIndexRule 7 2; mkIndexRule 9 0] |>.

Lemma table_walk_is_visit_witness :
  ipa_table_walk (EI := index_entry_interface) (fun s : ipa_table ipa_nat_indx_tbl_rule * list Z => s.1) 0 WHEN_SLOT_FILLED
    (fun hdl _ _ _ s => Done (0, (s.1, s.2 ++ [hdl]))) (sample_index_table, [])
  = Done (0, (sample_index_table, [2; 1])).
Proof.
  rewrite (table_walk_is_visit (EI := index_entry_interface) (fun s : ipa_table ipa_nat_indx_tbl_rule * list Z => s.1) 0 WHEN_SLOT_FILLED
    (fun hdl _ _ _ s => Done (0, (s.1, s.2 ++ [hdl]))) (sample_index_table, [])).
  - vm_compute. reflexivity.
  - intros h p i m s r s' [= <- <-]. reflexivity.
  - lia.
  - reflexivity.
  - reflexivity.
Defined.

(** ** The translation table of a store *)

(** The slots in use hold the rules, and the heads that were deleted but are
    kept for the records behind them. *)
Lemma used_rules mt T m pd :
  tables_ok mt T m ->
  let l := called_slots (EI := entry_interface pd) WHEN_SLOT_FILLED (table T) 0 in
  NoDup l /\ (forall i r, m !! i = Some r -> i ∈ l) /\
  forall i, i ∈ l -> (exists r, m !! i = Some r) \/
    exists e, zget (recs (table T)) i = Some e /\ protocol e = IPAHAL_NAT_INVALID_PROTOCOL.
Proof.
  intros (nch&ich&k&Hwf) l. pose proof (wf_nat _ _ _ _ _ _ Hwf) as Hn. pose proof (tk_geo _ _ _ Hn) as Hg.
  split; [apply NoDup_filter, NoDup_seqZ|]. split.
  - intros i r Hi. destruct (live_rule _ _ _ _ _ _ _ _ Hwf Hi) as (e&a&b&_&_&_&He&Hl&_).
    pose proof (rec_range Hg _ _ He) as Hr. apply list_elem_of_filter. split; [|apply elem_of_seqZ; lia].
    unfold slot_used. rewrite He. apply andb_true_iff in Hl as [Hv _]. cbn. unfold table_entry_is_valid. by rewrite Hv.
  - intros i [Hu Hi]%list_elem_of_filter. unfold slot_used in Hu. destruct (zget (recs (table T)) i) as [e|] eqn:He; [|done].
    cbn in Hu. unfold table_entry_is_valid in Hu. destruct (truthy (enable e)) eqn:Hen; [|done].
    destruct (Z.eqb_spec (protocol e) IPAHAL_NAT_INVALID_PROTOCOL) as [Hp|Hp]; [right; by exists e|left].
    eexists. apply (wf_rep _ _ _ _ _ _ Hwf). exists (nat_data e). split; [unfold data_at; by rewrite He|]. split; [|done].
    unfold live. change (enable (nat_data e)) with (enable e). change (protocol (nat_data e)) with (protocol e).
    rewrite Hen. by apply Z.eqb_neq in Hp as ->.
Qed.

(** The walk as the interface runs it, on a lock that is taken. *)
Section Walk.
Context {St : Type} `{HN : HasNat St}.
Context (mt : Z) (pd : list ipa_nat_pdn_entry) (base expn : Z).

Lemma walk_store_run (s : St) m (cb : Z * Z -> ipa_table_walk_cb) :
  store_ok mt pd base expn (nat_of s) m -> table_count mt (nat_of s) 1 ->
  keeps_table (fun s => table (table_of mt 0 (nat_of s))) (cb (mt, 0)) ->
  exists T, at_table mt 0 (nat_of s) T /\ tables_ok mt T m /\
    ipa_NATI_walk_ipv4_tbl (MAKE_TBL_HDL 1 mt) USE_NAT_TABLE (Some cb) s
    = (ret ← visit (cb (mt, 0)) (table T) (called_slots (EI := entry_interface pd) WHEN_SLOT_FILLED (table T) 0);
       unlock ← in_nat pthread_mutex_unlock;
       mret (if truthy unlock then (if truthy ret then ret else - EPERM) else ret)) (set_nat (ticks 1 (nat_of s)) s).
Proof using Type.
  intros [Hmt [Hpd Hlen] [Hs Hdma] (T&Hat&Hok&Hb&He)] (c&Hc&Hcnt) Hcb. destruct (tbl_handle mt Hmt) as (Hv&Hbr&Hva).
  exists T. split; [done|]. split; [done|]. pose proof Hok as (nch&ich&k&Hwf). pose proof (tk_geo _ _ _ (wf_nat _ _ _ _ _ _ Hwf)) as Hg.
  pose proof (geo_base _ _ Hg). pose proof (geo_expn _ _ Hg).
  unfold ipa_NATI_walk_ipv4_tbl. rewrite Hv. cbn [negb]. unfold pthread_mutex_lock. rewrite in_call_then by done.
  change (truthy 0) with false. cbn iota. rewrite Hbr, Hva. cbn [negb]. change (1 - 1) with 0.
  set (n1 := ticks 1 (nat_of s)). set (s1 := set_nat n1 s).
  assert (Hc1 : zget (ipv4_nat_cache n1) mt = Some c) by exact Hc. assert (Hat1 : at_table mt 0 n1 T) by exact Hat.
  assert (Hto : table_of mt 0 n1 = T).
  { destruct Hat1 as (c'&d&Hc'&_&HT). unfold table_of. rewrite Hc'. cbn. by rewrite HT. }
  assert (Hs1 : nat_of s1 = n1) by apply nat_set.
  assert (Hw : (c ← in_nat (get_cache mt); if negb (truthy (table_cnt c)) then mret (- EINVAL) else walk_which mt 0 USE_NAT_TABLE cb) s1
    = visit (cb (mt, 0)) (table T) (called_slots (EI := entry_interface pd) WHEN_SLOT_FILLED (table T) 0) s1).
  { assert (Hback : set_nat n1 s1 = s1) by (unfold s1; by rewrite set_set).
    rewrite (in_nat_then (get_cache mt) s1 c n1), Hback by (rewrite Hs1; unfold get_cache; by rewrite Hc1).
    rewrite Hcnt. change (truthy 1) with true. cbn [negb].
    unfold walk_which. rewrite getM_run, Hs1. change (pdns n1) with (pdns (nat_of s)). rewrite Hpd.
    assert (Hget : get_table mt 0 n1 = Done (T, n1)).
    { rewrite <- (put_same mt 0 n1 T Hat1). pose proof (get_table_then mt 0 n1 T Hat1 T (nat_cmd n1) mret) as Hg'.
      unfold mbind, M_bind in Hg'. destruct (get_table mt 0 _) as [[a n2]|]; [by injection Hg' as -> ->|done]. }
    rewrite (in_nat_then _ s1 T n1), Hback by (by rewrite Hs1). cbv zeta.
    rewrite (walk_visit (EI := entry_interface pd) (fun s => table (table_of mt 0 (nat_of s))) 0 WHEN_SLOT_FILLED (cb (mt, 0)) s1 Hcb).
    - rewrite Hs1, Hto. by replace (_ <=? 0) with false by lia.
    - lia.
    - rewrite Hs1, Hto. lia.
    - rewrite Hs1, Hto. apply (geo_recs _ _ Hg). }
  by apply bind_cong.
Qed.

(** Walking the translation table of a store visits every rule exactly
    once; the only other records it shows are heads whose rule was deleted,
    which have the invalid protocol. *)
Theorem walk_visits_rules (s : St) m (cb : Z * Z -> ipa_table_walk_cb) :
  store_ok mt pd base expn (nat_of s) m -> table_count mt (nat_of s) 1 ->
  keeps_table (fun s => table (table_of mt 0 (nat_of s))) (cb (mt, 0)) ->
  exists t l, NoDup l /\ (forall i r, m !! i = Some r -> i ∈ l) /\
    (forall i, i ∈ l -> (exists r, m !! i = Some r) \/
       exists e, zget (recs t) i = Some e /\ protocol e = IPAHAL_NAT_INVALID_PROTOCOL) /\
    ipa_NATI_walk_ipv4_tbl (MAKE_TBL_HDL 1 mt) USE_NAT_TABLE (Some cb) s
    = (ret ← visit (cb (mt, 0)) t l; unlock ← in_nat pthread_mutex_unlock;
       mret (if truthy unlock then (if truthy ret then ret else - EPERM) else ret)) (set_nat (ticks 1 (nat_of s)) s).
Proof using Type.
  intros Hok Hcnt Hcb. destruct (walk_store_run s m cb Hok Hcnt Hcb) as (T&_&Hok'&Hrun).
  destruct (used_rules mt T m pd Hok') as (Hnd&Hm&Hl). by exists (table T), (called_slots (EI := entry_interface pd) WHEN_SLOT_FILLED (table T) 0).
Qed.

End Walk.

Lemma walk_visits_rules_witness :
  exists pd n, store_ok IPA_NAT_MEM_IN_DDR pd 4 2 n ∅ /\
    exists t l, NoDup l /\ (forall i r, (∅ : gmap Z ipa_nat_rule) !! i = Some r -> i ∈ l) /\
      (forall i, i ∈ l -> (exists r, (∅ : gmap Z ipa_nat_rule) !! i = Some r) \/
         exists e, zget (recs t) i = Some e /\ protocol e = IPAHAL_NAT_INVALID_PROTOCOL) /\
      ipa_NATI_walk_ipv4_tbl (MAKE_TBL_HDL 1 IPA_NAT_MEM_IN_DDR) USE_NAT_TABLE (Some (fun _ _ _ i _ => mret i)) n
      = (ret ← visit (fun _ _ i _ => mret i) t l; unlock ← in_nat pthread_mutex_unlock;
         mret (if truthy unlock then (if truthy ret then ret else - EPERM) else ret)) (ticks 1 n).
Proof.
  destruct sample_store as (pd&n&Hok&_&Hcnt). exists pd, n. split; [exact Hok|].
  refine (walk_visits_rules IPA_NAT_MEM_IN_DDR pd 4 2 n ∅ (fun _ _ _ i _ => mret i) Hok Hcnt _).
  intros h p i k s r s' [= _ <-]. reflexivity.
Defined.
