(* ===== verification/IpaLife.v ===== *)
(** * Clearing and deleting a table

    Clearing a table empties its store; deleting it leaves the cache ready for
    another creation. *)

From stdpp Require Import gmap.
From S2P Require Import Prelude IpaChain IpaTable IpaTableSpec IpaTableSettle IpaSystem IpaNat IpaNatSpec IpaRules IpaDelete IpaSize IpaCreate IpaStoreSpec IpaStore.

Local Open Scope Z_scope.

(** ** A cleared table *)

Definition cleared {E} (z : E) (t : ipa_table E) : ipa_table E :=
  zero_counts (t <| recs := replicate (Z.to_nat (table_entries t + expn_table_entries t)) z |>).

Lemma cleared_ok {E U} `{EL : ipa_entry_laws E U} size t ch c :
  table_ok size t ch ->
  ipa_table_reset (mkT t c) = Done (tt, mkT (t <| recs := replicate (Z.to_nat (table_entries t + expn_table_entries t)) entry_zero |>) c) /\
  table_ok size (cleared entry_zero t) ∅.
Proof.
  intros Ht. pose proof (tk_geo _ _ _ Ht) as Hg. pose proof (geo_base _ _ Hg). pose proof (geo_expn _ _ Hg). split.
  - pose proof (geo_pos _ _ Hg). pose proof (geo_size _ _ Hg). pose proof (geo_addr _ _ Hg).
    apply reset_run; lia || congruence || apply (geo_recs _ _ Hg).
  - apply blank_ok; [|done..]. destruct Hg as [[] Hm]. split; [|done]. split; try done.
    cbn. unfold zlen. rewrite length_replicate. lia.
Qed.

Section Clear.
Context (mt : Z) (n : nat_state) (T : ipa_nat_ip4_table_cache) (Hat : at_table mt 0 n T).
Abbreviation put := (put_at mt 0).

Definition cleared_tables : ipa_nat_ip4_table_cache :=
  T <| table ::= cleared zero_rule |> <| index_table ::= cleared (mkIndexRule 0 0) |>.

Lemma cleared_tables_ok m : tables_ok mt T m -> tables_ok mt cleared_tables ∅.
Proof using Type.
  intros (nch&ich&k&[Hv Hn Hx Hb He [Hh Hhx] Hnm Hp Hd Hr]).
  destruct (cleared_ok (EL := nat_laws []) _ _ _ (mkDmaCmd 0 []) Hn) as [_ Hn'].
  destruct (cleared_ok (EL := index_laws) _ _ _ (mkDmaCmd 0 []) Hx) as [_ Hx'].
  apply (blank_tables_ok _ cleared_tables _ _ (table_entries (table T)) (expn_table_entries (table T)) k Hv Hn' Hx'); try done.
  change (replicate (Z.to_nat (table_entries (index_table T) + expn_table_entries (index_table T))) (mkIndexRule 0 0)
    = replicate (Z.to_nat (table_entries (table T) + expn_table_entries (table T))) (mkIndexRule 0 0)). by rewrite Hb, He.
Qed.

Lemma upd_then {B} T1 cm f (k : unit -> NM B) : (upd_table mt 0 f ≫= k) (put T1 cm n) = k tt (put (f T1) cm n).
Proof using Hat. apply bind_run. unfold upd_table. rewrite (get_table_then mt 0 n T Hat). apply (put_table_run mt 0 n T Hat). Qed.

Lemma clear_tables_run m :
  tables_ok mt T m ->
  (n ← getM;
   on_table mt 0 (ipa_table_reset (EI := entry_interface (pdns n))) ;;
   upd_table mt 0 (fun t => t <| table ::= zero_counts |>) ;;
   on_index mt 0 (ipa_table_reset (EI := index_entry_interface)) ;;
   upd_table mt 0 (fun t => t <| index_table ::= zero_counts |>) ;; mret 0) n
  = Done (0, put cleared_tables (nat_cmd n) n).
Proof using Hat.
  intros (nch&ich&k&Hwf). rewrite <- (put_same mt 0 n T Hat) at 1. rewrite getM_run.
  change (pdns (put T (nat_cmd n) n)) with (pdns n).
  destruct (cleared_ok (EL := nat_laws (pdns n)) _ _ _ (nat_cmd n) (table_ok_pdns [] _ _ _ _ (wf_nat _ _ _ _ _ _ Hwf))) as [Hn _].
  destruct (cleared_ok (EL := index_laws) _ _ _ (nat_cmd n) (wf_index _ _ _ _ _ _ Hwf)) as [Hx _].
  erewrite (on_table_then mt 0 n T Hat); [|exact Hn|done|done]. cbv beta. rewrite upd_then.
  erewrite (on_index_then mt 0 n T Hat); [|exact Hx|done|done]. cbv beta. rewrite upd_then. done.
Qed.

End Clear.

Lemma clear_run mt pd base expn n m :
  store_ok mt pd base expn n m -> table_count mt n 1 ->
  exists T n', at_table mt 0 n T /\ ipa_NATI_clear_ipv4_tbl (MAKE_TBL_HDL 1 mt) n = Done (0, n') /\
    at_table mt 0 n' (cleared_tables T) /\ store_ok mt pd base expn n' ∅.
Proof.
  intros [Hmt Hpd [Hs Hdma] (T&Hat&Hok&Hb&He)] (c&Hc&Hcnt). destruct (tbl_handle mt Hmt) as (_&Hbr&Hva).
  unfold ipa_NATI_clear_ipv4_tbl. rewrite Hbr, Hva. cbn [negb]. unfold pthread_mutex_lock. rewrite call_then by done.
  change (truthy 0) with false. cbn iota. change (1 - 1) with 0. set (n1 := ticks 1 n).
  assert (Hat1 : at_table mt 0 n1 T) by exact Hat. rewrite (cache_then mt c) by done. rewrite Hcnt. change (truthy 1) with true. cbn [negb].
  rewrite (bind_run _ _ _ _ _ (clear_tables_run mt n1 T Hat1 m Hok)). set (n2 := put_at _ _ _ _ _).
  assert (Hat2 : at_table mt 0 (ticks 1 n2) (cleared_tables T)) by exact (at_put mt 0 n1 T Hat1 _ _).
  exists T, (ticks 1 n2). split; [done|]. split; [unfold pthread_mutex_unlock; by rewrite call_then|].
  split; [done|]. split; [done|done|done|]. exists (cleared_tables T). split; [done|].
  split; [by eapply cleared_tables_ok|done].
Qed.

(** Clearing an open table empties its store; the sizes stay, and what the
    next rules find is the state of a new table. *)
Theorem clear_empties_store mt pd base expn n m :
  store_ok mt pd base expn n m -> table_count mt n 1 ->
  exists T n', at_table mt 0 n T /\ ipa_NATI_clear_ipv4_tbl (MAKE_TBL_HDL 1 mt) n = Done (0, n') /\
    at_table mt 0 n' (cleared_tables T) /\ store_ok mt pd base expn n' ∅.
Proof. apply clear_run. Qed.

Lemma clear_empties_store_witness :
  exists pd n n', store_ok IPA_NAT_MEM_IN_DDR pd 4 2 n ∅ /\
    ipa_NATI_clear_ipv4_tbl (MAKE_TBL_HDL 1 IPA_NAT_MEM_IN_DDR) n = Done (0, n') /\ store_ok IPA_NAT_MEM_IN_DDR pd 4 2 n' ∅.
Proof.
  destruct sample_store as (pd&n&Hok&_&Hcnt).
  destruct (clear_empties_store IPA_NAT_MEM_IN_DDR pd 4 2 n ∅ Hok Hcnt) as (T&n'&_&Hrun&_&Hok').
  exists pd, n, n'. exact (conj Hok (conj Hrun Hok')).
Defined.

(** ** Deleting a table *)

Lemma destroy_table_run mt n T cm :
  at_table mt 0 n T -> valid (mem_desc T) = true -> no_failures (sys n) ->
  ipa_nati_destroy_table mt 0 (put_at mt 0 T cm n) = Done (0, put_at mt 0 zero_table_cache cm (ticks 1 n)).
Proof.
  intros Hat Hv Hs. assert (Hat2 : at_table mt 0 (ticks 1 n) T) by exact Hat.
  unfold ipa_nati_destroy_table. rewrite (get_table_then mt 0 n T Hat).
  rewrite (bind_run _ _ _ (0, (mem_desc T) <| valid := false |>) (put_at mt 0 T cm (ticks 1 n))).
  - cbv beta iota. unfold upd_table. rewrite (bind_run _ _ _ tt (put_at mt 0 zero_table_cache cm (ticks 1 n))); [done|].
    rewrite (get_table_then mt 0 _ T Hat2). apply (put_table_run mt 0 _ T Hat2).
  - unfold ipa_mem_descriptor_delete. rewrite Hv. cbn [negb]. unfold DeallocateMemory. by rewrite call_then.
Qed.

(** The part of the deletion between the locks. *)
Lemma delete_table_inner mt n T :
  at_table mt 0 n T -> valid (mem_desc T) = true -> no_failures (sys n) -> table_count mt n 1 ->
  exists n', (ret ← ipa_nati_destroy_table mt 0; if truthy ret then mret ret else
              upd_cache mt (fun c => c <| table_cnt ::= fun x => u8 (x - 1) |>) ;; close_unused_desc mt ;; mret 0) n
      = Done (0, n') /\ fresh_cache mt n' /\ pdns n' = pdns n /\ sys n' = sys n.
Proof.
  intros Hat Hv Hs (c&Hc&Hcnt). pose proof (destroy_table_run mt n T (nat_cmd n) Hat Hv Hs) as Hd.
  rewrite (put_same mt 0 n T Hat) in Hd. rewrite (bind_run _ _ _ _ _ Hd). change (truthy 0) with false. cbn iota.
  set (n2 := put_at mt 0 zero_table_cache (nat_cmd n) (ticks 1 n)). set (c2 := c <| ip4_tbl ::= fun l => <[0%nat := zero_table_cache]> l |>).
  assert (Hc2 : zget (ipv4_nat_cache n2) mt = Some c2).
  { unfold n2, put_at. cbn. rewrite (alter_rec_set _ _ _ c Hc). apply zget_insert_eq. exact (zget_Some _ _ _ Hc). }
  rewrite (upd_cache_then _ _ _ _ _ Hc2). unfold close_unused_desc. set (c3 := c2 <| table_cnt ::= fun x => u8 (x - 1) |>).
  set (n3 := n2 <| ipv4_nat_cache ::= _ |>). assert (Hc3 : zget (ipv4_nat_cache n3) mt = Some c3) by (by apply (cache_upd _ c2)).
  assert (Hz : truthy (table_cnt c3) = false) by (change (truthy (u8 (table_cnt c - 1)) = false); by rewrite Hcnt).
  set (n4 := n3 <| ipv4_nat_cache ::= fun l => <[Z.to_nat mt := c3 <| ipa_desc := None |> ]> l |>).
  rewrite (bind_run _ _ _ tt n4).
  - exists n4. split; [done|]. split; [|done]. exists (c3 <| ipa_desc := None |>), zero_table_cache.
    split; [by apply (cache_upd _ c3)|]. split; [done|]. split; [change (u8 (table_cnt c - 1) = 0); by rewrite Hcnt|].
    destruct Hat as (c'&d&Hc'&_&HT). assert (c' = c) as -> by congruence.
    apply (zget_insert_eq (ip4_tbl c) 0). exact (zget_Some _ _ _ HT).
  - rewrite (cache_then _ c3) by done. rewrite Hz. cbn [negb]. unfold upd_cache. by rewrite Hc3.
Qed.

(** A cache that is closed and without tables, in a state that is otherwise the same. *)
Record closed_again (mt : Z) (n n' : nat_state) : Prop := {
  ca_fresh : fresh_cache mt n';
  ca_pdns : pdns n' = pdns n;
  ca_sys : sys n' = sys n;
}.

(** Deleting the only table of a cache succeeds and leaves the cache as
    before the creation: closed, without tables, ready for a new one. *)
Theorem delete_table_restores_cache mt pd base expn n m :
  store_ok mt pd base expn n m -> table_count mt n 1 ->
  exists n', ipa_NATI_del_ipv4_table (MAKE_TBL_HDL 1 mt) n = Done (0, n') /\ closed_again mt n n'.
Proof.
  intros [Hmt [Hpd _] [Hs Hdma] (T&Hat&Hok&Hb&He)] Hcnt. destruct (tbl_handle mt Hmt) as (_&Hbr&Hva).
  destruct Hok as (nch&ich&k&Hwf). pose proof (wf_valid _ _ _ _ _ _ Hwf) as Hv.
  unfold ipa_NATI_del_ipv4_table. rewrite Hbr, Hva. cbn [negb]. unfold pthread_mutex_lock. rewrite call_then by done.
  change (truthy 0) with false. cbn iota. change (1 - 1) with 0. set (n1 := ticks 1 n).
  assert (Hat1 : at_table mt 0 n1 T) by exact Hat. rewrite <- (put_same mt 0 n1 T Hat1). rewrite (get_table_then mt 0 n1 T Hat1), Hv.
  cbn [negb]. rewrite (put_same mt 0 n1 T Hat1).
  destruct (delete_table_inner mt n1 T Hat1 Hv Hs Hcnt) as (n'&Hrun&Hf&Hp&Hsys). rewrite (bind_run _ _ _ _ _ Hrun).
  assert (Hs' : no_failures (sys n')) by (rewrite Hsys; exact Hs).
  exists (ticks 1 n'). split; [unfold pthread_mutex_unlock; by rewrite call_then by exact Hs'|].
  by split.
Qed.

Lemma delete_table_restores_cache_witness :
  exists pd n n', store_ok IPA_NAT_MEM_IN_DDR pd 4 2 n ∅ /\
    ipa_NATI_del_ipv4_table (MAKE_TBL_HDL 1 IPA_NAT_MEM_IN_DDR) n = Done (0, n') /\ closed_again IPA_NAT_MEM_IN_DDR n n'.
Proof.
  destruct sample_store as (pd&n&Hok&_&Hcnt).
  destruct (delete_table_restores_cache IPA_NAT_MEM_IN_DDR pd 4 2 n ∅ Hok Hcnt) as (n'&Hrun&Hf).
  exists pd, n, n'. exact (conj Hok (conj Hrun Hf)).
Defined.
