(* ===== verification/IpaPdn.v ===== *)
(** * The packet-data networks

    The table of public addresses: allocating an address and finding it again,
    and the round trip of an allocation and its release. *)

From S2P Require Import Prelude IpaTable IpaSystem IpaNat IpaSize IpaCreate.

Local Open Scope Z_scope.

(** ** The search *)

Section Search.
Context (p : ipa_nat_pdn_entry -> bool).

(** The position [k] holds the first entry that satisfies [p]. *)
Definition first_at (l : list ipa_nat_pdn_entry) (k : nat) : Prop :=
  (exists e, l !! k = Some e /\ p e = true) /\ forall j e, (j < k)%nat -> l !! j = Some e -> p e = false.

Lemma first_pdn_spec l i n :
  (n <= length l)%nat ->
  (first_pdn p l i n = Some None /\ forall j e, (j < n)%nat -> l !! j = Some e -> p e = false)
  \/ exists k, first_pdn p l i n = Some (Some (i + Z.of_nat k)) /\ (k < n)%nat /\ first_at l k.
Proof.
  revert i n. induction l as [|e l IH]; intros i n Hn.
  - assert (n = O) as -> by (cbn in Hn; lia). left. split; [done|]. intros; lia.
  - destruct n as [|n]; [left; split; [done|intros; lia]|]. cbn [first_pdn]. destruct (p e) eqn:He.
    + right. exists O. replace (i + Z.of_nat 0) with i by lia. split; [done|]. split; [lia|]. split; [by exists e|intros; lia].
    + destruct (IH (i + 1) n ltac:(cbn in Hn; lia)) as [[Hf Hall]|(k&Hf&Hk&(y&Hy&Hpy)&Hall)].
      * left. split; [done|]. intros [|j] y Hj Hy; [by injection Hy as <-|]. apply (Hall j y); [lia|done].
      * right. exists (S k). replace (i + Z.of_nat (S k)) with (i + 1 + Z.of_nat k) by lia. split; [done|]. split; [lia|].
        split; [by exists y|]. intros [|j] z Hj Hz; [by injection Hz as <-|]. apply (Hall j z); [lia|done].
Qed.

Lemma first_pdn_at l n k : (n <= length l)%nat -> (k < n)%nat -> first_at l k -> first_pdn p l 0 n = Some (Some (Z.of_nat k)).
Proof.
  intros Hn Hk ((e&He&Hpe)&Hall). destruct (first_pdn_spec l 0 n Hn) as [[_ Hno]|(j&->&Hj&(y&Hy&Hpy)&Hall')].
  - rewrite (Hno k e Hk He) in Hpe. done.
  - do 2 f_equal. destruct (Nat.lt_total j k) as [Hlt|[->|Hlt]]; [|lia|].
    + rewrite (Hall j y Hlt Hy) in Hpy. done.
    + rewrite (Hall' k e Hlt He) in Hpe. done.
Qed.

End Search.

(** ** Changing an entry *)

Definition pdns_ok (n : nat_state) : Prop := zlen (pdns n) = IPA_MAX_PDN_NUM /\ zlen (ipv4_nat_cache n) = 2.

Definition pdn_open (n : nat_state) : Prop :=
  exists nmi c d, zget (ipv4_nat_cache n) nmi = Some c /\ ipa_desc c = Some d.

Lemma modify_pdn_run n e :
  pdns_ok n -> 0 <= ioc_pdn_index e < IPA_MAX_PDN_NUM ->
  exists ret n', ipa_nati_modify_pdn e n = Done (ret, n') /\ num_pdns n' = num_pdns n /\ ipv4_nat_cache n' = ipv4_nat_cache n /\
    sys n' = sys n /\
    pdns n' = (if truthy ret then pdns n
               else <[Z.to_nat (ioc_pdn_index e) := mkPdn (ioc_public_ip e) (ioc_src_metadata e) (ioc_dst_metadata e)]> (pdns n)) /\
    (no_failures (sys n) -> pdn_open n -> ret = 0).
Proof.
  intros [Hp Hc] Hi. unfold ipa_nati_modify_pdn.
  destruct (zget_is_Some (ipv4_nat_cache n) IPA_NAT_MEM_IN_DDR ltac:(unfold IPA_NAT_MEM_IN_DDR; lia)) as [ddr Hddr].
  destruct (zget_is_Some (ipv4_nat_cache n) IPA_NAT_MEM_IN_SRAM ltac:(unfold IPA_NAT_MEM_IN_SRAM; lia)) as [sram Hsram].
  rewrite (cache_then _ ddr), (cache_then _ sram) by done.
  destruct (bool_decide (ipa_desc (if bool_decide (ipa_desc ddr <> None) then ddr else sram) = None)) eqn:Hopen.
  - exists (- EIO), n. do 5 (split; [done|]). intros _ (nmi&c&d&Hn&Hd). exfalso. apply bool_decide_eq_true in Hopen.
    pose proof (zget_Some _ _ _ Hn). assert (nmi = IPA_NAT_MEM_IN_DDR \/ nmi = IPA_NAT_MEM_IN_SRAM) as [-> | ->]
      by (unfold IPA_NAT_MEM_IN_DDR, IPA_NAT_MEM_IN_SRAM; lia).
    + assert (c = ddr) as -> by congruence. rewrite bool_decide_true in Hopen by congruence. congruence.
    + assert (c = sram) as -> by congruence. case_bool_decide; congruence.
  - unfold mbind at 1, M_bind at 1. unfold sys_call. cbn [calls call_count nat_caller].
    destruct (truthy (sys_ret (sys n) (sys_calls n))) eqn:Hret.
    + do 2 eexists. split; [reflexivity|]. rewrite Hret. do 4 (split; [done|]). intros Hs _. by rewrite Hs in Hret.
    + rewrite getM_run. change (pdns (ticks 1 n)) with (pdns n).
      rewrite (liftO_run _ _ _ _ _ (zset_in (pdns n) (ioc_pdn_index e) _ ltac:(lia))), modify_run.
      exists 0. eexists. split; [reflexivity|]. done.
Qed.

(** The entry at which an allocation stops. *)
Definition pdn_slot (ip : Z) (e : ipa_nat_pdn_entry) : bool := (public_ip e =? ip) || bool_decide (e = zero_pdn).

(** The outcomes of an allocation, by the entry [k] found. *)
Lemma alloc_pdn_run n p :
  pdns_ok n ->
  exists ret i n', ipa_nati_alloc_pdn p n = Done ((ret, i), n') /\ pdns_ok n' /\ sys n' = sys n /\
    ipv4_nat_cache n' = ipv4_nat_cache n /\
    ((ret <> 0 /\ pdns n' = pdns n /\ num_pdns n' = num_pdns n)
     \/ exists k e, ret = 0 /\ i = Z.of_nat k /\ (k < pdn_slots)%nat /\ first_at (pdn_slot (public_ip p)) (pdns n) k /\
        pdns n !! k = Some e /\
        if public_ip e =? public_ip p then n' = n
        else num_pdns n < IPA_MAX_PDN_NUM - 1 /\ num_pdns n' = num_pdns n + 1 /\ pdns n' = <[k := p]> (pdns n)) /\
    (no_failures (sys n) -> pdn_open n -> num_pdns n < IPA_MAX_PDN_NUM - 1 ->
     (exists k e, (k < pdn_slots)%nat /\ pdns n !! k = Some e /\ pdn_slot (public_ip p) e = true) -> ret = 0).
Proof.
  intros Hok. pose proof Hok as [Hp Hc]. unfold ipa_nati_alloc_pdn. rewrite getM_run.
  destruct (Z.leb_spec (IPA_MAX_PDN_NUM - 1) (num_pdns n)) as [Hfull|Hroom].
  { exists (- EIO), 0, n. do 4 (split; [done|]). split; [by left|]. intros; lia. }
  assert (Hslots : (pdn_slots <= length (pdns n))%nat) by (unfold zlen, pdn_slots, IPA_MAX_PDN_NUM in *; lia).
  change (first_pdn _ (pdns n) 0 pdn_slots) with (first_pdn (pdn_slot (public_ip p)) (pdns n) 0 pdn_slots).
  destruct (first_pdn_spec (pdn_slot (public_ip p)) (pdns n) 0 pdn_slots Hslots) as [[Hf Hno]|(k&Hf&Hk&Hat)];
    rewrite (liftO_run _ _ _ _ _ Hf).
  { exists (- EIO), 0, n. do 4 (split; [done|]). split; [by left|]. intros _ _ _ (k&e&Hk&He&Hpe). by rewrite (Hno k e Hk He) in Hpe. }
  pose proof Hat as ((e&He&Hpe)&Hall). change (0 + Z.of_nat k) with (Z.of_nat k).
  rewrite (liftO_run _ _ _ _ e) by (by rewrite zget_nat).
  destruct (public_ip e =? public_ip p) eqn:Heq.
  { exists 0, (Z.of_nat k), n. do 4 (split; [done|]). split; [|done]. right. exists k, e. rewrite Heq. done. }
  destruct (modify_pdn_run n (mkIocPdn (Z.of_nat k) (public_ip p) (src_metadata p) (dst_metadata p)) Hok) as
    (ret&n1&Hrun&Hnum&Hcache&Hsys&Hpdns&Hsucc); [cbn; unfold pdn_slots, IPA_MAX_PDN_NUM in *; lia|].
  rewrite (bind_run _ _ _ _ _ Hrun). cbn [ioc_pdn_index ioc_public_ip ioc_src_metadata ioc_dst_metadata] in Hpdns.
  rewrite Nat2Z.id in Hpdns. destruct (truthy ret) eqn:Hret.
  - exists ret, 0, n1. split; [done|]. split; [split; congruence|]. split; [done|]. split; [done|].
    split; [left; split; [by apply truthy_true|done]|]. intros Hs Ho _ _. by apply Hsucc.
  - rewrite modify_run. exists 0, (Z.of_nat k). eexists. split; [reflexivity|].
    split; [split; cbn; [rewrite Hpdns, zlen_insert|rewrite Hcache]; done|]. split; [done|]. split; [done|]. split; [|done].
    right. exists k, e. rewrite Heq. do 5 (split; [done|]). split; [done|]. split; [cbn; lia|].
    cbn. rewrite Hpdns. by destruct p.
Qed.

(** Allocating a public address always completes.  On success the address
    is found again at the index returned, which is one of the first 15, and no
    other entry changed; on failure nothing changed.  It succeeds when the
    device answers, fewer than 15 addresses are counted, and one of the first
    15 entries is empty or holds the address. *)
Theorem alloc_pdn_found n p :
  pdns_ok n -> public_ip p <> 0 ->
  exists ret i n', ipa_nati_alloc_pdn p n = Done ((ret, i), n') /\
    (ret = 0 -> 0 <= i < IPA_MAX_PDN_NUM - 1 /\ ipa_nati_get_pdn_index (public_ip p) n' = Done ((0, i), n') /\
       forall j, j <> i -> zget (pdns n') j = zget (pdns n) j) /\
    (ret <> 0 -> pdns n' = pdns n /\ num_pdns n' = num_pdns n) /\
    (no_failures (sys n) -> pdn_open n -> num_pdns n < IPA_MAX_PDN_NUM - 1 ->
     (exists k e, (k < pdn_slots)%nat /\ pdns n !! k = Some e /\ pdn_slot (public_ip p) e = true) -> ret = 0).
Proof.
  intros Hok Hip. destruct (alloc_pdn_run n p Hok) as (ret&i&n'&Hrun&Hok'&_&_&Hcase&Hsucc).
  exists ret, i, n'. split; [done|]. destruct Hcase as [(Hret&Hpd&Hnum)|(k&e&->&->&Hk&((e'&He'&_)&Hall)&He&Hcase)].
  { split; [done|]. split; [by intros _|done]. }
  split; [|done]. intros _. split; [unfold pdn_slots, IPA_MAX_PDN_NUM in *; lia|].
  assert (Hslots : (pdn_slots <= length (pdns n'))%nat) by (destruct Hok'; unfold zlen, pdn_slots, IPA_MAX_PDN_NUM in *; lia).
  assert (Hpre : forall j x, (j < k)%nat -> pdns n !! j = Some x -> (public_ip x =? public_ip p) = false).
  { intros j x Hj Hx. specialize (Hall j x Hj Hx). by apply orb_false_iff in Hall as [? _]. }
  pose proof (lookup_lt_Some _ _ _ He) as Hlt.
  assert (Hat : first_at (fun e => public_ip e =? public_ip p) (pdns n') k /\ forall j, j <> Z.of_nat k -> zget (pdns n') j = zget (pdns n) j).
  { destruct (public_ip e =? public_ip p) eqn:Heq.
    - subst n'. split; [|done]. split; [by exists e|done].
    - destruct Hcase as (_&_&->). split; [split|].
      + exists p. split; [by apply list_lookup_insert_eq|apply Z.eqb_refl].
      + intros j x Hj. rewrite list_lookup_insert_ne by lia. by apply Hpre.
      + intros j Hj. rewrite <- (Nat2Z.id k). apply zget_insert_ne; [lia|done]. }
  destruct Hat as [Hat Hoth]. split; [|done]. unfold ipa_nati_get_pdn_index. rewrite getM_run.
  by rewrite (liftO_run _ _ _ _ _ (first_pdn_at _ _ _ _ Hslots Hk Hat)).
Qed.

(** A device that is open and answers, with no address yet. *)
Definition sample_pdn_state : nat_state :=
  (initial_nat (mkSystem (quiet_calls 0) (fun _ => ([], [])) (fun _ _ m => m)))
    <| ipv4_nat_cache := [zero_nat_cache <| ipa_desc := Some true |>; zero_nat_cache] |>.

Lemma alloc_pdn_found_witness :
  exists n', ipa_nati_alloc_pdn (mkPdn 168430090 1 2) sample_pdn_state = Done ((0, 0), n') /\
    ipa_nati_get_pdn_index 168430090 n' = Done ((0, 0), n').
Proof.
  destruct (alloc_pdn_found sample_pdn_state (mkPdn 168430090 1 2)) as (ret&i&n'&Hrun&Hget&_); [split; reflexivity|discriminate|].
  exists n'. assert (Hri : value (ipa_nati_alloc_pdn (mkPdn 168430090 1 2) sample_pdn_state) = Some (0, 0)) by (vm_compute; reflexivity).
  rewrite Hrun in Hri. injection Hri as -> ->. exact (conj Hrun (proj1 (proj2 (Hget eq_refl)))).
Defined.

(** ** Release *)

(** Allocating a new address and releasing the index it got gives back the
    table of networks, and the number of addresses. *)
Theorem pdn_alloc_dealloc_roundtrip n p :
  pdns_ok n -> no_failures (sys n) -> pdn_open n -> p <> zero_pdn -> 0 <= num_pdns n < IPA_MAX_PDN_NUM - 1 ->
  (forall k e, (k < pdn_slots)%nat -> pdns n !! k = Some e -> public_ip e <> public_ip p) ->
  (exists k, (k < pdn_slots)%nat /\ pdns n !! k = Some zero_pdn) ->
  exists i n1 n2, ipa_nati_alloc_pdn p n = Done ((0, i), n1) /\ zget (pdns n1) i = Some p /\
    ipa_nati_dealloc_pdn i n1 = Done (0, n2) /\ pdns n2 = pdns n /\ num_pdns n2 = num_pdns n.
Proof.
  intros Hok Hs Hopen Hp Hnum Hnew (k0&Hk0&Hz).
  destruct (alloc_pdn_run n p Hok) as (ret&i&n1&Hrun&Hok1&Hs1&Hc1&Hcase&Hsucc).
  assert (ret = 0) as -> by (apply Hsucc; try done; [lia|]; exists k0, zero_pdn; unfold pdn_slot; rewrite bool_decide_true, orb_true_r by done; done).
  destruct Hcase as [(?&_)|(k&e&_&->&Hk&((e'&He'&Hpe)&_)&He&Hcase)]; [done|].
  assert (e' = e) as -> by congruence. pose proof (Hnew k e Hk He) as Hne.
  assert (e = zero_pdn) as ->.
  { unfold pdn_slot in Hpe. apply orb_true_iff in Hpe as [Hpe|Hpe]; [lia|by apply bool_decide_eq_true in Hpe]. }
  replace (public_ip zero_pdn =? public_ip p) with false in Hcase by (symmetry; by apply Z.eqb_neq).
  destruct Hcase as (_&Hn1&Hp1). pose proof (lookup_lt_Some _ _ _ He) as Hlt.
  assert (Hget : zget (pdns n1) (Z.of_nat k) = Some p) by (rewrite zget_nat, Hp1; by apply list_lookup_insert_eq).
  destruct (modify_pdn_run n1 (mkIocPdn (Z.of_nat k) 0 0 0) Hok1) as (ret&n2&Hrun2&Hnum2&Hcache2&_&Hpdns2&Hsucc2);
    [cbn; unfold pdn_slots, IPA_MAX_PDN_NUM in *; lia|].
  assert (ret = 0) as ->.
  { apply Hsucc2; [by rewrite Hs1|]. unfold pdn_open. by rewrite Hc1. }
  change (truthy 0) with false in Hpdns2. cbn iota in Hpdns2. cbn [ioc_pdn_index] in Hpdns2. rewrite Nat2Z.id in Hpdns2.
  exists (Z.of_nat k), n1. eexists. split; [done|]. split; [done|].
  unfold ipa_nati_dealloc_pdn. rewrite getM_run, (proj2 (truthy_true (num_pdns n1))) by lia. cbn [negb].
  rewrite (liftO_run _ _ _ _ p), bool_decide_false by done. rewrite (bind_run _ _ _ _ _ Hrun2). change (truthy 0) with false. cbn iota.
  rewrite getM_run, (liftO_run _ _ _ _ (<[k := zero_pdn]> (pdns n2))), modify_run.
  - split; [reflexivity|]. cbn. rewrite Hpdns2, Hp1, !list_insert_insert_eq. split; [by apply list_insert_id|lia].
  - apply zset_nat. rewrite Hpdns2, length_insert, Hp1, length_insert. lia.
Qed.

Lemma pdn_alloc_dealloc_roundtrip_witness :
  exists i n1 n2, ipa_nati_alloc_pdn (mkPdn 168430090 1 2) sample_pdn_state = Done ((0, i), n1) /\
    zget (pdns n1) i = Some (mkPdn 168430090 1 2) /\ ipa_nati_dealloc_pdn i n1 = Done (0, n2) /\
    pdns n2 = pdns sample_pdn_state /\ num_pdns n2 = num_pdns sample_pdn_state.
Proof.
  apply (pdn_alloc_dealloc_roundtrip sample_pdn_state (mkPdn 168430090 1 2)).
  - split; reflexivity.
  - intros k. reflexivity.
  - exists 0, (zero_nat_cache <| ipa_desc := Some true |>), true. split; reflexivity.
  - discriminate.
  - split; [discriminate|reflexivity].
  - intros k e _ He. apply lookup_replicate in He as [-> _]. discriminate.
  - exists 0%nat. split; [unfold pdn_slots, IPA_MAX_PDN_NUM; lia|reflexivity].
Defined.

(** The index 16 passes the test of the public interface for the range of
    an index, and the release reads behind the table of 16 networks. *)
Theorem dealloc_pdn_behind_table n :
  zlen (pdns n) = IPA_MAX_PDN_NUM -> num_pdns n <> 0 -> ipa_nat_dealloc_pdn IPA_MAX_PDN_NUM n = Fault OutOfBounds.
Proof.
  intros Hl Hn. unfold ipa_nat_dealloc_pdn. rewrite Z.ltb_irrefl. unfold ipa_nati_dealloc_pdn.
  rewrite getM_run, (proj2 (truthy_true (num_pdns n)) Hn). cbn [negb].
  assert (Hz : zget (pdns n) IPA_MAX_PDN_NUM = None).
  { destruct (zget (pdns n) IPA_MAX_PDN_NUM) as [e|] eqn:He; [|done]. apply zget_Some in He. lia. }
  by rewrite Hz.
Qed.

Lemma dealloc_pdn_behind_table_witness :
  ipa_nat_dealloc_pdn 16 (sample_pdn_state <| num_pdns := 1 |>) = Fault OutOfBounds.
Proof. apply (dealloc_pdn_behind_table (sample_pdn_state <| num_pdns := 1 |>)); [reflexivity|discriminate]. Defined.

(** An address can be in the table twice: after a release the search for
    an allocation stops at the gap, before the entry that holds the address. *)
Theorem pdn_allocated_twice :
  (let a := mkPdn 168430090 0 0 in let b := mkPdn 168430091 0 0 in
   ipa_nat_alloc_pdn (Some a) ;; ipa_nat_alloc_pdn (Some b) ;; ipa_nat_dealloc_pdn 0 ;;
   r ← ipa_nat_alloc_pdn (Some b); n ← getM; mret (r, take 3 (pdns n))) sample_pdn_state
  = Done (((0, 0), [mkPdn 168430091 0 0; mkPdn 168430091 0 0; zero_pdn]),
      sample_pdn_state <| sys_calls := 4%nat |> <| num_pdns := 2 |>
        <| pdns := mkPdn 168430091 0 0 :: mkPdn 168430091 0 0 :: replicate 14 zero_pdn |>).
Proof. vm_compute. reflexivity. Qed.
