(* ===== verification/IpaExamples.v ===== *)
(** * Runs outside the contract of the store

    What the tables do when a client uses a handle twice, and when the system
    does not take a command: the two cases the refinement of the store leaves
    out. *)

From stdpp Require Import gmap.
From S2P Require Import Prelude IpaChain IpaTable IpaSystem IpaNat IpaStoreSpec IpaStore.

Local Open Scope Z_scope.

Definition ddr_handle : Z := MAKE_TBL_HDL 1 IPA_NAT_MEM_IN_DDR.

(** A table with 8 base and 2 expansion records. *)
Definition new_table : NM (Z * Z) := ipa_NATI_add_ipv4_tbl IPA_NAT_MEM_IN_DDR 168430090 10.

(** The rules share a list of the translation table; the addresses of [rule_a]
    and [rule_c] also share one of the index table. *)
Definition rule_a : ipa_nat_ipv4_rule := sample_user_rule 3232235777 IPPROTO_TCP.
Definition rule_b : ipa_nat_ipv4_rule := sample_user_rule 3232235778 IPPROTO_TCP.
Definition rule_c : ipa_nat_ipv4_rule := sample_user_rule 3232235785 IPPROTO_TCP.

Definition add (u : ipa_nat_ipv4_rule) : NM (Z * Z) := ipa_NATI_add_ipv4_rule ddr_handle (Some u).
Definition del (hdl : Z) : NM Z := ipa_NATI_del_ipv4_rule ddr_handle hdl.

(** The handle of a deleted rule whose record is kept for the rules behind
    it is accepted again: the second deletion reports success and removes the
    entry of another rule from the index table, whose deletion then fails. *)
Theorem stale_handle_takes_another_index :
  value ((new_table ;; '(_, a) ← add rule_a; add rule_b ;;
          first ← del a; '(_, c) ← add rule_c;
          second ← del a; third ← del c; mret (first, second, third)) (initial_nat (sample_system 10)))
  = Some (0, 0, - EINVAL).
Proof. vm_compute. reflexivity. Qed.

(** A system that fails the call with number [k] only. *)
Definition fails_once (k : nat) : ipa_system :=
  let s := sample_system 10 in
  mkSystem (mkCalls (fun j => if Nat.eqb j k then 1 else 0) (hw_new s) 0 0 0 0 (mmap_addr_of s)) (mmap_mem s) (table_dma s).

(** The records of the translation table that are in use, and the entries of
    the index table, with their slots. *)
Definition in_use (n : nat_state) : list Z * list (Z * Z) :=
  let T := table_of IPA_NAT_MEM_IN_DDR 0 n in
  (base.filter (fun i => default false ((fun e => truthy (enable e)) <$> zget (recs (table T)) i) = true) (seqZ 0 10),
   base.filter (fun p => truthy p.2 = true)
     ((fun i => (i, default 0 (tbl_entry <$> zget (recs (index_table T)) i))) <$> seqZ 0 10)).

(** A deletion that fails because the system does not take its command is
    not without effect: the rule behind is told the slot of its entry before
    the command is posted.  Deleting that rule afterwards succeeds, but leaves
    an entry for it in the index table in the place of the entry of the first
    rule, which is still in use. *)
Theorem failed_delete_breaks_index :
  value ((new_table ;; '(_, a) ← add rule_a; '(_, c) ← add rule_c; before ← gets in_use;
          first ← del a; second ← del c; after ← gets in_use; mret (before, (first, second), after)) (initial_nat (fails_once 19)))
  = Some (([5; 8], [(4, 5); (8, 8)]), (- EIO, 0), ([5], [(4, 8)])).
Proof. vm_compute. reflexivity. Qed.
