(* ===== verification/IpaIpv6.v ===== *)
(** * IPv6 connection tracking

    [dataipa/ipanat/src/ipa_ipv6ct.c]: the third client of the chained tables.
    Its table has no index table beside it and lies in the DDR only; a record is
    an IPv6 connection with the directions in which it may be used.

    The functions of the interface read the version of the hardware behind the
    descriptor of the device before anything else; the descriptor is there only
    while there is a table. *)

From S2P Require Import Prelude IpaTable IpaSystem.

Local Open Scope Z_scope.

(** ** Records *)

(** One entry of the table, 64 bytes. *)
Record ipa_ipv6ct_hw_entry := mkCtEntry {
  src_ipv6_lsb : Z;
  src_ipv6_msb : Z;
  dest_ipv6_lsb : Z;
  dest_ipv6_msb : Z;
  ct_uc_activation_index : Z;
  ct_s : Z;
  ct_rsvd1 : Z;
  ct_redirect : Z;
  ct_enable : Z;
  ct_time_stamp : Z;
  ct_protocol : Z;
  ct_next_index : Z;
  dest_port : Z;
  src_port : Z;
  ct_ucp : Z;
  ct_rsvd2 : Z;
  out_allowed : Z;
  in_allowed : Z;
  ct_rsvd3 : Z;
  ct_rsvd4 : Z;
  ct_prev_index : Z;
  ct_rsvd5 : Z;
}.

#[export] Instance eta_ct_entry : Eta ipa_ipv6ct_hw_entry.
Proof.
  refine (mkEta _ (fun e => mkCtEntry (src_ipv6_lsb e) (src_ipv6_msb e) (dest_ipv6_lsb e) (dest_ipv6_msb e)
    (ct_uc_activation_index e) (ct_s e) (ct_rsvd1 e) (ct_redirect e) (ct_enable e) (ct_time_stamp e)
    (ct_protocol e) (ct_next_index e) (dest_port e) (src_port e) (ct_ucp e) (ct_rsvd2 e) (out_allowed e)
    (in_allowed e) (ct_rsvd3 e) (ct_rsvd4 e) (ct_prev_index e) (ct_rsvd5 e)) _).
  by intros [].
Defined.

Definition zero_ct_entry : ipa_ipv6ct_hw_entry :=
  mkCtEntry 0 0 0 0 0 0 0 0 0 0 0 0 0 0 0 0 0 0 0 0 0 0.

Definition sizeof_ipa_ipv6ct_hw_entry : Z := 64.

Definition IPA_IPV6CT_DIRECTION_DENY_ALL : Z := 0.
Definition IPA_IPV6CT_DIRECTION_ALLOW_OUT : Z := 1.
Definition IPA_IPV6CT_DIRECTION_ALLOW_IN : Z := 2.
Definition IPA_IPV6CT_DIRECTION_ALLOW_ALL : Z := 3.

(** The rule of a user. *)
Record ipa_ipv6ct_rule := mkCtRule {
  r_src_ipv6_lsb : Z;
  r_src_ipv6_msb : Z;
  r_dest_ipv6_lsb : Z;
  r_dest_ipv6_msb : Z;
  r_direction_settings : Z;
  r_ucp : bool;
  r_s : bool;
  r_uc_activation_index : Z;
  r_src_port : Z;
  r_dest_port : Z;
  r_protocol : Z;
}.

(** ** Constants *)

Definition IPA_IPV6CT_MAX_TBLS : Z := 1.
Definition IPA_IPV6CT_RULE_FLAG_FIELD_OFFSET : Z := 34.
Definition IPA_IPV6CT_RULE_NEXT_FIELD_OFFSET : Z := 40.
Definition IPA_IPV6CT_RULE_PROTO_FIELD_OFFSET : Z := 38.
Definition IPA_IPV6CT_FLAG_ENABLE_BIT : Z := 1.
Definition IPA_IPV6CT_DIRECTION_ALLOW_BIT : Z := 1.
Definition IPA_IPV6CT_INVALID_PROTO_FIELD_VALUE : Z := 65280.
Definition IPA_IPV6CT_INVALID_PROTO_FIELD_CMP : Z := 255.
Definition IPA_MAX_DMA_ENTRIES_FOR_ADD : nat := 2.
Definition IPA_MAX_DMA_ENTRIES_FOR_DEL : nat := 2.

(** ** The hash *)

(** The loop xors the 16-bit segments of [num] until none is left. *)
Fixpoint xor_segments_loop (fuel : nat) (num ret : Z) : option Z :=
  if num =? 0 then Some ret else
  match fuel with
  | O => None
  | S fuel' => xor_segments_loop fuel' (Z.shiftr num 16) (Z.lxor ret (Z.land num 65535))
  end.

Definition ipa_ipv6ct_xor_segments (num : Z) : option Z := xor_segments_loop 4 num 0.

Definition ipa_ipv6ct_hash (rule : ipa_ipv6ct_rule) (size : Z) : option Z :=
  a ← ipa_ipv6ct_xor_segments (r_src_ipv6_lsb rule);
  b ← ipa_ipv6ct_xor_segments (r_src_ipv6_msb rule);
  c ← ipa_ipv6ct_xor_segments (r_dest_ipv6_lsb rule);
  d ← ipa_ipv6ct_xor_segments (r_dest_ipv6_msb rule);
  let hash := Z.lxor (Z.lxor (Z.lxor (Z.lxor 0 a) b) c) d in
  let hash := Z.lxor hash (r_src_port rule) in
  let hash := Z.lxor hash (r_dest_port rule) in
  let hash := Z.lxor hash (r_protocol rule) in
  let hash := Z.land hash size in
  Some (if hash =? 0 then size else hash).

(** ** The callbacks of the table *)

Definition ct_entry_is_valid (e : ipa_ipv6ct_hw_entry) : bool := truthy (ct_enable e).
Definition ct_entry_get_next_index (e : ipa_ipv6ct_hw_entry) : Z := ct_next_index e.

Definition ct_entry_get_prev_index (e : ipa_ipv6ct_hw_entry) (entry_index : Z) (meta : option (list Z))
    (base_table_size : Z) : option Z := Some (ct_prev_index e).

Definition ct_entry_set_prev_index (e : ipa_ipv6ct_hw_entry) (entry_index prev_index : Z) (meta : option (list Z))
    (base_table_size : Z) : option (ipa_ipv6ct_hw_entry * option (list Z)) :=
  Some (e <| ct_prev_index := prev_index |>, meta).

(** The return value and the record, which is written before the direction is
    looked at. *)
Definition ct_entry_copy_from_user (e : ipa_ipv6ct_hw_entry) (r : ipa_ipv6ct_rule) : Z * ipa_ipv6ct_hw_entry :=
  let e := e <| src_ipv6_lsb := r_src_ipv6_lsb r |> <| src_ipv6_msb := r_src_ipv6_msb r |>
             <| dest_ipv6_lsb := r_dest_ipv6_lsb r |> <| dest_ipv6_msb := r_dest_ipv6_msb r |>
             <| ct_protocol := r_protocol r |> <| src_port := r_src_port r |> <| dest_port := r_dest_port r |>
             <| ct_ucp := (if r_ucp r then 1 else 0) |>
             <| ct_uc_activation_index := wrap 13 (r_uc_activation_index r) |>
             <| ct_s := (if r_s r then 1 else 0) |> in
  let d := r_direction_settings r in
  if d =? IPA_IPV6CT_DIRECTION_DENY_ALL then (0, e)
  else if d =? IPA_IPV6CT_DIRECTION_ALLOW_OUT then (0, e <| out_allowed := IPA_IPV6CT_DIRECTION_ALLOW_BIT |>)
  else if d =? IPA_IPV6CT_DIRECTION_ALLOW_IN then (0, e <| in_allowed := IPA_IPV6CT_DIRECTION_ALLOW_BIT |>)
  else if d =? IPA_IPV6CT_DIRECTION_ALLOW_ALL then
    (0, e <| out_allowed := IPA_IPV6CT_DIRECTION_ALLOW_BIT |> <| in_allowed := IPA_IPV6CT_DIRECTION_ALLOW_BIT |>)
  else (- EINVAL, e).

(** The flags of a new record: [enable] is the highest bit. *)
Definition ct_new_flags : Z := Z.shiftl IPA_IPV6CT_FLAG_ENABLE_BIT 15.

Definition ct_entry_head_insert (e : ipa_ipv6ct_hw_entry) (r : ipa_ipv6ct_rule)
    : option (Z * ipa_ipv6ct_hw_entry * Z) :=
  let '(ret, e) := ct_entry_copy_from_user e r in
  if truthy ret then Some (ret, e, 0) else Some (0, e, ct_new_flags).

Definition ct_entry_tail_insert (e : ipa_ipv6ct_hw_entry) (r : ipa_ipv6ct_rule)
    : option (Z * ipa_ipv6ct_hw_entry) :=
  let '(ret, e) := ct_entry_copy_from_user e r in
  if truthy ret then Some (ret, e) else Some (0, e <| ct_enable := IPA_IPV6CT_FLAG_ENABLE_BIT |>).

Definition ct_entry_get_delete_head_dma_command_data (head next_entry : ipa_ipv6ct_hw_entry) : Z :=
  IPA_IPV6CT_INVALID_PROTO_FIELD_VALUE.

#[export] Instance ct_entry_interface : ipa_table_entry_interface ipa_ipv6ct_hw_entry ipa_ipv6ct_rule := {|
  entry_zero := zero_ct_entry;
  entry_is_valid := ct_entry_is_valid;
  entry_get_next_index := ct_entry_get_next_index;
  entry_get_prev_index := ct_entry_get_prev_index;
  entry_set_prev_index := ct_entry_set_prev_index;
  entry_head_insert := ct_entry_head_insert;
  entry_tail_insert := ct_entry_tail_insert;
  entry_get_delete_head_dma_command_data := ct_entry_get_delete_head_dma_command_data;
|}.

(** ** The hardware's view of the table

    A DMA command writes 16 bits at an offset from the start of a part. *)

(** The 16 bits number [k] of a word are [d]. *)
Definition set_lane (k d x : Z) : Z := Z.lor (Z.ldiff x (Z.shiftl 65535 (16 * k))) (Z.shiftl d (16 * k)).

(** A 16-bit store at byte [off] of a record, by the layout of the struct. *)
Definition ct_store (off data : Z) (e : ipa_ipv6ct_hw_entry) : ipa_ipv6ct_hw_entry :=
  let lane := set_lane (off mod 8 / 2) data in
  match off with
  | 0 | 2 | 4 | 6 => e <| src_ipv6_lsb ::= lane |>
  | 8 | 10 | 12 | 14 => e <| src_ipv6_msb ::= lane |>
  | 16 | 18 | 20 | 22 => e <| dest_ipv6_lsb ::= lane |>
  | 24 | 26 | 28 | 30 => e <| dest_ipv6_msb ::= lane |>
  | 32 => e <| ct_uc_activation_index := wrap 13 data |> <| ct_s := wrap 1 (Z.shiftr data 13) |>
            <| ct_rsvd1 ::= fun x => Z.lor (Z.shiftl (Z.shiftr x 2) 2) (Z.shiftr data 14) |>
  | 34 => e <| ct_rsvd1 ::= fun x => Z.lor (wrap 2 x) (Z.shiftl (wrap 14 data) 2) |>
            <| ct_redirect := wrap 1 (Z.shiftr data 14) |> <| ct_enable := wrap 1 (Z.shiftr data 15) |>
  | 36 => e <| ct_time_stamp ::= set_lane 0 data |>
  | 38 => e <| ct_time_stamp ::= fun x => Z.lor (u16 x) (Z.shiftl (u8 data) 16) |>
            <| ct_protocol := u8 (Z.shiftr data 8) |>
  | 40 => e <| ct_next_index := data |>
  | 42 => e <| dest_port := data |>
  | 44 => e <| src_port := data |>
  | 46 => e <| ct_ucp := wrap 1 data |> <| ct_rsvd2 := wrap 5 (Z.shiftr data 1) |>
            <| out_allowed := wrap 1 (Z.shiftr data 6) |> <| in_allowed := wrap 1 (Z.shiftr data 7) |>
            <| ct_rsvd3 := u8 (Z.shiftr data 8) |>
  | 48 | 50 | 52 => e <| ct_rsvd4 ::= lane |>
  | 54 => e <| ct_prev_index := data |>
  | 56 | 58 | 60 | 62 => e <| ct_rsvd5 ::= lane |>
  | _ => e
  end.

Definition ct_memory : Type := list ipa_ipv6ct_hw_entry.

(** The store of one command, for a table with [base] records in the base part. *)
Definition ct_dma_store (base : Z) (m : ct_memory) (one : ipa_ioc_nat_dma_one) : ct_memory :=
  let at_entry start := alter_rec (ct_store (dma_offset one mod 64) (dma_data one)) (start + dma_offset one / 64) m in
  match base_addr one with
  | IPA_IPV6CT_BASE_TBL => at_entry 0
  | IPA_IPV6CT_EXPN_TBL => at_entry base
  | _ => m
  end.

(** ** The state of the library *)

(** The system behind the library: its calls, the memory it maps, and the
    effect of DMA commands. *)
Record ct_system := mkCtSystem {
  ct_calls_of :> ipa_calls;
  ct_mmap_mem : ct_memory;
  ct_table_dma : Z -> list ipa_ioc_nat_dma_one -> ct_memory -> ct_memory;
}.

Record ipa_ipv6ct_table := mkCtTable {
  ct_mem_desc : ipa_mem_descriptor;
  ct_table : ipa_table ipa_ipv6ct_hw_entry;
}.

#[export] Instance eta_ct_table : Eta ipa_ipv6ct_table.
Proof. refine (mkEta _ (fun t => mkCtTable (ct_mem_desc t) (ct_table t)) _). by intros []. Defined.

Definition zero_ct_table : ipa_ipv6ct_table :=
  mkCtTable zero_mem_desc (mkTable 0 0 0 0 0 0 0 0 0 None None 0 []).

(** The dimensions of the table as the hardware is told. *)
Record ipa_ioc_ipv6ct_init := mkCtInit {
  base_table_offset : Z;
  expn_table_offset : Z;
  ct_init_entries : Z;
  ct_init_expn_entries : Z;
  ct_tbl_index : Z;
}.

(** The variable [ipv6ct] of the library, with the command that is being made,
    the initialisation commands that were sent, and the system.  The descriptor
    of the device is whether the hardware is of version 4.0 or later. *)
Record ipa_ipv6ct := mkCt {
  ct_desc : option bool;
  ct_tables : list ipa_ipv6ct_table;
  ct_table_cnt : Z;
  ct_cmd : ipa_ioc_nat_dma_cmd;
  ct_posted : list ipa_ioc_ipv6ct_init;
  ct_sys : ct_system;
  ct_sys_calls : nat;
}.

#[export] Instance eta_ct : Eta ipa_ipv6ct.
Proof.
  refine (mkEta _ (fun n => mkCt (ct_desc n) (ct_tables n) (ct_table_cnt n) (ct_cmd n) (ct_posted n) (ct_sys n)
    (ct_sys_calls n)) _).
  by intros [].
Defined.

Definition initial_ct (sys : ct_system) : ipa_ipv6ct := mkCt None [zero_ct_table] 0 (mkDmaCmd 0 []) [] sys 0.

Abbreviation CM := (M ipa_ipv6ct).

#[export] Instance ct_caller : Caller ipa_ipv6ct.
Proof.
  refine {| calls := fun n => ct_sys n; call_count := ct_sys_calls;
            ticks := fun k n => n <| ct_sys_calls ::= fun c => (k + c)%nat |> |}.
  - done.
  - done.
  - intros j k n. unfold upd. cbn. by rewrite Nat.add_assoc.
Defined.

(** The table [tables[i]]. *)
Definition ct_get (i : Z) : CM ipa_ipv6ct_table := fun n => liftO OutOfBounds (zget (ct_tables n) i) n.

Definition ct_put (i : Z) (t : ipa_ipv6ct_table) : CM unit := fun n =>
  match zset (ct_tables n) i t with
  | Some l => Done (tt, n <| ct_tables := l |>)
  | None => Fault OutOfBounds
  end.

Definition ct_upd (i : Z) (f : ipa_ipv6ct_table -> ipa_ipv6ct_table) : CM unit := t ← ct_get i; ct_put i (f t).

(** Runs an operation of [ipa_table.c] on the table and the command. *)
Definition on_ct {A} (i : Z) (m : M (tstate ipa_ipv6ct_hw_entry) A) : CM A := fun n =>
  (t ← ct_get i;
   c ← gets ct_cmd;
   match m (mkT (ct_table t) c) with
   | Done (a, ts) =>
       ct_put i (t <| ct_table := tbl ts |>) ;;
       modify (fun n => n <| ct_cmd := cmd ts |>) ;;
       mret a
   | Fault f => failM f
   end) n.

(** The test [ipv6ct.ipa_desc->ver < IPA_HW_v4_0], negated. *)
Definition ct_supported : CM bool := n ← getM; liftO NullDeref (ct_desc n).

(** ** Creating and destroying a table *)

Definition ipa_ipv6ct_create_table_dma_cmd_helpers (table_indx : Z) (t : ipa_ipv6ct_table) : ipa_ipv6ct_table :=
  let helper f := ipa_table_dma_cmd_helper_init table_indx IPA_IPV6CT_BASE_TBL IPA_IPV6CT_EXPN_TBL
                    (u32 (addr_offset (ct_mem_desc t) + f)) in
  t <| ct_table ::= fun t => t <| dma_help_of := Some (mkHelps
         (helper IPA_IPV6CT_RULE_FLAG_FIELD_OFFSET) (helper IPA_IPV6CT_RULE_NEXT_FIELD_OFFSET)
         (helper IPA_IPV6CT_RULE_PROTO_FIELD_OFFSET)) |> |>.

(** Runs a calculation of [ipa_table.c] on the table. *)
Definition ct_calc {A} (i : Z) (m : M (ipa_table ipa_ipv6ct_hw_entry) A) : CM A := fun n =>
  (t ← ct_get i;
   match m (ct_table t) with
   | Done (a, t') => ct_put i (t <| ct_table := t' |>) ;; mret a
   | Fault f => failM f
   end) n.

Definition ipa_ipv6ct_create_table (i number_of_entries table_index : Z) : CM Z :=
  ct_upd i (fun t => t <| ct_table := ipa_table_init IPA_NAT_MEM_IN_DDR sizeof_ipa_ipv6ct_hw_entry None 0 |>) ;;
  ret ← ct_calc i (ipa_table_calculate_entries_num number_of_entries IPA_NAT_MEM_IN_DDR);
  if truthy ret then mret ret else
  ct_upd i (fun t => t <| ct_mem_desc ::=
    ipa_mem_descriptor_init (ipa_table_calculate_size (ct_table t)) table_index false |>) ;;
  t ← ct_get i;
  '(ret, d) ← ipa_mem_descriptor_allocate_memory (ct_mem_desc t);
  ct_upd i (fun t => t <| ct_mem_desc := d |>) ;;
  if truthy ret then ct_upd i (fun _ => zero_ct_table) ;; mret ret else
  ct_calc i (ipa_table_calculate_addresses (mem_base_addr d)) ;;
  n ← getM;
  ct_upd i (fun t => t <| ct_table ::= fun t => t <| recs := ct_mmap_mem (ct_sys n) |> |>) ;;
  on_ct i ipa_table_reset ;;
  ct_upd i (ipa_ipv6ct_create_table_dma_cmd_helpers table_index) ;;
  mret 0.

Definition ipa_ipv6ct_destroy_table (i : Z) : CM Z :=
  t ← ct_get i;
  '(ret, _) ← ipa_mem_descriptor_delete (ct_mem_desc t);
  ct_upd i (fun _ => zero_ct_table) ;;
  mret ret.

Definition ct_init_cmd (t : ipa_ipv6ct_table) (tbl_index : Z) : ipa_ioc_ipv6ct_init :=
  let base := addr_offset (ct_mem_desc t) in
  mkCtInit base (u32 (base + table_entries (ct_table t) * sizeof_ipa_ipv6ct_hw_entry))
    (u16 (table_entries (ct_table t) - 1)) (expn_table_entries (ct_table t)) tbl_index.

Definition ipa_ipv6ct_post_init_cmd (i tbl_index : Z) : CM Z :=
  t ← ct_get i;
  modify (fun n => n <| ct_posted ::= fun l => l ++ [ct_init_cmd t tbl_index] |>) ;;
  sys_call.

(** The commands go to the kernel; the hardware executes them on the memory of
    the table. *)
Definition ipa_ipv6ct_post_dma_cmd (i : Z) : CM Z :=
  ret ← sys_call;
  if truthy ret then mret (- EIO) else
  n ← getM;
  ct_upd i (fun t => t <| ct_table ::= fun t => t <| recs := ct_table_dma (ct_sys n) (table_entries t) (dma (ct_cmd n)) (recs t) |> |>) ;;
  mret 0.

(** The label [bail_ipa_desc]: the device is closed when no table is left. *)
Definition ct_close_unused : CM unit :=
  modify (fun n => if negb (truthy (ct_table_cnt n)) then n <| ct_desc := None |> else n).

(** An argument [bool] tells whether a pointer for a result is not null.  The
    return value and the handle of the table. *)
Definition ipa_ipv6ct_add_tbl (number_of_entries : Z) (table_handle : bool) : CM (Z * Z) :=
  if negb table_handle || (number_of_entries =? 0) then mret (- EINVAL, 0) else
  i ← gets ct_table_cnt;
  if IPA_IPV6CT_MAX_TBLS <=? i then mret (- EINVAL, 0) else
  desc ← gets ct_desc;
  opened ← match desc with
           | Some _ => mret true
           | None => d ← ipa_descriptor_open; modify (fun n => n <| ct_desc := d |>) ;; mret (bool_decide (d <> None))
           end;
  if negb (opened : bool) then mret (- EIO, 0) else
  supported ← ct_supported;
  if negb supported then ct_close_unused ;; mret (- EPERM, 0) else
  ret ← ipa_ipv6ct_create_table i number_of_entries i;
  if truthy ret then ct_close_unused ;; mret (ret, 0) else
  ret ← ipa_ipv6ct_post_init_cmd i i;
  if truthy ret then ipa_ipv6ct_destroy_table i ;; ct_close_unused ;; mret (ret, 0) else
  modify (fun n => n <| ct_table_cnt ::= fun x => u8 (x + 1) |>) ;;
  handle ← gets ct_table_cnt;
  mret (0, handle).

Definition ct_bad_handle (table_handle : Z) : bool :=
  (table_handle =? IPA_TABLE_INVALID_ENTRY) || (IPA_IPV6CT_MAX_TBLS <? table_handle).

Definition ipa_ipv6ct_del_tbl (table_handle : Z) : CM Z :=
  supported ← ct_supported;
  if negb supported then mret (- EINVAL) else
  if ct_bad_handle table_handle then mret (- EINVAL) else
  lock ← pthread_mutex_lock;
  if truthy lock then mret (- EINVAL) else
  t ← ct_get (table_handle - 1);
  ret ← (if negb (valid (ct_mem_desc t)) then mret (- EINVAL) else
         ret ← ipa_ipv6ct_destroy_table (table_handle - 1);
         if truthy ret then mret ret else
         modify (fun n => n <| ct_table_cnt ::= fun x => u8 (x - 1) |>) ;;
         ct_close_unused ;; mret 0);
  unlock ← pthread_mutex_unlock;
  mret (if truthy unlock then (if truthy ret then ret else - EPERM) else ret).

(** ** Rules *)

Definition ct_new_cmd (room : nat) : CM unit := modify (fun n => n <| ct_cmd := mkDmaCmd room [] |>).

(** The part of the addition between the locks. *)
Definition ct_add_rule_locked (i : Z) (user_rule : ipa_ipv6ct_rule) : CM (Z * Z) :=
  t ← ct_get i;
  if negb (valid (ct_mem_desc t)) then mret (- EINVAL, 0) else
  ct_new_cmd IPA_MAX_DMA_ENTRIES_FOR_ADD ;;
  hash ← liftO Diverges (ipa_ipv6ct_hash user_rule (u16 (table_entries (ct_table t) - 1)));
  '(ret, new_entry_index, new_entry_handle) ← on_ct i (ipa_table_add_entry user_rule hash);
  if truthy ret then mret (ret, 0) else
  ret ← ipa_ipv6ct_post_dma_cmd i;
  if truthy ret then on_ct i (ipa_table_erase_entry new_entry_index) ;; mret (ret, 0)
  else mret (0, new_entry_handle).

(** The return value and the handle of the rule, which is written only when
    the rule was added and the mutex released. *)
Definition ipa_ipv6ct_add_rule (table_handle : Z) (user_rule : option ipa_ipv6ct_rule) (rule_handle : bool) : CM (Z * Z) :=
  supported ← ct_supported;
  if negb supported then mret (- EINVAL, 0) else
  match user_rule with
  | None => mret (- EINVAL, 0)
  | Some r =>
      if ct_bad_handle table_handle || negb rule_handle then mret (- EINVAL, 0) else
      if r_protocol r =? IPA_IPV6CT_INVALID_PROTO_FIELD_CMP then mret (- EINVAL, 0) else
      lock ← pthread_mutex_lock;
      if truthy lock then mret (- EINVAL, 0) else
      '(ret, hdl) ← ct_add_rule_locked (table_handle - 1) r;
      unlock ← pthread_mutex_unlock;
      mret (if truthy ret then (ret, 0) else if truthy unlock then (- EPERM, 0) else (0, hdl))
  end.

(** The part of the deletion between the locks. *)
Definition ct_del_rule_locked (i rule_handle : Z) : CM Z :=
  t ← ct_get i;
  if negb (valid (ct_mem_desc t)) then mret (- EINVAL) else
  r ← on_ct i (ipa_table_get_entry rule_handle);
  match r with
  | inl ret => mret ret
  | inr index =>
      '(ret, it) ← on_ct i (ipa_table_iterator_init index index);
      if truthy ret then mret ret else
      ct_new_cmd IPA_MAX_DMA_ENTRIES_FOR_DEL ;;
      on_ct i (ipa_table_create_delete_command it) ;;
      ret ← ipa_ipv6ct_post_dma_cmd i;
      if truthy ret then mret ret else
      if negb (ipa_table_iterator_is_head_with_tail it) then
        is_prev_empty ← match prev_entry it with
                        | None => mret false
                        | Some p => e ← on_ct i (get_rec p); mret (ct_protocol e =? IPA_IPV6CT_INVALID_PROTO_FIELD_CMP)
                        end;
        on_ct i (ipa_table_delete_entry it is_prev_empty) ;; mret 0
      else mret 0
  end.

Definition ipa_ipv6ct_del_rule (table_handle rule_handle : Z) : CM Z :=
  supported ← ct_supported;
  if negb supported then mret (- EINVAL) else
  if ct_bad_handle table_handle || (rule_handle =? IPA_TABLE_INVALID_ENTRY) then mret (- EINVAL) else
  lock ← pthread_mutex_lock;
  if truthy lock then mret (- EINVAL) else
  ret ← ct_del_rule_locked (table_handle - 1) rule_handle;
  unlock ← pthread_mutex_unlock;
  mret (if truthy unlock then (if truthy ret then ret else - EPERM) else ret).

(** The return value and the time stamp. *)
Definition ipa_ipv6ct_query_timestamp (table_handle rule_handle : Z) (time_stamp : bool) : CM (Z * Z) :=
  supported ← ct_supported;
  if negb supported then mret (- EINVAL, 0) else
  if ct_bad_handle table_handle || (rule_handle =? IPA_TABLE_INVALID_ENTRY) || negb time_stamp then mret (- EINVAL, 0) else
  lock ← pthread_mutex_lock;
  if truthy lock then mret (- EINVAL, 0) else
  '(ret, ts) ←
    (t ← ct_get (table_handle - 1);
     if negb (valid (ct_mem_desc t)) then mret (- EINVAL, 0) else
     r ← on_ct (table_handle - 1) (ipa_table_get_entry rule_handle);
     match r with
     | inl ret => mret (ret, 0)
     | inr index => e ← on_ct (table_handle - 1) (get_rec index); mret (0, ct_time_stamp e)
     end);
  unlock ← pthread_mutex_unlock;
  mret (if truthy unlock then (if truthy ret then ret else - EPERM) else ret, ts).

(** ** Micro-controller activation entries

    The entries are kept by the kernel; the functions pass them on. *)

Definition ipa_ipv6ct_add_uc_act_entry {A} (u : A) : CM Z :=
  ct_supported ;;
  ret ← sys_call;
  mret (if truthy ret then - EIO else 0).

Definition ipa_ipv6ct_del_uc_act_entry (index : Z) : CM Z :=
  ct_supported ;;
  ret ← sys_call;
  mret (if truthy ret then - EIO else 0).
