(* ===== verification/IpaIpv6Spec.v ===== *)
(** * The connections behind the table interface

    The callbacks of the connection-tracking table satisfy the contracts of
    [IpaTableSpec], [IpaTableSettle] and [IpaUnlink], so the run of every table
    operation on them is known; here are the hash, the stores of the hardware,
    and the well-formedness of a table with the connections it holds. *)

From stdpp Require Import gmap.
From S2P Require Import Prelude IpaChain IpaTable IpaTableSpec IpaTableSettle IpaUnlink IpaSystem IpaIpv6.

Local Open Scope Z_scope.

(** ** The contracts *)

Definition ct_field (h : dma_help_type) : Z :=
  match h with
  | HELP_UPDATE_HEAD => IPA_IPV6CT_RULE_FLAG_FIELD_OFFSET
  | HELP_UPDATE_ENTRY => IPA_IPV6CT_RULE_NEXT_FIELD_OFFSET
  | HELP_DELETE_HEAD => IPA_IPV6CT_RULE_PROTO_FIELD_OFFSET
  end.

Definition ct_data (e : ipa_ipv6ct_hw_entry) : ipa_ipv6ct_hw_entry := e <| ct_next_index := 0 |> <| ct_prev_index := 0 |>.

#[export] Instance ct_laws : ipa_entry_laws ipa_ipv6ct_hw_entry ipa_ipv6ct_rule.
Proof.
  refine {| meta_ok := fun m _ _ => m = None |}.
  - done.
  - intros. by eexists.
  - intros m base expn e i p Hm _ _. exists (e <| ct_prev_index := p |>), m. split; [done|]. split; [done|]. by destruct e.
Defined.

#[export] Instance ct_hw : ipa_hw_laws ipa_ipv6ct_hw_entry ipa_ipv6ct_rule.
Proof.
  refine {| hw := fun h => ct_store (ct_field h); entry_data := ct_data |}.
  - intros n e. by destruct e.
  - by intros [].
  - intros e i p m b e' m' [= <- <-]. by destruct e.
Defined.

#[export] Instance ct_marks : ipa_mark_laws ipa_ipv6ct_hw_entry ipa_ipv6ct_rule.
Proof.
  refine {| deleted := fun e => ct_protocol e =? IPA_IPV6CT_INVALID_PROTO_FIELD_CMP; mark := IPA_IPV6CT_INVALID_PROTO_FIELD_VALUE |}.
  - by intros [].
  - by intros [].
Defined.

(** ** The hash *)

(** What the unsigned types of the rule say of its fields. *)
Record rule_words (r : ipa_ipv6ct_rule) : Prop := {
  rw_src : is_word 64 (r_src_ipv6_lsb r) /\ is_word 64 (r_src_ipv6_msb r);
  rw_dest : is_word 64 (r_dest_ipv6_lsb r) /\ is_word 64 (r_dest_ipv6_msb r);
  rw_ports : is_word 16 (r_src_port r) /\ is_word 16 (r_dest_port r);
  rw_protocol : is_word 8 (r_protocol r);
}.

(** The four 16-bit segments of a 64-bit word, xored. *)
Definition segments (x : Z) : Z :=
  Z.lxor (Z.lxor (u16 x) (u16 (Z.shiftr x 16))) (Z.lxor (u16 (Z.shiftr x 32)) (u16 (Z.shiftr x 48))).

Lemma xor_segments_loop_run n : forall x acc, 0 <= x < 2 ^ (16 * Z.of_nat n) ->
  xor_segments_loop n x acc = Some (foldr (fun k a => Z.lxor a (u16 (Z.shiftr x (16 * Z.of_nat k)))) acc (rev (seq 0 n))).
Proof.
  induction n as [|n IH]; intros x acc Hx.
  - cbn in Hx. assert (x = 0) as -> by lia. done.
  - cbn [xor_segments_loop]. rewrite seq_S, rev_app_distr. change (0 + n)%nat with n.
    assert (Hfold : forall l acc, foldr (fun k a => Z.lxor a (u16 (Z.shiftr (Z.shiftr x 16) (16 * Z.of_nat k)))) acc (rev l)
      = foldr (fun k a => Z.lxor a (u16 (Z.shiftr x (16 * Z.of_nat k)))) acc (rev (map S l))).
    { induction l as [|k l IHl] using rev_ind; intros a; [done|]. rewrite map_app, !rev_app_distr. cbn [map rev app foldr].
      rewrite IHl, Z.shiftr_shiftr by lia. do 3 f_equal. lia. }
    assert (Hseq : foldr (fun k a => Z.lxor a (u16 (Z.shiftr x (16 * Z.of_nat k)))) acc (rev [n] ++ rev (seq 0 n))
      = foldr (fun k a => Z.lxor a (u16 (Z.shiftr (Z.shiftr x 16) (16 * Z.of_nat k)))) (Z.lxor acc (Z.land x 65535)) (rev (seq 0 n))).
    { rewrite Hfold, <- rev_app_distr. rewrite <- seq_S. cbn [seq]. rewrite <- seq_shift. cbn [rev]. rewrite foldr_app. cbn [foldr].
      change 65535 with (Z.ones 16). rewrite Z.land_ones by lia. by rewrite Z.shiftr_0_r. }
    destruct (Z.eqb_spec x 0) as [->|Hne].
    + f_equal. clear. induction (rev [n] ++ rev (seq 0 n)) as [|k l IH]; [done|]. cbn [foldr].
      rewrite <- IH, Z.shiftr_0_l. unfold wrap. by rewrite Z.mod_0_l, Z.lxor_0_r by lia.
    + rewrite Hseq. apply IH. rewrite Z.shiftr_div_pow2 by lia. split; [apply Z.div_pos; lia|].
      apply Z.div_lt_upper_bound; [lia|]. rewrite <- Z.pow_add_r by lia. replace (16 + 16 * Z.of_nat n) with (16 * Z.of_nat (S n)) by lia. apply Hx.
Qed.

Lemma xor_loop_word x : is_word 64 x -> ipa_ipv6ct_xor_segments x = Some (segments x).
Proof.
  intros Hx. unfold ipa_ipv6ct_xor_segments. rewrite (xor_segments_loop_run 4) by exact Hx. f_equal. cbn.
  rewrite Z.shiftr_0_r, Z.lxor_0_l. unfold segments. by rewrite !Z.lxor_assoc.
Qed.

(** The hash of a rule names a record of the base part after the first. *)
Lemma ct_hash_range r size :
  rule_words r -> 1 <= size -> exists h, ipa_ipv6ct_hash r size = Some h /\ 1 <= h <= size.
Proof.
  intros [[H1 H2] [H3 H4] _ _] Hs. unfold ipa_ipv6ct_hash. rewrite !xor_loop_word by done. cbn [mbind option_bind].
  eexists. split; [reflexivity|]. by apply masked_hash.
Qed.

(** The rule of the packets in the other direction. *)
Definition reverse_rule (r : ipa_ipv6ct_rule) : ipa_ipv6ct_rule :=
  mkCtRule (r_dest_ipv6_lsb r) (r_dest_ipv6_msb r) (r_src_ipv6_lsb r) (r_src_ipv6_msb r) (r_direction_settings r)
    (r_ucp r) (r_s r) (r_uc_activation_index r) (r_dest_port r) (r_src_port r) (r_protocol r).

(** The hash over the fields, with the segments of the addresses written out. *)
Definition ct_hash_spec (r : ipa_ipv6ct_rule) (size : Z) : Z :=
  let fields := [segments (r_src_ipv6_lsb r); segments (r_src_ipv6_msb r); segments (r_dest_ipv6_lsb r);
                 segments (r_dest_ipv6_msb r); r_src_port r; r_dest_port r; r_protocol r] in
  let h := Z.land (foldr Z.lxor 0 fields) size in
  if h =? 0 then size else h.

(** The hash is computed for every rule (the loops over the segments end),
    it is the masked exclusive or of the 16-bit segments of the four words of
    the addresses with the ports and the protocol, with the size of the mask in
    place of 0, so it names a record of the base part after the unused first;
    and a connection and its reverse have the same hash. *)
Theorem ipv6ct_hash_spec r size :
  rule_words r -> 1 <= size ->
  ipa_ipv6ct_hash r size = Some (ct_hash_spec r size) /\ 1 <= ct_hash_spec r size <= size /\
  ct_hash_spec (reverse_rule r) size = ct_hash_spec r size.
Proof.
  intros [[H1 H2] [H3 H4] _ _] Hs. unfold ipa_ipv6ct_hash. rewrite !xor_loop_word by done. cbn [mbind option_bind].
  split; [|split; [by apply masked_hash|]]; unfold ct_hash_spec; cbn [foldr].
  - f_equal. rewrite Z.lxor_0_l, Z.lxor_0_r, !Z.lxor_assoc. done.
  - unfold reverse_rule. cbn [r_src_ipv6_lsb r_src_ipv6_msb r_dest_ipv6_lsb r_dest_ipv6_msb r_src_port r_dest_port r_protocol].
    assert (Hx : forall a b c d e f g, Z.lxor a (Z.lxor b (Z.lxor c (Z.lxor d (Z.lxor e (Z.lxor f g)))))
      = Z.lxor c (Z.lxor d (Z.lxor a (Z.lxor b (Z.lxor f (Z.lxor e g)))))).
    { intros a b c d e f g. apply Z.bits_inj'. intros n _. rewrite !Z.lxor_spec.
      by destruct (Z.testbit a n), (Z.testbit b n), (Z.testbit c n), (Z.testbit d n), (Z.testbit e n), (Z.testbit f n), (Z.testbit g n). }
    rewrite (Hx (segments (r_dest_ipv6_lsb r))). done.
Qed.

Lemma ipv6ct_hash_spec_witness :
  let r := mkCtRule 1 (2 ^ 64 - 1) 3 4 IPA_IPV6CT_DIRECTION_ALLOW_ALL false false 0 443 50000 6 in
  rule_words r /\ ipa_ipv6ct_hash r 4095 = Some (ct_hash_spec r 4095) /\ 1 <= ct_hash_spec r 4095 <= 4095 /\
  ct_hash_spec (reverse_rule r) 4095 = ct_hash_spec r 4095.
Proof.
  cbv zeta. assert (Hw : rule_words (mkCtRule 1 (2 ^ 64 - 1) 3 4 IPA_IPV6CT_DIRECTION_ALLOW_ALL false false 0 443 50000 6))
    by (split; unfold is_word; cbn; lia).
  split; [exact Hw|]. exact (ipv6ct_hash_spec _ 4095 Hw ltac:(lia)).
Defined.

(** ** DMA commands *)

Definition ct_helps (k : Z) : dma_helps :=
  let h f := mkHelper (ct_field f) IPA_IPV6CT_BASE_TBL IPA_IPV6CT_EXPN_TBL k in
  mkHelps (h HELP_UPDATE_HEAD) (h HELP_UPDATE_ENTRY) (h HELP_DELETE_HEAD).

(** A command names a 16-bit word of a record of the table. *)
Definition ct_dma_in_range (base : Z) (m : ct_memory) (one : ipa_ioc_nat_dma_one) : Prop :=
  0 <= dma_offset one /\
  match base_addr one with
  | IPA_IPV6CT_BASE_TBL => dma_offset one < sizeof_ipa_ipv6ct_hw_entry * base
  | IPA_IPV6CT_EXPN_TBL => dma_offset one < sizeof_ipa_ipv6ct_hw_entry * (zlen m - base)
  | _ => False
  end.

(** What the interface documents of the hardware: the commands of a buffer,
    when they are in range, are stores executed in their order. *)
Definition ct_documented_dma (sys : ct_system) : Prop := forall base cmds m,
  Forall (ct_dma_in_range base m) cmds -> ct_table_dma sys base cmds m = fold_left (ct_dma_store base) cmds m.

Lemma ct_field_range h : 0 <= ct_field h < 64.
Proof. destruct h; cbn; unfold IPA_IPV6CT_RULE_FLAG_FIELD_OFFSET, IPA_IPV6CT_RULE_NEXT_FIELD_OFFSET, IPA_IPV6CT_RULE_PROTO_FIELD_OFFSET; lia. Qed.

Section Dma.
Context (t : ipa_table ipa_ipv6ct_hw_entry) (k : Z) (Hd : dims 64 t).
Abbreviation base := (table_entries t).
Abbreviation tot := (table_entries t + expn_table_entries t).
Abbreviation ct_cmd_of w := (write_cmd t (ct_helps k) w).

Lemma ct_cmd_store w m :
  0 <= w_rec w < tot ->
  ct_dma_store base m (ct_cmd_of w) = alter_rec (ct_store (ct_field (w_help w)) (w_data w)) (w_rec w) m /\
  (zlen m = tot -> ct_dma_in_range base m (ct_cmd_of w)).
Proof using Hd.
  intros Hr. unfold write_cmd, field_cmd, ct_dma_in_range. rewrite (geo_size _ _ Hd).
  pose proof (geo_base _ _ Hd). pose proof (geo_expn _ _ Hd). pose proof (ct_field_range (w_help w)) as Hf.
  set (h := dma_help (ct_helps k) (w_help w)).
  assert (Hh : offset h = ct_field (w_help w) /\ table_type h = IPA_IPV6CT_BASE_TBL /\ expn_table_type h = IPA_IPV6CT_EXPN_TBL)
    by (unfold h; by destruct (w_help w)).
  destruct Hh as (->&->&->). unfold ct_dma_store, sizeof_ipa_ipv6ct_hw_entry.
  destruct (Z.leb_spec base (w_rec w)); cbn [base_addr dma_offset dma_data];
    edestruct (field_offset 64 (ct_field (w_help w))) as (->&->&->); try lia; (split; [|intros; lia]).
  - by replace (base + (w_rec w - base)) with (w_rec w) by lia.
  - done.
Qed.

Lemma ct_post_cmds sys ws m :
  ct_documented_dma sys -> Forall (fun w => 0 <= w_rec w < tot) ws -> zlen m = tot ->
  ct_table_dma sys base (map (write_cmd t (ct_helps k)) ws) m = hw_cmds ws m.
Proof using Hd.
  intros Hsys Hws Hm. rewrite Hsys.
  - clear Hm. revert m. induction Hws as [|w ws Hw Hws IH]; intros m; [done|]. cbn [map fold_left].
    destruct (ct_cmd_store w m Hw) as [-> _]. by rewrite IH.
  - apply Forall_map. eapply Forall_impl; [exact Hws|]. intros w Hw. by apply ct_cmd_store.
Qed.

End Dma.

(** ** The connections of a table *)

(** The entry as it is stored for a user. *)
Definition stored_entry (r : ipa_ipv6ct_rule) : option ipa_ipv6ct_hw_entry :=
  let '(ret, e) := ct_entry_copy_from_user zero_ct_entry r in
  if truthy ret then None else Some (e <| ct_enable := 1 |>).

Definition direction_ok (r : ipa_ipv6ct_rule) : Prop := 0 <= r_direction_settings r <= 3.

Lemma copy_entry r :
  direction_ok r ->
  exists e, ct_entry_copy_from_user zero_ct_entry r = (0, e) /\ ct_next_index e = 0 /\ ct_prev_index e = 0 /\
    ct_enable e = 0 /\ ct_rsvd1 e = 0 /\ ct_redirect e = 0 /\ ct_protocol e = r_protocol r.
Proof.
  unfold direction_ok, ct_entry_copy_from_user. intros Hd.
  assert (Hc : r_direction_settings r = 0 \/ r_direction_settings r = 1 \/ r_direction_settings r = 2 \/ r_direction_settings r = 3) by lia.
  destruct Hc as [-> | [-> | [-> | ->]]]; by eexists.
Qed.

(** The command that enables a new record changes nothing else. *)
Lemma enabled_entry (e e0 : ipa_ipv6ct_hw_entry) :
  ct_data e = ct_data e0 -> ct_rsvd1 e0 = 0 -> ct_redirect e0 = 0 ->
  let e' := ct_store IPA_IPV6CT_RULE_FLAG_FIELD_OFFSET ct_new_flags e in
  ct_enable e' = 1 /\ ct_next_index e' = ct_next_index e /\ ct_prev_index e' = ct_prev_index e /\
  ct_protocol e' = ct_protocol e /\ ct_data e' = ct_data (e0 <| ct_enable := 1 |>).
Proof.
  intros He Hr Hd e'. do 4 (split; [by destruct e|]).
  transitivity ((ct_data e) <| ct_rsvd1 ::= fun x => Z.lor (wrap 2 x) 0 |> <| ct_redirect := 0 |> <| ct_enable := 1 |>).
  { by destruct e. }
  rewrite He. destruct e0. cbn in Hr, Hd. subst. done.
Qed.

(** A table with the lists [ch] holds the connections [m]. *)
Record ct_wf (T : ipa_ipv6ct_table) (m : gmap Z ipa_ipv6ct_hw_entry) (ch : gmap Z (list Z)) (k : Z) : Prop := {
  cw_valid : valid (ct_mem_desc T) = true;
  cw_table : table_ok sizeof_ipa_ipv6ct_hw_entry (ct_table T) ch;
  cw_helps : dma_help_of (ct_table T) = Some (ct_helps k);
  cw_nmi : nmi (ct_table T) = IPA_NAT_MEM_IN_DDR;
  cw_dead : marked_heads (ct_table T) ch;
  cw_rep : forall i, m !! i = alive_at (data_at (ct_table T)) i;
}.

Definition ct_ok (T : ipa_ipv6ct_table) (m : gmap Z ipa_ipv6ct_hw_entry) : Prop := exists ch k, ct_wf T m ch k.

Definition ct_sizes (T : ipa_ipv6ct_table) : Z * Z := (table_entries (ct_table T), expn_table_entries (ct_table T)).
