(* ===== verification/IpaIpv6Rules.v ===== *)
(** * Adding and deleting connections

    The runs of the additions and deletions between the locks, on a table that
    holds a set of connections, for every answer of the kernel: the connection
    is stored or removed, or the table holds what it held. *)

From stdpp Require Import gmap.
From S2P Require Import Prelude IpaChain IpaTable IpaTableSpec IpaTableSettle IpaUnlink IpaSystem IpaStoreSpec IpaIpv6 IpaIpv6Spec.

Local Open Scope Z_scope.

(** ** The table within the state *)

(** The state with a table and a command in their place. *)
Definition ct_with (T : ipa_ipv6ct_table) (cm : ipa_ioc_nat_dma_cmd) (n : ipa_ipv6ct) : ipa_ipv6ct :=
  n <| ct_tables := [T] |> <| ct_cmd := cm |>.

(** What the operations on rules keep. *)
Record ct_frame (n n' : ipa_ipv6ct) : Prop := {
  cf_desc : ct_desc n' = ct_desc n;
  cf_cnt : ct_table_cnt n' = ct_table_cnt n;
  cf_posted : ct_posted n' = ct_posted n;
  cf_sys : ct_sys n' = ct_sys n;
}.

#[export] Instance ct_frame_preorder : PreOrder ct_frame.
Proof.
  split; [by intros n; split|]. intros a b c [H1 H2 H3 H4] [G1 G2 G3 G4]. split; congruence.
Qed.

Lemma frame_ticks j n : ct_frame n (ticks j n).
Proof. by split. Qed.

Section At.
Context (T : ipa_ipv6ct_table) (cm : ipa_ioc_nat_dma_cmd) (n : ipa_ipv6ct).
Abbreviation here := (ct_with T cm n).

Lemma ct_with_same : ct_tables n = [T] -> n = ct_with T (ct_cmd n) n.
Proof using Type. intros H. unfold ct_with, upd. cbn. rewrite <- H. by destruct n. Qed.

Lemma ct_get_then {B} (k : ipa_ipv6ct_table -> CM B) : (ct_get 0 ≫= k) here = k T here.
Proof using Type. done. Qed.

Lemma ct_upd_then {B} f (k : unit -> CM B) : (ct_upd 0 f ≫= k) here = k tt (ct_with (f T) cm n).
Proof using Type. done. Qed.

Lemma on_ct_run {A} (m : M (tstate ipa_ipv6ct_hw_entry) A) a t' cm' :
  m (mkT (ct_table T) cm) = Done (a, mkT t' cm') -> on_ct 0 m here = Done (a, ct_with (T <| ct_table := t' |>) cm' n).
Proof using Type.
  intros Hm. unfold on_ct. rewrite ct_get_then. change ((gets ct_cmd ≫= ?k) here) with (k cm here). cbv beta. by rewrite Hm.
Qed.

Lemma on_ct_then {A B} (m : M (tstate ipa_ipv6ct_hw_entry) A) a t' cm' (k : A -> CM B) :
  m (mkT (ct_table T) cm) = Done (a, mkT t' cm') ->
  (on_ct 0 m ≫= k) here = k a (ct_with (T <| ct_table := t' |>) cm' n).
Proof using Type. intros Hm. apply bind_run. by apply on_ct_run. Qed.

Lemma ct_same_table : T <| ct_table := ct_table T |> = T.
Proof using Type. by destruct T. Qed.

Lemma ct_post_run :
  ipa_ipv6ct_post_dma_cmd 0 here =
  if truthy (sys_ret (ct_sys n) (ct_sys_calls n)) then Done (- EIO, ct_with T cm (ticks 1 n)) else
  Done (0, ct_with (T <| ct_table ::= fun t => t <| recs := ct_table_dma (ct_sys n) (table_entries t) (dma cm) (recs t) |> |>)
             cm (ticks 1 n)).
Proof using Type.
  unfold ipa_ipv6ct_post_dma_cmd. rewrite (bind_run _ _ _ (sys_ret (ct_sys n) (ct_sys_calls n)) (ct_with T cm (ticks 1 n))) by done.
  by destruct (truthy _).
Qed.

End At.

(** ** Addition *)

Section Add.
Context (T : ipa_ipv6ct_table) (m : gmap Z ipa_ipv6ct_hw_entry) (ch : gmap Z (list Z)) (k : Z) (Hwf : ct_wf T m ch k).
Abbreviation t := (ct_table T).
Abbreviation base := (table_entries t).
Abbreviation tot := (table_entries t + expn_table_entries t).

Lemma ct_base_word : 2 <= base <= 4096 /\ u16 (base - 1) = base - 1.
Proof using Hwf.
  pose proof (geo_base _ _ (tk_geo _ _ _ (cw_table _ _ _ _ Hwf))). split; [done|]. apply wrap_small. unfold is_word. lia.
Qed.

(** When the expansion part is full there are as many connections. *)
Lemma ct_full_many : (forall j, base <= j < tot -> filled (t := t) j) -> expn_table_entries t <= Z.of_nat (size m).
Proof using Hwf.
  intros Hf. destruct Hwf as [_ Ht _ _ Hd Hr]. pose proof (geo_expn _ _ (tk_geo _ _ _ Ht)).
  assert (Hlen : Z.of_nat (length (seqZ base (expn_table_entries t))) = expn_table_entries t) by (rewrite length_seqZ; lia).
  rewrite <- Hlen. apply many_keys; [apply NoDup_seqZ|]. intros j Hj. apply elem_of_seqZ in Hj.
  destruct (Hf j ltac:(lia)) as [[a b] Hv]. destruct (view_Some _ _ _ Hv) as (e&He&Hval&_).
  destruct (mark_data_live t j e He) as [Hdj Hlj]. exists (ct_data e). rewrite Hr. apply alive_at_Some. split; [done|].
  destruct (live_rec (entry_data e)) eqn:Hdead; [done|].
  destruct (Hd j _ Hdj ltac:(by rewrite law_data_valid) Hdead) as (x&es&Hes).
  destruct (ck_head _ _ _ _ (tk_chains _ _ _ Ht) j _ Hes) as (?&_). lia.
Qed.

(** A new record that the hardware enables. *)
Lemma ct_new e0 et r t1 ws e1 :
  let fin := hw HELP_UPDATE_HEAD ct_new_flags in
  grown (size := sizeof_ipa_ipv6ct_hw_entry) (t := t) (ch := ch) e0 et ct_new_flags r t1 ws e1 fin ->
  ct_data e1 = ct_data e0 -> ct_rsvd1 e0 = 0 -> ct_redirect e0 = 0 -> ct_protocol e0 <> IPA_IPV6CT_INVALID_PROTO_FIELD_CMP ->
  m !! r = None /\
  ct_ok (T <| ct_table := settle ws t1 |>) (<[r := ct_data (e0 <| ct_enable := 1 |>)]> m).
Proof using Hwf.
  intros fin Hg He Hr Hd Hp. destruct Hwf as [Hv Ht Hh Hn Hdead Hrep]. pose proof (gr_range _ _ _ _ _ _ _ _ Hg) as Hrr.
  destruct (enabled_entry e1 e0 He Hr Hd) as (Hen&Hnx&Hpv&Hpr&Hdata).
  change (ct_store _ _ e1) with (fin e1) in Hen, Hnx, Hpv, Hpr, Hdata.
  destruct (gr_settle _ _ _ _ _ _ _ _ Hg e1) as (ch'&Hok&Hrec&Hother&Hch).
  { change (truthy (ct_enable (fin e1)) = true). by rewrite Hen. }
  { change (ct_next_index (fin e1) = 0). rewrite Hnx. exact (gr_next _ _ _ _ _ _ _ _ Hg). }
  { intros mm. change (Some (ct_prev_index (fin e1)) = Some (ct_prev_index e1)). by rewrite Hpv. }
  rewrite (set_rec_id _ _ _ (gr_rec _ _ _ _ _ _ _ _ Hg)) in Hok, Hrec, Hother.
  pose proof (data_free _ _ _ r Ht (gr_free _ _ _ _ _ _ _ _ Hg) ltac:(lia)) as Hfree.
  assert (Hr1 : data_at (settle ws t1) r = Some (entry_data (fin e1))) by (unfold data_at; by rewrite Hrec).
  assert (Hlive : live_rec (entry_data (fin e1)) = true).
  { change (truthy (ct_enable (fin e1)) && negb (ct_protocol (fin e1) =? IPA_IPV6CT_INVALID_PROTO_FIELD_CMP) = true).
    rewrite Hen, Hpr.
    change (ct_protocol e1) with (ct_protocol (ct_data e1)). rewrite He. change (ct_protocol (ct_data e0)) with (ct_protocol e0).
    by apply Z.eqb_neq in Hp as ->. }
  assert (Hmr : m !! r = None).
  { rewrite Hrep. unfold alive_at. by rewrite Hfree; cbn [mbind option_bind]; rewrite dead_zero. }
  split; [done|]. pose proof (gr_shape _ _ _ _ _ _ _ _ Hg) as Hsh. injection Hsh as Hs1 Hs2 Hs3 Hs4 Hs5.
  exists ch', k. split; [done|exact Hok|by cbn; rewrite Hs5|by cbn; rewrite Hs1|..].
  - intros i f Hf Hval Hl. change (data_at (settle ws t1) i = Some f) in Hf. destruct (decide (i = r)) as [->|Hir].
    + congruence.
    + rewrite Hother in Hf by done. destruct (Hdead i f Hf Hval Hl) as (y&es&Hes). destruct (Hch i _ Hes) as [es' ->]. by eexists _, _.
  - intros i. change (data_at (ct_table (T <| ct_table := settle ws t1 |>))) with (data_at (settle ws t1)).
    destruct (decide (i = r)) as [->|Hir].
    + rewrite lookup_insert_eq. symmetry. apply alive_at_Some. split; [|by rewrite <- Hdata].
      rewrite Hr1. f_equal. exact Hdata.
    + rewrite lookup_insert_ne, Hrep by done. unfold alive_at. by rewrite Hother.
Qed.

(** The records are as before. *)
Lemma ct_restore t' :
  table_ok sizeof_ipa_ipv6ct_hw_entry t' ch -> recs t' = recs t -> shape t' = shape t ->
  ct_ok (T <| ct_table := t' |>) m.
Proof using Hwf.
  intros Ht' Hrec Hsh. destruct Hwf as [Hv Ht Hh Hn Hdead Hrep]. injection Hsh as Hs1 Hs2 Hs3 Hs4 Hs5.
  assert (Hd : data_at t' = data_at t) by (unfold data_at; by rewrite Hrec).
  exists ch, k. split; [done|exact Ht'|by cbn; rewrite Hs5|by cbn; rewrite Hs1|..].
  - unfold marked_heads. cbn. by rewrite Hd.
  - intros i. cbn. by rewrite Hd.
Qed.

End Add.

(** What becomes of a new connection: it is stored at a free index, the
    expansion part is full, or the kernel did not take the commands. *)
Inductive ct_added (n : ipa_ipv6ct) (T : ipa_ipv6ct_table) (m : gmap Z ipa_ipv6ct_hw_entry) (u : ipa_ipv6ct_rule)
    : Z -> Z -> ipa_ipv6ct_table -> Prop :=
| ct_stored r e T' :
    m !! r = None -> stored_entry u = Some e -> 1 <= r < table_entries (ct_table T) + expn_table_entries (ct_table T) ->
    ct_ok T' (<[r := e]> m) -> ct_added n T m u 0 (MakeEntryHdl (ct_table T) r) T'
| ct_no_room T' : expn_table_entries (ct_table T) <= Z.of_nat (size m) -> ct_ok T' m -> ct_added n T m u (- 1) 0 T'
| ct_not_posted T' : sys_ret (ct_sys n) (ct_sys_calls n) <> 0 -> ct_ok T' m -> ct_added n T m u (- EIO) 0 T'.

(** The rules a user may give: values of the types of the fields, with one of
    the four directions. *)
Definition acceptable (u : ipa_ipv6ct_rule) : Prop := rule_words u /\ direction_ok u.

Lemma ct_data_stored u e0 :
  ct_entry_copy_from_user zero_ct_entry u = (0, e0) -> ct_next_index e0 = 0 -> ct_prev_index e0 = 0 ->
  stored_entry u = Some (ct_data (e0 <| ct_enable := 1 |>)).
Proof.
  intros Hc Hn Hp. unfold stored_entry. rewrite Hc. change (truthy 0) with false. cbn iota. f_equal.
  destruct e0. cbn in *. by subst.
Qed.

Lemma ct_add_run T m u n cm :
  ct_ok T m -> ct_documented_dma (ct_sys n) -> acceptable u -> r_protocol u <> IPA_IPV6CT_INVALID_PROTO_FIELD_CMP ->
  exists ret hdl T' cm' n',
    ct_add_rule_locked 0 u (ct_with T cm n) = Done ((ret, hdl), ct_with T' cm' n') /\
    ct_added n T m u ret hdl T' /\ ct_sizes T' = ct_sizes T /\ ct_frame n n'.
Proof.
  intros (ch&k&Hwf) Hdma [Hw Hdir] Hp. pose proof Hwf as [Hv Ht Hh _ _ _].
  destruct (ct_base_word T m ch k Hwf) as [Hb Hbw]. destruct (copy_entry u Hdir) as (e0&Hc&Hn0&Hp0&_&Hr0&Hd0&Hpr).
  unfold ct_add_rule_locked. rewrite ct_get_then, Hv. cbn [negb]. unfold ct_new_cmd. rewrite modify_run.
  set (c0 := mkDmaCmd IPA_MAX_DMA_ENTRIES_FOR_ADD []). change (upd ct_cmd _ (ct_with T cm n)) with (ct_with T c0 n).
  rewrite Hbw. destruct (ct_hash_range u (table_entries (ct_table T) - 1) Hw ltac:(lia)) as (h&Hh'&Hhr).
  rewrite (liftO_run _ _ _ _ h) by done.
  assert (Hhead : entry_head_insert entry_zero u = Some (0, e0, ct_new_flags)) by (cbn; unfold ct_entry_head_insert; by rewrite Hc).
  assert (Htail : entry_tail_insert entry_zero u = Some (0, e0 <| ct_enable := 1 |>)) by (cbn; unfold ct_entry_tail_insert; by rewrite Hc).
  pose proof (add_entry_run Ht c0 (ct_helps k) u h _ _ _ ltac:(lia) Hh ltac:(cbn; unfold IPA_MAX_DMA_ENTRIES_FOR_ADD; lia) Hhead Htail) as Hadd.
  destruct (added_grown Ht c0 (ct_helps k) h e0 (e0 <| ct_enable := 1 |>) ct_new_flags ltac:(lia) Hn0 ltac:(by destruct e0)
    ltac:(cbn; unfold ct_entry_get_prev_index; by rewrite Hp0) _ Hadd) as [(es&_&Hfull&Hrun)|(r&t1&ws&e1&fin&Hrun&Hg)];
    rewrite (on_ct_then _ _ _ _ _ _ _ _ Hrun); cbv beta iota.
  - change (truthy (- 1)) with true. cbn iota. exists (- 1), 0, T, c0, n. rewrite ct_same_table. split; [done|].
    split; [|done]. apply ct_no_room; [by apply (ct_full_many T m ch k Hwf)|by exists ch, k].
  - change (truthy 0) with false. cbn iota.
    destruct (gr_fin _ _ _ _ _ _ _ _ Hg) as [[-> Hdat]|[Hm _]]; [|exfalso; apply Hm; apply (geo_meta _ _ (tk_geo _ _ _ Ht))].
    pose proof (gr_shape _ _ _ _ _ _ _ _ Hg) as Hsh. pose proof Hsh as Hsh'. injection Hsh' as _ Hs2 Hs3 _ _.
    set (c1 := push_all _ _ _ c0). pose proof (ct_post_run (T <| ct_table := t1 |>) c1 n) as Hpost.
    destruct (truthy (sys_ret (ct_sys n) (ct_sys_calls n))) eqn:Hsys; rewrite (bind_run _ _ _ _ _ Hpost); clear Hpost.
    + change (truthy (- EIO)) with true. cbn iota. apply truthy_true in Hsys.
      rewrite (on_ct_then _ _ _ _ tt (erase_state r t1) c1) by (apply erase_run; exact (zget_Some _ _ _ (gr_rec _ _ _ _ _ _ _ _ Hg))).
      exists (- EIO), 0. do 3 eexists. split; [reflexivity|]. destruct (gr_undo _ _ _ _ _ _ _ _ Hg) as [Hok Hrec].
      assert (Hsh2 : shape (erase_state r t1) = shape (ct_table T)) by (by rewrite erase_shape).
      split; [|split; [|apply frame_ticks]].
      * apply ct_not_posted; [done|]. by apply (ct_restore T m ch k Hwf).
      * unfold ct_sizes. injection Hsh2 as _ H2 H3 _ _. cbn. by rewrite H2, H3.
    + change (truthy 0) with false. cbn iota. exists 0. do 4 eexists. split; [reflexivity|].
      split; [|split; [unfold ct_sizes; cbn; by rewrite Hs2, Hs3|apply frame_ticks]].
      destruct (ct_new T m ch k Hwf _ _ _ _ _ _ Hg Hdat Hr0 Hd0 ltac:(by rewrite Hpr)) as [Hmr Hok].
      eapply ct_stored; [exact Hmr|by apply ct_data_stored|exact (gr_range _ _ _ _ _ _ _ _ Hg)|].
      assert (Hmem : ct_table_dma (ct_sys n) (table_entries t1) (dma c1) (recs t1) = hw_cmds ws (recs t1)).
      { rewrite Hs2. apply (ct_post_cmds (ct_table T) k (tk_geo _ _ _ Ht)); [done|apply Hg|].
        rewrite (geo_recs _ _ (gr_dims _ _ _ _ _ _ _ _ Hg)). congruence. }
      change (ct_ok (T <| ct_table := t1 <| recs := ct_table_dma (ct_sys n) (table_entries t1) (dma c1) (recs t1) |> |>)
        (<[r := ct_data (e0 <| ct_enable := 1 |>)]> m)).
      rewrite Hmem. exact Hok.
Qed.

(** ** Deletion *)

(** What becomes of the connection at an index: the handle names no record in
    use, the kernel did not take the command, or it is gone. *)
Inductive ct_deleted (n : ipa_ipv6ct) (T : ipa_ipv6ct_table) (m : gmap Z ipa_ipv6ct_hw_entry) (i : Z)
    : Z -> ipa_ipv6ct_table -> Prop :=
| ct_unused : m !! i = None -> ct_deleted n T m i (- EINVAL) T
| ct_kept : sys_ret (ct_sys n) (ct_sys_calls n) <> 0 -> ct_deleted n T m i (- EIO) T
| ct_removed T' :
    sys_ret (ct_sys n) (ct_sys_calls n) = 0 -> ct_ok T' (delete i m) -> ct_sizes T' = ct_sizes T -> ct_deleted n T m i 0 T'.

Section Delete.
Context (T : ipa_ipv6ct_table) (m : gmap Z ipa_ipv6ct_hw_entry) (ch : gmap Z (list Z)) (k : Z) (Hwf : ct_wf T m ch k).
Context (n : ipa_ipv6ct) (Hdma : ct_documented_dma (ct_sys n)).
Abbreviation t := (ct_table T).
Abbreviation c0 := (mkDmaCmd IPA_MAX_DMA_ENTRIES_FOR_DEL []).

(** A record that is not in use holds no connection. *)
Lemma ct_unused_none i e : zget (recs t) i = Some e -> entry_is_valid e = false -> m !! i = None.
Proof using Hwf.
  intros Hi Hv. rewrite (cw_rep _ _ _ _ Hwf). destruct (mark_data_live t i e Hi) as [Hd Hl]. unfold alive_at. rewrite Hd. cbn [mbind option_bind].
  rewrite Hl. unfold live_rec. by rewrite Hv.
Qed.

Lemma ct_outside_none i : table_entries t + expn_table_entries t <= i -> m !! i = None.
Proof using Hwf.
  intros Hi. rewrite (cw_rep _ _ _ _ Hwf). destruct (alive_at _ i) as [e|] eqn:He; [|done].
  apply alive_at_Some in He as [He _]. unfold data_at in He. destruct (zget (recs t) i) as [f|] eqn:Hf; [|done].
  pose proof (rec_range (tk_geo _ _ _ (cw_table _ _ _ _ Hwf)) i f Hf). lia.
Qed.

(** The table after a record was unlinked. *)
Lemma ct_unlinked_ok i t5 : unlinked (size := sizeof_ipa_ipv6ct_hw_entry) (t := t) i t5 ->
  ct_ok (T <| ct_table := t5 |>) (delete i m) /\ ct_sizes (T <| ct_table := t5 |>) = ct_sizes T.
Proof using Hwf.
  intros (ch5&Hok&Hsh&Hal&Hd5). destruct Hwf as [Hv Ht Hh Hn Hdead Hrep]. injection Hsh as Hs1 Hs2 Hs3 Hs4 Hs5.
  split; [|unfold ct_sizes; cbn; by rewrite Hs2, Hs3].
  exists ch5, k. split; [done|exact Hok|by cbn; rewrite Hs5|by cbn; rewrite Hs1|exact Hd5|].
  intros j. change (data_at (ct_table (T <| ct_table := t5 |>))) with (data_at t5). rewrite Hal. case_decide as Hj.
  - subst j. by rewrite lookup_delete_eq.
  - by rewrite lookup_delete_ne.
Qed.

(** The commands and the deletion, from the iterator on. *)
Lemma ct_unlink_run i e nx pv :
  zget (recs t) i = Some e -> view_of t i = Some (nx, pv) ->
  exists ret T' cm' n',
    (on_ct 0 (ipa_table_create_delete_command (iterator_at i nx pv)) ;;
     ret ← ipa_ipv6ct_post_dma_cmd 0;
     if truthy ret then mret ret else
     if negb (ipa_table_iterator_is_head_with_tail (iterator_at i nx pv)) then
       is_prev_empty ← match prev_entry (iterator_at i nx pv) with
                       | None => mret false
                       | Some p => e ← on_ct 0 (get_rec p); mret (ct_protocol e =? IPA_IPV6CT_INVALID_PROTO_FIELD_CMP)
                       end;
       on_ct 0 (ipa_table_delete_entry (iterator_at i nx pv) is_prev_empty) ;; mret 0
     else mret 0) (ct_with T c0 n) = Done (ret, ct_with T' cm' n') /\
    ct_deleted n T m i ret T' /\ ct_frame n n'.
Proof using Hwf Hdma.
  intros Hi Hv. pose proof Hwf as [_ Ht Hh _ Hdead _].
  assert (exists en, (nx <> 0 -> zget (recs t) nx = Some en)) as [en Hen].
  { destruct (view_range Ht _ _ _ Hv) as (_&Hnr&_). destruct (rec_at (tk_geo _ _ _ Ht) nx Hnr) as [en Hen]. by exists en. }
  pose proof (create_delete_run Ht c0 (ct_helps k) i nx pv e en Hv Hh ltac:(cbn; unfold IPA_MAX_DMA_ENTRIES_FOR_DEL; lia) Hi Hen) as Hcd.
  rewrite (unlink_cmd (HM := ct_marks) i e nx pv (ct_helps k) en eq_refl) in Hcd. set (w := unlink_write i nx pv) in Hcd.
  rewrite (on_ct_then _ _ _ _ _ _ _ _ Hcd), ct_same_table. set (c1 := push_dma _ c0).
  pose proof (ct_post_run T c1 n) as Hpost.
  destruct (truthy (sys_ret (ct_sys n) (ct_sys_calls n))) eqn:Hsys; rewrite (bind_run _ _ _ _ _ Hpost); clear Hpost.
  { change (truthy (- EIO)) with true. cbn iota. exists (- EIO). do 3 eexists. split; [reflexivity|].
    split; [|apply frame_ticks]. apply ct_kept. by apply truthy_true. }
  change (truthy 0) with false. cbn iota. apply truthy_false in Hsys. set (t4 := settle [w] t).
  assert (Hmem : T <| ct_table ::= fun t => t <| recs := ct_table_dma (ct_sys n) (table_entries t) (dma c1) (recs t) |> |>
    = T <| ct_table := t4 |>).
  { unfold t4, settle. pose proof (ct_post_cmds t k (tk_geo _ _ _ Ht) (ct_sys n) [w] (recs t) Hdma
      ltac:(constructor; [exact (unlink_range Ht i nx pv Hv)|done]) (geo_recs _ _ (tk_geo _ _ _ Ht))) as Hpc.
    cbn [map] in Hpc. unfold upd. cbn. change (dma c1) with [write_cmd t (ct_helps k) w]. by rewrite Hpc. }
  rewrite Hmem. destruct (unlink_run Ht Hdead i e Hi nx pv Hv c1) as (t5&Hun&Hrun). fold w in Hrun. fold t4 in Hrun.
  destruct (ct_unlinked_ok i t5 Hun) as [Hok5 Hsz5]. set (T4 := T <| ct_table := t4 |>).
  exists 0, (T <| ct_table := t5 |>), c1, (ticks 1 n). split; [|split; [by apply ct_removed|apply frame_ticks]].
  destruct (ipa_table_iterator_is_head_with_tail (iterator_at i nx pv)); cbn [negb]; [by subst t5|].
  cbn [prev_entry iterator_at]. destruct (VALID_INDEX pv) eqn:Vp.
  - destruct (unlink_prev Ht i nx pv Hv Vp) as (ep&_&_&Hp4). change (zget (recs t4) pv = Some (hw HELP_UPDATE_ENTRY nx ep)) in Hp4.
    rewrite Hp4 in Hrun.
    assert (Hget : get_rec pv (mkT (ct_table T4) c1) = Done (hw HELP_UPDATE_ENTRY nx ep, mkT (ct_table T4) c1))
      by (unfold get_rec; cbn [tbl]; change (ct_table T4) with t4; by rewrite Hp4).
    pose proof (on_ct_then T4 c1 (ticks 1 n) _ _ _ _
      (fun e => mret (ct_protocol e =? IPA_IPV6CT_INVALID_PROTO_FIELD_CMP)) Hget) as Hflag.
    rewrite ct_same_table in Hflag. rewrite (bind_run _ _ _ _ _ Hflag).
    by rewrite (on_ct_then T4 c1 (ticks 1 n) _ tt t5 c1) by exact Hrun.
  - rewrite ret_run. by rewrite (on_ct_then T4 c1 (ticks 1 n) _ tt t5 c1) by exact Hrun.
Qed.

End Delete.

(** Deleting by any handle completes, whatever the kernel answers. *)
Lemma ct_del_run T m n cm hdl :
  ct_ok T m -> ct_documented_dma (ct_sys n) ->
  exists ret T' cm' n',
    ct_del_rule_locked 0 hdl (ct_with T cm n) = Done (ret, ct_with T' cm' n') /\
    ct_deleted n T m (handle_index (table_entries (ct_table T)) hdl) ret T' /\ ct_frame n n'.
Proof.
  intros (ch&k&Hwf) Hdma. pose proof Hwf as [Hv Ht Hh _ Hdead Hrep]. set (i := handle_index _ hdl).
  unfold ct_del_rule_locked. rewrite ct_get_then, Hv. cbn [negb].
  destruct (handle_index_table (ct_table T) hdl) as (a&b&Hhdl). fold i in Hhdl.
  assert (Hget : ipa_table_get_entry hdl (mkT (ct_table T) cm)
    = Done (if tot_tbl_ents (ct_table T) <=? i then inl (- EINVAL) else inr i, mkT (ct_table T) cm)).
  { unfold ipa_table_get_entry. rewrite gets_then, Hhdl. by destruct (_ <=? i). }
  rewrite (on_ct_then _ _ _ _ _ _ _ _ Hget), ct_same_table. pose proof (geo_tot _ _ (tk_geo _ _ _ Ht)) as Htot.
  destruct (Z.leb_spec (tot_tbl_ents (ct_table T)) i) as [Hge|Hlt].
  { exists (- EINVAL), T, cm, n. split; [done|]. split; [|done]. apply ct_unused. apply (ct_outside_none T m ch k Hwf). lia. }
  assert (Hi0 : 0 <= i) by (unfold i, handle_index, BREAK_RULE_HDL; cbn [snd]; by apply wrap_is_word).
  destruct (rec_at (tk_geo _ _ _ Ht) i ltac:(lia)) as [e He].
  destruct (entry_is_valid e) eqn:Hval.
  - destruct (view_valid (tk_geo _ _ _ Ht) i e He Hval) as (pv&_&Hview).
    rewrite (on_ct_then _ _ _ _ _ _ _ _ (iterator_init_run Ht cm i _ _ Hview)), ct_same_table. cbv beta iota.
    change (truthy 0) with false. cbn iota. unfold ct_new_cmd. rewrite modify_run.
    exact (ct_unlink_run T m ch k Hwf n Hdma i e _ _ He Hview).
  - assert (Hit : ipa_table_iterator_init i i (mkT (ct_table T) cm) = Done ((- EINVAL, zero_iterator), mkT (ct_table T) cm)).
    { unfold ipa_table_iterator_init. rewrite (get_rec_then _ _ i e) by done. by rewrite Hval. }
    rewrite (on_ct_then _ _ _ _ _ _ _ _ Hit), ct_same_table. cbv beta iota. change (truthy (- EINVAL)) with true. cbn iota.
    exists (- EINVAL), T, cm, n. split; [done|]. split; [|done]. apply ct_unused. by apply (ct_unused_none T m ch k Hwf i e).
Qed.
