(* ===== verification/IpaIpv6Store.v ===== *)
(** * The connection-tracking table as a store

    The interface of [ipa_ipv6ct.c] against the abstract store of
    [IpaStoreSpec]: creating and deleting the table, the refinement by any
    sequence of additions and deletions, and what holds when the kernel reports
    failures or the interface is used while it is closed. *)

From stdpp Require Import gmap.
From S2P Require Import Prelude IpaChain IpaTable IpaTableSpec IpaTableSettle IpaUnlink IpaSystem IpaStoreSpec IpaSize IpaCreate IpaIpv6 IpaIpv6Spec IpaIpv6Rules.

Local Open Scope Z_scope.

(** ** The store *)

Definition ct_kind : store_kind ipa_ipv6ct_rule ipa_ipv6ct_hw_entry :=
  mkKind (fun u => r_protocol u =? IPA_IPV6CT_INVALID_PROTO_FIELD_CMP) stored_entry acceptable.

Definition ct_run_op (op : store_op ipa_ipv6ct_rule) : CM (Z * Z) :=
  match op with
  | AddRule u => ipa_ipv6ct_add_rule 1 (Some u) true
  | DeleteRule hdl => ret ← ipa_ipv6ct_del_rule 1 hdl; mret (ret, 0)
  end.

(** The library is open, its table holds [m], and the hardware executes the
    commands it is given. *)
Record ct_open (base expn : Z) (n : ipa_ipv6ct) (m : gmap Z ipa_ipv6ct_hw_entry) : Prop := {
  co_desc : ct_desc n = Some true;
  co_cnt : ct_table_cnt n = 1;
  co_dma : ct_documented_dma (ct_sys n);
  co_table : exists T, ct_tables n = [T] /\ ct_ok T m /\ ct_sizes T = (base, expn);
}.

(** It is open and the kernel reports no failure. *)
Definition ct_store_ok (base expn : Z) (n : ipa_ipv6ct) (m : gmap Z ipa_ipv6ct_hw_entry) : Prop :=
  ct_open base expn n m /\ no_failures (ct_sys n).

Lemma ct_open_with base expn n m n' T cm :
  ct_open base expn n m -> ct_frame n n' -> forall m', ct_ok T m' -> ct_sizes T = (base, expn) -> ct_open base expn (ct_with T cm n') m'.
Proof.
  intros [Hd Hc Hdma _] [Fd Fc _ Fs] m' Hok Hsz. split; cbn; [congruence|congruence|by rewrite Fs|by exists T].
Qed.

(** The calls are counted and nothing else changes. *)
Lemma ct_open_ticks base expn j n m : ct_open base expn n m -> ct_open base expn (ticks j n) m.
Proof. intros [? ? ? ?]. by split. Qed.

(** ** Operations *)

Section Ops.
Context (base expn : Z).

(** What an operation does to the connections when it takes effect. *)
Inductive ct_effect (m : gmap Z ipa_ipv6ct_hw_entry) : store_op ipa_ipv6ct_rule -> Z * Z -> gmap Z ipa_ipv6ct_hw_entry -> Prop :=
| effect_added u res r e :
    m !! r = None -> stored_entry u = Some e -> (res.1 = 0 -> handle_index base res.2 = r) ->
    ct_effect m (AddRule u) res (<[r := e]> m)
| effect_deleted hdl res : ct_effect m (DeleteRule hdl) res (delete (handle_index base hdl) m).

(** The handle of a record of the table. *)
Lemma ct_handle_index T m i :
  ct_ok T m -> 1 <= i < table_entries (ct_table T) + expn_table_entries (ct_table T) ->
  handle_index (table_entries (ct_table T)) (MakeEntryHdl (ct_table T) i) = i.
Proof using Type.
  intros (ch&k&Hwf) Hi. pose proof (tk_geo _ _ _ (cw_table _ _ _ _ Hwf)) as Hg.
  destruct (handle_roundtrip (ct_table T) i (geo_base _ _ Hg) (geo_expn _ _ Hg) ltac:(rewrite (cw_nmi _ _ _ _ Hwf); by left) ltac:(lia)) as [_ Hh].
  destruct (handle_index_table (ct_table T) (MakeEntryHdl (ct_table T) i)) as (x&y&Hxy). congruence.
Qed.

(** The addition through the interface, by what the three calls answer. *)
Lemma ct_add_op n m u :
  ct_open base expn n m -> acceptable u ->
  exists res n' m', ct_run_op (AddRule u) n = Done (res, n') /\ ct_open base expn n' m' /\ ct_sys n' = ct_sys n /\
    ((m' = m /\ res.1 <> 0) \/ ct_effect m (AddRule u) res m') /\
    (no_failures (ct_sys n) -> store_step ct_kind base expn m (AddRule u) res m').
Proof using Type.
  intros Ho Hu. pose proof Ho as [Hd Hc Hdma (T&HT&Hok&Hsz)]. unfold ct_run_op, ipa_ipv6ct_add_rule, ct_supported.
  rewrite (bind_run _ _ _ true n) by (by rewrite getM_run, Hd). cbn [negb orb]. change (ct_bad_handle 1 || false) with false. cbn iota.
  destruct (r_protocol u =? IPA_IPV6CT_INVALID_PROTO_FIELD_CMP) eqn:Hp.
  { exists (- EINVAL, 0), n, m. split; [done|]. split; [done|]. split; [done|]. split; [by left|]. intros _. by apply step_refused. }
  unfold pthread_mutex_lock. rewrite (bind_run _ _ _ (sys_ret (ct_sys n) (ct_sys_calls n)) (ticks 1 n)) by done.
  destruct (truthy (sys_ret (ct_sys n) (ct_sys_calls n))) eqn:Hlock.
  { exists (- EINVAL, 0), (ticks 1 n), m. split; [done|]. split; [by apply ct_open_ticks|]. split; [done|]. split; [by left|].
    intros Hs. by rewrite Hs in Hlock. }
  change (1 - 1) with 0. set (n1 := ticks 1 n). assert (HT1 : ct_tables n1 = [T]) by exact HT. rewrite (ct_with_same T n1 HT1).
  apply Z.eqb_neq in Hp. destruct (ct_add_run T m u n1 (ct_cmd n1) Hok Hdma Hu Hp) as (ret&hdl&T'&cm'&n'&Hrun&Hres&Hsz'&Hfr).
  rewrite (bind_run _ _ _ _ _ Hrun). cbv beta iota. unfold pthread_mutex_unlock. set (n2 := ct_with T' cm' n').
  rewrite (bind_run _ _ _ (sys_ret (ct_sys n2) (ct_sys_calls n2)) (ticks 1 n2)) by done.
  assert (Hsys2 : ct_sys n2 = ct_sys n) by exact (cf_sys _ _ Hfr).
  assert (Hopen : forall m', ct_ok T' m' -> ct_open base expn (ticks 1 n2) m').
  { intros m' Hm'. apply ct_open_ticks. apply (ct_open_with base expn n m); [done| |done|congruence].
    transitivity n1; [apply frame_ticks|exact Hfr]. }
  injection Hsz as Hb He. destruct Hres as [r e T' Hmr Hst Hr Hok'|T' Hfull Hok'|T' Hsys Hok'].
  - change (truthy 0) with false. cbn iota. pose proof (ct_handle_index T m r Hok Hr) as Hidx. rewrite Hb in Hidx.
    eexists _, (ticks 1 n2), _. split; [reflexivity|]. split; [by apply Hopen|]. split; [done|]. split.
    + right. apply (effect_added m u _ r e); [done|done|]. by destruct (truthy (sys_ret (ct_sys n2) (ct_sys_calls n2))).
    + intros Hs. rewrite Hsys2, Hs. change (truthy 0) with false. cbn iota. rewrite <- Hidx at 2.
      apply step_stored; [by apply Z.eqb_neq|by rewrite Hidx|done].
  - change (truthy (- 1)) with true. cbn iota. exists (- 1, 0), (ticks 1 n2), m. split; [done|]. split; [by apply Hopen|]. split; [done|].
    split; [by left|]. intros _. apply step_full; [by apply Z.eqb_neq|by rewrite <- He].
  - change (truthy (- EIO)) with true. cbn iota. exists (- EIO, 0), (ticks 1 n2), m. split; [done|]. split; [by apply Hopen|]. split; [done|].
    split; [by left|]. intros Hs. exfalso. apply Hsys. apply Hs.
Qed.

(** No connection is at index 0, which the handle 0 names. *)
Lemma ct_index_zero T m : ct_ok T m -> m !! 0 = None.
Proof using Type.
  intros (ch&k&Hwf). destruct (m !! 0) as [e|] eqn:He; [|done]. rewrite (cw_rep _ _ _ _ Hwf) in He.
  apply alive_at_Some in He as [He Hl]. unfold data_at in He. pose proof (cw_table _ _ _ _ Hwf) as Ht.
  destruct (zget (recs (ct_table T)) 0) as [f|] eqn:Hf; [|done]. injection He as <-.
  destruct (mark_data_live _ _ _ Hf) as [_ Hlf]. change (live_rec (entry_data f) = true) in Hl. rewrite Hlf in Hl. unfold live_rec in Hl. apply andb_true_iff in Hl as [Hv _].
  destruct (view_valid (tk_geo _ _ _ Ht) 0 f Hf Hv) as (p&_&Hw). destruct (view_range Ht _ _ _ Hw). lia.
Qed.

Lemma handle_index_zero b : handle_index b 0 = 0.
Proof using Type. done. Qed.

(** The deletion through the interface, for every handle: nothing happened, or
    the connection is gone. *)
Lemma ct_del_rule_run n m hdl :
  ct_open base expn n m ->
  exists ret n' m', ipa_ipv6ct_del_rule 1 hdl n = Done (ret, n') /\ ct_open base expn n' m' /\ ct_sys n' = ct_sys n /\
    ((m' = m /\ ret <> 0 /\ (no_failures (ct_sys n) -> m !! handle_index base hdl = None))
     \/ (m' = delete (handle_index base hdl) m /\ (no_failures (ct_sys n) -> ret = 0))).
Proof using Type.
  intros Ho. pose proof Ho as [Hd Hc Hdma (T&HT&Hok&Hsz)]. unfold ipa_ipv6ct_del_rule, ct_supported.
  rewrite (bind_run _ _ _ true n) by (by rewrite getM_run, Hd). cbn [negb]. change (ct_bad_handle 1) with false. cbn [orb].
  unfold IPA_TABLE_INVALID_ENTRY. destruct (Z.eqb_spec hdl 0) as [->|Hz].
  { exists (- EINVAL), n, m. split; [done|]. split; [done|]. split; [done|]. left. split; [done|]. split; [done|].
    intros _. rewrite handle_index_zero. by apply (ct_index_zero T). }
  set (n1 := ticks 1 n). assert (HT1 : ct_tables n1 = [T]) by exact HT.
  unfold pthread_mutex_lock. rewrite (bind_run _ _ _ (sys_ret (ct_sys n) (ct_sys_calls n)) n1) by done.
  destruct (truthy (sys_ret (ct_sys n) (ct_sys_calls n))) eqn:Hlock.
  { exists (- EINVAL), n1, m. split; [done|]. split; [by apply ct_open_ticks|]. split; [done|]. left. split; [done|]. split; [done|].
    intros Hs. by rewrite Hs in Hlock. }
  change (1 - 1) with 0. rewrite (ct_with_same T n1 HT1).
  destruct (ct_del_run T m n1 (ct_cmd n1) hdl Hok Hdma) as (ret&T'&cm'&n'&Hrun&Hres&Hfr). set (n2 := ct_with T' cm' n').
  rewrite (bind_run _ _ _ _ _ Hrun). unfold pthread_mutex_unlock.
  rewrite (bind_run _ _ _ (sys_ret (ct_sys n2) (ct_sys_calls n2)) (ticks 1 n2)) by done.
  assert (Hsys2 : ct_sys n2 = ct_sys n) by exact (cf_sys _ _ Hfr).
  assert (Hopen : forall m', ct_ok T' m' -> ct_sizes T' = ct_sizes T -> ct_open base expn (ticks 1 n2) m').
  { intros m' Hm' Hsz'. apply ct_open_ticks. apply (ct_open_with base expn n m); [done| |done|congruence].
    transitivity n1; [apply frame_ticks|exact Hfr]. }
  injection Hsz as Hb He. rewrite Hb in Hres. rewrite Hsys2. set (unlock := sys_ret _ _).
  destruct Hres as [Hnone|Hsys|T' Hsys Hok' Hsz'].
  - eexists _, (ticks 1 n2), m. split; [reflexivity|]. split; [by apply Hopen|]. split; [done|]. left. split; [done|].
    split; [by destruct (truthy unlock)|done].
  - eexists _, (ticks 1 n2), m. split; [reflexivity|]. split; [by apply Hopen|]. split; [done|]. left. split; [done|].
    split; [by destruct (truthy unlock)|]. intros Hs. exfalso. apply Hsys. apply Hs.
  - eexists _, (ticks 1 n2), _. split; [reflexivity|]. split; [by apply Hopen|]. split; [done|]. right. split; [done|].
    intros Hs. unfold unlock. by rewrite Hs.
Qed.

Lemma ct_del_op n m hdl :
  ct_open base expn n m ->
  exists res n' m', ct_run_op (DeleteRule hdl) n = Done (res, n') /\ ct_open base expn n' m' /\ ct_sys n' = ct_sys n /\
    ((m' = m /\ res.1 <> 0) \/ ct_effect m (DeleteRule hdl) res m') /\
    (no_failures (ct_sys n) -> m !! handle_index base hdl <> None -> store_step ct_kind base expn m (DeleteRule hdl) res m').
Proof using Type.
  intros Ho. destruct (ct_del_rule_run n m hdl Ho) as (ret&n'&m'&Hrun&Ho'&Hs'&Hcase).
  exists (ret, 0), n', m'. unfold ct_run_op. split; [by rewrite (bind_run _ _ _ _ _ Hrun)|]. split; [done|]. split; [done|].
  destruct Hcase as [(->&Hr&Hnone)|(->&Hr)]; (split; [|intros Hs Hne]).
  - by left.
  - by destruct Hne; apply Hnone.
  - right. constructor.
  - rewrite (Hr Hs). destruct (m !! handle_index base hdl) as [e|] eqn:Hm; [|done]. by apply (step_deleted _ _ _ _ _ e).
Qed.

(** ** The theorems *)

(** The operations that a user may call: rules of the types of the fields, and
    any handle. *)
Definition ct_callable (op : store_op ipa_ipv6ct_rule) : Prop :=
  match op with AddRule u => acceptable u | DeleteRule _ => True end.

(** C20: Whatever the kernel answers, and for every handle, an operation on the
    open table completes, and either took effect or left the connections as
    they were; when it reports success it took effect, and the handle of a new
    connection names it. *)
Theorem ipv6ct_ops_atomic n m op :
  ct_open base expn n m -> ct_callable op ->
  exists res n' m', ct_run_op op n = Done (res, n') /\ ct_open base expn n' m' /\
    ((m' = m /\ res.1 <> 0) \/ ct_effect m op res m').
Proof using Type.
  intros Ho Hop. destruct op as [u|hdl].
  - destruct (ct_add_op n m u Ho Hop) as (res&n'&m'&?&?&_&?&_). by exists res, n', m'.
  - destruct (ct_del_op n m hdl Ho) as (res&n'&m'&?&?&_&?&_). by exists res, n', m'.
Qed.

(** C19: The table implements the abstract store: for every client that deletes
    only connections that are there, every number of its operations completes,
    with the results of a run of the abstract store, and the table holds its
    connections. *)
Theorem ipv6ct_store_refines client m0 n k :
  ct_store_ok base expn n m0 ->
  (forall h m, store_run ct_kind base expn m0 h m -> follows client h -> op_allowed ct_kind base m (client h)) ->
  exists h n' m, run_client ct_run_op client k [] n = Done (h, n') /\ length h = k /\
    store_run ct_kind base expn m0 h m /\ ct_store_ok base expn n' m.
Proof using Type.
  intros Hok Hclient. apply (client_refines _ ct_run_op (ct_store_ok base expn) (op_allowed ct_kind base)); [|done|intros h m Hh Hf _; by apply Hclient].
  clear n Hok Hclient. intros n1 m op [Ho Hs] Hop. destruct op as [u|hdl].
  - destruct (ct_add_op n1 m u Ho Hop) as (res&n'&m'&Hrun&Ho'&Hs'&_&Hstep). exists res, n', m'. split; [done|]. split; [by apply Hstep|].
    split; [done|]. by rewrite Hs'.
  - destruct Hop as [e He]. destruct (ct_del_op n1 m hdl Ho) as (res&n'&m'&Hrun&Ho'&Hs'&_&Hstep).
    exists res, n', m'. split; [done|]. split; [apply Hstep; [done|by rewrite He]|]. split; [done|]. by rewrite Hs'.
Qed.

End Ops.

(** ** Creating the table *)

Lemma ct_calc_then {A B} T cm n (m : M (ipa_table ipa_ipv6ct_hw_entry) A) a t' (k : A -> CM B) :
  m (ct_table T) = Done (a, t') -> (ct_calc 0 m ≫= k) (ct_with T cm n) = k a (ct_with (T <| ct_table := t' |>) cm n).
Proof. intros Hm. apply bind_run. unfold ct_calc. rewrite ct_get_then. by rewrite Hm. Qed.

(** A cleared table holds no connections. *)
Lemma ct_blank_ok T k b e :
  valid (ct_mem_desc T) = true -> table_ok sizeof_ipa_ipv6ct_hw_entry (ct_table T) ∅ ->
  recs (ct_table T) = replicate (Z.to_nat (b + e)) zero_ct_entry ->
  dma_help_of (ct_table T) = Some (ct_helps k) -> nmi (ct_table T) = IPA_NAT_MEM_IN_DDR -> ct_ok T ∅.
Proof.
  intros Hv Ht Hr Hh Hn. exists ∅, k.
  assert (Hz : forall i f, data_at (ct_table T) i = Some f -> f = zero_ct_entry).
  { intros i f. unfold data_at. destruct (zget (recs (ct_table T)) i) as [y|] eqn:Hy; [|done]. intros [= <-].
    pose proof (zget_Some _ _ _ Hy). rewrite zget_to_nat, Hr in Hy by lia. by apply lookup_replicate in Hy as [-> _]. }
  split; try done.
  - intros i f Hf Hval. by rewrite (Hz i f Hf) in Hval.
  - intros i. rewrite lookup_empty. symmetry. destruct (alive_at _ i) as [f|] eqn:Hf; [|done].
    apply alive_at_Some in Hf as [Hf Hl]. by rewrite (Hz i f Hf) in Hl.
Qed.

Section Create.
Context (n : ipa_ipv6ct) (T0 : ipa_ipv6ct_table) (HT0 : ct_tables n = [T0]) (Hs : no_failures (ct_sys n)).
Context (number b e : Z) (Hsz : table_sizes IPA_NAT_MEM_IN_DDR number = Some (b, e)) (Hgood : good_sizes b e = true).
Context (Hmem : zlen (ct_mmap_mem (ct_sys n)) = b + e) (Hoff : table_offset (ct_sys n) = 0).

Lemma ct_create_run :
  exists T cm, ipa_ipv6ct_create_table 0 number 0 n = Done (0, ct_with T cm (ticks 5 n)) /\ ct_ok T ∅ /\
    ct_sizes T = (b, e) /\ addr_offset (ct_mem_desc T) = 0.
Proof using All.
  destruct (good_sizes_range b e Hgood) as [Hb He]. rewrite (ct_with_same T0 n HT0). set (cm := ct_cmd n).
  unfold ipa_ipv6ct_create_table. rewrite ct_upd_then.
  rewrite (ct_calc_then _ _ _ _ _ _ _ (calculate_run _ _ _ _ _ Hsz)). change (truthy 0) with false. cbn iota.
  rewrite ct_upd_then, ct_get_then. set (T1 := upd ct_mem_desc _ _). set (n1 := ct_with T1 cm n).
  assert (Hs1 : no_failures (calls n1)) by (cbn [calls ct_caller]; exact Hs).
  destruct (allocate_memory_run (ct_mem_desc T1) n1 Hs1) as (d1&Hd1&Hvalid&Hd1off).
  rewrite (bind_run _ _ _ _ _ Hd1). cbv beta iota. change (ticks 5 n1) with (ct_with T1 cm (ticks 5 n)).
  rewrite ct_upd_then. change (truthy 0) with false. cbn iota.
  set (nt := (ipa_table_init (E := ipa_ipv6ct_hw_entry) IPA_NAT_MEM_IN_DDR sizeof_ipa_ipv6ct_hw_entry None 0)
    <| tot_tbl_ents := u32 (b + e) |> <| table_entries := b |> <| expn_table_entries := e |>).
  set (addr := mem_base_addr d1). set (mem := ct_mmap_mem (ct_sys n)).
  erewrite ct_calc_then; [|reflexivity]. rewrite getM_run, ct_upd_then.
  destruct (placed_ok b e sizeof_ipa_ipv6ct_hw_entry addr mem nt (Some (ct_helps 0)) Hgood) as [Hreset Hok]; try done.
  pose proof (Hreset cm) as Hrun. set (T2 := upd ct_table _ _). change (placed addr mem nt) with (ct_table T2) in Hrun.
  rewrite (on_ct_then _ _ _ _ _ _ _ _ Hrun), ct_upd_then.
  assert (Hoff1 : addr_offset d1 = 0) by (rewrite Hd1off; exact Hoff).
  eexists _, cm. split; [reflexivity|]. split; [|done].
  apply (ct_blank_ok _ 0 b e).
  - exact Hvalid.
  - unfold ipa_ipv6ct_create_table_dma_cmd_helpers. cbn [ct_mem_desc upd]. unfold upd; cbn. rewrite Hoff1. exact Hok.
  - done.
  - unfold ipa_ipv6ct_create_table_dma_cmd_helpers. unfold upd; cbn. by rewrite Hoff1.
  - done.
Qed.

End Create.

(** ** The life of the table *)

(** No table was created, and the device is closed. *)
Definition ct_closed (n : ipa_ipv6ct) : Prop := ct_desc n = None /\ ct_table_cnt n = 0 /\ exists T, ct_tables n = [T].

(** The system a table of [b] and [e] records is created on. *)
Record ct_ready (b e : Z) (sys : ct_system) : Prop := {
  cr_calls : no_failures sys;
  cr_dma : ct_documented_dma sys;
  cr_new : hw_new sys = true;
  cr_mem : zlen (ct_mmap_mem sys) = b + e;
  cr_offset : table_offset sys = 0;
}.

(** Creating a table while the library is closed, with a mapping of the
    requested size on hardware that supports it, succeeds with handle 1 and
    establishes the invariant of an empty store; the hardware is told the sizes
    of both parts, less one for the mask of the hash. *)
Theorem ipv6ct_create_establishes_store number n b e :
  1 <= number <= IPA_TABLE_MAX_ENTRIES -> table_sizes IPA_NAT_MEM_IN_DDR number = Some (b, e) ->
  ct_closed n -> ct_ready b e (ct_sys n) ->
  exists n', ipa_ipv6ct_add_tbl number true n = Done ((0, 1), n') /\ ct_store_ok b e n' ∅ /\ ct_sys n' = ct_sys n /\
    ct_posted n' = ct_posted n ++ [mkCtInit 0 (b * sizeof_ipa_ipv6ct_hw_entry) (b - 1) e 0].
Proof.
  intros Hn Hsz (Hd&Hc&T0&HT0) [Hs Hdma Hnew Hmem Hoff].
  pose proof (sizes_good IPA_NAT_MEM_IN_DDR number b e (or_introl eq_refl) ltac:(lia) Hsz) as Hgood. destruct (good_sizes_range b e Hgood) as [Hb He].
  unfold ipa_ipv6ct_add_tbl. destruct (Z.eqb_spec number 0); [lia|]. cbn [negb orb].
  rewrite (bind_run _ _ _ 0 n) by (unfold gets; by rewrite Hc). cbn [Z.leb IPA_IPV6CT_MAX_TBLS].
  change (IPA_IPV6CT_MAX_TBLS <=? 0) with false. cbn iota.
  rewrite (bind_run _ _ _ None n) by (unfold gets; by rewrite Hd).
  set (n1 := (ticks 3 n) <| ct_desc := Some (hw_new (ct_sys n)) |>).
  rewrite (bind_run _ _ _ true n1) by (rewrite (bind_run _ _ _ _ _ (descriptor_open_run (HC := ct_caller) n Hs)); done). cbn [negb].
  rewrite (bind_run _ _ _ (hw_new (ct_sys n)) n1) by done. rewrite Hnew. cbn [negb].
  assert (HT1 : ct_tables n1 = [T0]) by exact HT0.
  destruct (ct_create_run n1 T0 HT1 Hs number b e Hsz Hgood Hmem Hoff) as (T&cm&Hrun&Hok&Hszs&Hoff').
  rewrite (bind_run _ _ _ _ _ Hrun). change (truthy 0) with false. cbn iota. set (n2 := ct_with T cm (ticks 5 n1)).
  rewrite (bind_run _ _ _ 0 (ticks 1 (n2 <| ct_posted ::= fun l => l ++ [ct_init_cmd T 0] |>))).
  2: { unfold ipa_ipv6ct_post_init_cmd. unfold n2. rewrite ct_get_then, modify_run. by rewrite call_run by exact Hs. }
  change (truthy 0) with false. cbn iota. rewrite modify_run. set (n3 := upd ct_table_cnt _ _).
  assert (Hc3 : ct_table_cnt n3 = 1) by (change (u8 (ct_table_cnt n + 1) = 1); by rewrite Hc).
  exists n3. split; [change (Done ((0, ct_table_cnt n3), n3) = Done ((0, 1), n3)); by rewrite Hc3|].
  split; [split; [split; [change (Some (hw_new (ct_sys n)) = Some true); by rewrite Hnew|done|done|by exists T]|exact Hs]|].
  split; [done|]. change (ct_posted n3) with (ct_posted n ++ [ct_init_cmd T 0]). do 2 f_equal.
  unfold ct_init_cmd. injection Hszs as -> ->. rewrite Hoff'. unfold sizeof_ipa_ipv6ct_hw_entry. by wsmall.
Qed.

Lemma ct_open_valid base expn n m T : ct_open base expn n m -> ct_tables n = [T] -> valid (ct_mem_desc T) = true.
Proof. intros [_ _ _ (T'&HT'&(ch&k&Hwf)&_)] HT. assert (T' = T) as -> by congruence. exact (cw_valid _ _ _ _ Hwf). Qed.

(** Releasing the table is one call. *)
Lemma ct_destroy_run T cm n :
  valid (ct_mem_desc T) = true ->
  ipa_ipv6ct_destroy_table 0 (ct_with T cm n)
  = Done (sys_ret (ct_sys n) (ct_sys_calls n), ct_with zero_ct_table cm (ticks 1 n)).
Proof.
  intros Hv. unfold ipa_ipv6ct_destroy_table. rewrite ct_get_then. unfold ipa_mem_descriptor_delete. rewrite Hv. cbn [negb]. done.
Qed.

(** Deleting the open table succeeds and closes the library: the
    descriptor is gone, no table is counted, and the table is blank, as before
    the creation. *)
Theorem ipv6ct_delete_closes base expn n m :
  ct_store_ok base expn n m ->
  exists n', ipa_ipv6ct_del_tbl 1 n = Done (0, n') /\ ct_closed n' /\ ct_tables n' = [zero_ct_table] /\
    ct_sys n' = ct_sys n /\ ct_posted n' = ct_posted n.
Proof.
  intros [Ho Hs]. pose proof Ho as [Hd Hc _ (T&HT&_)]. pose proof (ct_open_valid _ _ _ _ _ Ho HT) as Hv.
  unfold ipa_ipv6ct_del_tbl, ct_supported. rewrite (bind_run _ _ _ true n) by (by rewrite getM_run, Hd).
  cbn [negb]. change (ct_bad_handle 1) with false. cbn iota. unfold pthread_mutex_lock. rewrite call_then by exact Hs.
  change (truthy 0) with false. cbn iota. change (1 - 1) with 0. set (n1 := ticks 1 n).
  assert (HT1 : ct_tables n1 = [T]) by exact HT. rewrite (ct_with_same T n1 HT1), ct_get_then, Hv. cbn [negb].
  pose proof (ct_destroy_run T (ct_cmd n1) n1 Hv) as Hdest. rewrite (Hs _) in Hdest. set (n2 := ct_with zero_ct_table _ _) in Hdest.
  set (n3 := n2 <| ct_table_cnt ::= fun x => u8 (x - 1) |> <| ct_desc := None |>).
  rewrite (bind_run _ _ _ 0 n3).
  - unfold pthread_mutex_unlock. rewrite call_then by exact Hs. exists (ticks 1 n3). split; [done|].
    split; [split; [done|split; [|by exists zero_ct_table]]|done]. change (u8 (ct_table_cnt n - 1) = 0). by rewrite Hc.
  - rewrite (bind_run _ _ _ _ _ Hdest). change (truthy 0) with false. cbn iota. rewrite modify_run. unfold ct_close_unused.
    rewrite modify_run. set (n4 := upd ct_table_cnt _ n2). assert (Hz : truthy (ct_table_cnt n4) = false).
    { change (truthy (u8 (ct_table_cnt n - 1)) = false). by rewrite Hc. }
    by rewrite Hz.
Qed.

(** While the library is closed - before a table is created and after the
    last one is deleted - every other function of the interface reads the
    version of the hardware through a null descriptor, for all arguments,
    instead of refusing the call. *)
Theorem ipv6ct_closed_faults n :
  ct_closed n ->
  (forall h, ipa_ipv6ct_del_tbl h n = Fault NullDeref) /\
  (forall h u b, ipa_ipv6ct_add_rule h u b n = Fault NullDeref) /\
  (forall h r, ipa_ipv6ct_del_rule h r n = Fault NullDeref) /\
  (forall h r b, ipa_ipv6ct_query_timestamp h r b n = Fault NullDeref) /\
  (forall u : Z, ipa_ipv6ct_add_uc_act_entry u n = Fault NullDeref) /\
  (forall i, ipa_ipv6ct_del_uc_act_entry i n = Fault NullDeref).
Proof.
  intros (Hd&_&_). assert (Hf : ct_supported n = Fault NullDeref) by (unfold ct_supported; by rewrite getM_run, Hd).
  assert (Hb : forall A (k : bool -> CM A), (ct_supported ≫= k) n = Fault NullDeref).
  { intros A k. unfold mbind, M_bind. by rewrite Hf. }
  repeat split; intros; apply Hb.
Qed.

(** A table that cannot be released is lost: it is blank but still counted. *)
Definition ct_stuck (n : ipa_ipv6ct) : Prop :=
  ct_desc n = Some true /\ ct_table_cnt n = 1 /\ ct_tables n = [zero_ct_table].

(** When the kernel does not release the memory, the deletion fails and the
    only table is lost: no function can use it, delete it or create another,
    and that stays so. *)
Theorem ipv6ct_failed_delete_stuck base expn n m :
  ct_open base expn n m ->
  sys_ret (ct_sys n) (ct_sys_calls n) = 0 -> sys_ret (ct_sys n) (S (ct_sys_calls n)) <> 0 ->
  exists ret n', ipa_ipv6ct_del_tbl 1 n = Done (ret, n') /\ ret <> 0 /\ ct_stuck n' /\
    forall n2, ct_stuck n2 ->
      (forall number b, ipa_ipv6ct_add_tbl number b n2 = Done ((- EINVAL, 0), n2)) /\
      (exists r n3, ipa_ipv6ct_del_tbl 1 n2 = Done (r, n3) /\ r <> 0 /\ ct_stuck n3) /\
      (forall u, exists r n3, ipa_ipv6ct_add_rule 1 u true n2 = Done ((r, 0), n3) /\ r <> 0 /\ ct_stuck n3).
Proof.
  intros Ho Hlock Hrel. pose proof Ho as [Hd Hc _ (T&HT&_)]. pose proof (ct_open_valid _ _ _ _ _ Ho HT) as Hv.
  unfold ipa_ipv6ct_del_tbl at 1. unfold ct_supported. rewrite (bind_run _ _ _ true n) by (by rewrite getM_run, Hd).
  cbn [negb]. change (ct_bad_handle 1) with false. cbn iota. unfold pthread_mutex_lock.
  rewrite (bind_run _ _ _ (sys_ret (ct_sys n) (ct_sys_calls n)) (ticks 1 n)) by done. rewrite Hlock.
  change (truthy 0) with false. cbn iota. change (1 - 1) with 0. set (n1 := ticks 1 n).
  assert (HT1 : ct_tables n1 = [T]) by exact HT. rewrite (ct_with_same T n1 HT1), ct_get_then, Hv. cbn [negb].
  pose proof (ct_destroy_run T (ct_cmd n1) n1 Hv) as Hdest. set (n2 := ct_with zero_ct_table _ _) in Hdest.
  change (sys_ret (ct_sys n1) (ct_sys_calls n1)) with (sys_ret (ct_sys n) (S (ct_sys_calls n))) in Hdest.
  set (rel := sys_ret _ (S _)) in *. pose proof Hrel as Hrel2. apply truthy_true in Hrel2.
  rewrite (bind_run _ _ _ rel n2) by (rewrite (bind_run _ _ _ _ _ Hdest); by rewrite Hrel2).
  unfold pthread_mutex_unlock. rewrite (bind_run _ _ _ (sys_ret (ct_sys n2) (ct_sys_calls n2)) (ticks 1 n2)) by done.
  eexists _, (ticks 1 n2). split; [reflexivity|]. split; [|split; [done|]].
  { rewrite Hrel2. by destruct (truthy (sys_ret (ct_sys n2) (ct_sys_calls n2))). }
  clear. intros n (Hd&Hc&HT). assert (Hsup : ct_supported n = Done (true, n)) by (unfold ct_supported; by rewrite getM_run, Hd).
  set (n1 := ticks 1 n). assert (HT1 : ct_tables n1 = [zero_ct_table]) by exact HT.
  split; [|split].
  - intros number b. unfold ipa_ipv6ct_add_tbl. destruct (_ || _); [done|]. rewrite (bind_run _ _ _ 1 n) by (unfold gets; by rewrite Hc). done.
  - unfold ipa_ipv6ct_del_tbl. rewrite (bind_run _ _ _ _ _ Hsup). cbn [negb]. change (ct_bad_handle 1) with false. cbn iota.
    unfold pthread_mutex_lock, pthread_mutex_unlock. rewrite (bind_run _ _ _ (sys_ret (ct_sys n) (ct_sys_calls n)) n1) by done.
    destruct (truthy (sys_ret (ct_sys n) _)); [by exists (- EINVAL), n1|]. change (1 - 1) with 0.
    rewrite (ct_with_same zero_ct_table n1 HT1), ct_get_then. cbn [negb valid ct_mem_desc zero_ct_table zero_mem_desc].
    rewrite ret_run. set (n2 := ct_with _ _ n1). rewrite (bind_run _ _ _ (sys_ret (ct_sys n2) (ct_sys_calls n2)) (ticks 1 n2)) by done.
    eexists _, (ticks 1 n2). split; [reflexivity|]. split; [by destruct (truthy _)|done].
  - intros [u|]; unfold ipa_ipv6ct_add_rule; rewrite (bind_run _ _ _ _ _ Hsup); cbn [negb]; [|by exists (- EINVAL), n].
    change (ct_bad_handle 1 || false) with false. cbn iota. destruct (r_protocol u =? _); [by exists (- EINVAL), n|].
    unfold pthread_mutex_lock, pthread_mutex_unlock. rewrite (bind_run _ _ _ (sys_ret (ct_sys n) (ct_sys_calls n)) n1) by done.
    destruct (truthy (sys_ret (ct_sys n) _)); [by exists (- EINVAL), n1|]. change (1 - 1) with 0.
    rewrite (ct_with_same zero_ct_table n1 HT1). set (n2 := ct_with _ _ n1).
    rewrite (bind_run _ _ _ (- EINVAL, 0) n2) by (unfold ct_add_rule_locked; unfold n2; by rewrite ct_get_then).
    rewrite (bind_run _ _ _ (sys_ret (ct_sys n2) (ct_sys_calls n2)) (ticks 1 n2)) by done.
    by exists (- EINVAL), (ticks 1 n2).
Qed.

(** ** Concrete systems and rules *)

(** A system whose calls succeed, whose hardware is as documented, and whose
    mapping has room for [k] records. *)
Definition sample_ct_system (k : nat) : ct_system := {|
  ct_calls_of := quiet_calls 4096;
  ct_mmap_mem := replicate k zero_ct_entry;
  ct_table_dma := fun base cmds m => fold_left (ct_dma_store base) cmds m;
|}.

Definition sample_ct_rule : ipa_ipv6ct_rule :=
  mkCtRule 1 2306139568115548160 2 2306139568115548160 IPA_IPV6CT_DIRECTION_ALLOW_OUT false false 0 50000 443 6.

Lemma sample_ct_acceptable : acceptable sample_ct_rule.
Proof. split; [split; unfold is_word; cbn; lia|unfold direction_ok; cbn; unfold IPA_IPV6CT_DIRECTION_ALLOW_OUT; lia]. Qed.

Lemma sample_ct_closed k : ct_closed (initial_ct (sample_ct_system k)).
Proof. split; [done|]. split; [done|by eexists]. Qed.

Lemma sample_ct_ready : ct_ready 4 2 (sample_ct_system 6).
Proof. by split. Qed.

(** An open table without connections. *)
Lemma sample_ct_store : exists n, ct_store_ok 4 2 n ∅ /\ ct_sys n = sample_ct_system 6.
Proof.
  set (n0 := (initial_ct (sample_ct_system 6)) <| ct_desc := Some true |> <| ct_table_cnt := 1 |>).
  assert (H0 : ct_tables n0 = [zero_ct_table]) by done. assert (Hs : no_failures (ct_sys n0)) by done.
  destruct (ct_create_run n0 zero_ct_table H0 Hs 5 4 2 ltac:(vm_compute; reflexivity) eq_refl eq_refl eq_refl) as (T&cm&_&Hok&Hsz&_).
  exists (ct_with T cm n0). split; [|done]. split; [|done]. split; [done|done|done|by exists T].
Qed.

Lemma ipv6ct_ops_atomic_witness :
  exists n, ct_open 4 2 n ∅ /\ exists res n' m', ct_run_op (AddRule sample_ct_rule) n = Done (res, n') /\ ct_open 4 2 n' m' /\
    ((m' = ∅ /\ res.1 <> 0) \/ ct_effect 4 ∅ (AddRule sample_ct_rule) res m').
Proof.
  destruct sample_ct_store as (n&[Ho _]&_). exists n. split; [exact Ho|].
  exact (ipv6ct_ops_atomic 4 2 n ∅ (AddRule sample_ct_rule) Ho sample_ct_acceptable).
Defined.

Lemma ipv6ct_store_refines_witness :
  exists n, ct_store_ok 4 2 n ∅ /\
    exists h n' m, run_client ct_run_op (toggling_client sample_ct_rule) 6 [] n = Done (h, n') /\ length h = 6%nat /\
      store_run ct_kind 4 2 ∅ h m /\ ct_store_ok 4 2 n' m.
Proof.
  destruct sample_ct_store as (n&Hok&_). exists n. split; [exact Hok|].
  exact (ipv6ct_store_refines 4 2 (toggling_client sample_ct_rule) ∅ n 6 Hok
    (fun h m Hh _ => toggling_client_allowed ct_kind 4 2 sample_ct_rule ∅ h m sample_ct_acceptable Hh)).
Defined.

Lemma ipv6ct_create_establishes_store_witness :
  table_sizes IPA_NAT_MEM_IN_DDR 5 = Some (4, 2) /\
  exists n', ipa_ipv6ct_add_tbl 5 true (initial_ct (sample_ct_system 6)) = Done ((0, 1), n') /\ ct_store_ok 4 2 n' ∅ /\
    ct_sys n' = sample_ct_system 6 /\ ct_posted n' = [] ++ [mkCtInit 0 (4 * sizeof_ipa_ipv6ct_hw_entry) (4 - 1) 2 0].
Proof.
  assert (Hs : table_sizes IPA_NAT_MEM_IN_DDR 5 = Some (4, 2)) by (vm_compute; reflexivity). split; [exact Hs|].
  exact (ipv6ct_create_establishes_store 5 (initial_ct (sample_ct_system 6)) 4 2 ltac:(unfold IPA_TABLE_MAX_ENTRIES; lia) Hs
    (sample_ct_closed 6) sample_ct_ready).
Defined.

Lemma ipv6ct_delete_closes_witness :
  exists n n', ct_store_ok 4 2 n ∅ /\ ipa_ipv6ct_del_tbl 1 n = Done (0, n') /\ ct_closed n' /\ ct_tables n' = [zero_ct_table] /\
    ct_sys n' = ct_sys n /\ ct_posted n' = ct_posted n.
Proof.
  destruct sample_ct_store as (n&Hok&_). destruct (ipv6ct_delete_closes 4 2 n ∅ Hok) as (n'&H). exists n, n'. exact (conj Hok H).
Defined.

Lemma ipv6ct_closed_faults_witness :
  let n := initial_ct (sample_ct_system 6) in ct_closed n /\ ipa_ipv6ct_del_tbl 1 n = Fault NullDeref.
Proof. split; [exact (sample_ct_closed 6)|]. apply (ipv6ct_closed_faults _ (sample_ct_closed 6)). Defined.

(** The second of the next calls fails. *)
Lemma sample_ct_unreleased :
  exists n, ct_open 4 2 n ∅ /\ sys_ret (ct_sys n) (ct_sys_calls n) = 0 /\ sys_ret (ct_sys n) (S (ct_sys_calls n)) <> 0.
Proof.
  destruct sample_ct_store as (n&[[Hd Hc _ HT] _]&_). set (s := sample_ct_system 6).
  exists (n <| ct_sys := mkCtSystem (mkCalls (fun k => if Nat.eqb k 1 then - 1 else 0) true 0 0 0 0 (fun _ => 4096))
    (ct_mmap_mem s) (ct_table_dma s) |> <| ct_sys_calls := 0%nat |>).
  split; [by split|done].
Qed.

Lemma ipv6ct_failed_delete_stuck_witness :
  exists n, ct_open 4 2 n ∅ /\ exists ret n', ipa_ipv6ct_del_tbl 1 n = Done (ret, n') /\ ret <> 0 /\ ct_stuck n'.
Proof.
  destruct sample_ct_unreleased as (n&Ho&H1&H2). exists n. split; [exact Ho|].
  destruct (ipv6ct_failed_delete_stuck 4 2 n ∅ Ho H1 H2) as (ret&n'&Hrun&Hr&Hst&_). exists ret, n'. exact (conj Hrun (conj Hr Hst)).
Defined.
