(* ===== verification/IpaFrame.v ===== *)
(** * What the operations on one table leave alone

    Relations that every completed run of the translation library respects, in
    any state and whatever the system reports: an operation on the rules of one
    memory changes nothing of the other, and no operation changes the system. *)

From stdpp Require Import gmap.
From S2P Require Import Prelude IpaTable IpaSystem IpaNat IpaNatSpec IpaRules IpaCreate.

Local Open Scope Z_scope.

(** Removes the abstraction over the state that [on_table] begins with. *)
Ltac at_eta :=
  match goal with |- keeps ?R ?m => let f := eval cbv delta [on_table on_index] beta in m in
    match f with fun n => ?k n => change (keeps R k) end end.

(** ** The operations on rules *)

Section Rules.
Context (R : nat_state -> nat_state -> Prop) {HR : PreOrder R} (mt i : Z).
Context (Hticks : forall k n, R n (ticks k n)).
Context (Hcmd : forall f n, R n (n <| nat_cmd ::= f |>)).
Context (Htok : forall f n, R n (n <| Hash_token ::= f |>)).
Context (Hput : forall T, keeps R (put_table mt i T)).

#[local] Hint Resolve Hput : keeps.

Lemma keeps_sys_call : keeps R sys_call.
Proof using Hticks. intros n r n' H. assert (n' = ticks 1 n) as -> by (by injection H). apply Hticks. Qed.

Lemma keeps_get_cache k : keeps R (get_cache k).
Proof using HR. unfold get_cache. intros n r n' [_ ->]%liftO_inv. reflexivity. Qed.

Lemma keeps_get_table k j : keeps R (get_table k j).
Proof using HR. unfold get_table. pose proof keeps_get_cache. keep. Qed.

#[local] Hint Resolve keeps_sys_call keeps_get_cache keeps_get_table : keeps.

Lemma keeps_upd_table f : keeps R (upd_table mt i f).
Proof using HR Hput. unfold upd_table. keep. Qed.

Lemma keeps_on_table {A} (m : M (tstate ipa_nat_rule) A) : keeps R (on_table mt i m).
Proof using HR Hput Hcmd. at_eta. keep. apply Hcmd. Qed.

Lemma keeps_on_index {A} (m : M (tstate ipa_nat_indx_tbl_rule) A) : keeps R (on_index mt i m).
Proof using HR Hput Hcmd. at_eta. keep. apply Hcmd. Qed.

Lemma keeps_spread hash size : keeps R (spread hash size).
Proof using Htok. intros n r n' H. assert (n' = n <| Hash_token ::= fun x => x + 1 |>) as -> by (by injection H). apply Htok. Qed.

#[local] Hint Resolve keeps_upd_table keeps_on_table keeps_on_index keeps_spread : keeps.

Lemma keeps_post_dma : keeps R (ipa_nati_post_ipv4_dma_cmd mt i).
Proof using HR Hticks Hput. unfold ipa_nati_post_ipv4_dma_cmd. keep. Qed.

#[local] Hint Resolve keeps_post_dma : keeps.

Lemma keeps_link_and_post u r h j : keeps R (link_and_post mt i u r h j).
Proof using HR Hticks Hcmd Hput. unfold link_and_post. keep. Qed.

#[local] Hint Resolve keeps_link_and_post : keeps.

Lemma keeps_add_index_and_post u r h : keeps R (add_index_and_post mt i u r h).
Proof using HR Hticks Hcmd Htok Hput. unfold add_index_and_post. keep. Qed.

#[local] Hint Resolve keeps_add_index_and_post : keeps.

Lemma keeps_add_locked u : keeps R (add_rule_locked mt i u).
Proof using HR Hticks Hcmd Htok Hput. unfold add_rule_locked. keep. Qed.

Lemma keeps_copy_second it : keeps R (ipa_nati_copy_second_index_entry_to_head mt i it).
Proof using HR Hcmd Hput. unfold ipa_nati_copy_second_index_entry_to_head. keep. Qed.

Lemma keeps_delete_records it it' : keeps R (delete_records mt i it it').
Proof using HR Hcmd Hput. unfold delete_records. keep. Qed.

#[local] Hint Resolve keeps_copy_second keeps_delete_records : keeps.

Lemma keeps_del_locked h : keeps R (del_rule_locked mt i h).
Proof using HR Hticks Hcmd Hput. unfold del_rule_locked. keep. Qed.

#[local] Hint Resolve keeps_add_locked keeps_del_locked : keeps.

Context (hdl : Z) (Hhdl : BREAK_TBL_HDL hdl = (mt, i + 1)).

(** The index within the cache, from the handle. *)
Lemma hdl_index : i + 1 - 1 = i.
Proof using Type. lia. Qed.

Lemma keeps_NATI_add u : keeps R (ipa_NATI_add_ipv4_rule hdl u).
Proof using All. unfold ipa_NATI_add_ipv4_rule, new_cmd. rewrite Hhdl, hdl_index. keep; apply Hcmd. Qed.

Lemma keeps_NATI_del h : keeps R (ipa_NATI_del_ipv4_rule hdl h).
Proof using All. unfold ipa_NATI_del_ipv4_rule, new_cmd. rewrite Hhdl, hdl_index. keep. apply Hcmd. Qed.

Lemma keeps_NATI_query h : keeps R (ipa_NATI_query_timestamp hdl h).
Proof using All. unfold ipa_NATI_query_timestamp. rewrite Hhdl, hdl_index. keep. Qed.

Lemma keeps_NATI_clear : keeps R (ipa_NATI_clear_ipv4_tbl hdl).
Proof using All. unfold ipa_NATI_clear_ipv4_tbl. rewrite Hhdl, hdl_index. keep. Qed.

End Rules.

(** ** The other memory *)

(** Another memory, the networks and the system are as before; of the memory
    itself the device and the number of tables. *)
Record nat_frame (mt : Z) (n n' : nat_state) : Prop := {
  fr_pdns : pdns n' = pdns n;
  fr_sys : sys n' = sys n;
  fr_other : forall k, k <> mt -> zget (ipv4_nat_cache n') k = zget (ipv4_nat_cache n) k;
  fr_cache : forall c, zget (ipv4_nat_cache n) mt = Some c ->
    exists c', zget (ipv4_nat_cache n') mt = Some c' /\ ipa_desc c' = ipa_desc c /\ table_cnt c' = table_cnt c;
}.

#[export] Instance nat_frame_preorder mt : PreOrder (nat_frame mt).
Proof.
  split.
  - intros n. split; [done|done|done|]. intros c Hc. by exists c.
  - intros a b c [P1 S1 O1 C1] [P2 S2 O2 C2]. split; [congruence|congruence|intros k Hk; by rewrite O2, O1|].
    intros x Hx. destruct (C1 x Hx) as (y&Hy&D1&N1). destruct (C2 y Hy) as (z&Hz&D2&N2).
    exists z. split; [done|]. split; congruence.
Qed.

(** The caches stay as they are. *)
Lemma frame_same mt n n' :
  ipv4_nat_cache n' = ipv4_nat_cache n -> pdns n' = pdns n -> sys n' = sys n -> nat_frame mt n n'.
Proof. intros Hc Hp Hs. split; [done|done|by rewrite Hc|]. rewrite Hc. intros c H. by exists c. Qed.

Lemma frame_put_table mt i T : keeps (nat_frame mt) (put_table mt i T).
Proof.
  unfold put_table. apply keeps_bind; [typeclasses eauto|apply keeps_get_cache; typeclasses eauto|]. intros c.
  apply keeps_bind; [typeclasses eauto|apply keeps_liftO; typeclasses eauto|]. intros l n a n' H.
  unfold upd_cache in H. destruct (zget (ipv4_nat_cache n) mt) as [x|] eqn:Hx; [|done]. injection H as _ <-.
  pose proof (zget_Some _ _ _ Hx) as Hr. split; [done|done| |].
  - intros k Hk. cbn. by apply zget_insert_ne; [lia|].
  - intros y Hy. cbn. rewrite zget_insert_eq by done. exists (x <| ip4_tbl := l |>). rewrite Hx in Hy. by injection Hy as <-.
Qed.

Section Frame.
Context (mt i hdl : Z) (Hhdl : BREAK_TBL_HDL hdl = (mt, i + 1)).
Local Abbreviation R := (nat_frame mt).

Local Ltac frame := try (intros; by apply frame_same); try apply frame_put_table; try exact Hhdl; try typeclasses eauto.

Lemma frame_add u : keeps R (ipa_NATI_add_ipv4_rule hdl u).
Proof using Hhdl. apply (keeps_NATI_add R mt i); frame. Qed.

Lemma frame_del h : keeps R (ipa_NATI_del_ipv4_rule hdl h).
Proof using Hhdl. apply (keeps_NATI_del R mt i); frame. Qed.

Lemma frame_query h : keeps R (ipa_NATI_query_timestamp hdl h).
Proof using Hhdl. apply (keeps_NATI_query R mt i); frame. Qed.

Lemma frame_clear : keeps R (ipa_NATI_clear_ipv4_tbl hdl).
Proof using Hhdl. apply (keeps_NATI_clear R mt i); frame. Qed.

End Frame.

(** ** Creating and deleting tables *)

Section Tables.
Context (R : nat_state -> nat_state -> Prop) {HR : PreOrder R} (mt : Z).
Context (Hfree : forall n n', ipv4_nat_cache n' = ipv4_nat_cache n -> sys n' = sys n -> R n n').
Context (Hcache : forall f, keeps R (upd_cache mt f)).

#[local] Hint Resolve Hcache : keeps.

Lemma free_modify f :
  (forall n, ipv4_nat_cache (f n) = ipv4_nat_cache n /\ sys (f n) = sys n) -> keeps R (modify f).
Proof using HR Hfree. intros Hf. apply keeps_modify. intros n. destruct (Hf n). by apply Hfree. Qed.

Lemma free_call : keeps R sys_call.
Proof using HR Hfree. apply keeps_sys_call. intros k n. by apply Hfree. Qed.

Lemma free_get_cache k : keeps R (get_cache k).
Proof using HR. by apply keeps_get_cache. Qed.

Lemma free_get_table k i : keeps R (get_table k i).
Proof using HR. by apply keeps_get_table. Qed.

Lemma free_run_table {E A} (m : M (ipa_table E) A) t : keeps R (run_table m t).
Proof using HR. intros n a n' H. unfold run_table in H. destruct (m t) as [[? ?]|]; [|done]. by injection H as _ <-. Qed.

#[local] Hint Resolve free_call free_get_cache free_get_table free_run_table : keeps.

Lemma tbl_put i T : keeps R (put_table mt i T).
Proof using HR Hcache. unfold put_table. keep. Qed.

Lemma tbl_upd i f : keeps R (upd_table mt i f).
Proof using HR Hcache. apply keeps_upd_table; [done|intros; apply tbl_put]. Qed.

Lemma tbl_on_table {A} i (m : M (tstate ipa_nat_rule) A) : keeps R (on_table mt i m).
Proof using HR Hfree Hcache. apply keeps_on_table; [done|intros; by apply Hfree|intros; apply tbl_put]. Qed.

Lemma tbl_on_index {A} i (m : M (tstate ipa_nat_indx_tbl_rule) A) : keeps R (on_index mt i m).
Proof using HR Hfree Hcache. apply keeps_on_index; [done|intros; by apply Hfree|intros; apply tbl_put]. Qed.

#[local] Hint Resolve tbl_put tbl_upd tbl_on_table tbl_on_index : keeps.

Lemma free_alloc d : keeps R (ipa_mem_descriptor_allocate_memory d).
Proof using HR Hfree. unfold ipa_mem_descriptor_allocate_memory, AllocateMemory, MapMemory, DeallocateMemory. keep. Qed.

Lemma free_mem_delete d : keeps R (ipa_mem_descriptor_delete d).
Proof using HR Hfree. unfold ipa_mem_descriptor_delete, DeallocateMemory. keep. Qed.

Lemma tbl_ensure_desc : keeps R (ensure_desc mt).
Proof using HR Hfree Hcache. unfold ensure_desc, ipa_descriptor_open. keep. Qed.

Lemma tbl_close_desc : keeps R (close_unused_desc mt).
Proof using HR Hcache. unfold close_unused_desc. keep. Qed.

#[local] Hint Resolve free_alloc free_mem_delete tbl_ensure_desc tbl_close_desc : keeps.

Lemma tbl_create i a b c : keeps R (ipa_nati_create_table mt i a b c).
Proof using HR Hfree Hcache. unfold ipa_nati_create_table, place_tables. keep. Qed.

Lemma tbl_destroy i : keeps R (ipa_nati_destroy_table mt i).
Proof using HR Hfree Hcache. unfold ipa_nati_destroy_table. keep. Qed.

Lemma free_post_init k i a b : keeps R (ipa_nati_post_ipv4_init_cmd k i a b).
Proof using HR Hfree. unfold ipa_nati_post_ipv4_init_cmd. keep. by apply Hfree. Qed.

#[local] Hint Resolve tbl_create tbl_destroy free_post_init : keeps.

Lemma free_NATI_post hdl : keeps R (ipa_NATI_post_ipv4_init_cmd hdl).
Proof using HR Hfree. unfold ipa_NATI_post_ipv4_init_cmd. keep. by apply Hfree. Qed.

Lemma tbl_NATI_add a b : keeps R (ipa_NATI_add_ipv4_tbl mt a b).
Proof using HR Hfree Hcache. unfold ipa_NATI_add_ipv4_tbl. keep; by apply Hfree. Qed.

Lemma tbl_NATI_del hdl i : BREAK_TBL_HDL hdl = (mt, i) -> keeps R (ipa_NATI_del_ipv4_table hdl).
Proof using HR Hfree Hcache. intros Hh. unfold ipa_NATI_del_ipv4_table. rewrite Hh. keep. Qed.

Lemma tbl_sram_size : mt = IPA_NAT_MEM_IN_SRAM -> keeps R ipa_nati_get_sram_size.
Proof using HR Hfree Hcache. intros Hmt. unfold ipa_nati_get_sram_size. rewrite <- Hmt. keep. Qed.

Lemma tbl_vote : mt = IPA_NAT_MEM_IN_SRAM -> keeps R ipa_nati_vote_clock.
Proof using HR Hfree Hcache. intros Hmt. unfold ipa_nati_vote_clock. rewrite <- Hmt. keep. Qed.

End Tables.

(** The caches of the other memories. *)
Definition other_caches (mt : Z) (n n' : nat_state) : Prop :=
  forall k, k <> mt -> zget (ipv4_nat_cache n') k = zget (ipv4_nat_cache n) k.

#[export] Instance other_caches_preorder mt : PreOrder (other_caches mt).
Proof. split; [by intros n k|]. intros a b c H1 H2 k Hk. by rewrite H2, H1. Qed.

Lemma other_upd mt f : keeps (other_caches mt) (upd_cache mt f).
Proof.
  intros n a n' H k Hk. unfold upd_cache in H. destruct (zget (ipv4_nat_cache n) mt) as [x|] eqn:Hx; [|done]. injection H as _ <-.
  cbn. apply zget_insert_ne; [|done]. by destruct (zget_Some _ _ _ Hx).
Qed.

Lemma other_free mt n n' : ipv4_nat_cache n' = ipv4_nat_cache n -> sys n' = sys n -> other_caches mt n n'.
Proof. intros Hc _ k _. by rewrite Hc. Qed.

(** ** The system *)

Section System.
Local Abbreviation R := (same sys).

Lemma sys_upd_cache mt f : keeps R (upd_cache mt f).
Proof. intros n a n' H. unfold upd_cache in H. destruct (zget _ mt); [|done]. by injection H as _ <-. Qed.

Lemma sys_free n n' : ipv4_nat_cache n' = ipv4_nat_cache n -> sys n' = sys n -> same sys n n'.
Proof. done. Qed.

Lemma sys_call_same : keeps R sys_call.
Proof. by apply keeps_sys_call. Qed.

Lemma sys_get_cache mt : keeps R (get_cache mt).
Proof. apply keeps_get_cache, _. Qed.

Lemma sys_get_table mt i : keeps R (get_table mt i).
Proof. apply keeps_get_table, _. Qed.

Lemma sys_put_table mt i T : keeps R (put_table mt i T).
Proof. exact (tbl_put R mt (sys_upd_cache mt) i T). Qed.

Lemma sys_on_table {A} mt i (m : M (tstate ipa_nat_rule) A) : keeps R (on_table mt i m).
Proof. exact (tbl_on_table R mt sys_free (sys_upd_cache mt) i m). Qed.

Lemma sys_on_index {A} mt i (m : M (tstate ipa_nat_indx_tbl_rule) A) : keeps R (on_index mt i m).
Proof. exact (tbl_on_index R mt sys_free (sys_upd_cache mt) i m). Qed.

Lemma sys_run_table {E A} (m : M (ipa_table E) A) t : keeps R (run_table m t).
Proof. apply free_run_table, _. Qed.

#[local] Hint Resolve sys_call_same sys_get_cache sys_get_table sys_run_table sys_on_table sys_on_index : keeps.

Lemma sys_NATI_post hdl : keeps R (ipa_NATI_post_ipv4_init_cmd hdl).
Proof. apply free_NATI_post; [typeclasses eauto|exact sys_free]. Qed.

Lemma sys_NATI_add_tbl mt ip k : keeps R (ipa_NATI_add_ipv4_tbl mt ip k).
Proof. exact (tbl_NATI_add R mt sys_free (sys_upd_cache mt) ip k). Qed.

Lemma sys_NATI_del_tbl hdl : keeps R (ipa_NATI_del_ipv4_table hdl).
Proof. destruct (BREAK_TBL_HDL hdl) as [mt i] eqn:Hh. exact (tbl_NATI_del R mt sys_free (sys_upd_cache mt) hdl i Hh). Qed.

Lemma sys_sram_size : keeps R ipa_nati_get_sram_size.
Proof. exact (tbl_sram_size R _ sys_free (sys_upd_cache _) eq_refl). Qed.

Lemma sys_vote : keeps R ipa_nati_vote_clock.
Proof. exact (tbl_vote R _ sys_free (sys_upd_cache _) eq_refl). Qed.

Lemma sys_NATI_stats hdl : keeps R (ipa_NATI_ipv4_tbl_stats hdl).
Proof. unfold ipa_NATI_ipv4_tbl_stats. keep. Qed.

Lemma break_hdl hdl : exists mt i, BREAK_TBL_HDL hdl = (mt, i + 1).
Proof. exists (BREAK_TBL_HDL hdl).1, ((BREAK_TBL_HDL hdl).2 - 1). destruct (BREAK_TBL_HDL hdl). cbn. f_equal. lia. Qed.

Lemma sys_NATI_add hdl u : keeps R (ipa_NATI_add_ipv4_rule hdl u).
Proof.
  destruct (break_hdl hdl) as (mt&i&Hh).
  apply (keeps_NATI_add R mt i); first [done|typeclasses eauto|apply sys_put_table].
Qed.

Lemma sys_NATI_del hdl h : keeps R (ipa_NATI_del_ipv4_rule hdl h).
Proof.
  destruct (break_hdl hdl) as (mt&i&Hh).
  apply (keeps_NATI_del R mt i); first [done|typeclasses eauto|apply sys_put_table].
Qed.

Lemma sys_NATI_query hdl h : keeps R (ipa_NATI_query_timestamp hdl h).
Proof.
  destruct (break_hdl hdl) as (mt&i&Hh).
  apply (keeps_NATI_query R mt i); first [done|typeclasses eauto|apply sys_put_table].
Qed.

Lemma sys_NATI_clear hdl : keeps R (ipa_NATI_clear_ipv4_tbl hdl).
Proof.
  destruct (break_hdl hdl) as (mt&i&Hh).
  apply (keeps_NATI_clear R mt i); first [done|typeclasses eauto|apply sys_put_table].
Qed.

End System.
