(* ===== verification/IpaStateMach.v ===== *)
(** * The state machine over two tables

    [dataipa/ipanat/src/ipa_nat_statemach.c], with the maps of handles of
    [ipa_nat_map.cpp] and the interface of [ipa_nat_drv.c].  A translation table
    may be in external memory, in the memory on the chip, or in both ("hybrid"):
    then the rules move from one to the other, and two maps relate the handles
    that the client got to those of the present place. *)

From stdpp Require Import gmap strings.
From Stdlib Require Import Ascii String.
From S2P Require Import Prelude IpaTable IpaSystem IpaNat.

Local Open Scope Z_scope.

(** ** The maps of handles

    [map_array] is an array of maps; the state of these operations. *)

Definition MAP_NUM_00 : Z := 0.
Definition MAP_NUM_01 : Z := 1.
Definition MAP_NUM_02 : Z := 2.
Definition MAP_NUM_03 : Z := 3.
Definition MAP_NUM_MAX : Z := 5.

Definition VALID_IPA_USE_MAP (w : Z) : bool := (MAP_NUM_00 <=? w) || (w <? MAP_NUM_MAX).

Abbreviation map_list := (list (gmap Z Z)).

Definition get_map (which : Z) : M map_list (gmap Z Z) := fun l => liftO OutOfBounds (zget l which) l.
Definition set_map (which : Z) (m : gmap Z Z) : M map_list unit := fun l =>
  match zset l which m with Some l' => Done (tt, l') | None => Fault OutOfBounds end.

Definition ipa_nat_map_add (which key val : Z) : M map_list Z :=
  if negb (VALID_IPA_USE_MAP which) then mret (- 1) else
  m ← get_map which;
  match m !! key with
  | Some _ => mret (- 1)
  | None => set_map which (<[key := val]> m) ;; mret 0
  end.

(** The return value and the value found. *)
Definition ipa_nat_map_find (which key : Z) : M map_list (Z * Z) :=
  if negb (VALID_IPA_USE_MAP which) then mret (- 1, 0) else
  m ← get_map which;
  match m !! key with
  | Some val => mret (0, val)
  | None => mret (- 1, 0)
  end.

Definition ipa_nat_map_del (which key : Z) : M map_list (Z * Z) :=
  if negb (VALID_IPA_USE_MAP which) then mret (- 1, 0) else
  m ← get_map which;
  match m !! key with
  | Some val => set_map which (delete key m) ;; mret (0, val)
  | None => mret (- 1, 0)
  end.

Definition ipa_nat_map_clear (which : Z) : M map_list Z :=
  if negb (VALID_IPA_USE_MAP which) then mret (- 1) else
  get_map which ;; set_map which ∅ ;; mret 0.

(** ** The state *)

Inductive ipa_nati_state :=
| NATI_STATE_NULL
| NATI_STATE_DDR_ONLY
| NATI_STATE_SRAM_ONLY
| NATI_STATE_HYBRID
| NATI_STATE_HYBRID_DDR
| NATI_STATE_LAST.

Inductive ipa_nati_trigger :=
| NATI_TRIG_NULL
| NATI_TRIG_ADD_TABLE
| NATI_TRIG_DEL_TABLE
| NATI_TRIG_CLR_TABLE
| NATI_TRIG_WLK_TABLE
| NATI_TRIG_TBL_STATS
| NATI_TRIG_ADD_RULE
| NATI_TRIG_DEL_RULE
| NATI_TRIG_TBL_SWITCH
| NATI_TRIG_GOTO_DDR
| NATI_TRIG_GOTO_SRAM
| NATI_TRIG_GET_TSTAMP
| NATI_TRIG_LAST.

#[export] Instance ipa_nati_state_eq_dec : EqDecision ipa_nati_state.
Proof. solve_decision. Defined.
#[export] Instance ipa_nati_trigger_eq_dec : EqDecision ipa_nati_trigger.
Proof. solve_decision. Defined.

(** The arrays of two, which the code indexes with the constants [DDR_SUB] and
    [SRAM_SUB] only. *)
Inductive mem_sub := DDR_SUB | SRAM_SUB.

#[export] Instance mem_sub_eq_dec : EqDecision mem_sub.
Proof. solve_decision. Defined.

Record per_mem (A : Type) := mkPer { at_ddr : A; at_sram : A }.
Arguments mkPer {A}.
Arguments at_ddr {A}.
Arguments at_sram {A}.

Definition at_sub {A} (sub : mem_sub) (p : per_mem A) : A := match sub with DDR_SUB => at_ddr p | SRAM_SUB => at_sram p end.
Definition alter_sub {A} (sub : mem_sub) (f : A -> A) (p : per_mem A) : per_mem A :=
  match sub with
  | DDR_SUB => mkPer (f (at_ddr p)) (at_sram p)
  | SRAM_SUB => mkPer (at_ddr p) (f (at_sram p))
  end.

Record nati_map_pair := mkMapPair { orig2new_map : Z; new2orig_map : Z }.
Record nati_switch_stats := mkSwitchStats { sw_pass : Z; sw_fail : Z }.

#[export] Instance eta_switch_stats : Eta nati_switch_stats.
Proof. refine (mkEta _ (fun s => mkSwitchStats (sw_pass s) (sw_fail s)) _). by intros []. Defined.

Record ipa_nati_obj := mkObj {
  prev_state : ipa_nati_state;
  curr_state : ipa_nati_state;
  hold_state : bool;
  state_to_hold : ipa_nati_state;
  ddr_tbl_hdl : Z;
  sram_tbl_hdl : Z;
  tot_slots_in_sram : Z;
  back_to_sram_thresh : Z;
  tot_rules_in_table : per_mem Z;
  map_pairs : per_mem nati_map_pair;
  sw_stats : per_mem nati_switch_stats;
}.

#[export] Instance eta_nati_obj : Eta ipa_nati_obj.
Proof.
  refine (mkEta _ (fun o => mkObj (prev_state o) (curr_state o) (hold_state o) (state_to_hold o) (ddr_tbl_hdl o)
    (sram_tbl_hdl o) (tot_slots_in_sram o) (back_to_sram_thresh o) (tot_rules_in_table o) (map_pairs o) (sw_stats o)) _).
  by intros [].
Defined.

Definition initial_obj : ipa_nati_obj :=
  mkObj NATI_STATE_NULL NATI_STATE_NULL false NATI_STATE_NULL 0 0 0 0 (mkPer 0 0)
    (mkPer (mkMapPair MAP_NUM_00 MAP_NUM_01) (mkMapPair MAP_NUM_02 MAP_NUM_03))
    (mkPer (mkSwitchStats 0 0) (mkSwitchStats 0 0)).

(** What the pointers of the client point to: the results written so far. *)
Record client_cells := mkCells {
  tbl_hdl_cell : Z;
  rule_hdl_cell : Z;
  time_stamp_cell : Z;
  nat_stats_cell : option ipa_nati_tbl_stats;
  idx_stats_cell : option ipa_nati_tbl_stats;
}.

#[export] Instance eta_client_cells : Eta client_cells.
Proof.
  refine (mkEta _ (fun c => mkCells (tbl_hdl_cell c) (rule_hdl_cell c) (time_stamp_cell c) (nat_stats_cell c)
    (idx_stats_cell c)) _).
  by intros [].
Defined.

Record sm_state := mkSm {
  nati_obj : ipa_nati_obj;
  nat_mutex_init : bool;
  map_array : map_list;
  sm_nat : nat_state;
  cells : client_cells;
}.

#[export] Instance eta_sm_state : Eta sm_state.
Proof.
  refine (mkEta _ (fun s => mkSm (nati_obj s) (nat_mutex_init s) (map_array s) (sm_nat s) (cells s)) _). by intros [].
Defined.

Abbreviation SM := (M sm_state).

#[export] Instance sm_has_nat : HasNat sm_state.
Proof. refine {| nat_of := sm_nat; set_nat := fun n s => s <| sm_nat := n |> |}; [done|by intros []|done]. Defined.

Definition initial_sm (sys : ipa_system) : sm_state :=
  mkSm initial_obj false (replicate (Z.to_nat MAP_NUM_MAX) ∅) (initial_nat sys) (mkCells 0 0 0 None None).

(** Runs an operation on the maps. *)
Definition in_maps {A} (m : M map_list A) : SM A := fun s =>
  match m (map_array s) with
  | Done (a, l) => Done (a, s <| map_array := l |>)
  | Fault f => Fault f
  end.

Definition upd_obj (f : ipa_nati_obj -> ipa_nati_obj) : SM unit := modify (fun s => s <| nati_obj ::= f |>).
Definition upd_cells (f : client_cells -> client_cells) : SM unit := modify (fun s => s <| cells ::= f |>).

Definition BACK2_UNSTARTED_STATE : SM unit :=
  upd_obj (fun o => o <| prev_state := NATI_STATE_NULL |> <| curr_state := NATI_STATE_NULL |>).
Definition SET_NATIOBJ_STATE (st : ipa_nati_state) : SM unit :=
  upd_obj (fun o => o <| prev_state := curr_state o |> <| curr_state := st |>).

Section Tests.
Context (o : ipa_nati_obj).
Abbreviation is_state st := (bool_decide (curr_state o = st)).

Definition IN_UNSTARTED_STATE : bool := bool_decide (prev_state o = NATI_STATE_NULL).
Definition IN_HYBRID_STATE : bool := is_state NATI_STATE_HYBRID || is_state NATI_STATE_HYBRID_DDR.
Definition COMPATIBLE_NMI_4SWITCH (n : Z) : bool :=
  (n =? IPA_NAT_MEM_IN_SRAM) && is_state NATI_STATE_HYBRID_DDR
  || (n =? IPA_NAT_MEM_IN_DDR) && is_state NATI_STATE_HYBRID
  || (n =? IPA_NAT_MEM_IN_DDR) && is_state NATI_STATE_DDR_ONLY
  || (n =? IPA_NAT_MEM_IN_SRAM) && is_state NATI_STATE_SRAM_ONLY.
Definition GEN_HOLD_STATE : ipa_nati_state :=
  if negb IN_HYBRID_STATE then curr_state o
  else if is_state NATI_STATE_HYBRID then NATI_STATE_SRAM_ONLY else NATI_STATE_DDR_ONLY.
Definition SRAM_CURRENTLY_ACTIVE : bool := is_state NATI_STATE_SRAM_ONLY || is_state NATI_STATE_HYBRID.
Definition SRAM_TO_BE_ACCESSED (t : ipa_nati_trigger) : bool :=
  SRAM_CURRENTLY_ACTIVE || bool_decide (t = NATI_TRIG_GOTO_SRAM) || bool_decide (t = NATI_TRIG_TBL_SWITCH).
Definition VOTE_REQUIRED (t : ipa_nati_trigger) : bool :=
  SRAM_TO_BE_ACCESSED t && negb (bool_decide (t = NATI_TRIG_GET_TSTAMP)) && negb (bool_decide (t = NATI_TRIG_ADD_TABLE)).
Definition CHOOSE_MEM_SUB : mem_sub := if is_state NATI_STATE_HYBRID then SRAM_SUB else DDR_SUB.
Definition CHOOSE_MAPS : nati_map_pair := at_sub CHOOSE_MEM_SUB (map_pairs o).
Definition CHOOSE_CNTR : Z := at_sub CHOOSE_MEM_SUB (tot_rules_in_table o).
End Tests.

(** A quarter of the slots. *)
Definition PRCNT_OF (v : Z) : Z := v / 4.

Definition set_counter (sub : mem_sub) (f : Z -> Z) : SM unit :=
  upd_obj (fun o => o <| tot_rules_in_table ::= alter_sub sub f |>).

(** Both maps of a memory are emptied. *)
Definition clear_maps (sub : mem_sub) : SM unit :=
  o ← gets nati_obj;
  in_maps (ipa_nat_map_clear (orig2new_map (at_sub sub (map_pairs o)))) ;;
  in_maps (ipa_nat_map_clear (new2orig_map (at_sub sub (map_pairs o)))) ;; mret tt.

(** ** The mutex *)

Definition mutex_init : SM Z :=
  ret ← in_nat sys_call;
  if truthy ret then mret ret else
  ret ← in_nat sys_call;
  if truthy ret then mret ret else
  ret ← in_nat sys_call;
  if truthy ret then mret ret else
  modify (fun s => s <| nat_mutex_init := true |>) ;; mret 0.

Definition take_mutex : SM Z :=
  s ← getM;
  if nat_mutex_init s then in_nat pthread_mutex_lock else
  ret ← mutex_init;
  if ret =? 0 then in_nat pthread_mutex_lock else mret ret.

Definition give_mutex : SM Z :=
  s ← getM;
  if nat_mutex_init s then in_nat pthread_mutex_unlock else mret (- 1).

(** ** Strings *)

Definition lower (c : ascii) : ascii :=
  let n := nat_of_ascii c in if (65 <=? n)%nat && (n <=? 90)%nat then ascii_of_nat (n + 32) else c.
Fixpoint strcasesame (a b : string) : bool :=
  match a, b with
  | EmptyString, EmptyString => true
  | String x a', String y b' => Ascii.eqb (lower x) (lower y) && strcasesame a' b'
  | _, _ => false
  end.

Definition mem_type_str_to_ipa_nati_state (str : option string) : ipa_nati_state :=
  match str with
  | None => NATI_STATE_DDR_ONLY
  | Some str =>
      if strcasesame str "HYBRID" then NATI_STATE_HYBRID
      else if strcasesame str "SRAM" then NATI_STATE_SRAM_ONLY else NATI_STATE_DDR_ONLY
  end.

(** ** Moving a rule to the other memory *)

(** The rule of a user that a record stands for. *)
Definition rule_of_record (r : ipa_nat_rule) : ipa_nat_ipv4_rule :=
  mkUserRule (target_ip r) (private_ip r) (target_port r) (private_port r) (public_port r) (protocol r) (pdn_index r)
    (redirect r) (enable r) (time_stamp r) (uc_activation_index r) (truthy (s_bit r)) (truthy (ucp r))
    (truthy (dst_only r)) (truthy (src_only r)).

(** The callback that copies the records of the table [table_ptr] to the table
    with the handle [dst_tbl_hdl]. *)
Definition migrate_rule (table_ptr : Z * Z) (dst_tbl_hdl : Z) : ipa_table_walk_cb (St := sm_state) :=
  fun tbl_rule_hdl rec_ptr record_index meta_record =>
  s ← getM;
  let t := table (table_of table_ptr.1 table_ptr.2 (sm_nat s)) in
  nat_rule ← liftO OutOfBounds (zget (recs t) rec_ptr);
  let '(src, dst) := if nmi t =? IPA_NAT_MEM_IN_SRAM then (SRAM_SUB, DDR_SUB) else (DDR_SUB, SRAM_SUB) in
  let src_maps := at_sub src (map_pairs (nati_obj s)) in
  let dst_maps := at_sub dst (map_pairs (nati_obj s)) in
  if protocol nat_rule =? IPAHAL_NAT_INVALID_PROTOCOL then mret 0 else
  '(ret, orig_rule_hdl) ← in_maps (ipa_nat_map_find (new2orig_map src_maps) tbl_rule_hdl);
  if truthy ret then mret ret else
  '(ret, new_rule_hdl) ← in_nat (ipa_NATI_add_ipv4_rule dst_tbl_hdl (Some (rule_of_record nat_rule)));
  if truthy ret then mret ret else
  set_counter dst (fun c => u32 (c + 1)) ;;
  ret ← in_maps (ipa_nat_map_add (orig2new_map dst_maps) orig_rule_hdl new_rule_hdl);
  if truthy ret then mret ret else
  in_maps (ipa_nat_map_add (new2orig_map dst_maps) new_rule_hdl orig_rule_hdl).

(** ** The callbacks

    The arguments of a trigger, and where its table handle goes: to the client
    or to a variable of the callback itself.  A callback that is given the
    arguments of another trigger, or none, would follow a null pointer. *)
Inductive sm_args :=
| NoArgs
| TableArgs (public_ip_addr number_of_entries : Z) (to_client : bool) (mem_type_ptr : option string)
| HandleArgs (tbl_hdl : Z)
| WalkArgs (tbl_hdl : Z) (which : WhichTbl2Use) (walk_cb : option (Z * Z -> ipa_table_walk_cb (St := sm_state)))
| RuleArgs (tbl_hdl : Z) (clnt_rule : ipa_nat_ipv4_rule)
| RuleHdlArgs (tbl_hdl rule_hdl : Z).

Definition IPA_APP_CLK_DEVOTE : Z := 0.
Definition IPA_APP_CLK_VOTE : Z := 1.
Definition IPA_APP_CLK_RESET_VOTE : Z := 2.

Definition ipa_nat_vote_clock (vote_type : Z) : NM Z :=
  if negb ((IPA_APP_CLK_DEVOTE <=? vote_type) && (vote_type <=? IPA_APP_CLK_RESET_VOTE)) then mret (- EINVAL)
  else ipa_nati_vote_clock.

Definition nati_statemach_cb : Type := ipa_nati_trigger -> sm_args -> SM Z.

Definition _smDelTbl : nati_statemach_cb := fun trigger args =>
  match args with
  | HandleArgs tbl_hdl =>
      ret ← in_nat (ipa_NATI_del_ipv4_table tbl_hdl);
      o ← gets nati_obj;
      (if (ret =? 0) && negb (IN_HYBRID_STATE o) then BACK2_UNSTARTED_STATE else mret tt) ;; mret ret
  | _ => failM NullDeref
  end.

Definition _smAddDdrTbl : nati_statemach_cb := fun trigger args =>
  match args with
  | TableArgs public_ip_addr number_of_entries to_client _ =>
      '(ret, hdl) ← in_nat (ipa_NATI_add_ipv4_tbl IPA_NAT_MEM_IN_DDR public_ip_addr number_of_entries);
      upd_obj (fun o => o <| ddr_tbl_hdl := hdl |>) ;;
      (if (ret =? 0) && to_client then upd_cells (fun c => c <| tbl_hdl_cell := hdl |>) else mret tt) ;; mret ret
  | _ => failM NullDeref
  end.

(** The count of slots is stored through a pointer to 16 bits of a 32-bit field. *)
Definition store_low16 (old new : Z) : Z := Z.shiftl (Z.shiftr old 16) 16 + new.

Definition _smAddSramTbl : nati_statemach_cb := fun trigger args =>
  match args with
  | TableArgs public_ip_addr number_of_entries to_client _ =>
      '(ret, sram_size) ← in_nat ipa_nati_get_sram_size;
      if truthy ret then mret ret else
      '(ret, slots) ← liftO Diverges
        (ipa_calc_num_sram_table_entries sram_size sizeof_ipa_nat_rule sizeof_ipa_nat_indx_tbl_rule);
      upd_obj (fun o => o <| tot_slots_in_sram ::= fun old => store_low16 old slots |>) ;;
      if truthy ret then mret ret else
      upd_obj (fun o => o <| back_to_sram_thresh := PRCNT_OF (tot_slots_in_sram o) |>) ;;
      ret ← in_nat (ipa_nat_vote_clock IPA_APP_CLK_VOTE);
      if truthy ret then mret ret else
      o ← gets nati_obj;
      '(ret, hdl) ← in_nat (ipa_NATI_add_ipv4_tbl IPA_NAT_MEM_IN_SRAM public_ip_addr (u16 (tot_slots_in_sram o)));
      upd_obj (fun o => o <| sram_tbl_hdl := hdl |>) ;;
      in_nat (ipa_nat_vote_clock IPA_APP_CLK_DEVOTE) ;;
      (if (ret =? 0) && to_client then upd_cells (fun c => c <| tbl_hdl_cell := hdl |>) else mret tt) ;; mret ret
  | _ => failM NullDeref
  end.

Definition _smDelSramAndDdrTbl : nati_statemach_cb := fun trigger args =>
  set_counter SRAM_SUB (fun _ => 0) ;;
  set_counter DDR_SUB (fun _ => 0) ;;
  clear_maps SRAM_SUB ;;
  clear_maps DDR_SUB ;;
  ret ← _smDelTbl trigger args;
  o ← gets nati_obj;
  ret ← (if ret =? 0 then _smDelTbl trigger (HandleArgs (ddr_tbl_hdl o)) else mret ret);
  (if ret =? 0 then BACK2_UNSTARTED_STATE else mret tt) ;; mret ret.

Definition _smClrTbl : nati_statemach_cb := fun trigger args =>
  match args with
  | HandleArgs tbl_hdl =>
      let '(nmi, unused_hdl) := BREAK_TBL_HDL tbl_hdl in
      if negb (IPA_VALID_NAT_MEM_IN nmi) then mret (- EINVAL) else
      let sub := if nmi =? IPA_NAT_MEM_IN_SRAM then SRAM_SUB else DDR_SUB in
      set_counter sub (fun _ => 0) ;;
      clear_maps sub ;;
      in_nat (ipa_NATI_clear_ipv4_tbl tbl_hdl)
  | _ => failM NullDeref
  end.

(** The handle of the table in use in a hybrid state. *)
Definition hybrid_hdl (o : ipa_nati_obj) (tbl_hdl : Z) : Z :=
  if bool_decide (curr_state o = NATI_STATE_HYBRID) then tbl_hdl else ddr_tbl_hdl o.

Definition _smClrTblHybrid : nati_statemach_cb := fun trigger args =>
  match args with
  | HandleArgs tbl_hdl => o ← gets nati_obj; _smClrTbl trigger (HandleArgs (hybrid_hdl o tbl_hdl))
  | _ => failM NullDeref
  end.

Definition _smWalkTbl : nati_statemach_cb := fun trigger args =>
  match args with
  | WalkArgs tbl_hdl which walk_cb => ipa_NATI_walk_ipv4_tbl tbl_hdl which walk_cb
  | _ => failM NullDeref
  end.

Definition _smWalkTblHybrid : nati_statemach_cb := fun trigger args =>
  match args with
  | WalkArgs tbl_hdl which walk_cb => o ← gets nati_obj; _smWalkTbl trigger (WalkArgs (hybrid_hdl o tbl_hdl) which walk_cb)
  | _ => failM NullDeref
  end.

(** A statistic is written as far as the walk got. *)
Definition _smStatTbl : nati_statemach_cb := fun trigger args =>
  match args with
  | HandleArgs tbl_hdl =>
      '(ret, nat_stats, idx_stats) ← in_nat (ipa_NATI_ipv4_tbl_stats tbl_hdl);
      upd_cells (fun c => c <| nat_stats_cell ::= fun old => from_option Some old nat_stats |>
                            <| idx_stats_cell ::= fun old => from_option Some old idx_stats |>) ;; mret ret
  | _ => failM NullDeref
  end.

Definition _smStatTblHybrid : nati_statemach_cb := fun trigger args =>
  match args with
  | HandleArgs tbl_hdl => o ← gets nati_obj; _smStatTbl trigger (HandleArgs (hybrid_hdl o tbl_hdl))
  | _ => failM NullDeref
  end.

(** The addition resets three fields of the client's rule, and writes the
    handle, 0 first, unless it refuses the handle of the table. *)
Definition _smAddRuleToTbl : nati_statemach_cb := fun trigger args =>
  match args with
  | RuleArgs tbl_hdl clnt_rule =>
      let clnt_rule := clnt_rule <| u_redirect := 0 |> <| u_enable := 0 |> <| u_time_stamp := 0 |> in
      '(ret, hdl) ← in_nat (ipa_NATI_add_ipv4_rule tbl_hdl (Some clnt_rule));
      (if VALID_TBL_HDL tbl_hdl then upd_cells (fun c => c <| rule_hdl_cell := hdl |>) else mret tt) ;;
      o ← gets nati_obj;
      (if ret =? 0 then set_counter (CHOOSE_MEM_SUB o) (fun c => u32 (c + 1)) else mret tt) ;; mret ret
  | _ => failM NullDeref
  end.

Definition _smDelRuleFromTbl : nati_statemach_cb := fun trigger args =>
  match args with
  | RuleHdlArgs tbl_hdl rule_hdl =>
      ret ← in_nat (ipa_NATI_del_ipv4_rule tbl_hdl rule_hdl);
      o ← gets nati_obj;
      (if ret =? 0 then set_counter (CHOOSE_MEM_SUB o) (fun c => u32 (c - 1)) else mret tt) ;; mret ret
  | _ => failM NullDeref
  end.

Definition _smGoToDdr : nati_statemach_cb := fun trigger args =>
  o ← gets nati_obj;
  ret ← in_nat (ipa_NATI_post_ipv4_init_cmd (ddr_tbl_hdl o));
  (if ret =? 0 then SET_NATIOBJ_STATE NATI_STATE_HYBRID_DDR else mret tt) ;; mret ret.

Definition _smGoToSram : nati_statemach_cb := fun trigger args =>
  o ← gets nati_obj;
  ret ← in_nat (ipa_NATI_post_ipv4_init_cmd (sram_tbl_hdl o));
  (if ret =? 0 then SET_NATIOBJ_STATE NATI_STATE_HYBRID else mret tt) ;; mret ret.

(** The time stamp is written when the record was read. *)
Definition _smGetTmStmp : nati_statemach_cb := fun trigger args =>
  match args with
  | RuleHdlArgs tbl_hdl rule_hdl =>
      '(ret, stamp) ← in_nat (ipa_NATI_query_timestamp tbl_hdl rule_hdl);
      upd_cells (fun c => c <| time_stamp_cell ::= fun old => default old stamp |>) ;; mret ret
  | _ => failM NullDeref
  end.

Definition _smGetTmStmpHybrid : nati_statemach_cb := fun trigger args =>
  match args with
  | RuleHdlArgs tbl_hdl orig_rule_hdl =>
      o ← gets nati_obj;
      '(ret, new_rule_hdl) ← in_maps (ipa_nat_map_find (orig2new_map (CHOOSE_MAPS o)) orig_rule_hdl);
      if truthy ret then mret ret else
      _smGetTmStmp trigger (RuleHdlArgs (hybrid_hdl o tbl_hdl) new_rule_hdl)
  | _ => failM NullDeref
  end.

Definition _smUndef : nati_statemach_cb := fun trigger args => mret (- 1).

(** *** Callbacks that run the state machine *)

Section Nested.
Context (ipa_nati_statemach : ipa_nati_trigger -> sm_args -> SM Z).

Definition _smFirstTbl : nati_statemach_cb := fun trigger args =>
  match args with
  | TableArgs _ _ _ mem_type_ptr =>
      o ← gets nati_obj;
      SET_NATIOBJ_STATE (if hold_state o && negb (bool_decide (state_to_hold o = NATI_STATE_NULL))
                         then state_to_hold o else mem_type_str_to_ipa_nati_state mem_type_ptr) ;;
      ipa_nati_statemach NATI_TRIG_ADD_TABLE args
  | _ => failM NullDeref
  end.

Definition _smAddSramAndDdrTbl : nati_statemach_cb := fun trigger args =>
  match args with
  | TableArgs public_ip_addr number_of_entries _ mem_type_ptr =>
      set_counter SRAM_SUB (fun _ => 0) ;;
      set_counter DDR_SUB (fun _ => 0) ;;
      clear_maps SRAM_SUB ;;
      clear_maps DDR_SUB ;;
      ret ← _smAddSramTbl trigger args;
      if ret =? 0 then
        o ← gets nati_obj;
        if number_of_entries <=? tot_slots_in_sram o then SET_NATIOBJ_STATE NATI_STATE_SRAM_ONLY ;; mret ret else
        ret ← _smAddDdrTbl trigger (TableArgs public_ip_addr number_of_entries false mem_type_ptr);
        if ret =? 0 then ipa_nati_statemach NATI_TRIG_GOTO_SRAM NoArgs else mret ret
      else
        ret ← _smAddDdrTbl trigger args;
        (if ret =? 0 then SET_NATIOBJ_STATE NATI_STATE_DDR_ONLY else mret tt) ;; mret ret
  | _ => failM NullDeref
  end.

(** The statistics are collected for the log only. *)
Definition collect_stats (args : sm_args) (tbl_hdl : Z) : SM unit :=
  match args with NoArgs => mret tt | _ => in_nat (ipa_NATI_ipv4_tbl_stats tbl_hdl) ;; mret tt end.

(** The switch of the tables: the hardware is told first, then the rules are
    copied and the attempt is counted for the memory that is left. *)
Definition switch_tables (args : sm_args) (goto : ipa_nati_trigger) (dst : mem_sub) (src_hdl dst_hdl : ipa_nati_obj -> Z) : SM Z :=
  o ← gets nati_obj;
  let src := CHOOSE_MEM_SUB o in
  collect_stats args (src_hdl o) ;;
  ret ← ipa_nati_statemach goto NoArgs;
  if truthy ret then mret ret else
  set_counter dst (fun _ => 0) ;;
  clear_maps dst ;;
  o ← gets nati_obj;
  ret ← ipa_nati_copy_ipv4_tbl (src_hdl o) (dst_hdl o) (Some migrate_rule);
  upd_obj (fun o => o <| sw_stats ::= alter_sub src (fun x =>
    if ret =? 0 then x <| sw_pass ::= fun c => u32 (c + 1) |> else x <| sw_fail ::= fun c => u32 (c + 1) |>) |>) ;;
  mret ret.

Definition _smSwitchFromDdrToSram : nati_statemach_cb := fun trigger args =>
  switch_tables args NATI_TRIG_GOTO_SRAM SRAM_SUB ddr_tbl_hdl sram_tbl_hdl.
Definition _smSwitchFromSramToDdr : nati_statemach_cb := fun trigger args =>
  switch_tables args NATI_TRIG_GOTO_DDR DDR_SUB sram_tbl_hdl ddr_tbl_hdl.

Definition _smAddRuleHybrid : nati_statemach_cb := fun trigger args =>
  match args with
  | RuleArgs tbl_hdl clnt_rule =>
      o ← gets nati_obj;
      ret ← _smAddRuleToTbl trigger (RuleArgs (hybrid_hdl o tbl_hdl) clnt_rule);
      s ← getM;
      let o := nati_obj s in
      if ret =? 0 then
        let rule_hdl := rule_hdl_cell (cells s) in
        ret ← in_maps (ipa_nat_map_add (orig2new_map (CHOOSE_MAPS o)) rule_hdl rule_hdl);
        if ret =? 0 then in_maps (ipa_nat_map_add (new2orig_map (CHOOSE_MAPS o)) rule_hdl rule_hdl) else mret ret
      else if bool_decide (curr_state o = NATI_STATE_HYBRID) && negb (hold_state o) then
        ret ← ipa_nati_statemach NATI_TRIG_TBL_SWITCH NoArgs;
        if truthy ret then mret ret else
        SET_NATIOBJ_STATE NATI_STATE_HYBRID_DDR ;;
        ipa_nati_statemach trigger args
      else mret ret
  | _ => failM NullDeref
  end.

Definition _smDelRuleHybrid : nati_statemach_cb := fun trigger args =>
  match args with
  | RuleHdlArgs tbl_hdl orig_rule_hdl =>
      o ← gets nati_obj;
      '(ret, new_rule_hdl) ← in_maps (ipa_nat_map_del (orig2new_map (CHOOSE_MAPS o)) orig_rule_hdl);
      if truthy ret then mret ret else
      in_maps (ipa_nat_map_del (new2orig_map (CHOOSE_MAPS o)) new_rule_hdl) ;;
      ret ← _smDelRuleFromTbl trigger (RuleHdlArgs (hybrid_hdl o tbl_hdl) new_rule_hdl);
      o ← gets nati_obj;
      if (ret =? 0) && bool_decide (curr_state o = NATI_STATE_HYBRID_DDR)
         && (CHOOSE_CNTR o <=? back_to_sram_thresh o) && negb (hold_state o) then
        ret ← ipa_nati_statemach NATI_TRIG_TBL_SWITCH NoArgs;
        (if ret =? 0 then SET_NATIOBJ_STATE NATI_STATE_HYBRID else mret tt) ;; mret 0
      else mret ret
  | _ => failM NullDeref
  end.

(** ** The table of the state machine *)

Definition _state_mach_tbl (state : ipa_nati_state) (trigger : ipa_nati_trigger) : nati_statemach_cb :=
  match state, trigger with
  | NATI_STATE_NULL, NATI_TRIG_ADD_TABLE => _smFirstTbl

  | NATI_STATE_DDR_ONLY, NATI_TRIG_ADD_TABLE => _smAddDdrTbl
  | NATI_STATE_DDR_ONLY, NATI_TRIG_DEL_TABLE => _smDelTbl
  | NATI_STATE_DDR_ONLY, NATI_TRIG_CLR_TABLE => _smClrTbl
  | NATI_STATE_DDR_ONLY, NATI_TRIG_WLK_TABLE => _smWalkTbl
  | NATI_STATE_DDR_ONLY, NATI_TRIG_TBL_STATS => _smStatTbl
  | NATI_STATE_DDR_ONLY, NATI_TRIG_ADD_RULE => _smAddRuleToTbl
  | NATI_STATE_DDR_ONLY, NATI_TRIG_DEL_RULE => _smDelRuleFromTbl
  | NATI_STATE_DDR_ONLY, NATI_TRIG_GET_TSTAMP => _smGetTmStmp

  | NATI_STATE_SRAM_ONLY, NATI_TRIG_ADD_TABLE => _smAddSramTbl
  | NATI_STATE_SRAM_ONLY, NATI_TRIG_DEL_TABLE => _smDelTbl
  | NATI_STATE_SRAM_ONLY, NATI_TRIG_CLR_TABLE => _smClrTbl
  | NATI_STATE_SRAM_ONLY, NATI_TRIG_WLK_TABLE => _smWalkTbl
  | NATI_STATE_SRAM_ONLY, NATI_TRIG_TBL_STATS => _smStatTbl
  | NATI_STATE_SRAM_ONLY, NATI_TRIG_ADD_RULE => _smAddRuleToTbl
  | NATI_STATE_SRAM_ONLY, NATI_TRIG_DEL_RULE => _smDelRuleFromTbl
  | NATI_STATE_SRAM_ONLY, NATI_TRIG_GET_TSTAMP => _smGetTmStmp

  | NATI_STATE_HYBRID, NATI_TRIG_ADD_TABLE => _smAddSramAndDdrTbl
  | NATI_STATE_HYBRID, NATI_TRIG_DEL_TABLE => _smDelSramAndDdrTbl
  | NATI_STATE_HYBRID, NATI_TRIG_CLR_TABLE => _smClrTblHybrid
  | NATI_STATE_HYBRID, NATI_TRIG_WLK_TABLE => _smWalkTblHybrid
  | NATI_STATE_HYBRID, NATI_TRIG_TBL_STATS => _smStatTblHybrid
  | NATI_STATE_HYBRID, NATI_TRIG_ADD_RULE => _smAddRuleHybrid
  | NATI_STATE_HYBRID, NATI_TRIG_DEL_RULE => _smDelRuleHybrid
  | NATI_STATE_HYBRID, NATI_TRIG_TBL_SWITCH => _smSwitchFromSramToDdr
  | NATI_STATE_HYBRID, NATI_TRIG_GOTO_DDR => _smGoToDdr
  | NATI_STATE_HYBRID, NATI_TRIG_GOTO_SRAM => _smGoToSram
  | NATI_STATE_HYBRID, NATI_TRIG_GET_TSTAMP => _smGetTmStmpHybrid

  | NATI_STATE_HYBRID_DDR, NATI_TRIG_DEL_TABLE => _smDelSramAndDdrTbl
  | NATI_STATE_HYBRID_DDR, NATI_TRIG_CLR_TABLE => _smClrTblHybrid
  | NATI_STATE_HYBRID_DDR, NATI_TRIG_WLK_TABLE => _smWalkTblHybrid
  | NATI_STATE_HYBRID_DDR, NATI_TRIG_TBL_STATS => _smStatTblHybrid
  | NATI_STATE_HYBRID_DDR, NATI_TRIG_ADD_RULE => _smAddRuleHybrid
  | NATI_STATE_HYBRID_DDR, NATI_TRIG_DEL_RULE => _smDelRuleHybrid
  | NATI_STATE_HYBRID_DDR, NATI_TRIG_TBL_SWITCH => _smSwitchFromDdrToSram
  | NATI_STATE_HYBRID_DDR, NATI_TRIG_GOTO_DDR => _smGoToDdr
  | NATI_STATE_HYBRID_DDR, NATI_TRIG_GOTO_SRAM => _smGoToSram
  | NATI_STATE_HYBRID_DDR, NATI_TRIG_GET_TSTAMP => _smGetTmStmpHybrid

  | _, _ => _smUndef
  end.

(** One run of a trigger: the callback under the lock, between the votes for
    the clock.  What the callback returns is overwritten by the unlock. *)
Definition statemach_body (trigger : ipa_nati_trigger) (args : sm_args) : SM Z :=
  ret ← take_mutex;
  if truthy ret then mret ret else
  o ← gets nati_obj;
  let vote := VOTE_REQUIRED o trigger in
  voted ← (if vote then in_nat (ipa_nat_vote_clock IPA_APP_CLK_VOTE) else mret 0);
  (if truthy voted then mret (- EINVAL) else
   o ← gets nati_obj;
   ret ← _state_mach_tbl (curr_state o) trigger trigger args;
   (if vote then in_nat (ipa_nat_vote_clock IPA_APP_CLK_DEVOTE) ;; mret tt else mret tt) ;; mret ret) ;;
  give_mutex.

End Nested.

(** The state machine with [n] levels of nesting, and [bottom] below them. *)
Fixpoint statemach_upto (bottom : ipa_nati_trigger -> sm_args -> SM Z) (n : nat) (trigger : ipa_nati_trigger) (args : sm_args) : SM Z :=
  match n with
  | O => bottom trigger args
  | S n' => statemach_body (statemach_upto bottom n') trigger args
  end.

(** The nesting is never deeper than three runs. *)
Definition statemach_depth : nat := 3.

Definition ipa_nati_statemach : ipa_nati_trigger -> sm_args -> SM Z :=
  statemach_upto (fun _ _ => failM Diverges) statemach_depth.

(** ** The interface *)

Definition ipa_nati_add_ipv4_tbl (public_ip_addr : Z) (mem_type_ptr : option string) (number_of_entries : Z) : SM Z :=
  ipa_nati_statemach NATI_TRIG_ADD_TABLE (TableArgs public_ip_addr number_of_entries true mem_type_ptr).
Definition ipa_nati_del_ipv4_table (tbl_hdl : Z) : SM Z := ipa_nati_statemach NATI_TRIG_DEL_TABLE (HandleArgs tbl_hdl).
Definition ipa_nati_clear_ipv4_tbl (tbl_hdl : Z) : SM Z := ipa_nati_statemach NATI_TRIG_CLR_TABLE (HandleArgs tbl_hdl).
Definition ipa_nati_walk_ipv4_tbl (tbl_hdl : Z) (which : WhichTbl2Use) (walk_cb : option (Z * Z -> ipa_table_walk_cb)) : SM Z :=
  ipa_nati_statemach NATI_TRIG_WLK_TABLE (WalkArgs tbl_hdl which walk_cb).
Definition ipa_nati_ipv4_tbl_stats (tbl_hdl : Z) : SM Z := ipa_nati_statemach NATI_TRIG_TBL_STATS (HandleArgs tbl_hdl).
Definition ipa_nati_add_ipv4_rule (tbl_hdl : Z) (clnt_rule : ipa_nat_ipv4_rule) : SM Z :=
  ipa_nati_statemach NATI_TRIG_ADD_RULE (RuleArgs tbl_hdl clnt_rule).
Definition ipa_nati_del_ipv4_rule (tbl_hdl rule_hdl : Z) : SM Z :=
  ipa_nati_statemach NATI_TRIG_DEL_RULE (RuleHdlArgs tbl_hdl rule_hdl).
Definition ipa_nati_query_timestamp (tbl_hdl rule_hdl : Z) : SM Z :=
  ipa_nati_statemach NATI_TRIG_GET_TSTAMP (RuleHdlArgs tbl_hdl rule_hdl).

(** The part of [ipa_nat_switch_to] under the lock. *)
Definition switch_to_locked (nmi : Z) (hold : bool) : SM Z :=
  o ← gets nati_obj;
  if IN_UNSTARTED_STATE o then
    upd_obj (fun o => o <| hold_state := hold |>
      <| state_to_hold := if nmi =? IPA_NAT_MEM_IN_DDR then NATI_STATE_DDR_ONLY else NATI_STATE_SRAM_ONLY |>) ;; mret 0
  else if IN_HYBRID_STATE o then
    ret ← (if COMPATIBLE_NMI_4SWITCH o nmi then ipa_nati_statemach NATI_TRIG_TBL_SWITCH NoArgs else mret 0);
    (if ret =? 0 then
       upd_obj (fun o => o <| hold_state := hold |>) ;;
       if hold then upd_obj (fun o => o <| state_to_hold := GEN_HOLD_STATE o |>) else mret tt
     else mret tt) ;; mret ret
  else if hold then
    if COMPATIBLE_NMI_4SWITCH o nmi then
      upd_obj (fun o => o <| state_to_hold := GEN_HOLD_STATE o |> <| hold_state := hold |>) ;; mret 0
    else mret (- 1)
  else upd_obj (fun o => o <| state_to_hold := NATI_STATE_NULL |> <| hold_state := hold |>) ;; mret 0.

(** As in the state machine, the result is that of the unlock. *)
Definition ipa_nat_switch_to (nmi : Z) (hold : bool) : SM Z :=
  if negb (IPA_VALID_NAT_MEM_IN nmi) then mret (- 1) else
  ret ← take_mutex;
  if truthy ret then mret ret else
  switch_to_locked nmi hold ;; give_mutex.

Definition ipa_nat_is_sram_supported : SM bool := gets (fun s => VALID_TBL_HDL (sram_tbl_hdl (nati_obj s))).

Definition VALID_RULE_HDL (hdl : Z) : bool := negb (hdl =? IPA_TABLE_INVALID_ENTRY).

(** [has_cell]: the pointer for the result is not null. *)
Definition ipa_nat_add_ipv4_tbl (public_ip_addr : Z) (mem_type_ptr : option string) (number_of_entries : Z) (has_cell : bool) : SM Z :=
  if negb has_cell || bool_decide (mem_type_ptr = None) || (number_of_entries =? 0) then mret (- EINVAL) else
  upd_cells (fun c => c <| tbl_hdl_cell := 0 |>) ;;
  ipa_nati_add_ipv4_tbl public_ip_addr mem_type_ptr number_of_entries.

Definition ipa_nat_del_ipv4_tbl (tbl_hdl : Z) : SM Z :=
  if negb (VALID_TBL_HDL tbl_hdl) then mret (- EINVAL) else ipa_nati_del_ipv4_table tbl_hdl.

Definition ipa_nat_add_ipv4_rule (tbl_hdl : Z) (clnt_rule : option ipa_nat_ipv4_rule) (has_cell : bool) : SM Z :=
  match clnt_rule with
  | Some clnt_rule =>
      if negb (VALID_TBL_HDL tbl_hdl) || negb has_cell then mret (- EINVAL) else
      ret ← ipa_nati_add_ipv4_rule tbl_hdl clnt_rule;
      mret (if truthy ret then - EINVAL else 0)
  | None => mret (- EINVAL)
  end.

Definition ipa_nat_del_ipv4_rule (tbl_hdl rule_hdl : Z) : SM Z :=
  if negb (VALID_TBL_HDL tbl_hdl) || negb (VALID_RULE_HDL rule_hdl) then mret (- EINVAL)
  else ipa_nati_del_ipv4_rule tbl_hdl rule_hdl.

Definition ipa_nat_query_timestamp (tbl_hdl rule_hdl : Z) (has_cell : bool) : SM Z :=
  if negb (VALID_TBL_HDL tbl_hdl) || negb (VALID_RULE_HDL rule_hdl) || negb has_cell then mret (- EINVAL)
  else ipa_nati_query_timestamp tbl_hdl rule_hdl.

(** ** A concrete system

    The tables in external memory have [ddr] records and those on the chip
    [sram]; [bytes] bytes of memory on the chip are free. *)

Definition two_memories (ddr sram bytes : nat) : ipa_system := {|
  sys_calls_of := mkCalls (fun _ => 0) true (Z.of_nat bytes) 0 0 0 (fun _ => 4096);
  mmap_mem := fun mt => let k := if mt =? IPA_NAT_MEM_IN_SRAM then sram else ddr in
    (replicate k zero_rule, replicate k (mkIndexRule 0 0));
  table_dma := fun base cmds m => fold_left (dma_store base) cmds m;
|}.
