(* ===== verification/IpaStateSpec.v ===== *)
(** * The state machine: results, nesting and transitions

    What holds of every completed run of [ipa_nati_statemach], whatever the
    system reports: the depth of the nesting, the states that follow each other,
    and what becomes of the results of the callbacks. *)

From stdpp Require Import gmap strings.
From S2P Require Import Prelude IpaTable IpaSystem IpaNat IpaNatSpec IpaRules IpaFrame IpaStateMach.

Local Open Scope Z_scope.

(** ** The count of slots *)

Lemma sram_loop_word fuel a b c tot num n :
  is_word 16 tot -> is_word 16 num -> sram_loop fuel a b c tot num = Some n -> is_word 16 n.
Proof.
  revert tot num. induction fuel as [|fuel IH]; intros tot num Ht Hn H; [done|]. cbn [sram_loop] in H.
  destruct (sram_size_of b c tot) as [size|]; [|done]. cbn in H.
  destruct (a <? u32 size); [by injection H as <-|]. eapply IH; [|exact Ht|exact H]. by apply wrap_is_word.
Qed.

Lemma calc_slots_word a b c ret slots : ipa_calc_num_sram_table_entries a b c = Some (ret, slots) -> is_word 16 slots.
Proof.
  unfold ipa_calc_num_sram_table_entries. destruct (sram_loop _ a b c 1 0) as [n|] eqn:Hn; [|done]. intros [= _ <-].
  by eapply sram_loop_word; [..|exact Hn].
Qed.

(** ** Relations that the callbacks respect *)

(** A callback of a walk that respects a relation. *)
Definition args_keep (R : sm_state -> sm_state -> Prop) (args : sm_args) : Prop :=
  match args with
  | WalkArgs _ _ (Some cb) => forall t h p i m, keeps R (cb t h p i m)
  | _ => True
  end.

(** The fields that only a few places change: the states, and what says which
    maps are used. *)
Definition core (o : ipa_nati_obj) : ipa_nati_state * ipa_nati_state * bool * ipa_nati_state * per_mem nati_map_pair :=
  (prev_state o, curr_state o, hold_state o, state_to_hold o, map_pairs o).

(** A relation that every step of the callbacks respects, when the states that
    they enter are among [enters]. *)
Record respected (R : sm_state -> sm_state -> Prop) (enters : ipa_nati_state -> Prop) : Prop := {
  rs_nat : forall A (m : NM A), keeps (same sys) m -> keeps R (in_nat m);
  rs_maps : forall A (m : M map_list A), keeps (same length) m -> keeps R (in_maps m);
  rs_cells : forall f s, R s (s <| cells ::= f |>);
  rs_obj : forall f s, (forall o, core (f o) = core o /\ tot_slots_in_sram (f o) = tot_slots_in_sram o) ->
    R s (s <| nati_obj ::= f |>);
  rs_slots : forall x s, is_word 16 x ->
    R s (s <| nati_obj ::= fun o => o <| tot_slots_in_sram ::= fun old => store_low16 old x |> |>);
  rs_mutex : forall s, R s (s <| nat_mutex_init := true |>);
  rs_enter : forall st, enters st -> keeps R (SET_NATIOBJ_STATE st);
  rs_back : enters NATI_STATE_NULL -> keeps R BACK2_UNSTARTED_STATE;
}.

Section Keeps.
Context (R : sm_state -> sm_state -> Prop) {HR : PreOrder R}.
Context (enters : ipa_nati_state -> Prop) (HC : respected R enters).

Local Definition Hnat := rs_nat R enters HC.
Local Definition Hmaps := rs_maps R enters HC.
Local Definition Hcells := rs_cells R enters HC.
Local Definition Hobj := rs_obj R enters HC.
Local Definition Hslots := rs_slots R enters HC.
Local Definition Hmutex := rs_mutex R enters HC.
Local Definition Henter := rs_enter R enters HC.
Local Definition Hback := rs_back R enters HC.

Lemma keeps_upd_obj f :
  (forall o, core (f o) = core o /\ tot_slots_in_sram (f o) = tot_slots_in_sram o) -> keeps R (upd_obj f).
Proof using All. intros Hf. apply keeps_modify. intros s. by apply Hobj. Qed.

Lemma keeps_cells f : keeps R (upd_cells f).
Proof using All. apply keeps_modify. intros s. apply Hcells. Qed.

Lemma keeps_set_counter sub f : keeps R (set_counter sub f).
Proof using All. by apply keeps_upd_obj. Qed.

Lemma maps_set k m : keeps (same length) (set_map k m).
Proof.
  intros l a l' H. unfold set_map, zset in H. case_bool_decide; [|done]. injection H as _ <-. unfold same. by rewrite length_insert.
Qed.

Lemma maps_get k : keeps (same length) (get_map k).
Proof. intros l a l' [_ ->]%liftO_inv. done. Qed.

#[local] Hint Resolve maps_set maps_get : keeps.

Lemma keeps_map_add k a b : keeps R (in_maps (ipa_nat_map_add k a b)).
Proof using All. apply Hmaps. unfold ipa_nat_map_add. keep. Qed.

Lemma keeps_map_find k a : keeps R (in_maps (ipa_nat_map_find k a)).
Proof using All. apply Hmaps. unfold ipa_nat_map_find. keep. Qed.

Lemma keeps_map_del k a : keeps R (in_maps (ipa_nat_map_del k a)).
Proof using All. apply Hmaps. unfold ipa_nat_map_del. keep. Qed.

Lemma keeps_map_clear k : keeps R (in_maps (ipa_nat_map_clear k)).
Proof using All. apply Hmaps. unfold ipa_nat_map_clear. keep. Qed.

#[local] Hint Resolve keeps_cells keeps_set_counter keeps_map_add keeps_map_find keeps_map_del keeps_map_clear : keeps.

Lemma keeps_clear_maps sub : keeps R (clear_maps sub).
Proof using All. unfold clear_maps. keep. Qed.

Lemma keeps_vote_sys k : keeps (same sys) (ipa_nat_vote_clock k).
Proof. unfold ipa_nat_vote_clock. pose proof sys_vote. keep. Qed.

Lemma keeps_vote k : keeps R (in_nat (ipa_nat_vote_clock k)).
Proof using All. apply Hnat, keeps_vote_sys. Qed.

Lemma keeps_call : keeps R (in_nat sys_call).
Proof using All. apply Hnat, sys_call_same. Qed.

#[local] Hint Resolve keeps_clear_maps keeps_vote keeps_call : keeps.

Lemma keeps_take_mutex : keeps R take_mutex.
Proof using All. unfold take_mutex, mutex_init, pthread_mutex_lock. keep; apply Hmutex. Qed.

Lemma keeps_give_mutex : keeps R give_mutex.
Proof using All. unfold give_mutex, pthread_mutex_unlock. keep. Qed.

#[local] Hint Resolve keeps_take_mutex keeps_give_mutex : keeps.

(** *** The walk *)

Lemma keeps_walk {E U} {EI : ipa_table_entry_interface E U} (table : sm_state -> ipa_table E) start when2cb cb :
  (forall h p i m, keeps R (cb h p i m)) -> keeps R (ipa_table_walk table start when2cb cb).
Proof using All.
  intros Hcb. assert (Hloop : forall fuel i p tot, keeps R (walk_loop table fuel i p tot when2cb cb)).
  { induction fuel as [|fuel IH]; intros i p tot; cbn [walk_loop]; keep; first [apply Hcb|apply IH]. }
  unfold ipa_table_walk. keep.
Qed.

Lemma keeps_in_get_table k i : keeps R (in_nat (get_table k i)).
Proof using All. apply Hnat, sys_get_table. Qed.

Lemma keeps_in_get_cache k : keeps R (in_nat (get_cache k)).
Proof using All. apply Hnat, sys_get_cache. Qed.

#[local] Hint Resolve keeps_in_get_table keeps_in_get_cache : keeps.

Lemma keeps_NATI_walk hdl which (cb : option (Z * Z -> ipa_table_walk_cb)) :
  (forall f t h p i m, cb = Some f -> keeps R (f t h p i m)) -> keeps R (ipa_NATI_walk_ipv4_tbl hdl which cb).
Proof using All.
  intros Hcb. unfold ipa_NATI_walk_ipv4_tbl, walk_which, pthread_mutex_lock, pthread_mutex_unlock. destruct cb as [f|]; keep;
    apply keeps_walk; intros h p i m; by apply Hcb.
Qed.

Lemma keeps_in_clear hdl : keeps R (in_nat (ipa_NATI_clear_ipv4_tbl hdl)).
Proof using All. apply Hnat, sys_NATI_clear. Qed.

Lemma keeps_in_add hdl u : keeps R (in_nat (ipa_NATI_add_ipv4_rule hdl u)).
Proof using All. apply Hnat, sys_NATI_add. Qed.

#[local] Hint Resolve keeps_in_clear keeps_in_add : keeps.

Lemma keeps_migrate tbl dst h p i m : keeps R (migrate_rule tbl dst h p i m).
Proof using All. unfold migrate_rule. keep. Qed.

Lemma keeps_copy src dst : keeps R (ipa_nati_copy_ipv4_tbl src dst (Some migrate_rule)).
Proof using All.
  assert (Hw : keeps R (ipa_NATI_walk_ipv4_tbl src USE_NAT_TABLE (Some (fun tbl => migrate_rule tbl dst)))).
  { apply keeps_NATI_walk. intros f t h p i m [= <-]. apply keeps_migrate. }
  unfold ipa_nati_copy_ipv4_tbl, pthread_mutex_lock, pthread_mutex_unlock. keep.
Qed.

(** *** The callbacks *)

Lemma keeps_collect args hdl : keeps R (collect_stats args hdl).
Proof using All. unfold collect_stats. assert (keeps R (in_nat (ipa_NATI_ipv4_tbl_stats hdl))) by apply Hnat, sys_NATI_stats. keep. Qed.

Lemma keeps_del_tbl t args : enters NATI_STATE_NULL -> keeps R (_smDelTbl t args).
Proof using All.
  intros HN. pose proof (Hback HN). unfold _smDelTbl. destruct args; keep. apply Hnat, sys_NATI_del_tbl.
Qed.

Lemma keeps_in_add_tbl mt a b : keeps R (in_nat (ipa_NATI_add_ipv4_tbl mt a b)).
Proof using All. apply Hnat, sys_NATI_add_tbl. Qed.

Lemma keeps_sram_size : keeps R (in_nat ipa_nati_get_sram_size).
Proof using All. apply Hnat, sys_sram_size. Qed.

#[local] Hint Resolve keeps_collect keeps_copy keeps_in_add_tbl keeps_sram_size : keeps.

Lemma keeps_add_ddr t args : keeps R (_smAddDdrTbl t args).
Proof using All.
  unfold _smAddDdrTbl. destruct args; keep; by apply keeps_upd_obj.
Qed.

Lemma keeps_add_sram t args : keeps R (_smAddSramTbl t args).
Proof using All.
  unfold _smAddSramTbl. destruct args; [keep| |keep..]. apply keeps_bind; [done|keep|]. intros [ret size].
  destruct (truthy ret); [keep|]. apply keeps_liftO_bind. intros [ret1 slots] Hc. pose proof (calc_slots_word _ _ _ _ _ Hc).
  unfold upd_obj. keep; first [by apply Hslots|by apply Hobj].
Qed.

Lemma keeps_clr t args : keeps R (_smClrTbl t args).
Proof using All. unfold _smClrTbl. destruct args; keep. Qed.

Lemma keeps_walk_tbl t args : args_keep R args -> keeps R (_smWalkTbl t args).
Proof using All.
  intros Ha. unfold _smWalkTbl. destruct args as [| | |hdl which cb| |]; keep. apply keeps_NATI_walk.
  intros f tb h p i m ->. apply Ha.
Qed.

Lemma keeps_stat t args : keeps R (_smStatTbl t args).
Proof using All. unfold _smStatTbl. destruct args; keep. apply Hnat, sys_NATI_stats. Qed.

Lemma keeps_add_rule t args : keeps R (_smAddRuleToTbl t args).
Proof using All. unfold _smAddRuleToTbl. destruct args; keep. Qed.

Lemma keeps_del_rule t args : keeps R (_smDelRuleFromTbl t args).
Proof using All. unfold _smDelRuleFromTbl. destruct args; keep. apply Hnat, sys_NATI_del. Qed.

Lemma keeps_stamp t args : keeps R (_smGetTmStmp t args).
Proof using All. unfold _smGetTmStmp. destruct args; keep. apply Hnat, sys_NATI_query. Qed.

#[local] Hint Resolve keeps_add_ddr keeps_add_sram keeps_clr keeps_stat keeps_add_rule keeps_del_rule keeps_stamp : keeps.

Lemma keeps_stamp_hybrid t args : keeps R (_smGetTmStmpHybrid t args).
Proof using All. unfold _smGetTmStmpHybrid. destruct args; keep. Qed.

Lemma keeps_clr_hybrid t args : keeps R (_smClrTblHybrid t args).
Proof using All. unfold _smClrTblHybrid. destruct args; keep. Qed.

Lemma keeps_stat_hybrid t args : keeps R (_smStatTblHybrid t args).
Proof using All. unfold _smStatTblHybrid. destruct args; keep. Qed.

Lemma keeps_walk_hybrid t args : args_keep R args -> keeps R (_smWalkTblHybrid t args).
Proof using All.
  intros Ha. unfold _smWalkTblHybrid. destruct args as [| | |hdl which cb| |]; keep. by apply keeps_walk_tbl.
Qed.

Lemma keeps_del_both t args : enters NATI_STATE_NULL -> keeps R (_smDelSramAndDdrTbl t args).
Proof using All.
  intros HN. pose proof keeps_del_tbl as Hd. pose proof (Hback HN). unfold _smDelSramAndDdrTbl. keep; by apply Hd.
Qed.

Lemma keeps_goto_ddr t args : enters NATI_STATE_HYBRID_DDR -> keeps R (_smGoToDdr t args).
Proof using All. intros HN. pose proof (Henter _ HN). unfold _smGoToDdr. keep. apply Hnat, sys_NATI_post. Qed.

Lemma keeps_goto_sram t args : enters NATI_STATE_HYBRID -> keeps R (_smGoToSram t args).
Proof using All. intros HN. pose proof (Henter _ HN). unfold _smGoToSram. keep. apply Hnat, sys_NATI_post. Qed.

Section Nested.
Context (sm : ipa_nati_trigger -> sm_args -> SM Z).

Lemma keeps_switch args goto dst src_hdl dst_hdl :
  keeps R (sm goto NoArgs) -> keeps R (switch_tables sm args goto dst src_hdl dst_hdl).
Proof using All. intros Hsm. unfold switch_tables. keep. apply keeps_upd_obj. intros o. by destruct dst. Qed.

Lemma keeps_add_both t args :
  enters NATI_STATE_SRAM_ONLY -> enters NATI_STATE_DDR_ONLY -> keeps R (sm NATI_TRIG_GOTO_SRAM NoArgs) ->
  keeps R (_smAddSramAndDdrTbl sm t args).
Proof using All.
  intros HS HD Hsm. pose proof (Henter _ HS). pose proof (Henter _ HD). unfold _smAddSramAndDdrTbl. destruct args; keep.
Qed.

Lemma keeps_add_hybrid t args :
  enters NATI_STATE_HYBRID_DDR -> keeps R (sm NATI_TRIG_TBL_SWITCH NoArgs) -> keeps R (sm t args) ->
  keeps R (_smAddRuleHybrid sm t args).
Proof using All.
  intros HD Hsw Hsm. pose proof (Henter _ HD). unfold _smAddRuleHybrid. destruct args; keep.
Qed.

Lemma keeps_del_hybrid t args :
  enters NATI_STATE_HYBRID -> keeps R (sm NATI_TRIG_TBL_SWITCH NoArgs) -> keeps R (_smDelRuleHybrid sm t args).
Proof using All.
  intros HD Hsw. pose proof (Henter _ HD). unfold _smDelRuleHybrid. destruct args; keep.
Qed.

(** The frame of a run: everything but the callback. *)
Lemma keeps_body t args :
  (forall st, keeps R (_state_mach_tbl sm st t t args)) -> keeps R (statemach_body sm t args).
Proof using All. intros Hcb. unfold statemach_body. keep. Qed.

End Nested.

(** The whole state machine, when the states entered are allowed. *)
Section All.
Context (Hall : forall st, st <> NATI_STATE_LAST -> enters st).
Context (Hfirst : forall str, keeps R (o ← gets nati_obj;
  SET_NATIOBJ_STATE (if hold_state o && negb (bool_decide (state_to_hold o = NATI_STATE_NULL))
                     then state_to_hold o else mem_type_str_to_ipa_nati_state str))).

Lemma keeps_first sm t args : (args_keep R args -> keeps R (sm NATI_TRIG_ADD_TABLE args)) -> keeps R (_smFirstTbl sm t args).
Proof using All.
  intros Hsm. unfold _smFirstTbl. destruct args as [|ip k c str| | | |]; try done. intros s x s' H. apply bind_inv in H as (o&s1&Ho&H). apply bind_inv in H as ([]&s2&H2&H).
  transitivity s2; [|by eapply Hsm]. apply (Hfirst str s tt s2). by rewrite (bind_run _ _ _ _ _ Ho).
Qed.

Lemma keeps_table sm st t args :
  (forall t args, args_keep R args -> keeps R (sm t args)) -> args_keep R args -> keeps R (_state_mach_tbl sm st t t args).
Proof using All.
  intros IH Ha. assert (HU : forall t args, keeps R (_smUndef t args)) by (intros; apply keeps_ret, HR).
  assert (Hno : forall t, keeps R (sm t NoArgs)) by (intros; by apply IH).
  assert (Hst : forall st, st <> NATI_STATE_LAST -> enters st) by exact Hall.
  destruct st, t; cbn [_state_mach_tbl]; try apply HU;
    first [ apply keeps_first; intros; by apply IH | apply keeps_add_ddr | apply keeps_add_sram
          | apply keeps_del_tbl; by apply Hst | apply keeps_clr | by apply keeps_walk_tbl | apply keeps_stat | apply keeps_add_rule
          | apply keeps_del_rule | apply keeps_stamp | apply keeps_add_both; first [by apply Hst|apply Hno]
          | apply keeps_del_both; by apply Hst | apply keeps_clr_hybrid | by apply keeps_walk_hybrid | apply keeps_stat_hybrid
          | apply keeps_add_hybrid; first [by apply Hst|apply Hno|by apply IH]
          | apply keeps_del_hybrid; first [by apply Hst|apply Hno]
          | apply keeps_switch; apply Hno | apply keeps_goto_ddr; by apply Hst | apply keeps_goto_sram; by apply Hst
          | apply keeps_stamp_hybrid ].
Qed.

Lemma keeps_statemach_upto bottom n t args :
  (forall t args, args_keep R args -> keeps R (bottom t args)) -> args_keep R args -> keeps R (statemach_upto bottom n t args).
Proof using All.
  intros Hb. revert t args. induction n as [|n IH]; intros t args Ha; [by apply Hb|]. cbn [statemach_upto]. apply keeps_body.
  intros st. by apply keeps_table.
Qed.

Lemma keeps_statemach t args : args_keep R args -> keeps R (ipa_nati_statemach t args).
Proof using All. intros Ha. by apply keeps_statemach_upto. Qed.

End All.

End Keeps.

(** ** The depth of the nesting *)

Lemma same_obj_nat {A} (m : NM A) : keeps (same nati_obj) (in_nat m).
Proof. intros s a s' H. unfold in_nat in H. destruct (m (nat_of s)) as [[? ?]|]; [|done]. by injection H as _ <-. Qed.

Lemma same_obj_maps {A} (m : M map_list A) : keeps (same nati_obj) (in_maps m).
Proof. intros s a s' H. unfold in_maps in H. destruct (m (map_array s)) as [[? ?]|]; [|done]. by injection H as _ <-. Qed.

(** The fields of [core] and the machine between its states. *)
Lemma same_core : respected (same (fun s => core (nati_obj s))) (fun _ => False).
Proof.
  split; try done.
  - intros A m _ s a s' H. unfold same. by rewrite (same_obj_nat m s a s' H).
  - intros A m _ s a s' H. unfold same. by rewrite (same_obj_maps m s a s' H).
  - intros f s Hf. apply Hf.
Qed.

Lemma take_mutex_obj : keeps (same nati_obj) take_mutex.
Proof.
  unfold take_mutex, mutex_init, pthread_mutex_lock. pose proof (same_obj_nat sys_call). keep; done.
Qed.

Section Depth.

(** Two state machines that agree on a trigger in certain states. *)
Definition agree (P : ipa_nati_state -> Prop) (t : ipa_nati_trigger) (sm sm' : ipa_nati_trigger -> sm_args -> SM Z) : Prop :=
  forall args s, P (curr_state (nati_obj s)) -> sm t args s = sm' t args s.

Abbreviation everywhere := (fun _ : ipa_nati_state => True).

Lemma bind_agree {A B} (m m' : SM A) (k k' : A -> SM B) s :
  m s = m' s -> (forall a s', m s = Done (a, s') -> k a s' = k' a s') -> (m ≫= k) s = (m' ≫= k') s.
Proof. intros Hm Hk. unfold mbind, M_bind. rewrite <- Hm. destruct (m s) as [[a s']|]; [by apply Hk|done]. Qed.

Lemma body_agree P t sm sm' :
  (forall args s, P (curr_state (nati_obj s)) ->
    _state_mach_tbl sm (curr_state (nati_obj s)) t t args s = _state_mach_tbl sm' (curr_state (nati_obj s)) t t args s) ->
  agree P t (statemach_body sm) (statemach_body sm').
Proof.
  intros Hcb args s HP. unfold statemach_body. apply bind_agree; [done|]. intros ret s1 H1. destruct (truthy ret); [done|].
  apply bind_agree; [done|]. intros o s2 [= <- <-]. cbv zeta. apply bind_agree; [done|]. intros voted s3 H3.
  assert (Hs : nati_obj s3 = nati_obj s).
  { transitivity (nati_obj s1); [|exact (take_mutex_obj _ _ _ H1)]. destruct (VOTE_REQUIRED _ t); [exact (same_obj_nat _ _ _ _ H3)|].
    by injection H3 as _ <-. }
  apply bind_agree; [|done]. destruct (truthy voted); [done|]. apply bind_agree; [done|]. intros o s4 [= <- <-].
  apply bind_agree; [|done]. apply Hcb. by rewrite Hs.
Qed.

(** The callbacks that do not run the state machine. *)
Lemma leaf_agree t sm sm' :
  t <> NATI_TRIG_ADD_TABLE -> t <> NATI_TRIG_ADD_RULE -> t <> NATI_TRIG_DEL_RULE -> t <> NATI_TRIG_TBL_SWITCH ->
  agree everywhere t (statemach_body sm) (statemach_body sm').
Proof. intros ? ? ? ?. apply body_agree. intros args s _. by destruct t, (curr_state (nati_obj s)). Qed.

Section Levels.
Context (sm sm' : ipa_nati_trigger -> sm_args -> SM Z).

Lemma switch_agree :
  agree everywhere NATI_TRIG_GOTO_DDR sm sm' -> agree everywhere NATI_TRIG_GOTO_SRAM sm sm' ->
  agree everywhere NATI_TRIG_TBL_SWITCH (statemach_body sm) (statemach_body sm').
Proof using Type.
  intros Hd Hs. apply body_agree. intros args s _. destruct (curr_state (nati_obj s)); try done;
    (apply bind_agree; [done|]; intros o s1 _; cbv zeta; apply bind_agree; [done|]; intros [] s2 _;
     apply bind_agree; [first [by apply Hd|by apply Hs]|done]).
Qed.

Lemma add_table_agree :
  agree everywhere NATI_TRIG_GOTO_SRAM sm sm' ->
  agree (fun st => st <> NATI_STATE_NULL) NATI_TRIG_ADD_TABLE (statemach_body sm) (statemach_body sm').
Proof using Type.
  intros Hs. apply body_agree. intros args s Hne. destruct (curr_state (nati_obj s)); try done.
  cbn [_state_mach_tbl]. unfold _smAddSramAndDdrTbl. destruct args; try done. do 4 (apply bind_agree; [done|]; intros [] ? _).
  apply bind_agree; [done|]. intros ret s1 _. destruct (ret =? 0); [|done]. apply bind_agree; [done|]. intros o s2 _.
  destruct (_ <=? _); [done|]. apply bind_agree; [done|]. intros ret2 s3 _. destruct (ret2 =? 0); [|done]. by apply Hs.
Qed.

Lemma first_table_agree :
  agree (fun st => st <> NATI_STATE_NULL) NATI_TRIG_ADD_TABLE sm sm' ->
  agree (eq NATI_STATE_NULL) NATI_TRIG_ADD_TABLE (statemach_body sm) (statemach_body sm').
Proof using Type.
  intros Hs. apply body_agree. intros args s <-. cbn [_state_mach_tbl]. unfold _smFirstTbl. destruct args; try done.
  apply bind_agree; [done|]. intros o s1 _. apply bind_agree; [done|]. intros [] s2 H2. apply Hs.
  injection H2 as <-. cbn. destruct (hold_state o && _) eqn:Hh.
  - apply andb_true_iff in Hh as [_ Hh]. by apply negb_true_iff, bool_decide_eq_false in Hh.
  - unfold mem_type_str_to_ipa_nati_state. destruct mem_type_ptr; [|done]. by repeat destruct (strcasesame _ _).
Qed.

Lemma add_rule_low_agree : agree (fun st => st <> NATI_STATE_HYBRID) NATI_TRIG_ADD_RULE (statemach_body sm) (statemach_body sm').
Proof using Type.
  apply body_agree. intros args s Hne. destruct (curr_state (nati_obj s)) eqn:Hst; try done.
  cbn [_state_mach_tbl]. unfold _smAddRuleHybrid. destruct args; try done. apply bind_agree; [done|]. intros o s1 [= <- <-].
  apply bind_agree; [done|]. intros ret s2 H2. rewrite !getM_run. cbv zeta. destruct (ret =? 0); [done|].
  assert (Hs : curr_state (nati_obj s2) = NATI_STATE_HYBRID_DDR).
  { pose proof (keeps_add_rule _ _ same_core _ _ _ _ _ H2) as Hc. unfold same, core in Hc. congruence. }
  by rewrite Hs.
Qed.

Lemma add_rule_agree :
  agree everywhere NATI_TRIG_TBL_SWITCH sm sm' -> agree (fun st => st <> NATI_STATE_HYBRID) NATI_TRIG_ADD_RULE sm sm' ->
  agree everywhere NATI_TRIG_ADD_RULE (statemach_body sm) (statemach_body sm').
Proof using Type.
  intros Hsw Hadd. apply body_agree. intros args s _. destruct (curr_state (nati_obj s)); try done;
    cbn [_state_mach_tbl]; unfold _smAddRuleHybrid; (destruct args; try done); (apply bind_agree; [done|]; intros o s1 _);
    (apply bind_agree; [done|]; intros ret s2 _); rewrite !getM_run; cbv zeta; (destruct (ret =? 0); [done|]);
    (destruct (bool_decide _ && _); [|done]);
    (apply bind_agree; [by apply Hsw|]; intros ret2 s3 _; destruct (truthy ret2); [done|]);
    (apply bind_agree; [done|]; intros [] s4 [= <-]; by apply Hadd).
Qed.

Lemma del_rule_agree :
  agree everywhere NATI_TRIG_TBL_SWITCH sm sm' ->
  agree everywhere NATI_TRIG_DEL_RULE (statemach_body sm) (statemach_body sm').
Proof using Type.
  intros Hsw. apply body_agree. intros args s _. destruct (curr_state (nati_obj s)); try done;
    cbn [_state_mach_tbl]; unfold _smDelRuleHybrid; (destruct args; try done); (apply bind_agree; [done|]; intros o s1 _);
    (apply bind_agree; [done|]; intros [ret new] s2 _); (destruct (truthy ret); [done|]);
    (apply bind_agree; [done|]; intros ? s3 _); (apply bind_agree; [done|]; intros ret2 s4 _);
    (apply bind_agree; [done|]; intros o2 s5 _); (destruct (_ && _); [|done]); (apply bind_agree; [by apply Hsw|done]).
Qed.

End Levels.
End Depth.

(** C16: Three levels of nesting are enough for every trigger in every state:
    nothing below them is ever run, so the recursion of the state machine ends. *)
Theorem statemach_depth_enough bottom k trigger args s :
  statemach_upto bottom (statemach_depth + k) trigger args s = ipa_nati_statemach trigger args s.
Proof.
  set (l1 := statemach_upto bottom (S k)). set (l1' := statemach_upto (fun _ _ => failM Diverges) 1).
  set (l2 := statemach_upto bottom (S (S k))). set (l2' := statemach_upto (fun _ _ => failM Diverges) 2).
  assert (Hgd : agree (fun _ => True) NATI_TRIG_GOTO_DDR l1 l1') by (by apply leaf_agree).
  assert (Hgs : agree (fun _ => True) NATI_TRIG_GOTO_SRAM l1 l1') by (by apply leaf_agree).
  assert (Hgs2 : agree (fun _ => True) NATI_TRIG_GOTO_SRAM l2 l2') by (by apply leaf_agree).
  assert (Hsw : agree (fun _ => True) NATI_TRIG_TBL_SWITCH l2 l2') by (by apply switch_agree).
  assert (Hat : agree (fun st => st <> NATI_STATE_NULL) NATI_TRIG_ADD_TABLE l2 l2') by (by apply add_table_agree).
  change (statemach_body l2 trigger args s = statemach_body l2' trigger args s).
  destruct trigger; try (apply (leaf_agree _ l2 l2'); done).
  - destruct (decide (NATI_STATE_NULL = curr_state (nati_obj s))) as [He|Hne].
    + by apply (first_table_agree l2 l2').
    + apply (add_table_agree l2 l2' Hgs2). congruence.
  - apply (add_rule_agree l2 l2' Hsw); [|done]. apply add_rule_low_agree.
  - by apply (del_rule_agree l2 l2' Hsw).
  - apply (switch_agree l2 l2'); [|done..]. by apply leaf_agree.
Qed.

(** ** The results *)

(** The state machine itself does not change what the client may rely on; a
    callback of a walk leaves it alone. *)
Definition machine (s : sm_state) : ipa_nati_obj * map_list * bool * ipa_system :=
  (nati_obj s, map_array s, nat_mutex_init s, sys (sm_nat s)).

Abbreviation client_ok := (args_keep (same machine)).

Lemma args_keep_mono R args : (forall s s', machine s' = machine s -> R s s') -> client_ok args -> args_keep R args.
Proof. intros HR. destruct args as [| | |h w [cb|]| |]; try done. intros Hcb t h' p i m s a s' H. apply HR. exact (Hcb t h' p i m s a s' H). Qed.

(** The system stays, and so does the mutex once it is made. *)
Definition sm_same (s s' : sm_state) : Prop :=
  sys (sm_nat s') = sys (sm_nat s) /\ (nat_mutex_init s = true -> nat_mutex_init s' = true).

#[export] Instance sm_same_preorder : PreOrder sm_same.
Proof. split; [by intros s|]. intros a b c [S1 M1] [S2 M2]. split; [congruence|auto]. Qed.

Lemma sm_same_nat {A} (m : NM A) : keeps (same sys) m -> keeps sm_same (in_nat m).
Proof.
  intros Hm s a s' H. unfold in_nat in H. destruct (m (nat_of s)) as [[b n]|] eqn:Hr; [|done]. injection H as _ <-.
  split; [|done]. exact (Hm _ _ _ Hr).
Qed.

Lemma sm_same_maps {A} (m : M map_list A) : keeps sm_same (in_maps m).
Proof. intros s a s' H. unfold in_maps in H. destruct (m (map_array s)) as [[b l]|]; [|done]. by injection H as _ <-. Qed.

Lemma sm_same_respected : respected sm_same (fun _ => True).
Proof.
  split; try done; try (intros; by apply sm_same_nat); try (intros; apply sm_same_maps).
  - intros st' _ s a s' [= _ <-]. by split.
  - intros _ s a s' [= _ <-]. by split.
Qed.

Lemma keeps_sm_same sm st t args :
  (forall t args, args_keep sm_same args -> keeps sm_same (sm t args)) -> args_keep sm_same args ->
  keeps sm_same (_state_mach_tbl sm st t t args).
Proof. apply (keeps_table sm_same _ sm_same_respected); [done|]. intros str s a s' [= _ <-]. by split. Qed.

Lemma sm_same_upto n t args : args_keep sm_same args -> keeps sm_same (statemach_upto (fun _ _ => failM Diverges) n t args).
Proof.
  apply (keeps_statemach_upto sm_same _ sm_same_respected); try done. intros str s a s' [= _ <-]. by split.
Qed.

Lemma in_call_zero (s s' : sm_state) r : no_failures (sys (sm_nat s)) -> in_nat sys_call s = Done (r, s') -> r = 0 /\ sm_same s s'.
Proof. intros Hs H. unfold in_nat, sys_call in H. injection H as <- <-. split; [apply Hs|done]. Qed.

Lemma take_mutex_zero s r s' :
  no_failures (sys (sm_nat s)) -> take_mutex s = Done (r, s') -> r = 0 /\ sm_same s s' /\ nat_mutex_init s' = true.
Proof.
  intros Hs H. unfold take_mutex in H. rewrite getM_run in H. destruct (nat_mutex_init s) eqn:Hi.
  - destruct (in_call_zero _ _ _ Hs H) as [-> HR]. split; [done|]. split; [done|by apply HR].
  - unfold mutex_init, pthread_mutex_lock in H. apply bind_inv in H as (r1&s1&H1&H).
    assert (Hm : r1 = 0 /\ sm_same s s1 /\ nat_mutex_init s1 = true).
    { do 3 (rewrite in_call_then in H1 by exact Hs; change (truthy 0) with false in H1; cbn iota in H1). by injection H1 as <- <-. }
    destruct Hm as (->&HR1&Hi1). cbn [Z.eqb] in H. assert (Hs1 : no_failures (sys (sm_nat s1))) by (destruct HR1 as [-> _]; exact Hs).
    destruct (in_call_zero _ _ _ Hs1 H) as [-> HR]. split; [done|]. split; [by transitivity s1|by apply HR].
Qed.

(** C18: When the system reports no failure, every trigger that completes
    reports success, whatever its callback returned: a rule that was refused, a
    full table or an undefined action cannot be told from success. *)
Theorem statemach_reports_success trigger args s r s' :
  no_failures (sys (sm_nat s)) -> client_ok args -> ipa_nati_statemach trigger args s = Done (r, s') -> r = 0.
Proof.
  intros Hs Ha Hrun. apply (args_keep_mono sm_same) in Ha; [|intros x y [= _ _ Hi Hsys]; split; [done|by rewrite Hi]].
  set (l2 := statemach_upto (fun _ _ => failM Diverges) 2). change (statemach_body l2 trigger args s = Done (r, s')) in Hrun.
  assert (Htbl : forall st, keeps sm_same (_state_mach_tbl l2 st trigger trigger args)).
  { intros st. apply keeps_sm_same; [|done]. intros. by apply sm_same_upto. }
  unfold statemach_body in Hrun. apply bind_inv in Hrun as (r1&s1&H1&Hrun).
  destruct (take_mutex_zero s r1 s1 Hs H1) as (->&HR1&Hi1). cbn iota in Hrun.
  assert (Hmid : forall A (m : SM A), keeps sm_same m -> forall a s3, m s1 = Done (a, s3) -> give_mutex s3 = Done (r, s') -> r = 0).
  { intros A m Hm a s3 H3 H. destruct (Hm _ _ _ H3) as [Hsys Hi3]. destruct HR1 as [Hsys1 _]. unfold give_mutex in H.
    rewrite getM_run, (Hi3 Hi1) in H. apply in_call_zero in H as [-> _]; [done|]. by rewrite Hsys, Hsys1. }
  apply bind_inv in Hrun as (o&s2&[= <- <-]&Hrun). cbv zeta in Hrun. apply bind_inv in Hrun as (v&s2&H2&Hrun).
  apply bind_inv in Hrun as (u&s3&H3&Hrun).
  refine (Hmid _ (v ← (if VOTE_REQUIRED (nati_obj s1) trigger then in_nat (ipa_nat_vote_clock IPA_APP_CLK_VOTE) else mret 0); _) _ u s3 _ Hrun).
  2: { rewrite (bind_run _ _ _ _ _ H2). exact H3. }
  pose proof (sm_same_nat (ipa_nat_vote_clock IPA_APP_CLK_VOTE) (keeps_vote_sys _)). 
  pose proof (sm_same_nat (ipa_nat_vote_clock IPA_APP_CLK_DEVOTE) (keeps_vote_sys _)). keep.
Qed.

(** ** The reachable states *)

(** A constant that is, or is not, among the members of a list of constants. *)
Local Ltac is_elem := refine (bool_decide_eq_true_1 _ _); reflexivity.
Local Ltac no_elem H := repeat (apply elem_of_cons in H as [H|H]; [discriminate H|]); inversion H.

Record sm_wf (s : sm_state) : Prop := {
  sw_curr : curr_state (nati_obj s) <> NATI_STATE_LAST;
  sw_hold : state_to_hold (nati_obj s) ∈ [NATI_STATE_NULL; NATI_STATE_DDR_ONLY; NATI_STATE_SRAM_ONLY];
  sw_pairs : map_pairs (nati_obj s) = map_pairs initial_obj;
  sw_maps : length (map_array s) = Z.to_nat MAP_NUM_MAX;
  sw_slots : is_word 16 (tot_slots_in_sram (nati_obj s));
}.

Definition wf_kept (s s' : sm_state) : Prop := sm_wf s -> sm_wf s'.

#[export] Instance wf_kept_preorder : PreOrder wf_kept.
Proof. split; [intros s H; exact H|]. intros a b c H1 H2 H. by apply H2, H1. Qed.

Lemma wf_same s s' :
  core (nati_obj s') = core (nati_obj s) -> tot_slots_in_sram (nati_obj s') = tot_slots_in_sram (nati_obj s) ->
  length (map_array s') = length (map_array s) -> wf_kept s s'.
Proof.
  intros Hc Ht Hl [H1 H2 H3 H4 H5]. unfold core in Hc. injection Hc as _ Hcur _ Hh Hp. split; congruence || by rewrite ?Hh, ?Ht.
Qed.

Lemma wf_nat {A} (m : NM A) : keeps wf_kept (in_nat m).
Proof. intros s a s' H. unfold in_nat in H. destruct (m (nat_of s)) as [[? ?]|]; [|done]. injection H as _ <-. by apply wf_same. Qed.

Lemma wf_maps {A} (m : M map_list A) : keeps (same length) m -> keeps wf_kept (in_maps m).
Proof.
  intros Hm s a s' H. unfold in_maps in H. destruct (m (map_array s)) as [[? l]|] eqn:Hr; [|done]. injection H as _ <-.
  apply wf_same; [done|done|]. exact (Hm _ _ _ Hr).
Qed.

(** Entering a state, from a state that is well formed. *)
Lemma wf_enter s s' :
  curr_state (nati_obj s') <> NATI_STATE_LAST -> state_to_hold (nati_obj s') = state_to_hold (nati_obj s) ->
  map_pairs (nati_obj s') = map_pairs (nati_obj s) -> map_array s' = map_array s ->
  tot_slots_in_sram (nati_obj s') = tot_slots_in_sram (nati_obj s) -> wf_kept s s'.
Proof. intros Hc Hh Hp Hm Ht [H1 H2 H3 H4 H5]. split; [done|by rewrite Hh|congruence|congruence|by rewrite Ht]. Qed.

Lemma wf_slots x s :
  is_word 16 x -> wf_kept s (s <| nati_obj ::= fun o => o <| tot_slots_in_sram ::= fun old => store_low16 old x |> |>).
Proof.
  intros Hx [H1 H2 H3 H4 H5]. split; [done..|]. cbn. unfold store_low16. rewrite Z.shiftr_div_pow2 by lia.
  unfold is_word in *. change (2 ^ 16) with 65536 in *. rewrite Z.div_small by lia. exact Hx.
Qed.

Lemma mem_type_states str :
  mem_type_str_to_ipa_nati_state str ∈ [NATI_STATE_DDR_ONLY; NATI_STATE_SRAM_ONLY; NATI_STATE_HYBRID].
Proof.
  unfold mem_type_str_to_ipa_nati_state. destruct str as [str|]; [|left]. destruct (strcasesame str "HYBRID"); [right; right; left|].
  destruct (strcasesame str "SRAM"); [right; left|left].
Qed.

Lemma wf_respected : respected wf_kept (fun st => st <> NATI_STATE_LAST).
Proof.
  split.
  - intros A m _. apply wf_nat.
  - intros A m. apply wf_maps.
  - intros f s. by apply wf_same.
  - intros f s Hf. destruct (Hf (nati_obj s)). by apply wf_same.
  - intros x s. apply wf_slots.
  - intros s. by apply wf_same.
  - intros st Hst s a s' [= _ <-]. by apply wf_enter.
  - intros _ s a s' [= _ <-]. by apply wf_enter.
Qed.

Lemma wf_statemach t args : client_ok args -> keeps wf_kept (ipa_nati_statemach t args).
Proof.
  intros Ha. apply (keeps_statemach wf_kept _ wf_respected); try done.
  - intros str s a s' [= _ <-]. intros Hs. refine (wf_enter s _ _ _ _ _ _ Hs); try done. cbn.
    pose proof (sw_hold _ Hs) as Hh. pose proof (mem_type_states str) as Hm.
    destruct (hold_state (nati_obj s) && _); intros He; [rewrite He in Hh; no_elem Hh|rewrite He in Hm; no_elem Hm].
  - apply (args_keep_mono _ args); [|done]. intros s s' [= Ho Hm _ _]. apply wf_same; by rewrite ?Ho, ?Hm.
Qed.

Lemma wf_take_mutex : keeps wf_kept take_mutex.
Proof. exact (keeps_take_mutex _ _ wf_respected). Qed.

Lemma wf_give_mutex : keeps wf_kept give_mutex.
Proof. exact (keeps_give_mutex _ _ wf_respected). Qed.

(** The state to be held: what is current outside the hybrid states. *)
Lemma gen_hold_states o :
  curr_state o <> NATI_STATE_LAST -> GEN_HOLD_STATE o ∈ [NATI_STATE_NULL; NATI_STATE_DDR_ONLY; NATI_STATE_SRAM_ONLY].
Proof.
  intros Hl. unfold GEN_HOLD_STATE, IN_HYBRID_STATE. destruct (curr_state o); try done; is_elem.
Qed.

Lemma wf_set_hold s f :
  (forall o, curr_state (f o) = curr_state o /\ map_pairs (f o) = map_pairs o /\ tot_slots_in_sram (f o) = tot_slots_in_sram o) ->
  (sm_wf s -> state_to_hold (f (nati_obj s)) ∈ [NATI_STATE_NULL; NATI_STATE_DDR_ONLY; NATI_STATE_SRAM_ONLY]) ->
  wf_kept s (s <| nati_obj ::= f |>).
Proof.
  intros Hf Hh Hs. destruct (Hf (nati_obj s)) as (Hc&Hp&Ht). pose proof Hs as [H1 H2 H3 H4 H5].
  split; cbn; [by rewrite Hc|by apply Hh|by rewrite Hp|done|by rewrite Ht].
Qed.

Lemma wf_switch_to nmi hold : keeps wf_kept (ipa_nat_switch_to nmi hold).
Proof.
  pose proof wf_take_mutex. pose proof wf_give_mutex. pose proof (wf_statemach NATI_TRIG_TBL_SWITCH NoArgs I).
  unfold ipa_nat_switch_to, switch_to_locked, upd_obj. keep; apply wf_set_hold; try done; intros Hs; cbn.
  - destruct (nmi =? IPA_NAT_MEM_IN_DDR); is_elem.
  - apply (sw_hold _ Hs).
  - apply gen_hold_states, (sw_curr _ Hs).
  - apply gen_hold_states, (sw_curr _ Hs).
  - is_elem.
Qed.

(** What clients do: triggers, with callbacks that leave the machine alone, and
    the choice of the memory. *)
Inductive sm_step : sm_state -> sm_state -> Prop :=
| step_trigger trigger args r s s' :
    client_ok args -> ipa_nati_statemach trigger args s = Done (r, s') -> sm_step s s'
| step_switch_to nmi hold r s s' : ipa_nat_switch_to nmi hold s = Done (r, s') -> sm_step s s'.

(** C17: In every state that clients reach, the machine is in one of its five
    states, what is to be held is one of the two memories or nothing, the four
    maps are in the array, and the count of slots has its 16 bits, whatever the
    system reports. *)
Theorem reachable_well_formed sys s : rtc sm_step (initial_sm sys) s -> sm_wf s.
Proof.
  intros Hr. assert (Hi : sm_wf (initial_sm sys)) by (by split; [| left | | | ]). revert Hi.
  induction Hr as [|s1 s2 s3 [t args r s s' Ha H|nmi hold r s s' H] _ IH]; intros Hs; [done|apply IH..].
  - exact (wf_statemach t args Ha _ _ _ H Hs).
  - exact (wf_switch_to nmi hold _ _ _ H Hs).
Qed.

(** ** Transitions *)

(** The state stays or becomes one of [l]; what is to be held stays. *)
Definition may (l : list ipa_nati_state) (s s' : sm_state) : Prop :=
  let o := nati_obj s in let o' := nati_obj s' in
  hold_state o' = hold_state o /\ state_to_hold o' = state_to_hold o /\ (curr_state o' = curr_state o \/ curr_state o' ∈ l).

#[export] Instance may_preorder l : PreOrder (may l).
Proof.
  split; [intros s; by split; [|split; [|left]]|]. intros a b c (H1&T1&C1) (H2&T2&C2).
  split; [congruence|]. split; [congruence|]. destruct C2 as [-> |]; [done|by right].
Qed.

Lemma may_obj l s s' : nati_obj s' = nati_obj s -> may l s s'.
Proof. intros H. unfold may. rewrite H. auto. Qed.

Lemma may_respected l : respected (may l) (fun st => st ∈ l).
Proof.
  split.
  - intros A m _ s a s' H. exact (may_obj l s s' (same_obj_nat m s a s' H)).
  - intros A m _ s a s' H. exact (may_obj l s s' (same_obj_maps m s a s' H)).
  - intros f s. by apply may_obj.
  - intros f s Hf. destruct (Hf (nati_obj s)) as [Hc _]. unfold core in Hc. injection Hc as _ H1 H2 H3 _.
    split; [done|]. split; [done|by left].
  - intros x s _. split; [done|]. split; [done|by left].
  - intros s. by apply may_obj.
  - intros st Hst s a s' [= _ <-]. split; [done|]. split; [done|by right].
  - intros Hst s a s' [= _ <-]. split; [done|]. split; [done|by right].
Qed.

Lemma may_more l l' s s' : (forall st, st ∈ l -> st ∈ l') -> may l s s' -> may l' s s'.
Proof. intros Hl (H1&H2&[H3|H3]); (split; [done|]); (split; [done|]); [by left|right; by apply Hl]. Qed.

Lemma may_nothing l s s' : may [] s s' -> may l s s'.
Proof. apply may_more. intros st Hst. inversion Hst. Qed.

(** The states that a trigger may lead to, if the state changes. *)
Definition targets (hold : bool) (st : ipa_nati_state) (trigger : ipa_nati_trigger) : list ipa_nati_state :=
  match st, trigger with
  | NATI_STATE_NULL, NATI_TRIG_ADD_TABLE | NATI_STATE_HYBRID, NATI_TRIG_ADD_TABLE =>
      [NATI_STATE_DDR_ONLY; NATI_STATE_SRAM_ONLY; NATI_STATE_HYBRID]
  | NATI_STATE_DDR_ONLY, NATI_TRIG_DEL_TABLE | NATI_STATE_SRAM_ONLY, NATI_TRIG_DEL_TABLE
  | NATI_STATE_HYBRID, NATI_TRIG_DEL_TABLE | NATI_STATE_HYBRID_DDR, NATI_TRIG_DEL_TABLE => [NATI_STATE_NULL]
  | NATI_STATE_HYBRID, NATI_TRIG_ADD_RULE => if hold then [] else [NATI_STATE_HYBRID_DDR]
  | NATI_STATE_HYBRID_DDR, NATI_TRIG_DEL_RULE => if hold then [] else [NATI_STATE_HYBRID]
  | NATI_STATE_HYBRID, NATI_TRIG_TBL_SWITCH => [NATI_STATE_HYBRID_DDR]
  | NATI_STATE_HYBRID_DDR, NATI_TRIG_TBL_SWITCH => [NATI_STATE_HYBRID]
  | NATI_STATE_HYBRID, NATI_TRIG_GOTO_DDR | NATI_STATE_HYBRID_DDR, NATI_TRIG_GOTO_DDR => [NATI_STATE_HYBRID_DDR]
  | NATI_STATE_HYBRID, NATI_TRIG_GOTO_SRAM | NATI_STATE_HYBRID_DDR, NATI_TRIG_GOTO_SRAM => [NATI_STATE_HYBRID]
  | _, _ => []
  end.

(** From a given state; a run from it. *)
Definition from {A} (P : ipa_nati_obj -> Prop) (l : list ipa_nati_state) (m : SM A) : Prop :=
  forall s a s', P (nati_obj s) -> m s = Done (a, s') -> may l s s'.

Lemma from_keeps {A} P l (m : SM A) : keeps (may l) m -> from P l m.
Proof. intros H s a s' _. apply H. Qed.

(** The rest of a run: the state machine around a callback. *)
Lemma from_body P l sm t args :
  (forall o, P o -> from (eq o) l (_state_mach_tbl sm (curr_state o) t t args)) -> from P l (statemach_body sm t args).
Proof.
  intros Hcb s a s' HP H. unfold statemach_body in H. apply bind_inv in H as (r&s1&H1&H).
  pose proof (take_mutex_obj _ _ _ H1) as Ho1. transitivity s1; [by apply may_obj|]. destruct (truthy r); [by injection H as _ <-|].
  rewrite <- Ho1 in HP. clear Ho1 H1. apply bind_inv in H as (o&s2&[= <- <-]&H). cbv zeta in H.
  apply bind_inv in H as (v&s2&H2&H). assert (Ho2 : nati_obj s2 = nati_obj s1).
  { destruct (VOTE_REQUIRED _ t); [exact (same_obj_nat _ _ _ _ H2)|by injection H2 as _ <-]. }
  transitivity s2; [by apply may_obj|]. apply bind_inv in H as (u&s3&H3&H).
  assert (Hg : may l s3 s') by exact (keeps_give_mutex _ _ (may_respected l) _ _ _ H). transitivity s3; [|exact Hg].
  destruct (truthy v); [by injection H3 as _ <-|]. apply bind_inv in H3 as (o&s4&[= <- <-]&H3).
  apply bind_inv in H3 as (r4&s4&H4&H3). rewrite <- Ho2 in HP. transitivity s4; [exact (Hcb _ HP _ _ _ eq_refl H4)|].
  apply bind_inv in H3 as ([]&s5&H5&[= _ <-]). destruct (VOTE_REQUIRED _ t); [|by injection H5 as <-].
  apply bind_inv in H5 as (x&s6&H6&[= <-]). apply may_obj. exact (same_obj_nat _ _ _ _ H6).
Qed.

Section Targets.
Context (bottom : ipa_nati_trigger -> sm_args -> SM Z).
Abbreviation level := (statemach_upto bottom).

Definition in_state (st : ipa_nati_state) (o : ipa_nati_obj) : Prop := curr_state o = st.

(** The callbacks that do not run the state machine. *)
Lemma leaf_targets sm st hold t args :
  t <> NATI_TRIG_ADD_TABLE -> t <> NATI_TRIG_ADD_RULE -> t <> NATI_TRIG_DEL_RULE -> t <> NATI_TRIG_TBL_SWITCH ->
  args_keep (may (targets hold st t)) args ->
  keeps (may (targets hold st t)) (_state_mach_tbl sm st t t args).
Proof using Type.
  intros ? ? ? ? Ha. set (HC := may_respected (targets hold st t)).
  assert (HU : forall l t args, keeps (may l) (_smUndef t args)) by (intros; apply keeps_ret, _).
  destruct st, t; cbn [_state_mach_tbl] in *; try apply HU; try done;
    first [ apply (keeps_clr _ _ HC) | by apply (keeps_walk_tbl _ _ HC) | apply (keeps_stat _ _ HC) | apply (keeps_stamp _ _ HC)
          | apply (keeps_stamp_hybrid _ _ HC) | apply (keeps_clr_hybrid _ _ HC) | by apply (keeps_walk_hybrid _ _ HC)
          | apply (keeps_stat_hybrid _ _ HC) | apply (keeps_del_tbl _ _ HC); left | apply (keeps_del_both _ _ HC); left
          | apply (keeps_goto_ddr _ _ HC); left | apply (keeps_goto_sram _ _ HC); left ].
Qed.

Lemma goto_ddr_may n : keeps (may [NATI_STATE_HYBRID_DDR]) (level (S n) NATI_TRIG_GOTO_DDR NoArgs).
Proof using Type.
  apply (keeps_body _ _ (may_respected _)). intros st. destruct st; cbn [_state_mach_tbl]; try apply (keeps_ret _ (- 1));
    apply (keeps_goto_ddr _ _ (may_respected _)); left.
Qed.

Lemma goto_sram_may l n : NATI_STATE_HYBRID ∈ l -> keeps (may l) (level (S n) NATI_TRIG_GOTO_SRAM NoArgs).
Proof using Type.
  intros Hl. apply (keeps_body _ _ (may_respected _)). intros st. destruct st; cbn [_state_mach_tbl]; try apply (keeps_ret _ (- 1));
    by apply (keeps_goto_sram _ _ (may_respected _)).
Qed.

Lemma switch_targets n st args : from (in_state st) (targets false st NATI_TRIG_TBL_SWITCH) (level (S (S n)) NATI_TRIG_TBL_SWITCH args).
Proof using Type.
  apply from_body. intros o <-. apply from_keeps. destruct (curr_state o); cbn [_state_mach_tbl targets]; try apply (keeps_ret _ (- 1)).
  - apply (keeps_switch _ _ (may_respected _)), goto_ddr_may.
  - apply (keeps_switch _ _ (may_respected _)), goto_sram_may. left.
Qed.

Abbreviation started := [NATI_STATE_DDR_ONLY; NATI_STATE_SRAM_ONLY; NATI_STATE_HYBRID].

Lemma add_table_targets n st args :
  st <> NATI_STATE_NULL -> from (in_state st) (targets false st NATI_TRIG_ADD_TABLE) (level (S (S n)) NATI_TRIG_ADD_TABLE args).
Proof using Type.
  intros Hne. apply from_body. intros o <-. apply from_keeps.
  destruct (curr_state o); cbn [_state_mach_tbl targets]; try apply (keeps_ret _ (- 1)); try done.
  - apply (keeps_add_ddr _ _ (may_respected _)).
  - apply (keeps_add_sram _ _ (may_respected _)).
  - apply (keeps_add_both _ _ (may_respected _)); [is_elem|is_elem|]. apply goto_sram_may. is_elem.
Qed.

(** The first table: the state to be held, when it is one of the memories. *)
Lemma first_table_targets n args :
  from (fun o => in_state NATI_STATE_NULL o /\ state_to_hold o ∈ [NATI_STATE_NULL; NATI_STATE_DDR_ONLY; NATI_STATE_SRAM_ONLY])
    started (level (S (S (S n))) NATI_TRIG_ADD_TABLE args).
Proof using Type.
  apply from_body. intros o [Hst Hh] s a s' -> H. unfold in_state in Hst. rewrite Hst in H. cbn [_state_mach_tbl] in H. unfold _smFirstTbl in H.
  destruct args as [|ip k c str| | | |]; try done. apply bind_inv in H as (o&s1&[= <- <-]&H). apply bind_inv in H as ([]&s1&[= <-]&H).
  set (st := if _ && _ then _ else _) in H. assert (Hs : st ∈ started).
  { unfold st. pose proof (mem_type_states str) as Hm. destruct (hold_state _ && _) eqn:Hc; [|exact Hm].
    apply andb_true_iff in Hc as [_ Hc]. apply negb_true_iff, bool_decide_eq_false in Hc. clear H st.
    destruct (state_to_hold (nati_obj s)); try done; first [is_elem|no_elem Hh]. }
  clearbody st. assert (Hne : st <> NATI_STATE_NULL) by (intros ->; no_elem Hs).
  edestruct (add_table_targets n st (TableArgs ip k c str) Hne) as (H1&H2&H3); [|exact H|]; [reflexivity|].
  split; [done|]. split; [done|]. right. destruct H3 as [-> |H3]; [exact Hs|].
  destruct st; cbn [targets] in H3; first [exact H3|no_elem H3].
Qed.

(** Adding a rule where no switch can follow. *)
Lemma add_rule_stays n t args :
  from (fun o => curr_state o <> NATI_STATE_HYBRID \/ hold_state o = true) [] (_state_mach_tbl (level n) t NATI_TRIG_ADD_RULE NATI_TRIG_ADD_RULE args).
Proof using Type.
  set (HC := may_respected []). intros s a s' HP H.
  destruct t; cbn [_state_mach_tbl] in H; try exact (keeps_ret _ (- 1) _ _ _ H); try exact (keeps_add_rule _ _ HC _ _ _ _ _ H);
    (unfold _smAddRuleHybrid in H; destruct args; try done; apply bind_inv in H as (o&s1&[= <- <-]&H);
     apply bind_inv in H as (r&s1&H1&H); pose proof (keeps_add_rule _ _ HC _ _ _ _ _ H1) as Hm; transitivity s1; [exact Hm|];
     rewrite getM_run in H; cbv zeta in H; destruct Hm as (Hh&_&[Hc|Hc]); [|inversion Hc];
     destruct (r =? 0); [revert H; apply keeps_bind; [typeclasses eauto|apply (keeps_map_add _ _ HC)|];
       intros r2; destruct (r2 =? 0); [apply (keeps_map_add _ _ HC)|apply keeps_ret, _]|];
     replace (bool_decide (curr_state (nati_obj s1) = NATI_STATE_HYBRID) && negb (hold_state (nati_obj s1))) with false in H;
     [by injection H as _ <-|]; symmetry; apply andb_false_iff; destruct HP as [HP|HP];
     [left; apply bool_decide_eq_false; congruence|right; by rewrite Hh, HP]).
Qed.

Lemma add_rule_low n args :
  from (fun o => curr_state o <> NATI_STATE_HYBRID \/ hold_state o = true) [] (level (S n) NATI_TRIG_ADD_RULE args).
Proof using Type.
  apply from_body. intros o HP s a s' -> H. by eapply add_rule_stays.
Qed.

(** Adding a rule to the memory on the chip: when it is refused, the tables are
    switched and the addition is run again. *)
Lemma add_rule_hybrid n args :
  from (in_state NATI_STATE_HYBRID) [NATI_STATE_HYBRID_DDR] (_smAddRuleHybrid (level (S (S n))) NATI_TRIG_ADD_RULE args).
Proof using Type.
  intros s a s' HP H. unfold in_state in HP. unfold _smAddRuleHybrid in H. destruct args; try done.
  apply bind_inv in H as (o&s1&[= <- <-]&H). apply bind_inv in H as (r&s1&H1&H).
  pose proof (keeps_add_rule _ _ (may_respected []) _ _ _ _ _ H1) as Hm.
  assert (Hst : curr_state (nati_obj s1) = NATI_STATE_HYBRID) by (destruct Hm as (_&_&[Hc|Hc]); [congruence|no_elem Hc]).
  transitivity s1; [exact (may_nothing _ _ _ Hm)|].
  rewrite getM_run in H. cbv zeta in H. set (HC := may_respected [NATI_STATE_HYBRID_DDR]). destruct (r =? 0).
  { revert H. apply keeps_bind; [typeclasses eauto|apply (keeps_map_add _ _ HC)|]. intros r2.
    destruct (r2 =? 0); [apply (keeps_map_add _ _ HC)|apply keeps_ret, _]. }
  destruct (_ && _); [|by injection H as _ <-]. apply bind_inv in H as (r2&s2&H2&H).
  pose proof (switch_targets n _ _ _ _ _ Hst H2) as Hsw. transitivity s2; [exact Hsw|]. destruct (truthy r2); [by injection H as _ <-|].
  apply bind_inv in H as ([]&s3&[= <-]&H). edestruct (add_rule_low (S n)) as (E1&E2&E3); [|exact H|]; [left; discriminate|].
  split; [exact E1|]. split; [exact E2|]. right. destruct E3 as [-> |E3]; [left|no_elem E3].
Qed.

(** Deleting a rule: only the table in external memory may be left, and only
    when the state is not held. *)
Lemma del_rule_hybrid n o t args :
  from (eq o) (targets (hold_state o) (curr_state o) NATI_TRIG_DEL_RULE) (_smDelRuleHybrid (level (S (S n))) t args).
Proof using Type.
  intros s a s' -> H. unfold _smDelRuleHybrid in H. destruct args; try done. set (HC := may_respected []).
  set (l := targets _ _ _).
  apply bind_inv in H as (o&s1&[= <- <-]&H). apply bind_inv in H as ([r new]&s1&H1&H).
  pose proof (keeps_map_del _ _ HC _ _ _ _ _ H1) as Hm. destruct (truthy r).
  { injection H as _ <-. exact (may_nothing _ _ _ Hm). }
  apply bind_inv in H as (r2&s2&H2&H). apply bind_inv in H as (r3&s3&H3&H). apply bind_inv in H as (o&s4&[= <- <-]&H).
  assert (Hm3 : may [] s s3).
  { transitivity s1; [exact Hm|]. transitivity s2; [exact (keeps_map_del _ _ HC _ _ _ _ _ H2)|exact (keeps_del_rule _ _ HC _ _ _ _ _ H3)]. }
  transitivity s3; [exact (may_nothing _ _ _ Hm3)|]. destruct (_ && _) eqn:Hc; [|by injection H as _ <-].
  apply andb_true_iff in Hc as [Hc Hh]. apply andb_true_iff in Hc as [Hc _]. apply andb_true_iff in Hc as [_ Hc].
  apply bool_decide_eq_true in Hc. apply negb_true_iff in Hh. destruct Hm3 as (E1&_&[E3|E3]); [|no_elem E3].
  assert (Hl : l = [NATI_STATE_HYBRID]) by (unfold l; by rewrite <- E1, <- E3, Hh, Hc). rewrite Hl.
  apply bind_inv in H as (r4&s5&H5&H). transitivity s5; [exact (switch_targets n _ _ _ _ _ Hc H5)|].
  revert H. apply keeps_bind; [typeclasses eauto| |intros; apply keeps_ret, _]. destruct (r4 =? 0); [|apply keeps_ret, _].
  apply (rs_enter _ _ (may_respected _)). left.
Qed.

Lemma add_rule_targets n o args :
  from (eq o) (targets (hold_state o) (curr_state o) NATI_TRIG_ADD_RULE) (level (S (S (S n))) NATI_TRIG_ADD_RULE args).
Proof using Type.
  apply from_body. intros o' <- s a s' -> H. destruct (decide (curr_state (nati_obj s) = NATI_STATE_HYBRID)) as [Hc|Hc].
  - destruct (hold_state (nati_obj s)) eqn:Hh; [apply may_nothing; refine (add_rule_stays (S (S n)) _ args _ _ _ _ H); by right|].
    rewrite Hc in H |- *. exact (add_rule_hybrid n args _ _ _ Hc H).
  - apply may_nothing. refine (add_rule_stays (S (S n)) _ args _ _ _ _ H). by left.
Qed.

Lemma del_rule_targets n o args :
  from (eq o) (targets (hold_state o) (curr_state o) NATI_TRIG_DEL_RULE) (level (S (S (S n))) NATI_TRIG_DEL_RULE args).
Proof using Type.
  apply from_body. intros o' <-. destruct (curr_state o) eqn:Hc; cbn [_state_mach_tbl];
    try (apply from_keeps; first [apply (keeps_ret _ (- 1))|apply (keeps_del_rule _ _ (may_respected _))]);
    rewrite <- Hc; apply del_rule_hybrid.
Qed.

End Targets.

(** C15: The transitions.  A trigger that completes leaves what is to be held as
    it was, and leads from the current state to itself or to one of the states
    that the table of the state machine allows for the trigger, whatever the
    system reports; when the state is held, rules do not change it. *)
Theorem statemach_transitions trigger args s r s' :
  state_to_hold (nati_obj s) ∈ [NATI_STATE_NULL; NATI_STATE_DDR_ONLY; NATI_STATE_SRAM_ONLY] ->
  client_ok args -> ipa_nati_statemach trigger args s = Done (r, s') ->
  may (targets (hold_state (nati_obj s)) (curr_state (nati_obj s)) trigger) s s'.
Proof.
  intros Hh Ha Hrun. set (o := nati_obj s) in *. assert (Ho : nati_obj s = o) by done.
  assert (Hk : args_keep (may (targets (hold_state o) (curr_state o) trigger)) args).
  { refine (args_keep_mono _ args _ Ha). intros x y [= Hxy _ _ _]. by apply may_obj. }
  unfold ipa_nati_statemach, statemach_depth in Hrun. set (bottom := fun _ _ => _) in Hrun.
  destruct (decide (trigger = NATI_TRIG_ADD_TABLE)) as [->|]; [|destruct (decide (trigger = NATI_TRIG_TBL_SWITCH)) as [->|];
    [|destruct (decide (trigger = NATI_TRIG_ADD_RULE)) as [->|]; [|destruct (decide (trigger = NATI_TRIG_DEL_RULE)) as [->|]]]].
  - destruct (decide (curr_state o = NATI_STATE_NULL)) as [Hc|Hc].
    + rewrite Hc. exact (first_table_targets bottom 0 args _ _ _ (conj Hc Hh) Hrun).
    + exact (add_table_targets bottom 1 _ args Hc _ _ _ eq_refl Hrun).
  - exact (switch_targets bottom 1 _ args _ _ _ eq_refl Hrun).
  - exact (add_rule_targets bottom 0 o args _ _ _ eq_refl Hrun).
  - exact (del_rule_targets bottom 0 o args _ _ _ eq_refl Hrun).
  - refine (from_body (eq o) _ _ trigger args _ _ _ _ eq_refl Hrun). intros o' <-. apply from_keeps. by apply leaf_targets.
Qed.

(** ** Instances *)

Definition unstarted : sm_state := initial_sm (two_memories 6 6 250).

(** The creation of the first table; the entries do not fit on the chip. *)
Definition first_table : sm_args := TableArgs 168430090 5 true (Some "hybrid"%string).

(** A rule that is added before there is a table. *)
Definition first_rule : sm_args := RuleArgs 1 (mkUserRule 0 0 0 0 0 6 0 0 0 0 0 false false false false).

Abbreviation state_of := (fun s : sm_state => curr_state (nati_obj s)).

Lemma statemach_reports_success_witness :
  exists r s', ipa_nati_statemach NATI_TRIG_ADD_RULE first_rule unstarted = Done (r, s') /\ state_of s' = NATI_STATE_NULL /\ r = 0.
Proof.
  destruct (value_run (ipa_nati_statemach NATI_TRIG_ADD_RULE first_rule) state_of unstarted 0 NATI_STATE_NULL
    ltac:(vm_compute; reflexivity)) as (s'&Hrun&Hst).
  exists 0, s'. split; [exact Hrun|]. split; [exact Hst|].
  refine (statemach_reports_success NATI_TRIG_ADD_RULE first_rule unstarted 0 s' (fun k => _) I Hrun). reflexivity.
Defined.

Lemma reachable_well_formed_witness :
  exists s', ipa_nati_statemach NATI_TRIG_ADD_TABLE first_table unstarted = Done (0, s') /\
    state_of s' = NATI_STATE_HYBRID /\ sm_wf s'.
Proof.
  destruct (value_run (ipa_nati_statemach NATI_TRIG_ADD_TABLE first_table) state_of unstarted 0 NATI_STATE_HYBRID
    ltac:(vm_compute; reflexivity)) as (s'&Hrun&Hst).
  exists s'. split; [exact Hrun|]. split; [exact Hst|].
  refine (reachable_well_formed (two_memories 6 6 250) s' (rtc_once _ _ _)).
  exact (step_trigger NATI_TRIG_ADD_TABLE first_table 0 unstarted s' I Hrun).
Defined.

Lemma statemach_transitions_witness :
  exists s', ipa_nati_statemach NATI_TRIG_ADD_TABLE first_table unstarted = Done (0, s') /\ state_of s' = NATI_STATE_HYBRID /\
    may [NATI_STATE_DDR_ONLY; NATI_STATE_SRAM_ONLY; NATI_STATE_HYBRID] unstarted s'.
Proof.
  destruct (value_run (ipa_nati_statemach NATI_TRIG_ADD_TABLE first_table) state_of unstarted 0 NATI_STATE_HYBRID
    ltac:(vm_compute; reflexivity)) as (s'&Hrun&Hst).
  exists s'. split; [exact Hrun|]. split; [exact Hst|].
  exact (statemach_transitions NATI_TRIG_ADD_TABLE first_table unstarted 0 s' ltac:(left) I Hrun).
Defined.
