(* ===== verification/IpaHybrid.v ===== *)
(** * Rules that move between the memories

    The hybrid states of the state machine: both memories have a table, one of
    them is in use, and its maps lead from the handles that the client got to the
    rules.  [hybrid] is the invariant with the rules as the client sees them; a
    switch of the tables keeps them, an addition and a deletion change them as
    they should, with the automatic switches that follow. *)

From stdpp Require Import gmap strings.
From S2P Require Import Prelude IpaChain IpaTable IpaTableSpec IpaSystem IpaStoreSpec IpaNat IpaNatSpec IpaRules IpaDelete IpaSize IpaCreate IpaHandles IpaStore IpaWalk IpaLife IpaFrame IpaStateMach.

Local Open Scope Z_scope.

(** ** The two memories *)

Definition other (sub : mem_sub) : mem_sub := match sub with DDR_SUB => SRAM_SUB | SRAM_SUB => DDR_SUB end.
Definition mem_of (sub : mem_sub) : Z := match sub with DDR_SUB => IPA_NAT_MEM_IN_DDR | SRAM_SUB => IPA_NAT_MEM_IN_SRAM end.
Definition tbl_of (sub : mem_sub) : Z := MAKE_TBL_HDL 1 (mem_of sub).
Definition state_of (sub : mem_sub) : ipa_nati_state := match sub with DDR_SUB => NATI_STATE_HYBRID_DDR | SRAM_SUB => NATI_STATE_HYBRID end.
Definition maps_of (sub : mem_sub) : nati_map_pair := at_sub sub (map_pairs initial_obj).

Lemma mem_of_cases sub : mem_of sub = IPA_NAT_MEM_IN_DDR \/ mem_of sub = IPA_NAT_MEM_IN_SRAM.
Proof. destruct sub; [by left|by right]. Qed.

Lemma mem_of_other sub : mem_of (other sub) <> mem_of sub.
Proof. by destruct sub. Qed.

Lemma break_tbl_of sub : BREAK_TBL_HDL (tbl_of sub) = (mem_of sub, 0 + 1).
Proof. by destruct sub. Qed.

(** ** A rule that can be stored again *)

Definition movable (pd : list ipa_nat_pdn_entry) (r : ipa_nat_rule) : Prop :=
  refused pd (rule_of_record r) = false /\ 0 <= pdn_index r /\ stored_rule pd (rule_of_record r) = Some r.

Lemma b2z_truthy b : truthy (b2z b) = b.
Proof. by destruct b. Qed.

Lemma stored_movable pd u r :
  zlen pd = IPA_MAX_PDN_NUM -> refused pd u = false -> 0 <= u_pdn_index u -> stored_rule pd u = Some r -> movable pd r.
Proof.
  intros Hlen Href Hu. unfold refused in Href. apply orb_false_iff in Href as [Href Hpub]. apply orb_false_iff in Href as [Hp Hi].
  apply Z.leb_gt in Hi. unfold IPA_MAX_PDN_NUM in Hi. assert (Hw : wrap 4 (u_pdn_index u) = u_pdn_index u) by (apply wrap_small; unfold is_word; lia).
  unfold stored_rule, table_entry_copy_from_user. destruct (zget pd (u_pdn_index u)) as [p|] eqn:Hpd; [|done]. cbn [mbind option_bind].
  set (c := (_ =? IPPROTO_TCP) || _). intros [= <-]. unfold movable, refused, stored_rule, table_entry_copy_from_user.
  destruct u as [ti pi tp pp pub pr pdx rd en ts uc us up ud usrc]. cbn in Hp, Hw, Hu, Hi, Hpd, c |- *.
  destruct c eqn:Htcp; unfold c in Htcp; cbn; rewrite Hw, Hpd; cbn; rewrite Htcp, Hp, Hpub; cbn;
    rewrite !b2z_truthy, ?wrap_wrap, ?Hw; (replace (IPA_MAX_PDN_NUM <=? pdx) with false by (unfold IPA_MAX_PDN_NUM; lia)); done.
Qed.

(** ** Steps of the machine *)

Section Steps.
Implicit Types (s : sm_state) (Q : Z -> sm_state -> Prop).

(** Some calls later. *)
Definition later_by (k : nat) (s : sm_state) : sm_state := s <| sm_nat ::= ticks k |>.

Lemma later_later j k s : later_by j (later_by k s) = later_by (j + k) s.
Proof. unfold later_by, upd. cbn. by rewrite Nat.add_assoc. Qed.

Lemma wp_nat {A} (m : NM A) (Q : A -> sm_state -> Prop) s a n :
  m (sm_nat s) = Done (a, n) -> Q a (s <| sm_nat := n |>) -> wp (in_nat m) Q s.
Proof. intros H HQ. refine (wp_run _ _ _ a (s <| sm_nat := n |>) _ HQ). exact (in_nat_run m s a n H). Qed.

Lemma wp_call Q s : no_failures (sys (sm_nat s)) -> Q 0 (later_by 1 s) -> wp (in_nat sys_call) Q s.
Proof. intros Hs HQ. apply (wp_nat _ _ _ 0 (ticks 1 (sm_nat s))); [by apply call_run|exact HQ]. Qed.

Section Maps.
Context (k : Z) (m : gmap Z Z) (s : sm_state) (Hm : zget (map_array s) k = Some m).

Definition with_map (m' : gmap Z Z) : sm_state := s <| map_array ::= fun l => <[Z.to_nat k := m']> l |>.

Lemma valid_map : VALID_IPA_USE_MAP k = true.
Proof using Hm. pose proof (zget_Some _ _ _ Hm). unfold VALID_IPA_USE_MAP, MAP_NUM_00. lia. Qed.

Lemma get_map_run {B} (c : gmap Z Z -> M map_list B) : (get_map k ≫= c) (map_array s) = c m (map_array s).
Proof using Hm. apply bind_run. unfold get_map. by rewrite Hm. Qed.

Lemma set_map_run {B} m' (c : unit -> M map_list B) :
  (set_map k m' ≫= c) (map_array s) = c tt (<[Z.to_nat k := m']> (map_array s)).
Proof using Hm. apply bind_run. unfold set_map. rewrite zset_in by (by eapply zget_Some). done. Qed.

Lemma wp_map_add a b Q : m !! a = None -> Q 0 (with_map (<[a := b]> m)) -> wp (in_maps (ipa_nat_map_add k a b)) Q s.
Proof using Hm.
  intros Ha HQ. refine (wp_run _ _ _ _ _ _ HQ). unfold in_maps, ipa_nat_map_add. rewrite valid_map. cbn [negb].
  by rewrite get_map_run, Ha, set_map_run.
Qed.

Lemma wp_map_find a b (Q : Z * Z -> sm_state -> Prop) : m !! a = Some b -> Q (0, b) s -> wp (in_maps (ipa_nat_map_find k a)) Q s.
Proof using Hm.
  intros Ha HQ. refine (wp_run _ _ _ _ _ _ HQ). unfold in_maps, ipa_nat_map_find. rewrite valid_map. cbn [negb].
  rewrite get_map_run, Ha. by destruct s.
Qed.

Lemma wp_map_del a b (Q : Z * Z -> sm_state -> Prop) :
  m !! a = Some b -> Q (0, b) (with_map (delete a m)) -> wp (in_maps (ipa_nat_map_del k a)) Q s.
Proof using Hm.
  intros Ha HQ. refine (wp_run _ _ _ _ _ _ HQ). unfold in_maps, ipa_nat_map_del. rewrite valid_map. cbn [negb].
  by rewrite get_map_run, Ha, set_map_run.
Qed.

Lemma wp_map_clear Q : Q 0 (with_map ∅) -> wp (in_maps (ipa_nat_map_clear k)) Q s.
Proof using Hm.
  intros HQ. refine (wp_run _ _ _ _ _ _ HQ). unfold in_maps, ipa_nat_map_clear. rewrite valid_map. cbn [negb].
  by rewrite get_map_run, set_map_run.
Qed.

Lemma with_map_same m' : zget (map_array (with_map m')) k = Some m'.
Proof using Hm. apply zget_insert_eq. by eapply zget_Some. Qed.

Lemma with_map_other m' j : j <> k -> zget (map_array (with_map m')) j = zget (map_array s) j.
Proof using Hm. intros Hj. apply zget_insert_ne; [|done]. by destruct (zget_Some _ _ _ Hm). Qed.

Lemma with_map_length m' : length (map_array (with_map m')) = length (map_array s).
Proof using Type. apply length_insert. Qed.

End Maps.
End Steps.

(** ** The tables of both memories *)

Section Hybrid.
Context (pd : list ipa_nat_pdn_entry) (base expn : mem_sub -> Z) (thresh : Z).
Implicit Types (s : sm_state) (m A : gmap Z ipa_nat_rule) (f g : gmap Z Z).

Abbreviation hdl sub := (entry_hdl (mem_of sub) (base sub)).

(** A table with its maps and its counter: the client sees the rules [A]. *)
Record place (sub : mem_sub) m f g A s : Prop := {
  pl_store : store_ok (mem_of sub) pd (base sub) (expn sub) (sm_nat s) m;
  pl_count : table_count (mem_of sub) (sm_nat s) 1;
  pl_orig2new : zget (map_array s) (orig2new_map (maps_of sub)) = Some f;
  pl_new2orig : zget (map_array s) (new2orig_map (maps_of sub)) = Some g;
  pl_handles : handles_ok (mem_of sub) (base sub) (expn sub) m f g A;
  pl_total : at_sub sub (tot_rules_in_table (nati_obj s)) = Z.of_nat (size A);
}.

(** What a place depends on. *)
Definition part (sub : mem_sub) s :=
  (zget (ipv4_nat_cache (sm_nat s)) (mem_of sub), pdns (sm_nat s), sys (sm_nat s),
   zget (map_array s) (orig2new_map (maps_of sub)), zget (map_array s) (new2orig_map (maps_of sub)),
   at_sub sub (tot_rules_in_table (nati_obj s))).

Lemma place_part sub m f g A s s' : part sub s' = part sub s -> place sub m f g A s -> place sub m f g A s'.
Proof.
  intros [= Hc Hp Hs Ho Hn Ht] [H1 (c&Hz&Hcnt) H3 H4 H5 H6].
  split; [by eapply store_same|exists c; by rewrite Hc|congruence..|by rewrite Ht].
Qed.

(** The rest of the machine. *)
Definition fixed s :=
  ((nati_obj s) <| tot_rules_in_table := mkPer 0 0 |> <| sw_stats := sw_stats initial_obj |>, length (map_array s), nat_mutex_init s).

Lemma place_bounds sub m f g A s :
  place sub m f g A s -> 2 <= base sub <= 4096 /\ 0 < expn sub <= 4096 /\ (mem_of sub = 0 \/ mem_of sub = 1).
Proof. intros H. destruct (store_bounds _ _ _ _ _ _ (pl_store _ _ _ _ _ _ H)). split; [done|]. split; [done|]. by destruct sub; [left|right]. Qed.

Lemma place_size sub m f g A s : place sub m f g A s -> Z.of_nat (size A) < base sub + expn sub.
Proof. intros H. rewrite (ho_size _ _ _ _ _ _ _ (pl_handles _ _ _ _ _ _ H)). eapply store_size, H. Qed.

(** An operation on the other memory. *)
Lemma part_frame sub s n :
  nat_frame (mem_of (other sub)) (sm_nat s) n -> part sub (s <| sm_nat := n |>) = part sub s.
Proof.
  intros [Hp Hs Ho _]. unfold part. cbn. rewrite Hp, Hs, (Ho (mem_of sub)); [done|]. apply not_eq_sym, mem_of_other.
Qed.

(** *** Adding a record with its handles *)

(** Adding to the table alone: a record at a free index, or nothing. *)
Inductive table_added (sub : mem_sub) m A u (n : nat_state) : Z * Z -> Prop :=
| ta_stored i r :
    refused pd u = false -> stored_rule pd u = Some r -> m !! i = None -> 0 < i < base sub + expn sub ->
    store_ok (mem_of sub) pd (base sub) (expn sub) n (<[i := r]> m) -> table_added sub m A u n (0, hdl sub i)
| ta_not ret :
    ret <> 0 -> refused pd u = true \/ expn sub <= Z.of_nat (size A) ->
    store_ok (mem_of sub) pd (base sub) (expn sub) n m -> table_added sub m A u n (ret, 0).

Lemma table_add sub m f g A s u :
  place sub m f g A s -> 0 <= u_pdn_index u ->
  exists res n, ipa_NATI_add_ipv4_rule (tbl_of sub) (Some u) (sm_nat s) = Done (res, n) /\
    nat_frame (mem_of sub) (sm_nat s) n /\ table_count (mem_of sub) n 1 /\ table_added sub m A u n res.
Proof.
  intros Hpl Hu. pose proof Hpl as [Hst (c&Hc&Hc1) _ _ Hok _]. destruct (place_bounds _ _ _ _ _ _ Hpl) as (Hb&He&Hm).
  destruct (add_step_hdl (mem_of sub) pd (base sub) (expn sub) (sm_nat s) m u Hst Hu) as (res&n&m'&Hrun&Hstep&Hst'&Hh).
  exists res, n. split; [exact Hrun|]. pose proof (frame_add _ 0 _ (break_tbl_of sub) (Some u) _ _ _ Hrun) as Hfr. split; [exact Hfr|].
  split. { destruct (fr_cache _ _ _ Hfr c Hc) as (c'&Hc'&_&Hn'). exists c'. split; [exact Hc'|congruence]. }
  inversion Hstep as [? Hx|? h r Hx Hfree Hsr|? Hx Hfull|]; subst.
  - apply ta_not; [done|by left|done].
  - destruct (Hh eq_refl) as (i&Hi&Hhdl). cbn [snd] in Hhdl. subst h.
    rewrite (hidx (mem_of sub) (base sub) (expn sub)) in Hfree, Hst' by (lia || done). by apply (ta_stored _ _ _ _ _ i r).
  - apply ta_not; [done|right|done]. by rewrite (ho_size _ _ _ _ _ _ _ Hok).
Qed.

(** A place with a record that has no handles yet. *)
Record added (sub : mem_sub) m f g A (i : Z) (r : ipa_nat_rule) s : Prop := {
  ad_store : store_ok (mem_of sub) pd (base sub) (expn sub) (sm_nat s) (<[i := r]> m);
  ad_count : table_count (mem_of sub) (sm_nat s) 1;
  ad_orig2new : zget (map_array s) (orig2new_map (maps_of sub)) = Some f;
  ad_new2orig : zget (map_array s) (new2orig_map (maps_of sub)) = Some g;
  ad_handles : handles_ok (mem_of sub) (base sub) (expn sub) m f g A;
  ad_free : m !! i = None /\ 0 < i < base sub + expn sub;
  ad_total : at_sub sub (tot_rules_in_table (nati_obj s)) = Z.of_nat (size A) + 1;
}.

Lemma counter_add sub o n : at_sub sub (tot_rules_in_table o) = n -> 0 <= n < 2 ^ 32 - 1 ->
  at_sub sub (alter_sub sub (fun c => u32 (c + 1)) (tot_rules_in_table o)) = n + 1.
Proof. intros <- Hn. destruct sub; cbn [alter_sub at_sub at_ddr at_sram] in *; apply wrap_small; unfold is_word; lia. Qed.

Lemma counter_sub sub o n : at_sub sub (tot_rules_in_table o) = n -> 0 < n < 2 ^ 32 ->
  at_sub sub (alter_sub sub (fun c => u32 (c - 1)) (tot_rules_in_table o)) = n - 1.
Proof. intros <- Hn. destruct sub; cbn [alter_sub at_sub at_ddr at_sram] in *; apply wrap_small; unfold is_word; lia. Qed.

Lemma counter_small sub m f g A s : place sub m f g A s -> Z.of_nat (size A) < 2 ^ 32 - 1.
Proof. intros Hpl. pose proof (place_size _ _ _ _ _ _ Hpl). destruct (place_bounds _ _ _ _ _ _ Hpl) as (?&?&_). lia. Qed.

(** Both maps get the new pair of handles. *)
Lemma added_maps sub m f g A i r o s (Q : sm_state -> Prop) :
  added sub m f g A i r s -> 2 <= base sub <= 4096 -> 0 < expn sub <= 4096 -> A !! o = None ->
  (forall s', place sub (<[i := r]> m) (<[o := hdl sub i]> f) (<[hdl sub i := o]> g) (<[o := r]> A) s' ->
    part (other sub) s' = part (other sub) s -> fixed s' = fixed s -> cells s' = cells s -> Q s') ->
  wp (in_maps (ipa_nat_map_add (orig2new_map (maps_of sub)) o (hdl sub i)))
    (fun ret s1 => ret = 0 /\ wp (in_maps (ipa_nat_map_add (new2orig_map (maps_of sub)) (hdl sub i) o)) (fun ret s2 => ret = 0 /\ Q s2) s1) s.
Proof.
  intros [Hst Hcnt Hf Hg Hok [Hfree Hi] Htot] Hb He Ho HQ. assert (Hm : mem_of sub = 0 \/ mem_of sub = 1) by (by destruct sub; [left|right]).
  apply (wp_map_add _ f s Hf); [by eapply handles_none|]. split; [done|]. set (s3 := with_map _ s _).
  assert (Hg3 : zget (map_array s3) (new2orig_map (maps_of sub)) = Some g).
  { unfold s3. rewrite (with_map_other _ f s Hf); [exact Hg|by destruct sub]. }
  apply (wp_map_add _ g s3 Hg3); [by apply (handles_free _ _ _ Hb He Hm _ _ _ _ Hok)|]. split; [done|]. set (s4 := with_map _ s3 _).
  assert (Hlen : length (map_array s4) = length (map_array s)) by (unfold s4, s3; by rewrite !with_map_length).
  apply HQ.
  - split; [exact Hst|exact Hcnt| | |by apply (handles_insert _ _ _ Hb He Hm)|].
    + unfold s4. rewrite (with_map_other _ g s3 Hg3) by (by destruct sub). exact (with_map_same _ f s Hf _).
    + exact (with_map_same _ g s3 Hg3 _).
    + rewrite map_size_insert_None by done. change (at_sub sub (tot_rules_in_table (nati_obj s)) = Z.of_nat (S (size A))). rewrite Htot. lia.
  - unfold part. f_equal. f_equal; [f_equal|]; unfold s4; rewrite (with_map_other _ g s3 Hg3) by (by destruct sub);
      unfold s3; by rewrite (with_map_other _ f s Hf) by (by destruct sub).
  - unfold fixed. by rewrite Hlen.
  - done.
Qed.

(** The rule [r] of the original handle [o] is added to a place with room: the
    table first, then the counter, then the maps. *)
Lemma add_moved sub m f g A s u r o Q :
  place sub m f g A s -> refused pd u = false -> 0 <= u_pdn_index u -> stored_rule pd u = Some r ->
  Z.of_nat (size A) < expn sub -> A !! o = None ->
  (forall m' f' g' s', place sub m' f' g' (<[o := r]> A) s' -> part (other sub) s' = part (other sub) s -> fixed s' = fixed s -> Q 0 s') ->
  wp ('(ret, new) ← in_nat (ipa_NATI_add_ipv4_rule (tbl_of sub) (Some u));
      if truthy ret then mret ret else
      set_counter sub (fun c => u32 (c + 1)) ;;
      ret ← in_maps (ipa_nat_map_add (orig2new_map (maps_of sub)) o new);
      if truthy ret then mret ret else in_maps (ipa_nat_map_add (new2orig_map (maps_of sub)) new o)) Q s.
Proof.
  intros Hpl Href Hu Hr Hroom Ho HQ. destruct (place_bounds _ _ _ _ _ _ Hpl) as (Hb&He&_).
  destruct (table_add _ _ _ _ _ _ u Hpl Hu) as (res&n&Hrun&Hfr&Hcnt&Hres). apply wp_bind, (wp_nat _ _ _ _ _ Hrun).
  destruct Hres as [i r' _ Hr' Hfree Hi Hst|ret _ [?|?] _]; [|congruence|lia]. assert (r' = r) as -> by congruence.
  change (truthy 0) with false. cbn iota. unfold set_counter, upd_obj. apply wp_modify. set (s2 := _ <| nati_obj ::= _ |>).
  assert (Had : added sub m f g A i r s2).
  { pose proof (counter_small _ _ _ _ _ _ Hpl). destruct Hpl as [_ _ Hf Hg Hok Htot]. split; try done. apply (counter_add sub _ _ Htot). lia. }
  assert (Hp2 : part (other sub) s2 = part (other sub) s).
  { rewrite <- (part_frame (other sub) s n) by (by destruct sub). unfold part. f_equal. by destruct sub. }
  apply wp_bind. eapply wp_mono; [apply (added_maps sub m f g A i r o s2 (Q 0) Had Hb He Ho)|].
  - intros s' Hpl' Hp' Hx' _. apply (HQ _ _ _ s' Hpl'); [by rewrite Hp'|exact Hx'].
  - intros ret s' [-> Hs']. change (truthy 0) with false. cbn iota. eapply wp_mono; [exact Hs'|]. by intros ret s'' [-> ?].
Qed.

(** *** Moving the records *)

Section Move.
Context (src : mem_sub) m f g A (s0 : sm_state).
Context (Hsrc : place src m f g A s0) (Hpairs : map_pairs (nati_obj s0) = map_pairs initial_obj).
Context (Hmovable : forall o r, A !! o = Some r -> movable pd r).
Abbreviation dst := (other src).
Abbreviation T := (table_of (mem_of src) 0 (sm_nat s0)).
Abbreviation migrate := (migrate_rule (mem_of src, 0) (tbl_of dst)).

(** The source is as it was, and the rules [A'] have arrived. *)
Definition moved A' s : Prop := part src s = part src s0 /\ fixed s = fixed s0 /\ exists m' f' g', place dst m' f' g' A' s.

Lemma moved_table A' s : moved A' s -> table_of (mem_of src) 0 (sm_nat s) = T.
Proof using Type. intros ([= Hc _ _ _ _ _]&_). unfold table_of. by rewrite Hc. Qed.

Lemma source_tables : tables_ok (mem_of src) T m /\ table_entries (table T) = base src /\ expn_table_entries (table T) = expn src.
Proof using Hsrc.
  destruct (so_table _ _ _ _ _ _ (pl_store _ _ _ _ _ _ Hsrc)) as (T'&(c&d&Hc&_&HT)&Hok). unfold table_of. rewrite Hc. cbn. by rewrite HT.
Qed.

Lemma migrate_live i e r o A' Q s :
  zget (recs (table T)) i = Some e -> live e = true -> r = nat_data e <| indx_tbl_entry := 0 |> -> g !! hdl src i = Some o ->
  A !! o = Some r -> moved A' s -> A' !! o = None -> Z.of_nat (size A') < expn dst ->
  (forall s', moved (<[o := r]> A') s' -> Q 0 s') ->
  forall meta, wp (migrate (hdl src i) i i meta) Q s.
Proof using All.
  intros He Hl Hr Hg HA Hmv Ho Hroom HQ meta. pose proof Hmv as (Hpart&Hfix&m'&f'&g'&Hdst).
  unfold migrate_rule. apply wp_getM. cbv zeta. cbn [fst snd]. rewrite (moved_table _ _ Hmv). apply (wp_liftO _ _ _ _ _ e He).
  destruct source_tables as ((nch&ich&k&Hwf)&_). rewrite (wf_nmi _ _ _ _ _ _ Hwf).
  unfold live in Hl. apply andb_true_iff in Hl as [_ Hp]. apply negb_true_iff in Hp.
  assert (Hpo : map_pairs (nati_obj s) = map_pairs initial_obj).
  { rewrite <- Hpairs. unfold fixed in Hfix. by injection Hfix as _ _ _ _ _ _ _ _ -> _ _. }
  assert (Hdir : (if mem_of src =? IPA_NAT_MEM_IN_SRAM then (SRAM_SUB, DDR_SUB) else (DDR_SUB, SRAM_SUB)) = (src, dst)) by by destruct src.
  rewrite Hdir, Hpo, Hp. apply wp_bind.
  assert (Hg' : zget (map_array s) (new2orig_map (maps_of src)) = Some g).
  { pose proof (pl_new2orig _ _ _ _ _ _ Hsrc) as Hx. unfold part in Hpart. by injection Hpart as _ _ _ _ -> _. }
  apply (wp_map_find _ g s Hg' _ o); [exact Hg|]. change (truthy 0) with false. cbn iota.
  assert (Hrec : rule_of_record e = rule_of_record r) by (by rewrite Hr). rewrite Hrec.
  destruct (Hmovable o r HA) as (Href&Hpd&Hst).
  apply (add_moved dst m' f' g' A' s (rule_of_record r) r o Q Hdst Href Hpd Hst Hroom Ho).
  intros m2 f2 g2 s2 Hpl Hp2 Hf2. apply HQ. replace (other dst) with src in Hp2 by by destruct src.
  split; [by rewrite Hp2|]. split; [by rewrite Hf2|]. by exists m2, f2, g2.
Qed.

Lemma migrate_dead i e Q s A' :
  zget (recs (table T)) i = Some e -> protocol e = IPAHAL_NAT_INVALID_PROTOCOL -> moved A' s -> Q 0 s ->
  forall h meta, wp (migrate h i i meta) Q s.
Proof using All.
  intros He Hp Hmv HQ h meta. unfold migrate_rule. apply wp_getM. cbv zeta. cbn [fst snd]. rewrite (moved_table _ _ Hmv).
  apply (wp_liftO _ _ _ _ _ e He). destruct (if nmi _ =? _ then _ else _) as [a b]. rewrite Hp. by apply wp_ret.
Qed.

Lemma entry_handle i : 0 <= i < base src + expn src -> MakeEntryHdl (table T) i = hdl src i.
Proof using Hsrc.
  intros Hi. destruct source_tables as ((nch&ich&k&Hwf)&Hb&He). destruct (place_bounds _ _ _ _ _ _ Hsrc) as (Hb1&He1&Hm).
  pose proof (wf_nmi _ _ _ _ _ _ Hwf) as Hnm. rewrite (MakeEntryHdl_word (table T) i) by (rewrite ?Hnm, ?Hb, ?He; lia || done).
  unfold entry_hdl. by rewrite Hnm, Hb.
Qed.

(** The original handles of two records differ. *)
Lemma original_inj i j o r r' : m !! i = Some r -> m !! j = Some r' -> g !! hdl src i = Some o -> g !! hdl src j = Some o -> i = j.
Proof using Hsrc.
  intros Hi Hj Hgi Hgj. destruct (place_bounds _ _ _ _ _ _ Hsrc) as (Hb&He&Hm). pose proof (pl_handles _ _ _ _ _ _ Hsrc) as Hok.
  apply (ho_inverse _ _ _ _ _ _ _ Hok) in Hgi, Hgj. destruct (ho_every _ _ _ _ _ _ _ Hok _ _ Hi) as [Hri _].
  destruct (ho_every _ _ _ _ _ _ _ Hok _ _ Hj) as [Hrj _]. rewrite <- (hidx (mem_of src) _ _ Hb He Hm i), <- (hidx (mem_of src) _ _ Hb He Hm j) by lia.
  congruence.
Qed.

Lemma visit_moves (Hroom : Z.of_nat (size A) <= expn dst) l : NoDup l ->
  (forall i, i ∈ l -> (exists r, m !! i = Some r) \/ exists e, zget (recs (table T)) i = Some e /\ protocol e = IPAHAL_NAT_INVALID_PROTOCOL) ->
  forall A' s, moved A' s -> A' ⊆ A -> (forall i r o, i ∈ l -> m !! i = Some r -> g !! hdl src i = Some o -> A' !! o = None) ->
  wp (visit migrate (table T) l) (fun r s' => r = 0 /\ exists A2, moved A2 s' /\ A2 ⊆ A /\ A' ⊆ A2 /\
    forall i r o, i ∈ l -> m !! i = Some r -> g !! hdl src i = Some o -> A2 !! o = Some r) s.
Proof using All.
  destruct (place_bounds _ _ _ _ _ _ Hsrc) as (Hb&He&Hm). pose proof (pl_handles _ _ _ _ _ _ Hsrc) as Hok.
  destruct source_tables as ((nch&ich&k&Hwf)&_).
  induction l as [|i l IH]; intros Hnd Hl A' s Hmv Hsub Hnone; [apply wp_ret; split; [done|]; exists A'; by split; [|split; [|split; [|intros i r o Hi; inversion Hi]]]|].
  apply NoDup_cons in Hnd as [Hil Hnd]. cbn [visit]. apply wp_bind.
  assert (Hlater : forall j, j ∈ l -> (exists r, m !! j = Some r) \/ exists e, zget (recs (table T)) j = Some e /\ protocol e = IPAHAL_NAT_INVALID_PROTOCOL)
    by (intros j Hj; apply Hl; by right).
  destruct (m !! i) as [r|] eqn:Hi.
  - destruct (handles_at _ _ _ Hb He Hm _ _ _ _ Hok i r Hi) as (o&Hg&Hf&HA). destruct (ho_every _ _ _ _ _ _ _ Hok i r Hi) as [Hri _].
    pose proof (Hnone i r o ltac:(left) Hi Hg) as Ho. rewrite (entry_handle i) by lia.
    assert (Hsub' : <[o := r]> A' ⊆ A) by (by apply insert_subseteq_l).
    assert (Hsz : Z.of_nat (size A') < expn dst).
    { apply map_subseteq_size in Hsub'. rewrite map_size_insert_None in Hsub' by done. lia. }
    destruct (live_rule _ _ _ _ _ _ _ _ Hwf Hi) as (e&_&_&_&_&_&Hre&Hlive&Heq&_).
    apply (migrate_live i e r o A' _ s Hre Hlive Heq Hg HA Hmv Ho Hsz). intros s' Hmv'. change (truthy 0) with false. cbn iota.
    eapply wp_mono; [apply (IH Hnd Hlater (<[o := r]> A') s' Hmv' Hsub')|].
    + intros j r' o' Hj Hmj Hgj. rewrite lookup_insert_ne; [by apply (Hnone j r' o'); [by right|..]|].
      intros <-. pose proof (original_inj i j o r r' Hi Hmj Hg Hgj) as ->. done.
    + intros ret s2 (->&A2&Hmv2&Hs2&Hmono&Hall). split; [done|]. exists A2. split; [done|]. split; [done|].
      split; [etransitivity; [by apply insert_subseteq|exact Hmono]|].
      intros j r' o' [->|Hj]%elem_of_cons Hmj Hgj; [|by apply (Hall j)].
      assert (o' = o /\ r' = r) as [-> ->] by (split; congruence). eapply lookup_weaken; [apply lookup_insert_eq|exact Hmono].
  - destruct (Hl i ltac:(left)) as [[r Hr]|(e&Hre&Hp)]; [congruence|].
    apply (migrate_dead i e _ s A' Hre Hp Hmv). change (truthy 0) with false. cbn iota.
    eapply wp_mono; [apply (IH Hnd Hlater A' s Hmv Hsub)|].
    + intros j r' o' Hj. apply (Hnone j r' o'). by right.
    + intros ret s2 (->&A2&Hmv2&Hs2&Hmono&Hall). split; [done|]. exists A2. split; [done|]. split; [done|]. split; [done|].
      intros j r' o' [->|Hj]%elem_of_cons Hmj Hgj; [congruence|by apply (Hall j)].
Qed.

(** A visit of all slots in use moves all rules. *)
Lemma visit_moves_all s :
  Z.of_nat (size A) <= expn dst -> moved ∅ s ->
  wp (visit migrate (table T) (called_slots (EI := entry_interface pd) WHEN_SLOT_FILLED (table T) 0)) (fun r s' => r = 0 /\ moved A s') s.
Proof using All.
  intros Hroom Hmv. destruct source_tables as [HT _]. destruct (used_rules _ _ _ pd HT) as (Hnd&Hall&Hl).
  destruct (place_bounds _ _ _ _ _ _ Hsrc) as (Hb&He&Hm). pose proof (pl_handles _ _ _ _ _ _ Hsrc) as Hok.
  eapply wp_mono; [apply (visit_moves Hroom _ Hnd Hl ∅ s Hmv); [apply map_empty_subseteq|done]|].
  intros ret s' (->&A2&Hmv2&Hsub&_&Hin). split; [done|]. assert (A2 = A) as <-; [|done].
  apply (anti_symm (⊆)); [done|]. apply map_subseteq_spec. intros o r Ho.
  destruct (handles_find _ _ _ Hb He Hm _ _ _ _ Hok o r Ho) as (i&_&Hg&Hi&_). apply (Hin i r o); [by eapply Hall|done..].
Qed.

End Move.

(** ** The copy of a table *)

Lemma part_later sub k s : part sub (later_by k s) = part sub s.
Proof. done. Qed.

Lemma fixed_later k s : fixed (later_by k s) = fixed s.
Proof. done. Qed.

Lemma migrate_keeps_table src tbl h p i mt :
  keeps (same (fun s => table (table_of (mem_of src) 0 (nat_of s)))) (migrate_rule tbl (tbl_of (other src)) h p i mt).
Proof.
  assert (Hmaps : forall B (mm : M map_list B), keeps (same (fun s => table (table_of (mem_of src) 0 (nat_of s)))) (in_maps mm)).
  { intros B mm s b s' H. unfold in_maps in H. destruct (mm (map_array s)) as [[? ?]|]; [|done]. by injection H as _ <-. }
  assert (Hadd : forall u, keeps (same (fun s => table (table_of (mem_of src) 0 (nat_of s))))
    (in_nat (ipa_NATI_add_ipv4_rule (tbl_of (other src)) u))).
  { intros u s b s' H. unfold in_nat in H. destruct (ipa_NATI_add_ipv4_rule _ u (nat_of s)) as [[? n]|] eqn:Hrun; [|done]. injection H as _ <-.
    pose proof (frame_add (mem_of (other src)) 0 _ (break_tbl_of _) u _ _ _ Hrun) as Hfr. unfold same, table_of. cbn.
    by rewrite (fr_other _ _ _ Hfr (mem_of src)) by (by destruct src). }
  unfold migrate_rule, set_counter, upd_obj. keep. done.
Qed.

Lemma copy_moves src m f g A m' f' g' s :
  place src m f g A s -> map_pairs (nati_obj s) = map_pairs initial_obj -> (forall o r, A !! o = Some r -> movable pd r) ->
  store_ok (mem_of (other src)) pd (base (other src)) (expn (other src)) (sm_nat s) m' -> table_count (mem_of (other src)) (sm_nat s) 1 ->
  zget (map_array s) (orig2new_map (maps_of (other src))) = Some ∅ -> zget (map_array s) (new2orig_map (maps_of (other src))) = Some ∅ ->
  at_sub (other src) (tot_rules_in_table (nati_obj s)) = 0 -> Z.of_nat (size A) <= expn (other src) ->
  wp (ipa_nati_copy_ipv4_tbl (tbl_of src) (tbl_of (other src)) (Some migrate_rule)) (fun r s' => r = 0 /\ moved src s A s') s.
Proof.
  intros Hsrc Hpairs Hmov Hst Hcnt Hf Hg Htot Hroom. pose proof (pl_store _ _ _ _ _ _ Hsrc) as Hso.
  destruct (so_sys _ _ _ _ _ _ Hso) as [Hnf _]. unfold ipa_nati_copy_ipv4_tbl, pthread_mutex_lock, pthread_mutex_unlock.
  apply wp_bind, wp_call; [done|]. change (truthy 0) with false. cbn iota. set (s1 := later_by 1 s).
  assert (Hst1 : store_ok (mem_of (other src)) pd (base (other src)) (expn (other src)) (sm_nat s1) m') by (by eapply store_same).
  destruct (clear_run _ _ _ _ _ _ Hst1 Hcnt) as (T'&n2&_&Hclear&_&Hst2).
  apply wp_bind, (wp_nat _ _ _ _ _ Hclear). cbn [Z.eqb]. set (s2 := s1 <| sm_nat := n2 |>).
  pose proof (frame_clear _ 0 _ (break_tbl_of (other src)) _ _ _ Hclear) as Hfr.
  assert (Hp2 : part src s2 = part src s) by (rewrite <- (part_later src 1 s); by apply part_frame).
  pose proof (place_part src m f g A s s2 Hp2 Hsrc) as Hsrc2. assert (Hx2 : fixed s2 = fixed s) by done.
  apply wp_bind. destruct (walk_store_run (HN := sm_has_nat) (mem_of src) pd (base src) (expn src) s2 m (fun tbl => migrate_rule tbl (tbl_of (other src)))
    (pl_store _ _ _ _ _ _ Hsrc2) (pl_count _ _ _ _ _ _ Hsrc2) (fun h p i mt => migrate_keeps_table src _ h p i mt)) as (T&Hat&HT&Hwalk).
  set (s3 := later_by 1 s2). assert (Hsrc3 : place src m f g A s3) by exact (place_part src m f g A s2 s3 eq_refl Hsrc2).
  assert (HTs : T = table_of (mem_of src) 0 (sm_nat s3)).
  { destruct Hat as (c&d&Hc&_&HTc). unfold table_of. change (ipv4_nat_cache (sm_nat s3)) with (ipv4_nat_cache (nat_of s2)). rewrite Hc. cbn. by rewrite HTc. }
  assert (Hmv : moved src s3 ∅ s3).
  { split; [done|]. split; [done|]. exists ∅, ∅, ∅. split; [by eapply store_same| |exact Hf|exact Hg|apply handles_empty|exact Htot].
    destruct Hcnt as (c&Hc&Hc1). destruct (fr_cache _ _ _ Hfr c Hc) as (c'&Hc'&_&Hn'). exists c'. split; [exact Hc'|congruence]. }
  pose proof (visit_moves_all src m f g A s3 Hsrc3 Hpairs Hmov s3 Hroom Hmv) as Hvisit. rewrite <- HTs in Hvisit.
  refine (wp_as _ _ _ s2 s3 Hwalk _). apply wp_bind. eapply wp_mono; [exact Hvisit|]. intros ret s4 (->&Hp4&Hx4&m4&f4&g4&Hd4).
  assert (Hnf4 : no_failures (sys (sm_nat s4))) by (apply (so_sys _ _ _ _ _ _ (pl_store _ _ _ _ _ _ Hd4))).
  apply wp_bind, wp_call; [done|]. change (truthy 0) with false. cbn iota. apply wp_ret. apply wp_bind, wp_call; [done|].
  change (truthy 0) with false. cbn iota. apply wp_ret. split; [done|]. rewrite later_later.
  split; [by rewrite part_later, Hp4|]. split; [by rewrite fixed_later, Hx4|]. exists m4, f4, g4. exact (place_part _ _ _ _ _ s4 (later_by 2 s4) eq_refl Hd4).
Qed.

(** ** The invariant *)

(** What the machine is told and where its tables are. *)
Record control (hold : bool) (cur : mem_sub) s : Prop := {
  ct_curr : curr_state (nati_obj s) = state_of cur;
  ct_prev : prev_state (nati_obj s) <> NATI_STATE_NULL;
  ct_hold : hold_state (nati_obj s) = hold;
  ct_hdls : ddr_tbl_hdl (nati_obj s) = tbl_of DDR_SUB /\ sram_tbl_hdl (nati_obj s) = tbl_of SRAM_SUB;
  ct_thresh : back_to_sram_thresh (nati_obj s) = thresh;
  ct_pairs : map_pairs (nati_obj s) = map_pairs initial_obj;
  ct_maps : length (map_array s) = Z.to_nat MAP_NUM_MAX;
  ct_mutex : nat_mutex_init s = true;
}.

Definition is_sram (sub : mem_sub) : bool := match sub with SRAM_SUB => true | DDR_SUB => false end.

(** The handles of records in memory on the chip. *)
Definition sram_handle (h : Z) : Prop := Z.land (Z.shiftr h 15) 1 = IPA_NAT_MEM_IN_SRAM.

(** The original handles are the present ones, or come from the chip while the
    rules are not there. *)
Definition own (sub : mem_sub) f : Prop := forall o h, f !! o = Some h -> o = h \/ (sub = DDR_SUB /\ sram_handle o).

(** The state is that of [cur], the rules [A] are in the memory [sub]; the other
    memory has a table with any rules. *)
Record hybrid_at (hold strict : bool) (cur sub : mem_sub) A s : Prop := {
  hy_control : control hold cur s;
  hy_place : exists m f g, place sub m f g A s /\ (strict = true -> own sub f);
  hy_other : exists m, store_ok (mem_of (other sub)) pd (base (other sub)) (expn (other sub)) (sm_nat s) m /\
    table_count (mem_of (other sub)) (sm_nat s) 1;
  hy_movable : forall o r, A !! o = Some r -> movable pd r;
}.

Abbreviation hybrid hold strict sub := (hybrid_at hold strict sub sub).

Lemma control_fixed hold cur s s' : fixed s' = fixed s -> control hold cur s -> control hold cur s'.
Proof.
  unfold fixed. intros H [C1 C2 C3 [C4 C4'] C5 C6 C7 C8]. injection H as E1 E2 E3 E4 E5 E6 E7 E8 E9 E10 E11.
  split; congruence || (split; congruence).
Qed.

(** A store of another memory depends on its part. *)
Lemma store_part sub m s s' :
  part sub s' = part sub s -> store_ok (mem_of sub) pd (base sub) (expn sub) (sm_nat s) m /\ table_count (mem_of sub) (sm_nat s) 1 ->
  store_ok (mem_of sub) pd (base sub) (expn sub) (sm_nat s') m /\ table_count (mem_of sub) (sm_nat s') 1.
Proof.
  intros [= Hc Hp Hs _ _ _] [Hst (c&Hz&Hcnt)]. split; [by eapply store_same|]. exists c. by rewrite Hc.
Qed.

Lemma hybrid_same hold strict cur sub A s s' :
  fixed s' = fixed s -> (forall sub, part sub s' = part sub s) -> hybrid_at hold strict cur sub A s -> hybrid_at hold strict cur sub A s'.
Proof.
  intros Hf Hp [Hc (m&f&g&Hpl&Hown) (m'&Ho) Hm]. split; [by apply (control_fixed _ _ s)| | |done].
  - exists m, f, g. split; [|done]. exact (place_part _ _ _ _ _ s s' (Hp sub) Hpl).
  - exists m'. exact (store_part _ _ s s' (Hp _) Ho).
Qed.

Lemma hybrid_later hold strict cur sub A k s : hybrid_at hold strict cur sub A s -> hybrid_at hold strict cur sub A (later_by k s).
Proof. exact (hybrid_same hold strict cur sub A s (later_by k s) eq_refl (fun _ => eq_refl)). Qed.

(** *** Running a trigger *)

(** The mutex is made, the device of the memory on the chip is open. *)
Definition ready s : Prop :=
  nat_mutex_init s = true /\ no_failures (sys (sm_nat s)) /\
  exists c d, zget (ipv4_nat_cache (sm_nat s)) IPA_NAT_MEM_IN_SRAM = Some c /\ ipa_desc c = Some d.

Lemma ready_later k s : ready s -> ready (later_by k s).
Proof. done. Qed.

Lemma store_ready sub m s :
  store_ok (mem_of sub) pd (base sub) (expn sub) (sm_nat s) m ->
  exists c d, zget (ipv4_nat_cache (sm_nat s)) (mem_of sub) = Some c /\ ipa_desc c = Some d.
Proof. intros Hst. destruct (so_table _ _ _ _ _ _ Hst) as (T&(c&d&Hc&Hd&_)&_). by exists c, d. Qed.

Lemma hybrid_ready hold strict cur sub A s : hybrid_at hold strict cur sub A s -> ready s.
Proof.
  intros [Hc (m&f&g&Hpl&Hown) (m'&Ho&_) _]. pose proof (pl_store _ _ _ _ _ _ Hpl) as Hst. split; [apply Hc|].
  split; [apply (so_sys _ _ _ _ _ _ Hst)|]. destruct sub; [exact (store_ready SRAM_SUB _ _ Ho)|exact (store_ready SRAM_SUB _ _ Hst)].
Qed.

Lemma wp_vote k Q s :
  k = IPA_APP_CLK_VOTE \/ k = IPA_APP_CLK_DEVOTE -> ready s -> Q 0 (later_by 1 s) -> wp (in_nat (ipa_nat_vote_clock k)) Q s.
Proof.
  intros Hk (_&Hnf&c&d&Hc&Hd) HQ. apply (wp_nat _ _ _ 0 (ticks 1 (sm_nat s))); [|exact HQ]. unfold ipa_nat_vote_clock.
  replace (negb _) with false by (by destruct Hk as [-> | ->]). unfold ipa_nati_vote_clock.
  rewrite (bind_run _ _ _ true (sm_nat s)); [by apply call_run|]. unfold ensure_desc. rewrite (cache_then _ c) by done. by rewrite Hd.
Qed.

Lemma wp_body sm t args Q s :
  ready s ->
  (forall j, wp (_state_mach_tbl sm (curr_state (nati_obj s)) t t args) (fun _ s2 => ready s2 /\ forall k, Q (later_by k s2)) (later_by j s)) ->
  wp (statemach_body sm t args) (fun r s' => r = 0 /\ Q s') s.
Proof.
  intros Hr Hcb. pose proof Hr as (Hmut&Hnf&_). unfold statemach_body, take_mutex, give_mutex, pthread_mutex_lock, pthread_mutex_unlock.
  apply wp_bind, wp_getM. rewrite Hmut. apply wp_call; [done|]. change (truthy 0) with false. cbn iota. apply wp_gets. cbv zeta.
  set (vote := VOTE_REQUIRED _ t). assert (Hend : forall s2 (r : Z), ready s2 -> (forall k, Q (later_by k s2)) ->
    wp (((if vote then in_nat (ipa_nat_vote_clock IPA_APP_CLK_DEVOTE) ;; mret tt else mret tt) ;; mret r) ;;
        (s ← getM; if nat_mutex_init s then in_nat sys_call else mret (- 1))) (fun r s' => r = 0 /\ Q s') s2).
  { intros s2 r Hr2 HQ. assert (Hfin : forall s3, ready s3 -> (exists k, s3 = later_by k s2) ->
      wp (s ← getM; if nat_mutex_init s then in_nat sys_call else mret (- 1)) (fun r s' => r = 0 /\ Q s') s3).
    { intros s3 (Hm3&Hn3&_) [k ->]. apply wp_getM. rewrite Hm3. apply wp_call; [done|]. split; [done|]. rewrite later_later. apply HQ. }
    apply wp_bind, wp_bind. destruct vote.
    - apply wp_bind, wp_vote; [by right|done|]. apply wp_ret, wp_ret. apply Hfin; [by apply ready_later|by exists 1%nat].
    - apply wp_ret, wp_ret. apply Hfin; [done|]. exists 0%nat. by destruct s2 as [? ? ? []]. }
  assert (Hmain : forall j, wp ((o ← gets nati_obj; ret ← _state_mach_tbl sm (curr_state o) t t args;
      (if vote then in_nat (ipa_nat_vote_clock IPA_APP_CLK_DEVOTE) ;; mret tt else mret tt) ;; mret ret) ;;
      (s ← getM; if nat_mutex_init s then in_nat sys_call else mret (- 1))) (fun r s' => r = 0 /\ Q s') (later_by j s)).
  { intros j. apply wp_bind, wp_gets, wp_bind. eapply wp_mono; [apply (Hcb j)|]. intros r s2 [Hr2 HQ].
    specialize (Hend s2 r Hr2 HQ). destruct Hend as (a&s3&H3&HQ3). apply bind_inv in H3 as (b&s4&H4&H5).
    exists b, s4. split; [exact H4|]. by exists a, s3. }
  destruct vote eqn:Hv; apply wp_bind.
  - apply wp_vote; [by left|done|]. change (truthy 0) with false. cbn iota. rewrite later_later. apply Hmain.
  - apply wp_ret. change (truthy 0) with false. cbn iota. apply Hmain.
Qed.

(** ** Switching the tables *)

Definition goto_trigger (sub : mem_sub) : ipa_nati_trigger := match sub with DDR_SUB => NATI_TRIG_GOTO_DDR | SRAM_SUB => NATI_TRIG_GOTO_SRAM end.

(** Telling the hardware to use a table. *)
Lemma tell_run sub m s :
  store_ok (mem_of sub) pd (base sub) (expn sub) (sm_nat s) m -> table_count (mem_of sub) (sm_nat s) 1 ->
  exists n, ipa_NATI_post_ipv4_init_cmd (tbl_of sub) (sm_nat s) = Done (0, n) /\
    ipv4_nat_cache n = ipv4_nat_cache (sm_nat s) /\ pdns n = pdns (sm_nat s) /\ sys n = sys (sm_nat s).
Proof.
  intros Hst (c&Hc&Hcnt). destruct (so_sys _ _ _ _ _ _ Hst) as [Hnf _]. destruct (so_table _ _ _ _ _ _ Hst) as (T&Hat&_).
  unfold ipa_NATI_post_ipv4_init_cmd, tbl_of. destruct (tbl_handle _ (mem_of_cases sub)) as (_&->&->). cbn [negb].
  unfold pthread_mutex_lock. rewrite call_then by done. change (truthy 0) with false. cbn iota. set (n1 := ticks 1 (sm_nat s)).
  rewrite (cache_then _ c) by done. rewrite Hcnt. change (truthy 1) with true. cbn [negb]. change (1 - 1) with 0.
  set (n2 := ticks 1 n1 <| posted ::= fun l => l ++ [v4_nat_init c T 0 true] |>).
  assert (Hpost : ipa_nati_post_ipv4_init_cmd (mem_of sub) 0 0 true n1 = Done (0, n2)).
  { unfold ipa_nati_post_ipv4_init_cmd. rewrite (cache_then _ c) by done. assert (Hat1 : at_table (mem_of sub) 0 n1 T) by exact Hat.
    rewrite <- (put_same _ 0 n1 T Hat1) at 1. rewrite (get_table_then _ 0 n1 T Hat1), (put_same _ 0 n1 T Hat1), modify_run.
    by rewrite call_run by exact Hnf. }
  exists (ticks 1 (n2 <| active_nat_cache_ptr := Some (mem_of sub) |>)). split; [|done].
  rewrite (bind_run _ _ _ 0 (n2 <| active_nat_cache_ptr := Some (mem_of sub) |>)).
  - unfold pthread_mutex_unlock. by rewrite call_then by exact Hnf.
  - by rewrite (bind_run _ _ _ _ _ Hpost).
Qed.

Section Switch.
Context (hold strict : bool).

Lemma hybrid_store cur sub k A s :
  hybrid_at hold strict cur sub A s ->
  exists m, store_ok (mem_of k) pd (base k) (expn k) (sm_nat s) m /\ table_count (mem_of k) (sm_nat s) 1.
Proof using Type.
  intros [_ (m&f&g&Hpl&Hown) (m'&Ho) _]. destruct (decide (k = sub)) as [->|Hk].
  - exists m. split; apply Hpl.
  - replace k with (other sub) by (by destruct k, sub). by exists m'.
Qed.

(** Entering a state. *)
Definition enter (st : ipa_nati_state) s : sm_state :=
  s <| nati_obj ::= fun o => o <| prev_state := curr_state o |> <| curr_state := st |> |>.

Lemma hybrid_enter cur dst sub A s : hybrid_at hold strict cur sub A s -> hybrid_at hold strict dst sub A (enter (state_of dst) s).
Proof using Type.
  intros [[C1 C2 C3 C4 C5 C6 C7 C8] (m1&f&g&Hpl&Hown) (m'&Ho) Hm]. assert (Hp : forall k, part k (enter (state_of dst) s) = part k s) by done.
  split; [| | |done].
  - split; try done. change (curr_state (nati_obj s) <> NATI_STATE_NULL). rewrite C1. by destruct cur.
  - exists m1, f, g. split; [|done]. exact (place_part _ _ _ _ _ s _ (Hp sub) Hpl).
  - exists m'. exact (store_part _ _ s _ (Hp _) Ho).
Qed.

Lemma goto_run cur sub dst A t s Q :
  hybrid_at hold strict cur sub A s -> (forall s', hybrid_at hold strict dst sub A s' -> Q 0 s') ->
  wp (match dst with DDR_SUB => _smGoToDdr t NoArgs | SRAM_SUB => _smGoToSram t NoArgs end) Q s.
Proof using Type.
  intros Hh HQ. destruct (hybrid_store cur sub dst A s Hh) as (m&Hst&Hcnt). destruct (tell_run dst m s Hst Hcnt) as (n&Hrun&Hc&Hp&Hs).
  destruct (ct_hdls _ _ _ (hy_control _ _ _ _ _ _ Hh)) as [Hd Hsr].
  set (s1 := s <| sm_nat := n |>). assert (Hh1 : hybrid_at hold strict cur sub A s1).
  { apply (hybrid_same hold strict cur sub A s s1 eq_refl); [|done]. intros k. unfold part. cbn. by rewrite Hc, Hp, Hs. }
  pose proof (hybrid_enter cur dst sub A s1 Hh1) as Hfin.
  destruct dst; [unfold _smGoToDdr|unfold _smGoToSram]; apply wp_gets; [rewrite Hd|rewrite Hsr];
    (apply wp_bind, (wp_nat _ _ _ _ _ Hrun); cbn [Z.eqb]; unfold SET_NATIOBJ_STATE, upd_obj; apply wp_bind, (wp_run _ _ _ tt _ eq_refl), wp_ret;
     by apply HQ).
Qed.

(** The nested trigger. *)
Lemma goto_trigger_run sm cur sub dst A s Q :
  hybrid_at hold strict cur sub A s -> (forall s', hybrid_at hold strict dst sub A s' -> Q 0 s') ->
  wp (statemach_body sm (goto_trigger dst) NoArgs) Q s.
Proof using Type.
  intros Hh HQ. eapply wp_mono; [apply (wp_body sm (goto_trigger dst) NoArgs (hybrid_at hold strict dst sub A) s (hybrid_ready _ _ _ _ _ _ Hh))|].
  - intros j. assert (Hg : forall s, hybrid_at hold strict cur sub A s -> wp (match dst with DDR_SUB => _smGoToDdr (goto_trigger dst) NoArgs
        | SRAM_SUB => _smGoToSram (goto_trigger dst) NoArgs end) (fun _ s2 => ready s2 /\ forall k, hybrid_at hold strict dst sub A (later_by k s2)) s).
    { intros s1 Hs1. apply (goto_run cur sub dst A); [done|]. intros s2 Hs2. split; [by eapply hybrid_ready|]. intros k. by apply hybrid_later. }
    specialize (Hg _ (hybrid_later _ _ _ _ _ j _ Hh)). rewrite (ct_curr _ _ _ (hy_control _ _ _ _ _ _ Hh)). by destruct cur, dst.
  - intros r s' [-> Hs']. by apply HQ.
Qed.

(** Emptying the maps of a memory. *)
Lemma wp_clear {B} sub (k : unit -> SM B) Q s :
  map_pairs (nati_obj s) = map_pairs initial_obj -> length (map_array s) = Z.to_nat MAP_NUM_MAX ->
  (forall l, length l = length (map_array s) -> zget l (orig2new_map (maps_of sub)) = Some ∅ -> zget l (new2orig_map (maps_of sub)) = Some ∅ ->
    (forall j, j <> orig2new_map (maps_of sub) -> j <> new2orig_map (maps_of sub) -> zget l j = zget (map_array s) j) ->
    wp (k tt) Q (s <| map_array := l |>)) ->
  wp (clear_maps sub ≫= k) Q s.
Proof using Type.
  intros Hp Hl HQ. unfold clear_maps.
  assert (Hmap : forall j s, 0 <= j < 5 -> length (map_array s) = Z.to_nat MAP_NUM_MAX -> exists f, zget (map_array s) j = Some f).
  { intros j s' Hj Hl'. apply zget_is_Some. unfold zlen. rewrite Hl'. change (Z.of_nat (Z.to_nat MAP_NUM_MAX)) with 5. lia. }
  apply wp_bind, wp_gets. rewrite Hp. fold (maps_of sub).
  destruct (Hmap (orig2new_map (maps_of sub)) s) as [f Hf]; [by destruct sub|done|].
  apply wp_bind, (wp_map_clear _ f s Hf). set (s2 := with_map _ s ∅).
  assert (Hl2 : length (map_array s2) = Z.to_nat MAP_NUM_MAX) by (unfold s2; by rewrite with_map_length).
  destruct (Hmap (new2orig_map (maps_of sub)) s2) as [g Hg]; [by destruct sub|done|].
  apply wp_bind, (wp_map_clear _ g s2 Hg), wp_ret. apply (HQ (map_array (with_map (new2orig_map (maps_of sub)) s2 ∅))).
  - unfold s2. by rewrite !with_map_length.
  - rewrite (with_map_other _ g s2 Hg) by (by destruct sub). exact (with_map_same _ f s Hf ∅).
  - exact (with_map_same _ g s2 Hg ∅).
  - intros j Ho Hn. rewrite (with_map_other _ g s2 Hg) by done. by apply (with_map_other _ f s Hf).
Qed.

(** Emptying the maps and the counter of a memory. *)
Lemma wp_reset {B} sub (k : unit -> SM B) Q s :
  map_pairs (nati_obj s) = map_pairs initial_obj -> length (map_array s) = Z.to_nat MAP_NUM_MAX ->
  (forall s', part (other sub) s' = part (other sub) s -> fixed s' = fixed s -> sm_nat s' = sm_nat s -> cells s' = cells s ->
    zget (map_array s') (orig2new_map (maps_of sub)) = Some ∅ -> zget (map_array s') (new2orig_map (maps_of sub)) = Some ∅ ->
    at_sub sub (tot_rules_in_table (nati_obj s')) = 0 -> wp (k tt) Q s') ->
  wp (set_counter sub (fun _ => 0) ;; clear_maps sub ≫= k) Q s.
Proof using Type.
  intros Hp Hl HQ. unfold set_counter, upd_obj. apply wp_modify, (wp_clear sub); [done|done|]. intros l Hlen Ho Hn Hrest.
  apply HQ; try done; [|unfold fixed; cbn; by rewrite Hlen|by destruct sub].
  unfold part. f_equal; [f_equal; [f_equal|]|by destruct sub]; cbn; (rewrite Hrest; [done|by destruct sub..]).
Qed.

Lemma control_hdls cur s : control hold cur s -> forall sub, (match sub with DDR_SUB => ddr_tbl_hdl | SRAM_SUB => sram_tbl_hdl end) (nati_obj s) = tbl_of sub.
Proof using Type. intros H sub. destruct (ct_hdls _ _ _ H). by destruct sub. Qed.

(** Rules that leave the chip for the first time keep handles from there. *)
Lemma moved_own m f g A m' f' g' s s' :
  place SRAM_SUB m f g A s -> own SRAM_SUB f -> place DDR_SUB m' f' g' A s' -> own DDR_SUB f'.
Proof using Type.
  intros Hpl Hown Hpl' o h Hf. right. split; [done|]. destruct (place_bounds _ _ _ _ _ _ Hpl) as (Hb&He&Hm).
  destruct (ho_rule _ _ _ _ _ _ _ (pl_handles _ _ _ _ _ _ Hpl') o h Hf) as (r&_&HA).
  destruct (ho_dom _ _ _ _ _ _ _ (pl_handles _ _ _ _ _ _ Hpl) o r HA) as [h0 Hf0]. destruct (Hown o h0 Hf0) as [->|[? _]]; [|done].
  exact (is_handle_memory _ _ _ Hb He Hm h0 (ho_handle _ _ _ _ _ _ _ (pl_handles _ _ _ _ _ _ Hpl) _ _ Hf0)).
Qed.

Lemma switch_run sm src A s Q :
  hybrid hold strict src A s -> Z.of_nat (size A) <= expn (other src) -> (forall s', hybrid hold (strict && is_sram src) (other src) A s' -> Q 0 s') ->
  wp (_state_mach_tbl (statemach_body sm) (state_of src) NATI_TRIG_TBL_SWITCH NATI_TRIG_TBL_SWITCH NoArgs) Q s.
Proof using Type.
  intros Hh Hroom HQ. set (dst := other src).
  assert (Hcb : wp (switch_tables (statemach_body sm) NoArgs (goto_trigger dst) dst
    (match src with DDR_SUB => ddr_tbl_hdl | SRAM_SUB => sram_tbl_hdl end) (match dst with DDR_SUB => ddr_tbl_hdl | SRAM_SUB => sram_tbl_hdl end)) Q s);
    [|by destruct src].
  unfold switch_tables. apply wp_gets. cbv zeta. apply wp_bind, wp_ret, wp_bind, (goto_trigger_run sm src src dst A _ _ Hh).
  intros s1 Hh1. change (truthy 0) with false. cbn iota. pose proof Hh1 as [Hc (m&f&g&Hpl&Hown) (m'&Ho) Hmov].
  apply (wp_reset dst); [apply Hc|apply Hc|]. intros s2 Hp2 Hx2 Hn2 _ Hf2 Hg2 Ht2. apply wp_gets.
  replace (other dst) with src in Hp2 by (by destruct src).
  pose proof (control_fixed _ _ _ _ Hx2 Hc) as Hc2. rewrite !(control_hdls _ _ Hc2).
  pose proof (place_part _ _ _ _ _ s1 s2 Hp2 Hpl) as Hpl2.
  apply wp_bind. eapply wp_mono.
  - apply (copy_moves src m f g A m' ∅ ∅ s2 Hpl2); [apply Hc2|done|by rewrite Hn2; apply Ho|rewrite Hn2; apply Ho|done..].
  - intros r s3 (->&Hp3&Hx3&m3&f3&g3&Hd3). unfold upd_obj. apply wp_modify, wp_ret. apply HQ.
    match goal with |- hybrid_at _ _ _ _ _ ?x => set (s4 := x) end. assert (Hp4 : forall k, part k s4 = part k s3) by done.
    split; [apply (control_fixed _ _ s2); [exact Hx3|exact Hc2]| | |done].
    + exists m3, f3, g3. split; [exact (place_part _ _ _ _ _ s3 s4 (Hp4 dst) Hd3)|].
      intros [Hst Hsr]%andb_true_iff. destruct src; [done|]. exact (moved_own m f g A m3 f3 g3 s2 s3 Hpl2 (Hown Hst) Hd3).
    + exists m. replace (other (other src)) with src by (by destruct src).
      apply (store_part src m s2 s4); [by rewrite Hp4|]. split; apply Hpl2.
Qed.

(** *** The switch that a client asks for *)

Lemma switch_trigger_run sm src A s Q :
  hybrid hold strict src A s -> Z.of_nat (size A) <= expn (other src) -> (forall s', hybrid hold (strict && is_sram src) (other src) A s' -> Q 0 s') ->
  wp (statemach_body (statemach_body sm) NATI_TRIG_TBL_SWITCH NoArgs) Q s.
Proof using Type.
  intros Hh Hroom HQ. eapply wp_mono; [apply (wp_body _ _ _ (hybrid hold (strict && is_sram src) (other src) A) s (hybrid_ready _ _ _ _ _ _ Hh))|].
  - intros j. rewrite (ct_curr _ _ _ (hy_control _ _ _ _ _ _ Hh)). apply (switch_run sm src A); [by apply hybrid_later|done|].
    intros s' Hs'. split; [by eapply hybrid_ready|]. intros k. by apply hybrid_later.
  - intros r s' [-> Hs']. by apply HQ.
Qed.

End Switch.

End Hybrid.
