(* ===== verification/IpaHybridOps.v ===== *)
(** * Operations in the hybrid states

    Additions, deletions and time stamps on a table whose rules may be in either
    memory, by the handles that the client got when it added them, with the
    switches of the tables that an addition to a full chip and a deletion below
    the threshold cause. *)

From stdpp Require Import gmap strings.
From S2P Require Import Prelude IpaChain IpaTable IpaTableSpec IpaSystem IpaStoreSpec IpaNat IpaNatSpec IpaRules IpaDelete IpaSize IpaCreate IpaHandles IpaStore IpaWalk IpaLife IpaFrame IpaStateMach IpaHybrid.

Local Open Scope Z_scope.

(** The machine is three runs deep. *)
Abbreviation no_run := (fun (_ : ipa_nati_trigger) (_ : sm_args) => failM (St := sm_state) (A := Z) Diverges).

Lemma three_runs t args : ipa_nati_statemach t args = statemach_body (statemach_body (statemach_body no_run)) t args.
Proof. done. Qed.

Section Ops.
Context (pd : list ipa_nat_pdn_entry) (base expn : mem_sub -> Z) (thresh : Z).
Context (hold strict : bool).
Implicit Types (s : sm_state) (m A : gmap Z ipa_nat_rule) (f g : gmap Z Z).

Abbreviation place := (place pd base expn).
Abbreviation hybrid strict sub := (hybrid_at pd base expn thresh hold strict sub sub).
Abbreviation hdl sub := (entry_hdl (mem_of sub) (base sub)).

(** The handle that the client has of the table, that of the chip. *)
Abbreviation client_tbl := (tbl_of SRAM_SUB).

(** *** What the macros choose *)

Section Choose.
Context (st : bool) (sub : mem_sub) A s (Hh : hybrid st sub A s).

Lemma hybrid_curr : curr_state (nati_obj s) = state_of sub.
Proof using Hh. apply (hy_control _ _ _ _ _ _ _ _ _ _ Hh). Qed.

Lemma hybrid_sub : CHOOSE_MEM_SUB (nati_obj s) = sub.
Proof using Hh. unfold CHOOSE_MEM_SUB. rewrite hybrid_curr. by destruct sub. Qed.

Lemma hybrid_maps : CHOOSE_MAPS (nati_obj s) = maps_of sub.
Proof using Hh. unfold CHOOSE_MAPS. rewrite hybrid_sub. by rewrite (ct_pairs _ _ _ _ (hy_control _ _ _ _ _ _ _ _ _ _ Hh)). Qed.

Lemma hybrid_table : hybrid_hdl (nati_obj s) client_tbl = tbl_of sub.
Proof using Hh.
  unfold hybrid_hdl. rewrite hybrid_curr. destruct (ct_hdls _ _ _ _ (hy_control _ _ _ _ _ _ _ _ _ _ Hh)) as [-> _]. by destruct sub.
Qed.

End Choose.

(** A change of the memory in use only. *)
Lemma hybrid_moved st st' sub A A' m f g s s' :
  hybrid st sub A s -> fixed s' = fixed s -> part (other sub) s' = part (other sub) s -> place sub m f g A' s' ->
  (st' = true -> own sub f) -> (forall o r, A' !! o = Some r -> movable pd r) -> hybrid st' sub A' s'.
Proof using Type.
  intros [Hc _ (mo&Ho) _] Hf Hp Hpl Hown Hmov. split; [by apply (control_fixed thresh _ _ s)|by exists m, f, g| |done].
  exists mo. exact (store_part pd base expn (other sub) mo s s' Hp Ho).
Qed.

Lemma count_frame sub n n' c :
  nat_frame (mem_of sub) n n' -> zget (ipv4_nat_cache n) (mem_of sub) = Some c -> table_cnt c = 1 -> table_count (mem_of sub) n' 1.
Proof using Type. intros Hfr Hc Hc1. destruct (fr_cache _ _ _ Hfr c Hc) as (c'&Hc'&_&Hn'). exists c'. split; [exact Hc'|congruence]. Qed.

(** ** Time stamps *)

Lemma query_run sub A o r t s Q :
  hybrid strict sub A s -> A !! o = Some r ->
  (forall s', hybrid strict sub A s' -> time_stamp_cell (cells s') = time_stamp r -> Q 0 s') ->
  wp (_smGetTmStmpHybrid t (RuleHdlArgs client_tbl o)) Q s.
Proof using Type.
  intros Hh Ho HQ. pose proof Hh as [_ (m&f&g&Hpl&Hown) _ Hmov]. destruct (place_bounds _ _ _ _ _ _ _ _ _ Hpl) as (Hb&He&Hm).
  pose proof Hpl as [Hst (c&Hc&Hc1) Hf Hg Hok Htot]. destruct (handles_find _ _ _ Hb He Hm _ _ _ _ Hok o r Ho) as (i&Hfo&_&Hmi&_&Hidx).
  unfold _smGetTmStmpHybrid. apply wp_gets. rewrite (hybrid_maps _ _ _ _ Hh), (hybrid_table _ _ _ _ Hh).
  apply wp_bind, (wp_map_find _ f s Hf _ (hdl sub i)); [done|]. change (truthy 0) with false. cbn iota.
  rewrite <- Hidx in Hmi. destruct (query_timestamp_live _ _ _ _ _ _ _ r Hst Hmi) as (n&Hrun&Hst').
  pose proof (frame_query (mem_of sub) 0 (tbl_of sub) (break_tbl_of sub) (hdl sub i) _ _ _ Hrun) as Hfr.
  unfold _smGetTmStmp, upd_cells. apply wp_bind, (wp_nat _ _ _ _ _ Hrun), wp_modify, wp_ret. set (s' := _ <| cells ::= _ |>).
  apply (HQ s'); [|done]. apply (hybrid_moved strict strict sub A A m f g s s' Hh); [done| | |exact Hown|exact Hmov].
  - exact (part_frame (other sub) s n ltac:(by destruct sub)).
  - split; [exact Hst'|exact (count_frame _ _ _ _ Hfr Hc Hc1)|done..].
Qed.

(** ** Deletions *)

Lemma table_del sub m n c h r :
  store_ok (mem_of sub) pd (base sub) (expn sub) n m -> zget (ipv4_nat_cache n) (mem_of sub) = Some c -> table_cnt c = 1 ->
  m !! handle_index (base sub) h = Some r ->
  exists n', ipa_NATI_del_ipv4_rule (tbl_of sub) h n = Done (0, n') /\ nat_frame (mem_of sub) n n' /\ table_count (mem_of sub) n' 1 /\
    store_ok (mem_of sub) pd (base sub) (expn sub) n' (delete (handle_index (base sub) h) m).
Proof using Type.
  intros Hst Hc Hc1 Hr. destruct (delete_step _ _ _ _ n m h Hst (ex_intro _ r Hr)) as (n'&m'&Hrun&Hstep&Hst').
  unfold run_op in Hrun. apply bind_inv in Hrun as (ret&n2&Hrun&H2). injection H2 as -> ->. exists n'. split; [exact Hrun|].
  pose proof (frame_del _ 0 _ (break_tbl_of sub) h _ _ _ Hrun) as Hfr. split; [exact Hfr|]. split; [exact (count_frame _ _ _ _ Hfr Hc Hc1)|].
  by inversion Hstep; subst.
Qed.

(** The rule is taken out of the maps, the table and the counter. *)
Lemma del_here sub A o r t s Q (k : Z -> SM Z) :
  hybrid strict sub A s -> A !! o = Some r -> (forall s', hybrid strict sub (delete o A) s' -> wp (k 0) Q s') ->
  wp ('(ret, new) ← in_maps (ipa_nat_map_del (orig2new_map (maps_of sub)) o);
      if truthy ret then mret ret else
      in_maps (ipa_nat_map_del (new2orig_map (maps_of sub)) new) ;;
      ret ← _smDelRuleFromTbl t (RuleHdlArgs (tbl_of sub) new); k ret) Q s.
Proof using Type.
  intros Hh Ho HQ. pose proof Hh as [_ (m&f&g&Hpl&Hown) _ Hmov]. destruct (place_bounds _ _ _ _ _ _ _ _ _ Hpl) as (Hb&He&Hm).
  pose proof (counter_small _ _ _ _ _ _ _ _ _ Hpl) as Hsmall.
  pose proof Hpl as [Hst (c&Hc&Hc1) Hf Hg Hok Htot]. destruct (handles_find _ _ _ Hb He Hm _ _ _ _ Hok o r Ho) as (i&Hfo&Hgi&Hmi&_&Hidx).
  apply wp_bind, (wp_map_del _ f s Hf _ (hdl sub i)); [done|]. change (truthy 0) with false. cbn iota. set (s1 := with_map _ s _).
  assert (Hg1 : zget (map_array s1) (new2orig_map (maps_of sub)) = Some g).
  { unfold s1. rewrite (with_map_other _ f s Hf); [exact Hg|by destruct sub]. }
  apply wp_bind, (wp_map_del _ g s1 Hg1 _ o); [done|]. set (s2 := with_map _ s1 _). rewrite <- Hidx in Hmi.
  destruct (table_del sub m (sm_nat s2) c (hdl sub i) r Hst Hc Hc1 Hmi) as (n&Hrun&Hfr&Hcnt&Hst').
  unfold _smDelRuleFromTbl. apply wp_bind, wp_bind, (wp_nat _ _ _ _ _ Hrun), wp_gets. cbn [Z.eqb]. set (s3 := s2 <| sm_nat := n |>).
  assert (Hlen : length (map_array s3) = length (map_array s)) by exact (eq_trans (with_map_length _ s1 _) (with_map_length _ s _)).
  assert (Hsub : CHOOSE_MEM_SUB (nati_obj s3) = sub) by exact (hybrid_sub _ _ _ _ Hh). rewrite Hsub.
  unfold set_counter, upd_obj. apply wp_bind, (wp_run _ _ _ tt _ eq_refl), wp_ret. set (s4 := s3 <| nati_obj ::= _ |>). apply HQ.
  assert (Hsz : size A <> 0%nat) by (intros Hz%map_size_empty_inv; by rewrite Hz in Ho).
  apply (hybrid_moved strict strict sub A (delete o A) (delete (handle_index (base sub) (hdl sub i)) m) (delete o f) (delete (hdl sub i) g) s s4 Hh).
  - unfold fixed. change (map_array s4) with (map_array s3). by rewrite Hlen.
  - rewrite <- (part_frame (other sub) s n ltac:(by destruct sub)). unfold part. f_equal; [f_equal; [f_equal|]|by destruct sub].
    + change (map_array s4) with (map_array s2). unfold s2. rewrite (with_map_other _ g s1 Hg1) by (by destruct sub).
      unfold s1. by rewrite (with_map_other _ f s Hf) by (by destruct sub).
    + change (map_array s4) with (map_array s2). unfold s2. rewrite (with_map_other _ g s1 Hg1) by (by destruct sub).
      unfold s1. by rewrite (with_map_other _ f s Hf) by (by destruct sub).
  - split; [exact Hst'|exact Hcnt| | |by apply (handles_delete _ _ _ Hb He Hm)|].
    + change (map_array s4) with (map_array s2). unfold s2. rewrite (with_map_other _ g s1 Hg1) by (by destruct sub). exact (with_map_same _ f s Hf _).
    + exact (with_map_same _ g s1 Hg1 _).
    + rewrite (map_size_delete_Some o A) by (by exists r). etransitivity; [apply (counter_sub sub _ _ Htot); lia|lia].
  - intros Hstr o' h' [_ Hx]%lookup_delete_Some. by apply (Hown Hstr).
  - intros o' r' [_ Hx]%lookup_delete_Some. by apply (Hmov o').
Qed.

(** Whether the rules go back to the chip. *)
Definition goes_back (sub : mem_sub) A : bool := negb (is_sram sub) && (Z.of_nat (size A) <=? thresh) && negb hold.
Definition place_after (sub : mem_sub) A : mem_sub := if goes_back sub A then SRAM_SUB else sub.
Definition strict_after (sub : mem_sub) A : bool := strict && negb (goes_back sub A).

Lemma del_callback_run sm sub A o r t s Q :
  thresh <= expn SRAM_SUB -> hybrid strict sub A s -> A !! o = Some r ->
  (forall s', hybrid (strict_after sub (delete o A)) (place_after sub (delete o A)) (delete o A) s' -> Q 0 s') ->
  wp (_smDelRuleHybrid (statemach_body (statemach_body sm)) t (RuleHdlArgs client_tbl o)) Q s.
Proof using Type.
  intros Hth Hh Ho HQ. unfold _smDelRuleHybrid. apply wp_gets. rewrite (hybrid_maps _ _ _ _ Hh), (hybrid_table _ _ _ _ Hh).
  apply (del_here sub A o r t s Q _ Hh Ho). intros s1 Hh1. apply wp_gets. cbn [Z.eqb andb].
  rewrite (hybrid_curr _ _ _ _ Hh1). unfold CHOOSE_CNTR. rewrite (hybrid_sub _ _ _ _ Hh1).
  pose proof Hh1 as [[_ _ Hhold _ Hthr _ _ _] (m&f&g&Hpl&_) _ _]. rewrite (pl_total _ _ _ _ _ _ _ _ _ Hpl), Hthr, Hhold.
  replace (bool_decide (state_of sub = NATI_STATE_HYBRID_DDR)) with (negb (is_sram sub)) by (by destruct sub).
  fold (goes_back sub (delete o A)). unfold place_after, strict_after in HQ. destruct (goes_back sub (delete o A)) eqn:Hback.
  - assert (sub = DDR_SUB /\ Z.of_nat (size (delete o A)) <= thresh) as [-> Hsz].
    { unfold goes_back in Hback. apply andb_true_iff in Hback as [Hback _]. apply andb_true_iff in Hback as [Hs Hl]. apply Z.leb_le in Hl. by destruct sub. }
    apply wp_bind, (switch_trigger_run pd base expn thresh hold strict sm DDR_SUB (delete o A) s1 _ Hh1); [cbn [other]; lia|].
    intros s2 Hh2. cbn [Z.eqb]. unfold SET_NATIOBJ_STATE, upd_obj. apply wp_bind, (wp_run _ _ _ tt _ eq_refl), wp_ret, HQ.
    exact (hybrid_enter pd base expn thresh hold _ SRAM_SUB SRAM_SUB _ _ s2 Hh2).
  - apply wp_ret, HQ. by rewrite andb_true_r.
Qed.

(** *** The trigger *)

Lemma trigger_run sm t args st st' sub sub' A A' s (P : sm_state -> Prop) :
  hybrid st sub A s ->
  (forall s, hybrid st sub A s -> wp (_state_mach_tbl sm (state_of sub) t t args) (fun _ s2 => hybrid st' sub' A' s2 /\ forall k, P (later_by k s2)) s) ->
  wp (statemach_body sm t args) (fun r s' => r = 0 /\ hybrid st' sub' A' s' /\ P s') s.
Proof using Type.
  intros Hh Hcb. apply (wp_body sm t args (fun s' => hybrid st' sub' A' s' /\ P s') s (hybrid_ready _ _ _ _ _ _ _ _ _ _ Hh)).
  intros j. rewrite (hybrid_curr _ _ _ _ Hh). eapply wp_mono; [apply (Hcb (later_by j s)), hybrid_later, Hh|].
  intros r s2 [Hh2 HP]. split; [by eapply hybrid_ready|]. intros k. split; [by apply hybrid_later|done].
Qed.

Lemma del_trigger_run sm sub A o r s :
  thresh <= expn SRAM_SUB -> hybrid strict sub A s -> A !! o = Some r ->
  wp (statemach_body (statemach_body (statemach_body sm)) NATI_TRIG_DEL_RULE (RuleHdlArgs client_tbl o))
    (fun ret s' => ret = 0 /\ hybrid (strict_after sub (delete o A)) (place_after sub (delete o A)) (delete o A) s') s.
Proof using Type.
  intros Hth Hh Ho. eapply wp_mono; [apply (trigger_run _ _ _ strict (strict_after sub (delete o A)) sub (place_after sub (delete o A)) A (delete o A) s (fun _ => True) Hh)|].
  - intros s1 Hh1. replace (_state_mach_tbl _ _ _ _) with (_smDelRuleHybrid (statemach_body (statemach_body sm)) NATI_TRIG_DEL_RULE) by (by destruct sub).
    apply (del_callback_run sm sub A o r _ _ _ Hth Hh1 Ho). by intros s' Hs'.
  - by intros ret s' (->&Hs'&_).
Qed.

(** ** Additions *)

(** The rule of the client, as the machine passes it on. *)
Definition reset_rule (u : ipa_nat_ipv4_rule) : ipa_nat_ipv4_rule := u <| u_redirect := 0 |> <| u_enable := 0 |> <| u_time_stamp := 0 |>.

Lemma valid_tbl_of sub : VALID_TBL_HDL (tbl_of sub) = true.
Proof using Type. by destruct sub. Qed.

(** The addition to the table in use: a record that has no handles yet, or
    nothing. *)
Lemma add_table_run st sub A u t s Q :
  hybrid st sub A s -> 0 <= u_pdn_index u ->
  (forall m f g i r s', (st = true -> own sub f) -> refused pd (reset_rule u) = false -> stored_rule pd (reset_rule u) = Some r ->
    added pd base expn sub m f g A i r s' -> 2 <= base sub <= 4096 -> 0 < expn sub <= 4096 ->
    part (other sub) s' = part (other sub) s -> fixed s' = fixed s -> rule_hdl_cell (cells s') = hdl sub i -> Q 0 s') ->
  (forall ret s', ret <> 0 -> refused pd (reset_rule u) = true \/ expn sub <= Z.of_nat (size A) ->
    hybrid st sub A s' -> rule_hdl_cell (cells s') = 0 -> Q ret s') ->
  wp (_smAddRuleToTbl t (RuleArgs (tbl_of sub) u)) Q s.
Proof using Type.
  intros Hh Hu Hyes Hno. pose proof Hh as [_ (m&f&g&Hpl&Hown) _ Hmov]. destruct (place_bounds _ _ _ _ _ _ _ _ _ Hpl) as (Hb&He&Hm).
  pose proof (counter_small _ _ _ _ _ _ _ _ _ Hpl) as Hsmall. pose proof Hpl as [_ _ Hf Hg Hok Htot].
  destruct (table_add pd base expn sub m f g A s (reset_rule u) Hpl Hu) as (res&n&Hrun&Hfr&Hcnt&Hres).
  unfold _smAddRuleToTbl. fold (reset_rule u). apply wp_bind, (wp_nat _ _ _ _ _ Hrun). set (s1 := s <| sm_nat := n |>).
  assert (Hp1 : part (other sub) s1 = part (other sub) s) by exact (part_frame (other sub) s n ltac:(by destruct sub)).
  destruct Hres as [i r Href Hr Hfree Hi Hst|ret Hret Hwhy Hst]; rewrite (valid_tbl_of sub); unfold upd_cells; apply wp_modify;
    set (s2 := s1 <| cells ::= _ |>); apply wp_gets.
  - cbn [Z.eqb]. assert (Hsub : CHOOSE_MEM_SUB (nati_obj s2) = sub) by exact (hybrid_sub _ _ _ _ Hh). rewrite Hsub.
    unfold set_counter, upd_obj. apply wp_modify, wp_ret. set (s3 := s2 <| nati_obj ::= _ |>).
    apply (Hyes m f g i r s3 Hown Href Hr); [|done|done|rewrite <- Hp1; unfold part; f_equal; by destruct sub|done|done].
    split; [exact Hst|exact Hcnt|exact Hf|exact Hg|exact Hok|done|]. apply (counter_add sub _ _ Htot). lia.
  - replace (ret =? 0) with false by (symmetry; by apply Z.eqb_neq). apply wp_ret, wp_ret || (apply wp_bind, wp_ret, wp_ret).
    apply (Hno ret s2 Hret Hwhy); [|done].
    apply (hybrid_moved st st sub A A m f g s s2 Hh); [done|exact Hp1| |exact Hown|exact Hmov].
    by split; [exact Hst|exact Hcnt|..].
Qed.

(** The handle of a free index is new to the client as well. *)
Lemma own_fresh sub m f g A i :
  handles_ok (mem_of sub) (base sub) (expn sub) m f g A -> 2 <= base sub <= 4096 -> 0 < expn sub <= 4096 -> own sub f ->
  m !! i = None -> 0 < i < base sub + expn sub -> A !! hdl sub i = None.
Proof using Type.
  intros Hok Hb He Hown Hi Hr. assert (Hm : mem_of sub = 0 \/ mem_of sub = 1) by (by destruct sub; [left|right]).
  pose proof (handles_free _ _ _ Hb He Hm _ _ _ _ Hok i Hi Hr) as Hg.
  destruct (A !! hdl sub i) as [r|] eqn:HA; [|done]. destruct (ho_dom _ _ _ _ _ _ _ Hok _ _ HA) as [h Hf].
  destruct (Hown _ _ Hf) as [<-|[-> Hs]].
  - apply (ho_inverse _ _ _ _ _ _ _ Hok) in Hf. congruence.
  - pose proof (is_handle_memory _ _ _ Hb He Hm (hdl DDR_SUB i) ltac:(by exists i)) as Hmem. unfold sram_handle in Hs. by rewrite Hs in Hmem.
Qed.

(** The tables are switched only when the one on the chip is full or the rule is
    refused, and only without a hold. *)
Inductive switched (sub : mem_sub) A u : mem_sub -> Prop :=
| sw_stays : switched sub A u sub
| sw_leaves : sub = SRAM_SUB -> hold = false ->
    refused pd (reset_rule u) = true \/ expn SRAM_SUB <= Z.of_nat (size A) -> switched sub A u DDR_SUB.

(** What an addition comes to: the handle that the client reads, the memory in
    use and the rules. *)
Inductive hybrid_added (sub : mem_sub) A u : Z -> mem_sub -> gmap Z ipa_nat_rule -> Prop :=
| ha_stored h r sub' :
    refused pd (reset_rule u) = false -> stored_rule pd (reset_rule u) = Some r -> h <> 0 -> A !! h = None ->
    switched sub A u sub' -> hybrid_added sub A u h sub' (<[h := r]> A)
| ha_not sub' :
    refused pd (reset_rule u) = true \/ expn sub' <= Z.of_nat (size A) -> sub' = DDR_SUB \/ hold = true ->
    switched sub A u sub' -> hybrid_added sub A u 0 sub' A.

(** A rule that found a place gets its handles. *)
Lemma add_stored sub m f g A u i r s s' Q :
  hybrid true sub A s -> 0 <= u_pdn_index u -> own sub f -> refused pd (reset_rule u) = false -> stored_rule pd (reset_rule u) = Some r ->
  added pd base expn sub m f g A i r s' -> 2 <= base sub <= 4096 -> 0 < expn sub <= 4096 ->
  part (other sub) s' = part (other sub) s -> fixed s' = fixed s -> rule_hdl_cell (cells s') = hdl sub i ->
  (forall s2, hybrid true sub (<[hdl sub i := r]> A) s2 -> hdl sub i <> 0 -> A !! hdl sub i = None -> rule_hdl_cell (cells s2) = hdl sub i -> Q 0 s2) ->
  wp (ret ← in_maps (ipa_nat_map_add (orig2new_map (maps_of sub)) (hdl sub i) (hdl sub i));
      if ret =? 0 then in_maps (ipa_nat_map_add (new2orig_map (maps_of sub)) (hdl sub i) (hdl sub i)) else mret ret) Q s'.
Proof using Type.
  intros Hh Hu Hown Href Hr Had Hb He Hp Hx Hcell HQ. pose proof Had as [Hst _ _ _ Hok [Hfree Hi] _].
  pose proof (own_fresh sub m f g A i Hok Hb He Hown Hfree Hi) as Hnew.
  apply wp_bind. eapply wp_mono; [apply (added_maps pd base expn sub m f g A i r (hdl sub i) s' (fun s2 => hybrid true sub (<[hdl sub i := r]> A) s2 /\
    rule_hdl_cell (cells s2) = hdl sub i) Had Hb He Hnew)|].
  - intros s2 Hpl Hp2 Hx2 Hc2. split; [|by rewrite Hc2].
    apply (hybrid_moved true true sub A (<[hdl sub i := r]> A) _ _ _ s s2 Hh (eq_trans Hx2 Hx) (eq_trans Hp2 Hp) Hpl).
    + intros _ o h [[-> <-]|[_ Hf]]%lookup_insert_Some; [by left|by apply Hown].
    + intros o r' [[_ <-]|[_ Ho]]%lookup_insert_Some; [|by apply (hy_movable _ _ _ _ _ _ _ _ _ _ Hh o)].
      apply (stored_movable pd (reset_rule u)); [apply (so_pdns _ _ _ _ _ _ Hst)|done|exact Hu|done].
  - intros ret s2 [-> Hs2]. cbn [Z.eqb]. eapply wp_mono; [exact Hs2|]. intros ret s3 (->&Hh3&Hc3). apply HQ; [done| |done|done].
    apply not_eq_sym, Z.lt_neq, (entry_hdl_pos (mem_of sub) (base sub) (expn sub)); [done|done|by destruct sub; [left|right]|lia].
Qed.

(** The outcome of the machine. *)
Definition add_outcome (sub : mem_sub) A u s : Prop :=
  exists sub' A', hybrid true sub' A' s /\ hybrid_added sub A u (rule_hdl_cell (cells s)) sub' A'.

Lemma add_outcome_later sub A u k s : add_outcome sub A u s -> add_outcome sub A u (later_by k s).
Proof using Type. intros (sub'&A'&Hh&Ha). exists sub', A'. split; [by apply hybrid_later|done]. Qed.

(** An addition that does not switch the tables. *)
Lemma add_here sm sub A u s Q :
  hybrid true sub A s -> 0 <= u_pdn_index u ->
  (forall ret h r s', refused pd (reset_rule u) = false -> stored_rule pd (reset_rule u) = Some r -> h <> 0 -> A !! h = None ->
     hybrid true sub (<[h := r]> A) s' -> rule_hdl_cell (cells s') = h -> Q ret s') ->
  (forall ret s', ret <> 0 -> refused pd (reset_rule u) = true \/ expn sub <= Z.of_nat (size A) ->
     hybrid true sub A s' -> rule_hdl_cell (cells s') = 0 ->
     wp (if bool_decide (curr_state (nati_obj s') = NATI_STATE_HYBRID) && negb (hold_state (nati_obj s')) then
           ret ← sm NATI_TRIG_TBL_SWITCH NoArgs;
           if truthy ret then mret ret else
           SET_NATIOBJ_STATE NATI_STATE_HYBRID_DDR ;; sm NATI_TRIG_ADD_RULE (RuleArgs client_tbl u)
         else mret ret) Q s') ->
  wp (_smAddRuleHybrid sm NATI_TRIG_ADD_RULE (RuleArgs client_tbl u)) Q s.
Proof using Type.
  intros Hh Hu Hyes Hno. unfold _smAddRuleHybrid. apply wp_gets. rewrite (hybrid_table _ _ _ _ Hh).
  apply wp_bind, (add_table_run true sub A u _ s _ Hh Hu).
  - intros m f g i r s' Hown Href Hr Had Hb He Hp Hx Hcell. apply wp_getM. cbv zeta. cbn [Z.eqb]. rewrite Hcell.
    assert (Hmaps : CHOOSE_MAPS (nati_obj s') = maps_of sub).
    { unfold fixed in Hx. injection Hx as E1 E2 E3 E4 E5 E6 E7 E8 E9 E10 E11. rewrite <- (hybrid_maps _ _ _ _ Hh).
      unfold CHOOSE_MAPS, CHOOSE_MEM_SUB. by rewrite E2, E9. }
    rewrite Hmaps. apply (add_stored sub m f g A u i r s s' Q Hh Hu (Hown eq_refl) Href Hr Had Hb He Hp Hx Hcell).
    intros s2 Hh2 Hpos Hnew Hc2. by apply (Hyes 0 (hdl sub i) r).
  - intros ret s' Hret Hwhy Hh' Hc'. apply wp_getM. cbv zeta. replace (ret =? 0) with false by (symmetry; by apply Z.eqb_neq).
    by apply Hno.
Qed.

(** In external memory no nested run is needed. *)
Lemma add_ddr_run sm A u s :
  hybrid true DDR_SUB A s -> 0 <= u_pdn_index u ->
  wp (_smAddRuleHybrid sm NATI_TRIG_ADD_RULE (RuleArgs client_tbl u)) (fun _ s' => add_outcome DDR_SUB A u s') s.
Proof using Type.
  intros Hh Hu. apply (add_here sm DDR_SUB A u s _ Hh Hu).
  - intros ret h r s' Href Hr Hpos Hnew Hh' Hc. exists DDR_SUB, (<[h := r]> A). split; [done|]. rewrite Hc.
    apply ha_stored; [done..|apply sw_stays].
  - intros ret s' _ Hwhy Hh' Hc. rewrite (hybrid_curr _ _ _ _ Hh'). cbn [state_of]. rewrite bool_decide_eq_false_2 by done.
    apply wp_ret. exists DDR_SUB, A. split; [done|]. rewrite Hc. apply ha_not; [done|by left|apply sw_stays].
Qed.

(** A client's view of an addition after the rules left the chip. *)
Lemma added_after_leaving A u h sub' A' :
  hold = false -> refused pd (reset_rule u) = true \/ expn SRAM_SUB <= Z.of_nat (size A) ->
  hybrid_added DDR_SUB A u h sub' A' -> hybrid_added SRAM_SUB A u h sub' A'.
Proof using Type.
  intros Hhold Hwhy Ha. destruct Ha as [h r sub' Href Hr Hpos Hnew Hsw|sub' Hno Hat Hsw]; inversion Hsw; subst; try done.
  - apply ha_stored; [done..|by apply sw_leaves].
  - apply ha_not; [done|by left|by apply sw_leaves].
Qed.

Lemma add_callback_run sm sub A u s :
  (sub = SRAM_SUB -> Z.of_nat (size A) <= expn DDR_SUB) -> hybrid true sub A s -> 0 <= u_pdn_index u ->
  wp (_smAddRuleHybrid (statemach_body (statemach_body sm)) NATI_TRIG_ADD_RULE (RuleArgs client_tbl u))
    (fun _ s' => add_outcome sub A u s') s.
Proof using Type.
  intros Hroom Hh Hu. destruct sub; [by apply add_ddr_run|]. specialize (Hroom eq_refl).
  apply (add_here _ SRAM_SUB A u s _ Hh Hu).
  - intros ret h r s' Href Hr Hpos Hnew Hh' Hc. exists SRAM_SUB, (<[h := r]> A). split; [done|]. rewrite Hc.
    apply ha_stored; [done..|apply sw_stays].
  - intros ret s' _ Hwhy Hh' Hc. rewrite (hybrid_curr _ _ _ _ Hh'), (ct_hold _ _ _ _ (hy_control _ _ _ _ _ _ _ _ _ _ Hh')).
    rewrite bool_decide_eq_true_2 by done. cbn [andb]. destruct (decide (hold = true)) as [Hhold|Hhold%not_true_is_false].
    { rewrite Hhold. cbn [negb]. apply wp_ret. exists SRAM_SUB, A. split; [done|]. rewrite Hc. apply ha_not; [done|by right|apply sw_stays]. }
    rewrite Hhold. cbn [negb].
    apply wp_bind, (switch_trigger_run pd base expn thresh hold true sm SRAM_SUB A s' _ Hh'); [exact Hroom|].
    intros s2 Hh2. change (truthy 0) with false. cbn iota. unfold SET_NATIOBJ_STATE, upd_obj. apply wp_modify.
    pose proof (hybrid_enter pd base expn thresh hold true DDR_SUB DDR_SUB DDR_SUB A s2 Hh2) as Hh3.
    eapply wp_mono; [apply (wp_body _ _ _ (add_outcome DDR_SUB A u) _ (hybrid_ready _ _ _ _ _ _ _ _ _ _ Hh3))|].
    + intros k. rewrite (hybrid_curr _ _ _ _ Hh3). eapply wp_mono; [apply add_ddr_run; [by apply hybrid_later|done]|].
      intros ret' s4 Hs4. split; [|intros k'; by apply add_outcome_later]. destruct Hs4 as (sub'&A'&Hh4&_). by eapply hybrid_ready.
    + intros ret' s4 (_&sub'&A'&Hh4&Hadd). exists sub', A'. split; [done|]. by apply added_after_leaving.
Qed.

Lemma add_trigger_run sm sub A u s :
  (sub = SRAM_SUB -> Z.of_nat (size A) <= expn DDR_SUB) -> hybrid true sub A s -> 0 <= u_pdn_index u ->
  wp (statemach_body (statemach_body (statemach_body sm)) NATI_TRIG_ADD_RULE (RuleArgs client_tbl u))
    (fun ret s' => ret = 0 /\ add_outcome sub A u s') s.
Proof using Type.
  intros Hroom Hh Hu. apply (wp_body _ _ _ (add_outcome sub A u) s (hybrid_ready _ _ _ _ _ _ _ _ _ _ Hh)).
  intros j. rewrite (hybrid_curr _ _ _ _ Hh).
  replace (_state_mach_tbl _ _ _ _) with (_smAddRuleHybrid (statemach_body (statemach_body sm)) NATI_TRIG_ADD_RULE) by (by destruct sub).
  eapply wp_mono; [apply add_callback_run; [done|by apply hybrid_later|done]|].
  intros ret s2 Hs2. split; [|intros k; by apply add_outcome_later]. destruct Hs2 as (sub'&A'&Hh2&_). by eapply hybrid_ready.
Qed.

Lemma query_trigger_run sm sub A o r s :
  hybrid strict sub A s -> A !! o = Some r ->
  wp (statemach_body sm NATI_TRIG_GET_TSTAMP (RuleHdlArgs client_tbl o))
    (fun ret s' => ret = 0 /\ hybrid strict sub A s' /\ time_stamp_cell (cells s') = time_stamp r) s.
Proof using Type.
  intros Hh Ho. apply (trigger_run _ _ _ strict strict sub sub A A s (fun s' => time_stamp_cell (cells s') = time_stamp r) Hh).
  intros s1 Hh1. replace (_state_mach_tbl _ _ _ _) with (_smGetTmStmpHybrid NATI_TRIG_GET_TSTAMP) by (by destruct sub).
  by apply (query_run sub A o r _ s1 _ Hh1 Ho).
Qed.

(** ** The switch that a client asks for *)

(** What the other fields of the machine depend on. *)
Definition unheld (o : ipa_nati_obj) : ipa_nati_obj := o <| hold_state := false |> <| state_to_hold := NATI_STATE_NULL |>.

Lemma hybrid_hold st h hold' sub A s (F : ipa_nati_obj -> ipa_nati_obj) :
  (forall o, unheld (F o) = unheld o) -> hold_state (F (nati_obj s)) = hold' ->
  hybrid_at pd base expn thresh h st sub sub A s -> hybrid_at pd base expn thresh hold' st sub sub A (s <| nati_obj ::= F |>).
Proof using Type.
  intros HF Hnew [[C1 C2 C3 [C4 C4'] C5 C6 C7 C8] (m&g1&g2&Hpl&Hown) (mo&Ho) Hmov]. set (s' := s <| nati_obj ::= F |>).
  assert (Hobj : unheld (nati_obj s') = unheld (nati_obj s)) by apply HF.
  unfold unheld in Hobj. injection Hobj as E1 E2 E3 E4 E5 E6 E7 E8 E9.
  assert (Hp : forall k, part k s' = part k s) by (intros k; unfold part; change (nati_obj s') with (F (nati_obj s)); by rewrite E7).
  split; [| | |done].
  - split; change (nati_obj s') with (F (nati_obj s)); [congruence|congruence|exact Hnew|split; congruence|congruence|congruence|done|done].
  - exists m, g1, g2. split; [|done]. exact (place_part _ _ _ _ _ _ _ _ s s' (Hp sub) Hpl).
  - exists mo. exact (store_part pd base expn (other sub) mo s s' (Hp _) Ho).
Qed.

Lemma hold_run st h (hold' : bool) sub A s :
  hybrid_at pd base expn thresh h st sub sub A s ->
  wp ((upd_obj (fun o => o <| hold_state := hold' |>) ;;
       if hold' then upd_obj (fun o => o <| state_to_hold := GEN_HOLD_STATE o |>) else mret tt) ;; mret 0)
    (fun _ s' => hybrid_at pd base expn thresh hold' st sub sub A s') s.
Proof using Type.
  intros Hh. unfold upd_obj. apply wp_bind, wp_modify. set (s1 := s <| nati_obj ::= _ |>).
  pose proof (hybrid_hold st h hold' sub A s (fun o => o <| hold_state := hold' |>) ltac:(done) eq_refl Hh) as Hh1. fold s1 in Hh1.
  destruct hold'; [|by apply (wp_run _ _ _ tt s1 eq_refl), wp_ret].
  apply (wp_run _ _ _ tt _ eq_refl), wp_ret.
  exact (hybrid_hold st true true sub A s1 (fun o => o <| state_to_hold := GEN_HOLD_STATE o |>) ltac:(done) eq_refl Hh1).
Qed.

(** The memory is chosen and held, or released: also what the client asked for
    last time is forgotten. *)
Definition switched_to (hold' : bool) (src dst : mem_sub) A s : Prop :=
  exists strict', hybrid_at pd base expn thresh hold' strict' dst dst A s /\ (src = dst \/ src = SRAM_SUB -> strict' = strict).

Lemma switch_to_run hold' src dst A s :
  (src <> dst -> Z.of_nat (size A) <= expn dst) -> hybrid strict src A s ->
  wp (ipa_nat_switch_to (mem_of dst) hold') (fun ret s' => ret = 0 /\ switched_to hold' src dst A s') s.
Proof using Type.
  intros Hroom Hh. unfold ipa_nat_switch_to, take_mutex, give_mutex, pthread_mutex_lock, pthread_mutex_unlock.
  replace (negb _) with false by (by destruct dst). destruct (hybrid_ready _ _ _ _ _ _ _ _ _ _ Hh) as (Hmut&Hnf&_).
  apply wp_bind, wp_getM. rewrite Hmut. apply wp_call; [done|]. change (truthy 0) with false. cbn iota.
  pose proof (hybrid_later _ _ _ _ _ _ _ _ _ 1 _ Hh) as Hh1. set (s1 := later_by 1 s) in *. clearbody s1.
  unfold switch_to_locked. apply wp_bind, wp_gets.
  pose proof (hy_control _ _ _ _ _ _ _ _ _ _ Hh1) as [C1 C2 C3 _ _ _ _ _]. unfold IN_UNSTARTED_STATE.
  rewrite bool_decide_eq_false_2 by done. replace (IN_HYBRID_STATE (nati_obj s1)) with true
    by (unfold IN_HYBRID_STATE; rewrite C1; by destruct src).
  eapply (wp_mono _ (fun _ => switched_to hold' src dst A)).
  - destruct (decide (src = dst)) as [->|Hne].
    + replace (COMPATIBLE_NMI_4SWITCH _ _) with false by (unfold COMPATIBLE_NMI_4SWITCH; rewrite C1; by destruct dst).
      apply wp_bind, wp_ret. cbn [Z.eqb]. eapply wp_mono; [by apply (hold_run strict hold)|]. intros x s2 Hs2. by exists strict.
    + assert (dst = other src) as -> by (by destruct src, dst).
      replace (COMPATIBLE_NMI_4SWITCH _ _) with true by (unfold COMPATIBLE_NMI_4SWITCH; rewrite C1; by destruct src).
      apply wp_bind. rewrite three_runs.
      apply (switch_trigger_run pd base expn thresh hold strict _ src A s1 _ Hh1 (Hroom Hne)).
      intros s2 Hh2. cbn [Z.eqb]. eapply wp_mono; [apply (hold_run _ hold hold' _ A s2 Hh2)|].
      intros x s3 Hs3. exists (strict && is_sram src). split; [exact Hs3|]. intros [? | ->]; [done|by destruct strict].
  - intros ret s2 (st&Hh2&Hst). destruct (hybrid_ready _ _ _ _ _ _ _ _ _ _ Hh2) as (Hm2&Hnf2&_).
    apply wp_getM. rewrite Hm2. apply wp_call; [done|]. split; [done|]. exists st. split; [by apply hybrid_later|done].
Qed.

End Ops.
