(* ===== verification/IpaHybridMake.v ===== *)
(** * Creating the tables of both memories

    The first creation of a "hybrid" table with more entries than the memory on
    the chip has room for: one table in each memory, both empty, and the one on
    the chip in use. *)

From stdpp Require Import gmap strings.
From S2P Require Import Prelude IpaChain IpaTable IpaTableSpec IpaSystem IpaStoreSpec IpaNat IpaNatSpec IpaRules IpaDelete IpaSize IpaCreate IpaHandles IpaStore IpaWalk IpaLife IpaFrame IpaStateMach IpaStateSpec IpaHybrid IpaHybridOps.

Local Open Scope Z_scope.

(** ** The first run of the machine *)

Lemma wp_take Q s :
  no_failures (sys (sm_nat s)) -> (forall j, Q 0 (later_by j s <| nat_mutex_init := true |>)) -> wp take_mutex Q s.
Proof.
  intros Hnf HQ. unfold take_mutex, mutex_init, pthread_mutex_lock. apply wp_getM. destruct (nat_mutex_init s) eqn:Hm.
  - apply wp_call; [done|]. replace (later_by 1 s) with (later_by 1 s <| nat_mutex_init := true |>); [apply HQ|].
    destruct s. cbn in Hm. by subst.
  - do 3 (apply wp_bind, wp_bind || apply wp_bind; apply wp_call; [done|]; change (truthy 0) with false; cbn iota).
    apply wp_modify, wp_ret. cbn [Z.eqb]. apply wp_call; [done|]. apply (HQ 4%nat).
Qed.

(** Without a vote for the clock the state of the devices does not matter; the
    mutex is made when it is not there yet. *)
Lemma wp_first_body sm t args Q s :
  VOTE_REQUIRED (nati_obj s) t = false -> no_failures (sys (sm_nat s)) ->
  (forall j, wp (_state_mach_tbl sm (curr_state (nati_obj s)) t t args) (fun _ s2 => ready s2 /\ forall k, Q (later_by k s2))
    (later_by j s <| nat_mutex_init := true |>)) ->
  wp (statemach_body sm t args) (fun r s' => r = 0 /\ Q s') s.
Proof.
  intros Hv Hnf Hcb. unfold statemach_body, give_mutex, pthread_mutex_unlock. apply wp_bind, (wp_take _ s Hnf). intros j.
  change (truthy 0) with false. cbn iota. apply wp_gets. cbv zeta. replace (VOTE_REQUIRED _ t) with false by (by rewrite <- Hv).
  apply wp_bind, wp_ret. change (truthy 0) with false. cbn iota. apply wp_bind, wp_gets, wp_bind.
  eapply wp_mono; [apply (Hcb j)|]. intros r s2 [(Hm&Hn&_) HQ]. apply wp_bind, wp_ret, wp_ret, wp_getM. rewrite Hm.
  apply wp_call; [done|]. split; [done|]. apply HQ.
Qed.

(** ** The memory on the chip *)

(** Nothing but the device of the memory on the chip may have changed. *)
Record opened (n n' : nat_state) : Prop := {
  op_sys : sys n' = sys n;
  op_pdns : pdns n' = pdns n;
  op_unused : forall mt, unused_cache mt n -> unused_cache mt n';
  op_open : exists c d, zget (ipv4_nat_cache n') IPA_NAT_MEM_IN_SRAM = Some c /\ ipa_desc c = Some d;
}.

Lemma ensure_opened n :
  no_failures (sys n) -> unused_cache IPA_NAT_MEM_IN_SRAM n ->
  exists n', ensure_desc IPA_NAT_MEM_IN_SRAM n = Done (true, n') /\ opened n n'.
Proof.
  intros Hs (c&T&Hc&Hcnt&HT). destruct (ensure_desc_open IPA_NAT_MEM_IN_SRAM c n Hs Hc) as (d&j&Hrun).
  eexists. split; [exact Hrun|]. set (c' := c <| ipa_desc := Some d |>) in *. pose proof (zget_Some _ _ _ Hc) as Hr.
  split; [done|done| |].
  - intros mt (c0&T0&Hc0&Hcnt0&HT0). destruct (decide (mt = IPA_NAT_MEM_IN_SRAM)) as [->|Hne].
    + exists c', T. split; [exact (cache_upd IPA_NAT_MEM_IN_SRAM c c' n Hc)|done].
    + exists c0, T0. split; [|done]. cbn. rewrite zget_insert_ne by (lia || done). done.
  - exists c', d. split; [exact (cache_upd IPA_NAT_MEM_IN_SRAM c c' n Hc)|done].
Qed.

Lemma sram_size_run n :
  no_failures (sys n) -> unused_cache IPA_NAT_MEM_IN_SRAM n -> sram_mem_available_for_nat (sys n) <> 0 ->
  exists n', ipa_nati_get_sram_size n = Done ((0, sram_mem_available_for_nat (sys n)), n') /\ opened n n'.
Proof.
  intros Hs Hu Hsize. unfold ipa_nati_get_sram_size, pthread_mutex_lock, pthread_mutex_unlock.
  rewrite call_then by done. change (truthy 0) with false. cbn iota.
  destruct (ensure_opened (ticks 1 n)) as (n1&Hrun&[Ho1 Ho2 Ho3 Ho4]); [exact Hs|exact Hu|].
  assert (Hs1 : sys n1 = sys n) by exact Ho1.
  exists (ticks 2 n1). split; [|by split]. 
  rewrite (bind_run _ _ _ (0, sram_mem_available_for_nat (sys n)) (ticks 1 n1)).
  - rewrite call_then by (by cbn; rewrite Hs1). change (truthy 0) with false. cbn iota. by rewrite ticks_ticks.
  - rewrite (bind_run _ _ _ _ _ Hrun). cbn [negb]. rewrite call_then by (by cbn; rewrite Hs1). change (truthy 0) with false. cbn iota.
    rewrite getM_run. cbv zeta. change (sys (ticks 1 n1)) with (sys n1). rewrite Hs1.
    replace (_ =? 0) with false by (symmetry; by apply Z.eqb_neq). done.
Qed.

(** ** One table in each memory *)

(** An empty table in a memory. *)
Definition empty_table (mt b e : Z) (n : nat_state) : Prop :=
  (exists T, at_table mt 0 n T /\ tables_ok mt T ∅ /\ table_entries (table T) = b /\ expn_table_entries (table T) = e) /\ table_count mt n 1.

Lemma empty_table_same mt b e n n' :
  zget (ipv4_nat_cache n') mt = zget (ipv4_nat_cache n) mt -> empty_table mt b e n -> empty_table mt b e n'.
Proof. intros Hc [(T&(c&d&Hz&Hd&HT)&Hok) (c'&Hc'&Hcnt)]. split; [exists T; split; [exists c, d; by rewrite Hc|done]|exists c'; by rewrite Hc]. Qed.

Lemma empty_table_store mt pd b e n :
  mt = IPA_NAT_MEM_IN_DDR \/ mt = IPA_NAT_MEM_IN_SRAM -> pdns n = pd -> zlen pd = IPA_MAX_PDN_NUM ->
  no_failures (sys n) -> documented_dma (sys n) -> empty_table mt b e n -> store_ok mt pd b e n ∅.
Proof. intros Hm Hp Hl Hs Hd [HT _]. by split. Qed.

Lemma first_network_twice pub l : first_network pub (first_network pub l) = first_network pub l.
Proof. by destruct l. Qed.

Lemma zlen_first_network pub l : zlen (first_network pub l) = zlen l.
Proof. by destruct l. Qed.

(** What the memories have room for: [k] entries in external memory, [slots] on
    the chip. *)
Record memories (S : ipa_system) (k slots : Z) (base expn : mem_sub -> Z) : Prop := {
  me_sys : no_failures S /\ documented_dma S;
  me_offset : table_offset S = 0;
  me_free : sram_mem_available_for_nat S <> 0;
  me_slots : ipa_calc_num_sram_table_entries (sram_mem_available_for_nat S) sizeof_ipa_nat_rule sizeof_ipa_nat_indx_tbl_rule = Some (0, slots);
  me_entries : slots < k <= IPA_TABLE_MAX_ENTRIES;
  me_sizes : forall sub, table_sizes (mem_of sub) (match sub with DDR_SUB => k | SRAM_SUB => slots end) = Some (base sub, expn sub);
  me_room : forall sub, zlen (mmap_mem S (mem_of sub)).1 = base sub + expn sub /\ zlen (mmap_mem S (mem_of sub)).2 = base sub + expn sub;
}.

Section Make.
Context (S : ipa_system) (k slots pub : Z) (base expn : mem_sub -> Z) (HS : memories S k slots base expn).

Lemma slots_word : is_word 16 slots.
Proof using HS. exact (calc_slots_word _ _ _ _ _ (me_slots _ _ _ _ _ HS)). Qed.

Lemma make_table sub n :
  sys n = S -> zlen (pdns n) = IPA_MAX_PDN_NUM -> unused_cache (mem_of sub) n ->
  exists n', ipa_NATI_add_ipv4_tbl (mem_of sub) pub (match sub with DDR_SUB => k | SRAM_SUB => slots end) n = Done ((0, tbl_of sub), n') /\
    empty_table (mem_of sub) (base sub) (expn sub) n' /\ sys n' = S /\ pdns n' = first_network pub (pdns n) /\
    zget (ipv4_nat_cache n') (mem_of (other sub)) = zget (ipv4_nat_cache n) (mem_of (other sub)).
Proof using HS.
  intros HnS Hp Hu. destruct HS as [[Hs Hd] Hoff Hfree Hcalc Hk Hsz Hmem]. pose proof slots_word as Hw. unfold is_word in Hw.
  destruct (add_tbl_run (mem_of sub) n pub (match sub with DDR_SUB => k | SRAM_SUB => slots end) (base sub) (expn sub))
    as (n'&T&Hrun&Hat&Hok&Hb&He&Hsys&Hpdns&Hcnt); [apply mem_of_cases|done|by rewrite HnS|apply Hsz| |by rewrite HnS; apply Hmem|by rewrite HnS| |].
  - apply (sizes_good (mem_of sub) (match sub with DDR_SUB => k | SRAM_SUB => slots end)); [apply mem_of_cases|destruct sub; lia|apply Hsz].
  - intros Hnil. by rewrite Hnil in Hp.
  - exists n'. split; [exact Hrun|]. split; [split; [by exists T|done]|]. split; [congruence|]. split; [done|].
    exact (tbl_NATI_add _ _ (other_free _) (other_upd _) _ _ _ _ _ Hrun _ (mem_of_other sub)).
Qed.

(** *** The callbacks *)

Lemma store_low16_word old x : is_word 16 old -> store_low16 old x = x.
Proof using Type.
  intros Ho. unfold store_low16. rewrite Z.shiftr_div_pow2 by lia. unfold is_word in Ho. rewrite Z.div_small by lia. done.
Qed.

Lemma make_ddr_run t c str s (Q : Z -> sm_state -> Prop) :
  sys (sm_nat s) = S -> zlen (pdns (sm_nat s)) = IPA_MAX_PDN_NUM -> unused_cache IPA_NAT_MEM_IN_DDR (sm_nat s) -> c = false ->
  (forall n, empty_table (mem_of DDR_SUB) (base DDR_SUB) (expn DDR_SUB) n -> sys n = S -> pdns n = first_network pub (pdns (sm_nat s)) ->
    zget (ipv4_nat_cache n) IPA_NAT_MEM_IN_SRAM = zget (ipv4_nat_cache (sm_nat s)) IPA_NAT_MEM_IN_SRAM ->
    Q 0 (s <| sm_nat := n |> <| nati_obj ::= fun o => o <| ddr_tbl_hdl := tbl_of DDR_SUB |> |>)) ->
  wp (_smAddDdrTbl t (TableArgs pub k c str)) Q s.
Proof using HS.
  intros HsS Hp Hu -> HQ. destruct (make_table DDR_SUB (sm_nat s) HsS Hp Hu) as (n&Hrun&Hemp&Hn&Hpn&Hoth).
  unfold _smAddDdrTbl. apply wp_bind, (wp_nat _ _ _ _ _ Hrun). unfold upd_obj. apply wp_modify. cbn [Z.eqb andb]. apply wp_bind, wp_ret, wp_ret.
  by apply HQ.
Qed.

Lemma make_sram_run t str s (Q : Z -> sm_state -> Prop) :
  sys (sm_nat s) = S -> zlen (pdns (sm_nat s)) = IPA_MAX_PDN_NUM -> (forall sub, unused_cache (mem_of sub) (sm_nat s)) ->
  is_word 16 (tot_slots_in_sram (nati_obj s)) -> nat_mutex_init s = true ->
  (forall n, empty_table (mem_of SRAM_SUB) (base SRAM_SUB) (expn SRAM_SUB) n -> sys n = S -> pdns n = first_network pub (pdns (sm_nat s)) ->
    unused_cache IPA_NAT_MEM_IN_DDR n ->
    Q 0 (s <| sm_nat := n |> <| nati_obj ::= fun o => o <| tot_slots_in_sram := slots |> <| back_to_sram_thresh := PRCNT_OF slots |>
      <| sram_tbl_hdl := tbl_of SRAM_SUB |> |> <| cells ::= fun c => c <| tbl_hdl_cell := tbl_of SRAM_SUB |> |>)) ->
  wp (_smAddSramTbl t (TableArgs pub k true str)) Q s.
Proof using HS.
  intros HsS Hp Hu Hold Hm HQ. destruct (me_sys _ _ _ _ _ HS) as [Hs _].
  destruct (sram_size_run (sm_nat s)) as (n1&Hsize&[O1 O2 O3 O4]); [by rewrite HsS|apply (Hu SRAM_SUB)|rewrite HsS; apply HS|].
  unfold _smAddSramTbl. apply wp_bind, (wp_nat _ _ _ _ _ Hsize). change (truthy 0) with false. cbn iota. rewrite HsS.
  apply (wp_liftO _ _ _ _ _ _ (me_slots _ _ _ _ _ HS)). unfold upd_obj. apply wp_modify. change (truthy 0) with false. cbn iota.
  apply wp_modify. set (s2 := _ <| nati_obj ::= _ |>). assert (Hr2 : ready s2).
  { split; [exact Hm|]. split; [change (no_failures (sys n1)); by rewrite O1, HsS|exact O4]. }
  apply wp_bind, wp_vote; [by left|exact Hr2|]. change (truthy 0) with false. cbn iota. apply wp_gets.
  change (tot_slots_in_sram (nati_obj (later_by 1 s2))) with (store_low16 (tot_slots_in_sram (nati_obj s)) slots).
  rewrite (store_low16_word _ _ Hold). assert (Hw : u16 slots = slots) by (by apply wrap_small, slots_word). rewrite Hw.
  destruct (make_table SRAM_SUB (sm_nat (later_by 1 s2))) as (n3&Hrun&Hemp&Hn&Hpn&Hoth); [by rewrite <- HsS, <- O1|by rewrite <- Hp, <- O2|apply (O3 _ (Hu SRAM_SUB))|].
  apply wp_bind, (wp_nat _ _ _ _ _ Hrun), wp_modify. set (s4 := _ <| nati_obj ::= _ |>). assert (Hr4 : ready s4).
  { split; [exact Hm|]. split; [change (no_failures (sys n3)); by rewrite Hn|]. destruct Hemp as [(T&(c&d&Hc&Hd&_)&_) _]. by exists c, d. }
  apply wp_bind, wp_vote; [by right|exact Hr4|]. cbn [Z.eqb andb]. unfold upd_cells. apply wp_modify, wp_ret.
  assert (Hu3 : unused_cache IPA_NAT_MEM_IN_DDR (ticks 1 n3)).
  { destruct (O3 _ (Hu DDR_SUB)) as (c&T&Hc&Hrest). exists c, T. split; [|done]. rewrite <- Hc. exact Hoth. }
  specialize (HQ (ticks 1 n3) Hemp Hn). rewrite <- O2 in HQ. specialize (HQ Hpn Hu3). revert HQ. unfold s4, s2, later_by, upd. cbn.
  by rewrite (store_low16_word _ _ Hold).
Qed.

(** *** The first state *)

Abbreviation thresh := (PRCNT_OF slots).
Abbreviation hybrid pd := (hybrid_at pd base expn thresh false true SRAM_SUB SRAM_SUB ∅).

(** Everything but the state is as in the invariant. *)
Record tables_made (pd : list ipa_nat_pdn_entry) s : Prop := {
  tm_curr : curr_state (nati_obj s) = NATI_STATE_HYBRID;
  tm_hold : hold_state (nati_obj s) = false;
  tm_hdls : ddr_tbl_hdl (nati_obj s) = tbl_of DDR_SUB /\ sram_tbl_hdl (nati_obj s) = tbl_of SRAM_SUB;
  tm_thresh : back_to_sram_thresh (nati_obj s) = thresh;
  tm_wf : map_pairs (nati_obj s) = map_pairs initial_obj /\ length (map_array s) = Z.to_nat MAP_NUM_MAX;
  tm_mutex : nat_mutex_init s = true;
  tm_maps : zget (map_array s) (orig2new_map (maps_of SRAM_SUB)) = Some ∅ /\ zget (map_array s) (new2orig_map (maps_of SRAM_SUB)) = Some ∅;
  tm_count : at_sram (tot_rules_in_table (nati_obj s)) = 0;
  tm_tables : forall sub, empty_table (mem_of sub) (base sub) (expn sub) (sm_nat s);
  tm_nat : pdns (sm_nat s) = pd /\ zlen pd = IPA_MAX_PDN_NUM /\ sys (sm_nat s) = S;
}.

Lemma made_store pd s sub : tables_made pd s -> store_ok (mem_of sub) pd (base sub) (expn sub) (sm_nat s) ∅ /\ table_count (mem_of sub) (sm_nat s) 1.
Proof using HS.
  intros H. destruct (tm_nat _ _ H) as (Hp&Hl&Hs). destruct (me_sys _ _ _ _ _ HS) as [Hn Hd]. pose proof (tm_tables _ _ H sub) as Ht.
  split; [|apply Ht]. apply empty_table_store; [apply mem_of_cases|done|done|by rewrite Hs|by rewrite Hs|done].
Qed.

Lemma made_enter pd s : tables_made pd s -> hybrid pd (enter NATI_STATE_HYBRID s).
Proof using HS.
  intros H. pose proof H as [C1 C2 C3 C4 [C5 C6] C7 [C8 C9] C10 _ _]. split.
  - split; try done. change (curr_state (nati_obj s) <> NATI_STATE_NULL). by rewrite C1.
  - exists ∅, ∅, ∅. split; [|by intros _ o h]. split; [apply (made_store pd s SRAM_SUB H)..|done|done|apply handles_empty|done].
  - exists ∅. apply (made_store pd s DDR_SUB H).
  - by intros o r.
Qed.

Lemma made_nat pd s n :
  ipv4_nat_cache n = ipv4_nat_cache (sm_nat s) -> pdns n = pdns (sm_nat s) -> sys n = sys (sm_nat s) ->
  tables_made pd s -> tables_made pd (s <| sm_nat := n |>).
Proof using Type.
  intros Hc Hp Hs [C1 C2 C3 C4 C5 C6 C7 C8 C9 C10]. split; try done; cbn; [|by rewrite Hp, Hs].
  intros sub. apply (empty_table_same _ _ _ (sm_nat s)); [by rewrite Hc|done].
Qed.

Lemma made_goto sm pd s :
  tables_made pd s -> wp (statemach_body sm NATI_TRIG_GOTO_SRAM NoArgs) (fun r s' => r = 0 /\ hybrid pd s' /\ cells s' = cells s) s.
Proof using HS.
  intros H. assert (Hlater : forall j, tables_made pd (later_by j s)) by (intros j; by apply made_nat).
  assert (Hr : ready s). { split; [apply H|]. destruct (made_store pd s SRAM_SUB H) as [Hst _]. split; [apply (so_sys _ _ _ _ _ _ Hst)|]. by eapply (store_ready pd base expn SRAM_SUB). }
  apply (wp_body sm _ _ (fun s' => hybrid pd s' /\ cells s' = cells s) s Hr). intros j. rewrite (tm_curr _ _ H). cbn [_state_mach_tbl].
  specialize (Hlater j). destruct (made_store pd _ SRAM_SUB Hlater) as [Hst Hcnt].
  destruct (tell_run pd base expn SRAM_SUB ∅ (later_by j s) Hst Hcnt) as (n&Hrun&Hc&Hp&Hs).
  unfold _smGoToSram. apply wp_gets. destruct (tm_hdls _ _ Hlater) as [_ ->]. apply wp_bind, (wp_nat _ _ _ _ _ Hrun). cbn [Z.eqb].
  unfold SET_NATIOBJ_STATE, upd_obj. apply wp_bind, (wp_run _ _ _ tt _ eq_refl), wp_ret.
  pose proof (made_enter pd _ (made_nat pd _ n Hc Hp Hs Hlater)) as Hh. split; [exact (hybrid_ready _ _ _ _ _ _ _ _ _ _ Hh)|].
  intros i. split; [by apply hybrid_later|done].
Qed.

(** *** The run *)

(** No table yet, and no memory is held. *)
Record no_tables s : Prop := {
  nt_wf : sm_wf s;
  nt_curr : curr_state (nati_obj s) = NATI_STATE_NULL;
  nt_hold : hold_state (nati_obj s) = false;
  nt_nat : sys (sm_nat s) = S /\ zlen (pdns (sm_nat s)) = IPA_MAX_PDN_NUM;
  nt_unused : forall sub, unused_cache (mem_of sub) (sm_nat s);
}.

Lemma add_both_run sm t str s :
  curr_state (nati_obj s) = NATI_STATE_HYBRID -> nat_mutex_init s = true -> hold_state (nati_obj s) = false ->
  map_pairs (nati_obj s) = map_pairs initial_obj -> length (map_array s) = Z.to_nat MAP_NUM_MAX -> is_word 16 (tot_slots_in_sram (nati_obj s)) ->
  sys (sm_nat s) = S -> zlen (pdns (sm_nat s)) = IPA_MAX_PDN_NUM -> (forall sub, unused_cache (mem_of sub) (sm_nat s)) ->
  wp (_smAddSramAndDdrTbl (statemach_body sm) t (TableArgs pub k true str))
    (fun _ s' => hybrid (first_network pub (pdns (sm_nat s))) s' /\ tbl_hdl_cell (cells s') = tbl_of SRAM_SUB) s.
Proof using HS.
  intros Hcurr Hm Hhold Hpairs Hlen Hold HsS Hp Hu. unfold _smAddSramAndDdrTbl, set_counter, upd_obj. apply wp_modify, wp_modify.
  apply (wp_clear SRAM_SUB); [done|done|]. intros l1 Hl1 Ho1 Hn1 _. apply (wp_clear DDR_SUB); [done|cbn; by rewrite Hl1|].
  intros l2 Hl2 _ _ Hrest. cbn [map_array upd] in Hrest, Hl2. set (s1 := _ <| map_array := l2 |>).
  assert (Hlen2 : length l2 = Z.to_nat MAP_NUM_MAX) by (by rewrite Hl2, <- Hlen).
  apply wp_bind, (make_sram_run t str s1); [done..|]. intros n2 Hsram Hs2 Hp2 Hu2. set (s2 := _ <| cells ::= _ |>). cbn [Z.eqb].
  apply wp_gets. change (tot_slots_in_sram (nati_obj s2)) with slots.
  replace (k <=? slots) with false by (symmetry; apply Z.leb_gt, HS).
  assert (Hp2l : zlen (pdns n2) = IPA_MAX_PDN_NUM) by (by rewrite Hp2, zlen_first_network).
  apply wp_bind, (make_ddr_run t false str s2); [done|done|exact Hu2|done|]. intros n3 Hddr Hs3 Hp3 Hc3. set (s3 := _ <| nati_obj ::= _ |>). cbn [Z.eqb].
  assert (Hmade : tables_made (first_network pub (pdns (sm_nat s))) s3).
  { split; try done.
    - split; [rewrite <- Ho1|rewrite <- Hn1]; by apply Hrest.
    - intros [|]; [exact Hddr|]. exact (empty_table_same _ _ _ n2 n3 Hc3 Hsram).
    - change (sm_nat s2) with n2 in Hp3. rewrite Hp2, first_network_twice in Hp3. split; [exact Hp3|]. split; [by rewrite zlen_first_network|done]. }
  eapply wp_mono; [apply (made_goto sm _ s3 Hmade)|]. intros r s4 (_&Hh&Hc). split; [done|]. by rewrite Hc.
Qed.

Lemma add_table_no_vote o : VOTE_REQUIRED o NATI_TRIG_ADD_TABLE = false.
Proof using Type. unfold VOTE_REQUIRED. apply andb_false_r. Qed.

Definition made pd s : Prop := hybrid pd s /\ tbl_hdl_cell (cells s) = tbl_of SRAM_SUB.

Lemma made_later pd s j : made pd s -> made pd (later_by j s).
Proof using Type. intros [Hh Hc]. split; [by apply hybrid_later|done]. Qed.

Lemma first_table_run sm str s :
  no_tables s -> mem_type_str_to_ipa_nati_state (Some str) = NATI_STATE_HYBRID ->
  wp (statemach_body (statemach_body (statemach_body sm)) NATI_TRIG_ADD_TABLE (TableArgs pub k true (Some str)))
    (fun r s' => r = 0 /\ made (first_network pub (pdns (sm_nat s))) s') s.
Proof using HS.
  intros [[W1 W2 W3 W4 W5] Hcurr Hhold [HsS Hp] Hu] Hstr. set (pd := first_network pub (pdns (sm_nat s))).
  assert (Hnf : forall n, sys n = S -> no_failures (sys n)) by (intros n ->; apply HS).
  apply (wp_first_body _ _ _ (made pd)); [apply add_table_no_vote|by apply Hnf|]. intros j. rewrite Hcurr. cbn [_state_mach_tbl].
  set (s1 := later_by j s <| nat_mutex_init := true |>). unfold _smFirstTbl. apply wp_gets.
  replace (hold_state (nati_obj s1)) with false by (by rewrite <- Hhold). cbn [andb]. rewrite Hstr.
  unfold SET_NATIOBJ_STATE, upd_obj. apply wp_modify. set (s2 := s1 <| nati_obj ::= _ |>).
  eapply wp_mono; [apply (wp_first_body _ _ _ (made pd)); [apply add_table_no_vote|by apply Hnf|]|].
  - intros i. change (curr_state (nati_obj s2)) with NATI_STATE_HYBRID. cbn [_state_mach_tbl]. set (s3 := later_by i s2 <| nat_mutex_init := true |>).
    eapply wp_mono; [apply (add_both_run sm NATI_TRIG_ADD_TABLE (Some str) s3); done|]. intros r s4 Hmade.
    split; [by eapply hybrid_ready; apply Hmade|]. intros i'. by apply made_later.
  - intros r s4 [_ Hmade]. split; [by eapply hybrid_ready; apply Hmade|]. intros i. by apply made_later.
Qed.

Lemma make_run str s :
  no_tables s -> mem_type_str_to_ipa_nati_state (Some str) = NATI_STATE_HYBRID ->
  wp (ipa_nat_add_ipv4_tbl pub (Some str) k true) (fun r s' => r = 0 /\ made (first_network pub (pdns (sm_nat s))) s') s.
Proof using HS.
  intros Hn Hstr. unfold ipa_nat_add_ipv4_tbl. pose proof (me_entries _ _ _ _ _ HS). pose proof slots_word as Hw. unfold is_word in Hw.
  replace (k =? 0) with false by lia. rewrite bool_decide_eq_false_2 by done. cbn [negb orb]. unfold upd_cells. apply wp_modify.
  unfold ipa_nati_add_ipv4_tbl. rewrite three_runs. set (s1 := s <| cells ::= _ |>).
  change (pdns (sm_nat s)) with (pdns (sm_nat s1)). apply (first_table_run no_run str s1); [|done]. destruct Hn as [[W1 W2 W3 W4 W5] Hcurr Hhold Hnat Hu]. by split.
Qed.

End Make.
