(* ===== verification/IpaHybridSpec.v ===== *)
(** * What a client of a hybrid table sees

    The interface of [ipa_nat_drv.c] over the state machine: additions,
    deletions, time stamps and switches of a table that is in both memories, as
    operations on a map from handles to rules. *)

From stdpp Require Import gmap strings.
From S2P Require Import Prelude IpaTable IpaSystem IpaStoreSpec IpaNat IpaNatSpec IpaRules IpaSize IpaCreate IpaHandles IpaStore IpaStateMach IpaHybrid IpaHybridOps IpaHybridMake.

Local Open Scope Z_scope.

(** ** The operations of a client *)

Inductive hybrid_op :=
| HybridAdd (u : ipa_nat_ipv4_rule)
| HybridDelete (hdl : Z)
| HybridStamp (hdl : Z)
| HybridHold (hold : bool).

(** The return value and what the client reads: the handle, 0 when nothing was
    added, or the time stamp. *)
Definition run_hybrid (tbl_hdl : Z) (op : hybrid_op) : SM (Z * Z) :=
  match op with
  | HybridAdd u => ret ← ipa_nat_add_ipv4_rule tbl_hdl (Some u) true; c ← gets cells; mret (ret, rule_hdl_cell c)
  | HybridDelete hdl => ret ← ipa_nat_del_ipv4_rule tbl_hdl hdl; mret (ret, 0)
  | HybridStamp hdl => ret ← ipa_nat_query_timestamp tbl_hdl hdl true; c ← gets cells; mret (ret, time_stamp_cell c)
  | HybridHold hold => ret ← ipa_nat_switch_to IPA_NAT_MEM_IN_DDR hold; mret (ret, 0)
  end.

(** ** The abstract table *)

Section Spec.
Context (pd : list ipa_nat_pdn_entry) (base expn : mem_sub -> Z) (thresh : Z).
Implicit Types (s : sm_state) (A : gmap Z ipa_nat_rule).

Abbreviation client_tbl := (tbl_of SRAM_SUB).
Abbreviation hybrid hold sub := (hybrid_at pd base expn thresh hold true sub sub).

(** The rules by their handles, the memory that they are in, and whether it is
    held. *)
Abbreviation table_state := (bool * mem_sub * gmap Z ipa_nat_rule)%type.

Inductive hybrid_step : table_state -> hybrid_op -> Z * Z -> table_state -> Prop :=
| hs_add hold sub A u hdl sub' A' :
    hybrid_added pd expn hold sub A u hdl sub' A' -> hybrid_step (hold, sub, A) (HybridAdd u) (0, hdl) (hold, sub', A')
| hs_deleted hold sub A hdl r :
    A !! hdl = Some r -> hybrid_step (hold, sub, A) (HybridDelete hdl) (0, 0) (hold, sub, delete hdl A)
| hs_stamp hold sub A hdl r :
    A !! hdl = Some r -> hybrid_step (hold, sub, A) (HybridStamp hdl) (0, time_stamp r) (hold, sub, A)
| hs_hold hold hold' sub A : hybrid_step (hold, sub, A) (HybridHold hold') (0, 0) (hold', DDR_SUB, A).

(** What a client may do: it deletes and asks for rules that are there; while its
    rules are on the chip it keeps within what external memory has room for; and
    while they are in external memory without a hold, it does not delete so many
    that they go back to the chip. *)
Definition hybrid_allowed (a : table_state) (op : hybrid_op) : Prop :=
  let '(hold, sub, A) := a in
  match op with
  | HybridAdd u => 0 <= u_pdn_index u /\ (sub = SRAM_SUB -> Z.of_nat (size A) <= expn DDR_SUB)
  | HybridDelete hdl => (exists r, A !! hdl = Some r) /\ (sub = SRAM_SUB \/ hold = true \/ thresh < Z.of_nat (size (delete hdl A)))
  | HybridStamp hdl => exists r, A !! hdl = Some r
  | HybridHold _ => sub = SRAM_SUB -> Z.of_nat (size A) <= expn DDR_SUB
  end.

(** The rules in that memory, behind the handles that the client got. *)
Definition client_sees s (a : table_state) : Prop := hybrid a.1.1 a.1.2 a.2 s.

Lemma handle_valid hold sub A s o r : hybrid hold sub A s -> A !! o = Some r -> VALID_RULE_HDL o = true.
Proof using Type.
  intros [_ (m&f&g&Hpl&Hown) _ _] Ho. destruct (place_bounds _ _ _ _ _ _ _ _ _ Hpl) as (Hb&He&Hm).
  pose proof (pl_handles _ _ _ _ _ _ _ _ _ Hpl) as Hok. destruct (ho_dom _ _ _ _ _ _ _ Hok o r Ho) as [h Hf].
  unfold VALID_RULE_HDL, IPA_TABLE_INVALID_ENTRY. apply negb_true_iff, Z.eqb_neq. intros ->.
  destruct (Hown eq_refl _ _ Hf) as [<-|[_ Hs]]; [|done].
  destruct (is_handle_index _ _ _ Hb He Hm 0 (ho_handle _ _ _ _ _ _ _ Hok _ _ Hf)). lia.
Qed.

(** ** The interface *)

Section Interface.
Context (hold : bool) (sub : mem_sub) A s.

Lemma add_api_run u :
  hybrid hold sub A s -> 0 <= u_pdn_index u -> (sub = SRAM_SUB -> Z.of_nat (size A) <= expn DDR_SUB) ->
  wp (ipa_nat_add_ipv4_rule client_tbl (Some u) true) (fun ret s' => ret = 0 /\ add_outcome pd base expn thresh hold sub A u s') s.
Proof using Type.
  intros Hh Hu Hroom. unfold ipa_nat_add_ipv4_rule. cbn [negb orb]. rewrite valid_tbl_of. cbn [negb orb]. unfold ipa_nati_add_ipv4_rule.
  rewrite three_runs. apply wp_bind. eapply wp_mono; [by apply add_trigger_run|].
  intros ret s' [-> Hs']. change (truthy 0) with false. by apply wp_ret.
Qed.

Lemma del_api_run strict o r :
  hybrid_at pd base expn thresh hold strict sub sub A s -> A !! o = Some r -> o <> 0 -> thresh <= expn SRAM_SUB ->
  wp (ipa_nat_del_ipv4_rule client_tbl o) (fun ret s' => ret = 0 /\
    hybrid_at pd base expn thresh hold (strict_after thresh hold strict sub (delete o A)) (place_after thresh hold sub (delete o A))
      (place_after thresh hold sub (delete o A)) (delete o A) s') s.
Proof using Type.
  intros Hh Ho Hz Hth. unfold ipa_nat_del_ipv4_rule. rewrite valid_tbl_of.
  replace (VALID_RULE_HDL o) with true by (symmetry; by apply negb_true_iff, Z.eqb_neq). cbn [negb orb]. unfold ipa_nati_del_ipv4_rule.
  rewrite three_runs. by apply (del_trigger_run pd base expn thresh hold strict no_run sub A o r).
Qed.

Lemma query_api_run strict o r :
  hybrid_at pd base expn thresh hold strict sub sub A s -> A !! o = Some r -> o <> 0 ->
  wp (ipa_nat_query_timestamp client_tbl o true) (fun ret s' => ret = 0 /\
    hybrid_at pd base expn thresh hold strict sub sub A s' /\ time_stamp_cell (cells s') = time_stamp r) s.
Proof using Type.
  intros Hh Ho Hz. unfold ipa_nat_query_timestamp. rewrite valid_tbl_of.
  replace (VALID_RULE_HDL o) with true by (symmetry; by apply negb_true_iff, Z.eqb_neq). cbn [negb orb]. unfold ipa_nati_query_timestamp.
  rewrite three_runs. by apply (query_trigger_run pd base expn thresh hold strict _ sub A o r).
Qed.

End Interface.

(** ** One operation refines one step *)

Lemma add_step_refines hold sub A s u :
  hybrid hold sub A s -> hybrid_allowed (hold, sub, A) (HybridAdd u) ->
  wp (run_hybrid client_tbl (HybridAdd u)) (fun res s' => exists a, hybrid_step (hold, sub, A) (HybridAdd u) res a /\ client_sees s' a) s.
Proof using Type.
  intros Hh [Hu Hroom]. cbn [run_hybrid]. apply wp_bind. eapply wp_mono; [by apply (add_api_run hold sub A s u Hh Hu)|].
  intros ret s' (->&sub'&A'&Hh'&Hadd). apply wp_gets, wp_ret. exists (hold, sub', A'). split; [by apply hs_add|done].
Qed.

Lemma del_step_refines hold sub A s o :
  thresh <= expn SRAM_SUB -> hybrid hold sub A s -> hybrid_allowed (hold, sub, A) (HybridDelete o) ->
  wp (run_hybrid client_tbl (HybridDelete o)) (fun res s' => exists a, hybrid_step (hold, sub, A) (HybridDelete o) res a /\ client_sees s' a) s.
Proof using Type.
  intros Hth Hh [[r Ho] Hkeep]. assert (Hz : o <> 0).
  { pose proof (handle_valid _ _ _ _ _ _ Hh Ho) as Hv. by apply negb_true_iff, Z.eqb_neq in Hv. }
  cbn [run_hybrid]. apply wp_bind. eapply wp_mono; [by apply (del_api_run hold sub A s true o r)|].
  intros ret s' [-> Hh']. apply wp_ret. exists (hold, sub, delete o A). split; [by eapply hs_deleted|].
  assert (Hb : goes_back thresh hold sub (delete o A) = false).
  { unfold goes_back. destruct Hkeep as [-> |[-> |Hk]]; [done|apply andb_false_r|]. replace (_ <=? thresh) with false by lia. by rewrite andb_false_r. }
  unfold strict_after, place_after in Hh'. by rewrite Hb in Hh'.
Qed.

Lemma stamp_step_refines hold sub A s o :
  hybrid hold sub A s -> hybrid_allowed (hold, sub, A) (HybridStamp o) ->
  wp (run_hybrid client_tbl (HybridStamp o)) (fun res s' => exists a, hybrid_step (hold, sub, A) (HybridStamp o) res a /\ client_sees s' a) s.
Proof using Type.
  intros Hh [r Ho]. assert (Hz : o <> 0).
  { pose proof (handle_valid _ _ _ _ _ _ Hh Ho) as Hv. by apply negb_true_iff, Z.eqb_neq in Hv. }
  cbn [run_hybrid]. apply wp_bind. eapply wp_mono; [by apply (query_api_run hold sub A s true o r)|].
  intros ret s' (->&Hh'&Hc). apply wp_gets, wp_ret. rewrite Hc. exists (hold, sub, A). split; [by apply hs_stamp|done].
Qed.

Lemma hold_step_refines hold sub A s hold' :
  hybrid hold sub A s -> hybrid_allowed (hold, sub, A) (HybridHold hold') ->
  wp (run_hybrid client_tbl (HybridHold hold')) (fun res s' => exists a, hybrid_step (hold, sub, A) (HybridHold hold') res a /\ client_sees s' a) s.
Proof using Type.
  intros Hh Hroom. cbn [run_hybrid]. apply wp_bind.
  eapply wp_mono; [apply (switch_to_run pd base expn thresh hold true hold' sub DDR_SUB A s); [|done]|].
  { intros Hne. apply Hroom. by destruct sub. }
  intros ret s' (->&st&Hh'&Hst). apply wp_ret. exists (hold', DDR_SUB, A). split; [by apply hs_hold|]. unfold client_sees. cbn [fst snd].
  replace true with st; [done|]. apply Hst. destruct sub; [by left|by right].
Qed.

Lemma step_refines s a op :
  thresh <= expn SRAM_SUB -> client_sees s a -> hybrid_allowed a op ->
  exists res s' a', run_hybrid client_tbl op s = Done (res, s') /\ hybrid_step a op res a' /\ client_sees s' a'.
Proof using Type.
  intros Hth Hh Hop. destruct a as [[hold sub] A]. unfold client_sees in Hh. cbn [fst snd] in Hh.
  assert (H : wp (run_hybrid client_tbl op) (fun res s' => exists a', hybrid_step (hold, sub, A) op res a' /\ client_sees s' a') s).
  { destruct op; [by apply (add_step_refines hold sub)|by apply (del_step_refines hold sub)|by apply (stamp_step_refines hold sub)|
      by apply (hold_step_refines hold sub)]. }
  destruct H as (res&s'&Hrun&a'&Hstep&Hs'). by exists res, s', a'.
Qed.

(** ** The properties *)

(** C4: A table in both memories behaves as one map from handles to rules.  Every
    sequence of additions, deletions, time stamps and holds of a client that
    keeps to [hybrid_allowed] completes, with the results of the map: additions
    give a handle that no rule has, or 0 when the rule is refused or the memory
    in use is full, although the rules may move from the chip to external memory.
    The client deletes and asks for rules that are there; while the rules are on
    the chip they are no more than external memory has room for, when it adds or
    asks for a hold; and once they are in external memory it deletes only under a
    hold or while more rules than the threshold stay, so that they never go back
    to the chip ([handle_given_twice] is a client that lets them). *)
Theorem hybrid_table_refines client s hold sub A k :
  thresh <= expn SRAM_SUB -> client_sees s (hold, sub, A) ->
  (forall h a, steps hybrid_step (hold, sub, A) h a -> follows client h -> (length h < k)%nat -> hybrid_allowed a (client h)) ->
  exists h s' a, run_client (run_hybrid client_tbl) client k [] s = Done (h, s') /\ length h = k /\
    steps hybrid_step (hold, sub, A) h a /\ client_sees s' a.
Proof using Type.
  intros Hth Hs Hclient. apply (client_refines hybrid_step (run_hybrid client_tbl) client_sees hybrid_allowed); [|done|done].
  intros s1 a op H1 Hop. by apply step_refines.
Qed.

(** C8: An addition in a hybrid state whose rules never came back from external
    memory (the strict invariant) returns 0 and keeps that invariant.  Either the
    rule is stored under a handle that no rule has, or the handle is 0 and the
    rules are as before, because the rule is refused or the memory that is in use
    afterwards is full; without a hold that is external memory, to which the
    rules move when the chip is full or the rule is refused.  While they are on
    the chip they are no more than external memory has room for. *)
Theorem hybrid_add_spec hold sub A s u :
  hybrid hold sub A s -> 0 <= u_pdn_index u -> (sub = SRAM_SUB -> Z.of_nat (size A) <= expn DDR_SUB) ->
  exists s' sub' A', ipa_nat_add_ipv4_rule client_tbl (Some u) true s = Done (0, s') /\ hybrid hold sub' A' s' /\
    hybrid_added pd expn hold sub A u (rule_hdl_cell (cells s')) sub' A'.
Proof using Type.
  intros Hh Hu Hroom. destruct (add_api_run hold sub A s u Hh Hu Hroom) as (ret&s'&Hrun&->&sub'&A'&Hh'&Hadd). by exists s', sub', A'.
Qed.

(** C9: Deleting a rule by the handle of its addition removes this rule and no
    other, wherever the rules are; when they are in external memory, no memory
    is held and no more than the threshold are left, they go back to the chip. *)
Theorem hybrid_delete_spec hold strict sub A s o r :
  thresh <= expn SRAM_SUB -> hybrid_at pd base expn thresh hold strict sub sub A s -> A !! o = Some r -> o <> 0 ->
  let back := bool_decide (sub = DDR_SUB) && (Z.of_nat (size (delete o A)) <=? thresh) && negb hold in
  let sub' := if back then SRAM_SUB else sub in
  exists s', ipa_nat_del_ipv4_rule client_tbl o s = Done (0, s') /\
    hybrid_at pd base expn thresh hold (strict && negb back) sub' sub' (delete o A) s'.
Proof using Type.
  intros Hth Hh Ho Hz back sub'. destruct (del_api_run hold sub A s strict o r Hh Ho Hz Hth) as (ret&s'&Hrun&->&Hh').
  exists s'. split; [done|]. assert (Hb : goes_back thresh hold sub (delete o A) = back) by (by destruct sub).
  unfold strict_after, place_after in Hh'. by rewrite Hb in Hh'.
Qed.

(** C7: A client that asks for a memory gets it, held or not, with all rules and
    their handles, when the rules are there already or fit into that memory: the
    table there holds what the other one held.  Rules that come from the chip
    keep the strict invariant. *)
Theorem switch_keeps_rules hold strict hold' src dst A s :
  (src <> dst -> Z.of_nat (size A) <= expn dst) -> hybrid_at pd base expn thresh hold strict src src A s ->
  exists s' strict', ipa_nat_switch_to (mem_of dst) hold' s = Done (0, s') /\
    hybrid_at pd base expn thresh hold' strict' dst dst A s' /\ (src = dst \/ src = SRAM_SUB -> strict' = strict).
Proof using Type.
  intros Hroom Hh. destruct (switch_to_run pd base expn thresh hold strict hold' src dst A s Hroom Hh) as (ret&s'&Hrun&->&st&Hh'&Hst).
  by exists s', st.
Qed.

End Spec.

(** C10: The first creation of a hybrid table with more entries than the chip has
    room for makes an empty table in each memory, with the one on the chip in
    use and its handle for the client; the threshold for the way back is a
    quarter of the slots on the chip. *)
Theorem hybrid_creation S k slots pub base expn str s :
  memories S k slots base expn -> no_tables S s -> mem_type_str_to_ipa_nati_state (Some str) = NATI_STATE_HYBRID ->
  exists s', ipa_nat_add_ipv4_tbl pub (Some str) k true s = Done (0, s') /\ tbl_hdl_cell (cells s') = tbl_of SRAM_SUB /\
    hybrid_at (first_network pub (pdns (sm_nat s))) base expn (PRCNT_OF slots) false true SRAM_SUB SRAM_SUB ∅ s'.
Proof.
  intros HS Hs Hstr. destruct (make_run S k slots pub base expn HS str s Hs Hstr) as (ret&s'&Hrun&->&Hh&Hc). by exists s'.
Qed.

(** ** Instances *)

(** Four slots on the chip, 25 entries in external memory. *)
Definition sample_machine : ipa_system := two_memories 38 6 250.
Definition sample_base (sub : mem_sub) : Z := match sub with DDR_SUB => 32 | SRAM_SUB => 4 end.
Definition sample_expn (sub : mem_sub) : Z := match sub with DDR_SUB => 6 | SRAM_SUB => 2 end.
Abbreviation sample_pdns := (first_network 168430090 (pdns (initial_nat sample_machine))).
Abbreviation sample_hybrid := (hybrid_at sample_pdns sample_base sample_expn 1).

Lemma sample_memories : memories sample_machine 25 4 sample_base sample_expn.
Proof.
  split.
  - split; [by intros i|by intros base cmds m].
  - done.
  - done.
  - vm_compute; reflexivity.
  - unfold IPA_TABLE_MAX_ENTRIES. lia.
  - intros [|]; vm_compute; reflexivity.
  - intros [|]; by split.
Qed.

Lemma sample_no_tables : no_tables sample_machine (initial_sm sample_machine).
Proof.
  split; [|done|done|done|].
  - split; [done|left|done|done|]. unfold is_word. cbn. lia.
  - intros [|]; by exists zero_nat_cache, zero_table_cache.
Qed.

Lemma hybrid_creation_witness :
  exists s', ipa_nat_add_ipv4_tbl 168430090 (Some "Hybrid"%string) 25 true (initial_sm sample_machine) = Done (0, s') /\
    tbl_hdl_cell (cells s') = tbl_of SRAM_SUB /\ sample_hybrid false true SRAM_SUB SRAM_SUB ∅ s'.
Proof.
  exact (hybrid_creation sample_machine 25 4 168430090 sample_base sample_expn "Hybrid" (initial_sm sample_machine) sample_memories
    sample_no_tables eq_refl).
Defined.

Lemma sample_empty : exists s, sample_hybrid false true SRAM_SUB SRAM_SUB ∅ s.
Proof.
  destruct (make_run sample_machine 25 4 168430090 sample_base sample_expn sample_memories "Hybrid" (initial_sm sample_machine) sample_no_tables eq_refl)
    as (ret&s&_&_&Hh&_).
  by exists s.
Qed.

(** A table on the chip with one rule. *)
Lemma sample_one : exists s h r, sample_hybrid false true SRAM_SUB SRAM_SUB {[h := r]} s /\ h <> 0.
Proof.
  destruct sample_empty as [s Hh].
  destruct (add_api_run sample_pdns sample_base sample_expn 1 false SRAM_SUB ∅ s sample_tcp_rule Hh ltac:(done) ltac:(done))
    as (ret&s'&_&_&sub'&A'&Hh'&Hadd).
  destruct Hadd as [h r sub' Href Hr Hpos Hnew Hsw|sub' Hwhy Hat Hsw].
  - destruct Hsw as [|_ _ [Hx|Hx]]; [|by vm_compute in Hx|by vm_compute in Hx].
    rewrite insert_empty in Hh'. by exists s', h, r.
  - destruct Hwhy as [Hx|Hx]; [by vm_compute in Hx|]. by destruct sub'; vm_compute in Hx.
Qed.

Lemma hybrid_add_spec_witness :
  exists s s' sub' A', sample_hybrid false true SRAM_SUB SRAM_SUB ∅ s /\
    ipa_nat_add_ipv4_rule (tbl_of SRAM_SUB) (Some sample_tcp_rule) true s = Done (0, s') /\ sample_hybrid false true sub' sub' A' s' /\
    hybrid_added sample_pdns sample_expn false SRAM_SUB ∅ sample_tcp_rule (rule_hdl_cell (cells s')) sub' A'.
Proof.
  destruct sample_empty as [s Hh].
  destruct (hybrid_add_spec sample_pdns sample_base sample_expn 1 false SRAM_SUB ∅ s sample_tcp_rule Hh ltac:(done) ltac:(done))
    as (s'&sub'&A'&Hrun&Hh'&Hadd).
  by exists s, s', sub', A'.
Defined.

Lemma switch_keeps_rules_witness :
  exists s h r s', sample_hybrid false true SRAM_SUB SRAM_SUB {[h := r]} s /\
    ipa_nat_switch_to IPA_NAT_MEM_IN_DDR false s = Done (0, s') /\ sample_hybrid false true DDR_SUB DDR_SUB {[h := r]} s'.
Proof.
  destruct sample_one as (s&h&r&Hh&_).
  destruct (switch_keeps_rules sample_pdns sample_base sample_expn 1 false true false SRAM_SUB DDR_SUB {[h := r]} s) as (s'&st&Hrun&Hh'&Hst).
  - intros _. by rewrite map_size_singleton.
  - exact Hh.
  - exists s, h, r, s'. split; [done|]. split; [done|]. by rewrite <- (Hst (or_intror eq_refl)).
Defined.

(** The same table after a switch. *)
Lemma sample_one_ddr : exists s h r, sample_hybrid false true DDR_SUB DDR_SUB {[h := r]} s /\ h <> 0.
Proof.
  destruct sample_one as (s&h&r&Hh&Hz).
  destruct (switch_to_run sample_pdns sample_base sample_expn 1 false true false SRAM_SUB DDR_SUB {[h := r]} s) as (ret&s'&_&_&st&Hh'&Hst).
  - intros _. by rewrite map_size_singleton.
  - exact Hh.
  - exists s', h, r. by rewrite <- (Hst (or_intror eq_refl)).
Qed.

(** The last rule in external memory is deleted: the chip is in use again. *)
Lemma hybrid_delete_spec_witness :
  exists s h r s', sample_hybrid false true DDR_SUB DDR_SUB {[h := r]} s /\ ipa_nat_del_ipv4_rule (tbl_of SRAM_SUB) h s = Done (0, s') /\
    sample_hybrid false false SRAM_SUB SRAM_SUB ∅ s'.
Proof.
  destruct sample_one_ddr as (s&h&r&Hh&Hz).
  destruct (hybrid_delete_spec sample_pdns sample_base sample_expn 1 false true DDR_SUB {[h := r]} s h r ltac:(done) Hh
    (lookup_singleton_eq h r) Hz) as (s'&Hrun&Hh').
  rewrite delete_singleton_eq in Hh'. by exists s, h, r, s'.
Defined.

(** A client that holds external memory and then adds, looks at and deletes the
    same rule again and again. *)
Definition sample_client (h : list (hybrid_op * (Z * Z))) : hybrid_op :=
  match last h with
  | None => HybridHold true
  | Some (HybridAdd _, (_, hdl)) => if hdl =? 0 then HybridHold true else HybridStamp hdl
  | Some (HybridStamp hdl, _) => HybridDelete hdl
  | Some _ => HybridAdd sample_tcp_rule
  end.

(** What it has at any time. *)
Definition client_has (h : list (hybrid_op * (Z * Z))) (a : bool * mem_sub * gmap Z ipa_nat_rule) : Prop :=
  match sample_client h with
  | HybridStamp hdl | HybridDelete hdl => a.1.1 = true /\ exists r, a.2 = {[hdl := r]}
  | HybridAdd u => u = sample_tcp_rule /\ a.2 = ∅ /\ a.1.1 = true
  | HybridHold b => b = true /\ a.2 = ∅
  end.

Lemma sample_client_has h a :
  steps (hybrid_step sample_pdns sample_expn) (false, SRAM_SUB, ∅) h a -> follows sample_client h -> client_has h a.
Proof.
  intros Hs Hf. revert a Hs. induction Hf as [|h res Hf IH]; intros a Hs.
  - inversion Hs as [|? ? ? ? ? ? ? Heq]; subst; [done|by destruct h].
  - apply steps_snoc_inv in Hs as (a1&Hs&Hstep). specialize (IH a1 Hs). unfold client_has in IH.
    assert (Hn : sample_client (h ++ [(sample_client h, res)]) = match sample_client h, res with
      | HybridAdd _, (_, hdl) => if hdl =? 0 then HybridHold true else HybridStamp hdl
      | HybridStamp hdl, _ => HybridDelete hdl | _, _ => HybridAdd sample_tcp_rule end).
    { unfold sample_client at 1. rewrite last_snoc. by destruct (sample_client h). }
    unfold client_has. rewrite Hn. destruct Hstep as [? ? ? ? ? ? ? [hdl r ? ? ? ? ? ?|? ? ? ?]| | |]; cbn in IH |- *.
    + destruct IH as (_&->&->). replace (hdl =? 0) with false by lia. split; [done|]. exists r. apply insert_empty.
    + by destruct IH as (_&->&_).
    + destruct IH as [-> [r' ->]]. by rewrite delete_singleton_eq.
    + done.
    + by destruct IH as [-> ->].
Qed.

Lemma sample_client_allowed h a :
  steps (hybrid_step sample_pdns sample_expn) (false, SRAM_SUB, ∅) h a -> follows sample_client h -> hybrid_allowed sample_expn 1 a (sample_client h).
Proof.
  intros Hs Hf. pose proof (sample_client_has h a Hs Hf) as Hc. unfold client_has in Hc. destruct a as [[hold sub] A]. unfold hybrid_allowed.
  cbn [fst snd] in Hc. destruct (sample_client h) as [u|hdl|hdl|b].
  - by destruct Hc as (->&->&_).
  - destruct Hc as [-> [r ->]]. split; [exists r; apply lookup_singleton_eq|by right; left].
  - destruct Hc as [-> [r ->]]. exists r. apply lookup_singleton_eq.
  - by destruct Hc as [_ ->].
Qed.

Lemma hybrid_table_refines_witness :
  exists s, client_sees sample_pdns sample_base sample_expn 1 s (false, SRAM_SUB, ∅) /\
    exists h s' a, run_client (run_hybrid (tbl_of SRAM_SUB)) sample_client 9 [] s = Done (h, s') /\ length h = 9%nat /\
      steps (hybrid_step sample_pdns sample_expn) (false, SRAM_SUB, ∅) h a /\ client_sees sample_pdns sample_base sample_expn 1 s' a.
Proof.
  destruct sample_empty as [s Hh]. assert (Hs : client_sees sample_pdns sample_base sample_expn 1 s (false, SRAM_SUB, ∅)) by exact Hh.
  exists s. split; [exact Hs|].
  exact (hybrid_table_refines sample_pdns sample_base sample_expn 1 sample_client s false SRAM_SUB ∅ 9 ltac:(done) Hs
    (fun h a H1 H2 _ => sample_client_allowed h a H1 H2)).
Defined.

(** ** Where the contract ends *)

(** The handles that a client reads after each of some calls. *)
Fixpoint handles_after (calls : list (SM Z)) : SM (list Z) :=
  match calls with
  | [] => mret []
  | m :: calls' => m ;; c ← gets cells; l ← handles_after calls'; mret (rule_hdl_cell c :: l)
  end.

Definition sample_calls (adds : list Z) : list (SM Z) :=
  map (fun i => ipa_nat_add_ipv4_rule (tbl_of SRAM_SUB) (Some (sample_user_rule (3232235776 + i) IPPROTO_TCP)) true) adds.
Definition sample_create : SM Z := ipa_nat_add_ipv4_tbl 168430090 (Some "hybrid"%string) 25 true.
Definition sample_deletes (hdls : list Z) : list (SM Z) := map (ipa_nat_del_ipv4_rule (tbl_of SRAM_SUB)) hdls.

(** The number of rules counted in the table on the chip, and of handles that
    lead to one. *)
Definition counted_and_known (s : sm_state) : Z * nat :=
  (at_sram (tot_rules_in_table (nati_obj s)), size (default ∅ (zget (map_array s) (orig2new_map (maps_of SRAM_SUB))))).

(** After the rules went back to the chip, a handle of the chip may be given to
    a second rule while the first one is there: the fourth rule makes the tables
    switch, three deletions bring the remaining rule back to another place, and
    the next but one addition reads the handle that this rule still has.  All
    calls return 0, but only two of the three rules can be deleted. *)
Example handle_given_twice :
  exists s, handles_after (sample_create :: sample_calls [1; 2; 3; 4] ++ sample_deletes [5; 32770; 32769] ++ sample_calls [5; 6]) (initial_sm sample_machine)
    = Done ([0; 32770; 32769; 32771; 5; 5; 5; 5; 32769; 32771], s) /\ counted_and_known s = (3, 2%nat).
Proof. apply (value_run _ counted_and_known). vm_compute. reflexivity. Qed.

(** The records in use in the table on the chip. *)
Definition records_in_use (s : sm_state) : Z :=
  let t := table (table_of IPA_NAT_MEM_IN_SRAM 0 (sm_nat s)) in cur_tbl_cnt t + cur_expn_tbl_cnt t.

(** A second creation returns 0 and forgets the rules of the first table, which
    stay in it. *)
Example second_creation_forgets :
  exists s, (l ← handles_after (sample_create :: sample_calls [1; 2]); known ← gets counted_and_known; ret ← sample_create; mret (l, known, ret))
      (initial_sm sample_machine) = Done ([0; 32770; 32769], (2, 2%nat), 0, s) /\
    (counted_and_known s, records_in_use s) = ((0, 0%nat), 2).
Proof. apply (value_run _ (fun s => (counted_and_known s, records_in_use s))). vm_compute. reflexivity. Qed.
