(* ===== verification/MmrmState.v ===== *)
(** * The state of the multimedia resource manager

    The structures of [mmrm-driver/driver/src]: the table of clock clients, the
    current that they draw at peak, the resources of the platform; and the calls
    to the clock framework.  Multimedia clients (camera, display, video, ...)
    ask for clock rates, and the driver admits a rate only when the sum of the
    currents at the common voltage level stays below a threshold. *)

From S2P Require Import Prelude.

Local Open Scope Z_scope.

(** ** Fixed-point numbers

    [mmrm_fixedpoint.h], for the 64-bit kernel: a [size_t] of which the lowest
    quarter of the bits is the fraction. *)

Definition FP_FRACTIONAL_BITS : Z := 16.
Definition Q16_INT (q : Z) : Z := Z.shiftr q 16.
Definition Q16_FRAC (q : Z) : Z := Z.shiftr (u32 (Z.land q 65535 * 100)) 16.

(** [FP(i, n, d)] for a 32-bit [n] and a constant [d]. *)
Definition FP (i f_n f_d : Z) : Z := u64 (u64 (Z.shiftl i FP_FRACTIONAL_BITS) + u32 (Z.shiftl f_n FP_FRACTIONAL_BITS) / f_d).
Definition fp_frac_base : Z := Z.ones FP_FRACTIONAL_BITS.
Definition fp_frac (a : Z) : Z := Z.land a (Z.ones FP_FRACTIONAL_BITS).
Definition fp_int (a : Z) : Z := Z.shiftr a FP_FRACTIONAL_BITS.
Definition fp_round (a : Z) : Z := u64 (fp_int a + (if fp_frac_base / 2 <=? fp_frac a then 1 else 0)).
Definition fp_mult (a b : Z) : Z := Z.shiftr (u64 (a * b)) FP_FRACTIONAL_BITS.
Definition fp_div (a b : Z) : option Z := if b =? 0 then None else Some (u64 (Z.shiftl a FP_FRACTIONAL_BITS) / b).

(** ** Voltage levels *)

Definition MMRM_VDD_LEVEL_LOW_SVS : Z := 0.
Definition MMRM_VDD_LEVEL_SVS : Z := 1.
Definition MMRM_VDD_LEVEL_SVS_L1 : Z := 2.
Definition MMRM_VDD_LEVEL_NOM : Z := 3.
Definition MMRM_VDD_LEVEL_TURBO : Z := 4.
Definition MMRM_VDD_LEVEL_MAX : Z := 5.

(** [for (i = 0; i < MMRM_VDD_LEVEL_MAX; i++)]. *)
Definition vdd_levels : list Z := [0; 1; 2; 3; 4].

Definition CLK_RATE_STEP : Z := 1000000.
Definition MAX_HW_DRV_INSTANCES : Z := 6.
Definition MAX_POWER_STATES : Z := 5.
Definition MMRM_MAX_THROTTLE_CLIENTS : Z := 5.
Definition CLK_MGR_SCHEME_SW : Z := 0.
Definition CLK_MGR_SCHEME_CXIPEAK : Z := 1.

(** The constants of kernel headers that are not part of the repository. *)
Record mmrm_uapi := mkMmrmUapi {
  MMRM_CLIENT_CLOCK : Z;
  MMRM_CLIENT_PRIOR_HIGH : Z;
  MMRM_CLIENT_DATA_FLAG_RESERVE_ONLY : Z;
  MMRM_CRM_SW_DRV : Z;
  MMRM_CLIENT_DOMAIN_CAMERA : Z;
  MMRM_CLIENT_DOMAIN_CVP : Z;
  MMRM_CLIENT_DOMAIN_DISPLAY : Z;
  MMRM_CLIENT_DOMAIN_VIDEO : Z;
  RPMH_REGULATOR_LEVEL_LOW_SVS : Z;
  RPMH_REGULATOR_LEVEL_SVS : Z;
  RPMH_REGULATOR_LEVEL_SVS_L1 : Z;
  RPMH_REGULATOR_LEVEL_NOM : Z;
  RPMH_REGULATOR_LEVEL_TURBO : Z;
}.

Definition mmrm_sw_vdd_corner (u : mmrm_uapi) : list Z :=
  [RPMH_REGULATOR_LEVEL_LOW_SVS u; RPMH_REGULATOR_LEVEL_SVS u; RPMH_REGULATOR_LEVEL_SVS_L1 u; RPMH_REGULATOR_LEVEL_NOM u;
   RPMH_REGULATOR_LEVEL_TURBO u].

(** ** Clients *)

(** What a client holds: the index of its entry and its kind. *)
Record mmrm_client := mkClient { client_uid : Z; client_type : Z }.

Record mmrm_clk_client_desc := mkClkDesc {
  client_domain : Z;
  client_id : Z;
  desc_clk : Z;
  desc_hw_drv_instances : Z;
  desc_num_pwr_states : Z;
}.

Record mmrm_client_desc := mkDesc {
  desc_client_type : Z;
  desc : mmrm_clk_client_desc;
  priority : Z;
  desc_pvt_data : Z;
  notifier_callback_fn : Z;
}.

(** The arguments of a request for a rate. *)
Record mmrm_client_data := mkData {
  data_num_hw_blocks : Z;
  data_flags : Z;
  drv_type : Z;
  crm_drv_idx : Z;
  pwr_st : Z;
}.

Record mmrm_client_res_value := mkResValue { val_min : Z; val_cur : Z; val_max : Z }.

(** An entry of the table; a pointer to a clock or to a function is its address.
    The name, which is only printed, and three fields that nothing uses are left
    out. *)
Record mmrm_sw_clk_client_tbl_entry := mkEntry {
  clk : Z;
  pri : Z;
  pvt_data : Z;
  notifier_cb_fn : Z;
  clk_src_id : Z;
  max_num_hw_blocks : Z;
  freq : list Z;
  dyn_pwr : list Z;
  leak_pwr : list Z;
  current_ma : list (list Z);
  client : option mmrm_client;
  clk_rate : Z;
  vdd_level : Z;
  reserve : bool;
  ref_count : Z;
  num_hw_blocks : Z;
  is_crm_client : bool;
  hw_drv_instances : Z;
  num_pwr_states : Z;
  max_rate_idx : Z;
  crm_client_tbl_size : Z;
  crm_client_tbl : option (list Z);
}.

#[export] Instance eta_mmrm_entry : Eta mmrm_sw_clk_client_tbl_entry.
Proof.
  refine (mkEta _ (fun e => mkEntry (clk e) (pri e) (pvt_data e) (notifier_cb_fn e) (clk_src_id e) (max_num_hw_blocks e)
    (freq e) (dyn_pwr e) (leak_pwr e) (current_ma e) (client e) (clk_rate e) (vdd_level e) (reserve e) (ref_count e)
    (num_hw_blocks e) (is_crm_client e) (hw_drv_instances e) (num_pwr_states e) (max_rate_idx e) (crm_client_tbl_size e)
    (crm_client_tbl e)) _).
  by intros [].
Defined.

(** An entry of the zeroed memory. *)
Definition zero_entry : mmrm_sw_clk_client_tbl_entry :=
  mkEntry 0 0 0 0 0 0 (replicate 5 0) (replicate 5 0) (replicate 5 0) (replicate 5 (replicate 5 0)) None 0 0 false 0 0 false 0 0 0 0 None.

(** [IS_ERR_OR_NULL]. *)
Definition is_err_or_null (p : Z) : bool := (p =? 0) || (2 ^ 64 - 4095 <=? p).

(** ** The manager *)

Record mmrm_sw_throttled_clients_data := mkThrottled { table_id : Z; delta_cu_ma : Z; prev_vdd_level : Z }.
Record mmrm_sw_peak_current_data := mkPeak { threshold : Z; aggreg_val : Z; aggreg_level : Z }.
Record mmrm_throttle_info := mkThrottleInfo { csid_throttle_client : Z; tbl_entry_id : Z }.

#[export] Instance eta_mmrm_peak : Eta mmrm_sw_peak_current_data.
Proof. refine (mkEta _ (fun p => mkPeak (threshold p) (aggreg_val p) (aggreg_level p)) _). by intros []. Defined.

Record mmrm_sw_clk_mgr_info := mkSwInfo {
  clk_client_tbl : list mmrm_sw_clk_client_tbl_entry;
  tot_clk_clients : Z;
  enabled_clk_clients : Z;
  throttle_clients_info : list mmrm_throttle_info;
  throttle_clients_data_length : Z;
  peak_cur_data : mmrm_sw_peak_current_data;
  throttled_clients : list mmrm_sw_throttled_clients_data;
}.

#[export] Instance eta_mmrm_sw_info : Eta mmrm_sw_clk_mgr_info.
Proof.
  refine (mkEta _ (fun i => mkSwInfo (clk_client_tbl i) (tot_clk_clients i) (enabled_clk_clients i) (throttle_clients_info i)
    (throttle_clients_data_length i) (peak_cur_data i) (throttled_clients i)) _).
  by intros [].
Defined.

(** The zeroed memory of a manager. *)
Definition zero_sw_info : mmrm_sw_clk_mgr_info := mkSwInfo [] 0 0 (replicate 5 (mkThrottleInfo 0 0)) 0 (mkPeak 0 0 0) [].

(** ** The resources of the platform *)

Record corner_info := mkCorner { volt_factor : Z; scaling_factor_dyn : Z; scaling_factor_leak : Z }.
Record nom_clk_src_info := mkNom { domain : Z; nom_clk_src_id : Z; nom_dyn_pwr : Z; nom_leak_pwr : Z; num_hw_block : Z }.

(** A null pointer to a table is the empty table. *)
Record mmrm_clk_platform_resources := mkRes {
  scheme : Z;
  clsid_threshold_clients : list Z;
  res_throttle_clients_data_length : Z;
  corner_tbl : list corner_info;
  clk_src_tbl : list nom_clk_src_info;
  nom_clk_count : Z;
  peak_threshold : Z;
}.

#[export] Instance eta_mmrm_res : Eta mmrm_clk_platform_resources.
Proof.
  refine (mkEta _ (fun r => mkRes (scheme r) (clsid_threshold_clients r) (res_throttle_clients_data_length r) (corner_tbl r)
    (clk_src_tbl r) (nom_clk_count r) (peak_threshold r)) _).
  by intros [].
Defined.

Definition zero_res : mmrm_clk_platform_resources := mkRes 0 (replicate 5 0) 0 [] [] 0 0.

(** ** The system

    Calls to the clock framework, to the callbacks of the clients and to the
    allocator are numbered; the functions give their results. *)
Record mmrm_system := mkMmrmSystem {
  uapi : mmrm_uapi;
  clk_round_rate_ret : nat -> Z -> Z -> Z;
  qcom_clk_get_voltage_ret : nat -> Z -> Z -> Z;
  clk_set_rate_ret : nat -> Z -> Z -> Z;
  qcom_clk_crm_set_rate_ret : nat -> Z -> Z -> Z -> Z -> Z;
  notifier_ret : nat -> Z -> Z -> Z -> Z -> Z;
  kzalloc_ok : nat -> bool;
}.

(** What the outside sees: the rates that were set and the notifications (the
    function, the old and the new rate, the data of the client). *)
Inductive mmrm_event :=
| SetRate (clk rate : Z)
| CrmSetRate (clk drv_idx pwr_st rate : Z)
| Notified (fn old_val new_val pvt : Z).

(** The global pointer to the driver's data: [-EPROBE_DEFER], null, or set. *)
Inductive drv_ptr := DrvDefer | DrvNull | DrvSet.

(** [dev_drvdata]: the pointer that the device keeps is set. *)
Record mmrm_state := mkMmrm {
  sysm : mmrm_system;
  drv_data : drv_ptr;
  dev_drvdata : bool;
  is_clk_scaling_supported : bool;
  clk_mgr_set : bool;
  clk_mgr_ops_set : bool;
  clk_res : mmrm_clk_platform_resources;
  sw_info : mmrm_sw_clk_mgr_info;
  mgr_locked : bool;
  msm_mmrm_enable_throttle_feature : Z;
  msm_mmrm_allow_multiple_register : Z;
  sys_calls : nat;
  events : list mmrm_event;
}.

#[export] Instance eta_mmrm_state : Eta mmrm_state.
Proof.
  refine (mkEta _ (fun s => mkMmrm (sysm s) (drv_data s) (dev_drvdata s) (is_clk_scaling_supported s) (clk_mgr_set s) (clk_mgr_ops_set s) (clk_res s)
    (sw_info s) (mgr_locked s) (msm_mmrm_enable_throttle_feature s) (msm_mmrm_allow_multiple_register s) (sys_calls s) (events s)) _).
  by intros [].
Defined.

Abbreviation MM := (M mmrm_state).

(** ** Access *)

(** The number of a call, and one more. *)
Definition next_call : MM nat := s ← getM; modify (fun s => s <| sys_calls ::= S |>) ;; mret (sys_calls s).
Definition record_event (e : mmrm_event) : MM unit := modify (fun s => s <| events ::= fun l => l ++ [e] |>).

Definition clk_round_rate (c rate : Z) : MM Z := n ← next_call; s ← getM; mret (clk_round_rate_ret (sysm s) n c rate).
Definition qcom_clk_get_voltage (c rate : Z) : MM Z := n ← next_call; s ← getM; mret (qcom_clk_get_voltage_ret (sysm s) n c rate).
Definition clk_set_rate (c rate : Z) : MM Z :=
  n ← next_call; record_event (SetRate c rate) ;; s ← getM; mret (clk_set_rate_ret (sysm s) n c rate).
Definition qcom_clk_crm_set_rate (c idx st rate : Z) : MM Z :=
  n ← next_call; record_event (CrmSetRate c idx st rate) ;; s ← getM; mret (qcom_clk_crm_set_rate_ret (sysm s) n c idx st rate).
Definition notify (fn old new pvt : Z) : MM Z :=
  n ← next_call; record_event (Notified fn old new pvt) ;; s ← getM; mret (notifier_ret (sysm s) n fn old new pvt).
Definition kzalloc : MM bool := n ← next_call; s ← getM; mret (kzalloc_ok (sysm s) n).

Definition mutex_lock : MM unit :=
  s ← getM; if mgr_locked s then failM Deadlock else modify (fun s => s <| mgr_locked := true |>).
Definition mutex_unlock : MM unit := modify (fun s => s <| mgr_locked := false |>).

Definition get_sinfo : MM mmrm_sw_clk_mgr_info := gets sw_info.
Definition upd_sinfo (f : mmrm_sw_clk_mgr_info -> mmrm_sw_clk_mgr_info) : MM unit := modify (fun s => s <| sw_info ::= f |>).
Definition upd_peak (f : mmrm_sw_peak_current_data -> mmrm_sw_peak_current_data) : MM unit := upd_sinfo (fun i => i <| peak_cur_data ::= f |>).
Definition get_entry (c : Z) : MM mmrm_sw_clk_client_tbl_entry := s ← getM; liftO OutOfBounds (zget (clk_client_tbl (sw_info s)) c).
Definition upd_entry (c : Z) (f : mmrm_sw_clk_client_tbl_entry -> mmrm_sw_clk_client_tbl_entry) : MM unit :=
  get_entry c ;; upd_sinfo (fun i => i <| clk_client_tbl ::= alter_rec f c |>).

(** The entries that a loop over all clients reads. *)
Definition all_entries : MM (list mmrm_sw_clk_client_tbl_entry) :=
  s ← getM;
  let i := sw_info s in
  if tot_clk_clients i <=? zlen (clk_client_tbl i) then mret (take (Z.to_nat (tot_clk_clients i)) (clk_client_tbl i)) else failM OutOfBounds.

(** [current_ma[i][j]]. *)
Definition current_at (e : mmrm_sw_clk_client_tbl_entry) (i j : Z) : option Z := row ← zget (current_ma e) i; zget row j.
