(* ===== verification/MmrmClk.v ===== *)
(** * The clock-resource manager

    [mmrm_clk_rsrc_mgr_sw.c]: the frequencies and currents of a client at each
    voltage level, the peak current of all clients and the admission of a rate,
    the throttling of clients of low priority, the votes of a client that several
    hardware drivers share. *)

From S2P Require Import Prelude MmrmState.

Local Open Scope Z_scope.

(** ** Frequencies *)

(** The first level of a corner, 5 when there is none. *)
Fixpoint match_level (corners : list Z) (voltage_corner i : Z) : Z :=
  match corners with
  | [] => i
  | c :: corners' => if voltage_corner =? c then i else match_level corners' voltage_corner (i + 1)
  end.

(** [while (i < MMRM_VDD_LEVEL_MAX) freq[i++] = val]. *)
Definition fill_from (i val : Z) (l : list Z) : list Z := take (Z.to_nat i) l ++ map (fun _ => val) (drop (Z.to_nat i) l).

Fixpoint freq_loop (fuel : nat) (c clk_val clk_val_min clk_val_max : Z) : MM unit :=
  match fuel with
  | O => failM Diverges
  | S fuel' =>
      if clk_val <? clk_val_max then
        e ← get_entry c;
        clk_val_round ← clk_round_rate (clk e) (u64 clk_val);
        if clk_val_min <? clk_val_round then
          voltage_corner ← qcom_clk_get_voltage (clk e) (u64 clk_val_round);
          s ← getM;
          let u := uapi (sysm s) in
          if (voltage_corner <? 0) || (RPMH_REGULATOR_LEVEL_TURBO u <? voltage_corner) then mret tt else
          let voltage_corner := if voltage_corner <? RPMH_REGULATOR_LEVEL_LOW_SVS u then RPMH_REGULATOR_LEVEL_LOW_SVS u else voltage_corner in
          let i := match_level (mmrm_sw_vdd_corner u) voltage_corner 0 in
          upd_entry c (fun e => e <| freq ::= fill_from i (u64 clk_val_round) |>) ;;
          freq_loop fuel' c (signed 64 (clk_val + CLK_RATE_STEP)) clk_val_round clk_val_max
        else freq_loop fuel' c (signed 64 (clk_val + CLK_RATE_STEP)) clk_val_min clk_val_max
      else mret tt
  end.

Definition mmrm_sw_update_freq (c : Z) : MM Z :=
  e ← get_entry c;
  clk_val_min ← clk_round_rate (clk e) 1;
  clk_val_max ← clk_round_rate (clk e) (2 ^ 64 - 1);
  upd_entry c (fun e => e <| freq := map (fun _ => u64 clk_val_min) vdd_levels |>) ;;
  freq_loop (S (Z.to_nat ((clk_val_max - clk_val_min) / CLK_RATE_STEP + 1))) c clk_val_min clk_val_min clk_val_max ;;
  mret 0.

(** ** Votes *)

(** The highest rate of all votes but the one at [skip], and its index; [idx] is
    the index when no vote is above [best]. *)
Fixpoint max_vote (tbl : list Z) (i skip best idx : Z) : Z * Z :=
  match tbl with
  | [] => (best, idx)
  | v :: tbl' =>
      if i =? skip then max_vote tbl' (i + 1) skip best idx
      else if best <? v then max_vote tbl' (i + 1) skip (u32 v) i
      else max_vote tbl' (i + 1) skip best idx
  end.

(** The index of the vote of a driver. *)
Definition vote_index (u : mmrm_uapi) (e : mmrm_sw_clk_client_tbl_entry) (d : mmrm_client_data) : Z :=
  if drv_type d =? MMRM_CRM_SW_DRV u then u32 (crm_client_tbl_size e - 1)
  else u32 (u32 (num_pwr_states e * crm_drv_idx d) + pwr_st d).

(** The highest rate after a vote and the index of it. *)
Definition mmrm_sw_get_max_crm_rate (e : mmrm_sw_clk_client_tbl_entry) (d : mmrm_client_data) (new_clk_val : Z) : MM (Z * Z) :=
  s ← getM;
  let crm_max_rate := u32 (clk_rate e) in
  let new_val_idx := vote_index (uapi (sysm s)) e d in
  if crm_max_rate <? new_clk_val then mret (u32 new_clk_val, new_val_idx)
  else if new_val_idx =? max_rate_idx e then
    tbl ← liftO NullDeref (crm_client_tbl e);
    tbl ← (if crm_client_tbl_size e <=? zlen tbl then mret (take (Z.to_nat (crm_client_tbl_size e)) tbl) else failM OutOfBounds);
    let '(rate, idx) := max_vote tbl 0 (max_rate_idx e) 0 (max_rate_idx e) in
    if rate <=? new_clk_val then mret (u32 new_clk_val, max_rate_idx e) else mret (rate, idx)
  else mret (crm_max_rate, max_rate_idx e).

(** ** Currents *)

(** A factor of the device tree as a fixed-point number. *)
Definition factor (q : Z) : Z := FP (Q16_INT q) (Q16_FRAC q) 100.

Fixpoint find_csid (entries : list mmrm_sw_clk_client_tbl_entry) (id c : Z) : option Z :=
  match entries with
  | [] => None
  | e :: entries' => if id =? clk_src_id e then Some c else find_csid entries' id (c + 1)
  end.

(** The dynamic and the leakage power at a level, as fixed-point numbers. *)
Definition level_power (nom : nom_clk_src_info) (e : mmrm_sw_clk_client_tbl_entry) (corner : corner_info) (i : Z) : outcome (Z * Z) :=
  match zget (freq e) i, zget (freq e) MMRM_VDD_LEVEL_NOM with
  | Some f, Some nom_freq =>
      match fp_div (fp_mult (factor (nom_dyn_pwr nom)) f) nom_freq with
      | Some pwr_mw => Done (fp_mult pwr_mw (factor (scaling_factor_dyn corner)),
                             fp_mult (factor (nom_leak_pwr nom)) (factor (scaling_factor_leak corner)))
      | None => Fault DivByZero
      end
  | _, _ => Fault OutOfBounds
  end.

(** The current for a power, when the common level is that of [corner]. *)
Definition level_current (dyn leak : Z) (corner : corner_info) : option Z :=
  q ← fp_div (u64 (dyn + leak)) (factor (volt_factor corner)); Some (u32 (fp_round q)).

Definition set_at (i x : Z) (l : list Z) : list Z := alter_rec (fun _ => x) i l.

(** The same part of a handler for every level. *)
Definition update_level (c : Z) (nom : nom_clk_src_info) (i : Z) : MM unit :=
  s ← getM;
  e ← get_entry c;
  corner ← liftO OutOfBounds (zget (corner_tbl (clk_res s)) i);
  match level_power nom e corner i with
  | Fault f => failM f
  | Done (dyn, leak) =>
      upd_entry c (fun e => e <| dyn_pwr ::= set_at i (u32 (fp_round dyn)) |> <| leak_pwr ::= set_at i (u32 (fp_round leak)) |>) ;;
      forM vdd_levels (fun j =>
        corner ← liftO OutOfBounds (zget (corner_tbl (clk_res s)) j);
        cur ← liftO DivByZero (level_current dyn leak corner);
        upd_entry c (fun e => e <| current_ma ::= alter_rec (set_at j cur) i |>))
  end.

Definition mmrm_sw_update_curr (c : Z) : MM Z :=
  s ← getM;
  e ← get_entry c;
  entries ← all_entries;
  match find_csid entries (clk_src_id e) 0 with
  | None => mret (- EINVAL)
  | Some k =>
      nom ← liftO OutOfBounds (zget (clk_src_tbl (clk_res s)) k);
      forM vdd_levels (update_level c nom) ;; mret 0
  end.

(** ** Registration *)

(** What the failures of a registration undo, the outer part last. *)
Definition drop_crm_table (e : mmrm_sw_clk_client_tbl_entry) : mmrm_sw_clk_client_tbl_entry :=
  e <| is_crm_client := false |> <| max_rate_idx := 0 |> <| hw_drv_instances := 0 |> <| num_pwr_states := 0 |> <| crm_client_tbl := None |>.
Definition drop_client (e : mmrm_sw_clk_client_tbl_entry) : mmrm_sw_clk_client_tbl_entry :=
  e <| client := None |> <| clk := 0 |> <| pri := 0 |> <| pvt_data := 0 |> <| notifier_cb_fn := 0 |>.

(** The vote table of a client that several drivers share: the return code and
    whether its memory was there. *)
Definition alloc_crm_table (c : Z) (d : mmrm_clk_client_desc) : MM Z :=
  if (0 <? desc_hw_drv_instances d) && (0 <? desc_num_pwr_states d) then
    let size := u32 (desc_hw_drv_instances d * desc_num_pwr_states d + 1) in
    upd_entry c (fun e => e <| crm_client_tbl_size := size |>) ;;
    ok ← kzalloc;
    if negb (ok : bool) then upd_entry c (fun e => e <| crm_client_tbl := None |>) ;; mret (- ENOMEM) else
    upd_entry c (fun e => e <| crm_client_tbl := Some (replicate (Z.to_nat size) 0) |> <| is_crm_client := true |> <| max_rate_idx := 0 |>
      <| hw_drv_instances := desc_hw_drv_instances d |> <| num_pwr_states := desc_num_pwr_states d |>) ;; mret 0
  else mret 0.

(** The part of a registration for a free entry. *)
Definition register_entry (c : Z) (d : mmrm_clk_client_desc) (priority pvt fn : Z) : MM (option mmrm_client) :=
  s ← getM;
  ok ← kzalloc;
  if negb (ok : bool) then upd_entry c drop_client ;; mret None else
  let cl := mkClient c (MMRM_CLIENT_CLOCK (uapi (sysm s))) in
  upd_entry c (fun e => e <| ref_count := 1 |> <| client := Some cl |> <| clk := desc_clk d |> <| pri := priority |> <| pvt_data := pvt |>
    <| notifier_cb_fn := fn |>) ;;
  if (MAX_HW_DRV_INSTANCES <? desc_hw_drv_instances d) || (MAX_POWER_STATES <? desc_num_pwr_states d)
  then upd_entry c drop_client ;; mret None else
  rc ← alloc_crm_table c d;
  if truthy rc then upd_entry c (fun e => drop_client (e <| crm_client_tbl_size := 0 |>)) ;; mret None else
  rc ← mmrm_sw_update_freq c;
  rc ← (if truthy rc then mret rc else mmrm_sw_update_curr c);
  if truthy rc then upd_entry c (fun e => drop_client (drop_crm_table e <| crm_client_tbl_size := 0 |>)) ;; mret None
  else mret (Some cl).

Definition mmrm_sw_clk_client_register (d : mmrm_clk_client_desc) (priority pvt fn : Z) : MM (option mmrm_client) :=
  mutex_lock ;;
  i ← get_sinfo;
  ret ← (if tot_clk_clients i =? enabled_clk_clients i then mret None else
    let id := Z.lor (u32 (Z.shiftl (client_domain d) 16)) (client_id d) in
    entries ← all_entries;
    match find_csid entries id 0 with
    | None => mret None
    | Some c =>
        e ← get_entry c;
        match client e with
        | Some cl =>
            s ← getM;
            if truthy (msm_mmrm_allow_multiple_register s)
            then upd_entry c (fun e => e <| ref_count ::= fun n => u32 (n + 1) |>) ;; mret (Some cl)
            else mret None
        | None => register_entry c d priority pvt fn
        end
    end);
  mutex_unlock ;; mret ret.

(** The fields that the last deregistration resets. *)
Definition reset_entry (e : mmrm_sw_clk_client_tbl_entry) : mmrm_sw_clk_client_tbl_entry :=
  drop_client (drop_crm_table e) <| vdd_level := 0 |> <| clk_rate := 0 |> <| crm_client_tbl_size := 0 |>.

Definition mmrm_sw_clk_client_deregister (cl : option mmrm_client) : MM Z :=
  match cl with
  | None => mret (- EINVAL)
  | Some cl =>
      i ← get_sinfo;
      if tot_clk_clients i <=? client_uid cl then mret (- EINVAL) else
      mutex_lock ;;
      let c := client_uid cl in
      upd_entry c (fun e => if 0 <? ref_count e then e <| ref_count ::= fun n => u32 (n - 1) |> else e) ;;
      upd_entry c (fun e => if ref_count e =? 0 then reset_entry e else e) ;;
      mutex_unlock ;; mret 0
  end.
