(* ===== verification/MmrmAdmit.v ===== *)
(** * The admission of clock rates

    The rest of [mmrm_clk_rsrc_mgr_sw.c]: the common voltage level and the sum of
    the currents that a request leads to, the test against the threshold, the
    throttling of other clients, and the operations on the rate of a client. *)

From S2P Require Import Prelude MmrmState MmrmClk.

Local Open Scope Z_scope.

(** ** Levels *)

Definition mmrm_sw_get_req_level (c clk_val : Z) : MM (Z * Z) :=
  e ← get_entry c;
  clk_round_val ← clk_round_rate (clk e) clk_val;
  voltage_corner ← qcom_clk_get_voltage (clk e) (u64 clk_round_val);
  s ← getM;
  let u := uapi (sysm s) in
  if (voltage_corner <? 0) || (RPMH_REGULATOR_LEVEL_TURBO u <? voltage_corner) then mret (voltage_corner, 0) else
  if voltage_corner <? RPMH_REGULATOR_LEVEL_LOW_SVS u then mret (0, MMRM_VDD_LEVEL_LOW_SVS) else
  let level := match_level (mmrm_sw_vdd_corner u) voltage_corner 0 in
  if level =? MMRM_VDD_LEVEL_MAX then mret (- EINVAL, 0) else mret (0, level).

(** Whether the entry takes part in the sums: it has a clock and a rate. *)
Definition has_rate (e : mmrm_sw_clk_client_tbl_entry) : bool := negb (is_err_or_null (clk e)) && truthy (clk_rate e).

(** Looks for another client at the common level; remembers the last one between
    that and the requested level. *)
Fixpoint level_search (entries : list mmrm_sw_clk_client_tbl_entry) (id req_level aggreg : Z) (next : option Z) : bool * option Z :=
  match entries with
  | [] => (false, next)
  | e :: entries' =>
      if negb (has_rate e) || (clk_src_id e =? id) then level_search entries' id req_level aggreg next
      else if vdd_level e =? aggreg then (true, next)
      else if (vdd_level e <? aggreg) && (req_level <? vdd_level e) then level_search entries' id req_level aggreg (Some (vdd_level e))
      else level_search entries' id req_level aggreg next
  end.

(** The return code and the adjusted level. *)
Definition mmrm_sw_check_req_level (id req_level : Z) : MM (Z * Z) :=
  if MMRM_VDD_LEVEL_MAX <=? req_level then mret (- EINVAL, req_level) else
  i ← get_sinfo;
  let aggreg := aggreg_level (peak_cur_data i) in
  if req_level <? aggreg then
    entries ← all_entries;
    let '(found, next) := level_search entries id req_level aggreg None in
    mret (0, if found : bool then aggreg
             else match next with Some l => if req_level <? l then l else req_level | None => req_level end)
  else mret (0, req_level).

(** ** Sums *)

(** The current of an entry at a common level. *)
Definition entry_current (e : mmrm_sw_clk_client_tbl_entry) (level : Z) : option Z :=
  cur ← current_at e (vdd_level e) level; Some (u32 (cur * num_hw_blocks e)).

Fixpoint sum_current (entries : list mmrm_sw_clk_client_tbl_entry) (i skip req_level sum : Z) : option Z :=
  match entries with
  | [] => Some sum
  | e :: entries' =>
      if negb (has_rate e) || (i =? skip) then sum_current entries' (i + 1) skip req_level sum
      else x ← entry_current e req_level; sum_current entries' (i + 1) skip req_level (u32 (sum + x))
  end.

Definition mmrm_sw_calculate_total_current (req_level c_new : Z) : MM (Z * Z) :=
  if MMRM_VDD_LEVEL_MAX <=? req_level then mret (- EINVAL, 0) else
  entries ← all_entries;
  sum ← liftO OutOfBounds (sum_current entries 0 c_new req_level 0);
  mret (0, sum).

(** ** Throttling *)

(** The entry of the throttle table with the index [i]. *)
Definition throttle_entry (i : Z) : MM Z :=
  s ← get_sinfo; info ← liftO OutOfBounds (zget (throttle_clients_info s) i); mret (tbl_entry_id info).

(** The clients in the order of the table, from the index [i]; [rc] is what the
    iteration before left.  The result and the rest of the excess. *)
Fixpoint throttle_loop (fuel : nat) (i rc delta_cur : Z) : MM (Z * Z) :=
  match fuel with
  | O => mret (rc, delta_cur)
  | S fuel' =>
      c ← throttle_entry i;
      e ← get_entry c;
      s ← get_sinfo;
      let level := aggreg_level (peak_cur_data s) in
      now_cur_ma ← liftO OutOfBounds (current_at e (vdd_level e) level);
      min_cur_ma ← liftO OutOfBounds (current_at e MMRM_VDD_LEVEL_LOW_SVS level);
      if (now_cur_ma <=? min_cur_ma) || (u32 (now_cur_ma - min_cur_ma) <=? u32 delta_cur) then throttle_loop fuel' (i + 1) rc delta_cur else
      old_val ← liftO OutOfBounds (zget (freq e) (vdd_level e));
      new_val ← liftO OutOfBounds (zget (freq e) MMRM_VDD_LEVEL_LOW_SVS);
      rc ← (if truthy (notifier_cb_fn e) then notify (notifier_cb_fn e) old_val new_val (pvt_data e) else mret rc);
      if truthy rc then throttle_loop fuel' (i + 1) rc delta_cur else
      rc ← (if reserve e then mret rc else clk_set_rate (clk e) new_val);
      if truthy rc then throttle_loop fuel' (i + 1) rc delta_cur else
      let delta_cur := s32 (delta_cur - (now_cur_ma - min_cur_ma)) in
      ok ← kzalloc;
      if negb (ok : bool) then mret (- ENOMEM, delta_cur) else
      upd_sinfo (fun s => s <| throttled_clients ::= fun l => l ++ [mkThrottled i (u32 (now_cur_ma - min_cur_ma)) (vdd_level e)] |>) ;;
      upd_entry c (fun e => e <| clk_rate := new_val |> <| vdd_level := MMRM_VDD_LEVEL_LOW_SVS |> <| reserve := false |>) ;;
      mret (rc, delta_cur)
  end.

Definition mmrm_sw_throttle_low_priority_client (delta_cur : Z) : MM (Z * Z) :=
  i ← get_sinfo; throttle_loop (Z.to_nat (throttle_clients_data_length i)) 0 0 delta_cur.

(** Tells the throttled clients for which there is room again; what their
    callbacks answer does not matter.  The clients that stay in the list. *)
Fixpoint reinstate_loop (l : list mmrm_sw_throttled_clients_data) : MM (list mmrm_sw_throttled_clients_data) :=
  match l with
  | [] => mret []
  | t :: l' =>
      i ← get_sinfo;
      let p := peak_cur_data i in
      if u32 (aggreg_val p + delta_cu_ma t) <=? threshold p then
        c ← throttle_entry (table_id t);
        e ← get_entry c;
        old_val ← liftO OutOfBounds (zget (freq e) MMRM_VDD_LEVEL_LOW_SVS);
        new_val ← liftO OutOfBounds (zget (freq e) (prev_vdd_level t));
        (if truthy (notifier_cb_fn e) then notify (notifier_cb_fn e) old_val new_val (pvt_data e) ;; mret tt else mret tt) ;;
        reinstate_loop l'
      else rest ← reinstate_loop l'; mret (t :: rest)
  end.

Definition mmrm_reinstate_throttled_client : MM unit :=
  i ← get_sinfo; rest ← reinstate_loop (throttled_clients i); upd_sinfo (fun i => i <| throttled_clients := rest |>).

(** ** The test against the threshold *)

Definition mmrm_sw_check_peak_current (c req_level clk_val num_hw_blocks' : Z) : MM Z :=
  e ← get_entry c;
  '(rc, adj_level) ← mmrm_sw_check_req_level (clk_src_id e) req_level;
  if truthy rc then mret rc else
  i ← get_sinfo;
  let p := peak_cur_data i in
  new_cur ← (if truthy (u32 clk_val) then cur ← liftO OutOfBounds (current_at e req_level adj_level); mret (u32 (cur * num_hw_blocks')) else mret 0);
  old_cur ← (if truthy (clk_rate e) then liftO OutOfBounds (entry_current e (aggreg_level p)) else mret 0);
  '(rc, peak_cur, delta_cur) ←
    (if negb (adj_level =? aggreg_level p) then
       '(rc, total) ← mmrm_sw_calculate_total_current adj_level c;
       mret (rc, u32 (total + new_cur), 0)
     else mret (0, aggreg_val p, s32 (new_cur - old_cur)));
  if truthy rc then mret rc else
  let sum := s32 (s32 peak_cur + delta_cur) in
  if sum <=? 0 then upd_peak (fun p => p <| aggreg_val := 0 |> <| aggreg_level := adj_level |>) ;; mret 0 else
  s ← getM;
  '(rc, delta_cur) ←
    (if threshold p <=? sum then
       if (pri e =? MMRM_CLIENT_PRIOR_HIGH (uapi (sysm s))) && (0 <? msm_mmrm_enable_throttle_feature s)
       then mmrm_sw_throttle_low_priority_client delta_cur
       else mret (- EINVAL, delta_cur)
     else mret (0, delta_cur));
  if truthy rc then mret rc else
  upd_peak (fun p => p <| aggreg_val := u32 (peak_cur + delta_cur) |> <| aggreg_level := adj_level |>) ;;
  mmrm_reinstate_throttled_client ;;
  mret 0.

(** ** The rate of a client *)

(** The call to the clock framework, [set_clk_rate:]. *)
Definition set_the_rate (e : mmrm_sw_clk_client_tbl_entry) (d : mmrm_client_data) (clk_val : Z) : MM Z :=
  s ← getM;
  rc ← (if negb (is_crm_client e) || (drv_type d =? MMRM_CRM_SW_DRV (uapi (sysm s)))
        then clk_set_rate (clk e) clk_val
        else qcom_clk_crm_set_rate (clk e) (crm_drv_idx d) (pwr_st d) clk_val);
  mret (if truthy rc then - EINVAL else 0).

(** The update of the entry after an admission. *)
Definition update_admitted (c : Z) (d : mmrm_client_data) (clk_val crm_max_rate idx req_level : Z) (req_reserve : bool) : MM unit :=
  e ← get_entry c;
  (if is_crm_client e then
     s ← getM;
     tbl ← liftO NullDeref (crm_client_tbl e);
     tbl ← liftO OutOfBounds (zset tbl (vote_index (uapi (sysm s)) e d) clk_val);
     upd_entry c (fun e => e <| max_rate_idx := u32 idx |> <| clk_rate := crm_max_rate |> <| crm_client_tbl := Some tbl |>)
   else upd_entry c (fun e => e <| clk_rate := clk_val |>)) ;;
  upd_entry c (fun e => e <| vdd_level := req_level |> <| reserve := req_reserve |> <| num_hw_blocks := data_num_hw_blocks d |>).

(** The part of a request behind the tests on its arguments. *)
Definition request_rate (c : Z) (d : mmrm_client_data) (clk_val crm_max_rate idx : Z) (req_reserve : bool) : MM Z :=
  e ← get_entry c;
  let rate := if is_crm_client e then crm_max_rate else clk_val in
  '(rc, req_level) ← (if truthy clk_val then mmrm_sw_get_req_level c rate else mret (0, 0));
  if truthy rc || (MMRM_VDD_LEVEL_MAX <=? req_level) then mret (- EINVAL) else
  if truthy clk_val && negb ((1 <=? data_num_hw_blocks d) && (data_num_hw_blocks d <=? max_num_hw_blocks e)) then mret (- EINVAL) else
  mutex_lock ;;
  rc ← mmrm_sw_check_peak_current c req_level rate (data_num_hw_blocks d);
  if truthy rc then mutex_unlock ;; mret rc else
  update_admitted c d clk_val crm_max_rate idx req_level req_reserve ;;
  mutex_unlock ;;
  e ← get_entry c;
  if req_reserve && negb (is_crm_client e) then mret 0 else set_the_rate e d clk_val.

Definition mmrm_sw_clk_client_setval (cl : option mmrm_client) (data : option mmrm_client_data) (clk_val : Z) : MM Z :=
  match cl with
  | None => mret (- EINVAL)
  | Some cl =>
      i ← get_sinfo;
      if tot_clk_clients i <=? client_uid cl then mret (- EINVAL) else
      match data with
      | None => mret (- EINVAL)
      | Some d =>
          let c := client_uid cl in
          e ← get_entry c;
          if is_err_or_null (clk e) then mret (- EINVAL) else
          if is_crm_client e && ((hw_drv_instances e <=? crm_drv_idx d) || (num_pwr_states e <=? pwr_st d)) then mret (- EINVAL) else
          '(crm_max_rate, idx) ← (if is_crm_client e then mmrm_sw_get_max_crm_rate e d clk_val else mret (0, 0));
          s ← getM;
          let req_reserve := truthy (Z.land (data_flags d) (MMRM_CLIENT_DATA_FLAG_RESERVE_ONLY (uapi (sysm s)))) in
          if (clk_rate e =? clk_val) && (num_hw_blocks e =? data_num_hw_blocks d) && negb (is_crm_client e) then
            if Bool.eqb (reserve e) req_reserve then mret 0 else
            mutex_lock ;; upd_entry c (fun e => e <| reserve := req_reserve |>) ;; mutex_unlock ;;
            if req_reserve then mret 0 else e ← get_entry c; set_the_rate e d clk_val
          else request_rate c d clk_val crm_max_rate idx req_reserve
      end
  end.

Definition mmrm_sw_clk_client_setval_inrange (cl : option mmrm_client) (data : option mmrm_client_data) (v : mmrm_client_res_value) : MM Z :=
  mmrm_sw_clk_client_setval cl data (val_cur v).

(** The return code and the values. *)
Definition mmrm_sw_clk_client_getval (cl : option mmrm_client) : MM (Z * option mmrm_client_res_value) :=
  match cl with
  | None => mret (- EINVAL, None)
  | Some cl =>
      i ← get_sinfo;
      if tot_clk_clients i <=? client_uid cl then mret (- EINVAL, None) else
      e ← get_entry (client_uid cl);
      if clk e =? 0 then mret (- EINVAL, None) else mret (0, Some (mkResValue (clk_rate e) (clk_rate e) (clk_rate e)))
  end.
