(* ===== verification/MmrmApi.v ===== *)
(** * The driver around the manager

    The set-up of the manager ([mmrm_init_sw_clk_mgr]), the tables of the device
    tree ([mmrm_res_parse.c]), the platforms ([mmrm_internal.c]), the dispatch
    ([mmrm_clk_rsrc_mgr.c]) and the exported functions ([msm_mmrm.c]). *)

From Stdlib Require Import Ascii String.
From S2P Require Import Prelude MmrmState MmrmClk MmrmAdmit.

Local Open Scope Z_scope.
Local Open Scope list_scope.

(** ** The manager *)

Definition prepare_entry (nom : nom_clk_src_info) (e : mmrm_sw_clk_client_tbl_entry) : mmrm_sw_clk_client_tbl_entry :=
  e <| clk_src_id := Z.lor (u32 (Z.shiftl (domain nom) 16)) (nom_clk_src_id nom) |> <| dyn_pwr ::= set_at MMRM_VDD_LEVEL_NOM (nom_dyn_pwr nom) |>
    <| leak_pwr ::= set_at MMRM_VDD_LEVEL_NOM (nom_leak_pwr nom) |> <| max_num_hw_blocks := num_hw_block nom |>.

Definition mmrm_sw_prepare_table : MM Z :=
  s ← getM;
  forM (map Z.of_nat (seq 0 (Z.to_nat (tot_clk_clients (sw_info s))))) (fun c =>
    nom ← liftO OutOfBounds (zget (clk_src_tbl (clk_res s)) c);
    upd_entry c (prepare_entry nom)) ;;
  mret 0.

(** The entry of the [i]-th client that may be throttled is looked up; when it
    is not there, its slot stays zero. *)
Definition resolve_throttle_client (i : Z) : MM unit :=
  s ← getM;
  entries ← all_entries;
  id ← liftO OutOfBounds (zget (clsid_threshold_clients (clk_res s)) i);
  match find_csid entries id 0 with
  | Some j =>
      l ← liftO OutOfBounds (zset (throttle_clients_info (sw_info s)) i (mkThrottleInfo id (u16 j)));
      upd_sinfo (fun x => x <| throttle_clients_info := l |>)
  | None => mret tt
  end.

Definition mmrm_init_sw_clk_mgr : MM Z :=
  ok ← kzalloc;
  if negb (ok : bool) then mret (- ENOMEM) else
  ok ← kzalloc;
  if negb (ok : bool) then modify (fun s => s <| clk_mgr_set := false |>) ;; mret (- ENOMEM) else
  s ← getM;
  let count := nom_clk_count (clk_res s) in
  upd_sinfo (fun _ => zero_sw_info <| clk_client_tbl := replicate (Z.to_nat count) zero_entry |> <| tot_clk_clients := count |>) ;;
  rc ← mmrm_sw_prepare_table;
  if truthy rc then modify (fun s => s <| clk_mgr_set := false |>) ;; mret (- ENOMEM) else
  upd_sinfo (fun x => x <| peak_cur_data := mkPeak (peak_threshold (clk_res s)) 0 0 |>
    <| throttle_clients_data_length := res_throttle_clients_data_length (clk_res s) |>) ;;
  forM (map Z.of_nat (seq 0 (Z.to_nat (res_throttle_clients_data_length (clk_res s))))) resolve_throttle_client ;;
  modify (fun s => s <| mgr_locked := false |> <| clk_mgr_set := true |>) ;; mret 0.

(** ** The platforms *)

Record mmrm_platform_data := mkPlatform {
  common_data : list (string * Z);
  throttle_clk_clients_data : list (Z * Z);
}.

Definition common_pt_data : list (string * Z) := [("qcom,mmrm_clk_mgr_scheme"%string, CLK_MGR_SCHEME_SW)].

Section Platforms.
Context (u : mmrm_uapi).

Definition common_pt_throttle_clients_data_pineapple : list (Z * Z) :=
  [(MMRM_CLIENT_DOMAIN_DISPLAY u, 62); (MMRM_CLIENT_DOMAIN_VIDEO u, 3); (MMRM_CLIENT_DOMAIN_CAMERA u, 88); (MMRM_CLIENT_DOMAIN_CVP u, 10);
   (MMRM_CLIENT_DOMAIN_CAMERA u, 2)].
Definition common_pt_throttle_clients_data_cliffs : list (Z * Z) :=
  [(MMRM_CLIENT_DOMAIN_DISPLAY u, 62); (MMRM_CLIENT_DOMAIN_VIDEO u, 3); (MMRM_CLIENT_DOMAIN_CAMERA u, 98); (MMRM_CLIENT_DOMAIN_CVP u, 10);
   (MMRM_CLIENT_DOMAIN_CAMERA u, 23)].

Definition mmrm_dt_match : list (string * mmrm_platform_data) :=
  let pineapple := mkPlatform common_pt_data common_pt_throttle_clients_data_pineapple in
  [("qcom,waipio-mmrm"%string, pineapple); ("qcom,kalama-mmrm"%string, pineapple); ("qcom,pineapple-mmrm"%string, pineapple);
   ("qcom,cliffs-mmrm"%string, mkPlatform common_pt_data common_pt_throttle_clients_data_cliffs)].

End Platforms.

Fixpoint assoc {A} (l : list (string * A)) (key : string) : option A :=
  match l with
  | [] => None
  | (k, v) :: l' => if String.eqb k key then Some v else assoc l' key
  end.

(** ** The device tree

    What the node of the device holds: the result of each read; a read that
    fails leaves the variable as it was, 0. *)
Record mmrm_dt := mkDt {
  dt_node : bool;
  dt_compatible : string;
  dt_is_msm_mmrm : bool;
  mm_rail_corners : Z;
  mm_rail_fact_volt : Z -> option Z;
  scaling_fact_dyn : Z -> option Z;
  scaling_fact_leak : Z -> option Z;
  mmrm_peak_threshold : option Z;
  mmrm_client_info_size : Z;
  mmrm_client_info : Z -> option Z;
}.

Definition sizeof_nom_clk_src_info : Z := 20.

Section Parse.
Context (dt : mmrm_dt).

Definition mmrm_get_platform_data (u : mmrm_uapi) : option mmrm_platform_data := assoc (mmrm_dt_match u) (dt_compatible dt).

Definition mmrm_find_key_value (pdata : mmrm_platform_data) (key : string) : Z := default 0 (assoc (common_data pdata) key).

Definition upd_res (f : mmrm_clk_platform_resources -> mmrm_clk_platform_resources) : MM unit := modify (fun s => s <| clk_res ::= f |>).

Definition mmrm_read_clk_pltfrm_rsrc_frm_drv_data (pdata : mmrm_platform_data) : MM Z :=
  upd_res (fun r => r <| scheme := u32 (mmrm_find_key_value pdata "qcom,mmrm_clk_mgr_scheme") |>
    <| res_throttle_clients_data_length := u16 (zlen (throttle_clk_clients_data pdata)) |>) ;;
  forM (map Z.of_nat (seq 0 (length (throttle_clk_clients_data pdata)))) (fun i =>
    s ← getM;
    '(dom, id) ← liftO OutOfBounds (zget (throttle_clk_clients_data pdata) i);
    l ← liftO OutOfBounds (zset (clsid_threshold_clients (clk_res s)) i (Z.lor (u32 (Z.shiftl dom 16)) id));
    upd_res (fun r => r <| clsid_threshold_clients := l |>)) ;;
  mret 0.

(** Without corners the table stays empty and the result is still 0. *)
Definition mmrm_load_mm_rail_corner_table : MM Z :=
  if mm_rail_corners dt <=? 0 then mret 0 else
  ok ← kzalloc;
  if negb (ok : bool) then upd_res (fun r => r <| corner_tbl := [] |>) ;; mret (- ENOMEM) else
  let corner c := mkCorner (default 0 (mm_rail_fact_volt dt c)) (default 0 (scaling_fact_dyn dt c)) (default 0 (scaling_fact_leak dt c)) in
  upd_res (fun r => r <| corner_tbl := map (fun c => corner (Z.of_nat c)) (seq 0 (Z.to_nat (mm_rail_corners dt))) |>) ;;
  mret 0.

(** A table whose size is wrong is left out, and the result is 0. *)
Definition mmrm_load_nom_clk_src_table : MM Z :=
  match mmrm_peak_threshold dt with
  | None => mret (- ENODEV)
  | Some th =>
      upd_res (fun r => r <| peak_threshold := th |>) ;;
      let size := mmrm_client_info_size dt in
      if (size <? sizeof_nom_clk_src_info) || truthy (size mod sizeof_nom_clk_src_info)
      then upd_res (fun r => r <| nom_clk_count := 0 |>) ;; mret 0 else
      ok ← kzalloc;
      if negb (ok : bool) then upd_res (fun r => r <| clk_src_tbl := [] |>) ;; mret (- ENOMEM) else
      let cell c k := default 0 (mmrm_client_info dt (c * 5 + k)) in
      let num := size / sizeof_nom_clk_src_info in
      upd_res (fun r => r <| nom_clk_count := num |>
        <| clk_src_tbl := map (fun c => let c := Z.of_nat c in mkNom (cell c 0) (cell c 1) (cell c 2) (cell c 3) (cell c 4)) (seq 0 (Z.to_nat num)) |>) ;;
      mret 0
  end.

Definition mmrm_free_rail_corner_table : MM unit := upd_res (fun r => r <| corner_tbl := [] |>).
Definition mmrm_free_nom_clk_src_table : MM unit := upd_res (fun r => r <| clk_src_tbl := [] |> <| nom_clk_count := 0 |>).

Definition mmrm_read_clk_pltfrm_rsrc_frm_dt : MM Z :=
  rc ← mmrm_load_mm_rail_corner_table;
  if truthy rc then mmrm_free_rail_corner_table ;; mret rc else
  s ← getM;
  if scheme (clk_res s) =? CLK_MGR_SCHEME_SW then
    rc ← mmrm_load_nom_clk_src_table;
    (if truthy rc then mmrm_free_nom_clk_src_table ;; mmrm_free_rail_corner_table else mret tt) ;; mret rc
  else if scheme (clk_res s) =? CLK_MGR_SCHEME_CXIPEAK then mmrm_free_rail_corner_table ;; mret (- EINVAL)
  else mret 0.

Definition mmrm_count_clk_clients_frm_dt : Z := mmrm_client_info_size dt / sizeof_nom_clk_src_info.

Definition mmrm_read_platform_resources (pdata : mmrm_platform_data) : MM Z :=
  if dt_node dt then
    rc ← mmrm_read_clk_pltfrm_rsrc_frm_drv_data pdata;
    if truthy rc then mret rc else mmrm_read_clk_pltfrm_rsrc_frm_dt
  else mret (- EINVAL).

Definition mmrm_free_platform_resources : MM Z := mmrm_free_nom_clk_src_table ;; mmrm_free_rail_corner_table ;; mret 0.

(** ** Set-up and removal *)

(** A scheme that is not known is no error here. *)
Definition mmrm_get_clk_mgr_ops : MM Z :=
  s ← getM;
  if scheme (clk_res s) =? CLK_MGR_SCHEME_SW then modify (fun s => s <| clk_mgr_ops_set := true |>) ;; mret 0
  else if scheme (clk_res s) =? CLK_MGR_SCHEME_CXIPEAK then mret (- EINVAL) else mret 0.

Definition mmrm_init : MM Z :=
  rc ← mmrm_get_clk_mgr_ops;
  if truthy rc then mret rc else
  s ← getM;
  if clk_mgr_ops_set s then mmrm_init_sw_clk_mgr else failM NullDeref.

Definition RESET_DRV_DATA : MM unit := modify (fun s => s <| drv_data := DrvDefer |>).

Definition msm_mmrm_probe_init : MM Z :=
  ok ← kzalloc;
  if negb (ok : bool) then modify (fun s => s <| drv_data := DrvNull |>) ;; mret (- ENOMEM) else
  modify (fun s => s <| drv_data := DrvSet |> <| is_clk_scaling_supported := false |> <| clk_mgr_set := false |> <| clk_mgr_ops_set := false |>
    <| clk_res := zero_res |>) ;;
  let clk_clients := mmrm_count_clk_clients_frm_dt in
  modify (fun s => s <| is_clk_scaling_supported := truthy clk_clients |>) ;;
  if negb (truthy clk_clients) then mret 0 else
  s ← getM;
  match mmrm_get_platform_data (uapi (sysm s)) with
  | None => RESET_DRV_DATA ;; mret (- EINVAL)
  | Some pdata =>
      modify (fun s => s <| dev_drvdata := true |>) ;;
      rc ← mmrm_read_platform_resources pdata;
      rc ← (if truthy rc then mret rc else mmrm_init);
      (if truthy rc then mmrm_free_platform_resources ;; RESET_DRV_DATA else mret tt) ;; mret rc
  end.

Definition msm_mmrm_probe : MM Z := if dt_is_msm_mmrm dt then msm_mmrm_probe_init else mret (- EINVAL).

End Parse.

Definition mmrm_destroy_sw_clk_mgr : MM Z :=
  upd_sinfo (fun x => x <| throttled_clients := [] |>) ;;
  s ← getM;
  if negb (clk_mgr_set s) then failM NullDeref else
  upd_sinfo (fun x => x <| clk_client_tbl := [] |>) ;; mret 0.

Definition mmrm_deinit : MM Z :=
  s ← getM;
  if negb (clk_mgr_ops_set s) then mret (- EINVAL) else
  rc ← mmrm_destroy_sw_clk_mgr;
  (if truthy rc then modify (fun s => s <| clk_mgr_set := false |>) else mret tt) ;; mret rc.

Definition msm_mmrm_remove : MM Z :=
  modify (fun s => s <| drv_data := if dev_drvdata s then DrvSet else DrvNull |>) ;;
  s ← getM;
  if negb (dev_drvdata s) then mret (- EINVAL) else
  (if is_clk_scaling_supported s then mmrm_deinit ;; mmrm_free_platform_resources ;; mret tt else mret tt) ;;
  modify (fun s => s <| dev_drvdata := false |>) ;; RESET_DRV_DATA ;; mret 0.

(** ** Dispatch

    The manager of the scheme that is supported has all operations. *)

Definition mmrm_clk_client_register (d : mmrm_client_desc) : MM (option mmrm_client) :=
  s ← getM;
  if negb (clk_mgr_set s) then mret None
  else mmrm_sw_clk_client_register (desc d) (priority d) (desc_pvt_data d) (notifier_callback_fn d).

Definition mmrm_clk_client_deregister (cl : option mmrm_client) : MM Z :=
  s ← getM; if negb (clk_mgr_set s) then mret (- EINVAL) else mmrm_sw_clk_client_deregister cl.

Definition mmrm_clk_client_setval (cl : option mmrm_client) (d : option mmrm_client_data) (v : Z) : MM Z :=
  s ← getM; if negb (clk_mgr_set s) then mret (- EINVAL) else mmrm_sw_clk_client_setval cl d v.

Definition mmrm_clk_client_setval_inrange (cl : option mmrm_client) (d : option mmrm_client_data) (v : mmrm_client_res_value) : MM Z :=
  s ← getM; if negb (clk_mgr_set s) then mret (- EINVAL) else mmrm_sw_clk_client_setval_inrange cl d v.

Definition mmrm_clk_client_getval (cl : option mmrm_client) : MM (Z * option mmrm_client_res_value) :=
  s ← getM; if negb (clk_mgr_set s) then mret (- EINVAL, None) else mmrm_sw_clk_client_getval cl.

(** ** The exported functions

    Before the probe the functions return what they start with; a null pointer
    to the driver's data is followed. *)

Definition with_drv {A} (deferred : A) (k : mmrm_state -> MM A) : MM A :=
  s ← getM;
  match drv_data s with
  | DrvDefer => mret deferred
  | DrvNull => failM NullDeref
  | DrvSet => k s
  end.

Definition mmrm_client_check_scaling_supported (kind domain : Z) : MM bool :=
  s ← getM;
  match drv_data s with
  | DrvDefer => mret false
  | _ => if kind =? MMRM_CLIENT_CLOCK (uapi (sysm s))
         then match drv_data s with DrvNull => failM NullDeref | _ => mret (is_clk_scaling_supported s) end else mret true
  end.

Definition mmrm_client_register (d : option mmrm_client_desc) : MM (option mmrm_client) :=
  match d with
  | None => mret None
  | Some d =>
      s ← getM;
      match drv_data s with
      | DrvDefer => mret None
      | _ =>
          if negb (desc_client_type d =? MMRM_CLIENT_CLOCK (uapi (sysm s))) then mret None else
          with_drv None (fun s => if is_clk_scaling_supported s then mmrm_clk_client_register d else mret None)
      end
  end.

(** The part that the operations on a client share: the arguments, the probe, the
    kind of the client, whether clocks are managed at all. *)
Definition for_client {A} (invalid skip : A) (cl : option mmrm_client) (args : bool) (op : MM A) : MM A :=
  match cl with
  | None => mret invalid
  | Some c =>
      if negb args then mret invalid else
      s ← getM;
      match drv_data s with
      | DrvDefer => mret skip
      | _ =>
          if negb (client_type c =? MMRM_CLIENT_CLOCK (uapi (sysm s))) then mret skip else
          with_drv skip (fun s => if is_clk_scaling_supported s then op else mret skip)
      end
  end.

Definition mmrm_client_deregister (cl : option mmrm_client) : MM Z :=
  for_client (- EINVAL) 0 cl true (mmrm_clk_client_deregister cl).

Definition mmrm_client_set_value (cl : option mmrm_client) (d : option mmrm_client_data) (v : Z) : MM Z :=
  for_client (- EINVAL) 0 cl (bool_decide (is_Some d)) (mmrm_clk_client_setval cl d v).

Definition mmrm_client_set_value_in_range (cl : option mmrm_client) (d : option mmrm_client_data) (v : option mmrm_client_res_value) : MM Z :=
  match v with
  | None => mret (- EINVAL)
  | Some v => for_client (- EINVAL) 0 cl (bool_decide (is_Some d)) (mmrm_clk_client_setval_inrange cl d v)
  end.

(** [has_val]: the pointer for the values is not null. *)
Definition mmrm_client_get_value (cl : option mmrm_client) (has_val : bool) : MM (Z * option mmrm_client_res_value) :=
  for_client (- EINVAL, None) (0, None) cl has_val (mmrm_clk_client_getval cl).

(** The pointer to the manager is not tested. *)
Definition mmrm_client_get_clk_count : MM Z :=
  with_drv 0 (fun s => if clk_mgr_set s then mret (tot_clk_clients (sw_info s)) else failM NullDeref).

(** ** The parameters in sysfs *)

(** The base of a number that is written, from its second character; an empty
    string has none, but the buffer does. *)
Definition sysfs_base (buf : string) : Z :=
  match String.get 1 buf with
  | Some c => if Ascii.eqb c "x" || Ascii.eqb c "X" then 16 else 10
  | None => 10
  end.

Section Sysfs.
Context (kstrtou32 : string -> Z -> option Z).

Definition sysfs_get_param (buf : string) : option Z := kstrtou32 buf (sysfs_base buf).

Definition mmrm_sysfs_enable_throttle_set (buf : string) (count : Z) : MM Z :=
  match sysfs_get_param buf with
  | Some v => modify (fun s => s <| msm_mmrm_enable_throttle_feature := u8 v |>) ;; mret count
  | None => mret count
  end.

Definition mmrm_sysfs_allow_multiple_set (buf : string) (count : Z) : MM Z :=
  match sysfs_get_param buf with
  | Some v => modify (fun s => s <| msm_mmrm_allow_multiple_register := u8 v |>) ;; mret count
  | None => mret count
  end.

End Sysfs.
