(* ===== verification/MmrmCurr.v ===== *)
(** * What the clients draw

    The sums behind an admission: the current of a client at a common voltage
    level, the current of all clients, and that [mmrm_clk_rsrc_mgr_sw.c] computes
    them; the shape of the tables that every access relies on. *)

From S2P Require Import Prelude MmrmState MmrmClk MmrmAdmit.

Local Open Scope Z_scope.

(** ** Sums over lists *)

Definition sumZ {A} (f : A -> Z) (l : list A) : Z := foldr (fun x z => f x + z) 0 l.
#[global] Arguments sumZ {A} f l : simpl never.

Section Sums.
Context {A : Type}.
Implicit Types (f g : A -> Z) (l : list A).

Lemma sumZ_cons f x l : sumZ f (x :: l) = f x + sumZ f l.
Proof. done. Qed.

Lemma sumZ_insert f l i x y : l !! i = Some x -> sumZ f (<[i := y]> l) = sumZ f l - f x + f y.
Proof.
  revert i. induction l as [|z l IH]; intros [|i] H; try done.
  - injection H as ->. change (<[0%nat := y]> (x :: l)) with (y :: l). rewrite !sumZ_cons. lia.
  - change (<[S i := y]> (z :: l)) with (z :: <[i := y]> l). rewrite !sumZ_cons, (IH i H). lia.
Qed.

Lemma sumZ_le f g l : Forall (fun x => f x <= g x) l -> sumZ f l <= sumZ g l.
Proof. induction 1; [done|]. rewrite !sumZ_cons. lia. Qed.

Lemma sumZ_nonneg f l : Forall (fun x => 0 <= f x) l -> 0 <= sumZ f l.
Proof. induction 1; [done|]. rewrite sumZ_cons. lia. Qed.

Lemma sumZ_zero f l : Forall (fun x => f x = 0) l -> sumZ f l = 0.
Proof. induction 1; [done|]. rewrite sumZ_cons. lia. Qed.

Lemma sumZ_elem f l x : Forall (fun x => 0 <= f x) l -> x ∈ l -> f x <= sumZ f l.
Proof.
  intros H. induction 1 as [x l|x y l _ IH]; inversion_clear H; rewrite sumZ_cons.
  - pose proof (sumZ_nonneg f l ltac:(done)). lia.
  - specialize (IH ltac:(done)). lia.
Qed.

End Sums.

(** The largest of a list of numbers that are not negative. *)
Definition maxZ (l : list Z) : Z := foldr Z.max 0 l.

Lemma maxZ_elem l x : x ∈ l -> x <= maxZ l.
Proof. unfold maxZ. induction 1 as [x l|x y l _ IH]; cbn; lia. Qed.

Lemma maxZ_le l m : Forall (fun v => 0 <= v <= m) l -> maxZ l <= Z.max 0 m.
Proof. unfold maxZ. induction 1; cbn; lia. Qed.

Lemma maxZ_nonneg l : 0 <= maxZ l.
Proof. unfold maxZ. induction l; cbn; lia. Qed.

(** ** The shape of the tables *)

(** The vote table of a client that several drivers share has a cell for each
    driver and power state, and one for the software. *)
Definition crm_shape (e : mmrm_sw_clk_client_tbl_entry) : Prop :=
  is_crm_client e = true ->
  exists tbl, crm_client_tbl e = Some tbl /\ zlen tbl = crm_client_tbl_size e /\
    crm_client_tbl_size e = hw_drv_instances e * num_pwr_states e + 1 /\ 0 <= hw_drv_instances e <= MAX_HW_DRV_INSTANCES /\
    0 <= num_pwr_states e <= MAX_POWER_STATES.

Record entry_shape (e : mmrm_sw_clk_client_tbl_entry) : Prop := mkEntryShape {
  es_level : 0 <= vdd_level e < 5;
  es_freq : zlen (freq e) = 5;
  es_rows : zlen (current_ma e) = 5;
  es_cells : Forall (fun row => zlen row = 5 /\ Forall (is_word 32) row) (current_ma e);
  es_blocks : 0 <= max_num_hw_blocks e;
  es_crm : crm_shape e;
  es_free : client e = None -> clk e = 0 /\ clk_rate e = 0 /\ vdd_level e = 0 /\ is_crm_client e = false;
}.

Definition throttled_ok (i : mmrm_sw_clk_mgr_info) (t : mmrm_sw_throttled_clients_data) : Prop :=
  0 <= table_id t < zlen (throttle_clients_info i) /\ 0 <= prev_vdd_level t < 5.

(** What every operation relies on, but for the lock. *)
Record mgr_shape (s : mmrm_state) : Prop := mkMgrShape {
  ms_tot : tot_clk_clients (sw_info s) = zlen (clk_client_tbl (sw_info s));
  ms_entries : Forall entry_shape (clk_client_tbl (sw_info s));
  ms_level : 0 <= aggreg_level (peak_cur_data (sw_info s)) < 5;
  ms_len : 0 <= throttle_clients_data_length (sw_info s) <= zlen (throttle_clients_info (sw_info s));
  ms_info : Forall (fun t => 0 <= tbl_entry_id t < zlen (clk_client_tbl (sw_info s))) (throttle_clients_info (sw_info s));
  ms_throttled : Forall (throttled_ok (sw_info s)) (throttled_clients (sw_info s));
  ms_corners : 5 <= zlen (corner_tbl (clk_res s));
  ms_volt : Forall (fun k => factor (volt_factor k) <> 0) (corner_tbl (clk_res s));
  ms_nom : zlen (clk_client_tbl (sw_info s)) <= zlen (clk_src_tbl (clk_res s));
}.

(** ** Currents *)

Definition cell (e : mmrm_sw_clk_client_tbl_entry) (i j : Z) : Z := default 0 (current_at e i j).

(** The current of a client when [level] is the common level. *)
Definition weight (level : Z) (e : mmrm_sw_clk_client_tbl_entry) : Z :=
  if has_rate e then cell e (vdd_level e) level * num_hw_blocks e else 0.

(** The current of all clients. *)
Definition total (level : Z) (l : list mmrm_sw_clk_client_tbl_entry) : Z := sumZ (weight level) l.

(** The most that a client can draw, and that all of them fit in a signed word. *)
Definition worst (e : mmrm_sw_clk_client_tbl_entry) : Z := maxZ (concat (current_ma e)) * max_num_hw_blocks e.
Definition fits (l : list mmrm_sw_clk_client_tbl_entry) : Prop := sumZ worst l < 2 ^ 31.

(** A client with a rate has as many blocks as it may have. *)
Definition counted (e : mmrm_sw_clk_client_tbl_entry) : Prop := has_rate e = true -> 0 <= num_hw_blocks e <= max_num_hw_blocks e.

Lemma cell_in e i j :
  entry_shape e -> 0 <= i < 5 -> 0 <= j < 5 -> current_at e i j = Some (cell e i j) /\ is_word 32 (cell e i j) /\ cell e i j <= maxZ (concat (current_ma e)).
Proof.
  intros He Hi Hj. unfold cell, current_at. destruct (zget_is_Some (current_ma e) i) as [row Hr]; [pose proof (es_rows _ He); lia|].
  rewrite Hr. cbn. destruct (forall_zget _ _ _ _ (es_cells _ He) Hr) as [Hl Hw].
  destruct (zget_is_Some row j) as [x Hx]; [lia|]. rewrite Hx. cbn. split; [done|]. split; [exact (forall_zget _ _ _ _ Hw Hx)|].
  apply maxZ_elem, list_elem_of_In, in_concat. exists row. rewrite zget_to_nat in Hr by lia. rewrite zget_to_nat in Hx by lia.
  split; apply list_elem_of_In; by eapply list_elem_of_lookup_2.
Qed.

Lemma weight_range level e : entry_shape e -> counted e -> 0 <= level < 5 -> 0 <= weight level e <= worst e.
Proof.
  intros He Hc Hl. unfold weight, worst. pose proof (es_blocks _ He). pose proof (maxZ_nonneg (concat (current_ma e))).
  destruct (has_rate e) eqn:Hr; [|nia]. specialize (Hc Hr).
  destruct (cell_in e (vdd_level e) level He (es_level _ He) Hl) as (_&Hw&Hm). unfold is_word in Hw. nia.
Qed.

Lemma total_range level l : Forall entry_shape l -> Forall counted l -> 0 <= level < 5 -> 0 <= total level l <= sumZ worst l.
Proof.
  intros Hs Hc Hl. assert (H : Forall (fun e => 0 <= weight level e <= worst e) l).
  { apply Forall_forall. intros e He. rewrite Forall_forall in Hs, Hc. apply weight_range; auto. }
  split; [apply sumZ_nonneg|apply sumZ_le]; eapply Forall_impl; try exact H; cbn; lia.
Qed.

Lemma worst_elem l e : Forall entry_shape l -> e ∈ l -> worst e <= sumZ worst l.
Proof.
  intros Hs He. apply sumZ_elem; [|done]. eapply Forall_impl; [exact Hs|]. intros e' He'. unfold worst.
  pose proof (es_blocks _ He'). pose proof (maxZ_nonneg (concat (current_ma e'))). nia.
Qed.

(** The current of an entry as the code computes it. *)
Lemma entry_current_run level e :
  entry_shape e -> counted e -> 0 <= level < 5 -> worst e < 2 ^ 31 -> has_rate e = true -> entry_current e level = Some (weight level e).
Proof.
  intros He Hc Hl Hf Hr. pose proof (weight_range level e He Hc Hl) as Hw. unfold entry_current.
  destruct (cell_in e (vdd_level e) level He (es_level _ He) Hl) as (->&_&_). cbn. unfold weight in *. rewrite Hr in *.
  by wsmall.
Qed.

(** The sum over the entries but one. *)
Definition but (f : mmrm_sw_clk_client_tbl_entry -> Z) (l : list mmrm_sw_clk_client_tbl_entry) (k : Z) : Z :=
  sumZ f l - default 0 (f <$> zget l k).

Lemma but_nil f k : but f [] k = 0.
Proof. unfold but, zget. by case_bool_decide. Qed.

Lemma but_cons f e l k : but f (e :: l) k = (if k =? 0 then 0 else f e) + but f l (k - 1).
Proof.
  unfold but. rewrite sumZ_cons. destruct (Z.eqb_spec k 0) as [->|Hk].
  - unfold zget. rewrite bool_decide_true, bool_decide_false by lia. change (Z.to_nat 0) with 0%nat. cbn. lia.
  - unfold zget. case_bool_decide; case_bool_decide; try (cbn; lia). replace (Z.to_nat k) with (S (Z.to_nat (k - 1))) by lia. cbn. destruct (l !! Z.to_nat (k - 1)); cbn; lia.
Qed.

Lemma sum_current_run level skip l i sum :
  Forall entry_shape l -> Forall counted l -> 0 <= level < 5 -> 0 <= sum -> sum + sumZ worst l < 2 ^ 31 ->
  sum_current l i skip level sum = Some (sum + but (weight level) l (skip - i)).
Proof.
  intros Hs. revert i sum. induction Hs as [|e l He Hs IH]; intros i sum Hc Hl H0 Hf; [rewrite but_nil; cbn; f_equal; lia|].
  inversion_clear Hc as [|? ? Hce Hc']. rewrite sumZ_cons in Hf. pose proof (weight_range level e He Hce Hl) as Hw.
  assert (0 <= sumZ worst l) by (pose proof (total_range level l Hs Hc' Hl); lia).
  rewrite but_cons. cbn [sum_current]. replace (skip - i - 1) with (skip - (i + 1)) by lia.
  destruct (Z.eqb_spec i skip) as [->|Hi].
  - rewrite orb_true_r, Z.sub_diag. cbn. rewrite IH; [f_equal; lia|done..|lia].
  - replace (skip - i =? 0) with false by lia. rewrite orb_false_r. destruct (has_rate e) eqn:Hr; cbn.
    + rewrite entry_current_run by (done || lia). cbn. wsmall. rewrite IH by (done || lia). f_equal. lia.
    + assert (Hz : weight level e = 0) by (unfold weight; rewrite Hr; done). rewrite Hz. rewrite IH; [f_equal; lia|done..|lia].
Qed.

Lemma sum_current_some level skip l i sum :
  Forall entry_shape l -> 0 <= level < 5 -> is_Some (sum_current l i skip level sum).
Proof.
  intros Hs Hl. revert i sum. induction Hs as [|e l He Hs IH]; intros i sum; cbn [sum_current]; [done|].
  destruct (negb (has_rate e) || (i =? skip)); [apply IH|]. unfold entry_current.
  destruct (cell_in e (vdd_level e) level He (es_level _ He) Hl) as (->&_&_). cbn. apply IH.
Qed.

(** ** Levels *)

(** The common level that a request for [req_level] leads to. *)
Definition adjusted (l : list mmrm_sw_clk_client_tbl_entry) (id req_level aggreg : Z) : Z :=
  if req_level <? aggreg then
    let '(found, next) := level_search l id req_level aggreg None in
    if found : bool then aggreg else match next with Some k => if req_level <? k then k else req_level | None => req_level end
  else req_level.

Lemma level_search_next l id req aggreg next found next' :
  level_search l id req aggreg next = (found, next') -> (forall k, next = Some k -> req < k < aggreg) -> forall k, next' = Some k -> req < k < aggreg.
Proof.
  revert next. induction l as [|e l IH]; intros next H Hn; cbn [level_search] in H; [by injection H as _ <-|].
  repeat case_match; try (by eapply IH); [by injection H as _ <-|]. eapply IH; [exact H|]. intros k [= <-]. lia.
Qed.

Lemma adjusted_range l id req aggreg : req <= adjusted l id req aggreg <= Z.max req aggreg.
Proof.
  unfold adjusted. destruct (Z.ltb_spec req aggreg); [|lia]. destruct (level_search _ _ _ _ _) as [[] next] eqn:E; [lia|].
  destruct next as [k|]; [|lia]. pose proof (level_search_next _ _ _ _ _ _ _ E ltac:(done) k eq_refl). destruct (Z.ltb_spec req k); lia.
Qed.
