(* ===== verification/MmrmPeak.v ===== *)
(** * The test against the threshold

    What [mmrm_sw_check_peak_current] does when no other client is throttled: it
    compares the exact sum of all currents at the new common level with the
    threshold. *)

From S2P Require Import Prelude MmrmState MmrmClk MmrmAdmit MmrmCurr.

Local Open Scope Z_scope.

(** ** States that differ in what is outside *)

(** Without the calls to the outside. *)
Definition hush (s : mmrm_state) : mmrm_state := s <| sys_calls := 0%nat |> <| events := [] |>.

(** And without the list of throttled clients. *)
Definition quiet (s : mmrm_state) : mmrm_state := hush s <| sw_info ::= fun i => i <| throttled_clients := [] |> |>.

Lemma shape_of s s' : sw_info s' = sw_info s -> clk_res s' = clk_res s -> mgr_shape s -> mgr_shape s'.
Proof. intros H1 H2 []. by split; rewrite ?H1, ?H2. Qed.

Lemma shape_hush s s' : hush s' = hush s -> mgr_shape s -> mgr_shape s'.
Proof. intros H. apply shape_of; [exact (f_equal sw_info H)|exact (f_equal clk_res H)]. Qed.

Lemma quiet_hush s s' : hush s' = hush s -> quiet s' = quiet s.
Proof. intros H. exact (f_equal (fun x => x <| sw_info ::= fun i => i <| throttled_clients := [] |> |>) H). Qed.

(** The state with another table, peak or list of throttled clients. *)
Definition with_entry (c : Z) (e : mmrm_sw_clk_client_tbl_entry) (s : mmrm_state) : mmrm_state :=
  s <| sw_info ::= fun i => i <| clk_client_tbl ::= fun l => <[Z.to_nat c := e]> l |> |>.
Definition with_peak (v level : Z) (s : mmrm_state) : mmrm_state :=
  s <| sw_info ::= fun i => i <| peak_cur_data ::= fun p => p <| aggreg_val := v |> <| aggreg_level := level |> |> |>.

Lemma shape_peak s v level : mgr_shape s -> 0 <= level < 5 -> mgr_shape (with_peak v level s).
Proof. by intros [] ?. Qed.

Lemma shape_entry s c e : mgr_shape s -> 0 <= c -> entry_shape e -> mgr_shape (with_entry c e s).
Proof.
  intros [Ht He ? ? Hi ? ? ? Hn] Hc Hs. split; cbn in *; rewrite ?zlen_insert; try done.
  by apply Forall_insert.
Qed.

(** ** Access *)

Lemma get_entry_run s c e : zget (clk_client_tbl (sw_info s)) c = Some e -> get_entry c s = Done (e, s).
Proof. intros H. unfold get_entry. rewrite getM_run, H. done. Qed.

Lemma upd_entry_run s c e f : zget (clk_client_tbl (sw_info s)) c = Some e -> upd_entry c f s = Done (tt, with_entry c (f e) s).
Proof.
  intros H. unfold upd_entry. rewrite (bind_run _ _ _ _ _ (get_entry_run _ _ _ H)). unfold upd_sinfo, modify, with_entry. do 2 f_equal.
  destruct s as [? ? ? ? ? ? ? i ? ? ? ? ?]. cbn in H |- *. f_equal. destruct i. cbn in H |- *. f_equal. by apply alter_rec_set.
Qed.

Lemma with_entry_get s c e e' : zget (clk_client_tbl (sw_info s)) c = Some e -> zget (clk_client_tbl (sw_info (with_entry c e' s))) c = Some e'.
Proof. intros H%zget_Some. cbn. by apply zget_insert_eq. Qed.

Lemma with_entry_twice s c e e' : with_entry c e' (with_entry c e s) = with_entry c e' s.
Proof.
  unfold with_entry. destruct s as [? ? ? ? ? ? ? i ? ? ? ? ?]. cbn. f_equal. destruct i. cbn. f_equal. apply list_insert_insert_eq.
Qed.

Lemma entry_in s c e : zget (clk_client_tbl (sw_info s)) c = Some e -> e ∈ clk_client_tbl (sw_info s) /\ 0 <= c.
Proof. intros H. pose proof (zget_Some _ _ _ H). rewrite zget_to_nat in H by lia. split; [by eapply list_elem_of_lookup_2|lia]. Qed.

Lemma entry_shape_of s c e : mgr_shape s -> zget (clk_client_tbl (sw_info s)) c = Some e -> entry_shape e.
Proof. intros Hs. by apply forall_zget, (ms_entries _ Hs). Qed.

Lemma all_entries_run s : mgr_shape s -> all_entries s = Done (clk_client_tbl (sw_info s), s).
Proof.
  intros Hs. unfold all_entries. rewrite getM_run. cbv zeta. rewrite (ms_tot _ Hs), Z.leb_refl. unfold zlen.
  rewrite Nat2Z.id, firstn_all. done.
Qed.

(** A cell of the currents, in a program. *)
Lemma cell_run {B} e i j (k : Z -> MM B) s :
  entry_shape e -> 0 <= i < 5 -> 0 <= j < 5 -> (liftO OutOfBounds (current_at e i j) ≫= k) s = k (cell e i j) s.
Proof. intros He Hi Hj. destruct (cell_in e i j He Hi Hj) as (->&_). done. Qed.

(** ** The parts of the test *)

Lemma check_req_level_run s id req :
  mgr_shape s -> 0 <= req < 5 ->
  mmrm_sw_check_req_level id req s = Done ((0, adjusted (clk_client_tbl (sw_info s)) id req (aggreg_level (peak_cur_data (sw_info s)))), s).
Proof.
  intros Hs Hr. unfold mmrm_sw_check_req_level, MMRM_VDD_LEVEL_MAX. replace (5 <=? req) with false by lia.
  unfold get_sinfo. change ((gets sw_info ≫= ?k) s) with (k (sw_info s) s). cbv beta zeta. unfold adjusted.
  destruct (req <? _); [|done]. rewrite (bind_run _ _ _ _ _ (all_entries_run s Hs)).
  by destruct (level_search _ _ _ _ _) as [[] []].
Qed.

(** The accounts: what the manager believes is drawn is drawn. *)
Record accounts (s : mmrm_state) : Prop := mkAccounts {
  ac_counted : Forall counted (clk_client_tbl (sw_info s));
  ac_fits : fits (clk_client_tbl (sw_info s));
  ac_exact : aggreg_val (peak_cur_data (sw_info s)) = total (aggreg_level (peak_cur_data (sw_info s))) (clk_client_tbl (sw_info s));
}.

Lemma total_current_run s level c e :
  mgr_shape s -> accounts s -> 0 <= level < 5 -> zget (clk_client_tbl (sw_info s)) c = Some e ->
  mmrm_sw_calculate_total_current level c s = Done ((0, total level (clk_client_tbl (sw_info s)) - weight level e), s).
Proof.
  intros Hs [Hc Hf _] Hl He. unfold mmrm_sw_calculate_total_current, MMRM_VDD_LEVEL_MAX. replace (5 <=? level) with false by lia.
  rewrite (bind_run _ _ _ _ _ (all_entries_run s Hs)).
  rewrite sum_current_run by (try apply (ms_entries _ Hs); done || (unfold fits in Hf; lia)).
  rewrite Z.sub_0_r. unfold but. rewrite He. done.
Qed.

(** ** The test *)

(** The entry of a client that gets a rate. *)
Definition admit_entry (e : mmrm_sw_clk_client_tbl_entry) (rate level blocks : Z) : mmrm_sw_clk_client_tbl_entry :=
  e <| clk_rate := rate |> <| vdd_level := level |> <| num_hw_blocks := blocks |>.

Lemma weight_admit level e rate req blocks :
  is_err_or_null (clk e) = false -> weight level (admit_entry e rate req blocks) = if truthy rate then cell e req level * blocks else 0.
Proof. intros H. unfold weight, has_rate. cbn. by rewrite H. Qed.

Lemma weight_now level e : is_err_or_null (clk e) = false -> weight level e = if truthy (clk_rate e) then cell e (vdd_level e) level * num_hw_blocks e else 0.
Proof. intros H. unfold weight, has_rate. by rewrite H. Qed.

(** The current of all clients when the client [c] gets a rate. *)
Definition total_with (s : mmrm_state) (c : Z) (e : mmrm_sw_clk_client_tbl_entry) (level : Z) : Z :=
  total level (<[Z.to_nat c := e]> (clk_client_tbl (sw_info s))).

Lemma total_with_eq s c e e' level :
  zget (clk_client_tbl (sw_info s)) c = Some e ->
  total_with s c e' level = total level (clk_client_tbl (sw_info s)) - weight level e + weight level e'.
Proof. intros H. pose proof (zget_Some _ _ _ H). rewrite zget_to_nat in H by lia. by apply sumZ_insert. Qed.

Lemma s32_small x : - 2 ^ 31 <= x < 2 ^ 31 -> s32 x = x.
Proof.
  intros Hx. unfold signed, wrap. change (32 - 1) with 31. destruct (Z.leb_spec 0 x).
  - rewrite Z.mod_small by lia. by rewrite bool_decide_true by lia.
  - replace (x mod 2 ^ 32) with (x + 2 ^ 32) by (rewrite <- (Z.mod_add x 1), Z.mod_small by lia; lia).
    rewrite bool_decide_false by lia. lia.
Qed.

(** The client may make others give way. *)
Definition may_throttle (e : mmrm_sw_clk_client_tbl_entry) (s : mmrm_state) : bool :=
  (pri e =? MMRM_CLIENT_PRIOR_HIGH (uapi (sysm s))) && (0 <? msm_mmrm_enable_throttle_feature s).

Lemma registered s c e :
  mgr_shape s -> zget (clk_client_tbl (sw_info s)) c = Some e -> is_err_or_null (clk e) = false -> client e <> None.
Proof. intros Hs He Hclk Hn. destruct (es_free _ (entry_shape_of _ _ _ Hs He) Hn) as [Hz _]. by rewrite Hz in Hclk. Qed.

Lemma admit_shape e rate req blocks : entry_shape e -> client e <> None -> 0 <= req < 5 -> entry_shape (admit_entry e rate req blocks).
Proof. intros [] Hcl Hr. by split. Qed.

Lemma admit_counted e rate req blocks :
  is_err_or_null (clk e) = false -> (rate <> 0 -> 0 <= blocks <= max_num_hw_blocks e) -> counted (admit_entry e rate req blocks).
Proof. intros Hclk Hb. unfold counted, has_rate. cbn. rewrite Hclk. cbn. intros ?%truthy_true. auto. Qed.

Lemma adj_range s id req :
  mgr_shape s -> 0 <= req < 5 -> 0 <= adjusted (clk_client_tbl (sw_info s)) id req (aggreg_level (peak_cur_data (sw_info s))) < 5.
Proof.
  intros Hs Hr. pose proof (adjusted_range (clk_client_tbl (sw_info s)) id req (aggreg_level (peak_cur_data (sw_info s)))).
  pose proof (ms_level _ Hs). lia.
Qed.

Section Admit.
Context (c : Z) (e : mmrm_sw_clk_client_tbl_entry) (req rate blocks : Z) (s : mmrm_state).
Context (Hs : mgr_shape s) (Ha : accounts s) (He : zget (clk_client_tbl (sw_info s)) c = Some e).
Context (Hclk : is_err_or_null (clk e) = false) (Hreq : 0 <= req < 5) (Hrate : is_word 32 rate).
Context (Hblocks : rate <> 0 -> 0 <= blocks <= max_num_hw_blocks e).

Let p := peak_cur_data (sw_info s).
Let e' := admit_entry e rate req blocks.
Let adj := adjusted (clk_client_tbl (sw_info s)) (clk_src_id e) req (aggreg_level p).

Lemma new_shape : entry_shape e'.
Proof using All. apply admit_shape; [by eapply entry_shape_of|by eapply registered|done]. Qed.

Lemma new_counted : counted e'.
Proof using All. by apply admit_counted. Qed.

Lemma level_range : 0 <= adj < 5.
Proof using All. by apply adj_range. Qed.

Lemma worst_same : sumZ worst (<[Z.to_nat c := e']> (clk_client_tbl (sw_info s))) = sumZ worst (clk_client_tbl (sw_info s)).
Proof using All.
  pose proof (zget_Some _ _ _ He). rewrite (sumZ_insert _ _ _ e) by (by rewrite <- zget_to_nat by lia). change (worst e') with (worst e). lia.
Qed.

Lemma total_with_range level : 0 <= level < 5 -> 0 <= total_with s c e' level < 2 ^ 31.
Proof using All.
  intros Hl. pose proof (ac_fits _ Ha) as Hf. unfold fits in Hf. rewrite <- worst_same in Hf.
  pose proof (total_range level (<[Z.to_nat c := e']> (clk_client_tbl (sw_info s)))) as Ht. unfold total_with.
  assert (0 <= total level (<[Z.to_nat c := e']> (clk_client_tbl (sw_info s))) <= sumZ worst (<[Z.to_nat c := e']> (clk_client_tbl (sw_info s)))); [|lia].
  apply Ht; [apply Forall_insert; [apply (ms_entries _ Hs)|apply new_shape]
    |apply Forall_insert; [apply (ac_counted _ Ha)|apply new_counted]|done].
Qed.

(** The weights before and after fit in a signed word. *)
Lemma weight_small : 0 <= weight (aggreg_level p) e < 2 ^ 31.
Proof using All.
  destruct (entry_in _ _ _ He) as [Hin _]. pose proof (worst_elem _ _ (ms_entries _ Hs) Hin). pose proof (ac_fits _ Ha). unfold fits in *.
  pose proof (proj1 (Forall_forall _ _) (ac_counted _ Ha) _ Hin). pose proof (ms_level _ Hs).
  pose proof (weight_range (aggreg_level p) e (entry_shape_of _ _ _ Hs He)). unfold p in *. intuition lia.
Qed.

Lemma weight_new_small : 0 <= weight adj e' < 2 ^ 31.
Proof using All.
  destruct (entry_in _ _ _ He) as [Hin _]. pose proof (worst_elem _ _ (ms_entries _ Hs) Hin) as Hw. pose proof (ac_fits _ Ha). unfold fits in *.
  change (worst e) with (worst e') in Hw. pose proof (weight_range adj e' new_shape new_counted level_range). lia.
Qed.

Lemma new_cur_run :
  (if truthy (u32 rate) then cur ← liftO OutOfBounds (current_at e req adj); mret (u32 (cur * blocks)) else mret 0 : MM Z) s = Done (weight adj e', s).
Proof using All.
  rewrite (wrap_small 32 rate) by done. pose proof weight_new_small as Hw. unfold e' in *. rewrite weight_admit in Hw |- * by done.
  destruct (truthy rate) eqn:Hr; [|done]. rewrite cell_run by (try apply level_range; try done; by eapply entry_shape_of).
  rewrite wrap_small; [done|]. unfold is_word. lia.
Qed.

Lemma old_cur_run :
  (if truthy (clk_rate e) then liftO OutOfBounds (entry_current e (aggreg_level p)) else mret 0 : MM Z) s = Done (weight (aggreg_level p) e, s).
Proof using All.
  destruct (entry_in _ _ _ He) as [Hin _]. destruct (truthy (clk_rate e)) eqn:Hr.
  - rewrite entry_current_run; [done|by eapply entry_shape_of| |apply (ms_level _ Hs)| |unfold has_rate; by rewrite Hclk, Hr].
    + by apply (proj1 (Forall_forall _ _) (ac_counted _ Ha)).
    + pose proof (worst_elem _ _ (ms_entries _ Hs) Hin). pose proof (ac_fits _ Ha). unfold fits in *. lia.
  - rewrite weight_now by done. by rewrite Hr.
Qed.

(** What the request adds to the sum, when the level stays. *)
Definition added : Z := if adj =? aggreg_level p then s32 (weight adj e' - weight (aggreg_level p) e) else 0.

(** The sum at the new level and what is to be added to it. *)
Lemma peak_delta_run :
  exists peak delta,
    (if negb (adj =? aggreg_level p) then
       '(rc, total) ← mmrm_sw_calculate_total_current adj c;
       mret (rc, u32 (total + weight adj e'), 0)
     else mret (0, aggreg_val p, s32 (weight adj e' - weight (aggreg_level p) e)) : MM (Z * Z * Z)) s = Done ((0, peak, delta), s) /\
    s32 (s32 peak + delta) = total_with s c e' adj /\ u32 (peak + delta) = total_with s c e' adj /\ delta = added.
Proof using All.
  pose proof weight_small as Hw. pose proof weight_new_small as Hw'. pose proof level_range as Hl.
  pose proof (total_with_range adj Hl) as Ht. pose proof (total_with_eq s c e e' adj He) as Heq.
  unfold added. destruct (Z.eqb_spec adj (aggreg_level p)) as [Hadj|Hadj]; cbn [negb].
  - eexists _, _. split; [done|]. pose proof (ac_exact _ Ha) as Hx. fold p in Hx. rewrite Hadj in *. rewrite Hx.
    pose proof (total_range (aggreg_level p) _ (ms_entries _ Hs) (ac_counted _ Ha) Hl). pose proof (ac_fits _ Ha). unfold fits in *.
    rewrite (s32_small (_ - _)) by lia. rewrite (s32_small (total _ _)) by lia. rewrite s32_small by lia. wsmall. split; [lia|]. split; [lia|done].
  - rewrite (bind_run _ _ _ _ _ (total_current_run s adj c e Hs Ha Hl He)). eexists _, _. split; [done|].
    rewrite <- Heq. wsmall. rewrite (s32_small (total_with _ _ _ _)) by lia. rewrite s32_small by lia. split; [lia|]. split; [lia|done].
Qed.

(** The test, after the sum is known. *)
Definition test_sum (peak : Z) : MM Z :=
  '(rc, delta) ← (if threshold p <=? total_with s c e' adj then if may_throttle e s then mmrm_sw_throttle_low_priority_client added else mret (- EINVAL, added)
                  else mret (0, added));
  if truthy rc then mret rc else
  upd_peak (fun p => p <| aggreg_val := u32 (peak + delta) |> <| aggreg_level := adj |>) ;; mmrm_reinstate_throttled_client ;; mret 0.

Lemma check_peak_sum :
  exists peak, u32 (peak + added) = total_with s c e' adj /\
    mmrm_sw_check_peak_current c req rate blocks s = if total_with s c e' adj <=? 0 then Done (0, with_peak 0 adj s) else test_sum peak s.
Proof using All.
  destruct peak_delta_run as (peak&delta&Hr&Hs32&Hu32&->). exists peak. split; [done|].
  unfold mmrm_sw_check_peak_current. rewrite (bind_run _ _ _ _ _ (get_entry_run _ _ _ He)).
  rewrite (bind_run _ _ _ _ _ (check_req_level_run s _ _ Hs Hreq)). change (truthy 0) with false. cbv beta iota.
  unfold get_sinfo. change ((gets sw_info ≫= ?k) s) with (k (sw_info s) s). cbv beta zeta.
  rewrite (bind_run _ _ _ _ _ new_cur_run). rewrite (bind_run _ _ _ _ _ old_cur_run).
  rewrite (bind_run _ _ _ _ _ Hr). change (truthy 0) with false. cbv beta iota. rewrite Hs32. destruct (_ <=? 0); [done|]. rewrite getM_run. reflexivity.
Qed.

Lemma check_peak_run :
  may_throttle e s = false ->
  mmrm_sw_check_peak_current c req rate blocks s =
    if total_with s c e' adj <=? 0 then Done (0, with_peak 0 adj s)
    else if threshold p <=? total_with s c e' adj then Done (- EINVAL, s)
    else (mmrm_reinstate_throttled_client ;; mret 0) (with_peak (total_with s c e' adj) adj s).
Proof using All.
  intros Hm. destruct check_peak_sum as (peak&Hu&->). destruct (_ <=? 0); [done|]. unfold test_sum. rewrite Hm.
  destruct (threshold p <=? _); [done|]. rewrite ret_run. cbv beta iota. change (truthy 0) with false. cbv iota. by rewrite Hu.
Qed.

End Admit.

(** ** The clients that were throttled *)

Lemma throttle_entry_run s i :
  mgr_shape s -> 0 <= i < zlen (throttle_clients_info (sw_info s)) ->
  exists k e, throttle_entry i s = Done (k, s) /\ 0 <= k /\ zget (clk_client_tbl (sw_info s)) k = Some e.
Proof.
  intros Hs Hi. destruct (zget_is_Some _ _ Hi) as [t Ht]. pose proof (forall_zget _ _ _ _ (ms_info _ Hs) Ht) as Hk.
  destruct (zget_is_Some _ _ Hk) as [e He]. exists (tbl_entry_id t), e. split; [|split; [cbn in Hk; lia|done]].
  unfold throttle_entry, get_sinfo. change ((gets sw_info ≫= ?k) s) with (k (sw_info s) s). cbv beta. by rewrite Ht.
Qed.

Lemma freq_is_some e i : entry_shape e -> 0 <= i < 5 -> is_Some (zget (freq e) i).
Proof. intros He Hi. apply zget_is_Some. rewrite (es_freq _ He). lia. Qed.

(** A call of the callback of a client. *)
Definition notice (ev : mmrm_event) : Prop := exists fn old new pvt, ev = Notified fn old new pvt.

(** Nothing but calls of callbacks was added to what the outside sees. *)
Definition only_notices (s s' : mmrm_state) : Prop := exists l, events s' = events s ++ l /\ Forall notice l.

Lemma only_notices_refl s : only_notices s s.
Proof. exists []. by rewrite app_nil_r. Qed.

Lemma reinstate_loop_run l s :
  mgr_shape s -> Forall (throttled_ok (sw_info s)) l ->
  wp (reinstate_loop l) (fun rest s' => hush s' = hush s /\ Forall (throttled_ok (sw_info s)) rest /\ only_notices s s') s.
Proof.
  intros Hs Hl. revert s Hs Hl. induction l as [|t l IH]; intros s Hs Hl; cbn [reinstate_loop]; [apply wp_ret; split_and!; [done|done|apply only_notices_refl]|].
  inversion_clear Hl as [|? ? [Ht Hp] Hl']. apply wp_gets. cbv zeta. destruct (u32 _ <=? _).
  - destruct (throttle_entry_run s (table_id t) Hs Ht) as (k&e&Hk&_&He). pose proof (entry_shape_of _ _ _ Hs He) as Hes.
    apply wp_bind. eapply wp_run; [exact Hk|]. cbv beta. apply wp_bind. eapply wp_run; [apply get_entry_run, He|].
    destruct (freq_is_some e MMRM_VDD_LEVEL_LOW_SVS Hes ltac:(done)) as [ov Hx]. destruct (freq_is_some e _ Hes Hp) as [nv Hy].
    apply (wp_liftO _ _ _ _ _ _ Hx), (wp_liftO _ _ _ _ _ _ Hy). destruct (truthy _).
    + apply wp_bind. eapply (wp_run _ _ _ tt); [done|]. eapply wp_mono; [apply IH; [by apply (shape_hush s)|done]|].
      intros rest s' (H1&H2&n&Hn&Hns). split; [done|]. split; [done|]. exists (Notified (notifier_cb_fn e) ov nv (pvt_data e) :: n).
      split; [rewrite Hn; cbn; by rewrite <- app_assoc|]. constructor; [by do 4 eexists|done].
    + apply wp_bind, wp_ret. apply IH; done.
  - apply wp_bind. eapply wp_mono; [by apply IH|]. intros rest s' (H1&H2&H3). apply wp_ret. split; [done|]. split; [by constructor|done].
Qed.

Lemma reinstate_run s :
  mgr_shape s -> wp mmrm_reinstate_throttled_client (fun _ s' => quiet s' = quiet s /\ mgr_shape s' /\ only_notices s s') s.
Proof.
  intros Hs. unfold mmrm_reinstate_throttled_client. apply wp_gets, wp_bind. eapply wp_mono; [apply reinstate_loop_run; [done|apply (ms_throttled _ Hs)]|].
  intros rest s' (H1&H2&Hn). eapply (wp_run _ _ _ tt); [done|]. pose proof (f_equal sw_info H1) as Hi. cbn in Hi.
  pose proof (f_equal clk_res H1) as Hc. cbn in Hc. split; [|split; [|exact Hn]].
  - unfold quiet. transitivity ((hush s') <| sw_info ::= fun i => i <| throttled_clients := [] |> |>); [done|]. by rewrite H1.
  - destruct Hs. split; cbn; rewrite ?Hi, ?Hc; done.
Qed.
