(* ===== verification/MmrmVotes.v ===== *)
(** * The votes of a client that several hardware drivers share

    The rate of such a client is the highest of the votes in its table.  The code
    does not search the table on every vote; [crm_rate_is_max] says that it finds
    the highest vote all the same. *)

From S2P Require Import Prelude MmrmState MmrmClk MmrmCurr MmrmPeak.

Local Open Scope Z_scope.

(** The rate and its index are those of the highest vote. *)
Definition votes_ok (e : mmrm_sw_clk_client_tbl_entry) : Prop :=
  is_crm_client e = true ->
  exists tbl, crm_client_tbl e = Some tbl /\ zget tbl (max_rate_idx e) = Some (clk_rate e) /\ Forall (fun v => 0 <= v <= clk_rate e) tbl /\
    clk_rate e < 2 ^ 32 /\ zlen tbl < 2 ^ 32.

(** The arguments of a vote. *)
Definition data_ok (d : mmrm_client_data) : Prop := 0 <= data_num_hw_blocks d /\ 0 <= crm_drv_idx d /\ 0 <= pwr_st d.

(** The entry after a vote. *)
Definition vote_entry (e : mmrm_sw_clk_client_tbl_entry) (tbl : list Z) (k v rate idx : Z) : mmrm_sw_clk_client_tbl_entry :=
  e <| max_rate_idx := u32 idx |> <| clk_rate := rate |> <| crm_client_tbl := Some (<[Z.to_nat k := v]> tbl) |>.

(** Each vote has its place in the table. *)
Lemma vote_index_range u e d tbl :
  crm_shape e -> is_crm_client e = true -> data_ok d -> crm_drv_idx d < hw_drv_instances e -> pwr_st d < num_pwr_states e ->
  crm_client_tbl e = Some tbl -> 0 <= vote_index u e d < zlen tbl.
Proof.
  intros Hs Hc (_&Hi&Hp) Hi' Hp' Ht. destruct (Hs Hc) as (tbl'&Ht'&Hl&Hsz&Hh&Hn). rewrite Ht in Ht'. injection Ht' as <-.
  unfold vote_index, MAX_HW_DRV_INSTANCES, MAX_POWER_STATES in *. rewrite Hl. assert (0 < num_pwr_states e * hw_drv_instances e <= 30) by nia.
  destruct (drv_type d =? _).
  - wsmall. lia.
  - assert (0 <= num_pwr_states e * crm_drv_idx d <= num_pwr_states e * hw_drv_instances e - num_pwr_states e) by nia.
    rewrite (wrap_small 32 (num_pwr_states e * crm_drv_idx d)) by (unfold is_word; lia). wsmall. lia.
Qed.

Lemma max_vote_spec tbl i skip best idx m k :
  Forall (is_word 32) tbl -> max_vote tbl i skip best idx = (m, k) ->
  best <= m /\ (forall j v, zget tbl j = Some v -> i + j <> skip -> v <= m) /\
  (m = best /\ k = idx \/ best < m /\ k <> skip /\ zget tbl (k - i) = Some m).
Proof.
  intros Hw. revert i best idx. induction Hw as [|v tbl Hv Hw IH]; intros i best idx H; cbn [max_vote] in H.
  { injection H as <- <-. split; [lia|]. split; [|by left]. intros j w Hj%zget_Some. cbn in Hj. unfold zlen in Hj. cbn in Hj. lia. }
  assert (Hcons : forall j w, zget (v :: tbl) j = Some w -> j = 0 /\ w = v \/ zget tbl (j - 1) = Some w).
  { intros j w Hj. pose proof (zget_Some _ _ _ Hj). rewrite zget_to_nat in Hj by lia. destruct (decide (j = 0)) as [->|Hne]; [left; by injection Hj|].
    right. rewrite zget_to_nat by lia. replace (Z.to_nat j) with (S (Z.to_nat (j - 1))) in Hj by lia. done. }
  assert (Htl : forall x, zget tbl x = Some m -> zget (v :: tbl) (x + 1) = Some m).
  { intros x Hx. pose proof (zget_Some _ _ _ Hx). rewrite zget_to_nat in Hx |- * by lia. by replace (Z.to_nat (x + 1)) with (S (Z.to_nat x)) by lia. }
  rewrite (wrap_small 32 v Hv) in H. assert (0 <= v) by apply Hv.
  destruct (Z.eqb_spec i skip) as [->|Hi]; [|destruct (Z.ltb_spec best v)];
    (apply IH in H as (Hb&Hall&Hk); split; [lia|]; split;
      [intros j w [[-> ->]|Hj]%Hcons Hne; [lia|apply (Hall (j - 1)); [done|lia]]
      |destruct Hk as [[-> ->]|(Hlt&Hne&Hk)]; [|right; split; [lia|]; split; [done|]; apply Htl in Hk; rewrite <- Hk; f_equal; lia]]).
  - by left.
  - right. split; [done|]. split; [done|]. by rewrite Z.sub_diag.
  - by left.
Qed.

Lemma zget_insert_inv {A} (l : list A) i j (x y : A) :
  0 <= i -> zget (<[Z.to_nat i := x]> l) j = Some y -> y = x /\ j = i \/ zget l j = Some y /\ j <> i.
Proof.
  intros Hi H. destruct (decide (j = i)) as [->|Hne]; [left|right; by rewrite zget_insert_ne in H by lia].
  pose proof (zget_Some _ _ _ H) as Hl. unfold zlen in Hl. rewrite length_insert in Hl. rewrite zget_insert_eq in H by done. by injection H as <-.
Qed.

(** The conditions of [votes_ok] by index. *)
Lemma votes_intro e tbl k v rate idx :
  0 <= k < zlen tbl -> zlen tbl < 2 ^ 32 -> 0 <= idx < zlen tbl -> rate < 2 ^ 32 -> 0 <= v <= rate ->
  (forall j w, zget tbl j = Some w -> j <> k -> 0 <= w <= rate) ->
  (idx = k /\ rate = v \/ idx <> k /\ zget tbl idx = Some rate) -> votes_ok (vote_entry e tbl k v rate idx).
Proof.
  intros Hk Hl Hi Hr Hv Hall Hidx _. exists (<[Z.to_nat k := v]> tbl). cbn. rewrite (wrap_small 32 idx) by (unfold is_word; lia). split; [done|]. split.
  { destruct Hidx as [[-> ->]|[Hne Hg]]; [by apply zget_insert_eq|by rewrite zget_insert_ne by lia]. }
  split; [|rewrite zlen_insert; done]. apply Forall_lookup_2. intros j w Hj. rewrite <- zget_nat in Hj.
  apply zget_insert_inv in Hj as [[-> _]|[Hj Hne]]; [done|by eapply Hall|lia].
Qed.

Section Vote.
Context (e : mmrm_sw_clk_client_tbl_entry) (d : mmrm_client_data) (v : Z) (s : mmrm_state).
Context (Hs : entry_shape e) (Hv : votes_ok e) (Hc : is_crm_client e = true) (Hd : data_ok d).
Context (Hi : crm_drv_idx d < hw_drv_instances e) (Hp : pwr_st d < num_pwr_states e) (Hw : is_word 32 v).

(** The code returns the highest of the votes after the vote, and where it is. *)
Lemma max_crm_rate_run :
  exists tbl rate idx, mmrm_sw_get_max_crm_rate e d v s = Done ((rate, idx), s) /\ is_word 32 rate /\ crm_client_tbl e = Some tbl /\
    0 <= vote_index (uapi (sysm s)) e d < zlen tbl /\ votes_ok (vote_entry e tbl (vote_index (uapi (sysm s)) e d) v rate idx).
Proof using All.
  destruct (Hv Hc) as (tbl&Ht&Hmax&Hall&Hr32&Hl32). destruct (es_crm _ Hs Hc) as (tbl'&Ht'&Hlen&_). rewrite Ht in Ht'. injection Ht' as <-.
  pose proof (vote_index_range (uapi (sysm s)) e d tbl (es_crm _ Hs) Hc Hd Hi Hp Ht) as Hk. set (k := vote_index _ _ _) in *.
  pose proof (zget_Some _ _ _ Hmax) as Hm. pose proof (forall_zget _ _ _ _ Hall Hmax) as Hr0. cbn beta in Hr0. destruct Hw as [Hv0 Hv32].
  assert (Ha : forall j w, zget tbl j = Some w -> 0 <= w <= clk_rate e) by (intros j w; apply (forall_zget _ _ _ _ Hall)).
  exists tbl. unfold mmrm_sw_get_max_crm_rate. rewrite getM_run. cbv zeta. fold k. rewrite (wrap_small 32 (clk_rate e)) by (unfold is_word; lia).
  destruct (Z.ltb_spec (clk_rate e) v) as [Hlt|Hge].
  { exists v, k. rewrite (wrap_small 32 v) by done. split; [done|]. split; [done|]. split; [done|]. split; [done|].
    apply votes_intro; try lia. intros j w Hj _. specialize (Ha _ _ Hj). lia. }
  destruct (Z.eqb_spec k (max_rate_idx e)) as [Hkm|Hkm].
  2: { exists (clk_rate e), (max_rate_idx e). split; [done|]. split; [split; lia|]. split; [done|]. split; [done|]. apply votes_intro; try lia; [|by right].
       intros j w Hj _. by apply (Ha j). }
  rewrite (liftO_run _ _ _ _ _ Ht). rewrite Hlen, Z.leb_refl, ret_run, <- Hlen. unfold zlen at 1. rewrite Nat2Z.id, firstn_all.
  destruct (max_vote tbl 0 (max_rate_idx e) 0 (max_rate_idx e)) as [m j] eqn:Em. apply max_vote_spec in Em as (Hm0&Hmall&Hmj).
  2: { eapply Forall_impl; [exact Hall|]. cbn. intros w Hww. split; lia. }
  destruct (Z.leb_spec m v) as [Hmv|Hmv].
  - exists v, (max_rate_idx e). rewrite (wrap_small 32 v) by done. split; [done|]. split; [done|]. split; [done|]. split; [done|].
    apply votes_intro; try lia. intros i w Hiw Hne. pose proof (Ha _ _ Hiw). specialize (Hmall i w Hiw ltac:(lia)). lia.
  - destruct Hmj as [[-> ->]|(_&Hne&Hj)]; [lia|]. rewrite Z.sub_0_r in Hj. pose proof (Ha _ _ Hj). pose proof (zget_Some _ _ _ Hj).
    exists m, j. split; [done|]. split; [split; lia|]. split; [done|]. split; [done|]. apply votes_intro; try lia.
    + intros i w Hiw Hni. pose proof (Ha _ _ Hiw). specialize (Hmall i w Hiw ltac:(lia)). lia.
    + right. split; [lia|done].
Qed.

End Vote.

(** The rate of such an entry is the highest of its votes. *)
Lemma votes_highest e tbl k v rate idx :
  votes_ok (vote_entry e tbl k v rate idx) -> is_crm_client e = true ->
  let votes := <[Z.to_nat k := v]> tbl in rate = maxZ votes /\ zget votes (u32 idx) = Some rate.
Proof.
  intros Hok Hc. destruct (Hok Hc) as (votes&[= <-]&Hidx&Hall&_). cbn in Hidx, Hall. cbv zeta. split; [|done].
  pose proof (zget_Some _ _ _ Hidx). rewrite zget_to_nat in Hidx by lia. apply list_elem_of_lookup_2 in Hidx. pose proof (maxZ_elem _ _ Hidx).
  pose proof (maxZ_le _ rate Hall). pose proof (proj1 (Forall_forall _ _) Hall _ Hidx). cbn in *. lia.
Qed.
