(* ===== verification/MmrmSetval.v ===== *)
(** * A request for a rate

    [mmrm_sw_clk_client_setval] around the test against the threshold: which
    requests are refused, and what an admitted one leaves.  [request_rate_wp]
    takes what the test does as a hypothesis, so that it serves the exact
    accounts as well as the runs that throttle. *)

From S2P Require Import Prelude MmrmState MmrmClk MmrmAdmit MmrmCurr MmrmPeak MmrmVotes.

Local Open Scope Z_scope.

(** What a registration sets, and nothing else changes. *)
Definition registration (e : mmrm_sw_clk_client_tbl_entry) :=
  (client e, clk e, clk_src_id e, max_num_hw_blocks e, current_ma e, freq e,
   (is_crm_client e, hw_drv_instances e, num_pwr_states e, crm_client_tbl_size e, crm_client_tbl e)).

(** The entry after an admission. *)
Definition final_entry (u : mmrm_uapi) (e : mmrm_sw_clk_client_tbl_entry) (d : mmrm_client_data) (v rate idx req : Z) (reserve' : bool)
  : mmrm_sw_clk_client_tbl_entry :=
  (if is_crm_client e
   then vote_entry e (default [] (crm_client_tbl e)) (vote_index u e d) v rate idx
   else e <| clk_rate := v |>) <| vdd_level := req |> <| reserve := reserve' |> <| num_hw_blocks := data_num_hw_blocks d |>.

Lemma final_shape u e d v rate idx req rsv :
  entry_shape e -> client e <> None ->
  (is_crm_client e = true -> exists tbl, crm_client_tbl e = Some tbl /\ 0 <= vote_index u e d < zlen tbl) -> 0 <= req < 5 ->
  entry_shape (final_entry u e d v rate idx req rsv).
Proof.
  intros [E1 E2 E3 E4 E5 E6 E7] Hcl Hvote Hreq. unfold final_entry. destruct (is_crm_client e) eqn:Hc; split; try done.
  intros _. destruct (E6 Hc) as (tbl&Ht&Hl&Hr). exists (<[Z.to_nat (vote_index u e d) := v]> tbl). cbn. rewrite Ht. cbn. rewrite zlen_insert. done.
Qed.

(** The call that sets the rate. *)
Definition rate_event (u : mmrm_uapi) (e : mmrm_sw_clk_client_tbl_entry) (d : mmrm_client_data) (v : Z) : mmrm_event :=
  if negb (is_crm_client e) || (drv_type d =? MMRM_CRM_SW_DRV u) then SetRate (clk e) v else CrmSetRate (clk e) (crm_drv_idx d) (pwr_st d) v.

(** The result of that call, when it is the [n]-th. *)
Definition rate_answer (sy : mmrm_system) (n : nat) (e : mmrm_sw_clk_client_tbl_entry) (d : mmrm_client_data) (v : Z) : Z :=
  let rc := if negb (is_crm_client e) || (drv_type d =? MMRM_CRM_SW_DRV (uapi sy)) then clk_set_rate_ret sy n (clk e) v
            else qcom_clk_crm_set_rate_ret sy n (clk e) (crm_drv_idx d) (pwr_st d) v in
  if truthy rc then - EINVAL else 0.

Lemma rate_answer_cases sy n e d v : rate_answer sy n e d v = 0 \/ rate_answer sy n e d v = - EINVAL.
Proof. unfold rate_answer. cbv zeta. destruct (truthy _); auto. Qed.

Lemma set_the_rate_run e d v s :
  set_the_rate e d v s = Done (rate_answer (sysm s) (sys_calls s) e d v,
    s <| sys_calls ::= S |> <| events ::= fun l => l ++ [rate_event (uapi (sysm s)) e d v] |>).
Proof. unfold set_the_rate, rate_answer, rate_event. rewrite getM_run. by destruct (negb _ || _). Qed.

(** The end of an admitted request: the clock is left alone, with the result 0, or
    it is set and the result is the answer; [before] is what was seen before. *)
Definition rate_set (sy : mmrm_system) (e : mmrm_sw_clk_client_tbl_entry) (d : mmrm_client_data) (v : Z) (skip : bool) (before : list mmrm_event)
  (rc : Z) (s' : mmrm_state) : Prop :=
  if skip then rc = 0 /\ events s' = before
  else events s' = before ++ [rate_event (uapi sy) e d v] /\ exists n, rc = rate_answer sy n e d v.

(** With the lock taken or not. *)
Definition locked (b : bool) (s : mmrm_state) : mmrm_state := s <| mgr_locked := b |>.

Lemma shape_locked b s : mgr_shape s -> mgr_shape (locked b s).
Proof. by apply shape_of. Qed.

Lemma match_level_range corners v i : i <= match_level corners v i <= i + zlen corners.
Proof.
  revert i. induction corners as [|k corners IH]; intros i; cbn [match_level]; [unfold zlen; cbn; lia|].
  unfold zlen in *. cbn [length]. destruct (v =? k); [lia|]. specialize (IH (i + 1)). lia.
Qed.

(** The voltage level of a rate, from the answers of the clock framework to the
    calls [n] and [n + 1]: that of the corner of the rounded rate, the lowest for
    a corner below the first, and none for one that is not in the table. *)
Definition level_for (sy : mmrm_system) (n : nat) (k rate : Z) : option Z :=
  let corner := qcom_clk_get_voltage_ret sy (S n) k (u64 (clk_round_rate_ret sy n k rate)) in
  if (corner <? 0) || (RPMH_REGULATOR_LEVEL_TURBO (uapi sy) <? corner) then (if corner =? 0 then Some 0 else None)
  else if corner <? RPMH_REGULATOR_LEVEL_LOW_SVS (uapi sy) then Some 0
  else let level := match_level (mmrm_sw_vdd_corner (uapi sy)) corner 0 in if level =? 5 then None else Some level.

(** The return code and the level, for a corner. *)
Definition corner_level (u : mmrm_uapi) (corner : Z) : Z * Z :=
  if (corner <? 0) || (RPMH_REGULATOR_LEVEL_TURBO u <? corner) then (corner, 0)
  else if corner <? RPMH_REGULATOR_LEVEL_LOW_SVS u then (0, 0)
  else let level := match_level (mmrm_sw_vdd_corner u) corner 0 in if level =? 5 then (- EINVAL, 0) else (0, level).

Lemma req_level_run s c e v :
  zget (clk_client_tbl (sw_info s)) c = Some e ->
  exists rc req s', mmrm_sw_get_req_level c v s = Done ((rc, req), s') /\ hush s' = hush s /\ events s' = events s /\ 0 <= req < 5 /\
    level_for (sysm s) (sys_calls s) (clk e) v = if truthy rc then None else Some req.
Proof.
  intros He. set (corner := qcom_clk_get_voltage_ret (sysm s) (S (sys_calls s)) (clk e) (u64 (clk_round_rate_ret (sysm s) (sys_calls s) (clk e) v))).
  assert (Hrun : mmrm_sw_get_req_level c v s = Done (corner_level (uapi (sysm s)) corner, s <| sys_calls ::= S |> <| sys_calls ::= S |>)).
  { unfold mmrm_sw_get_req_level. rewrite (bind_run _ _ _ _ _ (get_entry_run _ _ _ He)). unfold corner_level, corner.
    eapply eq_trans; [eapply bind_run; reflexivity|]. eapply eq_trans; [eapply bind_run; reflexivity|]. rewrite getM_run. cbv zeta.
    cbn [sysm sys_calls upd]. by repeat (destruct (_ || _) || destruct (_ <? _) || destruct (_ =? _)). }
  unfold level_for. cbv zeta. fold corner. pose proof (match_level_range (mmrm_sw_vdd_corner (uapi (sysm s))) corner 0) as Hm.
  change (zlen (mmrm_sw_vdd_corner (uapi (sysm s)))) with 5 in Hm. clearbody corner. rewrite Hrun. unfold corner_level. cbv zeta.
  set (l := match_level _ _ _) in *. clearbody l. unfold truthy.
  destruct (_ || _) eqn:H1; [|destruct (corner <? RPMH_REGULATOR_LEVEL_LOW_SVS _) eqn:H2; [|destruct (Z.eqb_spec l 5)]];
    eexists _, _, _; (split; [reflexivity|]); (split; [reflexivity|]); (split; [reflexivity|]); cbn in *; (split; [lia|]); try done.
  by destruct (corner =? 0).
Qed.

Section Request.
Context (c : Z) (e : mmrm_sw_clk_client_tbl_entry) (d : mmrm_client_data) (v rate idx : Z) (rsv : bool) (s : mmrm_state).
Context (Hs : mgr_shape s) (Hlock : mgr_locked s = false) (He : zget (clk_client_tbl (sw_info s)) c = Some e).
Context (Hcrm : is_crm_client e = true -> exists tbl, crm_client_tbl e = Some tbl /\ 0 <= vote_index (uapi (sysm s)) e d < zlen tbl).

(** The update writes the final entry. *)
Lemma update_admitted_run e3 s3 req :
  zget (clk_client_tbl (sw_info s3)) c = Some e3 -> registration e3 = registration e -> sysm s3 = sysm s ->
  update_admitted c d v rate idx req rsv s3 = Done (tt, with_entry c (final_entry (uapi (sysm s)) e3 d v rate idx req rsv) s3).
Proof using Hcrm.
  intros He3 Hreg Hsy. unfold update_admitted, final_entry. rewrite (bind_run _ _ _ _ _ (get_entry_run _ _ _ He3)).
  unfold registration in Hreg. injection Hreg as _ _ _ _ _ _ H1 H2 H3 H4 H5. eapply eq_trans.
  - eapply bind_run. instantiate (1 := with_entry c (if is_crm_client e3 then vote_entry e3 (default [] (crm_client_tbl e3)) (vote_index (uapi (sysm s)) e3 d) v rate idx
      else e3 <| clk_rate := v |>) s3). instantiate (1 := tt). destruct (is_crm_client e3) eqn:Hc; [|by rewrite (upd_entry_run _ _ _ _ He3)].
    destruct (Hcrm (eq_sym H1)) as (tbl&Ht&Hk). rewrite <- H5 in Ht. rewrite getM_run, (liftO_run _ _ _ _ _ Ht), Hsy, Ht. cbn [default].
    assert (Hvi : vote_index (uapi (sysm s)) e3 d = vote_index (uapi (sysm s)) e d) by (unfold vote_index; by rewrite H3, H4).
    rewrite Hvi, zset_in, (liftO_run _ _ _ _ _ eq_refl) by done. by rewrite (upd_entry_run _ _ _ _ He3).
  - rewrite (upd_entry_run _ _ _ _ (with_entry_get _ _ _ _ He3)), with_entry_twice. done.
Qed.

(** The level of the request, if there is one. *)
Definition asked_level : option Z := if truthy v then level_for (sysm s) (sys_calls s) (clk e) (if is_crm_client e then rate else v) else Some 0.

(** A rate needs at least a block, and no more than the client has. *)
Definition blocks_ok : Prop := v <> 0 -> 1 <= data_num_hw_blocks d <= max_num_hw_blocks e.

Lemma level_run :
  exists rc req s1, (if truthy v then mmrm_sw_get_req_level c (if is_crm_client e then rate else v) else mret (0, 0)) s = Done ((rc, req), s1) /\
    hush s1 = hush s /\ events s1 = events s /\ 0 <= req < 5 /\ asked_level = if truthy rc then None else Some req.
Proof using He. unfold asked_level. destruct (truthy v); [by apply req_level_run|]. by exists 0, 0, s. Qed.

(** A request runs as the test makes it run: the test is done with the lock taken,
    on a state that differs in the calls to the outside only. *)
Lemma request_rate_wp (Q : Z -> mmrm_state -> Prop) :
  (forall s', hush s' = hush s -> events s' = events s -> asked_level = None \/ ~ blocks_ok -> Q (- EINVAL) s') ->
  (forall req s1, asked_level = Some req -> hush s1 = hush s -> events s1 = events s -> 0 <= req < 5 -> blocks_ok ->
    wp (mmrm_sw_check_peak_current c req (if is_crm_client e then rate else v) (data_num_hw_blocks d)) (fun rc s3 =>
      if truthy rc then Q rc (locked false s3) else
      exists e3, zget (clk_client_tbl (sw_info s3)) c = Some e3 /\ registration e3 = registration e /\ sysm s3 = sysm s /\
        forall rc' s', hush s' = hush (locked false (with_entry c (final_entry (uapi (sysm s)) e3 d v rate idx req rsv) s3)) ->
          rate_set (sysm s) e d v (rsv && negb (is_crm_client e)) (events s3) rc' s' -> Q rc' s')
      (locked true s1)) ->
  wp (request_rate c d v rate idx rsv) Q s.
Proof using Hlock He Hcrm.
  intros Hrefuse Hcheck. unfold request_rate. apply wp_bind. eapply wp_run; [exact (get_entry_run _ _ _ He)|]. cbv zeta.
  destruct level_run as (rc&req&s1&Hr&H1&Hev1&Hreq&Hask). apply wp_bind. eapply wp_run; [exact Hr|]. cbv beta iota.
  unfold MMRM_VDD_LEVEL_MAX. replace (5 <=? req) with false by lia. rewrite orb_false_r. destruct (truthy rc); [apply wp_ret; auto|].
  destruct (truthy v && _) eqn:Hb; [apply wp_ret, Hrefuse; [done..|right]; unfold blocks_ok, truthy in *; lia|].
  assert (Hlock1 : mgr_locked s1 = false) by (by rewrite (f_equal mgr_locked H1 : mgr_locked s1 = mgr_locked s)).
  apply wp_bind. eapply (wp_run _ _ _ tt); [unfold mutex_lock; rewrite getM_run, Hlock1; reflexivity|]. apply wp_bind.
  eapply wp_mono; [apply (Hcheck req s1 Hask H1 Hev1 Hreq); unfold blocks_ok, truthy in *; lia|]. clear Hcheck. intros rc3 s3 H3. cbv beta in H3 |- *.
  destruct (truthy rc3); [by apply wp_modify, wp_ret|]. destruct H3 as (e3&He3&Hreg&Hsy&HQ).
  apply wp_bind. eapply wp_run; [by apply update_admitted_run|]. apply wp_modify. apply wp_bind.
  eapply wp_run; [exact (get_entry_run (locked false (with_entry c _ s3)) _ _ (with_entry_get _ _ _ _ He3))|]. set (ef := final_entry _ _ _ _ _ _ _ _).
  unfold registration in Hreg. injection Hreg as _ Hclk _ _ _ _ Hic _ _ _ _.
  assert (Hef : is_crm_client ef = is_crm_client e /\ clk ef = clk e) by (unfold ef, final_entry; rewrite <- Hic, <- Hclk; destruct (is_crm_client e3) eqn:Hx; split; cbn; rewrite ?Hx; done).
  destruct Hef as [Hef1 Hef2]. assert (Hev : rate_event (uapi (sysm s)) ef d v = rate_event (uapi (sysm s)) e d v) by (unfold rate_event; by rewrite Hef1, Hef2).
  assert (Hans : forall n, rate_answer (sysm s) n ef d v = rate_answer (sysm s) n e d v) by (intros n; unfold rate_answer; by rewrite Hef1, Hef2).
  rewrite Hef1. destruct (rsv && negb (is_crm_client e)) eqn:Hn; [by apply wp_ret, HQ|].
  eapply wp_run; [exact (set_the_rate_run ef d v (locked false (with_entry c ef s3)))|]. change (sysm (locked false (with_entry c ef s3))) with (sysm s3).
  rewrite Hsy. apply HQ; [done|]. split; [|exists (sys_calls s3); apply Hans].
  transitivity (events s3 ++ [rate_event (uapi (sysm s)) ef d v]); [done|by rewrite Hev].
Qed.

End Request.
