(* ===== verification/MmrmBooks.v ===== *)
(** * The books of the manager

    [books] is the invariant of a manager while no client makes others give way:
    the sum that it keeps is the sum of the currents of its clients, zero or below
    the threshold, and the rate of a shared client is its highest vote.  The
    operations on a client keep it, and what a request does is [setval_result]. *)

From S2P Require Import Prelude MmrmState MmrmClk MmrmAdmit MmrmCurr MmrmPeak MmrmVotes MmrmSetval.

Local Open Scope Z_scope.

Record books (s : mmrm_state) : Prop := mkBooks {
  bk_shape : mgr_shape s;
  bk_lock : mgr_locked s = false;
  bk_accounts : accounts s;
  bk_votes : Forall votes_ok (clk_client_tbl (sw_info s));
  bk_below : aggreg_val (peak_cur_data (sw_info s)) = 0 \/ aggreg_val (peak_cur_data (sw_info s)) < threshold (peak_cur_data (sw_info s));
}.

(** The fields that [quiet] keeps. *)
Lemma quiet_fields s s' :
  quiet s' = quiet s ->
  clk_client_tbl (sw_info s') = clk_client_tbl (sw_info s) /\ peak_cur_data (sw_info s') = peak_cur_data (sw_info s) /\
  mgr_locked s' = mgr_locked s /\ sysm s' = sysm s.
Proof.
  intros H. split; [exact (f_equal (fun s => clk_client_tbl (sw_info s)) H)|]. split; [exact (f_equal (fun s => peak_cur_data (sw_info s)) H)|].
  split; [exact (f_equal mgr_locked H)|exact (f_equal sysm H)].
Qed.

Lemma books_quiet s s' : quiet s' = quiet s -> mgr_shape s' -> books s -> books s'.
Proof.
  intros H Hs' [Hs Hl [] Hv Hb]. destruct (quiet_fields s s' H) as (H1&H2&H3&_).
  split; [done|congruence|split; rewrite ?H1, ?H2; done|by rewrite H1|by rewrite H2].
Qed.

Lemma books_hush s s' : hush s' = hush s -> books s -> books s'.
Proof. intros H Hb. apply (books_quiet s); [by apply quiet_hush|by apply (shape_hush s), Hb|done]. Qed.

(** A client with another entry that draws as much as the manager notes. *)
Lemma books_entry s c e e' level v :
  books s -> zget (clk_client_tbl (sw_info s)) c = Some e -> entry_shape e' -> counted e' -> votes_ok e' -> worst e' = worst e ->
  0 <= level < 5 -> v = total_with s c e' level -> v = 0 \/ v < threshold (peak_cur_data (sw_info s)) ->
  books (with_peak v level (with_entry c e' s)).
Proof.
  intros [Hs Hl [Hc Hf Hx] Hv Hb] He Hs' Hc' Hv' Hw Hlev -> Hbelow. pose proof (zget_Some _ _ _ He). split.
  - apply shape_peak; [|done]. apply shape_entry; [done|lia|done].
  - done.
  - split; cbn; [by apply Forall_insert| |done]. unfold fits in *. rewrite (sumZ_insert _ _ _ e) by (by rewrite <- zget_to_nat by lia). lia.
  - cbn. by apply Forall_insert.
  - done.
Qed.

(** A client with another entry that draws as much as before. *)
Lemma books_same s c e e' :
  books s -> zget (clk_client_tbl (sw_info s)) c = Some e -> entry_shape e' -> counted e' -> votes_ok e' ->
  fits (<[Z.to_nat c := e']> (clk_client_tbl (sw_info s))) -> (forall level, weight level e' = weight level e) -> books (with_entry c e' s).
Proof.
  intros [Hs Hl [Hc Hf Hx] Hv Hb] He Hs' Hc' Hv' Hf' Hw. pose proof (zget_Some _ _ _ He). split; try done.
  - by apply shape_entry; [|lia|].
  - split; cbn; [by apply Forall_insert|done|]. unfold total. rewrite (sumZ_insert _ _ _ e) by (by rewrite <- zget_to_nat by lia).
    rewrite Hw, Hx. unfold total. lia.
  - cbn. by apply Forall_insert.
Qed.

Lemma fits_entry s c e e' :
  fits (clk_client_tbl (sw_info s)) -> zget (clk_client_tbl (sw_info s)) c = Some e -> worst e' = worst e ->
  fits (<[Z.to_nat c := e']> (clk_client_tbl (sw_info s))).
Proof.
  intros Hf He Hw. pose proof (zget_Some _ _ _ He). unfold fits in *. rewrite (sumZ_insert _ _ _ e) by (by rewrite <- zget_to_nat by lia). lia.
Qed.

(** The state after the test, the update and the release of the lock. *)
Lemma commit_quiet c e' v level s s1 s3 s' :
  hush s1 = hush s -> mgr_locked s = false -> quiet s3 = quiet (with_peak v level (locked true s1)) ->
  hush s' = hush (locked false (with_entry c e' s3)) -> quiet s' = quiet (with_peak v level (with_entry c e' s)).
Proof.
  intros H1 Hl H3 H'. rewrite (quiet_hush _ _ H'). apply quiet_hush in H1.
  transitivity (locked false (with_entry c e' (quiet s3))); [done|]. rewrite H3.
  transitivity (locked false (with_peak v level (with_entry c e' (quiet s1)))); [done|]. rewrite H1.
  destruct s. cbn in Hl. subst. done.
Qed.

(** ** The result of a request *)

(** The rate is only reserved. *)
Definition reserve_only (u : mmrm_uapi) (d : mmrm_client_data) : bool := truthy (Z.land (data_flags d) (MMRM_CLIENT_DATA_FLAG_RESERVE_ONLY u)).

(** The client, which nobody shares, has that rate with so many blocks. *)
Definition same_request (e : mmrm_sw_clk_client_tbl_entry) (d : mmrm_client_data) (v : Z) : bool :=
  (clk_rate e =? v) && (num_hw_blocks e =? data_num_hw_blocks d) && negb (is_crm_client e).

(** The vote for a shared client has a place in its table. *)
Definition vote_place (e : mmrm_sw_clk_client_tbl_entry) (d : mmrm_client_data) : Prop :=
  is_crm_client e = true -> crm_drv_idx d < hw_drv_instances e /\ pwr_st d < num_pwr_states e.

(** The highest vote after the request and an index of it. *)
Definition highest_vote (u : mmrm_uapi) (e : mmrm_sw_clk_client_tbl_entry) (d : mmrm_client_data) (v rate idx : Z) : Prop :=
  if is_crm_client e then
    exists tbl, crm_client_tbl e = Some tbl /\
      let votes := <[Z.to_nat (vote_index u e d) := v]> tbl in rate = maxZ votes /\ zget votes (u32 idx) = Some rate
  else rate = 0 /\ idx = 0.

Section Result.
Context (c : Z) (e : mmrm_sw_clk_client_tbl_entry) (d : mmrm_client_data) (v : Z) (s : mmrm_state).

(** The common level for a request at the level [req], the entry of the client
    with the rate, and the current of all clients then. *)
Definition common_level (req : Z) : Z := adjusted (clk_client_tbl (sw_info s)) (clk_src_id e) req (aggreg_level (peak_cur_data (sw_info s))).
Definition admitted_entry (rate idx req : Z) : mmrm_sw_clk_client_tbl_entry :=
  final_entry (uapi (sysm s)) e d v rate idx req (reserve_only (uapi (sysm s)) d).
Definition admitted_sum (rate idx req : Z) : Z := total_with s c (admitted_entry rate idx req) (common_level req).

(** There is room for the sum. *)
Definition has_room (sum : Z) : Prop := sum = 0 \/ sum < threshold (peak_cur_data (sw_info s)).

(** What an admission leaves, but for the calls to the outside. *)
Definition admitted_state (rate idx req : Z) : mmrm_state :=
  with_peak (admitted_sum rate idx req) (common_level req) (with_entry c (admitted_entry rate idx req) s).

Inductive setval_result : Z -> mmrm_state -> Prop :=
| SvNoPlace : ~ vote_place e d -> setval_result (- EINVAL) s
| SvSame : same_request e d v = true -> reserve e = reserve_only (uapi (sysm s)) d -> setval_result 0 s
| SvReserve rc s' :
    same_request e d v = true -> reserve e <> reserve_only (uapi (sysm s)) d ->
    hush s' = hush (with_entry c (e <| reserve := reserve_only (uapi (sysm s)) d |>) s) ->
    rate_set (sysm s) e d v (reserve_only (uapi (sysm s)) d) (events s) rc s' -> setval_result rc s'
| SvRefused rate idx s' :
    vote_place e d -> same_request e d v = false -> highest_vote (uapi (sysm s)) e d v rate idx ->
    match asked_level e v rate s with
    | None => True
    | Some req => ~ blocks_ok e d v \/ ~ has_room (admitted_sum rate idx req)
    end ->
    hush s' = hush s -> events s' = events s -> setval_result (- EINVAL) s'
| SvAdmitted rate idx req l rc s' :
    vote_place e d -> same_request e d v = false -> highest_vote (uapi (sysm s)) e d v rate idx ->
    asked_level e v rate s = Some req -> blocks_ok e d v -> has_room (admitted_sum rate idx req) ->
    quiet s' = quiet (admitted_state rate idx req) -> Forall notice l ->
    rate_set (sysm s) e d v (reserve_only (uapi (sysm s)) d && negb (is_crm_client e)) (events s ++ l) rc s' -> setval_result rc s'.

End Result.

Section Setval.
Context (c : Z) (e : mmrm_sw_clk_client_tbl_entry) (d : mmrm_client_data) (v : Z) (s : mmrm_state).
Context (Hb : books s) (He : zget (clk_client_tbl (sw_info s)) c = Some e) (Hclk : is_err_or_null (clk e) = false).
Context (Hd : data_ok d) (Hv : is_word 32 v).
Context (Hblocks : is_crm_client e = true -> v = 0 -> data_num_hw_blocks d <= max_num_hw_blocks e).

Let rsv : bool := reserve_only (uapi (sysm s)) d.

(** The rate that counts: the highest vote, or the value of the request. *)
Definition counted_rate (rate : Z) : Z := if is_crm_client e then rate else v.

Lemma weight_final u rate idx req b level :
  weight level (final_entry u e d v rate idx req b) = weight level (admit_entry e (counted_rate rate) req (data_num_hw_blocks d)).
Proof using All. unfold final_entry, counted_rate. by destruct (is_crm_client e) eqn:?. Qed.

Lemma sum_final rate idx req :
  admitted_sum c e d v s rate idx req = total_with s c (admit_entry e (counted_rate rate) req (data_num_hw_blocks d)) (common_level e s req).
Proof using All. unfold admitted_sum. rewrite !(total_with_eq s c e) by done. unfold admitted_entry. by rewrite weight_final. Qed.

(** What [request_rate] needs of the votes. *)
Definition rate_ok (rate idx : Z) : Prop :=
  is_word 32 (counted_rate rate) /\ vote_place e d /\ highest_vote (uapi (sysm s)) e d v rate idx /\
  (is_crm_client e = true -> exists tbl, crm_client_tbl e = Some tbl /\ 0 <= vote_index (uapi (sysm s)) e d < zlen tbl /\
     votes_ok (vote_entry e tbl (vote_index (uapi (sysm s)) e d) v rate idx)).

Lemma rate_place rate idx :
  rate_ok rate idx -> is_crm_client e = true -> exists tbl, crm_client_tbl e = Some tbl /\ 0 <= vote_index (uapi (sysm s)) e d < zlen tbl.
Proof using All. intros (_&_&_&Hvo) Hc. destruct (Hvo Hc) as (tbl&Ht&Hk&_). eauto. Qed.

Lemma final_shape_now rate idx req : rate_ok rate idx -> 0 <= req < 5 -> entry_shape (admitted_entry e d v s rate idx req).
Proof using All.
  intros Hr Hreq. apply final_shape; [by eapply entry_shape_of, He; apply Hb|by eapply registered; [apply Hb|exact He|]|by eapply rate_place|done].
Qed.

Lemma final_votes rate idx req : rate_ok rate idx -> votes_ok (admitted_entry e d v s rate idx req).
Proof using All.
  intros (_&_&_&Hvo). unfold admitted_entry, final_entry. destruct (is_crm_client e) eqn:Hc.
  - destruct (Hvo eq_refl) as (tbl&Ht&_&Hok). rewrite Ht. exact Hok.
  - intros Hc'. cbn in Hc'. congruence.
Qed.

Lemma counted_blocks rate idx :
  rate_ok rate idx -> blocks_ok e d v -> counted_rate rate <> 0 -> 0 <= data_num_hw_blocks d <= max_num_hw_blocks e.
Proof using All.
  intros _ Hbl Hne. unfold counted_rate, blocks_ok in *. destruct Hd. destruct (decide (v = 0)) as [->|Hv0]; [|specialize (Hbl Hv0); lia].
  destruct (is_crm_client e); [|done]. specialize (Hblocks eq_refl eq_refl). lia.
Qed.

Lemma sum_nonneg rate idx req : rate_ok rate idx -> 0 <= req < 5 -> blocks_ok e d v -> 0 <= admitted_sum c e d v s rate idx req.
Proof using All.
  intros Hr Hreq Hbl. rewrite sum_final. pose proof Hr as (Hw&_). eapply (total_with_range c e req _ _ s); try done; [apply Hb|apply Hb|by eapply counted_blocks|].
  apply adj_range; [apply Hb|done].
Qed.

(** An admission below the threshold keeps the books. *)
Lemma admitted_books rate idx req :
  rate_ok rate idx -> 0 <= req < 5 -> blocks_ok e d v -> has_room s (admitted_sum c e d v s rate idx req) -> books (admitted_state c e d v s rate idx req).
Proof using All.
  intros Hr Hreq Hbl Hroom. apply (books_entry _ _ e); try done.
  - by apply final_shape_now.
  - assert (Hcnt : counted (admit_entry e (counted_rate rate) req (data_num_hw_blocks d))) by (apply admit_counted; [done|]; by eapply counted_blocks).
    unfold admitted_entry, final_entry, counted_rate in *. by destruct (is_crm_client e).
  - by apply final_votes.
  - unfold admitted_entry, final_entry. by destruct (is_crm_client e).
  - apply adj_range; [apply Hb|done].
Qed.

(** After the test, the rest of the request leaves an admitted client. *)
Lemma commit_request rate idx req s1 s3 :
  rate_ok rate idx -> 0 <= req < 5 -> hush s1 = hush s ->
  quiet s3 = quiet (with_peak (admitted_sum c e d v s rate idx req) (common_level e s req) (locked true s1)) -> mgr_shape s3 ->
  exists e3, zget (clk_client_tbl (sw_info s3)) c = Some e3 /\ registration e3 = registration e /\ sysm s3 = sysm s /\
    forall s', hush s' = hush (locked false (with_entry c (final_entry (uapi (sysm s)) e3 d v rate idx req rsv) s3)) ->
      quiet s' = quiet (admitted_state c e d v s rate idx req) /\ mgr_shape s'.
Proof using All.
  intros Hr Hreq H1 H3 Hs3. pose proof (f_equal sw_info H1 : sw_info s1 = sw_info s) as Hi.
  destruct (quiet_fields _ _ H3) as (F1&_&_&F5). exists e. split; [rewrite F1; cbn; by rewrite Hi|]. split; [done|].
  split; [rewrite F5; exact (f_equal sysm H1)|]. intros s' H'. split; [exact (commit_quiet c _ _ _ s s1 s3 s' H1 (bk_lock _ Hb) H3 H')|].
  eapply shape_hush; [exact H'|]. apply shape_locked, shape_entry; [done|pose proof (zget_Some _ _ _ He); lia|].
  exact (final_shape_now rate idx req Hr Hreq).
Qed.

(** The state on which the test is done. *)
Lemma test_state s1 :
  hush s1 = hush s -> mgr_shape (locked true s1) /\ accounts (locked true s1) /\ zget (clk_client_tbl (sw_info (locked true s1))) c = Some e /\
    may_throttle e (locked true s1) = may_throttle e s /\ sw_info s1 = sw_info s.
Proof using Hb He.
  intros H1. pose proof (f_equal sw_info H1 : sw_info s1 = sw_info s) as Hi. split; [eapply shape_locked, shape_hush, Hb; done|].
  split; [destruct (bk_accounts _ Hb); split; cbn; by rewrite Hi|]. split; [cbn; by rewrite Hi|]. split; [|done]. unfold may_throttle. cbn.
  by rewrite (f_equal sysm H1 : sysm s1 = sysm s), (f_equal msm_mmrm_enable_throttle_feature H1 : msm_mmrm_enable_throttle_feature s1 = msm_mmrm_enable_throttle_feature s).
Qed.

(** What the test does: it refuses the sum or notes it. *)
Definition test_result (P : Z -> Prop) (rate idx req : Z) (s1 : mmrm_state) (rc : Z) (s3 : mmrm_state) : Prop :=
  let sum := admitted_sum c e d v s rate idx req in
  rc = - EINVAL /\ s3 = s1 /\ ~ P sum \/
  rc = 0 /\ P sum /\ quiet s3 = quiet (with_peak sum (common_level e s req) s1) /\ mgr_shape s3 /\ only_notices s1 s3.

(** What the request does with a test that admits the sums of [P]. *)
Definition request_result (P : Z -> Prop) (rate idx rc : Z) (s' : mmrm_state) : Prop :=
  rc = - EINVAL /\ hush s' = hush s /\ events s' = events s /\
    match asked_level e v rate s with None => True | Some req => ~ blocks_ok e d v \/ ~ P (admitted_sum c e d v s rate idx req) end \/
  exists req l, asked_level e v rate s = Some req /\ 0 <= req < 5 /\ blocks_ok e d v /\ P (admitted_sum c e d v s rate idx req) /\
    quiet s' = quiet (admitted_state c e d v s rate idx req) /\ mgr_shape s' /\ Forall notice l /\
    rate_set (sysm s) e d v (rsv && negb (is_crm_client e)) (events s ++ l) rc s'.

Lemma request_rate_run P rate idx :
  rate_ok rate idx ->
  (forall req s1, asked_level e v rate s = Some req -> hush s1 = hush s -> 0 <= req < 5 -> blocks_ok e d v ->
    wp (mmrm_sw_check_peak_current c req (counted_rate rate) (data_num_hw_blocks d)) (test_result P rate idx req (locked true s1)) (locked true s1)) ->
  wp (request_rate c d v rate idx rsv) (request_result P rate idx) s.
Proof using All.
  intros Hr Htest. apply (request_rate_wp c e); [apply Hb|done|by eapply rate_place| |].
  { intros s' H' Hev Hno. left. split; [done|]. split; [done|]. split; [done|]. destruct (asked_level e v rate s); [|done]. destruct Hno; [done|by left]. }
  intros req s1 Hask H1 Hev1 Hreq Hbl. eapply wp_mono; [by apply Htest|]. intros rc s3 [(->&->&Hno)|(->&HP&H3&Hs3&l&Hl&Hn)].
  - change (truthy (- EINVAL)) with true. cbv iota. left. split; [done|]. change (events (locked false (locked true s1))) with (events s1).
    split; [|by rewrite Hask; split; [|right]]. transitivity (locked false (hush s1)); [done|]. rewrite H1.
    pose proof (bk_lock _ Hb) as Hl. destruct s. cbn in Hl |- *. by subst.
  - change (truthy 0) with false. cbv iota. destruct (commit_request rate idx req s1 s3 Hr Hreq H1 H3 Hs3) as (e3&He3&Hreg&Hsy&Hend).
    exists e3. split; [done|]. split; [done|]. split; [done|]. intros rc' s' H' Hset. destruct (Hend s' H') as [Hq Hsh]. right. exists req, l.
    do 4 (split; [done|]). split; [exact Hq|]. split; [done|]. split; [done|]. rewrite Hl in Hset. cbn in Hset. by rewrite <- Hev1.
Qed.

(** With nobody to give way, the test admits the sums for which there is room. *)
Lemma test_room rate idx req s1 :
  may_throttle e s = false -> rate_ok rate idx -> hush s1 = hush s -> 0 <= req < 5 -> blocks_ok e d v ->
  wp (mmrm_sw_check_peak_current c req (counted_rate rate) (data_num_hw_blocks d)) (test_result (has_room s) rate idx req (locked true s1)) (locked true s1).
Proof using All.
  intros Hm Hr H1 Hreq Hbl. destruct (test_state s1 H1) as (Hs1&Ha1&He1&Hm1&Hi). rewrite Hm in Hm1. pose proof (sum_nonneg rate idx req Hr Hreq Hbl) as H0.
  pose proof (check_peak_run c e req (counted_rate rate) (data_num_hw_blocks d) _ Hs1 Ha1 He1 Hclk Hreq (proj1 Hr) (counted_blocks rate idx Hr Hbl) Hm1) as Hrun.
  change (sw_info (locked true s1)) with (sw_info s1) in Hrun. rewrite Hi in Hrun. fold (common_level e s req) in Hrun.
  assert (HTs : total_with (locked true s1) c (admit_entry e (counted_rate rate) req (data_num_hw_blocks d)) (common_level e s req) = admitted_sum c e d v s rate idx req).
  { rewrite sum_final. unfold total_with. cbn. by rewrite Hi. }
  rewrite HTs in Hrun. clear HTs. unfold test_result. set (sum := admitted_sum _ _ _ _ _ _ _ _) in *. cbv zeta.
  assert (Hlev : 0 <= common_level e s req < 5) by (apply adj_range; [apply Hb|done]).
  destruct (Z.leb_spec sum 0) as [Hz|Hz]; [|destruct (Z.leb_spec (threshold (peak_cur_data (sw_info s))) sum) as [Ht|Ht]].
  - eapply wp_run; [exact Hrun|]. right. replace sum with 0 by lia. split; [done|]. split; [by left|]. split; [done|].
    split; [by apply shape_peak|exact (only_notices_refl (locked true s1))].
  - eapply wp_run; [exact Hrun|]. left. split; [done|]. split; [done|]. unfold has_room. lia.
  - eapply wp_as; [exact Hrun|]. apply wp_bind. eapply wp_mono; [apply reinstate_run, shape_peak; done|].
    intros _ s3 (H3&Hs3&Hn). apply wp_ret. right. split; [done|]. split; [by right|]. by split_and!.
Qed.

(** The rate that counts is found. *)
Lemma rate_found :
  vote_place e d -> exists rate idx, (if is_crm_client e then mmrm_sw_get_max_crm_rate e d v else mret (0, 0)) s = Done ((rate, idx), s) /\ rate_ok rate idx.
Proof using All.
  intros Hpl. unfold rate_ok, counted_rate, highest_vote. destruct (is_crm_client e) eqn:Hc; [|by exists 0, 0].
  destruct (Hpl Hc) as [Hi Hp].
  destruct (max_crm_rate_run e d v s (entry_shape_of _ _ _ (bk_shape _ Hb) He) (forall_zget _ _ _ _ (bk_votes _ Hb) He) Hc Hd Hi Hp Hv)
    as (tbl&rate&idx&Hrun&Hw&Ht&Hk&Hok). exists rate, idx. split; [done|]. split; [done|]. split; [done|]. split; [|by exists tbl].
  exists tbl. split; [done|]. by apply votes_highest in Hok.
Qed.

(** A request on a client that is registered, around [request_rate]. *)
Lemma setval_wp cl (Q : Z -> mmrm_state -> Prop) :
  client_uid cl = c -> (~ vote_place e d -> Q (- EINVAL) s) -> (same_request e d v = true -> reserve e = rsv -> Q 0 s) ->
  (forall rc s', same_request e d v = true -> reserve e <> rsv -> hush s' = hush (with_entry c (e <| reserve := rsv |>) s) ->
     rate_set (sysm s) e d v rsv (events s) rc s' -> Q rc s') ->
  (forall rate idx, rate_ok rate idx -> same_request e d v = false -> wp (request_rate c d v rate idx rsv) Q s) ->
  wp (mmrm_sw_clk_client_setval (Some cl) (Some d) v) Q s.
Proof using All.
  intros Hu Hplace Hsame Hres Hreq. unfold mmrm_sw_clk_client_setval, get_sinfo. apply wp_gets. rewrite Hu, (ms_tot _ (bk_shape _ Hb)).
  pose proof (zget_Some _ _ _ He). replace (zlen _ <=? c) with false by lia. cbv zeta.
  apply wp_bind. eapply wp_run; [exact (get_entry_run _ _ _ He)|]. cbv beta. rewrite Hclk.
  destruct (is_crm_client e && _) eqn:Hcrm; [apply wp_ret, Hplace; intros Hpl; destruct Hpl; lia|].
  assert (Hpl : vote_place e d) by (intros Hc; rewrite Hc in Hcrm; lia). destruct (rate_found Hpl) as (rate&idx&Hrun&Hok).
  apply wp_bind. eapply wp_run; [exact Hrun|]. cbv beta iota. apply wp_getM. fold (reserve_only (uapi (sysm s)) d). fold rsv. fold (same_request e d v).
  destruct (same_request e d v) eqn:Hs; [|by apply Hreq].
  destruct (eqb (reserve e) rsv) eqn:Heq; [apply wp_ret, Hsame; [done|by apply eqb_prop]|]. apply eqb_false_iff in Heq.
  set (e' := e <| reserve := rsv |>) in *. apply wp_bind.
  eapply (wp_run _ _ _ tt); [unfold mutex_lock; rewrite getM_run, (bk_lock _ Hb); reflexivity|].
  apply wp_bind. eapply wp_run; [exact (upd_entry_run (locked true s) c e _ He)|]. apply wp_modify. fold e'.
  assert (Hh : locked false (with_entry c e' (locked true s)) = with_entry c e' s) by (pose proof (bk_lock _ Hb) as Hl; destruct s; cbn in Hl; by subst).
  unfold locked in Hh at 1. rewrite Hh. unfold rate_set in Hres. destruct rsv eqn:Hrsv; [by apply wp_ret, Hres|].
  apply wp_bind. eapply wp_run; [exact (get_entry_run _ _ _ (with_entry_get s c e e' He))|].
  eapply wp_run; [exact (set_the_rate_run e' d v (with_entry c e' s))|]. apply Hres; [done|done|done|]. split; [done|]. by exists (sys_calls s).
Qed.

Lemma reserve_books b : books (with_entry c (e <| reserve := b |>) s).
Proof using Hb He.
  apply (books_same _ _ e); [done|done|by destruct (entry_shape_of _ _ _ (bk_shape _ Hb) He)
    |exact (forall_zget _ _ _ _ (ac_counted _ (bk_accounts _ Hb)) He)|exact (forall_zget _ _ _ _ (bk_votes _ Hb) He)
    |eapply fits_entry; [apply Hb|exact He|done]|done].
Qed.

(** A request of a client that makes nobody give way. *)
Lemma setval_run cl :
  client_uid cl = c -> may_throttle e s = false ->
  wp (mmrm_sw_clk_client_setval (Some cl) (Some d) v) (fun rc s' => books s' /\ setval_result c e d v s rc s') s.
Proof using All.
  intros Hu Hm. apply (setval_wp cl _ Hu).
  - intros Hpl. split; [done|by constructor].
  - intros Hs Hr. split; [done|by constructor].
  - intros rc s' Hs Hr H' Hset. split; [eapply books_hush; [exact H'|apply reserve_books]|by apply SvReserve].
  - intros rate idx Hok Hs. pose proof Hok as (_&Hpl&Hhv&_).
    eapply wp_mono; [apply (request_rate_run (has_room s) rate idx Hok); intros; by apply test_room|].
    intros rc s' [(->&H'&Hev&Hno)|(req&l&Hask&Hreq&Hbl&Hroom&Hq&Hsh&Hn&Hset)].
    + split; [by eapply books_hush|by eapply SvRefused].
    + split; [eapply books_quiet; [exact Hq|done|by apply admitted_books]|by eapply SvAdmitted].
Qed.

End Setval.
