(* ===== verification/MmrmExcess.v ===== *)
(** * A request above the threshold

    With throttling, a request of a client of high priority that exceeds the
    threshold makes others give way; when none of them qualifies the loop ends
    with the result 0, and the request is admitted as if there was room. *)

From S2P Require Import Prelude MmrmState MmrmClk MmrmAdmit MmrmCurr MmrmPeak MmrmVotes MmrmSetval MmrmBooks.

Local Open Scope Z_scope.

(** What a client saves at the lowest level. *)
Definition saving (level : Z) (e : mmrm_sw_clk_client_tbl_entry) : Z := cell e (vdd_level e) level - cell e MMRM_VDD_LEVEL_LOW_SVS level.

(** The clients that may be throttled, in the order of the table. *)
Definition throttle_list (i : mmrm_sw_clk_mgr_info) : list mmrm_throttle_info := take (Z.to_nat (throttle_clients_data_length i)) (throttle_clients_info i).

(** None of them saves more than [delta], as the loop asks of the one that it throttles. *)
Definition nobody_gives (i : mmrm_sw_clk_mgr_info) (delta : Z) : Prop :=
  Forall (fun t => forall e, zget (clk_client_tbl i) (tbl_entry_id t) = Some e -> saving (aggreg_level (peak_cur_data i)) e <= u32 delta) (throttle_list i).

Section Idle.
Context (s : mmrm_state) (Hs : mgr_shape s).

Lemma throttle_loop_idle delta fuel i :
  0 <= i -> i + Z.of_nat fuel = throttle_clients_data_length (sw_info s) -> nobody_gives (sw_info s) delta ->
  throttle_loop fuel i 0 delta s = Done ((0, delta), s).
Proof using Hs.
  intros Hi Hlen Hno. revert i Hi Hlen. induction fuel as [|fuel IH]; intros i Hi Hlen; cbn [throttle_loop]; [done|]. pose proof (ms_len _ Hs) as Hl.
  destruct (zget_is_Some (throttle_clients_info (sw_info s)) i ltac:(lia)) as [t Ht]. pose proof (forall_zget _ _ _ _ (ms_info _ Hs) Ht) as Hk.
  destruct (zget_is_Some _ _ Hk) as [e He]. pose proof (entry_shape_of _ _ _ Hs He) as Hes. cbv beta in Hk.
  assert (Hentry : throttle_entry i s = Done (tbl_entry_id t, s)).
  { unfold throttle_entry, get_sinfo. change ((gets sw_info ≫= ?k) s) with (k (sw_info s) s). cbv beta. by rewrite Ht. }
  rewrite (bind_run _ _ _ _ _ Hentry), (bind_run _ _ _ _ _ (get_entry_run _ _ _ He)). cbv beta zeta.
  unfold get_sinfo. change ((gets sw_info ≫= ?k) s) with (k (sw_info s) s). cbv beta.
  set (level := aggreg_level (peak_cur_data (sw_info s))). pose proof (ms_level _ Hs : 0 <= level < 5) as Hlev.
  rewrite (cell_run e (vdd_level e) level), (cell_run e MMRM_VDD_LEVEL_LOW_SVS level) by (done || apply Hes).
  assert (Hsave : saving level e <= u32 delta).
  { unfold nobody_gives in Hno. rewrite Forall_forall in Hno. apply (Hno t); [|done]. unfold throttle_list. rewrite zget_to_nat in Ht by lia.
    apply list_elem_of_lookup_2 with (i := Z.to_nat i). rewrite lookup_take_lt by lia. done. }
  unfold saving in Hsave. destruct (cell_in e (vdd_level e) level Hes (es_level _ Hes) Hlev) as (_&Hw1&_).
  destruct (cell_in e MMRM_VDD_LEVEL_LOW_SVS level Hes ltac:(done) Hlev) as (_&Hw2&_). unfold is_word in Hw1, Hw2.
  assert (Hskip : (cell e (vdd_level e) level <=? cell e MMRM_VDD_LEVEL_LOW_SVS level) ||
    (u32 (cell e (vdd_level e) level - cell e MMRM_VDD_LEVEL_LOW_SVS level) <=? u32 delta) = true).
  { destruct (Z.leb_spec (cell e (vdd_level e) level) (cell e MMRM_VDD_LEVEL_LOW_SVS level)); [done|]. rewrite wrap_small by (unfold is_word; lia). cbn. lia. }
  rewrite Hskip. apply IH; lia.
Qed.

Lemma throttle_idle delta :
  nobody_gives (sw_info s) delta -> mmrm_sw_throttle_low_priority_client delta s = Done ((0, delta), s).
Proof using Hs.
  intros Hno. unfold mmrm_sw_throttle_low_priority_client, get_sinfo. change ((gets sw_info ≫= ?k) s) with (k (sw_info s) s). cbv beta.
  pose proof (ms_len _ Hs). apply throttle_loop_idle; [lia|lia|done].
Qed.
End Idle.

(** The request of a client that nobody shares, above the threshold. *)
Section Excess.
Context (cl : mmrm_client) (e : mmrm_sw_clk_client_tbl_entry) (d : mmrm_client_data) (v req : Z) (s : mmrm_state).
Context (Hb : books s) (He : zget (clk_client_tbl (sw_info s)) (client_uid cl) = Some e) (Hclk : is_err_or_null (clk e) = false).
Context (Hd : data_ok d) (Hv : is_word 32 v) (Hcrm : is_crm_client e = false).
Context (Hnew : same_request e d v = false) (Hask : asked_level e v 0 s = Some req) (Hbl : blocks_ok e d v).

Let c : Z := client_uid cl.
Let sum : Z := admitted_sum c e d v s 0 0 req.
Context (Hex : threshold (peak_cur_data (sw_info s)) <= sum) (Hpos : 0 < sum).

Lemma not_shared : is_crm_client e = true -> v = 0 -> data_num_hw_blocks d <= max_num_hw_blocks e.
Proof using Hcrm. intros Hc. rewrite Hcrm in Hc. discriminate. Qed.

(** When nobody gives way, the test admits the sum. *)
Lemma test_excess rate idx req' s1 :
  may_throttle e s = true -> nobody_gives (sw_info s) (added e req v (data_num_hw_blocks d) s) ->
  rate_ok e d v s rate idx -> asked_level e v rate s = Some req' -> hush s1 = hush s -> 0 <= req' < 5 ->
  wp (mmrm_sw_check_peak_current c req' (counted_rate e v rate) (data_num_hw_blocks d))
    (test_result c e d v s (fun x => sum = x) rate idx req' (locked true s1)) (locked true s1).
Proof using All.
  intros Hm Hno Hr Hask' H1 Hreq. destruct (test_state c e s Hb He s1 H1) as (Hs1&Ha1&He1&Hm1&Hi). rewrite Hm in Hm1.
  pose proof Hr as (_&_&Hhv&_). unfold highest_vote in Hhv. rewrite Hcrm in Hhv. destruct Hhv as [-> ->].
  assert (req' = req) as -> by (rewrite Hask in Hask'; by injection Hask'). assert (Hcr : counted_rate e v 0 = v) by (unfold counted_rate; by rewrite Hcrm).
  pose proof (counted_blocks c e d v s Hb He Hclk Hd Hv not_shared 0 0 Hr Hbl) as Hblk.
  pose proof (sum_final c e d v s Hb He Hclk Hd Hv not_shared 0 0 req) as Hsum. rewrite Hcr in *. fold c sum in Hsum.
  destruct (check_peak_sum c e req v (data_num_hw_blocks d) (locked true s1) Hs1 Ha1 He1 Hclk Hreq Hv Hblk) as (peak&Hu&Hrun).
  assert (Hadd : added e req v (data_num_hw_blocks d) (locked true s1) = added e req v (data_num_hw_blocks d) s) by (unfold added; cbn; by rewrite Hi).
  assert (HT : total_with (locked true s1) c (admit_entry e v req (data_num_hw_blocks d)) (common_level e s req) = sum).
  { rewrite Hsum. unfold total_with. cbn. by rewrite Hi. }
  change (sw_info (locked true s1)) with (sw_info s1) in Hrun, Hu. rewrite Hi in Hrun, Hu. fold (common_level e s req) in Hrun, Hu. rewrite HT in Hrun, Hu.
  replace (sum <=? 0) with false in Hrun by lia. eapply wp_as; [exact Hrun|]. unfold test_sum. rewrite Hm1, Hadd in *.
  change (sw_info (locked true s1)) with (sw_info s1). rewrite Hi. fold (common_level e s req). rewrite HT.
  replace (threshold (peak_cur_data (sw_info s)) <=? sum) with true by lia. apply wp_bind.
  eapply wp_run; [apply throttle_idle; [done|cbn; by rewrite Hi]|]. cbv beta iota. change (truthy 0) with false. cbv iota.
  apply wp_bind. eapply (wp_run _ _ _ tt); [reflexivity|]. rewrite Hu. change (upd sw_info _ (locked true s1)) with (with_peak sum (common_level e s req) (locked true s1)).
  apply wp_bind. eapply wp_mono; [apply reinstate_run, shape_peak; [done|apply adj_range; [apply Hb|done]]|]. intros _ s3 (H3&Hs3&Hn). apply wp_ret. right.
  split; [done|]. split; [done|]. split; [exact H3|]. by split.
Qed.

(** A request that is not a repetition reaches [request_rate]. *)
Lemma request_reached P :
  (forall rate idx req' s1, rate_ok e d v s rate idx -> asked_level e v rate s = Some req' -> hush s1 = hush s -> 0 <= req' < 5 ->
    wp (mmrm_sw_check_peak_current c req' (counted_rate e v rate) (data_num_hw_blocks d)) (test_result c e d v s P rate idx req' (locked true s1)) (locked true s1)) ->
  wp (mmrm_sw_clk_client_setval (Some cl) (Some d) v) (request_result c e d v s P 0 0) s.
Proof using All.
  intros Htest. apply (setval_wp c e d v s Hb He Hclk Hd Hv not_shared cl _ eq_refl).
  - intros Hpl. exfalso. apply Hpl. intros Hc. by rewrite Hcrm in Hc.
  - congruence.
  - intros rc s' Hs. congruence.
  - intros rate idx Hr _. pose proof Hr as (_&_&Hhv&_). unfold highest_vote in Hhv. rewrite Hcrm in Hhv. destruct Hhv as [-> ->].
    apply request_rate_run; try done; [exact not_shared|]. intros req' s1 Hask' H1 Hreq _. by apply Htest.
Qed.
End Excess.

