(* ===== verification/MmrmThrottle.v ===== *)
(** * Requests that make others give way

    With throttling, for every answer of the clock framework, of the allocator and
    of the clients: a request completes, releases the lock and leaves tables that
    the next operation can rely on. *)

From S2P Require Import Prelude MmrmState MmrmClk MmrmAdmit MmrmCurr MmrmPeak MmrmVotes MmrmSetval.

Local Open Scope Z_scope.

(** What every operation on a client leaves alone. *)
Definition steady (s s' : mmrm_state) : Prop :=
  sysm s' = sysm s /\ mgr_locked s' = mgr_locked s /\ drv_data s' = drv_data s /\ is_clk_scaling_supported s' = is_clk_scaling_supported s /\
  clk_mgr_set s' = clk_mgr_set s /\ threshold (peak_cur_data (sw_info s')) = threshold (peak_cur_data (sw_info s)).

#[export] Instance steady_preorder : PreOrder steady.
Proof. split; unfold steady; [done|]. intros s1 s2 s3 (A1&A2&A3&A4&A5&A6) (B1&B2&B3&B4&B5&B6). repeat split; congruence. Qed.

(** What throttling leaves alone: the lock, and of each entry the registration. *)
Definition kept (s s' : mmrm_state) : Prop :=
  steady s s' /\ forall c e, zget (clk_client_tbl (sw_info s)) c = Some e -> exists e', zget (clk_client_tbl (sw_info s')) c = Some e' /\ registration e' = registration e.

#[export] Instance kept_preorder : PreOrder kept.
Proof.
  split; unfold kept.
  - intros s. split; [reflexivity|]. eauto.
  - intros s1 s2 s3 (A1&A6) (B1&B6). split; [by transitivity s2|]. intros c e He.
    destruct (A6 _ _ He) as (e2&He2&H2). destruct (B6 _ _ He2) as (e3&He3&H3). exists e3. split; [done|congruence].
Qed.

Lemma kept_steady s s' : kept s s' -> steady s s'.
Proof. by intros [H _]. Qed.

Lemma steady_quiet s s' : quiet s' = quiet s -> steady s s'.
Proof.
  intros H. split; [exact (f_equal sysm H)|]. split; [exact (f_equal mgr_locked H)|]. split; [exact (f_equal drv_data H)|].
  split; [exact (f_equal is_clk_scaling_supported H)|]. split; [exact (f_equal clk_mgr_set H)|exact (f_equal (fun s => threshold (peak_cur_data (sw_info s))) H)].
Qed.

Lemma kept_quiet s s' : quiet s' = quiet s -> kept s s'.
Proof.
  intros H. split; [by apply steady_quiet|]. intros c e He. exists e.
  by rewrite (f_equal (fun s => clk_client_tbl (sw_info s)) H : clk_client_tbl (sw_info s') = clk_client_tbl (sw_info s)).
Qed.

Lemma kept_entry s c e e' :
  zget (clk_client_tbl (sw_info s)) c = Some e -> registration e' = registration e -> kept s (with_entry c e' s).
Proof.
  intros He Hr. split; [done|]. intros k e0 Hk. destruct (decide (k = c)) as [->|Hne].
  - exists e'. split; [by eapply with_entry_get|]. congruence.
  - exists e0. split; [|done]. cbn. pose proof (zget_Some _ _ _ He). by rewrite zget_insert_ne by lia.
Qed.

(** A throttled entry: an entry above the lowest level is registered. *)
Definition throttle_to (e : mmrm_sw_clk_client_tbl_entry) (rate : Z) : mmrm_sw_clk_client_tbl_entry :=
  e <| clk_rate := rate |> <| vdd_level := MMRM_VDD_LEVEL_LOW_SVS |> <| reserve := false |>.

Lemma throttle_shape e rate : entry_shape e -> vdd_level e <> 0 -> entry_shape (throttle_to e rate).
Proof. intros [E1 E2 E3 E4 E5 E6 E7] Hv. split; try done. intros Hc. destruct (E7 Hc) as (_&_&H0&_). done. Qed.

(** The notification of a client, and the change of its clock. *)
Lemma throttle_calls_wp (b : bool) (m : MM Z) rc s (Q : Z -> mmrm_state -> Prop) :
  (b = true -> exists rc' s', m s = Done (rc', s') /\ hush s' = hush s) -> (forall rc' s', hush s' = hush s -> Q rc' s') ->
  wp (if b then m else mret rc) Q s.
Proof. intros Hm HQ. destruct b; [|by apply wp_ret, HQ]. destruct (Hm eq_refl) as (rc'&s'&Hr&H). eapply wp_run; eauto. Qed.

(** The throttled client is noted. *)
Lemma throttle_store_wp c e i x rate (a b : Z * Z) s :
  mgr_shape s -> zget (clk_client_tbl (sw_info s)) c = Some e -> vdd_level e <> 0 -> 0 <= i < zlen (throttle_clients_info (sw_info s)) ->
  wp (ok ← kzalloc; if negb (ok : bool) then mret a else
      upd_sinfo (fun s => s <| throttled_clients ::= fun l => l ++ [mkThrottled i x (vdd_level e)] |>) ;; upd_entry c (fun e => throttle_to e rate) ;; mret b)
    (fun _ s' => mgr_shape s' /\ kept s s') s.
Proof.
  intros Hs He Hv Hi. apply wp_bind. eapply wp_run; [reflexivity|]. destruct (kzalloc_ok _ _); cbn [negb].
  2: { apply wp_ret. split; [by apply (shape_hush s)|by apply kept_quiet]. }
  apply wp_bind. eapply (wp_run _ _ _ tt); [reflexivity|]. set (s1 := upd sw_info _ _).
  assert (Hs1 : mgr_shape s1). {
    pose proof (es_level _ (entry_shape_of _ _ _ Hs He)). destruct Hs as [H1 H2 H3 H4 H5 H6 H7 H8 H9]. split; try done.
    apply Forall_app. split; [done|]. by apply Forall_singleton. }
  apply wp_bind. eapply wp_run; [by apply (upd_entry_run s1 c e)|]. apply wp_ret. split.
  - apply shape_entry; [done|pose proof (zget_Some _ _ _ He); lia|by apply throttle_shape; [eapply entry_shape_of|]].
  - transitivity s1; [by apply kept_quiet|by apply (kept_entry _ _ e)].
Qed.

Lemma throttle_loop_wp fuel i rc delta s :
  mgr_shape s -> 0 <= i -> i + Z.of_nat fuel <= zlen (throttle_clients_info (sw_info s)) ->
  wp (throttle_loop fuel i rc delta) (fun _ s' => mgr_shape s' /\ kept s s') s.
Proof.
  revert i rc delta s. induction fuel as [|fuel IH]; intros i rc delta s Hs Hi Hf; cbn [throttle_loop]; [apply wp_ret; done|].
  destruct (throttle_entry_run s i Hs ltac:(lia)) as (c&e&Hc&Hc0&He). pose proof (entry_shape_of _ _ _ Hs He) as Hes. pose proof (ms_level _ Hs) as Hl.
  apply wp_bind. eapply wp_run; [exact Hc|]. apply wp_bind. eapply wp_run; [exact (get_entry_run _ _ _ He)|]. cbv beta. apply wp_gets. cbv zeta.
  eapply wp_as; [apply cell_run; [done|apply Hes|done]|]. eapply wp_as; [apply cell_run; [done|done|done]|].
  assert (Hnext : forall rc s', hush s' = hush s -> wp (throttle_loop fuel (i + 1) rc delta) (fun _ s' => mgr_shape s' /\ kept s s') s').
  { intros rc' s' H. pose proof (f_equal sw_info H : sw_info s' = sw_info s) as Hsw. eapply wp_mono; [apply IH; [by eapply shape_hush|lia|rewrite Hsw; lia]|].
    intros x s2 [H2 H3]. split; [done|]. etransitivity; [by apply kept_quiet, quiet_hush, H|done]. }
  destruct (_ || _) eqn:Hcell; [by apply Hnext|]. destruct (freq_is_some e _ Hes (es_level _ Hes)) as [old Hold].
  destruct (freq_is_some e MMRM_VDD_LEVEL_LOW_SVS Hes ltac:(done)) as [new Hnew]. apply (wp_liftO _ _ _ _ _ _ Hold), (wp_liftO _ _ _ _ _ _ Hnew).
  apply wp_bind, throttle_calls_wp; [intros _; do 2 eexists; split; reflexivity|]. intros rc1 s1 H1. destruct (truthy rc1); [by apply Hnext|].
  assert (Hi1 : forall s', hush s' = hush s -> sw_info s' = sw_info s) by (intros s' H; exact (f_equal sw_info H)).
  assert (Htail : forall rc2 x s2 a b, hush s2 = hush s ->
    wp (if truthy rc2 then throttle_loop fuel (i + 1) rc2 delta else ok ← kzalloc; if negb (ok : bool) then mret a else
      upd_sinfo (fun s => s <| throttled_clients ::= fun l => l ++ [mkThrottled i x (vdd_level e)] |>) ;; upd_entry c (fun e => throttle_to e new) ;; mret b)
      (fun _ s' => mgr_shape s' /\ kept s s') s2).
  { intros rc2 x s2 a b H2. destruct (truthy rc2); [by apply Hnext|]. rewrite <- (Hi1 s2 H2) in *. eapply wp_mono.
    - apply (throttle_store_wp c e); [by eapply shape_hush|done|intros H0; rewrite H0 in Hcell; change MMRM_VDD_LEVEL_LOW_SVS with 0 in Hcell; lia|lia].
    - intros r s' [A B]. split; [done|]. etransitivity; [by apply kept_quiet, quiet_hush, H2|done]. }
  apply wp_bind. destruct (reserve e).
  - apply wp_ret. by apply Htail.
  - eapply wp_run; [reflexivity|]. by apply Htail.
Qed.

Lemma kept_unlock s s1 s3 : kept (locked true s1) s3 -> hush s1 = hush s -> mgr_locked s = false -> kept s (locked false s3).
Proof.
  intros [(K1&K2&K3&K4&K5&K7) K6] H1 Hl. apply quiet_hush, kept_quiet in H1 as [(H1&_&H3&H4&H5&H7) H6]. cbn in *.
  split; [repeat split; cbn; congruence|]. intros c e He. destruct (H6 _ _ He) as (e1&He1&R1).
  destruct (K6 _ _ He1) as (e3&He3&R3). exists e3. split; [done|congruence].
Qed.

(** The notes on the peak. *)
Lemma kept_peak s v level : kept s (with_peak v level s).
Proof. split; [done|]. eauto. Qed.

Lemma throttle_wp s delta :
  mgr_shape s -> wp (mmrm_sw_throttle_low_priority_client delta) (fun _ s' => mgr_shape s' /\ kept s s') s.
Proof. intros Hs. pose proof (ms_len _ Hs). unfold mmrm_sw_throttle_low_priority_client. apply wp_gets. apply throttle_loop_wp; [done|lia|lia]. Qed.

Lemma total_wp s level c :
  mgr_shape s -> 0 <= level < 5 -> exists x, mmrm_sw_calculate_total_current level c s = Done ((0, x), s).
Proof.
  intros Hs Hl. unfold mmrm_sw_calculate_total_current, MMRM_VDD_LEVEL_MAX. replace (5 <=? level) with false by lia.
  rewrite (bind_run _ _ _ _ _ (all_entries_run s Hs)). destruct (sum_current_some level c _ 0 0 (ms_entries _ Hs) Hl) as [x Hx].
  rewrite Hx. by exists x.
Qed.

Lemma check_peak_wp s c e req rate blocks :
  mgr_shape s -> zget (clk_client_tbl (sw_info s)) c = Some e -> 0 <= req < 5 ->
  wp (mmrm_sw_check_peak_current c req rate blocks) (fun _ s' => mgr_shape s' /\ kept s s') s.
Proof.
  intros Hs He Hreq. pose proof (entry_shape_of _ _ _ Hs He) as Hes. pose proof (adj_range s (clk_src_id e) req Hs Hreq) as Hadj.
  unfold mmrm_sw_check_peak_current. apply wp_bind. eapply wp_run; [exact (get_entry_run _ _ _ He)|].
  apply wp_bind. eapply wp_run; [by apply check_req_level_run|]. cbv beta iota. change (truthy 0) with false. cbv iota.
  set (adj := adjusted _ _ _ _) in *. apply wp_gets. cbv zeta. apply wp_bind.
  assert (Hnew : exists x, (if truthy (u32 rate) then cur ← liftO OutOfBounds (current_at e req adj); mret (u32 (cur * blocks)) else mret 0 : MM Z) s = Done (x, s)).
  { destruct (truthy _); [|by eexists]. destruct (cell_in e req adj Hes Hreq Hadj) as (->&_). by eexists. }
  destruct Hnew as [new Hnew]. eapply wp_run; [exact Hnew|]. apply wp_bind.
  assert (Hold : exists x, (if truthy (clk_rate e) then liftO OutOfBounds (entry_current e (aggreg_level (peak_cur_data (sw_info s)))) else mret 0 : MM Z) s = Done (x, s)).
  { destruct (truthy (clk_rate e)); [|by eexists]. unfold entry_current. destruct (cell_in e _ _ Hes (es_level _ Hes) (ms_level _ Hs)) as (->&_). by eexists. }
  destruct Hold as [old Hold]. eapply wp_run; [exact Hold|]. apply wp_bind.
  assert (Hpeak : exists peak delta, (if negb (adj =? aggreg_level (peak_cur_data (sw_info s))) then '(rc, total) ← mmrm_sw_calculate_total_current adj c; mret (rc, u32 (total + new), 0)
    else mret (0, aggreg_val (peak_cur_data (sw_info s)), s32 (new - old)) : MM (Z * Z * Z)) s = Done ((0, peak, delta), s)).
  { destruct (negb _); [|by do 2 eexists]. destruct (total_wp s adj c Hs Hadj) as [x Hx]. rewrite (bind_run _ _ _ _ _ Hx). by do 2 eexists. }
  destruct Hpeak as (peak&delta&Hpeak). eapply wp_run; [exact Hpeak|]. cbv beta iota. change (truthy 0) with false. cbv iota.
  destruct (_ <=? 0); [eapply wp_run; [reflexivity|]; split; [by apply shape_peak|apply kept_peak]|]. apply wp_getM. apply wp_bind.
  assert (Htail : forall (rc : Z) d s2, mgr_shape s2 -> kept s s2 ->
    wp (if truthy rc then mret rc else upd_peak (fun p => p <| aggreg_val := u32 (peak + d) |> <| aggreg_level := adj |>) ;; mmrm_reinstate_throttled_client ;; mret 0)
      (fun _ s' => mgr_shape s' /\ kept s s') s2).
  { intros rc d' s2 H2 K2. destruct (truthy rc); [by apply wp_ret|]. apply wp_bind. eapply (wp_run _ _ _ tt); [reflexivity|]. apply wp_bind.
    eapply wp_mono; [apply (reinstate_run (with_peak (u32 (peak + d')) adj s2)), shape_peak; done|]. intros _ s3 (Hq&H3&_). apply wp_ret. split; [done|].
    transitivity s2; [done|]. etransitivity; [apply kept_peak|by apply kept_quiet, Hq]. }
  destruct (_ <=? _); [|apply wp_ret; by apply Htail]. destruct (_ && _); [|apply wp_ret; by apply Htail].
  eapply wp_mono; [by apply throttle_wp|]. intros [rc d'] s2 [H2 K2]. by apply Htail.
Qed.

(** The votes of a shared client are never read out of bounds. *)
Lemma max_crm_rate_total e d v s : entry_shape e -> is_crm_client e = true -> exists r, mmrm_sw_get_max_crm_rate e d v s = Done (r, s).
Proof.
  intros Hes Hc. destruct (es_crm _ Hes Hc) as (tbl&Ht&Hl&_). unfold mmrm_sw_get_max_crm_rate. rewrite getM_run. cbv zeta.
  destruct (_ <? v); [by eexists|]. destruct (_ =? _); [|by eexists]. rewrite (liftO_run _ _ _ _ _ Ht), Hl, Z.leb_refl, ret_run.
  destruct (max_vote _ _ _ _ _) as [m j]. destruct (m <=? v); by eexists.
Qed.

(** A request for a rate is safe. *)
Lemma setval_safe_run cl d v s :
  mgr_shape s -> mgr_locked s = false -> 0 <= client_uid cl -> data_ok d ->
  wp (mmrm_sw_clk_client_setval (Some cl) (Some d) v) (fun _ s' => mgr_shape s' /\ steady s s') s.
Proof.
  intros Hs Hl Hu Hd. assert (Hid : mgr_shape s /\ steady s s) by done. unfold mmrm_sw_clk_client_setval. apply wp_gets. rewrite (ms_tot _ Hs).
  destruct (Z.leb_spec (zlen (clk_client_tbl (sw_info s))) (client_uid cl)); [by apply wp_ret|]. set (c := client_uid cl) in *. cbv zeta.
  destruct (zget_is_Some (clk_client_tbl (sw_info s)) c ltac:(lia)) as [e He]. pose proof (entry_shape_of _ _ _ Hs He) as Hes.
  apply wp_bind. eapply wp_run; [exact (get_entry_run _ _ _ He)|]. cbv beta. destruct (is_err_or_null (clk e)) eqn:Hclk; [by apply wp_ret|].
  pose proof (registered _ _ _ Hs He Hclk) as Hcl. destruct (is_crm_client e && _) eqn:Hcrm; [by apply wp_ret|].
  assert (Hmax : exists rate idx, (if is_crm_client e then mmrm_sw_get_max_crm_rate e d v else mret (0, 0)) s = Done ((rate, idx), s)).
  { destruct (is_crm_client e) eqn:Hc; [|by do 2 eexists]. destruct (max_crm_rate_total e d v s Hes Hc) as [[r i] Hr]. by do 2 eexists. }
  destruct Hmax as (rate&idx&Hmax). apply wp_bind. eapply wp_run; [exact Hmax|]. cbv beta iota. apply wp_getM. set (rsv := truthy _).
  assert (Hvote : is_crm_client e = true -> exists tbl, crm_client_tbl e = Some tbl /\ 0 <= vote_index (uapi (sysm s)) e d < zlen tbl).
  { intros Hc. rewrite Hc in Hcrm. cbn in Hcrm. destruct (es_crm _ Hes Hc) as (tbl&Ht&_). exists tbl. split; [done|]. apply vote_index_range; try done; lia || apply Hes. }
  destruct (_ && _ && negb _).
  - destruct (eqb _ _); [by apply wp_ret|]. set (e' := e <| reserve := rsv |>).
    assert (Hk : forall s', hush s' = hush (locked false (with_entry c e' (locked true s))) -> mgr_shape s' /\ steady s s').
    { intros s' H'. split; [eapply shape_hush; [exact H'|]; apply shape_locked, shape_entry; [by apply shape_locked|lia|by destruct Hes]|].
      apply (quiet_hush _ _), kept_quiet, kept_steady in H'. etransitivity; [|exact H']. by unfold steady; cbn; rewrite Hl. }
    apply wp_bind. eapply (wp_run _ _ _ tt); [unfold mutex_lock; rewrite getM_run, Hl; reflexivity|].
    apply wp_bind. eapply wp_run; [exact (upd_entry_run (locked true s) c e _ He)|]. apply wp_modify.
    destruct rsv; [apply wp_ret; by apply Hk|]. apply wp_bind. eapply wp_run; [exact (get_entry_run (locked false (with_entry c _ (locked true s))) _ _ (with_entry_get _ c e _ He))|].
    eapply wp_run; [exact (set_the_rate_run e' d v (locked false (with_entry c e' (locked true s))))|]. by apply Hk.
  - apply (request_rate_wp c e); [done..| |].
    { intros s' H' _ _. split; [by eapply shape_hush|by apply kept_steady, kept_quiet, quiet_hush]. }
    intros req s1 _ H1 _ Hreq _. pose proof (f_equal sw_info H1 : sw_info s1 = sw_info s) as Hi.
    eapply wp_mono; [apply (check_peak_wp _ _ e); [eapply shape_locked, shape_hush, Hs; done|cbn; by rewrite Hi|done]|].
    intros rc s3 [H3 K3]. pose proof (kept_unlock _ _ _ K3 H1 Hl) as K. pose proof (kept_steady _ _ K) as Kst. destruct (truthy rc); [split; [by apply shape_locked|done]|].
    destruct K as [(K1&K2&K4&K5&K6&K8) K7]. destruct (K7 _ _ He) as (e3&He3&Hreg). exists e3. split; [done|]. split; [done|]. split; [done|].
    intros rc' s' H' _. assert (Hf : entry_shape (final_entry (uapi (sysm s)) e3 d v rate idx req rsv)).
    { unfold registration in Hreg. injection Hreg as R1 _ _ _ _ _ R2 R3 R4 R5 R6. apply final_shape; [by eapply entry_shape_of|by rewrite R1| |done].
      intros Hc. rewrite R2 in Hc. destruct (Hvote Hc) as (tbl&Ht&Hk). exists tbl. rewrite R6. split; [done|].
      unfold vote_index in *. by rewrite R4, R5. }
    split; [eapply shape_hush; [exact H'|]; apply shape_locked, shape_entry; [done|lia|done]|].
    etransitivity; [exact Kst|]. apply (quiet_hush _ _), kept_quiet, kept_steady in H'. etransitivity; [|exact H']. done.
Qed.
