(* ===== verification/MmrmFreq.v ===== *)
(** * The frequencies and currents of a client

    A registration determines the highest frequency of the client's clock at each
    voltage level and the current at each pair of levels: the loop over the rates
    ends and its frequencies rise with the level, and the nested loops fill the
    table of currents as its definition says. *)

From Stdlib Require Import Sorted.
From S2P Require Import Prelude MmrmState MmrmClk MmrmAdmit MmrmCurr MmrmPeak.

Local Open Scope Z_scope.

(** ** Frequencies *)

(** Frequencies that rise with the level, up to [m]. *)
Definition rising (m : Z) (l : list Z) : Prop := zlen l = 5 /\ StronglySorted Z.le l /\ Forall (fun x => 0 < x <= m) l.

Lemma fill_sorted l n v :
  StronglySorted Z.le l -> Forall (fun x => x <= v) l -> StronglySorted Z.le (take n l ++ map (fun _ => v) (drop n l)).
Proof.
  intros Hs. revert n. induction Hs as [|x l Hs IH Hx]; intros n Hv; [destruct n; constructor|]. inversion_clear Hv as [|? ? Hxv Hv'].
  destruct n as [|n]; cbn; constructor.
  - apply (IH 0%nat), Hv'.
  - apply Forall_map, Forall_forall. intros y _. cbn. lia.
  - apply IH, Hv'.
  - apply Forall_app. split; [by apply Forall_take|]. apply Forall_map, Forall_forall. intros y _. cbn. lia.
Qed.

Lemma fill_rising m l i v : rising m l -> m <= v -> rising v (fill_from i v l).
Proof.
  intros (Hl&Hs&Hb) Hv. unfold fill_from. split; [unfold zlen in *; rewrite length_app, length_take, length_map, length_drop; lia|]. split.
  - apply fill_sorted; [done|]. eapply Forall_impl; [exact Hb|]. cbn. lia.
  - apply Forall_app. split; [apply Forall_take; eapply Forall_impl; [exact Hb|]; cbn; lia|].
    apply Forall_map. eapply Forall_impl; [apply Forall_drop, Hb|]. cbn. lia.
Qed.

(** What the clock framework documents: a rate is a positive number, with room
    for the step of the loop. *)
Definition clk_rates (sy : mmrm_system) : Prop := forall n k r, 0 < clk_round_rate_ret sy n k r < 2 ^ 63 - CLK_RATE_STEP.

Lemma wp_round {B} k r (f : Z -> MM B) Q s1 :
  (forall s2, hush s2 = hush s1 -> wp (f (clk_round_rate_ret (sysm s1) (sys_calls s1) k r)) Q s2) -> wp (clk_round_rate k r ≫= f) Q s1.
Proof. intros H. exact (H (s1 <| sys_calls ::= S |>) eq_refl). Qed.

Lemma wp_voltage {B} k r (f : Z -> MM B) Q s1 :
  (forall v s2, hush s2 = hush s1 -> wp (f v) Q s2) -> wp (qcom_clk_get_voltage k r ≫= f) Q s1.
Proof. intros H. exact (H _ (s1 <| sys_calls ::= S |>) eq_refl). Qed.

Lemma signed64_small x : 0 <= x < 2 ^ 63 -> signed 64 x = x.
Proof. intros Hx. unfold signed. wsmall. by rewrite bool_decide_true by lia. Qed.

(** ** One entry changes *)

(** The state [s1] is [s] but for the entry [c], which is [e], and what is outside. *)
Definition at_entry (c : Z) (e : mmrm_sw_clk_client_tbl_entry) (s s1 : mmrm_state) : Prop := hush s1 = hush (with_entry c e s).

Section AtEntry.
Context (c : Z) (s : mmrm_state) (Hc : 0 <= c < zlen (clk_client_tbl (sw_info s))).

Lemma at_get e s1 : at_entry c e s s1 -> zget (clk_client_tbl (sw_info s1)) c = Some e.
Proof using Hc. intros H. rewrite (f_equal (fun s => clk_client_tbl (sw_info s)) H : clk_client_tbl (sw_info s1) = _). by apply zget_insert_eq. Qed.

Lemma at_start e : zget (clk_client_tbl (sw_info s)) c = Some e -> at_entry c e s s.
Proof using Hc.
  intros He. unfold at_entry. f_equal. destruct s as [? ? ? ? ? ? ? i ? ? ? ? ?]. unfold with_entry. cbn in *. f_equal. destruct i. cbn in *. f_equal.
  symmetry. apply list_insert_id. by rewrite <- zget_to_nat by lia.
Qed.

Lemma at_again e e' s1 : at_entry c e s s1 -> at_entry c e' s (with_entry c e' s1).
Proof using.
  unfold at_entry. intros H. transitivity (with_entry c e' (hush s1)); [done|]. rewrite H.
  transitivity (hush (with_entry c e' (with_entry c e s))); [done|]. by rewrite with_entry_twice.
Qed.

Lemma at_hush e s1 s2 : at_entry c e s s1 -> hush s2 = hush s1 -> at_entry c e s s2.
Proof using. unfold at_entry. by intros -> ->. Qed.

Lemma wp_get_entry {B} (k : _ -> MM B) Q e s1 : at_entry c e s s1 -> wp (k e) Q s1 -> wp (get_entry c ≫= k) Q s1.
Proof using Hc. intros H Hk. eapply wp_as; [|exact Hk]. by rewrite (bind_run _ _ _ _ _ (get_entry_run _ _ _ (at_get _ _ H))). Qed.

Lemma wp_upd_entry {B} f (k : unit -> MM B) Q e s1 :
  at_entry c e s s1 -> (forall s2, at_entry c (f e) s s2 -> wp (k tt) Q s2) -> wp (upd_entry c f ≫= k) Q s1.
Proof using Hc.
  intros H Hk. eapply wp_as; [|apply Hk, (at_again e), H]. by rewrite (bind_run _ _ _ _ _ (upd_entry_run _ _ _ _ (at_get _ _ H))).
Qed.

(** The same, when the calls to the outside are counted. *)
Lemma wp_upd_entry_calls {B} f (k : unit -> MM B) Q e s1 :
  at_entry c e s s1 -> (forall s2, at_entry c (f e) s s2 -> sys_calls s2 = sys_calls s1 -> wp (k tt) Q s2) -> wp (upd_entry c f ≫= k) Q s1.
Proof using Hc.
  intros H Hk. eapply wp_as; [|apply Hk; [by apply (at_again e)|done]]. by rewrite (bind_run _ _ _ _ _ (upd_entry_run _ _ _ _ (at_get _ _ H))).
Qed.

Lemma at_corners e s1 : at_entry c e s s1 -> clk_res s1 = clk_res s /\ sysm s1 = sysm s.
Proof using. intros H. split; [exact (f_equal clk_res H)|exact (f_equal sysm H)]. Qed.

(** ** The loop over the rates *)

(** The loop ends, and the frequencies rise. *)
Lemma freq_loop_wp fuel v mn mx e s1 :
  clk_rates (sysm s) -> at_entry c e s s1 -> rising mn (freq e) -> 0 < v -> mx < 2 ^ 63 - CLK_RATE_STEP -> mx - v <= CLK_RATE_STEP * (Z.of_nat fuel - 1) ->
  (0 < fuel)%nat ->
  wp (freq_loop fuel c v mn mx) (fun _ s' => exists l m, at_entry c (e <| freq := l |>) s s' /\ rising m l) s1.
Proof using Hc.
  intros Hr. revert v mn e s1. induction fuel as [|fuel IH]; intros v mn e s1 H1 Hl Hv Hmx Hf Hpos; [lia|]. cbn [freq_loop].
  assert (Hend : forall s', hush s' = hush s1 -> exists l m, at_entry c (e <| freq := l |>) s s' /\ rising m l).
  { intros s' H'. exists (freq e), mn. split; [|done]. apply (at_hush _ s1); [by destruct e|done]. }
  destruct (Z.ltb_spec v mx) as [Hlt|Hge]; [|by apply wp_ret, Hend]. unfold CLK_RATE_STEP in *.
  assert (Hfu : (0 < fuel)%nat) by lia.
  apply (wp_get_entry _ _ e); [done|]. apply wp_round. intros s2 H2. destruct (at_corners _ _ H1) as [_ Hsy1]. rewrite Hsy1.
  pose proof (Hr (sys_calls s1) (clk e) (u64 v)) as Hround. set (r := clk_round_rate_ret _ _ _ _) in *.
  unfold CLK_RATE_STEP in Hround. rewrite signed64_small by lia. destruct (Z.ltb_spec mn r) as [Hnew|Hold].
  2: { apply IH; try lia; [by eapply at_hush|done]. }
  apply wp_voltage. intros vol s3 H3. apply wp_getM. cbv zeta. destruct (_ || _); [apply wp_ret, Hend; by rewrite H3|].
  set (i := match_level _ _ _). clearbody i. rewrite (wrap_small 64 r) by (unfold is_word; lia).
  apply (wp_upd_entry _ _ _ e); [eapply at_hush; [exact H1|by rewrite H3]|]. intros s4 H4.
  eapply wp_mono; [apply (IH _ _ _ _ H4); [|lia..]|]. { apply (fill_rising mn); [done|lia]. }
  intros _ s' (l&m&Ha&Hl'). by exists l, m.
Qed.

Lemma update_freq_wp e s1 :
  clk_rates (sysm s) -> at_entry c e s s1 ->
  wp (mmrm_sw_update_freq c) (fun rc s' => rc = 0 /\ exists l m, at_entry c (e <| freq := l |>) s s' /\ rising m l) s1.
Proof using Hc.
  intros Hr H1. unfold mmrm_sw_update_freq. apply (wp_get_entry _ _ e); [done|]. destruct (at_corners _ _ H1) as [_ Hsy1].
  apply wp_round. intros s2 H2. apply wp_round. intros s3 H3. rewrite (f_equal sysm H2 : sysm s2 = sysm s1), Hsy1.
  set (mx := clk_round_rate_ret _ _ _ _). set (mn := clk_round_rate_ret _ _ _ _).
  assert (0 < mn < 2 ^ 63 - CLK_RATE_STEP /\ 0 < mx < 2 ^ 63 - CLK_RATE_STEP) as [Hmn Hmx] by (split; apply Hr). clearbody mn mx. unfold CLK_RATE_STEP in *.
  apply (wp_upd_entry _ _ _ e); [by eapply at_hush; [eapply at_hush; [exact H1|exact H2]|exact H3]|]. intros s4 H4. apply wp_bind.
  pose proof (Z.mul_succ_div_gt (mx - mn) 1000000 ltac:(lia)).
  eapply wp_mono; [apply (freq_loop_wp _ _ _ _ _ _ Hr H4); try (unfold CLK_RATE_STEP; lia)|].
  - cbn. rewrite (wrap_small 64 mn) by (unfold is_word; lia). split; [done|]. split; repeat constructor; lia.
  - intros _ s' (l&m&Ha&Hl). apply wp_ret. split; [done|]. by exists l, m.
Qed.
End AtEntry.

(** ** Currents *)

Section Table.
Context (nom : nom_clk_src_info) (e : mmrm_sw_clk_client_tbl_entry) (corners : list corner_info).

(** The power at a level, and the current when [j] is the common level. *)
Definition power_at (i : Z) : Z * Z :=
  match zget corners i with
  | Some k => match level_power nom e k i with Done p => p | Fault _ => (0, 0) end
  | None => (0, 0)
  end.

Definition current_of (i j : Z) : Z :=
  match zget corners j with
  | Some k => default 0 (level_current (power_at i).1 (power_at i).2 k)
  | None => 0
  end.

Definition current_table : list (list Z) := map (fun i => map (current_of i) vdd_levels) vdd_levels.

Context (Hk : 5 <= zlen corners) (Hv : Forall (fun k => factor (volt_factor k) <> 0) corners).
Context (Hf : zlen (freq e) = 5) (Hn : Forall (fun x => 0 < x) (freq e)).

Lemma power_run i k : 0 <= i < 5 -> zget corners i = Some k -> level_power nom e k i = Done (power_at i).
Proof using Hf Hn.
  intros Hi Hki. unfold power_at. rewrite Hki. unfold level_power. destruct (zget_is_Some (freq e) i ltac:(lia)) as [f ->].
  destruct (zget_is_Some (freq e) MMRM_VDD_LEVEL_NOM ltac:(unfold MMRM_VDD_LEVEL_NOM; lia)) as [fn Hfn]. rewrite Hfn.
  pose proof (forall_zget _ _ _ _ Hn Hfn) as Hpos. cbn beta in Hpos. unfold fp_div. by replace (fn =? 0) with false by lia.
Qed.

Lemma current_run i j k : zget corners j = Some k -> level_current (power_at i).1 (power_at i).2 k = Some (current_of i j).
Proof using Hv.
  intros Hkj. unfold current_of. rewrite Hkj. unfold level_current, fp_div.
  pose proof (forall_zget _ _ _ _ Hv Hkj) as Hne. cbn beta in Hne. by replace (factor (volt_factor k) =? 0) with false by lia.
Qed.

Lemma current_word i j : is_word 32 (current_of i j).
Proof using.
  unfold current_of. destruct (zget corners j) as [k|]; [|done]. unfold level_current. destruct (fp_div _ _); [apply wrap_is_word; lia|done].
Qed.

Lemma table_shape : zlen current_table = 5 /\ Forall (fun row => zlen row = 5 /\ Forall (is_word 32) row) current_table.
Proof using. split; [done|]. unfold current_table. apply Forall_map, Forall_forall. intros i _. split; [done|]. apply Forall_map, Forall_forall. intros j _. apply current_word. Qed.
End Table.

(** The nested loops fill one entry. *)
Section Fill.
Context (c : Z) (s : mmrm_state) (Hc : 0 <= c < zlen (clk_client_tbl (sw_info s))).

Lemma fill_row i dyn leak (cur : Z -> Z) js e s1 :
  at_entry c e s s1 -> Forall (fun j => exists k, zget (corner_tbl (clk_res s)) j = Some k /\ level_current dyn leak k = Some (cur j)) js ->
  wp (forM js (fun j => corner ← liftO OutOfBounds (zget (corner_tbl (clk_res s)) j); x ← liftO DivByZero (level_current dyn leak corner);
        upd_entry c (fun e => e <| current_ma ::= alter_rec (set_at j x) i |>)))
    (fun _ s2 => at_entry c (foldl (fun e j => e <| current_ma ::= alter_rec (set_at j (cur j)) i |>) e js) s s2) s1.
Proof using Hc.
  intros H1 Hjs. revert e s1 H1. induction Hjs as [|j js (k&Hk&Hcur) Hjs IH]; intros e s1 H1; cbn [forM foldl]; [by apply wp_ret|].
  apply wp_bind. apply (wp_liftO _ _ _ _ _ _ Hk), (wp_liftO _ _ _ _ _ _ Hcur).
  eapply wp_run; [exact (upd_entry_run _ _ _ _ (at_get _ _ Hc _ _ H1))|]. apply IH. by apply (at_again _ _ e).
Qed.

Context (nom : nom_clk_src_info) (Hk : 5 <= zlen (corner_tbl (clk_res s))).
Context (Hv : Forall (fun k => factor (volt_factor k) <> 0) (corner_tbl (clk_res s))).

(** A row of five cells after the inner loop. *)
Lemma row_filled (cur : Z -> Z) i e :
  zlen (current_ma e) = 5 -> Forall (fun row => zlen row = 5) (current_ma e) ->
  foldl (fun e j => e <| current_ma ::= alter_rec (set_at j (cur j)) i |>) e vdd_levels = e <| current_ma ::= alter_rec (fun _ => map cur vdd_levels) i |>.
Proof using.
  intros _ Hr. destruct e as [? ? ? ? ? ? ? ? ? ma]. cbn in Hr. unfold vdd_levels. cbn. f_equal. unfold set_at, alter_rec.
  generalize (Z.to_nat i) as n. induction Hr as [|row l Hrow Hr IH]; intros n; [done|].
  destruct n as [|n]; cbn; [|by rewrite <- IH]. f_equal. unfold zlen in Hrow. do 5 (destruct row as [|? row]; [done|]). destruct row; [done|cbn [length] in Hrow; lia].
Qed.

Lemma update_level_wp e s1 i :
  at_entry c e s s1 -> 0 <= i < 5 -> entry_shape e -> Forall (fun x => 0 < x) (freq e) ->
  wp (update_level c nom i) (fun _ s2 => exists dp lp, at_entry c (e <| dyn_pwr := dp |> <| leak_pwr := lp |>
      <| current_ma ::= alter_rec (fun _ => map (current_of nom e (corner_tbl (clk_res s)) i) vdd_levels) i |>) s s2) s1.
Proof using All.
  intros H1 Hi He Hn. unfold update_level. apply wp_getM. destruct (at_corners _ _ _ _ H1) as [Hres _]. rewrite Hres.
  apply (wp_get_entry _ _ Hc _ _ e); [done|]. destruct (zget_is_Some (corner_tbl (clk_res s)) i ltac:(lia)) as [k Hki].
  apply (wp_liftO _ _ _ _ _ _ Hki). pose proof (power_run nom e _ (es_freq _ He) Hn i k Hi Hki) as Hp. rewrite Hp.
  destruct (power_at nom e (corner_tbl (clk_res s)) i) as [dyn leak] eqn:Epw. apply (wp_upd_entry _ _ Hc _ _ _ e); [done|]. intros s2 H2. eapply wp_mono.
  - apply (fill_row i dyn leak (current_of nom e (corner_tbl (clk_res s)) i) _ _ _ H2). unfold vdd_levels. apply Forall_forall. intros j Hj.
    assert (0 <= j < 5) by (repeat (apply elem_of_cons in Hj as [->|Hj]; [lia|]); by apply elem_of_nil in Hj).
    destruct (zget_is_Some (corner_tbl (clk_res s)) j ltac:(lia)) as [kj Hkj]. exists kj. split; [done|].
    pose proof (current_run nom e _ Hv i j kj Hkj) as Hcr. by rewrite Epw in Hcr.
  - intros ? s3 H3. cbv beta in H3. rewrite row_filled in H3; [|apply He|eapply Forall_impl; [apply (es_cells _ He)|]; cbn; tauto]. exists (set_at i (u32 (fp_round dyn)) (dyn_pwr e)), (set_at i (u32 (fp_round leak)) (leak_pwr e)). exact H3.
Qed.
Lemma set_row_shape e i row dp lp :
  entry_shape e -> zlen row = 5 /\ Forall (is_word 32) row -> 0 <= i ->
  entry_shape (e <| dyn_pwr := dp |> <| leak_pwr := lp |> <| current_ma ::= alter_rec (fun _ => row) i |>).
Proof using.
  intros [E1 E2 E3 E4 E5 E6 E7] Hr Hi. split; try done; cbn; [by rewrite zlen_alter_rec|]. unfold alter_rec. apply Forall_lookup_2. intros j r Hj.
  destruct (decide (j = Z.to_nat i)) as [->|Hne].
  - rewrite list_lookup_alter_eq in Hj. destruct (current_ma e !! Z.to_nat i); [|done]. by injection Hj as <-.
  - rewrite list_lookup_alter_ne in Hj by done. exact (Forall_lookup_1 _ _ _ _ E4 Hj).
Qed.

Lemma update_levels_wp levels e s1 :
  at_entry c e s s1 -> Forall (fun i => 0 <= i < 5) levels -> entry_shape e -> Forall (fun x => 0 < x) (freq e) ->
  wp (forM levels (update_level c nom)) (fun _ s2 => exists dp lp, at_entry c (e <| dyn_pwr := dp |> <| leak_pwr := lp |>
      <| current_ma := foldl (fun ma i => alter_rec (fun _ => map (current_of nom e (corner_tbl (clk_res s)) i) vdd_levels) i ma) (current_ma e) levels |>) s s2) s1.
Proof using All.
  intros H1 His. revert e s1 H1. induction His as [|i levels Hi His IH]; intros e s1 H1 He Hn; cbn [forM foldl].
  { apply wp_ret. exists (dyn_pwr e), (leak_pwr e). by destruct e. }
  apply wp_bind. eapply wp_mono; [by apply (update_level_wp e)|]. intros _ s2 (dp&lp&H2). eapply wp_mono; [apply (IH _ _ H2)|].
  - apply set_row_shape; [done| |lia]. split; [done|]. apply Forall_map, Forall_forall. intros j _. apply current_word.
  - done.
  - intros _ s3 (dp'&lp'&H3). by exists dp', lp'.
Qed.

Lemma rows_filled e :
  zlen (current_ma e) = 5 ->
  foldl (fun ma i => alter_rec (fun _ => map (current_of nom e (corner_tbl (clk_res s)) i) vdd_levels) i ma) (current_ma e) vdd_levels =
  current_table nom e (corner_tbl (clk_res s)).
Proof using.
  unfold zlen, current_table. generalize (current_ma e) as ma. intros ma Hl. do 5 (destruct ma as [|? ma]; [done|]).
  destruct ma; [done|cbn [length] in Hl; lia].
Qed.
End Fill.

Lemma find_csid_inv l id i k : find_csid l id i = Some k -> exists e, zget l (k - i) = Some e /\ clk_src_id e = id.
Proof.
  revert i. induction l as [|e l IH]; intros i H; cbn [find_csid] in H; [done|]. destruct (Z.eqb_spec id (clk_src_id e)) as [->|Hne].
  - injection H as <-. exists e. by rewrite Z.sub_diag.
  - destruct (IH _ H) as (e'&He'&Hid). exists e'. split; [|done]. pose proof (zget_Some _ _ _ He'). rewrite zget_to_nat in He' |- * by lia.
    by replace (Z.to_nat (k - i)) with (S (Z.to_nat (k - (i + 1)))) by lia.
Qed.

(** The search depends on the identifiers only. *)
Lemma find_csid_ids l l' id i : map clk_src_id l = map clk_src_id l' -> find_csid l id i = find_csid l' id i.
Proof.
  revert l' i. induction l as [|e l IH]; intros [|e' l'] i H; try done. cbn in H. injection H as H1 H2. cbn [find_csid]. rewrite H1.
  by destruct (id =? clk_src_id e'); [|apply IH].
Qed.

(** The search finds the first entry with the identifier. *)
Lemma find_csid_first l id i k :
  find_csid l id i = Some k ->
  exists e, zget l (k - i) = Some e /\ clk_src_id e = id /\ forall j e0, j < k - i -> zget l j = Some e0 -> clk_src_id e0 <> id.
Proof.
  revert i. induction l as [|e l IH]; intros i H; cbn [find_csid] in H; [done|]. destruct (Z.eqb_spec id (clk_src_id e)) as [->|Hne].
  - injection H as <-. exists e. rewrite Z.sub_diag. split; [done|]. split; [done|]. intros j e0 Hj Hg%zget_Some. lia.
  - destruct (IH _ H) as (e'&He'&Hid&Hbefore). exists e'. pose proof (zget_Some _ _ _ He') as Hr. split; [|split; [done|]].
    + rewrite zget_to_nat in He' |- * by lia. by replace (Z.to_nat (k - i)) with (S (Z.to_nat (k - (i + 1)))) by lia.
    + intros j e0 Hj Hg. pose proof (zget_Some _ _ _ Hg). rewrite zget_to_nat in Hg by lia. destruct (decide (j = 0)) as [->|Hj0]; [injection Hg as ->; congruence|].
      apply (Hbefore (j - 1)); [lia|]. rewrite zget_to_nat by lia. by replace (Z.to_nat j) with (S (Z.to_nat (j - 1))) in Hg by lia.
Qed.

(** An entry that the search does not pass is not there. *)
Lemma find_csid_none l id i : find_csid l id i = None -> Forall (fun e => clk_src_id e <> id) l.
Proof.
  revert i. induction l as [|e l IH]; intros i H; [done|]. cbn [find_csid] in H. destruct (Z.eqb_spec id (clk_src_id e)); [done|]. constructor; [congruence|by eapply IH].
Qed.

(** The currents of an entry after [mmrm_sw_update_curr]: those of the source at
    its index, when it is the first entry with its identifier. *)
Lemma update_curr_wp c s e s1 :
  mgr_shape s1 -> at_entry c e s s1 -> 0 <= c < zlen (clk_client_tbl (sw_info s)) -> Forall (fun x => 0 < x) (freq e) ->
  find_csid (clk_client_tbl (sw_info s1)) (clk_src_id e) 0 = Some c ->
  wp (mmrm_sw_update_curr c) (fun rc s2 => rc = 0 /\ exists dp lp nom, zget (clk_src_tbl (clk_res s)) c = Some nom /\
      at_entry c (e <| dyn_pwr := dp |> <| leak_pwr := lp |> <| current_ma := current_table nom e (corner_tbl (clk_res s)) |>) s s2) s1.
Proof.
  intros Hs1 H1 Hc Hn Hf. pose proof (at_get c s Hc e s1 H1) as He. pose proof (entry_shape_of _ _ _ Hs1 He) as Hes.
  destruct (at_corners _ _ _ _ H1) as [Hres _]. pose proof (ms_corners _ Hs1) as Hk. pose proof (ms_volt _ Hs1) as Hv. rewrite Hres in Hk, Hv.
  unfold mmrm_sw_update_curr. apply wp_getM. apply (wp_get_entry c s Hc _ _ e); [done|]. apply wp_bind. eapply wp_run; [by apply all_entries_run|].
  rewrite Hf. pose proof (ms_nom _ Hs1). pose proof (zget_Some _ _ _ He).
  destruct (zget_is_Some (clk_src_tbl (clk_res s1)) c ltac:(lia)) as [nom Hnom]. apply (wp_liftO _ _ _ _ _ _ Hnom). apply wp_bind.
  eapply wp_mono; [apply (update_levels_wp c s Hc nom Hk Hv vdd_levels e s1 H1); [|done|done]|].
  { unfold vdd_levels. repeat constructor; lia. }
  intros _ s2 (dp&lp&H2). apply wp_ret. split; [done|]. exists dp, lp, nom. rewrite rows_filled in H2 by apply Hes. split; [by rewrite <- Hres|done].
Qed.
