(* ===== verification/MmrmRegister.v ===== *)
(** * Registration

    A registration sets up an entry, or leaves it free when something fails; the
    last deregistration frees it. *)

From S2P Require Import Prelude MmrmState MmrmClk MmrmAdmit MmrmCurr MmrmPeak MmrmVotes MmrmSetval MmrmThrottle MmrmFreq.

Local Open Scope Z_scope.

Lemma at_shape c e s s1 : at_entry c e s s1 -> mgr_shape s -> 0 <= c -> entry_shape e -> mgr_shape s1.
Proof. intros H Hs Hc He. eapply shape_hush; [exact H|]. by apply shape_entry. Qed.

(** The numbers of a description are words. *)
Definition desc_ok (d : mmrm_clk_client_desc) : Prop := 0 <= desc_hw_drv_instances d /\ 0 <= desc_num_pwr_states d.

(** An entry that a client may take. *)
Definition free_entry (e : mmrm_sw_clk_client_tbl_entry) : Prop := entry_shape e /\ client e = None.

(** An entry without a rate, whose votes are all zero. *)
Definition idle_entry (e : mmrm_sw_clk_client_tbl_entry) : Prop := entry_shape e /\ clk_rate e = 0 /\ votes_ok e.

Lemma drop_free e :
  entry_shape e -> clk_rate e = 0 -> vdd_level e = 0 -> is_crm_client e = false -> free_entry (drop_client e) /\ clk_rate (drop_client e) = 0.
Proof. intros [E1 E2 E3 E4 E5 E6 E7] Hr Hv Hc. split; [|done]. split; [|done]. by split. Qed.

Lemma freq_shape e l : entry_shape e -> zlen l = 5 -> entry_shape (e <| freq := l |>).
Proof. intros [E1 E2 E3 E4 E5 E6 E7] Hl. by split. Qed.

Lemma size_shape e n : entry_shape e -> is_crm_client e = false -> entry_shape (e <| crm_client_tbl_size := n |>).
Proof. intros [E1 E2 E3 E4 E5 E6 E7] Hc. split; try done. intros Hc'. cbn in Hc'. congruence. Qed.

Lemma table_entry_shape e dp lp nom corners :
  entry_shape e -> entry_shape (e <| dyn_pwr := dp |> <| leak_pwr := lp |> <| current_ma := current_table nom e corners |>).
Proof. intros [E1 E2 E3 E4 E5 E6 E7]. destruct (table_shape nom e corners). by split. Qed.

Lemma freq_idle e l : idle_entry e -> zlen l = 5 -> idle_entry (e <| freq := l |>).
Proof. intros (He&Hr&Hv) Hl. split; [by apply freq_shape|]. by split. Qed.

Lemma table_idle e dp lp nom corners :
  idle_entry e -> idle_entry (e <| dyn_pwr := dp |> <| leak_pwr := lp |> <| current_ma := current_table nom e corners |>).
Proof. intros (He&Hr&Hv). split; [by apply table_entry_shape|]. by split. Qed.

(** Several drivers and power states share the client. *)
Definition shared (d : mmrm_clk_client_desc) : bool := (0 <? desc_hw_drv_instances d) && (0 <? desc_num_pwr_states d).
Definition zero_votes (d : mmrm_clk_client_desc) : list Z := replicate (Z.to_nat (desc_hw_drv_instances d * desc_num_pwr_states d + 1)) 0.

(** The numbers of drivers and states that the manager takes. *)
Definition takes_shares (d : mmrm_clk_client_desc) : bool :=
  (desc_hw_drv_instances d <=? MAX_HW_DRV_INSTANCES) && (desc_num_pwr_states d <=? MAX_POWER_STATES).

(** A registration gets through, when its first allocation is the call [n]. *)
Definition register_ok (sy : mmrm_system) (n : nat) (d : mmrm_clk_client_desc) : bool :=
  kzalloc_ok sy n && takes_shares d && (negb (shared d) || kzalloc_ok sy (S n)).

(** What a registration leaves in the entry [c]: the client with its clock, rising
    frequencies, the currents of the source with that index, and for a shared
    client a table of votes that are 0. *)
Definition registered_entry (s : mmrm_state) (c : Z) (d : mmrm_clk_client_desc) (pr pvt fn : Z) (cl : mmrm_client) (e : mmrm_sw_clk_client_tbl_entry) : Prop :=
  idle_entry e /\ client e = Some cl /\ clk e = desc_clk d /\ pri e = pr /\ pvt_data e = pvt /\ notifier_cb_fn e = fn /\ ref_count e = 1 /\
  (exists m, rising m (freq e)) /\
  (exists nom, zget (clk_src_tbl (clk_res s)) c = Some nom /\ current_ma e = current_table nom e (corner_tbl (clk_res s))) /\
  is_crm_client e = shared d /\
  (shared d = true -> crm_client_tbl e = Some (zero_votes d) /\ hw_drv_instances e = desc_hw_drv_instances d /\ num_pwr_states e = desc_num_pwr_states d).

(** The entry with the vote table of a shared client. *)
Definition votes_entry (d : mmrm_clk_client_desc) (e : mmrm_sw_clk_client_tbl_entry) : mmrm_sw_clk_client_tbl_entry :=
  let b := shared d in
  e <| crm_client_tbl_size := if b then desc_hw_drv_instances d * desc_num_pwr_states d + 1 else crm_client_tbl_size e |>
    <| crm_client_tbl := if b then Some (zero_votes d) else crm_client_tbl e |> <| is_crm_client := if b then true else is_crm_client e |>
    <| max_rate_idx := if b then 0 else max_rate_idx e |> <| hw_drv_instances := if b then desc_hw_drv_instances d else hw_drv_instances e |>
    <| num_pwr_states := if b then desc_num_pwr_states d else num_pwr_states e |>.

Lemma votes_entry_ok d e :
  desc_ok d -> takes_shares d = true -> is_crm_client e = false -> clk_rate e = 0 -> client e <> None -> entry_shape e -> idle_entry (votes_entry d e).
Proof.
  intros [Hd1 Hd2] Hmax Hcrm Hr Hcl [E1 E2 E3 E4 E5 E6 E7]. unfold takes_shares, MAX_HW_DRV_INSTANCES, MAX_POWER_STATES in Hmax.
  set (hw := desc_hw_drv_instances d) in *. set (np := desc_num_pwr_states d) in *. assert (0 <= hw <= 6 /\ 0 <= np <= 5) as [Hhw Hnp] by lia.
  assert (Hprod : 0 <= hw * np <= 30) by nia. assert (Hlen : zlen (zero_votes d) = hw * np + 1).
  { unfold zlen, zero_votes. rewrite length_replicate. fold hw np. lia. }
  split; [|split; [done|]].
  - split; try done. intros Hc. cbn in Hc |- *. destruct (shared d); [|congruence]. exists (zero_votes d). cbn. fold hw np. split; [done|]. split; [done|].
    split; [done|]. unfold MAX_HW_DRV_INSTANCES, MAX_POWER_STATES. lia.
  - intros Hc. cbn in Hc |- *. destruct (shared d); [|congruence]. exists (zero_votes d). rewrite Hr, Hlen. split; [done|]. split.
    { unfold zero_votes. fold hw np. rewrite zget_to_nat by lia. apply lookup_replicate_2. lia. }
    split; [|lia]. apply Forall_replicate. lia.
Qed.

Section Register.
Context (c : Z) (s : mmrm_state) (Hc : 0 <= c < zlen (clk_client_tbl (sw_info s))) (Hs : mgr_shape s).

(** The vote table is allocated, or the entry keeps none. *)
Lemma alloc_crm_wp d e s1 :
  at_entry c e s s1 -> desc_ok d -> takes_shares d = true -> is_crm_client e = false ->
  wp (alloc_crm_table c d) (fun rc s2 => exists e2, at_entry c e2 s s2 /\
      if negb (shared d) || kzalloc_ok (sysm s1) (sys_calls s1) then rc = 0 /\ e2 = votes_entry d e
      else rc = - ENOMEM /\ e2 = e <| crm_client_tbl_size := desc_hw_drv_instances d * desc_num_pwr_states d + 1 |> <| crm_client_tbl := None |>) s1.
Proof using All.
  intros H1 [Hd1 Hd2] Hmax Hcrm. unfold takes_shares, MAX_HW_DRV_INSTANCES, MAX_POWER_STATES in Hmax. unfold alloc_crm_table. fold (shared d).
  destruct (shared d) eqn:Hb; cbn [negb orb].
  2: { apply wp_ret. exists e. split; [done|]. split; [done|]. unfold votes_entry. rewrite Hb. by destruct e. }
  assert (Hprod : 0 < desc_hw_drv_instances d * desc_num_pwr_states d <= 30) by (unfold shared in Hb; nia). cbv zeta.
  rewrite (wrap_small 32 (_ + 1)) by (unfold is_word; lia).
  apply (wp_upd_entry_calls c s Hc _ _ _ e); [done|]. intros s2 H2 Hn. apply wp_bind. eapply wp_run; [reflexivity|].
  destruct (at_corners _ _ _ _ H1) as [_ Hsy1]. destruct (at_corners _ _ _ _ H2) as [_ Hsy2].
  replace (kzalloc_ok (sysm s1) (sys_calls s1)) with (kzalloc_ok (sysm s2) (sys_calls s2)) by (by rewrite Hn, Hsy1, Hsy2).
  change (sysm (s2 <| sys_calls ::= S |>)) with (sysm s2). apply (at_hush _ _ _ s2 (s2 <| sys_calls ::= S |>)) in H2; [|done].
  destruct (kzalloc_ok _ _); cbn [negb].
  - apply (wp_upd_entry c s Hc _ _ _ _ _ H2). intros s3 H3. apply wp_ret. eexists. split; [exact H3|]. split; [done|]. unfold votes_entry. rewrite Hb. by destruct e.
  - apply (wp_upd_entry c s Hc _ _ _ _ _ H2). intros s3 H3. apply wp_ret. eexists. by split; [exact H3|].
Qed.

(** What a failed or completed registration leaves. *)
Definition registration_post (d : mmrm_clk_client_desc) (pr pvt fn : Z) (r : option mmrm_client) (s' : mmrm_state) : Prop :=
  exists e', at_entry c e' s s' /\ idle_entry e' /\
    if register_ok (sysm s) (sys_calls s) d
    then exists cl, r = Some cl /\ cl = mkClient c (MMRM_CLIENT_CLOCK (uapi (sysm s))) /\ registered_entry s c d pr pvt fn cl e'
    else r = None /\ free_entry e'.

(** The failures undo what was set. *)
Lemma undo_wp d pr pvt fn f e s1 :
  at_entry c e s s1 -> free_entry (f e) /\ clk_rate (f e) = 0 -> register_ok (sysm s) (sys_calls s) d = false ->
  wp (upd_entry c f ;; mret None) (registration_post d pr pvt fn) s1.
Proof using Hc.
  intros H1 [[Hf Hn] Hr] Hno. apply (wp_upd_entry c s Hc _ _ _ e); [done|]. intros s2 H2. apply wp_ret. exists (f e). split; [done|]. rewrite Hno.
  split; [|done]. split; [done|]. split; [done|]. intros Hcrm. destruct (es_free _ Hf Hn) as (_&_&_&H0). congruence.
Qed.

(** The first part of a registration: the client and its votes. *)
Definition client_entry (d : mmrm_clk_client_desc) (pr pvt fn : Z) (e : mmrm_sw_clk_client_tbl_entry) : mmrm_sw_clk_client_tbl_entry :=
  e <| ref_count := 1 |> <| client := Some (mkClient c (MMRM_CLIENT_CLOCK (uapi (sysm s)))) |> <| clk := desc_clk d |> <| pri := pr |> <| pvt_data := pvt |>
    <| notifier_cb_fn := fn |>.

Lemma client_shape d pr pvt fn e : entry_shape e -> entry_shape (client_entry d pr pvt fn e).
Proof using. intros [E1 E2 E3 E4 E5 E6 E7]. exact (mkEntryShape (client_entry d pr pvt fn e) E1 E2 E3 E4 E5 E6 ltac:(discriminate)). Qed.

(** The second part: the frequencies and the currents. *)
Lemma fill_entry_wp d pr pvt fn e s1 :
  clk_rates (sysm s) -> at_entry c e s s1 -> idle_entry e -> register_ok (sysm s) (sys_calls s) d = true ->
  (forall e0, zget (clk_client_tbl (sw_info s)) c = Some e0 -> clk_src_id e = clk_src_id e0) ->
  find_csid (clk_client_tbl (sw_info s)) (clk_src_id e) 0 = Some c ->
  client e = Some (mkClient c (MMRM_CLIENT_CLOCK (uapi (sysm s)))) -> clk e = desc_clk d -> pri e = pr -> pvt_data e = pvt -> notifier_cb_fn e = fn ->
  ref_count e = 1 -> is_crm_client e = shared d ->
  (shared d = true -> crm_client_tbl e = Some (zero_votes d) /\ hw_drv_instances e = desc_hw_drv_instances d /\ num_pwr_states e = desc_num_pwr_states d) ->
  wp (rc ← mmrm_sw_update_freq c;
      rc ← (if truthy rc then mret rc else mmrm_sw_update_curr c);
      if truthy rc then upd_entry c (fun e => drop_client (drop_crm_table e <| crm_client_tbl_size := 0 |>)) ;; mret None
      else mret (Some (mkClient c (MMRM_CLIENT_CLOCK (uapi (sysm s)))))) (registration_post d pr pvt fn) s1.
Proof using All.
  intros Hrates H1 Hi1 Hok Hid Hfirst F1 F2 F3 F4 F5 F6 F7 F8.
  apply wp_bind. eapply wp_mono; [by apply (update_freq_wp c s Hc e)|]. intros rc3 s3 (->&l&m&H3&Hl). cbv beta. change (truthy 0) with false. cbv iota.
  set (e3 := e <| freq := l |>) in *. assert (Hi3 : idle_entry e3) by (apply freq_idle; [exact Hi1|apply Hl]). pose proof (proj1 Hi3) as He3.
  assert (Hpos : Forall (fun x => 0 < x) (freq e3)) by (eapply Forall_impl; [apply Hl|]; cbn; lia).
  assert (Hf3 : find_csid (clk_client_tbl (sw_info s3)) (clk_src_id e3) 0 = Some c).
  { change (clk_src_id e3) with (clk_src_id e). rewrite <- Hfirst. apply find_csid_ids.
    rewrite (f_equal (fun s => clk_client_tbl (sw_info s)) H3 : clk_client_tbl (sw_info s3) = <[Z.to_nat c := e3]> (clk_client_tbl (sw_info s))).
    destruct (zget_is_Some _ _ Hc) as [e0 He0].
    change (clk_src_id <$> <[Z.to_nat c := e3]> (clk_client_tbl (sw_info s)) = clk_src_id <$> clk_client_tbl (sw_info s)). rewrite list_fmap_insert. apply list_insert_id. rewrite zget_to_nat in He0 by lia.
    rewrite list_lookup_fmap, He0. cbn. f_equal. symmetry. apply Hid. by rewrite zget_to_nat by lia. }
  apply wp_bind. eapply wp_mono; [apply (update_curr_wp c s e3 s3); try done; eapply at_shape; try done; lia|].
  intros rc4 s4 (->&dp&lp&nom&Hnom&H4). cbv beta. change (truthy 0) with false. cbv iota. apply wp_ret.
  set (e4 := e3 <| dyn_pwr := dp |> <| leak_pwr := lp |> <| current_ma := current_table nom e3 (corner_tbl (clk_res s)) |>) in *. exists e4.
  assert (Hi4 : idle_entry e4) by exact (table_idle _ _ _ _ _ Hi3). split; [done|]. split; [done|]. rewrite Hok. eexists. split; [done|]. split; [done|].
  unfold registered_entry. do 7 (split; [done|]). split; [by exists m|]. split; [by exists nom|]. by split.
Qed.

Lemma register_entry_wp d pr pvt fn e :
  clk_rates (sysm s) -> zget (clk_client_tbl (sw_info s)) c = Some e -> client e = None -> desc_ok d ->
  find_csid (clk_client_tbl (sw_info s)) (clk_src_id e) 0 = Some c ->
  wp (register_entry c d pr pvt fn) (registration_post d pr pvt fn) s.
Proof using All.
  intros Hrates He Hfree Hd Hfirst. pose proof (entry_shape_of _ _ _ Hs He) as Hes. destruct (es_free _ Hes Hfree) as (Hz1&Hz2&Hz3&Hz4).
  pose proof (at_start c s Hc e He) as H0. unfold register_entry. apply wp_getM. apply wp_bind. eapply wp_run; [reflexivity|].
  match goal with |- context [kzalloc_ok ?a ?b] => change (kzalloc_ok a b) with (kzalloc_ok (sysm s) (sys_calls s)) end.
  assert (H0' : at_entry c e s (s <| sys_calls ::= S |>)) by exact H0.
  destruct (kzalloc_ok (sysm s) (sys_calls s)) eqn:Hk1; cbn [negb]; [|apply (undo_wp _ _ _ _ _ e); [done|by apply drop_free|unfold register_ok; by rewrite Hk1]].
  cbv zeta. apply (wp_upd_entry_calls c s Hc _ _ _ _ _ H0'). clear H0'. fold (client_entry d pr pvt fn e). intros s1 H1 Hn1.
  pose proof (client_shape d pr pvt fn e Hes) as He1. set (e1 := client_entry d pr pvt fn e) in *.
  assert (Htake : (MAX_HW_DRV_INSTANCES <? desc_hw_drv_instances d) || (MAX_POWER_STATES <? desc_num_pwr_states d) = negb (takes_shares d)) by (unfold takes_shares; lia).
  rewrite Htake. destruct (takes_shares d) eqn:Hmax; cbn [negb]; [|apply (undo_wp _ _ _ _ _ e1); [done|by apply drop_free|unfold register_ok; by rewrite Hk1, Hmax]].
  assert (Hk2 : kzalloc_ok (sysm s1) (sys_calls s1) = kzalloc_ok (sysm s) (S (sys_calls s))) by (rewrite Hn1; by destruct (at_corners _ _ _ _ H1) as [_ ->]).
  apply wp_bind. eapply wp_mono; [by apply (alloc_crm_wp d e1)|]. rewrite Hk2. intros rc s2 (e2&H2&Hrc). cbv beta in Hrc |- *.
  assert (Hok : register_ok (sysm s) (sys_calls s) d = negb (shared d) || kzalloc_ok (sysm s) (S (sys_calls s))) by (unfold register_ok; by rewrite Hk1, Hmax).
  destruct (negb (shared d) || _); destruct Hrc as [-> ->]; [change (truthy 0) with false|change (truthy (- ENOMEM)) with true]; cbv iota.
  - apply (fill_entry_wp _ _ _ _ (votes_entry d e1)); try done; [by apply votes_entry_ok|intros e0 He0; change (clk_src_id e = clk_src_id e0); congruence|cbn; by destruct (shared d)|].
    intros Hsh. cbn. by rewrite Hsh.
  - apply (undo_wp _ _ _ _ _ _ _ H2); [|done]. apply drop_free; [|done|done|done]. apply size_shape; [|done].
    destruct He1 as [E1 E2 E3 E4 E5 E6 E7]. split; try done. intros Hcc. cbn in Hcc. congruence.
Qed.
End Register.

(** ** The operations *)

(** The identifier that a description names. *)
Definition csid (d : mmrm_clk_client_desc) : Z := Z.lor (u32 (Z.shiftl (client_domain d) 16)) (client_id d).

Section Result.
Context (d : mmrm_clk_client_desc) (pr pvt fn : Z) (s : mmrm_state).

Let tbl := clk_client_tbl (sw_info s).
Let full : Prop := tot_clk_clients (sw_info s) = enabled_clk_clients (sw_info s).

(** The entry [c] is the first with the identifier of the description. *)
Definition named_entry (c : Z) (e : mmrm_sw_clk_client_tbl_entry) : Prop :=
  zget tbl c = Some e /\ clk_src_id e = csid d /\ forall j e0, j < c -> zget tbl j = Some e0 -> clk_src_id e0 <> csid d.

Inductive register_result : option mmrm_client -> mmrm_state -> Prop :=
| RgFull : full -> register_result None s
| RgUnknown : ~ full -> Forall (fun e => clk_src_id e <> csid d) tbl -> register_result None s
| RgTwice c e cl : ~ full -> named_entry c e -> client e = Some cl -> msm_mmrm_allow_multiple_register s = 0 -> register_result None s
| RgAgain c e cl :
    ~ full -> named_entry c e -> client e = Some cl -> msm_mmrm_allow_multiple_register s <> 0 ->
    register_result (Some cl) (with_entry c (e <| ref_count ::= fun n => u32 (n + 1) |>) s)
| RgFailed c e e' s' :
    ~ full -> named_entry c e -> client e = None -> register_ok (sysm s) (sys_calls s) d = false ->
    hush s' = hush (with_entry c e' s) -> idle_entry e' -> free_entry e' -> register_result None s'
| RgTaken c e e' cl s' :
    ~ full -> named_entry c e -> client e = None -> register_ok (sysm s) (sys_calls s) d = true ->
    hush s' = hush (with_entry c e' s) -> cl = mkClient c (MMRM_CLIENT_CLOCK (uapi (sysm s))) -> registered_entry s c d pr pvt fn cl e' ->
    register_result (Some cl) s'.

Lemma find_named c : find_csid tbl (csid d) 0 = Some c -> exists e, named_entry c e.
Proof using.
  intros Hf. destruct (find_csid_first _ _ _ _ Hf) as (e&He&Hid&Hbefore). rewrite Z.sub_0_r in He. exists e. split; [done|]. split; [done|].
  intros j e0 Hj. apply Hbefore. lia.
Qed.
End Result.

Lemma unlock_entry s s1 c e : mgr_locked s = false -> hush s1 = hush (with_entry c e (locked true s)) -> hush (locked false s1) = hush (with_entry c e s).
Proof.
  intros Hl H. transitivity (locked false (hush s1)); [done|]. rewrite H. destruct s. cbn in Hl. by subst.
Qed.

Lemma register_run d pr pvt fn s :
  mgr_shape s -> mgr_locked s = false -> clk_rates (sysm s) -> desc_ok d ->
  wp (mmrm_sw_clk_client_register d pr pvt fn) (register_result d pr pvt fn s) s.
Proof.
  intros Hs Hl Hr Hd. unfold mmrm_sw_clk_client_register. apply wp_bind.
  eapply (wp_run _ _ _ tt); [unfold mutex_lock; rewrite getM_run, Hl; reflexivity|]. apply wp_gets.
  set (s1 := s <| mgr_locked := true |>). assert (Hs1 : mgr_shape s1) by exact (shape_locked true s Hs).
  assert (Hh : locked false s1 = s) by (destruct s; cbn in Hl; by subst).
  assert (Hend : forall r s', register_result d pr pvt fn s r (locked false s') -> wp (mutex_unlock ;; mret r) (register_result d pr pvt fn s) s').
  { intros r s' H. by apply wp_modify, wp_ret. }
  apply wp_bind. change (sw_info s1) with (sw_info s). destruct (Z.eqb_spec (tot_clk_clients (sw_info s)) (enabled_clk_clients (sw_info s))) as [Hfull|Hfull];
    [apply wp_ret, Hend; rewrite Hh; by apply RgFull|]. cbv zeta. fold (csid d).
  apply wp_bind. eapply wp_run; [by apply all_entries_run|]. cbv beta. change (sw_info s1) with (sw_info s).
  destruct (find_csid _ _ _) as [c|] eqn:Hf; [|apply wp_ret, Hend; rewrite Hh; apply RgUnknown; [done|by eapply find_csid_none]].
  destruct (find_named d s c Hf) as [e Hnm]. pose proof Hnm as (He&Hid&_).
  apply wp_bind. eapply wp_run; [exact (get_entry_run s1 _ _ He)|]. cbv beta. destruct (client e) as [cl|] eqn:Hcl.
  - apply wp_getM. change (msm_mmrm_allow_multiple_register s1) with (msm_mmrm_allow_multiple_register s).
    destruct (truthy _) eqn:Ha; [|apply wp_ret, Hend; rewrite Hh; eapply RgTwice; [done..|by unfold truthy in Ha; lia]].
    apply wp_bind. eapply wp_run; [exact (upd_entry_run s1 c e _ He)|]. apply wp_ret, Hend. set (e' := upd ref_count _ e).
    assert (Hw : locked false (with_entry c e' s1) = with_entry c e' s) by (transitivity (with_entry c e' (locked false s1)); [done|by rewrite Hh]). rewrite Hw.
    eapply RgAgain; [done..|by apply truthy_true].
  - pose proof (zget_Some _ _ _ He). rewrite <- Hid in Hf.
    eapply wp_mono; [by apply (register_entry_wp c s1 ltac:(done) Hs1 d pr pvt fn e)|]. intros r s2 (e'&H2&Hi&Hpost). apply Hend.
    change (sysm s1) with (sysm s) in Hpost. change (sys_calls s1) with (sys_calls s) in Hpost.
    destruct (register_ok _ _ _) eqn:Hok; [destruct Hpost as (cl&->&Hcl'&Hre)|destruct Hpost as [-> Hfree]].
    + eapply RgTaken; [done..|by apply unlock_entry|done|done].
    + eapply RgFailed; [done..|by apply unlock_entry|done|done].
Qed.

(** The entry after a deregistration. *)
Definition released_entry (e : mmrm_sw_clk_client_tbl_entry) : mmrm_sw_clk_client_tbl_entry :=
  let e := if 0 <? ref_count e then e <| ref_count ::= fun n => u32 (n - 1) |> else e in if ref_count e =? 0 then reset_entry e else e.

Lemma released_shape e : entry_shape e -> entry_shape (released_entry e).
Proof.
  intros He. unfold released_entry. set (e1 := if 0 <? ref_count e then _ else _).
  assert (H1 : entry_shape e1) by (unfold e1; destruct (0 <? ref_count e); destruct He as [E1 E2 E3 E4 E5 E6 E7]; by split). clearbody e1.
  cbv zeta. destruct (ref_count e1 =? 0); [|done]. destruct H1 as [E1 E2 E3 E4 E5 E6 E7]. by split.
Qed.

Lemma deregister_run cl s :
  mgr_shape s -> mgr_locked s = false -> 0 <= client_uid cl ->
  wp (mmrm_sw_clk_client_deregister (Some cl)) (fun rc s' => match zget (clk_client_tbl (sw_info s)) (client_uid cl) with
     | Some e => rc = 0 /\ hush s' = hush (with_entry (client_uid cl) (released_entry e) s)
     | None => rc = - EINVAL /\ s' = s
     end) s.
Proof.
  intros Hs Hl Hu. unfold mmrm_sw_clk_client_deregister. apply wp_gets. rewrite (ms_tot _ Hs).
  destruct (Z.leb_spec (zlen (clk_client_tbl (sw_info s))) (client_uid cl)) as [Hge|Hlt].
  { apply wp_ret. destruct (zget _ _) as [e|] eqn:He; [|done]. apply zget_Some in He. lia. }
  destruct (zget_is_Some (clk_client_tbl (sw_info s)) (client_uid cl) ltac:(lia)) as [e He]. rewrite He. apply wp_bind.
  eapply (wp_run _ _ _ tt); [unfold mutex_lock; rewrite getM_run, Hl; reflexivity|]. cbv zeta.
  assert (Hc : 0 <= client_uid cl < zlen (clk_client_tbl (sw_info (locked true s)))) by (split; [done|exact Hlt]).
  pose proof (at_start _ _ Hc e He) as H0.
  apply (wp_upd_entry _ (locked true s) Hc _ _ _ e); [exact H0|]. intros s1 H1.
  apply (wp_upd_entry _ (locked true s) Hc _ _ _ _ _ H1). intros s2 H2. apply wp_modify, wp_ret. split; [done|]. by apply unlock_entry.
Qed.
