(* ===== verification/MmrmInit.v ===== *)
(** * Setting the manager up

    [mmrm_init_sw_clk_mgr] makes, from the resources of the platform, a manager
    whose books are in order: an entry for each source of the clock table, no
    client, no current. *)

From S2P Require Import Prelude MmrmState MmrmClk MmrmAdmit MmrmApi MmrmCurr MmrmPeak MmrmVotes MmrmSetval MmrmBooks MmrmFreq.

Local Open Scope Z_scope.

(** What the tables of the device tree have to hold. *)
Record platform_ok (r : mmrm_clk_platform_resources) : Prop := mkPlatformOk {
  po_count : 0 < nom_clk_count r <= zlen (clk_src_tbl r);
  po_blocks : Forall (fun nom => 0 <= num_hw_block nom) (clk_src_tbl r);
  po_len : 0 <= res_throttle_clients_data_length r <= MMRM_MAX_THROTTLE_CLIENTS;
  po_ids : zlen (clsid_threshold_clients r) = MMRM_MAX_THROTTLE_CLIENTS;
  po_corners : 5 <= zlen (corner_tbl r);
  po_volt : Forall (fun k => factor (volt_factor k) <> 0) (corner_tbl r);
}.

Definition with_table (l : list mmrm_sw_clk_client_tbl_entry) (s : mmrm_state) : mmrm_state := s <| sw_info ::= fun i => i <| clk_client_tbl := l |> |>.

(** The entries that are set up: one for each source. *)
Definition fresh_table (noms : list nom_clk_src_info) : list mmrm_sw_clk_client_tbl_entry := map (fun nom => prepare_entry nom zero_entry) noms.

Lemma prepare_loop (noms : list nom_clk_src_info) m pre s :
  clk_client_tbl (sw_info s) = fresh_table pre ++ replicate m zero_entry -> clk_src_tbl (clk_res s) = pre ++ noms -> (m <= length noms)%nat ->
  forM (map Z.of_nat (seq (length pre) m)) (fun c => nom ← liftO OutOfBounds (zget (pre ++ noms) c); upd_entry c (prepare_entry nom)) s =
  Done (tt, with_table (fresh_table (pre ++ take m noms)) s).
Proof.
  revert noms pre s. induction m as [|m IH]; intros noms pre s Ht Hn Hm; cbn [seq map forM].
  - rewrite take_0, app_nil_r. rewrite app_nil_r in Ht. unfold with_table. destruct s as [? ? ? ? ? ? ? i ? ? ? ? ?]. cbn in *. destruct i. cbn in *. by subst.
  - destruct noms as [|nom noms]; [cbn in Hm; lia|].
    assert (Hg : zget (pre ++ nom :: noms) (Z.of_nat (length pre)) = Some nom) by (rewrite zget_nat, lookup_app_r, Nat.sub_diag by lia; done).
    assert (Hl : length (fresh_table pre) = length pre) by apply length_map.
    assert (He : zget (clk_client_tbl (sw_info s)) (Z.of_nat (length pre)) = Some zero_entry).
    { rewrite Ht, zget_nat, lookup_app_r, Hl, Nat.sub_diag by lia. done. }
    assert (Hb : (x ← liftO OutOfBounds (zget (pre ++ nom :: noms) (Z.of_nat (length pre))); upd_entry (Z.of_nat (length pre)) (prepare_entry x) : MM unit) s =
      Done (tt, with_entry (Z.of_nat (length pre)) (prepare_entry nom zero_entry) s)) by (rewrite (liftO_run _ _ _ _ _ Hg); by apply upd_entry_run).
    rewrite (bind_run _ _ _ _ _ Hb). specialize (IH noms (pre ++ [nom]) (with_entry (Z.of_nat (length pre)) (prepare_entry nom zero_entry) s)).
    rewrite length_app in IH. cbn [length] in IH. replace (length pre + 1)%nat with (S (length pre)) in IH by lia. rewrite <- !app_assoc in IH. cbn [app] in IH.
    rewrite IH; [done| |done|cbn in Hm; lia]. cbn. rewrite Ht, Nat2Z.id. unfold fresh_table. rewrite map_app, <- app_assoc. cbn.
    by rewrite insert_app_r_alt, length_map, Nat.sub_diag by (rewrite length_map; lia).
Qed.

Lemma fresh_shape nom : 0 <= num_hw_block nom -> entry_shape (prepare_entry nom zero_entry) /\ client (prepare_entry nom zero_entry) = None.
Proof.
  intros Hb. split; [|done]. split; try done. unfold prepare_entry, zero_entry. cbn [current_ma upd]. repeat constructor; done.
Qed.

(** A table of entries that nobody has. *)
Lemma fresh_forall noms (P : mmrm_sw_clk_client_tbl_entry -> Prop) :
  Forall (fun nom => 0 <= num_hw_block nom) noms -> (forall nom, 0 <= num_hw_block nom -> P (prepare_entry nom zero_entry)) -> Forall P (fresh_table noms).
Proof. intros Hn HP. apply Forall_map. eapply Forall_impl; [exact Hn|]. exact HP. Qed.

Section Init.
Context (s0 : mmrm_state) (tbl : list mmrm_sw_clk_client_tbl_entry).

(** The manager while the clients that may be throttled are looked up. *)
Definition setting_up (s : mmrm_state) : Prop :=
  exists info, s = s0 <| sw_info := mkSwInfo tbl (zlen tbl) 0 info (res_throttle_clients_data_length (clk_res s0))
      (mkPeak (peak_threshold (clk_res s0)) 0 0) [] |> <| sys_calls := sys_calls s |> /\
    zlen info = MMRM_MAX_THROTTLE_CLIENTS /\ Forall (fun t => 0 <= tbl_entry_id t < zlen tbl) info.

Lemma resolve_wp i s :
  setting_up s -> 0 <= i < MMRM_MAX_THROTTLE_CLIENTS -> zlen (clsid_threshold_clients (clk_res s0)) = MMRM_MAX_THROTTLE_CLIENTS ->
  wp (resolve_throttle_client i) (fun _ s' => setting_up s') s.
Proof.
  intros (info&Hs&Hl&Hids) Hi Hc. unfold resolve_throttle_client. apply wp_getM. apply wp_bind.
  eapply (wp_run _ _ _ tbl s).
  { unfold all_entries. rewrite getM_run, Hs. cbn [sw_info upd]. cbv zeta. cbn. rewrite Z.leb_refl. unfold zlen. rewrite Nat2Z.id, firstn_all. done. }
  assert (Hres : clk_res s = clk_res s0) by (by rewrite Hs). assert (Hinfo : throttle_clients_info (sw_info s) = info) by (by rewrite Hs).
  destruct (zget_is_Some (clsid_threshold_clients (clk_res s0)) i ltac:(lia)) as [id Hid]. rewrite <- Hres in Hid. apply (wp_liftO _ _ _ _ _ _ Hid).
  destruct (find_csid tbl id 0) as [j|] eqn:Hf; [|apply wp_ret; by exists info]. apply find_csid_inv in Hf as (e&He&_). apply zget_Some in He. rewrite Z.sub_0_r in He.
  assert (Hset : zset (throttle_clients_info (sw_info s)) i (mkThrottleInfo id (u16 j)) = Some (<[Z.to_nat i := mkThrottleInfo id (u16 j)]> info))
    by (rewrite Hinfo; apply zset_in; lia).
  apply (wp_liftO _ _ _ _ _ _ Hset). eapply (wp_run _ _ _ tt); [reflexivity|]. exists (<[Z.to_nat i := mkThrottleInfo id (u16 j)]> info).
  split; [by rewrite Hs|]. split; [by rewrite zlen_insert|]. apply Forall_insert; [done|]. cbn. unfold wrap.
  pose proof (Z.mod_pos_bound j (2 ^ 16) ltac:(lia)). pose proof (Z.mod_le j (2 ^ 16) ltac:(lia) ltac:(lia)). lia.
Qed.

Lemma resolve_all_wp l s :
  setting_up s -> Forall (fun i => 0 <= i < MMRM_MAX_THROTTLE_CLIENTS) l -> zlen (clsid_threshold_clients (clk_res s0)) = MMRM_MAX_THROTTLE_CLIENTS ->
  wp (forM l resolve_throttle_client) (fun _ s' => setting_up s') s.
Proof.
  intros Hs Hl Hc. revert s Hs. induction Hl as [|i l Hi Hl IH]; intros s Hs; cbn [forM]; [by apply wp_ret|].
  apply wp_bind. eapply wp_mono; [by apply resolve_wp|]. intros ? s' H'. cbv beta in H'. by apply IH.
Qed.
End Init.

(** The fresh manager has its books in order. *)
Lemma fresh_books s noms info len :
  let tbl := fresh_table noms in
  sw_info s = mkSwInfo tbl (zlen tbl) 0 info len (mkPeak (peak_threshold (clk_res s)) 0 0) [] ->
  zlen info = MMRM_MAX_THROTTLE_CLIENTS -> Forall (fun t => 0 <= tbl_entry_id t < zlen tbl) info -> 0 <= len <= MMRM_MAX_THROTTLE_CLIENTS ->
  Forall (fun nom => 0 <= num_hw_block nom) noms -> zlen tbl <= zlen (clk_src_tbl (clk_res s)) -> 5 <= zlen (corner_tbl (clk_res s)) ->
  Forall (fun k => factor (volt_factor k) <> 0) (corner_tbl (clk_res s)) -> mgr_locked s = false -> books s.
Proof.
  intros tbl Hi Hl Hids Hlen Hb Hn Hc Hv Hlock. assert (Hw : Forall (fun e => has_rate e = false) tbl) by (by apply fresh_forall).
  assert (Hz : forall level, total level tbl = 0).
  { intros level. apply sumZ_zero. eapply Forall_impl; [exact Hw|]. intros e He. unfold weight. by rewrite He. }
  split; try done; [split; rewrite ?Hi; cbn; try done; try lia|split; rewrite Hi; cbn; [| |by rewrite Hz]|rewrite Hi; cbn|rewrite Hi; cbn; by left].
  - apply fresh_forall; [done|]. intros nom Hnom. by apply fresh_shape.
  - eapply Forall_impl; [exact Hw|]. intros e He Hr. congruence.
  - unfold fits. rewrite sumZ_zero; [lia|]. apply fresh_forall; done.
  - apply fresh_forall; [done|]. intros nom _ Hcrm. done.
Qed.

(** The allocator refuses a call. *)
Definition no_memory (sy : mmrm_system) : Prop := exists n, kzalloc_ok sy n = false.

(** The two answers of the allocator to the next call. *)
Ltac allocate H := match goal with |- context [kzalloc_ok ?sy ?n] => destruct (kzalloc_ok sy n) eqn:H end; cbn [negb].

(** What a successful initialisation leaves. *)
Definition initialised (s s' : mmrm_state) : Prop :=
  books s' /\ clk_mgr_set s' = true /\ clk_res s' = clk_res s /\ sysm s' = sysm s /\ drv_data s' = drv_data s /\
  is_clk_scaling_supported s' = is_clk_scaling_supported s /\
  clk_client_tbl (sw_info s') = fresh_table (take (Z.to_nat (nom_clk_count (clk_res s))) (clk_src_tbl (clk_res s))) /\
  peak_cur_data (sw_info s') = mkPeak (peak_threshold (clk_res s)) 0 0.

Lemma init_run s :
  platform_ok (clk_res s) ->
  wp mmrm_init_sw_clk_mgr (fun rc s' => rc = - ENOMEM /\ no_memory (sysm s) \/ rc = 0 /\ initialised s s') s.
Proof.
  intros [Hcount Hblocks Hlen Hids Hcorners Hvolt]. unfold mmrm_init_sw_clk_mgr.
  apply wp_bind. eapply wp_run; [reflexivity|]. allocate Hk1; [|apply wp_ret; left; split; [done|by eexists]].
  apply wp_bind. eapply wp_run; [reflexivity|]. allocate Hk2; [|apply wp_modify, wp_ret; left; split; [done|by eexists]].
  apply wp_getM. cbv zeta. set (s2 := upd sys_calls S _). change (clk_res s2) with (clk_res s). set (count := nom_clk_count (clk_res s)) in *.
  set (noms := clk_src_tbl (clk_res s)) in *. apply wp_bind. eapply (wp_run _ _ _ tt); [reflexivity|]. set (s3 := upd sw_info _ _).
  set (tbl := fresh_table (take (Z.to_nat count) noms)).
  assert (Hprep : mmrm_sw_prepare_table s3 = Done (0, with_table tbl s3)).
  { unfold mmrm_sw_prepare_table. rewrite getM_run. eapply eq_trans; [eapply bind_run|reflexivity].
    apply (prepare_loop noms (Z.to_nat count) [] s3); [done|done|]. unfold zlen in Hcount. lia. }
  apply wp_bind. eapply wp_run; [exact Hprep|]. change (truthy 0) with false. cbv iota. apply wp_bind. eapply (wp_run _ _ _ tt); [reflexivity|].
  set (s4 := upd sw_info _ _). change (clk_res s2) with (clk_res s).
  assert (Htl : zlen tbl = count) by (unfold tbl, fresh_table, zlen in *; rewrite length_map, length_take; lia).
  assert (Hup : setting_up s4 tbl s4).
  { exists (replicate 5 (mkThrottleInfo 0 0)). rewrite Htl. split; [reflexivity|]. split; [done|]. repeat constructor; cbn; lia. }
  apply wp_bind. eapply wp_mono; [apply (resolve_all_wp s4 tbl _ _ Hup); [|exact Hids]|].
  { apply Forall_map, Forall_forall. intros k Hk%elem_of_seq. lia. }
  intros ? s5 (info&H5&Hil&Hir). cbv beta. apply wp_modify, wp_ret. right. split; [done|].
  assert (Hb : books (s5 <| mgr_locked := false |> <| clk_mgr_set := true |>)).
  { rewrite H5. eapply (fresh_books _ (take (Z.to_nat count) noms) info _); cbn; try done.
    - by apply Forall_take.
    - change (zlen tbl <= zlen noms). lia. }
  unfold initialised. split; [done|]. rewrite H5. done.
Qed.
