(* ===== verification/MmrmProbe.v ===== *)
(** * The probe of the device

    From the device tree to a manager with its books in order: the tables that the
    probe reads are those that the initialisation needs, and a probe that fails
    leaves no driver data behind. *)

From Stdlib Require Import String.
From S2P Require Import Prelude MmrmState MmrmClk MmrmAdmit MmrmApi MmrmCurr MmrmPeak MmrmVotes MmrmBooks MmrmFreq MmrmInit.

Local Open Scope Z_scope.
Local Open Scope list_scope.

(** A device tree as the driver documents it: at least five corners with a
    voltage, a threshold, and a table of whole entries. *)
Record dt_ok (u : mmrm_uapi) (dt : mmrm_dt) : Prop := mkDtOk {
  do_node : dt_node dt = true;
  do_driver : dt_is_msm_mmrm dt = true;
  do_known : is_Some (mmrm_get_platform_data dt u);
  do_corners : 5 <= mm_rail_corners dt;
  do_volt : forall c, 0 <= c < mm_rail_corners dt -> exists v, mm_rail_fact_volt dt c = Some v /\ factor v <> 0;
  do_threshold : is_Some (mmrm_peak_threshold dt);
  do_size : 0 < mmrm_client_info_size dt /\ mmrm_client_info_size dt mod sizeof_nom_clk_src_info = 0;
  do_words : forall i v, mmrm_client_info dt i = Some v -> 0 <= v;
}.

(** Every platform that is known has five clients that may be throttled. *)
Lemma platform_known u dt pdata :
  mmrm_get_platform_data dt u = Some pdata -> common_data pdata = common_pt_data /\ zlen (throttle_clk_clients_data pdata) = 5.
Proof.
  unfold mmrm_get_platform_data, mmrm_dt_match. cbn [assoc]. repeat (destruct (String.eqb _ _); [by intros [= <-]|]). done.
Qed.

(** The identifiers of these clients are read, one after the other. *)
Lemma read_ids_wp pdata levels s :
  zlen (throttle_clk_clients_data pdata) = 5 -> zlen (clsid_threshold_clients (clk_res s)) = 5 -> Forall (fun i => 0 <= i < 5) levels ->
  wp (forM levels (fun i => s ← getM; '(dom, id) ← liftO OutOfBounds (zget (throttle_clk_clients_data pdata) i);
       l ← liftO OutOfBounds (zset (clsid_threshold_clients (clk_res s)) i (Z.lor (u32 (Z.shiftl dom 16)) id));
       upd_res (fun r => r <| clsid_threshold_clients := l |>)))
    (fun _ s' => exists ids, zlen ids = 5 /\ s' = s <| clk_res ::= fun r => r <| clsid_threshold_clients := ids |> |>) s.
Proof.
  intros Hp Hl His. revert s Hl. induction His as [|i levels Hi His IH]; intros s Hl; cbn [forM].
  - apply wp_ret. exists (clsid_threshold_clients (clk_res s)). split; [done|]. destruct s as [? ? ? ? ? ? r]. by destruct r.
  - apply wp_bind, wp_getM. destruct (zget_is_Some (throttle_clk_clients_data pdata) i ltac:(lia)) as [[dom id] Hd]. apply (wp_liftO _ _ _ _ _ _ Hd). cbv beta iota.
    apply (wp_liftO _ _ _ _ _ _ (zset_in _ i _ ltac:(rewrite Hl; exact Hi))). eapply (wp_run _ _ _ tt); [reflexivity|].
    eapply wp_mono; [apply IH; cbn; by rewrite zlen_insert|]. intros ? s' (ids&Hids&->). exists ids. by split.
Qed.

(** Another set of resources. *)
Definition with_res (r : mmrm_clk_platform_resources) (n : nat) (s : mmrm_state) : mmrm_state := s <| clk_res := r |> <| sys_calls := n |>.

Lemma with_res_twice r r' n n' s : with_res r n (with_res r' n' s) = with_res r n s.
Proof. done. Qed.

Section Probe.
Context (u : mmrm_uapi) (dt : mmrm_dt) (Hdt : dt_ok u dt).

Lemma load_corners_wp s :
  wp (mmrm_load_mm_rail_corner_table dt) (fun rc s' => exists r n, s' = with_res r n s /\ (rc = - ENOMEM /\ no_memory (sysm s) \/
    rc = 0 /\ exists corners, r = (clk_res s) <| corner_tbl := corners |> /\ 5 <= zlen corners /\ Forall (fun k => factor (volt_factor k) <> 0) corners)) s.
Proof using Hdt.
  pose proof (do_corners _ _ Hdt) as Hc. unfold mmrm_load_mm_rail_corner_table. replace (mm_rail_corners dt <=? 0) with false by lia.
  apply wp_bind. eapply wp_run; [reflexivity|]. allocate Hkz.
  2: { apply wp_bind. eapply (wp_run _ _ _ tt); [reflexivity|]. apply wp_ret. do 2 eexists. split; [reflexivity|]. left. split; [done|by eexists]. }
  cbv zeta. apply wp_bind. eapply (wp_run _ _ _ tt); [reflexivity|]. apply wp_ret. do 2 eexists. split; [reflexivity|]. right. split; [done|].
  eexists. split; [reflexivity|]. split; [unfold zlen; rewrite length_map, length_seq; lia|].
  apply Forall_map, Forall_forall. intros c Hin%elem_of_seq. cbn. destruct (do_volt _ _ Hdt (Z.of_nat c)) as (v&->&Hv); [lia|done].
Qed.

Lemma load_noms_wp s :
  wp (mmrm_load_nom_clk_src_table dt) (fun rc s' => exists r n, s' = with_res r n s /\ (rc = - ENOMEM /\ no_memory (sysm s) \/
    rc = 0 /\ exists th count noms, mmrm_peak_threshold dt = Some th /\ r = (clk_res s) <| peak_threshold := th |> <| nom_clk_count := count |> <| clk_src_tbl := noms |> /\ 0 < count <= zlen noms /\
      Forall (fun nom => 0 <= num_hw_block nom) noms)) s.
Proof using Hdt.
  destruct (do_threshold _ _ Hdt) as [th Hth]. destruct (do_size _ _ Hdt) as [Hsz Hmod]. unfold sizeof_nom_clk_src_info in *.
  pose proof (Z.div_mod (mmrm_client_info_size dt) 20 ltac:(lia)) as Hdiv. unfold mmrm_load_nom_clk_src_table, sizeof_nom_clk_src_info. rewrite Hth.
  apply wp_bind. eapply (wp_run _ _ _ tt); [reflexivity|]. cbv zeta. rewrite Hmod. replace (mmrm_client_info_size dt <? 20) with false by lia.
  change (truthy 0) with false. cbn [orb]. apply wp_bind. eapply wp_run; [reflexivity|]. allocate Hkz.
  2: { apply wp_bind. eapply (wp_run _ _ _ tt); [reflexivity|]. apply wp_ret. do 2 eexists. split; [reflexivity|]. left. split; [done|by eexists]. }
  apply wp_bind. eapply (wp_run _ _ _ tt); [reflexivity|]. apply wp_ret. do 2 eexists. split; [reflexivity|]. right. split; [done|].
  do 3 eexists. split; [reflexivity|]. split; [reflexivity|]. split; [unfold zlen; rewrite length_map, length_seq; lia|].
  apply Forall_map, Forall_forall. intros c _. cbn. destruct (mmrm_client_info dt _) eqn:E; [|done]. by eapply (do_words _ _ Hdt).
Qed.

(** The resources, or no memory for them. *)
Lemma read_resources_wp pdata s :
  common_data pdata = common_pt_data -> zlen (throttle_clk_clients_data pdata) = 5 -> clk_res s = zero_res ->
  wp (mmrm_read_platform_resources dt pdata) (fun rc s' => exists r n, s' = with_res r n s /\
    (rc = - ENOMEM /\ no_memory (sysm s) \/ rc = 0 /\ scheme r = CLK_MGR_SCHEME_SW /\ mmrm_peak_threshold dt = Some (peak_threshold r) /\ platform_ok r)) s.
Proof using Hdt.
  intros Hcom Hlen Hres. unfold mmrm_read_platform_resources. rewrite (do_node _ _ Hdt).
  unfold mmrm_read_clk_pltfrm_rsrc_frm_drv_data, mmrm_find_key_value. rewrite Hcom, Hlen. change (u16 5) with 5.
  apply wp_bind. apply wp_bind. eapply (wp_run _ _ _ tt); [reflexivity|]. apply wp_bind. set (s1 := upd clk_res _ s).
  eapply wp_mono; [apply (read_ids_wp pdata _ s1); [done|by (unfold s1; cbn; rewrite Hres)|]|].
  { apply Forall_map, Forall_forall. intros k Hk%elem_of_seq. unfold zlen in Hlen. lia. }
  intros ? s2 (ids&Hids&H2). apply wp_ret. change (truthy 0) with false. cbv iota. unfold mmrm_read_clk_pltfrm_rsrc_frm_dt.
  assert (Hs2 : s2 = with_res (zero_res <| res_throttle_clients_data_length := 5 |> <| clsid_threshold_clients := ids |>) (sys_calls s) s).
  { rewrite H2. unfold s1, with_res. destruct s as [? ? ? ? ? ? r]. cbn in *. by subst. }
  clear H2. apply wp_bind. eapply wp_mono; [apply load_corners_wp|]. intros rc s3 (r3&n3&H3&Hrc). cbv beta.
  destruct Hrc as [[-> Hno]|(->&corners&Hr3&Hc1&Hc2)]; change (truthy (- ENOMEM)) with true; change (truthy 0) with false; cbv iota.
  { apply wp_bind. eapply (wp_run _ _ _ tt); [reflexivity|]. apply wp_ret. rewrite H3, Hs2. exists (r3 <| corner_tbl := [] |>), n3. split; [done|]. left. split; [done|]. by rewrite Hs2 in Hno. }
  apply wp_getM. assert (Hsch : scheme (clk_res s3) = CLK_MGR_SCHEME_SW) by (rewrite H3; cbn; rewrite Hr3, Hs2; done). rewrite Hsch, Z.eqb_refl.
  apply wp_bind. eapply wp_mono; [apply load_noms_wp|]. intros rc s4 (r4&n4&H4&Hrc). cbv beta.
  destruct Hrc as [[-> Hno]|(->&th&count&noms&Hth&Hr4&Hn1&Hn2)]; change (truthy (- ENOMEM)) with true; change (truthy 0) with false; cbv iota.
  { apply wp_bind. eapply (wp_run _ _ _ tt); [reflexivity|]. apply wp_ret. rewrite H4, H3, Hs2.
    exists (r4 <| clk_src_tbl := [] |> <| nom_clk_count := 0 |> <| corner_tbl := [] |>), n4. split; [done|]. left. split; [done|]. by rewrite H3, Hs2 in Hno. }
  apply wp_bind, wp_ret, wp_ret. exists r4, n4. split; [by rewrite H4, H3, Hs2|]. right. split; [done|].
  rewrite Hr4, H3. cbn. rewrite Hr3, Hs2. cbn. split; [done|]. split; [done|]. by split.
Qed.

(** What the probe leaves. *)
Definition probed (sy : mmrm_system) (rc : Z) (s : mmrm_state) : Prop :=
  rc = 0 /\ drv_data s = DrvSet /\ is_clk_scaling_supported s = true /\ clk_mgr_set s = true /\ books s /\
    peak_cur_data (sw_info s) = mkPeak (peak_threshold (clk_res s)) 0 0 /\ mmrm_peak_threshold dt = Some (peak_threshold (clk_res s)) /\ sysm s = sy \/
  rc = - ENOMEM /\ no_memory sy /\ drv_data s <> DrvSet.

Lemma probe_run s :
  uapi (sysm s) = u -> wp (msm_mmrm_probe dt) (probed (sysm s)) s.
Proof using Hdt.
  intros Hu. unfold msm_mmrm_probe, msm_mmrm_probe_init. rewrite (do_driver _ _ Hdt). destruct (do_known _ _ Hdt) as [pdata Hp].
  destruct (platform_known u dt pdata Hp) as [Hcom Hlen]. revert Hp. generalize (mmrm_get_platform_data dt) as platform. intros platform Hp.
  apply wp_bind. eapply wp_run; [reflexivity|]. allocate Hkz; [|apply wp_modify, wp_ret; right; split; [done|split; [by eexists|done]]].
  apply wp_modify. cbv zeta. apply wp_modify. destruct (do_size _ _ Hdt) as [Hsz Hmod].
  assert (Htr : truthy (mmrm_count_clk_clients_frm_dt dt) = true).
  { unfold mmrm_count_clk_clients_frm_dt, sizeof_nom_clk_src_info in *. pose proof (Z.div_mod (mmrm_client_info_size dt) 20 ltac:(lia)). apply truthy_true. lia. }
  rewrite Htr. cbn [negb]. apply wp_getM. match goal with |- wp _ _ ?x => set (s1 := x) end.
  assert (Hp1 : platform (uapi (sysm s1)) = Some pdata) by (change (sysm s1) with (sysm s); by rewrite Hu). rewrite Hp1.
  apply wp_modify. match goal with |- wp _ _ ?x => set (s2 := x) end. apply wp_bind. eapply wp_mono; [exact (read_resources_wp pdata s2 Hcom Hlen eq_refl)|].
  assert (Hfail : forall s', no_memory (sysm s) -> wp (mmrm_free_platform_resources ;; RESET_DRV_DATA ;; mret (- ENOMEM)) (probed (sysm s)) s').
  { intros s' Hno. eapply (wp_run _ _ _ (- ENOMEM)); [reflexivity|]. by right. }
  intros rc s3 (r&n&H3&Hrc). destruct Hrc as [[-> Hno]|(->&Hsch&Hth&Hok)]; [apply wp_bind, wp_ret; exact (Hfail s3 Hno)|].
  change (truthy 0) with false. cbv iota. unfold mmrm_init, mmrm_get_clk_mgr_ops. apply wp_bind, wp_bind, wp_getM.
  assert (Hs3 : scheme (clk_res s3) = CLK_MGR_SCHEME_SW) by (by rewrite H3). rewrite Hs3, Z.eqb_refl. apply wp_modify, wp_ret. change (truthy 0) with false. cbv iota.
  apply wp_getM. match goal with |- wp _ _ ?x => set (s4 := x) end. change (clk_mgr_ops_set s4) with true. cbv iota.
  eapply wp_mono; [apply (init_run s4); change (platform_ok (clk_res s3)); rewrite H3; exact Hok|]. intros rc s5 [[-> Hno]|(->&Hinit)].
  { apply (Hfail s5). change (no_memory (sysm s3)) in Hno. by rewrite H3 in Hno. }
  apply wp_ret. left. destruct Hinit as (I1&I2&I3&I4&I5&I6&I7&I8). split; [done|]. rewrite I5, I6, I2, I3, I4, I8. unfold s4. rewrite H3. done.
Qed.
End Probe.

(** C14: the probe of a device tree with at least five corners with a voltage, a threshold and a table of whole entries, for one of the platforms that the driver
    knows and whether throttling is on or off, either leaves the driver with a manager whose books are in order, at the threshold of the tree and without current,
    or fails with -ENOMEM because the allocator refused a call, and leaves no driver data that a client could follow into a manager. *)
Theorem mmrm_probe_outcomes dt s :
  dt_ok (uapi (sysm s)) dt -> exists rc s', msm_mmrm_probe dt s = Done (rc, s') /\ probed dt (sysm s) rc s'.
Proof. intros Hdt. by apply (probe_run (uapi (sysm s))). Qed.
