(* ===== verification/MmrmSpec.v ===== *)
(** * What the manager promises

    From the probe on, the currents of all clients stay below the threshold as
    long as no client makes others give way and clients leave without a rate; with
    throttling every request still ends and leaves tables that the next can rely
    on. *)

From S2P Require Import Prelude MmrmState MmrmClk MmrmAdmit MmrmApi MmrmCurr MmrmPeak MmrmVotes MmrmSetval MmrmThrottle MmrmBooks MmrmFreq MmrmRegister MmrmInit MmrmProbe.

Local Open Scope Z_scope.

(** ** The books through the other operations *)

Lemma idle_weight e : clk_rate e = 0 -> has_rate e = false.
Proof. intros H. unfold has_rate. rewrite H. apply andb_false_r. Qed.

Lemma no_rate_counted e : has_rate e = false -> counted e.
Proof. intros H Hr. congruence. Qed.

Lemma no_rate_weight e level : has_rate e = false -> weight level e = 0.
Proof. intros H. unfold weight. by rewrite H. Qed.

Lemma register_books d pr pvt fn s r s' :
  books s -> register_result d pr pvt fn s r s' -> fits (clk_client_tbl (sw_info s')) -> books s'.
Proof.
  intros Hb Hreg Hf. assert (Hnew : forall c e e' s1, zget (clk_client_tbl (sw_info s)) c = Some e -> client e = None -> idle_entry e' ->
    hush s1 = hush (with_entry c e' s) -> fits (clk_client_tbl (sw_info s1)) -> books s1).
  { intros c e e' s1 He Hcl (Hs'&Hr'&Hv') H Hf1. pose proof (es_free _ (entry_shape_of _ _ _ (bk_shape _ Hb) He) Hcl) as (_&Hr0&_&_).
    eapply books_hush; [exact H|]. apply (books_same _ _ e); [done|done|done|by apply no_rate_counted, idle_weight|done| |].
    + rewrite (f_equal (fun s => clk_client_tbl (sw_info s)) H : clk_client_tbl (sw_info s1) = _) in Hf1. exact Hf1.
    + intros level. by rewrite !no_rate_weight by (by apply idle_weight). }
  destruct Hreg as [_|_ _|c e cl _ _ _ _|c e cl _ [He _] Hcl _|c e e' s1 _ [He _] Hcl _ H Hi _|c e e' cl s1 _ [He _] Hcl _ H _ [Hi _]]; [done..| | |];
    [|exact (Hnew _ _ _ _ He Hcl Hi H Hf)|exact (Hnew _ _ _ _ He Hcl Hi H Hf)].
  apply (books_same _ _ e); [done|done| | | | |done].
  + by destruct (entry_shape_of _ _ _ (bk_shape _ Hb) He).
  + exact (forall_zget _ _ _ _ (ac_counted _ (bk_accounts _ Hb)) He).
  + exact (forall_zget _ _ _ _ (bk_votes _ Hb) He).
  + eapply fits_entry; [apply Hb|exact He|done].
Qed.

Lemma released_rate e : clk_rate e = 0 -> clk_rate (released_entry e) = 0.
Proof. intros H. unfold released_entry. destruct (0 <? ref_count e); cbv zeta; destruct (_ =? 0); done. Qed.

(** A client may leave with its clock off, or when others share its entry. *)
Definition may_leave (e : mmrm_sw_clk_client_tbl_entry) : Prop := clk_rate e = 0 \/ 1 < ref_count e < 2 ^ 32.

Lemma deregister_books c e s s' :
  books s -> zget (clk_client_tbl (sw_info s)) c = Some e -> may_leave e -> hush s' = hush (with_entry c (released_entry e) s) -> books s'.
Proof.
  intros Hb He Hleave H. eapply books_hush; [exact H|]. pose proof (entry_shape_of _ _ _ (bk_shape _ Hb) He) as Hes.
  pose proof (forall_zget _ _ _ _ (bk_votes _ Hb) He) as Hv. pose proof (forall_zget _ _ _ _ (ac_counted _ (bk_accounts _ Hb)) He) as Hcn.
  assert (Hw : worst (released_entry e) = worst e) by (unfold released_entry; destruct (0 <? ref_count e); cbv zeta; destruct (_ =? 0); done).
  assert (Hvr : votes_ok (released_entry e)) by (unfold released_entry; destruct (0 <? ref_count e); cbv zeta; destruct (_ =? 0); done).
  apply (books_same _ _ e); [done|done|by apply released_shape| |done|eapply fits_entry; [apply Hb|exact He|done]|].
  - destruct Hleave as [H0|Hr]; [by apply no_rate_counted, idle_weight, released_rate|]. unfold released_entry. replace (0 <? ref_count e) with true by lia.
    cbn. rewrite (wrap_small 32 (ref_count e - 1)) by (unfold is_word; lia). by replace (ref_count e - 1 =? 0) with false by lia.
  - intros level. destruct Hleave as [H0|Hr].
    + rewrite !no_rate_weight; [done|by apply idle_weight|by apply idle_weight, released_rate].
    + unfold released_entry. replace (0 <? ref_count e) with true by lia.
      cbn [upd ref_count]. cbn. rewrite (wrap_small 32 (ref_count e - 1)) by (unfold is_word; lia). by replace (ref_count e - 1 =? 0) with false by lia.
Qed.

(** A request that the contract allows: the client is not one of high priority
    while throttling is on, the numbers are words, and the withdrawal of a vote
    for a shared client names no more blocks than the client has. *)
Record may_ask (s : mmrm_state) (cl : mmrm_client) (d : mmrm_client_data) (v : Z) : Prop := mkMayAsk {
  ma_uid : 0 <= client_uid cl;
  ma_data : data_ok d;
  ma_value : is_word 32 v;
  ma_gentle e : zget (clk_client_tbl (sw_info s)) (client_uid cl) = Some e -> may_throttle e s = false;
  ma_blocks e : zget (clk_client_tbl (sw_info s)) (client_uid cl) = Some e -> is_crm_client e = true -> v = 0 -> data_num_hw_blocks d <= max_num_hw_blocks e;
}.

(** A request on any handle. *)
Lemma setval_books cl d v s :
  books s -> may_ask s cl d v ->
  wp (mmrm_sw_clk_client_setval (Some cl) (Some d) v) (fun _ s' => books s') s.
Proof.
  intros Hb [Hu Hd Hv Hg Hbl]. destruct (zget (clk_client_tbl (sw_info s)) (client_uid cl)) as [e|] eqn:He.
  - destruct (is_err_or_null (clk e)) eqn:Hclk.
    + unfold mmrm_sw_clk_client_setval. apply wp_gets. rewrite (ms_tot _ (bk_shape _ Hb)). destruct (_ <=? _); [by apply wp_ret|]. cbv zeta.
      apply wp_bind. eapply wp_run; [exact (get_entry_run _ _ _ He)|]. cbv beta. rewrite Hclk. by apply wp_ret.
    + eapply wp_mono; [apply (setval_run (client_uid cl) e d v s); auto|]. by intros rc s' [H _].
  - unfold mmrm_sw_clk_client_setval. apply wp_gets. rewrite (ms_tot _ (bk_shape _ Hb)). destruct (Z.leb_spec (zlen (clk_client_tbl (sw_info s))) (client_uid cl)); [by apply wp_ret|].
    destruct (zget_is_Some (clk_client_tbl (sw_info s)) (client_uid cl)); [lia|congruence].
Qed.

(** ** The operations of the clients *)

(** The requests of clients and the changes of the parameters; a client leaves
    without a rate or when others share its entry, and the currents of a new client
    fit in a word with those of the others. *)
Inductive client_step (s s' : mmrm_state) : Prop :=
| StepSet cl d v rc : mmrm_sw_clk_client_setval (Some cl) (Some d) v s = Done (rc, s') -> may_ask s cl d v -> client_step s s'
| StepParam f m : s' = s <| msm_mmrm_enable_throttle_feature := f |> <| msm_mmrm_allow_multiple_register := m |> -> client_step s s'
| StepRegister d pr pvt fn r :
    mmrm_sw_clk_client_register d pr pvt fn s = Done (r, s') -> desc_ok d -> fits (clk_client_tbl (sw_info s')) -> client_step s s'
| StepDeregister cl rc :
    mmrm_sw_clk_client_deregister (Some cl) s = Done (rc, s') -> 0 <= client_uid cl ->
    (forall e, zget (clk_client_tbl (sw_info s)) (client_uid cl) = Some e -> may_leave e) -> client_step s s'.

Lemma steady_entry c e s s' : hush s' = hush (with_entry c e s) -> steady s s'.
Proof. intros H. apply quiet_hush, steady_quiet in H. by transitivity (with_entry c e s). Qed.

Lemma step_steady s s' : books s -> clk_rates (sysm s) -> client_step s s' -> steady s s'.
Proof.
  intros Hb Hr [cl d v rc Hrun Ha|f m ->|d pr pvt fn r Hrun Hd Hf|cl rc Hrun Hu Hl].
  - destruct (setval_safe_run cl d v s (bk_shape _ Hb) (bk_lock _ Hb) (ma_uid _ _ _ _ Ha) (ma_data _ _ _ _ Ha)) as (x&s2&Hx&_&H). by rewrite Hrun in Hx; injection Hx as <- <-.
  - done.
  - destruct (register_run d pr pvt fn s (bk_shape _ Hb) (bk_lock _ Hb) Hr Hd) as (x&s2&Hx&Hres). rewrite Hrun in Hx. injection Hx as <- <-.
    by destruct Hres; try (eapply steady_entry; done).
  - destruct (deregister_run cl s (bk_shape _ Hb) (bk_lock _ Hb) Hu) as (x&s2&Hx&Hres). rewrite Hrun in Hx. injection Hx as <- <-.
    destruct (zget _ _); destruct Hres as [_ H]; [by eapply steady_entry|by rewrite H].
Qed.

Lemma step_books s s' : books s -> clk_rates (sysm s) -> client_step s s' -> books s'.
Proof.
  intros Hb Hr [cl d v rc Hrun Ha|f m ->|d pr pvt fn r Hrun Hd Hf|cl rc Hrun Hu Hl].
  - destruct (setval_books cl d v s Hb Ha) as (x&s2&Hx&H). congruence.
  - destruct Hb as [Hs Hl [] Hv Hbelow]. split; [by apply (shape_of s)|done|by split|done|done].
  - destruct (register_run d pr pvt fn s (bk_shape _ Hb) (bk_lock _ Hb) Hr Hd) as (x&s2&Hx&Hres). rewrite Hrun in Hx. injection Hx as <- <-.
    by eapply register_books.
  - destruct (deregister_run cl s (bk_shape _ Hb) (bk_lock _ Hb) Hu) as (x&s2&Hx&Hres). rewrite Hrun in Hx. injection Hx as <- <-.
    destruct (zget _ _) as [e|] eqn:He; destruct Hres as [_ H]; [|by rewrite H]. eapply deregister_books; eauto.
Qed.

(** ** The exported functions *)

(** The driver is probed. *)
Definition ready (s : mmrm_state) : Prop :=
  drv_data s = DrvSet /\ is_clk_scaling_supported s = true /\ clk_mgr_set s = true /\ books s /\ clk_rates (sysm s).

Lemma for_client_run {A} (invalid skip : A) cl args (op : MM A) s :
  ready s -> for_client invalid skip (Some cl) args op s =
    if negb args then Done (invalid, s) else if negb (client_type cl =? MMRM_CLIENT_CLOCK (uapi (sysm s))) then Done (skip, s) else op s.
Proof.
  intros (H1&H2&_). unfold for_client. destruct (negb args); [done|]. rewrite getM_run, H1. destruct (negb _); [done|].
  unfold with_drv. rewrite getM_run, H1. by rewrite H2.
Qed.

(** Calls of the exported functions, and writes to the files in sysfs. *)
Inductive api_step (s s' : mmrm_state) : Prop :=
| ApiRegister d r :
    mmrm_client_register (Some d) s = Done (r, s') -> desc_ok (desc d) -> fits (clk_client_tbl (sw_info s')) -> api_step s s'
| ApiSet cl d v rc : mmrm_client_set_value (Some cl) (Some d) v s = Done (rc, s') -> may_ask s cl d v -> api_step s s'
| ApiSetRange cl d v rc : mmrm_client_set_value_in_range (Some cl) (Some d) (Some v) s = Done (rc, s') -> may_ask s cl d (val_cur v) -> api_step s s'
| ApiThrottle kstrtou32 buf n r : mmrm_sysfs_enable_throttle_set kstrtou32 buf n s = Done (r, s') -> api_step s s'
| ApiMultiple kstrtou32 buf n r : mmrm_sysfs_allow_multiple_set kstrtou32 buf n s = Done (r, s') -> api_step s s'
| ApiGet cl b r : mmrm_client_get_value (Some cl) b s = Done (r, s') -> api_step s s'
| ApiDeregister cl rc :
    mmrm_client_deregister (Some cl) s = Done (rc, s') -> 0 <= client_uid cl ->
    (forall e, zget (clk_client_tbl (sw_info s)) (client_uid cl) = Some e -> may_leave e) -> api_step s s'.

Lemma getval_keeps cl : keeps eq (mmrm_sw_clk_client_getval cl).
Proof. unfold mmrm_sw_clk_client_getval, get_sinfo, get_entry. keep. Qed.

(** Each is an operation of the manager, or changes nothing. *)
Lemma api_to_step s s' : ready s -> api_step s s' -> s' = s \/ client_step s s'.
Proof.
  intros Hr. pose proof Hr as (H1&H2&H3&_).
  intros [d r H Hd Hf|cl d v rc H Ha|cl d v rc H Ha|f buf n r H|f buf n r H|cl b r H|cl rc H Hu Hl].
  - unfold mmrm_client_register in H. rewrite getM_run, H1 in H. destruct (negb _); [injection H as _ <-; by left|].
    unfold with_drv in H. rewrite getM_run, H1, H2 in H. unfold mmrm_clk_client_register in H. rewrite getM_run, H3 in H. cbn [negb] in H. right. by eapply StepRegister.
  - unfold mmrm_client_set_value in H. rewrite for_client_run in H by done. cbn [negb bool_decide] in H. repeat (case_match; [injection H as _ <-; by left|]).
    unfold mmrm_clk_client_setval in H. rewrite getM_run, H3 in H. cbn [negb] in H. right. by eapply StepSet.
  - unfold mmrm_client_set_value_in_range in H. rewrite for_client_run in H by done. repeat (case_match; [injection H as _ <-; by left|]).
    unfold mmrm_clk_client_setval_inrange in H. rewrite getM_run, H3 in H. cbn [negb] in H. right. by eapply StepSet.
  - unfold mmrm_sysfs_enable_throttle_set in H. destruct (sysfs_get_param f buf) as [v|]; injection H as _ <-; [right|by left].
    apply (StepParam _ _ (u8 v) (msm_mmrm_allow_multiple_register s)). by destruct s.
  - unfold mmrm_sysfs_allow_multiple_set in H. destruct (sysfs_get_param f buf) as [v|]; injection H as _ <-; [right|by left].
    apply (StepParam _ _ (msm_mmrm_enable_throttle_feature s) (u8 v)). by destruct s.
  - left. unfold mmrm_client_get_value in H. rewrite for_client_run in H by done. repeat (case_match; [by injection H as _ <-|]).
    unfold mmrm_clk_client_getval in H. rewrite getM_run, H3 in H. by rewrite (getval_keeps _ _ _ _ H).
  - unfold mmrm_client_deregister in H. rewrite for_client_run in H by done. repeat (case_match; [injection H as _ <-; by left|]).
    unfold mmrm_clk_client_deregister in H. rewrite getM_run, H3 in H. cbn [negb] in H. right. by eapply StepDeregister.
Qed.

Lemma api_run s s' : rtc api_step s s' -> ready s -> ready s' /\ steady s s'.
Proof.
  induction 1 as [s|s1 s2 s3 H1 _ IH]; intros Hr; [done|]. pose proof Hr as (R1&R2&R3&Hb&Hrates).
  destruct (api_to_step s1 s2 Hr H1) as [->|Hstep]; [by apply IH|]. pose proof (step_steady _ _ Hb Hrates Hstep) as Hst. pose proof Hst as (S1&_&S3&S4&S5&_).
  destruct IH as [Hr3 Hst3].
  - split; [congruence|]. split; [congruence|]. split; [congruence|]. split; [by eapply step_books|by rewrite S1].
  - split; [done|by transitivity s2].
Qed.

(** ** The properties *)

(** The current that the clients draw at the common level. *)
Definition drawn (s : mmrm_state) : Z := total (aggreg_level (peak_cur_data (sw_info s))) (clk_client_tbl (sw_info s)).

(** C5: from a successful probe, with throttling on or off, any sequence of registrations, requests for rates, reads of the rate, deregistrations and changes of
    the parameters leaves the sum that the manager keeps equal to the currents of all clients at the common voltage level, and that sum is zero or below the
    threshold of the device tree; the lock is free.  Each step has to keep the contract of [api_step]: no request comes from a client of high priority while
    throttling is on; the rate is a 32-bit word and the other numbers are not negative; the withdrawal of a vote of a shared client names no more blocks than
    the client has; the largest currents of all clients, the new one included, add up to less than 2^31; and a client leaves only with its rate at 0 or when
    other registrations share its entry ([mmrm_throttling_admits_excess] and [mmrm_deregister_keeps_current] are runs without the first and the last of
    these).  The rates of the clock framework are positive and leave room for the step of a megahertz. *)
Theorem mmrm_current_below_threshold dt s0 s1 s :
  dt_ok (uapi (sysm s0)) dt -> clk_rates (sysm s0) -> msm_mmrm_probe dt s0 = Done (0, s1) -> rtc api_step s1 s ->
  aggreg_val (peak_cur_data (sw_info s)) = drawn s /\ (drawn s = 0 \/ mmrm_peak_threshold dt = Some (threshold (peak_cur_data (sw_info s))) /\
    drawn s < threshold (peak_cur_data (sw_info s))) /\ mgr_locked s = false.
Proof.
  intros Hdt Hr Hprobe Hrun. destruct (probe_run _ dt Hdt s0 eq_refl) as (rc&s2&H2&Hpost). rewrite Hprobe in H2. injection H2 as <- <-.
  destruct Hpost as [(_&H1&H2&H3&Hb&Hpk&Hth&Hsy)|[Hbad _]]; [|done].
  destruct (api_run s1 s Hrun) as [(_&_&_&Hb'&_) (_&_&_&_&_&Hst)]; [split; [done|]; split; [done|]; split; [done|]; split; [done|by rewrite Hsy]|].
  rewrite Hpk in Hst. cbn in Hst. pose proof (ac_exact _ (bk_accounts _ Hb')) as Hx. pose proof (bk_below _ Hb') as Hbelow. unfold drawn.
  rewrite Hx in Hbelow. split; [done|]. split; [|apply Hb']. destruct Hbelow as [?|?]; [by left|right]. split; [|done]. by rewrite Hst.
Qed.

(** C6: a request for a rate of a registered client that may not make others give way (throttling is off, or the client is not of high priority), in a manager
    with its books in order, completes with them in order, and what it does is settled by its arguments, the tables and the answers of the clock framework.  It is
    refused with -EINVAL and without a trace when the vote for a shared client has no place in its table, when the clock framework gives no level for the rate
    that counts (the value of the request, or the highest vote of a shared client after it), when a rate other than 0 comes with no block or more than the client
    has, and when the sum of all currents at the common level that the request leads to is neither 0 nor below the threshold.  It returns 0 and does nothing when
    a client that nobody shares has that rate, blocks and reserve flag; with another flag it stores the flag and sets the clock unless the rate is only reserved.
    Otherwise it is admitted: the entry takes the rate, the level of the clock framework's answer (0 for the rate 0), the blocks, the flag and the vote, the sum
    and the common level are noted, throttled clients may be notified, and the clock is set, whose answer makes the result, unless a client that nobody shares
    only reserves. *)
Theorem mmrm_setval_outcomes cl e d v s :
  books s -> zget (clk_client_tbl (sw_info s)) (client_uid cl) = Some e -> is_err_or_null (clk e) = false -> may_throttle e s = false -> data_ok d -> is_word 32 v ->
  (is_crm_client e = true -> v = 0 -> data_num_hw_blocks d <= max_num_hw_blocks e) ->
  exists rc s', mmrm_sw_clk_client_setval (Some cl) (Some d) v s = Done (rc, s') /\ books s' /\ setval_result (client_uid cl) e d v s rc s'.
Proof. intros Hb He Hclk Hm Hd Hv Hbl. by apply setval_run. Qed.

(** C11: whatever the clock framework, the allocator and the callbacks of the clients answer, and whether or not clients are throttled, a request for a rate
    ends without a fault, with the lock free, and leaves tables of the right shape. *)
Theorem mmrm_setval_never_faults cl d v s :
  mgr_shape s -> mgr_locked s = false -> 0 <= client_uid cl -> data_ok d ->
  exists rc s', mmrm_sw_clk_client_setval (Some cl) (Some d) v s = Done (rc, s') /\ mgr_shape s' /\ mgr_locked s' = false.
Proof.
  intros Hs Hl Hu Hd. destruct (setval_safe_run cl d v s Hs Hl Hu Hd) as (rc&s'&Hr&Hs'&(_&Hl'&_)). exists rc, s'. by rewrite Hl', Hl.
Qed.

(** C13: the rate that the code finds for a shared client after a vote is the highest of all votes in its table, and the index is that of such a vote, although the
    code searches the table only when the highest vote is lowered. *)
Theorem mmrm_crm_rate_is_highest_vote e d v s :
  entry_shape e -> votes_ok e -> is_crm_client e = true -> data_ok d -> crm_drv_idx d < hw_drv_instances e -> pwr_st d < num_pwr_states e -> is_word 32 v ->
  exists tbl idx, crm_client_tbl e = Some tbl /\
    let votes := <[Z.to_nat (vote_index (uapi (sysm s)) e d) := v]> tbl in
    mmrm_sw_get_max_crm_rate e d v s = Done ((maxZ votes, idx), s) /\ zget votes (u32 idx) = Some (maxZ votes).
Proof.
  intros Hs Hv Hc Hd Hi Hp Hw. destruct (max_crm_rate_run e d v s Hs Hv Hc Hd Hi Hp Hw) as (tbl&rate&idx&Hrun&_&Ht&_&Hok).
  destruct (votes_highest e tbl _ v rate idx Hok Hc) as [Hmax Hidx]. cbv zeta in Hmax, Hidx. exists tbl, idx. cbv zeta. by rewrite <- Hmax.
Qed.

(** C12: what a registration does is settled by the table, the description and the answers of the allocator.  It is refused, and nothing changes, when the table is
    full, when no entry has the identifier that the description names, and when the first entry with it has a client and multiple registration is off; with
    multiple registration on, that client is returned and counted once more.  A free entry is taken exactly when both allocations succeed (the second is made for a
    shared client only) and the numbers of drivers and power states are those that the manager takes: then it has the client's clock, priority, callback and data,
    frequencies that are positive and rise with the level, at each pair of levels the current of the source with the same index in the table of the platform, and
    for a shared client a table of votes that are all 0.  In every other case nothing is returned and the entry is free again.  The tables have the right shape,
    the lock is free, and the clock framework's rates are positive with room for the step of a megahertz. *)
Theorem mmrm_register_outcomes d pr pvt fn s :
  mgr_shape s -> mgr_locked s = false -> clk_rates (sysm s) -> desc_ok d ->
  exists r s', mmrm_sw_clk_client_register d pr pvt fn s = Done (r, s') /\ register_result d pr pvt fn s r s'.
Proof. exact (register_run d pr pvt fn s). Qed.

(** a factor of the device tree, in units of 1/65536, is stored in the fixed-point format rounded down to hundredths: the stored number is at most the factor
    and less than a hundredth and a unit below it. *)
Theorem mmrm_factor_accuracy q : is_word 32 q -> factor q <= q < factor q + 657.
Proof.
  intros [H0 H1]. unfold factor, FP, Q16_INT, Q16_FRAC, FP_FRACTIONAL_BITS. change 65535 with (Z.ones 16). rewrite Z.land_ones by lia.
  rewrite !Z.shiftr_div_pow2, !Z.shiftl_mul_pow2 by lia. pose proof (Z.mod_pos_bound q (2 ^ 16) ltac:(lia)) as Hm. pose proof (Z.div_mod q (2 ^ 16) ltac:(lia)) as Hq.
  set (i := q / 2 ^ 16) in *. set (f := q mod 2 ^ 16) in *. rewrite (wrap_small 32 (f * 100)) by (unfold is_word; lia).
  pose proof (Z.div_mod (f * 100) (2 ^ 16) ltac:(lia)) as Hn. pose proof (Z.mod_pos_bound (f * 100) (2 ^ 16) ltac:(lia)).
  set (n := f * 100 / 2 ^ 16) in *. assert (0 <= n < 100) by lia. rewrite (wrap_small 32 (n * 2 ^ 16)) by (unfold is_word; lia).
  pose proof (Z.div_mod (n * 2 ^ 16) 100 ltac:(lia)). pose proof (Z.mod_pos_bound (n * 2 ^ 16) 100 ltac:(lia)). set (x := n * 2 ^ 16 / 100) in *.
  rewrite (wrap_small 64 (i * 2 ^ 16)) by (unfold is_word; lia). rewrite wrap_small by (unfold is_word; lia). lia.
Qed.
