(* ===== verification/MmrmExamples.v ===== *)
(** * Runs of the resource manager

    A small platform with two clients, on which the theorems are applied, and the
    runs that leave their contract: a request that throttling admits above the
    threshold, and a client whose current stays in the sum when it has left. *)

From Stdlib Require Import Ascii String.
From S2P Require Import Prelude MmrmState MmrmClk MmrmAdmit MmrmApi MmrmCurr MmrmPeak MmrmVotes MmrmSetval MmrmThrottle MmrmBooks MmrmExcess MmrmFreq MmrmRegister MmrmInit MmrmProbe MmrmSpec.

Local Open Scope Z_scope.
Local Open Scope list_scope.

(** ** A platform *)

Definition ex_uapi : mmrm_uapi := mkMmrmUapi 1 1 1 0 1 2 3 4 64 128 192 256 384.

(** A clock with the rates of 1 to 5 MHz, each at a higher voltage. *)
Definition ex_round (_ : nat) (_ r : Z) : Z := Z.max 1000000 (Z.min r 5000000).
Definition ex_voltage (_ : nat) (_ r : Z) : Z :=
  if r <=? 1000000 then 64 else if r <=? 2000000 then 128 else if r <=? 3000000 then 192 else if r <=? 4000000 then 256 else 384.
Definition ex_system : mmrm_system := mkMmrmSystem ex_uapi ex_round ex_voltage (fun _ _ _ => 0) (fun _ _ _ _ _ => 0) (fun _ _ _ _ _ => 0) (fun _ => true).

(** A device tree with five equal corners and two sources. *)
Definition ex_info : list Z := [1; 1; 6553600; 655360; 2; 1; 2; 3276800; 655360; 1].
Definition ex_dt (th : Z) : mmrm_dt :=
  mkDt true "qcom,pineapple-mmrm" true 5 (fun _ => Some 65536) (fun _ => Some 65536) (fun _ => Some 65536) (Some th) 40 (fun i => zget ex_info i).

Definition ex_boot (feature : Z) : mmrm_state := mkMmrm ex_system DrvDefer false false false false zero_res zero_sw_info false feature 1 0%nat [].

Definition ex_desc (id pr : Z) : mmrm_client_desc := mkDesc 1 (mkClkDesc 1 id (4096 + id) 0 0) pr (6 + id) 0.
Definition ex_data : mmrm_client_data := mkData 1 0 0 0 0.
Definition ex_client (c : Z) : mmrm_client := mkClient c 1.

(** The state after a run. *)
Definition after {A} (m : MM A) (s : mmrm_state) : mmrm_state := default s (final (m s)).

Lemma after_run {A} (m : MM A) s a : value (m s) = Some a -> m s = Done (a, after m s).
Proof. unfold after. destruct (m s) as [[x s']|]; [|done]. cbn. congruence. Qed.

Definition ex_ready (th feature : Z) : mmrm_state := after (msm_mmrm_probe (ex_dt th)) (ex_boot feature).
Definition ex_one (th feature : Z) : mmrm_state := after (mmrm_client_register (Some (ex_desc 1 1))) (ex_ready th feature).
Definition ex_two (th feature : Z) : mmrm_state := after (mmrm_client_register (Some (ex_desc 2 1))) (ex_one th feature).
Definition ex_low : mmrm_state := after (mmrm_client_register (Some (ex_desc 2 0))) (after (mmrm_client_register (Some (ex_desc 1 0))) (ex_ready 100 1)).
Definition ex_set (c v : Z) (s : mmrm_state) : mmrm_state := after (mmrm_client_set_value (Some (ex_client c)) (Some ex_data) v) s.

Lemma ex_platform : dt_ok ex_uapi (ex_dt 100).
Proof.
  split; [reflexivity|reflexivity|vm_compute; by eexists|by vm_compute|intros c _; exists 65536; by vm_compute|by eexists|by vm_compute|].
  intros i v H. change (zget ex_info i = Some v) in H. apply (forall_zget (fun v => 0 <= v) ex_info i v); [|done]. unfold ex_info. repeat constructor; lia.
Qed.

Lemma ex_rates feature : clk_rates (sysm (ex_boot feature)).
Proof. intros n k r. cbn. unfold ex_round, CLK_RATE_STEP. lia. Qed.

Lemma ex_probe_run feature : feature = 0 \/ feature = 1 -> msm_mmrm_probe (ex_dt 100) (ex_boot feature) = Done (0, ex_ready 100 feature).
Proof.
  intros Hf. assert (H : value (msm_mmrm_probe (ex_dt 100) (ex_boot feature)) = Some 0) by (by destruct Hf as [-> | ->]; vm_compute).
  exact (after_run (msm_mmrm_probe (ex_dt 100)) (ex_boot feature) 0 H).
Qed.

(** A registration and a request are steps of the clients when they run as computed. *)
Lemma ex_register_step d s r :
  value (mmrm_client_register (Some d) s) = Some r -> desc_ok (desc d) ->
  fits (clk_client_tbl (sw_info (after (mmrm_client_register (Some d)) s))) -> api_step s (after (mmrm_client_register (Some d)) s).
Proof. intros H Hd Hf. exact (ApiRegister s _ d r (after_run _ _ _ H) Hd Hf). Qed.

Lemma ex_set_step c v s rc :
  value (mmrm_client_set_value (Some (ex_client c)) (Some ex_data) v s) = Some rc -> 0 <= c -> is_word 32 v ->
  forallb (fun e => negb (is_crm_client e) && negb (may_throttle e s)) (clk_client_tbl (sw_info s)) = true -> api_step s (ex_set c v s).
Proof.
  intros H Hc Hv Hall. apply (ApiSet s _ (ex_client c) ex_data v rc (after_run _ _ _ H)).
  assert (Hentry : forall e, zget (clk_client_tbl (sw_info s)) c = Some e -> is_crm_client e = false /\ may_throttle e s = false).
  { intros e He. rewrite forallb_forall in Hall. pose proof (zget_Some _ _ _ He). rewrite zget_to_nat in He by lia. apply list_elem_of_lookup_2, list_elem_of_In in He.
    specialize (Hall _ He). cbv beta in Hall. destruct (is_crm_client e), (may_throttle e s); done. }
  split; [done|done|done|intros e He; apply (Hentry e He)|]. intros e He Hce. destruct (Hentry e He) as [Hf _]. by rewrite Hf in Hce.
Qed.

Lemma ex_step_one : api_step (ex_ready 100 0) (ex_one 100 0).
Proof. apply (ex_register_step (ex_desc 1 1) _ (Some (ex_client 0))); [by vm_compute|done|by vm_compute]. Qed.

Lemma ex_step_two : api_step (ex_one 100 0) (ex_two 100 0).
Proof. apply (ex_register_step (ex_desc 2 1) _ (Some (ex_client 1))); [by vm_compute|done|by vm_compute]. Qed.

Lemma ex_data_ok : data_ok ex_data.
Proof. by vm_compute. Qed.

Lemma ex_word v : 0 <= v < 2 ^ 32 -> is_word 32 v.
Proof. done. Qed.

Lemma ex_ready_ready : ready (ex_ready 100 0).
Proof.
  destruct (probe_run _ (ex_dt 100) ex_platform (ex_boot 0) eq_refl) as (rc&s&Hs&Hpost). rewrite (ex_probe_run 0 (or_introl eq_refl)) in Hs. injection Hs as <- <-.
  destruct Hpost as [(_&H1&H2&H3&Hb&_&_&Hsy)|[? _]]; [|done]. split; [exact H1|]. split; [exact H2|]. split; [exact H3|]. split; [exact Hb|].
  rewrite Hsy. apply ex_rates.
Qed.

Lemma ex_two_ready : ready (ex_two 100 0).
Proof. apply (api_run (ex_ready 100 0) (ex_two 100 0)); [|exact ex_ready_ready]. eapply rtc_l; [exact ex_step_one|]. apply rtc_once, ex_step_two. Qed.

Lemma ex_books : books (ex_two 100 0).
Proof. apply ex_two_ready. Qed.

(** ** Applications *)

(** Two clients of low priority, with throttling on as it is by default. *)
Lemma mmrm_current_below_threshold_witness :
  let s := ex_set 1 1000000 (ex_set 0 2000000 ex_low) in
  drawn s = 83 /\ aggreg_val (peak_cur_data (sw_info s)) = drawn s /\
  (drawn s = 0 \/ mmrm_peak_threshold (ex_dt 100) = Some (threshold (peak_cur_data (sw_info s))) /\ drawn s < threshold (peak_cur_data (sw_info s))) /\
  mgr_locked s = false.
Proof.
  split; [by vm_compute|].
  apply (mmrm_current_below_threshold (ex_dt 100) (ex_boot 1) (ex_ready 100 1)); [exact ex_platform|apply ex_rates|exact (ex_probe_run 1 (or_intror eq_refl))|].
  apply (rtc_l _ _ (after (mmrm_client_register (Some (ex_desc 1 0))) (ex_ready 100 1))).
  { apply (ex_register_step (ex_desc 1 0) _ (Some (ex_client 0))); [by vm_compute|done|by vm_compute]. }
  apply (rtc_l _ _ ex_low). { apply (ex_register_step (ex_desc 2 0) _ (Some (ex_client 1))); [by vm_compute|done|by vm_compute]. }
  apply (rtc_l _ _ (ex_set 0 2000000 ex_low)); [apply (ex_set_step _ _ _ 0); [by vm_compute|lia|apply ex_word; lia|by vm_compute]|].
  apply rtc_once, (ex_set_step _ _ _ 0); [by vm_compute|lia|apply ex_word; lia|by vm_compute].
Defined.

Lemma mmrm_probe_outcomes_witness :
  dt_ok ex_uapi (ex_dt 100) /\ exists rc s', msm_mmrm_probe (ex_dt 100) (ex_boot 1) = Done (rc, s') /\ probed (ex_dt 100) ex_system rc s'.
Proof. split; [exact ex_platform|]. exact (mmrm_probe_outcomes (ex_dt 100) (ex_boot 1) ex_platform). Defined.

Lemma ex_entry : exists e, zget (clk_client_tbl (sw_info (ex_two 100 0))) 0 = Some e /\ is_err_or_null (clk e) = false /\ is_crm_client e = false.
Proof.
  assert (H : (e ← zget (clk_client_tbl (sw_info (ex_two 100 0))) 0; Some (is_err_or_null (clk e), is_crm_client e)) = Some (false, false)) by (by vm_compute).
  destruct (zget _ _) as [e|]; [|done]. exists e. cbn in H. injection H as -> ->. done.
Qed.

Lemma ex_gentle e : may_throttle e (ex_two 100 0) = false.
Proof.
  unfold may_throttle. assert (H : (0 <? msm_mmrm_enable_throttle_feature (ex_two 100 0)) = false) by (by vm_compute). rewrite H. apply andb_false_r.
Qed.

Lemma mmrm_setval_outcomes_witness :
  exists e rc s', zget (clk_client_tbl (sw_info (ex_two 100 0))) 0 = Some e /\
    mmrm_sw_clk_client_setval (Some (ex_client 0)) (Some ex_data) 2000000 (ex_two 100 0) = Done (rc, s') /\ books s' /\
    setval_result 0 e ex_data 2000000 (ex_two 100 0) rc s'.
Proof.
  destruct ex_entry as (e&He&Hclk&Hcrm). exists e.
  destruct (mmrm_setval_outcomes (ex_client 0) e ex_data 2000000 (ex_two 100 0) ex_books He Hclk (ex_gentle e) ex_data_ok (ex_word 2000000 ltac:(lia))) as (rc&s'&H); [intros H; rewrite H in Hcrm; discriminate Hcrm|]. exists rc, s'. split; [exact He|exact H].
Defined.

(** The same state with throttling. *)
Definition ex_throttling : mmrm_state := (ex_two 100 0) <| msm_mmrm_enable_throttle_feature := 1 |>.

Lemma throttling_on s : books s -> mgr_shape (s <| msm_mmrm_enable_throttle_feature := 1 |>) /\ mgr_locked (s <| msm_mmrm_enable_throttle_feature := 1 |>) = false.
Proof. intros Hb. split; [|apply Hb]. apply (shape_of s); [done|done|apply Hb]. Qed.

Lemma mmrm_setval_never_faults_witness :
  exists rc s', mmrm_sw_clk_client_setval (Some (ex_client 0)) (Some ex_data) 5000000 ex_throttling = Done (rc, s') /\ mgr_shape s' /\ mgr_locked s' = false.
Proof. destruct (throttling_on _ ex_books) as [Hs Hl]. exact (mmrm_setval_never_faults (ex_client 0) ex_data 5000000 ex_throttling Hs Hl ltac:(done) ex_data_ok). Defined.

(** A client with five votes, the second of which is the highest. *)
Definition ex_votes : mmrm_sw_clk_client_tbl_entry :=
  zero_entry <| client := Some (ex_client 0) |> <| is_crm_client := true |> <| hw_drv_instances := 2 |> <| num_pwr_states := 2 |>
    <| max_rate_idx := 1 |> <| clk_rate := 5 |> <| crm_client_tbl_size := 5 |> <| crm_client_tbl := Some [3; 5; 0; 0; 2] |>.
Definition ex_vote : mmrm_client_data := mkData 1 0 1 0 1.

Lemma mmrm_crm_rate_witness :
  exists tbl idx, crm_client_tbl ex_votes = Some tbl /\
    let votes := <[Z.to_nat (vote_index (uapi (sysm (ex_boot 0))) ex_votes ex_vote) := 1]> tbl in
    mmrm_sw_get_max_crm_rate ex_votes ex_vote 1 (ex_boot 0) = Done ((maxZ votes, idx), ex_boot 0) /\ zget votes (u32 idx) = Some (maxZ votes).
Proof.
  apply (mmrm_crm_rate_is_highest_vote ex_votes ex_vote 1 (ex_boot 0)); try done.
  - split; try done; [cbn; repeat constructor; done|]. intros _. exists [3; 5; 0; 0; 2]. by vm_compute.
  - intros _. exists [3; 5; 0; 0; 2]. split; [done|]. split; [done|]. split; [|done]. repeat constructor; cbn; lia.
Defined.

Lemma mmrm_register_outcomes_witness :
  exists r s', mmrm_sw_clk_client_register (desc (ex_desc 1 1)) 1 7 0 (ex_ready 100 0) = Done (r, s') /\
    register_result (desc (ex_desc 1 1)) 1 7 0 (ex_ready 100 0) r s'.
Proof.
  destruct ex_ready_ready as (_&_&_&Hb&Hr). apply (mmrm_register_outcomes (desc (ex_desc 1 1)) 1 7 0 (ex_ready 100 0)); [apply Hb|apply Hb|exact Hr|by vm_compute].
Defined.

(** ** Outside the contract *)

(** The client 0 asks for 5 MHz, 150 mA and more, with throttling. *)
Lemma throttling_books s : books s -> books (s <| msm_mmrm_enable_throttle_feature := 1 |>).
Proof. intros Hb. destruct (throttling_on s Hb) as [Hs Hl]. destruct Hb as [_ _ [] Hv Hbelow]. by split. Qed.

Definition ex_excess_facts (e : mmrm_sw_clk_client_tbl_entry) : bool :=
  let s := ex_throttling in let v := 5000000 in
  let sum := admitted_sum 0 e ex_data v s 0 0 4 in
  negb (is_err_or_null (clk e)) && negb (is_crm_client e) && negb (same_request e ex_data v) && may_throttle e s && (1 <=? max_num_hw_blocks e) &&
  match asked_level e v 0 s with Some l => l =? 4 | None => false end && (threshold (peak_cur_data (sw_info s)) <=? sum) && (0 <? sum) &&
  forallb (fun t => match zget (clk_client_tbl (sw_info s)) (tbl_entry_id t) with
    | Some e' => saving (aggreg_level (peak_cur_data (sw_info s))) e' <=? u32 (added e 4 v 1 s) | None => true end) (throttle_list (sw_info s)).

Lemma ex_excess_entry : exists e, zget (clk_client_tbl (sw_info ex_throttling)) 0 = Some e /\ ex_excess_facts e = true.
Proof.
  assert (H : (e ← zget (clk_client_tbl (sw_info ex_throttling)) 0; Some (ex_excess_facts e)) = Some true) by (by vm_compute).
  destruct (zget _ _) as [e|]; [|done]. exists e. cbn [mbind option_bind] in H. injection H as H. by split.
Qed.

Lemma ex_nobody_gives e :
  forallb (fun t => match zget (clk_client_tbl (sw_info ex_throttling)) (tbl_entry_id t) with
    | Some e' => saving (aggreg_level (peak_cur_data (sw_info ex_throttling))) e' <=? u32 (added e 4 5000000 1 ex_throttling) | None => true end)
    (throttle_list (sw_info ex_throttling)) = true ->
  nobody_gives (sw_info ex_throttling) (added e 4 5000000 1 ex_throttling).
Proof.
  intros H. unfold nobody_gives. apply Forall_forall. intros t Ht%list_elem_of_In e' He'. rewrite forallb_forall in H. specialize (H t Ht).
  cbv beta in H. rewrite He' in H. by apply Z.leb_le.
Qed.


(** a client that is not among those the platform lets be throttled is throttled when it is the first of the table, because the slots of clients that the
    device tree does not have point to the first entry. *)
Theorem mmrm_unlisted_client_throttled :
  let s := ex_set 1 3000000 (ex_set 0 3000000 ex_throttling) in
  forallb (fun id => negb (id =? csid (desc (ex_desc 1 1)))) (clsid_threshold_clients (clk_res s)) = true /\
  map clk_rate (clk_client_tbl (sw_info s)) = [1000000; 3000000] /\ throttled_clients (sw_info s) = [mkThrottled 0 50 2].
Proof. by vm_compute. Qed.

(** a client that leaves with its clock on leaves its current in the sum: when it comes back it is refused the rate that it had, although nobody draws
    anything. *)
Theorem mmrm_deregister_keeps_current :
  let s := after (mmrm_client_deregister (Some (ex_client 0))) (ex_set 0 2000000 (ex_two 100 0)) in
  let s := after (mmrm_client_register (Some (ex_desc 1 1))) s in
  drawn s = 0 /\ aggreg_val (peak_cur_data (sw_info s)) = 60 /\
  value (mmrm_client_set_value (Some (ex_client 0)) (Some ex_data) 2000000 s) = Some (- EINVAL).
Proof. by vm_compute. Qed.

(** when the client at the common level leaves it, the new common level is that of the last client above the request, not of the highest: here level 1 while
    a client is at level 3. *)
Theorem mmrm_level_below_a_client :
  let at_level l := zero_entry <| clk := 4096 |> <| clk_rate := 1 |> <| clk_src_id := 10 + l |> <| vdd_level := l |> in
  adjusted [at_level 4; at_level 3; at_level 1] 14 0 4 = 1.
Proof. by vm_compute. Qed.

(** A device tree without clients: the probe succeeds, and counting the clients follows a null pointer. *)
Definition ex_empty_dt : mmrm_dt := mkDt true "qcom,pineapple-mmrm" true 0 (fun _ => None) (fun _ => None) (fun _ => None) None 0 (fun _ => None).

(** with a device tree that has no clients the probe succeeds, and the exported function that counts the clients then follows a null pointer. *)
Theorem mmrm_clk_count_without_clients :
  value (msm_mmrm_probe ex_empty_dt (ex_boot 0)) = Some 0 /\ mmrm_client_get_clk_count (after (msm_mmrm_probe ex_empty_dt) (ex_boot 0)) = Fault NullDeref.
Proof. by vm_compute. Qed.
